(* ===== verification/_CoqProject ===== *)
-Q . S2P
Prelude.v
PyStr.v
Db.v
PyFloat.v
PyVal.v
Json.v
JsonText.v
Sha256.v
Hmac.v
JsonRead.v
Merkle.v
Hashing.v
CteStore.v
Gs1.v
LotIdentity.v
EpcisExtraction.v
Uom.v
EpcisNormalization.v
Rules.v
Enforcement.v
Ftl.v
Stateless.v
Relational.v
Engine.v
EngineSpec.v
Permissions.v
Remediation.v
Corrections.v
CircuitBreaker.v
RateLimit.v
Tokens.v
Delivery.v
TaskQueue.v
AuditChain.v
AdminAudit.v
AuditExport.v
Idempotency.v
TraceWalk.v
Billing.v
CanonicalEvent.v
CanonicalNormalize.v
NormalizeSpec.v
CanonicalStore.v
EpcisIngest.v
CanonicalVerify.v
CanonicalProofs.v
CanonicalBatch.v
CanonicalSpec.v
EpcisWriters.v
EpcisPersist.v
EpcisSpec.v
EpcisMemory.v
CanonicalEquiv.v
CanonicalLineage.v
CanonicalDemo.v
EpcisDemo.v
ExceptionQueue.v
RequestWorkflow.v
RequestSpec.v
RequestDemo.v
