(* ===== verification/Prelude.v ===== *)
(** * RegEngine: a verification library

    RegEngine ingests food-traceability events (FSMA 204), evaluates them against versioned rules,
    stores them in an append-only hash chain, and helps suppliers correct rejected records.  This
    library models the Python code that decides those things and proves what it promises.  Paths are
    under [src/]; [shared/] is [services/shared/], [remediation/] is
    [services/ingestion/app/remediation/].

    ** The parts and how they interact

    An event reaches [RulesEngine.evaluate_event], which loads the active rules (cached), keeps those
    that apply to its type and food category, runs one evaluator per rule, tallies the results into an
    [EvaluationSummary] and persists one row per result and one verdict per event.  The enforcement
    policy turns the summary into accept or reject.  The event store validates an event, derives its
    status, digests it, links it to the tenant's chain and inserts it with its key data elements and
    alerts; verification walks the chain and compares it with the events; a Merkle tree over the
    event digests gives inclusion proofs.  A rejected record becomes a remediation case, a state
    machine that a supplier's correction patches drive.  The canonical event store is the newer store:
    it prepares an event (digest, idempotency key, normalized payload), writes it with its link of the
    same chain, its lineage links, a legacy copy and the tenant's usage counter in one transaction,
    alone or in batches, stages a message for the graph that leaves at the commit, recomputes every
    digest from the stored columns when it verifies, and walks the lineage links to trace a lot.
    Partners send events as EPCIS documents, as webhook calls or as rows of tables; each form is
    normalised into a canonical event.  An EPCIS event is checked, passes the enforcement gate, and is
    written to the legacy store, to the canonical store and to the rule results in one transaction, or
    with the others of its batch; outside production an in-memory store may stand in.
    Failures also open cases in the exception queue, which somebody resolves or waives.  When a
    regulator asks, the request workflow collects the events in scope with their evaluations and
    cases, seals them in packages, gathers signoffs, and submits a package only when no defect blocks.
    The supplier is let in by a remediation token, a secret that is mailed as a link and exchanged
    once for a session; the notification goes through an outbox table, whose delivery revokes the old
    token, mints a new one and mails it unless the address is suppressed.  Slow work goes through the
    task queue, a table from which workers claim rows.  Two audit logs record what was done: the hash-chained log of the admin service, which
    serialises the writers of a tenant with an advisory lock and is exported with masked contacts and
    a verification report, and the HMAC-chained trail of the services.  POST requests that carry an
    idempotency key pass a middleware that reserves the key in Redis, runs the route and replays its
    answer.  Permissions, the circuit
    breaker and the brute-force limiter guard the services around this.

    ** Files

    Python itself: this file (the result monad [res], exceptions, tactics, list lemmas), [PyStr]
    (strings), [PyFloat] (binary64 numbers, reading and printing), [PyVal] (dynamically typed values,
    dictionaries, the library interface [PyLib]), [Json] ([json.dumps]), [JsonText] (serialised text
    determines the value), [JsonRead] ([json.loads], and that it reads back what was written),
    [Sha256] and [Hmac] (executable, checked on the standards' test vectors), [Db] (the session of a
    request with its commit and rollback, tables as lists of rows, [WHERE] and [ORDER BY]).

    The event store: [Merkle] (shared/merkle_tree.py), [Hashing] (shared/cte_persistence/hashing.py and
    the digest of canonical_event.py), [CteStore] (core.py, writes.py, verification.py of
    shared/cte_persistence/; the four tables are the record [store]).

    The canonical store (shared/canonical_event.py and shared/canonical_persistence/):
    [CanonicalEvent] (the event and its preparation), [CanonicalNormalize] (the three normalisers of
    canonical_event.py) with [NormalizeSpec] (what they keep), [Billing] (usage.py of
    services/ingestion/app/stripe_billing/), [TraceWalk] (the traces of writer.py), [CanonicalStore]
    (writer.py, legacy_dual_write.py; the tables are the record [cdb]), [CanonicalVerify]
    (verification.py), [CanonicalProofs] (the invariant and the outcome of one event),
    [CanonicalBatch] (the outcome of a batch), [CanonicalSpec] (the store over its life),
    [CanonicalEquiv] (a batch against single calls), [CanonicalLineage] (from a stored event to its
    trace) and [CanonicalDemo] (an example on which the theorems are instantiated).

    EPCIS events (services/ingestion/app/epcis/): [LotIdentity] (shared/epcis_lot_identity.py),
    [EpcisExtraction] (extraction.py), [EpcisNormalization] (normalization.py and validation.py),
    [EpcisIngest] (the checks of persistence.py), [EpcisPersist] (the rest of persistence.py, the batch
    of router.py and shared/rules/rejection_audit.py; what outlives a request is the record [service], a
    transaction the record [work]), [EpcisSpec] (stores, gate and batch), [EpcisMemory] (the in-memory
    store), [EpcisWriters] (the legacy and the canonical reading of one event) and [EpcisDemo]
    (instances, and runs on which the readings differ).

    The rules: [Rules] (types.py, verdict.py, utils.py of shared/rules/), [Enforcement]
    (enforcement.py), [Uom] (uom.py), [Ftl] (ftl.py), [Gs1] (shared/fsma_validation.py), [Stateless] and
    [Relational] (the evaluators), [Engine] (engine.py; the database is the record [edb], an engine its
    rule cache) and [EngineSpec] (theorems across these components).

    Requests of a regulator: [ExceptionQueue] (shared/exception_queue.py; the tables are the record
    [queue]), [RequestWorkflow] (shared/request_workflow/; what it writes is the record [desk], what it
    reads the record [sources]), [RequestSpec] (the gate, the life of a desk, the hash, and the way from
    a failed rule to the gate) and [RequestDemo] (instances, and runs that depart from the docstrings).

    Around them: [Permissions] (shared/permissions.py), [Remediation] (remediation/state.py and
    audit_utils.py), [Corrections] (remediation/corrections.py), [CircuitBreaker]
    (shared/circuit_breaker.py over the class of circuit_breaker_store.py, with the in-memory store as
    instance), [RateLimit] (the limiter of shared/rate_limit.py over a class of Redis clients),
    [Idempotency] (shared/idempotency.py, with the key lookup of api_key_store.py and
    internal_caller.py), [Tokens] (remediation/tokens.py and the SECURITY DEFINER functions that it
    calls), [Delivery] (remediation/outbox.py and delivery.py, over the tables of [Tokens]), [TaskQueue]
    (shared/task_queue.py).

    The audit logs: [AdminAudit] (audit.py and audit_integrity.py of services/admin/app/),
    [AuditExport] (audit_routes.py there, over [AdminAudit]) and [AuditChain] (shared/audit_logging/).

    A definition has the name of the Python function or class it models; helpers that stand for a
    branch or a query of a larger function are named after what they do.

    ** What is proved

    - Chain and store: a store built by [store_event] always verifies; what a valid verdict means
      exactly; the chain head commits to the history; sending an event again at any later time is harmless; tenants
      do not interfere; the causes of an error are listed.
    - Canonical store: whatever writers and permitted updates did, verification answers and raises no
      false alarm as long as the columns give back what was hashed; two verified stores with one head
      hold one content, where the canonical row carries the digest of its chain entry; a batch is its events one by
      one, in tables and answers; a sent event stays, and sending it again changes nothing; the graph
      queue holds committed events only; declared input lots are traced; the trace walk ends and lists
      exactly the links within its depth, and a trace without a flag is complete; usage is the number
      of counted events per billing period.
    - EPCIS and normalisation: an event of a known shape lands in both stores or in neither,
      whatever fails; the database path does not pass over the enforcement gate and rejections outlive
      the rollback; a batch lands whole or
      not at all; what is stored was sent, type, lot, quantity, unit and moment; the two readers of one
      event agree, up to what the remarks list; a table row is normalised exactly when it is complete;
      a full lot identity reads back; the checks refuse and do not crash; the in-memory store keeps its
      bound, its tenants apart and what it has answered.
    - Exceptions and requests: each failure is linked in the open case of its category, whose severity
      is the highest; a case is closed once and its one signoff says how; the gate passes a
      settled case and blocks each of the listed defects, and a submission that is not forced does not
      pass it; a critical failure blocks
      until its case is signed; packages are versioned without gaps, only appended, and carry the hash of
      what they store; the hash determines the snapshot.
    - Idempotent requests: an operation runs at most once per key however requests interleave, crash
      or lose replies; a replay is the original answer; the fingerprint tells requests apart; nothing
      is cached without an authority for the tenant.
    - Merkle tree: generated proofs verify, verified proofs prove membership, the root commits to
      lists of one length, the store's proofs are right.
    - Engine: every applicable rule is accounted for, the compliance stamp is characterised when some rule
      was evaluated, one rule
      is evaluated fail-closed, evaluation returns whatever crashes or is refused, persistence loses
      no row, chunks do not matter, the prefetch of related events does not change a result, other
      tenants' events do not either, the enforcement modes are ordered, and readers of the persisted
      rows reach no better verdict than the engine.
    - Rules and identifiers: the evaluators' verdicts in terms of the event, temperatures, mass
      balance, check digits, validators and normalisation.
    - Services: no escalation by invitations, safe and single-winner case transitions, the current
      record as the original with its last patches, verified patch chains, the breaker's opening,
      refusal and recovery, and a limiter that forgets nothing that matters and never falls back when
      it must not.
    - Tokens and delivery: the token table keeps its uniqueness and typing under every request; a
      token is exchanged at most once however requests interleave; a session resolves exactly while it
      lives and no longer than its bound; a suppressed address is never mailed; a mailed link carries
      the one live token; draining the outbox ends.
    - Task queue: a claim takes the first due task in the order of the index; what a turn does to the
      row in every branch; attempts never pass the maximum; one worker drains the queue, the tasks of a lost worker included.
    - Audit logs: concurrent writers never fork a tenant's log; the last hash pins every earlier row;
      a lost or changed row is reported; the verifier's counts add up; an export commits its own log
      row or shows nothing, shows no contact to callers without the permission, and verifies when it is
      complete; both verifiers of the services' trail report exactly the broken entries.

    Lemmas marked as such in the files also record where the code differs from its documentation:
    [rejected_resend_reports_success], [verify_chain_count_blind], [merkle_padding_ambiguous],
    [merkle_proof_extension], [canonical_digest_boundary], [numeric_range_nan_passes],
    [batch_stamps_non_ftl], [all_skipped_is_compliant], [can_invite_bare_text_escalation],
    [half_open_admits_all], [denial_not_recorded], [stale_snapshot_drops_notification],
    [backlog_of_one_tenant_first], [claim_race], [late_outcome_overwrites],
    [unarmed_release_strands], [unhashed_fields_free], [failed_write_breaks_trail],
    [restart_breaks_trail], [rehydrated_role_fails], [non_ascii_hash_raises],
    [zero_confidence_reads_as_one], [large_number_false_alarm], [twin_rewritten_unnoticed], [step_names_differ], [lot_elements_differ], [class_lots_differ],
    [second_legacy_row], [null_extension_unavailable], [unread_time_crashes], [advisory_rows_differ],
    [stand_in_is_lax], [growing_refused], [unsubmitted_case_amended], [signoff_reopens_submitted],
    [resignoff_not_stored], [exception_state_blank], [errored_rule_not_blocking],
    [other_case_excuses_failure], [stale_after_evaluating_anew], [identity_fault_not_survived].

    ** Modelling choices

    - Strings are sequences of 8-bit characters, the first 256 code points; UTF-8 encoding is exact on
      them.  Case mapping and digit classes are Python's on that range.
    - Floats are the Standard Library's executable binary64.  SHA-256 and HMAC are executable; binding
      theorems assume that they do not collide on the finitely many inputs that they list
      ([no_collision], [no_mac_collision]).
    - Library code that is only called is a class: [PyLib] (regular expressions, [str.format],
      [datetime] text), [Runtime] (parameter binding, UUID casts, set order), [JsonLib] (parsing JSON
      columns), [PatchColumns] (JSON columns and time zones), [RedisLike], [ExportEnv] (the regular
      expressions and JSON parser of the export), [Postgres] (what a JSONB column gives back, UUID
      texts, the connection's time zone; used by the two event stores), [UrlLib] (decoding of UTF-8),
      [FsmaGate] (the FSMAEvent schema), [EventModel] (the constructor of the canonical event: that it
      checks the fields and keeps them, dateutil and UUID texts).  Theorems hold for every instance; where documented behaviour is needed it is a named law or premise, and a witness instantiates it.
    - A transaction is a function on tables; a savepoint that rolls back is a branch that keeps the old
      tables; which statements the database refuses is an oracle, so every failure branch is covered.
      UUIDs and clock readings are arguments.  Text columns compare by code point (C collation); JSON
      columns of rules hold objects.  Logging and metrics are left out, except the counters that the
      enforcement policy keeps.
    - The chain lock makes the writes of one tenant sequential, so the store is modelled without
      interleaving; interleaving is explicit where the code relies on optimistic concurrency
      ([Remediation.transition_stale], the exchange of a token), on a shared server
      ([RateLimit.cluster_step]), on row locks (the two phases of a claim of [TaskQueue], under READ
      COMMITTED), on an advisory lock that the property is about ([AdminAudit.chain_step]) or on Redis
      ([Idempotency], where a request is a program that waits for replies and may stop anywhere).  In
      the canonical store what other sessions commit between lookup and insert is the argument
      [we_race]; its theorems are for callers that hold the lock.
    - The two event stores write JSONB columns through [Postgres], which may refuse a value, and the
      canonical store reads them and the time zone of the session back through it; its theorems about
      what verifies speak of events whose columns keep what is hashed ([storable]), and those about a
      deployment, where the legacy store writes the same chain, of a database that reads a written
      value back ([ExactJsonb], [deployed_step]).  Elsewhere a JSONB column gives back the value that was
      written, among them the metadata of the admin audit log, and timestamps with time zone are read
      in a session whose zone is UTC.
    - The CHECK constraints of the columns of [fsma.cte_events] are part of [insert_event]; any other
      reason for which the database refuses the row is the argument [env_refuses_event].
    - A transaction of [EpcisPersist] takes from outside whether there is a session, an exception that
      every statement raises when the database is down, the exception of the commit, and whether the
      audit of rejections can be stored; the memory of the enforcement module and the recorded
      rejections are not rolled back.
    - A method of [RequestWorkflow] is one transaction and an amendment three; the exception of a commit
      is an argument.  The active events come with their time of change and the evaluations with their
      time; whether the identity tables can be queried is a flag, and a failed query leaves a
      transaction in which every later statement is refused.
    - Redis keys live until their expiry, which is a step of its own.

    Fuel: [Merkle._build] takes the number of leaves, and each round halves the layer;
    [Engine.batch_chunks] takes the number of results, and each round consumes at least one; the
    functions of [PyFloat] take bounds on the digits of a double; [json_loads] takes the length of the
    text and each value consumes some; [walk_fuel] is one more than the number of links, each of which
    queues at most one lot; [CanonicalStore.chunks] takes the length of the list.
    [merkle_build_shape], [batch_persist_exact], [json_loads_fuel], [trace_walk_exact] and
    [chunks_concat] show that it is enough.

    ** Not modelled

    The EPCIS XML parser, the reading and export of stored EPCIS events, their receipts and routes,
    the audit entry that a failed schema check sends in the background, the queries of the event
    stores, the batch writer of the legacy store, the rest of the remediation service (case creation
    and evidence) and identity resolution are candidates for extension.  The dashboard queries and the
    deadline sweep of the request workflow only read, and two of its calls at once are not interleaved.
    HTTP routes, the rest of the admin service, the graph, NLP, scheduler and compliance
    services, file formats, exports, the agents, the frontend, migrations and scripts are glue
    around frameworks, queries and external services. *)

From Stdlib Require Import ZArith Lia String Ascii.
From stdpp Require Import base list strings gmap.

(** stdpp blocks the reduction of string concatenation; proofs here compute with it. *)
#[global] Arguments String.append : simpl nomatch.

(** ** Exceptions and the result monad

    Python code either returns or raises.  [res A] is the outcome of a call; an exception carries
    the name of its class and its message, because the code formats both into audit text. *)

Record exn := Exn { exn_type : string; exn_msg : string }.

Inductive res (A : Type) : Type :=
| Ok (a : A)
| Raise (e : exn).
Arguments Ok {A} a.
Arguments Raise {A} e.

Definition rbind {A B} (c : res A) (k : A -> res B) : res B :=
  match c with
  | Ok a => k a
  | Raise e => Raise e
  end.

(** [try c except Exception as e: h e]. *)
Definition rcatch {A} (c : res A) (h : exn -> res A) : res A :=
  match c with
  | Ok a => Ok a
  | Raise e => h e
  end.

Definition rmap {A B} (f : A -> B) (c : res A) : res B := rbind c (fun a => Ok (f a)).

Declare Scope res_scope.
Delimit Scope res_scope with res.
Notation "'do' x <- c ; k" := (rbind c (fun x => k))
  (at level 10, x name, c at level 100, k at level 200) : res_scope.
Notation "'do' ' p <- c ; k" := (rbind c (fun p => k))
  (at level 10, p pattern, c at level 100, k at level 200) : res_scope.
Open Scope res_scope.

Fixpoint rmapM {A B} (f : A -> res B) (l : list A) : res (list B) :=
  match l with
  | [] => Ok []
  | x :: xs => do y <- f x; do ys <- rmapM f xs; Ok (y :: ys)
  end.

Definition is_ok {A} (c : res A) : bool :=
  match c with Ok _ => true | Raise _ => false end.

Definition ValueError (m : string) : exn := Exn "ValueError" m.
Definition TypeError (m : string) : exn := Exn "TypeError" m.
Definition KeyError (m : string) : exn := Exn "KeyError" m.
Definition IndexError (m : string) : exn := Exn "IndexError" m.
Definition AttributeError (m : string) : exn := Exn "AttributeError" m.
Definition OverflowError (m : string) : exn := Exn "OverflowError" m.

#[export] Instance exn_eq_dec : EqDecision exn.
Proof. solve_decision. Defined.
#[export] Instance res_eq_dec {A} `{EqDecision A} : EqDecision (res A).
Proof. solve_decision. Defined.

(** ** Tactics and hint databases *)

Create HintDb reg.
Create Rewrite HintDb regrw.

(** Case split on the scrutinee of a [match] or [if] of the goal, or of a hypothesis. *)
Ltac split_match :=
  match goal with
  | |- context [match ?x with _ => _ end] => destruct x eqn:?
  end.
Ltac split_match_in H :=
  match type of H with
  | context [match ?x with _ => _ end] => destruct x eqn:?
  end.

(** Turn boolean tests in the context into propositions. *)
Ltac reflect_bools :=
  repeat match goal with
  | H : (_ && _)%bool = true |- _ => apply andb_true_iff in H; destruct H
  | H : (_ || _)%bool = false |- _ => apply orb_false_iff in H; destruct H
  | H : negb _ = true |- _ => apply negb_true_iff in H
  | H : negb _ = false |- _ => apply negb_false_iff in H
  | H : String.eqb _ _ = true |- _ => apply String.eqb_eq in H
  | H : String.eqb _ _ = false |- _ => apply String.eqb_neq in H
  | H : Z.eqb _ _ = true |- _ => apply Z.eqb_eq in H
  | H : Z.eqb _ _ = false |- _ => apply Z.eqb_neq in H
  | H : Z.ltb _ _ = true |- _ => apply Z.ltb_lt in H
  | H : Z.ltb _ _ = false |- _ => apply Z.ltb_ge in H
  | H : Z.leb _ _ = true |- _ => apply Z.leb_le in H
  | H : Z.leb _ _ = false |- _ => apply Z.leb_gt in H
  | H : Nat.eqb _ _ = true |- _ => apply Nat.eqb_eq in H
  | H : Nat.eqb _ _ = false |- _ => apply Nat.eqb_neq in H
  | H : Nat.ltb _ _ = true |- _ => apply Nat.ltb_lt in H
  | H : Nat.ltb _ _ = false |- _ => apply Nat.ltb_ge in H
  | H : Nat.leb _ _ = true |- _ => apply Nat.leb_le in H
  | H : Nat.leb _ _ = false |- _ => apply Nat.leb_gt in H
  end.

(** ** The result monad *)

Lemma rbind_Ok_inv {A B} (c : res A) (k : A -> res B) b :
  rbind c k = Ok b -> exists a, c = Ok a /\ k a = Ok b.
Proof. destruct c; simpl; [eauto | discriminate]. Qed.

Lemma rbind_Ok {A B} (c : res A) (k : A -> res B) a b :
  c = Ok a -> k a = Ok b -> rbind c k = Ok b.
Proof. intros -> H. exact H. Qed.

Lemma rcatch_total {A} (c : res A) (h : exn -> A) :
  exists a, rcatch c (fun e => Ok (h e)) = Ok a.
Proof. destruct c; simpl; eauto. Qed.

(** Invert every [rbind c k = Ok b] of the context. *)
Ltac inv_res :=
  repeat match goal with
  | H : rbind _ _ = Ok _ |- _ =>
      apply rbind_Ok_inv in H; destruct H as (? & ? & ?)
  | H : Ok _ = Ok _ |- _ => injection H as H
  | H : Raise _ = Ok _ |- _ => discriminate H
  | H : Ok _ = Raise _ |- _ => discriminate H
  end.

Lemma rmapM_Ok_pure {A B} (f : A -> B) (l : list A) :
  rmapM (fun x => Ok (f x)) l = Ok (f <$> l).
Proof. induction l as [|x l IH]; simpl; [done | by rewrite IH]. Qed.

Lemma rmapM_length {A B} (f : A -> res B) l l' :
  rmapM f l = Ok l' -> length l' = length l.
Proof.
  revert l'. induction l as [|x l IH]; simpl; intros l' H; inv_res; subst; simpl; auto.
Qed.

Lemma rmapM_Forall2 {A B} (f : A -> res B) l l' :
  rmapM f l = Ok l' -> Forall2 (fun x y => f x = Ok y) l l'.
Proof.
  revert l'. induction l as [|x l IH]; simpl; intros l' H; inv_res; subst; constructor; auto.
Qed.

#[export] Hint Resolve rbind_Ok rmapM_Ok_pure : reg.

(** ** Lists *)

Lemma existsb_In_eqb (x : string) (l : list string) :
  existsb (String.eqb x) l = true <-> In x l.
Proof.
  rewrite existsb_exists. split.
  - intros (y & Hin & Heq). apply String.eqb_eq in Heq. by subst.
  - intros Hin. exists x. split; [done | apply String.eqb_refl].
Qed.

(** Injectivity of [cons] that leaves the heads folded. *)
Lemma Ok_inv {A} (x y : A) : Ok x = Ok y -> x = y.
Proof. intros E. by injection E. Qed.

Lemma cons_eq_inv {A} (x y : A) l k : x :: l = y :: k -> x = y /\ l = k.
Proof. intros H. by injection H. Qed.

Lemma NoDup_snoc {A} (x : A) l : NoDup l -> x ∉ l -> NoDup (l ++ [x])%list.
Proof. intros Hl Hx. apply NoDup_app. split; [done|]. split; [|apply NoDup_singleton]. intros y Hy ->%list_elem_of_singleton. done. Qed.

(** Well-founded induction on the length of a list. *)
Lemma list_len_ind {A} (P : list A -> Prop) :
  (forall l, (forall l', (length l' < length l)%nat -> P l') -> P l) -> forall l, P l.
Proof.
  intros H l. remember (length l) as n eqn:E. revert l E.
  induction n as [n IH] using lt_wf_ind. intros l ->. apply H. eauto.
Qed.
