(* ===== verification/PyStr.v ===== *)
(** * Python strings

    The [str] operations the modelled code calls.  A string is a sequence of 8-bit characters and
    the character classes ([isspace], [lower], [isdigit], ...) are those of the code points
    U+0000..U+00FF.  Literals with characters outside that range occur only inside messages, where
    nothing inspects them; they are kept as their UTF-8 bytes. *)

From Stdlib Require Import ZArith Lia String Ascii DecimalString.
From Stdlib Require DecimalPos DecimalZ.
From stdpp Require Import base list strings.
From S2P Require Import Prelude.

Local Open Scope string_scope.

Definition code (c : ascii) : nat := nat_of_ascii c.
Definition char (n : nat) : ascii := ascii_of_nat n.

Definition in_range (lo hi : nat) (c : ascii) : bool := (lo <=? code c)%nat && (code c <=? hi)%nat.

(** [str.isspace] on one character. *)
Definition is_space (c : ascii) : bool :=
  in_range 9 13 c || in_range 28 32 c || (code c =? 133)%nat || (code c =? 160)%nat.

(** The regular-expression class [\d] (Unicode category Nd). *)
Definition is_decimal (c : ascii) : bool := in_range 48 57 c.

(** [str.isdigit] on one character: decimal digits and the superscripts two, three and one. *)
Definition is_digit (c : ascii) : bool :=
  is_decimal c || (code c =? 178)%nat || (code c =? 179)%nat || (code c =? 185)%nat.

Definition lower_char (c : ascii) : ascii :=
  if in_range 65 90 c then char (code c + 32)
  else if in_range 192 222 c && negb (code c =? 215)%nat then char (code c + 32)
  else c.

(** [str.upper] on one character; sharp s becomes two letters.  U+00B5 and U+00FF, whose capitals
    lie outside the range, are left alone. *)
Definition upper_char (c : ascii) : string :=
  if in_range 97 122 c then String (char (code c - 32)) ""
  else if in_range 224 254 c && negb (code c =? 247)%nat then String (char (code c - 32)) ""
  else if (code c =? 223)%nat then "SS"
  else String c "".

Fixpoint str_map (f : ascii -> ascii) (s : string) : string :=
  match s with
  | "" => ""
  | String c s' => String (f c) (str_map f s')
  end.

Fixpoint str_flat_map (f : ascii -> string) (s : string) : string :=
  match s with
  | "" => ""
  | String c s' => String.append (f c) (str_flat_map f s')
  end.

Fixpoint str_filter (p : ascii -> bool) (s : string) : string :=
  match s with
  | "" => ""
  | String c s' => if p c then String c (str_filter p s') else str_filter p s'
  end.

Fixpoint str_forallb (p : ascii -> bool) (s : string) : bool :=
  match s with
  | "" => true
  | String c s' => p c && str_forallb p s'
  end.

Definition lower (s : string) : string := str_map lower_char s.
Definition upper (s : string) : string := str_flat_map upper_char s.

(** [s.replace(c, t)] for a one-character [c]. *)
Definition replace_char (c : ascii) (t : string) (s : string) : string :=
  str_flat_map (fun d => if Ascii.eqb d c then t else String d "") s.

(** [lstrip] and [rstrip] of the characters satisfying [p]. *)
Fixpoint lstrip (p : ascii -> bool) (s : string) : string :=
  match s with
  | "" => ""
  | String c s' => if p c then lstrip p s' else s
  end.

Fixpoint rstrip (p : ascii -> bool) (s : string) : string :=
  match s with
  | "" => ""
  | String c s' =>
      match rstrip p s' with
      | "" => if p c then "" else String c ""
      | r => String c r
      end
  end.

(** [s.strip()]. *)
Definition strip (s : string) : string := rstrip is_space (lstrip is_space s).

(** [s.isdigit()]: non-empty and all digits. *)
Definition str_isdigit (s : string) : bool :=
  negb (String.eqb s "") && str_forallb is_digit s.

Definition slen (s : string) : nat := String.length s.

(** [s[:n]]. *)
Fixpoint str_take (n : nat) (s : string) : string :=
  match n, s with
  | S n', String c s' => String c (str_take n' s')
  | _, _ => ""
  end.

(** [s[n:]]. *)
Fixpoint str_drop (n : nat) (s : string) : string :=
  match n, s with
  | S n', String _ s' => str_drop n' s'
  | O, _ => s
  | _, "" => ""
  end.

Definition startswith (s p : string) : bool := String.prefix p s.

Definition endswith (s p : string) : bool :=
  (slen p <=? slen s)%nat && String.eqb (str_drop (slen s - slen p) s) p.

(** [p in s]. *)
Fixpoint contains (p s : string) : bool :=
  String.prefix p s ||
  match s with
  | "" => false
  | String _ s' => contains p s'
  end.

(** [s.split(c)] for a one-character separator: never empty. *)
Fixpoint split_on (c : ascii) (s : string) : list string :=
  match s with
  | "" => [""]
  | String d s' =>
      if Ascii.eqb d c then "" :: split_on c s'
      else match split_on c s' with
           | w :: ws => String d w :: ws
           | [] => [String d ""]
           end
  end.

(** [s.split()]: the maximal runs of non-space characters. *)
Fixpoint split_ws_aux (s : string) (cur : string) : list string :=
  match s with
  | "" => if String.eqb cur "" then [] else [cur]
  | String c s' =>
      if is_space c
      then (if String.eqb cur "" then split_ws_aux s' ""
            else cur :: split_ws_aux s' "")
      else split_ws_aux s' (String.append cur (String c ""))
  end.
Definition split_ws (s : string) : list string := split_ws_aux s "".

Fixpoint str_join (sep : string) (l : list string) : string :=
  match l with
  | [] => ""
  | [x] => x
  | x :: xs => String.append x (String.append sep (str_join sep xs))
  end.

Fixpoint str_rep (n : nat) (c : ascii) : string :=
  match n with O => "" | S n' => String c (str_rep n' c) end.

(** [s.zfill(w)]: zeros go after a leading sign. *)
Definition zfill (w : nat) (s : string) : string :=
  match s with
  | String c s' =>
      if Ascii.eqb c "+" || Ascii.eqb c "-"
      then String c (String.append (str_rep (w - slen s) "0") s')
      else String.append (str_rep (w - slen s) "0") s
  | "" => str_rep w "0"
  end.

(** [str(n)] for an integer. *)
Definition str_of_Z (z : Z) : string := NilZero.string_of_int (Z.to_int z).

(** [o or None]: the text, unless it is missing or empty. *)
Definition nonempty (o : option string) : option string :=
  match o with Some s => if String.eqb s "" then None else Some s | None => None end.

(** [s or d]. *)
Definition str_or (s d : string) : string := if String.eqb s "" then d else s.
Definition ostr_or (o : option string) (d : string) : string :=
  match o with Some s => str_or s d | None => d end.

(** ** Facts *)

Lemma nonempty_Some o s : nonempty o = Some s -> o = Some s /\ s <> "".
Proof. destruct o as [t|]; [|done]. cbn. destruct (String.eqb_spec t ""); [done|]. by intros [= <-]. Qed.

Lemma str_append_nil_r s : String.append s "" = s.
Proof. induction s as [|c s IH]; [done|]. cbn. by rewrite IH. Qed.

Lemma str_append_assoc a b c :
  String.append (String.append a b) c = String.append a (String.append b c).
Proof. induction a as [|x a IH]; [done|]. cbn. by rewrite IH. Qed.

Lemma str_append_cons c s t : String.append (String c s) t = String c (String.append s t).
Proof. done. Qed.

Lemma slen_append a b : slen (String.append a b) = (slen a + slen b)%nat.
Proof. unfold slen. induction a as [|x a IH]; [done|]. cbn. by rewrite IH. Qed.

Lemma str_append_inj_l a b c : String.append a b = String.append a c -> b = c.
Proof. induction a as [|x a IH]; [done|]. cbn. intros H. injection H. exact IH. Qed.

(** Appended strings whose left parts have the same length agree part by part. *)
Lemma str_append_inj_len a a' b b' :
  slen a = slen a' -> String.append a b = String.append a' b' -> a = a' /\ b = b'.
Proof.
  revert a'. induction a as [|x a IH]; intros [|x' a'] Hl H; try discriminate Hl; [done|].
  cbn in H. injection H as -> H. destruct (IH a') as [-> ->]; auto.
Qed.

Lemma str_map_map f g s : str_map f (str_map g s) = str_map (fun c => f (g c)) s.
Proof. induction s as [|c s IH]; [done|]. cbn. by rewrite IH. Qed.

Lemma str_map_ext f g s : (forall c, f c = g c) -> str_map f s = str_map g s.
Proof. intros H. induction s as [|c s IH]; [done|]. cbn. by rewrite H, IH. Qed.

Lemma lower_char_idem c : lower_char (lower_char c) = lower_char c.
Proof. destruct c as [[] [] [] [] [] [] [] []]; reflexivity. Qed.

Lemma lower_char_space c : is_space (lower_char c) = is_space c.
Proof. destruct c as [[] [] [] [] [] [] [] []]; reflexivity. Qed.

Lemma lower_idem s : lower (lower s) = lower s.
Proof. unfold lower. rewrite str_map_map. apply str_map_ext, lower_char_idem. Qed.

Lemma lstrip_head p s :
  match lstrip p s with "" => True | String c _ => p c = false end.
Proof. induction s as [|c s IH]; cbn; [done|]. destruct (p c) eqn:E; auto. Qed.

Lemma lstrip_fix p s :
  match s with "" => True | String c _ => p c = false end -> lstrip p s = s.
Proof. destruct s as [|c s]; cbn; [done | by intros ->]. Qed.

Lemma rstrip_head p s :
  match s with "" => True | String c _ => p c = false end ->
  match rstrip p s with "" => True | String c _ => p c = false end.
Proof.
  destruct s as [|c s]; cbn; [done|]. intros H. destruct (rstrip p s); [by rewrite H | done].
Qed.

Lemma rstrip_idem p s : rstrip p (rstrip p s) = rstrip p s.
Proof.
  induction s as [|c s IH]; [done|]. cbn. destruct (rstrip p s) as [|d r] eqn:E.
  - destruct (p c) eqn:Ec; cbn; [done | by rewrite Ec].
  - cbn [rstrip] in *. by rewrite IH.
Qed.

Lemma strip_idem s : strip (strip s) = strip s.
Proof.
  unfold strip. rewrite (lstrip_fix _ (rstrip _ _)).
  - apply rstrip_idem.
  - apply rstrip_head, lstrip_head.
Qed.

Section StripMap.
Context (p : ascii -> bool) (f : ascii -> ascii) (Hf : forall c, p (f c) = p c).

Lemma lstrip_map s : lstrip p (str_map f s) = str_map f (lstrip p s).
Proof. induction s as [|c s IH]; cbn; [done|]. rewrite Hf. by destruct (p c). Qed.

Lemma rstrip_map s : rstrip p (str_map f s) = str_map f (rstrip p s).
Proof.
  induction s as [|c s IH]; cbn; [done|]. rewrite IH, Hf.
  destruct (rstrip p s); cbn; [by destruct (p c) | done].
Qed.
End StripMap.

Lemma strip_lower s : strip (lower s) = lower (strip s).
Proof.
  unfold strip, lower. by rewrite lstrip_map, rstrip_map by apply lower_char_space.
Qed.

Lemma ostr_or_ne s d : s <> "" -> ostr_or (Some s) d = s.
Proof. intros H. cbn. unfold str_or. by destruct (String.eqb_spec s ""). Qed.

Lemma split_on_ne c s : split_on c s <> [].
Proof. destruct s as [|d s]; cbn; [done|]. destruct (Ascii.eqb d c); [done|]. by destruct (split_on c s). Qed.

(** Joining the pieces of a split gives the string back. *)
Lemma split_on_join c s : str_join (String c "") (split_on c s) = s.
Proof.
  induction s as [|d s IH]; [done|]. cbn. destruct (Ascii.eqb_spec d c) as [->|Hne].
  - destruct (split_on c s) as [|w ws] eqn:E; [by apply split_on_ne in E|].
    cbn [str_join]. cbn. f_equal. exact IH.
  - destruct (split_on c s) as [|w ws] eqn:E; [by apply split_on_ne in E|].
    destruct ws as [|w' ws]; cbn in *; by rewrite IH.
Qed.

Lemma slen_str_rep n c : slen (str_rep n c) = n.
Proof. unfold slen. induction n as [|n IH]; [done|]. cbn. by rewrite IH. Qed.

Lemma str_forallb_filter p s : str_forallb p (str_filter p s) = true.
Proof. induction s as [|c s IH]; [done|]. cbn. destruct (p c) eqn:E; cbn; [by rewrite E | done]. Qed.

Lemma str_filter_id p s : str_forallb p s = true -> str_filter p s = s.
Proof.
  induction s as [|c s IH]; [done|]. cbn. intros H. reflect_bools.
  rewrite H. by rewrite IH.
Qed.

Lemma str_forallb_append p a b :
  str_forallb p (String.append a b) = str_forallb p a && str_forallb p b.
Proof. induction a as [|c a IH]; [done|]. cbn. by rewrite IH, andb_assoc. Qed.

#[export] Hint Rewrite str_append_nil_r str_append_assoc slen_append : regrw.

Lemma startswith_iff s p : startswith s p = true <-> exists t, s = String.append p t.
Proof.
  unfold startswith. revert s. induction p as [|c p IH]; intros s.
  - split; [intros _; by exists s | by destruct s].
  - destruct s as [|d s]; [by split; [|intros [t [=]]]|].
    change (String.prefix (String c p) (String d s)) with (if ascii_dec c d then String.prefix p s else false).
    destruct (ascii_dec c d) as [->|Hne].
    + rewrite IH. split; intros [t E]; exists t; [by rewrite E | by injection E].
    + split; [done|]. intros [t E]. by injection E as -> _.
Qed.

Lemma str_take_drop n s : String.append (str_take n s) (str_drop n s) = s.
Proof. revert n. induction s as [|c s IH]; intros [|n]; cbn; [done..|]. by rewrite IH. Qed.

Lemma slen_take n s : (n <= slen s)%nat -> slen (str_take n s) = n.
Proof.
  unfold slen. revert n. induction s as [|c s IH]; intros [|n]; cbn; intros H; [done|lia|done|].
  f_equal. apply IH. lia.
Qed.

Lemma endswith_inv s p :
  endswith s p = true -> s = String.append (str_take (slen s - slen p) s) p /\ (slen p <= slen s)%nat.
Proof.
  unfold endswith. intros H. reflect_bools. split; [|done].
  rewrite <- (str_take_drop (slen s - slen p) s) at 1. by rewrite H0.
Qed.

Lemma str_append_split a b c d :
  String.append a b = String.append c d -> (slen a <= slen c)%nat -> exists e, c = String.append a e.
Proof.
  revert c. induction a as [|x a IH]; intros c E Hl; [by exists c|].
  destruct c as [|y c]; [cbn in Hl; lia|]. cbn in E. injection E as -> E.
  destruct (IH c E) as [e ->]; [unfold slen in *; cbn in Hl; lia|]. by exists e.
Qed.

(** The text of an integer determines it. *)
Lemma str_of_Z_read z : NilZero.int_of_string (str_of_Z z) = Some (Z.to_int z).
Proof.
  apply NilZero.isi; pose proof DecimalPos.Unsigned.to_uint_nonnil as Hu; destruct z as [|p|p]; cbn; try done; intros [= E]; by apply (Hu p).
Qed.
Lemma str_of_Z_inj a b : str_of_Z a = str_of_Z b -> a = b.
Proof.
  intros E. apply (f_equal NilZero.int_of_string) in E. rewrite !str_of_Z_read in E.
  injection E as E. apply (f_equal Z.of_int) in E. by rewrite !DecimalZ.of_to in E.
Qed.
Lemma str_of_Z_not_null z : str_of_Z z <> "null"%string.
Proof. intros E. apply (f_equal NilZero.int_of_string) in E. by rewrite str_of_Z_read in E. Qed.
