(* ===== verification/Db.v ===== *)
(** * Database sessions and tables

    What the database-backed components share.  A handler is a state transformer that returns or
    raises, [dbm]; a request of [services/shared/database.py] commits a handler that returns and rolls
    back one that raises.  A table is the list of its rows in insertion order; [UPDATE ... WHERE],
    [SELECT ... ORDER BY ... LIMIT] and their row counts are functions on it.  A clock reading is an
    integer of microseconds. *)

From Stdlib Require Import ZArith Lia String Ascii Sorting.Sorted.
From stdpp Require Import base list strings.
From S2P Require Import Prelude PyStr.

Local Open Scope string_scope.

(** ** Handlers *)

Definition dbm (Σ A : Type) : Type := Σ -> Σ * res A.

Definition dret {Σ A} (a : A) : dbm Σ A := fun s => (s, Ok a).
Definition draise {Σ A} (e : exn) : dbm Σ A := fun s => (s, Raise e).
Definition dbind {Σ A B} (c : dbm Σ A) (k : A -> dbm Σ B) : dbm Σ B :=
  fun s => match c s with
           | (s', Ok a) => k a s'
           | (s', Raise e) => (s', Raise e)
           end.
Definition dget {Σ A} (f : Σ -> A) : dbm Σ A := fun s => (s, Ok (f s)).
Definition dmodify {Σ} (f : Σ -> Σ) : dbm Σ unit := fun s => (f s, Ok tt).

Declare Scope dbm_scope.
Delimit Scope dbm_scope with dbm.
Notation "x <~ c ;; k" := (dbind c (fun x => k))
  (at level 100, c at next level, k at level 200, right associativity) : dbm_scope.
Notation "c ;;; k" := (dbind c (fun _ => k))
  (at level 100, k at level 200, right associativity) : dbm_scope.

(** [get_db_session]: commit when the handler returns, roll back when it raises. *)
Definition get_db_session {Σ A} (h : dbm Σ A) : dbm Σ A :=
  fun s => match h s with
           | (s', Ok a) => (s', Ok a)
           | (_, Raise e) => (s, Raise e)
           end.

(** [db.begin_nested()] around a best-effort statement whose exceptions the caller swallows. *)
Definition savepoint {Σ} (fails : bool) (f : Σ -> Σ) : dbm Σ unit :=
  fun s => (if fails then s else f s, Ok tt).

(** ** Statements *)

(** [UPDATE t SET f WHERE p]: the new table; [rowcount] is [count_where]. *)
Definition update_where {R} (p : R -> bool) (f : R -> R) (t : list R) : list R :=
  map (fun r => if p r then f r else r) t.
Definition where_ {R} (p : R -> bool) (t : list R) : list R := List.filter p t.
Definition count_where {R} (p : R -> bool) (t : list R) : nat := length (where_ p t).

(** [ORDER BY le]; rows that [le] does not separate keep the order of the table. *)
Fixpoint order_insert {R} (le : R -> R -> bool) (x : R) (l : list R) : list R :=
  match l with
  | [] => [x]
  | y :: l' => if le x y then x :: l else y :: order_insert le x l'
  end.
Definition order_by {R} (le : R -> R -> bool) (l : list R) : list R := foldr (order_insert le) [] l.

(** ** Facts *)

Section Where.
Context {R : Type}.

Lemma elem_of_update_where p f (t : list R) r' :
  r' ∈ update_where p f t <-> exists r, r ∈ t /\ r' = if p r then f r else r.
Proof.
  unfold update_where. rewrite list_elem_of_In, in_map_iff. split.
  - intros (r & <- & Hr). exists r. by rewrite list_elem_of_In.
  - intros (r & Hr & ->). exists r. by rewrite <- list_elem_of_In.
Qed.

Lemma Forall_update_where (Q : R -> Prop) p f (t : list R) :
  Forall Q t -> (forall r, r ∈ t -> p r = true -> Q r -> Q (f r)) -> Forall Q (update_where p f t).
Proof.
  rewrite !Forall_forall. intros Ht Hf r' (r & Hr & ->)%elem_of_update_where.
  destruct (p r) eqn:E; [by apply Hf; auto|by apply Ht].
Qed.

Lemma update_where_none p f (t : list R) : count_where p t = 0%nat -> update_where p f t = t.
Proof.
  unfold count_where, where_, update_where. induction t as [|r t IH]; cbn; [done|].
  destruct (p r); cbn; [done|]. intros H. by rewrite IH.
Qed.

Lemma elem_of_where p (t : list R) r : r ∈ where_ p t <-> r ∈ t /\ p r = true.
Proof. unfold where_. by rewrite !list_elem_of_In, filter_In. Qed.

Lemma where_all p (t : list R) : Forall (fun r => p r = true) t -> where_ p t = t.
Proof. unfold where_. induction 1 as [|r t Hr _ IH]; cbn; [done|]. by rewrite Hr, IH. Qed.

Lemma count_where_pos p (t : list R) : (0 < count_where p t)%nat <-> exists r, r ∈ t /\ p r = true.
Proof.
  unfold count_where. split.
  - destruct (where_ p t) as [|r l] eqn:E; cbn; [lia|]. intros _. exists r.
    apply elem_of_where. rewrite E. left.
  - intros (r & Hr). apply elem_of_where in Hr. destruct (where_ p t); [by apply not_elem_of_nil in Hr|cbn; lia].
Qed.

Lemma count_where_zero p (t : list R) : count_where p t = 0%nat <-> forall r, r ∈ t -> p r = false.
Proof.
  split.
  - intros H r Hr. destruct (p r) eqn:E; [|done].
    assert (0 < count_where p t)%nat by (apply count_where_pos; eauto). lia.
  - intros H. destruct (count_where p t) eqn:E; [done|].
    assert (0 < count_where p t)%nat as (r & Hr & Hp)%count_where_pos by lia. by rewrite H in Hp.
Qed.

Lemma find_elem p (t : list R) r : List.find p t = Some r -> r ∈ t /\ p r = true.
Proof. intros H. apply List.find_some in H as [Hin Hp]. by rewrite list_elem_of_In. Qed.
End Where.

Section Keys.
Context {R : Type} {K : Type} (key : R -> K).

Lemma update_where_key p f (t : list R) :
  (forall r, key (f r) = key r) -> key <$> update_where p f t = key <$> t.
Proof.
  intros Hk. unfold update_where. induction t as [|r t IH]; [done|].
  rewrite map_cons, !fmap_cons, IH. by destruct (p r); rewrite ?Hk.
Qed.

(** A condition that fixes a key matches at most one row of a table with distinct keys. *)
Lemma count_where_le_1 p k (t : list R) :
  NoDup (key <$> t) -> (forall r, p r = true -> key r = k) -> (count_where p t <= 1)%nat.
Proof.
  unfold count_where, where_. intros Hd Hp. induction t as [|r t IH]; cbn; [lia|].
  rewrite fmap_cons in Hd. apply NoDup_cons in Hd as [Hn Hd]. specialize (IH Hd).
  destruct (p r) eqn:E; [|done]. cbn.
  change (length (List.filter p t)) with (count_where p t). rewrite (proj2 (count_where_zero p t)); [lia|].
  intros r' Hr'. destruct (p r') eqn:E'; [|done]. destruct Hn. apply list_elem_of_fmap. exists r'.
  split; [|done]. by rewrite (Hp r E), (Hp r' E').
Qed.

Lemma count_where_one p (t : list R) r :
  NoDup (key <$> t) -> r ∈ t -> p r = true -> (forall r', p r' = true -> key r' = key r) -> count_where p t = 1%nat.
Proof.
  intros Hd Hr Hp Hk. pose proof (count_where_le_1 p (key r) t Hd Hk).
  assert (0 < count_where p t)%nat by (apply count_where_pos; eauto). lia.
Qed.

Lemma key_unique (t : list R) r r' :
  NoDup (key <$> t) -> r ∈ t -> r' ∈ t -> key r = key r' -> r = r'.
Proof.
  induction t as [|x t IH]; [by intros _ ?%not_elem_of_nil|]. rewrite fmap_cons. intros [Hn Hd]%NoDup_cons.
  rewrite !elem_of_cons. intros [->|Hr] [->|Hr'] Hk; [done| | |by apply IH].
  - destruct Hn. apply list_elem_of_fmap. eauto.
  - destruct Hn. apply list_elem_of_fmap. exists r. by rewrite Hk.
Qed.

(** Looking up by a key that identifies the row. *)
Lemma find_unique p (t : list R) r :
  NoDup (key <$> t) -> r ∈ t -> p r = true -> (forall r', p r' = true -> key r' = key r) -> List.find p t = Some r.
Proof.
  intros Hd Hr Hp Hk. destruct (List.find p t) as [r'|] eqn:E.
  - apply find_elem in E as [Hr' Hp']. f_equal. by apply (key_unique t); auto.
  - apply List.find_none with (x := r) in E; [by rewrite Hp in E|by apply list_elem_of_In].
Qed.
End Keys.

Lemma find_update_where {R} (p : R -> bool) (f : R -> R) (q : R -> bool) (t : list R) :
  (forall r, r ∈ t -> q (if p r then f r else r) = q r) ->
  List.find q (update_where p f t) = (fun r => if p r then f r else r) <$> List.find q t.
Proof.
  unfold update_where. induction t as [|r t IH]; intros Hq; [done|]. cbn.
  rewrite Hq by left. destruct (q r); [done|]. apply IH. intros r' Hr'. apply Hq. by right.
Qed.

Lemma update_where_comp {R} (p : R -> bool) (f g : R -> R) (t : list R) :
  (forall r, p r = true -> p (f r) = true) ->
  update_where p g (update_where p f t) = update_where p (fun r => g (f r)) t.
Proof.
  intros Hp. unfold update_where. rewrite map_map. apply map_ext. intros r.
  destruct (p r) eqn:E; [by rewrite Hp|by rewrite E].
Qed.

(** ** Sorting *)

Section Sorting.
Context {R : Type} (le : R -> R -> bool).

Lemma order_insert_perm x l : order_insert le x l ≡ₚ x :: l.
Proof.
  induction l as [|y l IH]; cbn; [done|]. destruct (le x y); [done|]. rewrite IH. apply Permutation_swap.
Qed.

Lemma order_by_perm l : order_by le l ≡ₚ l.
Proof. induction l as [|x l IH]; cbn; [done|]. by rewrite order_insert_perm, IH. Qed.

Lemma elem_of_order_by l x : x ∈ order_by le l <-> x ∈ l.
Proof. by rewrite order_by_perm. Qed.

Context (le_total : forall x y, le x y = true \/ le y x = true)
        (le_trans : forall x y z, le x y = true -> le y z = true -> le x z = true).

(** The first row of a sorted selection is below every selected row. *)
Lemma order_by_head l x l' : order_by le l = x :: l' -> x ∈ l /\ forall y, y ∈ l -> le x y = true.
Proof using le_total le_trans.
  revert x l'. induction l as [|a l IH]; [done|]. intros x l'.
  change (order_by le (a :: l)) with (order_insert le a (order_by le l)).
  destruct (order_by le l) as [|b k] eqn:E.
  - cbn. intros [= <- <-]. assert (l = []) as -> by (apply Permutation_nil; by rewrite <- E, order_by_perm).
    split; [left|]. intros y Hy. apply list_elem_of_singleton in Hy as ->. by destruct (le_total a a).
  - destruct (IH b k eq_refl) as [Hb Hmin]. cbn. destruct (le a b) eqn:Hab; intros [= <- <-].
    + split; [left|]. intros y [->|Hy]%elem_of_cons; [by destruct (le_total a a)|by eauto].
    + split; [by right|]. intros y [->|Hy]%elem_of_cons; [|by eauto].
      destruct (le_total b a) as [?|H]; [done|by rewrite H in Hab].
Qed.

(** A selection that is sorted already stays as it is. *)
Lemma order_by_sorted l : StronglySorted (fun x y => le x y = true) l -> order_by le l = l.
Proof.
  induction l as [|x l IH]; [done|]. intros Hs. inversion Hs as [|? ? Hl Hx]; subst.
  change (order_by le (x :: l)) with (order_insert le x (order_by le l)). rewrite (IH Hl).
  destruct l as [|y l]; [done|]. cbn. inversion Hx as [|? ? Hxy _]; subst. by rewrite Hxy.
Qed.

Lemma order_by_nil l : order_by le l = [] <-> l = [].
Proof.
  split; [|by intros ->]. intros H. apply Permutation_nil. by rewrite <- H, order_by_perm.
Qed.
End Sorting.

(** ** Requests *)

(** A request that raises leaves the committed state as it was. *)
Lemma get_db_session_raise {Σ A} (h : dbm Σ A) s e :
  snd (h s) = Raise e -> get_db_session h s = (s, Raise e).
Proof. unfold get_db_session. destruct (h s) as [s' [a|e']]; cbn; [done|]. by intros [= ->]. Qed.
Lemma get_db_session_ok {Σ A} (h : dbm Σ A) s a :
  snd (h s) = Ok a -> get_db_session h s = h s.
Proof. unfold get_db_session. by destruct (h s) as [s' [a'|e']]. Qed.

Lemma dbind_run {Σ A B} (c : dbm Σ A) (k : A -> dbm Σ B) s s' a : c s = (s', Ok a) -> dbind c k s = k a s'.
Proof. unfold dbind. by intros ->. Qed.
Lemma dbind_ok {Σ A B} (c : dbm Σ A) (k : A -> dbm Σ B) s s' b :
  dbind c k s = (s', Ok b) -> exists s1 a, c s = (s1, Ok a) /\ k a s1 = (s', Ok b).
Proof. unfold dbind. destruct (c s) as [s1 [a|e]]; [by eauto|done]. Qed.
