(* ===== verification/PyFloat.v ===== *)
(** * Python floats

    IEEE-754 binary64 numbers and the conversions of CPython: [float(int)], [float(str)],
    [repr(float)] (shortest digits that read back) and the [.2f] format.  Arithmetic is the
    Standard Library's executable specification of binary64, rounding to nearest even. *)

From Stdlib Require Import ZArith Lia String Ascii.
From Corelib Require Import SpecFloat.
From stdpp Require Import base list strings.
From S2P Require Import Prelude PyStr.

Local Open Scope Z_scope.

Definition f64 := spec_float.

#[export] Instance f64_eq_dec : EqDecision f64.
Proof. unfold f64. solve_decision. Defined.

Definition fadd : f64 -> f64 -> f64 := SFadd 53 1024.
Definition fsub : f64 -> f64 -> f64 := SFsub 53 1024.
Definition fmul : f64 -> f64 -> f64 := SFmul 53 1024.
Definition fdiv : f64 -> f64 -> f64 := SFdiv 53 1024.

(** The comparisons of the code; each is [false] on NaN. *)
Definition feqb (x y : f64) : bool := SFeqb x y.
Definition fltb (x y : f64) : bool := SFltb x y.
Definition fleb (x y : f64) : bool := SFleb x y.

Definition f0 : f64 := S754_zero false.
Definition f_inf (neg : bool) : f64 := S754_infinity neg.

(** The binary64 number nearest to an integer. *)
Definition f_of_Z (z : Z) : f64 := binary_normalize 53 1024 z 0 false.

Definition is_inf (x : f64) : bool := match x with S754_infinity _ => true | _ => false end.

(** [float(n)] for an integer: raises when the result overflows. *)
Definition float_of_int (z : Z) : res f64 :=
  let f := f_of_Z z in
  if is_inf f then Raise (OverflowError "int too large to convert to float") else Ok f.

(** The number of decimal digits of a positive integer. *)
Fixpoint ndigits_fuel (fuel : nat) (z : Z) : Z :=
  match fuel with
  | O => 0
  | S k => if z <? 10 then 1 else 1 + ndigits_fuel k (z / 10)
  end.
Definition ndigits (z : Z) : Z := ndigits_fuel (S (Z.to_nat (Z.log2 z))) z.

(** The binary64 number nearest to [(-1)^neg * m * 10^e].  Exponents beyond the binary64 range
    are cut off before any power is computed. *)
Definition f_of_dec (neg : bool) (m e : Z) : f64 :=
  if m <=? 0 then S754_zero neg
  else if 310 <? ndigits m + e then S754_infinity neg
  else if ndigits m + e <? -400 then S754_zero neg
  else if 0 <=? e then binary_normalize 53 1024 (if neg then - (m * 10 ^ e) else m * 10 ^ e) 0 neg
  else
    let '(q, ez, l) := SFdiv_core_binary 53 1024 m 0 (10 ^ (- e)) 0 in
    binary_round_aux 53 1024 neg q ez l.

(** [timedelta.total_seconds()] of a number of microseconds, also the epoch of a database interval. *)
Definition total_seconds (us : Z) : f64 := f_of_dec (us <? 0) (Z.abs us) (-6).

(** ** Reading a float *)

Definition digit_val (c : ascii) : Z := Z.of_nat (code c) - 48.

(** Digits with single underscores between them; returns the value, the number of digits and the
    rest.  [prev] says whether the previous character was a digit. *)
Fixpoint read_digits (s : string) (prev : bool) (acc n : Z) : option (Z * Z * string) :=
  match s with
  | EmptyString => Some (acc, n, EmptyString)
  | String c s' =>
      if is_decimal c then read_digits s' true (acc * 10 + digit_val c) (n + 1)
      else if Ascii.eqb c "_" then
        match s' with
        | String d _ => if prev && is_decimal d then read_digits s' false acc n else None
        | EmptyString => None
        end
      else Some (acc, n, s)
  end.

Definition read_sign (s : string) : bool * string :=
  match s with
  | String "-" s' => (true, s')
  | String "+" s' => (false, s')
  | _ => (false, s)
  end.

(** [int(s)] of a text without surrounding white space. *)
Definition int_of_text (s : string) : option Z :=
  let '(neg, s) := read_sign s in
  match read_digits s false 0 0 with
  | Some (v, n, EmptyString) => if 0 <? n then Some (if neg then - v else v) else None
  | _ => None
  end.

Definition read_exponent (s : string) : option Z :=
  match s with
  | EmptyString => Some 0
  | String c s' =>
      if Ascii.eqb c "e" || Ascii.eqb c "E" then
        let '(neg, s2) := read_sign s' in
        match read_digits s2 false 0 0 with
        | Some (v, n, EmptyString) => if 0 <? n then Some (if neg then - v else v) else None
        | _ => None
        end
      else None
  end.

Definition read_decimal (neg : bool) (s : string) : option f64 :=
  match read_digits s false 0 0 with
  | None => None
  | Some (ip, ni, rest) =>
      match
        match rest with
        | String "." r => read_digits r false ip 0
        | _ => Some (ip, 0, rest)
        end
      with
      | None => None
      | Some (m, nf, rest2) =>
          if ni + nf <=? 0 then None
          else match read_exponent rest2 with
               | Some e => Some (f_of_dec neg m (e - nf))
               | None => None
               end
      end
  end.

(** [float(s)]; [None] stands for ValueError. *)
Definition parse_float (s0 : string) : option f64 :=
  let '(neg, s) := read_sign (strip s0) in
  let l := lower s in
  if String.eqb l "inf" || String.eqb l "infinity" then Some (S754_infinity neg)
  else if String.eqb l "nan" then Some S754_nan
  else read_decimal neg s.

(** ** Printing a float *)

(** Nearest integer to [a / b], ties to even, for [b > 0]. *)
Definition round_div (a b : Z) : Z :=
  let q := a / b in
  let r := a mod b in
  if 2 * r <? b then q
  else if b <? 2 * r then q + 1
  else if Z.even q then q else q + 1.

(** [m * 2^e] as a fraction. *)
Definition as_fraction (m e : Z) : Z * Z :=
  if 0 <=? e then (m * 2 ^ e, 1) else (m, 2 ^ (- e)).

(** The least [k] with [num / den < 10^k], searched upwards from a lower bound. *)
Fixpoint find_decpt (fuel : nat) (num den k : Z) : Z :=
  match fuel with
  | O => k
  | S f =>
      let lt := if 0 <=? k then num <? den * 10 ^ k else num * 10 ^ (- k) <? den in
      if lt then k else find_decpt f num den (k + 1)
  end.

Definition decpt (num den : Z) : Z :=
  find_decpt 12 num den ((Z.log2 num - Z.log2 den) * 30103 / 100000 - 3).

(** The candidates with [n] significant digits: the nearest first, then the other neighbour. *)
Definition digit_candidates (num den k n : Z) : list Z :=
  let s := n - k in
  let '(a, b) := if 0 <=? s then (num * 10 ^ s, den) else (num, den * 10 ^ (- s)) in
  let near := round_div a b in
  let fl := a / b in
  [near; if near =? fl then fl + 1 else fl].

Fixpoint shortest (fuel : nat) (x : f64) (num den k n : Z) : Z * Z :=
  match fuel with
  | O => (0, 0)
  | S f =>
      match List.find (fun d => feqb (f_of_dec false d (k - n)) x) (digit_candidates num den k n) with
      | Some d => (d, k - n)
      | None => shortest f x num den k (n + 1)
      end
  end.

(** Remove trailing zeros of the digits. *)
Fixpoint trim_zeros (fuel : nat) (d e : Z) : Z * Z :=
  match fuel with
  | O => (d, e)
  | S f => if (0 <? d) && (d mod 10 =? 0) then trim_zeros f (d / 10) (e + 1) else (d, e)
  end.

Definition repr_pos (x : f64) (m : positive) (e : Z) : string :=
  let '(num, den) := as_fraction (Zpos m) e in
  let k := decpt num den in
  let '(d0, e0) := shortest 17 x num den k 1 in
  let '(d, e10) := trim_zeros 20 d0 e0 in
  let ds := str_of_Z d in
  let n := Z.of_nat (slen ds) in
  let dp := n + e10 in
  if (16 <? dp) || (dp <=? -4) then
     let ex := dp - 1 in
     let mant := match ds with
                 | String c EmptyString => ds
                 | String c r => String c (String "." r)
                 | EmptyString => EmptyString
                 end in
     mant +:+ "e" +:+ (if ex <? 0 then "-" else "+") +:+ zfill 2 (str_of_Z (Z.abs ex))
   else if dp <=? 0 then "0." +:+ str_rep (Z.to_nat (- dp)) "0" +:+ ds
   else if n <=? dp then ds +:+ str_rep (Z.to_nat (dp - n)) "0" +:+ ".0"
   else str_take (Z.to_nat dp) ds +:+ "." +:+ str_drop (Z.to_nat dp) ds.

(** [repr(x)], which is also [str(x)]. *)
Definition repr_float (x : f64) : string :=
  match x with
  | S754_nan => "nan"
  | S754_infinity false => "inf"
  | S754_infinity true => "-inf"
  | S754_zero false => "0.0"
  | S754_zero true => "-0.0"
  | S754_finite false m e => repr_pos x m e
  | S754_finite true m e => "-" +:+ repr_pos (SFopp x) m e
  end.

Definition fixed2 (q : Z) : string :=
  str_of_Z (q / 100) +:+ "." +:+ zfill 2 (str_of_Z (q mod 100)).

(** [f"{x:.2f}"]. *)
Definition format_2f (x : f64) : string :=
  match x with
  | S754_nan => "nan"
  | S754_infinity false => "inf"
  | S754_infinity true => "-inf"
  | S754_zero false => "0.00"
  | S754_zero true => "-0.00"
  | S754_finite s m e =>
      let '(num, den) := as_fraction (Zpos m) e in
      (if s then "-" else "") +:+ fixed2 (round_div (100 * num) den)
  end.

(** A float written in decimal, for the constants of the source. *)
Definition flit (s : string) : f64 := match parse_float s with Some f => f | None => S754_nan end.

(** ** Facts about the order *)

Lemma feqb_refl x : x <> S754_nan -> feqb x x = true.
Proof.
  unfold feqb, SFeqb, SFcompare. destruct x as [s|s| |s m e]; try done; intros _.
  - by destruct s.
  - rewrite Z.compare_refl. destruct s; by rewrite Pos.compare_cont_refl.
Qed.

Lemma SFcompare_antisym x y c :
  SFcompare x y = Some c -> SFcompare y x = Some (CompOpp c).
Proof.
  unfold SFcompare.
  destruct x as [sx|sx| |sx mx ex], y as [sy|sy| |sy my ey]; try discriminate;
    intros H; injection H as <-; try (destruct sx; reflexivity); try (destruct sy; reflexivity);
    try (destruct sx, sy; reflexivity).
  rewrite (Z.compare_antisym ex ey), (Pos.compare_cont_antisym mx my Eq).
  destruct sx, sy; cbn; try done; destruct (Z.compare ex ey); cbn; try done;
    by rewrite ?Pos.compare_cont_antisym, ?CompOpp_involutive.
Qed.

(** On numbers (no NaN) exactly one of [x < y] and [y <= x] holds. *)
Lemma fltb_fleb x y : x <> S754_nan -> y <> S754_nan -> fltb x y = negb (fleb y x).
Proof.
  intros Hx Hy. unfold fltb, fleb, SFltb, SFleb.
  destruct (SFcompare x y) as [c|] eqn:E.
  - rewrite (SFcompare_antisym _ _ _ E). by destruct c.
  - destruct x, y; cbn in E; try discriminate; congruence.
Qed.
