(* ===== verification/PyVal.v ===== *)
(** * Python values

    The rules engine works on JSON-like objects whose types are only known at run time.  [pyval]
    is that universe; each function below is one Python operation on it, with the exception it
    raises when applied to a value of the wrong type.  A [dict] is an association list in insertion
    order.  Library functions whose inside the code never looks at are the operations of the class
    [PyLib]: every theorem holds for all of its instances. *)

From Stdlib Require Import ZArith Lia String Ascii.
From Corelib Require Import SpecFloat.
From stdpp Require Import base list strings.
From S2P Require Import Prelude PyStr PyFloat.

Local Open Scope string_scope.

(** A [datetime]: wall-clock microseconds and the UTC offset in microseconds ([None] = naive). *)
Record datetime := Datetime { dt_wall : Z; dt_offset : option Z }.

#[export] Instance datetime_eq_dec : EqDecision datetime.
Proof. solve_decision. Defined.

Inductive pyval : Type :=
| PNone
| PBool (b : bool)
| PInt (z : Z)
| PFloat (f : f64)
| PStr (s : string)
| PDatetime (d : datetime)
| PList (l : list pyval)
| PDict (d : list (string * pyval)).

Definition pydict := list (string * pyval).

Definition type_name (v : pyval) : string :=
  match v with
  | PNone => "NoneType"
  | PBool _ => "bool"
  | PInt _ => "int"
  | PFloat _ => "float"
  | PStr _ => "str"
  | PDatetime _ => "datetime.datetime"
  | PList _ => "list"
  | PDict _ => "dict"
  end.

Definition no_attribute {A} (v : pyval) (attr : string) : res A :=
  Raise (AttributeError ("'" +:+ type_name v +:+ "' object has no attribute '" +:+ attr +:+ "'")).

(** [bool(v)]. *)
Definition truthy (v : pyval) : bool :=
  match v with
  | PNone => false
  | PBool b => b
  | PInt z => negb (z =? 0)%Z
  | PFloat f => negb (feqb f f0)
  | PStr s => negb (String.eqb s "")
  | PDatetime _ => true
  | PList l => match l with [] => false | _ => true end
  | PDict d => match d with [] => false | _ => true end
  end.

Definition is_none (v : pyval) : bool := match v with PNone => true | _ => false end.

(** [d.get(k)] on a dict, [None] when the key is absent. *)
Fixpoint dict_lookup (k : string) (d : pydict) : option pyval :=
  match d with
  | [] => None
  | (k', v) :: d' => if String.eqb k k' then Some v else dict_lookup k d'
  end.

Definition dict_get (d : pydict) (k : string) (dflt : pyval) : pyval :=
  match dict_lookup k d with Some v => v | None => dflt end.

(** [d[k] = v]: replaces in place, or appends. *)
Fixpoint dict_set (k : string) (v : pyval) (d : pydict) : pydict :=
  match d with
  | [] => [(k, v)]
  | (k', v') :: d' => if String.eqb k k' then (k, v) :: d' else (k', v') :: dict_set k v d'
  end.

(** [v.get(k, dflt)] on any value. *)
Definition py_get (v : pyval) (k : string) (dflt : pyval) : res pyval :=
  match v with
  | PDict d => Ok (dict_get d k dflt)
  | _ => no_attribute v "get"
  end.

(** ** Equality and membership *)

(** An integer against a float, exactly. *)
Definition int_eq_float (z : Z) (f : f64) : bool :=
  match f with
  | S754_zero _ => (z =? 0)%Z
  | S754_finite s m e =>
      let n := if s then Zneg m else Zpos m in
      if (0 <=? e)%Z then (z =? n * 2 ^ e)%Z else (z * 2 ^ (- e) =? n)%Z
  | _ => false
  end.

Definition as_int (v : pyval) : option Z :=
  match v with
  | PInt z => Some z
  | PBool b => Some (if b then 1 else 0)%Z
  | _ => None
  end.

(** [a == b]. *)
Fixpoint py_eq (a b : pyval) {struct a} : bool :=
  match a, b with
  | PNone, PNone => true
  | PStr s, PStr t => String.eqb s t
  | PDatetime d, PDatetime e =>
      match dt_offset d, dt_offset e with
      | Some o1, Some o2 => (dt_wall d - o1 =? dt_wall e - o2)%Z
      | None, None => (dt_wall d =? dt_wall e)%Z
      | _, _ => false
      end
  | PList l, PList m =>
      (fix go (l m : list pyval) {struct l} : bool :=
         match l, m with
         | [], [] => true
         | x :: l', y :: m' => py_eq x y && go l' m'
         | _, _ => false
         end) l m
  | PDict d, PDict e =>
      (length d =? length e)%nat &&
      (fix go (d : list (string * pyval)) : bool :=
         match d with
         | [] => true
         | (k, v) :: d' =>
             match dict_lookup k e with
             | Some w => py_eq v w && go d'
             | None => false
             end
         end) d
  | PFloat f, PFloat g => feqb f g
  | PFloat f, _ => match as_int b with Some z => int_eq_float z f | None => false end
  | _, PFloat g => match as_int a with Some z => int_eq_float z g | None => false end
  | _, _ =>
      match as_int a, as_int b with
      | Some x, Some y => (x =? y)%Z
      | _, _ => false
      end
  end.

(** [x in c]. *)
Definition py_in (x c : pyval) : res bool :=
  match c with
  | PList l => Ok (existsb (py_eq x) l)
  | PDict d =>
      match x with
      | PStr k => Ok (match dict_lookup k d with Some _ => true | None => false end)
      | PList _ | PDict _ => Raise (TypeError ("unhashable type: '" +:+ type_name x +:+ "'"))
      | _ => Ok false
      end
  | PStr s =>
      match x with
      | PStr p => Ok (contains p s)
      | _ => Raise (TypeError ("'in <string>' requires string as left operand, not " +:+ type_name x))
      end
  | _ => Raise (TypeError ("argument of type '" +:+ type_name c +:+ "' is not iterable"))
  end.

Fixpoint str_chars (s : string) : list pyval :=
  match s with
  | "" => []
  | String c s' => PStr (String c "") :: str_chars s'
  end.

(** The values a [for] loop over [v] visits. *)
Definition py_iter (v : pyval) : res (list pyval) :=
  match v with
  | PList l => Ok l
  | PDict d => Ok ((fun kv => PStr (fst kv)) <$> d)
  | PStr s => Ok (str_chars s)
  | _ => Raise (TypeError ("'" +:+ type_name v +:+ "' object is not iterable"))
  end.

(** [len(v)] where the code takes it: containers and strings. *)
Definition py_len (v : pyval) : nat :=
  match v with
  | PStr s => slen s
  | PList l => length l
  | PDict d => length d
  | _ => 0
  end.

(** ** Text of a value *)

Definition hex_digit (n : nat) : ascii :=
  if (n <? 10)%nat then char (48 + n) else char (87 + n).

Definition repr_char (q c : ascii) : string :=
  let n := code c in
  if Ascii.eqb c q || Ascii.eqb c "\" then String "\" (String c "")
  else if (n =? 10)%nat then "\n"
  else if (n =? 13)%nat then "\r"
  else if (n =? 9)%nat then "\t"
  else if (n <? 32)%nat || in_range 127 160 c || (n =? 173)%nat
  then String "\" (String "x" (String (hex_digit (n / 16)) (String (hex_digit (n mod 16)) "")))
  else String c "".

Fixpoint has_char (c : ascii) (s : string) : bool :=
  match s with
  | "" => false
  | String d s' => Ascii.eqb d c || has_char c s'
  end.

Definition dquote : ascii := char 34.

(** [repr(s)]: single quotes unless the text has a single and no double quote. *)
Definition repr_str (s : string) : string :=
  let q := if has_char "'" s && negb (has_char dquote s) then dquote else "'"%char in
  String q (str_flat_map (repr_char q) s +:+ String q "").

(** ** Library functions taken as given *)

Class PyLib := {
  (** [bool(re.match(pattern, s))]; raises [re.error] on a bad pattern. *)
  re_match : string -> string -> res bool;
  (** [template.format( **fields )]; raises on an unknown or malformed field. *)
  str_format : string -> list (string * pyval) -> res string;
  (** [datetime.fromisoformat(s)]; raises [ValueError]. *)
  fromisoformat : string -> res datetime;
  (** [str(d)] and [repr(d)]. *)
  str_datetime : datetime -> string;
  repr_datetime : datetime -> string;
  (** [d.isoformat()]. *)
  isoformat : datetime -> string
}.

(** PostgreSQL: what is read back from a JSONB column after a text was written, which may be refused;
    the texts that are UUIDs; the offset of the connection's time zone at a moment. *)
Class Postgres := { jsonb : string -> res pyval; uuid_text : string -> bool; zone_offset : Z -> Z }.

Definition integrity_error (constraint : string) : exn := Exn "IntegrityError" constraint.

Section Text.
Context `{PyLib}.

Fixpoint py_repr (v : pyval) : string :=
  match v with
  | PNone => "None"
  | PBool b => if b then "True" else "False"
  | PInt z => str_of_Z z
  | PFloat f => repr_float f
  | PStr s => repr_str s
  | PDatetime d => repr_datetime d
  | PList l => "[" +:+ str_join ", " (map py_repr l) +:+ "]"
  | PDict d => "{" +:+ str_join ", " (map (fun kv => repr_str (fst kv) +:+ ": " +:+ py_repr (snd kv)) d) +:+ "}"
  end.

(** [str(v)]. *)
Definition py_str (v : pyval) : string :=
  match v with
  | PStr s => s
  | PDatetime d => str_datetime d
  | _ => py_repr v
  end.
End Text.

(** [float(v)]. *)
Definition py_float (v : pyval) : res f64 :=
  match v with
  | PBool b => Ok (f_of_Z (if b then 1 else 0))
  | PInt z => float_of_int z
  | PFloat f => Ok f
  | PStr s =>
      match parse_float s with
      | Some f => Ok f
      | None => Raise (ValueError ("could not convert string to float: " +:+ repr_str s))
      end
  | _ => Raise (TypeError ("float() argument must be a string or a real number, not '" +:+ type_name v +:+ "'"))
  end.

(** A method call that only strings support. *)
Definition as_str (attr : string) (v : pyval) : res string :=
  match v with
  | PStr s => Ok s
  | _ => no_attribute v attr
  end.

(** ** Dates *)

(** [a < b] on datetimes: mixing naive and aware raises. *)
Definition dt_lt (a b : datetime) : res bool :=
  match dt_offset a, dt_offset b with
  | Some o1, Some o2 => Ok (dt_wall a - o1 <? dt_wall b - o2)%Z
  | None, None => Ok (dt_wall a <? dt_wall b)%Z
  | _, _ => Raise (TypeError "can't compare offset-naive and offset-aware datetimes")
  end.

(** The moment of an aware datetime, in UTC microseconds. *)
Definition instant (d : datetime) : Z := (dt_wall d - match dt_offset d with Some o => o | None => 0 end)%Z.
Definition aware (d : datetime) : Prop := dt_offset d <> None.

(** ** Facts *)

Lemma dict_lookup_set_eq k v d : dict_lookup k (dict_set k v d) = Some v.
Proof.
  induction d as [|[k' v'] d IH]; cbn; [by rewrite String.eqb_refl|].
  destruct (String.eqb_spec k k') as [->|Hne]; cbn; [by rewrite String.eqb_refl|].
  destruct (String.eqb_spec k k'); [done | exact IH].
Qed.

Lemma dict_lookup_set_ne k k' v d : k <> k' -> dict_lookup k' (dict_set k v d) = dict_lookup k' d.
Proof.
  intros Hne. induction d as [|[k2 v2] d IH]; cbn.
  - destruct (String.eqb_spec k' k); [congruence | done].
  - destruct (String.eqb_spec k k2) as [->|?]; cbn.
    + destruct (String.eqb_spec k' k2); [congruence | done].
    + by rewrite IH.
Qed.

Lemma dict_get_set_eq k v d dflt : dict_get (dict_set k v d) k dflt = v.
Proof. unfold dict_get. by rewrite dict_lookup_set_eq. Qed.

Lemma dict_get_set_ne k k' v d dflt : k <> k' -> dict_get (dict_set k v d) k' dflt = dict_get d k' dflt.
Proof. intros. unfold dict_get. by rewrite dict_lookup_set_ne. Qed.

Lemma py_eq_str s t : py_eq (PStr s) (PStr t) = String.eqb s t.
Proof. done. Qed.

Lemma py_in_strs s (l : list string) :
  py_in (PStr s) (PList (PStr <$> l)) = Ok (existsb (String.eqb s) l).
Proof. cbn. f_equal. induction l as [|t l IH]; cbn; [done | by rewrite IH]. Qed.

#[export] Hint Rewrite dict_lookup_set_eq dict_get_set_eq py_in_strs : regrw.

(** ** A concrete library

    A small instance of [PyLib], used where a statement about all instances is evaluated on an
    example: patterns match by prefix, templates substitute [{name}] fields, timestamps have the
    form [YYYY-MM-DDTHH:MM:SS+00:00]. *)

Definition digits_val (s : string) : option Z :=
  if str_forallb is_decimal s && negb (String.eqb s "")
  then match read_digits s false 0 0 with Some (v, _, _) => Some v | None => None end
  else None.

(** Days since 0000-03-01 of a proleptic Gregorian date. *)
Definition days_of (y m d : Z) : Z :=
  let y := if (m <=? 2)%Z then (y - 1)%Z else y in
  let m := if (m <=? 2)%Z then (m + 9)%Z else (m - 3)%Z in
  (365 * y + y / 4 - y / 100 + y / 400 + (153 * m + 2) / 5 + d)%Z.

Definition demo_fromisoformat (s : string) : res datetime :=
  let part a b := digits_val (str_take b (str_drop a s)) in
  match part 0 4, part 5 2, part 8 2, part 11 2, part 14 2, part 17 2 with
  | Some y, Some mo, Some d, Some h, Some mi, Some se =>
      Ok (Datetime (((days_of y mo d * 24 + h) * 60 + mi) * 60 + se)%Z
            (if String.eqb (str_drop 19 s) "+00:00" then Some 0%Z else None))
  | _, _, _, _, _, _ => Raise (ValueError ("Invalid isoformat string: " +:+ repr_str s))
  end%nat.

Definition demo_dt_text (d : datetime) : string :=
  str_of_Z (dt_wall d) +:+ match dt_offset d with Some o => "+" +:+ str_of_Z o | None => "" end.

(** Replace every [{k}] by the text of its value. *)
Fixpoint demo_format (fuel : nat) (t : string) (fields : list (string * string)) : string :=
  match fuel, t with
  | S n, String c t' =>
      if Ascii.eqb c "{" then
        match List.find (fun kv => startswith t' (fst kv +:+ "}")) fields with
        | Some (k, v) => v +:+ demo_format n (str_drop (S (slen k)) t') fields
        | None => String c (demo_format n t' fields)
        end
      else String c (demo_format n t' fields)
  | _, _ => ""
  end.

Definition demo_str (v : pyval) : string :=
  match v with
  | PStr s => s
  | PInt z => str_of_Z z
  | PFloat f => repr_float f
  | PBool b => if b then "True" else "False"
  | _ => type_name v
  end.

Definition demo_lib : PyLib := {|
  re_match := fun p s => Ok (startswith s p);
  str_format := fun t kvs => Ok (demo_format (S (slen t)) t ((fun kv => (fst kv, demo_str (snd kv))) <$> kvs));
  fromisoformat := demo_fromisoformat;
  str_datetime := demo_dt_text;
  repr_datetime := demo_dt_text;
  isoformat := demo_dt_text
|}.
