(* ===== verification/Json.v ===== *)
(** * json.dumps

    CPython's serializer on [pyval]: [ensure_ascii] escapes, optional key sorting, the separators,
    and the [default=str] hook for values JSON has no form for. *)

From Stdlib Require Import ZArith Lia String Ascii.
From Corelib Require Import SpecFloat.
From stdpp Require Import base list strings.
From S2P Require Import Prelude PyStr PyFloat PyVal.

Local Open Scope string_scope.

Definition json_char (c : ascii) : string :=
  let n := code c in
  if (n =? 34)%nat then String "\" (String dquote "")
  else if (n =? 92)%nat then "\\"
  else if (n =? 10)%nat then "\n"
  else if (n =? 13)%nat then "\r"
  else if (n =? 9)%nat then "\t"
  else if (n =? 12)%nat then "\f"
  else if (n =? 8)%nat then "\b"
  else if in_range 32 126 c then String c ""
  else "\u00" +:+ String (hex_digit (n / 16)) (String (hex_digit (n mod 16)) "").

Definition json_string (s : string) : string :=
  String dquote (str_flat_map json_char s +:+ String dquote "").

Definition json_float (f : f64) : string :=
  match f with
  | S754_nan => "NaN"
  | S754_infinity false => "Infinity"
  | S754_infinity true => "-Infinity"
  | _ => repr_float f
  end.

(** [a <= b] by code points. *)
Definition str_leb (a b : string) : bool :=
  match String.compare a b with Gt => false | _ => true end.

(** Stable insertion by key, as [sorted(d.items())] orders distinct keys. *)
Fixpoint key_insert {A} (kv : string * A) (l : list (string * A)) : list (string * A) :=
  match l with
  | [] => [kv]
  | kv' :: l' => if str_leb (fst kv) (fst kv') then kv :: l else kv' :: key_insert kv l'
  end.
Definition key_sort {A} (l : list (string * A)) : list (string * A) := foldr key_insert [] l.

Record json_opts := JsonOpts {
  sort_keys : bool;
  item_sep : string;
  key_sep : string;
  default_str : bool
}.

Section Dumps.
Context `{PyLib} (o : json_opts).

(** [json.dumps(v, ...)].  Key sorting is done on the printed items, keys being untouched by it. *)
Fixpoint json_dumps (v : pyval) : res string :=
  match v with
  | PNone => Ok "null"
  | PBool b => Ok (if b then "true" else "false")
  | PInt z => Ok (str_of_Z z)
  | PFloat f => Ok (json_float f)
  | PStr s => Ok (json_string s)
  | PDatetime d =>
      if default_str o then Ok (json_string (str_datetime d))
      else Raise (TypeError "Object of type datetime is not JSON serializable")
  | PList l =>
      do xs <- (fix go (l : list pyval) : res (list string) :=
                  match l with
                  | [] => Ok []
                  | x :: l' => do y <- json_dumps x; do ys <- go l'; Ok (y :: ys)
                  end) l;
      Ok ("[" +:+ str_join (item_sep o) xs +:+ "]")
  | PDict d =>
      do xs <- (fix go (d : list (string * pyval)) : res (list (string * string)) :=
                  match d with
                  | [] => Ok []
                  | (k, x) :: d' => do y <- json_dumps x; do ys <- go d'; Ok ((k, y) :: ys)
                  end) d;
      let xs := if sort_keys o then key_sort xs else xs in
      Ok ("{" +:+ str_join (item_sep o)
                    ((fun kv => json_string (fst kv) +:+ key_sep o +:+ snd kv) <$> xs) +:+ "}")
  end.
End Dumps.

(** [json.dumps(v, sort_keys=True)]. *)
Definition opts_sorted : json_opts := JsonOpts true ", " ": " false.
(** [json.dumps(v, sort_keys=True, separators=(",", ":"))]. *)
Definition opts_compact : json_opts := JsonOpts true "," ":" false.
(** [json.dumps(v, sort_keys=True, default=str)]. *)
Definition opts_sorted_str : json_opts := JsonOpts true ", " ": " true.
(** [json.dumps(v)]. *)
Definition opts_default : json_opts := JsonOpts false ", " ": " false.
(** [json.dumps(v, default=str)]. *)
Definition opts_str : json_opts := JsonOpts false ", " ": " true.

(** With [default=str] nothing in the value universe fails to serialize. *)
Lemma json_dumps_default_total `{PyLib} o v :
  default_str o = true -> exists s, json_dumps o v = Ok s.
Proof.
  intros Ho. revert v. fix IH 1. intros v. destruct v as [|b|z|f|s|d|l|d]; cbn [json_dumps]; eauto.
  - rewrite Ho. eauto.
  - assert (Hl : exists xs, (fix go (l : list pyval) : res (list string) :=
                  match l with
                  | [] => Ok []
                  | x :: l' => do y <- json_dumps o x; do ys <- go l'; Ok (y :: ys)
                  end) l = Ok xs).
    { induction l as [|x l IHl]; [eauto|]. destruct (IH x) as [y ->], IHl as [ys Hys].
      exists (y :: ys). cbn. by rewrite Hys. }
    destruct Hl as [xs ->]. eauto.
  - assert (Hd : exists xs, (fix go (d : list (string * pyval)) : res (list (string * string)) :=
                  match d with
                  | [] => Ok []
                  | (k, x) :: d' => do y <- json_dumps o x; do ys <- go d'; Ok ((k, y) :: ys)
                  end) d = Ok xs).
    { induction d as [|[k x] d IHd]; [eauto|]. destruct (IH x) as [y ->], IHd as [ys Hys].
      exists ((k, y) :: ys). cbn. by rewrite Hys. }
    destruct Hd as [xs ->]. eauto.
Qed.
