(* ===== verification/JsonText.v ===== *)
(** * JSON texts are unambiguous

    The digests of audit records, correction patches and events are taken over the text of
    [json.dumps].  This file proves that such a text determines what was printed: [jtree] is a value
    as JSON shows it (numbers and constants as their texts, a dictionary in the order in which it is
    printed), [json_dumps] prints the tree of a value, and printing is injective, also in front of a
    delimiter. *)

From Stdlib Require Import ZArith Lia String Ascii.
From Stdlib Require Import DecimalString.
From Corelib Require Import SpecFloat.
From stdpp Require Import base list strings.
From S2P Require Import Prelude PyStr PyFloat PyVal Json.

Local Open Scope string_scope.

Inductive jtree : Type :=
| JAtom (s : string)
| JStr (s : string)
| JList (l : list jtree)
| JDict (d : list (string * jtree)).

(** Induction over the trees inside lists and dictionaries. *)
Lemma jtree_rect' (P : jtree -> Prop) :
  (forall s, P (JAtom s)) -> (forall s, P (JStr s)) -> (forall l, Forall P l -> P (JList l)) ->
  (forall d, Forall (fun kv => P (snd kv)) d -> P (JDict d)) -> forall t, P t.
Proof.
  intros Ha Hs Hl Hd. fix IH 1. intros [s|s|l|d]; [apply Ha|apply Hs|apply Hl|apply Hd].
  - induction l as [|x l IHl]; constructor; [apply IH|exact IHl].
  - induction d as [|[k x] d IHd]; constructor; [apply IH|exact IHd].
Qed.

Lemma fmap_map {A B} (f : A -> B) (l : list A) : f <$> l = map f l.
Proof. induction l as [|x l IH]; [done|]. by rewrite fmap_cons, IH. Qed.

Section Print.
Context `{PyLib} (o : json_opts).

(** The tree that [json_dumps] prints; [None] where it raises. *)
Fixpoint jtree_of (v : pyval) : option jtree :=
  match v with
  | PNone => Some (JAtom "null")
  | PBool b => Some (JAtom (if b then "true" else "false"))
  | PInt z => Some (JAtom (str_of_Z z))
  | PFloat f => Some (JAtom (json_float f))
  | PStr s => Some (JStr s)
  | PDatetime d => if default_str o then Some (JStr (str_datetime d)) else None
  | PList l =>
      JList <$> (fix go (l : list pyval) : option (list jtree) :=
         match l with
         | [] => Some []
         | x :: l' => y ← jtree_of x; ys ← go l'; Some (y :: ys)
         end) l
  | PDict d =>
      (fun xs => JDict (if sort_keys o then key_sort xs else xs)) <$>
        (fix go (d : list (string * pyval)) : option (list (string * jtree)) :=
           match d with
           | [] => Some []
           | (k, x) :: d' => y ← jtree_of x; ys ← go d'; Some ((k, y) :: ys)
           end) d
  end.

Fixpoint jprint (t : jtree) : string :=
  match t with
  | JAtom s => s
  | JStr s => json_string s
  | JList l => "[" +:+ str_join (item_sep o) (map jprint l) +:+ "]"
  | JDict d => "{" +:+ str_join (item_sep o) (map (fun kv => json_string (fst kv) +:+ key_sep o +:+ jprint (snd kv)) d) +:+ "}"
  end.

Lemma key_insert_map {A B} (f : A -> B) kv l :
  key_insert (fst kv, f (snd kv)) (map (fun kv => (fst kv, f (snd kv))) l) = map (fun kv => (fst kv, f (snd kv))) (key_insert kv l).
Proof.
  induction l as [|kv' l IH]; [done|]. cbn [map key_insert fst snd]. destruct (str_leb _ _); [done|]. cbn. by rewrite IH.
Qed.

Lemma key_sort_map {A B} (f : A -> B) l :
  key_sort (map (fun kv => (fst kv, f (snd kv))) l) = map (fun kv => (fst kv, f (snd kv))) (key_sort l).
Proof.
  induction l as [|kv l IH]; [done|]. unfold key_sort in *. cbn [map foldr]. rewrite IH. by rewrite key_insert_map.
Qed.

(** [json_dumps] prints the tree. *)
Lemma dumps_tree v s : json_dumps o v = Ok s <-> exists t, jtree_of v = Some t /\ s = jprint t.
Proof.
  revert s. revert v. fix IH 1. intros v s. destruct v as [|b|z|f|x|d|l|d]; cbn [json_dumps jtree_of].
  1-5: split; [intros [= <-]; eexists; split; [done|by try destruct b]|intros (t & [= <-] & ->); by try destruct b].
  - destruct (default_str o); [|split; [done|by intros (? & ? & _)]].
    split; [intros [= <-]; by eexists|by intros (t & [= <-] & ->)].
  - set (go1 := fix go (l : list pyval) : res (list string) := _). set (go2 := fix go (l : list pyval) : option (list jtree) := _).
    assert (Hl : forall xs, go1 l = Ok xs <-> exists ts, go2 l = Some ts /\ xs = map jprint ts).
    { induction l as [|x l IHl]; intros xs; cbn [go1 go2].
      - split; [intros [= <-]; by exists []|by intros (ts & [= <-] & ->)].
      - split.
        + intros (y & Hy & E)%rbind_Ok_inv. apply rbind_Ok_inv in E as (ys & Hys & [= <-]).
          apply IH in Hy as (t & -> & ->). apply IHl in Hys as (ts & -> & ->). by exists (t :: ts).
        + intros (ts & E & ->). destruct (jtree_of x) as [t|] eqn:Et; [|done]. cbn in E.
          destruct (go2 l) as [ts'|] eqn:Ets; [|done]. cbn in E. injection E as <-.
          rewrite (proj2 (IH x (jprint t))) by eauto. cbn [rbind].
          rewrite (proj2 (IHl (map jprint ts'))) by eauto. done. }
    split.
    + intros (xs & Hxs & [= <-])%rbind_Ok_inv. apply Hl in Hxs as (ts & -> & ->). by eexists.
    + intros (t & E & ->). destruct (go2 l) as [ts|] eqn:Ets; [|done]. injection E as <-.
      rewrite (proj2 (Hl (map jprint ts))) by eauto. done.
  - set (go1 := fix go (l : list (string * pyval)) : res (list (string * string)) := _).
    set (go2 := fix go (l : list (string * pyval)) : option (list (string * jtree)) := _).
    assert (Hl : forall xs, go1 d = Ok xs <-> exists ts, go2 d = Some ts /\ xs = map (fun kv => (fst kv, jprint (snd kv))) ts).
    { induction d as [|[k x] d IHd]; intros xs; cbn [go1 go2].
      - split; [intros [= <-]; by exists []|by intros (ts & [= <-] & ->)].
      - split.
        + intros (y & Hy & E)%rbind_Ok_inv. apply rbind_Ok_inv in E as (ys & Hys & [= <-]).
          apply IH in Hy as (t & -> & ->). apply IHd in Hys as (ts & -> & ->). by exists ((k, t) :: ts).
        + intros (ts & E & ->). destruct (jtree_of x) as [t|] eqn:Et; [|done]. cbn in E.
          destruct (go2 d) as [ts'|] eqn:Ets; [|done]. cbn in E. injection E as <-.
          rewrite (proj2 (IH x (jprint t))) by eauto. cbn [rbind].
          rewrite (proj2 (IHd (map (fun kv => (fst kv, jprint (snd kv))) ts'))) by eauto. done. }
    assert (Hp : forall ts, (fun kv : string * string => json_string (fst kv) +:+ key_sep o +:+ snd kv) <$>
        (if sort_keys o then key_sort (map (fun kv => (fst kv, jprint (snd kv))) ts) else map (fun kv => (fst kv, jprint (snd kv))) ts)
        = map (fun kv => json_string (fst kv) +:+ key_sep o +:+ jprint (snd kv)) (if sort_keys o then key_sort ts else ts)).
    { intros ts. destruct (sort_keys o); by rewrite ?key_sort_map, fmap_map, map_map. }
    split.
    + intros (xs & Hxs & [= <-])%rbind_Ok_inv. apply Hl in Hxs as (ts & -> & ->). eexists. split; [done|]. by rewrite Hp.
    + intros (t & E & ->). destruct (go2 d) as [ts|] eqn:Ets; [|done]. injection E as <-.
      rewrite (proj2 (Hl (map (fun kv => (fst kv, jprint (snd kv))) ts))) by eauto. cbn [rbind]. by rewrite Hp.
Qed.
End Print.

(** ** Characters *)

(** The characters of numbers and constants. *)
Definition atom_char (c : ascii) : bool :=
  in_range 48 57 c || in_range 65 90 c || in_range 97 122 c || Ascii.eqb c "-" || Ascii.eqb c "+" || Ascii.eqb c ".".
Definition atom_text (s : string) : Prop := s <> "" /\ str_forallb atom_char s = true.

(** What can follow a value: nothing, or a character that no atom has. *)
Definition delimited (k : string) : Prop :=
  match k with EmptyString => True | String c _ => c = ","%char \/ c = "]"%char \/ c = "}"%char end.

Lemma delimited_not_atom c k : delimited (String c k) -> atom_char c = false.
Proof. intros [->|[->| ->]]; reflexivity. Qed.

Lemma atom_split s s' k k' :
  str_forallb atom_char s = true -> str_forallb atom_char s' = true -> delimited k -> delimited k' ->
  s +:+ k = s' +:+ k' -> s = s' /\ k = k'.
Proof.
  revert s'. induction s as [|c s IH]; intros [|c' s'] Hs Hs' Hk Hk'; cbn in *.
  - done.
  - intros ->. apply delimited_not_atom in Hk. apply andb_true_iff in Hs' as [Hs' _]. congruence.
  - intros <-. apply delimited_not_atom in Hk'. apply andb_true_iff in Hs as [Hs _]. congruence.
  - apply andb_true_iff in Hs as [_ Hs]. apply andb_true_iff in Hs' as [_ Hs']. intros [= -> E].
    by destruct (IH s' Hs Hs' Hk Hk' E) as [-> ->].
Qed.

(** *** Escaped strings *)

Definition all_chars : list ascii := map ascii_of_nat (seq 0 256).

Lemma all_chars_complete c : In c all_chars.
Proof.
  unfold all_chars. apply in_map_iff. exists (nat_of_ascii c). split; [apply ascii_nat_embedding|].
  apply in_seq. pose proof (nat_ascii_bounded c). lia.
Qed.

(** No escape is a proper prefix of another, and none starts with a quote. *)
Definition escapes : list (ascii * string) := map (fun c => (c, json_char c)) all_chars.

Lemma escapes_prefix_free c c' : String.prefix (json_char c) (json_char c') = true -> c = c'.
Proof.
  assert (H : (let es := escapes in forallb (fun a => forallb (fun b => implb (String.prefix (snd a) (snd b)) (Ascii.eqb (fst a) (fst b))) es) es) = true)
    by (vm_compute; reflexivity).
  cbv zeta in H. rewrite forallb_forall in H.
  assert (Hin : forall a, In (a, json_char a) escapes) by (intros a; exact (in_map (fun c => (c, json_char c)) _ _ (all_chars_complete a))).
  specialize (H _ (Hin c)). rewrite forallb_forall in H. specialize (H _ (Hin c')). cbn [fst snd] in H.
  intros E. rewrite E in H. by apply Ascii.eqb_eq.
Qed.

Lemma escape_not_quote c : exists d r, json_char c = String d r /\ d <> dquote.
Proof.
  assert (H : forallb (fun a => match json_char a with String d _ => negb (Ascii.eqb d dquote) | _ => false end) all_chars = true)
    by (vm_compute; reflexivity).
  rewrite forallb_forall in H. specialize (H c (all_chars_complete c)). destruct (json_char c) as [|d r]; [done|].
  exists d, r. split; [done|]. intros ->. by rewrite Ascii.eqb_refl in H.
Qed.

Lemma prefix_app a b x y : a +:+ x = b +:+ y -> String.prefix a b = true \/ String.prefix b a = true.
Proof.
  revert b. induction a as [|c a IH]; intros [|d b]; cbn; auto. intros [= <- E].
  destruct (ascii_dec c c); [|done]. by apply IH.
Qed.

Lemma escape_inj c c' x x' : json_char c +:+ x = json_char c' +:+ x' -> c = c' /\ x = x'.
Proof.
  intros E. assert (c = c') as -> by (destruct (prefix_app _ _ _ _ E) as [H|H]; apply escapes_prefix_free in H; congruence).
  split; [done|]. by apply str_append_inj_l in E.
Qed.

Lemma escaped_inj s s' k k' :
  str_flat_map json_char s +:+ String dquote k = str_flat_map json_char s' +:+ String dquote k' -> s = s' /\ k = k'.
Proof.
  revert s'. induction s as [|c s IH]; intros [|c' s']; cbn [str_flat_map].
  - by intros [= ->].
  - intros E. exfalso. destruct (escape_not_quote c') as (d & r & Hd & Hne). rewrite Hd in E. cbn in E. injection E as <- _. done.
  - intros E. exfalso. destruct (escape_not_quote c) as (d & r & Hd & Hne). rewrite Hd in E. cbn in E. injection E as -> _. done.
  - rewrite !str_append_assoc. intros E. apply escape_inj in E as [-> E]. by destruct (IH s' E) as [-> ->].
Qed.

Lemma json_string_inj s s' k k' : json_string s +:+ k = json_string s' +:+ k' -> s = s' /\ k = k'.
Proof.
  unfold json_string. cbn [String.append]. intros [= E]. rewrite !str_append_assoc in E. cbn in E. by apply escaped_inj.
Qed.

(** ** Printing is injective *)

Section Injective.
Variable o : json_opts.
Hypothesis item_sep_comma : exists a, item_sep o = String "," a.

Fixpoint tree_ok (t : jtree) : Prop :=
  match t with
  | JAtom s => atom_text s
  | JStr _ => True
  | JList l => (fix go (l : list jtree) := match l with [] => True | x :: l' => tree_ok x /\ go l' end) l
  | JDict d => (fix go (d : list (string * jtree)) := match d with [] => True | kv :: d' => tree_ok (snd kv) /\ go d' end) d
  end.

Lemma tree_ok_list l : tree_ok (JList l) <-> Forall tree_ok l.
Proof. induction l as [|x l IH]; [split; [constructor|done]|]. rewrite Forall_cons, <- IH. done. Qed.
Lemma tree_ok_dict d : tree_ok (JDict d) <-> Forall (fun kv => tree_ok (snd kv)) d.
Proof. induction d as [|x l IH]; [split; [constructor|done]|]. rewrite Forall_cons, <- IH. done. Qed.

(** The first character tells the kind of a tree, and is no delimiter. *)
Definition head_char (s : string) : option ascii := match s with String c _ => Some c | _ => None end.

Lemma print_head t k : tree_ok t ->
  match t with
  | JAtom _ => exists c, head_char (jprint o t +:+ k) = Some c /\ atom_char c = true
  | JStr _ => head_char (jprint o t +:+ k) = Some dquote
  | JList _ => head_char (jprint o t +:+ k) = Some "["%char
  | JDict _ => head_char (jprint o t +:+ k) = Some "{"%char
  end.
Proof.
  destruct t as [s|s|l|d]; intros Ht; [|done..]. destruct Ht as [Hne Ha]. destruct s as [|c s]; [done|].
  exists c. cbn in Ha. by apply andb_true_iff in Ha as [? _].
Qed.

Lemma print_not_delimited t k : tree_ok t -> ~ delimited (jprint o t +:+ k).
Proof.
  intros Ht Hd. pose proof (print_head t k Ht) as Hh. destruct (jprint o t +:+ k) as [|c r] eqn:E; [by destruct t; destruct Hh as (? & ? & _) || done|].
  cbn in Hh, Hd. destruct t; [destruct Hh as (c' & [= <-] & Hc)|injection Hh as ->..].
  - destruct Hd as [->|[->| ->]]; done.
  - by destruct Hd as [?|[?|?]].
  - by destruct Hd as [?|[?|?]].
  - by destruct Hd as [?|[?|?]].
Qed.

(** Items joined by the separator and closed by [close]. *)
Fixpoint items (close : ascii) (l : list string) (k : string) : string :=
  match l with
  | [] => String close k
  | x :: l' => x +:+ match l' with [] => String close k | _ => item_sep o +:+ items close l' k end
  end.

Lemma join_items close l k : str_join (item_sep o) l +:+ String close k = items close l k.
Proof.
  induction l as [|x [|y l] IH]; [done|done|].
  transitivity (x +:+ item_sep o +:+ (str_join (item_sep o) (y :: l) +:+ String close k)); [|by rewrite IH].
  change (str_join (item_sep o) (x :: y :: l)) with (x +:+ item_sep o +:+ str_join (item_sep o) (y :: l)).
  by rewrite !str_append_assoc.
Qed.

(** Parsing items one by one. *)
Lemma items_inj {A} (pr : A -> string) (ok : A -> Prop) close l l' k k' :
  (close = "]"%char \/ close = "}"%char) ->
  (forall x, x ∈ l -> forall x' r r', ok x' -> delimited r -> delimited r' -> pr x +:+ r = pr x' +:+ r' -> x = x' /\ r = r') ->
  (forall x r, ok x -> ~ delimited (pr x +:+ r)) ->
  Forall ok l -> Forall ok l' ->
  items close (map pr l) k = items close (map pr l') k' -> l = l' /\ k = k'.
Proof using item_sep_comma.
  intros Hcl Hinj Hnd Hl. destruct item_sep_comma as (sep & Hsep).
  assert (Hdc : forall r, delimited (String close r)) by (intros r; destruct Hcl as [->| ->]; cbn; auto).
  assert (Hds : forall r, delimited (item_sep o +:+ r)) by (intros r; rewrite Hsep; by left).
  revert l'. induction l as [|x l IH]; intros l' Hl' E.
  - destruct l' as [|x' l']; [cbn in E; by injection E as <-|]. exfalso. inversion Hl' as [|? ? Hx' _]; subst.
    cbn [map items] in E. eapply (Hnd x'); [done|]. rewrite <- E. apply Hdc.
  - inversion Hl as [|? ? Hx Hl0]; subst. destruct l' as [|x' l'].
    { exfalso. cbn [map items] in E. eapply (Hnd x); [done|]. rewrite E. apply Hdc. }
    inversion Hl' as [|? ? Hx' Hl0']; subst. cbn [map items] in E.
    apply (Hinj x (ltac:(left))) in E as [-> E]; [|done|by destruct l; [apply Hdc|apply Hds]|by destruct l'; [apply Hdc|apply Hds]].
    assert (Hrest : items close (map pr l) k = items close (map pr l') k' \/ (l = [] /\ l' = [] /\ k = k')).
    { destruct l as [|y l], l' as [|y' l']; cbn [map] in E.
      - right. by injection E as ->.
      - exfalso. rewrite Hsep in E. cbn in E. injection E as E _. by destruct Hcl as [-> | ->].
      - exfalso. rewrite Hsep in E. cbn in E. injection E as E _. by destruct Hcl as [-> | ->].
      - left. by apply str_append_inj_l in E. }
    destruct Hrest as [E'|(-> & -> & ->)]; [|done].
    destruct (IH (fun y Hy => Hinj y (ltac:(by right))) Hl0 l' Hl0' E') as [-> ->]. done.
Qed.

(** A printed value in front of a delimiter determines the tree and what follows. *)
Lemma jprint_inj t t' k k' :
  tree_ok t -> tree_ok t' -> delimited k -> delimited k' ->
  jprint o t +:+ k = jprint o t' +:+ k' -> t = t' /\ k = k'.
Proof using item_sep_comma.
  revert t' k k'. induction t as [s|s|l IH|d IH] using jtree_rect'; intros t' k k' Ht Ht' Hk Hk' E;
    pose proof (print_head _ k Ht) as Hh; pose proof (print_head _ k' Ht') as Hh'; rewrite E in Hh; cbn in Hh;
    destruct t' as [s'|s'|l'|d']; cbn [jprint] in *;
    try (destruct Hh as (c & Hh & Hc)); try (destruct Hh' as (c' & Hh' & Hc')); try congruence;
    try (exfalso; rewrite Hh in Hh'; injection Hh'; intros; subst; done).
  - destruct Ht as [_ Ht], Ht' as [_ Ht']. by destruct (atom_split s s' k k' Ht Ht' Hk Hk' E) as [-> ->].
  - by apply json_string_inj in E as [-> ->].
  - cbn [String.append] in E. injection E as E. rewrite !str_append_assoc in E. cbn [String.append] in E. rewrite !join_items in E.
    apply (items_inj (jprint o) tree_ok) in E as [-> ->]; [done|by left| |by intros; apply print_not_delimited|by apply tree_ok_list..].
    intros x Hx x' r r' Hx' Hr Hr' Ex. rewrite Forall_forall in IH. apply (IH x Hx); try done.
    apply tree_ok_list in Ht. rewrite Forall_forall in Ht. by apply Ht.
  - cbn [String.append] in E. injection E as E. rewrite !str_append_assoc in E. cbn [String.append] in E. rewrite !join_items in E.
    apply (items_inj (fun kv => json_string (fst kv) +:+ key_sep o +:+ jprint o (snd kv)) (fun kv => tree_ok (snd kv))) in E as [-> ->];
      [done|by right| | |by apply tree_ok_dict..].
    + intros [q x] Hx [q' x'] r r' Hx' Hr Hr' Ex. cbn [fst snd] in *. rewrite !str_append_assoc in Ex. apply json_string_inj in Ex as [-> Ex].
      apply str_append_inj_l in Ex. rewrite Forall_forall in IH. apply tree_ok_dict in Ht. rewrite Forall_forall in Ht.
      destruct (IH (q', x) Hx x' r r' (Ht _ Hx) Hx' Hr Hr' Ex) as [E1 ->]. cbn [snd] in E1. by rewrite E1.
    + intros [q x] r _ Hd. by destruct Hd as [?|[?|?]].
Qed.
End Injective.

(** ** The trees of values *)

Lemma forallb_str_rep n c : atom_char c = true -> str_forallb atom_char (str_rep n c) = true.
Proof. intros Hc. induction n as [|n IH]; cbn; [done|]. by rewrite Hc. Qed.

Lemma forallb_take n s : str_forallb atom_char s = true -> str_forallb atom_char (str_take n s) = true.
Proof. revert n. induction s as [|c s IH]; intros [|n]; cbn; try done. intros [-> H]%andb_true_iff. by apply IH. Qed.

Lemma forallb_drop n s : str_forallb atom_char s = true -> str_forallb atom_char (str_drop n s) = true.
Proof. revert n. induction s as [|c s IH]; intros [|n]; cbn; try done. intros [_ H]%andb_true_iff. by apply IH. Qed.

Lemma uint_atom d : str_forallb atom_char (NilEmpty.string_of_uint d) = true.
Proof. induction d; cbn; done. Qed.

Lemma str_of_Z_atom z : atom_text (str_of_Z z).
Proof.
  unfold str_of_Z, atom_text. destruct z as [|p|p]; cbn [Z.to_int]; [done|..]; unfold NilZero.string_of_int, NilZero.string_of_uint.
  - pose proof (uint_atom (Pos.to_uint p)). destruct (Pos.to_uint p); (split; [done|]); done.
  - pose proof (uint_atom (Pos.to_uint p)). destruct (Pos.to_uint p); (split; [done|]); cbn in *; done.
Qed.

Lemma atom_app a b : str_forallb atom_char a = true -> str_forallb atom_char b = true -> str_forallb atom_char (a +:+ b) = true.
Proof. intros Ha Hb. by rewrite str_forallb_append, Ha, Hb. Qed.

Lemma zfill_atom w s : str_forallb atom_char s = true -> str_forallb atom_char (zfill w s) = true.
Proof.
  intros Hs. unfold zfill. destruct s as [|c s]; [by apply forallb_str_rep|]. destruct (_ || _).
  - cbn [str_forallb] in *. apply andb_true_iff in Hs as [-> Hs]. apply atom_app; [by apply forallb_str_rep|done].
  - apply atom_app; [by apply forallb_str_rep|done].
Qed.

Lemma repr_pos_atom x m e : str_forallb atom_char (repr_pos x m e) = true.
Proof.
  unfold repr_pos. destruct (as_fraction _ _) as [num den]. destruct (shortest _ _ _ _ _ _) as [d0 e0].
  destruct (trim_zeros _ _ _) as [d e10]. cbv zeta.
  pose proof (proj2 (str_of_Z_atom d)) as Hd. pose proof (proj2 (str_of_Z_atom (Z.abs (Z.of_nat (slen (str_of_Z d)) + e10 - 1)))) as He.
  destruct (_ || _); [|destruct (_ <=? _)%Z; [|destruct (_ <=? _)%Z]].
  - apply atom_app; [|apply atom_app; [done|]; apply atom_app; [by destruct (_ <? _)%Z|by apply zfill_atom]].
    destruct (str_of_Z d) as [|c [|c' r]]; [done|done|]. cbn [str_forallb] in *. apply andb_true_iff in Hd as [-> Hd].
    cbn. by rewrite Hd.
  - repeat apply atom_app; [done|by apply forallb_str_rep|done].
  - repeat apply atom_app; [done|by apply forallb_str_rep|done].
  - repeat apply atom_app; [by apply forallb_take|done|by apply forallb_drop].
Qed.

Lemma repr_pos_ne x m e : repr_pos x m e <> "".
Proof.
  unfold repr_pos. destruct (as_fraction _ _) as [num den]. destruct (shortest _ _ _ _ _ _) as [d0 e0].
  destruct (trim_zeros _ _ _) as [d e10]. cbv zeta. pose proof (proj1 (str_of_Z_atom d)) as Hd.
  destruct (_ || _); [|destruct (_ <=? _)%Z; [|destruct (_ <=? _)%Z]].
  - destruct (str_of_Z d) as [|c [|c' r]]; done.
  - done.
  - destruct (str_of_Z d); done.
  - destruct (str_take _ _); done.
Qed.

Lemma json_float_atom f : atom_text (json_float f).
Proof.
  destruct f as [[]|[]| |[] m e]; try (split; done); cbn [json_float repr_float].
  - split; [done|]. apply atom_app; [done|]. apply repr_pos_atom.
  - split; [apply repr_pos_ne|apply repr_pos_atom].
Qed.

Lemma key_insert_perm {A} (kv : string * A) l : key_insert kv l ≡ₚ kv :: l.
Proof.
  induction l as [|x l IH]; cbn; [done|]. destruct (str_leb _ _); [done|]. rewrite IH. apply Permutation_swap.
Qed.
Lemma key_sort_perm {A} (l : list (string * A)) : key_sort l ≡ₚ l.
Proof. induction l as [|kv l IH]; [done|]. unfold key_sort in *. cbn [foldr]. by rewrite key_insert_perm, IH. Qed.

Section Values.
Context `{PyLib} (o : json_opts).

Definition tree_list (l : list pyval) : option (list jtree) :=
  (fix go (l : list pyval) : option (list jtree) :=
     match l with [] => Some [] | x :: l' => y ← jtree_of o x; ys ← go l'; Some (y :: ys) end) l.
Definition tree_items (d : pydict) : option (list (string * jtree)) :=
  (fix go (d : list (string * pyval)) : option (list (string * jtree)) :=
     match d with [] => Some [] | (k, x) :: d' => y ← jtree_of o x; ys ← go d'; Some ((k, y) :: ys) end) d.

Lemma jtree_of_ok v t : jtree_of o v = Some t -> tree_ok t.
Proof.
  revert v t. fix IH 1. intros v t. destruct v as [|b|z|f|x|d|l|d]; cbn [jtree_of].
  - intros [= <-]. by split.
  - intros [= <-]. by destruct b.
  - intros [= <-]. apply str_of_Z_atom.
  - intros [= <-]. apply json_float_atom.
  - by intros [= <-].
  - destruct (default_str o); [by intros [= <-]|done].
  - change (JList <$> tree_list l = Some t -> tree_ok t). intros E. destruct (tree_list l) as [ts|] eqn:Ets; [|done].
    injection E as <-. apply tree_ok_list. revert ts Ets. induction l as [|y l IHl]; intros ts.
    + intros [= <-]. constructor.
    + pose proof (IH y) as IHy. change (tree_list (y :: l)) with (y ← jtree_of o y; ys ← tree_list l; Some (y :: ys)).
      destruct (jtree_of o y) as [ty|]; [|done]. destruct (tree_list l) as [tl|]; [|done]. cbn. intros [= <-].
      constructor; [by apply IHy|by apply IHl].
  - change ((fun xs => JDict (if sort_keys o then key_sort xs else xs)) <$> tree_items d = Some t -> tree_ok t).
    intros E. destruct (tree_items d) as [ts|] eqn:Ets; [|done]. injection E as <-.
    apply tree_ok_dict. assert (Hf : Forall (fun kv => tree_ok (snd kv)) ts).
    { revert ts Ets. induction d as [|[k y] d IHd]; intros ts.
      - intros [= <-]. constructor.
      - pose proof (IH y) as IHy. change (tree_items ((k, y) :: d)) with (x ← jtree_of o y; ys ← tree_items d; Some ((k, x) :: ys)).
        destruct (jtree_of o y) as [ty|]; [|done]. destruct (tree_items d) as [tl|]; [|done]. cbn. intros [= <-].
        constructor; [by apply IHy|by apply IHd]. }
    destruct (sort_keys o); [|done]. by rewrite key_sort_perm.
Qed.

(** Equal texts print equal trees. *)
Lemma json_dumps_inj v v' s :
  (exists a, item_sep o = String "," a) -> json_dumps o v = Ok s -> json_dumps o v' = Ok s ->
  jtree_of o v = jtree_of o v'.
Proof.
  intros Hc (t & Ht & ->)%dumps_tree (t' & Ht' & E)%dumps_tree. rewrite Ht, Ht'. f_equal.
  apply (jprint_inj o Hc t t' "" ""); [by eapply jtree_of_ok|by eapply jtree_of_ok|done|done|].
  by rewrite !str_append_nil_r.
Qed.

Lemma tree_items_elem d ts k t :
  tree_items d = Some ts -> NoDup (fst <$> d) ->
  ((k, t) ∈ ts <-> exists v, dict_lookup k d = Some v /\ jtree_of o v = Some t).
Proof.
  revert ts. induction d as [|[k' y] d IH]; intros ts.
  - intros [= <-] _. split; [by intros ?%not_elem_of_nil|by intros (? & ? & _)].
  - change (tree_items ((k', y) :: d)) with (x ← jtree_of o y; ys ← tree_items d; Some ((k', x) :: ys)).
    destruct (jtree_of o y) as [ty|] eqn:Ey; [|done]. destruct (tree_items d) as [tl|]; [|done]. cbn. intros [= <-] [Hn Hd]%NoDup_cons.
    rewrite elem_of_cons, IH by done. destruct (String.eqb_spec k k') as [->|Hne].
    + split.
      * intros [[= ->]|(v & Hv & _)]; [by exists y|]. exfalso. apply Hn. clear -Hv. induction d as [|[a b] d IHd]; [done|].
        cbn in *. destruct (String.eqb_spec k' a) as [->|]; [left|right; by apply IHd].
      * intros (v & [= <-] & Hv). left. congruence.
    + split; [intros [[= ? ?]|?]; [done|done]|by right].
Qed.

(** Two dictionaries with one text agree on the printed form of every key. *)
Lemma dumps_dict_field d d' s k :
  (exists a, item_sep o = String "," a) -> NoDup (fst <$> d) -> NoDup (fst <$> d') ->
  json_dumps o (PDict d) = Ok s -> json_dumps o (PDict d') = Ok s ->
  dict_lookup k d ≫= jtree_of o = dict_lookup k d' ≫= jtree_of o /\ (dict_lookup k d = None <-> dict_lookup k d' = None).
Proof.
  intros Hc Hnd Hnd' Hs Hs'. pose proof (json_dumps_inj _ _ _ Hc Hs Hs') as E.
  apply dumps_tree in Hs as (t & Ht & _). rewrite Ht in E. symmetry in E. cbn [jtree_of] in Ht, E.
  change ((fun xs => JDict (if sort_keys o then key_sort xs else xs)) <$> tree_items d = Some t) in Ht.
  change ((fun xs => JDict (if sort_keys o then key_sort xs else xs)) <$> tree_items d' = Some t) in E.
  destruct (tree_items d) as [ts|] eqn:E1; [|done]. destruct (tree_items d') as [ts'|] eqn:E2; [|done].
  injection Ht as <-. injection E as E.
  assert (Hp : ts ≡ₚ ts') by (destruct (sort_keys o); [by rewrite <- (key_sort_perm ts), <- E, key_sort_perm|by rewrite E]).
  assert (Hall : forall d ts v, tree_items d = Some ts -> dict_lookup k d = Some v -> is_Some (jtree_of o v)).
  { clear. intros d. induction d as [|[k' y] d IH]; [done|]. intros ts v.
    change (tree_items ((k', y) :: d)) with (x ← jtree_of o y; ys ← tree_items d; Some ((k', x) :: ys)).
    destruct (jtree_of o y) as [ty|] eqn:Ey; [|done]. destruct (tree_items d) as [tl|]; [|done]. cbn. intros _.
    destruct (String.eqb k k'); [intros [= <-]; by rewrite Ey|by eapply IH]. }
  assert (Hkey : forall t, (exists v, dict_lookup k d = Some v /\ jtree_of o v = Some t) <-> (exists v, dict_lookup k d' = Some v /\ jtree_of o v = Some t)).
  { intros t. rewrite <- (tree_items_elem d ts), <- (tree_items_elem d' ts') by done. by rewrite Hp. }
  destruct (dict_lookup k d) as [v|] eqn:L1, (dict_lookup k d') as [v'|] eqn:L2; cbn.
  - destruct (Hall d ts v E1 L1) as [t Hv]. destruct (proj1 (Hkey t)) as (v2 & [= <-] & Hv2); [by eauto|]. by rewrite Hv, Hv2.
  - destruct (Hall d ts v E1 L1) as [t Hv]. destruct (proj1 (Hkey t)) as (v2 & ? & _); [by eauto|done].
  - destruct (Hall d' ts' v' E2 L2) as [t Hv]. destruct (proj2 (Hkey t)) as (v2 & ? & _); [by eauto|done].
  - done.
Qed.
(** [default=str] makes [json.dumps] total on the values of the model. *)
Lemma dumps_str_total v : default_str o = true -> exists s, json_dumps o v = Ok s.
Proof.
  intros Ho. enough (exists t, jtree_of o v = Some t) as [t Ht] by (exists (jprint o t); apply dumps_tree; by exists t).
  revert v. fix IH 1. intros [|b|z|f|x|d|l|d]; cbn [jtree_of]; try by eexists.
  - rewrite Ho. by eexists.
  - change (exists t, JList <$> tree_list l = Some t). enough (exists ts, tree_list l = Some ts) as [ts ->] by by eexists.
    induction l as [|x l [ts IHl]]; [by eexists|]. destruct (IH x) as [t Ht].
    change (tree_list (x :: l)) with (y ← jtree_of o x; ys ← tree_list l; Some (y :: ys)). rewrite Ht, IHl. by eexists.
  - change (exists t, (fun xs => JDict (if sort_keys o then key_sort xs else xs)) <$> tree_items d = Some t).
    enough (exists ts, tree_items d = Some ts) as [ts ->] by by eexists.
    induction d as [|[k x] d [ts IHd]]; [by eexists|]. destruct (IH x) as [t Ht].
    change (tree_items ((k, x) :: d)) with (y ← jtree_of o x; ys ← tree_items d; Some ((k, y) :: ys)).
    rewrite Ht, IHd. by eexists.
Qed.
End Values.
