(* ===== verification/Sha256.v ===== *)
(** * SHA-256

    [hashlib.sha256(s.encode("utf-8")).hexdigest()], executable, with the two facts the other
    components use: a digest is always 64 lowercase hexadecimal characters, and what it means for
    a set of inputs to be free of collisions. *)

From Stdlib Require Import ZArith Lia String Ascii.
From stdpp Require Import base list strings.
From S2P Require Import Prelude PyStr PyVal.

Local Open Scope Z_scope.

(** ** Words *)

(** Reduction modulo 2^32, as a mask. *)
Definition w32 (x : Z) : Z := Z.land x 0xffffffff.
Definition add32 (x y : Z) : Z := w32 (x + y).
Definition rotr (n x : Z) : Z := Z.lor (Z.shiftr x n) (w32 (Z.shiftl x (32 - n))).
Definition xor3 (a b c : Z) : Z := Z.lxor a (Z.lxor b c).

Definition ch (x y z : Z) : Z := Z.lxor (Z.land x y) (Z.land (Z.lxor x 0xffffffff) z).
Definition maj (x y z : Z) : Z := xor3 (Z.land x y) (Z.land x z) (Z.land y z).
Definition bsig0 (x : Z) : Z := xor3 (rotr 2 x) (rotr 13 x) (rotr 22 x).
Definition bsig1 (x : Z) : Z := xor3 (rotr 6 x) (rotr 11 x) (rotr 25 x).
Definition ssig0 (x : Z) : Z := xor3 (rotr 7 x) (rotr 18 x) (Z.shiftr x 3).
Definition ssig1 (x : Z) : Z := xor3 (rotr 17 x) (rotr 19 x) (Z.shiftr x 10).

(** The standard's constants, as it defines them: the first 32 fractional bits of the cube roots of
    the first 64 primes, and of the square roots of the first eight. *)
Definition is_prime (n : nat) : bool :=
  (2 <=? n)%nat && forallb (fun d => negb (n mod d =? 0)%nat) (seq 2 (n - 2)).
Definition primes_below (n : nat) : list Z := Z.of_nat <$> List.filter is_prime (seq 0 n).

(** The largest [r < 2^bits] with [r^e <= x], bit by bit. *)
Fixpoint iroot (e : Z) (bits : nat) (x r : Z) : Z :=
  match bits with
  | O => r
  | S k => let r' := r + 2 ^ Z.of_nat k in iroot e k x (if r' ^ e <=? x then r' else r)
  end.
Definition frac_root (e p : Z) : Z := w32 (iroot e 36 (p * 2 ^ (32 * e)) 0).

Definition K256 : list Z := Eval vm_compute in (frac_root 3 <$> primes_below 312).

Record hstate := HState { ha : Z; hb : Z; hc : Z; hd : Z; he : Z; hf : Z; hg : Z; hh : Z }.

Definition H256 : hstate := Eval vm_compute in
  match frac_root 2 <$> primes_below 20 with
  | [a; b; c; d; e; f; g; h] => HState a b c d e f g h
  | _ => HState 0 0 0 0 0 0 0 0
  end.

(** ** Blocks *)

(** UTF-8 of the code points below 256. *)
Fixpoint utf8 (s : string) : list Z :=
  match s with
  | EmptyString => []
  | String c s' =>
      let n := Z.of_nat (code c) in
      (if n <? 128 then [n] else [192 + n / 64; 128 + n mod 64]) ++ utf8 s'
  end.

Fixpoint be_bytes (n : nat) (x : Z) : list Z :=
  match n with
  | O => []
  | S k => (x / 256 ^ Z.of_nat k) mod 256 :: be_bytes k x
  end.

Definition pad (m : list Z) : list Z :=
  let l := Z.of_nat (length m) in
  m ++ [128] ++ replicate (Z.to_nat ((119 - l mod 64) mod 64)) 0 ++ be_bytes 8 (8 * l).

Fixpoint words (m : list Z) : list Z :=
  match m with
  | a :: b :: c :: d :: r => ((a * 256 + b) * 256 + c) * 256 + d :: words r
  | _ => []
  end.

(** The message schedule, newest word first. *)
Fixpoint schedule (n : nat) (w : list Z) : list Z :=
  match n with
  | O => w
  | S k =>
      let x i := nth i w 0 in
      schedule k (add32 (add32 (ssig1 (x 1%nat)) (x 6%nat)) (add32 (ssig0 (x 14%nat)) (x 15%nat)) :: w)
  end.

Definition round (st : hstate) (kw : Z * Z) : hstate :=
  let '(k, w) := kw in
  let t1 := add32 (add32 (hh st) (bsig1 (he st))) (add32 (ch (he st) (hf st) (hg st)) (add32 k w)) in
  let t2 := add32 (bsig0 (ha st)) (maj (ha st) (hb st) (hc st)) in
  HState (add32 t1 t2) (ha st) (hb st) (hc st) (add32 (hd st) t1) (he st) (hf st) (hg st).

Definition compress (st : hstate) (block : list Z) : hstate :=
  let ws := rev (schedule 48 (rev block)) in
  let r := fold_left round (combine K256 ws) st in
  HState (add32 (ha st) (ha r)) (add32 (hb st) (hb r)) (add32 (hc st) (hc r)) (add32 (hd st) (hd r))
         (add32 (he st) (he r)) (add32 (hf st) (hf r)) (add32 (hg st) (hg r)) (add32 (hh st) (hh r)).

Fixpoint blocks (fuel : nat) (st : hstate) (ws : list Z) : hstate :=
  match fuel with
  | O => st
  | S k =>
      match ws with
      | [] => st
      | _ => blocks k (compress st (take 16 ws)) (drop 16 ws)
      end
  end.

Definition sha256 (m : list Z) : list Z :=
  let ws := words (pad m) in
  let st := blocks (length ws) H256 ws in
  [ha st; hb st; hc st; hd st; he st; hf st; hg st; hh st].

(** ** Hexadecimal *)

Fixpoint hex_word (n : nat) (x : Z) : string :=
  match n with
  | O => EmptyString
  | S k => String (hex_digit (Z.to_nat ((x / 16 ^ Z.of_nat k) mod 16))) (hex_word k x)
  end.

Fixpoint hex_words (ws : list Z) : string :=
  match ws with
  | [] => EmptyString
  | w :: r => String.append (hex_word 8 w) (hex_words r)
  end.

(** [hashlib.sha256(s.encode("utf-8")).hexdigest()]. *)
Definition sha256_hex (s : string) : string := hex_words (sha256 (utf8 s)).

Example sha256_empty :
  sha256_hex "" = "e3b0c44298fc1c149afbf4c8996fb92427ae41e4649b934ca495991b7852b855"%string.
Proof. vm_compute. reflexivity. Qed.

Example sha256_abc :
  sha256_hex "abc" = "ba7816bf8f01cfea414140de5dae2223b00361a396177a9cb410ff61f20015ad"%string.
Proof. vm_compute. reflexivity. Qed.

Example sha256_two_blocks :
  sha256_hex "abcdbcdecdefdefgefghfghighijhijkijkljklmklmnlmnomnopnopq"
  = "248d6a61d20638b8e5c026930c3e6039a33ce45964ff2167f6ecedd419db06c1"%string.
Proof. vm_compute. reflexivity. Qed.

(** ** The shape of a digest *)

Definition is_hex (c : ascii) : bool := in_range 48 57 c || in_range 97 102 c.

(** A lowercase hexadecimal digest of 64 characters. *)
Definition hex64 (s : string) : Prop := slen s = 64%nat /\ str_forallb is_hex s = true.

Lemma hex_digit_is_hex n : (n < 16)%nat -> is_hex (hex_digit n) = true.
Proof. intros H. do 16 (destruct n as [|n]; [reflexivity|]). lia. Qed.

Lemma hex_word_hex n x : str_forallb is_hex (hex_word n x) = true.
Proof.
  induction n as [|n IH]; [done|]. cbn [hex_word str_forallb].
  rewrite IH, andb_true_r. apply hex_digit_is_hex.
  pose proof (Z.mod_pos_bound (x / 16 ^ Z.of_nat n) 16). lia.
Qed.

Lemma slen_hex_word n x : slen (hex_word n x) = n.
Proof. unfold slen. induction n as [|n IH]; [done|]. cbn. by rewrite IH. Qed.

Lemma hex_words_shape ws :
  slen (hex_words ws) = (8 * length ws)%nat /\ str_forallb is_hex (hex_words ws) = true.
Proof.
  induction ws as [|w ws [IHl IHh]]; [done|]. cbn [hex_words length].
  rewrite slen_append, slen_hex_word, str_forallb_append, hex_word_hex, IHl, IHh.
  split; [lia | done].
Qed.

Lemma sha256_hex64 s : hex64 (sha256_hex s).
Proof. unfold sha256_hex. apply (hex_words_shape (sha256 (utf8 s))). Qed.

#[export] Hint Resolve sha256_hex64 : reg.

(** ** Collisions

    No hash function is injective; what the integrity arguments need is that the finitely many
    strings hashed in the situation at hand do not collide.  Both sides are explicit lists, so the
    premise is decidable on concrete data. *)

Definition no_collision (xs ys : list string) : Prop :=
  forall x y, x ∈ xs -> y ∈ ys -> sha256_hex x = sha256_hex y -> x = y.

Definition no_collision_b (xs ys : list string) : bool :=
  let hx := map (fun x => (x, sha256_hex x)) xs in
  let hy := map (fun y => (y, sha256_hex y)) ys in
  forallb (fun p => forallb (fun q => negb (String.eqb (snd p) (snd q)) || String.eqb (fst p) (fst q)) hy) hx.

Lemma no_collision_b_ok xs ys : no_collision_b xs ys = true -> no_collision xs ys.
Proof.
  unfold no_collision_b, no_collision. intros H x y Hx Hy E.
  rewrite list_elem_of_In in Hx, Hy. rewrite forallb_forall in H.
  specialize (H _ (in_map (fun x => (x, sha256_hex x)) _ _ Hx)). rewrite forallb_forall in H.
  specialize (H _ (in_map (fun y => (y, sha256_hex y)) _ _ Hy)). cbn [fst snd] in H.
  rewrite E, String.eqb_refl in H. cbn in H. by apply String.eqb_eq.
Qed.

Lemma no_collision_sub xs ys xs' ys' :
  no_collision xs ys -> xs' ⊆ xs -> ys' ⊆ ys -> no_collision xs' ys'.
Proof. intros H Hx Hy x y Hix Hiy. apply H; auto. Qed.

Global Opaque sha256_hex.
