(* ===== verification/Hmac.v ===== *)
(** * HMAC-SHA256

    [hmac.new(key, data, sha256).hexdigest()] on the executable SHA-256, checked on a test vector of
    RFC 4231, and [hmac.compare_digest], which accepts ASCII texts only. *)

From Stdlib Require Import ZArith Lia String Ascii.
From stdpp Require Import base list strings.
From S2P Require Import Prelude PyStr Sha256.

Local Open Scope string_scope.

Definition digest_bytes (ws : list Z) : list Z := flat_map (be_bytes 4) ws.

Definition hmac_key (key : list Z) : list Z :=
  let k := if (64 <? length key)%nat then digest_bytes (sha256 key) else key in
  (k ++ replicate (64 - length k) 0%Z)%list.

(** [hmac.new(key, data, hashlib.sha256).hexdigest()]. *)
Definition hmac_sha256_hex (key data : string) : string :=
  let k := hmac_key (utf8 key) in
  let inner := sha256 ((Z.lxor 0x36 <$> k) ++ utf8 data)%list in
  hex_words (sha256 ((Z.lxor 0x5c <$> k) ++ digest_bytes inner)%list).

Example hmac_vector :
  hmac_sha256_hex "Jefe" "what do ya want for nothing?" = "5bdcc146bf60754e6a042426089575c75a003f089d2739839dec58b964ec3843".
Proof. vm_compute. reflexivity. Qed.

Lemma hmac_hex64 k s : hex64 (hmac_sha256_hex k s).
Proof. unfold hmac_sha256_hex. cbv zeta. apply (hex_words_shape (sha256 _)). Qed.

Global Opaque hmac_sha256_hex.

Definition is_ascii (s : string) : bool := str_forallb (fun c => (code c <? 128)%nat) s.

(** [hmac.compare_digest] on texts. *)
Definition compare_digest (a b : string) : res bool :=
  if is_ascii a && is_ascii b then Ok (String.eqb a b)
  else Raise (TypeError "comparing strings with non-ASCII characters is not supported").

Lemma hex_ascii s : str_forallb is_hex s = true -> is_ascii s = true.
Proof.
  assert (Hc : forall c, is_hex c = true -> (code c <? 128)%nat = true).
  { intros c Hc. apply Nat.ltb_lt. unfold is_hex, in_range in Hc. apply orb_true_iff in Hc as [Hc|Hc];
      apply andb_true_iff in Hc as [_ Hc%Nat.leb_le]; lia. }
  unfold is_ascii. induction s as [|c s IH]; cbn [str_forallb]; [done|]. intros [Hh Hs]%andb_true_iff.
  by rewrite (Hc c Hh), (IH Hs).
Qed.
