(* ===== verification/JsonRead.v ===== *)
(** * json.loads

    CPython's JSON reader on texts: white space, constants, numbers, escaped strings, arrays and
    objects, with the later of two equal keys winning.  Positions are left out of the messages of
    [JSONDecodeError], and nesting is not limited.  An escape above [\u00ff] denotes a character that
    the strings of this library do not have; reading one raises.

    The reader recurses on a fuel that is computed from the length of the text: [json_loads_fuel]
    shows that it never runs out.  [json_loads_dumps] is the round trip with [Json.json_dumps]. *)

From Stdlib Require Import ZArith Lia String Ascii.
From Stdlib Require Import DecimalString.
From Corelib Require Import SpecFloat.
From stdpp Require Import base list strings.
From S2P Require Import Prelude PyStr PyFloat PyVal Json JsonText Sha256 Hmac.

Local Open Scope string_scope.

Definition JSONDecodeError (m : string) : exn := Exn "JSONDecodeError" m.
Definition expecting_value {A} : res A := Raise (JSONDecodeError "Expecting value").
(** The reader has run out of fuel. *)
Definition out_of_fuel : exn := Exn "Fuel" "".

Definition json_space (c : ascii) : bool :=
  Ascii.eqb c " " || Ascii.eqb c "009" || Ascii.eqb c "010" || Ascii.eqb c "013".
Definition skip_ws (s : string) : string := lstrip json_space s.

Definition hex_val (c : ascii) : option nat :=
  if in_range 48 57 c then Some (code c - 48)%nat
  else if in_range 97 102 c then Some (code c - 87)%nat
  else if in_range 65 70 c then Some (code c - 55)%nat
  else None.

(** The character of a one-letter escape. *)
Definition simple_escape (c : ascii) : option ascii :=
  if Ascii.eqb c dquote then Some dquote
  else if Ascii.eqb c "\" then Some "\"%char
  else if Ascii.eqb c "/" then Some "/"%char
  else if Ascii.eqb c "b" then Some (char 8)
  else if Ascii.eqb c "f" then Some (char 12)
  else if Ascii.eqb c "n" then Some (char 10)
  else if Ascii.eqb c "r" then Some (char 13)
  else if Ascii.eqb c "t" then Some (char 9)
  else None.

Definition cons_char (c : ascii) (r : res (string * string)) : res (string * string) :=
  do '(t, k) <- r; Ok (String c t, k).

(** The rest of a string literal: its value, and the text after the closing quote. *)
Fixpoint scan_string (s : string) : res (string * string) :=
  match s with
  | "" => Raise (JSONDecodeError "Unterminated string starting at")
  | String c s' =>
      if Ascii.eqb c dquote then Ok ("", s')
      else if Ascii.eqb c "\" then
        match s' with
        | "" => Raise (JSONDecodeError "Unterminated string starting at")
        | String e s'' =>
            if Ascii.eqb e "u" then
              match s'' with
              | String h1 (String h2 (String h3 (String h4 r))) =>
                  match hex_val h1, hex_val h2, hex_val h3, hex_val h4 with
                  | Some a, Some b, Some c', Some d =>
                      if (a =? 0)%nat && (b =? 0)%nat then cons_char (char (16 * c' + d)) (scan_string r)
                      else Raise (Exn "UnicodeError" "character outside the first 256 code points")
                  | _, _, _, _ => Raise (JSONDecodeError "Invalid \uXXXX escape")
                  end
              | _ => Raise (JSONDecodeError "Invalid \uXXXX escape")
              end
            else match simple_escape e with
                 | Some x => cons_char x (scan_string s'')
                 | None => Raise (JSONDecodeError "Invalid \escape")
                 end
        end
      else if (code c <? 32)%nat then Raise (JSONDecodeError "Invalid control character at")
      else cons_char c (scan_string s')
  end.

(** The longest prefix of decimal digits, and the rest. *)
Fixpoint take_digits (s : string) : string * string :=
  match s with
  | String c s' => if is_decimal c then let '(d, r) := take_digits s' in (String c d, r) else ("", s)
  | "" => ("", "")
  end.

(** An integer without leading zeros. *)
Definition scan_integer (s : string) : option (string * string) :=
  match s with
  | String c s' =>
      if Ascii.eqb c "0" then Some ("0", s')
      else if is_decimal c then Some (take_digits s) else None
  | "" => None
  end.

(** An optional fraction. *)
Definition scan_fraction (s : string) : string * string :=
  match s with
  | String c s' =>
      if Ascii.eqb c "." then match take_digits s' with ("", _) => ("", s) | (d, r) => (String c d, r) end
      else ("", s)
  | "" => ("", "")
  end.

(** An optional exponent. *)
Definition scan_exponent (s : string) : string * string :=
  match s with
  | String c s' =>
      if Ascii.eqb c "e" || Ascii.eqb c "E" then
        let '(sign, ds) := match s' with
                           | String g r => if Ascii.eqb g "-" || Ascii.eqb g "+" then (String g "", r) else ("", s')
                           | "" => ("", "")
                           end in
        match take_digits ds with ("", _) => ("", s) | (d, r) => (String c (sign +:+ d), r) end
      else ("", s)
  | "" => ("", "")
  end.

Definition read_int (text : string) : res pyval :=
  match NilZero.int_of_string text with Some i => Ok (PInt (Z.of_int i)) | None => expecting_value end.

Definition scan_number (s : string) : res (pyval * string) :=
  let '(sign, u) := match s with
                    | String c s' => if Ascii.eqb c "-" then ("-", s') else ("", s)
                    | "" => ("", "")
                    end in
  match scan_integer u with
  | None => expecting_value
  | Some (i, r) =>
      let '(f, r') := scan_fraction r in
      let '(x, r'') := scan_exponent r' in
      if String.eqb f "" && String.eqb x "" then do v <- read_int (sign +:+ i); Ok (v, r'')
      else match parse_float (sign +:+ i +:+ f +:+ x) with
           | Some y => Ok (PFloat y, r'')
           | None => expecting_value
           end
  end.

(** A constant that the text starts with, or a number. *)
Definition constants : list (string * pyval) :=
  [("null", PNone); ("true", PBool true); ("false", PBool false); ("NaN", PFloat S754_nan);
   ("Infinity", PFloat (f_inf false)); ("-Infinity", PFloat (f_inf true))].

Definition scan_atom (s : string) : res (pyval * string) :=
  match List.find (fun kv => startswith s (fst kv)) constants with
  | Some (name, v) => Ok (v, str_drop (slen name) s)
  | None => scan_number s
  end.

(** [dict(pairs)]. *)
Definition dict_of_pairs (l : list (string * pyval)) : pydict := fold_left (fun d kv => dict_set (fst kv) (snd kv) d) l [].

Fixpoint scan_once (n : nat) (s : string) : res (pyval * string) :=
  match n with
  | O => Raise out_of_fuel
  | S n =>
      match s with
      | "" => expecting_value
      | String c s' =>
          if Ascii.eqb c dquote then do '(t, r) <- scan_string s'; Ok (PStr t, r)
          else if Ascii.eqb c "{" then
            match skip_ws s' with
            | String d r => if Ascii.eqb d "}" then Ok (PDict [], r)
                            else do '(l, k) <- scan_members n (String d r); Ok (PDict (dict_of_pairs l), k)
            | "" => Raise (JSONDecodeError "Expecting property name enclosed in double quotes")
            end
          else if Ascii.eqb c "[" then
            match skip_ws s' with
            | String d r => if Ascii.eqb d "]" then Ok (PList [], r)
                            else do '(l, k) <- scan_items n (String d r); Ok (PList l, k)
            | "" => expecting_value
            end
          else scan_atom s
      end
  end
with scan_items (n : nat) (s : string) : res (list pyval * string) :=
  match n with
  | O => Raise out_of_fuel
  | S n =>
      do '(v, r) <- scan_once n s;
      match skip_ws r with
      | String c r' =>
          if Ascii.eqb c "]" then Ok ([v], r')
          else if Ascii.eqb c "," then do '(l, k) <- scan_items n (skip_ws r'); Ok (v :: l, k)
          else Raise (JSONDecodeError "Expecting ',' delimiter")
      | "" => Raise (JSONDecodeError "Expecting ',' delimiter")
      end
  end
with scan_members (n : nat) (s : string) : res (list (string * pyval) * string) :=
  match n with
  | O => Raise out_of_fuel
  | S n =>
      match s with
      | String c s' =>
          if negb (Ascii.eqb c dquote) then Raise (JSONDecodeError "Expecting property name enclosed in double quotes")
          else
            do '(key, r) <- scan_string s';
            match skip_ws r with
            | String colon r' =>
                if negb (Ascii.eqb colon ":") then Raise (JSONDecodeError "Expecting ':' delimiter")
                else
                  do '(v, r'') <- scan_once n (skip_ws r');
                  match skip_ws r'' with
                  | String d k =>
                      if Ascii.eqb d "}" then Ok ([(key, v)], k)
                      else if Ascii.eqb d "," then do '(l, k') <- scan_members n (skip_ws k); Ok ((key, v) :: l, k')
                      else Raise (JSONDecodeError "Expecting ',' delimiter")
                  | "" => Raise (JSONDecodeError "Expecting ',' delimiter")
                  end
            | "" => Raise (JSONDecodeError "Expecting ':' delimiter")
            end
      | "" => Raise (JSONDecodeError "Expecting property name enclosed in double quotes")
      end
  end.

Definition json_fuel (s : string) : nat := S (S (2 * slen s)).

(** [json.loads(s)]. *)
Definition json_loads (s : string) : res pyval :=
  let t := skip_ws s in
  do '(v, r) <- scan_once (json_fuel t) t;
  if String.eqb (skip_ws r) "" then Ok v else Raise (JSONDecodeError "Extra data").

(** ** The reader consumes its text, and never runs out of fuel *)

Lemma skip_ws_len s : (slen (skip_ws s) <= slen s)%nat.
Proof. unfold skip_ws, slen. induction s as [|c s IH]; cbn; [lia|]. destruct (json_space c); cbn; lia. Qed.

Lemma cons_char_inv c r t k : cons_char c r = Ok (t, k) -> exists t', r = Ok (t', k).
Proof. unfold cons_char. destruct r as [[t' k']|e]; [|discriminate]. intros [= _ ->]. by exists t'. Qed.

Lemma scan_string_len s t r : scan_string s = Ok (t, r) -> (slen r < slen s)%nat.
Proof.
  enough (H : forall n s t r, (slen s <= n)%nat -> scan_string s = Ok (t, r) -> (slen r < slen s)%nat) by (by apply (H (slen s) s t)).
  clear. intros n. unfold slen. induction n as [|n IH]; intros [|c s] t r Hn E; cbn in Hn; try lia; try discriminate E.
  cbn [scan_string] in E. destruct (Ascii.eqb c dquote); [injection E as _ <-; cbn; lia|].
  destruct (Ascii.eqb c "\").
  - destruct s as [|e s]; [discriminate E|]. destruct (Ascii.eqb e "u").
    + do 4 (destruct s as [|? s]; [discriminate E|]). repeat (destruct (hex_val _); [|discriminate E]).
      destruct (_ && _); [|discriminate E]. apply cons_char_inv in E as (t' & E). cbn in *. apply IH in E; lia.
    + destruct (simple_escape e); [|discriminate E]. apply cons_char_inv in E as (t' & E). cbn in *. apply IH in E; lia.
  - destruct (code c <? 32)%nat; [discriminate E|]. apply cons_char_inv in E as (t' & E). cbn in *. apply IH in E; lia.
Qed.

Lemma take_digits_app s d r : take_digits s = (d, r) -> s = d +:+ r.
Proof.
  revert d r. induction s as [|c s IH]; intros d r E; cbn [take_digits] in E; [by injection E as <- <-|].
  destruct (is_decimal c); [|by injection E as <- <-]. destruct (take_digits s) as [d' r'].
  injection E as <- <-. cbn. by rewrite (IH d' r' eq_refl).
Qed.

Lemma scan_fraction_app s f r : scan_fraction s = (f, r) -> s = f +:+ r.
Proof.
  destruct s as [|c s]; cbn [scan_fraction]; [by intros [= <- <-]|]. destruct (Ascii.eqb c "."); [|by intros [= <- <-]].
  destruct (take_digits s) as [[|d1 d] r'] eqn:E; intros [= <- <-]; [done|]. apply take_digits_app in E. by rewrite E.
Qed.

Lemma scan_exponent_app s x r : scan_exponent s = (x, r) -> s = x +:+ r.
Proof.
  destruct s as [|c s]; cbn [scan_exponent]; [by intros [= <- <-]|]. destruct (_ || _); [|by intros [= <- <-]].
  destruct s as [|g s].
  - destruct (take_digits "") as [d r'] eqn:E. injection E as <- <-. by intros [= <- <-].
  - destruct (Ascii.eqb g "-" || Ascii.eqb g "+").
    + destruct (take_digits s) as [[|d1 d] r'] eqn:E; intros [= <- <-]; [done|]. apply take_digits_app in E. by rewrite E.
    + destruct (take_digits (String g s)) as [[|d1 d] r'] eqn:E; intros [= <- <-]; [done|]. apply take_digits_app in E. by rewrite E.
Qed.

Lemma scan_integer_len s i r : scan_integer s = Some (i, r) -> (slen r < slen s)%nat.
Proof.
  destruct s as [|c s]; [done|]. unfold scan_integer. destruct (Ascii.eqb c "0"); [intros [= <- <-]; unfold slen; cbn; lia|].
  destruct (is_decimal c) eqn:Hc; [|done]. cbn [take_digits]. rewrite Hc. destruct (take_digits s) as [d k] eqn:E.
  intros [= <- <-]. apply take_digits_app, (f_equal slen) in E. rewrite slen_append in E. unfold slen in *. cbn. lia.
Qed.

Lemma scan_number_len s v r : scan_number s = Ok (v, r) -> (slen r < slen s)%nat.
Proof.
  unfold scan_number. destruct (match s with "" => _ | String _ _ => _ end) as [sign u] eqn:Es.
  assert (Hu : (slen u <= slen s)%nat).
  { destruct s as [|c s]; [by injection Es as <- <-|]. destruct (Ascii.eqb c "-"); injection Es as <- <-; unfold slen; cbn; lia. }
  destruct (scan_integer u) as [[i r1]|] eqn:Ei; [|discriminate]. apply scan_integer_len in Ei.
  destruct (scan_fraction r1) as [f r2] eqn:Ef. apply scan_fraction_app in Ef.
  destruct (scan_exponent r2) as [x r3] eqn:Ex. apply scan_exponent_app in Ex.
  assert (Hr : (slen r3 <= slen r1)%nat) by (rewrite Ef, Ex, !slen_append; lia).
  destruct (_ && _).
  - destruct (read_int _); [|discriminate]. intros [= _ <-]. lia.
  - destruct (parse_float _); [|discriminate]. intros [= _ <-]. lia.
Qed.

Lemma scan_atom_len s v r : scan_atom s = Ok (v, r) -> (slen r < slen s)%nat.
Proof.
  unfold scan_atom. destruct (List.find _ constants) as [[name w]|] eqn:E; [|apply scan_number_len].
  intros [= _ <-]. apply find_some in E as [Hin Hs]. apply startswith_iff in Hs as [t Ht]. cbn [fst] in Ht.
  assert (Hn : (1 <= slen name)%nat) by (cbn in Hin; intuition; match goal with H : _ = (name, w) |- _ => injection H as <- _ end; unfold slen; cbn; lia).
  pose proof (f_equal slen (str_take_drop (slen name) s)) as Hl. rewrite slen_append in Hl.
  assert (Hns : (slen name <= slen s)%nat) by (rewrite Ht, slen_append; lia). rewrite slen_take in Hl by done. lia.
Qed.

(** What a reader answers: it has fuel, and what is left is shorter. *)
Definition consumes {A} (s : string) (r : res (A * string)) : Prop :=
  r <> Raise out_of_fuel /\ forall v k, r = Ok (v, k) -> (slen k < slen s)%nat.

Lemma consumes_raise {A} s e : e <> out_of_fuel -> consumes s (Raise e : res (A * string)).
Proof. intros He. split; [intros [= E]; by apply He|discriminate]. Qed.

Lemma consumes_ok {A} s (v : A) k : (slen k < slen s)%nat -> consumes s (Ok (v, k)).
Proof. intros Hk. split; [discriminate|]. by intros ? ? [= <- <-]. Qed.

Lemma consumes_bind {A B} s u (r : res (A * string)) (f : A * string -> res (B * string)) :
  consumes u r -> (forall v k, (slen k < slen u)%nat -> r = Ok (v, k) -> consumes s (f (v, k))) -> consumes s (rbind r f).
Proof.
  intros [Hn Hk] Hf. destruct r as [[v k]|e]; cbn [rbind]; [by apply Hf; [apply (Hk v k)|]|].
  apply consumes_raise. intros ->. by apply Hn.
Qed.

Lemma consumes_string s : consumes s (scan_string s).
Proof.
  split; [|intros v k; apply scan_string_len]. intros E.
  enough (H : forall n s, (slen s <= n)%nat -> scan_string s <> Raise out_of_fuel) by by apply (H (slen s) s (le_n _)).
  clear. intros n. unfold slen. induction n as [|n IH]; intros [|c s] Hn; cbn in Hn; try lia; try discriminate.
  cbn [scan_string]. destruct (Ascii.eqb c dquote); [discriminate|].
  assert (Hc : forall x t, (String.length t <= n)%nat -> cons_char x (scan_string t) <> Raise out_of_fuel).
  { intros x t Ht. pose proof (IH t Ht) as Hx. unfold cons_char. destruct (scan_string t) as [[? ?]|e]; [discriminate|done]. }
  destruct (Ascii.eqb c "\").
  - destruct s as [|e s]; [discriminate|]. destruct (Ascii.eqb e "u").
    + do 4 (destruct s as [|? s]; [discriminate|]). repeat (destruct (hex_val _); [|discriminate]).
      destruct (_ && _); [|discriminate]. apply Hc. cbn in Hn. lia.
    + destruct (simple_escape e); [|discriminate]. apply Hc. cbn in Hn. lia.
  - destruct (code c <? 32)%nat; [discriminate|]. apply Hc. lia.
Qed.

Lemma consumes_atom s : consumes s (scan_atom s).
Proof.
  split; [|intros v k; apply scan_atom_len]. unfold scan_atom, scan_number.
  destruct (List.find _ _) as [[? ?]|]; [discriminate|]. destruct (match s with "" => _ | String _ _ => _ end) as [sign u].
  destruct (scan_integer u) as [[i r1]|]; [|discriminate]. destruct (scan_fraction r1) as [f r2], (scan_exponent r2) as [x r3].
  destruct (_ && _); [|by destruct (parse_float _)]. unfold read_int. by destruct (NilZero.int_of_string _).
Qed.

Lemma scan_consumes n s :
  ((2 * slen s + 1 <= n)%nat -> consumes s (scan_once n s)) /\
  ((2 * slen s + 2 <= n)%nat -> consumes s (scan_items n s) /\ consumes s (scan_members n s)).
Proof.
  revert s. induction n as [|n IH]; intros s; [split; intros; lia|]. split; [intros Hn|intros Hn; split].
  - cbn [scan_once]. destruct s as [|c s]; [by apply consumes_raise|]. unfold slen in Hn. cbn in Hn.
    pose proof (skip_ws_len s) as Hw. unfold slen in Hw.
    destruct (Ascii.eqb c dquote).
    { apply (consumes_bind _ s); [apply consumes_string|]. intros v k Hk _. apply consumes_ok. unfold slen in *. cbn. lia. }
    destruct (Ascii.eqb c "{"); [|destruct (Ascii.eqb c "["); [|apply consumes_atom]].
    1, 2: destruct (skip_ws s) as [|d r] eqn:Ew; [by apply consumes_raise|]; cbn in Hw;
      match goal with |- context [if ?b then _ else _] => destruct b end;
      [apply consumes_ok; unfold slen; cbn; lia|]; apply (consumes_bind _ (String d r));
      [apply (IH (String d r)); unfold slen; cbn; lia|intros v k Hk _; apply consumes_ok; unfold slen in *; cbn in *; lia].
  - cbn [scan_items]. apply (consumes_bind _ s); [apply (IH s); lia|]. intros v k Hk _.
    pose proof (skip_ws_len k) as Hw. destruct (skip_ws k) as [|c r] eqn:Ew; [by apply consumes_raise|].
    destruct (Ascii.eqb c "]"); [apply consumes_ok; unfold slen in *; cbn in *; lia|].
    destruct (Ascii.eqb c ","); [|by apply consumes_raise]. pose proof (skip_ws_len r) as Hw'.
    apply (consumes_bind _ (skip_ws r)); [apply (IH (skip_ws r)); unfold slen in *; cbn in *; lia|].
    intros v' k' Hk' _. apply consumes_ok. unfold slen in *. cbn in *. lia.
  - cbn [scan_members]. destruct s as [|c s]; [by apply consumes_raise|].
    destruct (negb _); [by apply consumes_raise|]. apply (consumes_bind _ s); [apply consumes_string|]. intros key r Hr _.
    pose proof (skip_ws_len r) as Hw. destruct (skip_ws r) as [|colon r'] eqn:Ew; [by apply consumes_raise|].
    destruct (negb _); [by apply consumes_raise|]. pose proof (skip_ws_len r') as Hw'.
    apply (consumes_bind _ (skip_ws r')); [apply (IH (skip_ws r')); unfold slen in *; cbn in *; lia|]. intros v k Hk _.
    pose proof (skip_ws_len k) as Hw2. destruct (skip_ws k) as [|d k'] eqn:Ew2; [by apply consumes_raise|].
    destruct (Ascii.eqb d "}"); [apply consumes_ok; unfold slen in *; cbn in *; lia|].
    destruct (Ascii.eqb d ","); [|by apply consumes_raise]. pose proof (skip_ws_len k') as Hw3.
    apply (consumes_bind _ (skip_ws k')); [apply (IH (skip_ws k')); unfold slen in *; cbn in *; lia|].
    intros l k2 Hk2 _. apply consumes_ok. unfold slen in *. cbn in *. lia.
Qed.

Lemma json_loads_fuel s : json_loads s <> Raise out_of_fuel.
Proof.
  unfold json_loads. destruct (proj1 (scan_consumes (json_fuel (skip_ws s)) (skip_ws s))) as [Hn _]; [unfold json_fuel; lia|].
  destruct (scan_once _ _) as [[v r]|e]; cbn [rbind]; [destruct (String.eqb _ _); discriminate|intros [= ->]; by apply Hn].
Qed.

(** ** Reading back what was printed *)

Lemma uint_head p d : Pos.to_uint p <> Decimal.D0 d.
Proof.
  intros E. assert (Hn : Pos.to_uint p = Decimal.unorm (Pos.to_uint p)).
  { rewrite <- DecimalPos.Unsigned.to_of, DecimalPos.Unsigned.of_to. done. }
  rewrite E in Hn. unfold Decimal.unorm in Hn. destruct (Decimal.nzhead (Decimal.D0 d)) eqn:Eh; try done.
  - injection Hn as ->. by apply (DecimalPos.Unsigned.to_uint_nonzero p).
  - by apply (DecimalFacts.nzhead_nonzero (Decimal.D0 d) u).
Qed.

(** The texts that no digit, dot or exponent continues. *)
Definition ends_number (k : string) : Prop :=
  match k with "" => True | String c _ => atom_char c = false end.

Lemma delimited_ends k : delimited k -> ends_number k.
Proof. destruct k as [|c k]; [done|]. apply delimited_not_atom. Qed.

Lemma not_atom c : atom_char c = false ->
  is_decimal c = false /\ Ascii.eqb c "." = false /\ Ascii.eqb c "e" = false /\ Ascii.eqb c "E" = false.
Proof.
  intros Hc. unfold atom_char in Hc. repeat (apply orb_false_iff in Hc as [Hc ?]).
  split; [done|]. split; [done|]. split; apply Ascii.eqb_neq; intros ->; done.
Qed.

Lemma take_digits_uint d k : ends_number k ->
  take_digits (NilEmpty.string_of_uint d +:+ k) = (NilEmpty.string_of_uint d, k).
Proof.
  intros Hk. induction d as [|d IH|d IH|d IH|d IH|d IH|d IH|d IH|d IH|d IH|d IH]; cbn; [|by rewrite IH..].
  destruct k as [|c k]; [done|]. cbn. by rewrite (proj1 (not_atom c Hk)).
Qed.

Lemma scan_integer_pos p k : ends_number k ->
  scan_integer (NilZero.string_of_uint (Pos.to_uint p) +:+ k) = Some (NilZero.string_of_uint (Pos.to_uint p), k).
Proof.
  intros Hk. pose proof (take_digits_uint (Pos.to_uint p) k Hk) as Hd. pose proof (uint_head p) as H0.
  pose proof (DecimalPos.Unsigned.to_uint_nonnil p) as Hn. unfold NilZero.string_of_uint.
  destruct (Pos.to_uint p) as [|d|d|d|d|d|d|d|d|d|d]; [done|by destruct (H0 d)|..];
    unfold scan_integer; cbn -[take_digits] in *; by rewrite Hd.
Qed.

Lemma scan_no_fraction k : ends_number k -> scan_fraction k = ("", k).
Proof. destruct k as [|c k]; [done|]. cbn. intros Hc. by rewrite (proj1 (proj2 (not_atom c Hc))). Qed.
Lemma scan_no_exponent k : ends_number k -> scan_exponent k = ("", k).
Proof. destruct k as [|c k]; [done|]. cbn. intros Hc. by destruct (not_atom c Hc) as (_ & _ & -> & ->). Qed.

Lemma uint_not_minus d k : match NilZero.string_of_uint d +:+ k with String c _ => Ascii.eqb c "-" = false | "" => True end.
Proof. destruct d; done. Qed.

Lemma read_int_of_Z z : read_int (str_of_Z z) = Ok (PInt z).
Proof. unfold read_int. by rewrite str_of_Z_read, DecimalZ.of_to. Qed.

Lemma scan_number_int z k : ends_number k -> scan_number (str_of_Z z +:+ k) = Ok (PInt z, k).
Proof.
  intros Hk. pose proof (read_int_of_Z z) as Hr. unfold scan_number. destruct z as [|p|p].
  - cbn -[read_int]. rewrite (scan_no_fraction k Hk). cbn -[read_int]. rewrite (scan_no_exponent k Hk). cbn -[read_int] in *. by rewrite Hr.
  - change (str_of_Z (Z.pos p)) with (NilZero.string_of_uint (Pos.to_uint p)) in *.
    pose proof (scan_integer_pos p k Hk) as Hi. pose proof (uint_not_minus (Pos.to_uint p) k) as Hm.
    destruct (NilZero.string_of_uint (Pos.to_uint p) +:+ k) as [|c s] eqn:E; [done|]. rewrite Hm, Hi.
    rewrite (scan_no_fraction k Hk), (scan_no_exponent k Hk). cbn -[read_int]. by rewrite Hr.
  - change (str_of_Z (Z.neg p)) with ("-" +:+ NilZero.string_of_uint (Pos.to_uint p)) in *.
    cbn -[scan_integer read_int NilZero.string_of_uint scan_fraction scan_exponent] in *. rewrite (scan_integer_pos p k Hk).
    rewrite (scan_no_fraction k Hk), (scan_no_exponent k Hk). cbn -[read_int]. by rewrite Hr.
Qed.

Lemma scan_atom_int z k : ends_number k -> scan_atom (str_of_Z z +:+ k) = Ok (PInt z, k).
Proof.
  intros Hk. unfold scan_atom.
  assert (Hf : List.find (fun kv => startswith (str_of_Z z +:+ k) (fst kv)) constants = None).
  { pose proof (DecimalPos.Unsigned.to_uint_nonnil). destruct z as [|p|p]; [done|..];
      unfold str_of_Z; cbn [Z.to_int NilZero.string_of_int]; specialize (H p); unfold NilZero.string_of_uint;
      destruct (Pos.to_uint p); done. }
  rewrite Hf. by apply scan_number_int.
Qed.

Lemma scan_escape c r : scan_string (json_char c +:+ r) = cons_char c (scan_string r).
Proof. destruct c as [[] [] [] [] [] [] [] []]; reflexivity. Qed.

Lemma scan_printed_string s k : scan_string (str_flat_map json_char s +:+ String dquote k) = Ok (s, k).
Proof.
  induction s as [|c s IH]; [reflexivity|]. cbn [str_flat_map]. rewrite str_append_assoc, scan_escape, IH. done.
Qed.

(** Values that are read back as they were written: no numbers with a fraction, no times, and
    dictionaries without repeated keys (as all of Python's are). *)
Fixpoint json_plain (v : pyval) : Prop :=
  match v with
  | PFloat _ | PDatetime _ => False
  | PList l => (fix go (l : list pyval) : Prop := match l with [] => True | x :: l' => json_plain x /\ go l' end) l
  | PDict d => NoDup (fst <$> d) /\
      (fix go (d : list (string * pyval)) : Prop := match d with [] => True | kv :: d' => json_plain (snd kv) /\ go d' end) d
  | _ => True
  end.

(** Induction over the values inside lists and dictionaries. *)
Lemma pyval_nested_ind (P : pyval -> Prop) :
  P PNone -> (forall b, P (PBool b)) -> (forall z, P (PInt z)) -> (forall f, P (PFloat f)) -> (forall s, P (PStr s)) ->
  (forall d, P (PDatetime d)) -> (forall l, Forall P l -> P (PList l)) ->
  (forall d, Forall (fun kv => P (snd kv)) d -> P (PDict d)) -> forall v, P v.
Proof.
  intros H1 H2 H3 H4 H5 H6 Hl Hd. fix IH 1. intros [|b|z|f|s|d|l|d]; [done|done|done|done|done|done|apply Hl|apply Hd].
  - induction l as [|x l IHl]; constructor; [apply IH|exact IHl].
  - induction d as [|[k x] d IHd]; constructor; [apply IH|exact IHd].
Qed.

Lemma plain_list l : json_plain (PList l) -> Forall json_plain l.
Proof. cbn [json_plain]. induction l as [|x l IH]; [constructor|]. intros [Hx Hl]. constructor; [exact Hx|by apply IH]. Qed.
Lemma plain_dict d : json_plain (PDict d) -> NoDup (fst <$> d) /\ Forall (fun kv => json_plain (snd kv)) d.
Proof.
  cbn [json_plain]. intros [Hn Hd]. split; [exact Hn|]. clear Hn.
  induction d as [|x l IH]; [constructor|]. destruct Hd as [Hx Hl]. constructor; [exact Hx|by apply IH].
Qed.

Lemma dict_set_fresh k v d : k ∉ fst <$> d -> dict_set k v d = (d ++ [(k, v)])%list.
Proof.
  induction d as [|[k' v'] d IH]; [done|]. rewrite fmap_cons, not_elem_of_cons. intros [Hk Hd]. cbn.
  rewrite (proj2 (String.eqb_neq k k')) by done. by rewrite IH.
Qed.

Lemma dict_of_pairs_nodup d : NoDup (fst <$> d) -> dict_of_pairs d = d.
Proof.
  intros Hn. unfold dict_of_pairs. enough (H : forall e, NoDup (fst <$> (e ++ d)%list) ->
    fold_left (fun d kv => dict_set (fst kv) (snd kv) d) d e = (e ++ d)%list) by (by apply (H [])).
  clear Hn. induction d as [|[k v] d IH]; intros e Hn; [by rewrite app_nil_r|]. cbn [fold_left fst snd].
  rewrite dict_set_fresh.
  - rewrite IH, <- app_assoc; [done|]. by rewrite <- app_assoc.
  - rewrite fmap_app, fmap_cons in Hn. apply NoDup_app in Hn as (_ & Hn & _). intros Hin. apply (Hn _ Hin). by constructor.
Qed.

Section RoundTrip.
Context `{PyLib} (o : json_opts).
(** The separators of [json.dumps]: a comma or a colon, and white space. *)
Variables item_ws key_ws : string.
Hypothesis item_sep_eq : item_sep o = String "," item_ws.
Hypothesis key_sep_eq : key_sep o = String ":" key_ws.
Hypothesis item_spaces : str_forallb json_space item_ws = true.
Hypothesis key_spaces : str_forallb json_space key_ws = true.
Hypothesis unsorted : sort_keys o = false.

Lemma skip_ws_app w s : str_forallb json_space w = true -> skip_ws (w +:+ s) = skip_ws s.
Proof.
  unfold skip_ws. induction w as [|c w IH]; [done|]. cbn. intros [Hc Hw]%andb_true_iff. rewrite Hc. by apply IH.
Qed.

(** The text of a value begins with neither white space nor a closing bracket. *)
Definition opens (s : string) : Prop :=
  match s with String c _ => json_space c = false /\ Ascii.eqb c "]" = false /\ Ascii.eqb c "}" = false | "" => False end.

Lemma opens_skip s k : opens s -> skip_ws (s +:+ k) = s +:+ k.
Proof. destruct s as [|c s]; [done|]. intros (Hc & _). unfold skip_ws. cbn. by rewrite Hc. Qed.

Lemma atom_opens s : atom_text s -> opens s.
Proof.
  intros [Hs Ha]. destruct s as [|c s]; [done|]. cbn in Ha. apply andb_true_iff in Ha as [Ha _]. cbn.
  destruct c as [[] [] [] [] [] [] [] []]; try discriminate Ha; done.
Qed.

Lemma dumps_opens v s : json_plain v -> json_dumps o v = Ok s -> opens s.
Proof.
  destruct v as [|[]|z|f|x|d|l|d]; cbn [json_dumps]; intros Hp E; try done; try (injection E as <-; by cbn).
  - injection E as <-. apply atom_opens, str_of_Z_atom.
  - apply rbind_Ok_inv in E as (xs & _ & [= <-]). by cbn.
  - apply rbind_Ok_inv in E as (xs & _ & [= <-]). by cbn.
Qed.

(** What is proved of one value. *)
Definition reads_back (v : pyval) : Prop :=
  forall s n k, json_dumps o v = Ok s -> delimited k -> (2 * slen s + 1 <= n)%nat -> scan_once n (s +:+ k) = Ok (v, k).

Lemma slen_cons c s : slen (String c s) = S (slen s).
Proof. done. Qed.

Lemma items_read l : Forall (fun v => json_plain v /\ reads_back v) l -> l <> [] ->
  forall xs n k, rmapM (json_dumps o) l = Ok xs -> (2 * slen (str_join (item_sep o) xs) + 2 <= n)%nat ->
  opens (str_join (item_sep o) xs) /\ scan_items n (str_join (item_sep o) xs +:+ String "]" k) = Ok (l, k).
Proof.
  induction l as [|v l IH]; [done|]. intros Hl _ xs n k E Hn. apply Forall_cons in Hl as [[Hp Hv] Hl].
  cbn [rmapM] in E. apply rbind_Ok_inv in E as (y & Hy & E). apply rbind_Ok_inv in E as (ys & Hys & [= <-]).
  pose proof (dumps_opens v y Hp Hy) as Ho. destruct n as [|n]; [lia|]. cbn [scan_items].
  destruct l as [|v' l]; [injection Hys as <-|].
  - cbn [str_join] in *. split; [done|]. rewrite (Hv y n) by (done || (by right; left) || lia). done.
  - destruct ys as [|y' ys]; [apply rmapM_length in Hys; discriminate Hys|].
    set (rest := str_join (item_sep o) (y' :: ys)) in *.
    assert (Hj : str_join (item_sep o) (y :: y' :: ys) = y +:+ String "," (item_ws +:+ rest))
      by (unfold rest; rewrite item_sep_eq; reflexivity).
    rewrite Hj in *. rewrite slen_append in Hn. rewrite slen_cons, slen_append in Hn.
    destruct (IH Hl (ltac:(done)) (y' :: ys) n k Hys) as [Hr HI]; [fold rest; lia|]. fold rest in Hr, HI.
    split; [destruct y; [done|exact Ho]|].
    rewrite !str_append_assoc. rewrite (Hv y n) by (done || (by left) || lia). cbn [rbind].
    cbn. rewrite !str_append_assoc, skip_ws_app, (opens_skip rest) by done. rewrite HI. done.
Qed.

(** The printed items of a dictionary. *)
Definition dump_item (kv : string * pyval) : res string := do y <- json_dumps o (snd kv); Ok (json_string (fst kv) +:+ key_sep o +:+ y).

Lemma members_read d : Forall (fun kv => json_plain (snd kv) /\ reads_back (snd kv)) d -> d <> [] ->
  forall xs n k, rmapM dump_item d = Ok xs -> (2 * slen (str_join (item_sep o) xs) + 2 <= n)%nat ->
  opens (str_join (item_sep o) xs) /\ scan_members n (str_join (item_sep o) xs +:+ String "}" k) = Ok (d, k).
Proof.
  induction d as [|[key v] d IH]; [done|]. intros Hd _ xs n k E Hn. apply Forall_cons in Hd as [[Hp Hv] Hd]. cbn [fst snd] in *.
  cbn [rmapM] in E. apply rbind_Ok_inv in E as (z & Hz & E). apply rbind_Ok_inv in E as (ys & Hys & [= <-]).
  unfold dump_item in Hz. cbn [fst snd] in Hz. apply rbind_Ok_inv in Hz as (y & Hy & Hz). apply Ok_inv in Hz. subst z.
  pose proof (dumps_opens v y Hp Hy) as Ho. destruct n as [|n]; [lia|].
  assert (Hstep : forall tail, (2 * slen y + 1 <= n)%nat -> delimited tail ->
    scan_members (S n) ((json_string key +:+ key_sep o +:+ y) +:+ tail) =
      match skip_ws tail with
      | String d k => if Ascii.eqb d "}" then Ok ([(key, v)], k)
                      else if Ascii.eqb d "," then do '(l, k') <- scan_members n (skip_ws k); Ok ((key, v) :: l, k')
                      else Raise (JSONDecodeError "Expecting ',' delimiter")
      | "" => Raise (JSONDecodeError "Expecting ',' delimiter")
      end).
  { intros tail Hny Ht. unfold json_string. rewrite key_sep_eq, !str_append_assoc. cbn [String.append scan_members].
    change (Ascii.eqb dquote dquote) with true. cbn [negb]. rewrite str_append_assoc. cbn [String.append].
    rewrite scan_printed_string. cbn [rbind]. unfold skip_ws at 1. cbn [lstrip]. change (json_space ":") with false. cbv iota.
    change (negb (Ascii.eqb ":" ":")) with false. cbv iota. rewrite skip_ws_app, (opens_skip y) by done.
    by rewrite (Hv y n tail Hy Ht Hny). }
  destruct d as [|kv' d]; [injection Hys as <-|].
  - cbn [str_join] in *. rewrite !slen_append in Hn. split; [done|]. rewrite Hstep by (lia || (by right; right)). done.
  - destruct ys as [|y' ys]; [apply rmapM_length in Hys; discriminate Hys|].
    set (rest := str_join (item_sep o) (y' :: ys)) in *.
    assert (Hj : str_join (item_sep o) ((json_string key +:+ key_sep o +:+ y) :: y' :: ys)
                 = (json_string key +:+ key_sep o +:+ y) +:+ String "," (item_ws +:+ rest))
      by (unfold rest; rewrite item_sep_eq; reflexivity).
    rewrite Hj in *. rewrite !slen_append, slen_cons, slen_append in Hn.
    destruct (IH Hd (ltac:(done)) (y' :: ys) n k Hys) as [Hr HI]; [fold rest; lia|]. fold rest in Hr, HI.
    split; [done|]. rewrite (str_append_assoc (_ +:+ _)). rewrite Hstep by (lia || (by left)).
    cbn [String.append]. unfold skip_ws at 1. cbn [lstrip]. change (json_space ",") with false. cbv iota.
    change (Ascii.eqb "," "}") with false. change (Ascii.eqb "," ",") with true. cbv iota.
    rewrite str_append_assoc, skip_ws_app, (opens_skip rest) by done. rewrite HI. done.
Qed.

Lemma dumps_list_eq l : json_dumps o (PList l) = do xs <- rmapM (json_dumps o) l; Ok ("[" +:+ str_join (item_sep o) xs +:+ "]").
Proof.
  cbn [json_dumps]. f_equal. induction l as [|x l IH]; [done|]. cbn [rmapM]. by rewrite IH.
Qed.

Lemma dumps_dict_eq d : json_dumps o (PDict d) = do xs <- rmapM dump_item d; Ok ("{" +:+ str_join (item_sep o) xs +:+ "}").
Proof.
  cbn [json_dumps]. rewrite unsorted. set (go := fix go (d : list (string * pyval)) : res (list (string * string)) := _).
  assert (Hg : rmapM dump_item d = do xs <- go d; Ok ((fun kv : string * string => json_string (fst kv) +:+ key_sep o +:+ snd kv) <$> xs)).
  { induction d as [|[k x] d IH]; [done|]. cbn [rmapM go]. unfold dump_item at 1. cbn [fst snd].
    destruct (json_dumps o x) as [y|e]; [|done]. cbn [rbind]. rewrite IH. by destruct (go d). }
  rewrite Hg. by destruct (go d).
Qed.

Lemma plain_reads_back v : json_plain v -> reads_back v.
Proof.
  induction v as [|b|z|f|x|d|l IH|d IH] using pyval_nested_ind; intros Hp s n k E Hk Hn; (destruct n as [|n]; [lia|]); try done.
  - injection E as <-. by destruct k.
  - destruct b; injection E as <-; by destruct k.
  - injection E as <-. pose proof (scan_atom_int z k (delimited_ends k Hk)) as Ha. pose proof (atom_opens _ (str_of_Z_atom z)) as Ho.
    pose proof (str_of_Z_atom z) as [Hne Hat]. cbn [scan_once].
    destruct (str_of_Z z +:+ k) as [|c r] eqn:Ec; [by destruct (str_of_Z z)|].
    assert (Hc : atom_char c = true).
    { destruct (str_of_Z z) as [|c' t]; [done|]. injection Ec as -> _. cbn in Hat. by apply andb_true_iff in Hat as [? _]. }
    rewrite <- Ha. clear -Hc. destruct c as [[] [] [] [] [] [] [] []]; try discriminate Hc; reflexivity.
  - injection E as <-. unfold json_string. cbn [String.append scan_once].
    change (Ascii.eqb dquote dquote) with true. cbv iota. rewrite str_append_assoc. cbn [String.append].
    by rewrite scan_printed_string.
  - rewrite dumps_list_eq in E. apply rbind_Ok_inv in E as (xs & Hxs & E). apply Ok_inv in E. subst s.
    rewrite !slen_append in Hn. cbn [slen String.length] in Hn.
    destruct l as [|v l]; [injection Hxs as <-; reflexivity|].
    assert (HF : Forall (fun v => json_plain v /\ reads_back v) (v :: l)).
    { apply Forall_and. split; [by apply plain_list|]. eapply Forall_impl; [apply Forall_and; split; [exact IH|exact (plain_list _ Hp)]|].
      intros y [Hy Hpy]. by apply Hy. }
    destruct (items_read (v :: l) HF ltac:(done) xs n k Hxs) as [Ho Hi]; [unfold slen in *; cbn in *; lia|].
    rewrite !str_append_assoc. cbn [String.append scan_once].
    change (Ascii.eqb "[" dquote) with false. change (Ascii.eqb "[" "{") with false. change (Ascii.eqb "[" "[") with true. cbv iota.
    rewrite opens_skip by done. destruct (str_join (item_sep o) xs) as [|c r] eqn:Ej; [done|].
    cbn [String.append] in *. destruct Ho as (_ & -> & _). by rewrite Hi.
  - rewrite dumps_dict_eq in E. apply rbind_Ok_inv in E as (xs & Hxs & E). apply Ok_inv in E. subst s.
    rewrite !slen_append in Hn. cbn [slen String.length] in Hn.
    destruct d as [|kv d]; [injection Hxs as <-; reflexivity|].
    destruct (plain_dict _ Hp) as [Hnd Hl].
    assert (HF : Forall (fun kv => json_plain (snd kv) /\ reads_back (snd kv)) (kv :: d)).
    { apply Forall_and. split; [done|]. eapply Forall_impl; [apply Forall_and; split; [exact IH|exact Hl]|].
      intros y [Hy Hpy]. by apply Hy. }
    destruct (members_read (kv :: d) HF ltac:(done) xs n k Hxs) as [Ho Hi]; [unfold slen in *; cbn in *; lia|].
    rewrite !str_append_assoc. cbn [String.append scan_once].
    change (Ascii.eqb "{" dquote) with false. change (Ascii.eqb "{" "{") with true. cbv iota.
    rewrite opens_skip by done. destruct (str_join (item_sep o) xs) as [|c r] eqn:Ej; [done|].
    cbn [String.append] in *. destruct Ho as (_ & _ & ->). rewrite Hi. cbn [rbind]. by rewrite dict_of_pairs_nodup.
Qed.

(** [json.loads(json.dumps(v)) == v]. *)
Lemma json_loads_dumps v s : json_plain v -> json_dumps o v = Ok s -> json_loads s = Ok v.
Proof.
  intros Hp E. pose proof (dumps_opens v s Hp E) as Ho. unfold json_loads.
  assert (Hs : skip_ws s = s) by (rewrite <- (str_append_nil_r s); by apply opens_skip). rewrite Hs.
  pose proof (plain_reads_back v Hp s (json_fuel s) "" E I) as Hr. rewrite str_append_nil_r in Hr.
  rewrite Hr by (unfold json_fuel; lia). done.
Qed.
End RoundTrip.

(** [json.loads(json.dumps(v)) == v]. *)
Lemma json_loads_default `{PyLib} v s : json_plain v -> json_dumps opts_default v = Ok s -> json_loads s = Ok v.
Proof. by apply (json_loads_dumps opts_default " " " "). Qed.

(** ** The text is ASCII *)

Lemma is_ascii_app a b : is_ascii (a +:+ b) = is_ascii a && is_ascii b.
Proof. apply str_forallb_append. Qed.

Lemma is_ascii_join sep l : is_ascii sep = true -> Forall (fun s => is_ascii s = true) l -> is_ascii (str_join sep l) = true.
Proof.
  intros Hs. induction 1 as [|x l Hx Hl IH]; [done|]. destruct l as [|y l]; [done|].
  change (str_join sep (x :: y :: l)) with (x +:+ sep +:+ str_join sep (y :: l)). by rewrite !is_ascii_app, Hx, Hs, IH.
Qed.

Lemma atom_ascii s : str_forallb atom_char s = true -> is_ascii s = true.
Proof.
  unfold is_ascii. induction s as [|c s IH]; [done|]. cbn [str_forallb]. intros [Hc Hs]%andb_true_iff. rewrite IH by done.
  clear -Hc. by destruct c as [[] [] [] [] [] [] [] []].
Qed.

Lemma json_char_ascii c : is_ascii (json_char c) = true.
Proof. by destruct c as [[] [] [] [] [] [] [] []]. Qed.

Lemma json_string_ascii s : is_ascii (json_string s) = true.
Proof.
  unfold json_string. change (is_ascii (str_flat_map json_char s +:+ String dquote "") = true).
  rewrite is_ascii_app, andb_true_r. induction s as [|c s IH]; [done|]. cbn [str_flat_map]. by rewrite is_ascii_app, json_char_ascii.
Qed.

Lemma json_dumps_ascii `{PyLib} v s : json_dumps opts_default v = Ok s -> is_ascii s = true.
Proof.
  revert s. induction v as [|b|z|f|x|d|l IH|d IH] using pyval_nested_ind; intros s E.
  - by injection E as <-.
  - by destruct b; injection E as <-.
  - injection E as <-. apply atom_ascii, str_of_Z_atom.
  - injection E as <-. apply atom_ascii, json_float_atom.
  - apply Ok_inv in E as <-. apply json_string_ascii.
  - discriminate E.
  - rewrite dumps_list_eq in E. apply rbind_Ok_inv in E as (xs & Hxs & E). apply Ok_inv in E as <-.
    rewrite !is_ascii_app. cbn [andb]. rewrite andb_true_r. apply is_ascii_join; [done|]. apply rmapM_Forall2 in Hxs.
    revert IH. clear -Hxs. induction Hxs as [|x y l xs Hx _ IHl]; constructor; [apply Forall_cons in IH as [Hx' _]; by apply Hx'|apply IHl].
    by apply Forall_cons in IH as [_ ?].
  - rewrite (dumps_dict_eq opts_default eq_refl) in E. apply rbind_Ok_inv in E as (xs & Hxs & E). apply Ok_inv in E as <-.
    rewrite !is_ascii_app. cbn [andb]. rewrite andb_true_r. apply is_ascii_join; [done|]. apply rmapM_Forall2 in Hxs.
    revert IH. clear -Hxs. induction Hxs as [|x y l xs Hx _ IHl]; intros IH; constructor; apply Forall_cons in IH as [Hx' IH]; [|by apply IHl].
    unfold dump_item in Hx. apply rbind_Ok_inv in Hx as (t & Ht & E). apply Ok_inv in E as <-.
    by rewrite !is_ascii_app, json_string_ascii, (Hx' t Ht).
Qed.
