(* ===== verification/Merkle.v ===== *)
(** * Merkle tree over event hashes

    [services/shared/merkle_tree.py].  The tree is built bottom-up in memory; inclusion proofs are
    lists of sibling hashes with the side they stand on.  Proved: building terminates with a single
    root and logarithmic depth, every generated proof verifies, a proof that verifies names a leaf
    of the tree (no matter how the proof was forged), lists of equal length with the same root are
    equal, and the padding makes the root ambiguous across lengths. *)

From Stdlib Require Import ZArith Lia String Ascii.
From stdpp Require Import base list strings sets.
From S2P Require Import Prelude PyStr PyVal Sha256.

Local Open Scope string_scope.

Definition pair_input (left right : string) : string := left +:+ "|" +:+ right.
Definition leaf_input (event_hash : string) : string := "leaf|" +:+ event_hash.

Definition _hash_pair (left right : string) : string := sha256_hex (pair_input left right).
Definition _hash_leaf (event_hash : string) : string := sha256_hex (leaf_input event_hash).

(** A proof step; the position is that of the sibling.  [verify_proof] treats every position
    other than "right" as left. *)
Record proof_step := ProofStep { position : string; hash : string }.

(** ** Building *)

(** One pass of the inner loop of [_build]: pair neighbours, an odd last node with itself. *)
Fixpoint next_layer (current : list string) : list string :=
  match current with
  | a :: b :: rest => _hash_pair a b :: next_layer rest
  | [a] => [_hash_pair a a]
  | [] => []
  end.

(** [_build]: the layers from [current] up to the root. *)
Fixpoint _build (fuel : nat) (current : list string) : list (list string) :=
  match fuel with
  | O => [current]
  | S k =>
      if (1 <? length current)%nat then current :: _build k (next_layer current) else [current]
  end.

(** [MerkleTree.__init__]: the leaf layer, padded to an even count by repeating the last leaf. *)
Definition leaf_layer (hashes : list string) : list string :=
  let leaves := map _hash_leaf hashes in
  if Nat.odd (length leaves) && (1 <? length leaves)%nat
  then leaves ++ match last leaves with Some x => [x] | None => [] end
  else leaves.

Record merkle_tree := MerkleTree { _layers : list (list string); _root : string; _leaf_count : nat }.

Definition empty_root : string := sha256_hex "empty".

Definition mk_tree (hashes : list string) : merkle_tree :=
  match hashes with
  | [] => MerkleTree [] empty_root 0
  | _ =>
      let leaves := leaf_layer hashes in
      let layers := _build (length leaves) leaves in
      MerkleTree layers
        (match last layers with Some (r :: _) => r | _ => "" end)
        (length hashes)
  end.

Definition root (t : merkle_tree) : string := _root t.
Definition depth (t : merkle_tree) : nat :=
  match _layers t with [] => 0 | ls => length ls - 1 end.
Definition leaf_count (t : merkle_tree) : nat := _leaf_count t.

(** ** Proofs *)

(** The loop of [generate_proof] over the layers below the root. *)
Fixpoint proof_steps (layers : list (list string)) (idx : nat) : list proof_step :=
  match layers with
  | [] => []
  | layer :: rest =>
      (if Nat.even idx then
         match layer !! S idx with
         | Some h => ProofStep "right" h
         | None => ProofStep "right" (nth idx layer "")
         end
       else ProofStep "left" (nth (idx - 1) layer ""))
      :: proof_steps rest (idx / 2)
  end.

Definition generate_proof (t : merkle_tree) (index : Z) : res (list proof_step) :=
  if (match _layers t with [] => true | _ => false end)
     || (index <? 0)%Z || (Z.of_nat (_leaf_count t) <=? index)%Z
  then Raise (IndexError ("Index " +:+ str_of_Z index +:+ " out of range [0, "
                          +:+ str_of_Z (Z.of_nat (_leaf_count t)) +:+ ")"))
  else Ok (proof_steps (removelast (_layers t)) (Z.to_nat index)).

Definition step_up (current : string) (st : proof_step) : string :=
  if String.eqb (position st) "right" then _hash_pair current (hash st)
  else _hash_pair (hash st) current.

Definition verify_proof (event_hash : string) (proof : list proof_step) (root : string) : bool :=
  String.eqb (fold_left step_up proof (_hash_leaf event_hash)) root.

(** The module-level wrappers. *)
Definition compute_merkle_root (hashes : list string) : string := root (mk_tree hashes).
Definition generate_proof_for (hashes : list string) (index : Z) : res (list proof_step) :=
  generate_proof (mk_tree hashes) index.

(** ** Building terminates *)

Lemma length_next_layer l : length (next_layer l) = ((length l + 1) / 2)%nat.
Proof.
  induction l as [l IH] using list_len_ind. destruct l as [|a [|b r]]; [done..|].
  cbn [next_layer length]. rewrite IH by (cbn; lia).
  replace (S (S (length r)) + 1)%nat with ((length r + 1) + 1 * 2)%nat by lia.
  rewrite Nat.div_add by lia. lia.
Qed.

Lemma next_layer_lt l : (1 < length l)%nat -> (length (next_layer l) < length l)%nat.
Proof. intros H. rewrite length_next_layer. apply Nat.Div0.div_lt_upper_bound. lia. Qed.

Lemma next_layer_pos l : (1 < length l)%nat -> (0 < length (next_layer l))%nat.
Proof. intros H. rewrite length_next_layer. apply Nat.div_str_pos. lia. Qed.

(** With enough fuel the last layer is the root alone. *)
Lemma build_last fuel l :
  (0 < length l <= fuel)%nat -> exists r, last (_build fuel l) = Some [r].
Proof.
  revert l. induction fuel as [|f IH]; intros l Hl; [lia|]. cbn [_build].
  destruct (Nat.ltb_spec 1 (length l)) as [Hgt|Hle].
  - destruct (IH (next_layer l)) as [r Hr].
    { pose proof (next_layer_lt l Hgt). pose proof (next_layer_pos l Hgt). lia. }
    exists r. rewrite last_cons, Hr. done.
  - destruct l as [|a [|b l]]; cbn in *; [lia | eauto | lia].
Qed.

Lemma build_ne fuel l : _build fuel l <> [].
Proof. destruct fuel; cbn [_build]; [done|]. by destruct (1 <? length l)%nat. Qed.

Lemma length_leaf_layer hashes :
  length (leaf_layer hashes) =
  if Nat.odd (length hashes) && (1 <? length hashes)%nat then S (length hashes) else length hashes.
Proof.
  unfold leaf_layer. rewrite length_map.
  destruct (Nat.odd (length hashes) && (1 <? length hashes)%nat) eqn:E; [|by rewrite length_map].
  rewrite length_app, length_map. destruct (last (map _hash_leaf hashes)) eqn:El; cbn; [lia|].
  apply last_None in El. destruct hashes; done.
Qed.

Lemma leaf_layer_ge hashes : (length hashes <= length (leaf_layer hashes))%nat.
Proof. rewrite length_leaf_layer. case_match; lia. Qed.

Lemma leaf_layer_lookup hashes i h :
  hashes !! i = Some h -> leaf_layer hashes !! i = Some (_hash_leaf h).
Proof.
  intros H. unfold leaf_layer. assert (Hm : map _hash_leaf hashes !! i = Some (_hash_leaf h)).
  { change (map _hash_leaf hashes) with (_hash_leaf <$> hashes). by rewrite list_lookup_fmap, H. }
  case_match; [by apply lookup_app_l_Some | done].
Qed.

(** ** Completeness of proofs *)

Lemma next_layer_lookup l i x :
  l !! i = Some x ->
  next_layer l !! (i / 2)%nat =
  Some (if Nat.even i
        then _hash_pair x (match l !! S i with Some y => y | None => x end)
        else _hash_pair (nth (i - 1) l "") x).
Proof.
  revert i. induction l as [l IH] using list_len_ind. intros i H.
  destruct l as [|a [|b r]]; [done| |].
  - destruct i; [by injection H as -> | done].
  - destruct i as [|[|i]].
    + by injection H as ->.
    + by injection H as ->.
    + replace (S (S i) / 2)%nat with (S (i / 2))%nat
        by (replace (S (S i)) with (i + 1 * 2)%nat by lia; rewrite Nat.div_add by lia; lia).
      change (next_layer (a :: b :: r) !! S (i / 2)%nat) with (next_layer r !! (i / 2)%nat).
      change (Nat.even (S (S i))) with (Nat.even i).
      rewrite (IH r) with (i := i) by (cbn; auto; lia).
      destruct (Nat.even i) eqn:Ei; [done|].
      destruct i as [|i]; [discriminate|].
      replace (S i - 1)%nat with i by lia. replace (S (S (S i)) - 1)%nat with (S (S i)) by lia. done.
Qed.

Lemma step_up_correct l i x :
  l !! i = Some x ->
  next_layer l !! (i / 2)%nat =
  Some (step_up x
    (if Nat.even i then
       match l !! S i with
       | Some h => ProofStep "right" h
       | None => ProofStep "right" (nth i l "")
       end
     else ProofStep "left" (nth (i - 1) l ""))).
Proof.
  intros H. rewrite (next_layer_lookup _ _ _ H). destruct (Nat.even i); [|done].
  destruct (l !! S i); [done|]. unfold step_up. cbn.
  by rewrite (nth_lookup_Some _ _ _ _ H).
Qed.

Lemma build_proof_correct fuel l i x r :
  (0 < length l <= fuel)%nat ->
  l !! i = Some x ->
  last (_build fuel l) = Some [r] ->
  fold_left step_up (proof_steps (removelast (_build fuel l)) i) x = r.
Proof.
  revert l i x. induction fuel as [|f IH]; intros l i x Hl Hx Hr; [lia|]. cbn [_build] in *.
  destruct (Nat.ltb_spec 1 (length l)) as [Hgt|Hle].
  - rewrite last_cons in Hr. destruct (_build f (next_layer l)) as [|l1 ls] eqn:E;
      [by apply build_ne in E|].
    rewrite <- E in *. destruct (last (_build f (next_layer l))) eqn:El; [|by rewrite E in El; apply last_None in El].
    injection Hr as ->.
    assert (Hrm : removelast (l :: _build f (next_layer l)) = l :: removelast (_build f (next_layer l)))
      by (rewrite E; done).
    rewrite Hrm. cbn [proof_steps fold_left]. apply IH; [|by apply step_up_correct|done].
    pose proof (next_layer_lt l Hgt). pose proof (next_layer_pos l Hgt). lia.
  - destruct l as [|a [|b l]]; cbn in *; [done| |lia].
    destruct i; [|done]. injection Hx as ->. by injection Hr as ->.
Qed.

Lemma mk_tree_cons h hs :
  _layers (mk_tree (h :: hs)) = _build (length (leaf_layer (h :: hs))) (leaf_layer (h :: hs)).
Proof. done. Qed.

Lemma mk_tree_root h hs :
  last (_layers (mk_tree (h :: hs))) = Some [root (mk_tree (h :: hs))].
Proof.
  rewrite mk_tree_cons. pose proof (leaf_layer_ge (h :: hs)) as Hge. cbn [length] in Hge.
  destruct (build_last (length (leaf_layer (h :: hs))) (leaf_layer (h :: hs))) as [r Hr]; [lia|].
  rewrite Hr. unfold root. cbn [mk_tree _root]. by rewrite Hr.
Qed.

(** ** The strings that get hashed *)

Fixpoint pair_inputs (l : list string) : list string :=
  match l with
  | a :: b :: rest => pair_input a b :: pair_inputs rest
  | [a] => [pair_input a a]
  | [] => []
  end.

Fixpoint build_inputs (fuel : nat) (current : list string) : list string :=
  match fuel with
  | O => []
  | S k =>
      if (1 <? length current)%nat
      then pair_inputs current ++ build_inputs k (next_layer current) else []
  end.

(** Every string hashed while building the tree of [hashes]. *)
Definition tree_inputs (hashes : list string) : list string :=
  match hashes with
  | [] => ["empty"]
  | _ => map leaf_input hashes ++ build_inputs (length (leaf_layer hashes)) (leaf_layer hashes)
  end.

Definition step_input (current : string) (st : proof_step) : string :=
  if String.eqb (position st) "right" then pair_input current (hash st)
  else pair_input (hash st) current.

Fixpoint path_inputs (current : string) (proof : list proof_step) : list string :=
  match proof with
  | [] => []
  | st :: rest => step_input current st :: path_inputs (step_up current st) rest
  end.

(** Every string hashed while verifying a proof. *)
Definition proof_inputs (event_hash : string) (proof : list proof_step) : list string :=
  leaf_input event_hash :: path_inputs (_hash_leaf event_hash) proof.

Lemma step_up_input c st : step_up c st = sha256_hex (step_input c st).
Proof. unfold step_up, step_input. by case_match. Qed.

(** ** Domain separation *)

Definition no_bar (s : string) : Prop := has_char "|" s = false.

Lemma hex_no_bar s : str_forallb is_hex s = true -> no_bar s.
Proof.
  unfold no_bar. induction s as [|c s IH]; [done|]. cbn. intros H. reflect_bools.
  rewrite IH by done. rewrite orb_false_r. apply not_true_is_false. intros E.
  apply Ascii.eqb_eq in E. subst. discriminate.
Qed.

Lemma has_char_append c a b : has_char c (a +:+ b) = has_char c a || has_char c b.
Proof. induction a as [|x a IH]; [done|]. cbn. by rewrite IH, orb_assoc. Qed.

(** A pair whose left part is a digest is not a leaf input: the first bar is elsewhere. *)
Lemma leaf_input_ne_pair_l h l r : hex64 l -> leaf_input h <> pair_input l r.
Proof.
  intros [Hl Hx] E. unfold leaf_input, pair_input in E.
  do 5 (destruct l as [|? l]; [discriminate|]). cbn in E. injection E as <- _ _ _ _ _.
  by cbn in Hx.
Qed.

Lemma pair_input_inj l r l' r' :
  hex64 l -> hex64 l' -> pair_input l r = pair_input l' r' -> l = l' /\ r = r'.
Proof.
  intros [Hl _] [Hl' _] E. unfold pair_input in E.
  apply str_append_inj_len in E as [-> E]; [|congruence]. split; [done|].
  by apply str_append_inj_l in E.
Qed.

Lemma leaf_input_inj h h' : leaf_input h = leaf_input h' -> h = h'.
Proof. apply str_append_inj_l. Qed.

Lemma empty_ne_bar s : has_char "|" s = true -> s <> "empty".
Proof. intros H ->. discriminate. Qed.

(** ** Soundness of verification *)

(** Siblings are digests, as in every proof the tree generates. *)
Definition wf_proof (proof : list proof_step) : Prop := Forall (fun st => hex64 (hash st)) proof.

Definition hex_layer (l : list string) : Prop := Forall hex64 l.

Lemma next_layer_hex l : hex_layer (next_layer l).
Proof.
  induction l as [l IH] using list_len_ind. unfold hex_layer in *.
  destruct l as [|a [|b r]]; cbn [next_layer]; repeat constructor; try apply sha256_hex64.
  apply IH. cbn. lia.
Qed.

Lemma leaf_layer_elem x hashes :
  x ∈ leaf_layer hashes -> exists h, h ∈ hashes /\ x = _hash_leaf h.
Proof.
  assert (Hm : forall y, y ∈ map _hash_leaf hashes -> exists h, h ∈ hashes /\ y = _hash_leaf h).
  { intros y Hy. apply list_elem_of_In, in_map_iff in Hy as (h & <- & Hh).
    exists h. by rewrite list_elem_of_In. }
  unfold leaf_layer. case_match; [|apply Hm].
  rewrite elem_of_app. intros [?|Hl]; [by apply Hm|].
  destruct (last (map _hash_leaf hashes)) eqn:E; [|by apply not_elem_of_nil in Hl].
  apply list_elem_of_singleton in Hl as ->. apply Hm. by apply last_Some_elem_of.
Qed.

Lemma leaf_layer_hex hashes : hex_layer (leaf_layer hashes).
Proof.
  apply Forall_forall. intros x Hx. apply leaf_layer_elem in Hx as (h & _ & ->).
  apply sha256_hex64.
Qed.

(** A node of the next layer is the hash of an input made of two nodes of this layer. *)
Lemma next_layer_elem x l :
  x ∈ next_layer l ->
  exists a b, a ∈ l /\ b ∈ l /\ x = _hash_pair a b /\ pair_input a b ∈ pair_inputs l.
Proof.
  induction l as [l IH] using list_len_ind. destruct l as [|a [|b r]]; cbn [next_layer pair_inputs].
  - by intros ?%not_elem_of_nil.
  - intros ->%list_elem_of_singleton. exists a, a. set_solver.
  - intros [->|H]%elem_of_cons; [exists a, b; set_solver|].
    apply IH in H as (c & d & ? & ? & ? & ?); [|cbn; lia]. exists c, d. set_solver.
Qed.

(** The nodes a proof path may pass through: the leaf layer and what is built on it. *)
Inductive tree_node (hashes : list string) : string -> Prop :=
| node_leaf h : h ∈ hashes -> tree_node hashes (_hash_leaf h)
| node_pair a b : tree_node hashes a -> tree_node hashes b -> hex64 a ->
    pair_input a b ∈ tree_inputs hashes -> tree_node hashes (_hash_pair a b).

Lemma build_nodes hashes fuel l :
  hashes <> [] ->
  (forall x, x ∈ build_inputs fuel l -> x ∈ tree_inputs hashes) ->
  hex_layer l -> (forall x, x ∈ l -> tree_node hashes x) ->
  forall layer x, layer ∈ _build fuel l -> x ∈ layer -> tree_node hashes x.
Proof.
  intros Hne. revert l. induction fuel as [|f IH]; intros l Hin Hhex Hnode layer x Hl Hx;
    cbn [_build build_inputs] in *.
  { apply list_elem_of_singleton in Hl as ->. auto. }
  destruct (1 <? length l)%nat.
  - apply elem_of_cons in Hl as [->|Hl]; [auto|].
    eapply (IH (next_layer l)); eauto.
    + intros y Hy. apply Hin. set_solver.
    + apply next_layer_hex.
    + intros y Hy. apply next_layer_elem in Hy as (a & b & Ha & Hb & -> & Hp).
      constructor; auto. { by eapply Forall_forall in Ha; [|apply Hhex]. }
      apply Hin. set_solver.
  - apply list_elem_of_singleton in Hl as ->. auto.
Qed.

Lemma leaf_input_in hashes h : h ∈ hashes -> leaf_input h ∈ tree_inputs hashes.
Proof.
  intros H. destruct hashes as [|h0 hs]; [by apply not_elem_of_nil in H|].
  apply elem_of_app. left. apply list_elem_of_In, in_map. by apply list_elem_of_In.
Qed.

Lemma root_node h hs : tree_node (h :: hs) (root (mk_tree (h :: hs))).
Proof.
  eapply (build_nodes (h :: hs) (length (leaf_layer (h :: hs))) (leaf_layer (h :: hs)))
    with (layer := [root (mk_tree (h :: hs))]).
  - done.
  - intros x Hx. unfold tree_inputs. set_solver.
  - apply leaf_layer_hex.
  - intros x Hx. apply leaf_layer_elem in Hx as (y & Hy & ->). by constructor.
  - rewrite <- mk_tree_cons. apply last_Some_elem_of, mk_tree_root.
  - set_solver.
Qed.

Lemma leaf_in_proof_inputs h proof : leaf_input h ∈ proof_inputs h proof.
Proof. apply list_elem_of_here. Qed.

Lemma path_inputs_mid pre st suf c :
  step_input (fold_left step_up pre c) st ∈ path_inputs c (pre ++ st :: suf)%list.
Proof.
  revert c. induction pre as [|s pre IH]; intros c; cbn [app path_inputs fold_left].
  - apply list_elem_of_here.
  - apply list_elem_of_further, IH.
Qed.

(** Walking a path that ends in a node of the tree: it started at one of the leaves. *)
Lemma path_sound hashes proof c h :
  no_collision (tree_inputs hashes) (proof_inputs h proof) ->
  forall pre, c = fold_left step_up pre (_hash_leaf h) ->
  (exists suf : list proof_step, proof = (pre ++ suf)%list) -> wf_proof pre -> tree_node hashes c -> h ∈ hashes.
Proof.
  intros Hnc pre. revert c.
  induction pre as [|st pre IH] using rev_ind; intros c -> [suf ->] Hwf Hn.
  - cbn in Hn. remember (_hash_leaf h) as c eqn:E.
    destruct Hn as [h' Hh|a b _ _ Ha Hin].
    + apply Hnc in E; [|by apply leaf_input_in|apply leaf_in_proof_inputs].
      apply leaf_input_inj in E. by rewrite <- E.
    + apply Hnc in E; [|done|apply leaf_in_proof_inputs].
      symmetry in E. by apply leaf_input_ne_pair_l in E.
  - rewrite fold_left_app in Hn. cbn [fold_left] in Hn.
    set (cur := fold_left step_up pre (_hash_leaf h)) in *.
    assert (Hcur : hex64 cur).
    { unfold cur. destruct pre as [|st' pre' _] using rev_ind; [apply sha256_hex64|].
      rewrite fold_left_app. cbn [fold_left]. rewrite step_up_input. apply sha256_hex64. }
    assert (Hpin : step_input cur st ∈ proof_inputs h (((pre ++ [st]) ++ suf)%list)).
    { rewrite <- app_assoc. apply list_elem_of_further, path_inputs_mid. }
    apply Forall_app in Hwf as [Hwf Hst]. apply Forall_inv in Hst.
    rewrite step_up_input in Hn. remember (sha256_hex (step_input cur st)) as c eqn:E.
    destruct Hn as [h' Hh|a b Hna Hnb Ha Hin].
    + apply Hnc in E; [|by apply leaf_input_in|done].
      exfalso. revert E. unfold step_input. case_match; by apply leaf_input_ne_pair_l.
    + apply Hnc in E; [|done..]. unfold step_input in E.
      case_match; apply pair_input_inj in E as [-> ->]; auto.
      * eapply (IH cur); eauto. exists (st :: suf). by rewrite <- app_assoc.
      * eapply (IH cur); eauto. exists (st :: suf). by rewrite <- app_assoc.
Qed.

(** ** Binding *)

Lemma next_layer_inj l l' :
  length l = length l' -> hex_layer l -> hex_layer l' ->
  no_collision (pair_inputs l) (pair_inputs l') -> next_layer l = next_layer l' -> l = l'.
Proof.
  revert l'. induction l as [l IH] using list_len_ind. intros l' Hlen Hh Hh' Hnc E.
  destruct l as [|a [|b r]], l' as [|a' [|b' r']]; try discriminate Hlen; [done| |].
  - cbn [next_layer] in E. apply cons_eq_inv in E as [E _]. apply Hnc in E; [|apply list_elem_of_here..].
    apply pair_input_inj in E as [-> _]; [done| |]; by eapply Forall_inv.
  - cbn [next_layer] in E. apply cons_eq_inv in E as [E Er]. cbn [pair_inputs] in Hnc.
    apply Hnc in E; [|apply list_elem_of_here..].
    apply pair_input_inj in E as [-> ->]; [|by eapply Forall_inv..].
    do 2 f_equal. apply IH; auto.
    + cbn. lia.
    + by injection Hlen.
    + exact (Forall_inv_tail (Forall_inv_tail Hh)).
    + exact (Forall_inv_tail (Forall_inv_tail Hh')).
    + eapply no_collision_sub; [exact Hnc| |]; intros z Hz; by apply list_elem_of_further.
Qed.

Lemma build_inj fuel l l' :
  length l = length l' -> (0 < length l <= fuel)%nat -> hex_layer l -> hex_layer l' ->
  no_collision (build_inputs fuel l) (build_inputs fuel l') ->
  last (_build fuel l) = last (_build fuel l') -> l = l'.
Proof.
  revert l l'. induction fuel as [|f IH]; intros l l' Hlen Hf Hh Hh' Hnc E; [lia|].
  cbn [_build build_inputs] in *. rewrite <- Hlen in *.
  destruct (Nat.ltb_spec 1 (length l)) as [Hgt|Hle].
  - rewrite !last_cons in E.
    assert (Hl2 : length (next_layer l) = length (next_layer l')) by (by rewrite !length_next_layer, Hlen).
    pose proof (next_layer_lt l Hgt). pose proof (next_layer_pos l Hgt).
    destruct (build_last f (next_layer l)) as [r Hr]; [lia|].
    destruct (build_last f (next_layer l')) as [r' Hr']; [lia|]. rewrite Hr, Hr' in E.
    apply next_layer_inj; auto; [eapply no_collision_sub; [exact Hnc| |]; intros z Hz; apply elem_of_app; by left|].
    apply IH; auto using next_layer_hex; [lia| |by rewrite Hr, Hr'].
    eapply no_collision_sub; [exact Hnc| |]; intros z Hz; apply elem_of_app; by right.
  - destruct l as [|a [|b l]]; cbn in *; try lia.
    destruct l' as [|a' [|b' l']]; cbn in *; try lia. by injection E as ->.
Qed.

Lemma leaf_layer_inj hashes hashes' :
  length hashes = length hashes' ->
  no_collision (map leaf_input hashes) (map leaf_input hashes') ->
  leaf_layer hashes = leaf_layer hashes' -> hashes = hashes'.
Proof.
  intros Hlen Hnc E. apply list_eq_same_length with (n := length hashes); [done..|].
  intros i x y Hi Hx Hy. pose proof (leaf_layer_lookup _ _ _ Hx) as Ex.
  pose proof (leaf_layer_lookup _ _ _ Hy) as Ey. rewrite E in Ex. rewrite Ex in Ey.
  apply (inj Some) in Ey. apply leaf_input_inj. apply Hnc in Ey; [done| |];
    apply list_elem_of_In, in_map, list_elem_of_In; by eapply list_elem_of_lookup_2.
Qed.

(** ** Depth *)

Lemma log2_up_half n : (1 < n)%nat -> Nat.log2_up n = S (Nat.log2_up ((n + 1) / 2)).
Proof.
  intros Hn. assert (Hs : (n = 2 * (n / 2) + n mod 2)%nat) by apply Nat.div_mod_eq.
  pose proof (Nat.mod_upper_bound n 2) as Hm.
  assert (Hc : ((n + 1) / 2 = n / 2 + n mod 2)%nat).
  { symmetry. apply (Nat.div_unique _ _ _ (1 - n mod 2)); lia. }
  destruct (decide (n = 2)) as [->|Hn2]; [done|].
  assert (Hbig : (1 < n / 2 + n mod 2)%nat).
  { rewrite <- Hc. apply Nat.div_le_lower_bound; lia. }
  apply Nat.log2_up_unique; [lia|]. rewrite Hc.
  pose proof (Nat.log2_up_spec _ Hbig) as [Hlo Hhi].
  destruct (Nat.log2_up (n / 2 + n mod 2)) as [|k] eqn:Ek.
  { pose proof (Nat.log2_up_pos _ Hbig). lia. }
  cbn [Nat.pred] in *. rewrite !Nat.pow_succ_r' in *. lia.
Qed.

Lemma build_length fuel l :
  (0 < length l <= fuel)%nat -> length (_build fuel l) = S (Nat.log2_up (length l)).
Proof.
  revert l. induction fuel as [|f IH]; intros l Hl; [lia|]. cbn [_build].
  destruct (Nat.ltb_spec 1 (length l)) as [Hgt|Hle].
  - cbn [length]. pose proof (next_layer_lt l Hgt). pose proof (next_layer_pos l Hgt).
    rewrite IH by lia. by rewrite length_next_layer, <- log2_up_half.
  - by replace (length l) with 1%nat by lia.
Qed.

(** ** Padding *)

Lemma leaf_layer_dup hashes x :
  Nat.odd (length (hashes ++ [x])%list) = true -> hashes <> [] ->
  leaf_layer (hashes ++ [x]) = leaf_layer (hashes ++ [x; x]).
Proof.
  intros Hodd Hne. assert (Hlen : (1 < length (hashes ++ [x])%list)%nat).
  { rewrite length_app. cbn. destruct hashes; [done|cbn; lia]. }
  unfold leaf_layer. rewrite !length_map, Hodd.
  replace (1 <? length (hashes ++ [x])%list)%nat with true by (symmetry; by apply Nat.ltb_lt).
  assert (Heven : Nat.odd (length (hashes ++ [x; x])%list) = false).
  { rewrite !length_app in *. cbn in *. rewrite Nat.add_succ_r, Nat.odd_succ, <- Nat.negb_odd.
    by rewrite Hodd. }
  rewrite Heven. cbn [andb]. rewrite !map_app. cbn [map].
  rewrite last_snoc. by rewrite <- app_assoc.
Qed.

Lemma proof_steps_length layers idx : length (proof_steps layers idx) = length layers.
Proof. revert idx. induction layers as [|l ls IH]; intros idx; cbn; [done | by rewrite IH]. Qed.

Lemma proof_steps_wf fuel l i :
  (0 < length l <= fuel)%nat -> hex_layer l -> (i < length l)%nat ->
  wf_proof (proof_steps (removelast (_build fuel l)) i).
Proof.
  revert l i. induction fuel as [|f IH]; intros l i Hl Hh Hi; [lia|]. cbn [_build].
  destruct (Nat.ltb_spec 1 (length l)) as [Hgt|Hle]; [|constructor].
  assert (Hrm : removelast (l :: _build f (next_layer l)) = l :: removelast (_build f (next_layer l))).
  { destruct (_build f (next_layer l)) eqn:E; [by apply build_ne in E | done]. }
  rewrite Hrm. cbn [proof_steps]. pose proof (next_layer_lt l Hgt). pose proof (next_layer_pos l Hgt).
  assert (Hnth : forall j, (j < length l)%nat -> hex64 (nth j l "")).
  { intros j Hj. destruct (lookup_lt_is_Some_2 l j Hj) as [x Hx].
    rewrite (nth_lookup_Some _ _ _ _ Hx). by eapply Forall_lookup_1. }
  constructor.
  - destruct (Nat.even i); [|apply Hnth; lia].
    destruct (l !! S i) eqn:E; [by eapply Forall_lookup_1 in E | by apply Hnth].
  - apply IH; [lia|apply next_layer_hex|]. rewrite length_next_layer.
    apply Nat.Div0.div_lt_upper_bound.
    pose proof (Nat.div_mod_eq (length l + 1) 2). pose proof (Nat.mod_upper_bound (length l + 1) 2). lia.
Qed.

Lemma length_removelast {A} (l : list A) : length (removelast l) = (length l - 1)%nat.
Proof. induction l as [|x [|y l] IH]; [done..|]. cbn [removelast length] in *. lia. Qed.

(** ** Properties *)

(** For an index in range the call succeeds and its result verifies. *)
Lemma generate_proof_verifies hashes i h :
  hashes !! i = Some h ->
  generate_proof (mk_tree hashes) (Z.of_nat i) = Ok (proof_steps (removelast (_layers (mk_tree hashes))) i)
  /\ verify_proof h (proof_steps (removelast (_layers (mk_tree hashes))) i) (root (mk_tree hashes)) = true.
Proof.
  intros H. destruct hashes as [|h0 hs]; [done|].
  pose proof (lookup_lt_Some _ _ _ H) as Hi. pose proof (leaf_layer_ge (h0 :: hs)) as Hge.
  pose proof (mk_tree_root h0 hs) as Hroot. rewrite mk_tree_cons in Hroot.
  unfold generate_proof. rewrite mk_tree_cons.
  destruct (_build _ _) eqn:E; [by apply build_ne in E|]. rewrite <- E in *.
  change (_leaf_count (mk_tree (h0 :: hs))) with (length (h0 :: hs)).
  replace (Z.of_nat i <? 0)%Z with false by (symmetry; apply Z.ltb_ge; lia).
  replace (Z.of_nat (length (h0 :: hs)) <=? Z.of_nat i)%Z with false by (symmetry; apply Z.leb_gt; lia).
  cbn [orb]. rewrite Nat2Z.id. split; [done|].
  unfold verify_proof. rewrite (build_proof_correct _ _ _ _ (root (mk_tree (h0 :: hs)))); auto.
  - apply String.eqb_refl.
  - cbn in *; lia.
  - by apply leaf_layer_lookup.
Qed.

(** Every proof the tree generates verifies: for any stored event hash the call returns a
    proof (it does not raise), the proof is as long as the tree is deep, its siblings are digests,
    and [verify_proof] accepts it against the root. *)
Theorem merkle_proof_complete hashes i h :
  hashes !! i = Some h ->
  exists p, generate_proof (mk_tree hashes) (Z.of_nat i) = Ok p
    /\ length p = depth (mk_tree hashes) /\ wf_proof p
    /\ verify_proof h p (root (mk_tree hashes)) = true.
Proof.
  intros H. destruct (generate_proof_verifies hashes i h H) as [Hg Hv].
  exists (proof_steps (removelast (_layers (mk_tree hashes))) i). split; [done|].
  pose proof (lookup_lt_Some _ _ _ H) as Hi. pose proof (leaf_layer_ge hashes) as Hge.
  destruct hashes as [|h0 hs]; [done|]. rewrite proof_steps_length, length_removelast.
  repeat split; [|by rewrite mk_tree_cons; apply proof_steps_wf; auto using leaf_layer_hex; cbn in *; lia|done].
  unfold depth. rewrite mk_tree_cons. destruct (_build _ _) eqn:E; [by apply build_ne in E|done].
Qed.

Definition demo_hashes : list string := ["aa"; "bb"; "cc"].

Lemma merkle_proof_complete_witness :
  demo_hashes !! 2%nat = Some "cc" /\
  exists p, generate_proof (mk_tree demo_hashes) (Z.of_nat 2) = Ok p
    /\ length p = depth (mk_tree demo_hashes) /\ wf_proof p
    /\ verify_proof "cc" p (root (mk_tree demo_hashes)) = true.
Proof. split; [reflexivity | apply (merkle_proof_complete demo_hashes 2 "cc"); reflexivity]. Defined.

(** A proof that verifies proves membership, however it was produced: if its siblings are
    digests and SHA-256 does not collide between the strings hashed for the tree and those hashed
    while verifying, the event hash is one of the tree's.  No bound on the proof's length is
    assumed, so neither a shortened nor an extended proof can pass. *)
Theorem merkle_proof_sound hashes h p :
  wf_proof p -> no_collision (tree_inputs hashes) (proof_inputs h p) ->
  verify_proof h p (root (mk_tree hashes)) = true -> h ∈ hashes.
Proof.
  intros Hwf Hnc Hv. apply String.eqb_eq in Hv. destruct hashes as [|h0 hs].
  - exfalso. cbn in Hv. unfold root, empty_root in Hv. cbn in Hv.
    destruct p as [|st p _] using rev_ind.
    + cbn in Hv. symmetry in Hv. apply Hnc in Hv; [|apply list_elem_of_here..].
      by apply (empty_ne_bar (leaf_input h)).
    + rewrite fold_left_app in Hv. cbn [fold_left] in Hv. rewrite step_up_input in Hv.
      symmetry in Hv. apply Hnc in Hv; [|apply list_elem_of_here|].
      * revert Hv. apply not_eq_sym, empty_ne_bar. unfold step_input, pair_input.
        case_match; rewrite !has_char_append; cbn; by rewrite orb_true_r.
      * apply list_elem_of_further, path_inputs_mid.
  - eapply (path_sound (h0 :: hs) p _ h Hnc p); [symmetry; exact Hv| |done|apply root_node].
    exists []. by rewrite app_nil_r.
Qed.

Definition demo_proof : list proof_step :=
  match generate_proof (mk_tree demo_hashes) 1 with Ok p => p | Raise _ => [] end.

Lemma merkle_proof_sound_witness : "bb" ∈ demo_hashes.
Proof.
  apply (merkle_proof_sound demo_hashes "bb" demo_proof).
  - repeat constructor; vm_compute; reflexivity.
  - apply no_collision_b_ok. vm_compute. reflexivity.
  - vm_compute. reflexivity.
Defined.

(** The root commits to the event hashes: two lists of the same length with the same root are
    equal, unless two of the strings hashed for them collide. *)
Theorem merkle_root_binding hashes hashes' :
  length hashes = length hashes' ->
  no_collision (tree_inputs hashes) (tree_inputs hashes') ->
  compute_merkle_root hashes = compute_merkle_root hashes' -> hashes = hashes'.
Proof.
  intros Hlen Hnc E. destruct hashes as [|h hs], hashes' as [|h' hs']; try discriminate Hlen; [done|].
  pose proof (mk_tree_root h hs) as Hr. pose proof (mk_tree_root h' hs') as Hr'.
  unfold compute_merkle_root in E. rewrite E in Hr. rewrite mk_tree_cons in Hr, Hr'.
  assert (Hll : length (leaf_layer (h' :: hs')) = length (leaf_layer (h :: hs)))
    by (by rewrite !length_leaf_layer, Hlen).
  apply leaf_layer_inj; [done| |].
  { eapply no_collision_sub; [exact Hnc| |]; intros z Hz; apply elem_of_app; by left. }
  apply (build_inj (length (leaf_layer (h :: hs)))); auto using leaf_layer_hex.
  - pose proof (leaf_layer_ge (h :: hs)). cbn in *; lia.
  - eapply no_collision_sub; [exact Hnc| |]; intros z Hz; apply elem_of_app; right; [done|].
    by rewrite Hll.
  - by rewrite Hr, <- Hll, Hr'.
Qed.

Lemma merkle_root_binding_witness :
  length demo_hashes = length ["aa"; "bb"; "cc"] /\ demo_hashes = ["aa"; "bb"; "cc"].
Proof.
  split; [reflexivity|]. apply (merkle_root_binding demo_hashes ["aa"; "bb"; "cc"]).
  - reflexivity.
  - apply no_collision_b_ok. vm_compute. reflexivity.
  - reflexivity.
Defined.

(** The root is ambiguous across lengths: an odd list of at least three hashes has the same
    root as the list with its last hash repeated, so a root alone does not fix the number of
    events; the chain length stored beside it is needed. *)
Theorem merkle_padding_ambiguous hashes x :
  Nat.odd (length (hashes ++ [x])%list) = true -> hashes <> [] ->
  compute_merkle_root (hashes ++ [x]) = compute_merkle_root (hashes ++ [x; x])
  /\ length (hashes ++ [x])%list <> length (hashes ++ [x; x])%list.
Proof.
  intros Hodd Hne. split; [|rewrite !length_app; cbn; lia].
  destruct hashes as [|h hs]; [done|]. unfold compute_merkle_root, root, mk_tree.
  cbn [app _root]. change (h :: hs ++ [x])%list with ((h :: hs) ++ [x])%list.
  change (h :: hs ++ [x; x])%list with ((h :: hs) ++ [x; x])%list.
  by rewrite (leaf_layer_dup (h :: hs) x Hodd Hne).
Qed.

Lemma merkle_padding_ambiguous_witness :
  compute_merkle_root ["aa"; "bb"; "cc"] = compute_merkle_root ["aa"; "bb"; "cc"; "cc"]
  /\ length ["aa"; "bb"; "cc"] <> length ["aa"; "bb"; "cc"; "cc"].
Proof. apply (merkle_padding_ambiguous ["aa"; "bb"] "cc"); [reflexivity | discriminate]. Defined.

Lemma log2_up_pad n :
  Nat.log2_up (if Nat.odd n && (1 <? n)%nat then S n else n) = Nat.log2_up n.
Proof.
  destruct (Nat.odd n) eqn:Eo; [|done]. destruct (Nat.ltb_spec 1 n) as [Hn|]; [|done]. cbn [andb].
  rewrite (log2_up_half (S n)), (log2_up_half n) by lia. do 2 f_equal.
  apply Nat.odd_spec in Eo as [k ->].
  replace (S (2 * k + 1) + 1)%nat with (1 + (k + 1) * 2)%nat by lia.
  replace (2 * k + 1 + 1)%nat with (0 + (k + 1) * 2)%nat by lia.
  rewrite !Nat.div_add by lia. done.
Qed.

(** Building terminates with a single root: the layers of a non-empty tree end in the
    one-element root layer, and the depth is the logarithm (rounded up) of the number of events,
    padding included; a proof index raises [IndexError] exactly when it is out of range. *)
Theorem merkle_build_shape hashes index :
  hashes <> [] ->
  last (_layers (mk_tree hashes)) = Some [root (mk_tree hashes)]
  /\ depth (mk_tree hashes) = Nat.log2_up (length hashes)
  /\ (is_ok (generate_proof (mk_tree hashes) index) = false
      <-> (index < 0 \/ Z.of_nat (length hashes) <= index)%Z).
Proof.
  intros Hne. destruct hashes as [|h hs]; [done|]. repeat split.
  - apply mk_tree_root.
  - pose proof (leaf_layer_ge (h :: hs)) as Hge. unfold depth. rewrite mk_tree_cons.
    pose proof (build_length (length (leaf_layer (h :: hs))) (leaf_layer (h :: hs))) as Hl.
    destruct (_build _ _) eqn:E; [by apply build_ne in E|]. rewrite Hl by (cbn in *; lia).
    rewrite length_leaf_layer, log2_up_pad. lia.
  - unfold generate_proof. rewrite mk_tree_cons.
    destruct (_build _ _) eqn:E; [by apply build_ne in E|]. cbn [orb].
    change (_leaf_count (mk_tree (h :: hs))) with (length (h :: hs)).
    destruct (Z.ltb_spec index 0); [by left|]. destruct (Z.leb_spec (Z.of_nat (length (h :: hs))) index); [by right|done].
  - intros Hr. unfold generate_proof. rewrite mk_tree_cons.
    destruct (_build _ _) eqn:E; [by apply build_ne in E|]. cbn [orb].
    change (_leaf_count (mk_tree (h :: hs))) with (length (h :: hs)).
    destruct (Z.ltb_spec index 0); [done|]. destruct (Z.leb_spec (Z.of_nat (length (h :: hs))) index); [done|lia].
Qed.

Lemma merkle_build_shape_witness :
  last (_layers (mk_tree demo_hashes)) = Some [root (mk_tree demo_hashes)]
  /\ depth (mk_tree demo_hashes) = Nat.log2_up (length demo_hashes)
  /\ (is_ok (generate_proof (mk_tree demo_hashes) 3) = false
      <-> (3 < 0 \/ Z.of_nat (length demo_hashes) <= 3)%Z).
Proof. apply (merkle_build_shape demo_hashes 3). discriminate. Defined.

(** The premise of [merkle_proof_sound] that siblings are digests is needed: [verify_proof] does not check their
    form, and the sibling text "leaf" turns a path that ends in an event hash into that event's
    leaf.  Whenever an event hash of the tree is itself the root of a verified path, the event at
    the bottom of that path is accepted too, although it is not one of the tree's. *)
Theorem merkle_proof_extension hashes i x h p q :
  hashes !! i = Some x -> verify_proof h p x = true ->
  generate_proof (mk_tree hashes) (Z.of_nat i) = Ok q ->
  verify_proof h (p ++ ProofStep "left" "leaf" :: q) (root (mk_tree hashes)) = true.
Proof.
  intros Hx Hv Hq. destruct (generate_proof_verifies hashes i x Hx) as [Hq' Hok].
  rewrite Hq in Hq'. injection Hq' as ->. unfold verify_proof in *.
  apply String.eqb_eq in Hv. rewrite fold_left_app, Hv. exact Hok.
Qed.

Lemma merkle_proof_extension_witness :
  let sub := compute_merkle_root ["aa"; "bb"] in
  let outer := ["cc"; sub] in
  exists q, verify_proof "aa" q (root (mk_tree outer)) = true /\ "aa" ∉ outer.
Proof.
  cbv zeta. eexists. split.
  - apply (merkle_proof_extension ["cc"; compute_merkle_root ["aa"; "bb"]] 1
             (compute_merkle_root ["aa"; "bb"]) "aa" [ProofStep "right" (_hash_leaf "bb")]
             [ProofStep "left" (_hash_leaf "cc")]); vm_compute; reflexivity.
  - rewrite list_elem_of_In. intros [H|[H|[]]]; vm_compute in H; discriminate.
Defined.
