(* ===== verification/Hashing.v ===== *)
(** * Event hashing

    [services/shared/cte_persistence/hashing.py] and the digest of
    [services/shared/canonical_event.py]: the pipe-joined canonical forms, the chain link and the
    deduplication key.  Proved: which fields the digests bind, and where the pipe-joined form lets
    two different events share one. *)

From Stdlib Require Import ZArith Lia String Ascii.
From stdpp Require Import base list strings.
From S2P Require Import Prelude PyStr PyFloat PyVal Json Sha256.

Local Open Scope string_scope.

Section Hashing.
Context `{PyLib}.

(** [_normalize_for_hashing] on the value universe. *)
Fixpoint _normalize_for_hashing (obj : pyval) : pyval :=
  match obj with
  | PDatetime d => PStr (isoformat d)
  | PDict d => PDict (map (fun kv => (fst kv, _normalize_for_hashing (snd kv))) d)
  | PList l => PList (map _normalize_for_hashing l)
  | _ => obj
  end.

Definition description_keys : list string := ["product_description"; "description"; "item_description"].

Definition stable_kdes (kdes : pydict) : pydict :=
  List.filter (fun kv => negb (existsb (String.eqb (fst kv)) description_keys)) kdes.

(** [compute_event_hash]: [product_description] and [location_name] are in the signature and not
    in the digest. *)
Definition compute_event_hash
    (event_id event_type tlc product_description : string) (quantity : pyval) (unit_of_measure : string)
    (location_gln location_name : option string) (timestamp : string) (kdes : pydict) : res string :=
  do dumped <- json_dumps opts_sorted (_normalize_for_hashing (PDict (stable_kdes kdes)));
  Ok (sha256_hex (str_join "|"
    [event_id; event_type; tlc; py_str quantity; unit_of_measure; ostr_or location_gln "";
     timestamp; dumped])).

(** The fields of [TraceabilityEvent] that take part in its digest, and its tenant. *)
Record canonical_event := CanonicalEvent {
  ce_event_id : string;
  ce_tenant_id : string;
  ce_event_type : string;
  ce_tlc : string;
  ce_product_reference : option string;
  ce_quantity : f64;
  ce_unit_of_measure : string;
  ce_from_facility : option string;
  ce_to_facility : option string;
  ce_event_timestamp : datetime;
  ce_kdes : pydict
}.

Definition canonical_text (e : canonical_event) (dumped : string) : string :=
  str_join "|"
    [ce_event_id e; ce_event_type e; ce_tlc e; ostr_or (ce_product_reference e) "";
     repr_float (ce_quantity e); ce_unit_of_measure e; ostr_or (ce_from_facility e) "";
     ostr_or (ce_to_facility e) ""; isoformat (ce_event_timestamp e); dumped].

(** [TraceabilityEvent.compute_sha256_hash]. *)
Definition compute_sha256_hash (e : canonical_event) : res string :=
  do dumped <- json_dumps opts_sorted_str (PDict (ce_kdes e));
  Ok (sha256_hex (canonical_text e dumped)).

Definition with_event_id (e : canonical_event) (id : string) : canonical_event :=
  {| ce_event_id := id; ce_tenant_id := ce_tenant_id e; ce_event_type := ce_event_type e;
     ce_tlc := ce_tlc e; ce_product_reference := ce_product_reference e; ce_quantity := ce_quantity e;
     ce_unit_of_measure := ce_unit_of_measure e; ce_from_facility := ce_from_facility e;
     ce_to_facility := ce_to_facility e; ce_event_timestamp := ce_event_timestamp e; ce_kdes := ce_kdes e |}.

(** [compute_canonical_event_hash]; the argument is either a normalized event or something else. *)
Definition compute_canonical_event_hash (event_id tenant_id : string) (event : option canonical_event)
    : res string :=
  match event with
  | None => Raise (TypeError "canonical_event must be a normalized TraceabilityEvent")
  | Some e =>
      if negb (String.eqb (ce_tenant_id e) tenant_id)
      then Raise (ValueError "canonical_event tenant does not match persistence tenant")
      else compute_sha256_hash (with_event_id e event_id)
  end.

Definition chain_input (event_hash : string) (previous_chain_hash : option string) : string :=
  ostr_or previous_chain_hash "GENESIS" +:+ "|" +:+ event_hash.

(** [compute_chain_hash]. *)
Definition compute_chain_hash (event_hash : string) (previous_chain_hash : option string) : string :=
  sha256_hex (chain_input event_hash previous_chain_hash).

(** [compute_idempotency_key]. *)
Definition compute_idempotency_key
    (event_type tlc timestamp source : string) (kdes : pydict)
    (location_gln location_name : option string) : res string :=
  do canonical <- json_dumps opts_compact (_normalize_for_hashing (PDict
    [("event_type", PStr event_type); ("tlc", PStr tlc); ("timestamp", PStr timestamp);
     ("source", PStr source); ("location_gln", PStr (ostr_or location_gln ""));
     ("location_name", PStr (ostr_or location_name "")); ("kdes", PDict kdes)]));
  Ok (sha256_hex canonical).
End Hashing.

(** ** Normalization makes serialization total *)

Lemma normalize_dumps_total `{PyLib} o v : exists s, json_dumps o (_normalize_for_hashing v) = Ok s.
Proof.
  revert v. fix IH 1. intros v. destruct v as [|b|z|f|s|d|l|d];
    cbn [_normalize_for_hashing json_dumps]; eauto.
  - match goal with |- context [rbind ?c _] => assert (Hl : exists xs, c = Ok xs) end.
    { induction l as [|x l IHl]; [eauto|]. destruct (IH x) as [y Hy], IHl as [ys Hys].
      exists (y :: ys). cbn [map]. by rewrite Hy, Hys. }
    destruct Hl as [xs ->]. eauto.
  - match goal with |- context [rbind ?c _] => assert (Hd : exists xs, c = Ok xs) end.
    { induction d as [|[k x] d IHd]; [eauto|]. destruct (IH x) as [y Hy], IHd as [ys Hys].
      exists ((k, y) :: ys). cbn [map fst snd]. by rewrite Hy, Hys. }
    destruct Hd as [xs ->]. eauto.
Qed.

Lemma compute_event_hash_total `{PyLib} id ty tlc pd q u g n ts kdes :
  exists h, compute_event_hash id ty tlc pd q u g n ts kdes = Ok h.
Proof.
  unfold compute_event_hash.
  destruct (normalize_dumps_total opts_sorted (PDict (stable_kdes kdes))) as [s ->]. eauto.
Qed.

Lemma compute_idempotency_key_total `{PyLib} ty tlc ts src kdes g n :
  exists k, compute_idempotency_key ty tlc ts src kdes g n = Ok k.
Proof.
  unfold compute_idempotency_key.
  match goal with |- context [json_dumps ?o (_normalize_for_hashing ?v)] =>
    destruct (normalize_dumps_total o v) as [s ->] end. eauto.
Qed.

Lemma compute_sha256_hash_total `{PyLib} e : exists h, compute_sha256_hash e = Ok h.
Proof.
  unfold compute_sha256_hash.
  destruct (json_dumps_default_total opts_sorted_str (PDict (ce_kdes e)) eq_refl) as [s ->]. eauto.
Qed.

(** A chain hash is never the empty string, so the [or 'GENESIS'] default is taken only for NULL. *)
Lemma chain_hash_ne h p : compute_chain_hash h p <> "".
Proof.
  intros E. destruct (sha256_hex64 (chain_input h p)) as [Hl _].
  unfold compute_chain_hash in E. rewrite E in Hl. discriminate.
Qed.

(** Linking is injective in both arguments when the previous link is NULL or a digest. *)
Definition link_ok (p : option string) : Prop := match p with None => True | Some s => hex64 s end.

Lemma hex64_ne s : hex64 s -> s <> "".
Proof. intros [Hl _] ->. discriminate. Qed.

Lemma chain_input_inj h p h' p' :
  link_ok p -> link_ok p' -> chain_input h p = chain_input h' p' -> h = h' /\ p = p'.
Proof.
  unfold chain_input, link_ok. intros Hp Hp' E.
  assert (Hgen : forall s a b, hex64 s -> "GENESIS" +:+ "|" +:+ a <> s +:+ "|" +:+ b).
  { intros s a b [Hl Hx]. do 1 (destruct s as [|c s]; [discriminate|]).
    intros E'. cbn in E'. injection E' as <- _. by cbn in Hx. }
  destruct p as [s|], p' as [s'|]; rewrite ?ostr_or_ne in E by (by apply hex64_ne).
  - apply str_append_inj_len in E as [-> E]; [|destruct Hp, Hp'; congruence].
    apply str_append_inj_l in E. by subst.
  - symmetry in E. by apply Hgen in E.
  - by apply Hgen in E.
  - cbn [ostr_or] in E. do 2 apply str_append_inj_l in E. by subst.
Qed.

(** ** What the pipe-joined form binds *)

(** The pieces of the canonical form before the KDEs. *)
Definition canonical_fields `{PyLib} (e : canonical_event) : list string :=
  [ce_event_id e; ce_event_type e; ce_tlc e; ostr_or (ce_product_reference e) "";
   repr_float (ce_quantity e); ce_unit_of_measure e; ostr_or (ce_from_facility e) "";
   ostr_or (ce_to_facility e) ""; isoformat (ce_event_timestamp e)].

Definition bar_free (s : string) : bool := negb (has_char "|" s).

Lemma bar_free_cut a b s t :
  bar_free a = true -> bar_free b = true -> a +:+ "|" +:+ s = b +:+ "|" +:+ t -> a = b /\ s = t.
Proof.
  revert b. induction a as [|c a IH]; intros [|d b] Ha Hb E; cbn in E.
  - by injection E as ->.
  - injection E as <- E. unfold bar_free in Hb. by cbn in Hb.
  - injection E as -> E. unfold bar_free in Ha. by cbn in Ha.
  - injection E as <- E. unfold bar_free in *. cbn in Ha, Hb.
    destruct (Ascii.eqb c "|"); [done|]. by destruct (IH _ Ha Hb E) as [-> ->].
Qed.

Lemma str_join_cons2 sep a b l : str_join sep (a :: b :: l) = a +:+ sep +:+ str_join sep (b :: l).
Proof. done. Qed.

Lemma bar_join_inj xs ys a b :
  length xs = length ys -> Forall (fun s => bar_free s = true) xs -> Forall (fun s => bar_free s = true) ys ->
  str_join "|" (xs ++ [a]) = str_join "|" (ys ++ [b]) -> xs = ys /\ a = b.
Proof.
  revert ys. induction xs as [|x xs IH]; intros [|y ys] Hlen Hx Hy E; try done.
  apply Forall_cons in Hx as [Hx1 Hx], Hy as [Hy1 Hy].
  assert (Hcut : forall z zs c, str_join "|" ((z :: zs) ++ [c]) = z +:+ "|" +:+ str_join "|" (zs ++ [c])).
  { intros z [|z' zs] c; done. }
  rewrite !Hcut in E. apply bar_free_cut in E as [-> E]; [|done..].
  injection Hlen as Hlen. by destruct (IH ys Hlen Hx Hy E) as [-> ->].
Qed.

(** The canonical digest binds its fields when no field before the KDEs contains the separator:
    two such events with the same digest agree on the identifier, event type, lot code, product,
    quantity text, unit, both facilities (where a missing value and the empty string are the same),
    the timestamp text and the serialized KDEs, unless SHA-256 collides on the two forms. *)
Theorem canonical_digest_binding `{PyLib} e e' d d' :
  Forall (fun s => bar_free s = true) (canonical_fields e) ->
  Forall (fun s => bar_free s = true) (canonical_fields e') ->
  json_dumps opts_sorted_str (PDict (ce_kdes e)) = Ok d ->
  json_dumps opts_sorted_str (PDict (ce_kdes e')) = Ok d' ->
  no_collision [canonical_text e d] [canonical_text e' d'] ->
  compute_sha256_hash e = compute_sha256_hash e' ->
  canonical_fields e = canonical_fields e' /\ d = d'.
Proof.
  intros Hf Hf' Hd Hd' Hnc E. unfold compute_sha256_hash in E. rewrite Hd, Hd' in E. cbn [rbind] in E.
  apply Ok_inv in E. apply Hnc in E; [|apply list_elem_of_here..].
  by apply (bar_join_inj (canonical_fields e) (canonical_fields e') d d').
Qed.

Definition demo_canonical (tlc : string) (product : option string) (kdes : pydict) : canonical_event :=
  CanonicalEvent "id" "t1" "shipping" tlc product (f_of_Z 2) "lb" None (Some "G2") (Datetime 5 (Some 0%Z)) kdes.

Lemma canonical_digest_binding_witness :
  canonical_fields (H := demo_lib) (demo_canonical "T" None [("k", PInt 1)])
  = canonical_fields (H := demo_lib) (demo_canonical "T" (Some "") [("k", PInt 1)]).
Proof.
  eapply (canonical_digest_binding (H := demo_lib)
    (demo_canonical "T" None [("k", PInt 1)]) (demo_canonical "T" (Some "") [("k", PInt 1)])).
  - repeat constructor.
  - repeat constructor.
  - vm_compute. reflexivity.
  - vm_compute. reflexivity.
  - apply no_collision_b_ok. vm_compute. reflexivity.
  - vm_compute. reflexivity.
Defined.

(** The premise is needed: moving the separator from one field into the next gives two different
    events, differing in lot code and product, with one and the same digest, whatever the library
    functions do. *)
Theorem canonical_digest_boundary `{PyLib} :
  exists e e', compute_sha256_hash e = compute_sha256_hash e'
    /\ ce_tlc e <> ce_tlc e' /\ ce_product_reference e <> ce_product_reference e'.
Proof.
  exists (demo_canonical "T|P" (Some "Q") []), (demo_canonical "T" (Some "P|Q") []).
  split; [|by repeat split]. unfold compute_sha256_hash. by destruct (json_dumps _ _).
Qed.
