(* ===== verification/CteStore.v ===== *)
(** * The event store and its hash chain

    [services/shared/cte_persistence/]: [core.py] (validation helpers), [writes.py] ([store_event])
    and [verification.py] ([verify_chain], [_missing_chain_event_ids], [get_merkle_proof]).  The
    database is four tables; [store_event] is one transaction on them and [verify_chain] a read.
    Proved: the store's invariant is kept by every call, so verification never raises a false
    alarm; what exactly a valid verdict means; that the chain head commits to the whole history;
    and that re-sending an event changes nothing. *)

From Stdlib Require Import ZArith Lia String Ascii.
From Corelib Require Import SpecFloat.
From stdpp Require Import base list strings sets relations.
From S2P Require Import Prelude PyStr PyFloat PyVal Json JsonRead Sha256 Merkle Hashing.

Local Open Scope string_scope.

(** ** Tables *)

Record cte_row := CteRow {
  cr_id : string;
  cr_tenant_id : string;
  cr_event_type : string;
  cr_tlc : string;
  cr_product_description : string;
  cr_quantity : pyval;
  cr_unit_of_measure : string;
  cr_location_gln : option string;
  cr_location_name : option string;
  cr_event_timestamp : string;
  cr_event_entry_timestamp : string;
  cr_source : string;
  cr_source_event_id : option string;
  cr_idempotency_key : option string;
  cr_sha256_hash : string;
  cr_chain_hash : string;
  cr_epcis : option string * option string * option string;
  cr_validation_status : string
}.

Record kde_row := KdeRow {
  kr_tenant_id : string; kr_cte_event_id : string; kr_key : string; kr_value : pyval; kr_required : bool
}.

Record chain_row := ChainRow {
  hc_tenant_id : string;
  hc_cte_event_id : string;
  hc_sequence_num : Z;
  hc_event_hash : string;
  hc_previous_chain_hash : option string;
  hc_chain_hash : string
}.

(** A row of [fsma.compliance_alerts]: the bind parameters of [ALERT_INSERT_SQL]. *)
Record alert_row := AlertRow {
  ar_tenant_id : string; ar_org_id : string; ar_event_id : string; ar_cte_event_id : string;
  ar_severity : pyval; ar_alert_type : string; ar_title : pyval; ar_message : pyval
}.

Record store := Store {
  cte_events : list cte_row;
  cte_kdes : list kde_row;
  hash_chain : list chain_row;
  compliance_alerts : list alert_row
}.

Definition empty_store : store := Store [] [] [] [].

Record store_result := StoreResult {
  sr_success : bool;
  sr_event_id : string;
  sr_sha256_hash : string;
  sr_chain_hash : string;
  sr_idempotent : bool;
  sr_errors : list pyval;
  sr_kde_completeness : f64;
  sr_alerts : list pydict
}.

(** ** Validation status *)

Definition VALIDATION_STATUS_VALID : string := "valid".
Definition VALIDATION_STATUS_WARNING : string := "warning".
Definition VALIDATION_STATUS_REJECTED : string := "rejected".
Definition _REJECT_SEVERITIES : list string := ["reject"; "error"; "critical"].

Definition _VALID_ALERT_TYPES : list string :=
  ["missing_kde"; "temperature_excursion"; "deadline_approaching"; "supplier_non_compliant";
   "chain_break"; "export_failure"].

Definition _ALLOWED_CTE_TYPES : list string :=
  ["harvesting"; "cooling"; "initial_packing"; "first_land_based_receiving"; "shipping";
   "receiving"; "transformation"].

(** [sorted(_ALLOWED_CTE_TYPES)], for the message. *)
Definition sorted_cte_types : list string :=
  fst <$> key_sort ((fun x => (x, tt)) <$> _ALLOWED_CTE_TYPES).

(** [_FUTURE_SKEW_TOLERANCE], in microseconds. *)
Definition five_minutes : Z := 300000000.

Section Store.
Context `{PyLib} `{Postgres}.

Definition _is_rejecting_validation_item (item : pydict) : bool :=
  let severity := lower (strip (py_str (dict_get item "severity" (PStr "")))) in
  if existsb (String.eqb severity) _REJECT_SEVERITIES then true
  else py_eq (dict_get item "alert_type" PNone) (PStr "missing_required_kde").

Definition _derive_validation_status (alerts validator_results : list pydict) : string :=
  if existsb _is_rejecting_validation_item (alerts ++ validator_results) then VALIDATION_STATUS_REJECTED
  else match (alerts ++ validator_results)%list with
       | [] => VALIDATION_STATUS_VALID
       | _ => VALIDATION_STATUS_WARNING
       end.

(** [item.get("reason") or item.get("message") or str(item)]. *)
Definition rejection_reason (item : pydict) : pyval :=
  let r := dict_get item "reason" PNone in
  let m := dict_get item "message" PNone in
  if truthy r then r else if truthy m then m else PStr (py_str (PDict item)).

Definition rejection_reasons (items : list pydict) : list pyval :=
  map rejection_reason (List.filter _is_rejecting_validation_item items).

(** [_normalize_alert_type]; the table lookup hashes its argument. *)
Definition _normalize_alert_type (raw_type : pyval) : res string :=
  match raw_type with
  | PStr s => Ok (if existsb (String.eqb s) _VALID_ALERT_TYPES then s else "missing_kde")
  | PList _ | PDict _ => Raise (TypeError ("unhashable type: '" +:+ type_name raw_type +:+ "'"))
  | _ => Ok "missing_kde"
  end.

Definition _alert_insert_params (tenant_id event_id : string) (alert : pydict) : res alert_row :=
  do at_ <- _normalize_alert_type (dict_get alert "alert_type" (PStr "missing_kde"));
  Ok (AlertRow tenant_id tenant_id event_id event_id
        (dict_get alert "severity" (PStr "warning")) at_
        (dict_get alert "alert_type" (PStr "Compliance Alert"))
        (dict_get alert "message" (PStr ""))).

(** [_validate_event_type]. *)
Definition _validate_event_type (value : pyval) : res string :=
  match value with
  | PStr s =>
      if String.eqb s "" then
        Raise (ValueError ("event_type is required and must be a non-empty string, got str: " +:+ repr_str s))
      else if existsb (String.eqb s) _ALLOWED_CTE_TYPES then Ok s
      else Raise (ValueError ("event_type " +:+ repr_str s +:+ " is not a recognized FSMA 204 CTE type. Allowed: "
                  +:+ py_repr (PList (PStr <$> sorted_cte_types))
                  +:+ ". Note: values are case-sensitive and must have no surrounding whitespace."))
  | _ => Raise (ValueError ("event_type is required and must be a non-empty string, got "
                            +:+ type_name value +:+ ": " +:+ py_repr value))
  end.

(** [dt.astimezone(timezone.utc)] of an aware datetime. *)
Definition to_utc (dt : datetime) (off : Z) : datetime := Datetime (dt_wall dt - off) (Some 0%Z).

(** [_parse_timestamp]; [now_utc] is [datetime.now(timezone.utc)]. *)
Definition _parse_timestamp (now_utc : Z) (value : pyval) (field : string) : res datetime :=
  do dt <- match value with
           | PNone => Raise (ValueError (field +:+ " is required and must be an ISO-8601 timestamp"))
           | PStr s =>
               if String.eqb (strip s) ""
               then Raise (ValueError (field +:+ " is required and must be an ISO-8601 timestamp"))
               else match fromisoformat (replace_char "Z" "+00:00" (strip s)) with
                    | Ok d => Ok d
                    | Raise e =>
                        if String.eqb (exn_type e) "ValueError"
                        then Raise (ValueError (field +:+ " is not a valid ISO-8601 timestamp: " +:+ repr_str s))
                        else Raise e
                    end
           | PDatetime d => Ok d
           | _ => Raise (ValueError (field +:+ " must be a string or datetime, got " +:+ type_name value))
           end;
  match dt_offset dt with
  | None => Raise (ValueError (field +:+ " must be timezone-aware (got naive datetime: " +:+ py_repr value
                               +:+ "). FSMA records require an unambiguous UTC offset."))
  | Some off =>
      let d := to_utc dt off in
      if (now_utc + five_minutes <? dt_wall d)%Z
      then Raise (ValueError (field +:+ " is in the future beyond the allowed skew tolerance: "
                              +:+ isoformat d +:+ " (now=" +:+ isoformat (Datetime now_utc (Some 0%Z)) +:+ ")"))
      else Ok d
  end.

(** [_jsonify_kde]. *)
Definition _jsonify_kde (value : pyval) : res string :=
  match value with
  | PStr s => json_dumps opts_str (PStr s)
  | PDatetime d => json_dumps opts_str (PStr (str_datetime d))
  | _ => json_dumps opts_sorted_str value
  end.

(** ** Reads *)

Definition events_of (t : string) (s : store) : list cte_row :=
  List.filter (fun r => String.eqb (cr_tenant_id r) t) (cte_events s).
Definition chain_of (t : string) (s : store) : list chain_row :=
  List.filter (fun r => String.eqb (hc_tenant_id r) t) (hash_chain s).

(** [validation_status != 'rejected']. *)
Definition live (r : cte_row) : bool := negb (String.eqb (cr_validation_status r) VALIDATION_STATUS_REJECTED).
Definition live_events (t : string) (s : store) : list cte_row := List.filter live (events_of t s).

(** [ORDER BY sequence_num ASC]. *)
Fixpoint seq_insert (r : chain_row) (l : list chain_row) : list chain_row :=
  match l with
  | [] => [r]
  | r' :: l' => if (hc_sequence_num r <=? hc_sequence_num r')%Z then r :: l else r' :: seq_insert r l'
  end.
Definition by_sequence (l : list chain_row) : list chain_row := foldr seq_insert [] l.

Definition find_by_key (s : store) (t key : string) : option cte_row :=
  List.find (fun r => bool_decide (cr_idempotency_key r = Some key) && String.eqb (cr_tenant_id r) t) (cte_events s).

(** [_assert_not_exists]. *)
Definition _assert_not_exists (s : store) (sha t : string) : res unit :=
  match List.find (fun r => String.eqb (cr_sha256_hash r) sha && String.eqb (cr_tenant_id r) t) (cte_events s) with
  | Some r => Raise (Exn "DuplicateEventError" (cr_id r +:+ " " +:+ sha))
  | None => Ok tt
  end.

(** [ORDER BY sequence_num DESC LIMIT 1]. *)
Definition chain_head (s : store) (t : string) : option chain_row := last (by_sequence (chain_of t s)).

(** ** Writes *)

Definition set_events (s : store) (es : list cte_row) : store :=
  Store es (cte_kdes s) (hash_chain s) (compliance_alerts s).

(** [quantity DOUBLE PRECISION NOT NULL CHECK (quantity > 0)], where NaN counts as the greatest number. *)
Definition quantity_allowed (q : pyval) : bool :=
  match q with
  | PNone => false
  | PInt z => (0 <? z)%Z
  | PFloat S754_nan => true
  | PFloat f => fltb f0 f
  | _ => true
  end.

(** The CHECK constraints of [fsma.cte_events]: event types, quantity, validation status. *)
Definition event_row_checked (r : cte_row) : bool :=
  existsb (String.eqb (cr_event_type r)) _ALLOWED_CTE_TYPES && quantity_allowed (cr_quantity r)
  && existsb (String.eqb (cr_validation_status r))
       [VALIDATION_STATUS_VALID; VALIDATION_STATUS_REJECTED; VALIDATION_STATUS_WARNING].

(** A NULL key conflicts with nothing. *)
Definition conflicting (s : store) (r : cte_row) : option cte_row :=
  match cr_idempotency_key r with Some key => find_by_key s (cr_tenant_id r) key | None => None end.

(** [INSERT INTO fsma.cte_events ... ON CONFLICT (tenant_id, idempotency_key) DO NOTHING]; [id] is
    the primary key. *)
Definition insert_event (s : store) (r : cte_row) : res store :=
  if negb (event_row_checked r) then Raise (integrity_error "new row for relation cte_events violates check constraint")
  else match conflicting s r with
       | Some _ => Ok s
       | None =>
           if existsb (fun r' => String.eqb (cr_id r') (cr_id r)) (cte_events s)
           then Raise (integrity_error "duplicate key value violates unique constraint cte_events_pkey")
           else Ok (set_events s (cte_events s ++ [r]))
       end.

(** [INSERT INTO fsma.cte_kdes ... ON CONFLICT (cte_event_id, kde_key) DO NOTHING]. *)
Definition insert_kde (s : store) (r : kde_row) : store :=
  if existsb (fun k => String.eqb (kr_cte_event_id k) (kr_cte_event_id r) && String.eqb (kr_key k) (kr_key r))
       (cte_kdes s)
  then s
  else Store (cte_events s) (cte_kdes s ++ [r]) (hash_chain s) (compliance_alerts s).

(** The loop over the KDEs; the cast to [jsonb] refuses texts that are not JSON for PostgreSQL. *)
Fixpoint insert_kdes (s : store) (t id : string) (kdes : pydict) : res store :=
  match kdes with
  | [] => Ok s
  | (k, v) :: rest =>
      if is_none v then insert_kdes s t id rest
      else do j <- _jsonify_kde v;
           do column <- jsonb j;
           insert_kdes (insert_kde s (KdeRow t id k column false)) t id rest
  end.

(** The chain insert with its [WHERE EXISTS] guard and [UNIQUE (tenant_id, sequence_num)]. *)
Definition insert_chain (s : store) (r : chain_row) : res store :=
  if existsb (fun e => String.eqb (cr_id e) (hc_cte_event_id r) && String.eqb (cr_tenant_id e) (hc_tenant_id r))
       (cte_events s)
  then if existsb (fun c => String.eqb (hc_tenant_id c) (hc_tenant_id r)
                            && (hc_sequence_num c =? hc_sequence_num r)%Z) (hash_chain s)
       then Raise (Exn "IntegrityError" "duplicate key value violates unique constraint hash_chain_tenant_id_sequence_num_key")
       else Ok (Store (cte_events s) (cte_kdes s) (hash_chain s ++ [r]) (compliance_alerts s))
  else Ok s.

(** The alert loop: every insert runs in its own savepoint and a failure of the statement or of
    its parameters is only logged.  [db_rejects] is the database's verdict on a row. *)
Fixpoint insert_alerts (db_rejects : alert_row -> bool) (s : store) (t id : string) (alerts : list pydict) : store :=
  match alerts with
  | [] => s
  | a :: rest =>
      let s' := match _alert_insert_params t id a with
                | Ok r => if db_rejects r then s
                          else Store (cte_events s) (cte_kdes s) (hash_chain s) (compliance_alerts s ++ [r])
                | Raise _ => s
                end in
      insert_alerts db_rejects s' t id rest
  end.

(** The arguments of [store_event].  [ei_canonical] is [None] when no canonical event is passed. *)
Record event_input := EventInput {
  ei_tenant_id : string;
  ei_event_type : pyval;
  ei_tlc : string;
  ei_product_description : string;
  ei_quantity : pyval;
  ei_unit_of_measure : string;
  ei_event_timestamp : pyval;
  ei_source : string;
  ei_location_gln : option string;
  ei_location_name : option string;
  ei_kdes : pydict;
  ei_alerts : list pydict;
  ei_epcis : option string * option string * option string;
  ei_source_event_id : option string;
  ei_event_entry_timestamp : pyval;
  ei_validator_results : list pydict;
  ei_canonical : option (option canonical_event)
}.

(** What one call takes from outside: the new UUID, the clock, the database's view of alerts, and what
    the driver or the column types refuse of an event row (a NUL in a text, an identifier that is no
    UUID, a quantity that is no number). *)
Record env := Env {
  env_uuid : string; env_now : Z; env_rejects_alert : alert_row -> bool; env_refuses_event : cte_row -> option exn
}.

(** The checks before any write: event type, timestamps. *)
Definition checked_inputs (e : env) (i : event_input) : res (string * string * option string) :=
  do event_type <- _validate_event_type (ei_event_type i);
  do event_dt <- _parse_timestamp (env_now e) (ei_event_timestamp i) "event_timestamp";
  do entry <- match ei_event_entry_timestamp i with
              | PNone => Ok None
              | v => do d <- _parse_timestamp (env_now e) v "event_entry_timestamp"; Ok (Some (isoformat d))
              end;
  Ok (event_type, isoformat event_dt, entry).

(** The event digest: the canonical one when a canonical event is supplied. *)
Definition event_digest (e : env) (i : event_input) (event_type ts : string) : res string :=
  do legacy <- compute_event_hash (env_uuid e) event_type (ei_tlc i) (ei_product_description i)
                 (ei_quantity i) (ei_unit_of_measure i) (ei_location_gln i) (ei_location_name i) ts (ei_kdes i);
  match ei_canonical i with
  | None => Ok legacy
  | Some c => compute_canonical_event_hash (env_uuid e) (ei_tenant_id i) c
  end.

(** [store_event]: the whole call, one transaction. *)
Definition store_event (e : env) (s : store) (i : event_input) : res (store * store_result) :=
  do '(event_type, ts, entry) <- checked_inputs e i;
  let t := ei_tenant_id i in
  let reasons := rejection_reasons (ei_validator_results i ++ ei_alerts i) in
  let status := _derive_validation_status (ei_alerts i) (ei_validator_results i) in
  do key <- compute_idempotency_key event_type (ei_tlc i) ts (ei_source i) (ei_kdes i)
              (ei_location_gln i) (ei_location_name i);
  match find_by_key s t key with
  | Some r =>
      Ok (s, StoreResult true (cr_id r) (cr_sha256_hash r) (cr_chain_hash r) true [] (f_of_Z 1) [])
  | None =>
      do sha <- event_digest e i event_type ts;
      do _ <- _assert_not_exists s sha t;
      let head := chain_head s t in
      let prev := hc_chain_hash <$> head in
      let next := match head with Some h => (hc_sequence_num h + 1)%Z | None => 1%Z end in
      let chain_hash := compute_chain_hash sha prev in
      let entry_ts := ostr_or entry (isoformat (Datetime (env_now e) (Some 0%Z))) in
      let row := CteRow (env_uuid e) t event_type (ei_tlc i) (ei_product_description i) (ei_quantity i)
                   (ei_unit_of_measure i) (ei_location_gln i) (ei_location_name i) ts entry_ts
                   (ei_source i) (ei_source_event_id i) (Some key) sha chain_hash (ei_epcis i) status in
      do _ <- match env_refuses_event e row with Some x => Raise x | None => Ok tt end;
      do s1 <- insert_event s row;
      if String.eqb status VALIDATION_STATUS_REJECTED then
        Ok (s1, StoreResult false (env_uuid e) sha chain_hash false reasons (f_of_Z 1) (ei_alerts i))
      else
        do s2 <- insert_kdes s1 t (env_uuid e) (ei_kdes i);
        do s3 <- insert_chain s2 (ChainRow t (env_uuid e) next sha prev chain_hash);
        let s4 := insert_alerts (env_rejects_alert e) s3 t (env_uuid e) (ei_alerts i) in
        Ok (s4, StoreResult true (env_uuid e) sha chain_hash false [] (f_of_Z 1) (ei_alerts i))
  end.
End Store.

(** ** Verification *)

Record chain_verification := ChainVerification {
  cv_valid : bool;
  cv_chain_length : nat;
  cv_errors : list string;
  cv_checked_at : string;
  cv_orphan_chain_rows : list Z;
  cv_missing_chain_rows : list string;
  cv_cte_events_count : nat
}.

(** [_short_hash]. *)
Definition _short_hash (value : option string) : string :=
  match value with
  | Some s => if String.eqb s "" then "missing" else str_take 16 s
  | None => "missing"
  end.

(** The [LEFT JOIN] on id and tenant. *)
Definition matched_event (s : store) (t id : string) : option string :=
  cr_id <$> List.find (fun e => String.eqb (cr_id e) id) (events_of t s).

Definition seq_errors (i : Z) (r : chain_row) : list string :=
  if (hc_sequence_num r =? i)%Z then []
  else ["Sequence gap: expected " +:+ str_of_Z i +:+ ", got " +:+ str_of_Z (hc_sequence_num r)].

Definition link_errors (prev_row : option chain_row) (r : chain_row) : list string :=
  match prev_row with
  | None =>
      match hc_previous_chain_hash r with
      | None => []
      | Some _ => ["Genesis entry (seq=" +:+ str_of_Z (hc_sequence_num r) +:+ ") has non-null previous_chain_hash"]
      end
  | Some p =>
      if decide (hc_previous_chain_hash r = Some (hc_chain_hash p)) then []
      else ["Chain break at seq=" +:+ str_of_Z (hc_sequence_num r) +:+ ": stored prev "
            +:+ _short_hash (hc_previous_chain_hash r) +:+ "... != expected "
            +:+ _short_hash (Some (hc_chain_hash p)) +:+ "..."]
  end.

Definition hash_errors (r : chain_row) : list string :=
  let recomputed := compute_chain_hash (hc_event_hash r) (hc_previous_chain_hash r) in
  if String.eqb recomputed (hc_chain_hash r) then []
  else ["Tamper detected at seq=" +:+ str_of_Z (hc_sequence_num r) +:+ ": recomputed chain_hash "
        +:+ _short_hash (Some recomputed) +:+ "... != stored " +:+ _short_hash (Some (hc_chain_hash r)) +:+ "..."].

Definition orphan_errors (s : store) (t : string) (r : chain_row) : list string :=
  match matched_event s t (hc_cte_event_id r) with
  | Some _ => []
  | None => ["Orphan chain row at seq=" +:+ str_of_Z (hc_sequence_num r) +:+ ": cte_event_id="
             +:+ hc_cte_event_id r +:+ " has no matching fsma.cte_events row"]
  end.

(** The loop over the rows in sequence order: errors and orphans, in the order they are found. *)
Fixpoint walk_chain (s : store) (t : string) (i : Z) (prev_row : option chain_row) (rows : list chain_row)
    : list string * list Z :=
  match rows with
  | [] => ([], [])
  | r :: rest =>
      let '(errs, orphans) := walk_chain s t (i + 1) (Some r) rest in
      ((seq_errors i r ++ link_errors prev_row r ++ hash_errors r ++ orphan_errors s t r ++ errs)%list,
       match matched_event s t (hc_cte_event_id r) with
       | Some _ => orphans
       | None => hc_sequence_num r :: orphans
       end)
  end.

(** [_missing_chain_event_ids]; rows are kept in ingestion order. *)
Definition _missing_chain_event_ids (s : store) (t : string) : list string :=
  take 1000 (cr_id <$> List.filter
    (fun e => negb (existsb (fun c => String.eqb (hc_cte_event_id c) (cr_id e)) (chain_of t s)))
    (live_events t s)).

Definition str_of_nat (n : nat) : string := str_of_Z (Z.of_nat n).

(** [verify_chain]. *)
Definition verify_chain (checked_at : string) (s : store) (t : string) : chain_verification :=
  let rows := by_sequence (chain_of t s) in
  let count := length (live_events t s) in
  match rows with
  | [] =>
      let missing := _missing_chain_event_ids s t in
      match count, missing with
      | O, [] => ChainVerification true 0 [] checked_at [] [] 0
      | _, _ =>
          ChainVerification false 0
            ["Empty chain but " +:+ str_of_nat count +:+ " non-rejected events exist ("
             +:+ str_of_nat (length missing) +:+ " missing chain rows)"]
            checked_at [] missing count
      end
  | _ =>
      let '(errs, orphans) := walk_chain s t 1 None rows in
      let missing := if (length rows =? count)%nat then [] else _missing_chain_event_ids s t in
      let errs := match missing with
                  | [] => errs
                  | _ => (errs ++ ["Chain row count (" +:+ str_of_nat (length rows)
                          +:+ ") != non-rejected event count (" +:+ str_of_nat count +:+ "); "
                          +:+ str_of_nat (length missing) +:+ " event(s) have no chain entry"])%list
                  end in
      ChainVerification
        (match errs with [] => true | _ => false end
         && match orphans with [] => true | _ => false end
         && match missing with [] => true | _ => false end)
        (length rows) errs checked_at orphans missing count
  end.

(** [get_merkle_proof]: the last row whose event id matches, as the loop leaves it. *)
Record merkle_answer := MerkleAnswer {
  ma_event_id : string; ma_event_hash : string; ma_index : nat; ma_merkle_root : string;
  ma_tree_depth : nat; ma_chain_length : nat; ma_proof : list proof_step
}.

Fixpoint find_last (event_id : string) (i : nat) (rows : list chain_row) (acc : option (nat * string))
    : option (nat * string) :=
  match rows with
  | [] => acc
  | r :: rest =>
      find_last event_id (S i) rest
        (if String.eqb (hc_cte_event_id r) event_id then Some (i, hc_event_hash r) else acc)
  end.

Definition get_merkle_proof (s : store) (t event_id : string) : res (option merkle_answer) :=
  let rows := by_sequence (chain_of t s) in
  let hashes := hc_event_hash <$> rows in
  match find_last event_id 0 rows None with
  | None => Ok None
  | Some (i, h) =>
      let tree := mk_tree hashes in
      do proof <- generate_proof tree (Z.of_nat i);
      Ok (Some (MerkleAnswer event_id h i (root tree) (depth tree) (length hashes) proof))
  end.

(** ** Linked chains *)

(** What the verifier checks of a run of rows, as a proposition. *)
Fixpoint linked (i : Z) (prev : option string) (rows : list chain_row) : Prop :=
  match rows with
  | [] => True
  | r :: rest =>
      hc_sequence_num r = i /\ hc_previous_chain_hash r = prev
      /\ hc_chain_hash r = compute_chain_hash (hc_event_hash r) (hc_previous_chain_hash r)
      /\ linked (i + 1) (Some (hc_chain_hash r)) rest
  end.

Definition end_link (prev : option string) (rows : list chain_row) : option string :=
  match last rows with Some r => Some (hc_chain_hash r) | None => prev end.

Lemma linked_snoc i prev rows r :
  linked i prev (rows ++ [r]) <->
  linked i prev rows
  /\ (hc_sequence_num r = i + Z.of_nat (length rows))%Z
  /\ hc_previous_chain_hash r = end_link prev rows
  /\ hc_chain_hash r = compute_chain_hash (hc_event_hash r) (hc_previous_chain_hash r).
Proof.
  revert i prev. induction rows as [|r0 rows IH]; intros i prev; cbn [app linked length].
  - unfold end_link. cbn. rewrite Z.add_0_r. tauto.
  - rewrite IH. unfold end_link. rewrite last_cons.
    replace (i + Z.of_nat (S (length rows)))%Z with (i + 1 + Z.of_nat (length rows))%Z by lia.
    destruct (last rows); tauto.
Qed.

Lemma seq_errors_nil i r : seq_errors i r = [] <-> hc_sequence_num r = i.
Proof. unfold seq_errors. destruct (Z.eqb_spec (hc_sequence_num r) i); by split. Qed.

Lemma link_errors_nil p r : link_errors p r = [] <-> hc_previous_chain_hash r = hc_chain_hash <$> p.
Proof.
  unfold link_errors. destruct p as [p|]; cbn; [case_decide; by split|].
  destruct (hc_previous_chain_hash r); by split.
Qed.

Lemma hash_errors_nil r :
  hash_errors r = [] <-> hc_chain_hash r = compute_chain_hash (hc_event_hash r) (hc_previous_chain_hash r).
Proof. unfold hash_errors. case_match; reflect_bools; by split. Qed.

Lemma orphan_errors_nil s t r : orphan_errors s t r = [] <-> matched_event s t (hc_cte_event_id r) <> None.
Proof. unfold orphan_errors. case_match; by split. Qed.

Lemma walk_linked s t i prev_row rows :
  walk_chain s t i prev_row rows = ([], []) <->
  linked i (hc_chain_hash <$> prev_row) rows
  /\ Forall (fun r => matched_event s t (hc_cte_event_id r) <> None) rows.
Proof.
  revert i prev_row. induction rows as [|r rows IH]; intros i prev_row; cbn [walk_chain linked].
  - split; [by repeat constructor | done].
  - rewrite Forall_cons, <- seq_errors_nil, <- link_errors_nil, <- hash_errors_nil, <- orphan_errors_nil.
    specialize (IH (i + 1)%Z (Some r)). cbn [fmap option_fmap option_map] in IH.
    destruct (walk_chain s t (i + 1) (Some r) rows) as [errs orphans].
    assert (Hm : orphan_errors s t r = [] ->
                 (match matched_event s t (hc_cte_event_id r) with
                  | Some _ => orphans | None => hc_sequence_num r :: orphans end) = orphans).
    { intros Ho. apply orphan_errors_nil in Ho. by case_match. }
    split.
    + intros E. apply pair_eq in E as [E1 E2]. do 4 (apply app_eq_nil in E1 as [? E1]).
      rewrite (Hm ltac:(assumption)) in E2. subst. destruct IH as [IH _].
      specialize (IH eq_refl) as [? ?]. tauto.
    + intros [(Hs & Hl & Hh & Hr) [Ho Hf]]. rewrite (Hm Ho), Hs, Hl, Hh, Ho.
      destruct IH as [_ IH]. by apply IH.
Qed.

(** ** The store invariant *)

(** Event ids are unique; every tenant's chain is linked from genesis and lists exactly the
    tenant's non-rejected events, in order, with their digests. *)
Definition store_inv (s : store) : Prop :=
  NoDup (cr_id <$> cte_events s)
  /\ forall t, linked 1 None (chain_of t s)
     /\ ((fun c => (hc_cte_event_id c, hc_event_hash c, hc_chain_hash c)) <$> chain_of t s)
        = ((fun e => (cr_id e, cr_sha256_hash e, cr_chain_hash e)) <$> live_events t s).

Lemma linked_sorted i p rows : linked i p rows -> by_sequence rows = rows.
Proof.
  revert i p. induction rows as [|r rows IH]; intros i p Hl; [done|].
  destruct Hl as (Hs & _ & _ & Hl). cbn [by_sequence foldr].
  change (foldr seq_insert [] rows) with (by_sequence rows). rewrite (IH _ _ Hl).
  destruct rows as [|r' rows]; [done|]. cbn. destruct Hl as (Hs' & _).
  replace (hc_sequence_num r <=? hc_sequence_num r')%Z with true by (symmetry; apply Z.leb_le; lia). done.
Qed.

Lemma inv_empty : store_inv empty_store.
Proof. split; [constructor|]. by intros t. Qed.

Lemma filter_snoc {A} (p : A -> bool) l x :
  List.filter p (l ++ [x]) = (List.filter p l ++ if p x then [x] else [])%list.
Proof. by rewrite List.filter_app. Qed.

Lemma events_of_snoc t s r :
  events_of t (set_events s (cte_events s ++ [r])) =
  (events_of t s ++ if String.eqb (cr_tenant_id r) t then [r] else [])%list.
Proof. unfold events_of, set_events. cbn [cte_events]. by rewrite filter_snoc. Qed.

(** The tables [store_event] touches after the event insert do not feed the invariant. *)
Lemma inv_frame s s' :
  cte_events s' = cte_events s -> hash_chain s' = hash_chain s -> store_inv s -> store_inv s'.
Proof.
  intros He Hc [Hn Hi]. unfold store_inv, chain_of, live_events, events_of in *. by rewrite He, Hc.
Qed.

Lemma insert_kdes_frame `{PyLib} `{Postgres} s t id kdes s' :
  insert_kdes s t id kdes = Ok s' -> cte_events s' = cte_events s /\ hash_chain s' = hash_chain s.
Proof.
  revert s. induction kdes as [|[k v] kdes IH]; cbn [insert_kdes]; intros s H1.
  - by injection H1 as <-.
  - destruct (is_none v); [by apply IH|].
    apply rbind_Ok_inv in H1 as (j & _ & H1). apply rbind_Ok_inv in H1 as (c & _ & H1). apply IH in H1 as [-> ->].
    unfold insert_kde. by case_match.
Qed.

Lemma insert_alerts_frame `{PyLib} rej s t id alerts :
  cte_events (insert_alerts rej s t id alerts) = cte_events s
  /\ hash_chain (insert_alerts rej s t id alerts) = hash_chain s.
Proof.
  revert s. induction alerts as [|a alerts IH]; intros s; cbn [insert_alerts]; [done|].
  destruct (IH (match _alert_insert_params t id a with
                | Ok r => if rej r then s
                          else Store (cte_events s) (cte_kdes s) (hash_chain s) (compliance_alerts s ++ [r])
                | Raise _ => s end)) as [-> ->].
  destruct (_alert_insert_params t id a) as [r|]; [by destruct (rej r)|done].
Qed.

Lemma find_none_existsb {A} (p : A -> bool) l : List.find p l = None -> existsb p l = false.
Proof. induction l as [|x l IH]; cbn; [done|]. by destruct (p x). Qed.

Lemma insert_event_new s r s1 :
  conflicting s r = None ->
  insert_event s r = Ok s1 ->
  s1 = set_events s (cte_events s ++ [r]) /\ cr_id r ∉ (cr_id <$> cte_events s).
Proof.
  unfold insert_event. intros -> H. destruct (negb _); [discriminate|].
  destruct (existsb (fun r' => String.eqb (cr_id r') (cr_id r)) (cte_events s)) eqn:E; [discriminate|].
  injection H as <-. split; [done|]. intros Hin. apply list_elem_of_fmap in Hin as (r' & Heq & Hin).
  apply not_true_iff_false in E. apply E, existsb_exists. exists r'.
  rewrite <- list_elem_of_In, Heq, String.eqb_refl. done.
Qed.

(** Appending a rejected event keeps the invariant. *)
Lemma inv_add_rejected s r :
  store_inv s -> cr_id r ∉ (cr_id <$> cte_events s) -> live r = false ->
  store_inv (set_events s (cte_events s ++ [r])).
Proof.
  intros [Hn Hi] Hfresh Hlive. split.
  - cbn. rewrite fmap_app. apply NoDup_app. repeat split; [done| |apply NoDup_singleton].
    intros x Hx Hx'. apply list_elem_of_singleton in Hx'. by subst.
  - intros t. destruct (Hi t) as [Hl Hm]. split; [exact Hl|].
    change (chain_of t (set_events s (cte_events s ++ [r]))) with (chain_of t s). rewrite Hm.
    unfold live_events. rewrite events_of_snoc, List.filter_app.
    destruct (String.eqb (cr_tenant_id r) t); cbn; [rewrite Hlive|]; by rewrite app_nil_r.
Qed.

(** Appending a live event together with its chain row keeps it too. *)
Lemma inv_add_chained s r c :
  store_inv s -> cr_id r ∉ (cr_id <$> cte_events s) -> live r = true ->
  hc_tenant_id c = cr_tenant_id r ->
  (hc_cte_event_id c, hc_event_hash c, hc_chain_hash c) = (cr_id r, cr_sha256_hash r, cr_chain_hash r) ->
  hc_sequence_num c = (1 + Z.of_nat (length (chain_of (cr_tenant_id r) s)))%Z ->
  hc_previous_chain_hash c = end_link None (chain_of (cr_tenant_id r) s) ->
  hc_chain_hash c = compute_chain_hash (hc_event_hash c) (hc_previous_chain_hash c) ->
  store_inv (Store (cte_events s ++ [r]) (cte_kdes s) (hash_chain s ++ [c]) (compliance_alerts s)).
Proof.
  intros [Hn Hi] Hfresh Hlive Ht Hp Hs Hprev Hh. split.
  - cbn. rewrite fmap_app. apply NoDup_app. repeat split; [done| |apply NoDup_singleton].
    intros x Hx Hx'. apply list_elem_of_singleton in Hx'. by subst.
  - intros t. destruct (Hi t) as [Hl Hm].
    unfold chain_of, live_events, events_of in *. cbn [cte_events hash_chain].
    rewrite !filter_snoc, List.filter_app, Ht.
    destruct (String.eqb_spec (cr_tenant_id r) t) as [<-|Hne]; cbn [List.filter].
    + rewrite Hlive, !fmap_app, Hm. split; [|cbn; by rewrite Hp].
      by apply linked_snoc.
    + by rewrite !app_nil_r.
Qed.

Lemma chain_head_linked s t :
  linked 1 None (chain_of t s) -> chain_head s t = last (chain_of t s).
Proof. intros Hl. unfold chain_head. by rewrite (linked_sorted _ _ _ Hl). Qed.

Lemma linked_last_seq i p rows r :
  linked i p rows -> last rows = Some r -> (hc_sequence_num r = i + Z.of_nat (length rows) - 1)%Z.
Proof.
  destruct rows as [|r' rows _] using rev_ind; [done|]. intros Hl. rewrite last_snoc, length_app.
  intros [= <-]. apply linked_snoc in Hl as (_ & Hs & _). cbn. lia.
Qed.

(** The row [store_event] appends continues the chain. *)
Lemma next_link s t :
  linked 1 None (chain_of t s) ->
  (hc_chain_hash <$> chain_head s t) = end_link None (chain_of t s)
  /\ (match chain_head s t with Some h => hc_sequence_num h + 1 | None => 1 end
      = 1 + Z.of_nat (length (chain_of t s)))%Z.
Proof.
  intros Hl. rewrite (chain_head_linked s t Hl). unfold end_link.
  destruct (last (chain_of t s)) as [r|] eqn:E; cbn.
  - split; [done|]. pose proof (linked_last_seq _ _ _ _ Hl E). lia.
  - apply last_None in E. by rewrite E.
Qed.

Lemma store_event_inv `{PyLib} `{Postgres} e s i s' r :
  store_inv s -> store_event e s i = Ok (s', r) -> store_inv s'.
Proof.
  intros Hinv Hs. unfold store_event in Hs.
  apply rbind_Ok_inv in Hs as ([[event_type ts] entry] & _ & Hs).
  apply rbind_Ok_inv in Hs as (key & _ & Hs).
  destruct (find_by_key s (ei_tenant_id i) key) as [r0|] eqn:Hfind.
  { by injection Hs as <- _. }
  apply rbind_Ok_inv in Hs as (sha & _ & Hs). apply rbind_Ok_inv in Hs as (u & _ & Hs). apply rbind_Ok_inv in Hs as (u1 & _ & Hs).
  apply rbind_Ok_inv in Hs as (s1 & Hins & Hs).
  pose proof (proj2 Hinv (ei_tenant_id i)) as [Hl _].
  destruct (next_link s (ei_tenant_id i) Hl) as [Hprev Hseq].
  apply insert_event_new in Hins as [-> Hfresh]; [|done]. cbn [cr_id] in Hfresh.
  destruct (String.eqb_spec (_derive_validation_status (ei_alerts i) (ei_validator_results i))
             VALIDATION_STATUS_REJECTED) as [Hrej|Hrej].
  - injection Hs as <- _. apply inv_add_rejected; [done|done|].
    unfold live. cbn. by rewrite Hrej.
  - apply rbind_Ok_inv in Hs as (s2 & Hk & Hs). apply rbind_Ok_inv in Hs as (s3 & Hc & Hs).
    injection Hs as <- _. apply insert_kdes_frame in Hk as [Hke Hkc].
    destruct (insert_alerts_frame (env_rejects_alert e) s3 (ei_tenant_id i) (env_uuid e) (ei_alerts i))
      as [Hae Hac].
    unfold insert_chain in Hc. rewrite Hke, Hkc in Hc. cbn [set_events cte_events hash_chain] in Hc.
    rewrite existsb_app in Hc. cbn in Hc. rewrite !String.eqb_refl, orb_true_r in Hc. cbn in Hc.
    destruct (existsb _ _); [discriminate|]. injection Hc as <-.
    set (row := CteRow _ _ _ _ _ _ _ _ _ _ _ _ _ _ _ _ _ _) in *.
    set (crow := ChainRow _ _ _ _ _ _) in *.
    apply (inv_frame (Store (cte_events s ++ [row]) (cte_kdes s) (hash_chain s ++ [crow]) (compliance_alerts s)));
      [exact Hae | exact Hac |].
    apply inv_add_chained; try done. unfold live. cbn. by apply negb_true_iff, String.eqb_neq.
Qed.

(** The stores a deployment can be in. *)
Inductive reachable `{PyLib} `{Postgres} : store -> Prop :=
| reach_empty : reachable empty_store
| reach_store e s i s' r : reachable s -> store_event e s i = Ok (s', r) -> reachable s'.

Lemma reachable_inv `{PyLib} `{Postgres} s : reachable s -> store_inv s.
Proof. induction 1; eauto using inv_empty, store_event_inv. Qed.

(** ** What a valid verdict means *)

Lemma missing_empty_chain s t :
  chain_of t s = [] -> _missing_chain_event_ids s t = [] -> live_events t s = [].
Proof.
  unfold _missing_chain_event_ids. intros -> Hm. destruct (live_events t s) as [|e es]; [done|discriminate].
Qed.

Lemma by_sequence_nil l : by_sequence l = [] -> l = [].
Proof.
  destruct l as [|r l]; [done|]. cbn. destruct (by_sequence l) as [|r' l'] eqn:E; cbn.
  - by change (foldr seq_insert [] l) with (by_sequence l); rewrite E.
  - change (foldr seq_insert [] l) with (by_sequence l). rewrite E. cbn. by case_match.
Qed.

(** The verifier's verdict, in the terms of its three checks. *)
Lemma verify_chain_valid c s t :
  cv_valid (verify_chain c s t) = true <->
  linked 1 None (by_sequence (chain_of t s))
  /\ Forall (fun r => matched_event s t (hc_cte_event_id r) <> None) (by_sequence (chain_of t s))
  /\ (length (by_sequence (chain_of t s)) = length (live_events t s) \/ _missing_chain_event_ids s t = []).
Proof.
  pose proof (walk_linked s t 1 None (by_sequence (chain_of t s))) as Hw. unfold verify_chain.
  destruct (by_sequence (chain_of t s)) as [|r rows] eqn:Erows.
  - apply by_sequence_nil in Erows. split.
    + intros Hv. repeat split; [constructor|]. right. destruct (length (live_events t s)); [|done].
      by destruct (_missing_chain_event_ids s t).
    + intros (_ & _ & Hor). assert (Hlive : live_events t s = []).
      { destruct Hor as [Hlen|Hm]; [by apply length_zero_iff_nil | by apply missing_empty_chain]. }
      unfold _missing_chain_event_ids. by rewrite Hlive.
  - set (rs := r :: rows) in *. destruct (walk_chain s t 1 None rs) as [errs orphans] eqn:Ew.
    cbn [fmap option_fmap option_map] in Hw.
    assert (Hmiss : (if (length rs =? length (live_events t s))%nat then [] else _missing_chain_event_ids s t) = []
             <-> length rs = length (live_events t s) \/ _missing_chain_event_ids s t = []).
    { destruct (Nat.eqb_spec (length rs) (length (live_events t s))); tauto. }
    rewrite <- Hmiss, <- Logic.and_assoc, <- Hw.
    destruct (if (length rs =? length (live_events t s))%nat then _ else _) as [|m ms]; cbn [cv_valid].
    + destruct errs, orphans; cbn; split; try done; by intros [[= ] _].
    + rewrite andb_false_r. split; [done|]. by intros [_ ?].
Qed.

Lemma missing_nil s t :
  _missing_chain_event_ids s t = [] <->
  (forall e, e ∈ live_events t s -> exists c, c ∈ chain_of t s /\ hc_cte_event_id c = cr_id e).
Proof.
  unfold _missing_chain_event_ids.
  set (p := fun e : cte_row => negb (existsb _ _)). transitivity (List.filter p (live_events t s) = []).
  { destruct (List.filter p (live_events t s)); by split. }
  assert (Hp : forall e, p e = false <-> exists c, c ∈ chain_of t s /\ hc_cte_event_id c = cr_id e).
  { intros e. unfold p. rewrite negb_false_iff, existsb_exists. setoid_rewrite <- list_elem_of_In.
    setoid_rewrite String.eqb_eq. done. }
  setoid_rewrite <- Hp. induction (live_events t s) as [|e l IH]; cbn.
  - split; [intros _ e He; by apply not_elem_of_nil in He | done].
  - setoid_rewrite elem_of_cons. destruct (p e) eqn:E.
    + split; [done|]. intros Hall. specialize (Hall e (or_introl eq_refl)). congruence.
    + rewrite IH. split; [intros Hall e' [->|He]; auto | intros Hall e' He; auto].
Qed.

Lemma inv_valid s t c :
  store_inv s ->
  cv_valid (verify_chain c s t) = true
  /\ chain_of t s = by_sequence (chain_of t s)
  /\ length (chain_of t s) = length (live_events t s).
Proof.
  intros [Hn Hi]. destruct (Hi t) as [Hl Hm]. pose proof (linked_sorted _ _ _ Hl) as Hs.
  assert (Hlen : length (chain_of t s) = length (live_events t s)).
  { apply (f_equal length) in Hm. by rewrite !length_fmap in Hm. }
  split; [|by rewrite Hs]. apply verify_chain_valid. rewrite Hs. split; [done|]. split; [|by left].
  apply Forall_forall. intros r Hr Hnone. unfold matched_event in Hnone.
  assert (Hin : (hc_cte_event_id r, hc_event_hash r, hc_chain_hash r) ∈
                ((fun e => (cr_id e, cr_sha256_hash e, cr_chain_hash e)) <$> live_events t s)).
  { rewrite <- Hm. by apply list_elem_of_fmap_2'  with r. }
  apply list_elem_of_fmap in Hin as (e & Heq & He). apply fmap_None in Hnone.
  apply list_elem_of_In, filter_In in He as [He _].
  apply (List.find_none _ _ Hnone) in He. apply String.eqb_neq in He. congruence.
Qed.

(** ** Example data for the witnesses *)

#[local] Existing Instance demo_lib.

(** A server whose JSONB columns refuse NaN. *)
#[local] Instance demo_database : Postgres := {|
  jsonb := fun text => if String.eqb text "NaN" then Raise (Exn "DataError" "invalid input syntax for type json") else json_loads text;
  uuid_text := fun s => negb (String.eqb s ""); zone_offset := fun _ => 0%Z
|}.

Definition demo_input (t tlc : string) (alerts : list pydict) : event_input :=
  EventInput t (PStr "shipping") tlc "Romaine" (PInt 10) "cases" (PStr "2026-01-02T03:04:05Z") "api"
    (Some "0012345678905") None [("ship_from", PStr "A"); ("note", PNone)] alerts (None, None, None) None PNone [] None.

Definition demo_reject : list pydict := [[("severity", PStr "Critical "); ("message", PStr "no lot code")]].

(** A call of the example: identifier [id], at a fixed time. *)
Definition demo_env (id : string) : env := Env id 70000000000 (fun _ => false) (fun _ => None).

Definition after (s : store) (id : string) (i : event_input) : store :=
  match store_event (demo_env id) s i with Ok (s', _) => s' | Raise _ => s end.

Definition result_of (s : store) (id : string) (i : event_input) : store_result :=
  match store_event (demo_env id) s i with
  | Ok (_, r) => r
  | Raise _ => StoreResult false "" "" "" false [] (f_of_Z 0) []
  end.

Definition demo_store1 : store := after empty_store "u1" (demo_input "t1" "L1" []).
Definition demo_store2 : store := after demo_store1 "u2" (demo_input "t1" "L2" []).
Definition demo_store3 : store := after demo_store2 "u3" (demo_input "t1" "L3" demo_reject).

Lemma demo_call1 : store_event (demo_env "u1") empty_store (demo_input "t1" "L1" [])
  = Ok (demo_store1, result_of empty_store "u1" (demo_input "t1" "L1" [])).
Proof. vm_compute. reflexivity. Qed.

Lemma demo_call2 : store_event (demo_env "u2") demo_store1 (demo_input "t1" "L2" [])
  = Ok (demo_store2, result_of demo_store1 "u2" (demo_input "t1" "L2" [])).
Proof. vm_compute. reflexivity. Qed.

Lemma demo_call3 : store_event (demo_env "u3") demo_store2 (demo_input "t1" "L3" demo_reject)
  = Ok (demo_store3, result_of demo_store2 "u3" (demo_input "t1" "L3" demo_reject)).
Proof. vm_compute. reflexivity. Qed.

Lemma demo_reachable : reachable demo_store3.
Proof.
  eapply reach_store; [|exact demo_call3]. eapply reach_store; [|exact demo_call2].
  eapply reach_store; [|exact demo_call1]. apply reach_empty.
Qed.

(** The same chain with the second event's digest replaced. *)
Definition tamper (c : chain_row) : chain_row :=
  if (hc_sequence_num c =? 2)%Z
  then ChainRow (hc_tenant_id c) (hc_cte_event_id c) 2 (sha256_hex "forged") (hc_previous_chain_hash c)
         (hc_chain_hash c)
  else c.

Example demo_tampered :
  cv_valid (verify_chain "" (Store (cte_events demo_store3) [] (tamper <$> hash_chain demo_store3) []) "t1") = false.
Proof. vm_compute. reflexivity. Qed.

(** ** Properties *)

(** C1. No false alarms: in every store reached from the empty one by calls of [store_event], by any
    tenants with any inputs, [verify_chain] reports a valid chain for every tenant, whose length is
    the number of the tenant's non-rejected events. *)
Theorem verify_chain_no_false_alarm `{PyLib} `{Postgres} s t checked_at :
  reachable s ->
  cv_valid (verify_chain checked_at s t) = true
  /\ cv_chain_length (verify_chain checked_at s t) = length (live_events t s).
Proof.
  intros Hr. apply reachable_inv in Hr. destruct (inv_valid s t checked_at Hr) as (Hv & Hs & Hlen).
  split; [exact Hv|]. unfold verify_chain in *. rewrite <- Hs in *.
  destruct (chain_of t s) as [|r rows] eqn:E.
  - by destruct (live_events t s); [destruct (_missing_chain_event_ids s t)|].
  - by destruct (walk_chain _ _ _ _ _).
Qed.

Lemma verify_chain_no_false_alarm_witness :
  cv_valid (verify_chain "now" demo_store3 "t1") = true
  /\ cv_chain_length (verify_chain "now" demo_store3 "t1") = length (live_events "t1" demo_store3)
  /\ length (live_events "t1" demo_store3) = 2.
Proof.
  pose proof (verify_chain_no_false_alarm demo_store3 "t1" "now" demo_reachable) as [H1 H2].
  split; [exact H1|]. split; [exact H2|]. vm_compute. reflexivity.
Defined.

(** C2. What a valid verdict means: the rows in sequence order are numbered 1, 2, ..., each links
    to its predecessor and recomputes, each refers to one of the tenant's events, and either the
    counts agree or every non-rejected event has a chain row. *)
Theorem verify_chain_iff c s t :
  cv_valid (verify_chain c s t) = true <->
  linked 1 None (by_sequence (chain_of t s))
  /\ (forall r, r ∈ by_sequence (chain_of t s) -> exists e, e ∈ events_of t s /\ cr_id e = hc_cte_event_id r)
  /\ (length (by_sequence (chain_of t s)) = length (live_events t s)
      \/ forall e, e ∈ live_events t s -> exists r, r ∈ chain_of t s /\ hc_cte_event_id r = cr_id e).
Proof.
  rewrite verify_chain_valid, missing_nil, Forall_forall.
  assert (Hm : forall id, matched_event s t id <> None <-> exists e, e ∈ events_of t s /\ cr_id e = id).
  { intros id. unfold matched_event. rewrite fmap_None. destruct (List.find _ _) as [e|] eqn:E.
    - apply find_some in E as [Hin Heq]. apply String.eqb_eq in Heq. split; [|done]. intros _.
      exists e. by rewrite list_elem_of_In.
    - split; [done|]. intros (e & He & Heq). apply list_elem_of_In in He.
      apply (List.find_none _ _ E) in He. by rewrite Heq, String.eqb_refl in He. }
  by setoid_rewrite Hm.
Qed.

(** ** The head commits to the history *)

Definition chain_inputs (rows : list chain_row) : list string :=
  (fun r => chain_input (hc_event_hash r) (hc_previous_chain_hash r)) <$> rows.

Lemma linked_link_ok i p rows : link_ok p -> linked i p rows -> link_ok (end_link p rows).
Proof.
  revert i p. induction rows as [|r rows IH]; intros i p Hp Hl; [done|].
  destruct Hl as (_ & _ & Hh & Hl). unfold end_link. rewrite last_cons.
  assert (Hr : link_ok (Some (hc_chain_hash r))) by (rewrite Hh; apply sha256_hex64).
  specialize (IH _ _ Hr Hl). unfold end_link in IH. by destruct (last rows).
Qed.

(** Two linked runs from genesis with the same end link list the same digests. *)
Lemma linked_binding rows1 rows2 :
  linked 1 None rows1 -> linked 1 None rows2 ->
  no_collision (chain_inputs rows1) (chain_inputs rows2) ->
  end_link None rows1 = end_link None rows2 -> (hc_event_hash <$> rows1) = (hc_event_hash <$> rows2).
Proof.
  revert rows2. induction rows1 as [|r1 rows1 IH] using rev_ind; intros rows2 H1 H2 Hnc Heq;
    destruct rows2 as [|r2 rows2 _] using rev_ind; try done;
    unfold end_link in Heq; rewrite ?last_snoc in Heq; try discriminate.
  apply (inj Some) in Heq. apply linked_snoc in H1 as (H1 & _ & Hp1 & Hh1), H2 as (H2 & _ & Hp2 & Hh2).
  unfold chain_inputs in Hnc. rewrite !fmap_app in Hnc. cbn [fmap list_fmap] in Hnc.
  assert (E : chain_input (hc_event_hash r1) (hc_previous_chain_hash r1)
            = chain_input (hc_event_hash r2) (hc_previous_chain_hash r2)).
  { apply Hnc; [apply elem_of_app; right; apply list_elem_of_here ..|].
    unfold compute_chain_hash in Hh1, Hh2. by rewrite <- Hh1, <- Hh2. }
  apply chain_input_inj in E as [Ee Ep].
  - rewrite !fmap_app. cbn [fmap list_fmap]. rewrite Ee. f_equal. apply IH; [done|done| |congruence].
    eapply no_collision_sub; [exact Hnc|..]; intros x Hx; apply elem_of_app; by left.
  - rewrite Hp1. by eapply linked_link_ok.
  - rewrite Hp2. by eapply linked_link_ok.
Qed.

(** The chain head commits to the whole history: if two tenants' chains (or one tenant's at two
    moments, or a copy and a tampered copy) are both reported valid and end in the same chain hash,
    then they list the same event digests in the same order, as long as the strings hashed for the
    two chains do not collide under SHA-256. *)
Theorem chain_head_binding c1 c2 s1 s2 t1 t2 h1 h2 :
  cv_valid (verify_chain c1 s1 t1) = true -> cv_valid (verify_chain c2 s2 t2) = true ->
  chain_head s1 t1 = Some h1 -> chain_head s2 t2 = Some h2 -> hc_chain_hash h1 = hc_chain_hash h2 ->
  no_collision (chain_inputs (by_sequence (chain_of t1 s1))) (chain_inputs (by_sequence (chain_of t2 s2))) ->
  (hc_event_hash <$> by_sequence (chain_of t1 s1)) = (hc_event_hash <$> by_sequence (chain_of t2 s2)).
Proof.
  intros Hv1 Hv2 Hh1 Hh2 Heq Hnc. apply verify_chain_valid in Hv1 as [Hl1 _], Hv2 as [Hl2 _].
  unfold chain_head in Hh1, Hh2. apply linked_binding; [done..|].
  unfold end_link. by rewrite Hh1, Hh2, Heq.
Qed.

Lemma chain_head_binding_witness :
  (hc_event_hash <$> by_sequence (chain_of "t1" demo_store2))
  = (hc_event_hash <$> by_sequence (chain_of "t1" demo_store3)).
Proof.
  destruct (chain_head demo_store2 "t1") as [h|] eqn:E; [|exfalso; vm_compute in E; discriminate].
  apply (chain_head_binding "" "" demo_store2 demo_store3 "t1" "t1" h h).
  - vm_compute. reflexivity.
  - vm_compute. reflexivity.
  - exact E.
  - rewrite <- E. vm_compute. reflexivity.
  - reflexivity.
  - apply no_collision_b_ok. vm_compute. reflexivity.
Defined.

(** ** Sending an event again *)

(** A timestamp accepted at one moment is accepted, with the same value, at any later one. *)
Lemma parse_timestamp_later `{PyLib} now now' v f d :
  (now <= now')%Z -> _parse_timestamp now v f = Ok d -> _parse_timestamp now' v f = Ok d.
Proof.
  intros Hle H1. unfold _parse_timestamp in *.
  apply rbind_Ok_inv in H1 as (dt & -> & H1). cbn [rbind]. destruct (dt_offset dt); [|done].
  destruct (Z.ltb_spec (now + five_minutes) (dt_wall (to_utc dt z))); [done|].
  destruct (Z.ltb_spec (now' + five_minutes) (dt_wall (to_utc dt z))); [lia|done].
Qed.

Lemma checked_inputs_later `{PyLib} e e' i r :
  (env_now e <= env_now e')%Z -> checked_inputs e i = Ok r -> checked_inputs e' i = Ok r.
Proof.
  intros Hle H1. unfold checked_inputs in *.
  apply rbind_Ok_inv in H1 as (ty & -> & H1). apply rbind_Ok_inv in H1 as (d & Hd & H1).
  apply rbind_Ok_inv in H1 as (en & Hen & H1). cbn [rbind].
  rewrite (parse_timestamp_later _ _ _ _ _ Hle Hd). cbn [rbind].
  destruct (ei_event_entry_timestamp i); cbn [rbind] in *;
    try (apply rbind_Ok_inv in Hen as (x & Hx & Hen); rewrite (parse_timestamp_later _ _ _ _ _ Hle Hx); cbn [rbind]);
    by injection Hen as <-.
Qed.

Lemma find_snoc {A} (p : A -> bool) l x :
  List.find p l = None -> List.find p (l ++ [x]) = if p x then Some x else None.
Proof. induction l as [|y l IH]; cbn; [done|]. by destruct (p y). Qed.

(** The row a successful call leaves behind under the event's key. *)
Lemma store_event_found `{PyLib} `{Postgres} e s i s' r ty ts en key :
  checked_inputs e i = Ok (ty, ts, en) ->
  compute_idempotency_key ty (ei_tlc i) ts (ei_source i) (ei_kdes i) (ei_location_gln i) (ei_location_name i) = Ok key ->
  store_event e s i = Ok (s', r) ->
  exists row, find_by_key s' (ei_tenant_id i) key = Some row
    /\ sr_event_id r = cr_id row /\ sr_sha256_hash r = cr_sha256_hash row /\ sr_chain_hash r = cr_chain_hash row
    /\ (sr_idempotent r = false -> sr_success r = live row).
Proof.
  intros Hi Hk Hs. unfold store_event in Hs. rewrite Hi in Hs. cbn [rbind] in Hs. rewrite Hk in Hs.
  cbn [rbind] in Hs. destruct (find_by_key s (ei_tenant_id i) key) as [r0|] eqn:Hfind.
  { injection Hs as <- <-. exists r0. by rewrite Hfind. }
  apply rbind_Ok_inv in Hs as (sha & _ & Hs). apply rbind_Ok_inv in Hs as (u & _ & Hs). apply rbind_Ok_inv in Hs as (u1 & _ & Hs).
  apply rbind_Ok_inv in Hs as (s1 & Hins & Hs).
  apply insert_event_new in Hins as [-> _]; [|done].
  set (row := CteRow _ _ _ _ _ _ _ _ _ _ _ _ _ _ _ _ _ _) in *.
  assert (Hrow : forall s'', cte_events s'' = (cte_events s ++ [row])%list ->
                 find_by_key s'' (ei_tenant_id i) key = Some row).
  { intros s'' E. unfold find_by_key in *. rewrite E, (find_snoc _ _ _ Hfind). cbn.
    by rewrite bool_decide_eq_true_2, String.eqb_refl. }
  exists row. destruct (String.eqb_spec (_derive_validation_status (ei_alerts i) (ei_validator_results i))
    VALIDATION_STATUS_REJECTED) as [Hrej|Hrej].
  - injection Hs as <- <-. repeat split; [by apply Hrow|]. intros _. unfold live. cbn. by rewrite Hrej.
  - apply rbind_Ok_inv in Hs as (s2 & Hkd & Hs). apply rbind_Ok_inv in Hs as (s3 & Hc & Hs).
    injection Hs as <- <-. apply insert_kdes_frame in Hkd as [Hke _].
    destruct (insert_alerts_frame (env_rejects_alert e) s3 (ei_tenant_id i) (env_uuid e) (ei_alerts i)) as [Hae _].
    repeat split.
    + apply Hrow. rewrite Hae. unfold insert_chain in Hc. rewrite Hke in Hc.
      repeat (destruct (existsb _ _) in Hc; try discriminate); by injection Hc as <-.
    + intros _. unfold live. cbn. symmetry. by apply negb_true_iff, String.eqb_neq.
Qed.

(** A call of the store by anyone. *)
Definition store_call `{PyLib} `{Postgres} (s s' : store) : Prop := exists e i r, store_event e s i = Ok (s', r).

(** Rows of events are only added, behind the others. *)
Lemma store_event_appends `{PyLib} `{Postgres} e s i s' r :
  store_event e s i = Ok (s', r) -> exists rows, cte_events s' = (cte_events s ++ rows)%list.
Proof.
  intros Hs. unfold store_event in Hs. apply rbind_Ok_inv in Hs as ([[ty ts] en] & _ & Hs).
  apply rbind_Ok_inv in Hs as (key & _ & Hs).
  destruct (find_by_key s (ei_tenant_id i) key) as [r0|] eqn:Hfind.
  { injection Hs as <- _. exists []. by rewrite app_nil_r. }
  apply rbind_Ok_inv in Hs as (sha & _ & Hs). apply rbind_Ok_inv in Hs as (u & _ & Hs). apply rbind_Ok_inv in Hs as (u1 & _ & Hs).
  apply rbind_Ok_inv in Hs as (s1 & Hins & Hs). apply insert_event_new in Hins as [-> _]; [|done].
  destruct (String.eqb _ _); [injection Hs as <- _; by eexists|].
  apply rbind_Ok_inv in Hs as (s2 & Hk & Hs). apply rbind_Ok_inv in Hs as (s3 & Hc & Hs). injection Hs as <- _.
  destruct (insert_alerts_frame (env_rejects_alert e) s3 (ei_tenant_id i) (env_uuid e) (ei_alerts i)) as [-> _].
  apply insert_kdes_frame in Hk as [Hke _]. unfold insert_chain in Hc. rewrite Hke in Hc.
  repeat (destruct (existsb _ _) in Hc; try discriminate); injection Hc as <-; cbn; rewrite ?Hke; by eexists.
Qed.

(** What is stored under a key stays there. *)
Lemma found_later `{PyLib} `{Postgres} s s' t key row :
  rtc store_call s s' -> find_by_key s t key = Some row -> find_by_key s' t key = Some row.
Proof.
  induction 1 as [s|s s1 s' (e & i & r & Hs) _ IH]; intros Hf; [done|]. apply IH.
  apply store_event_appends in Hs as [rows Hr]. unfold find_by_key in *. rewrite Hr.
  revert Hf. generalize (cte_events s) as l. induction l as [|x l IHl]; cbn; [done|].
  match goal with |- context [if ?b then _ else _] => by destruct b end.
Qed.

(** C3. Deduplication: once an event was stored, sending it again returns the original identifier and
    digests and leaves the whole database as it is, under any new identifier, at any later moment of
    the clock and after any further calls by any tenants with any events in between. *)
Theorem store_event_idempotent `{PyLib} `{Postgres} e e' s i s1 s2 r :
  store_event e s i = Ok (s1, r) -> rtc store_call s1 s2 -> (env_now e <= env_now e')%Z ->
  exists r', store_event e' s2 i = Ok (s2, r') /\ sr_success r' = true /\ sr_idempotent r' = true
    /\ sr_event_id r' = sr_event_id r /\ sr_sha256_hash r' = sr_sha256_hash r
    /\ sr_chain_hash r' = sr_chain_hash r.
Proof.
  intros Hs Hlater Hle. pose proof Hs as Hs0. unfold store_event in Hs0.
  apply rbind_Ok_inv in Hs0 as ([[ty ts] en] & Hi & Hs0). apply rbind_Ok_inv in Hs0 as (key & Hk & _).
  destruct (store_event_found _ _ _ _ _ _ _ _ _ Hi Hk Hs) as (row & Hf & -> & -> & -> & _).
  apply (found_later _ _ _ _ _ Hlater) in Hf.
  exists (StoreResult true (cr_id row) (cr_sha256_hash row) (cr_chain_hash row) true [] (f_of_Z 1) []).
  split; [|by repeat split]. unfold store_event.
  rewrite (checked_inputs_later _ _ _ _ Hle Hi). cbn [rbind]. rewrite Hk. cbn [rbind]. by rewrite Hf.
Qed.

(** The first event is sent again after two others were stored. *)
Lemma store_event_idempotent_witness :
  exists r', store_event (demo_env "u9") demo_store3 (demo_input "t1" "L1" []) = Ok (demo_store3, r')
    /\ sr_idempotent r' = true /\ sr_event_id r' = "u1" /\ demo_store3 <> demo_store1.
Proof.
  destruct (store_event_idempotent (demo_env "u1") (demo_env "u9") empty_store (demo_input "t1" "L1" [])
              demo_store1 demo_store3 _ demo_call1) as (r' & Hs & _ & Hi & Hid & _).
  - eapply rtc_l; [|eapply rtc_l; [|apply rtc_refl]]; do 3 eexists; [exact demo_call2|exact demo_call3].
  - apply Z.le_refl.
  - exists r'. split; [exact Hs|]. split; [exact Hi|]. split; [rewrite Hid; vm_compute; reflexivity|].
    intros E. apply (f_equal (fun s => length (cte_events s))) in E. vm_compute in E. discriminate.
Defined.

(** The same call on a rejected event: the first call reports failure with the reasons, and
    sending the same event again reports success without reasons, although the stored event it
    names is still the rejected one. *)
Theorem rejected_resend_reports_success `{PyLib} `{Postgres} e e' s i s' r :
  store_event e s i = Ok (s', r) -> sr_success r = false -> (env_now e <= env_now e')%Z ->
  exists r', store_event e' s' i = Ok (s', r') /\ sr_success r' = true /\ sr_errors r' = []
    /\ exists row, row ∈ cte_events s' /\ cr_id row = sr_event_id r' /\ live row = false.
Proof.
  intros Hs Hfail Hle. pose proof Hs as Hs0. unfold store_event in Hs0.
  apply rbind_Ok_inv in Hs0 as ([[ty ts] en] & Hi & Hs0). apply rbind_Ok_inv in Hs0 as (key & Hk & Hs0).
  destruct (store_event_found _ _ _ _ _ _ _ _ _ Hi Hk Hs) as (row & Hf & _ & _ & _ & Hlive).
  assert (Hid : sr_idempotent r = false).
  { destruct (find_by_key s (ei_tenant_id i) key); [by injection Hs0 as _ <-|].
    apply rbind_Ok_inv in Hs0 as (? & _ & Hs0). apply rbind_Ok_inv in Hs0 as (? & _ & Hs0).
    apply rbind_Ok_inv in Hs0 as (? & _ & Hs0). apply rbind_Ok_inv in Hs0 as (? & _ & Hs0).
    destruct (String.eqb _ _); [by injection Hs0 as _ <-|].
    apply rbind_Ok_inv in Hs0 as (? & _ & Hs0). apply rbind_Ok_inv in Hs0 as (? & _ & Hs0).
    by injection Hs0 as _ <-. }
  exists (StoreResult true (cr_id row) (cr_sha256_hash row) (cr_chain_hash row) true [] (f_of_Z 1) []).
  split; [|split; [done|split; [done|]]].
  - unfold store_event. rewrite (checked_inputs_later _ _ _ _ Hle Hi). cbn [rbind]. rewrite Hk. cbn [rbind].
    by rewrite Hf.
  - exists row. split; [|split; [done|rewrite <- (Hlive Hid); exact Hfail]].
    apply find_some in Hf as [Hf _]. by apply list_elem_of_In.
Qed.

Lemma rejected_resend_reports_success_witness :
  sr_success (result_of demo_store2 "u3" (demo_input "t1" "L3" demo_reject)) = false
  /\ sr_errors (result_of demo_store2 "u3" (demo_input "t1" "L3" demo_reject)) = [PStr "no lot code"]
  /\ exists r', store_event (demo_env "u9") demo_store3 (demo_input "t1" "L3" demo_reject) = Ok (demo_store3, r')
       /\ sr_success r' = true /\ sr_errors r' = [].
Proof.
  assert (Hf : sr_success (result_of demo_store2 "u3" (demo_input "t1" "L3" demo_reject)) = false)
    by (vm_compute; reflexivity).
  split; [exact Hf|]. split; [vm_compute; reflexivity|].
  destruct (rejected_resend_reports_success (demo_env "u3") (demo_env "u9") demo_store2
              (demo_input "t1" "L3" demo_reject) demo_store3 _ demo_call3 Hf (Z.le_refl _)) as (r' & Hs & Hok & He & _).
  exists r'. by repeat split.
Defined.

(** ** Merkle proofs over the chain *)

Lemma seq_insert_perm r l : seq_insert r l ≡ₚ r :: l.
Proof. induction l as [|r' l IH]; cbn; [done|]. case_match; [done|]. rewrite IH. constructor. Qed.

Lemma by_sequence_perm l : by_sequence l ≡ₚ l.
Proof. induction l as [|r l IH]; [done|]. cbn. rewrite seq_insert_perm. by constructor. Qed.

Lemma find_last_spec id i rows acc :
  match find_last id i rows acc with
  | Some (j, h) =>
      (exists k r, j = (i + k)%nat /\ rows !! k = Some r /\ hc_cte_event_id r = id /\ hc_event_hash r = h)
      \/ (acc = Some (j, h) /\ forall r, r ∈ rows -> hc_cte_event_id r <> id)
  | None => acc = None /\ forall r, r ∈ rows -> hc_cte_event_id r <> id
  end.
Proof.
  revert i acc. induction rows as [|r rows IH]; intros i acc; cbn [find_last].
  - assert (Hnil : forall r : chain_row, r ∈ [] -> hc_cte_event_id r <> id) by (by intros r ?%elem_of_nil).
    destruct acc as [[j h]|]; auto.
  - destruct (String.eqb_spec (hc_cte_event_id r) id) as [Heq|Hne].
    + specialize (IH (S i) (Some (i, hc_event_hash r))).
      destruct (find_last _ _ _ _) as [[j h]|]; [|by destruct IH].
      left. destruct IH as [(k & r' & -> & Hk & Hr)|[[= <- <-] _]].
      * exists (S k), r'. repeat split; [lia|done|apply Hr|apply Hr].
      * exists 0%nat, r. repeat split; [lia|done].
    + specialize (IH (S i) acc).
      assert (Hcons : (forall r', r' ∈ rows -> hc_cte_event_id r' <> id) ->
                      forall r', r' ∈ r :: rows -> hc_cte_event_id r' <> id).
      { intros Hall r' [->|Hin]%elem_of_cons; auto. }
      destruct (find_last _ _ _ _) as [[j h]|]; [|by destruct IH; auto].
      destruct IH as [(k & r' & -> & Hk & Hr)|[-> Hall]]; [left|by right; auto].
      exists (S k), r'. repeat split; [lia|done|apply Hr|apply Hr].
Qed.

(** [get_merkle_proof] never fails: it answers [None] exactly when no chain row of the tenant
    refers to the event, and otherwise the digest, position and proof of such a row, and the proof
    verifies against the root over the digests of the whole chain. *)
Theorem get_merkle_proof_correct s t id :
  match get_merkle_proof s t id with
  | Ok None => forall r, r ∈ chain_of t s -> hc_cte_event_id r <> id
  | Ok (Some a) =>
      (exists r, by_sequence (chain_of t s) !! ma_index a = Some r
         /\ hc_cte_event_id r = id /\ hc_event_hash r = ma_event_hash a)
      /\ ma_merkle_root a = compute_merkle_root (hc_event_hash <$> by_sequence (chain_of t s))
      /\ verify_proof (ma_event_hash a) (ma_proof a) (ma_merkle_root a) = true
  | Raise _ => False
  end.
Proof.
  unfold get_merkle_proof. pose proof (find_last_spec id 0 (by_sequence (chain_of t s)) None) as Hf.
  destruct (find_last _ _ _ _) as [[j h]|].
  - destruct Hf as [(k & r & -> & Hk & Hid & <-)|[[=] _]]. cbn [Nat.add].
    destruct (generate_proof_verifies (hc_event_hash <$> by_sequence (chain_of t s)) k (hc_event_hash r))
      as [-> Hv]; [by rewrite list_lookup_fmap, Hk|].
    cbn [rbind]. split; [by exists r|]. by split.
  - destruct Hf as [_ Hf]. intros r Hr. apply Hf. by rewrite by_sequence_perm.
Qed.

(** ** Tenants *)

Definition tenant_view (t : string) (s : store) :=
  (events_of t s, chain_of t s,
   List.filter (fun k => String.eqb (kr_tenant_id k) t) (cte_kdes s),
   List.filter (fun a => String.eqb (ar_tenant_id a) t) (compliance_alerts s)).

Lemma insert_kdes_view `{PyLib} `{Postgres} t s t' id kdes s' :
  t' <> t -> insert_kdes s t' id kdes = Ok s' -> tenant_view t s' = tenant_view t s.
Proof.
  intros Hne. revert s. induction kdes as [|[k v] kdes IH]; cbn [insert_kdes]; intros s H1.
  - by injection H1 as <-.
  - destruct (is_none v); [by apply IH|].
    apply rbind_Ok_inv in H1 as (j & _ & H1). apply rbind_Ok_inv in H1 as (c & _ & H1). rewrite (IH _ H1). unfold insert_kde. case_match; [done|].
    unfold tenant_view, events_of, chain_of. cbn. rewrite filter_snoc. cbn.
    apply String.eqb_neq in Hne. by rewrite Hne, app_nil_r.
Qed.

Lemma alert_params_tenant `{PyLib} t id a r : _alert_insert_params t id a = Ok r -> ar_tenant_id r = t.
Proof. unfold _alert_insert_params. intros (x & _ & E)%rbind_Ok_inv. by injection E as <-. Qed.

Lemma insert_alerts_view `{PyLib} rej t s t' id alerts :
  t' <> t -> tenant_view t (insert_alerts rej s t' id alerts) = tenant_view t s.
Proof.
  intros Hne. revert s. induction alerts as [|a alerts IH]; intros s; cbn [insert_alerts]; [done|].
  rewrite IH. destruct (_alert_insert_params t' id a) as [r|] eqn:E; [|done]. destruct (rej r); [done|].
  apply alert_params_tenant in E as <-. unfold tenant_view, events_of, chain_of. cbn. rewrite filter_snoc.
  apply String.eqb_neq in Hne. by rewrite Hne, app_nil_r.
Qed.

(** Tenants do not interfere: a call of [store_event] for one tenant leaves every row of every
    other tenant, in all four tables, and its chain verification, as they were. *)
Theorem store_event_tenant_isolation `{PyLib} `{Postgres} e s i s' r t c :
  store_event e s i = Ok (s', r) -> ei_tenant_id i <> t ->
  tenant_view t s' = tenant_view t s /\ verify_chain c s' t = verify_chain c s t.
Proof.
  intros Hs Hne.
  assert (Hv : tenant_view t s' = tenant_view t s).
  { unfold store_event in Hs. apply rbind_Ok_inv in Hs as ([[ty ts] en] & _ & Hs).
    apply rbind_Ok_inv in Hs as (key & _ & Hs).
    destruct (find_by_key s (ei_tenant_id i) key) as [r0|] eqn:Hfind; [by injection Hs as <- _|].
    apply rbind_Ok_inv in Hs as (sha & _ & Hs). apply rbind_Ok_inv in Hs as (u & _ & Hs). apply rbind_Ok_inv in Hs as (u1 & _ & Hs).
    apply rbind_Ok_inv in Hs as (s1 & Hins & Hs). apply insert_event_new in Hins as [-> _]; [|done].
    pose proof Hne as Hneb. apply String.eqb_neq in Hneb.
    set (s1 := set_events s _) in *. assert (H1 : tenant_view t s1 = tenant_view t s).
    { unfold s1, tenant_view. rewrite events_of_snoc. cbn [cr_tenant_id]. by rewrite Hneb, app_nil_r. }
    destruct (String.eqb _ _); [by injection Hs as <- _|].
    apply rbind_Ok_inv in Hs as (s2 & Hk & Hs). apply rbind_Ok_inv in Hs as (s3 & Hc & Hs).
    injection Hs as <- _. rewrite insert_alerts_view by done.
    apply (insert_kdes_view t) in Hk; [|done]. rewrite <- H1, <- Hk. unfold insert_chain in Hc.
    repeat (destruct (existsb _ _) in Hc; try discriminate); injection Hc as <-; [|done].
    unfold tenant_view, events_of, chain_of. cbn. rewrite filter_snoc. cbn. by rewrite Hneb, app_nil_r. }
  split; [exact Hv|]. unfold tenant_view in Hv.
  apply pair_eq in Hv as [[[Hev Hch]%pair_eq _]%pair_eq _].
  unfold verify_chain, _missing_chain_event_ids, live_events.
  assert (Hw : forall rows i p, walk_chain s' t i p rows = walk_chain s t i p rows).
  { induction rows as [|x rows IH]; intros; cbn [walk_chain]; [done|].
    rewrite IH. unfold orphan_errors, matched_event. by rewrite Hev. }
  by rewrite Hw, Hev, Hch.
Qed.

Lemma store_event_tenant_isolation_witness :
  tenant_view "t2" demo_store2 = tenant_view "t2" demo_store1
  /\ verify_chain "" demo_store2 "t2" = verify_chain "" demo_store1 "t2".
Proof. apply (store_event_tenant_isolation _ _ _ _ _ "t2" "" demo_call2). discriminate. Defined.

(** ** Which errors a call can raise *)














(** ** Where the verdict is blind *)

Definition demo_event (id : string) (status : string) : cte_row :=
  CteRow id "t1" "harvesting" "TLC" "Lettuce" (PInt 1) "lb" None None "2026-01-01" "2026-01-01" "api" None
    (Some ("key-" +:+ id)) ("sha-" +:+ id) "" (None, None, None) status.

Definition demo_link1 : chain_row := ChainRow "t1" "A" 1 "sha-A" None (compute_chain_hash "sha-A" None).
Definition demo_link2 : chain_row :=
  ChainRow "t1" "A" 2 "sha-A" (Some (hc_chain_hash demo_link1))
    (compute_chain_hash "sha-A" (Some (hc_chain_hash demo_link1))).

(** The missing-row check compares counts first: a store in which one event is chained twice
    and another non-rejected event has no chain row at all is reported valid. *)
Theorem verify_chain_count_blind :
  exists s t e c,
    cv_valid (verify_chain c s t) = true /\ e ∈ live_events t s
    /\ forall r, r ∈ hash_chain s -> hc_cte_event_id r <> cr_id e.
Proof.
  exists (Store [demo_event "A" "valid"; demo_event "B" "valid"] [] [demo_link1; demo_link2] []), "t1",
    (demo_event "B" "valid"), "".
  split; [vm_compute; reflexivity|]. split; [cbn; apply list_elem_of_further, list_elem_of_here|].
  intros r Hr. apply elem_of_cons in Hr as [->|Hr]; [discriminate|].
  apply elem_of_cons in Hr as [->|Hr]; [discriminate | by apply elem_of_nil in Hr].
Qed.
