(* ===== verification/Gs1.v ===== *)
(** * GS1 identifiers

    [services/shared/fsma_validation.py]: the mod-10 check digit, the validators of GLN, GTIN, SSCC
    and traceability lot codes, and the dispatcher.  Proved: the check digit round trip, which
    typing errors it catches, what the validators accept, and that normalization to fourteen digits
    keeps a number valid. *)

From Stdlib Require Import ZArith Lia String Ascii.
From stdpp Require Import base list strings.
From S2P Require Import Prelude PyStr PyFloat PyVal.

Local Open Scope string_scope.

Inductive IdentifierType := TLC | GTIN | GLN | SSCC | UNKNOWN.

Definition identifier_type_name (t : IdentifierType) : string :=
  match t with
  | TLC => "IdentifierType.TLC" | GTIN => "IdentifierType.GTIN" | GLN => "IdentifierType.GLN"
  | SSCC => "IdentifierType.SSCC" | UNKNOWN => "IdentifierType.UNKNOWN"
  end.

Inductive ValidationSeverity := SevError | SevWarning | SevInfo.

Record ValidationError := VErr { ve_field : string; ve_message : string; ve_severity : ValidationSeverity }.

Record ValidationResult := VResult {
  is_valid : bool;
  identifier_type : IdentifierType;
  original_value : pyval;
  normalized_value : option string;
  vr_errors : list ValidationError;
  vr_warnings : list string
}.

Definition failure (t : IdentifierType) (orig : pyval) (field msg : string) : ValidationResult :=
  VResult false t orig None [VErr field msg SevError] [].

(** ** Check digit *)

Definition chars (s : string) : list ascii := list_ascii_of_string s.

(** [int(d)] of one character. *)
Definition int_digit (c : ascii) : res Z :=
  if is_decimal c then Ok (Z.of_nat (code c) - 48)%Z
  else Raise (ValueError ("invalid literal for int() with base 10: " +:+ repr_str (String c ""))).

(** [sum(int(d) * (1 if i % 2 else 3) for i, d in enumerate(...))] from index [i]. *)
Fixpoint weighted (i : nat) (ds : list Z) : Z :=
  match ds with
  | [] => 0
  | d :: r => d * (if Nat.odd i then 1 else 3) + weighted (S i) r
  end%Z.

Definition _gs1_check_digit (digits : string) : res Z :=
  do ds <- rmapM int_digit (rev (chars digits));
  Ok ((10 - weighted 0 ds mod 10) mod 10)%Z.

(** [s[:-1]] and [s[-1]]. *)
Definition str_init (s : string) : string := str_take (slen s - 1) s.
Definition str_last (s : string) : res ascii :=
  match rev (chars s) with c :: _ => Ok c | [] => Raise (IndexError "string index out of range") end.

(** [re.sub(r"\D", "", s)]. *)
Definition digits_only (s : string) : string := str_filter is_decimal s.

Definition _validate_gs1_check (clean field_name : string) (id_type : IdentifierType)
    : res (option ValidationResult) :=
  do expected <- _gs1_check_digit (str_init clean);
  do c <- str_last clean;
  do d <- int_digit c;
  Ok (if (d =? expected)%Z then None
      else Some (failure id_type (PStr clean) field_name
                   ("Check digit invalid (expected " +:+ str_of_Z expected +:+ ")"))).

Definition with_original (r : ValidationResult) (v : pyval) : ValidationResult :=
  VResult (is_valid r) (identifier_type r) v (normalized_value r) (vr_errors r) (vr_warnings r).

(** ** Validators *)

Definition validate_gln (gln : pyval) : res ValidationResult :=
  match gln with
  | PStr s =>
      if String.eqb s "" then Ok (failure GLN gln "gln" "GLN is required")
      else
        let clean := digits_only s in
        if negb (slen clean =? 13)%nat then Ok (failure GLN gln "gln" "GLN must be 13 numeric digits")
        else
          do chk <- _validate_gs1_check clean "gln" GLN;
          match chk with
          | Some r => Ok (with_original r gln)
          | None => Ok (VResult true GLN gln (Some clean) [] [])
          end
  | _ => Ok (failure GLN gln "gln" "GLN is required")
  end.

Definition validate_gtin (gtin : pyval) : res ValidationResult :=
  match gtin with
  | PStr s =>
      if String.eqb s "" then Ok (failure GTIN gtin "gtin" "GTIN is required")
      else
        let clean := digits_only s in
        if negb (existsb (Nat.eqb (slen clean)) [8; 12; 13; 14])
        then Ok (failure GTIN gtin "gtin" "GTIN must be 8, 12, 13, or 14 numeric digits")
        else
          do chk <- _validate_gs1_check clean "gtin" GTIN;
          match chk with
          | Some r => Ok (with_original r gtin)
          | None =>
              let normalized := zfill 14 clean in
              let warnings := if (slen clean =? 14)%nat then []
                              else ["Normalized from GTIN-" +:+ str_of_Z (Z.of_nat (slen clean)) +:+ " to GTIN-14"] in
              Ok (VResult true GTIN gtin (Some normalized) [] warnings)
          end
  | _ => Ok (failure GTIN gtin "gtin" "GTIN is required")
  end.

Definition is_alnum (c : ascii) : bool := in_range 65 90 c || in_range 97 122 c || in_range 48 57 c.

(** The two patterns, on a stripped string (so [$] is the end). *)
Definition production_pattern (s : string) : bool :=
  (15 <=? slen s)%nat && str_forallb is_decimal (str_take 14 s)
  && str_forallb (fun c => is_alnum c || Ascii.eqb c "-" || Ascii.eqb c ".") (str_drop 14 s).
Definition usual_characters (s : string) : bool :=
  (1 <=? slen s)%nat
  && str_forallb (fun c => is_alnum c || Ascii.eqb c "-" || Ascii.eqb c "." || Ascii.eqb c "_" || Ascii.eqb c "/") s.

Definition tlc_warnings (strict : bool) (cleaned : string) : list string :=
  ((if strict && negb (production_pattern cleaned)
    then ["Warning: TLC does not match production pattern (14-digit GTIN prefix + alphanumeric lot suffix); this is not a validation failure"]
    else [])
   ++ (if usual_characters cleaned then []
       else ["TLC contains unusual characters; consider strict validation"])
   ++ (if (50 <? slen cleaned)%nat then ["TLC is unusually long (>50 characters)"] else []))%list.

Definition validate_tlc `{PyLib} (tlc : pyval) (strict : bool) : ValidationResult :=
  let raw := if truthy tlc then py_str tlc else "" in
  let cleaned := strip raw in
  if (slen cleaned <? 3)%nat
  then failure TLC (PStr raw) "tlc" "TLC must be at least 3 characters"
  else VResult true TLC (PStr raw) (Some cleaned) [] (tlc_warnings strict cleaned).

Definition validate_sscc (sscc : pyval) : res ValidationResult :=
  match sscc with
  | PStr s =>
      if String.eqb s "" then Ok (failure SSCC sscc "sscc" "SSCC is required")
      else
        let clean := digits_only s in
        if negb (slen clean =? 18)%nat then Ok (failure SSCC sscc "sscc" "SSCC must be 18 numeric digits")
        else
          do chk <- _validate_gs1_check clean "sscc" SSCC;
          match chk with
          | Some r => Ok (with_original r sscc)
          | None => Ok (VResult true SSCC sscc (Some clean) [] [])
          end
  | _ => Ok (failure SSCC sscc "sscc" "SSCC is required")
  end.

(** ** Public helpers *)

Definition calculate_gs1_check_digit `{PyLib} (digits : pyval) : res Z :=
  match digits with
  | PStr s => if str_isdigit s then _gs1_check_digit s
              else Raise (ValueError ("Expected numeric string, got '" +:+ s +:+ "'"))
  | _ => Raise (ValueError ("Expected numeric string, got '" +:+ py_str digits +:+ "'"))
  end.

Definition verify_gs1_check_digit (number : pyval) : res bool :=
  match number with
  | PStr s =>
      if String.eqb s "" || negb ((2 <=? slen s)%nat && str_forallb is_decimal s) then Ok false
      else
        do c <- str_last s; do d <- int_digit c;
        do e <- _gs1_check_digit (str_init s);
        Ok (d =? e)%Z
  | _ => Ok false
  end.

Definition normalize_gtin `{PyLib} (gtin : pyval) : res string :=
  match gtin with
  | PStr s => Ok (zfill 14 (digits_only s))
  | _ => Raise (ValueError ("Expected GTIN string, got '" +:+ py_str gtin +:+ "'"))
  end.

(** [s[1:stop]] with Python's negative indices. *)
Definition slice_from_1 (stop : Z) (s : string) : string :=
  let n := Z.of_nat (slen s) in
  let stop := if (stop <? 0)%Z then Z.max 0 (stop + n) else Z.min stop n in
  str_drop 1 (str_take (Z.to_nat stop) s).

Definition extract_company_prefix `{PyLib} (gtin14 : pyval) (prefix_length : Z) : res string :=
  match gtin14 with
  | PStr s => Ok (slice_from_1 (1 + prefix_length) (zfill 14 (digits_only s)))
  | _ => Raise (ValueError ("Expected GTIN-14 string, got '" +:+ py_str gtin14 +:+ "'"))
  end.

(** ** Dispatcher *)

Definition _detect_identifier_type (value : pyval) : IdentifierType :=
  match value with
  | PStr s =>
      let clean := digits_only s in
      if String.eqb clean s then
        let n := slen clean in
        if (n =? 18)%nat then SSCC
        else if (n =? 13)%nat then GLN
        else if existsb (Nat.eqb n) [8; 12; 14] then GTIN
        else TLC
      else TLC
  | _ => UNKNOWN
  end.

Definition validate_identifier `{PyLib} (value : pyval) (expected_type : option IdentifierType) (strict : bool)
    : res ValidationResult :=
  let id_type := match expected_type with Some t => t | None => _detect_identifier_type value end in
  match id_type with
  | GLN => validate_gln value
  | GTIN => validate_gtin value
  | TLC => Ok (validate_tlc value strict)
  | SSCC => validate_sscc value
  | UNKNOWN => Ok (failure id_type value "identifier"
                     ("Unsupported identifier type: " +:+ identifier_type_name id_type))
  end.

Definition validate_batch `{PyLib} (identifiers : list (pyval * option IdentifierType)) (strict : bool)
    : res (list ValidationResult) :=
  rmapM (fun p => validate_identifier (fst p) (snd p) strict) identifiers.

Example ean13 : verify_gs1_check_digit (PStr "4006381333931") = Ok true.
Proof. vm_compute. reflexivity. Qed.
Example gtin14_sample : verify_gs1_check_digit (PStr "09506000134352") = Ok true.
Proof. vm_compute. reflexivity. Qed.

(** ** Digits as numbers *)

Definition digit (c : ascii) : Z := (Z.of_nat (code c) - 48)%Z.
Definition decimal (s : string) : Prop := str_forallb is_decimal s = true.
Definition vals (s : string) : list Z := digit <$> chars s.

Lemma is_decimal_digit c : is_decimal c = true -> (0 <= digit c <= 9)%Z.
Proof.
  unfold is_decimal, in_range, digit. intros H. reflect_bools. lia.
Qed.

Lemma int_digit_ok c : is_decimal c = true -> int_digit c = Ok (digit c).
Proof. unfold int_digit. by intros ->. Qed.

Lemma digit_inj c d : is_decimal c = true -> is_decimal d = true -> digit c = digit d -> c = d.
Proof.
  unfold digit, code. intros _ _ H. rewrite <- (ascii_nat_embedding c), <- (ascii_nat_embedding d).
  f_equal. lia.
Qed.

Lemma chars_app a b : chars (a +:+ b) = (chars a ++ chars b)%list.
Proof. induction a as [|c a IH]; [done|]. cbn. by f_equal. Qed.

Lemma chars_take n s : chars (str_take n s) = take n (chars s).
Proof. revert n. induction s as [|c s IH]; intros [|n]; cbn; [done..|]. by f_equal. Qed.

Lemma length_chars s : length (chars s) = slen s.
Proof. unfold slen. induction s as [|c s IH]; [done|]. cbn. by f_equal. Qed.

Lemma decimal_chars s : decimal s <-> Forall (fun c => is_decimal c = true) (chars s).
Proof.
  unfold decimal. induction s as [|c s IH]; cbn; [by split|]. by rewrite andb_true_iff, Forall_cons, IH.
Qed.

Lemma rmapM_int_digit cs :
  Forall (fun c => is_decimal c = true) cs -> rmapM int_digit cs = Ok (digit <$> cs).
Proof. induction 1 as [|c cs Hc _ IH]; cbn; [done|]. by rewrite int_digit_ok, IH. Qed.

Lemma check_digit_ok s :
  decimal s -> _gs1_check_digit s = Ok ((10 - weighted 0 (rev (vals s)) mod 10) mod 10)%Z.
Proof.
  intros Hs%decimal_chars. unfold _gs1_check_digit. rewrite rmapM_int_digit.
  - cbn [rbind]. by rewrite map_rev.
  - by apply Forall_rev.
Qed.

(** ** The weighted sum *)

Lemma odd_SS i : Nat.odd (S (S i)) = Nat.odd i.
Proof. done. Qed.

Lemma weighted_SS i l : weighted (S (S i)) l = weighted i l.
Proof.
  revert i. induction l as [|d l IH]; intros i; cbn [weighted]; [done|]. by rewrite odd_SS, IH.
Qed.

Lemma weighted_app i l k : weighted i (l ++ k) = (weighted i l + weighted (i + length l) k)%Z.
Proof.
  revert i. induction l as [|d l IH]; intros i; cbn [weighted app length].
  - by rewrite Nat.add_0_r.
  - rewrite IH. replace (S i + length l)%nat with (i + S (length l))%nat by lia. lia.
Qed.

Lemma weighted_zeros i n : weighted i (repeat 0%Z n) = 0%Z.
Proof. revert i. induction n as [|n IH]; intros i; cbn [repeat weighted]; [done|]. by rewrite IH. Qed.

(** The sum with the check digit included, which is at index -1 (weight one). *)
Definition full_sum (s : string) : Z := weighted 1 (rev (vals s)).

Lemma vals_app a b : vals (a +:+ b) = (vals a ++ vals b)%list.
Proof. unfold vals. by rewrite chars_app, fmap_app. Qed.

Lemma decimal_app a b : decimal (a +:+ b) <-> decimal a /\ decimal b.
Proof. unfold decimal. by rewrite str_forallb_append, andb_true_iff. Qed.

Lemma full_sum_app a b :
  full_sum (a +:+ b) = (full_sum b + weighted (1 + slen b) (rev (vals a)))%Z.
Proof.
  unfold full_sum. rewrite vals_app, List.rev_app_distr, weighted_app. do 2 f_equal.
  rewrite List.length_rev. unfold vals. by rewrite length_fmap, length_chars.
Qed.

Lemma full_sum_snoc s c : full_sum (s +:+ String c "") = (digit c + weighted 0 (rev (vals s)))%Z.
Proof.
  rewrite full_sum_app. change (slen (String c "")) with 1%nat. rewrite weighted_SS.
  unfold full_sum. cbn -[digit]. lia.
Qed.

Lemma str_snoc s : s <> "" -> exists i c, s = i +:+ String c "".
Proof.
  induction s as [|d s IH]; [done|]. intros _. destruct s as [|e s].
  - by exists "", d.
  - destruct IH as (i & c & ->); [done|]. by exists (String d i), c.
Qed.

Lemma str_take_app_len a b : str_take (slen a) (a +:+ b) = a.
Proof. induction a as [|c a IH]; [by destruct b|]. cbn. f_equal. exact IH. Qed.

Lemma str_init_snoc s c : str_init (s +:+ String c "") = s.
Proof.
  unfold str_init. rewrite slen_append. change (slen (String c "")) with 1%nat.
  rewrite Nat.add_sub. apply str_take_app_len.
Qed.

Lemma str_last_snoc s c : str_last (s +:+ String c "") = Ok c.
Proof. unfold str_last. by rewrite chars_app, List.rev_app_distr. Qed.

(** Verification in closed form: the full sum is divisible by ten. *)
Lemma check_matches w d :
  (0 <= d <= 9)%Z -> (d =? (10 - w mod 10) mod 10)%Z = ((d + w) mod 10 =? 0)%Z.
Proof.
  intros Hd. apply eq_true_iff_eq. rewrite !Z.eqb_eq. Z.div_mod_to_equations. lia.
Qed.

Lemma verify_closed s :
  (2 <= slen s)%nat -> decimal s ->
  verify_gs1_check_digit (PStr s) = Ok (full_sum s mod 10 =? 0)%Z.
Proof.
  intros Hl Hs. destruct (str_snoc s) as (i & c & ->); [by intros ->; cbn in Hl; lia|].
  unfold verify_gs1_check_digit. replace (String.eqb _ "") with false by (symmetry; apply String.eqb_neq; by destruct i).
  apply Nat.leb_le in Hl. unfold decimal in Hs. rewrite Hl, Hs. cbn [andb orb negb].
  apply decimal_app in Hs as [Hi Hc]. unfold decimal in Hc. cbn in Hc. rewrite andb_true_r in Hc.
  rewrite str_last_snoc, str_init_snoc. cbn [rbind]. rewrite int_digit_ok by done. cbn [rbind].
  rewrite check_digit_ok by done. cbn [rbind].
  by rewrite full_sum_snoc, check_matches by by apply is_decimal_digit.
Qed.

Lemma decimal_is_digit s : decimal s -> str_forallb is_digit s = true.
Proof.
  unfold decimal. induction s as [|c s IH]; cbn; [done|]. intros [Hc Hs]%andb_true_iff.
  rewrite (IH Hs), andb_true_r. unfold is_digit. by rewrite Hc.
Qed.

Lemma decimal_isdigit s : s <> "" -> decimal s -> str_isdigit s = true.
Proof.
  intros Hne Hs. apply andb_true_iff. split; [by apply negb_true_iff, String.eqb_neq | by apply decimal_is_digit].
Qed.

(** On texts the public check never raises. *)
Lemma verify_total s : exists b, verify_gs1_check_digit (PStr s) = Ok b.
Proof.
  destruct (String.eqb s "" || negb ((2 <=? slen s)%nat && str_forallb is_decimal s)) eqn:E.
  - exists false. unfold verify_gs1_check_digit. by rewrite E.
  - reflect_bools. eexists. by apply verify_closed.
Qed.

Lemma verify_decimal s : verify_gs1_check_digit (PStr s) = Ok true -> (2 <= slen s)%nat /\ decimal s.
Proof.
  unfold verify_gs1_check_digit. destruct (_ || _) eqn:E; [discriminate|]. intros _. reflect_bools.
  by split.
Qed.

(** Replacing one digit changes the sum by one or three times the difference. *)
Lemma full_sum_replace a c d b :
  exists w, (w = 1 \/ w = 3)%Z
    /\ (full_sum (a +:+ String d b) - full_sum (a +:+ String c b) = w * (digit d - digit c))%Z.
Proof.
  exists (if Nat.odd (1 + slen b) then 1 else 3)%Z. split; [case_match; auto|].
  assert (H : forall x, full_sum (a +:+ String x b)
    = (full_sum b + digit x * (if Nat.odd (1 + slen b) then 1 else 3)
       + weighted (2 + slen b) (rev (vals a)))%Z).
  { intros x. rewrite full_sum_app. change (String x b) with (String x "" +:+ b).
    rewrite full_sum_app, slen_append. unfold vals at 1. cbn [chars list_ascii_of_string fmap list_fmap rev app weighted].
    change (slen (String x "")) with 1%nat. cbn [Nat.add]. lia. }
  rewrite !H. lia.
Qed.

Lemma full_sum_swap a c d b :
  exists w1 w2, ((w1 = 1 /\ w2 = 3) \/ (w1 = 3 /\ w2 = 1))%Z
    /\ (full_sum (a +:+ String d (String c b)) - full_sum (a +:+ String c (String d b))
        = (w1 - w2) * (digit d - digit c))%Z.
Proof.
  set (u := fun i => if Nat.odd i then 1%Z else 3%Z).
  exists (u (2 + slen b))%nat, (u (1 + slen b))%nat.
  split.
  { unfold u. change (2 + slen b)%nat with (S (S (slen b))). rewrite odd_SS.
    change (1 + slen b)%nat with (S (slen b)). rewrite Nat.odd_succ, <- Nat.negb_odd.
    destruct (Nat.odd (slen b)); auto. }
  assert (H : forall x y, full_sum (a +:+ String x (String y b))
    = (full_sum b + digit y * u (1 + slen b)%nat + digit x * u (2 + slen b)%nat
       + weighted (3 + slen b) (rev (vals a)))%Z).
  { intros x y. rewrite full_sum_app. change (String x (String y b)) with (String x (String y "") +:+ b).
    rewrite full_sum_app, slen_append. unfold vals at 1. cbn [chars list_ascii_of_string fmap list_fmap rev app weighted].
    change (slen (String x (String y ""))) with 2%nat. unfold u. cbn [Nat.add]. lia. }
  rewrite !H. lia.
Qed.

(** ** Properties *)

(** The check digit round trip: for any non-empty string of digits the calculated check digit is
    a single digit, appending it gives a number that verifies, and appending any other digit gives
    one that does not. *)
Theorem check_digit_roundtrip `{PyLib} s c :
  s <> "" -> decimal s -> is_decimal c = true ->
  exists k, calculate_gs1_check_digit (PStr s) = Ok k /\ (0 <= k <= 9)%Z
    /\ verify_gs1_check_digit (PStr (s +:+ String c "")) = Ok (digit c =? k)%Z.
Proof.
  intros Hne Hs Hc. exists ((10 - weighted 0 (rev (vals s)) mod 10) mod 10)%Z. split; [|split].
  - unfold calculate_gs1_check_digit. rewrite decimal_isdigit by done.
    by apply check_digit_ok.
  - pose proof (Z.mod_pos_bound (10 - weighted 0 (rev (vals s)) mod 10) 10). lia.
  - rewrite verify_closed.
    + by rewrite full_sum_snoc, check_matches by by apply is_decimal_digit.
    + rewrite slen_append. destruct s; [done|]. cbn. lia.
    + apply decimal_app. split; [done|]. unfold decimal. cbn. by rewrite Hc.
Qed.

Lemma check_digit_roundtrip_witness :
  exists k, calculate_gs1_check_digit (H := demo_lib) (PStr "400638133393") = Ok k /\ (0 <= k <= 9)%Z
    /\ verify_gs1_check_digit (PStr "4006381333931") = Ok (digit "1" =? k)%Z.
Proof. apply (check_digit_roundtrip (H := demo_lib) "400638133393" "1"); [discriminate | reflexivity..]. Defined.

(** Every single-digit error is caught. *)
Theorem check_digit_detects_substitution a c d b :
  verify_gs1_check_digit (PStr (a +:+ String c b)) = Ok true -> is_decimal d = true -> c <> d ->
  verify_gs1_check_digit (PStr (a +:+ String d b)) = Ok false.
Proof.
  intros Hv Hd Hne. destruct (verify_decimal _ Hv) as [Hl Hs].
  pose proof Hs as [Ha Hcb]%decimal_app. unfold decimal in Hcb. cbn in Hcb. apply andb_true_iff in Hcb as [Hc Hb].
  rewrite verify_closed in Hv by done. injection Hv as Hv. apply Z.eqb_eq in Hv.
  rewrite verify_closed.
  - f_equal. apply Z.eqb_neq. intros Hv'. apply Hne, digit_inj; [done..|].
    destruct (full_sum_replace a c d b) as (w & Hw & E).
    pose proof (is_decimal_digit _ Hc). pose proof (is_decimal_digit _ Hd).
    Z.div_mod_to_equations. destruct Hw as [-> | ->]; lia.
  - rewrite slen_append in *. exact Hl.
  - apply decimal_app. split; [done|]. unfold decimal. cbn. by rewrite Hd.
Qed.

Lemma check_digit_detects_substitution_witness :
  verify_gs1_check_digit (PStr "4006381333931") = Ok true
  /\ verify_gs1_check_digit (PStr "4006387333931") = Ok false.
Proof.
  split; [vm_compute; reflexivity|].
  apply (check_digit_detects_substitution "400638" "1" "7" "333931"); [vm_compute; reflexivity | reflexivity | discriminate].
Defined.

(** Swapping two adjacent digits is caught exactly when they do not differ by zero or five. *)
Theorem check_digit_transposition a c d b :
  verify_gs1_check_digit (PStr (a +:+ String c (String d b))) = Ok true ->
  verify_gs1_check_digit (PStr (a +:+ String d (String c b)))
  = Ok (Z.abs (digit c - digit d) =? 5)%Z
  \/ c = d.
Proof.
  intros Hv. destruct (verify_decimal _ Hv) as [Hl Hs]. destruct (decide (c = d)) as [->|Hne]; [by right|left].
  pose proof Hs as [Ha Hcb]%decimal_app. unfold decimal in Hcb. cbn in Hcb.
  apply andb_true_iff in Hcb as [Hc Hcb]. apply andb_true_iff in Hcb as [Hd Hb].
  rewrite verify_closed in Hv by done. injection Hv as Hv. apply Z.eqb_eq in Hv.
  rewrite verify_closed.
  - f_equal. apply eq_true_iff_eq. rewrite !Z.eqb_eq.
    destruct (full_sum_swap a c d b) as (w1 & w2 & Hw & E).
    pose proof (is_decimal_digit _ Hc). pose proof (is_decimal_digit _ Hd).
    assert (digit c <> digit d) by (intros Heq; apply Hne; by apply digit_inj).
    Z.div_mod_to_equations. destruct Hw as [[-> ->]|[-> ->]]; lia.
  - rewrite slen_append in *. exact Hl.
  - apply decimal_app. split; [done|]. unfold decimal. cbn. by rewrite Hc, Hd.
Qed.

Lemma check_digit_transposition_witness :
  (verify_gs1_check_digit (PStr "0406381333931") = Ok (Z.abs (digit "4" - digit "0") =? 5)%Z
   \/ "4"%char = "0"%char).
Proof. apply (check_digit_transposition "" "4" "0" "06381333931"). vm_compute. reflexivity. Defined.

(** ** What the validators accept *)

Lemma decimal_digits_only s : decimal (digits_only s).
Proof. apply str_forallb_filter. Qed.

(** The shared check, in terms of the public one. *)
Lemma validate_check_spec clean field t :
  (2 <= slen clean)%nat -> decimal clean ->
  exists o, _validate_gs1_check clean field t = Ok o
    /\ (verify_gs1_check_digit (PStr clean) = Ok (match o with None => true | Some _ => false end))
    /\ match o with Some r => is_valid r = false /\ normalized_value r = None /\ identifier_type r = t | None => True end.
Proof.
  intros Hl Hs. pose proof Hs as Hs0. destruct (str_snoc clean) as (i & c & E); [by intros ->; cbn in Hl; lia|].
  unfold _validate_gs1_check, verify_gs1_check_digit.
  replace (String.eqb clean "") with false by (symmetry; apply String.eqb_neq; intros ->; cbn in Hl; lia).
  apply Nat.leb_le in Hl. unfold decimal in Hs0. rewrite Hl, Hs0. cbn [andb orb negb].
  rewrite E. rewrite E in Hs. apply decimal_app in Hs as [Hi Hc]. unfold decimal in Hc. cbn in Hc. rewrite andb_true_r in Hc.
  rewrite str_last_snoc, str_init_snoc, check_digit_ok by done. cbn [rbind].
  rewrite int_digit_ok by done. cbn [rbind]. eexists. split; [reflexivity|]. by destruct (_ =? _)%Z.
Qed.

(** A validator's contract: it returns a result of its own type about the value it was given, valid
    exactly when the value is a string whose digits have an accepted length and verify; then the
    normalized value is [norm] of those digits. *)
Definition accepts (t : IdentifierType) (lens : list nat) (norm : string -> string)
    (f : pyval -> res ValidationResult) (v : pyval) : Prop :=
  exists r, f v = Ok r /\ identifier_type r = t /\ original_value r = v
    /\ match v with
       | PStr s =>
           (is_valid r = true <->
             slen (digits_only s) ∈ lens /\ verify_gs1_check_digit (PStr (digits_only s)) = Ok true)
           /\ normalized_value r = if is_valid r then Some (norm (digits_only s)) else None
       | _ => is_valid r = false
       end.

(** The three validators have one shape. *)
Definition validator (t : IdentifierType) (field missing wrong_length : string) (lens : list nat)
    (norm : string -> string) (warn : string -> list string) (v : pyval) : res ValidationResult :=
  match v with
  | PStr s =>
      if String.eqb s "" then Ok (failure t v field missing)
      else
        let clean := digits_only s in
        if negb (existsb (Nat.eqb (slen clean)) lens) then Ok (failure t v field wrong_length)
        else
          do chk <- _validate_gs1_check clean field t;
          match chk with
          | Some r => Ok (with_original r v)
          | None => Ok (VResult true t v (Some (norm clean)) [] (warn clean))
          end
  | _ => Ok (failure t v field missing)
  end.

Lemma existsb_Nat_eqb n lens : existsb (Nat.eqb n) lens = true <-> n ∈ lens.
Proof.
  rewrite existsb_exists. setoid_rewrite Nat.eqb_eq. setoid_rewrite <- list_elem_of_In.
  split; [by intros (x & Hx & ->) | by exists n].
Qed.

Lemma validator_accepts t field missing wrong lens norm warn v :
  Forall (fun n => 2 <= n)%nat lens ->
  accepts t lens norm (validator t field missing wrong lens norm warn) v.
Proof.
  intros Hlens. unfold accepts, validator.
  assert (Hlen : forall n, n ∈ lens -> (2 <= n)%nat) by by apply Forall_forall.
  destruct v as [|b|z|f|s|d|l|d]; try (eexists; split; [reflexivity|]; by repeat split).
  destruct (String.eqb_spec s "") as [->|Hne].
  { eexists. split; [reflexivity|]. do 2 (split; [done|]). split; [|done]. split; [done|].
    intros [Hin _]. apply Hlen in Hin. cbn in Hin. lia. }
  cbn zeta. destruct (existsb _ _) eqn:E; cbn [negb].
  - apply existsb_Nat_eqb in E.
    destruct (validate_check_spec (digits_only s) field t (Hlen _ E) (decimal_digits_only s))
      as (o & -> & Hv & Ho). cbn [rbind]. rewrite Hv.
    destruct o as [r|]; (eexists; split; [reflexivity|]); cbn; [|by repeat split].
    destruct Ho as (Ho & Hn & Ht). rewrite Ho, Hn. split; [exact Ht|]. split; [done|]. split; [|done].
    split; [done|]. by intros [_ [=]].
  - eexists. split; [reflexivity|]. do 2 (split; [done|]). split; [|done]. split; [done|].
    intros [Hin _]. apply existsb_Nat_eqb in Hin. congruence.
Qed.

Lemma validate_gln_shape v :
  validate_gln v = validator GLN "gln" "GLN is required" "GLN must be 13 numeric digits" [13%nat]
                     (fun s => s) (fun _ => []) v.
Proof. destruct v; try done. cbn. by rewrite orb_false_r. Qed.

Lemma validate_sscc_shape v :
  validate_sscc v = validator SSCC "sscc" "SSCC is required" "SSCC must be 18 numeric digits" [18%nat]
                      (fun s => s) (fun _ => []) v.
Proof. destruct v; try done. cbn. by rewrite orb_false_r. Qed.

Lemma validate_gtin_shape v :
  validate_gtin v = validator GTIN "gtin" "GTIN is required" "GTIN must be 8, 12, 13, or 14 numeric digits"
                      [8; 12; 13; 14]%nat (zfill 14)
                      (fun s => if (slen s =? 14)%nat then []
                                else ["Normalized from GTIN-" +:+ str_of_Z (Z.of_nat (slen s)) +:+ " to GTIN-14"]) v.
Proof. by destruct v. Qed.

(** The numeric validators never raise and agree with the check digit: a GLN, GTIN or SSCC is valid
    exactly when it is a string whose digits (every other character is dropped) have an accepted
    length and verify, and the normalized value is those digits, padded to fourteen for a GTIN. *)
Theorem validators_accept v :
  accepts GLN [13%nat] (fun s => s) validate_gln v
  /\ accepts GTIN [8; 12; 13; 14]%nat (zfill 14) validate_gtin v
  /\ accepts SSCC [18%nat] (fun s => s) validate_sscc v.
Proof.
  unfold accepts. rewrite validate_gln_shape, validate_gtin_shape, validate_sscc_shape.
  repeat split; apply validator_accepts; repeat constructor.
Qed.

(** ** Normalization *)

Lemma decimal_zfill w s : decimal s -> zfill w s = str_rep (w - slen s) "0" +:+ s.
Proof.
  unfold decimal, zfill. destruct s as [|c s]; cbn [str_forallb].
  - intros _. unfold slen. cbn. by rewrite Nat.sub_0_r, str_append_nil_r.
  - intros [Hc _]%andb_true_iff. unfold is_decimal, in_range in Hc. 
    replace (Ascii.eqb c "+" || Ascii.eqb c "-") with false; [done|]. symmetry. apply orb_false_iff.
    split; apply Ascii.eqb_neq; intros ->; discriminate.
Qed.

Lemma vals_rep n : vals (str_rep n "0") = repeat 0%Z n.
Proof. induction n as [|n IH]; [done|]. cbn [str_rep repeat]. rewrite <- IH. reflexivity. Qed.

Lemma decimal_rep n : decimal (str_rep n "0").
Proof. unfold decimal. by induction n. Qed.

Lemma full_sum_zeros n s : full_sum (str_rep n "0" +:+ s) = full_sum s.
Proof.
  rewrite full_sum_app, vals_rep. replace (rev (repeat 0%Z n)) with (repeat 0%Z n).
  - rewrite weighted_zeros. lia.
  - induction n as [|n IH]; [done|]. cbn. rewrite <- IH. clear IH.
    induction n as [|n IH]; [done|]. cbn. by f_equal.
Qed.

(** Normalization keeps a GTIN: the fourteen-digit form of a valid GTIN has fourteen digits, is the
    value [normalize_gtin] computes, verifies, and is accepted by [validate_gtin] as its own
    normalized value. *)
Theorem gtin_normalization `{PyLib} v r :
  validate_gtin v = Ok r -> is_valid r = true ->
  exists n, normalized_value r = Some n /\ slen n = 14%nat /\ normalize_gtin v = Ok n
    /\ verify_gs1_check_digit (PStr n) = Ok true
    /\ exists r', validate_gtin (PStr n) = Ok r' /\ is_valid r' = true /\ normalized_value r' = Some n.
Proof.
  intros Hr Hv. rewrite validate_gtin_shape in Hr.
  assert (Hlens : Forall (fun n => 2 <= n)%nat [8; 12; 13; 14]%nat) by repeat constructor.
  match type of Hr with validator ?t ?f ?m ?wl ?lens ?norm ?warn _ = _ =>
    destruct (validator_accepts t f m wl lens norm warn v Hlens) as (r0 & Hr0 & Ht & _ & Hs);
    pose proof (fun s => validator_accepts t f m wl lens norm warn (PStr s) Hlens) as Hacc end.
  rewrite Hr in Hr0. injection Hr0 as <-. destruct v as [|b|z|f|s|d|l|d]; try congruence.
  rewrite Hv in Hs. destruct Hs as [[Hs _] Hn]. destruct (Hs eq_refl) as [Hlen Hver].
  set (c := digits_only s) in *. pose proof (decimal_digits_only s : decimal c) as Hc.
  assert (Hl : (2 <= slen c <= 14)%nat).
  { apply existsb_Nat_eqb in Hlen. cbn in Hlen. rewrite !orb_true_iff, !Nat.eqb_eq in Hlen. lia. }
  assert (Hz : zfill 14 c = str_rep (14 - slen c) "0" +:+ c) by by apply decimal_zfill.
  assert (Hz14 : slen (zfill 14 c) = 14%nat) by (rewrite Hz, slen_append, slen_str_rep; lia).
  assert (Hzd : decimal (zfill 14 c)) by (rewrite Hz; apply decimal_app; split; [apply decimal_rep | done]).
  assert (Hzv : verify_gs1_check_digit (PStr (zfill 14 c)) = Ok true).
  { rewrite verify_closed in Hver by (lia || done). rewrite verify_closed by (lia || done).
    rewrite Hz, full_sum_zeros. exact Hver. }
  exists (zfill 14 c). split; [exact Hn|]. do 3 (split; [done|]).
  destruct (Hacc (zfill 14 c)) as (r' & Hr' & _ & _ & [[_ Hok] Hn']). exists r'.
  assert (Hdz : digits_only (zfill 14 c) = zfill 14 c) by by apply str_filter_id.
  rewrite Hdz in Hok, Hn'. assert (Hv' : is_valid r' = true).
  { apply Hok. split; [rewrite Hz14; by apply existsb_Nat_eqb | exact Hzv]. }
  rewrite Hv' in Hn'. rewrite validate_gtin_shape. split; [exact Hr'|]. split; [done|].
  rewrite Hn'. f_equal. rewrite decimal_zfill by done. by rewrite Hz14.
Qed.

Lemma gtin_normalization_witness :
  exists n, normalized_value (VResult true GTIN (PStr "4006381-333931") (Some "04006381333931") []
      ["Normalized from GTIN-13 to GTIN-14"]) = Some n /\ slen n = 14%nat.
Proof.
  destruct (gtin_normalization (H := demo_lib) (PStr "4006381-333931")
    (VResult true GTIN (PStr "4006381-333931") (Some "04006381333931") [] ["Normalized from GTIN-13 to GTIN-14"]))
    as (n & Hn & Hl & _); [vm_compute; reflexivity | reflexivity |].
  by exists n.
Defined.
