(* ===== verification/LotIdentity.v ===== *)
(** * Identity of a lot in an EPCIS document

    [services/shared/epcis_lot_identity.py]: class URIs (LGTIN and GS1 Digital Link), the lot token
    inside them and the identity that is stored.  Percent-encoding follows [urllib.parse].  Proved: an
    identifier rebuilt from a GTIN and a token parses back to both, and the GTIN computed from an EPC
    URI passes the check of shared/fsma_validation.py. *)

From Stdlib Require Import ZArith Lia String Ascii.
From stdpp Require Import base list strings.
From S2P Require Import Prelude PyStr PyFloat PyVal Sha256 Gs1.

Local Open Scope string_scope.

(** ** Text *)

(** The longest prefix of characters satisfying [p], and the rest. *)
Fixpoint span (p : ascii -> bool) (s : string) : string * string :=
  match s with
  | "" => ("", "")
  | String c s' => if p c then let '(a, b) := span p s' in (String c a, b) else ("", s)
  end.

(** [s.rsplit(c, 1)]: the parts around the last [c]. *)
Fixpoint rsplit_once (c : ascii) (s : string) : option (string * string) :=
  match s with
  | "" => None
  | String d s' =>
      match rsplit_once c s' with
      | Some (a, b) => Some (String d a, b)
      | None => if Ascii.eqb d c then Some ("", s') else None
      end
  end.

(** A prefix that a pattern with IGNORECASE matches; [p] is in lower case. *)
Definition starts_ci (s p : string) : bool := startswith (lower s) p.

(** ** [urllib.parse] *)

(** [bytes.decode("utf-8", "replace")]; the bytes of an encoded text give the text back. *)
Class UrlLib := {
  decode_replace : list Z -> string;
  decode_encoded : forall s, decode_replace (utf8 s) = s
}.

Definition hex_value (c : ascii) : option Z :=
  if is_decimal c then Some (Z.of_nat (code c) - 48)%Z
  else if in_range 65 70 c then Some (Z.of_nat (code c) - 55)%Z
  else if in_range 97 102 c then Some (Z.of_nat (code c) - 87)%Z
  else None.

(** [unquote_to_bytes] of an ASCII text: a percent sign without two hexadecimal digits stays. *)
Fixpoint percent_bytes (s : string) : list Z :=
  match s with
  | "" => []
  | String c s' =>
      match s' with
      | String a (String b s'') =>
          if Ascii.eqb c "%" then
            match hex_value a, hex_value b with
            | Some x, Some y => (16 * x + y)%Z :: percent_bytes s''
            | _, _ => Z.of_nat (code c) :: percent_bytes s'
            end
          else Z.of_nat (code c) :: percent_bytes s'
      | _ => Z.of_nat (code c) :: percent_bytes s'
      end
  end.

Definition is_ascii (c : ascii) : bool := (code c <? 128)%nat.

(** [quote(s, safe="-._~")]: a byte of the encoded text, as it is or as three characters. *)
Definition unreserved (n : Z) : bool :=
  ((48 <=? n) && (n <=? 57) || (65 <=? n) && (n <=? 90) || (97 <=? n) && (n <=? 122)
   || (n =? 45) || (n =? 46) || (n =? 95) || (n =? 126))%Z.
Definition hex_upper (n : Z) : ascii := char (Z.to_nat (if (n <? 10)%Z then 48 + n else 55 + n)%Z).
Definition quote_byte (n : Z) : string :=
  if unreserved n then String (char (Z.to_nat n)) ""
  else String "%" (String (hex_upper (n / 16)) (String (hex_upper (n mod 16)) "")).
Definition quote (s : string) : string := foldr (fun n t => quote_byte n +:+ t) "" (utf8 s).

(** ** GTINs *)

(** [_gs1_check_digit]: weights from the left. *)
Definition _gs1_check_digit (digits13 : string) : res string :=
  do ds <- rmapM int_digit (chars digits13);
  Ok (str_of_Z ((10 - weighted 0 ds mod 10) mod 10)%Z).

Definition _company_item_to_gtin14 (company item : string) : res (option string) :=
  if negb (str_isdigit company) || negb (str_isdigit item) || String.eqb item "" then Ok None
  else if negb (slen company + slen item =? 13)%nat then Ok None
  else
    let digits13 := str_take 1 item +:+ company +:+ str_drop 1 item in
    if negb (slen digits13 =? 13)%nat then Ok None
    else do check <- _gs1_check_digit digits13; Ok (Some (digits13 +:+ check)).

(** Both answers of the check-digit test are the digits. *)
Definition normalize_gtin14 (raw : string) : option string :=
  let digits := digits_only raw in
  if String.eqb digits "" then None
  else if (slen digits <? 8)%nat || (14 <? slen digits)%nat then None
  else Some (zfill 14 digits).

(** ** Identities *)

Record LotIdentity := Identity {
  canonical_id : string;
  lot_token : string;
  gtin : option string;
  is_full_class_uri : bool
}.

#[export] Instance lot_identity_eq_dec : EqDecision LotIdentity.
Proof. solve_decision. Defined.

(** From the value of LOT_IDENTITY_LOSSLESS. *)
Definition lossless_enabled (env : option string) : bool :=
  existsb (String.eqb (lower (strip (ostr_or env "0")))) ["1"; "true"; "yes"; "on"].

(** [^<prefix>(\d+)\.(\d+)\.(.+)$] on a stripped text. *)
Definition match_epc (prefix text : string) : option (string * string * string) :=
  if starts_ci text prefix then
    match span is_decimal (str_drop (slen prefix) text) with
    | (company, String "." r) =>
        match span is_decimal r with
        | (item, String "." rest) =>
            if String.eqb company "" || String.eqb item "" || String.eqb rest "" || has_char (char 10) rest
            then None else Some (company, item, rest)
        | _ => None
        end
    | _ => None
    end
  else None.

Definition _LGTIN_RE (text : string) := match_epc "urn:epc:class:lgtin:" text.
Definition _SGTIN_RE (text : string) := match_epc "urn:epc:id:sgtin:" text.

Definition dl_prefix : string := "https://id.gs1.org/01/".

(** [^https://id\.gs1\.org/01/(\d{8,14})/10/([^/?#]+)$] on a stripped text. *)
Definition _DL_CLASS_RE (text : string) : option (string * string) :=
  if starts_ci text dl_prefix then
    let '(digits, r) := span is_decimal (str_drop (slen dl_prefix) text) in
    if (8 <=? slen digits)%nat && (slen digits <=? 14)%nat && startswith r "/10/" then
      let lot := str_drop 4 r in
      if String.eqb lot "" || has_char "/" lot || has_char "?" lot || has_char "#" lot then None else Some (digits, lot)
    else None
  else None.

Definition wildcard : string := "0000000.000000".

Section Identities.
Context `{UL : UrlLib}.

(** [unquote]: every maximal run of ASCII characters ([run] holds its start) is decoded. *)
Fixpoint unquote_from (run s : string) : string :=
  match s with
  | "" => decode_replace (percent_bytes run)
  | String c s' =>
      if is_ascii c then unquote_from (run +:+ String c "") s'
      else decode_replace (percent_bytes run) +:+ String c (unquote_from "" s')
  end.
Definition unquote (s : string) : string := if has_char "%" s then unquote_from "" s else s.

Definition parse_class_uri (value : pyval) : res (option LotIdentity) :=
  match value with
  | PStr s =>
      let text := strip s in
      if String.eqb text "" || contains wildcard text then Ok None
      else match _LGTIN_RE text with
           | Some (company, item, lot_raw) =>
               let lot := unquote lot_raw in
               if String.eqb lot "" then Ok None
               else do g <- _company_item_to_gtin14 company item; Ok (Some (Identity text lot g true))
           | None =>
               match _DL_CLASS_RE text with
               | Some (gtin_raw, lot_raw) =>
                   let lot := strip (unquote lot_raw) in
                   if String.eqb lot "" then Ok None
                   else Ok (Some (Identity text lot (Some (ostr_or (normalize_gtin14 gtin_raw) (zfill 14 gtin_raw))) true))
               | None => Ok None
               end
           end
  | _ => Ok None
  end.

(** The function [is_full_class_uri]. *)
Definition full_class_uri (value : pyval) : res bool :=
  do parsed <- parse_class_uri value;
  Ok (match parsed with Some p => is_full_class_uri p | None => false end).

Definition names_epc (lowered : string) : bool := contains "lgtin" lowered || contains "sgtin" lowered.

Definition lot_token_only (value : pyval) : res (option string) :=
  do parsed <- parse_class_uri value;
  match parsed with
  | Some p => Ok (Some (lot_token p))
  | None =>
      match value with
      | PStr s =>
          let text := strip s in
          let lowered := lower text in
          if String.eqb text "" then Ok None
          else if startswith lowered "urn:epc:" && names_epc lowered then
            Ok (match rsplit_once "." text with
                | Some (_, last) => if String.eqb last "" then None else Some (unquote last)
                | None => None
                end)
          else if contains "://" text || startswith lowered "urn:epc:" then Ok None
          else Ok (Some text)
      | _ => Ok None
      end
  end.

(** [normalize_gtin14(gtin) if gtin else None]. *)
Definition hint_gtin (hint : option string) : option string :=
  match nonempty hint with Some h => normalize_gtin14 h | None => None end.
Definition or_gtin (g hint : option string) : option string :=
  match nonempty g with Some x => Some x | None => hint_gtin hint end.

(** The end of [normalize_epcis_lot]: a bare token, with a Digital Link around it when the GTIN is
    known and the full identity wanted. *)
Definition token_identity (use_full : bool) (hint token : option string) : option LotIdentity :=
  match nonempty token with
  | None => None
  | Some token =>
      match (if use_full then nonempty (hint_gtin hint) else None) with
      | Some g => Some (Identity (dl_prefix +:+ g +:+ "/10/" +:+ quote token) token (hint_gtin hint) true)
      | None => Some (Identity token token (hint_gtin hint) false)
      end
  end.

(** [lossless] is [lossless_enabled()]. *)
Definition normalize_epcis_lot (lossless : bool) (value : pyval) (hint : option string) (prefer_full : option bool)
    : res (option LotIdentity) :=
  let use_full := match prefer_full with Some b => b | None => lossless end in
  do parsed <- parse_class_uri value;
  match parsed with
  | Some p =>
      Ok (Some (if use_full then p else Identity (lot_token p) (lot_token p) (or_gtin (gtin p) hint) false))
  | None =>
      match (match value with PStr s => _SGTIN_RE (strip s) | _ => None end), value with
      | Some (company, item, serial_raw), PStr s =>
          let serial := unquote serial_raw in
          do g <- _company_item_to_gtin14 company item;
          Ok (Some (Identity (if use_full then strip s else serial) serial (or_gtin g hint) false))
      | _, _ => do token <- lot_token_only value; Ok (token_identity use_full hint token)
      end
  end.

(** The first candidate that is a class URI. *)
Fixpoint first_class_uri (candidates : list pyval) : res (option LotIdentity) :=
  match candidates with
  | [] => Ok None
  | c :: rest => do parsed <- parse_class_uri c; match parsed with Some p => Ok (Some p) | None => first_class_uri rest end
  end.
Fixpoint first_identity (lossless : bool) (hint : option string) (candidates : list pyval) : res (option LotIdentity) :=
  match candidates with
  | [] => Ok None
  | c :: rest =>
      do identity <- normalize_epcis_lot lossless c hint None;
      match identity with Some i => Ok (Some i) | None => first_identity lossless hint rest end
  end.

Definition no_lot_identifier : exn :=
  ValueError ("EPCIS event carries no lot identifier (ILMD traceabilityLotCode or lotNumber, an LGTIN or SGTIN "
    +:+ "EPC, or traceability_lot_code); refusing to fabricate one").

Definition resolve_stored_lot (lossless : bool) (epc_or_class ilmd_tlc flat_tlc : pyval) (hint : option string)
    : res LotIdentity :=
  do parsed <- first_class_uri [epc_or_class; ilmd_tlc; flat_tlc];
  match parsed with
  | Some p =>
      Ok (if lossless then p else Identity (lot_token p) (lot_token p) (or_gtin (gtin p) hint) false)
  | None =>
      do identity <- first_identity lossless hint [ilmd_tlc; flat_tlc; epc_or_class];
      match identity with Some i => Ok i | None => Raise no_lot_identifier end
  end.
End Identities.

(** ** Facts about text *)

Lemma span_app p a b :
  str_forallb p a = true -> match b with "" => True | String c _ => p c = false end -> span p (a +:+ b) = (a, b).
Proof.
  intros Ha Hb. induction a as [|c a IH]; cbn in *.
  - destruct b as [|d b]; cbn; [done | by rewrite Hb].
  - apply andb_true_iff in Ha as [-> Ha]. by rewrite IH.
Qed.

Lemma span_spec p s a b : span p s = (a, b) -> s = a +:+ b /\ str_forallb p a = true.
Proof.
  revert a b. induction s as [|c s IH]; intros a b; cbn; [by intros [= <- <-]|].
  destruct (p c) eqn:Ec; [|by intros [= <- <-]].
  destruct (span p s) as [a' b']. intros [= <- <-]. destruct (IH a' b' eq_refl) as [-> H]. cbn. by rewrite Ec.
Qed.

Lemma str_drop_app a b : str_drop (slen a) (a +:+ b) = b.
Proof. unfold slen. by induction a. Qed.

Lemma lower_app a b : lower (a +:+ b) = lower a +:+ lower b.
Proof. unfold lower. induction a as [|c a IH]; [done|]. cbn. by rewrite IH. Qed.

Lemma starts_ci_app p x : lower p = p -> starts_ci (p +:+ x) p = true.
Proof. intros E. apply startswith_iff. exists (lower x). by rewrite lower_app, E. Qed.

Lemma strip_no_space s : str_forallb (fun c => negb (is_space c)) s = true -> strip s = s.
Proof.
  intros H. unfold strip. rewrite lstrip_fix.
  - induction s as [|c s IH]; [done|]. cbn in *. apply andb_true_iff in H as [Hc H]. rewrite (IH H).
    apply negb_true_iff in Hc. destruct s; cbn; [by rewrite Hc | done].
  - destruct s as [|c s]; [done|]. cbn in H. by apply andb_true_iff in H as [Hc%negb_true_iff _].
Qed.

Lemma str_forallb_impl (p q : ascii -> bool) s :
  (forall c, p c = true -> q c = true) -> str_forallb p s = true -> str_forallb q s = true.
Proof. intros Hpq. induction s as [|c s IH]; [done|]. cbn. intros [Hc H]%andb_true_iff. by rewrite (Hpq c Hc), IH. Qed.

Lemma has_char_none c p s : p c = false -> str_forallb p s = true -> has_char c s = false.
Proof.
  intros Hp. induction s as [|d s IH]; [done|]. cbn. intros [Hd H]%andb_true_iff.
  destruct (Ascii.eqb_spec d c) as [->|]; [congruence | by apply IH].
Qed.

(** ** Percent-encoding *)

Lemma percent_plain c s : c <> "%"%char -> percent_bytes (String c s) = Z.of_nat (code c) :: percent_bytes s.
Proof.
  intros Hc. cbn. destruct s as [|a [|b s]]; [done..|]. destruct (Ascii.eqb_spec c "%"); [done|done].
Qed.

(** Every byte survives. *)
Definition byte_kept (n : Z) : bool :=
  if unreserved n then negb (Ascii.eqb (char (Z.to_nat n)) "%") && (Z.of_nat (code (char (Z.to_nat n))) =? n)%Z
  else match hex_value (hex_upper (n / 16)), hex_value (hex_upper (n mod 16)) with
       | Some x, Some y => (16 * x + y =? n)%Z
       | _, _ => false
       end.

Lemma byte_all (p : Z -> bool) : forallb p (Z.of_nat <$> seq 0 256) = true -> forall n, (0 <= n < 256)%Z -> p n = true.
Proof.
  intros Hall n Hn. rewrite forallb_forall in Hall. apply Hall, in_map_iff. exists (Z.to_nat n).
  split; [lia|]. apply in_seq. lia.
Qed.

Lemma percent_quote_byte n t : (0 <= n < 256)%Z -> percent_bytes (quote_byte n +:+ t) = n :: percent_bytes t.
Proof.
  intros Hn. pose proof (byte_all byte_kept ltac:(by vm_compute) n Hn) as Hk.
  unfold byte_kept in Hk. unfold quote_byte. destruct (unreserved n).
  - apply andb_true_iff in Hk as [Hc%negb_true_iff He%Z.eqb_eq].
    rewrite str_append_cons, percent_plain by (by apply Ascii.eqb_neq). by rewrite He.
  - destruct (hex_value (hex_upper (n / 16))) as [x|] eqn:Ex; [|done].
    destruct (hex_value (hex_upper (n mod 16))) as [y|] eqn:Ey; [|done]. apply Z.eqb_eq in Hk.
    rewrite !str_append_cons. cbn [percent_bytes String.append]. by rewrite Ascii.eqb_refl, Ex, Ey, Hk.
Qed.

Lemma utf8_bytes s : Forall (fun n => (0 <= n < 256)%Z) (utf8 s).
Proof.
  induction s as [|c s IH]; [constructor|]. cbn. apply Forall_app. split; [|done].
  pose proof (nat_ascii_bounded c) as Hc. fold (code c) in Hc.
  destruct (Z.ltb_spec (Z.of_nat (code c)) 128); repeat constructor; try lia;
    pose proof (Z.mod_pos_bound (Z.of_nat (code c)) 64 ltac:(lia)); pose proof (Z.div_lt_upper_bound (Z.of_nat (code c)) 64 4 ltac:(lia) ltac:(lia)); pose proof (Z.div_pos (Z.of_nat (code c)) 64); lia.
Qed.

Lemma percent_quote s : percent_bytes (quote s) = utf8 s.
Proof.
  unfold quote. induction (utf8_bytes s) as [|n l Hn _ IH]; [done|]. cbn [foldr]. by rewrite percent_quote_byte, IH.
Qed.

(** The characters of a quoted text. *)
Definition quoted_char (c : ascii) : bool := unreserved (Z.of_nat (code c)) || Ascii.eqb c "%".

Lemma quoted_chars s : str_forallb quoted_char (quote s) = true.
Proof.
  unfold quote. induction (utf8_bytes s) as [|n l Hn _ IH]; [done|]. cbn [foldr]. rewrite str_forallb_append, IH, andb_true_r.
  by apply (byte_all (fun n => str_forallb quoted_char (quote_byte n)) ltac:(by vm_compute)).
Qed.

Lemma quoted_ascii c : quoted_char c = true -> is_ascii c = true.
Proof. destruct c as [[] [] [] [] [] [] [] []]; by vm_compute. Qed.
Lemma quoted_no_space c : quoted_char c = true -> negb (is_space c) = true.
Proof. destruct c as [[] [] [] [] [] [] [] []]; by vm_compute. Qed.
Lemma decimal_no_space c : is_decimal c = true -> negb (is_space c) = true.
Proof. destruct c as [[] [] [] [] [] [] [] []]; by vm_compute. Qed.

(** Without a percent sign nothing was encoded. *)
Lemma quote_plain s : has_char "%" (quote s) = false -> quote s = s.
Proof.
  unfold quote. induction s as [|c s IH]; [done|]. cbn [utf8]. rewrite foldr_app.
  set (t := foldr (fun n t => quote_byte n +:+ t) "" (utf8 s)) in *.
  assert (Hshape : forall n, quote_byte n = String (char (Z.to_nat n)) "" /\ unreserved n = true \/ exists r, quote_byte n = String "%" r).
  { intros n. unfold quote_byte. destruct (unreserved n); [by left | right; by eexists]. }
  destruct (Z.ltb_spec (Z.of_nat (code c)) 128) as [Hlt|Hge]; cbn [foldr].
  - destruct (Hshape (Z.of_nat (code c))) as [[-> _]|[r ->]]; [|done].
    rewrite str_append_cons. cbn [String.append]. rewrite Nat2Z.id. unfold char, code. rewrite ascii_nat_embedding.
    cbn. intros [_ H]%orb_false_iff. by rewrite (IH H).
  - destruct (Hshape (192 + Z.of_nat (code c) / 64)%Z) as [[_ Hu]|[r ->]]; [exfalso|done].
    pose proof (Z.div_pos (Z.of_nat (code c)) 64 ltac:(lia) ltac:(lia)).
    unfold unreserved in Hu. repeat (apply orb_true_iff in Hu as [Hu|Hu]); reflect_bools; try apply Z.eqb_eq in Hu; lia.
Qed.

(** ** Facts about identities *)

Section Facts.
Context `{UL : UrlLib}.

Lemma unquote_from_ascii run s :
  str_forallb is_ascii s = true -> unquote_from run s = decode_replace (percent_bytes (run +:+ s)).
Proof.
  revert run. induction s as [|c s IH]; intros run; cbn; [by rewrite str_append_nil_r|].
  intros [-> H]%andb_true_iff. rewrite IH by done. by rewrite str_append_assoc.
Qed.

Lemma unquote_quote s : unquote (quote s) = s.
Proof.
  unfold unquote. destruct (has_char "%" (quote s)) eqn:E; [|by apply quote_plain].
  rewrite unquote_from_ascii by (eapply str_forallb_impl, quoted_chars; apply quoted_ascii).
  cbn [String.append]. rewrite percent_quote. apply decode_encoded.
Qed.

Lemma gtin14_shape raw g : normalize_gtin14 raw = Some g -> decimal g /\ slen g = 14%nat.
Proof.
  unfold normalize_gtin14. destruct (String.eqb_spec (digits_only raw) ""); [done|].
  destruct (_ || _) eqn:E; [done|]. intros [= <-]. reflect_bools.
  rewrite decimal_zfill by apply decimal_digits_only. split.
  - apply decimal_app. split; [apply decimal_rep | apply decimal_digits_only].
  - rewrite slen_append, slen_str_rep. lia.
Qed.

Lemma gtin14_fixed g : decimal g -> slen g = 14%nat -> normalize_gtin14 g = Some g.
Proof.
  intros Hd Hl. unfold normalize_gtin14, digits_only. rewrite str_filter_id by done. rewrite Hl.
  destruct (String.eqb_spec g "") as [->|]; [done|]. cbn. by rewrite decimal_zfill, Hl.
Qed.

(** The identifier that is rebuilt from a GTIN and a token. *)
Definition rebuilt (g t : string) : string := dl_prefix +:+ g +:+ "/10/" +:+ quote t.

Lemma rebuilt_parts g t : decimal g -> slen g = 14%nat -> t <> "" -> _DL_CLASS_RE (rebuilt g t) = Some (g, quote t).
Proof.
  intros Hd Hl Ht. unfold _DL_CLASS_RE, rebuilt. rewrite starts_ci_app by done. rewrite str_drop_app.
  rewrite span_app by done. rewrite Hl. cbn [Nat.leb andb startswith].
  replace (startswith ("/10/" +:+ quote t) "/10/") with true by (symmetry; apply startswith_iff; by eexists).
  cbn [andb]. change 4%nat with (slen "/10/"). rewrite str_drop_app.
  rewrite !(has_char_none _ quoted_char) by (apply quoted_chars || done).
  destruct (String.eqb_spec (quote t) "") as [E|]; [|done].
  apply (f_equal unquote) in E. rewrite unquote_quote in E. done.
Qed.

Lemma rebuilt_no_space g t : decimal g -> strip (rebuilt g t) = rebuilt g t.
Proof.
  intros Hd. apply strip_no_space. unfold rebuilt. rewrite !str_forallb_append.
  rewrite (str_forallb_impl is_decimal _ g decimal_no_space Hd).
  by rewrite (str_forallb_impl quoted_char _ (quote t) quoted_no_space (quoted_chars t)).
Qed.

Lemma rebuilt_parses g t :
  decimal g -> slen g = 14%nat -> t <> "" -> strip t = t -> contains wildcard (rebuilt g t) = false ->
  parse_class_uri (PStr (rebuilt g t)) = Ok (Some (Identity (rebuilt g t) t (Some g) true)).
Proof.
  intros Hd Hl Ht Hs Hw. unfold parse_class_uri. rewrite rebuilt_no_space, Hw by done.
  replace (_LGTIN_RE (rebuilt g t)) with (@None (string * string * string)) by done.
  rewrite rebuilt_parts, unquote_quote, Hs by done.
  replace (String.eqb (rebuilt g t) "") with false by done. cbn [orb].
  apply String.eqb_neq in Ht as ->. by rewrite gtin14_fixed, ostr_or_ne by (done || by intros ->).
Qed.

(** A parsed class URI is its own canonical identifier. *)
Lemma parse_fixed v p :
  parse_class_uri v = Ok (Some p) ->
  is_full_class_uri p = true /\ lot_token p <> "" /\ exists s, v = PStr s /\ canonical_id p = strip s
  /\ parse_class_uri (PStr (canonical_id p)) = Ok (Some p).
Proof.
  unfold parse_class_uri. destruct v as [| | | |s| | |]; try done.
  destruct (_ || _) eqn:E0; [done|]. destruct (_LGTIN_RE (strip s)) as [[[c i] l]|] eqn:E1.
  - destruct (String.eqb_spec (unquote l) "") as [|Hl]; [done|]. intros (g & Eg & E)%rbind_Ok_inv. injection E as <-. cbn [canonical_id is_full_class_uri lot_token].
    split_and!; [done..|]. exists s. split_and!; [done..|].
    rewrite strip_idem, E0, E1. apply String.eqb_neq in Hl as ->. by rewrite Eg.
  - destruct (_DL_CLASS_RE (strip s)) as [[gr l]|] eqn:E2; [|done].
    destruct (String.eqb_spec (strip (unquote l)) "") as [|Hl]; [done|]. intros [= <-]. cbn [canonical_id is_full_class_uri lot_token].
    split_and!; [done..|]. exists s. split_and!; [done..|].
    rewrite strip_idem, E0, E1, E2. by apply String.eqb_neq in Hl as ->.
Qed.

(** ** GTINs of EPC URIs *)

Lemma weighted_rev i l : weighted i (rev l) = weighted (i + length l + 1) l.
Proof.
  revert i. induction l as [|d l IH]; intros i; [done|]. cbn [rev length].
  rewrite weighted_app, IH, List.length_rev. cbn [weighted].
  replace (S (i + S (length l) + 1)) with (S (S (i + length l + 1))) by lia. rewrite weighted_SS.
  replace (i + S (length l) + 1)%nat with (S (S (i + length l))) by lia. rewrite odd_SS. lia.
Qed.

Lemma digit_text k : (0 <= k <= 9)%Z -> exists c, str_of_Z k = String c "" /\ is_decimal c = true /\ digit c = k.
Proof.
  intros Hk. assert (k = 0 \/ k = 1 \/ k = 2 \/ k = 3 \/ k = 4 \/ k = 5 \/ k = 6 \/ k = 7 \/ k = 8 \/ k = 9)%Z as H by lia.
  repeat destruct H as [->|H]; try subst k; eexists; (split; [reflexivity|]); by split.
Qed.

(** Thirteen digits and the computed one pass the check of shared/fsma_validation.py. *)
Lemma check_digit_verifies s :
  decimal s -> slen s = 13%nat ->
  exists c, _gs1_check_digit s = Ok (String c "") /\ is_decimal c = true
    /\ verify_gs1_check_digit (PStr (s +:+ String c "")) = Ok true.
Proof.
  intros Hd Hl. unfold _gs1_check_digit. rewrite rmapM_int_digit by by apply decimal_chars. cbn [rbind].
  fold (vals s). set (k := ((10 - weighted 0 (vals s) mod 10) mod 10)%Z).
  assert (Hk : (0 <= k <= 9)%Z) by (pose proof (Z.mod_pos_bound (10 - weighted 0 (vals s) mod 10) 10 ltac:(lia)); unfold k; lia).
  destruct (digit_text k Hk) as (c & -> & Hc & Ek). exists c. split_and!; [done..|].
  rewrite verify_closed.
  - assert (Hlen : length (vals s) = 13%nat) by by unfold vals; rewrite length_fmap, length_chars.
    rewrite full_sum_snoc, <- check_matches by (rewrite Ek; lia). rewrite weighted_rev, Hlen, Ek.
    change (0 + 13 + 1)%nat with 14%nat. rewrite !weighted_SS. by rewrite Z.eqb_refl.
  - rewrite slen_append, Hl. cbn. lia.
  - apply decimal_app. split; [done|]. unfold decimal. cbn. by rewrite Hc.
Qed.

Lemma decimal_take_drop n s : decimal s -> decimal (str_take n s) /\ decimal (str_drop n s).
Proof. intros H. rewrite <- (str_take_drop n s) in H. by apply decimal_app in H. Qed.

(** The GTIN computed from an EPC URI has fourteen digits and passes the check-digit test. *)
Lemma company_item_spec company item :
  decimal company -> decimal item ->
  exists o, _company_item_to_gtin14 company item = Ok o
    /\ forall g, o = Some g -> slen g = 14%nat /\ decimal g /\ verify_gs1_check_digit (PStr g) = Ok true.
Proof.
  intros Hc Hi. unfold _company_item_to_gtin14. destruct (_ || _); [by exists None|].
  destruct (Nat.eqb_spec (slen company + slen item) 13); cbn [negb]; [|by exists None].
  set (d := str_take 1 item +:+ company +:+ str_drop 1 item).
  destruct (Nat.eqb_spec (slen d) 13) as [Hl|]; cbn [negb]; [|by exists None].
  assert (Hd : decimal d) by (unfold d; destruct (decimal_take_drop 1 item Hi); rewrite !decimal_app; done).
  destruct (check_digit_verifies d Hd Hl) as (c & -> & Hdc & Hv). cbn [rbind].
  exists (Some (d +:+ String c "")). split; [done|]. intros g [= <-]. split_and!; [|apply decimal_app; split; [done|]|done].
  - rewrite slen_append, Hl. done.
  - unfold decimal. cbn. by rewrite Hdc.
Qed.

Lemma match_epc_decimal p s company item rest :
  match_epc p s = Some (company, item, rest) -> decimal company /\ decimal item.
Proof.
  unfold match_epc. destruct (starts_ci s p); [|done].
  destruct (span is_decimal (str_drop _ s)) as [c r] eqn:E1. destruct r as [|d r]; [done|].
  destruct (span_spec _ _ _ _ E1) as [_ Hc]. destruct (span is_decimal r) as [i r'] eqn:E2.
  destruct (span_spec _ _ _ _ E2) as [_ Hi]. intros E.
  enough (Hci : c = company /\ i = item) by by destruct Hci as [<- <-].
  destruct d as [[] [] [] [] [] [] [] []]; try done. destruct r' as [|d r']; [done|].
  destruct d as [[] [] [] [] [] [] [] []]; try done. destruct (_ || _); [done|]. by injection E.
Qed.

Lemma parse_total v : exists o, parse_class_uri v = Ok o.
Proof.
  unfold parse_class_uri. destruct v as [| | | |s| | |]; try by eexists.
  destruct (_ || _); [by eexists|]. destruct (_LGTIN_RE (strip s)) as [[[c i] l]|] eqn:E1.
  - destruct (String.eqb _ _); [by eexists|]. apply match_epc_decimal in E1 as [Hc Hi].
    destruct (company_item_spec c i Hc Hi) as (o & -> & _). by eexists.
  - destruct (_DL_CLASS_RE (strip s)) as [[gr l]|]; [|by eexists]. destruct (String.eqb _ _); by eexists.
Qed.

Lemma token_total v : exists o, lot_token_only v = Ok o.
Proof.
  unfold lot_token_only. destruct (parse_total v) as [[p|] ->]; cbn [rbind]; [by eexists|].
  destruct v; try by eexists. do 3 (destruct (_ : bool); [by eexists|]). by eexists.
Qed.

Lemma normalize_lot_total lossless v hint prefer : exists o, normalize_epcis_lot lossless v hint prefer = Ok o.
Proof.
  unfold normalize_epcis_lot. destruct (parse_total v) as [[p|] ->]; cbn [rbind]; [by eexists|].
  destruct (token_total v) as [t Et]. rewrite Et. destruct v as [| | | |s| | |]; try by eexists.
  destruct (_SGTIN_RE (strip s)) as [[[c i] l]|] eqn:E1; [|by eexists].
  apply match_epc_decimal in E1 as [Hc Hi]. destruct (company_item_spec c i Hc Hi) as (o & -> & _). by eexists.
Qed.
End Facts.

(** ** A concrete decoder *)

Fixpoint demo_decode (l : list Z) : string :=
  match l with
  | [] => ""
  | n :: r =>
      if (n <? 128)%Z then String (char (Z.to_nat n)) (demo_decode r)
      else match r with
           | m :: r' => String (char (Z.to_nat (64 * (n - 192) + (m - 128)))) (demo_decode r')
           | [] => ""
           end
  end.

Lemma demo_decode_encoded s : demo_decode (utf8 s) = s.
Proof.
  induction s as [|c s IH]; [done|]. cbn [utf8]. destruct (Z.ltb_spec (Z.of_nat (code c)) 128) as [Hlt|Hge].
  - cbn [app demo_decode]. apply Z.ltb_lt in Hlt as ->. rewrite IH, Nat2Z.id. unfold char, code. by rewrite ascii_nat_embedding.
  - cbn [app demo_decode]. replace (192 + Z.of_nat (code c) / 64 <? 128)%Z with false
      by (symmetry; apply Z.ltb_ge; pose proof (Z.div_pos (Z.of_nat (code c)) 64); lia).
    rewrite IH. replace (64 * (192 + Z.of_nat (code c) / 64 - 192) + (128 + Z.of_nat (code c) mod 64 - 128))%Z with (Z.of_nat (code c))
      by (pose proof (Z.div_mod (Z.of_nat (code c)) 64); lia).
    rewrite Nat2Z.id. unfold char, code. by rewrite ascii_nat_embedding.
Qed.

#[export] Instance demo_url : UrlLib := {| decode_replace := demo_decode; decode_encoded := demo_decode_encoded |}.

(** ** Properties *)

(** C17. A full identity reads back as itself, whether it was parsed from the document or rebuilt from a
    GTIN and a bare token with percent-encoding: its canonical identifier parses to the same identifier,
    token and GTIN, and normalising it again, with any other GTIN at hand, changes nothing.  (A token
    with white space at its ends and the wildcard of a missing GTIN are excluded.) *)
Theorem full_identity_reads_back `{UL : UrlLib} lossless v hint prefer i :
  normalize_epcis_lot lossless v hint prefer = Ok (Some i) -> is_full_class_uri i = true ->
  strip (lot_token i) = lot_token i -> contains wildcard (canonical_id i) = false ->
  parse_class_uri (PStr (canonical_id i)) = Ok (Some i)
  /\ (forall lossless' hint', normalize_epcis_lot lossless' (PStr (canonical_id i)) hint' (Some true) = Ok (Some i)).
Proof.
  intros E Hf Hs Hw.
  enough (Hp : parse_class_uri (PStr (canonical_id i)) = Ok (Some i)).
  { split; [exact Hp|]. intros lossless' hint'. unfold normalize_epcis_lot. by rewrite Hp. }
  unfold normalize_epcis_lot in E. destruct (parse_class_uri v) as [[p|]|] eqn:Ep; cbn [rbind] in E; [| |done].
  - destruct (parse_fixed _ _ Ep) as (_ & _ & s & _ & _ & Hp). destruct (match prefer with Some b => b | None => lossless end).
    + by injection E as <-.
    + injection E as <-. done.
  - assert (Htok : forall token, token_identity (match prefer with Some b => b | None => lossless end) hint token = Some i ->
        parse_class_uri (PStr (canonical_id i)) = Ok (Some i)).
    { intros token. unfold token_identity. destruct (nonempty token) as [t|] eqn:Et; [|done].
      apply nonempty_Some in Et as [_ Ht]. destruct (if _ : bool then _ else _) as [g|] eqn:Eg; [|by intros [= <-]].
      destruct (match prefer with Some b => b | None => lossless end); [|done].
      apply nonempty_Some in Eg as [Eg _]. unfold hint_gtin in *. destruct (nonempty hint) as [h|]; [|done].
      destruct (gtin14_shape _ _ Eg) as [Hd Hl]. rewrite Eg. intros [= <-]. by apply rebuilt_parses. }
    destruct v as [| | | |s| | |]; try (apply rbind_Ok_inv in E as (token & _ & E); apply Ok_inv in E; by apply (Htok token)).
    destruct (_SGTIN_RE (strip s)) as [[[c it] l]|].
    + apply rbind_Ok_inv in E as (g & _ & E). by injection E as <-.
    + apply rbind_Ok_inv in E as (token & _ & E). apply Ok_inv in E. by apply (Htok token).
Qed.

Lemma full_identity_reads_back_witness :
  let i := Identity "https://id.gs1.org/01/10614141234520/10/LOT%20A%2F7" "LOT A/7" (Some "10614141234520") true in
  parse_class_uri (PStr (canonical_id i)) = Ok (Some i)
  /\ (forall lossless' hint', normalize_epcis_lot lossless' (PStr (canonical_id i)) hint' (Some true) = Ok (Some i)).
Proof.
  apply (full_identity_reads_back true (PStr " LOT A/7 ") (Some "10614141234520") None); vm_compute; reflexivity.
Defined.
