(* ===== verification/EpcisExtraction.v ===== *)
(** * Reading an EPCIS event

    [services/ingestion/app/epcis/extraction.py]: the lot, the locations and the parties that an EPCIS
    event names.  Proved: whatever is extracted is in the event, the instance/lot master data first,
    and for a transformation on the output side only. *)

From Stdlib Require Import ZArith Lia String Ascii.
From stdpp Require Import base list strings.
From S2P Require Import Prelude PyStr PyFloat PyVal LotIdentity.

Local Open Scope string_scope.

Section Extraction.
Context `{PL : PyLib} `{UL : UrlLib}.

(** ** Instance/lot master data *)

Definition _present_ilmd_text (value : pyval) : option string :=
  match value with
  | PNone => None
  | PStr s => if String.eqb s "" then None else Some s
  | _ => Some (py_str value)
  end.

(** [key.split(":")[-1]]. *)
Definition local_part (key : string) : string := match last (split_on ":" key) with Some s => s | None => "" end.

(** The first loop: the preferred keys in their order. *)
Fixpoint lookup_preferred (ilmd : pydict) (preferred : list string) : option string :=
  match preferred with
  | [] => None
  | key :: rest =>
      match dict_lookup key ilmd with
      | None => lookup_preferred ilmd rest
      | Some v => match _present_ilmd_text v with Some t => Some t | None => lookup_preferred ilmd rest end
      end
  end.

(** The second loop: any other prefix of the local name. *)
Fixpoint lookup_local (preferred : list string) (local_name : string) (ilmd : pydict) : option string :=
  match ilmd with
  | [] => None
  | (key, value) :: rest =>
      if existsb (String.eqb key) preferred then lookup_local preferred local_name rest
      else if negb (String.eqb (local_part key) local_name) then lookup_local preferred local_name rest
      else match _present_ilmd_text value with Some t => Some t | None => lookup_local preferred local_name rest end
  end.

Definition _lookup_ilmd (ilmd : pydict) (preferred : list string) (local_name : string) : string :=
  match lookup_preferred ilmd preferred with
  | Some t => t
  | None => match lookup_local preferred local_name ilmd with Some t => t | None => "" end
  end.

Definition lot_keys : list string := ["cbvmda:lotNumber"; "lotNumber"].
Definition tlc_keys : list string := ["fsma:traceabilityLotCode"; "traceabilityLotCode"].

(** [(lot_code, tlc)]. *)
Definition _extract_lot_data (ilmd : option pydict) : string * string :=
  match ilmd with
  | None | Some [] => ("", "")
  | Some d =>
      let lot_code := _lookup_ilmd d lot_keys "lotNumber" in
      let tlc := _lookup_ilmd d tlc_keys "traceabilityLotCode" in
      (lot_code, str_or tlc lot_code)
  end.

(** ** Lot-level identifiers *)

Definition before (c : ascii) (s : string) : string := fst (span (fun d => negb (Ascii.eqb d c)) s).

(** [segments[i:]] from the first "01". *)
Fixpoint from_gtin (segments : list string) : option (list string) :=
  match segments with
  | [] => None
  | s :: rest => if String.eqb s "01" then Some segments else from_gtin rest
  end.

Definition _lot_from_digital_link (text : string) : option (string * string) :=
  let path := before "#" (before "?" text) in
  match from_gtin (List.filter (fun s => negb (String.eqb s "")) (split_on "/" path)) with
  | Some (_ :: g :: ai :: lot_raw :: rest) =>
      if negb (str_isdigit g) || negb ((8 <=? slen g)%nat && (slen g <=? 14)%nat) then None
      else if negb (String.eqb ai "10") then None
      else if existsb (String.eqb "21") (ai :: lot_raw :: rest) then None
      else let lot := strip (unquote lot_raw) in
           if String.eqb lot "" then None else Some (lot, text)
  | _ => None
  end.

(** [(lot_code, tlc)]. *)
Definition _lot_from_identifier (value : pyval) : option (string * string) :=
  match value with
  | PStr s =>
      let text := strip s in
      if String.eqb text "" then None
      else match _LGTIN_RE text with
           | Some (_, _, lot_raw) => let lot := unquote lot_raw in if String.eqb lot "" then None else Some (lot, text)
           | None => _lot_from_digital_link text
           end
  | _ => None
  end.

Definition identifier_string (item : pyval) : list string :=
  let text v := match v with PStr s => if String.eqb (strip s) "" then [] else [strip s] | _ => [] end in
  match item with
  | PStr _ => text item
  | PDict d => text (dict_get d "epcClass" PNone)
  | _ => []
  end.

Definition _identifier_strings (value : pyval) : list string :=
  match value with PList l => concat (map identifier_string l) | _ => [] end.

Definition member (event : pydict) (key : string) : pyval := dict_get event key PNone.

(** [v.get(key) if isinstance(v, dict) else None]. *)
Definition nested (v : pyval) (key : string) : pyval := match v with PDict d => dict_get d key PNone | _ => PNone end.

Definition is_type (event : pydict) (t : string) : bool := py_eq (member event "type") (PStr t).

(** The members whose identifiers may name the lot, in order. *)
Definition lot_level_members (event : pydict) : list pyval :=
  if is_type event "TransformationEvent" then [member event "outputQuantityList"; member event "outputEPCList"]
  else [nested (member event "extension") "quantityList"; member event "quantityList"; member event "childQuantityList";
        member event "outputQuantityList"; member event "epcList"; member event "childEPCs"; member event "outputEPCList"].

Definition _lot_level_identifiers (event : pydict) : list string :=
  concat (map _identifier_strings (lot_level_members event)).

Definition filled (v : pyval) : option pydict := match v with PDict (kv :: d) => Some (kv :: d) | _ => None end.

Definition _ilmd_dict (event : pydict) : option pydict :=
  match filled (member event "ilmd") with
  | Some d => Some d
  | None =>
      match filled (nested (member event "extension") "ilmd") with
      | Some d => Some d
      | None => match member event "ilmd" with PDict d => Some d | _ => None end
      end
  end.

Fixpoint first_lot (identifiers : list string) : option (string * string) :=
  match identifiers with
  | [] => None
  | i :: rest => match _lot_from_identifier (PStr i) with Some p => Some p | None => first_lot rest end
  end.

Definition _extract_event_lot (event : pydict) : string * string :=
  let '(lot_code, tlc) := _extract_lot_data (_ilmd_dict event) in
  if negb (String.eqb tlc "") || negb (String.eqb lot_code "") then (lot_code, tlc)
  else match first_lot (_lot_level_identifiers event) with Some p => p | None => ("", "") end.

(** ** Locations and parties *)

Definition text_of (v : pyval) : string := if truthy v then py_str v else "".

Definition _extract_location_id (payload : pydict) (key : string) : string :=
  match member payload key with PDict raw => text_of (dict_get raw "id" PNone) | _ => "" end.

Definition _extract_party_id (payload : pydict) (key nested_key : string) : string :=
  match member payload key with
  | PList (first :: _) => text_of (nested first nested_key)
  | _ => ""
  end.

(** ** Facts *)

(** A text that a value of the master data gives under a key with the local name. *)
Definition ilmd_names (ilmd : pydict) (local_name text : string) : Prop :=
  exists key v, (key, v) ∈ ilmd /\ local_part key = local_name /\ _present_ilmd_text v = Some text.

Lemma present_ne v t : _present_ilmd_text v = Some t -> match v with PStr _ => t <> "" | _ => True end.
Proof. destruct v; try done. cbn. destruct (String.eqb_spec s ""); [done|]. by intros [= <-]. Qed.

Lemma dict_lookup_elem k (d : pydict) v : dict_lookup k d = Some v -> (k, v) ∈ d.
Proof.
  induction d as [|[k' v'] d IH]; cbn; [done|]. destruct (String.eqb_spec k k') as [->|]; [intros [= ->]; by left | right; auto].
Qed.

Lemma preferred_names ilmd local_name preferred t :
  Forall (fun k => local_part k = local_name) preferred -> lookup_preferred ilmd preferred = Some t -> ilmd_names ilmd local_name t.
Proof.
  induction 1 as [|k ks Hk _ IH]; cbn; [done|]. destruct (dict_lookup k ilmd) as [v|] eqn:E; [|done].
  destruct (_present_ilmd_text v) as [t'|] eqn:Et; [|done]. intros [= ->]. exists k, v. split_and!; [by apply dict_lookup_elem | done..].
Qed.

Lemma local_names preferred local_name ilmd t : lookup_local preferred local_name ilmd = Some t -> ilmd_names ilmd local_name t.
Proof.
  induction ilmd as [|[k v] d IH]; cbn; [done|]. assert (Hrest : lookup_local preferred local_name d = Some t -> ilmd_names ((k, v) :: d) local_name t).
  { intros (k' & v' & Hin & H)%IH. exists k', v'. split; [by right | done]. }
  destruct (existsb _ preferred); [done|]. destruct (String.eqb_spec (local_part k) local_name) as [E|]; cbn [negb]; [|done].
  destruct (_present_ilmd_text v) as [t'|] eqn:Et; [|done]. intros [= ->]. exists k, v. split; [by left | done].
Qed.

(** The field that is read is one the master data holds. *)
Lemma lookup_ilmd_names ilmd preferred local_name :
  Forall (fun k => local_part k = local_name) preferred ->
  _lookup_ilmd ilmd preferred local_name <> "" -> ilmd_names ilmd local_name (_lookup_ilmd ilmd preferred local_name).
Proof.
  intros Hp. unfold _lookup_ilmd. destruct (lookup_preferred ilmd preferred) as [t|] eqn:E; [by intros _; eapply preferred_names|].
  destruct (lookup_local preferred local_name ilmd) as [t|] eqn:E2; [by intros _; eapply local_names | done].
Qed.

Lemma first_lot_spec ids p : first_lot ids = Some p -> exists i, i ∈ ids /\ _lot_from_identifier (PStr i) = Some p.
Proof.
  induction ids as [|i ids IH]; cbn [first_lot]; [done|]. destruct (_lot_from_identifier (PStr i)) as [q|] eqn:E.
  - intros [= ->]. exists i. split; [by left | done].
  - intros (j & Hj & H)%IH. exists j. split; [by right | done].
Qed.

Lemma lot_from_identifier_text v lot text :
  _lot_from_identifier v = Some (lot, text) -> exists s, v = PStr s /\ text = strip s /\ text <> "" /\ lot <> "".
Proof.
  unfold _lot_from_identifier. destruct v as [| | | |s| | |]; try done.
  destruct (String.eqb_spec (strip s) "") as [|Hne]; [done|]. intros E. exists s. split; [done|].
  enough (H : text = strip s /\ lot <> "") by by destruct H as [-> H].
  destruct (_LGTIN_RE (strip s)) as [[[c i] l]|].
  - destruct (String.eqb_spec (unquote l) ""); [done|]. by injection E as <- <-.
  - unfold _lot_from_digital_link in E. destruct (from_gtin _) as [[|? [|g [|ai [|l rest]]]]|]; try done.
    destruct (_ || _); [done|]. destruct (negb _); [done|]. destruct (existsb _ _); [done|].
    destruct (String.eqb_spec (strip (unquote l)) ""); [done|]. by injection E as <- <-.
Qed.

(** Where the traceability lot code comes from: the master data, or a lot-level identifier. *)
Inductive tlc_source (event : pydict) : string -> Prop :=
| TlcNamed ilmd t : _ilmd_dict event = Some ilmd -> ilmd_names ilmd "traceabilityLotCode" t -> tlc_source event t
| TlcLot ilmd t : _ilmd_dict event = Some ilmd -> ilmd_names ilmd "lotNumber" t -> tlc_source event t
| TlcIdentifier i lot t : i ∈ _lot_level_identifiers event -> _lot_from_identifier (PStr i) = Some (lot, t) -> tlc_source event t.

Lemma extract_event_lot_source event lot tlc :
  _extract_event_lot event = (lot, tlc) -> tlc <> "" -> tlc_source event tlc.
Proof.
  unfold _extract_event_lot. destruct (_extract_lot_data (_ilmd_dict event)) as [l t] eqn:E.
  assert (Hids : match first_lot (_lot_level_identifiers event) with Some p => p | None => ("", "") end = (lot, tlc) ->
      tlc <> "" -> tlc_source event tlc).
  { destruct (first_lot _) as [p|] eqn:Ef; [intros -> _ | by intros [= <- <-]].
    apply first_lot_spec in Ef as (i & Hi & Hl). by eapply TlcIdentifier. }
  destruct (negb (String.eqb t "") || negb (String.eqb l "")) eqn:Ec; [|exact Hids].
  intros [= -> ->] Hne. unfold _extract_lot_data in E.
  destruct (_ilmd_dict event) as [[|kv d]|] eqn:Ei; [by injection E as <- <- | | by injection E as <- <-].
  injection E as <- <-. unfold str_or in *.
  destruct (String.eqb_spec (_lookup_ilmd (kv :: d) tlc_keys "traceabilityLotCode") "") as [Et|Et].
  - eapply TlcLot; [done|]. apply lookup_ilmd_names; [by repeat constructor | done].
  - eapply TlcNamed; [done|]. apply lookup_ilmd_names; [by repeat constructor | done].
Qed.
End Extraction.
