(* ===== verification/Uom.v ===== *)
(** * Units of measure and temperatures

    [services/shared/rules/uom.py]: conversion to pounds, with and without the container
    approximations, temperature scales, the choice of a temperature reading among the fields of an
    event, and the lifecycle order of the event types. *)

From Stdlib Require Import ZArith Lia String Ascii.
From Corelib Require Import SpecFloat.
From stdpp Require Import base list strings.
From S2P Require Import Prelude PyStr PyFloat PyVal.

Local Open Scope string_scope.

Fixpoint assoc {A} (k : string) (l : list (string * A)) : option A :=
  match l with
  | [] => None
  | (k', v) :: r => if String.eqb k k' then Some v else assoc k r
  end.

Definition _MASS_UOM_TO_LBS : list (string * f64) :=
  [("lbs", flit "1.0"); ("lb", flit "1.0"); ("pound", flit "1.0"); ("pounds", flit "1.0");
   ("kg", flit "2.20462"); ("kgs", flit "2.20462"); ("kilogram", flit "2.20462");
   ("kilograms", flit "2.20462"); ("oz", flit "0.0625"); ("ounce", flit "0.0625");
   ("ounces", flit "0.0625"); ("ton", flit "2000.0"); ("tons", flit "2000.0");
   ("short_ton", flit "2000.0"); ("metric_ton", flit "2204.62"); ("mt", flit "2204.62")].

Definition _CONTAINER_UOM_TO_LBS : list (string * f64) :=
  [("case", flit "24.0"); ("cases", flit "24.0"); ("cs", flit "24.0"); ("carton", flit "24.0");
   ("cartons", flit "24.0"); ("bin", flit "800.0"); ("bins", flit "800.0"); ("pallet", flit "2000.0");
   ("pallets", flit "2000.0"); ("crate", flit "40.0"); ("crates", flit "40.0"); ("box", flit "24.0");
   ("boxes", flit "24.0"); ("bag", flit "5.0"); ("bags", flit "5.0"); ("bunch", flit "1.5");
   ("bunches", flit "1.5"); ("head", flit "2.0"); ("heads", flit "2.0"); ("each", flit "1.0");
   ("ea", flit "1.0"); ("unit", flit "1.0"); ("units", flit "1.0"); ("piece", flit "1.0");
   ("pieces", flit "1.0"); ("pc", flit "1.0"); ("pcs", flit "1.0")].

(** The two tables share no key, so their union is their concatenation. *)
Definition _UOM_TO_LBS : list (string * f64) := (_MASS_UOM_TO_LBS ++ _CONTAINER_UOM_TO_LBS)%list.

(** [s.rstrip(".")]. *)
Definition rstrip_dots (s : string) : string := rstrip (fun c => Ascii.eqb c ".") s.

Definition _uom_key (uom : string) : string := rstrip_dots (strip (lower uom)).

(** [is_mass_uom]; the argument is [None] or a text. *)
Definition is_mass_uom (uom : option string) : bool :=
  match uom with
  | None => false
  | Some u => if String.eqb u "" then false
              else match assoc (_uom_key u) _MASS_UOM_TO_LBS with Some _ => true | None => false end
  end.

Definition normalize_to_lbs (quantity : f64) (uom : string) : option f64 :=
  fmul quantity <$> assoc (_uom_key uom) _UOM_TO_LBS.

(** [normalize_to_mass]; [uom] and the weights come from the event and the rule, untyped. *)
Definition normalize_to_mass (quantity : f64) (uom weights : pyval) : res (option f64) :=
  do u <- as_str "lower" uom;
  let key := _uom_key u in
  match assoc key _MASS_UOM_TO_LBS with
  | Some factor => Ok (Some (fmul quantity factor))
  | None =>
      if truthy weights then
        do override <- py_get weights key PNone;
        if is_none override then Ok None
        else do w <- py_float override; Ok (Some (fmul quantity w))
      else Ok None
  end.

(** ** Temperatures *)

Definition _TEMP_UNIT_ALIASES : list (string * string) :=
  [("c", "c"); (String (char 176) "c", "c"); ("celsius", "c"); ("centigrade", "c"); ("degc", "c");
   ("deg_c", "c"); ("degrees_c", "c"); ("degrees_celsius", "c");
   ("f", "f"); (String (char 176) "f", "f"); ("fahrenheit", "f"); ("degf", "f"); ("deg_f", "f");
   ("degrees_f", "f"); ("degrees_fahrenheit", "f")].

Definition _normalize_temp_unit (unit : pyval) : res (option string) :=
  match unit with
  | PNone => Ok None
  | _ => do u <- as_str "strip" unit; Ok (assoc (rstrip_dots (lower (strip u))) _TEMP_UNIT_ALIASES)
  end.

Definition fahrenheit_to_celsius (value_f : f64) : f64 :=
  fdiv (fmul (fsub value_f (f_of_Z 32)) (f_of_Z 5)) (f_of_Z 9).

Definition celsius_to_fahrenheit (value_c : f64) : f64 :=
  fadd (fdiv (fmul value_c (f_of_Z 9)) (f_of_Z 5)) (f_of_Z 32).

Definition normalize_temperature (value : f64) (unit target : pyval) : res (option f64) :=
  do source <- _normalize_temp_unit unit;
  do dest <- _normalize_temp_unit target;
  match source, dest with
  | Some s, Some d =>
      Ok (if String.eqb s d then Some value
          else if String.eqb s "f" && String.eqb d "c" then Some (fahrenheit_to_celsius value)
          else if String.eqb s "c" && String.eqb d "f" then Some (celsius_to_fahrenheit value)
          else None)
  | _, _ => Ok None
  end.

(** The inner [_get] and [_as_temp_float]. *)
Definition _get (fields : pydict) (name : string) : pyval :=
  let at_ k := dict_get fields k PNone in
  if negb (is_none (at_ name)) then at_ name
  else if negb (is_none (at_ (lower name))) then at_ (lower name)
  else at_ (upper name).

Definition _as_temp_float (raw : pyval) : res (option f64) :=
  match raw with
  | PBool _ => Ok None
  | _ => match py_float raw with
         | Ok f => Ok (Some f)
         | Raise e => if String.eqb (exn_type e) "TypeError" || String.eqb (exn_type e) "ValueError"
                      then Ok None else Raise e
         end
  end.

(** The first field of [keys] that holds a number, converted by [conv]. *)
Fixpoint explicit_scale (fields : pydict) (conv : f64 -> f64) (keys : list string) : res (option (f64 * string)) :=
  match keys with
  | [] => Ok None
  | key :: rest =>
      let raw := _get fields key in
      if is_none raw then explicit_scale fields conv rest
      else do value <- _as_temp_float raw;
           match value with
           | Some v => Ok (Some (conv v, key))
           | None => explicit_scale fields conv rest
           end
  end.

(** The scale of a generic reading: its unit field, or a guess from the magnitude. *)
Definition reading_scale (unit_raw : pyval) (value : f64) : res string :=
  do canonical <- if truthy unit_raw then _normalize_temp_unit unit_raw else Ok None;
  match canonical with
  | Some u => Ok u
  | None => Ok (if fleb (flit "-5.0") value && fleb value (flit "10.0") then "c" else "f")
  end.

Fixpoint generic_reading (fields : pydict) (keys : list (string * string)) : res (option (f64 * string)) :=
  match keys with
  | [] => Ok None
  | (value_key, unit_key) :: rest =>
      let raw := _get fields value_key in
      if is_none raw then generic_reading fields rest
      else do value <- _as_temp_float raw;
           match value with
           | None => generic_reading fields rest
           | Some v =>
               do u <- reading_scale (_get fields unit_key) v;
               Ok (Some (if String.eqb u "c" then v else fahrenheit_to_celsius v, value_key))
           end
  end.

Definition resolve_temperature_reading (fields : pydict) : res (option (f64 * string)) :=
  do r1 <- explicit_scale fields (fun v => v) ["cooling_temperature_celsius"; "temperature_celsius"];
  match r1 with
  | Some r => Ok (Some r)
  | None =>
      do r2 <- explicit_scale fields fahrenheit_to_celsius
                 ["cooling_temperature_fahrenheit"; "temperature_fahrenheit"];
      match r2 with
      | Some r => Ok (Some r)
      | None => generic_reading fields
                  [("cooling_temperature", "cooling_temperature_unit"); ("temperature", "temperature_unit")]
      end
  end.

(** ** Lifecycle order *)

Definition CTE_LIFECYCLE_ORDER : list (string * Z) :=
  [("harvesting", 0%Z); ("cooling", 1%Z); ("initial_packing", 2%Z); ("first_land_based_receiving", 3%Z);
   ("transformation", 4%Z); ("shipping", 5%Z); ("receiving", 6%Z)].

Definition unhashable {A} (v : pyval) : res A := Raise (TypeError ("unhashable type: '" +:+ type_name v +:+ "'")).

(** [table.get(v)] for a table with string keys: only containers cannot be looked up. *)
Definition table_get {A} (table : list (string * A)) (v : pyval) : res (option A) :=
  match v with
  | PStr s => Ok (assoc s table)
  | PList _ | PDict _ => unhashable v
  | _ => Ok None
  end.

(** ** Facts *)

Lemma assoc_In {A} k (l : list (string * A)) v : assoc k l = Some v -> (k, v) ∈ l.
Proof.
  induction l as [|[k' v'] l IH]; cbn; [done|]. destruct (String.eqb_spec k k') as [->|?].
  - intros [= ->]. apply list_elem_of_here.
  - intros H. apply list_elem_of_further. auto.
Qed.

Lemma temp_units_cf s u : assoc s _TEMP_UNIT_ALIASES = Some u -> u = "c" \/ u = "f".
Proof.
  intros H%assoc_In.
  assert (Hall : Forall (fun p => snd p = "c" \/ snd p = "f") _TEMP_UNIT_ALIASES) by (repeat constructor; auto).
  rewrite Forall_forall in Hall. exact (Hall _ H).
Qed.

Example freezing : normalize_temperature (f_of_Z 212) (PStr " F. ") (PStr "Celsius") = Ok (Some (f_of_Z 100)).
Proof. vm_compute. reflexivity. Qed.

(** ** Properties *)

(** Mass conversion without a container mapping is decided by the unit alone: it never raises on a
    text, it answers exactly for the true mass units, with the same number as the legacy table,
    and in particular never for a container or count unit. *)
Theorem normalize_to_mass_mass_units_only q u :
  (is_mass_uom (Some u) = true ->
     exists m, normalize_to_mass q (PStr u) (PDict []) = Ok (Some m) /\ normalize_to_lbs q u = Some m)
  /\ (is_mass_uom (Some u) = false -> normalize_to_mass q (PStr u) (PDict []) = Ok None)
  /\ (forall f, assoc (_uom_key u) _CONTAINER_UOM_TO_LBS = Some f -> is_mass_uom (Some u) = false).
Proof.
  assert (Hu : u = "" -> _uom_key u = "") by by intros ->.
  assert (Hassoc : forall k, assoc k _UOM_TO_LBS =
    match assoc k _MASS_UOM_TO_LBS with Some f => Some f | None => assoc k _CONTAINER_UOM_TO_LBS end).
  { intros k. unfold _UOM_TO_LBS. generalize _MASS_UOM_TO_LBS as l. induction l as [|[k' v] l IH]; cbn; [done|].
    by destruct (String.eqb k k'). }
  unfold normalize_to_mass, normalize_to_lbs, is_mass_uom. cbn [as_str rbind]. rewrite Hassoc.
  split; [|split].
  - destruct (String.eqb_spec u ""); [done|]. destruct (assoc _ _MASS_UOM_TO_LBS); [|done]. intros _. by eexists.
  - destruct (String.eqb_spec u "") as [->|_]; [done|]. by destruct (assoc _ _MASS_UOM_TO_LBS).
  - intros f Hf. destruct (String.eqb_spec u ""); [done|]. destruct (assoc _ _MASS_UOM_TO_LBS) eqn:E; [|done].
    apply assoc_In in Hf, E. exfalso.
    assert (Hdis : forallb (fun p => negb (existsb (String.eqb (fst p)) (fst <$> _CONTAINER_UOM_TO_LBS)))
                     _MASS_UOM_TO_LBS = true) by (vm_compute; reflexivity).
    rewrite forallb_forall in Hdis. apply list_elem_of_In in E. apply Hdis in E. cbn [fst] in E.
    apply negb_true_iff, not_true_iff_false in E. apply E, existsb_In_eqb, list_elem_of_In.
    by apply (list_elem_of_fmap_2 fst) in Hf.
Qed.

(** The reading of a field under a scale. *)
Definition reading_of (fields : pydict) (key : string) (v : f64) : Prop :=
  _get fields key <> PNone /\ _as_temp_float (_get fields key) = Ok (Some v).

Lemma explicit_scale_spec fields conv keys c k :
  explicit_scale fields conv keys = Ok (Some (c, k)) ->
  k ∈ keys /\ exists v, reading_of fields k v /\ c = conv v.
Proof.
  induction keys as [|key keys IH]; cbn; [done|]. destruct (is_none (_get fields key)) eqn:E.
  - intros H. destruct (IH H) as [Hk Hv]. split; [by apply list_elem_of_further | done].
  - intros (o & Ho & H)%rbind_Ok_inv. destruct o as [v|].
    + injection H as <- <-. split; [apply list_elem_of_here|]. exists v. split; [|done]. split; [|done].
      by intros Hn; rewrite Hn in E.
    + destruct (IH H) as [Hk Hv]. split; [by apply list_elem_of_further | done].
Qed.

Lemma generic_reading_spec fields keys c k :
  generic_reading fields keys = Ok (Some (c, k)) ->
  exists unit_key v, (k, unit_key) ∈ keys /\ reading_of fields k v
    /\ ((c = v /\ reading_scale (_get fields unit_key) v = Ok "c")
        \/ (c = fahrenheit_to_celsius v /\ reading_scale (_get fields unit_key) v = Ok "f")).
Proof.
  induction keys as [|[key ukey] keys IH]; cbn [generic_reading]; [done|]. destruct (is_none (_get fields key)) eqn:E.
  - intros H. destruct (IH H) as (uk & v & Hin & Hr). exists uk, v. split; [by apply list_elem_of_further | done].
  - intros (o & Ho & H)%rbind_Ok_inv. destruct o as [v|].
    + apply rbind_Ok_inv in H as (u & Hu & H). injection H as Hc <-. exists ukey, v.
      split; [apply list_elem_of_here|]. split; [split; [by intros Hn; rewrite Hn in E | done]|].
      assert (Hcf : u = "c" \/ u = "f").
      { unfold reading_scale in Hu. apply rbind_Ok_inv in Hu as (o & Hn & Hu). destruct o as [u0|].
        - injection Hu as <-. destruct (truthy _); [|done]. unfold _normalize_temp_unit in Hn.
          destruct (_get fields ukey); try done; cbn [as_str rbind no_attribute] in Hn; try discriminate.
          injection Hn as Hn. by apply temp_units_cf in Hn.
        - injection Hu as <-. destruct (_ && _); auto. }
      destruct Hcf as [-> | ->]; cbn in Hc; subst; auto.
    + destruct (IH H) as (uk & v & Hin & Hr). exists uk, v. split; [by apply list_elem_of_further | done].
Qed.

(** A temperature is never invented and never misread: the reading that is resolved comes from one
    of the six known fields, which holds a number; a field that names its scale is read in that
    scale, and a generic field in the scale its unit field (or, without one, its magnitude)
    gives. *)
Theorem resolve_temperature_sound fields c k :
  resolve_temperature_reading fields = Ok (Some (c, k)) ->
  exists v, reading_of fields k v
    /\ ((k ∈ ["cooling_temperature_celsius"; "temperature_celsius"] /\ c = v)
        \/ (k ∈ ["cooling_temperature_fahrenheit"; "temperature_fahrenheit"] /\ c = fahrenheit_to_celsius v)
        \/ (exists unit_key, (k, unit_key) ∈ [("cooling_temperature", "cooling_temperature_unit");
                                              ("temperature", "temperature_unit")]
             /\ ((c = v /\ reading_scale (_get fields unit_key) v = Ok "c")
                 \/ (c = fahrenheit_to_celsius v /\ reading_scale (_get fields unit_key) v = Ok "f")))).
Proof.
  unfold resolve_temperature_reading. intros (r1 & H1 & H)%rbind_Ok_inv. destruct r1 as [[c1 k1]|].
  - injection H as -> ->. apply explicit_scale_spec in H1 as (Hk & v & Hr & ->). exists v. auto.
  - apply rbind_Ok_inv in H as (r2 & H2 & H). destruct r2 as [[c2 k2]|].
    + injection H as -> ->. apply explicit_scale_spec in H2 as (Hk & v & Hr & ->). exists v. auto.
    + apply generic_reading_spec in H as (uk & v & Hin & Hr & Hc). exists v. eauto 6.
Qed.

Definition demo_reading : pydict := [("TEMPERATURE", PStr " 41 "); ("temperature_unit", PStr "F")].

Lemma resolve_temperature_sound_witness :
  exists v, reading_of demo_reading "temperature" v.
Proof.
  destruct (resolve_temperature_sound demo_reading (f_of_Z 5) "temperature") as (v & Hr & _);
    [vm_compute; reflexivity | by exists v].
Defined.
