(* ===== verification/EpcisNormalization.v ===== *)
(** * From an EPCIS event to a tracking event

    [normalization.py] and [validation.py] of [services/ingestion/app/epcis/], and the checks that
    [persistence.py] runs before it opens a transaction.  A handler answers, refuses with an HTTP
    status and a detail, or crashes with another exception; the three are told apart because only
    refusals reach the client as such.  The model class [FSMAEvent] is pydantic's: whether it accepts
    the fields is a parameter. *)

From Stdlib Require Import ZArith Lia String Ascii.
From stdpp Require Import base list strings.
From S2P Require Import Prelude PyStr PyFloat PyVal Json Sha256 Gs1 LotIdentity EpcisExtraction Uom.

Local Open Scope string_scope.

(** ** Outcomes of a handler *)

Inductive http (A : Type) :=
| Answer (a : A)
| HTTPException (status : Z) (detail : pyval)
| Crash (e : exn).
Arguments Answer {A} a.
Arguments HTTPException {A} status detail.
Arguments Crash {A} e.

Definition hbind {A B} (c : http A) (k : A -> http B) : http B :=
  match c with Answer a => k a | HTTPException s d => HTTPException s d | Crash e => Crash e end.
Definition of_res {A} (c : res A) : http A := match c with Ok a => Answer a | Raise e => Crash e end.

Declare Scope http_scope.
Notation "'get' x <- c ; k" := (hbind c (fun x => k)) (at level 10, x name, c at level 100, k at level 200) : http_scope.
Local Open Scope http_scope.

(** ** Tables *)

Definition _EVENT_TYPE_MAP : list (string * string) :=
  [("urn:epcglobal:cbv:bizstep:receiving", "receiving"); ("urn:epcglobal:cbv:bizstep:shipping", "shipping");
   ("urn:epcglobal:cbv:bizstep:transforming", "transformation"); ("urn:epcglobal:cbv:bizstep:commissioning", "initial_packing");
   ("urn:epcglobal:cbv:bizstep:packing", "initial_packing"); ("urn:epcglobal:cbv:bizstep:harvesting", "harvesting");
   ("urn:epcglobal:cbv:bizstep:planting", "growing"); ("urn:epcglobal:cbv:bizstep:storing", "cooling");
   ("urn:epcglobal:cbv:bizstep:landing", "first_land_based_receiving");
   ("urn:fsma:traceability:growing", "growing"); ("urn:fsma:traceability:harvesting", "harvesting");
   ("urn:fsma:traceability:cooling", "cooling"); ("urn:fsma:traceability:initial_packing", "initial_packing");
   ("urn:fsma:traceability:first_land_based_receiving", "first_land_based_receiving");
   ("urn:fsma:traceability:shipping", "shipping"); ("urn:fsma:traceability:receiving", "receiving");
   ("urn:fsma:traceability:transformation", "transformation")].

Definition _CBV_BIZSTEP_PREFIX : string := "urn:epcglobal:cbv:bizstep:".

Definition is_letter (c : ascii) : bool := in_range 65 90 c || in_range 97 122 c.
Definition word_char (c : ascii) : bool := is_letter c || in_range 48 57 c || Ascii.eqb c "_".
Definition _BARE_BIZSTEP_RE (s : string) : bool :=
  match s with "" => false | String c s' => is_letter c && str_forallb word_char s' end.

Definition sorted_names {A} (l : list (string * A)) : list string := fst <$> key_sort ((fun kv => (fst kv, tt)) <$> l).
Definition text_list (l : list string) : pyval := PList (PStr <$> l).

(** What [_normalize_epcis_to_cte] builds; the members with fixed values are left out. *)
Record normalized_cte := Normalized {
  n_event_type : string;
  n_epcis_event_type : pyval;
  n_epcis_action : pyval;
  n_epcis_biz_step : pyval;
  n_event_time : pyval;
  n_event_timezone : pyval;
  n_lot_code : string;
  n_tlc : string;
  n_product_id : pyval;
  n_location_id : string;
  n_source_location_id : string;
  n_dest_location_id : string;
  n_quantity : pyval;
  n_unit_of_measure : pyval
}.

Record kde := Kde { kde_type : string; kde_value : string; kde_required : bool }.

(** [FSMAEvent( ** fields)] validates: the mapped type, the normalized members and the tenant. *)
Class FsmaGate := { fsma_event_valid : string -> normalized_cte -> option string -> bool }.

Section Normalization.
Context `{PL : PyLib} `{UL : UrlLib} `{FG : FsmaGate}.

(** ** normalization.py *)

(** The name after the marker of the GS1 web vocabulary, for one scheme. *)
Definition web_name (scheme lowered : string) : option string :=
  let marker := scheme +:+ "ref.gs1.org/cbv/bizstep-" in
  if startswith lowered marker
  then Some (before "#" (before "?" (before "/" (str_drop (slen marker) lowered)))) else None.

Definition _canonical_bizstep (value : pyval) : string :=
  if is_none value then ""
  else
    let raw := strip (py_str value) in
    let lowered := lower raw in
    if String.eqb raw "" then ""
    else if startswith lowered _CBV_BIZSTEP_PREFIX
    then _CBV_BIZSTEP_PREFIX +:+ str_drop (slen _CBV_BIZSTEP_PREFIX) lowered
    else if startswith lowered "urn:" then raw
    else
      match (match web_name "https://" lowered with Some n => Some n | None => web_name "http://" lowered end) with
      | Some name => if String.eqb name "" then raw else _CBV_BIZSTEP_PREFIX +:+ name
      | None => if _BARE_BIZSTEP_RE raw then _CBV_BIZSTEP_PREFIX +:+ lowered else raw
      end.

Definition _event_idempotency_key (event : pydict) : res string :=
  if truthy (member event "eventID") then Ok (py_str (member event "eventID"))
  else do normalized <- json_dumps opts_compact (PDict event); Ok (sha256_hex normalized).

(** The first truthy candidate, an empty list when it is no list. *)
Fixpoint first_list (candidates : list pyval) : list pyval :=
  match candidates with
  | [] => []
  | c :: rest => if truthy c then match c with PList l => l | _ => [] end else first_list rest
  end.

Definition _quantity_list (event : pydict) : list pyval :=
  first_list [nested (member event "extension") "quantityList"; member event "quantityList";
              member event "childQuantityList"; member event "outputQuantityList"; member event "inputQuantityList"].

Definition names_lot (element : pyval) : bool :=
  match element with
  | PDict d => match _lot_from_identifier (dict_get d "epcClass" PNone) with Some _ => true | None => false end
  | _ => false
  end.

Definition as_dict (v : pyval) : option pydict := match v with PDict d => Some d | _ => None end.

(** A lot-level element, or the first. *)
Definition _quantity_element (event : pydict) : option pydict :=
  match _quantity_list event with
  | PDict first :: rest =>
      match List.find names_lot (PDict first :: rest) with Some element => as_dict element | None => Some first end
  | _ => None
  end.

Definition unmapped_bizstep (received : pyval) : pyval :=
  PDict [("error", PStr "unmapped_bizstep"); ("bizStep", if is_none received then PStr "" else received);
         ("message", PStr ("bizStep has no FSMA 204 CTE mapping. Supply a CBV or "
            +:+ "FSMA URI for one of: growing, harvesting, cooling, "
            +:+ "initial_packing, first_land_based_receiving, transformation, shipping, receiving."));
         ("allowed_bizsteps", text_list (sorted_names _EVENT_TYPE_MAP))].

Definition _normalize_epcis_to_cte (event : pydict) : http normalized_cte :=
  let '(lot_code, tlc) := _extract_event_lot event in
  let product_id := match member event "epcList" with PList (p :: _) => p | _ => PNone end in
  match assoc (_canonical_bizstep (member event "bizStep")) _EVENT_TYPE_MAP with
  | None => HTTPException 400 (unmapped_bizstep (member event "bizStep"))
  | Some event_type =>
      let of_element key := match _quantity_element event with Some d => dict_get d key PNone | None => PNone end in
      Answer (Normalized event_type (member event "type") (member event "action") (member event "bizStep")
                (member event "eventTime") (dict_get event "eventTimeZoneOffset" (PStr "+00:00")) lot_code tlc product_id
                (str_or (_extract_location_id event "bizLocation") (_extract_location_id event "readPoint"))
                (_extract_party_id event "sourceList" "source") (_extract_party_id event "destinationList" "destination")
                (of_element "quantity") (of_element "uom"))
  end.

(** [key.split(":", 1)[-1]]. *)
Definition after_prefix (key : string) : string :=
  match span (fun c => negb (Ascii.eqb c ":")) key with (_, String _ rest) => rest | _ => key end.

Fixpoint kdes_of (items : pydict) : list kde :=
  match items with
  | [] => []
  | (key, value) :: rest =>
      if is_none value then kdes_of rest
      else Kde (after_prefix key) (py_str value)
             (existsb (String.eqb (after_prefix key)) ["traceabilityLotCode"; "lotNumber"]) :: kdes_of rest
  end.

Definition _extract_kdes (event : pydict) : res (list kde) :=
  do ilmd <-
    (if truthy (member event "ilmd") then Ok (member event "ilmd")
     else do inner <- py_get (dict_get event "extension" (PDict [])) "ilmd" PNone;
          Ok (if truthy inner then inner else PDict []));
  match ilmd with PDict items => Ok (kdes_of items) | v => no_attribute v "items" end.

Definition count (p : kde -> bool) (kdes : list kde) : Z := Z.of_nat (length (List.filter p kdes)).

(** [round(x, 2)]. *)
Definition round2 (x : f64) : f64 := flit (format_2f x).

Definition _kde_completeness (kdes : list kde) : f64 :=
  let required := count kde_required kdes in
  let populated := count (fun k => kde_required k && negb (String.eqb (kde_value k) "")) kdes in
  round2 (fdiv (f_of_Z populated) (f_of_Z (if (required =? 0)%Z then 1 else required))).

Definition alert (severity alert_type message : string) : pyval :=
  PDict [("severity", PStr severity); ("alert_type", PStr alert_type); ("message", PStr message)].

Definition _compliance_alerts (n : normalized_cte) (kdes : list kde) : list pyval :=
  ((if String.eqb (n_tlc n) "" then [alert "critical" "missing_kde" "Traceability lot code is missing"] else [])
   ++ (if (String.eqb (n_event_type n) "shipping" || String.eqb (n_event_type n) "receiving")
          && (String.eqb (n_source_location_id n) "" || String.eqb (n_dest_location_id n) "")
       then [alert "warning" "incomplete_route" "Shipping/receiving event is missing source or destination identifiers"] else [])
   ++ match kdes with [] => [alert "warning" "missing_kde" "No ILMD KDE fields were provided"] | _ => [] end)%list.

(** ** validation.py *)

Definition _TRANSFORMATION_IDENTITY_FIELDS : list string :=
  ["transformationID"; "inputEPCList"; "outputEPCList"; "inputQuantityList"; "outputQuantityList"].
Definition _SUPPORTED_EVENT_TYPES : list string := ["ObjectEvent"; "AggregationEvent"; "TransactionEvent"; "TransformationEvent"].

Definition _validate_tlc_format (tlc : string) : bool := negb (String.eqb tlc "") && (3 <=? slen (strip tlc))%nat.

Definition _validate_epcis (event : pydict) : list string :=
  let is_transformation := is_type event "TransformationEvent" in
  let required := if is_transformation then ["type"; "eventTime"; "bizStep"] else ["type"; "eventTime"; "action"; "bizStep"] in
  let missing := (fun f => "Missing required EPCIS field '" +:+ f +:+ "'") <$> List.filter (fun f => negb (truthy (member event f))) required in
  let identity :=
    if is_transformation && negb (existsb (fun f => truthy (member event f)) _TRANSFORMATION_IDENTITY_FIELDS)
    then ["TransformationEvent requires 'transformationID' or a non-empty "
          +:+ "input/output list (inputEPCList, outputEPCList, inputQuantityList, outputQuantityList)"] else [] in
  let unsupported :=
    match member event "type" with
    | PStr t => if existsb (String.eqb t) _SUPPORTED_EVENT_TYPES then [] else ["Unsupported EPCIS event type"]
    | _ => ["Unsupported EPCIS event type"]
    end in
  let '(lot_code, tlc) := _extract_event_lot event in
  let lot :=
    if String.eqb tlc "" && String.eqb lot_code "" then ["Missing traceability lot code (fsma:traceabilityLotCode or cbvmda:lotNumber)"]
    else if negb (String.eqb tlc "") && negb (_validate_tlc_format tlc)
    then ["TLC '" +:+ tlc +:+ "' is too short (minimum 3 characters)"] else [] in
  (missing ++ identity ++ unsupported ++ lot)%list.

(** [_MANDATORY_GLN_FIELDS] with the value of each. *)
Definition _MANDATORY_GLN_FIELDS (n : normalized_cte) : list (string * string) :=
  [("location_id", n_location_id n); ("source_location_id", n_source_location_id n); ("dest_location_id", n_dest_location_id n)].

Definition looks_like_gln (value : string) : bool := str_isdigit value && (slen value =? 13)%nat.

Definition _validate_gln_format (gln : string) : res bool :=
  if String.eqb gln "" then Ok false else do r <- validate_gln (PStr gln); Ok (is_valid r).

(** The fields of the list whose value looks like a GLN and fails the check digit. *)
Fixpoint bad_glns (fields : list (string * string)) : res (list (string * string)) :=
  match fields with
  | [] => Ok []
  | (field, value) :: rest =>
      do bad <- (if negb (looks_like_gln value) then Ok false else do ok <- _validate_gln_format value; Ok (negb ok));
      do others <- bad_glns rest;
      Ok (if bad then (field, value) :: others else others)
  end.

Definition gln_failure (failures : list (string * string)) : pyval :=
  PDict [("error", PStr "invalid_gln_check_digit");
         ("message", PStr ("One or more mandatory location GLNs failed the GS1 "
            +:+ "check-digit test. FSMA 204 exports must resolve against GS1's registry; malformed GLNs break the "
            +:+ "auditor's trace chain."));
         ("failures", PList ((fun f => PDict [("field", PStr (fst f)); ("gln", PStr (snd f))]) <$> failures))].

Definition _enforce_mandatory_gln_check_digits (n : normalized_cte) : http unit :=
  get failures <- of_res (bad_glns (_MANDATORY_GLN_FIELDS n));
  match failures with [] => Answer tt | _ => HTTPException 422 (gln_failure failures) end.

Definition _validate_epcis_glns (n : normalized_cte) : res (list string) :=
  do failures <- bad_glns (_MANDATORY_GLN_FIELDS n);
  Ok ((fun f => "Invalid GLN check digit in " +:+ fst f +:+ ": " +:+ snd f) <$> failures).

Definition fsma_type_map : list (string * string) :=
  [("shipping", "SHIPPING"); ("receiving", "RECEIVING"); ("first_land_based_receiving", "RECEIVING");
   ("transformation", "TRANSFORMATION"); ("creation", "CREATION"); ("initial_packing", "CREATION");
   ("harvesting", "CREATION"); ("cooling", "CREATION"); ("growing", "CREATION")].

(** Whether the gate answers the validated fields, which are never empty, or [None]. *)
Definition _validate_as_fsma_event (n : normalized_cte) (tenant_id : option string) : bool :=
  match assoc (lower (n_event_type n)) fsma_type_map with
  | None => false
  | Some fsma_type => fsma_event_valid fsma_type n tenant_id
  end.

Definition _epcis_product_description (event kde_map : pydict) : string :=
  let text v := if is_none v || String.eqb (strip (py_str v)) "" then None else Some (strip (py_str v)) in
  match text (member event "productDescription") with
  | Some t => t
  | None => match text (dict_get kde_map "productDescription" PNone) with Some t => t | None => "" end
  end.
End Normalization.
