(* ===== verification/Rules.v ===== *)
(** * Rules: data types and verdicts

    [services/shared/rules/types.py], [verdict.py] and [utils.py]: rule definitions, the result of
    one rule, the per-event summary with its tri-state [compliant], the verdict of persisted rows,
    and the dotted-path lookup every evaluator uses. *)

From Stdlib Require Import ZArith Lia String Ascii.
From Corelib Require Import SpecFloat.
From stdpp Require Import base list strings.
From S2P Require Import Prelude PyStr PyFloat PyVal.

Local Open Scope string_scope.

(** A versioned rule, as [load_active_rules] builds it (dates are kept as text). *)
Record RuleDefinition := Rule {
  rule_id : string;
  rule_version : Z;
  title : string;
  description : option string;
  severity : string;
  category : string;
  applicability_conditions : pydict;
  citation_reference : option string;
  effective_date : string;
  retired_date : option string;
  evaluation_logic : pydict;
  failure_reason_template : string;
  remediation_suggestion : option string
}.

Record RuleEvaluationResult := Result {
  evaluation_id : string;
  re_rule_id : string;
  re_rule_version : Z;
  re_rule_title : string;
  re_severity : string;
  result : string;
  why_failed : option string;
  evidence_fields_inspected : list pydict;
  confidence : f64;
  re_citation_reference : option string;
  re_remediation_suggestion : option string;
  re_category : string
}.

(** [result.result = s]. *)
Definition set_result (r : RuleEvaluationResult) (s : string) : RuleEvaluationResult :=
  Result (evaluation_id r) (re_rule_id r) (re_rule_version r) (re_rule_title r) (re_severity r) s
    (why_failed r) (evidence_fields_inspected r) (confidence r) (re_citation_reference r)
    (re_remediation_suggestion r) (re_category r).

Record EvaluationSummary := Summary {
  event_id : pyval;
  total_rules : Z;
  passed : Z;
  failed : Z;
  warned : Z;
  skipped : Z;
  errored : Z;
  not_ftl_scoped : Z;
  no_verdict_reason : option string;
  results : list RuleEvaluationResult;
  critical_failures : list RuleEvaluationResult
}.

(** [EvaluationSummary(event_id=..., total_rules=...)]. *)
Definition new_summary (id : pyval) (total : Z) : EvaluationSummary :=
  Summary id total 0 0 0 0 0 0 None [] [].

(** A Python [Optional[str]] used as a condition. *)
Definition ostr_true (o : option string) : bool :=
  match o with Some s => negb (String.eqb s "") | None => false end.

(** The [compliant] property; [None] is no verdict. *)
Definition compliant (s : EvaluationSummary) : option bool :=
  if (total_rules s =? 0)%Z then None
  else if ostr_true (no_verdict_reason s) then None
  else if (total_rules s <=? not_ftl_scoped s)%Z then None
  else Some ((failed s =? 0)%Z && (errored s =? 0)%Z).

Definition verdict (s : EvaluationSummary) : string :=
  match compliant s with
  | Some true => "pass"
  | Some false => "fail"
  | None => "no_verdict"
  end.

Definition verdict_reason (s : EvaluationSummary) : option string :=
  match compliant s with
  | Some _ => None
  | None =>
      if ostr_true (no_verdict_reason s) then no_verdict_reason s
      else if (total_rules s =? 0)%Z then Some "nothing_evaluated"
      else Some "not_ftl_scoped"
  end.

(** ** Verdict of persisted rows *)

Definition PASS : string := "PASS".
Definition FAIL : string := "FAIL".
Definition EVALUATION_ERROR : string := "EVALUATION_ERROR".
Definition NO_VERDICT : string := "NO_VERDICT".
Definition NO_RULES_EVALUATED : string := "NO_RULES_EVALUATED".

Record EventVerdict := Verdict {
  ev_status : string;
  ev_reason : option string;
  ev_failed : list pydict;
  ev_errored : list pydict
}.

Definition status_label (v : EventVerdict) : string :=
  if String.eqb (ev_status v) NO_VERDICT && ostr_true (ev_reason v)
  then NO_VERDICT +:+ ":" +:+ ostr_or (ev_reason v) ""
  else ev_status v.

Definition rule_result_token (row : pydict) : string :=
  let legacy := if truthy (dict_get row "passed" PNone) then "pass" else "fail" in
  match dict_get row "result" PNone with
  | PStr s => if String.eqb s "" then legacy else lower s
  | _ => legacy
  end.

Definition has_token (tok : string) (row : pydict) : bool := String.eqb (rule_result_token row) tok.

Definition classify_event_verdict (rows : list pydict) (evaluation_verdict no_verdict_reason : option string)
    : EventVerdict :=
  let failed := List.filter (has_token "fail") rows in
  let errored := List.filter (has_token "error") rows in
  match failed, errored with
  | _ :: _, _ => Verdict FAIL None failed errored
  | [], _ :: _ => Verdict EVALUATION_ERROR None [] errored
  | [], [] =>
      let v := lower (ostr_or evaluation_verdict "") in
      if String.eqb v "fail" then Verdict FAIL (Some "persisted_verdict_fail") [] []
      else if String.eqb v "no_verdict" then Verdict NO_VERDICT (Some (ostr_or no_verdict_reason "unspecified")) [] []
      else match rows with
           | [] => Verdict NO_RULES_EVALUATED None [] []
           | _ =>
               if existsb (fun r => has_token "pass" r || has_token "warn" r) rows
               then Verdict PASS None [] []
               else Verdict NO_VERDICT (Some "all_rules_skipped") [] []
           end
  end.

(** ** Dotted paths *)

Fixpoint walk_path (current : pyval) (parts : list string) : pyval :=
  match parts with
  | [] => current
  | p :: rest =>
      match current with
      | PDict d => walk_path (dict_get d p PNone) rest
      | _ => PNone
      end
  end.

(** [get_nested_value]. *)
Definition get_nested_value (data : pyval) (field_path : string) : pyval :=
  walk_path data (split_on "." field_path).

(** [field_path.split(".")[-1]]. *)
Definition last_segment (field_path : string) : string :=
  match last (split_on "." field_path) with Some s => s | None => "" end.

(** [x or d] for texts of a rule. *)
Definition citation_or (r : RuleDefinition) (d : string) : string := ostr_or (citation_reference r) d.

(** ** Facts *)

Lemma verdict_compliant s :
  (verdict s = "pass" <-> compliant s = Some true)
  /\ (verdict s = "fail" <-> compliant s = Some false)
  /\ (verdict s = "no_verdict" <-> compliant s = None).
Proof. unfold verdict. by destruct (compliant s) as [[]|]. Qed.

Lemma compliant_true s :
  compliant s = Some true <->
  (total_rules s <> 0 /\ not_ftl_scoped s < total_rules s /\ failed s = 0 /\ errored s = 0)%Z
  /\ ostr_true (no_verdict_reason s) = false.
Proof.
  unfold compliant. destruct (Z.eqb_spec (total_rules s) 0); [by split; [|intros [[] _]]|].
  destruct (ostr_true _); [by split; [|intros [_ ?]]|].
  destruct (Z.leb_spec (total_rules s) (not_ftl_scoped s)); [split; [done|lia]|].
  split.
  - intros [= Hb]. reflect_bools. done.
  - intros [(_ & _ & -> & ->) _]. done.
Qed.
