(* ===== verification/Enforcement.v ===== *)
(** * Enforcement policy

    [services/shared/rules/enforcement.py]: how a summary becomes a reject or accept decision.  The
    process-wide state is the two warn-once sets and the counter of accepted events without
    verdict. *)

From Stdlib Require Import ZArith Lia String Ascii.
From stdpp Require Import base list strings.
From S2P Require Import Prelude PyStr PyFloat PyVal Rules.

Local Open Scope string_scope.

Definition OFF : string := "off".
Definition CTE_ONLY : string := "cte_only".
Definition ALL : string := "all".
Definition _VALID_MODES : list string := [OFF; CTE_ONLY; ALL].

(** What a call reads from its process: the environment variable, and the tenant of the request
    ([get_rls_tenant_id], which may raise). *)
Record context := Context { env_enforce : option string; rls_tenant : res (option string) }.

Record enforcement_state := EState {
  _reported_invalid_modes : list string;
  (** The labels of every increment of [rules_no_verdict_accepted_total]. *)
  no_verdict_accepted : list (string * string);
  _no_verdict_warned : list (string * string)
}.

(** [current_mode]. *)
Definition current_mode (c : context) (st : enforcement_state) : enforcement_state * string :=
  let raw := lower (strip (match env_enforce c with Some v => v | None => OFF end)) in
  if String.eqb raw "" then (st, OFF)
  else if negb (existsb (String.eqb raw) _VALID_MODES) then
    let st' := if existsb (String.eqb raw) (_reported_invalid_modes st) then st
               else EState (raw :: _reported_invalid_modes st) (no_verdict_accepted st) (_no_verdict_warned st) in
    (st', ALL)
  else (st, raw).

(** [_record_no_verdict_accept]. *)
Definition _record_no_verdict_accept (c : context) (mode : string) (st : enforcement_state) : enforcement_state :=
  let tenant := match rls_tenant c with Ok o => ostr_or o "unknown" | Raise _ => "unknown" end in
  let key := (tenant, mode) in
  EState (_reported_invalid_modes st) ((mode, tenant) :: no_verdict_accepted st)
    (if decide (key ∈ _no_verdict_warned st) then _no_verdict_warned st else key :: _no_verdict_warned st).

(** [_first_failure_reason]. *)
Definition _first_failure_reason (s : EvaluationSummary) : string :=
  let rs := match critical_failures s with [] => results s | l => l end in
  match List.find (fun r => String.eqb (result r) "fail" || String.eqb (result r) "error") rs with
  | Some r => str_or (re_rule_id r) "unknown_rule" +:+ ": " +:+ ostr_or (why_failed r) "failed"
  | None => "rule_violation"
  end.

(** [should_reject]. *)
Definition should_reject (c : context) (st : enforcement_state) (s : EvaluationSummary)
    : enforcement_state * (bool * option string) :=
  let '(st, mode) := current_mode c st in
  if String.eqb mode OFF then (st, (false, None))
  else match compliant s with
       | None => (_record_no_verdict_accept c mode st, (false, None))
       | Some ok =>
           if String.eqb mode CTE_ONLY then
             match critical_failures s with
             | [] => (st, (false, None))
             | _ => (st, (true, Some (_first_failure_reason s)))
             end
           else if String.eqb mode ALL then
             if ok then (st, (false, None)) else (st, (true, Some (_first_failure_reason s)))
           else (st, (false, None))
       end.

(** [handle_preeval_exception]: the Sentry calls are guarded and do not change the outcome. *)
Definition handle_preeval_exception (c : context) (st : enforcement_state) (err : exn) (at_ : string)
    : enforcement_state * res unit :=
  let '(st, mode) := current_mode c st in
  if String.eqb mode OFF then (st, Ok tt)
  else (st, Raise (Exn "HTTPException" ("500: RULES_ENGINE_EVAL_FAILED: " +:+ at_))).

(** ** Facts *)

Definition mode_of (c : context) (st : enforcement_state) : string := snd (current_mode c st).
Definition rejects (c : context) (st : enforcement_state) (s : EvaluationSummary) : bool :=
  fst (snd (should_reject c st s)).

Lemma mode_cases c st : mode_of c st = OFF \/ mode_of c st = CTE_ONLY \/ mode_of c st = ALL.
Proof.
  unfold mode_of, current_mode. destruct (String.eqb _ ""); [by left|].
  destruct (existsb _ _) eqn:E; cbn [negb snd]; [|by right; right].
  apply existsb_In_eqb in E. cbn in E. destruct E as [<-|[<-|[<-|[]]]]; auto.
Qed.

Lemma rejects_spec c st s :
  rejects c st s = true <->
  (mode_of c st = CTE_ONLY /\ compliant s <> None /\ critical_failures s <> [])
  \/ (mode_of c st = ALL /\ compliant s = Some false).
Proof.
  unfold rejects, should_reject. pose proof (mode_cases c st) as Hm. unfold mode_of in *.
  destruct (current_mode c st) as [st' mode]. cbn [snd] in *.
  destruct Hm as [-> | [-> | ->]]; cbn -[OFF CTE_ONLY ALL].
  - split; [done|]. intros [[? _]|[? _]]; done.
  - destruct (compliant s) as [ok|]; cbn -[OFF CTE_ONLY ALL].
    + destruct (critical_failures s); cbn -[OFF CTE_ONLY ALL].
      * split; [done|]. intros [(_ & _ & ?)|[? _]]; done.
      * split; [|done]. intros _. by left.
    + split; [done|]. intros [(_ & ? & _)|[? _]]; done.
  - destruct (compliant s) as [[]|]; cbn -[OFF CTE_ONLY ALL].
    + split; [done|]. intros [(? & _)|[_ ?]]; done.
    + split; [|done]. intros _. by right.
    + split; [done|]. intros [(? & _)|[_ ?]]; done.
Qed.

(** ** Properties *)

(** The mode is read fail-closed: it is always one of the three; it is [off] exactly when the
    variable is unset, blank or says off up to case and spaces; any other unrecognized value
    enforces everything. *)
Theorem current_mode_fail_closed c st :
  let raw := lower (strip (match env_enforce c with Some v => v | None => OFF end)) in
  (mode_of c st = OFF <-> raw = "" \/ raw = OFF)
  /\ (mode_of c st = CTE_ONLY <-> raw = CTE_ONLY)
  /\ (mode_of c st = ALL <-> raw <> "" /\ raw <> OFF /\ raw <> CTE_ONLY).
Proof.
  cbv zeta. unfold mode_of, current_mode. generalize (lower (strip (match env_enforce c with Some v => v | None => OFF end))).
  intros raw. assert (OFF <> "" /\ CTE_ONLY <> "" /\ ALL <> "" /\ OFF <> CTE_ONLY /\ OFF <> ALL /\ CTE_ONLY <> ALL)
    as (? & ? & ? & ? & ? & ?) by (repeat split; discriminate).
  destruct (String.eqb_spec raw ""); cbn [snd]; [intuition congruence|]. cbn [existsb _VALID_MODES].
  destruct (String.eqb_spec raw OFF), (String.eqb_spec raw CTE_ONLY), (String.eqb_spec raw ALL);
    cbn [orb negb snd]; intuition congruence.
Qed.

(** The decision, in full: an event is rejected exactly when there is a verdict and either the
    mode is [cte_only] and a critical rule failed or errored, or the mode is [all] and the verdict
    is non-compliance.  So a missing verdict is never rejected; it is counted once when a mode is
    active.  A reason is given exactly when the event is rejected. *)
Theorem should_reject_policy c st s :
  (rejects c st s = true <->
     (mode_of c st = CTE_ONLY /\ compliant s <> None /\ critical_failures s <> [])
     \/ (mode_of c st = ALL /\ compliant s = Some false))
  /\ (is_Some (snd (snd (should_reject c st s))) <-> rejects c st s = true)
  /\ length (no_verdict_accepted (fst (should_reject c st s)))
     = (length (no_verdict_accepted st)
        + if decide (compliant s = None /\ mode_of c st <> OFF) then 1 else 0)%nat.
Proof.
  split; [apply rejects_spec|]. unfold rejects, should_reject.
  assert (Hst : no_verdict_accepted (fst (current_mode c st)) = no_verdict_accepted st).
  { unfold current_mode. by repeat case_match. }
  pose proof (mode_cases c st) as Hm. unfold mode_of in *.
  destruct (current_mode c st) as [st' mode]. cbn [fst snd] in *. rewrite <- Hst.
  split.
  - repeat case_match; cbn; split; try done; by intros [? ?].
  - case_decide as Hd.
    + destruct Hd as [-> Hd]. apply String.eqb_neq in Hd. rewrite Hd. cbn. lia.
    + rewrite Nat.add_0_r. destruct (String.eqb_spec mode OFF); [done|].
      destruct (compliant s); [by repeat case_match | by exfalso; apply Hd].
Qed.

(** A crash of the evaluation before the decision is never a silent accept under enforcement: the
    handler returns exactly when the mode is [off] and otherwise raises the HTTP 500 error. *)
Theorem preeval_fails_loud c st err at_ :
  (snd (handle_preeval_exception c st err at_) = Ok tt <-> mode_of c st = OFF)
  /\ (forall e, snd (handle_preeval_exception c st err at_) = Raise e -> exn_type e = "HTTPException").
Proof.
  unfold handle_preeval_exception, mode_of. destruct (current_mode c st) as [st' mode]. cbn [snd].
  destruct (String.eqb_spec mode OFF) as [->|Hne]; cbn; [done|]. split; [done|]. by intros e [= <-].
Qed.
