(* ===== verification/Ftl.v ===== *)
(** * Food Traceability List scoping

    [services/shared/rules/ftl.py]: whether an event's product is on the list (yes, no, unknown), its
    category, the keyword table that suggests a category, and the category scope of a rule. *)

From Stdlib Require Import ZArith Lia String Ascii.
From stdpp Require Import base list strings.
From S2P Require Import Prelude PyStr PyFloat PyVal Rules.

Local Open Scope string_scope.

Definition FTL_CATEGORIES : list string := lower <$>
  ["Leafy Greens"; "Herbs"; "Fresh-Cut Fruits"; "Fresh-Cut Vegetables"; "Finfish"; "Crustaceans";
   "Molluscan Shellfish"; "Smoked Finfish"; "Soft Cheeses"; "Shell Eggs"; "Nut Butters";
   "Ready-to-Eat Deli Salads"; "Fresh Tomatoes"; "Fresh Peppers"; "Fresh Cucumbers"; "Fresh Sprouts";
   "Tropical Tree Fruits"; "Fresh Melons"].

(** [_normalize]. *)
Definition _normalize (value : pyval) : option string :=
  match value with
  | PStr s => let norm := lower (strip s) in if String.eqb norm "" then None else Some norm
  | _ => None
  end.

Definition category_paths : list string :=
  ["kdes.ftl_category"; "ftl_category"; "product.category"; "product_category"].
Definition covered_paths : list string := ["kdes.ftl_covered"; "ftl_covered"; "product.ftl_covered"].

(** [get_ftl_category]: the first path that holds a listed category. *)
Fixpoint first_listed (event_data : pyval) (paths : list string) : option string :=
  match paths with
  | [] => None
  | path :: rest =>
      match _normalize (get_nested_value event_data path) with
      | Some norm => if existsb (String.eqb norm) FTL_CATEGORIES then Some norm else first_listed event_data rest
      | None => first_listed event_data rest
      end
  end.
Definition get_ftl_category (event_data : pyval) : option string := first_listed event_data category_paths.

Definition event_has_ftl_hint (event_data : pyval) : bool :=
  existsb (fun path => negb (is_none (get_nested_value event_data path))) (covered_paths ++ category_paths).

Fixpoint first_bool (event_data : pyval) (paths : list string) : option bool :=
  match paths with
  | [] => None
  | path :: rest =>
      match get_nested_value event_data path with
      | PBool b => Some b
      | _ => first_bool event_data rest
      end
  end.

(** [isinstance(raw, str) and raw.strip()]. *)
Definition nonblank_text (v : pyval) : bool :=
  match v with PStr s => negb (String.eqb (strip s) "") | _ => false end.

Definition is_ftl_food (event_data : pyval) : option bool :=
  match first_bool event_data covered_paths with
  | Some b => Some b
  | None =>
      match get_ftl_category event_data with
      | Some _ => Some true
      | None =>
          if existsb (fun path => nonblank_text (get_nested_value event_data path)) category_paths
          then Some false else None
      end
  end.

Definition FTL_KEYWORD_CATEGORIES : list (string * string) :=
  [("smoked salmon", "Smoked Finfish"); ("smoked trout", "Smoked Finfish");
   ("smoked whitefish", "Smoked Finfish"); ("smoked fish", "Smoked Finfish");
   ("spinach", "Leafy Greens"); ("romaine", "Leafy Greens"); ("rm hrts", "Leafy Greens");
   ("lettuce", "Leafy Greens"); ("kale", "Leafy Greens"); ("chard", "Leafy Greens");
   ("arugula", "Leafy Greens"); ("endive", "Leafy Greens"); ("escarole", "Leafy Greens");
   ("spring mix", "Leafy Greens"); ("greens", "Leafy Greens"); ("cilantro", "Herbs");
   ("parsley", "Herbs"); ("basil", "Herbs"); ("mint", "Herbs"); ("chives", "Herbs"); ("dill", "Herbs");
   ("tomato", "Fresh Tomatoes"); ("pepper", "Fresh Peppers"); ("cucumber", "Fresh Cucumbers");
   ("cantaloupe", "Fresh Melons"); ("honeydew", "Fresh Melons"); ("melon", "Fresh Melons");
   ("sprout", "Fresh Sprouts"); ("salmon", "Finfish"); ("tuna", "Finfish"); ("tilapia", "Finfish");
   ("halibut", "Finfish"); ("snapper", "Finfish"); ("trout", "Finfish"); ("cod", "Finfish");
   ("finfish", "Finfish"); ("shrimp", "Crustaceans"); ("prawn", "Crustaceans"); ("crab", "Crustaceans");
   ("lobster", "Crustaceans"); ("crawfish", "Crustaceans"); ("oyster", "Molluscan Shellfish");
   ("clam", "Molluscan Shellfish"); ("mussel", "Molluscan Shellfish");
   ("scallop", "Molluscan Shellfish"); ("brie", "Soft Cheeses"); ("camembert", "Soft Cheeses");
   ("queso fresco", "Soft Cheeses"); ("burrata", "Soft Cheeses"); ("soft cheese", "Soft Cheeses");
   ("soft-ripened", "Soft Cheeses"); ("semi-soft cheese", "Soft Cheeses"); ("shell egg", "Shell Eggs");
   ("eggs", "Shell Eggs"); ("peanut butter", "Nut Butters"); ("almond butter", "Nut Butters");
   ("cashew butter", "Nut Butters"); ("nut butter", "Nut Butters");
   ("deli salad", "Ready-to-Eat Deli Salads"); ("potato salad", "Ready-to-Eat Deli Salads");
   ("chicken salad", "Ready-to-Eat Deli Salads"); ("egg salad", "Ready-to-Eat Deli Salads");
   ("macaroni salad", "Ready-to-Eat Deli Salads"); ("pasta salad", "Ready-to-Eat Deli Salads");
   ("mango", "Tropical Tree Fruits"); ("papaya", "Tropical Tree Fruits");
   ("guava", "Tropical Tree Fruits"); ("lychee", "Tropical Tree Fruits");
   ("starfruit", "Tropical Tree Fruits")].

Definition infer_ftl_category_from_text (text : pyval) : option string :=
  match _normalize text with
  | None => None
  | Some normalized => snd <$> List.find (fun p => contains (fst p) normalized) FTL_KEYWORD_CATEGORIES
  end.

(** [[_normalize(s) or "" for s in ftl_scope if s]]. *)
Definition normalized_scope (ftl_scope : list pyval) : list string :=
  map (fun s => ostr_or (_normalize s) "") (List.filter truthy ftl_scope).

Definition rule_applies_to_ftl_category (rule_applicability : pydict) (event_ftl_category : option string)
    : res bool :=
  let ftl_scope := dict_get rule_applicability "ftl_scope" PNone in
  if negb (truthy ftl_scope) then Ok true
  else
    do l <- py_iter ftl_scope;
    let scope := normalized_scope l in
    if existsb (String.eqb "all") scope then Ok true
    else Ok (match event_ftl_category with Some c => existsb (String.eqb c) scope | None => false end).

(** ** Facts *)

Lemma strip_ne_lower s : strip s <> "" <-> lower (strip s) <> "".
Proof. by destruct (strip s). Qed.

Lemma normalize_nonblank v : nonblank_text v = false <-> _normalize v = None.
Proof.
  destruct v as [|b|z|f|s|d|l|d]; try done. cbn [nonblank_text _normalize].
  rewrite negb_false_iff, String.eqb_eq. destruct (String.eqb_spec (lower (strip s)) "") as [E|E].
  - split; [done|]. intros _. by destruct (strip s).
  - split; [by intros H; rewrite H in E | done].
Qed.

Lemma normalize_idem v c : _normalize v = Some c -> _normalize (PStr c) = Some c.
Proof.
  destruct v as [|b|z|f|s|d|l|d]; try done. cbn [_normalize]. destruct (String.eqb_spec (lower (strip s)) "") as [E|E]; [done|].
  intros [= <-]. rewrite strip_lower, strip_idem, lower_idem. by apply String.eqb_neq in E as ->.
Qed.

Lemma first_listed_spec e paths c :
  first_listed e paths = Some c -> c ∈ FTL_CATEGORIES /\ exists p, p ∈ paths /\ _normalize (get_nested_value e p) = Some c.
Proof.
  induction paths as [|p paths IH]; cbn [first_listed]; [done|].
  destruct (_normalize (get_nested_value e p)) as [n|] eqn:E.
  - destruct (existsb (String.eqb n) FTL_CATEGORIES) eqn:Hin.
    + intros E'. apply (inj Some) in E' as <-. split; [apply list_elem_of_In, existsb_In_eqb; exact Hin|].
      exists p. split; [apply list_elem_of_here | exact E].
    + intros H. destruct (IH H) as [Hc (q & Hq & Hn)]. split; [done|]. exists q. split; [by apply list_elem_of_further | done].
  - intros H. destruct (IH H) as [Hc (q & Hq & Hn)]. split; [done|]. exists q. split; [by apply list_elem_of_further | done].
Qed.

Lemma first_bool_none e paths :
  first_bool e paths = None <-> forall p, p ∈ paths -> forall b, get_nested_value e p <> PBool b.
Proof.
  induction paths as [|p paths IH]; cbn [first_bool].
  - split; [|done]. intros _ p Hp. by apply elem_of_nil in Hp.
  - setoid_rewrite elem_of_cons. destruct (get_nested_value e p) eqn:E;
      try (rewrite IH; split; [intros H q [->|Hq]; [by rewrite E | auto] | intros H q Hq; auto]).
    split; [done|]. intros H. by specialize (H p (or_introl eq_refl) b).
Qed.

(** ** Properties *)

(** The three-valued classification, in full: an explicit boolean flag decides alone (the first of
    the three places); without one the product is on the list exactly when a category field names a
    listed category up to case and spaces, off it when some category field holds text and none is
    listed, and unknown exactly when no category field holds text. *)
Theorem is_ftl_food_cases e :
  (forall b, first_bool e covered_paths = Some b -> is_ftl_food e = Some b)
  /\ (first_bool e covered_paths = None ->
      (is_ftl_food e = Some true <-> exists c, get_ftl_category e = Some c /\ c ∈ FTL_CATEGORIES)
      /\ (is_ftl_food e = None <-> forall p, p ∈ category_paths -> _normalize (get_nested_value e p) = None)).
Proof.
  unfold is_ftl_food. split; [by intros b ->|]. intros ->. split.
  - destruct (get_ftl_category e) as [c|] eqn:E.
    + split; [|done]. intros _. exists c. split; [done|]. by apply first_listed_spec in E as [? _].
    + split; [by destruct (existsb _ _)|]. by intros (c & ? & _).
  - assert (Hall : existsb (fun path => nonblank_text (get_nested_value e path)) category_paths = false
                   <-> forall p, p ∈ category_paths -> _normalize (get_nested_value e p) = None).
    { setoid_rewrite <- normalize_nonblank. rewrite <- not_true_iff_false, existsb_exists.
      setoid_rewrite list_elem_of_In. split.
      - intros H p Hp. apply not_true_iff_false. intros Ht. apply H. eauto.
      - intros H (p & Hp & Ht). rewrite H in Ht by done. done. }
    destruct (get_ftl_category e) as [c|] eqn:E.
    + apply first_listed_spec in E as [_ (p & Hp & Hn)]. split; [done|].
      intros H. by rewrite H in Hn.
    + rewrite <- Hall. by destruct (existsb _ _).
Qed.

Lemma is_ftl_food_cases_witness :
  is_ftl_food (PDict [("product", PDict [("category", PStr " HERBS ")])]) = Some true.
Proof.
  apply (is_ftl_food_cases (PDict [("product", PDict [("category", PStr " HERBS ")])])); [reflexivity|].
  exists "herbs". split; [reflexivity|]. apply list_elem_of_In, existsb_In_eqb. reflexivity.
Defined.

(** The keyword table is safe to use as a classifier: whatever category it suggests for a text, an
    event carrying that suggestion as its category is on the list under exactly that category. *)
Theorem keyword_category_listed text c :
  infer_ftl_category_from_text text = Some c ->
  get_ftl_category (PDict [("ftl_category", PStr c)]) = Some (lower c)
  /\ is_ftl_food (PDict [("ftl_category", PStr c)]) = Some true.
Proof.
  unfold infer_ftl_category_from_text. destruct (_normalize text) as [n|]; [|done].
  destruct (List.find _ _) as [[k c']|] eqn:E; [|done]. intros [= <-]. apply find_some in E as [Hin _].
  assert (Hall : forallb (fun p => bool_decide (get_ftl_category (PDict [("ftl_category", PStr (snd p))]) = Some (lower (snd p))))
                   FTL_KEYWORD_CATEGORIES = true) by (vm_compute; reflexivity).
  rewrite forallb_forall in Hall. specialize (Hall _ Hin). apply bool_decide_eq_true in Hall. cbn [snd] in Hall.
  split; [exact Hall|]. unfold is_ftl_food. by rewrite Hall.
Qed.

Lemma keyword_category_listed_witness :
  get_ftl_category (PDict [("ftl_category", PStr "Smoked Finfish")]) = Some "smoked finfish"
  /\ is_ftl_food (PDict [("ftl_category", PStr "Smoked Finfish")]) = Some true.
Proof. apply (keyword_category_listed (PStr "Alder SMOKED salmon, 4oz") "Smoked Finfish"). vm_compute. reflexivity. Defined.

(** No keyword is shadowed: an entry that contains an earlier keyword has that keyword's category. *)
Fixpoint unshadowed (table : list (string * string)) : bool :=
  match table with
  | [] => true
  | (k, c) :: rest =>
      forallb (fun p => negb (contains k (fst p)) || String.eqb c (snd p)) rest && unshadowed rest
  end.

Example keywords_unshadowed : unshadowed FTL_KEYWORD_CATEGORIES = true.
Proof. vm_compute. reflexivity. Qed.
