(* ===== verification/Stateless.v ===== *)
(** * Stateless rule evaluators

    [services/shared/rules/evaluators/stateless.py]: field presence, field format, presence across
    several fields, numeric ranges and the GS1 check digit, with their evidence and messages.  An
    evaluator may raise; the engine turns that into an error result.  [eid] is the fresh UUID of
    the result. *)

From Stdlib Require Import ZArith Lia String Ascii.
From Corelib Require Import SpecFloat.
From stdpp Require Import base list strings.
From S2P Require Import Prelude PyStr PyFloat PyVal Gs1 Rules Uom.

Local Open Scope string_scope.

Definition f1 : f64 := f_of_Z 1.

(** [RuleEvaluationResult(rule_id=rule.rule_id, ..., result=..., ...)], as every evaluator builds it. *)
Definition rule_result (eid : string) (rule : RuleDefinition) (res : string) (why : option string)
    (evidence : list pydict) (citation remediation : option string) : RuleEvaluationResult :=
  Result eid (rule_id rule) (rule_version rule) (title rule) (severity rule) res why evidence f1
    citation remediation (category rule).

Definition pass_result (eid : string) (rule : RuleDefinition) (evidence : list pydict) : RuleEvaluationResult :=
  rule_result eid rule "pass" None evidence (citation_reference rule) None.
Definition skip_result (eid : string) (rule : RuleDefinition) (evidence : list pydict) : RuleEvaluationResult :=
  rule_result eid rule "skip" None evidence (citation_reference rule) None.
Definition fail_result (eid : string) (rule : RuleDefinition) (why : string) (evidence : list pydict)
    : RuleEvaluationResult :=
  rule_result eid rule "fail" (Some why) evidence (citation_reference rule) (remediation_suggestion rule).

Definition _value_is_present (value : pyval) : bool :=
  match value with
  | PNone => false
  | PStr s => negb (String.eqb (strip s) "")
  | PList _ | PDict _ => (0 <? py_len value)%nat
  | _ => true
  end.

Section Stateless.
Context `{PyLib}.

(** [get_nested_value(event_data, path)] for a path taken from a rule. *)
Definition nested (event_data : pydict) (path : pyval) : res pyval :=
  do p <- as_str "split" path; Ok (get_nested_value (PDict event_data) p).

(** [str(value)[:200] if value is not None else None]. *)
Definition clip200 (value : pyval) : pyval :=
  if is_none value then PNone else PStr (str_take 200 (py_str value)).

Definition event_type_of (event_data : pydict) : pyval := dict_get event_data "event_type" (PStr "unknown").

Definition evaluate_field_presence (eid : string) (event_data logic : pydict) (rule : RuleDefinition)
    : res RuleEvaluationResult :=
  let path := dict_get logic "field" (PStr "") in
  do value <- nested event_data path;
  let is_present := _value_is_present value in
  let evidence := [[("field", path); ("value", clip200 value); ("expected", PStr "not_empty");
                    ("actual_present", PBool is_present)]] in
  if is_present then Ok (pass_result eid rule evidence)
  else
    do field_path <- as_str "split" path;
    do why <- str_format (failure_reason_template rule)
      [("field_name", PStr (replace_char "_" " " (last_segment field_path)));
       ("field_path", PStr field_path); ("citation", PStr (citation_or rule "FSMA 204"));
       ("event_type", event_type_of event_data)];
    Ok (fail_result eid rule why evidence).

Definition evaluate_field_format (eid : string) (event_data logic : pydict) (rule : RuleDefinition)
    : res RuleEvaluationResult :=
  let path := dict_get logic "field" (PStr "") in
  do pattern <- py_get (dict_get logic "params" (PDict [])) "pattern" (PStr ".*");
  do value <- nested event_data path;
  do field_path <- as_str "split" path;
  let evidence := [("field", path);
                   ("value", if truthy value then PStr (str_take 200 (py_str value)) else PNone);
                   ("expected_pattern", pattern)] in
  if match value with PNone => true | PStr s => String.eqb (strip s) "" | _ => false end then
    do why <- str_format (failure_reason_template rule)
      [("field_name", PStr (last_segment field_path)); ("field_path", PStr field_path);
       ("citation", PStr (citation_or rule "FSMA 204")); ("event_type", event_type_of event_data)];
    Ok (fail_result eid rule why [evidence])
  else
    do p <- match pattern with
            | PStr p => Ok p
            | _ => Raise (TypeError "first argument must be string or compiled pattern")
            end;
    do matches <- re_match p (py_str value);
    let evidence := dict_set "matches_pattern" (PBool matches) evidence in
    if matches then Ok (pass_result eid rule [evidence])
    else Ok (fail_result eid rule
      (last_segment field_path +:+ " value '" +:+ str_take 50 (py_str value)
       +:+ "' does not match required format (" +:+ citation_or rule "FSMA 204" +:+ ")") [evidence]).

(** The loop over the fields: evidence, and the flag of each field. *)
Fixpoint presence_loop (event_data : pydict) (fields : list pyval) : res (list (string * bool * pydict)) :=
  match fields with
  | [] => Ok []
  | fp :: rest =>
      do value <- nested event_data fp;
      do p <- as_str "split" fp;
      let is_present := _value_is_present value in
      do more <- presence_loop event_data rest;
      Ok ((p, is_present, [("field", fp); ("value", clip200 value); ("present", PBool is_present)]) :: more)
  end.

Definition evaluate_multi_field_presence (eid : string) (event_data logic : pydict) (rule : RuleDefinition)
    : res RuleEvaluationResult :=
  let params := dict_get logic "params" (PDict []) in
  do fields <- py_get params "fields" (PList []);
  do require <- py_get params "require" PNone;
  let require_all := py_eq require (PStr "all") in
  do fl <- py_iter fields;
  do checked <- presence_loop event_data fl;
  let evidence := map snd checked in
  let flags := map (fun c => snd (fst c)) checked in
  let missing := map (fun c => fst (fst c)) (List.filter (fun c => negb (snd (fst c))) checked) in
  let passed := if negb (truthy fields) then false
                else if require_all then forallb (fun b => b) flags else existsb (fun b => b) flags in
  if passed then Ok (pass_result eid rule evidence)
  else
    let failed_fields := if require_all then missing else map (fun c => fst (fst c)) checked in
    let field_names := str_join ", " (map (fun f => replace_char "_" " " (last_segment f)) failed_fields) in
    do why <- str_format (failure_reason_template rule)
      [("field_name", PStr field_names); ("field_path", PStr (str_join ", " failed_fields));
       ("citation", PStr (citation_or rule "FSMA 204")); ("event_type", event_type_of event_data)];
    Ok (fail_result eid rule why evidence).

Definition _coerce_float (value : pyval) : res (option f64) :=
  match value with
  | PNone | PBool _ => Ok None
  | _ => match py_float value with
         | Ok f => Ok (Some f)
         | Raise e => if String.eqb (exn_type e) "TypeError" || String.eqb (exn_type e) "ValueError"
                      then Ok None else Raise e
         end
  end.

(** [x or d]. *)
Definition py_or (x d : pyval) : pyval := if truthy x then x else d.

(** [_resolve_numeric_value]: the value, the field it came from, the note. *)
Definition _resolve_numeric_value (event_data logic : pydict) : res (option f64 * pyval * pyval) :=
  let params := py_or (dict_get logic "params" (PDict [])) (PDict []) in
  do source <- py_get params "source" PNone;
  if py_eq source (PStr "temperature") then
    do root_path <- py_get params "root" (PStr "kdes");
    do root <- (if truthy root_path then nested event_data root_path else Ok (PDict event_data));
    match root with
    | PDict d =>
        do resolved <- resolve_temperature_reading d;
        match resolved with
        | None => Ok (None, root_path, PNone)
        | Some (value_c, source_key) =>
            Ok (Some value_c,
                if truthy root_path then PStr (py_str root_path +:+ "." +:+ source_key) else PStr source_key,
                PStr ("normalized to °C from kdes." +:+ source_key))
        end
    | _ => Ok (None, root_path, PNone)
    end
  else
    do field_path <- (let f := dict_get logic "field" PNone in
                      if truthy f then Ok f else py_get params "field" PNone);
    if truthy field_path then
      do raw <- nested event_data field_path;
      do v <- _coerce_float raw;
      Ok (v, field_path, PNone)
    else Ok (None, PNone, PNone).

Definition optional_float (v : option f64) : pyval := match v with Some f => PFloat f | None => PNone end.

(** A bound of the range, when there is one: [bound is not None and cmp value (float bound)]. *)
Definition outside (cmp : f64 -> f64 -> bool) (value : f64) (bound : pyval) : res bool :=
  if is_none bound then Ok false else do b <- py_float bound; Ok (cmp value b).

(** The text of a failed range check: the rule's template, or the built-in one. *)
Definition range_reason (rule : RuleDefinition) (event_data : pydict) (field_label : string)
    (evidence_field min_v max_v unit_label : pyval) (value builtin : string) : res string :=
  if String.eqb (failure_reason_template rule) "" then Ok builtin
  else str_format (failure_reason_template rule)
    [("field_name", PStr field_label); ("field_path", py_or evidence_field (PStr ""));
     ("citation", PStr (citation_or rule "FSMA 204")); ("event_type", event_type_of event_data);
     ("min", min_v); ("max", max_v); ("value", PStr value); ("unit", unit_label)].

Definition evaluate_numeric_range (eid : string) (event_data logic : pydict) (rule : RuleDefinition)
    : res RuleEvaluationResult :=
  let params := py_or (dict_get logic "params" (PDict [])) (PDict []) in
  do min_v <- py_get params "min" PNone;
  do max_v <- py_get params "max" PNone;
  do unit_ <- py_get params "unit" PNone;
  let unit_label := py_or unit_ (PStr "C") in
  do '(value, evidence_field, note) <- _resolve_numeric_value event_data logic;
  let evidence := [[("field", evidence_field); ("value", optional_float value); ("expected_min", min_v);
                    ("expected_max", max_v); ("unit", unit_label); ("note", note)]] in
  match value with
  | None =>
      do missing_result <- py_get params "missing_result" PNone;
      if py_eq missing_result (PStr "skip") then Ok (skip_result eid rule evidence)
      else
        do label_path <- as_str "split" (py_or evidence_field (PStr "value"));
        let field_label := replace_char "_" " " (last_segment label_path) in
        do why <- range_reason rule event_data field_label evidence_field min_v max_v unit_label "missing"
          (field_label +:+ " missing — required for " +:+ citation_or rule "FSMA 204" +:+ " numeric-range check");
        Ok (fail_result eid rule why evidence)
  | Some v =>
      do below_min <- outside fltb v min_v;
      do above_max <- outside (fun a b => fltb b a) v max_v;
      if negb below_min && negb above_max then Ok (pass_result eid rule evidence)
      else
        do label_path <- as_str "split" (py_or evidence_field (PStr "value"));
        let field_label := replace_char "_" " " (last_segment label_path) in
        let direction :=
          if below_min && above_max
          then "outside [" +:+ py_str min_v +:+ ", " +:+ py_str max_v +:+ "] " +:+ py_str unit_label
          else if below_min then "below minimum " +:+ py_str min_v +:+ " " +:+ py_str unit_label
          else "above maximum " +:+ py_str max_v +:+ " " +:+ py_str unit_label in
        do why <- range_reason rule event_data field_label evidence_field min_v max_v unit_label (format_2f v)
          (field_label +:+ " = " +:+ format_2f v +:+ " " +:+ py_str unit_label +:+ " is " +:+ direction
           +:+ " (" +:+ citation_or rule "FSMA 204" +:+ ")");
        Ok (fail_result eid rule why evidence)
  end.

Definition evaluate_gs1_check_digit (eid : string) (event_data logic : pydict) (rule : RuleDefinition)
    : res RuleEvaluationResult :=
  let path := dict_get logic "field" (PStr "") in
  do value <- nested event_data path;
  do field_path <- as_str "split" path;
  let raw := if is_none value then "" else strip (py_str value) in
  let evidence := [("field", path);
                   ("value", if String.eqb raw "" then PNone else PStr (str_take 200 raw));
                   ("expected", PStr "13-digit GS1 identifier with valid check digit")] in
  if String.eqb raw "" || negb (str_isdigit raw) then
    Ok (skip_result eid rule
      [dict_set "note" (PStr "no numeric identifier provided — check digit not applicable") evidence])
  else
    do ok <- verify_gs1_check_digit (PStr raw);
    let valid := (slen raw =? 13)%nat && ok in
    let evidence := [dict_set "check_digit_valid" (PBool valid) evidence] in
    if valid then Ok (pass_result eid rule evidence)
    else
      let reason := if (slen raw =? 13)%nat then "invalid GS1 check digit" else "wrong length" in
      Ok (fail_result eid rule
        (last_segment field_path +:+ " value '" +:+ str_take 50 raw +:+ "' is not a valid GS1 identifier ("
         +:+ reason +:+ ") — " +:+ citation_or rule "GS1 General Specifications") evidence).

Definition evaluator := string -> pydict -> pydict -> RuleDefinition -> res RuleEvaluationResult.

(** [EVALUATORS]. *)
Definition EVALUATORS : list (string * evaluator) :=
  [("field_presence", evaluate_field_presence); ("field_format", evaluate_field_format);
   ("multi_field_presence", evaluate_multi_field_presence); ("numeric_range", evaluate_numeric_range);
   ("gs1_check_digit", evaluate_gs1_check_digit)].
End Stateless.

(** ** Facts *)

(** What every stateless evaluator answers: the rule's identity, one of three outcomes, and a reason
    exactly for a failure. *)
Definition stateless_outcome (eid : string) (rule : RuleDefinition) (r : RuleEvaluationResult) : Prop :=
  evaluation_id r = eid /\ re_rule_id r = rule_id rule /\ re_rule_version r = rule_version rule
  /\ re_severity r = severity rule /\ re_category r = category rule
  /\ ((result r = "pass" /\ why_failed r = None) \/ (result r = "skip" /\ why_failed r = None)
      \/ (result r = "fail" /\ is_Some (why_failed r))).

Lemma outcome_pass eid rule ev : stateless_outcome eid rule (pass_result eid rule ev).
Proof. repeat split. by left. Qed.
Lemma outcome_skip eid rule ev : stateless_outcome eid rule (skip_result eid rule ev).
Proof. repeat split. by right; left. Qed.
Lemma outcome_fail eid rule why ev : stateless_outcome eid rule (fail_result eid rule why ev).
Proof. repeat split. right; right. by split. Qed.

(** Follow the branches of an evaluator to the result it returns. *)
Ltac follow_result H :=
  repeat (cbn beta zeta in H;
    match type of H with
    | rbind _ _ = Ok _ => let Hc := fresh "Hc" in apply rbind_Ok_inv in H as (? & Hc & H)
    | (if _ then _ else _) = Ok _ => case_match
    | match _ with _ => _ end = Ok _ => case_match
    | Ok _ = Ok _ => apply Ok_inv in H as <-
    end).

Lemma evaluators_outcome `{PyLib} name f eid event_data logic rule r :
  assoc name EVALUATORS = Some f -> f eid event_data logic rule = Ok r -> stateless_outcome eid rule r.
Proof.
  unfold EVALUATORS. cbn [assoc]. intros Hf Hr.
  repeat (destruct (String.eqb name _) in Hf; [injection Hf as <-|]); [..|discriminate];
    unfold evaluate_field_presence, evaluate_field_format, evaluate_multi_field_presence,
      evaluate_numeric_range, evaluate_gs1_check_digit in Hr;
    follow_result Hr; auto using outcome_pass, outcome_skip, outcome_fail.
Qed.

Lemma nested_str `{PyLib} ed p : nested ed (PStr p) = Ok (get_nested_value (PDict ed) p).
Proof. done. Qed.

Definition present_at `{PyLib} (ed : pydict) (p : string) : bool := _value_is_present (get_nested_value (PDict ed) p).

Lemma presence_loop_strs `{PyLib} ed fs :
  exists ev, presence_loop ed (PStr <$> fs) = Ok (map (fun f => (f, present_at ed f, ev f)) fs).
Proof.
  exists (fun f => [("field", PStr f); ("value", clip200 (get_nested_value (PDict ed) f));
                    ("present", PBool (present_at ed f))]).
  induction fs as [|f fs IH]; [done|]. rewrite fmap_cons. cbn [presence_loop].
  rewrite nested_str. cbn [rbind as_str]. by rewrite IH.
Qed.

(** ** Properties *)

(** Presence across several fields, in full: with a list of field paths the rule passes (and does
    not raise) exactly when it names at least one field and, in require-all mode, every field is
    present, in the default mode some field is; otherwise it fails, or raises what formatting the
    rule's failure template raised.  In particular a rule that names no field never passes. *)
Theorem multi_field_presence_verdict `{PyLib} eid ed logic rule ps fs :
  dict_get logic "params" (PDict []) = PDict ps -> dict_get ps "fields" (PList []) = PList (PStr <$> fs) ->
  let require_all := py_eq (dict_get ps "require" PNone) (PStr "all") in
  let ok := negb (length fs =? 0)%nat
            && (if require_all then forallb (present_at ed) fs else existsb (present_at ed) fs) in
  if ok then exists ev, evaluate_multi_field_presence eid ed logic rule = Ok (pass_result eid rule ev)
  else match evaluate_multi_field_presence eid ed logic rule with
       | Ok r => result r = "fail"
       | Raise x => exists fields, str_format (failure_reason_template rule) fields = Raise x
       end.
Proof.
  intros Hp Hf. cbv zeta. unfold evaluate_multi_field_presence. rewrite Hp. cbn [py_get rbind]. rewrite Hf.
  cbn [rbind py_iter]. destruct (presence_loop_strs ed fs) as [ev ->]. cbn [rbind].
  assert (Hflags : map (fun c : string * bool * pydict => snd (fst c)) (map (fun f => (f, present_at ed f, ev f)) fs)
                   = map (present_at ed) fs) by (rewrite map_map; done).
  rewrite Hflags. set (ra := py_eq _ _).
  assert (Ht : truthy (PList (PStr <$> fs)) = negb (length fs =? 0)%nat) by by destruct fs.
  rewrite Ht. assert (Hfa : forall l, forallb (fun b : bool => b) (map (present_at ed) l) = forallb (present_at ed) l)
    by (intros l; induction l as [|x l IH]; cbn; [done | by rewrite IH]).
  assert (Hex : forall l, existsb (fun b : bool => b) (map (present_at ed) l) = existsb (present_at ed) l)
    by (intros l; induction l as [|x l IH]; cbn; [done | by rewrite IH]).
  rewrite Hfa, Hex. rewrite negb_involutive.
  assert (Hfail : forall fields ev', match rbind (str_format (failure_reason_template rule) fields)
              (fun why => Ok (fail_result eid rule why ev')) with
            | Ok r => result r = "fail"
            | Raise x => exists fields, str_format (failure_reason_template rule) fields = Raise x
            end) by (intros fields ev'; destruct (str_format _ fields) eqn:E; [done|by exists fields]).
  destruct (length fs =? 0)%nat; cbn [negb andb]; [apply Hfail|].
  destruct (if ra then _ else _); [by eexists|]. apply Hfail.
Qed.

Definition demo_rule : RuleDefinition :=
  Rule "r1" 1 "Rule" None "critical" "kde_presence" [] (Some "21 CFR") "2026-01-01" None [] "{field_name} missing" None.

Lemma multi_field_presence_verdict_witness :
  match evaluate_multi_field_presence (H := demo_lib) "e" [("a", PStr " ")]
      [("params", PDict [("fields", PList (PStr <$> ["a"; "b"]))])] demo_rule with
  | Ok r => result r = "fail"
  | Raise x => exists fields, @str_format demo_lib (failure_reason_template demo_rule) fields = Raise x
  end.
Proof.
  exact (multi_field_presence_verdict (H := demo_lib) "e" [("a", PStr " ")]
    [("params", PDict [("fields", PList (PStr <$> ["a"; "b"]))])] demo_rule
    [("fields", PList (PStr <$> ["a"; "b"]))] ["a"; "b"] eq_refl eq_refl).
Defined.

(** The evaluator returns a result with this outcome. *)
Definition answers (c : res RuleEvaluationResult) (outcome : string) : Prop :=
  exists r, c = Ok r /\ result r = outcome.

(** The numeric range check returns a pass exactly when a number was resolved and lies outside neither
    bound; so a missing or unparseable reading never passes, and it is skipped exactly when nothing
    was resolved and the rule asks for the skip. *)
Theorem numeric_range_verdict `{PyLib} eid ed logic rule ps :
  py_or (dict_get logic "params" (PDict [])) (PDict []) = PDict ps ->
  (answers (evaluate_numeric_range eid ed logic rule) "pass" <->
     exists v field note, _resolve_numeric_value ed logic = Ok (Some v, field, note)
       /\ outside fltb v (dict_get ps "min" PNone) = Ok false
       /\ outside (fun a b => fltb b a) v (dict_get ps "max" PNone) = Ok false)
  /\ (answers (evaluate_numeric_range eid ed logic rule) "skip" <->
     (exists field note, _resolve_numeric_value ed logic = Ok (None, field, note))
     /\ py_eq (dict_get ps "missing_result" PNone) (PStr "skip") = true).
Proof.
  intros Hp. unfold answers, evaluate_numeric_range. rewrite Hp. cbn [py_get rbind].
  destruct (_resolve_numeric_value ed logic) as [[[[v|] field] note]|x]; cbn [rbind].
  - split; split; try by intros [(? & ? & ?) _].
    + intros (r & Hr & E). apply rbind_Ok_inv in Hr as (b & Hb & Hr). apply rbind_Ok_inv in Hr as (a & Ha & Hr).
      exists v, field, note. destruct b, a; cbn [negb andb] in Hr; try done; follow_result Hr; discriminate.
    + intros (v' & field' & note' & [= <- <- <-] & Hb & Ha). rewrite Hb, Ha. by eexists.
    + intros (r & Hr & E). apply rbind_Ok_inv in Hr as (b & Hb & Hr). apply rbind_Ok_inv in Hr as (a & Ha & Hr).
      destruct b, a; cbn [negb andb] in Hr; follow_result Hr; discriminate.
  - split; split; try by intros (? & ? & ? & ? & _).
    + intros (r & Hr & E). destruct (py_eq _ _); follow_result Hr; discriminate.
    + intros (r & Hr & E). split; [by exists field, note|]. destruct (py_eq _ _); [done|]. follow_result Hr; discriminate.
    + intros [_ ->]. by eexists.
  - split; split; [by intros (? & ? & _)|by intros (? & ? & ? & ? & _)|by intros (? & ? & _)|by intros [(? & ? & ?) _]].
Qed.

Definition demo_range : pydict := [("params", PDict [("source", PStr "temperature"); ("max", PFloat (f_of_Z 5))])].

Lemma numeric_range_verdict_witness :
  answers (evaluate_numeric_range (H := demo_lib) "e" [("kdes", PDict [("temperature", PStr "34")])] demo_range demo_rule) "pass".
Proof.
  apply (numeric_range_verdict (H := demo_lib) "e" [("kdes", PDict [("temperature", PStr "34")])] demo_range demo_rule
    [("source", PStr "temperature"); ("max", PFloat (f_of_Z 5))] eq_refl).
  do 3 eexists. split; [vm_compute; reflexivity|]. split; vm_compute; reflexivity.
Defined.

(** A reading of "nan" counts as a number and is outside no bound, so it passes every range check:
    the one non-numeric reading that does not fail. *)
Theorem numeric_range_nan_passes `{PyLib} eid rule lo hi text :
  parse_float text = Some S754_nan ->
  exists ev, evaluate_numeric_range eid [("kdes", PDict [("temperature_celsius", PStr text)])]
    [("params", PDict [("source", PStr "temperature"); ("min", PFloat lo); ("max", PFloat hi)])] rule
  = Ok (pass_result eid rule ev).
Proof.
  intros Ht. eexists. unfold evaluate_numeric_range.
  assert (Hv : _resolve_numeric_value [("kdes", PDict [("temperature_celsius", PStr text)])]
    [("params", PDict [("source", PStr "temperature"); ("min", PFloat lo); ("max", PFloat hi)])]
    = Ok (Some S754_nan, PStr "kdes.temperature_celsius", PStr "normalized to °C from kdes.temperature_celsius")).
  { unfold _resolve_numeric_value. cbn -[resolve_temperature_reading].
    unfold resolve_temperature_reading. cbn -[parse_float]. by rewrite Ht. }
  rewrite Hv. cbn [py_or dict_get dict_lookup String.eqb Ascii.eqb Bool.eqb truthy py_get rbind]. cbn -[fltb f1].
  assert (Hn : forall x, fltb S754_nan x = false /\ fltb x S754_nan = false) by by intros [].
  rewrite (proj1 (Hn lo)), (proj2 (Hn hi)). reflexivity.
Qed.

Lemma numeric_range_nan_passes_witness :
  exists ev, evaluate_numeric_range (H := demo_lib) "e" [("kdes", PDict [("temperature_celsius", PStr " NaN ")])]
    [("params", PDict [("source", PStr "temperature"); ("min", PFloat (f_of_Z 0)); ("max", PFloat (f_of_Z 5))])] demo_rule
  = Ok (pass_result "e" demo_rule ev).
Proof. apply (numeric_range_nan_passes (H := demo_lib)). vm_compute. reflexivity. Defined.

(** The check-digit rule never raises on a text path and has three outcomes: skipped when the field
    holds no digits-only text, passed exactly for thirteen digits that verify, failed otherwise. *)
Theorem gs1_check_digit_verdict `{PyLib} eid ed rule path :
  let value := get_nested_value (PDict ed) path in
  let raw := if is_none value then "" else strip (py_str value) in
  exists r, evaluate_gs1_check_digit eid ed [("field", PStr path)] rule = Ok r
    /\ (result r = "skip" <-> str_isdigit raw = false)
    /\ (result r = "pass" <-> slen raw = 13%nat /\ verify_gs1_check_digit (PStr raw) = Ok true).
Proof.
  cbv zeta. unfold evaluate_gs1_check_digit. cbn [dict_get dict_lookup String.eqb Ascii.eqb Bool.eqb].
  change (dict_get [("field", PStr path)] "field" (PStr "")) with (PStr path).
  rewrite nested_str. cbn [rbind as_str]. set (raw := if is_none _ then _ else _). 
  assert (Hdec : verify_gs1_check_digit (PStr raw) = Ok true -> str_isdigit raw = true).
  { intros Hv. destruct (verify_decimal _ Hv) as [Hl Hd]. apply decimal_isdigit; [|done].
    intros E. rewrite E in Hl. cbn in Hl. lia. }
  destruct (String.eqb_spec raw "") as [E|Hne]; cbn [orb].
  - eexists. split; [reflexivity|]. rewrite E. cbn. split; [done|]. split; [done|]. by intros [? _].
  - destruct (str_isdigit raw) eqn:Hd; cbn [negb].
    + destruct (verify_total raw) as [ok Hv]. rewrite Hv.
      cbn [rbind]. destruct (Nat.eqb_spec (slen raw) 13) as [H13|H13]; cbn [andb]; [destruct ok|];
        (eexists; split; [reflexivity|]); (split; [done|]); split; try done; intros [? ?]; congruence.
    + eexists. split; [reflexivity|]. split; [done|]. split; [done|]. intros [_ Hv].
      discriminate (Hdec Hv).
Qed.
