(* ===== verification/Relational.v ===== *)
(** * Relational rule evaluators

    [services/shared/rules/evaluators/relational.py]: chronology, product identity and mass balance
    across the events of one lot.  The session is the table of traceability events; what the
    database driver does with an untyped parameter and the iteration order of a Python set are
    operations of the class [Runtime]. *)

From Stdlib Require Import ZArith Lia String Ascii.
From Corelib Require Import SpecFloat.
From stdpp Require Import base list strings.
From S2P Require Import Prelude PyStr PyFloat PyVal Json Rules Uom Stateless.

Local Open Scope string_scope.

(** A row of [fsma.traceability_events]; a stored quantity is the float it reads as. *)
Record traceability_row := TraceRow {
  te_event_id : string;
  te_tenant_id : string;
  te_tlc : string;
  te_status : string;
  te_event_type : string;
  te_event_timestamp : option datetime;
  te_product_reference : option string;
  te_quantity : option f64;
  te_unit_of_measure : option string
}.

Definition session := list traceability_row.

Class Runtime := {
  (** A parameter compared with a text column; the driver may refuse other types. *)
  bind_text : pyval -> res string;
  (** [CAST(x AS uuid)] and the canonical text of the result. *)
  cast_uuid : string -> res string;
  (** The iteration order of a set, given its elements in insertion order. *)
  set_order : list string -> list string
}.

Section Relational.
Context `{PyLib, Runtime}.

Definition _resolve_tenant (event_data : pydict) (session_tenant_id : option string) (rule : RuleDefinition)
    : option string :=
  if ostr_true session_tenant_id then session_tenant_id else None.

(** [ORDER BY event_timestamp ASC]: nulls last, ties in table order. *)
Definition ts_le (a b : traceability_row) : bool :=
  let key d := (dt_wall d - match dt_offset d with Some o => o | None => 0 end)%Z in
  match te_event_timestamp a, te_event_timestamp b with
  | Some x, Some y => (key x <=? key y)%Z
  | _, None => true
  | None, Some _ => false
  end.
Fixpoint ts_insert (r : traceability_row) (l : list traceability_row) : list traceability_row :=
  match l with
  | [] => [r]
  | r' :: l' => if ts_le r r' then r :: l else r' :: ts_insert r l'
  end.
Definition by_timestamp (l : list traceability_row) : list traceability_row := foldr ts_insert [] l.

(** [fetch_related_events]: active events of the lot and tenant, but not the excluded one. *)
Definition fetch_related_events (db : session) (tlc : pyval) (tenant_id : string) (exclude : option string)
    : res (list traceability_row) :=
  do t <- bind_text tlc;
  do ex <- match exclude with
           | None => Ok None
           | Some e => do u <- cast_uuid e; Ok (Some u)
           end;
  Ok (by_timestamp (List.filter (fun r =>
        String.eqb (te_tlc r) t && String.eqb (te_tenant_id r) tenant_id && String.eqb (te_status r) "active"
        && match ex with None => true | Some u => negb (String.eqb (te_event_id r) u) end) db)).

(** [related_events if related_events is not None else fetch_related_events(...)]. *)
Definition related_or_fetch (db : session) (cache : option (list traceability_row)) (tlc : pyval)
    (tenant event_id : string) : res (list traceability_row) :=
  match cache with
  | Some l => Ok l
  | None => fetch_related_events db tlc tenant (Some event_id)
  end.

Definition relational_skip (eid : string) (rule : RuleDefinition) (why : string) : RuleEvaluationResult :=
  rule_result eid rule "skip" (Some why) [] None None.
Definition relational_pass (eid : string) (rule : RuleDefinition) (evidence : list pydict) : RuleEvaluationResult :=
  rule_result eid rule "pass" None evidence None None.
Definition no_related (eid : string) (rule : RuleDefinition) (tlc : pyval) : RuleEvaluationResult :=
  relational_pass eid rule [[("note", PStr "No related events for TLC"); ("tlc", tlc)]].

(** ** Chronology *)

(** [datetime.fromisoformat(s.replace("Z", "+00:00"))] for texts; other values are kept. *)
Definition parse_ts (v : pyval) : res pyval :=
  match v with
  | PStr s => do d <- fromisoformat (replace_char "Z" "+00:00" s); Ok (PDatetime d)
  | _ => Ok v
  end.

(** [a op b] between timestamps, for [op] one of [<] and [>]; only datetimes compare. *)
Definition ts_cmp (op : string) (a b : pyval) : res bool :=
  match a, b with
  | PDatetime x, PDatetime y => if String.eqb op ">" then dt_lt y x else dt_lt x y
  | _, _ => Raise (TypeError ("'" +:+ op +:+ "' not supported between instances of '" +:+ type_name a
                              +:+ "' and '" +:+ type_name b +:+ "'"))
  end.

Definition stage_violation (earlier later : string * string) (id : string) : pydict :=
  [("earlier_stage", PStr (fst earlier)); ("earlier_timestamp", PStr (snd earlier));
   ("later_stage", PStr (fst later)); ("later_timestamp", PStr (snd later)); ("event_id", PStr id)].

(** One related event against the current one. *)
Definition check_event (current_type : string) (current_stage : Z) (current_ts : pyval) (evt : traceability_row)
    : res (option pydict) :=
  match assoc (te_event_type evt) CTE_LIFECYCLE_ORDER, te_event_timestamp evt with
  | Some other_stage, Some other_ts =>
      let other := (te_event_type evt, str_datetime other_ts) in
      let current := (current_type, py_str current_ts) in
      do later <- (if (other_stage <? current_stage)%Z then ts_cmp ">" (PDatetime other_ts) current_ts else Ok false);
      if later then Ok (Some (stage_violation other current (te_event_id evt)))
      else
        do earlier <- (if (current_stage <? other_stage)%Z then ts_cmp "<" (PDatetime other_ts) current_ts else Ok false);
        Ok (if earlier then Some (stage_violation current other (te_event_id evt)) else None)
  | _, _ => Ok None
  end.

Fixpoint violations (current_type : string) (current_stage : Z) (current_ts : pyval) (related : list traceability_row)
    : res (list pydict) :=
  match related with
  | [] => Ok []
  | evt :: rest =>
      do v <- check_event current_type current_stage current_ts evt;
      do vs <- violations current_type current_stage current_ts rest;
      Ok (match v with Some x => x :: vs | None => vs end)
  end.

Definition field_text (d : pydict) (k : string) : string := py_str (dict_get d k PNone).

Definition evaluate_temporal_order (eid : string) (event_data logic : pydict) (rule : RuleDefinition)
    (db : session) (tenant_id : option string) (related_events : option (list traceability_row))
    : res RuleEvaluationResult :=
  let tlc := dict_get event_data "traceability_lot_code" (PStr "") in
  let event_id := dict_get event_data "event_id" (PStr "") in
  match (if truthy tlc then _resolve_tenant event_data tenant_id rule else None) with
  | None => Ok (relational_skip eid rule "Missing TLC or authenticated tenant context for temporal check")
  | Some auth_tid =>
      do related <- related_or_fetch db related_events tlc auth_tid (py_str event_id);
      match related with
      | [] => Ok (no_related eid rule tlc)
      | _ =>
          let current_type := dict_get event_data "event_type" (PStr "") in
          do current_ts <- parse_ts (dict_get event_data "event_timestamp" PNone);
          if is_none current_ts
          then Ok (relational_skip eid rule "event_timestamp missing — temporal order cannot be evaluated")
          else
            do stage <- table_get CTE_LIFECYCLE_ORDER current_type;
            match stage with
            | None => Ok (relational_skip eid rule ("Unknown CTE type: " +:+ py_str current_type))
            | Some current_stage =>
                do vs <- violations (py_str current_type) current_stage current_ts related;
                match vs with
                | v :: _ =>
                    Ok (fail_result eid rule
                      ("Chronology paradox for TLC '" +:+ py_str tlc +:+ "': " +:+ field_text v "later_stage"
                       +:+ " (at " +:+ field_text v "later_timestamp" +:+ ") occurs before "
                       +:+ field_text v "earlier_stage" +:+ " (at " +:+ field_text v "earlier_timestamp"
                       +:+ "). CTE events must follow the supply chain lifecycle order ("
                       +:+ citation_or rule "21 CFR §1.1310" +:+ ").") vs)
                | [] =>
                    Ok (relational_pass eid rule
                      [[("tlc", tlc); ("events_checked", PInt (Z.of_nat (length related)));
                        ("current_stage", current_type)]])
                end
            end
      end
  end.

(** ** Product identity *)

(** [" ".join(p.strip().lower().split())]. *)
Definition normalize_product (p : string) : string := str_join " " (split_ws (lower (strip p))).

Definition evaluate_identity_consistency (eid : string) (event_data logic : pydict) (rule : RuleDefinition)
    (db : session) (tenant_id : option string) (related_events : option (list traceability_row))
    : res RuleEvaluationResult :=
  let tlc := dict_get event_data "traceability_lot_code" (PStr "") in
  let event_id := dict_get event_data "event_id" (PStr "") in
  let current_product := dict_get event_data "product_reference" PNone in
  match (if truthy current_product && truthy tlc then _resolve_tenant event_data tenant_id rule else None) with
  | None =>
      Ok (relational_skip eid rule "Missing product_reference, TLC, or authenticated tenant context for identity check")
  | Some auth_tid =>
      do related <- related_or_fetch db related_events tlc auth_tid (py_str event_id);
      match related with
      | [] => Ok (no_related eid rule tlc)
      | _ =>
          do product <- as_str "strip" current_product;
          let mismatch (evt : traceability_row) :=
            ostr_true (te_product_reference evt)
            && negb (String.eqb (normalize_product (ostr_or (te_product_reference evt) "")) (normalize_product product)) in
          let mismatches := map (fun evt =>
            [("event_id", PStr (te_event_id evt)); ("event_type", PStr (te_event_type evt));
             ("product_reference", PStr (ostr_or (te_product_reference evt) "")); ("current_product", current_product)])
            (List.filter mismatch related) in
          match mismatches with
          | m :: _ =>
              Ok (fail_result eid rule
                ("Product identity changed for TLC '" +:+ py_str tlc +:+ "': '" +:+ field_text m "product_reference"
                 +:+ "' (at " +:+ field_text m "event_type" +:+ ") vs '" +:+ product
                 +:+ "' (current event). The same TLC must refer to the same product throughout the supply chain ("
                 +:+ citation_or rule "21 CFR §1.1310(a)" +:+ ").") mismatches)
          | [] =>
              Ok (relational_pass eid rule
                [[("tlc", tlc); ("events_checked", PInt (Z.of_nat (length related))); ("product", current_product)]])
          end
      end
  end.

(** ** Mass balance *)

Definition input_types : list (string * unit) := [("harvesting", tt); ("receiving", tt); ("first_land_based_receiving", tt)].
Definition origin_types : list (string * unit) := [("initial_packing", tt); ("transformation", tt)].
Definition output_types : list (string * unit) := [("shipping", tt)].

(** One quantity with its unit and event type. *)
Record mass_entry := Entry { me_qty : f64; me_uom : pyval; me_type : pyval }.

Record totals := Totals { tot_input : f64; tot_origin : f64; tot_output : f64 }.

(** [etype in types]. *)
Definition type_in (etype : pyval) (types : list (string * unit)) : res bool :=
  do o <- table_get types etype; Ok (match o with Some _ => true | None => false end).

Definition add_entry (t : totals) (qty : f64) (etype : pyval) : res totals :=
  do is_in <- type_in etype input_types;
  if is_in then Ok (Totals (fadd (tot_input t) qty) (tot_origin t) (tot_output t))
  else do is_origin <- type_in etype origin_types;
    if is_origin then Ok (Totals (tot_input t) (fadd (tot_origin t) qty) (tot_output t))
    else do is_out <- type_in etype output_types;
      Ok (if is_out then Totals (tot_input t) (tot_origin t) (fadd (tot_output t) qty) else t).

Fixpoint add_entries (t : totals) (entries : list (f64 * pyval)) : res totals :=
  match entries with
  | [] => Ok t
  | (q, ty) :: rest => do t' <- add_entry t q ty; add_entries t' rest
  end.

(** The origin quantity stands in when there is no primary input. *)
Definition sum_entries (entries : list (f64 * pyval)) : res (f64 * f64) :=
  do t <- add_entries (Totals f0 f0 f0) entries;
  Ok (if feqb (tot_input t) f0 then tot_origin t else tot_input t, tot_output t).

(** Convert every entry to mass; [None] as soon as one cannot be converted. *)
Fixpoint convert_entries (weights : pyval) (entries : list mass_entry) : res (option (list (f64 * pyval))) :=
  match entries with
  | [] => Ok (Some [])
  | e :: rest =>
      do mass <- (if truthy (me_uom e) then normalize_to_mass (me_qty e) (me_uom e) weights else Ok None);
      match mass with
      | None => Ok None
      | Some m => do more <- convert_entries weights rest;
                  Ok (match more with Some l => Some ((m, me_type e) :: l) | None => None end)
      end
  end.

Definition unit_token (u : string) : string := strip (lower u).

Definition set_add (x : string) (l : list string) : list string :=
  if existsb (String.eqb x) l then l else (l ++ [x])%list.

Definition opt_str (o : option string) : pyval := match o with Some s => PStr s | None => PNone end.

(** The loop over the related events: units seen and entries. *)
Fixpoint collect (units : list string) (related : list traceability_row) : list string * list mass_entry :=
  match related with
  | [] => (units, [])
  | evt :: rest =>
      match te_quantity evt with
      | None => collect units rest
      | Some q =>
          let units := if ostr_true (te_unit_of_measure evt)
                       then set_add (unit_token (ostr_or (te_unit_of_measure evt) "")) units else units in
          let '(us, es) := collect units rest in
          (us, Entry q (opt_str (te_unit_of_measure evt)) (PStr (te_event_type evt)) :: es)
      end
  end.

(** [v / 100] for the tolerance of a rule. *)
Definition percent (v : pyval) : res f64 :=
  let of_int z := let f := f_of_dec (z <? 0)%Z (Z.abs z) (-2) in
                  if is_inf f then Raise (OverflowError "integer division result too large for a float") else Ok f in
  match v with
  | PFloat f => Ok (fdiv f (f_of_Z 100))
  | PInt z => of_int z
  | PBool b => of_int (if b then 1 else 0)%Z
  | _ => Raise (TypeError ("unsupported operand type(s) for /: '" +:+ type_name v +:+ "' and 'int'"))
  end.

Definition sorted_units (units : list string) : string :=
  str_join ", " (fst <$> key_sort ((fun u => (u, tt)) <$> units)).

(** Why mixed units give no verdict. *)
Definition mixed_reason (tlc : pyval) (units : list string) (total_input total_output : f64) : string :=
  if existsb (fun u => negb (is_mass_uom (Some u))) units
  then "Mass balance check not comparable for TLC '" +:+ py_str tlc
       +:+ "': events mix mass and container/count units (" +:+ sorted_units units
       +:+ "). Container UOMs (e.g. case/box/bin) are not convertible to mass without a tenant/product container-weight mapping, so no pass/fail verdict is rendered."
  else "Mass balance check inconclusive for TLC '" +:+ py_str tlc
       +:+ "': mixed units of measure detected (" +:+ sorted_units units
       +:+ ") and not all could be converted. Cannot reliably compare input (" +:+ repr_float total_input
       +:+ ") vs output (" +:+ repr_float total_output +:+ ").".

Definition warn_result (eid : string) (rule : RuleDefinition) (why : string) (evidence : list pydict)
    : RuleEvaluationResult :=
  rule_result eid rule "warn" (Some why) evidence (citation_reference rule) None.

(** The verdict once the totals are known. *)
Definition mass_verdict (eid : string) (rule : RuleDefinition) (tlc tolerance : pyval) (units : list string)
    (use_converted : bool) (total_input total_output : f64) (evidence : list pydict) : res RuleEvaluationResult :=
  if (1 <? length units)%nat && negb use_converted
  then Ok (warn_result eid rule (mixed_reason tlc units total_input total_output) evidence)
  else if feqb total_input f0 && fltb f0 total_output
  then Ok (warn_result eid rule
    ("Mass balance check for TLC '" +:+ py_str tlc +:+ "': output quantity (" +:+ repr_float total_output
     +:+ ") recorded but no input events found. Input events (harvesting/receiving) may not yet be recorded.")
    evidence)
  else
    do p <- percent tolerance;
    let max_allowed := fmul total_input (fadd f1 p) in
    if fltb max_allowed total_output
    then Ok (fail_result eid rule
      ("Mass balance violation for TLC '" +:+ py_str tlc +:+ "': total output (" +:+ repr_float total_output
       +:+ ") exceeds total input (" +:+ repr_float total_input +:+ ") by more than " +:+ py_str tolerance
       +:+ "% tolerance (max allowed: " +:+ format_2f max_allowed +:+ "). ("
       +:+ citation_or rule "21 CFR §1.1310" +:+ ").") evidence)
    else Ok (relational_pass eid rule evidence).

Definition evaluate_mass_balance (eid : string) (event_data logic : pydict) (rule : RuleDefinition)
    (db : session) (tenant_id : option string) (related_events : option (list traceability_row))
    : res RuleEvaluationResult :=
  let tlc := dict_get event_data "traceability_lot_code" (PStr "") in
  let event_id := dict_get event_data "event_id" (PStr "") in
  let current_quantity := dict_get event_data "quantity" PNone in
  let current_uom := dict_get event_data "unit_of_measure" (PStr "") in
  let current_type := dict_get event_data "event_type" (PStr "") in
  match (if truthy tlc && negb (is_none current_quantity) then _resolve_tenant event_data tenant_id rule else None) with
  | None =>
      Ok (relational_skip eid rule "Missing TLC, authenticated tenant context, or quantity for mass balance check")
  | Some auth_tid =>
      do related <- related_or_fetch db related_events tlc auth_tid (py_str event_id);
      match related with
      | [] => Ok (no_related eid rule tlc)
      | _ =>
          let params := dict_get logic "params" (PDict []) in
          do tolerance <- py_get params "tolerance_percent" (PFloat (flit "1.0"));
          do weights <- py_get params "container_weights" PNone;
          do q <- py_float current_quantity;
          do units <- (if truthy current_uom then do u <- as_str "lower" current_uom; Ok [unit_token u] else Ok []);
          let '(units, more) := collect units related in
          let entries := Entry q current_uom current_type :: more in
          do converted <- (if (1 <? length units)%nat then convert_entries (py_or weights (PDict [])) entries
                           else Ok None);
          do '(total_input, total_output) <- sum_entries
            (match converted with
             | Some l => l
             | None => map (fun e => (me_qty e, me_type e)) entries
             end);
          let use_converted := match converted with Some _ => true | None => false end in
          let evidence :=
            [[("tlc", tlc); ("total_input", PFloat total_input); ("total_output", PFloat total_output);
              ("tolerance_percent", tolerance); ("units_seen", PList (PStr <$> set_order units));
              ("events_checked", PInt (Z.of_nat (S (length related)))); ("uom_converted", PBool use_converted)]] in
          mass_verdict eid rule tlc tolerance units use_converted total_input total_output evidence
      end
  end.

Definition relational_evaluator :=
  string -> pydict -> pydict -> RuleDefinition -> session -> option string -> option (list traceability_row) ->
  res RuleEvaluationResult.

(** [RELATIONAL_EVALUATORS]. *)
Definition RELATIONAL_EVALUATORS : list (string * relational_evaluator) :=
  [("temporal_order", evaluate_temporal_order); ("identity_consistency", evaluate_identity_consistency);
   ("mass_balance", evaluate_mass_balance)].
End Relational.

(** ** Facts *)

Lemma filter_andb {A} (p q : A -> bool) l :
  List.filter (fun x => p x && q x) l = List.filter p (List.filter q l).
Proof.
  induction l as [|x l IH]; cbn; [done|]. rewrite IH. destruct (q x); cbn; [|by rewrite andb_false_r].
  by rewrite andb_true_r.
Qed.

Definition tenant_rows (tid : string) (db : session) : session :=
  List.filter (fun r => String.eqb (te_tenant_id r) tid) db.

(** The query sees nothing but the tenant's rows. *)
Lemma fetch_tenant_rows `{PyLib, Runtime} db db' tlc tid ex :
  tenant_rows tid db = tenant_rows tid db' ->
  fetch_related_events db tlc tid ex = fetch_related_events db' tlc tid ex.
Proof.
  intros Hd. unfold fetch_related_events. destruct (bind_text tlc) as [t|]; [|done]. cbn [rbind].
  match goal with |- rbind ?c _ = _ => destruct c as [o|] end; [|done]. cbn [rbind]. do 2 f_equal.
  assert (Hf : forall d, List.filter (fun r =>
      String.eqb (te_tlc r) t && String.eqb (te_tenant_id r) tid && String.eqb (te_status r) "active"
      && match o with None => true | Some u => negb (String.eqb (te_event_id r) u) end) d
    = List.filter (fun r => String.eqb (te_tlc r) t && String.eqb (te_status r) "active"
      && match o with None => true | Some u => negb (String.eqb (te_event_id r) u) end) (tenant_rows tid d)).
  { intros d. unfold tenant_rows. rewrite <- filter_andb. apply List.filter_ext. intros r.
    destruct (String.eqb (te_tlc r) t), (String.eqb (te_tenant_id r) tid), (String.eqb (te_status r) "active");
      cbn; by rewrite ?andb_true_r, ?andb_false_r. }
  by rewrite !Hf, Hd.
Qed.

Lemma related_or_fetch_tenant `{PyLib, Runtime} db db' cache tlc tid id :
  tenant_rows tid db = tenant_rows tid db' ->
  related_or_fetch db cache tlc tid id = related_or_fetch db' cache tlc tid id.
Proof. intros Hd. destruct cache; cbn; [done | by apply fetch_tenant_rows]. Qed.

(** A relational evaluator reads only the tenant's rows, and not the payload's tenant. *)
Lemma relational_isolation `{PyLib, Runtime} name f eid ed logic rule db db' tid cache v :
  assoc name RELATIONAL_EVALUATORS = Some f -> tenant_rows tid db = tenant_rows tid db' ->
  f eid (dict_set "tenant_id" v ed) logic rule db (Some tid) cache = f eid ed logic rule db' (Some tid) cache.
Proof.
  unfold RELATIONAL_EVALUATORS. cbn [assoc]. intros Hf Hd.
  repeat (destruct (String.eqb name _) in Hf; [injection Hf as <-|]); [..|discriminate];
    unfold evaluate_temporal_order, evaluate_identity_consistency, evaluate_mass_balance, _resolve_tenant;
    rewrite !dict_get_set_ne by discriminate; destruct (ostr_true (Some tid)); cbv beta iota;
    match goal with |- context [if ?b then _ else None] => destruct b end; cbv beta iota;
    try done; by rewrite (related_or_fetch_tenant db db').
Qed.

(** ** Chronology *)

(** The related event's stage and time contradict the current event's. *)
Definition paradox (stage : Z) (cur : datetime) (evt : traceability_row) : Prop :=
  exists other_stage d,
    assoc (te_event_type evt) CTE_LIFECYCLE_ORDER = Some other_stage /\ te_event_timestamp evt = Some d
    /\ ((other_stage < stage /\ instant cur < instant d) \/ (stage < other_stage /\ instant d < instant cur))%Z.

Lemma dt_lt_aware a b : aware a -> aware b -> dt_lt a b = Ok (instant a <? instant b)%Z.
Proof. unfold aware, dt_lt, instant. by destruct (dt_offset a), (dt_offset b). Qed.

Lemma check_event_spec `{PyLib} ty stage cur evt :
  aware cur -> (forall d, te_event_timestamp evt = Some d -> aware d) ->
  exists o, check_event ty stage (PDatetime cur) evt = Ok o /\ (is_Some o <-> paradox stage cur evt).
Proof.
  intros Hc He. unfold check_event, paradox.
  destruct (assoc (te_event_type evt) CTE_LIFECYCLE_ORDER) as [os|] eqn:Hs.
  2: { exists None. split; [done|]. split; [by intros []|]. by intros (? & ? & ? & _). }
  destruct (te_event_timestamp evt) as [d|] eqn:Ht.
  2: { exists None. split; [done|]. split; [by intros []|]. by intros (? & ? & _ & ? & _). }
  specialize (He d eq_refl). cbn [ts_cmp String.eqb Ascii.eqb Bool.eqb].
  rewrite (dt_lt_aware cur d), (dt_lt_aware d cur) by done.
  assert (Hiff : (exists other_stage d0, Some os = Some other_stage /\ Some d = Some d0
      /\ ((other_stage < stage /\ instant cur < instant d0) \/ (stage < other_stage /\ instant d0 < instant cur))%Z)
    <-> ((os < stage /\ instant cur < instant d) \/ (stage < os /\ instant d < instant cur))%Z).
  { split; [by intros (? & ? & [= <-] & [= <-] & ?)|]. intros. by exists os, d. }
  setoid_rewrite Hiff. clear Hiff.
  destruct (Z.ltb_spec os stage), (Z.ltb_spec stage os), (Z.ltb_spec (instant cur) (instant d)),
    (Z.ltb_spec (instant d) (instant cur)); cbn [rbind]; eexists; (split; [reflexivity|]);
    (split; [intros [? Hx]; first [discriminate Hx | lia] | intros Hor; first [by eexists | exfalso; lia]]).
Qed.

Lemma violations_spec `{PyLib} ty stage cur related :
  aware cur -> (forall evt d, evt ∈ related -> te_event_timestamp evt = Some d -> aware d) ->
  exists vs, violations ty stage (PDatetime cur) related = Ok vs
    /\ (vs <> [] <-> exists evt, evt ∈ related /\ paradox stage cur evt).
Proof.
  intros Hc. induction related as [|evt rest IH]; intros He; cbn [violations].
  - exists []. split; [done|]. split; [done|]. intros (? & Hin & _). by apply elem_of_nil in Hin.
  - destruct (check_event_spec ty stage cur evt Hc) as (o & -> & Ho).
    { intros d. apply He, list_elem_of_here. }
    destruct IH as (vs & -> & Hvs). { intros e d Hin. by apply He, list_elem_of_further. }
    cbn [rbind]. eexists. split; [reflexivity|]. setoid_rewrite elem_of_cons. split.
    + destruct o as [x|]; [intros _; exists evt; split; [by left | by apply Ho]|].
      intros (e & Hin & Hp)%Hvs. exists e. auto.
    + intros (e & [->|Hin] & Hp).
      * apply Ho in Hp as [x ->]. done.
      * assert (vs <> []) by (apply Hvs; eauto). by destruct o.
Qed.

(** ** Properties *)

(** The chronology rule is exact: for an event of a known type with an aware timestamp, compared with
    related events whose timestamps are aware, the evaluator returns, fails exactly when some related
    event of an earlier stage happened strictly later or one of a later stage strictly earlier, and
    passes otherwise. *)
Theorem temporal_order_exact `{PyLib, Runtime} eid ed logic rule db tid related tlc ty stage cur :
  dict_get ed "traceability_lot_code" (PStr "") = PStr tlc -> tlc <> "" -> tid <> "" -> related <> [] ->
  dict_get ed "event_type" (PStr "") = PStr ty -> assoc ty CTE_LIFECYCLE_ORDER = Some stage ->
  parse_ts (dict_get ed "event_timestamp" PNone) = Ok (PDatetime cur) -> aware cur ->
  (forall evt d, evt ∈ related -> te_event_timestamp evt = Some d -> aware d) ->
  exists r, evaluate_temporal_order eid ed logic rule db (Some tid) (Some related) = Ok r
    /\ (result r = "fail" <-> exists evt, evt ∈ related /\ paradox stage cur evt)
    /\ (result r = "pass" <-> ~ exists evt, evt ∈ related /\ paradox stage cur evt).
Proof.
  intros Htlc Hne Htid Hrel Hty Hst Hts Hc He. unfold evaluate_temporal_order. rewrite Htlc, Hty, Hts.
  cbn [truthy]. apply String.eqb_neq in Hne. rewrite Hne. cbn [negb]. unfold _resolve_tenant.
  cbn [ostr_true]. apply String.eqb_neq in Htid. rewrite Htid. cbn [negb related_or_fetch rbind].
  destruct related as [|e0 es]; [done|]. cbn [is_none table_get rbind]. rewrite Hst. cbn [py_str].
  destruct (violations_spec ty stage cur (e0 :: es) Hc He) as (vs & -> & Hvs). cbn [rbind].
  setoid_rewrite <- Hvs. destruct vs as [|v vs]; (eexists; split; [reflexivity|]); split; split; intros Hf; try done.
  - intros Hx. by destruct (Hx eq_refl).
  - exfalso. by apply Hf.
Qed.

#[local] Instance demo_runtime : Runtime :=
  {| bind_text := fun v => match v with PStr s => Ok s | _ => Raise (Exn "ProgrammingError" "") end;
     cast_uuid := fun s => if String.eqb s "" then Raise (Exn "DataError" "") else Ok s;
     set_order := fun l => l |}.

Definition demo_related (id tenant ty : string) (ts : Z) (q : f64) (uom : string) : traceability_row :=
  TraceRow id tenant "L1" "active" ty (Some (Datetime ts (Some 0%Z))) (Some "Romaine") (Some q) (Some uom).

Definition demo_shipping : pydict :=
  [("event_id", PStr "e9"); ("traceability_lot_code", PStr "L1"); ("event_type", PStr "shipping");
   ("event_timestamp", PDatetime (Datetime 100 (Some 0%Z))); ("quantity", PInt 10); ("unit_of_measure", PStr "cases");
   ("tenant_id", PStr "t2")].

Lemma temporal_order_exact_witness :
  exists r, evaluate_temporal_order (H := demo_lib) "x" demo_shipping [] demo_rule [] (Some "t1")
              (Some [demo_related "e1" "t1" "harvesting" 200 f1 "lb"]) = Ok r
    /\ result r = "fail".
Proof.
  destruct (temporal_order_exact (H := demo_lib) "x" demo_shipping [] demo_rule [] "t1"
    [demo_related "e1" "t1" "harvesting" 200 f1 "lb"] "L1" "shipping" 5 (Datetime 100 (Some 0%Z)))
    as (r & Hr & Hf & _); try reflexivity; try discriminate.
  - intros evt d Hin. apply list_elem_of_singleton in Hin as ->. intros [= <-]. discriminate.
  - exists r. split; [exact Hr|]. apply Hf. exists (demo_related "e1" "t1" "harvesting" 200 f1 "lb").
    split; [apply list_elem_of_here|]. exists 0%Z, (Datetime 200 (Some 0%Z)).
    split; [reflexivity|]. split; [reflexivity|]. left. split; reflexivity.
Defined.

(** ** Mass balance never guesses *)

Lemma convert_entries_mass entries l :
  convert_entries (PDict []) entries = Ok (Some l) ->
  Forall (fun e => exists u, me_uom e = PStr u /\ is_mass_uom (Some u) = true) entries
  /\ length l = length entries.
Proof.
  revert l. induction entries as [|e entries IH]; intros l; cbn [convert_entries].
  - intros [= <-]. split; [constructor | done].
  - intros (mass & Hm & H)%rbind_Ok_inv. destruct mass as [m|]; [|done].
    apply rbind_Ok_inv in H as (more & Hmore & H). destruct more as [l'|]; [|done]. injection H as <-.
    destruct (IH _ Hmore) as [Hf Hl]. split; [|cbn; by f_equal]. constructor; [|done].
    destruct (me_uom e) as [|b|z|f|u|d|l0|d]; try (cbn in Hm; repeat case_match; discriminate).
    exists u. split; [done|]. cbn [truthy] in Hm. unfold is_mass_uom. destruct (String.eqb u ""); [done|].
    cbn [negb] in Hm. unfold normalize_to_mass in Hm. cbn [as_str rbind truthy] in Hm.
    by destruct (assoc (_uom_key u) _MASS_UOM_TO_LBS).
Qed.

Lemma collect_entries units related :
  snd (collect units related)
  = omap (fun evt => match te_quantity evt with
                     | Some q => Some (Entry q (opt_str (te_unit_of_measure evt)) (PStr (te_event_type evt)))
                     | None => None
                     end) related.
Proof.
  revert units. induction related as [|evt rest IH]; intros units; cbn [collect]; [done|].
  destruct (te_quantity evt) as [q|] eqn:Hq; cbn; rewrite Hq; [|apply IH].
  rewrite <- (IH (if ostr_true (te_unit_of_measure evt)
                  then set_add (unit_token (ostr_or (te_unit_of_measure evt) "")) units else units)).
  by destruct (collect _ rest).
Qed.

(** The unit of the current event, as the set of units starts. *)
Definition own_units (ed : pydict) : list string :=
  match dict_get ed "unit_of_measure" (PStr "") with
  | PStr s => if String.eqb s "" then [] else [unit_token s]
  | _ => []
  end.

(** Mass balance never guesses a container's weight: when the event and its related events carry more
    than one unit and the rule supplies no container weights, a pass or fail is given only if every
    quantity, the event's own and each related one, is in a true mass unit. *)
Theorem mass_balance_never_guesses `{PyLib, Runtime} eid ed logic rule db tid cache related ps r :
  evaluate_mass_balance eid ed logic rule db tid cache = Ok r ->
  result r = "pass" \/ result r = "fail" ->
  related_or_fetch db cache (dict_get ed "traceability_lot_code" (PStr "")) (ostr_or tid "")
    (py_str (dict_get ed "event_id" (PStr ""))) = Ok related -> related <> [] ->
  dict_get logic "params" (PDict []) = PDict ps -> truthy (dict_get ps "container_weights" PNone) = false ->
  (1 < length (fst (collect (own_units ed) related)))%nat ->
  (exists u, dict_get ed "unit_of_measure" (PStr "") = PStr u /\ is_mass_uom (Some u) = true)
  /\ (forall evt q, evt ∈ related -> te_quantity evt = Some q ->
        exists u, te_unit_of_measure evt = Some u /\ is_mass_uom (Some u) = true).
Proof.
  intros Hr Hres Hrel Hne Hps Hw Hlen. unfold evaluate_mass_balance, _resolve_tenant in Hr.
  destruct (truthy _ && _) in Hr; [|by injection Hr as <-; destruct Hres].
  destruct tid as [tid|]; cbn [ostr_true] in Hr; [|by injection Hr as <-; destruct Hres].
  destruct (String.eqb_spec tid "") as [|Ht]; cbn [negb] in Hr; [by injection Hr as <-; destruct Hres|].
  rewrite ostr_or_ne in Hrel by done. rewrite Hrel in Hr. cbn [rbind] in Hr.
  destruct related as [|e0 es]; [done|]. set (related := e0 :: es) in *. cbn zeta in Hr. rewrite Hps in Hr.
  cbn [py_get rbind] in Hr. apply rbind_Ok_inv in Hr as (q & _ & Hr).
  apply rbind_Ok_inv in Hr as (units & Hu & Hr).
  assert (units = own_units ed) as ->.
  { unfold own_units. destruct (dict_get ed "unit_of_measure" (PStr "")) as [|b|z|f|s|d|l|d]; cbn in Hu;
      repeat case_match; try discriminate; by injection Hu as <-. }
  destruct (collect (own_units ed) related) as [units more] eqn:Hcol. cbn [fst] in Hlen.
  pose proof (collect_entries (own_units ed) related) as Hmore. rewrite Hcol in Hmore. cbn [snd] in Hmore.
  apply Nat.ltb_lt in Hlen. rewrite Hlen in Hr. unfold py_or in Hr. rewrite Hw in Hr.
  apply rbind_Ok_inv in Hr as (converted & Hconv & Hr). apply rbind_Ok_inv in Hr as ([ti to] & _ & Hr).
  destruct converted as [l|].
  2: { unfold mass_verdict in Hr. rewrite Hlen in Hr. cbn [negb andb] in Hr. injection Hr as <-. by destruct Hres. }
  apply convert_entries_mass in Hconv as [Hf _]. apply Forall_cons in Hf as [Hown Hf]. split; [exact Hown|].
  intros evt q' Hin Hq. rewrite Forall_forall in Hf. subst more.
  destruct (Hf (Entry q' (opt_str (te_unit_of_measure evt)) (PStr (te_event_type evt)))) as (u & Hu' & Hm).
  { apply list_elem_of_omap. exists evt. by rewrite Hq. }
  cbn in Hu'. destruct (te_unit_of_measure evt) as [u'|]; [|done]. injection Hu' as ->. by exists u.
Qed.

Lemma mass_balance_never_guesses_witness :
  exists r, evaluate_mass_balance (H := demo_lib) "x" (dict_set "unit_of_measure" (PStr "kg") demo_shipping) [] demo_rule
      [demo_related "e1" "t1" "harvesting" 50 (f_of_Z 30) "LB."] (Some "t1") None = Ok r
    /\ result r = "pass" /\ is_mass_uom (Some "kg") = true.
Proof.
  destruct (evaluate_mass_balance (H := demo_lib) "x" (dict_set "unit_of_measure" (PStr "kg") demo_shipping) [] demo_rule
      [demo_related "e1" "t1" "harvesting" 50 (f_of_Z 30) "LB."] (Some "t1") None) as [r|x] eqn:E;
    [|exfalso; vm_compute in E; discriminate].
  assert (Hp : result r = "pass").
  { vm_compute in E. apply Ok_inv in E as <-. reflexivity. }
  exists r. split; [reflexivity|]. split; [exact Hp|].
  destruct (mass_balance_never_guesses (H := demo_lib) _ _ _ _ _ _ _ [demo_related "e1" "t1" "harvesting" 50 (f_of_Z 30) "LB."] []
    r E (or_introl Hp)) as [(u & Hu & Hm) _];
    [vm_compute; reflexivity | discriminate | reflexivity | reflexivity | vm_compute; lia |].
  injection Hu as <-. exact Hm.
Defined.
