(* ===== verification/Engine.v ===== *)
(** * The rules engine

    [services/shared/rules/engine.py]: rule cache and loading, applicability, the evaluation of one
    event and of a batch, and persistence with savepoints, salvage and dead-letter.  The database is
    a record of tables; the statements it refuses are given by an oracle, one verdict per row, so a
    statement that inserts several rows fails when one of them is refused. *)

From Stdlib Require Import ZArith Lia String Ascii.
From Corelib Require Import SpecFloat.
From stdpp Require Import base list strings.
From S2P Require Import Prelude PyStr PyFloat PyVal Json Rules Uom Ftl Stateless Relational.

Local Open Scope string_scope.

(** ** Tables *)

(** A JSON column: the driver gives an object, or text that holds one. *)
Inductive json_column := JObject (d : pydict) | JText (s : option string).

(** A row of [fsma.rule_definitions]; dates are ISO texts, which compare as dates. *)
Record rule_row := RuleRow {
  rr_rule_id : string; rr_rule_version : Z; rr_title : string; rr_description : option string;
  rr_severity : string; rr_category : string; rr_conditions : json_column; rr_citation : option string;
  rr_effective_date : string; rr_retired_date : option string; rr_logic : json_column;
  rr_template : string; rr_remediation : option string
}.

(** A row of [fsma.rule_evaluations]. *)
Record eval_row := EvalRow {
  er_eval_id : string; er_tenant_id : string; er_event_id : pyval; er_rule_id : string; er_rule_version : Z;
  er_result : string; er_why_failed : option string; er_evidence : string; er_confidence : f64
}.

(** The evaluation columns of an event row. *)
Record event_mark := Mark {
  em_tenant_id : string; em_event_id : string;
  em_verdict : option string; em_reason : option string; em_error : option string
}.

Record edb := EDb {
  rule_definitions : list rule_row;
  traceability_events : Relational.session;
  event_marks : list event_mark;
  rule_evaluations : list eval_row;
  rule_evaluation_deadletter : list (eval_row * string)
}.

(** What the database refuses. *)
Record oracle := Oracle {
  refuse_eval : eval_row -> option exn;
  refuse_deadletter : eval_row -> option exn;
  refuse_verdict : option exn;
  refuse_mark : option exn
}.

Class JsonLib := { json_loads : string -> res pydict }.

(** An engine instance: its rule cache. *)
Record engine := Engine {
  _cache_ttl_seconds : Z;
  _rules_cache : option (list RuleDefinition);
  _rules_cache_loaded_at : option Z
}.

Definition DEFAULT_CACHE_TTL_SECONDS : Z := 60.

(** [RulesEngine(session, cache_ttl_seconds=...)]. *)
Definition new_engine (ttl : option Z) : engine :=
  Engine (match ttl with Some t => t | None => DEFAULT_CACHE_TTL_SECONDS end) None None.

(** What a call takes from outside: the monotonic clock, the date, the source of UUIDs. *)
Record call_env := CallEnv { ce_now : Z; ce_today : string; ce_uuid : nat -> string }.

Section Engine.
Context `{PyLib, Runtime, JsonLib}.

(** ** Rule cache *)

Definition _is_cache_fresh (now : Z) (e : engine) : bool :=
  match _rules_cache e, _rules_cache_loaded_at e with
  | Some _, Some at_ => if (_cache_ttl_seconds e <=? 0)%Z then false else (now - at_ <? _cache_ttl_seconds e)%Z
  | _, _ => false
  end.

Definition invalidate_cache (e : engine) : engine := Engine (_cache_ttl_seconds e) None None.

Definition load_json (c : json_column) : res pydict :=
  match c with
  | JObject d => Ok d
  | JText s => json_loads (ostr_or s "{}")
  end.

Definition rule_of_row (r : rule_row) : res RuleDefinition :=
  do conditions <- load_json (rr_conditions r);
  do logic <- load_json (rr_logic r);
  Ok (Rule (rr_rule_id r) (rr_rule_version r) (rr_title r) (rr_description r) (rr_severity r) (rr_category r)
        conditions (rr_citation r) (rr_effective_date r) (rr_retired_date r) logic (rr_template r) (rr_remediation r)).

(** [ORDER BY severity DESC, category, title]. *)
Definition rule_le (a b : rule_row) : bool :=
  match String.compare (rr_severity b) (rr_severity a) with
  | Lt => true
  | Gt => false
  | Eq => match String.compare (rr_category a) (rr_category b) with
          | Lt => true
          | Gt => false
          | Eq => String.leb (rr_title a) (rr_title b)
          end
  end.
Fixpoint rule_insert (r : rule_row) (l : list rule_row) : list rule_row :=
  match l with
  | [] => [r]
  | r' :: l' => if rule_le r r' then r :: l else r' :: rule_insert r l'
  end.

(** The query of [load_active_rules]. *)
Definition active_rows (today : string) (rows : list rule_row) : list rule_row :=
  foldr rule_insert [] (List.filter (fun r =>
    match rr_retired_date r with None => String.leb (rr_effective_date r) today | Some _ => false end) rows).

Definition load_active_rules (env : call_env) (db : edb) (e : engine) : res (engine * list RuleDefinition) :=
  do rules <- rmapM rule_of_row (active_rows (ce_today env) (rule_definitions db));
  Ok (Engine (_cache_ttl_seconds e) (Some rules) (Some (ce_now env)), rules).

(** ** Applicability *)

(** [{s.strip().upper() for s in ftl_scope if isinstance(s, str) and s.strip()}]. *)
Definition scope_tokens (scope : list pyval) : list string :=
  flat_map (fun s => match s with
                     | PStr t => if String.eqb (strip t) "" then [] else [upper (strip t)]
                     | _ => []
                     end) scope.

(** One rule of the loop of [get_applicable_rules]. *)
Definition rule_applicable (event_type : pyval) (event_ftl_category : option string) (event_is_ftl : option bool)
    (rule : RuleDefinition) : res bool :=
  let conditions := applicability_conditions rule in
  let cte_types := dict_get conditions "cte_types" (PList []) in
  do cte_match <- (if negb (truthy cte_types) then Ok true
                   else do b <- py_in event_type cte_types;
                        if b then Ok true else py_in (PStr "all") cte_types);
  if negb cte_match then Ok false
  else
    do scope <- py_iter (py_or (dict_get conditions "ftl_scope" PNone) (PList []));
    let tokens := scope_tokens scope in
    if existsb (String.eqb "ANY") tokens then Ok true
    else if existsb (String.eqb "NON_FTL") tokens && negb (bool_decide (event_is_ftl = Some true)) then Ok true
    else if bool_decide (event_is_ftl = Some true) then rule_applies_to_ftl_category conditions event_ftl_category
    else Ok false.

Fixpoint applicable_rules (event_type : pyval) (cat : option string) (is_ftl : option bool)
    (rules : list RuleDefinition) : res (list RuleDefinition) :=
  match rules with
  | [] => Ok []
  | r :: rest =>
      do b <- rule_applicable event_type cat is_ftl r;
      do more <- applicable_rules event_type cat is_ftl rest;
      Ok (if b then r :: more else more)
  end.

(** [get_applicable_rules] with [rules=None]: from the cache while it is fresh. *)
Definition get_applicable_rules (env : call_env) (db : edb) (e : engine) (event_type : pyval)
    (cat : option string) (is_ftl : option bool) : res (engine * list RuleDefinition) :=
  do '(e, rules) <- (if _is_cache_fresh (ce_now env) e
                     then Ok (e, match _rules_cache e with Some l => l | None => [] end)
                     else load_active_rules env db e);
  do l <- applicable_rules event_type cat is_ftl rules;
  Ok (e, l).

(** ** One rule *)

Definition error_result (eid : string) (rule : RuleDefinition) (why : string) : RuleEvaluationResult :=
  rule_result eid rule "error" (Some why) [] None None.

Definition crashed (eid : string) (rule : RuleDefinition) (e : exn) : RuleEvaluationResult :=
  error_result eid rule ("Evaluator crashed (" +:+ exn_type e +:+ "): " +:+ exn_msg e).

(** [_evaluate_single_rule]; [db = None] is an engine without a session. *)
Definition _evaluate_single_rule (eid : string) (db : option Relational.session) (event_data : pydict)
    (rule : RuleDefinition) (tenant_id : option string) (related_events : option (list traceability_row))
    : res RuleEvaluationResult :=
  let logic := evaluation_logic rule in
  let eval_type := dict_get logic "type" (PStr "field_presence") in
  do evaluator <- table_get EVALUATORS eval_type;
  match evaluator with
  | Some f => rcatch (f eid event_data logic rule) (fun e => Ok (crashed eid rule e))
  | None =>
      do relational <- table_get RELATIONAL_EVALUATORS eval_type;
      match relational with
      | Some f =>
          match db with
          | None => Ok (error_result eid rule ("Relational rule '" +:+ py_str eval_type +:+ "' requires a DB session"))
          | Some s =>
              if negb (ostr_true tenant_id)
              then Ok (error_result eid rule ("Relational rule '" +:+ py_str eval_type
                         +:+ "' requires an authenticated tenant_id from request context"))
              else rcatch (f eid event_data logic rule s tenant_id related_events)
                     (fun e => Ok (crashed eid rule e))
          end
      | None => Ok (error_result eid rule ("Unknown evaluation type '" +:+ py_str eval_type
                      +:+ "' — rule cannot be evaluated"))
      end
  end.

(** [_prefetch_related_events]. *)
Definition _prefetch_related_events (db : option Relational.session) (event_data : pydict)
    (rules : list RuleDefinition) (tenant_id : option string) : res (option (list traceability_row)) :=
  match db, tenant_id with
  | Some s, Some tid =>
      if String.eqb tid "" then Ok None
      else
        let tlc := dict_get event_data "traceability_lot_code" (PStr "") in
        if negb (truthy tlc) then Ok None
        else
          do relational <- (fix go (l : list RuleDefinition) : res bool :=
              match l with
              | [] => Ok false
              | r :: rest =>
                  do o <- table_get RELATIONAL_EVALUATORS (dict_get (evaluation_logic r) "type" PNone);
                  match o with Some _ => Ok true | None => go rest end
              end) rules;
          if negb relational then Ok None
          else
            let event_id := dict_get event_data "event_id" (PStr "") in
            match fetch_related_events s tlc tid (if truthy event_id then Some (py_str event_id) else None) with
            | Ok l => Ok (Some l)
            | Raise _ => Ok None
            end
  | _, _ => Ok None
  end.

(** ** Summaries *)

(** A failure of an operational rule of severity warning is only a warning. *)
Definition downgrade (r : RuleEvaluationResult) : RuleEvaluationResult :=
  if String.eqb (result r) "fail" && String.eqb (re_severity r) "warning"
     && String.eqb (re_category r) "operational_quality"
  then set_result r "warn" else r.

(** [_tally_result]. *)
Definition _tally_result (s : EvaluationSummary) (r : RuleEvaluationResult) : EvaluationSummary :=
  let '(Summary id n p f w k e nf nvr rs cf) := s in
  let crit := if String.eqb (re_severity r) "critical" then (cf ++ [r])%list else cf in
  if String.eqb (result r) "pass" then Summary id n (p + 1) f w k e nf nvr rs cf
  else if String.eqb (result r) "fail" then Summary id n p (f + 1) w k e nf nvr rs crit
  else if String.eqb (result r) "warn" then Summary id n p f (w + 1) k e nf nvr rs cf
  else if String.eqb (result r) "error" then Summary id n p f w k (e + 1) nf nvr rs crit
  else if String.eqb (result r) "not_ftl_scoped" then Summary id n p f w k e (nf + 1) nvr rs cf
  else Summary id n p f w (k + 1) e nf nvr rs cf.

(** [summary.results.append(result)]. *)
Definition append_result (s : EvaluationSummary) (r : RuleEvaluationResult) : EvaluationSummary :=
  let '(Summary id n p f w k e nf nvr rs cf) := s in Summary id n p f w k e nf nvr (rs ++ [r]) cf.

Definition set_no_verdict (s : EvaluationSummary) (reason : string) : EvaluationSummary :=
  let '(Summary id n p f w k e nf _ rs cf) := s in Summary id n p f w k e nf (Some reason) rs cf.

(** The loop over the applicable rules; the [n]-th result takes the [n]-th UUID. *)
Fixpoint run_rules (uuid : nat -> string) (n : nat) (db : option Relational.session) (event_data : pydict)
    (tenant_id : option string) (related : option (list traceability_row)) (rules : list RuleDefinition)
    (s : EvaluationSummary) : res EvaluationSummary :=
  match rules with
  | [] => Ok s
  | rule :: rest =>
      do r <- _evaluate_single_rule (uuid n) db event_data rule tenant_id related;
      let r := downgrade r in
      run_rules uuid (S n) db event_data tenant_id related rest (_tally_result (append_result s r) r)
  end.

(** Why no rule applied. *)
Definition empty_reason (event_is_ftl : option bool) (has_hint : bool) : string :=
  match event_is_ftl with
  | Some false => "not_ftl_scoped"
  | _ => if negb has_hint then "ftl_classification_missing" else "no_rules_loaded"
  end.

(** ** Persistence *)

Definition eval_row_of (tenant_id : string) (event_id : pyval) (r : RuleEvaluationResult) : res eval_row :=
  do evidence <- json_dumps opts_str (PList (PDict <$> evidence_fields_inspected r));
  Ok (EvalRow (evaluation_id r) tenant_id event_id (re_rule_id r) (re_rule_version r) (result r) (why_failed r)
        evidence (confidence r)).

Definition with_evaluations (db : edb) (l : list eval_row) : edb :=
  EDb (rule_definitions db) (traceability_events db) (event_marks db) l (rule_evaluation_deadletter db).
Definition with_marks (db : edb) (l : list event_mark) : edb :=
  EDb (rule_definitions db) (traceability_events db) l (rule_evaluations db) (rule_evaluation_deadletter db).
Definition with_deadletter (db : edb) (l : list (eval_row * string)) : edb :=
  EDb (rule_definitions db) (traceability_events db) (event_marks db) (rule_evaluations db) l.

(** One multi-row insert in a savepoint: all rows, or none and the error. *)
Definition insert_evaluations (o : oracle) (db : edb) (rows : list eval_row) : res edb :=
  match omap (refuse_eval o) rows with
  | [] => Ok (with_evaluations db (rule_evaluations db ++ rows))
  | e :: _ => Raise e
  end.

(** [WHERE tenant_id = :tenant_id AND event_id = :event_id]. *)
Definition update_marks (tenant_id : string) (event_id : pyval) (f : event_mark -> event_mark)
    (marks : list event_mark) : list event_mark :=
  map (fun m => if String.eqb (em_tenant_id m) tenant_id && py_eq (PStr (em_event_id m)) event_id then f m else m) marks.

(** [_mark_event_evaluation_error]. *)
Definition _mark_event_evaluation_error (o : oracle) (db : edb) (tenant_id : string) (event_id : pyval)
    (error_message : string) : edb :=
  match refuse_mark o with
  | Some _ => db
  | None => with_marks db (update_marks tenant_id event_id (fun m =>
              Mark (em_tenant_id m) (em_event_id m) (em_verdict m) (em_reason m) (Some error_message)) (event_marks db))
  end.

(** [_write_evaluation_deadletter]. *)
Definition _write_evaluation_deadletter (o : oracle) (db : edb) (row : eval_row) (persist_error : string) : edb :=
  match refuse_deadletter o row with
  | Some _ => db
  | None => with_deadletter db (rule_evaluation_deadletter db ++ [(row, persist_error)])
  end.

(** [_salvage_rows]: one savepoint per row. *)
Fixpoint _salvage_rows (o : oracle) (db : edb) (tenant_id : string) (rows : list eval_row) : edb :=
  match rows with
  | [] => db
  | row :: rest =>
      let db' :=
        match insert_evaluations o db [row] with
        | Ok db' => db'
        | Raise e =>
            _write_evaluation_deadletter o
              (_mark_event_evaluation_error o db tenant_id (er_event_id row) (exn_msg e)) row (exn_msg e)
        end in
      _salvage_rows o db' tenant_id rest
  end.

(** One chunk of rows: a single insert, salvaged row by row when it fails. *)
Definition persist_rows (o : oracle) (db : edb) (tenant_id : string) (rows : list eval_row) : edb :=
  match insert_evaluations o db rows with
  | Ok db' => db'
  | Raise _ => _salvage_rows o db tenant_id rows
  end.

(** [_persist_evaluations]. *)
Definition _persist_evaluations (o : oracle) (db : edb) (tenant_id : string) (event_id : pyval)
    (results : list RuleEvaluationResult) : res edb :=
  match results with
  | [] => Ok db
  | _ => do rows <- rmapM (eval_row_of tenant_id event_id) results; Ok (persist_rows o db tenant_id rows)
  end.

(** [_persist_event_verdicts]. *)
Definition _persist_event_verdicts (o : oracle) (db : edb) (tenant_id : string)
    (verdicts : list (pyval * EvaluationSummary)) : edb :=
  match List.filter (fun p => truthy (fst p)) verdicts with
  | [] => db
  | params =>
      match refuse_verdict o with
      | Some _ => db
      | None => with_marks db (fold_left (fun ms p => update_marks tenant_id (fst p) (fun m =>
          Mark (em_tenant_id m) (em_event_id m) (Some (verdict (snd p))) (verdict_reason (snd p)) (em_error m)) ms)
          params (event_marks db))
      end
  end.

Definition _BATCH_CHUNK_SIZE : nat := 100.

(** [_batch_persist_evaluations]; the fuel is the number of results, and every round takes at least
    one. *)
Fixpoint batch_chunks (fuel : nat) (o : oracle) (db : edb) (tenant_id : string)
    (results : list (pyval * RuleEvaluationResult)) : res edb :=
  match fuel, results with
  | S k, _ :: _ =>
      do rows <- rmapM (fun p => eval_row_of tenant_id (fst p) (snd p)) (take _BATCH_CHUNK_SIZE results);
      batch_chunks k o (persist_rows o db tenant_id rows) tenant_id (drop _BATCH_CHUNK_SIZE results)
  | _, _ => Ok db
  end.
Definition _batch_persist_evaluations (o : oracle) (db : edb) (tenant_id : string)
    (results : list (pyval * RuleEvaluationResult)) : res edb :=
  batch_chunks (length results) o db tenant_id results.

(** ** Evaluating *)

(** The summary of one event, given the engine's rules. *)
Definition summarize (uuid : nat -> string) (n : nat) (db : edb) (event_data : pydict) (tenant_id : option string)
    (applicable : list RuleDefinition) : res EvaluationSummary :=
  let data := PDict event_data in
  let s := new_summary (dict_get event_data "event_id" (PStr "")) (Z.of_nat (length applicable)) in
  match applicable with
  | [] => Ok (set_no_verdict s (empty_reason (is_ftl_food data) (event_has_ftl_hint data)))
  | _ =>
      do related <- _prefetch_related_events (Some (traceability_events db)) event_data applicable tenant_id;
      run_rules uuid n (Some (traceability_events db)) event_data tenant_id related applicable s
  end.

(** [evaluate_event]. *)
Definition evaluate_event (env : call_env) (o : oracle) (db : edb) (e : engine) (event_data : pydict)
    (persist : bool) (tenant_id : option string) : res (engine * edb * EvaluationSummary) :=
  let data := PDict event_data in
  let event_type := dict_get event_data "event_type" (PStr "") in
  let event_id := dict_get event_data "event_id" (PStr "") in
  let event_is_ftl := is_ftl_food data in
  do '(e, applicable) <- get_applicable_rules env db e event_type (get_ftl_category data) event_is_ftl;
  do s <- summarize (ce_uuid env) 0 db event_data tenant_id applicable;
  let s := match applicable, event_is_ftl with
           | _ :: _, Some false => set_no_verdict s "not_ftl_scoped"
           | _, _ => s
           end in
  match persist, tenant_id with
  | true, Some tid =>
      if String.eqb tid "" then Ok (e, db, s)
      else
        do db <- _persist_evaluations o db tid event_id (results s);
        Ok (e, _persist_event_verdicts o db tid [(event_id, s)], s)
  | _, _ => Ok (e, db, s)
  end.

(** [persist_summary]. *)
Definition persist_summary (o : oracle) (db : edb) (s : EvaluationSummary) (tenant_id : string)
    (id : option string) : res edb :=
  let resolved := if ostr_true id then opt_str id else event_id s in
  if negb (truthy resolved)
  then Raise (ValueError "persist_summary requires an event_id (either as kwarg or on summary.event_id)")
  else do db <- _persist_evaluations o db tenant_id resolved (results s);
       Ok (_persist_event_verdicts o db tenant_id [(resolved, s)]).

(** The loop of [evaluate_events_batch]. *)
Fixpoint batch_summaries (uuid : nat -> string) (n : nat) (db : edb) (tid : string) (rules : list RuleDefinition)
    (events : list pydict) : res (list EvaluationSummary) :=
  match events with
  | [] => Ok []
  | event_data :: rest =>
      let data := PDict event_data in
      do applicable <- applicable_rules (dict_get event_data "event_type" (PStr "")) (get_ftl_category data)
                         (is_ftl_food data) rules;
      do s <- summarize uuid n db event_data (Some tid) applicable;
      do more <- batch_summaries uuid (n + length applicable) db tid rules rest;
      Ok (s :: more)
  end.

(** [evaluate_events_batch]. *)
Definition evaluate_events_batch (env : call_env) (o : oracle) (db : edb) (e : engine) (events : list pydict)
    (tenant_id : string) (persist : bool) : res (engine * edb * list EvaluationSummary) :=
  if String.eqb tenant_id "" then Raise (ValueError "tenant_id is required for batch evaluation")
  else
    do '(e, rules) <- load_active_rules env db e;
    do ss <- batch_summaries (ce_uuid env) 0 db tenant_id rules events;
    if persist then
      do db <- _batch_persist_evaluations o db tenant_id (flat_map (fun s => map (fun r => (event_id s, r)) (results s)) ss);
      Ok (e, _persist_event_verdicts o db tenant_id
               (map (fun s => (event_id s, s)) (List.filter (fun s => truthy (event_id s)) ss)), ss)
    else Ok (e, db, ss).
End Engine.

(** ** Facts: one rule *)

Definition hashable (v : pyval) : bool := match v with PList _ | PDict _ => false | _ => true end.

Lemma table_get_hashable {A} (t : list (string * A)) v : hashable v = true -> exists o, table_get t v = Ok o.
Proof. destruct v; cbn; intros H; try discriminate; eauto. Qed.

(** The answer belongs to the rule and has a known outcome. *)
Definition rule_answer (eid : string) (rule : RuleDefinition) (r : RuleEvaluationResult) : Prop :=
  evaluation_id r = eid /\ re_rule_id r = rule_id rule /\ re_rule_version r = rule_version rule
  /\ re_severity r = severity rule /\ re_category r = category rule
  /\ result r ∈ ["pass"; "fail"; "warn"; "skip"; "error"].

Ltac token := cbn; rewrite list_elem_of_In; cbn; tauto.

Lemma rule_result_answer eid rule tok why ev c m :
  tok ∈ ["pass"; "fail"; "warn"; "skip"; "error"] -> rule_answer eid rule (rule_result eid rule tok why ev c m).
Proof. intros H. by repeat split. Qed.

Lemma stateless_answer eid rule r : stateless_outcome eid rule r -> rule_answer eid rule r.
Proof.
  intros (H1 & H2 & H3 & H4 & H5 & Hr). repeat split; auto.
  rewrite list_elem_of_In. cbn. destruct Hr as [[-> _]|[[-> _]|[-> _]]]; tauto.
Qed.

Lemma relational_answer `{PyLib, Runtime} name f eid ed logic rule db tid cache r :
  assoc name RELATIONAL_EVALUATORS = Some f -> f eid ed logic rule db tid cache = Ok r -> rule_answer eid rule r.
Proof.
  unfold RELATIONAL_EVALUATORS. cbn [assoc]. intros Hf Hr.
  repeat (destruct (String.eqb name _) in Hf; [injection Hf as <-|]); [..|discriminate];
    unfold evaluate_temporal_order, evaluate_identity_consistency, evaluate_mass_balance, mass_verdict in Hr;
    follow_result Hr; apply rule_result_answer; token.
Qed.

Section Facts.
Context `{PyLib, Runtime, JsonLib}.

Lemma single_rule_answer eid db ed rule tid rel r :
  _evaluate_single_rule eid db ed rule tid rel = Ok r -> rule_answer eid rule r.
Proof.
  unfold _evaluate_single_rule. set (ty := dict_get _ "type" _). intros Hr.
  assert (Herr : forall why, rule_answer eid rule (error_result eid rule why))
    by (intros why; apply rule_result_answer; token).
  apply rbind_Ok_inv in Hr as (o & Ho & Hr). destruct o as [f|].
  - destruct ty; cbn [table_get] in Ho; try discriminate. apply Ok_inv in Ho.
    destruct (f eid ed (evaluation_logic rule) rule) as [x|x] eqn:E; cbn in Hr; apply Ok_inv in Hr as <-;
      [|apply Herr]. eapply stateless_answer, evaluators_outcome; eauto.
  - apply rbind_Ok_inv in Hr as (o & Ho' & Hr). destruct o as [f|]; [|apply Ok_inv in Hr as <-; apply Herr].
    destruct db as [s|]; [|apply Ok_inv in Hr as <-; apply Herr].
    destruct (ostr_true tid); cbn [negb] in Hr; [|apply Ok_inv in Hr as <-; apply Herr].
    destruct ty; cbn [table_get] in Ho'; try discriminate. apply Ok_inv in Ho'.
    destruct (f eid ed (evaluation_logic rule) rule s tid rel) as [x|x] eqn:E; cbn in Hr; apply Ok_inv in Hr as <-;
      [|apply Herr]. eapply relational_answer; eauto.
Qed.

Lemma single_rule_total eid db ed rule tid rel :
  hashable (dict_get (evaluation_logic rule) "type" (PStr "field_presence")) = true ->
  exists r, _evaluate_single_rule eid db ed rule tid rel = Ok r.
Proof.
  intros Hh. unfold _evaluate_single_rule.
  destruct (table_get_hashable EVALUATORS _ Hh) as [o ->]. cbn [rbind]. destruct o as [f|].
  - apply (rcatch_total _ (fun e => crashed eid rule e)).
  - destruct (table_get_hashable RELATIONAL_EVALUATORS _ Hh) as [o ->]. cbn [rbind].
    destruct o as [f|]; [|eauto]. destruct db as [s|]; [|eauto]. destruct (negb _); [eauto|].
    apply (rcatch_total _ (fun e => crashed eid rule e)).
Qed.

(** ** Facts: tallies *)

Definition count (tok : string) (rs : list RuleEvaluationResult) : Z :=
  Z.of_nat (length (List.filter (fun r => String.eqb (result r) tok) rs)).

Definition is_critical_failure (r : RuleEvaluationResult) : bool :=
  String.eqb (re_severity r) "critical" && (String.eqb (result r) "fail" || String.eqb (result r) "error").

(** The counters of a summary are those of its results. *)
Definition well_tallied (s : EvaluationSummary) : Prop :=
  passed s = count "pass" (results s) /\ failed s = count "fail" (results s)
  /\ warned s = count "warn" (results s) /\ skipped s = count "skip" (results s)
  /\ errored s = count "error" (results s) /\ not_ftl_scoped s = 0%Z
  /\ Forall (fun r => result r ∈ ["pass"; "fail"; "warn"; "skip"; "error"]) (results s)
  /\ critical_failures s = List.filter is_critical_failure (results s).

Lemma count_snoc tok rs r : count tok (rs ++ [r]) = (count tok rs + if String.eqb (result r) tok then 1 else 0)%Z.
Proof.
  unfold count. rewrite List.filter_app, length_app. cbn. destruct (String.eqb _ _); cbn; lia.
Qed.

Lemma well_tallied_snoc s r :
  well_tallied s -> result r ∈ ["pass"; "fail"; "warn"; "skip"; "error"] ->
  well_tallied (_tally_result (append_result s r) r).
Proof.
  destruct s as [id n p f w k e nf nvr rs cf]. intros (Hp & Hf & Hw & Hk & He & Hn & Hall & Hcf) Hr.
  cbn in Hp, Hf, Hw, Hk, He, Hn, Hall, Hcf. subst.
  assert (Hall' : Forall (fun r => result r ∈ ["pass"; "fail"; "warn"; "skip"; "error"]) (rs ++ [r])%list)
    by (apply Forall_app; by split; [|constructor]).
  unfold well_tallied, _tally_result, append_result. unfold is_critical_failure.
  rewrite list_elem_of_In in Hr.
  destruct Hr as [Hr|[Hr|[Hr|[Hr|[Hr|[]]]]]]; rewrite <- Hr; cbn [String.eqb Ascii.eqb Bool.eqb];
    cbn [passed failed warned skipped errored not_ftl_scoped results critical_failures];
    rewrite !count_snoc, List.filter_app, <- Hr; cbn [List.filter];
    rewrite <- ?Hr; cbn [String.eqb Ascii.eqb Bool.eqb orb];
    rewrite ?andb_false_r, ?andb_true_r, ?app_nil_r;
    repeat split; try lia; try done; by destruct (String.eqb (re_severity r) "critical"); rewrite ?app_nil_r.
Qed.

Lemma tally_frame s r :
  let s' := _tally_result (append_result s r) r in
  total_rules s' = total_rules s /\ no_verdict_reason s' = no_verdict_reason s /\ event_id s' = event_id s
  /\ results s' = (results s ++ [r])%list.
Proof.
  destruct s as [id n p f w k e nf nvr rs cf]. cbn.
  repeat (destruct (String.eqb (result r) _); [by repeat split|]). by repeat split.
Qed.

Lemma downgrade_answer eid rule r :
  rule_answer eid rule r -> re_rule_id (downgrade r) = rule_id rule /\ evaluation_id (downgrade r) = eid
    /\ result (downgrade r) ∈ ["pass"; "fail"; "warn"; "skip"; "error"].
Proof.
  intros (Ha & Hb & _ & _ & _ & Hc). unfold downgrade. destruct (_ && _); cbn; repeat split; try done. token.
Qed.

Lemma run_rules_spec uuid n db ed tid rel rules s s' :
  run_rules uuid n db ed tid rel rules s = Ok s' -> well_tallied s ->
  well_tallied s' /\ total_rules s' = total_rules s /\ no_verdict_reason s' = no_verdict_reason s
  /\ event_id s' = event_id s
  /\ (re_rule_id <$> results s') = ((re_rule_id <$> results s) ++ (rule_id <$> rules))%list.
Proof.
  revert n s. induction rules as [|rule rules IH]; intros n s; cbn [run_rules].
  - intros [= <-] Hw. by rewrite app_nil_r.
  - intros (r & Hr & Hs)%rbind_Ok_inv Hw. apply single_rule_answer, downgrade_answer in Hr as (Hid & _ & Htok).
    destruct (tally_frame s (downgrade r)) as (Ht & Hnv & Hev & Hres).
    apply IH in Hs as (Hw' & Ht' & Hnv' & Hev' & Hids); [|by apply well_tallied_snoc].
    rewrite Ht', Hnv', Hev', Ht, Hnv, Hev. split; [exact Hw'|]. do 3 (split; [done|]).
    rewrite Hids, Hres, fmap_app, <- app_assoc. cbn. by rewrite Hid.
Qed.

Lemma well_tallied_new id n : well_tallied (new_summary id n).
Proof. repeat split. constructor. Qed.

(** What a summary computed for one event looks like. *)
Lemma summarize_spec uuid n db ed tid rules s :
  summarize uuid n db ed tid rules = Ok s ->
  well_tallied s /\ total_rules s = Z.of_nat (length rules)
  /\ (re_rule_id <$> results s) = (rule_id <$> rules)
  /\ event_id s = dict_get ed "event_id" (PStr "")
  /\ (rules = [] -> no_verdict_reason s = Some (empty_reason (is_ftl_food (PDict ed)) (event_has_ftl_hint (PDict ed))))
  /\ (rules <> [] -> no_verdict_reason s = None).
Proof.
  unfold summarize. destruct rules as [|rule rules].
  - intros [= <-]. by repeat split.
  - intros (rel & _ & Hs)%rbind_Ok_inv. apply run_rules_spec in Hs as (Hw & Ht & Hnv & Hev & Hids);
      [|apply well_tallied_new]. by rewrite Ht, Hnv, Hev, Hids.
Qed.
End Facts.

(** ** Facts: an evaluated event *)

Section Evaluated.
Context `{PyLib, Runtime, JsonLib}.

Lemma evaluate_event_inv env o db e ed persist tid e' db' s :
  evaluate_event env o db e ed persist tid = Ok (e', db', s) ->
  exists rules, get_applicable_rules env db e (dict_get ed "event_type" (PStr "")) (get_ftl_category (PDict ed))
                  (is_ftl_food (PDict ed)) = Ok (e', rules)
  /\ exists s0, summarize (ce_uuid env) 0 db ed tid rules = Ok s0
  /\ s = match rules, is_ftl_food (PDict ed) with
         | _ :: _, Some false => set_no_verdict s0 "not_ftl_scoped"
         | _, _ => s0
         end.
Proof.
  unfold evaluate_event. intros ([e1 rules] & Hr & Hs)%rbind_Ok_inv. apply rbind_Ok_inv in Hs as (s0 & Hs0 & Hs).
  exists rules. set (s1 := match rules with [] => _ | _ => _ end) in Hs.
  assert (e' = e1 /\ s = s1) as [-> ->].
  { destruct persist, tid as [t|]; try (by injection Hs as <- _ <-).
    destruct (String.eqb t ""); [by injection Hs as <- _ <-|].
    apply rbind_Ok_inv in Hs as (db1 & _ & Hs). by injection Hs as <- _ <-. }
  split; [done|]. exists s0. split; [done|]. unfold s1. by destruct rules.
Qed.

Lemma set_no_verdict_frame s reason :
  results (set_no_verdict s reason) = results s /\ total_rules (set_no_verdict s reason) = total_rules s
  /\ no_verdict_reason (set_no_verdict s reason) = Some reason /\ event_id (set_no_verdict s reason) = event_id s
  /\ (well_tallied s -> well_tallied (set_no_verdict s reason)).
Proof. by destruct s. Qed.

(** The summary [evaluate_event] returns. *)
Lemma evaluate_event_summary env o db e ed persist tid e' db' s :
  evaluate_event env o db e ed persist tid = Ok (e', db', s) ->
  exists rules, get_applicable_rules env db e (dict_get ed "event_type" (PStr "")) (get_ftl_category (PDict ed))
                  (is_ftl_food (PDict ed)) = Ok (e', rules)
  /\ well_tallied s /\ total_rules s = Z.of_nat (length rules)
  /\ (re_rule_id <$> results s) = (rule_id <$> rules)
  /\ (rules <> [] -> no_verdict_reason s =
        match is_ftl_food (PDict ed) with Some false => Some "not_ftl_scoped" | _ => None end).
Proof.
  intros (rules & Hr & s0 & Hs0 & ->)%evaluate_event_inv. exists rules. split; [done|].
  apply summarize_spec in Hs0 as (Hw & Ht & Hids & _ & _ & Hnv).
  destruct rules as [|rule rules]; [by do 3 (split; [done|])|].
  destruct (set_no_verdict_frame s0 "not_ftl_scoped") as (E1 & E2 & E3 & _ & E5).
  destruct (is_ftl_food (PDict ed)) as [[]|]; try (do 3 (split; [done|]); intros Hne; by apply Hnv).
  rewrite E1, E2. split; [by apply E5|]. by do 2 (split; [done|]).
Qed.
End Evaluated.

Lemma count_zero tok rs : count tok rs = 0%Z <-> forall r, r ∈ rs -> result r <> tok.
Proof.
  unfold count. induction rs as [|r rs IH]; cbn.
  - split; [|done]. intros _ r Hr. by apply elem_of_nil in Hr.
  - setoid_rewrite elem_of_cons. destruct (String.eqb_spec (result r) tok) as [E|E]; cbn [length].
    + split; [lia|]. intros Hall. by destruct (Hall r (or_introl eq_refl)).
    + rewrite IH. split; [intros Hall r' [->|Hin]; auto | intros Hall r' Hin; auto].
Qed.

(** Each result is counted once. *)
Lemma well_tallied_sum s :
  well_tallied s ->
  (passed s + failed s + warned s + skipped s + errored s + not_ftl_scoped s = Z.of_nat (length (results s)))%Z.
Proof.
  intros (-> & -> & -> & -> & -> & -> & Hall & _). unfold count. induction Hall as [|r rs Hr _ IH]; [done|].
  cbn [List.filter length]. rewrite list_elem_of_In in Hr.
  destruct Hr as [Hr|[Hr|[Hr|[Hr|[Hr|[]]]]]]; rewrite <- Hr; cbn [String.eqb Ascii.eqb Bool.eqb length]; lia.
Qed.

(** The verdict of a tallied summary. *)
Lemma well_tallied_compliant s :
  well_tallied s -> total_rules s = Z.of_nat (length (results s)) ->
  (compliant s = Some true <-> results s <> [] /\ ostr_true (no_verdict_reason s) = false
     /\ forall r, r ∈ results s -> result r <> "fail" /\ result r <> "error")
  /\ (compliant s = None <-> results s = [] \/ ostr_true (no_verdict_reason s) = true).
Proof.
  intros (_ & Hf & _ & _ & He & Hn & _) Ht. unfold compliant. rewrite Ht, Hn, Hf, He.
  assert (Hlen : results s = [] <-> length (results s) = 0%nat) by by rewrite length_zero_iff_nil.
  destruct (Z.eqb_spec (Z.of_nat (length (results s))) 0) as [E|E].
  { assert (results s = []) as -> by (apply Hlen; lia). split; split; try done; [by intros [? _] | by left]. }
  assert (Hne : results s <> []) by (rewrite Hlen; lia).
  destruct (ostr_true (no_verdict_reason s)).
  { split; split; try done; [by intros (_ & ? & _) | by right]. }
  destruct (Z.leb_spec (Z.of_nat (length (results s))) 0); [lia|]. split; [|by split; [|intros [?|?]]].
  rewrite (inj_iff Some), andb_true_iff, !Z.eqb_eq, !count_zero. firstorder.
Qed.

(** ** Example data for the witnesses *)

#[local] Existing Instance demo_lib.
#[local] Existing Instance demo_runtime.
#[local] Instance demo_json : JsonLib := {| json_loads := fun _ => Ok [] |}.

Definition demo_rule_row (id sev ty : string) (scope : list string) (params : pydict) : rule_row :=
  RuleRow id 1 ("Rule " +:+ id) None sev "kde_presence"
    (JObject [("cte_types", PList [PStr "all"]); ("ftl_scope", PList (PStr <$> scope))]) None "2026-01-01" None
    (JObject (("type", PStr ty) :: ("field", PStr "kdes.note") :: params)) "{field_name} missing" None.

Definition demo_db (rows : list rule_row) : edb :=
  EDb rows [demo_related "e1" "t1" "harvesting" 200 f1 "lb"] [Mark "t1" "e9" None None None] [] [].

Definition demo_call : call_env := CallEnv 0 "2026-06-01" (fun n => "u" +:+ str_of_Z (Z.of_nat n)).
Definition no_refusal : oracle := Oracle (fun _ => None) (fun _ => None) None None.

(** An event of a food on the list, with a note or without. *)
Definition demo_ftl_event (note : pyval) : pydict :=
  dict_set "kdes" (PDict [("note", note); ("ftl_category", PStr "Herbs")]) demo_shipping.

Definition demo_rows : list rule_row :=
  [demo_rule_row "r1" "critical" "field_presence" ["ALL"] []; demo_rule_row "r2" "critical" "temporal_order" [] [];
   demo_rule_row "r3" "info" "no_such_type" ["ANY"] []].

Definition demo_eval (rows : list rule_row) (ed : pydict) : res (engine * edb * EvaluationSummary) :=
  evaluate_event demo_call no_refusal (demo_db rows) (new_engine None) ed true (Some "t1").

(** ** Properties *)

Section Properties.
Context `{PyLib, Runtime, JsonLib}.

(** The verdict of an evaluated event, in terms of its results and its product. *)
Lemma evaluated_compliant env o db e ed persist tid e' db' s :
  evaluate_event env o db e ed persist tid = Ok (e', db', s) ->
  (compliant s = Some true <->
     results s <> [] /\ is_ftl_food (PDict ed) <> Some false
     /\ forall r, r ∈ results s -> result r <> "fail" /\ result r <> "error")
  /\ (compliant s = None <-> results s = [] \/ is_ftl_food (PDict ed) = Some false).
Proof.
  intros (rules & Hr & Hw & Ht & Hids & Hnv)%evaluate_event_summary.
  assert (Hlen : length (results s) = length rules).
  { apply (f_equal length) in Hids. by rewrite !length_fmap in Hids. }
  destruct (well_tallied_compliant s Hw) as [H1' H2']; [by rewrite Ht, Hlen|]. rewrite H1', H2'.
  destruct rules as [|rule rules].
  { apply length_zero_iff_nil in Hlen. rewrite Hlen. split; split; try (by intros [? _]); intros _; by left. }
  assert (Hne : results s <> []) by (intros E; by rewrite E in Hlen).
  rewrite (Hnv ltac:(done)). destruct (is_ftl_food (PDict ed)) as [[]|]; cbn [ostr_true String.eqb negb];
    intuition congruence.
Qed.

(** The evaluators a type names: a text is looked up in the two tables, and no other value names one. *)
Definition named {A} (table : list (string * A)) (ty : pyval) : option A :=
  match ty with PStr s => assoc s table | _ => None end.
Definition names_none (ty : pyval) : Prop := named EVALUATORS ty = None /\ named RELATIONAL_EVALUATORS ty = None.

Lemma table_get_named {A} (table : list (string * A)) ty o :
  table_get table ty = Ok o -> hashable ty = true /\ o = named table ty.
Proof. destruct ty; cbn; by intros [= <-]. Qed.
Lemma named_text {A} (table : list (string * A)) ty f : named table ty = Some f -> exists s, ty = PStr s.
Proof. destruct ty; cbn; try done. eauto. Qed.

(** C39. One rule is evaluated fail-closed.  The type of a rule is any JSON value, [field_presence] when
    the key is missing; a type that is a list or an object, which no table can be asked for, makes the
    evaluation raise.  With any other type, a text, null, a number or a truth value, evaluation returns
    a result of that rule.  The result is what the evaluator named by the type answers when it
    answers, and an error in every other case: the evaluator raises; a relational rule has no
    session or no tenant, whatever it would answer; the type names no evaluator, as null and
    numbers never do. *)
Theorem single_rule_fail_closed eid db ed rule tid rel :
  let ty := dict_get (evaluation_logic rule) "type" (PStr "field_presence") in
  match _evaluate_single_rule eid db ed rule tid rel with
  | Raise _ => (exists l, ty = PList l) \/ (exists d, ty = PDict d)
  | Ok r =>
      hashable ty = true /\ rule_answer eid rule r
      /\ (forall f, named EVALUATORS ty = Some f ->
            match f eid ed (evaluation_logic rule) rule with Ok r' => r = r' | Raise _ => result r = "error" end)
      /\ (forall f, named EVALUATORS ty = None -> named RELATIONAL_EVALUATORS ty = Some f ->
            match db with
            | Some t => if ostr_true tid
                        then match f eid ed (evaluation_logic rule) rule t tid rel with
                             | Ok r' => r = r' | Raise _ => result r = "error" end
                        else result r = "error"
            | None => result r = "error"
            end)
      /\ (names_none ty -> result r = "error")
      /\ ((forall s, ty <> PStr s) -> result r = "error")
  end.
Proof.
  intros ty. destruct (_evaluate_single_rule eid db ed rule tid rel) as [r|e] eqn:Hr.
  - pose proof (single_rule_answer _ _ _ _ _ _ _ Hr) as Ha. unfold _evaluate_single_rule in Hr. fold ty in Hr.
    apply rbind_Ok_inv in Hr as (o & [Hh ->]%table_get_named & Hr). split; [done|]. split; [done|].
    destruct (named EVALUATORS ty) as [f|] eqn:E1.
    { split_and!; [|by intros|by intros [? _]; congruence|intros Hn; destruct (named_text _ _ _ E1) as [s ?]; by destruct (Hn s)].
      intros f' [= <-]. destruct (f _ _ _ _); cbn in Hr; by injection Hr as <-. }
    apply rbind_Ok_inv in Hr as (o & [_ ->]%table_get_named & Hr). split; [done|].
    destruct (named RELATIONAL_EVALUATORS ty) as [f|] eqn:E2.
    { split_and!; [|by intros [_ ?]; congruence|intros Hn; destruct (named_text _ _ _ E2) as [s ?]; by destruct (Hn s)].
      intros f' _ [= <-]. destruct db as [t|]; [|by injection Hr as <-].
      destruct (ostr_true tid); cbn [negb] in Hr; [|by injection Hr as <-].
      destruct (f _ _ _ _ _ _ _); cbn in Hr; by injection Hr as <-. }
    injection Hr as <-. by split_and!; intros.
  - destruct (hashable ty) eqn:Hh; [destruct (single_rule_total eid db ed rule tid rel Hh) as [r E]; congruence|].
    destruct ty; try done; eauto.
Qed.

(** The summary accounts for every applicable rule: one result per rule, in order; the six counters
    are the numbers of results of each outcome and add up to the number of rules; the critical
    failures are the failed and crashed critical rules. *)
Theorem summary_accounting env o db e ed persist tid e' db' s :
  evaluate_event env o db e ed persist tid = Ok (e', db', s) ->
  exists rules, get_applicable_rules env db e (dict_get ed "event_type" (PStr "")) (get_ftl_category (PDict ed))
                  (is_ftl_food (PDict ed)) = Ok (e', rules)
  /\ (re_rule_id <$> results s) = (rule_id <$> rules) /\ total_rules s = Z.of_nat (length rules)
  /\ passed s = count "pass" (results s) /\ failed s = count "fail" (results s)
  /\ errored s = count "error" (results s) /\ critical_failures s = List.filter is_critical_failure (results s)
  /\ (passed s + failed s + warned s + skipped s + errored s + not_ftl_scoped s = total_rules s)%Z.
Proof.
  intros (rules & Hr & Hw & Ht & Hids & _)%evaluate_event_summary. exists rules. split; [done|].
  split; [done|]. split; [done|]. pose proof (well_tallied_sum s Hw) as Hsum.
  destruct Hw as (Hp & Hf & _ & _ & He & _ & _ & Hc). do 4 (split; [done|]).
  rewrite Hsum, Ht. apply (f_equal length) in Hids. rewrite !length_fmap in Hids. by rewrite Hids.
Qed.

(** C38. The compliance stamp.  An event to which no rule applied, or whose product is explicitly off
    the list, has no verdict.  Any other event of which some rule was evaluated, so that its result is
    not a skip, has one: it is compliant when no result is a failure or a crash, and not compliant
    otherwise.  So no rules, a crash, or a food out of scope never give a positive stamp.  An event
    all of whose applicable rules were skipped is not covered: there the code disagrees with
    its documentation. *)
Theorem compliance_verdict env o db e ed persist tid e' db' s :
  evaluate_event env o db e ed persist tid = Ok (e', db', s) ->
  (results s = [] \/ is_ftl_food (PDict ed) = Some false -> compliant s = None)
  /\ (is_ftl_food (PDict ed) <> Some false -> (exists r, r ∈ results s /\ result r <> "skip") ->
       compliant s = Some (bool_decide (Forall (fun r => result r <> "fail" /\ result r <> "error") (results s)))).
Proof.
  intros [Hc1 Hc2]%evaluated_compliant. split; [apply Hc2|]. intros Hftl (r & Hr & _).
  assert (Hne : results s <> []) by (intros E; rewrite E in Hr; by apply elem_of_nil in Hr).
  case_bool_decide as Hall; [apply Hc1; split_and!; try done; by apply Forall_forall|].
  destruct (compliant s) as [[]|] eqn:Hc; [|done|]; exfalso.
  - apply Hall, Forall_forall. by apply Hc1.
  - destruct Hc2 as [Hc2 _]. by destruct (Hc2 eq_refl).
Qed.
End Properties.

(** A rule of the given type and parameters, and the result of its evaluation. *)
Definition typed_rule (ty : pyval) (params : pydict) : RuleDefinition :=
  Rule "r1" 1 "Rule" None "critical" "kde_presence" [] None "2026-01-01" None (("type", ty) :: params) "{field_name} missing" None.
Definition crashing : pydict := [("params", PNone)].
Definition answered (tid : option string) (rule : RuleDefinition) : string :=
  match _evaluate_single_rule "u" (Some []) [] rule tid None with Ok r => result r | Raise _ => "raised" end.

Lemma single_rule_fail_closed_witness :
  answered (Some "t1") (typed_rule PNone []) = "error" /\ answered (Some "t1") (typed_rule (PInt 7) []) = "error"
  /\ answered (Some "t1") (typed_rule (PStr "no_such_type") []) = "error"
  /\ answered (Some "t1") (typed_rule (PStr "field_format") crashing) = "error"
  /\ answered (Some "") (typed_rule (PStr "mass_balance") []) = "error"
  /\ answered (Some "t1") (typed_rule (PList []) []) = "raised".
Proof.
  pose proof (fun tid rule => single_rule_fail_closed "u" (Some []) [] rule tid None) as H. cbv zeta in H. split_and!; unfold answered.
  - specialize (H (Some "t1") (typed_rule PNone [])). destruct (_evaluate_single_rule _ _ _ _ _ _).
    + destruct H as (_ & _ & _ & _ & _ & H). by apply H.
    + by destruct H as [[??]|[??]].
  - specialize (H (Some "t1") (typed_rule (PInt 7) [])). destruct (_evaluate_single_rule _ _ _ _ _ _).
    + destruct H as (_ & _ & _ & _ & _ & H). by apply H.
    + by destruct H as [[??]|[??]].
  - specialize (H (Some "t1") (typed_rule (PStr "no_such_type") [])). destruct (_evaluate_single_rule _ _ _ _ _ _).
    + destruct H as (_ & _ & _ & _ & H & _). by apply H.
    + by destruct H as [[??]|[??]].
  - specialize (H (Some "t1") (typed_rule (PStr "field_format") crashing)). destruct (_evaluate_single_rule _ _ _ _ _ _).
    + destruct H as (_ & _ & H & _). exact (H _ eq_refl).
    + by destruct H as [[??]|[??]].
  - specialize (H (Some "") (typed_rule (PStr "mass_balance") [])). destruct (_evaluate_single_rule _ _ _ _ _ _).
    + destruct H as (_ & _ & _ & H & _). exact (H _ eq_refl eq_refl).
    + by destruct H as [[??]|[??]].
  - reflexivity.
Defined.

Lemma summary_accounting_witness :
  match demo_eval demo_rows (demo_ftl_event PNone) with
  | Ok (_, _, s) => total_rules s = 3%Z /\ failed s = count "fail" (results s) /\ failed s = 2%Z /\ errored s = 1%Z
  | Raise _ => False
  end.
Proof.
  destruct (demo_eval demo_rows (demo_ftl_event PNone)) as [[[e' db'] s]|x] eqn:E; [|vm_compute in E; discriminate].
  unfold demo_eval in E. destruct (summary_accounting _ _ _ _ _ _ _ _ _ _ E) as (rules & _ & _ & _ & _ & Hf & _).
  vm_compute in E. apply Ok_inv, pair_eq in E as [_ <-]. split; [reflexivity|]. split; [exact Hf|]. by split.
Defined.

Lemma compliance_verdict_witness :
  match demo_eval (take 1 demo_rows) (demo_ftl_event (PStr "x")), demo_eval demo_rows (demo_ftl_event PNone) with
  | Ok (_, _, s1), Ok (_, _, s2) => compliant s1 = Some true /\ compliant s2 = Some false
  | _, _ => False
  end.
Proof.
  destruct (demo_eval (take 1 demo_rows) (demo_ftl_event (PStr "x"))) as [[[e1 db1] s1]|x] eqn:E1; [|vm_compute in E1; discriminate].
  destruct (demo_eval demo_rows (demo_ftl_event PNone)) as [[[e2 db2] s2]|x] eqn:E2; [|vm_compute in E2; discriminate].
  unfold demo_eval in E1, E2. destruct (compliance_verdict _ _ _ _ _ _ _ _ _ _ E1) as [_ H1].
  destruct (compliance_verdict _ _ _ _ _ _ _ _ _ _ E2) as [_ H2].
  vm_compute in E1, E2. apply Ok_inv, pair_eq in E1 as [_ <-]. apply Ok_inv, pair_eq in E2 as [_ <-]. split.
  - rewrite H1; [reflexivity|discriminate|]. eexists. split; [left|discriminate].
  - rewrite H2; [reflexivity|discriminate|]. eexists. split; [left|discriminate].
Defined.

(** The batch path differs on foods off the list: an event that is explicitly not on the list and whose
    only applicable rules are meta-rules that pass gets no verdict from [evaluate_event], and the
    stamp "pass" from [evaluate_events_batch] on the same database. *)
Theorem batch_stamps_non_ftl :
  exists rows ed,
    is_ftl_food (PDict ed) = Some false
    /\ match demo_eval rows ed with Ok (_, _, s) => verdict s = "no_verdict" | Raise _ => False end
    /\ match evaluate_events_batch demo_call no_refusal (demo_db rows) (new_engine None) [ed] "t1" true with
       | Ok (_, db, [s]) => verdict s = "pass" /\ event_marks db = [Mark "t1" "e9" (Some "pass") None None]
       | _ => False
       end.
Proof.
  exists [demo_rule_row "m1" "info" "field_presence" ["NON_FTL"] []],
    (dict_set "kdes" (PDict [("note", PStr "x"); ("ftl_covered", PBool false)]) demo_shipping).
  split; [reflexivity|]. split; vm_compute; [reflexivity | split; reflexivity].
Qed.
