(* ===== verification/EngineSpec.v ===== *)
(** * Properties of the rules engine across components

    Persistence (nothing is lost, batching is transparent), tenant isolation, the prefetch of related
    events, and how the engine's summaries meet the enforcement policy and the verdict of persisted
    rows. *)

From Stdlib Require Import ZArith Lia String Ascii.
From Corelib Require Import SpecFloat.
From stdpp Require Import base list strings.
From S2P Require Import Prelude PyStr PyFloat PyVal Json Rules Enforcement Uom Ftl Stateless Relational Engine.

Local Open Scope string_scope.

(** ** Persistence *)

Definition accepted (o : oracle) (row : eval_row) : bool :=
  match refuse_eval o row with None => true | Some _ => false end.

(** The dead-letter entry of a refused row. *)
Definition dead_entry (o : oracle) (row : eval_row) : option (eval_row * string) :=
  match refuse_eval o row, refuse_deadletter o row with
  | Some e, None => Some (row, exn_msg e)
  | _, _ => None
  end.

Lemma omap_refuse_nil o rows : omap (refuse_eval o) rows = [] <-> List.filter (accepted o) rows = rows.
Proof.
  unfold accepted. induction rows as [|r rows IH]; cbn; [done|].
  destruct (refuse_eval o r); cbn.
  - split; [done|]. intros E. apply (f_equal length) in E. cbn in E.
    pose proof (List.filter_length_le (fun row => match refuse_eval o row with Some _ => false | None => true end) rows). lia.
  - rewrite IH. split; [by intros -> | by intros [= ->]].
Qed.

Lemma accepted_no_dead o rows : List.filter (accepted o) rows = rows -> omap (dead_entry o) rows = [].
Proof.
  rewrite <- omap_refuse_nil. induction rows as [|r rows IH]; cbn; [done|].
  unfold dead_entry at 1. destruct (refuse_eval o r); [done|]. exact IH.
Qed.

(** Marking an event changes neither evaluation table. *)
Lemma mark_frame o db t ev m :
  rule_evaluations (_mark_event_evaluation_error o db t ev m) = rule_evaluations db
  /\ rule_evaluation_deadletter (_mark_event_evaluation_error o db t ev m) = rule_evaluation_deadletter db.
Proof. unfold _mark_event_evaluation_error. by destruct (refuse_mark o). Qed.

Lemma verdicts_frame o db t vs :
  rule_evaluations (_persist_event_verdicts o db t vs) = rule_evaluations db
  /\ rule_evaluation_deadletter (_persist_event_verdicts o db t vs) = rule_evaluation_deadletter db.
Proof. unfold _persist_event_verdicts. by destruct (List.filter _ vs), (refuse_verdict o). Qed.

Lemma salvage_rows_exact o db t rows :
  rule_evaluations (_salvage_rows o db t rows) = (rule_evaluations db ++ List.filter (accepted o) rows)%list
  /\ rule_evaluation_deadletter (_salvage_rows o db t rows)
     = (rule_evaluation_deadletter db ++ omap (dead_entry o) rows)%list.
Proof.
  revert db. induction rows as [|r rows IH]; intros db; cbn [_salvage_rows]; [by rewrite !app_nil_r|].
  rewrite !(proj1 (IH _)), !(proj2 (IH _)). unfold insert_evaluations, accepted, dead_entry. cbn [omap list_omap List.filter].
  destruct (refuse_eval o r) as [e|]; cbn.
  - unfold _write_evaluation_deadletter. destruct (mark_frame o db t (er_event_id r) (exn_msg e)) as [E1 E2].
    destruct (refuse_deadletter o r); cbn; rewrite ?E1, ?E2; [done|]. by rewrite <- app_assoc.
  - by rewrite <- app_assoc.
Qed.

(** A chunk leaves the same rows as inserting one by one. *)
Lemma persist_rows_exact o db t rows :
  rule_evaluations (persist_rows o db t rows) = (rule_evaluations db ++ List.filter (accepted o) rows)%list
  /\ rule_evaluation_deadletter (persist_rows o db t rows)
     = (rule_evaluation_deadletter db ++ omap (dead_entry o) rows)%list.
Proof.
  unfold persist_rows, insert_evaluations. destruct (omap (refuse_eval o) rows) eqn:E; [|apply salvage_rows_exact].
  apply omap_refuse_nil in E. rewrite E, (accepted_no_dead _ _ E), app_nil_r. by split.
Qed.

Section Spec.
Context `{PyLib, Runtime, JsonLib}.

Lemma eval_row_total t ev r : exists row, eval_row_of t ev r = Ok row.
Proof.
  unfold eval_row_of.
  destruct (json_dumps_default_total opts_str (PList (PDict <$> evidence_fields_inspected r)) eq_refl) as [j ->].
  cbn. eauto.
Qed.

Lemma eval_rows_total {A} (f : A -> pyval * RuleEvaluationResult) t l :
  exists rows, rmapM (fun a => eval_row_of t (fst (f a)) (snd (f a))) l = Ok rows.
Proof.
  induction l as [|a l IH]; cbn; [eauto|]. destruct (eval_row_total t (fst (f a)) (snd (f a))) as [row ->].
  destruct IH as [rows ->]. cbn. eauto.
Qed.

Lemma rmapM_app {A B} (f : A -> res B) l k ls ks :
  rmapM f l = Ok ls -> rmapM f k = Ok ks -> rmapM f (l ++ k)%list = Ok (ls ++ ks)%list.
Proof.
  revert ls. induction l as [|a l IH]; cbn; intros ls Hl Hk.
  - by injection Hl as <-.
  - apply rbind_Ok_inv in Hl as (b & -> & Hl). apply rbind_Ok_inv in Hl as (bs & Hbs & Hl). injection Hl as <-.
    cbn. by rewrite (IH _ Hbs Hk).
Qed.

Lemma batch_chunks_exact fuel o db t rs :
  (length rs <= fuel)%nat ->
  exists rows db', rmapM (fun p => eval_row_of t (fst p) (snd p)) rs = Ok rows
  /\ batch_chunks fuel o db t rs = Ok db'
  /\ rule_evaluations db' = (rule_evaluations db ++ List.filter (accepted o) rows)%list
  /\ rule_evaluation_deadletter db' = (rule_evaluation_deadletter db ++ omap (dead_entry o) rows)%list.
Proof.
  revert db rs. induction fuel as [|k IH]; intros db rs Hl.
  - destruct rs; [|cbn in Hl; lia]. exists [], db. cbn. by rewrite !app_nil_r.
  - destruct rs as [|p rs0] eqn:E; [exists [], db; cbn; by rewrite !app_nil_r|]. rewrite <- E in *.
    destruct (eval_rows_total (fun p => p) t (take _BATCH_CHUNK_SIZE rs)) as [rows1 H1'].
    assert (Hd : (length (drop _BATCH_CHUNK_SIZE rs) <= k)%nat).
    { rewrite length_drop. unfold _BATCH_CHUNK_SIZE. destruct rs; [done|]. cbn in *. lia. }
    destruct (IH (persist_rows o db t rows1) _ Hd) as (rows2 & db' & H2' & Hb & He & Hdl).
    destruct (persist_rows_exact o db t rows1) as [E1 E2].
    exists (rows1 ++ rows2)%list, db'. split; [|split; [|split]].
    + rewrite <- (take_drop _BATCH_CHUNK_SIZE rs) at 1. by apply rmapM_app.
    + cbn [batch_chunks]. rewrite E at 1. rewrite H1'. cbn [rbind]. exact Hb.
    + by rewrite He, E1, List.filter_app, app_assoc.
    + by rewrite Hdl, E2, omap_app, app_assoc.
Qed.

(** Persistence is exact: writing evaluation results in chunks of a hundred, each retried row by row
    when it fails, never raises and leaves exactly what inserting the rows one by one would: every row
    the database accepts is in the evaluations table, in order, and every refused row is in the
    dead-letter with its error unless the dead-letter refuses it too. *)
Theorem batch_persist_exact o db t rs :
  exists rows db', rmapM (fun p => eval_row_of t (fst p) (snd p)) rs = Ok rows
  /\ _batch_persist_evaluations o db t rs = Ok db'
  /\ rule_evaluations db' = (rule_evaluations db ++ List.filter (accepted o) rows)%list
  /\ rule_evaluation_deadletter db' = (rule_evaluation_deadletter db ++ omap (dead_entry o) rows)%list
  /\ (forall row, row ∈ rows -> refuse_deadletter o row = None ->
        row ∈ rule_evaluations db' \/ exists m, (row, m) ∈ rule_evaluation_deadletter db').
Proof.
  destruct (batch_chunks_exact (length rs) o db t rs (le_n _)) as (rows & db' & Hr & Hb & He & Hd).
  exists rows, db'. do 4 (split; [done|]). intros row Hin Hdl. rewrite He, Hd. setoid_rewrite elem_of_app.
  destruct (refuse_eval o row) as [e|] eqn:E.
  - right. exists (exn_msg e). right. apply list_elem_of_omap. exists row. split; [done|].
    unfold dead_entry. by rewrite E, Hdl.
  - left. right. apply list_elem_of_In, filter_In. rewrite <- list_elem_of_In. unfold accepted. by rewrite E.
Qed.

(** ** Tenants *)

Lemma run_rules_ext uuid n d d' ed t rel rules s :
  (forall eid rule, _evaluate_single_rule eid d ed rule t rel = _evaluate_single_rule eid d' ed rule t rel) ->
  run_rules uuid n d ed t rel rules s = run_rules uuid n d' ed t rel rules s.
Proof.
  intros He. revert n s. induction rules as [|rule rules IH]; intros n s; cbn [run_rules]; [done|].
  rewrite He. destruct (_evaluate_single_rule _ _ _ _ _ _); cbn; [apply IH | done].
Qed.

Lemma relational_same name f eid ed logic rule db db' tid cache :
  assoc name RELATIONAL_EVALUATORS = Some f -> tenant_rows tid db = tenant_rows tid db' ->
  f eid ed logic rule db (Some tid) cache = f eid ed logic rule db' (Some tid) cache.
Proof.
  intros Hf Hd. rewrite <- (relational_isolation name f eid ed logic rule db db' tid cache PNone Hf Hd).
  symmetry. exact (relational_isolation name f eid ed logic rule db db tid cache PNone Hf eq_refl).
Qed.
Lemma relational_not_stateless name f :
  assoc name RELATIONAL_EVALUATORS = Some f -> assoc name EVALUATORS = None.
Proof.
  unfold RELATIONAL_EVALUATORS. cbn [assoc].
  destruct (String.eqb_spec name "temporal_order") as [->|]; [reflexivity|].
  destruct (String.eqb_spec name "identity_consistency") as [->|]; [reflexivity|].
  destruct (String.eqb_spec name "mass_balance") as [->|]; [reflexivity | discriminate].
Qed.

Lemma single_rule_same eid ed rule db db' tid rel :
  tenant_rows tid db = tenant_rows tid db' ->
  _evaluate_single_rule eid (Some db) ed rule (Some tid) rel = _evaluate_single_rule eid (Some db') ed rule (Some tid) rel.
Proof.
  intros Hd. unfold _evaluate_single_rule. set (ty := dict_get _ "type" _).
  destruct (table_get EVALUATORS ty) as [[f|]|]; [done| |done]. cbn [rbind].
  destruct (table_get RELATIONAL_EVALUATORS ty) as [[f|]|] eqn:E; [|done|done]. cbn [rbind].
  destruct (negb _); [done|]. destruct ty; cbn in E; try discriminate. apply Ok_inv in E.
  by rewrite (relational_same _ f eid ed (evaluation_logic rule) rule db db' tid rel E Hd).
Qed.

Lemma prefetch_same ed rules db db' tid :
  tenant_rows tid db = tenant_rows tid db' ->
  _prefetch_related_events (Some db) ed rules (Some tid) = _prefetch_related_events (Some db') ed rules (Some tid).
Proof.
  intros Hd. unfold _prefetch_related_events. destruct (String.eqb tid ""); [done|].
  destruct (negb (truthy _)); [done|]. match goal with |- rbind ?c _ = _ => destruct c as [b|] end; [|done].
  cbn [rbind]. destruct (negb b); [done|]. by rewrite (fetch_tenant_rows db db').
Qed.

Lemma summarize_same uuid n db db' ed tid rules :
  tenant_rows tid (traceability_events db) = tenant_rows tid (traceability_events db') ->
  summarize uuid n db ed (Some tid) rules = summarize uuid n db' ed (Some tid) rules.
Proof.
  intros Hd. unfold summarize. destruct rules as [|rule rules]; [done|]. rewrite (prefetch_same _ _ _ _ _ Hd).
  match goal with |- rbind ?c _ = _ => destruct c as [rel|] end; [|done]. cbn [rbind].
  apply run_rules_ext. intros eid r. by apply single_rule_same.
Qed.

(** Databases that differ in other tenants' events only. *)
Definition same_for_tenant (tid : string) (db db' : edb) : Prop :=
  rule_definitions db = rule_definitions db'
  /\ tenant_rows tid (traceability_events db) = tenant_rows tid (traceability_events db').

(** Tenants do not interfere: whatever other tenants' events are in the database, the summary of an
    event is the same as without them; and a relational rule gives the same result whatever tenant
    identifier the event payload carries. *)
Theorem evaluation_tenant_isolation env o db db' e ed persist tid :
  same_for_tenant tid db db' ->
  rmap snd (evaluate_event env o db e ed persist (Some tid)) = rmap snd (evaluate_event env o db' e ed persist (Some tid))
  /\ (forall eid rule rel v f, table_get RELATIONAL_EVALUATORS (dict_get (evaluation_logic rule) "type" (PStr "field_presence")) = Ok (Some f) ->
        _evaluate_single_rule eid (Some (traceability_events db)) (dict_set "tenant_id" v ed) rule (Some tid) rel
        = _evaluate_single_rule eid (Some (traceability_events db')) ed rule (Some tid) rel).
Proof.
  intros [Hr Hd]. split.
  - unfold evaluate_event, get_applicable_rules, load_active_rules. rewrite <- Hr.
    match goal with |- rmap _ (rbind ?c _) = _ => destruct c as [[e1 rules]|x] end; [|done]. cbn [rbind].
    rewrite (summarize_same _ _ _ _ _ _ _ Hd).
    match goal with |- rmap _ (rbind ?c _) = _ => destruct c as [s|x] end; [|done]. cbn [rbind].
    destruct persist; [|done]. destruct (String.eqb tid ""); [done|]. unfold _persist_evaluations.
    set (s1 := match rules with [] => s | _ => _ end). destruct (results s1) as [|r0 rs0] eqn:Es; [done|].
    destruct (eval_rows_total (fun r => (dict_get ed "event_id" (PStr ""), r)) tid (r0 :: rs0)) as [rows Hrows].
    change (rmapM (eval_row_of tid (dict_get ed "event_id" (PStr ""))) (r0 :: rs0) = Ok rows) in Hrows.
    by rewrite Hrows.
  - intros eid rule rel v f Hf. unfold _evaluate_single_rule. set (ty := dict_get _ "type" _) in *.
    destruct ty; cbn [table_get] in Hf; try discriminate. apply Ok_inv in Hf.
    cbn [table_get rbind]. rewrite (relational_not_stateless _ _ Hf).
    rewrite Hf. destruct (negb _); [done|].
    by rewrite (relational_isolation _ f eid ed (evaluation_logic rule) rule _ _ tid rel v Hf Hd).
Qed.

(** ** Totality *)

(** A rule whose type is not a list or an object. *)
Definition typed_rule (r : RuleDefinition) : Prop := hashable (dict_get (evaluation_logic r) "type" PNone) = true.

Lemma typed_rule_default r : typed_rule r -> hashable (dict_get (evaluation_logic r) "type" (PStr "field_presence")) = true.
Proof. unfold typed_rule, dict_get. by destruct (dict_lookup _ _). Qed.

Lemma run_rules_total uuid n db ed tid rel rules s :
  Forall typed_rule rules -> exists s', run_rules uuid n db ed tid rel rules s = Ok s'.
Proof.
  intros Hf. revert n s. induction Hf as [|r rules Hr _ IH]; intros n s; cbn [run_rules]; [by eexists|].
  destruct (single_rule_total (uuid n) db ed r tid rel (typed_rule_default r Hr)) as [x ->]. apply IH.
Qed.

Lemma prefetch_total db ed tid rules :
  Forall typed_rule rules -> exists rel, _prefetch_related_events db ed rules tid = Ok rel.
Proof.
  intros Hf. unfold _prefetch_related_events. destruct db as [db|]; [|by eexists]. destruct tid as [tid|]; [|by eexists].
  destruct (String.eqb tid ""); [by eexists|]. destruct (negb _); [by eexists|].
  match goal with |- context [rbind (?go rules) _] => assert (Hgo : exists b, go rules = Ok b) end.
  { induction Hf as [|r rules Hr _ IH]; [by eexists|]. destruct (table_get_hashable RELATIONAL_EVALUATORS _ Hr) as [[f|] E];
      rewrite E; cbn [rbind]; [by eexists|exact IH]. }
  destruct Hgo as [b ->]. cbn [rbind]. destruct (negb b); [by eexists|]. destruct (fetch_related_events _ _ _ _); by eexists.
Qed.

(** Evaluation returns: whatever the event's payload, however many evaluators crash and whatever the
    database refuses, an event whose applicable rules could be loaded and have no container for a
    type is evaluated; and when the outcome is to be stored, every result's row that the database
    accepts is appended in order and every other one goes to the dead-letter. *)
Theorem evaluate_event_total env o db e ed persist tid e' rules :
  get_applicable_rules env db e (dict_get ed "event_type" (PStr "")) (get_ftl_category (PDict ed))
    (is_ftl_food (PDict ed)) = Ok (e', rules) ->
  Forall typed_rule rules ->
  exists db' s, evaluate_event env o db e ed persist tid = Ok (e', db', s)
  /\ (forall t, persist = true -> tid = Some t -> t <> "" ->
        exists rows, rmapM (eval_row_of t (dict_get ed "event_id" (PStr ""))) (results s) = Ok rows
        /\ rule_evaluations db' = (rule_evaluations db ++ List.filter (accepted o) rows)%list
        /\ rule_evaluation_deadletter db' = (rule_evaluation_deadletter db ++ omap (dead_entry o) rows)%list).
Proof.
  intros Hr Hf. unfold evaluate_event. rewrite Hr. cbn [rbind].
  assert (Hs : exists s, summarize (ce_uuid env) 0 db ed tid rules = Ok s).
  { unfold summarize. destruct rules as [|r rules]; [by eexists|].
    destruct (prefetch_total (Some (traceability_events db)) ed tid _ Hf) as [rel ->]. cbn [rbind]. by apply run_rules_total. }
  destruct Hs as [s ->]. cbn [rbind]. set (s1 := match rules with [] => s | _ => _ end).
  destruct persist; [|do 2 eexists; by split]. destruct tid as [t|]; [|do 2 eexists; by split].
  destruct (String.eqb_spec t "") as [->|Ht]; [do 2 eexists; split; [done|]; by intros t _ [= <-]|].
  destruct (eval_rows_total (fun r => (dict_get ed "event_id" (PStr ""), r)) t (results s1)) as [rows Hrows].
  change (rmapM (eval_row_of t (dict_get ed "event_id" (PStr ""))) (results s1) = Ok rows) in Hrows.
  destruct (verdicts_frame o (persist_rows o db t rows) t [(dict_get ed "event_id" (PStr ""), s1)]) as [E1 E2].
  destruct (persist_rows_exact o db t rows) as [E3 E4].
  assert (Hp : _persist_evaluations o db t (dict_get ed "event_id" (PStr "")) (results s1) = Ok (persist_rows o db t rows)).
  { unfold _persist_evaluations. destruct (results s1) as [|r0 rs0]; [|by rewrite Hrows].
    cbn in Hrows. injection Hrows as <-. unfold persist_rows, insert_evaluations. cbn. unfold with_evaluations. destruct db; cbn. by rewrite app_nil_r. }
  rewrite Hp. cbn [rbind]. do 2 eexists. split; [done|]. intros t' _ [= <-] _. exists rows. split; [done|]. by rewrite E1, E2.
Qed.

(** ** The prefetch *)

Lemma relational_cache name f eid ed logic rule db tid l :
  assoc name RELATIONAL_EVALUATORS = Some f ->
  fetch_related_events db (dict_get ed "traceability_lot_code" (PStr "")) tid
    (Some (py_str (dict_get ed "event_id" (PStr "")))) = Ok l ->
  f eid ed logic rule db (Some tid) (Some l) = f eid ed logic rule db (Some tid) None.
Proof.
  unfold RELATIONAL_EVALUATORS. cbn [assoc]. intros Hf Hl.
  repeat (destruct (String.eqb name _) in Hf; [injection Hf as <-|]); [..|discriminate];
    unfold evaluate_temporal_order, evaluate_identity_consistency, evaluate_mass_balance, _resolve_tenant;
    destruct (ostr_true (Some tid)); cbv beta iota;
    match goal with |- context [if ?b then _ else None] => destruct b end; cbv beta iota;
    try done; unfold related_or_fetch; by rewrite Hl.
Qed.

(** The reference evaluation: every relational rule queries the database itself. *)
Definition run_rules_self_fetching (uuid : nat -> string) (n : nat) (db : Relational.session) (ed : pydict) (tid : string)
    (rules : list RuleDefinition) (s : EvaluationSummary) :=
  run_rules uuid n (Some db) ed (Some tid) None rules s.

(** Fetching related events once per event is only an optimisation: for an event with an identifier,
    evaluating its rules with whatever the prefetch returned gives the same as letting each
    relational rule query the database itself. *)
Theorem prefetch_transparent uuid n db ed tid rules rules' s related :
  truthy (dict_get ed "event_id" (PStr "")) = true ->
  _prefetch_related_events (Some db) ed rules (Some tid) = Ok related ->
  run_rules uuid n (Some db) ed (Some tid) related rules' s = run_rules_self_fetching uuid n db ed tid rules' s.
Proof.
  unfold run_rules_self_fetching.
  intros Hid Hp. destruct related as [l|]; [|done].
  assert (Hl : fetch_related_events db (dict_get ed "traceability_lot_code" (PStr "")) tid
                 (Some (py_str (dict_get ed "event_id" (PStr "")))) = Ok l).
  { unfold _prefetch_related_events in Hp. destruct (String.eqb tid ""); [done|].
    destruct (negb (truthy _)); [done|]. apply rbind_Ok_inv in Hp as (b & _ & Hp). destruct (negb b); [done|].
    rewrite Hid in Hp. cbn zeta in Hp. destruct (fetch_related_events _ _ _ _); [|done]. by injection Hp as ->. }
  revert n s. induction rules' as [|rule rules' IH]; intros n s; cbn [run_rules]; [done|].
  assert (E : forall eid, _evaluate_single_rule eid (Some db) ed rule (Some tid) (Some l)
              = _evaluate_single_rule eid (Some db) ed rule (Some tid) None).
  { intros eid. unfold _evaluate_single_rule. set (ty := dict_get _ "type" _).
    destruct (table_get EVALUATORS ty) as [[f|]|]; [done| |done]. cbn [rbind].
    destruct (table_get RELATIONAL_EVALUATORS ty) as [[f|]|] eqn:Ef; [|done|done]. cbn [rbind].
    destruct (negb _); [done|]. destruct ty; cbn in Ef; try discriminate. apply Ok_inv in Ef.
    by rewrite (relational_cache _ f eid ed (evaluation_logic rule) rule db tid l Ef Hl). }
  rewrite E. destruct (_evaluate_single_rule _ _ _ _ _ _); cbn; [apply IH | done].
Qed.

(** ** Enforcement *)

Lemma critical_failure_fails s :
  well_tallied s -> critical_failures s <> [] -> (0 < failed s + errored s)%Z.
Proof.
  intros (_ & -> & _ & _ & -> & _ & _ & ->). unfold count, is_critical_failure.
  induction (results s) as [|r rs IH]; [done|]. cbn [List.filter].
  destruct (String.eqb (re_severity r) "critical"), (String.eqb (result r) "fail"), (String.eqb (result r) "error");
    cbn [andb orb length]; intros Hne; try lia; specialize (IH Hne); lia.
Qed.

(** Some result is a failure or a crash, or none is. *)
Lemma failing_dec (rs : list RuleEvaluationResult) :
  (exists r, r ∈ rs /\ (result r = "fail" \/ result r = "error"))
  \/ (forall r, r ∈ rs -> result r <> "fail" /\ result r <> "error").
Proof.
  induction rs as [|r rs [(r' & Hr & E)|Hall]]; [right; by intros r Hr%elem_of_nil|..].
  - left. exists r'. split; [by apply list_elem_of_further | done].
  - destruct (decide (result r = "fail" \/ result r = "error")) as [Hd|Hd].
    + left. exists r. split; [apply list_elem_of_here | done].
    + right. intros r' [->|Hr]%elem_of_cons; [tauto | auto].
Qed.

(** What full enforcement stops: a failed or crashed rule on a food that is not classified off the list. *)
Definition blocked (ed : pydict) (s : EvaluationSummary) : Prop :=
  is_ftl_food (PDict ed) <> Some false /\ exists r, r ∈ results s /\ (result r = "fail" \/ result r = "error").

(** The modes are ordered: an evaluated event that [cte_only] rejects is rejected by [all] too, and what
    [all] rejects is exactly a failed or crashed rule with a verdict; nothing is rejected when the
    product is off the list or no rule ran. *)
Theorem enforcement_modes_ordered env o db e ed persist tid e' db' s c1 st1 c2 st2 :
  evaluate_event env o db e ed persist tid = Ok (e', db', s) ->
  mode_of c1 st1 = CTE_ONLY -> mode_of c2 st2 = ALL ->
  (rejects c1 st1 s = true -> rejects c2 st2 s = true)
  /\ (rejects c2 st2 s = true <-> blocked ed s).
Proof.
  unfold blocked.
  intros He Hm1 Hm2. rewrite !rejects_spec, Hm1, Hm2. assert (HCA : CTE_ONLY <> ALL) by discriminate.
  destruct (evaluated_compliant _ _ _ _ _ _ _ _ _ _ He) as [Hc1 Hc2].
  destruct (evaluate_event_summary _ _ _ _ _ _ _ _ _ _ He) as (_ & _ & Hw & _).
  split.
  - intros [(_ & Hn & Hcf)|[? _]]; [|congruence]. right. split; [done|].
    destruct (compliant s) as [[]|] eqn:Hc; [|done|done]. exfalso.
    apply (critical_failure_fails s Hw) in Hcf. apply compliant_true in Hc as [(_ & _ & E1 & E2) _]. lia.
  - split.
    + intros [(? & _)|[_ Hc]]; [congruence|]. rewrite Hc in Hc1, Hc2.
      assert (Hftl : is_ftl_food (PDict ed) <> Some false) by (intros E; destruct Hc2 as [_ Hc2]; by specialize (Hc2 (or_intror E))).
      split; [done|]. destruct (failing_dec (results s)) as [Hf|Hf]; [done|]. exfalso.
      destruct Hc1 as [_ Hc1]. assert (Hne : results s <> []) by (intros E; destruct Hc2 as [_ Hc2]; by specialize (Hc2 (or_introl E))).
      by specialize (Hc1 (conj Hne (conj Hftl Hf))).
    + intros (Hftl & r & Hr & Hfail). right. split; [done|]. destruct (compliant s) as [[]|]; [exfalso|done|exfalso].
      * destruct Hc1 as [Hc1 _]. destruct (Hc1 eq_refl) as (_ & _ & Hall). destruct (Hall r Hr). by destruct Hfail.
      * destruct Hc2 as [Hc2 _]. destruct (Hc2 eq_refl) as [E|E]; [rewrite E in Hr; by apply elem_of_nil in Hr | done].
Qed.
(** ** The verdict of persisted rows *)

(** The result column of a persisted row. *)
Definition persisted (r : RuleEvaluationResult) : pydict := [("result", PStr (result r))].

Lemma persisted_token r tok :
  result r ∈ ["pass"; "fail"; "warn"; "skip"; "error"] -> has_token tok (persisted r) = String.eqb (result r) tok.
Proof.
  intros Hr. unfold has_token, rule_result_token, persisted. cbn [dict_get dict_lookup String.eqb Ascii.eqb Bool.eqb].
  rewrite list_elem_of_In in Hr. by destruct Hr as [<-|[<-|[<-|[<-|[<-|[]]]]]].
Qed.

Lemma filter_persisted tok rs :
  Forall (fun r => result r ∈ ["pass"; "fail"; "warn"; "skip"; "error"]) rs ->
  List.filter (has_token tok) (persisted <$> rs) = persisted <$> List.filter (fun r => String.eqb (result r) tok) rs.
Proof.
  induction 1 as [|r rs Hr _ IH]; [done|]. rewrite fmap_cons. cbn [List.filter]. rewrite persisted_token by done.
  destruct (String.eqb (result r) tok); [rewrite fmap_cons|]; by rewrite IH.
Qed.

Lemma existsb_persisted rs :
  Forall (fun r => result r ∈ ["pass"; "fail"; "warn"; "skip"; "error"]) rs ->
  existsb (fun row => has_token "pass" row || has_token "warn" row) (persisted <$> rs) = true
  <-> exists r, r ∈ rs /\ (result r = "pass" \/ result r = "warn").
Proof.
  induction 1 as [|r rs Hr _ IH].
  - split; [done|]. intros (r & Hr & _). by apply elem_of_nil in Hr.
  - rewrite fmap_cons. cbn [existsb]. rewrite !persisted_token by done.
    rewrite !orb_true_iff, !String.eqb_eq. setoid_rewrite elem_of_cons. rewrite IH. split.
    + intros [Ht|(r' & Hr' & Ht)]; [by exists r; auto | exists r'; auto].
    + intros (r' & [->|Hr'] & Ht); [by left | right; eauto].
Qed.

Lemma filter_nonempty tok rs :
  List.filter (fun r => String.eqb (result r) tok) rs <> [] <-> exists r, r ∈ rs /\ result r = tok.
Proof.
  split.
  - destruct (List.filter _ rs) as [|r l] eqn:E; [done|]. intros _. exists r.
    assert (Hin : In r (r :: l)) by by left. rewrite <- E, filter_In in Hin. destruct Hin as [Hin Ht].
    apply String.eqb_eq in Ht. by rewrite list_elem_of_In.
  - intros (r & Hr & Ht) E. assert (Hin : In r (List.filter (fun r => String.eqb (result r) tok) rs)).
    { apply filter_In. rewrite <- list_elem_of_In. split; [done|]. by apply String.eqb_eq. }
    by rewrite E in Hin.
Qed.

(** Readers of the persisted rows never see a better verdict than the engine's: classifying the rows
    of an evaluated event together with its stamp says PASS exactly when the engine's verdict is
    pass and some rule passed or warned, says FAIL or EVALUATION_ERROR whenever a row failed or
    crashed, and in every other case says NO_VERDICT; it never reports that nothing was evaluated. *)
Theorem persisted_verdict_consistent env o db e ed persist tid e' db' s :
  evaluate_event env o db e ed persist tid = Ok (e', db', s) ->
  let v := classify_event_verdict (persisted <$> results s) (Some (verdict s)) (verdict_reason s) in
  (ev_status v = PASS <-> verdict s = "pass" /\ exists r, r ∈ results s /\ (result r = "pass" \/ result r = "warn"))
  /\ (ev_status v = FAIL \/ ev_status v = EVALUATION_ERROR
      <-> exists r, r ∈ results s /\ (result r = "fail" \/ result r = "error"))
  /\ (ev_status v = PASS \/ ev_status v = FAIL \/ ev_status v = EVALUATION_ERROR \/ ev_status v = NO_VERDICT).
Proof.
  intros He v. destruct (evaluated_compliant _ _ _ _ _ _ _ _ _ _ He) as [Hc1 Hc2].
  destruct (evaluate_event_summary _ _ _ _ _ _ _ _ _ _ He) as (_ & _ & Hw & _).
  assert (Hall : Forall (fun r => result r ∈ ["pass"; "fail"; "warn"; "skip"; "error"]) (results s)) by apply Hw.
  destruct (verdict_compliant s) as (Vp & Vf & Vn).
  assert (Hpass : verdict s = "pass" -> ~ exists r, r ∈ results s /\ (result r = "fail" \/ result r = "error")).
  { intros Hv (r & Hr & Hf). apply Vp, Hc1 in Hv as (_ & _ & Hv). destruct (Hv r Hr). by destruct Hf. }
  unfold v, classify_event_verdict. rewrite !filter_persisted by done.
  pose proof (filter_nonempty "fail" (results s)) as Hff. pose proof (filter_nonempty "error" (results s)) as Hfe.
  pose proof (existsb_persisted (results s) Hall) as Hpw.
  destruct (List.filter (fun r => String.eqb (result r) "fail") (results s)) as [|x l] eqn:Ef.
  2: { assert (Hex : exists r, r ∈ results s /\ (result r = "fail" \/ result r = "error"))
         by (destruct Hff as [Hff _]; destruct (Hff ltac:(done)) as (r & ? & ?); eauto).
       cbn. split; [split; [done | intros [Hv _]; by apply Hpass in Hv]|]. split; [|auto]. split; auto. }
  destruct (List.filter (fun r => String.eqb (result r) "error") (results s)) as [|x l] eqn:Ee.
  2: { assert (Hex : exists r, r ∈ results s /\ (result r = "fail" \/ result r = "error"))
         by (destruct Hfe as [Hfe _]; destruct (Hfe ltac:(done)) as (r & ? & ?); eauto).
       cbn. split; [split; [done | intros [Hv _]; by apply Hpass in Hv]|]. split; [|auto]. split; auto. }
  assert (Hno : ~ exists r, r ∈ results s /\ (result r = "fail" \/ result r = "error")).
  { intros (r & Hr & [E|E]); [apply Hff | apply Hfe]; eauto. }
  cbn [fmap list_fmap]. destruct (compliant s) as [[]|] eqn:Hc; unfold verdict in *; rewrite Hc in *.
  - cbn [ostr_or str_or String.eqb Ascii.eqb Bool.eqb lower str_map]. cbn.
    destruct (results s) as [|r0 rs] eqn:Ers; [by destruct Hc1 as [Hc1 _]; destruct (Hc1 eq_refl)|].
    rewrite fmap_cons. rewrite <- fmap_cons. destruct (existsb _ _) eqn:Eb; cbn.
    + split; [split; [intros _; split; [done | by apply Hpw] | done]|]. split; [split; [by intros [|] | done]|auto].
    + split; [split; [done | intros [_ Hx]; by apply Hpw in Hx]|]. split; [split; [by intros [|] | done]|auto].
  - exfalso. destruct (failing_dec (results s)) as [Hf|Hf]; [done|].
    assert (Hne : ~ (results s = [] \/ is_ftl_food (PDict ed) = Some false)) by (intros Hor; destruct Hc2 as [_ Hc2]; by specialize (Hc2 Hor)).
    assert (Some false = Some true) as [=]. apply Hc1. tauto.
  - cbn. split; [split; [done | by intros [? _]]|]. split; [split; [by intros [|] | done]|auto].
Qed.
End Spec.

(** ** Witnesses *)

#[local] Existing Instance demo_lib.
#[local] Existing Instance demo_runtime.
#[local] Existing Instance demo_json.

Lemma evaluation_tenant_isolation_witness :
  rmap snd (evaluate_event demo_call no_refusal (demo_db demo_rows) (new_engine None) (demo_ftl_event PNone) true (Some "t1"))
  = rmap snd (evaluate_event demo_call no_refusal
      (EDb demo_rows (demo_related "e7" "t2" "harvesting" 5 f1 "kg" :: traceability_events (demo_db [])) [] [] [])
      (new_engine None) (demo_ftl_event PNone) true (Some "t1")).
Proof. apply evaluation_tenant_isolation. split; vm_compute; reflexivity. Defined.

Lemma evaluate_event_total_witness :
  exists e' db' s, demo_eval demo_rows (demo_ftl_event PNone) = Ok (e', db', s)
  /\ exists rows, rmapM (eval_row_of "t1" (PStr "e9")) (results s) = Ok rows /\ rule_evaluations db' = rows.
Proof.
  destruct (get_applicable_rules demo_call (demo_db demo_rows) (new_engine None)
    (dict_get (demo_ftl_event PNone) "event_type" (PStr "")) (get_ftl_category (PDict (demo_ftl_event PNone)))
    (is_ftl_food (PDict (demo_ftl_event PNone)))) as [[e' rules]|x] eqn:E; [|vm_compute in E; discriminate].
  destruct (evaluate_event_total demo_call no_refusal _ _ (demo_ftl_event PNone) true (Some "t1") e' rules E)
    as (db' & s & He & Hrows).
  { vm_compute in E. apply Ok_inv, pair_eq in E as [_ <-]. by repeat constructor. }
  exists e', db', s. split; [exact He|]. destruct (Hrows "t1" eq_refl eq_refl) as (rows & Hr & Hdb & _); [discriminate|].
  exists rows. split; [exact Hr|]. rewrite Hdb. cbn. clear. by induction rows as [|r rows IH]; [|cbn; f_equal].
Defined.

Lemma prefetch_transparent_witness :
  let rule := Rule "r" 1 "T" None "info" "c" [] None "" None [("type", PStr "temporal_order")] "" None in
  let db := traceability_events (demo_db []) in
  match _prefetch_related_events (Some db) (demo_ftl_event PNone) [rule] (Some "t1") with
  | Ok (Some l) =>
      run_rules (fun _ => "u") 0 (Some db) (demo_ftl_event PNone) (Some "t1") (Some l) [rule] (new_summary PNone 1)
      = run_rules_self_fetching (fun _ => "u") 0 db (demo_ftl_event PNone) "t1" [rule] (new_summary PNone 1)
  | _ => False
  end.
Proof.
  cbv zeta. destruct (_prefetch_related_events _ _ _ _) as [[l|]|x] eqn:E; [|vm_compute in E; discriminate..].
  eapply prefetch_transparent; [reflexivity | exact E].
Defined.

Lemma enforcement_modes_ordered_witness :
  match demo_eval demo_rows (demo_ftl_event PNone) with
  | Ok (_, _, s) =>
      rejects (Context (Some "CTE_only ") (Ok None)) (EState [] [] []) s = true
      /\ rejects (Context (Some "all") (Ok None)) (EState [] [] []) s = true
  | Raise _ => False
  end.
Proof.
  destruct (demo_eval demo_rows (demo_ftl_event PNone)) as [[[e' db'] s]|x] eqn:E; [|vm_compute in E; discriminate].
  assert (H1 : rejects (Context (Some "CTE_only ") (Ok None)) (EState [] [] []) s = true).
  { vm_compute in E. apply Ok_inv, pair_eq in E as [_ <-]. vm_compute. reflexivity. }
  split; [exact H1|]. unfold demo_eval in E.
  destruct (enforcement_modes_ordered _ _ _ _ _ _ _ _ _ _ (Context (Some "CTE_only ") (Ok None)) (EState [] [] [])
    (Context (Some "all") (Ok None)) (EState [] [] []) E) as [Hle _]; [vm_compute; reflexivity..|].
  exact (Hle H1).
Defined.

Lemma persisted_verdict_consistent_witness :
  match demo_eval demo_rows (demo_ftl_event PNone) with
  | Ok (_, _, s) =>
      ev_status (classify_event_verdict (persisted <$> results s) (Some (verdict s)) (verdict_reason s)) = FAIL
      \/ ev_status (classify_event_verdict (persisted <$> results s) (Some (verdict s)) (verdict_reason s)) = EVALUATION_ERROR
  | Raise _ => False
  end.
Proof.
  destruct (demo_eval demo_rows (demo_ftl_event PNone)) as [[[e' db'] s]|x] eqn:E; [|vm_compute in E; discriminate].
  unfold demo_eval in E. apply (persisted_verdict_consistent _ _ _ _ _ _ _ _ _ _ E).
  vm_compute in E. apply Ok_inv, pair_eq in E as [_ <-].
  eexists. split; [apply list_elem_of_here | right; reflexivity].
Defined.

(** A positive stamp without any assertion: an event whose only rule is skipped (here a check-digit
    rule for a field that is absent) is compliant for the summary, while the reader of the same rows
    and stamp reports that all rules were skipped. *)
Theorem all_skipped_is_compliant :
  exists rows ed,
    match demo_eval rows ed with
    | Ok (_, _, s) =>
        compliant s = Some true /\ passed s = 0%Z /\ skipped s = total_rules s
        /\ classify_event_verdict (persisted <$> results s) (Some (verdict s)) (verdict_reason s)
           = Verdict NO_VERDICT (Some "all_rules_skipped") [] []
    | Raise _ => False
    end.
Proof.
  exists [demo_rule_row "r1" "critical" "gs1_check_digit" ["ALL"] []], (demo_ftl_event PNone).
  vm_compute. repeat split.
Qed.
