(* ===== verification/Permissions.v ===== *)
(** * Permissions and invitations

    [services/shared/permissions.py]: wildcard permission matching, role ranks and the rule that an
    inviter cannot confer more than their own tier. *)

From Stdlib Require Import ZArith Lia String Ascii.
From stdpp Require Import base list strings.
From S2P Require Import Prelude PyStr PyFloat PyVal Uom.

Local Open Scope string_scope.

(** [_normalize]. *)
Definition _normalize (permission : pyval) : string :=
  match permission with
  | PStr s => replace_char ":" "." (lower (strip s))
  | _ => ""
  end.

Definition _OWNER_TIER_PERMISSIONS : list string := ["*"; "admin.*"; "super_admin"].

(** [permission_implies] on normalized texts. *)
Definition implies (granted required : string) : bool :=
  if String.eqb granted "" || String.eqb required "" then false
  else if existsb (String.eqb granted) _OWNER_TIER_PERMISSIONS then true
  else if String.eqb granted required then true
  else if endswith granted ".*" then
    let namespace := str_take (slen granted - 2) granted in
    (slen namespace + 1 <? slen required)%nat && startswith required (namespace +:+ ".")
  else false.

Definition permission_implies (granted_permission required_permission : pyval) : bool :=
  implies (_normalize granted_permission) (_normalize required_permission).

(** A permissions argument: missing, a bare text, or a list. *)
Inductive perms := PermNone | PermText (s : string) | PermList (l : list pyval).

(** [_permission_list]. *)
Definition _permission_list (p : perms) : list pyval :=
  match p with PermNone => [] | PermText s => [PStr s] | PermList l => l end.

(** [list(p or [])]: a text is taken apart into its characters. *)
Definition as_list (p : perms) : list pyval :=
  match p with PermNone => [] | PermText s => str_chars s | PermList l => l end.

Definition has_permission (granted_permissions : perms) (required_permission : pyval) : bool :=
  existsb (fun g => permission_implies g required_permission) (_permission_list granted_permissions).

Definition _ROLE_RANK_BY_NAME : list (string * Z) :=
  [("owner", 100%Z); ("admin", 80%Z); ("manager", 60%Z); ("compliance_manager", 60%Z); ("editor", 40%Z);
   ("member", 30%Z); ("viewer", 20%Z); ("guest", 10%Z)].

Definition owner_rank : Z := 100.

Definition role_rank (role_name : option string) (permissions : perms) : Z :=
  let name := lower (strip (ostr_or role_name "")) in
  let name_rank := match assoc name _ROLE_RANK_BY_NAME with Some r => r | None => 0%Z end in
  let perm_rank :=
    if existsb (fun p => existsb (String.eqb (_normalize p)) _OWNER_TIER_PERMISSIONS) (_permission_list permissions)
    then Z.max 0 owner_rank else 0%Z in
  Z.max name_rank perm_rank.

Definition grant_owner : pyval := PStr "users.invite.grant_owner".

Definition can_invite_role (caller_role_name : option string) (caller_permissions : perms)
    (target_role_name : option string) (target_permissions : perms) (honor_grant_owner : bool) : bool :=
  let caller_perm_list := PermList (as_list caller_permissions) in
  let target_perm_list := PermList (as_list target_permissions) in
  let caller_rank := role_rank caller_role_name caller_perm_list in
  let target_rank := role_rank target_role_name target_perm_list in
  let has_grant_owner := honor_grant_owner && has_permission caller_perm_list grant_owner in
  if (owner_rank <=? target_rank)%Z then
    if (owner_rank <=? caller_rank)%Z then true else has_grant_owner
  else (target_rank <=? caller_rank)%Z.

Example wildcard_examples :
  permission_implies (PStr "FDA:*") (PStr "fda.export") = true
  /\ permission_implies (PStr "fda.*") (PStr "fda.") = false
  /\ permission_implies (PStr "fda.*") (PStr "fdax.export") = false
  /\ permission_implies PNone (PStr "fda.export") = false.
Proof. vm_compute. repeat split. Qed.

(** ** Facts *)

Definition root_permission (g : string) : Prop := existsb (String.eqb g) _OWNER_TIER_PERMISSIONS = true.

(** What a granted permission covers. *)
Lemma implies_iff g r :
  implies g r = true <->
  g <> "" /\ r <> ""
  /\ (root_permission g \/ g = r \/ exists ns x, g = ns +:+ ".*" /\ x <> "" /\ r = ns +:+ "." +:+ x).
Proof.
  unfold implies, root_permission. destruct (String.eqb_spec g "") as [->|Hg]; cbn [orb].
  { split; [done|]. by intros (? & _). }
  destruct (String.eqb_spec r "") as [->|Hr]; cbn [orb]; [split; [done|]; by intros (_ & ? & _)|].
  destruct (existsb (String.eqb g) _OWNER_TIER_PERMISSIONS); [by split; auto|].
  destruct (String.eqb_spec g r) as [->|Hne]; [split; auto|].
  destruct (endswith g ".*") eqn:He.
  - apply endswith_inv in He as [Eg Hl]. change (slen ".*") with 2%nat in *.
    set (ns := str_take (slen g - 2) g) in *. rewrite andb_true_iff, startswith_iff, Nat.ltb_lt. split.
    + intros [Hlen [t Et]]. split; [done|]. split; [done|]. right; right. exists ns, t. split; [done|].
      rewrite str_append_assoc in Et. split; [|done].
      intros ->. rewrite Et, !slen_append in Hlen. cbn in Hlen. lia.
    + intros (_ & _ & [?|[?|(ns' & x & Eg' & Hx & Er)]]); [done..|].
      assert (ns' = ns) as ->.
      { apply (str_append_inj_len ns' ns ".*" ".*"); [|congruence].
        rewrite Eg' in Eg. apply (f_equal slen) in Eg. rewrite !slen_append in Eg. lia. }
      split; [|exists x; by rewrite str_append_assoc]. rewrite Er, !slen_append. destruct x; [done|]. cbn. lia.
  - split; [done|]. intros (_ & _ & [?|[?|(ns & x & Eg & _ & _)]]); [done..|]. exfalso.
    unfold endswith in He. rewrite Eg, slen_append in He. change (slen ".*") with 2%nat in He.
    replace (slen ns + 2 - 2)%nat with (slen ns) in He by lia.
    assert (Hd : forall a b, str_drop (slen a) (a +:+ b) = b) by (intros a b; by induction a).
    rewrite Hd, String.eqb_refl, andb_true_r in He. apply Nat.leb_gt in He. lia.
Qed.

(** A namespace wildcard does not cover a root permission unless it is one. *)
Lemma namespace_root ns x :
  x <> "" -> root_permission (ns +:+ "." +:+ x) -> root_permission (ns +:+ ".*").
Proof.
  intros Hx. unfold root_permission. cbn [existsb _OWNER_TIER_PERMISSIONS]. rewrite orb_false_r, !orb_true_iff, !String.eqb_eq.
  assert (Hdot : forall n s, has_char "." s = false -> n +:+ "." +:+ x <> s).
  { intros n s Hs E. subst. clear -Hs. induction n as [|c n IH]; cbn in Hs; [done|].
    apply orb_false_iff in Hs as [_ Hs]. by apply IH. }
  intros [E|[E|E]]; [by apply Hdot in E| |by apply Hdot in E].
  assert (ns = "admin") as ->; [|cbn; auto].
  assert (Hcut : forall n s t, has_char "." s = false -> n +:+ "." +:+ x = s +:+ String "." t ->
                 has_char "." t = false -> n = s).
  { clear. intros n. induction n as [|c n IH]; intros [|d s] t Hs E Ht; [done|..]; cbn in E, Hs.
    - injection E as <- _. by cbn in Hs.
    - injection E as -> E. exfalso. subst. clear -Ht. revert Ht.
      induction n as [|c n IH]; cbn; [done|]. intros [_ Ht]%orb_false_iff. auto.
    - injection E as -> E. apply orb_false_iff in Hs as [_ Hs]. f_equal. eauto. }
  by apply (Hcut ns "admin" "*").
Qed.

Lemma implies_trans g r q : implies g r = true -> implies r q = true -> implies g q = true.
Proof.
  rewrite !implies_iff. intros (Hg & Hr & Hgr) (_ & Hq & Hrq). split; [done|]. split; [done|].
  destruct Hgr as [Hroot|[->|(ns & x & -> & Hx & ->)]]; [by left|done|].
  destruct Hrq as [Hroot|[<-|(ns2 & y & E & Hy & ->)]].
  - left. exact (namespace_root ns x Hx Hroot).
  - right; right. by exists ns, x.
  - right; right. exists ns.
    destruct (le_lt_dec (slen (ns +:+ ".")) (slen ns2)) as [Hle|Hlt].
    + destruct (str_append_split (ns +:+ ".") x ns2 ".*") as [e ->]; [by rewrite str_append_assoc|done|].
      exists (e +:+ "." +:+ y). split; [done|]. split; [by destruct e|]. by rewrite !str_append_assoc.
    + assert (Hlen := f_equal slen E). rewrite !slen_append in Hlen. rewrite slen_append in Hlt.
      change (slen ".") with 1%nat in *. change (slen ".*") with 2%nat in Hlen.
      assert (1 <= slen x)%nat by (destruct x; [done | cbn; unfold slen; cbn; lia]).
      assert (ns = ns2) as <-.
      { apply (str_append_inj_len ns ns2 ("." +:+ x) ".*"); [lia | done]. }
      by exists y.
Qed.

Lemma owner_rank_root p :
  existsb (fun g => existsb (String.eqb (_normalize g)) _OWNER_TIER_PERMISSIONS) (_permission_list p) = true ->
  forall n, (owner_rank <= role_rank n p)%Z.
Proof. intros Hp n. unfold role_rank. rewrite Hp. lia. Qed.

(** ** Properties *)

(** Permission matching is a preorder on non-blank permissions: a permission implies itself, and what
    a permission implies it implies too; so delegating through a chain of grants never covers more
    than the first grant.  Blank or non-text permissions imply and are implied by nothing. *)
Theorem permission_implies_preorder g r q :
  (permission_implies g g = true <-> _normalize g <> "")
  /\ (permission_implies g r = true -> permission_implies r q = true -> permission_implies g q = true)
  /\ (_normalize g = "" \/ _normalize r = "" -> permission_implies g r = false).
Proof.
  unfold permission_implies. split; [|split; [apply implies_trans|]].
  - rewrite implies_iff. split; [by intros (? & _)|]. auto.
  - intros Hor. apply not_true_iff_false. rewrite implies_iff. by destruct Hor as [-> | ->]; intros (? & ? & _).
Qed.

Lemma permission_implies_preorder_witness :
  permission_implies (PStr "fda.*") (PStr "fda:export.csv") = true.
Proof.
  apply (permission_implies_preorder (PStr "fda.*") (PStr "FDA.export.*") (PStr "fda:export.csv"));
    vm_compute; reflexivity.
Defined.

(** No escalation through invitations: whoever may issue an invitation has at least the tier it
    confers, or the target is owner-tier and the caller holds (through some grant, wildcards
    included) the grant-owner permission and the hatch is honoured; and for targets below owner-tier
    the tier comparison alone decides. *)
Theorem can_invite_role_no_escalation caller cperms target tperms honor :
  let crank := role_rank caller (PermList (as_list cperms)) in
  let trank := role_rank target (PermList (as_list tperms)) in
  can_invite_role caller cperms target tperms honor = true <->
  (trank <= crank)%Z /\ (owner_rank <= trank -> owner_rank <= crank)%Z
  \/ (owner_rank <= trank)%Z /\ honor = true
     /\ exists g, g ∈ as_list cperms /\ permission_implies g grant_owner = true.
Proof.
  cbv zeta. unfold can_invite_role, has_permission. cbn [_permission_list].
  set (cr := role_rank caller (PermList (as_list cperms))). set (tr := role_rank target (PermList (as_list tperms))).
  assert (Hcap : forall n p, (role_rank n p <= owner_rank)%Z).
  { intros n p. unfold role_rank. apply Z.max_lub; [|by destruct (existsb _ _); unfold owner_rank; lia].
    destruct (assoc _ _ROLE_RANK_BY_NAME) as [k|] eqn:E; [|unfold owner_rank; lia].
    apply assoc_In in E. assert (Hall : Forall (fun p => snd p <= owner_rank)%Z _ROLE_RANK_BY_NAME)
      by (unfold owner_rank; repeat constructor; cbn; lia).
    rewrite Forall_forall in Hall. exact (Hall _ E). }
  pose proof (Hcap caller (PermList (as_list cperms)) : cr <= owner_rank)%Z.
  pose proof (Hcap target (PermList (as_list tperms)) : tr <= owner_rank)%Z.
  destruct (Z.leb_spec owner_rank tr).
  - destruct (Z.leb_spec owner_rank cr).
    + split; [|done]. intros _. left. lia.
    + rewrite andb_true_iff, existsb_exists. setoid_rewrite list_elem_of_In.
      split; [intros [? ?]; right; by split | intros [[? ?]|[_ [? ?]]]; [lia | by split]].
  - rewrite Z.leb_le. split; [intros; left; lia | intros [[? _]|[? _]]; lia].
Qed.

(** A bare text of permissions is one permission for ranking, but is taken apart into characters
    before an invitation is checked: a viewer may then invite a role whose permission is the text
    "super_admin", which is owner-tier, while the same permission in a list is refused. *)
Theorem can_invite_bare_text_escalation :
  role_rank (Some "custom") (PermText "super_admin") = owner_rank
  /\ can_invite_role (Some "viewer") PermNone (Some "custom") (PermText "super_admin") true = true
  /\ can_invite_role (Some "viewer") PermNone (Some "custom") (PermList [PStr "super_admin"]) true = false.
Proof. vm_compute. repeat split. Qed.
