(* ===== verification/Remediation.v ===== *)
(** * Remediation cases

    [services/ingestion/app/remediation/state.py]: the case life cycle, its guarded update with the
    status the caller expects, the audit record and the mirror into exception cases.  The database
    is three tables; audit and mirror are best-effort and the oracle says when they fail. *)

From Stdlib Require Import ZArith Lia String Ascii.
From stdpp Require Import base list strings.
From S2P Require Import Prelude PyStr PyFloat PyVal Uom Relational.

Local Open Scope string_scope.

Definition ALLOWED_TRANSITIONS : list (string * list string) :=
  [("detected", ["auto_resolution_attempted"; "supplier_action_required"]);
   ("auto_resolution_attempted", ["supplier_action_required"; "released"]);
   ("supplier_action_required", ["notification_ready"; "escalated"]);
   ("notification_ready", ["awaiting_supplier"]);
   ("awaiting_supplier", ["correction_submitted"; "escalated"; "notification_ready"]);
   ("correction_submitted", ["revalidating"]);
   ("revalidating", ["released"; "buyer_review"]);
   ("buyer_review", ["notification_ready"; "released"; "escalated"]);
   ("released", []);
   ("escalated", ["notification_ready"])].

Definition _EXCEPTION_MIRROR : list (string * string) :=
  [("notification_ready", "awaiting_supplier"); ("awaiting_supplier", "awaiting_supplier");
   ("correction_submitted", "awaiting_supplier"); ("revalidating", "awaiting_supplier");
   ("buyer_review", "in_review"); ("escalated", "in_review")].

Record remediation_case := RCase {
  rc_id : string; rc_tenant_id : string; rc_status : string; rc_exception_case_id : option string
}.
Record exception_case := XCase { xc_case_id : string; xc_tenant_id : string; xc_status : string }.
Record audit_record := Audit {
  au_tenant_id : string; au_resource_id : string; au_from : string; au_to : string; au_actor : option string
}.
Record rdb := RDb {
  remediation_cases : list remediation_case;
  exception_cases : list exception_case;
  audit_log : list audit_record
}.

(** Which best-effort statements fail. *)
Record best_effort := BestEffort { audit_fails : bool; mirror_fails : bool }.

Definition HTTP_409 (detail : string) : exn := Exn "HTTPException" ("409: " +:+ detail).

Section Remediation.
Context `{Runtime}.

(** [_mirror_update]; [tid] and [cid] are the cast parameters. *)
Definition _mirror_update (db : rdb) (mirrored tid cid : string) : rdb :=
  match List.find (fun rc => String.eqb (rc_id rc) cid && String.eqb (rc_tenant_id rc) tid) (remediation_cases db) with
  | Some rc =>
      RDb (remediation_cases db)
        (map (fun x =>
           if String.eqb (xc_tenant_id x) tid && bool_decide (rc_exception_case_id rc = Some (xc_case_id x))
              && negb (String.eqb (xc_status x) "resolved") && negb (String.eqb (xc_status x) "waived")
           then XCase (xc_case_id x) (xc_tenant_id x) mirrored else x) (exception_cases db))
        (audit_log db)
  | None => db
  end.

(** [_mirror_exception]. *)
Definition _mirror_exception (o : best_effort) (db : rdb) (tid cid to_status : string) : rdb :=
  match assoc to_status _EXCEPTION_MIRROR with
  | None => db
  | Some mirrored => if mirror_fails o then db else _mirror_update db mirrored tid cid
  end.

(** [audit_event], as [transition] calls it. *)
Definition audit_event (o : best_effort) (db : rdb) (r : audit_record) : rdb :=
  if audit_fails o then db else RDb (remediation_cases db) (exception_cases db) (audit_log db ++ [r]).

Definition guarded (tid cid expected_from : string) (rc : remediation_case) : bool :=
  String.eqb (rc_id rc) cid && String.eqb (rc_tenant_id rc) tid && String.eqb (rc_status rc) expected_from.

Definition move (to_status : string) (rc : remediation_case) : remediation_case :=
  RCase (rc_id rc) (rc_tenant_id rc) to_status (rc_exception_case_id rc).

(** [transition]. *)
Definition transition (o : best_effort) (db : rdb) (tenant_id case_id to_status expected_from : string)
    (actor : option string) : res rdb :=
  let allowed := match assoc expected_from ALLOWED_TRANSITIONS with Some l => l | None => [] end in
  if negb (existsb (String.eqb to_status) allowed)
  then Raise (HTTP_409 ("E_ILLEGAL_TRANSITION: " +:+ expected_from +:+ " -> " +:+ to_status))
  else
    do cid <- cast_uuid case_id;
    do tid <- cast_uuid tenant_id;
    let hit := guarded tid cid expected_from in
    let cases := map (fun rc => if hit rc then move to_status rc else rc) (remediation_cases db) in
    if negb (length (List.filter hit (remediation_cases db)) =? 1)%nat
    then Raise (HTTP_409 ("E_STALE_TRANSITION: case not in '" +:+ expected_from +:+ "'"))
    else
      let db1 := RDb cases (exception_cases db) (audit_log db) in
      let db2 := audit_event o db1 (Audit tenant_id case_id expected_from to_status actor) in
      Ok (_mirror_exception o db2 tid cid to_status).
End Remediation.

(** ** Facts *)

Definition allowed (from to_ : string) : Prop :=
  exists l, assoc from ALLOWED_TRANSITIONS = Some l /\ to_ ∈ l.

Definition statuses : list string := fst <$> ALLOWED_TRANSITIONS.

Lemma mirror_cases o db t c s : remediation_cases (_mirror_exception o db t c s) = remediation_cases db.
Proof. unfold _mirror_exception, _mirror_update. by repeat case_match. Qed.

Lemma audit_cases o db r : remediation_cases (audit_event o db r) = remediation_cases db.
Proof. unfold audit_event. by destruct (audit_fails o). Qed.

(** Ids are primary keys. *)
Definition wf (db : rdb) : Prop :=
  NoDup (rc_id <$> remediation_cases db) /\ Forall (fun rc => rc_status rc ∈ statuses) (remediation_cases db).

Lemma guarded_unique l tid cid from :
  NoDup (rc_id <$> l) -> (length (List.filter (guarded tid cid from) l) <= 1)%nat.
Proof.
  induction l as [|rc l IH]; cbn; [lia|]. intros [Hn Hd]%NoDup_cons. specialize (IH Hd).
  destruct (guarded tid cid from rc) eqn:E; [|done]. cbn. unfold guarded in E. reflect_bools.
  assert (List.filter (guarded tid cid from) l = []) as ->; [|done].
  clear IH Hd. induction l as [|rc' l IH]; [done|]. cbn in Hn |- *. apply not_elem_of_cons in Hn as [Hne Hn].
  destruct (guarded tid cid from rc') eqn:E'; [|by apply IH]. unfold guarded in E'. reflect_bools. congruence.
Qed.

Lemma transition_inv `{Runtime} o db t c to_ from actor db' :
  transition o db t c to_ from actor = Ok db' ->
  allowed from to_
  /\ exists cid tid, cast_uuid c = Ok cid /\ cast_uuid t = Ok tid
     /\ length (List.filter (guarded tid cid from) (remediation_cases db)) = 1%nat
     /\ remediation_cases db' = map (fun rc => if guarded tid cid from rc then move to_ rc else rc) (remediation_cases db).
Proof.
  unfold transition. destruct (negb (existsb _ _)) eqn:Ha; [done|]. apply negb_false_iff, existsb_In_eqb in Ha.
  intros (cid & Hc & Ht)%rbind_Ok_inv. apply rbind_Ok_inv in Ht as (tid & Ht & H1).
  destruct (Nat.eqb_spec (length (List.filter (guarded tid cid from) (remediation_cases db))) 1) as [E|E]; [|done].
  cbn [negb] in H1. apply Ok_inv in H1 as <-. split.
  - unfold allowed. destruct (assoc from ALLOWED_TRANSITIONS) as [l|]; [|by destruct Ha].
    exists l. by rewrite list_elem_of_In.
  - exists cid, tid. do 3 (split; [done|]). by rewrite mirror_cases, audit_cases.
Qed.

Lemma targets_known from to_ : allowed from to_ -> to_ ∈ statuses.
Proof.
  intros (l & Hl & Hin). apply assoc_In in Hl.
  assert (Hall : forallb (fun p => forallb (fun s => existsb (String.eqb s) statuses) (snd p)) ALLOWED_TRANSITIONS = true)
    by (vm_compute; reflexivity).
  rewrite forallb_forall in Hall. apply list_elem_of_In in Hl. specialize (Hall _ Hl). cbn [snd] in Hall.
  rewrite forallb_forall in Hall. apply list_elem_of_In in Hin. apply list_elem_of_In, existsb_In_eqb. by apply Hall.
Qed.

Lemma not_self from : ~ allowed from from.
Proof.
  intros (l & Hl & Hin). apply assoc_In in Hl.
  assert (Hall : forallb (fun p => negb (existsb (String.eqb (fst p)) (snd p))) ALLOWED_TRANSITIONS = true)
    by (vm_compute; reflexivity).
  rewrite forallb_forall in Hall. apply list_elem_of_In in Hl. specialize (Hall _ Hl). cbn [fst snd] in Hall.
  apply negb_true_iff, not_true_iff_false in Hall. apply Hall, existsb_In_eqb. by apply list_elem_of_In.
Qed.

(** ** The life cycle as a transition system *)

Inductive path : string -> string -> Prop :=
| path_refl s : path s s
| path_step s t u : allowed s t -> path t u -> path s u.

(** ** Properties *)

(** C40. A transition is safe: it succeeds only along an allowed edge, for exactly one case, which was in
    the expected status and is the only one that changes; ids stay unique and every status stays one
    of the ten of the life cycle. *)
Theorem transition_safe `{Runtime} o db t c to_ from actor db' :
  wf db -> transition o db t c to_ from actor = Ok db' ->
  allowed from to_ /\ wf db'
  /\ exists cid tid rc, cast_uuid c = Ok cid /\ cast_uuid t = Ok tid
     /\ rc ∈ remediation_cases db /\ rc_id rc = cid /\ rc_tenant_id rc = tid /\ rc_status rc = from
     /\ move to_ rc ∈ remediation_cases db'
     /\ (forall rc', rc' ∈ remediation_cases db -> rc_id rc' <> cid -> rc' ∈ remediation_cases db').
Proof.
  intros [Hn Hf] (Ha & cid & tid & Hc & Ht & Hone & Hdb)%transition_inv. split; [done|]. split.
  - split.
    + rewrite Hdb. rewrite <- list_fmap_compose || idtac. erewrite list_fmap_ext; [exact Hn|].
      intros i rc _. cbn. by destruct (guarded tid cid from rc).
    + rewrite Hdb. apply Forall_map. eapply Forall_impl; [exact Hf|]. intros rc Hrc. cbn.
      destruct (guarded tid cid from rc); [|done]. by eapply targets_known.
  - destruct (List.filter (guarded tid cid from) (remediation_cases db)) as [|rc l] eqn:E; [done|].
    assert (Hin : In rc (rc :: l)) by by left. rewrite <- E, filter_In in Hin. destruct Hin as [Hin Hg].
    exists cid, tid, rc. pose proof Hg as Hg'. unfold guarded in Hg'. reflect_bools.
    rewrite Hdb, !list_elem_of_In. do 6 (split; [done|]). split.
    + apply in_map_iff. exists rc. by rewrite Hg.
    + intros rc' Hin' Hne. apply list_elem_of_In, in_map_iff. exists rc'. split; [|by apply list_elem_of_In].
      assert (guarded tid cid from rc' = false) as ->; [|done].
      unfold guarded. by apply String.eqb_neq in Hne as ->.
Qed.

(** Optimistic concurrency: of two callers that expect the same status of one case, at most one moves
    it; after the first succeeds the second, whatever its target, is refused. *)
Theorem transition_stale `{Runtime} o o' db t c to1 to2 from actor actor' db' :
  NoDup (rc_id <$> remediation_cases db) ->
  transition o db t c to1 from actor = Ok db' ->
  exists e, transition o' db' t c to2 from actor' = Raise e /\ exn_type e = "HTTPException".
Proof.
  intros Hn (Ha & cid & tid & Hc & Ht & Hone & Hdb)%transition_inv. unfold transition.
  destruct (negb (existsb _ _)); [by eexists|]. rewrite Hc, Ht. cbn [rbind].
  assert (Hz : List.filter (guarded tid cid from) (remediation_cases db') = []); [|by rewrite Hz; eexists].
  rewrite Hdb. clear -Ha. induction (remediation_cases db) as [|rc l IH]; [done|]. cbn.
  destruct (guarded tid cid from rc) eqn:E; cbn; rewrite ?E; [|exact IH].
  assert (Hne : String.eqb to1 from = false).
  { apply String.eqb_neq. intros ->. by apply not_self in Ha. }
  unfold guarded at 1. cbn [rc_status move]. by rewrite Hne, andb_false_r.
Qed.

(** The life cycle has no dead end but its end: from every one of the ten statuses a case can reach
    [released], and from [released] nothing moves. *)
Theorem lifecycle_can_finish s :
  s ∈ statuses -> path s "released" /\ (forall t, path "released" t -> t = "released").
Proof.
  intros Hs. split.
  - assert (Hedge : forall a b l, assoc a ALLOWED_TRANSITIONS = Some l -> existsb (String.eqb b) l = true ->
                    path b "released" -> path a "released").
    { intros a b l Hl Hb Hp. eapply path_step; [|exact Hp]. exists l. split; [done|].
      by apply list_elem_of_In, existsb_In_eqb. }
    assert (H1 := Hedge "revalidating" "released" _ eq_refl eq_refl (path_refl _)).
    assert (H2 := Hedge "correction_submitted" "revalidating" _ eq_refl eq_refl H1).
    assert (H3 := Hedge "awaiting_supplier" "correction_submitted" _ eq_refl eq_refl H2).
    assert (H4 := Hedge "notification_ready" "awaiting_supplier" _ eq_refl eq_refl H3).
    assert (H5 := Hedge "auto_resolution_attempted" "released" _ eq_refl eq_refl (path_refl _)).
    assert (H6 := Hedge "supplier_action_required" "notification_ready" _ eq_refl eq_refl H4).
    assert (H7 := Hedge "detected" "auto_resolution_attempted" _ eq_refl eq_refl H5).
    assert (H8 := Hedge "buyer_review" "released" _ eq_refl eq_refl (path_refl _)).
    assert (H9 := Hedge "escalated" "notification_ready" _ eq_refl eq_refl H4).
    apply list_elem_of_In in Hs. cbn in Hs.
    repeat (destruct Hs as [<-|Hs]; [auto using path_refl|]). destruct Hs.
  - intros t Hp. remember "released" as r eqn:Er. induction Hp as [|a b u (l & Hl & Hin) _ _]; [done|]. subst.
    injection Hl as <-. by apply elem_of_nil in Hin.
Qed.

#[local] Existing Instance demo_runtime.

Definition demo_rdb : rdb :=
  RDb [RCase "c1" "t1" "revalidating" (Some "x1"); RCase "c2" "t1" "detected" None] [XCase "x1" "t1" "in_review"] [].
Definition ok_effects : best_effort := BestEffort false false.

Lemma demo_rdb_wf : wf demo_rdb.
Proof.
  split; [|repeat constructor; apply list_elem_of_In; cbn; tauto].
  apply NoDup_cons. split; [|apply NoDup_singleton]. rewrite list_elem_of_In. by intros [|[]].
Qed.

Definition demo_rdb' : rdb :=
  RDb [RCase "c1" "t1" "buyer_review" (Some "x1"); RCase "c2" "t1" "detected" None] [XCase "x1" "t1" "in_review"]
    [Audit "t1" "c1" "revalidating" "buyer_review" None].

Lemma demo_transition :
  transition ok_effects demo_rdb "t1" "c1" "buyer_review" "revalidating" None = Ok demo_rdb'.
Proof. vm_compute. reflexivity. Qed.

Lemma transition_safe_witness : allowed "revalidating" "buyer_review" /\ wf demo_rdb'.
Proof.
  destruct (transition_safe ok_effects demo_rdb "t1" "c1" "buyer_review" "revalidating" None demo_rdb' demo_rdb_wf demo_transition)
    as (Ha & Hw & _). split; [exact Ha | exact Hw].
Defined.

Lemma transition_stale_witness :
  exists e, transition ok_effects demo_rdb' "t1" "c1" "released" "revalidating" (Some "bob") = Raise e
    /\ exn_type e = "HTTPException".
Proof.
  apply (transition_stale ok_effects ok_effects demo_rdb "t1" "c1" "buyer_review" "released" "revalidating" None
    (Some "bob") demo_rdb' (proj1 demo_rdb_wf) demo_transition).
Defined.

Lemma lifecycle_can_finish_witness : path "awaiting_supplier" "released".
Proof. apply (lifecycle_can_finish "awaiting_supplier"). apply list_elem_of_In. cbn. tauto. Defined.
