(* ===== verification/Corrections.v ===== *)
(** * Correction patches

    [services/ingestion/app/remediation/corrections.py]: field paths, reading and setting a field, the
    derived current record, and the append-only table of patches with its per-case hash chain.
    JSON columns keep the text that was written; what reading one back gives, and in which zone the
    session returns a timestamp, are the operations of the class [PatchColumns]. *)

From Stdlib Require Import ZArith Lia String Ascii.
From Corelib Require Import SpecFloat.
From stdpp Require Import base list strings.
From S2P Require Import Prelude PyStr PyFloat PyVal Json Sha256 Uom Stateless Relational.

Local Open Scope string_scope.

(** ** Field paths *)

Definition HTTP_422 (detail : string) : exn := Exn "HTTPException" ("422: " +:+ detail).

Definition path_char (c : ascii) : bool := in_range 97 122 c || in_range 48 57 c || Ascii.eqb c "_".
Definition newline : ascii := char 10.

(** [_FIELD_PATH_RE.match(path)]: [$] also matches before one final newline. *)
Definition _FIELD_PATH_RE (path : string) : bool :=
  let body := if startswith path "kdes." then str_drop 5 path else path in
  let body := if endswith body (String newline "") then str_take (slen body - 1) body else body in
  negb (String.eqb body "") && str_forallb path_char body.

Definition validate_field_path (path : string) (allowed : list string) : res unit :=
  if negb (existsb (String.eqb path) allowed)
  then Raise (HTTP_422 ("Field '" +:+ path +:+ "' is not authorized for this case"))
  else if negb (_FIELD_PATH_RE path) || contains "__" path
  then Raise (HTTP_422 ("Field path '" +:+ path +:+ "' is not a valid field path"))
  else Ok tt.

(** ** Reading and setting a field *)

Definition get_value (event : pydict) (path : string) : res pyval :=
  if startswith path "kdes."
  then py_get (py_or (dict_get event "kdes" PNone) (PDict [])) (str_drop 5 path) PNone
  else Ok (dict_get event path PNone).

(** [v[k] = x]. *)
Definition set_item (v : pyval) (k : string) (x : pyval) : res pyval :=
  match v with
  | PDict d => Ok (PDict (dict_set k x d))
  | PList _ => Raise (TypeError "list indices must be integers or slices, not str")
  | _ => Raise (TypeError ("'" +:+ type_name v +:+ "' object does not support item assignment"))
  end.

Definition set_value (event : pydict) (path : string) (value : pyval) : res pydict :=
  if startswith path "kdes." then
    let out := match dict_lookup "kdes" event with Some _ => event | None => dict_set "kdes" (PDict []) event end in
    do kdes <- set_item (dict_get out "kdes" PNone) (str_drop 5 path) value;
    Ok (dict_set "kdes" kdes out)
  else Ok (dict_set path value event).

(** ** Patches *)

(** A patch as the code passes it around: the dict that [load_patches] returns. *)
Record patch := Patch {
  p_id : string; p_tenant_id : string; p_case_id : string; p_manifest_record_id : string; p_patch_seq : Z;
  p_validation_issue_id : option string; p_field_path : string; p_previous_value : pyval; p_proposed_value : pyval;
  p_correcting_org : string; p_actor_name : string; p_actor_role : string; p_auth_method : string;
  p_correction_reason : string; p_attestation_text : string; p_attested_at : pyval;
  p_prev_patch_hash : option string; p_patch_hash : string
}.

(** [sorted(patches, key=lambda p: p["patch_seq"])], which is stable. *)
Fixpoint seq_insert (p : patch) (l : list patch) : list patch :=
  match l with
  | [] => [p]
  | q :: l' => if (p_patch_seq p <=? p_patch_seq q)%Z then p :: l else q :: seq_insert p l'
  end.
Definition by_seq (l : list patch) : list patch := foldr seq_insert [] l.

Fixpoint set_all (current : pydict) (changes : list (string * pyval)) : res pydict :=
  match changes with
  | [] => Ok current
  | (path, value) :: rest => do current <- set_value current path value; set_all current rest
  end.

Definition apply_patches (original : pydict) (patches : list patch) : res pydict :=
  set_all original ((fun p => (p_field_path p, p_proposed_value p)) <$> by_seq patches).

(** ** The hash chain *)

Definition GENESIS : string := "GENESIS".

(** [json.dumps(value, sort_keys=True, separators=(",", ":"), default=str)]. *)
Definition opts_canonical : json_opts := JsonOpts true "," ":" true.
(** [json.dumps(value)]. *)
Definition opts_plain : json_opts := JsonOpts false ", " ": " false.

(** What the library and the database give: the zone of a naive time, the zone of the session, and
    the value read from a JSON column. *)
Class PatchColumns := {
  local_offset : Z -> Z;
  session_offset : Z -> Z;
  jsonb_value : string -> res pyval
}.

Section Chain.
Context `{PyLib, Runtime, PatchColumns}.

Definition canonical_json (v : pyval) : res string := json_dumps opts_canonical v.

Definition compute_patch_hash (prev_hash : option string) (body : pydict) : res string :=
  do j <- canonical_json (PDict (("prev_patch_hash", PStr (ostr_or prev_hash GENESIS)) :: body));
  Ok (sha256_hex j).

(** [d.astimezone(timezone.utc)]. *)
Definition as_utc (d : datetime) : datetime :=
  Datetime (dt_wall d - match dt_offset d with Some o => o | None => local_offset (dt_wall d) end) (Some 0%Z).

Definition _norm_ts (value : pyval) : res pyval :=
  match value with
  | PDatetime d => Ok (PStr (isoformat (as_utc d)))
  | PStr s =>
      match fromisoformat s with
      | Ok d => Ok (PStr (isoformat (as_utc d)))
      | Raise e => if String.eqb (exn_type e) "ValueError" then Ok value else Raise e
      end
  | _ => Ok value
  end.

Definition opt_val (o : option string) : pyval := match o with Some s => PStr s | None => PNone end.

(** The fields that are hashed, the attestation time as given. *)
Definition body_of (p : patch) (attested_at : pyval) : pydict :=
  [("tenant_id", PStr (p_tenant_id p)); ("case_id", PStr (p_case_id p));
   ("manifest_record_id", PStr (p_manifest_record_id p)); ("patch_seq", PInt (p_patch_seq p));
   ("validation_issue_id", opt_val (p_validation_issue_id p)); ("field_path", PStr (p_field_path p));
   ("previous_value", p_previous_value p); ("proposed_value", p_proposed_value p);
   ("correcting_org", PStr (p_correcting_org p)); ("actor_name", PStr (p_actor_name p));
   ("actor_role", PStr (p_actor_role p)); ("auth_method", PStr (p_auth_method p));
   ("correction_reason", PStr (p_correction_reason p)); ("attestation_text", PStr (p_attestation_text p));
   ("attested_at", attested_at)].

Definition _hash_body (p : patch) : res pydict := do t <- _norm_ts (p_attested_at p); Ok (body_of p t).

Fixpoint verify_links (prev : option string) (l : list patch) : res bool :=
  match l with
  | [] => Ok true
  | p :: rest =>
      do body <- _hash_body p;
      do expected <- compute_patch_hash prev body;
      if negb (String.eqb expected (p_patch_hash p)) then Ok false else verify_links (Some (p_patch_hash p)) rest
  end.

Definition verify_patch_chain (patches : list patch) : res bool := verify_links None (by_seq patches).

(** ** The table *)

(** A row of [fsma.correction_patches]: the patch with its JSON columns as text, the instant of the
    attestation, and the reference to the evidence. *)
Record patch_row := PatchRow {
  r_patch : patch; r_previous_json : string; r_proposed_json : string; r_attested_at : datetime;
  r_evidence_ref : option string
}.

(** One row of [load_patches]. *)
Definition load_row (r : patch_row) : res patch :=
  let p := r_patch r in
  do previous <- jsonb_value (r_previous_json r);
  do proposed <- jsonb_value (r_proposed_json r);
  let off := session_offset (dt_wall (r_attested_at r)) in
  Ok (Patch (p_id p) (p_tenant_id p) (p_case_id p) (p_manifest_record_id p) (p_patch_seq p) (p_validation_issue_id p)
       (p_field_path p) previous proposed (p_correcting_org p) (p_actor_name p) (p_actor_role p) (p_auth_method p)
       (p_correction_reason p) (p_attestation_text p)
       (PStr (isoformat (Datetime (dt_wall (r_attested_at r) + off) (Some off))))
       (p_prev_patch_hash p) (p_patch_hash p)).

Fixpoint row_insert (r : patch_row) (l : list patch_row) : list patch_row :=
  match l with
  | [] => [r]
  | q :: l' => if (p_patch_seq (r_patch r) <=? p_patch_seq (r_patch q))%Z then r :: l else q :: row_insert r l'
  end.
Definition rows_by_seq (l : list patch_row) : list patch_row := foldr row_insert [] l.

Definition load_patches (db : list patch_row) (tenant_id manifest_record_id : string) : res (list patch) :=
  do tid <- cast_uuid tenant_id;
  do rid <- cast_uuid manifest_record_id;
  rmapM load_row (rows_by_seq (List.filter (fun r =>
    String.eqb (p_tenant_id (r_patch r)) tid && String.eqb (p_manifest_record_id (r_patch r)) rid) db)).

(** The keyword arguments of [insert_patches]. *)
Record submission := Submission {
  s_tenant_id : string; s_case_id : string; s_manifest_record_id : string;
  s_changes : list (string * string); s_previous_values : pydict; s_issue_by_field : list (string * option string);
  s_correcting_org : string; s_actor_name : string; s_actor_role : string; s_correction_reason : string;
  s_attestation_text : string; s_evidence_ref : option string; s_auth_method : string
}.

(** One call: the clock, the identifiers the database hands out, and the rows it refuses. *)
Record insert_env := InsertEnv { ie_now : datetime; ie_id : nat -> string; ie_refuse : patch_row -> option exn }.

(** The tail of the case's chain: [ORDER BY patch_seq DESC LIMIT 1]. *)
Definition chain_tail (db : list patch_row) (tid cid : string) : option patch :=
  r_patch <$> last (rows_by_seq (List.filter (fun r =>
    String.eqb (p_tenant_id (r_patch r)) tid && String.eqb (p_case_id (r_patch r)) cid) db)).

(** One pass of the loop; [k] numbers the rows inserted by this call. *)
Fixpoint insert_fields (e : insert_env) (s : submission) (k : nat) (next_seq : Z) (prev_hash : option string)
    (changes : list (string * string)) (db : list patch_row) : res (list string * list patch_row) :=
  match changes with
  | [] => Ok ([], db)
  | (path, value) :: rest =>
      let issue := match assoc path (s_issue_by_field s) with Some o => o | None => None end in
      let previous := dict_get (s_previous_values s) path PNone in
      let body t c r h :=
        Patch (ie_id e k) t c r next_seq issue path previous (PStr value) (s_correcting_org s) (s_actor_name s)
          (s_actor_role s) (s_auth_method s) (s_correction_reason s) (s_attestation_text s) PNone prev_hash h in
      do patch_hash <- compute_patch_hash prev_hash
        (body_of (body (s_tenant_id s) (s_case_id s) (s_manifest_record_id s) "") (PStr (isoformat (ie_now e))));
      do tid <- cast_uuid (s_tenant_id s);
      do cid <- cast_uuid (s_case_id s);
      do rid <- cast_uuid (s_manifest_record_id s);
      do previous_json <- json_dumps opts_plain previous;
      do proposed_json <- json_dumps opts_plain (PStr value);
      let row := PatchRow (body tid cid rid patch_hash) previous_json proposed_json (ie_now e) (s_evidence_ref s) in
      match ie_refuse e row with
      | Some x => Raise x
      | None =>
          do '(ids, db) <- insert_fields e s (S k) (next_seq + 1) (Some patch_hash) rest (db ++ [row])%list;
          Ok (ie_id e k :: ids, db)
      end
  end.

Definition insert_patches (e : insert_env) (db : list patch_row) (s : submission) : res (list string * list patch_row) :=
  do tid <- cast_uuid (s_tenant_id s);
  do cid <- cast_uuid (s_case_id s);
  let tail := chain_tail db tid cid in
  let next_seq := match tail with Some t => (p_patch_seq t + 1)%Z | None => 1%Z end in
  let prev_hash := match tail with Some t => Some (p_patch_hash t) | None => None end in
  insert_fields e s 0 next_seq prev_hash (key_sort (s_changes s)) db.
End Chain.

(** ** Facts: fields *)

(** An event whose [kdes], if any, is an object. *)
Definition kdes_ok (event : pydict) : Prop :=
  match dict_lookup "kdes" event with None | Some (PDict _) => True | _ => False end.

Lemma kdes_path path : startswith path "kdes." = true -> path = "kdes." +:+ str_drop 5 path.
Proof. intros (k & ->)%startswith_iff. done. Qed.

(** The object under [kdes], empty when there is none. *)
Definition kdes_of (event : pydict) : pydict :=
  match dict_lookup "kdes" event with Some (PDict d) => d | _ => [] end.

Lemma get_value_spec event path :
  kdes_ok event ->
  get_value event path = Ok (if startswith path "kdes." then dict_get (kdes_of event) (str_drop 5 path) PNone
                             else dict_get event path PNone).
Proof.
  unfold kdes_ok, kdes_of, get_value. intros Hk. destruct (startswith path "kdes."); [|done].
  unfold dict_get at 1. destruct (dict_lookup "kdes" event) as [[]|]; try done. by destruct d.
Qed.

Lemma set_value_spec event path v :
  kdes_ok event -> path <> "kdes" ->
  exists event', set_value event path v = Ok event' /\ kdes_ok event'
  /\ forall p, p <> "kdes" -> get_value event' p = if String.eqb p path then Ok v else get_value event p.
Proof.
  intros Hk Hne. unfold set_value. destruct (startswith path "kdes.") eqn:Hs.
  - set (out := match dict_lookup "kdes" event with Some _ => event | None => _ end).
    assert (Ho : dict_get out "kdes" PNone = PDict (kdes_of event)
                 /\ forall p, p <> "kdes" -> dict_get out p PNone = dict_get event p PNone).
    { subst out. unfold kdes_ok, kdes_of in *. destruct (dict_lookup "kdes" event) as [[]|] eqn:E; try done.
      - unfold dict_get at 1. by rewrite E.
      - split; [apply dict_get_set_eq|]. intros p Hp. by apply dict_get_set_ne. }
    destruct Ho as [Hd Ho]. rewrite Hd. cbn [set_item rbind]. eexists. split; [done|].
    assert (Hk' : forall d, kdes_ok (dict_set "kdes" (PDict d) out)) by (intros d; unfold kdes_ok; by rewrite dict_lookup_set_eq).
    split; [apply Hk'|]. intros p Hp. rewrite !get_value_spec by done. unfold kdes_of at 1. rewrite dict_lookup_set_eq.
    destruct (String.eqb_spec p path) as [->|Hpp].
    + by rewrite Hs, dict_get_set_eq.
    + destruct (startswith p "kdes.") eqn:Hsp.
      * rewrite dict_get_set_ne; [done|]. intros E. apply Hpp. rewrite (kdes_path p Hsp), (kdes_path path Hs). by rewrite E.
      * rewrite dict_get_set_ne by congruence. by rewrite Ho.
  - eexists. split; [done|]. assert (Hk' : kdes_ok (dict_set path v event)).
    { unfold kdes_ok. rewrite dict_lookup_set_ne by done. exact Hk. }
    split; [done|]. intros p Hp. rewrite !get_value_spec by done. unfold kdes_of. rewrite dict_lookup_set_ne by done.
    destruct (String.eqb_spec p path) as [->|Hpp]; [by rewrite Hs, dict_get_set_eq|].
    destruct (startswith p "kdes."); [done|]. by rewrite dict_get_set_ne by congruence.
Qed.

(** The value the last change of a field gives it. *)
Definition last_change (path : string) (changes : list (string * pyval)) : option pyval :=
  snd <$> last (List.filter (fun c => String.eqb path (fst c)) changes).

Lemma set_all_spec changes : forall event,
  kdes_ok event -> Forall (fun c => fst c <> "kdes") changes ->
  exists event', set_all event changes = Ok event' /\ kdes_ok event'
  /\ forall p, p <> "kdes" ->
       get_value event' p = match last_change p changes with Some v => Ok v | None => get_value event p end.
Proof.
  induction changes as [|[path v] changes IH]; intros event Hk Hf; cbn [set_all]; [by exists event|].
  apply Forall_cons in Hf as [Hp Hf]. destruct (set_value_spec event path v Hk Hp) as (e1 & -> & Hk1 & Hg1).
  cbn [rbind].
  destruct (IH e1 Hk1 Hf) as (e2 & -> & Hk2 & Hg2). exists e2. split; [done|]. split; [done|]. intros p Hne.
  rewrite Hg2 by done. unfold last_change. cbn [List.filter fst].
  destruct (String.eqb_spec p path) as [->|Hpp].
  - destruct (List.filter _ changes) as [|c cs] eqn:E; [cbn; by rewrite Hg1, String.eqb_refl|].
    change (last ((path, v) :: c :: cs)) with (last (c :: cs)). destruct (last (c :: cs)) eqn:El; [done|].
    by apply last_None in El.
  - rewrite Hg1 by done. by apply String.eqb_neq in Hpp as ->.
Qed.

(** ** Facts: the chain *)

Section ChainFacts.
Context `{PyLib, Runtime, PatchColumns}.

(** The rows in table order are numbered from [i], each hashes with its predecessor when loaded. *)
Fixpoint chained (i : Z) (prev : option string) (rows : list patch_row) : Prop :=
  match rows with
  | [] => True
  | r :: rest =>
      p_patch_seq (r_patch r) = i
      /\ (exists p body, load_row r = Ok p /\ p_patch_seq p = i /\ p_patch_hash p = p_patch_hash (r_patch r)
            /\ _hash_body p = Ok body /\ compute_patch_hash prev body = Ok (p_patch_hash (r_patch r)))
      /\ chained (i + 1) (Some (p_patch_hash (r_patch r))) rest
  end.

(** The number and the link the next row takes. *)
Definition next_of (i : Z) (prev : option string) (rows : list patch_row) : Z * option string :=
  match last rows with
  | Some r => ((p_patch_seq (r_patch r) + 1)%Z, Some (p_patch_hash (r_patch r)))
  | None => (i, prev)
  end.

Lemma next_of_cons i prev r rows :
  next_of i prev (r :: rows) = next_of (p_patch_seq (r_patch r) + 1) (Some (p_patch_hash (r_patch r))) rows.
Proof. unfold next_of. destruct rows as [|r' rows]; [done|]. change (last (r :: r' :: rows)) with (last (r' :: rows)).
  destruct (last (r' :: rows)) eqn:E; [done|]. by apply last_None in E. Qed.

Lemma chained_app rows : forall i prev new,
  chained i prev rows -> chained (fst (next_of i prev rows)) (snd (next_of i prev rows)) new -> chained i prev (rows ++ new)%list.
Proof.
  induction rows as [|q rows IH]; intros i prev new Hc Hr; [exact Hr|]. cbn [app chained] in *.
  destruct Hc as (Hi & Hq & Hc). split; [done|]. split; [done|]. rewrite next_of_cons, Hi in Hr. by apply IH.
Qed.

Lemma chained_ge rows : forall i prev, chained i prev rows -> Forall (fun r => (i <= p_patch_seq (r_patch r))%Z) rows.
Proof.
  induction rows as [|r rows IH]; intros i prev Hc; [done|]. destruct Hc as (Hi & _ & Hc). constructor; [lia|].
  eapply Forall_impl; [by eapply IH|]. cbn. lia.
Qed.

Lemma chained_sorted rows : forall i prev, chained i prev rows -> rows_by_seq rows = rows.
Proof.
  induction rows as [|r rows IH]; intros i prev Hc; [done|]. pose proof (chained_ge _ _ _ (proj2 (proj2 Hc))) as Hge.
  destruct Hc as (Hi & _ & Hc). unfold rows_by_seq in *. cbn [foldr]. rewrite (IH _ _ Hc). destruct rows as [|q rows]; [done|].
  apply Forall_cons in Hge as [Hge _]. cbn [row_insert]. by replace (_ <=? _)%Z with true by (symmetry; apply Z.leb_le; lia).
Qed.

Lemma chained_load rows : forall i prev, chained i prev rows ->
  exists ps, rmapM load_row rows = Ok ps /\ verify_links prev ps = Ok true /\ by_seq ps = ps
  /\ Forall (fun p => (i <= p_patch_seq p)%Z) ps
  /\ (p_patch_seq <$> ps) = (fun k => (i + Z.of_nat k)%Z) <$> seq 0 (length rows).
Proof.
  induction rows as [|r rows IH]; intros i prev Hc; [by exists []|].
  destruct Hc as (Hi & (p & body & Hl & Hp & Hh & Hb & Hx) & Hc). destruct (IH _ _ Hc) as (ps & Hm & Hv & Hs & Hge & Hseq).
  exists (p :: ps). cbn [rmapM]. rewrite Hl. cbn [rbind]. rewrite Hm. cbn [rbind]. split; [done|]. split; [|split; [|split]].
  - cbn [verify_links]. rewrite Hb. cbn [rbind]. rewrite Hx. cbn [rbind]. by rewrite Hh, String.eqb_refl.
  - unfold by_seq in *. cbn [foldr]. rewrite Hs. destruct ps as [|q ps]; [done|]. apply Forall_cons in Hge as [Hge _].
    cbn [seq_insert]. by replace (_ <=? _)%Z with true by (symmetry; apply Z.leb_le; lia).
  - constructor; [lia|]. eapply Forall_impl; [done|]. cbn. lia.
  - cbn [length seq fmap list_fmap]. f_equal; [rewrite Hp; lia|]. fold (list_fmap _ _ p_patch_seq ps).
    change (list_fmap patch Z p_patch_seq ps) with (p_patch_seq <$> ps). rewrite Hseq, <- fmap_S_seq, <- list_fmap_compose.
    apply list_fmap_ext. intros k x _. cbn. lia.
Qed.

(** What a call must hand over for its patches to be read back as they were hashed: identifiers in
    canonical text, a time that survives being written and read, values that survive JSON. *)
Definition canonical_id (x : string) : Prop := cast_uuid x = Ok x.
Definition at_session (d : datetime) : datetime :=
  Datetime (dt_wall d + session_offset (dt_wall d)) (Some (session_offset (dt_wall d))).
Definition time_ok (d : datetime) : Prop :=
  dt_offset d = Some 0%Z /\ fromisoformat (isoformat (at_session d)) = Ok (at_session d).
Definition readable (v : pyval) : Prop := forall j, json_dumps opts_plain v = Ok j -> jsonb_value j = Ok v.

Definition readable_call (e : insert_env) (s : submission) : Prop :=
  canonical_id (s_tenant_id s) /\ canonical_id (s_case_id s) /\ canonical_id (s_manifest_record_id s)
  /\ time_ok (ie_now e)
  /\ forall path value, (path, value) ∈ s_changes s ->
       readable (dict_get (s_previous_values s) path PNone) /\ readable (PStr value).

Definition rows_of (t c : string) (db : list patch_row) : list patch_row :=
  List.filter (fun r => String.eqb (p_tenant_id (r_patch r)) t && String.eqb (p_case_id (r_patch r)) c) db.

(** The rows of one call belong to its tenant, case and record. *)
Definition row_of_call (s : submission) (r : patch_row) : Prop :=
  p_tenant_id (r_patch r) = s_tenant_id s /\ p_case_id (r_patch r) = s_case_id s
  /\ p_manifest_record_id (r_patch r) = s_manifest_record_id s.

Lemma norm_at_session d : time_ok d -> _norm_ts (PStr (isoformat (at_session d))) = Ok (PStr (isoformat d)).
Proof.
  intros [Hoff Hiso]. unfold _norm_ts. rewrite Hiso. do 3 f_equal. unfold as_utc, at_session. destruct d as [w o].
  cbn in *. rewrite Hoff. f_equal. lia.
Qed.

Lemma insert_fields_spec e s changes :
  canonical_id (s_tenant_id s) -> canonical_id (s_case_id s) -> canonical_id (s_manifest_record_id s) -> time_ok (ie_now e) ->
  (forall path value, (path, value) ∈ changes ->
     readable (dict_get (s_previous_values s) path PNone) /\ readable (PStr value)) ->
  forall k n prev db ids db', insert_fields e s k n prev changes db = Ok (ids, db') ->
  exists new, db' = (db ++ new)%list /\ chained n prev new /\ Forall (row_of_call s) new
  /\ length ids = length changes /\ length new = length changes.
Proof.
  intros Ht Hc Hr Hnow. induction changes as [|[path value] changes IH]; intros Hread k n prev db ids db' Hi.
  { cbn in Hi. apply Ok_inv in Hi. injection Hi as <- <-. exists []. by rewrite app_nil_r. }
  destruct (Hread path value) as [Hp Hv]; [by left|]. cbn [insert_fields] in Hi.
  apply rbind_Ok_inv in Hi as (h & Hh & Hi). rewrite Ht, Hc, Hr in Hi. cbn [rbind] in Hi.
  apply rbind_Ok_inv in Hi as (pj & Hpj & Hi). apply rbind_Ok_inv in Hi as (vj & Hvj & Hi).
  destruct (ie_refuse e _); [done|]. apply rbind_Ok_inv in Hi as ([ids1 db1] & Hrest & Hi).
  apply Ok_inv in Hi. injection Hi as <- <-.
  apply IH in Hrest as (new & -> & Hch & Hnew & Hl1 & Hl2); [|intros p v Hin; apply Hread; by right].
  rewrite <- app_assoc. eexists. split; [reflexivity|]. cbn [length app]. split; [|split; [by constructor|by split; f_equal]].
  cbn [chained]. split; [done|]. split; [|exact Hch]. unfold load_row. cbn [r_previous_json r_proposed_json r_attested_at r_patch].
  rewrite (Hp _ Hpj), (Hv _ Hvj). cbn [rbind]. do 2 eexists. split; [reflexivity|]. split; [done|]. split; [done|].
  unfold _hash_body. cbn [p_attested_at]. fold (at_session (ie_now e)). rewrite norm_at_session by done. split; [reflexivity|]. exact Hh.
Qed.

Lemma key_sort_in {A} (x : string * A) l : x ∈ key_sort l -> x ∈ l.
Proof.
  assert (Hins : forall y k, x ∈ key_insert y k -> x = y \/ x ∈ k).
  { intros y k. induction k as [|z k IH]; cbn; [by intros ->%list_elem_of_singleton; left|].
    case_match; intros [->|Hx]%elem_of_cons; auto; [right; by left|]. destruct (IH Hx); [auto|]. right. by right. }
  unfold key_sort. induction l as [|y l IH]; cbn; [done|]. intros [->|Hx]%Hins; [by left|]. right. auto.
Qed.

(** What a call appends, and where it hooks into its case's chain. *)
Lemma insert_patches_spec e db s ids db' :
  readable_call e s -> chained 1 None (rows_of (s_tenant_id s) (s_case_id s) db) ->
  insert_patches e db s = Ok (ids, db') ->
  exists new, db' = (db ++ new)%list /\ Forall (row_of_call s) new
  /\ chained 1 None (rows_of (s_tenant_id s) (s_case_id s) db ++ new)%list.
Proof.
  intros (Ht & Hc & Hr & Hnow & Hread) Hch. unfold insert_patches. rewrite Ht, Hc. cbn [rbind]. intros Hi.
  apply insert_fields_spec in Hi as (new & -> & Hnew & Hrow & _); try done;
    [|intros p v Hin; apply Hread; by apply key_sort_in].
  exists new. split; [done|]. split; [done|]. apply chained_app; [done|].
  unfold chain_tail in Hnew. fold (rows_of (s_tenant_id s) (s_case_id s) db) in Hnew.
  rewrite (chained_sorted _ _ _ Hch) in Hnew. unfold next_of. by destruct (last _).
Qed.

Lemma rows_of_call s new t c :
  Forall (row_of_call s) new ->
  rows_of t c new = if String.eqb (s_tenant_id s) t && String.eqb (s_case_id s) c then new else [].
Proof.
  intros Hf. unfold rows_of. induction Hf as [|r new (Ht & Hc & _) _ IH]; cbn; [by case_match|].
  rewrite Ht, Hc. destruct (_ && _); [by rewrite IH|done].
Qed.

(** Tables that calls of [insert_patches] produce, when no other case of the tenant patches the record. *)
Inductive patched (t c rid : string) : list patch_row -> Prop :=
| patched_empty : patched t c rid []
| patched_insert e db s ids db' :
    patched t c rid db -> readable_call e s ->
    (s_tenant_id s = t -> (s_case_id s = c <-> s_manifest_record_id s = rid)) ->
    insert_patches e db s = Ok (ids, db') -> patched t c rid db'.

Lemma patched_inv t c rid db :
  patched t c rid db ->
  (forall t' c', chained 1 None (rows_of t' c' db))
  /\ Forall (fun r => p_tenant_id (r_patch r) = t -> (p_case_id (r_patch r) = c <-> p_manifest_record_id (r_patch r) = rid)) db.
Proof.
  induction 1 as [|e db s ids db' _ [IHc IHf] Hread Htie Hi]; [by split; [intros t' c'|]|].
  apply insert_patches_spec in Hi as (new & -> & Hrow & Hch); [|done|apply IHc]. split.
  - intros t' c'. unfold rows_of. rewrite List.filter_app. fold (rows_of t' c' db). fold (rows_of t' c' new).
    rewrite (rows_of_call s new t' c' Hrow). destruct (String.eqb_spec (s_tenant_id s) t') as [<-|]; cbn;
      [|rewrite app_nil_r; apply IHc].
    destruct (String.eqb_spec (s_case_id s) c') as [<-|]; [done|rewrite app_nil_r; apply IHc].
  - apply Forall_app. split; [done|]. eapply Forall_impl; [done|]. intros r (-> & -> & ->). done.
Qed.

Lemma record_rows t c rid db :
  Forall (fun r => p_tenant_id (r_patch r) = t -> (p_case_id (r_patch r) = c <-> p_manifest_record_id (r_patch r) = rid)) db ->
  List.filter (fun r => String.eqb (p_tenant_id (r_patch r)) t && String.eqb (p_manifest_record_id (r_patch r)) rid) db
  = rows_of t c db.
Proof.
  unfold rows_of. induction 1 as [|r db Hr _ IH]; cbn; [done|]. rewrite IH.
  destruct (String.eqb_spec (p_tenant_id (r_patch r)) t) as [Ht|]; [|done]. specialize (Hr Ht). cbn.
  destruct (String.eqb_spec (p_case_id (r_patch r)) c), (String.eqb_spec (p_manifest_record_id (r_patch r)) rid); tauto.
Qed.
End ChainFacts.

(** ** Properties *)

(** The current record is the original with the last patch of every field: applying the patches never
    fails on an event whose [kdes] is an object or absent, and afterwards each field reads as the patch
    of that field with the highest sequence number says, or as the original did when no patch names
    it. *)
Theorem current_record original patches :
  kdes_ok original -> Forall (fun p => p_field_path p <> "kdes") patches ->
  exists current, apply_patches original patches = Ok current
  /\ forall path, path <> "kdes" ->
       get_value current path
       = match last_change path ((fun p => (p_field_path p, p_proposed_value p)) <$> by_seq patches) with
         | Some v => Ok v
         | None => get_value original path
         end.
Proof.
  intros Hk Hf. unfold apply_patches.
  destruct (set_all_spec ((fun p => (p_field_path p, p_proposed_value p)) <$> by_seq patches) original Hk) as (cur & -> & _ & Hg).
  - apply Forall_fmap. unfold by_seq. induction Hf as [|p ps Hp _ IH]; cbn; [done|].
    clear -IH Hp. induction (foldr seq_insert [] ps) as [|q l IHl]; cbn; [by constructor|].
    apply Forall_cons in IH as [Hq Hl]. case_match; constructor; auto.
  - by exists cur.
Qed.

(** Patches verify: in every table that calls of [insert_patches] produce, whatever tenants and cases
    they are for, the patches loaded for a record that one case of its tenant corrects are numbered
    1, 2, ... and pass the verification of their chain; the session's time zone does not matter. *)
Theorem patch_chain_no_false_alarm `{PyLib, Runtime, PatchColumns} t c rid db :
  canonical_id t -> canonical_id rid -> patched t c rid db ->
  exists patches, load_patches db t rid = Ok patches /\ verify_patch_chain patches = Ok true
  /\ length patches = length (rows_of t c db)
  /\ (p_patch_seq <$> patches) = (fun k => (1 + Z.of_nat k)%Z) <$> seq 0 (length patches).
Proof.
  intros Ht Hr Hp. apply patched_inv in Hp as [Hc Hf]. unfold load_patches. rewrite Ht, Hr. cbn [rbind].
  rewrite (record_rows t c rid db Hf), (chained_sorted _ _ _ (Hc t c)).
  destruct (chained_load _ _ _ (Hc t c)) as (ps & Hl & Hv & Hs & _ & Hseq). exists ps. split; [done|].
  unfold verify_patch_chain. rewrite Hs. split; [done|]. pose proof (rmapM_length _ _ _ Hl) as Hlen. split; [done|].
  by rewrite Hseq, Hlen.
Qed.

(** ** The theorems at work *)

Definition demo_now : datetime := Datetime 1000 (Some 0%Z).
Definition demo_columns : PatchColumns := {|
  local_offset := fun _ => 0%Z;
  session_offset := fun _ => 3600%Z;
  jsonb_value := fun j => if String.eqb j "null" then Ok PNone else Ok (PStr (str_take (slen j - 2) (str_drop 1 j)))
|}.
(** A library whose timestamps are read back by lookup. *)
Definition demo_iso : PyLib := {|
  re_match := fun p s => Ok (startswith s p); str_format := fun t _ => Ok t;
  fromisoformat := fun s => if String.eqb s (demo_dt_text (Datetime 4600 (Some 3600%Z))) then Ok (Datetime 4600 (Some 3600%Z))
                            else Raise (ValueError s);
  str_datetime := demo_dt_text; repr_datetime := demo_dt_text; isoformat := demo_dt_text
|}.
#[local] Existing Instance demo_columns.
#[local] Existing Instance demo_iso.
#[local] Existing Instance demo_runtime.

Definition demo_submission : submission :=
  Submission "t1" "c1" "r1" [("kdes.harvest_date", "2026-01-02"); ("quantity", "12")] [("quantity", PStr "0")] []
    "Farm" "Ana" "owner" "typo" "I attest" None "remediation_token".
Definition demo_insert_env : insert_env := InsertEnv demo_now (fun k => "u" +:+ str_of_Z (Z.of_nat k)) (fun _ => None).
Definition demo_table : list patch_row :=
  match insert_patches demo_insert_env [] demo_submission with Ok (_, db) => db | Raise _ => [] end.

Lemma demo_readable : readable_call demo_insert_env demo_submission.
Proof.
  do 3 (split; [by vm_compute|]). split; [split; by vm_compute|]. intros path value Hin.
  apply elem_of_cons in Hin as [[= -> ->]|[[= -> ->]|Hin%elem_of_nil]%elem_of_cons]; [..|done];
    split; intros j Hj; vm_compute in Hj; apply Ok_inv in Hj as <-; by vm_compute.
Qed.

Lemma demo_patched : patched "t1" "c1" "r1" demo_table.
Proof.
  assert (Hok : is_ok (insert_patches demo_insert_env [] demo_submission) = true) by (vm_compute; reflexivity).
  unfold demo_table. destruct (insert_patches demo_insert_env [] demo_submission) as [[ids db]|] eqn:E; [|done].
  eapply patched_insert; [constructor|exact demo_readable|done|exact E].
Qed.

Lemma patch_chain_no_false_alarm_witness :
  exists patches, load_patches demo_table "t1" "r1" = Ok patches /\ verify_patch_chain patches = Ok true
  /\ length patches = 2%nat.
Proof.
  destruct (patch_chain_no_false_alarm "t1" "c1" "r1" demo_table) as (ps & Hl & Hv & Hn & _);
    [reflexivity|reflexivity|exact demo_patched|]. exists ps. split; [exact Hl|]. split; [exact Hv|].
  rewrite Hn. vm_compute. reflexivity.
Defined.

Definition demo_patch (n : Z) (path value : string) : patch :=
  Patch "p" "t1" "c1" "r1" n None path PNone (PStr value) "Farm" "Ana" "owner" "remediation_token" "typo" "I attest"
    PNone None "".

Lemma current_record_witness :
  exists current, apply_patches [("quantity", PInt 0)] [demo_patch 2 "kdes.a" "y"; demo_patch 1 "kdes.a" "x"] = Ok current
  /\ get_value current "kdes.a" = Ok (PStr "y") /\ get_value current "quantity" = Ok (PInt 0).
Proof.
  destruct (current_record [("quantity", PInt 0)] [demo_patch 2 "kdes.a" "y"; demo_patch 1 "kdes.a" "x"]) as (cur & Ha & Hg);
    [done|by repeat constructor|]. exists cur. split; [exact Ha|]. split; rewrite Hg by done; by vm_compute.
Defined.
