(* ===== verification/CircuitBreaker.v ===== *)
(** * Circuit breaker

    [services/shared/circuit_breaker.py] against the interface of its store
    ([circuit_breaker_store.py], [CircuitStore]), and the in-memory store as an instance.  The
    breaker's theorems use the interface's laws only; the Redis store satisfies them as long as its
    keys do not expire.  Clock readings are integers of one unit; a call is given the readings it
    makes, in order, and the outcome its function would have if it were run. *)

From Stdlib Require Import ZArith Lia String Ascii.
From stdpp Require Import base list strings gmap.
From S2P Require Import Prelude.

Local Open Scope string_scope.
Local Open Scope Z_scope.

Inductive CircuitState := CLOSED | OPEN | HALF_OPEN.

#[export] Instance CircuitState_eq_dec : EqDecision CircuitState.
Proof. solve_decision. Defined.

(** ** The store's interface *)

Class CircuitStore (St : Type) := {
  get_state : St -> string -> CircuitState;
  set_state : St -> string -> CircuitState -> St;
  get_failure_count : St -> string -> Z;
  incr_failure : St -> string -> St * Z;
  reset_failures : St -> string -> St;
  get_last_failure_time : St -> string -> Z;
  set_last_failure_time : St -> string -> Z -> St
}.

(** What a store promises: each write is seen by its own reads and by no other. *)
Class CircuitStoreLaws (St : Type) `{CircuitStore St} := {
  get_set_state s n v : get_state (set_state s n v) n = v;
  count_set_state s n v : get_failure_count (set_state s n v) n = get_failure_count s n;
  time_set_state s n v : get_last_failure_time (set_state s n v) n = get_last_failure_time s n;
  incr_count s n : incr_failure s n = (fst (incr_failure s n), get_failure_count s n + 1)
                   /\ get_failure_count (fst (incr_failure s n)) n = get_failure_count s n + 1;
  state_incr s n : get_state (fst (incr_failure s n)) n = get_state s n;
  count_reset s n : get_failure_count (reset_failures s n) n = 0;
  state_reset s n : get_state (reset_failures s n) n = get_state s n;
  time_reset s n : get_last_failure_time (reset_failures s n) n = get_last_failure_time s n;
  time_set_time s n t : get_last_failure_time (set_last_failure_time s n t) n = t;
  state_set_time s n t : get_state (set_last_failure_time s n t) n = get_state s n;
  count_set_time s n t : get_failure_count (set_last_failure_time s n t) n = get_failure_count s n
}.

(** ** The in-memory store *)

Record MemoryCircuitStore := Memory {
  _states : gmap string CircuitState; _failures : gmap string Z; _last_failure : gmap string Z
}.

Definition default_to {A} (d : A) (o : option A) : A := match o with Some x => x | None => d end.

#[export] Instance memory_store : CircuitStore MemoryCircuitStore := {|
  get_state := fun s n => default_to CLOSED (_states s !! n);
  set_state := fun s n v => Memory (<[n := v]> (_states s)) (_failures s) (_last_failure s);
  get_failure_count := fun s n => default_to 0 (_failures s !! n);
  incr_failure := fun s n =>
    let c := default_to 0 (_failures s !! n) + 1 in
    (Memory (_states s) (<[n := c]> (_failures s)) (_last_failure s), c);
  reset_failures := fun s n => Memory (_states s) (<[n := 0]> (_failures s)) (_last_failure s);
  get_last_failure_time := fun s n => default_to 0 (_last_failure s !! n);
  set_last_failure_time := fun s n t => Memory (_states s) (_failures s) (<[n := t]> (_last_failure s))
|}.

#[export] Instance memory_laws : CircuitStoreLaws MemoryCircuitStore.
Proof. split; intros; cbn; rewrite ?lookup_insert_eq; by try split. Qed.

(** ** The breaker *)

Record breaker := Breaker {
  name : string;
  failure_threshold : Z;
  recovery_timeout : Z;
  half_open_max_calls : Z;
  _half_open_calls : Z;
  _success_count : Z;
  _total_calls : Z
}.

Definition new_breaker (n : string) (threshold timeout half_open : Z) : breaker :=
  Breaker n threshold timeout half_open 0 0 0.

Definition set_half_open_calls (b : breaker) (v : Z) : breaker :=
  Breaker (name b) (failure_threshold b) (recovery_timeout b) (half_open_max_calls b) v (_success_count b) (_total_calls b).
Definition count_success (b : breaker) : breaker :=
  Breaker (name b) (failure_threshold b) (recovery_timeout b) (half_open_max_calls b) (_half_open_calls b)
    (_success_count b + 1) (_total_calls b).
Definition count_call (b : breaker) : breaker :=
  Breaker (name b) (failure_threshold b) (recovery_timeout b) (half_open_max_calls b) (_half_open_calls b)
    (_success_count b) (_total_calls b + 1).

(** What a protected call does: returns, fails as its function did, or is refused with a delay. *)
Inductive call_result (A : Type) := Returned (a : A) | Failed (e : exn) | Rejected (retry_after : Z).
Arguments Returned {A} a.
Arguments Failed {A} e.
Arguments Rejected {A} retry_after.

Section Breaker.
Context {St : Type} `{CircuitStore St}.

Definition _transition_to (b : breaker) (s : St) (new_state : CircuitState) : breaker * St :=
  let s := set_state s (name b) new_state in
  match new_state with
  | HALF_OPEN => (set_half_open_calls b 0, s)
  | CLOSED => (b, reset_failures s (name b))
  | OPEN => (b, s)
  end.

(** The [state] property, which moves an expired open circuit to half-open. *)
Definition state (b : breaker) (s : St) (now : Z) : breaker * St * CircuitState :=
  let current := get_state s (name b) in
  match current with
  | OPEN =>
      if recovery_timeout b <=? now - get_last_failure_time s (name b)
      then (_transition_to b s HALF_OPEN, HALF_OPEN)
      else (b, s, current)
  | _ => (b, s, current)
  end.

Definition _record_success (b : breaker) (s : St) : breaker * St :=
  let b := count_success b in
  match get_state s (name b) with
  | HALF_OPEN =>
      let b := set_half_open_calls b (_half_open_calls b + 1) in
      if half_open_max_calls b <=? _half_open_calls b then _transition_to b s CLOSED else (b, s)
  | CLOSED => (b, reset_failures s (name b))
  | OPEN => (b, s)
  end.

Definition _record_failure (b : breaker) (s : St) (now : Z) : breaker * St :=
  let '(s, count) := incr_failure s (name b) in
  let s := set_last_failure_time s (name b) now in
  match get_state s (name b) with
  | HALF_OPEN => _transition_to b s OPEN
  | _ => if failure_threshold b <=? count then _transition_to b s OPEN else (b, s)
  end.

(** [_check_state]: the delay of the refusal, if any. *)
Definition _check_state (b : breaker) (s : St) (t1 t2 : Z) : breaker * St * option Z :=
  let '(b, s, st) := state b s t1 in
  match st with
  | OPEN => (b, s, Some (Z.max 0 (recovery_timeout b - (t2 - get_last_failure_time s (name b)))))
  | _ => (b, s, None)
  end.

(** [call] and the decorator's wrappers; [counts] says which exceptions are failures. *)
Definition call {A} (counts : exn -> bool) (b : breaker) (s : St) (t1 t2 t3 : Z) (outcome : res A)
    : breaker * St * call_result A :=
  let b := count_call b in
  let '(b, s, refused) := _check_state b s t1 t2 in
  match refused with
  | Some d => (b, s, Rejected d)
  | None =>
      match outcome with
      | Ok a => (_record_success b s, Returned a)
      | Raise e => if counts e then (_record_failure b s t3, Failed e) else (b, s, Failed e)
      end
  end.

Definition reset (b : breaker) (s : St) : breaker * St :=
  let '(b, s) := _transition_to b s CLOSED in
  (b, set_last_failure_time (reset_failures s (name b)) (name b) 0).

(** [get_metrics]: state, failures, successes, calls; reading the state may change it. *)
Definition get_metrics (b : breaker) (s : St) (now : Z) : breaker * St * (CircuitState * Z * Z * Z) :=
  let '(b, s, st) := state b s now in
  (b, s, (st, get_failure_count s (name b), _success_count b, _total_calls b)).

(** A run of failing calls at the given times. *)
Fixpoint fail_calls (b : breaker) (s : St) (times : list Z) (e : exn) : breaker * St :=
  match times with
  | [] => (b, s)
  | t :: rest =>
      let '(b, s, _) := call (A := unit) (fun _ => true) b s t t t (Raise e) in
      fail_calls b s rest e
  end.

(** A run of successful calls. *)
Fixpoint ok_calls (b : breaker) (s : St) (times : list Z) : breaker * St :=
  match times with
  | [] => (b, s)
  | t :: rest => let '(b, s, _) := call (fun _ => true) b s t t t (Ok tt) in ok_calls b s rest
  end.
End Breaker.

(** ** Facts *)

(** What no operation changes. *)
Definition same_config (b b' : breaker) : Prop :=
  name b' = name b /\ failure_threshold b' = failure_threshold b /\ recovery_timeout b' = recovery_timeout b
  /\ half_open_max_calls b' = half_open_max_calls b.

Create Rewrite HintDb store_laws.
#[export] Hint Rewrite @get_set_state @count_set_state @time_set_state @state_incr @count_reset @state_reset @time_reset
  @time_set_time @state_set_time @count_set_time using typeclasses eauto : store_laws.

Section Laws.
Context {St : Type} `{CircuitStoreLaws St}.

(** One failing call on a closed circuit below the threshold, and at it. *)
Lemma fail_closed b s t e :
  get_state s (name b) = CLOSED ->
  exists b' s', call (A := unit) (fun _ => true) b s t t t (Raise e) = (b', s', Failed e) /\ same_config b b'
  /\ get_failure_count s' (name b) = get_failure_count s (name b) + 1
  /\ get_last_failure_time s' (name b) = t
  /\ get_state s' (name b) = (if failure_threshold b <=? get_failure_count s (name b) + 1 then OPEN else CLOSED).
Proof.
  intros Hst. unfold call, _check_state, state. cbn [count_call name failure_threshold recovery_timeout]. rewrite Hst.
  unfold _record_failure. cbn [count_call name failure_threshold]. destruct (incr_count s (name b)) as [Hi Hc]. rewrite Hi.
  autorewrite with store_laws. rewrite Hst. destruct (failure_threshold b <=? _) eqn:E;
    (do 2 eexists; split; [reflexivity|]; split; [by repeat split|]; cbn; autorewrite with store_laws; by rewrite ?Hst).
Qed.

Lemma fail_calls_closed times : forall b s e,
  get_state s (name b) = CLOSED -> 0 <= get_failure_count s (name b) ->
  get_failure_count s (name b) + Z.of_nat (length times) < failure_threshold b ->
  let '(b', s') := fail_calls b s times e in
  same_config b b' /\ get_state s' (name b) = CLOSED
  /\ get_failure_count s' (name b) = get_failure_count s (name b) + Z.of_nat (length times).
Proof.
  induction times as [|t times IH]; intros b s e Hst Hc Hlt; cbn [fail_calls length] in *.
  - split; [by repeat split|]. split; [done|]. lia.
  - destruct (fail_closed b s t e Hst) as (b' & s' & -> & (Hn & Hf & Hr & Hh) & Hc' & _ & Hst').
    assert (E : (failure_threshold b <=? get_failure_count s (name b) + 1) = false) by (apply Z.leb_gt; lia).
    rewrite E in Hst'. specialize (IH b' s' e). rewrite Hn, Hf, Hc', Hst' in IH.
    specialize (IH eq_refl ltac:(lia) ltac:(lia)). destruct (fail_calls b' s' times e) as [b2 s2].
    destruct IH as ((Hn2 & Hf2 & Hr2 & Hh2) & Hst2 & Hc2). rewrite Hn, Hf, Hr, Hh in *.
    split; [by repeat split; congruence|]. split; [done|]. lia.
Qed.
End Laws.

(** ** Properties *)

Section Properties.
Context {St : Type} `{CircuitStoreLaws St}.

(** A healthy circuit opens after exactly [failure_threshold] consecutive counted failures, not
    earlier: fewer leave it closed, and the next one opens it at that moment. *)
Theorem opens_at_threshold b s times t e :
  get_state s (name b) = CLOSED -> get_failure_count s (name b) = 0 ->
  Z.of_nat (length times) + 1 = failure_threshold b ->
  let '(b1, s1) := fail_calls b s times e in
  get_state s1 (name b) = CLOSED
  /\ let '(_, s2, r) := call (A := unit) (fun _ => true) b1 s1 t t t (Raise e) in
     get_state s2 (name b) = OPEN /\ get_last_failure_time s2 (name b) = t /\ r = Failed e.
Proof.
  intros Hst Hc Hlen. pose proof (fail_calls_closed times b s e Hst ltac:(lia) ltac:(lia)) as Hrun.
  destruct (fail_calls b s times e) as [b1 s1]. destruct Hrun as ((Hn & Hf & _) & Hst1 & Hc1). split; [done|].
  rewrite <- Hn in Hst1. destruct (fail_closed b1 s1 t e Hst1) as (b2 & s2 & -> & _ & _ & Ht & Hst2).
  rewrite Hn in *. rewrite Hf, Hc1, Hc in Hst2.
  replace (failure_threshold b <=? 0 + Z.of_nat (length times) + 1) with true in Hst2 by (symmetry; apply Z.leb_le; lia).
  by repeat split.
Qed.

(** An open circuit refuses until its timeout and then probes: before [recovery_timeout] has passed a
    call is refused without its function being run (its outcome does not matter) and the store is
    untouched; afterwards the call runs on a half-open circuit, where a counted failure opens the
    circuit again at once. *)
Theorem open_circuit_behaviour {A} b s counts t1 t2 t3 (outcome : res A) :
  get_state s (name b) = OPEN ->
  (t1 - get_last_failure_time s (name b) < recovery_timeout b ->
     call counts b s t1 t2 t3 outcome
     = (count_call b, s, Rejected (Z.max 0 (recovery_timeout b - (t2 - get_last_failure_time s (name b))))))
  /\ (recovery_timeout b <= t1 - get_last_failure_time s (name b) -> forall e, outcome = Raise e -> counts e = true ->
     let '(_, s', r) := call counts b s t1 t2 t3 outcome in
     r = Failed e /\ get_state s' (name b) = OPEN /\ get_last_failure_time s' (name b) = t3).
Proof.
  intros Hst. split.
  - intros Hlt. unfold call, _check_state, state. cbn [count_call name recovery_timeout]. rewrite Hst.
    replace (recovery_timeout b <=? _) with false by (symmetry; apply Z.leb_gt; lia). done.
  - intros Hle e -> Hcnt. unfold call, _check_state, state. cbn [count_call name recovery_timeout]. rewrite Hst.
    replace (recovery_timeout b <=? _) with true by (symmetry; apply Z.leb_le; lia).
    unfold _transition_to, _record_failure.
    cbn [set_half_open_calls count_call name failure_threshold]. rewrite Hcnt.
    cbn [set_half_open_calls count_call name failure_threshold]. destruct (incr_count (set_state s (name b) HALF_OPEN) (name b)) as [Hi _]. rewrite Hi.
    autorewrite with store_laws. cbn. by autorewrite with store_laws.
Qed.

(** The number of successes a half-open circuit still needs. *)
Lemma ok_half_open times : forall b s,
  get_state s (name b) = HALF_OPEN -> 0 <= _half_open_calls b ->
  _half_open_calls b + Z.of_nat (length times) = half_open_max_calls b -> times <> [] ->
  let '(b', s') := ok_calls b s times in
  get_state s' (name b) = CLOSED /\ get_failure_count s' (name b) = 0.
Proof.
  induction times as [|t times IH]; intros b s Hst Hc Hlen Hne; [done|]. cbn [ok_calls length] in *.
  unfold call, _check_state, state. cbn [count_call name]. rewrite Hst. unfold _record_success.
  cbn [count_call count_success set_half_open_calls name half_open_max_calls _half_open_calls]. rewrite Hst.
  destruct times as [|t' times].
  - replace (half_open_max_calls b <=? _half_open_calls b + 1) with true by (symmetry; apply Z.leb_le; cbn in Hlen; lia).
    cbn [_transition_to ok_calls name]. autorewrite with store_laws. by split.
  - replace (half_open_max_calls b <=? _half_open_calls b + 1) with false
      by (symmetry; apply Z.leb_gt; cbn [length] in Hlen; lia).
    match goal with |- context [ok_calls ?b1 s _] => specialize (IH b1 s) end.
    cbn [name _half_open_calls half_open_max_calls] in IH. apply IH; [done|cbn; lia| |done]. cbn in Hlen |- *. lia.
Qed.

(** Recovery: [half_open_max_calls] consecutive successful calls, the first of them made after the
    timeout, close an open circuit again with its failure count back at zero. *)
Theorem recovers_after_successes b s t times :
  get_state s (name b) = OPEN -> recovery_timeout b <= t - get_last_failure_time s (name b) ->
  Z.of_nat (length (t :: times)) = half_open_max_calls b ->
  let '(_, s') := ok_calls b s (t :: times) in
  get_state s' (name b) = CLOSED /\ get_failure_count s' (name b) = 0.
Proof.
  intros Hst Hle Hlen.
  assert (E : ok_calls b s (t :: times) = ok_calls (set_half_open_calls b 0) (set_state s (name b) HALF_OPEN) (t :: times)).
  { cbn [ok_calls]. unfold call, _check_state, state. cbn [count_call set_half_open_calls name recovery_timeout].
    rewrite Hst, get_set_state. replace (recovery_timeout b <=? _) with true by (symmetry; apply Z.leb_le; lia). done. }
  rewrite E. apply (ok_half_open (t :: times) (set_half_open_calls b 0)); [by autorewrite with store_laws|cbn; lia| |done].
  cbn [set_half_open_calls _half_open_calls half_open_max_calls]. lia.
Qed.

(** A half-open circuit admits every call: however many probes are already in flight, the admission
    check refuses none and counts none, so [half_open_max_calls] bounds the successes needed to
    close and not the calls attempted. *)
Theorem half_open_admits_all b s n (times : nat -> Z * Z) :
  get_state s (name b) = HALF_OPEN ->
  Nat.iter n (fun p => let '(b, s, k) := p in
                       let '(b, s, r) := _check_state b s (fst (times k)) (snd (times k)) in
                       match r with None => (b, s, S k) | Some _ => (b, s, k) end) (b, s, O)
  = (b, s, n).
Proof.
  intros Hst. induction n as [|n IH]; [done|]. cbn [Nat.iter nat_rect]. unfold Nat.iter in *. cbn in *. rewrite IH.
  unfold _check_state, state. by rewrite Hst.
Qed.
End Properties.

(** ** The theorems at work on the in-memory store *)

Definition demo_breaker : breaker := new_breaker "neo4j" 3 30 2.
Definition fresh_memory : MemoryCircuitStore := Memory ∅ ∅ ∅.
Definition demo_failure : exn := Exn "RuntimeError" "connection refused".
(** The store once the circuit has opened at time 12. *)
Definition opened_memory : MemoryCircuitStore := snd (fail_calls demo_breaker fresh_memory [10; 11; 12] demo_failure).
Definition half_open_memory : MemoryCircuitStore := set_state opened_memory "neo4j" HALF_OPEN.

Lemma opens_at_threshold_witness :
  (let '(b1, s1) := fail_calls demo_breaker fresh_memory [10; 11] demo_failure in
   get_state s1 "neo4j" = CLOSED
   /\ let '(_, s2, r) := call (A := unit) (fun _ => true) b1 s1 12 12 12 (Raise demo_failure) in
      get_state s2 "neo4j" = OPEN /\ get_last_failure_time s2 "neo4j" = 12 /\ r = Failed demo_failure)
  /\ get_state opened_memory "neo4j" = OPEN.
Proof.
  split; [|by vm_compute].
  exact (opens_at_threshold demo_breaker fresh_memory [10; 11] 12 demo_failure eq_refl eq_refl eq_refl).
Defined.

Lemma open_circuit_behaviour_witness :
  call (fun _ => true) demo_breaker opened_memory 20 20 20 (Ok tt)
  = (count_call demo_breaker, opened_memory, Rejected 22)
  /\ (let '(_, s', r) := call (A := unit) (fun _ => true) demo_breaker opened_memory 50 50 51 (Raise demo_failure) in
      r = Failed demo_failure /\ get_state s' "neo4j" = OPEN /\ get_last_failure_time s' "neo4j" = 51).
Proof.
  split.
  - refine (proj1 (open_circuit_behaviour demo_breaker opened_memory (fun _ => true) 20 20 20 (Ok tt) _) _); by vm_compute.
  - refine (proj2 (open_circuit_behaviour demo_breaker opened_memory (fun _ => true) 50 50 51 (Raise demo_failure) _)
      _ demo_failure eq_refl eq_refl); by vm_compute.
Defined.

Lemma recovers_after_successes_witness :
  let '(_, s') := ok_calls demo_breaker opened_memory [50; 51] in
  get_state s' "neo4j" = CLOSED /\ get_failure_count s' "neo4j" = 0.
Proof. refine (recovers_after_successes demo_breaker opened_memory 50 [51] _ _ _); by vm_compute. Defined.

Lemma half_open_admits_all_witness :
  Nat.iter 10 (fun p => let '(b, s, k) := p in
                        let '(b, s, r) := _check_state b s 50 50 in
                        match r with None => (b, s, S k) | Some _ => (b, s, k) end) (demo_breaker, half_open_memory, O)
  = (demo_breaker, half_open_memory, 10%nat).
Proof. refine (half_open_admits_all demo_breaker half_open_memory 10 (fun _ => (50, 50)) _); by vm_compute. Defined.
