(* ===== verification/RateLimit.v ===== *)
(** * Brute-force limiter

    [services/shared/rate_limit.py], [BruteForceLimiter], with the fail mode of
    [tenant_rate_limiting.py].  The Redis client is an interface; its documented counter semantics
    (INCR, GET, DEL and EXPIRE on one key, within one window) are the laws a theorem may assume.
    Time is an integer and every operation is given the clock reading it makes.  Proved: without
    Redis the pruned and truncated log decides as the whole history of failures would; with Redis
    all workers share one count; and no error turns a shared-only limiter into a local one. *)

From Stdlib Require Import ZArith Lia String Ascii.
From Stdlib Require Import DecimalString.
From Stdlib Require DecimalPos.
From stdpp Require Import base list strings gmap sorting.
From S2P Require Import Prelude PyStr PyFloat.

Local Open Scope string_scope.
Local Open Scope Z_scope.

(** ** The client's interface *)

(** A counter client over a state [R]: a call may change the server and may raise. *)
Class RedisLike (R : Type) := {
  redis_incr : R -> string -> R * res Z;
  redis_expire : R -> string -> Z -> R * res bool;
  redis_get : R -> string -> R * res (option string);
  redis_delete : R -> string -> R * res Z
}.

(** [int(raw)] on a reply of bytes. *)
Definition bytes_space (c : ascii) : bool := in_range 9 13 c || Ascii.eqb c " ".
Definition parse_int (s : string) : option Z := int_of_text (rstrip bytes_space (lstrip bytes_space s)).

(** [rate_limit_fail_mode], from the value of its environment variable. *)
Definition rate_limit_fail_mode (env : option string) : string :=
  let raw := lower (strip (match env with Some v => v | None => "degrade" end)) in
  if String.eqb raw "" then "degrade"
  else if String.eqb raw "degrade" || String.eqb raw "closed" then raw else "closed".

Definition RateLimitBackendUnavailable : exn :=
  Exn "RateLimitBackendUnavailable" "Rate-limit backend unavailable".

(** ** The limiter *)

Record limiter (R : Type) := Limiter {
  _namespace : string;
  _max : Z;
  _window : Z;
  _require_shared_backend : bool;
  _redis : option R;
  _mem_failures : gmap string (list Z);
  _degraded : bool
}.
Arguments Limiter {R}.
Arguments _namespace {R}.
Arguments _max {R}.
Arguments _window {R}.
Arguments _require_shared_backend {R}.
Arguments _redis {R}.
Arguments _mem_failures {R}.
Arguments _degraded {R}.

(** [l[k:]] for any integer [k]. *)
Definition slice_from {A} (k : Z) (l : list A) : list A :=
  if k <? 0 then drop (Z.to_nat (Z.of_nat (length l) + k)) l else drop (Z.to_nat k) l.

Section Limiter.
Context {R : Type} `{RedisLike R}.
(** The value of RATE_LIMIT_FAIL_MODE. *)
Variable env : option string.

Definition with_redis (l : limiter R) (r : R) : limiter R :=
  Limiter (_namespace l) (_max l) (_window l) (_require_shared_backend l) (Some r) (_mem_failures l) (_degraded l).
Definition with_degraded (l : limiter R) (d : bool) : limiter R :=
  Limiter (_namespace l) (_max l) (_window l) (_require_shared_backend l) (_redis l) (_mem_failures l) d.
Definition with_mem (l : limiter R) (m : gmap string (list Z)) : limiter R :=
  Limiter (_namespace l) (_max l) (_window l) (_require_shared_backend l) (_redis l) m (_degraded l).

Definition new_limiter (namespace : string) (max window : Z) (redis : option R) (shared : bool) : limiter R :=
  Limiter namespace max window shared redis ∅ false.

Definition _key (l : limiter R) (subject : string) : string := _namespace l +:+ ":" +:+ subject.
Definition _note_redis_failure (l : limiter R) : limiter R := with_degraded l true.
Definition _fail_mode : string := rate_limit_fail_mode env.

(** The failures of a subject, and those the window still holds. *)
Definition mem_of (l : limiter R) (subject : string) : list Z :=
  match _mem_failures l !! subject with Some ts => ts | None => [] end.
Definition fresh (window now : Z) (ts : list Z) : list Z := filter (fun t => now - t < window) ts.

Definition mem_is_limited (l : limiter R) (subject : string) (now : Z) : limiter R * res bool :=
  let kept := fresh (_window l) now (mem_of l subject) in
  (with_mem l (<[subject := kept]> (_mem_failures l)), Ok (_max l <=? Z.of_nat (length kept))).

Definition is_limited (l : limiter R) (subject : string) (now : Z) : limiter R * res bool :=
  match _redis l with
  | None =>
      if _require_shared_backend l then (_note_redis_failure l, Raise RateLimitBackendUnavailable)
      else mem_is_limited l subject now
  | Some r =>
      let '(r, reply) := redis_get r (_key l subject) in
      let l := with_redis l r in
      match reply with
      | Ok None => (with_degraded l false, Ok false)
      | Ok (Some raw) =>
          match parse_int raw with
          | None =>
              let '(r, _) := redis_delete r (_key l subject) in
              (with_redis l r, Ok (String.eqb _fail_mode "closed"))
          | Some count => (with_degraded l false, Ok (_max l <=? count))
          end
      | Raise _ =>
          let l := _note_redis_failure l in
          if _require_shared_backend l then (l, Raise RateLimitBackendUnavailable)
          else if String.eqb _fail_mode "closed" then (l, Ok true)
          else mem_is_limited l subject now
      end
  end.

Definition mem_record_failure (l : limiter R) (subject : string) (now : Z) : limiter R * res Z :=
  let kept := (fresh (_window l) now (mem_of l subject) ++ [now])%list in
  let kept := if _max l * 4 <? Z.of_nat (length kept) then slice_from (- (_max l * 2)) kept else kept in
  (with_mem l (<[subject := kept]> (_mem_failures l)), Ok (Z.of_nat (length kept))).

Definition record_failure (l : limiter R) (subject : string) (now : Z) : limiter R * res Z :=
  match _redis l with
  | None =>
      if _require_shared_backend l then (_note_redis_failure l, Raise RateLimitBackendUnavailable)
      else mem_record_failure l subject now
  | Some r =>
      let key := _key l subject in
      let '(r, reply) := redis_incr r key in
      let '(r, reply) :=
        match reply with
        | Ok count =>
            if count =? 1 then
              let '(r, armed) := redis_expire r key (_window l) in
              (r, match armed with Ok _ => Ok count | Raise e => Raise e end)
            else (r, Ok count)
        | Raise e => (r, Raise e)
        end in
      let l := with_redis l r in
      match reply with
      | Ok count => (l, Ok count)
      | Raise _ =>
          let l := _note_redis_failure l in
          if _require_shared_backend l then (l, Raise RateLimitBackendUnavailable)
          else mem_record_failure l subject now
      end
  end.

Definition mem_reset (l : limiter R) (subject : string) : limiter R * res unit :=
  (with_mem l (delete subject (_mem_failures l)), Ok tt).

Definition reset (l : limiter R) (subject : string) : limiter R * res unit :=
  match _redis l with
  | None =>
      if _require_shared_backend l then (_note_redis_failure l, Raise RateLimitBackendUnavailable)
      else mem_reset l subject
  | Some r =>
      let '(r, reply) := redis_delete r (_key l subject) in
      let l := with_redis l r in
      match reply with
      | Ok _ => mem_reset l subject
      | Raise _ =>
          let l := _note_redis_failure l in
          if _require_shared_backend l then (l, Raise RateLimitBackendUnavailable) else mem_reset l subject
      end
  end.

Definition is_redis_backed (l : limiter R) : bool := match _redis l with Some _ => true | None => false end.
End Limiter.

(** ** Runs *)

Inductive op := Failure (subject : string) (now : Z) | Query (subject : string) (now : Z) | Reset (subject : string).

Definition op_time (o : op) : option Z :=
  match o with Failure _ t => Some t | Query _ t => Some t | Reset _ => None end.

(** The failures of a subject since its last reset: what the limiter is about. *)
Definition record (subject : string) (h : list Z) (o : op) : list Z :=
  match o with
  | Failure s t => if String.eqb s subject then (h ++ [t])%list else h
  | Query _ _ => h
  | Reset s => if String.eqb s subject then [] else h
  end.
Definition history (subject : string) (ops : list op) : list Z := fold_left (record subject) ops [].

Section Runs.
Context {R : Type} `{RedisLike R}.
Variable env : option string.

Definition step (l : limiter R) (o : op) : limiter R :=
  match o with
  | Failure s t => fst (record_failure l s t)
  | Query s t => fst (is_limited env l s t)
  | Reset s => fst (reset l s)
  end.

(** Workers, each with a limiter of its own, on one server. *)
Record cluster := Cluster { server : R; workers : list (limiter R) }.

Definition cluster_step (c : cluster) (io : nat * op) : cluster :=
  match workers c !! fst io with
  | None => c
  | Some w =>
      let w := step (with_redis w (server c)) (snd io) in
      Cluster (match _redis w with Some r => r | None => server c end) (<[fst io := w]> (workers c))
  end.
End Runs.
Arguments cluster R : clear implicits.
Arguments Cluster {R}.
Arguments server {R}.
Arguments workers {R}.

(** The counters of a Redis server that answers, within one expiry window. *)
Class RedisLaws (R : Type) `{RedisLike R} := {
  counter : R -> string -> Z;
  counter_pos r k : 0 <= counter r k;
  incr_ok r k : exists r', redis_incr r k = (r', Ok (counter r k + 1))
                /\ forall k', counter r' k' = if String.eqb k' k then counter r k + 1 else counter r k';
  expire_ok r k w : exists r', redis_expire r k w = (r', Ok true) /\ forall k', counter r' k' = counter r k';
  get_ok r k : exists r' raw, redis_get r k = (r', Ok raw) /\ (forall k', counter r' k' = counter r k')
               /\ match raw with None => counter r k = 0 | Some s => 0 < counter r k /\ parse_int s = Some (counter r k) end;
  delete_ok r k : exists r' n, redis_delete r k = (r', Ok n)
                  /\ forall k', counter r' k' = if String.eqb k' k then 0 else counter r k'
}.

(** ** Facts: the log *)

Lemma fresh_fresh w t now ts : now <= t -> fresh w t (fresh w now ts) = fresh w t ts.
Proof.
  intros Hle. unfold fresh. rewrite list_filter_filter. apply list_filter_iff. intros x. lia.
Qed.

Lemma fresh_app w t a b : fresh w t (a ++ b)%list = (fresh w t a ++ fresh w t b)%list.
Proof. apply filter_app. Qed.

Lemma fresh_forall {P : Z -> Prop} w t ts : Forall P ts -> Forall P (fresh w t ts).
Proof.
  intros Hf. apply Forall_forall. intros x Hx. apply list_elem_of_filter in Hx as [_ Hx].
  by eapply Forall_forall in Hf.
Qed.

Lemma fresh_sorted w t ts : StronglySorted Z.le ts -> StronglySorted Z.le (fresh w t ts).
Proof.
  unfold fresh. induction 1 as [|x ts Hs IH Hx]; [constructor|]. rewrite filter_cons. case_decide; [|done].
  constructor; [done|]. by apply fresh_forall.
Qed.

Lemma sorted_snoc ts t : StronglySorted Z.le ts -> Forall (fun x => x <= t) ts -> StronglySorted Z.le (ts ++ [t])%list.
Proof.
  induction 1 as [|x ts Hs IH Hx]; intros Hf; [by repeat constructor|]. apply Forall_cons in Hf as [Hxt Hf].
  cbn. constructor; [auto|]. apply Forall_app. split; [done|]. by constructor.
Qed.

Lemma sorted_drop n ts : StronglySorted Z.le ts -> StronglySorted Z.le (drop n ts).
Proof.
  revert ts. induction n as [|n IH]; intros ts Hs; [done|]. destruct ts as [|x ts]; [done|].
  apply StronglySorted_inv in Hs as [Hs _]. by apply IH.
Qed.

Lemma sorted_across a b x y : StronglySorted Z.le (a ++ b)%list -> x ∈ a -> y ∈ b -> x <= y.
Proof.
  induction a as [|z a IH]; intros Hs Hx Hy; [by apply elem_of_nil in Hx|].
  cbn in Hs. apply StronglySorted_inv in Hs as [Hs Hf]. apply elem_of_cons in Hx as [->|Hx]; [|by apply IH].
  eapply Forall_forall; [done|]. apply elem_of_app. by right.
Qed.

Lemma fresh_all w t ts : (forall x, x ∈ ts -> t - x < w) -> fresh w t ts = ts.
Proof.
  unfold fresh. induction ts as [|x ts IH]; intros Hf; [done|]. rewrite filter_cons_True by (apply Hf; by left).
  f_equal. apply IH. intros y Hy. apply Hf. by right.
Qed.

(** In a sorted log either no early failure is fresh or every late one is. *)
Lemma fresh_split w t a b : StronglySorted Z.le (a ++ b)%list -> fresh w t a = [] \/ fresh w t b = b.
Proof.
  intros Hs. destruct (fresh w t a) as [|x xs] eqn:E; [by left|right].
  assert (Hx : x ∈ fresh w t a) by (rewrite E; apply elem_of_cons; by left).
  apply list_elem_of_filter in Hx as [Hx Hin]. apply fresh_all. intros y Hy.
  pose proof (sorted_across a b x y Hs Hin Hy). lia.
Qed.

(** The log [m] decides like the history [h] from time [last] on. *)
Definition decides (max w last : Z) (h m : list Z) : Prop :=
  StronglySorted Z.le m /\ Forall (fun x => x <= last) m
  /\ forall t, last <= t -> Z.min max (Z.of_nat (length (fresh w t h))) = Z.min max (Z.of_nat (length (fresh w t m))).

Lemma decides_nil max w last : decides max w last [] [].
Proof. by repeat split; constructor. Qed.

Lemma decides_later max w last now h m : last <= now -> decides max w last h m -> decides max w now h m.
Proof.
  intros Hle (Hs & Hf & Hd). split; [done|]. split; [|intros t Ht; apply Hd; lia].
  eapply Forall_impl; [done|]. cbn. lia.
Qed.

Lemma decides_prune max w now h m : decides max w now h m -> decides max w now h (fresh w now m).
Proof.
  intros (Hs & Hf & Hd). split; [by apply fresh_sorted|]. split; [by apply fresh_forall|].
  intros t Ht. by rewrite fresh_fresh, <- Hd.
Qed.

Lemma decides_snoc max w now h m : decides max w now h m -> decides max w now (h ++ [now])%list (m ++ [now])%list.
Proof.
  intros (Hs & Hf & Hd). split; [by apply sorted_snoc|].
  split; [apply Forall_app; split; [done|]; by repeat constructor|].
  intros t Ht. specialize (Hd t Ht). rewrite !fresh_app, !length_app. lia.
Qed.

Lemma decides_truncate max w now h m :
  max * 4 < Z.of_nat (length m) -> decides max w now h m -> decides max w now h (slice_from (- (max * 2)) m).
Proof.
  intros Hlen (Hs & Hf & Hd).
  assert (Hcut : exists n, slice_from (- (max * 2)) m = drop n m /\ (0 < max -> Z.of_nat (length (drop n m)) = max * 2)).
  { unfold slice_from. case_match eqn:E; eexists; (split; [done|]); intros Hm; reflect_bools; rewrite ?length_drop; lia. }
  destruct Hcut as (n & -> & Hn). rewrite <- (take_drop n m) in Hs.
  split; [by apply sorted_drop; rewrite take_drop in Hs|].
  split; [by apply Forall_drop|]. intros t Ht. rewrite Hd by done. rewrite <- (take_drop n m) at 1. rewrite fresh_app, length_app.
  destruct (decide (0 < max)) as [Hm|Hm]; [|lia].
  destruct (fresh_split w t _ _ Hs) as [->| ->]; [done|]. specialize (Hn Hm). lia.
Qed.

(** ** Facts: the memory of a limiter without Redis *)

Definition times (ops : list op) : list Z := omap op_time ops.

Section Memory.
Context {R : Type} `{RedisLike R}.
Variable env : option string.

(** A local limiter whose log of every subject decides like the subject's history. *)
Definition local_for (max w last : Z) (h : string -> list Z) (l : limiter R) : Prop :=
  _redis l = None /\ _require_shared_backend l = false /\ _max l = max /\ _window l = w
  /\ forall s, decides max w last (h s) (mem_of l s).

Lemma mem_of_insert (l : limiter R) s s' v :
  mem_of (with_mem l (<[s := v]> (_mem_failures l))) s' = if String.eqb s s' then v else mem_of l s'.
Proof.
  unfold mem_of. cbn. destruct (String.eqb_spec s s') as [->|Hne]; [by rewrite lookup_insert_eq|].
  by rewrite lookup_insert_ne.
Qed.

Lemma mem_of_delete (l : limiter R) s s' :
  mem_of (with_mem l (delete s (_mem_failures l))) s' = if String.eqb s s' then [] else mem_of l s'.
Proof.
  unfold mem_of. cbn. destruct (String.eqb_spec s s') as [->|Hne]; [by rewrite lookup_delete_eq|].
  by rewrite lookup_delete_ne.
Qed.

(** One local operation: the log of its subject changes as told, the others stay. *)
Lemma local_update max w last now h h' (l : limiter R) s v :
  local_for max w last h l -> last <= now -> decides max w now (h' s) v ->
  (forall s', s <> s' -> h' s' = h s') ->
  local_for max w now h' (with_mem l (<[s := v]> (_mem_failures l))).
Proof.
  intros (Hr & Hq & Hm & Hw & Hd) Hle Hv Hh. do 4 (split; [done|]). intros s'. rewrite mem_of_insert.
  destruct (String.eqb_spec s s') as [->|Hne]; [done|]. rewrite Hh by done. by eapply decides_later.
Qed.

Lemma local_step max w last now h (l : limiter R) o :
  local_for max w last h l -> (match op_time o with Some t => last <= t /\ t <= now | None => last <= now end) ->
  local_for max w (match op_time o with Some t => t | None => last end) (fun s => record s (h s) o) (step env l o).
Proof.
  intros Hl Ht. pose proof Hl as (Hr & Hq & Hm & Hw & Hd). destruct o as [s t|s t|s]; cbn in Ht |- *.
  - unfold record_failure. rewrite Hr, Hq. cbn. rewrite Hm, Hw. eapply local_update; [done|tauto| |].
    + rewrite String.eqb_refl. pose proof (decides_prune _ _ _ _ _ (decides_later _ _ _ _ _ _ (proj1 Ht) (Hd s))) as Hp.
      apply decides_snoc in Hp. case_match eqn:Hlt; [|done]. reflect_bools. by apply decides_truncate.
    + intros s' Hne. by apply String.eqb_neq in Hne as ->.
  - unfold is_limited. rewrite Hr, Hq. cbn. rewrite Hw. eapply local_update; [done|tauto| |done].
    apply decides_prune. eapply decides_later; [apply Ht|done].
  - unfold reset. rewrite Hr, Hq. cbn. do 4 (split; [done|]). intros s'. rewrite mem_of_delete.
    destruct (String.eqb s s'); [apply decides_nil|done].
Qed.

Lemma local_run max w now ops : forall last h (l : limiter R),
  local_for max w last h l -> StronglySorted Z.le (last :: times ops ++ [now])%list ->
  local_for max w now (fun s => fold_left (record s) ops (h s)) (fold_left (step env) ops l).
Proof.
  induction ops as [|o ops IH]; intros last h l Hl Hs; cbn [fold_left].
  - cbn in Hs. apply StronglySorted_inv in Hs as [_ Hf]. apply Forall_cons in Hf as [Hle _].
    destruct Hl as (Hr & Hq & Hm & Hw & Hd). do 4 (split; [done|]). intros s. by eapply decides_later.
  - unfold times in Hs. change (omap op_time (o :: ops)) with
      (match op_time o with Some t => t :: omap op_time ops | None => omap op_time ops end) in Hs.
    apply (IH (match op_time o with Some t => t | None => last end) (fun s => record s (h s) o)).
    + eapply (local_step _ _ _ now); [done|]. apply StronglySorted_inv in Hs as [Hs Hf].
      destruct (op_time o) as [t|]; cbn in Hs, Hf.
      * apply Forall_cons in Hf as [Hle Hf]. apply StronglySorted_inv in Hs as [_ Hs].
        split; [done|]. eapply Forall_forall; [exact Hs|]. apply elem_of_app. right. by left.
      * eapply Forall_forall; [exact Hf|]. apply elem_of_app. right. by left.
    + destruct (op_time o); [by apply StronglySorted_inv in Hs as [Hs _]|done].
Qed.
End Memory.

(** ** Facts: keys and the shared counter *)

Lemma _key_inj {R} (l : limiter R) s s' : _key l s = _key l s' -> s = s'.
Proof.
  unfold _key. intros E. apply str_append_inj_l in E. by apply (str_append_inj_l ":" s s').
Qed.

Section Shared.
Context {R : Type} `{RedisLaws R}.
Variable env : option string.

(** The server counts the failures since the last reset of every subject of the namespace. *)
Definition counts (ns : string) (h : string -> list Z) (r : R) : Prop :=
  forall s, counter r (ns +:+ ":" +:+ s) = Z.of_nat (length (h s)).

Lemma counts_step ns h r (l : limiter R) o :
  counts ns h r -> _namespace l = ns ->
  exists r', _redis (step env (with_redis l r) o) = Some r' /\ counts ns (fun s => record s (h s) o) r'.
Proof.
  intros Hc Hns. assert (Hkey : forall s s', String.eqb (ns +:+ ":" +:+ s') (ns +:+ ":" +:+ s) = String.eqb s s').
  { intros s s'. destruct (String.eqb_spec s s') as [->|Hne]; [apply String.eqb_refl|]. apply String.eqb_neq.
    intros E. apply Hne. symmetry. apply (_key_inj l). unfold _key. by rewrite Hns. }
  destruct o as [s t|s t|s]; cbn [step].
  - unfold record_failure, _key. cbn [with_redis _redis _namespace _window]. rewrite Hns.
    destruct (incr_ok r (ns +:+ ":" +:+ s)) as (r1 & -> & Hr1).
    assert (Hrec : counts ns (fun s0 => record s0 (h s0) (Failure s t)) r1).
    { intros s0. rewrite Hr1, Hkey. cbn [record]. destruct (String.eqb_spec s s0) as [->|Hne]; [|apply Hc].
      rewrite Hc, length_app. cbn. lia. }
    destruct (_ =? 1); [|by exists r1]. destruct (expire_ok r1 (ns +:+ ":" +:+ s) (_window l)) as (r2 & -> & Hr2).
    exists r2. split; [done|]. intros s0. by rewrite Hr2.
  - unfold is_limited, _key. cbn [with_redis _redis _namespace _window]. rewrite Hns.
    destruct (get_ok r (ns +:+ ":" +:+ s)) as (r1 & raw & -> & Hr1 & Hraw). exists r1.
    split; [|intros s0; rewrite Hr1; apply Hc]. destruct raw as [raw|]; [|done]. by destruct Hraw as [_ ->].
  - unfold reset, _key. cbn [with_redis _redis _namespace]. rewrite Hns.
    destruct (delete_ok r (ns +:+ ":" +:+ s)) as (r1 & n & -> & Hr1). exists r1. split; [done|].
    intros s0. rewrite Hr1, Hkey. cbn [record]. destruct (String.eqb s s0); [done|apply Hc].
Qed.

(** No operation changes a limiter's configuration. *)
Lemma step_config (l : limiter R) o :
  _namespace (step env l o) = _namespace l /\ _max (step env l o) = _max l.
Proof.
  destruct o; cbn [step]; unfold record_failure, is_limited, reset, mem_record_failure, mem_is_limited, mem_reset;
    repeat (case_match; cbn in *; simplify_eq; try by split); by split.
Qed.

Lemma cluster_run ns max sched : forall h (c : cluster R),
  counts ns h (server c) -> Forall (fun l => _namespace l = ns /\ _max l = max) (workers c) ->
  Forall (fun io => (fst io < length (workers c))%nat) sched ->
  let c' := fold_left (cluster_step env) sched c in
  counts ns (fun s => fold_left (record s) (map snd sched) (h s)) (server c')
  /\ Forall (fun l => _namespace l = ns /\ _max l = max) (workers c') /\ length (workers c') = length (workers c).
Proof.
  induction sched as [|[i o] sched IH]; intros h c Hc Hw Hi; cbn [fold_left map fst snd]; [done|].
  apply Forall_cons in Hi as [Hi Hs]. cbn in Hi. destruct (lookup_lt_is_Some_2 _ _ Hi) as [w Hwi].
  assert (Hcs : cluster_step env c (i, o) = Cluster (match _redis (step env (with_redis w (server c)) o) with Some r => r | None => server c end)
            (<[i := step env (with_redis w (server c)) o]> (workers c))).
  { unfold cluster_step. cbn [fst snd]. by rewrite Hwi. }
  pose proof (Forall_lookup_1 _ _ _ _ Hw Hwi) as [Hn Hm].
  destruct (counts_step ns h (server c) w o Hc Hn) as (r' & Hr' & Hc').
  rewrite Hcs, Hr'. specialize (IH (fun s => record s (h s) o) (Cluster r' (<[i := step env (with_redis w (server c)) o]> (workers c)))).
  cbn [server workers] in IH. rewrite length_insert in IH. apply IH; [done| |done].
  apply Forall_insert; [done|]. destruct (step_config (with_redis w (server c)) o) as [-> ->]. by split.
Qed.
End Shared.

(** ** Properties *)

(** A limiter without Redis forgets only what cannot matter: after any run of failures, queries and
    resets of any subjects under a clock that never goes back, [is_limited] answers as the whole
    history of the subject since its last reset would (at least [max] failures less than a window
    old), although the log was pruned and cut to its last [2 * max] entries on the way. *)
Theorem memory_limiter_exact {R} `{RedisLike R} env ns max window ops subject now :
  StronglySorted Z.le (times ops ++ [now])%list ->
  snd (is_limited env (fold_left (step env) ops (new_limiter (R := R) ns max window None false)) subject now)
  = Ok (max <=? Z.of_nat (length (fresh window now (history subject ops)))).
Proof.
  intros Hs. set (first := match (times ops ++ [now])%list with t :: _ => t | [] => 0 end).
  assert (Hl : local_for max window now (fun s => history s ops) (fold_left (step env) ops (new_limiter (R := R) ns max window None false))).
  { apply (local_run env max window now ops first (fun _ => [])).
    - do 4 (split; [done|]). intros s. apply decides_nil.
    - subst first. destruct (times ops ++ [now])%list as [|t ts] eqn:E; [by apply app_eq_nil in E as [_ E]|].
      constructor; [done|]. constructor; [lia|]. by apply StronglySorted_inv in Hs as [_ Hs]. }
  destruct Hl as (Hr & Hq & Hm & Hw & Hd). unfold is_limited. rewrite Hr, Hq. cbn. rewrite Hm, Hw. f_equal.
  destruct (Hd subject) as (_ & _ & Hd'). specialize (Hd' now ltac:(lia)).
  apply eq_true_iff_eq. rewrite !Z.leb_le. lia.
Qed.

(** Workers that share a Redis server share one count: whatever the interleaving of their failures,
    queries and resets within a window, every worker's [is_limited] answers whether [max] failures
    of the subject were recorded by all of them together since its last reset. *)
Theorem workers_share_one_count {R} `{RedisLaws R} env ns max sched (c : cluster R) i w subject now :
  0 < max -> (forall s, counter (server c) (ns +:+ ":" +:+ s) = 0) ->
  Forall (fun l => _namespace l = ns /\ _max l = max) (workers c) ->
  Forall (fun io => (fst io < length (workers c))%nat) sched ->
  let c' := fold_left (cluster_step env) sched c in
  workers c' !! i = Some w ->
  snd (is_limited env (with_redis w (server c')) subject now)
  = Ok (max <=? Z.of_nat (length (history subject (map snd sched)))).
Proof.
  intros Hmax Hzero Hw Hi c' Hwi. destruct (cluster_run env ns max sched (fun _ => []) c) as (Hc & Hw' & _); [done..|].
  fold c' in Hc, Hw'. apply (Forall_lookup_1 _ _ _ _ Hw') in Hwi as [Hn Hm].
  unfold is_limited, _key. cbn [with_redis _redis _namespace]. rewrite Hn.
  specialize (Hc subject). cbn in Hc. fold (history subject (map snd sched)) in Hc.
  destruct (get_ok (server c') (ns +:+ ":" +:+ subject)) as (r1 & raw & -> & _ & Hraw). cbn in Hraw. rewrite Hc in Hraw.
  destruct raw as [raw|].
  - destruct Hraw as [_ ->]. cbn. by rewrite Hm.
  - rewrite Hraw. cbn. f_equal. symmetry. by apply Z.leb_gt.
Qed.

(** A shared-only limiter never decides locally: its answers do not depend on the process's memory,
    which it neither reads nor writes, and a missing or failing Redis makes it raise
    [RateLimitBackendUnavailable] whatever the fail mode. *)
Theorem shared_only_never_local {R} `{RedisLike R} env (l : limiter R) subject now :
  _require_shared_backend l = true ->
  (forall m, snd (is_limited env (with_mem l m) subject now) = snd (is_limited env l subject now)
             /\ snd (record_failure (with_mem l m) subject now) = snd (record_failure l subject now))
  /\ _mem_failures (fst (is_limited env l subject now)) = _mem_failures l
  /\ _mem_failures (fst (record_failure l subject now)) = _mem_failures l
  /\ (snd (is_limited env l subject now) = Raise RateLimitBackendUnavailable
      <-> match _redis l with None => True | Some r => exists e, snd (redis_get r (_key l subject)) = Raise e end).
Proof.
  intros Hq. unfold is_limited, record_failure, _key. cbn [with_mem _redis _require_shared_backend _namespace _window]. rewrite Hq.
  destruct (_redis l) as [r|]; [|by repeat split].
  destruct (redis_get r _) as [r1 [[raw|]|e]] eqn:Eg, (redis_incr r _) as [r2 [n|e']] eqn:Ei; cbn;
    rewrite ?Hq; repeat (case_match; cbn in *; simplify_eq; rewrite ?Hq); split_and!; try done; try (by split; [|intros [? ?]]);
    try (by split; eauto).
Qed.

(** In closed mode a limiter that may fall back denies whenever Redis fails to answer, and a failure
    it could not record there is recorded in the process's own log. *)
Theorem closed_mode_denies {R} `{RedisLike R} env (l : limiter R) r subject now :
  _redis l = Some r -> _require_shared_backend l = false -> rate_limit_fail_mode env = "closed" ->
  (forall r' e, redis_get r (_key l subject) = (r', Raise e) -> snd (is_limited env l subject now) = Ok true)
  /\ (forall r' e, redis_incr r (_key l subject) = (r', Raise e) -> 0 < _max l ->
      now ∈ mem_of (fst (record_failure l subject now)) subject).
Proof.
  intros Hr Hq Hmode. split; intros r' e E.
  - unfold is_limited. rewrite Hr, E. cbn. unfold _fail_mode. by rewrite Hq, Hmode.
  - intros Hmax. unfold record_failure. rewrite Hr, E. cbn. rewrite Hq. cbn. unfold mem_of at 1. cbn. rewrite lookup_insert_eq.
    case_match; [|apply elem_of_app; right; by left]. reflect_bools. unfold slice_from.
    replace (- (_max l * 2) <? 0) with true by (symmetry; apply Z.ltb_lt; lia).
    rewrite drop_app_le by (rewrite length_app in *; cbn [length] in *; lia). apply elem_of_app. right. by left.
Qed.

(** The fail mode is one of the two documented ones; unset or blank degrades, and any other value,
    a misspelt one included, is read as [closed]. *)
Theorem fail_mode_closed_on_typos env :
  (rate_limit_fail_mode env = "degrade" \/ rate_limit_fail_mode env = "closed")
  /\ (rate_limit_fail_mode env = "degrade"
      <-> match env with None => True | Some v => lower (strip v) = "" \/ lower (strip v) = "degrade" end).
Proof.
  unfold rate_limit_fail_mode. destruct env as [v|]; [|by split; [left|]].
  destruct (String.eqb_spec (lower (strip v)) "") as [->|H0]; [by split; [left|split; auto]|].
  destruct (String.eqb_spec (lower (strip v)) "degrade") as [->|H1]; [by split; [left|split; auto]|].
  destruct (String.eqb_spec (lower (strip v)) "closed") as [->|H2]; cbn; (split; [by right|]); split; try done; by intros [?|?].
Qed.

(** ** A Redis server for the witnesses

    One that always answers: a map of positive counters, whose values are sent as decimal text. *)

Fixpoint uval (d : Decimal.uint) (acc : Z) : Z :=
  match d with
  | Decimal.Nil => acc
  | Decimal.D0 d => uval d (acc * 10 + 0) | Decimal.D1 d => uval d (acc * 10 + 1)
  | Decimal.D2 d => uval d (acc * 10 + 2) | Decimal.D3 d => uval d (acc * 10 + 3)
  | Decimal.D4 d => uval d (acc * 10 + 4) | Decimal.D5 d => uval d (acc * 10 + 5)
  | Decimal.D6 d => uval d (acc * 10 + 6) | Decimal.D7 d => uval d (acc * 10 + 7)
  | Decimal.D8 d => uval d (acc * 10 + 8) | Decimal.D9 d => uval d (acc * 10 + 9)
  end.

Lemma uval_pos d : forall a, uval d (Zpos a) = Zpos (Pos.of_uint_acc d a).
Proof. induction d; intros a; cbn [uval Pos.of_uint_acc]; [done|..]; rewrite <- IHd; f_equal; lia. Qed.

Lemma uval_zero d : uval d 0 = Z.of_N (Pos.of_uint d).
Proof. induction d; cbn [uval Pos.of_uint]; [done|done|..]; apply uval_pos. Qed.

Lemma read_digits_uint d : forall prev acc n, exists n',
  read_digits (NilEmpty.string_of_uint d) prev acc n = Some (uval d acc, n', EmptyString) /\ n <= n'
  /\ (d <> Decimal.Nil -> n < n').
Proof.
  induction d; intros prev acc n; cbn [NilEmpty.string_of_uint]; [by exists n; split_and!|..];
    (edestruct (IHd true) as (n' & Hr & Hn & _); exists n'; split; [|split; [|intros _]]; [exact Hr|lia|lia]).
Qed.

Lemma strip_digits d : rstrip bytes_space (lstrip bytes_space (NilEmpty.string_of_uint d)) = NilEmpty.string_of_uint d.
Proof.
  assert (Hr : forall d, rstrip bytes_space (NilEmpty.string_of_uint d) = NilEmpty.string_of_uint d).
  { clear d. induction d; cbn [NilEmpty.string_of_uint rstrip]; [done|..]; rewrite IHd; by destruct (NilEmpty.string_of_uint d). }
  assert (Hl : lstrip bytes_space (NilEmpty.string_of_uint d) = NilEmpty.string_of_uint d) by (by destruct d).
  by rewrite Hl, Hr.
Qed.

Lemma parse_int_pos p : parse_int (str_of_Z (Zpos p)) = Some (Zpos p).
Proof.
  pose proof (DecimalPos.Unsigned.of_to p) as Hof. pose proof (DecimalPos.Unsigned.to_uint_nonnil p) as Hnn.
  unfold str_of_Z. cbn [Z.to_int NilZero.string_of_int]. set (d := Pos.to_uint p) in *.
  assert (Hz : NilZero.string_of_uint d = NilEmpty.string_of_uint d) by (by destruct d).
  unfold parse_int, int_of_text. rewrite Hz, strip_digits.
  assert (Hs : read_sign (NilEmpty.string_of_uint d) = (false, NilEmpty.string_of_uint d)) by (by destruct d).
  rewrite Hs. destruct (read_digits_uint d false 0 0) as (n & -> & _ & Hn). rewrite uval_zero, Hof.
  replace (0 <? n) with true by (symmetry; apply Z.ltb_lt; auto). done.
Qed.

Notation demo_redis := (gmap string positive).

#[export] Instance demo_redis_ops : RedisLike demo_redis := {|
  redis_incr := fun r k => let c := match r !! k with Some p => Pos.succ p | None => xH end in (<[k := c]> r, Ok (Zpos c));
  redis_expire := fun r _ _ => (r, Ok true);
  redis_get := fun r k => (r, Ok (match r !! k with Some p => Some (str_of_Z (Zpos p)) | None => None end));
  redis_delete := fun r k => (delete k r, Ok 1)
|}.

#[export] Instance demo_redis_laws : RedisLaws demo_redis.
Proof.
  refine {| counter := fun r k => match r !! k with Some p => Zpos p | None => 0 end |}.
  - intros r k. by case_match.
  - intros r k. exists (<[k := match r !! k with Some p => Pos.succ p | None => xH end]> r).
    split; [cbn; do 2 f_equal; case_match; lia|]. intros k'.
    destruct (String.eqb_spec k' k) as [->|Hne]; [rewrite lookup_insert_eq; destruct (r !! k); [rewrite Pos2Z.inj_succ; lia|done]|by rewrite lookup_insert_ne].
  - intros r k w. by exists r.
  - intros r k. cbn. do 2 eexists. split; [done|]. split; [done|]. destruct (r !! k); [|done]. split; [done|apply parse_int_pos].
  - intros r k. exists (delete k r), 1. split; [done|]. intros k'.
    destruct (String.eqb_spec k' k) as [->|Hne]; [by rewrite lookup_delete_eq|by rewrite lookup_delete_ne].
Defined.

(** A server that does not answer. *)
Definition dead_redis := unit.
#[export] Instance dead_redis_ops : RedisLike dead_redis := {|
  redis_incr := fun r _ => (r, Raise (Exn "ConnectionError" "refused"));
  redis_expire := fun r _ _ => (r, Raise (Exn "ConnectionError" "refused"));
  redis_get := fun r _ => (r, Raise (Exn "ConnectionError" "refused"));
  redis_delete := fun r _ => (r, Raise (Exn "ConnectionError" "refused"))
|}.

Definition demo_ops : list op := [Failure "a" 0; Failure "a" 10; Query "b" 20; Failure "b" 30; Failure "a" 65].

Lemma memory_limiter_exact_witness :
  snd (is_limited None (fold_left (step None) demo_ops (new_limiter (R := demo_redis) "login" 2 60 None false)) "a" 70)
  = Ok (2 <=? Z.of_nat (length (fresh 60 70 (history "a" demo_ops)))).
Proof. apply memory_limiter_exact. cbn. repeat constructor; done. Defined.

Definition demo_cluster : cluster demo_redis :=
  Cluster ∅ [new_limiter "login" 2 60 None false; new_limiter "login" 2 60 None true].
Definition demo_sched : list (nat * op) := [(0%nat, Failure "a" 0); (1%nat, Failure "a" 5)].

Lemma workers_share_one_count_witness :
  let c' := fold_left (cluster_step None) demo_sched demo_cluster in
  exists w, workers c' !! 0%nat = Some w
  /\ snd (is_limited None (with_redis w (server c')) "a" 6) = Ok true.
Proof.
  eexists. split; [by vm_compute|].
  refine (workers_share_one_count None "login" 2 demo_sched demo_cluster 0 _ "a" 6 _ _ _ _ _);
    [done|done|by repeat constructor|cbn; repeat constructor|by vm_compute].
Defined.

Lemma shared_only_never_local_witness :
  snd (is_limited None (new_limiter "login" 2 60 (Some (tt : dead_redis)) true) "a" 6) = Raise RateLimitBackendUnavailable.
Proof.
  refine (proj2 (proj2 (proj2 (proj2 (shared_only_never_local None _ "a" 6 _)))) _); [done|]. cbn. eexists. done.
Defined.

Lemma closed_mode_denies_witness :
  snd (is_limited (Some "closed") (new_limiter "login" 2 60 (Some (tt : dead_redis)) false) "a" 6) = Ok true.
Proof. refine (proj1 (closed_mode_denies (Some "closed") _ tt "a" 6 _ _ _) tt _ _); by vm_compute. Defined.
