(* ===== verification/Tokens.v ===== *)
(** * Remediation tokens and supplier sessions

    [services/ingestion/app/remediation/tokens.py] with the tables and lookup functions of migration
    v095.  A token row holds hashes only; the raw secret, the row id, the clock readings and the
    audit writer's failures are arguments ([mint]).  Ids are UUID values in their canonical text.
    Proved: a token is exchanged at most once whatever the order of requests, including requests that
    read the row before another one spent it; what resolves exactly; revocation is final; no session
    outlives its thirty minutes or its token; and what a refused request leaves behind. *)

From Stdlib Require Import ZArith Lia String Ascii.
From Corelib Require Import SpecFloat.
From stdpp Require Import base list strings.
From S2P Require Import Prelude PyStr Db PyFloat Sha256.

Local Open Scope string_scope.
Local Open Scope Z_scope.
Local Open Scope dbm_scope.

Definition usec_per_hour : Z := 3600000000.

Definition TOKEN_TTL_HOURS_DEFAULT : Z := 24.
Definition SESSION_TTL_MINUTES : Z := 30.
Definition MAX_EXCHANGES : Z := 1.

Definition TOKEN_NOT_USABLE : exn := Exn "HTTPException" "400: Remediation link is not usable".
Definition SESSION_NOT_VALID : exn := Exn "HTTPException" "401: Session is not valid".
Definition IntegrityError (constraint : string) : exn := Exn "IntegrityError" constraint.

Definition _hash (raw : string) : string := sha256_hex raw.

(** ** [timedelta(hours=...)] *)

(** The annotation says [int]; the notification drainer passes a float. *)
Inductive hours := HInt (z : Z) | HFloat (f : f64).

(** Microseconds of [timedelta(hours=h)]: the whole hours exactly, the fraction scaled in binary64,
    what is left rounded half to even.  A float that is not finite has no caller. *)
Definition timedelta_hours (h : hours) : Z :=
  match h with
  | HInt z => z * usec_per_hour
  | HFloat (S754_finite s m e) =>
      let sg := if s then -1 else 1 in
      let '(n, d) := as_fraction (Z.pos m) e in
      let whole := sg * (n / d) * usec_per_hour in
      if (n mod d =? 0)%Z then whole
      else
        match fmul (f_of_Z usec_per_hour) (binary_normalize 53 1024 (n mod d) e false) with
        | S754_finite _ m' e' =>
            let '(n', d') := as_fraction (Z.pos m') e' in
            whole + sg * (n' / d') + round_div (sg * (n' mod d')) d'
        | _ => whole
        end
  | HFloat _ => 0
  end.

(** ** Tables *)

(** A row of [fsma.remediation_tokens]. *)
Record token := Token {
  t_id : string;
  t_tenant_id : string;
  t_case_id : string;
  t_token_hash : string;
  t_expires_at : Z;
  t_revoked_at : option Z;
  t_superseded_by : option string;
  t_session_token_hash : option string;
  t_session_expires_at : option Z;
  t_exchange_count : Z;
  t_supplier_email : option string;
  t_created_by : option string
}.

#[export] Instance token_eq_dec : EqDecision token.
Proof. solve_decision. Defined.

Record audit_entry := AuditEntry {
  ae_tenant_id : string; ae_event_type : string; ae_resource_id : string; ae_detail : string
}.

(** The tables, and the tenant that row-level security is set to ([app.tenant_id]). *)
Record tdb := TDb { remediation_tokens : list token; audit_logs : list audit_entry; tenant_guc : option string }.

Definition set_tenant_guc (tenant_id : string) (db : tdb) : tdb :=
  TDb (remediation_tokens db) (audit_logs db) (Some tenant_id).
Definition set_tokens (ts : list token) (db : tdb) : tdb := TDb ts (audit_logs db) (tenant_guc db).
Definition add_audit (a : audit_entry) (db : tdb) : tdb :=
  TDb (remediation_tokens db) (audit_logs db ++ [a])%list (tenant_guc db).

(** What an operation draws from outside: the secret, the id of an inserted row, the clock of the
    process (a second reading where one call reads it twice) and of the database, and whether the
    audit writer fails. *)
Record mint := Mint {
  m_raw : string; m_id : string; m_now : Z; m_now_again : Z; m_db_now : Z; m_audit_fails : bool
}.

Definition audit_event (w : mint) (tenant_id event_type resource_id detail : string) : dbm tdb unit :=
  savepoint (m_audit_fails w) (add_audit (AuditEntry tenant_id event_type resource_id detail)).
Arguments audit_event : simpl never.

(** ** Issue and revoke *)

Record issued := Issued { is_token_id : string; is_token : string; is_expires_at : Z }.

Definition insert_token (t : token) : dbm tdb unit := fun db =>
  if existsb (fun r => String.eqb (t_id r) (t_id t)) (remediation_tokens db)
  then (db, Raise (IntegrityError "remediation_tokens_pkey"))
  else if existsb (fun r => String.eqb (t_token_hash r) (t_token_hash t)) (remediation_tokens db)
  then (db, Raise (IntegrityError "remediation_tokens_token_hash_key"))
  else (set_tokens (remediation_tokens db ++ [t])%list db, Ok tt).

Definition set_superseded (new_id : string) (t : token) : token :=
  Token (t_id t) (t_tenant_id t) (t_case_id t) (t_token_hash t) (t_expires_at t) (t_revoked_at t) (Some new_id)
    (t_session_token_hash t) (t_session_expires_at t) (t_exchange_count t) (t_supplier_email t) (t_created_by t).

Definition update_tokens (p : token -> bool) (f : token -> token) : dbm tdb nat := fun db =>
  (set_tokens (update_where p f (remediation_tokens db)) db, Ok (count_where p (remediation_tokens db))).

Definition issue_token (w : mint) (tenant_id case_id : string) (supplier_email created_by : option string)
    (expires_hours : hours) (superseded_token_id : option string) : dbm tdb issued :=
  let expires_at := m_now w + timedelta_hours expires_hours in
  insert_token (Token (m_id w) tenant_id case_id (_hash (m_raw w)) expires_at None None None None 0
                  supplier_email created_by) ;;;
  _ <~ (match nonempty superseded_token_id with
        | Some old => update_tokens (fun r => String.eqb (t_id r) old && String.eqb (t_tenant_id r) tenant_id)
                        (set_superseded (m_id w))
        | None => dret 0%nat
        end) ;;
  audit_event w tenant_id "remediation.token.issue" (m_id w) case_id ;;;
  dret (Issued (m_id w) (m_raw w) expires_at).

Definition revoke (now : Z) (t : token) : token :=
  Token (t_id t) (t_tenant_id t) (t_case_id t) (t_token_hash t) (t_expires_at t) (Some now) (t_superseded_by t)
    None None (t_exchange_count t) (t_supplier_email t) (t_created_by t).

(** The rows [revoke_tokens_for_case] updates. *)
Definition live_of_case (tenant_id case_id : string) (t : token) : bool :=
  String.eqb (t_tenant_id t) tenant_id && String.eqb (t_case_id t) case_id && bool_decide (t_revoked_at t = None).

Fixpoint audit_revocations (w : mint) (tenant_id case_id : string) (ids : list string) : dbm tdb unit :=
  match ids with
  | [] => dret tt
  | i :: ids' => audit_event w tenant_id "remediation.token.revoke" i case_id ;;; audit_revocations w tenant_id case_id ids'
  end.

Definition revoke_tokens_for_case (w : mint) (tenant_id case_id : string) : dbm tdb (list string) :=
  revoked <~ dget (fun db => t_id <$> where_ (live_of_case tenant_id case_id) (remediation_tokens db)) ;;
  _ <~ update_tokens (live_of_case tenant_id case_id) (revoke (m_db_now w)) ;;
  audit_revocations w tenant_id case_id revoked ;;;
  dret revoked.

(** ** Lookup *)

Definition nil_uuid : string := "00000000-0000-0000-0000-000000000000".

(** The lookup functions of the migration pin an unset tenant to the nil UUID. *)
Definition pin_tenant (db : tdb) : tdb :=
  TDb (remediation_tokens db) (audit_logs db) (Some (ostr_or (tenant_guc db) nil_uuid)).

Inductive lookup_fn := get_remediation_token_by_hash | get_remediation_token_by_session_hash.

Definition lookup_column (fn : lookup_fn) (t : token) : option string :=
  match fn with
  | get_remediation_token_by_hash => Some (t_token_hash t)
  | get_remediation_token_by_session_hash => t_session_token_hash t
  end.

Definition find_token (fn : lookup_fn) (raw : string) (ts : list token) : option token :=
  List.find (fun t => bool_decide (lookup_column fn t = Some (_hash raw))) ts.

Definition _lookup (fn : lookup_fn) (raw : string) : dbm tdb (option token) := fun db =>
  (pin_tenant db, Ok (find_token fn raw (remediation_tokens db))).

Definition _deny {A} (w : mint) (token_row : option token) (reason : string) (e : exn) : dbm tdb A :=
  match token_row with
  | Some t => dmodify (set_tenant_guc (t_tenant_id t)) ;;;
              audit_event w (t_tenant_id t) "remediation.token.denied" (t_id t) reason ;;;
              draise e
  | None => draise e
  end.

(** The rest of [resolve_active_token], once the row is found. *)
Definition resolved_token (w : mint) (t : token) : dbm tdb token :=
  if bool_decide (t_revoked_at t <> None) then _deny w (Some t) "revoked" TOKEN_NOT_USABLE
  else if t_expires_at t <=? m_now w then _deny w (Some t) "expired" TOKEN_NOT_USABLE
  else dmodify (set_tenant_guc (t_tenant_id t)) ;;; dret t.

Definition resolve_active_token (w : mint) (raw_token : string) : dbm tdb token :=
  row <~ _lookup get_remediation_token_by_hash raw_token ;;
  match row with
  | None => draise TOKEN_NOT_USABLE
  | Some t => resolved_token w t
  end.

(** ** Exchange *)

Record session := Session { s_session_token : string; s_expires_at : Z }.

Definition exchangeable (token_row t : token) : bool :=
  String.eqb (t_id t) (t_id token_row) && String.eqb (t_tenant_id t) (t_tenant_id token_row)
  && bool_decide (t_revoked_at t = None) && (t_exchange_count t <? MAX_EXCHANGES).

Definition start_session (h : string) (expires : Z) (t : token) : token :=
  Token (t_id t) (t_tenant_id t) (t_case_id t) (t_token_hash t) (t_expires_at t) (t_revoked_at t) (t_superseded_by t)
    (Some h) (Some expires) (t_exchange_count t + 1) (t_supplier_email t) (t_created_by t).

(** The guarded [UPDATE]; the column is [UNIQUE]. *)
Definition update_session (token_row : token) (h : string) (expires : Z) : dbm tdb nat := fun db =>
  let p := exchangeable token_row in
  if (0 <? count_where p (remediation_tokens db))%nat
     && existsb (fun r => negb (p r) && bool_decide (t_session_token_hash r = Some h)) (remediation_tokens db)
  then (db, Raise (IntegrityError "remediation_tokens_session_token_hash_key"))
  else update_tokens p (start_session h expires) db.

Definition session_ttl : Z := SESSION_TTL_MINUTES * 60000000.

(** [token_row] is the row as an earlier read returned it. *)
Definition exchange_for_session (w : mint) (token_row : token) : dbm tdb session :=
  if MAX_EXCHANGES <=? t_exchange_count token_row then _deny w (Some token_row) "already_exchanged" TOKEN_NOT_USABLE
  else
    let session_expires := m_now w + session_ttl in
    rowcount <~ update_session token_row (_hash (m_raw w)) session_expires ;;
    if negb (rowcount =? 1)%nat then _deny w (Some token_row) "exchange_race" TOKEN_NOT_USABLE
    else
      audit_event w (t_tenant_id token_row) "remediation.token.exchange" (t_id token_row) (t_case_id token_row) ;;;
      dret (Session (m_raw w) session_expires).

(** [not token_row["session_expires_at"] or token_row["session_expires_at"] <= _now()]. *)
Definition session_over (now : Z) (t : token) : bool :=
  match t_session_expires_at t with None => true | Some e => e <=? now end.

Definition resolved_session (w : mint) (t : token) : dbm tdb token :=
  if bool_decide (t_revoked_at t <> None) then _deny w (Some t) "session_revoked" SESSION_NOT_VALID
  else if t_expires_at t <=? m_now w then _deny w (Some t) "token_expired" SESSION_NOT_VALID
  else if session_over (m_now_again w) t then _deny w (Some t) "session_expired" SESSION_NOT_VALID
  else dmodify (set_tenant_guc (t_tenant_id t)) ;;; dret t.

Definition resolve_active_session (w : mint) (raw_session : string) : dbm tdb token :=
  row <~ _lookup get_remediation_token_by_session_hash raw_session ;;
  match row with
  | None => draise SESSION_NOT_VALID
  | Some t => resolved_session w t
  end.

(** The token part of [create_link]: revoke what is live, issue, supersede the first revoked. *)
Definition reissue (wr wi : mint) (tenant_id case_id : string) (email created_by : option string) (h : hours)
  : dbm tdb issued :=
  revoked <~ revoke_tokens_for_case wr tenant_id case_id ;;
  issue_token wi tenant_id case_id email created_by h (head revoked).

(** ** The table under any sequence of operations *)

(** Requests, each one transaction.  An exchange carries the row that some earlier read returned. *)
Inductive op :=
| OIssue (w : mint) (tenant_id case_id : string) (email by_ : option string) (h : hours) (superseded : option string)
| ORevoke (w : mint) (tenant_id case_id : string)
| OPreview (w : mint) (raw : string)
| OExchange (w : mint) (token_row : token)
| OSession (w : mint) (raw : string).

Definition run_op (o : op) : dbm tdb unit :=
  match o with
  | OIssue w t c e b h s => issue_token w t c e b h s ;;; dret tt
  | ORevoke w t c => revoke_tokens_for_case w t c ;;; dret tt
  | OPreview w raw => resolve_active_token w raw ;;; dret tt
  | OExchange w row => exchange_for_session w row ;;; dret tt
  | OSession w raw => resolve_active_session w raw ;;; dret tt
  end.

Definition step (o : op) (db : tdb) : tdb := fst (get_db_session (run_op o) db).
Fixpoint steps (os : list op) (db : tdb) : tdb :=
  match os with [] => db | o :: os' => steps os' (step o db) end.

(** How many exchanges of token [i] succeed. *)
Definition exchanges_now (i : string) (o : op) (db : tdb) : nat :=
  match o with
  | OExchange w row => if String.eqb (t_id row) i && is_ok (snd (exchange_for_session w row db)) then 1%nat else 0%nat
  | _ => 0%nat
  end.
Fixpoint exchanges (i : string) (os : list op) (db : tdb) : nat :=
  match os with [] => 0%nat | o :: os' => (exchanges_now i o db + exchanges i os' (step o db))%nat end.

(** The changes of the token table that operations make. *)
Inductive tstep : list token -> list token -> Prop :=
| ts_same ts : tstep ts ts
| ts_issue ts t :
    t_id t ∉ t_id <$> ts -> t_token_hash t ∉ t_token_hash <$> ts ->
    t_revoked_at t = None -> t_session_token_hash t = None -> t_session_expires_at t = None -> t_exchange_count t = 0 ->
    tstep ts (ts ++ [t])%list
| ts_supersede ts p new : tstep ts (update_where p (set_superseded new) ts)
| ts_revoke ts tid cid now : tstep ts (update_where (live_of_case tid cid) (revoke now) ts)
| ts_session ts row h e :
    count_where (exchangeable row) ts = 1%nat ->
    (forall r, r ∈ ts -> exchangeable row r = false -> t_session_token_hash r <> Some h) ->
    tstep ts (update_where (exchangeable row) (start_session h e) ts).

Inductive tsteps : list token -> list token -> Prop :=
| tss_refl ts : tsteps ts ts
| tss_step ts ts' ts'' : tstep ts ts' -> tsteps ts' ts'' -> tsteps ts ts''.

Lemma tsteps_one ts ts' : tstep ts ts' -> tsteps ts ts'.
Proof. intros H. econstructor; [done|constructor]. Qed.
Lemma tsteps_app a b c : tsteps a b -> tsteps b c -> tsteps a c.
Proof. induction 1; [done|]. intros. econstructor; eauto. Qed.

(** ** What each operation does to the tables *)

Lemma audit_event_run w t e r d db :
  exists db', audit_event w t e r d db = (db', Ok tt)
    /\ remediation_tokens db' = remediation_tokens db /\ tenant_guc db' = tenant_guc db.
Proof. unfold audit_event, savepoint. destruct (m_audit_fails w); eauto. Qed.

Lemma audit_revocations_run w t c ids db :
  exists db', audit_revocations w t c ids db = (db', Ok tt)
    /\ remediation_tokens db' = remediation_tokens db /\ tenant_guc db' = tenant_guc db.
Proof.
  revert db. induction ids as [|i ids IH]; intros db; cbn; [by exists db|].
  destruct (audit_event_run w t "remediation.token.revoke" i c db) as (d1 & E & H1 & H2).
  unfold dbind. rewrite E. destruct (IH d1) as (d2 & E2 & H3 & H4). exists d2.
  split; [done|]. by rewrite H3, H4.
Qed.

Lemma deny_run {A} w o reason e db :
  exists db', @_deny A w o reason e db = (db', Raise e) /\ remediation_tokens db' = remediation_tokens db.
Proof.
  destruct o as [t|]; cbn; [|by exists db]. unfold dbind, dmodify.
  destruct (audit_event_run w (t_tenant_id t) "remediation.token.denied" (t_id t) reason
              (set_tenant_guc (t_tenant_id t) db)) as (d1 & -> & H1 & _).
  exists d1. split; [done|]. by rewrite H1.
Qed.

Definition fresh_token (w : mint) (ts : list token) : Prop :=
  (m_id w ∉ t_id <$> ts) /\ (_hash (m_raw w) ∉ t_token_hash <$> ts).

Lemma existsb_field {R} (f : R -> string) (t : list R) (x : string) :
  existsb (fun r => String.eqb (f r) x) t = true <-> x ∈ f <$> t.
Proof.
  rewrite existsb_exists, list_elem_of_fmap. setoid_rewrite String.eqb_eq. setoid_rewrite list_elem_of_In.
  split; intros (r & H1 & H2); exists r; subst; auto.
Qed.

Lemma existsb_field_false {R} (f : R -> string) (t : list R) (x : string) :
  x ∉ f <$> t -> existsb (fun r => String.eqb (f r) x) t = false.
Proof. intros H. apply not_true_is_false. by rewrite existsb_field. Qed.

Definition new_token (w : mint) (tid cid : string) (e b : option string) (h : hours) : token :=
  Token (m_id w) tid cid (_hash (m_raw w)) (m_now w + timedelta_hours h) None None None None 0 e b.

Definition superseding (w : mint) (tid : string) (s : option string) (ts : list token) : list token :=
  match nonempty s with
  | Some old => update_where (fun r => String.eqb (t_id r) old && String.eqb (t_tenant_id r) tid) (set_superseded (m_id w)) ts
  | None => ts
  end.

Lemma issue_token_fresh w tid cid e b h s db :
  fresh_token w (remediation_tokens db) ->
  exists db', issue_token w tid cid e b h s db = (db', Ok (Issued (m_id w) (m_raw w) (m_now w + timedelta_hours h)))
    /\ remediation_tokens db' = superseding w tid s (remediation_tokens db ++ [new_token w tid cid e b h])%list
    /\ tenant_guc db' = tenant_guc db.
Proof.
  intros [H1 H2]. unfold issue_token, insert_token. cbn [t_id t_token_hash].
  unfold dbind at 1. rewrite (existsb_field_false t_id), (existsb_field_false t_token_hash) by done.
  unfold superseding. destruct (nonempty s) as [old|]; unfold dbind, dret, update_tokens; cbn beta iota.
  - edestruct audit_event_run as (d1 & -> & H3 & H4). exists d1. by rewrite H3, H4.
  - edestruct audit_event_run as (d1 & -> & H3 & H4). exists d1. by rewrite H3, H4.
Qed.

Lemma issue_token_taken w tid cid e b h s db :
  ~ fresh_token w (remediation_tokens db) -> exists x, issue_token w tid cid e b h s db = (db, Raise x).
Proof.
  intros Hn. unfold issue_token, insert_token, dbind at 1. cbn [t_id t_token_hash].
  destruct (existsb _ _) eqn:E1; [by eauto|]. destruct (existsb (fun r => String.eqb (t_token_hash r) _) _) eqn:E2; [by eauto|].
  destruct Hn. split; rewrite <- existsb_field; [by rewrite E1|by rewrite E2].
Qed.

Lemma fresh_token_dec w ts : fresh_token w ts \/ ~ fresh_token w ts.
Proof.
  unfold fresh_token. destruct (decide (m_id w ∈ t_id <$> ts)), (decide (_hash (m_raw w) ∈ t_token_hash <$> ts)); tauto.
Qed.

Lemma revoke_run w tid cid db :
  exists db', revoke_tokens_for_case w tid cid db
      = (db', Ok (t_id <$> where_ (live_of_case tid cid) (remediation_tokens db)))
    /\ remediation_tokens db' = update_where (live_of_case tid cid) (revoke (m_db_now w)) (remediation_tokens db)
    /\ tenant_guc db' = tenant_guc db.
Proof.
  unfold revoke_tokens_for_case, dbind, dget, update_tokens, dret. cbn beta iota.
  edestruct audit_revocations_run as (d1 & -> & H1 & H2). exists d1. by rewrite H1, H2.
Qed.

(** The requests that only read. *)
Definition token_ok (now : Z) (t : token) : bool := bool_decide (t_revoked_at t = None) && (now <? t_expires_at t).
Definition session_ok (now now' : Z) (t : token) : bool := token_ok now t && negb (session_over now' t).

Lemma not_none_test (o : option Z) : bool_decide (o <> None) = negb (bool_decide (o = None)).
Proof. by destruct o. Qed.

Lemma resolve_token_run w raw db :
  exists db', remediation_tokens db' = remediation_tokens db /\
    match find_token get_remediation_token_by_hash raw (remediation_tokens db) with
    | Some t => if token_ok (m_now w) t
                then resolve_active_token w raw db = (db', Ok t) /\ tenant_guc db' = Some (t_tenant_id t)
                else resolve_active_token w raw db = (db', Raise TOKEN_NOT_USABLE)
    | None => resolve_active_token w raw db = (db', Raise TOKEN_NOT_USABLE)
    end.
Proof.
  assert (Hd : resolve_active_token w raw db = (match find_token get_remediation_token_by_hash raw (remediation_tokens db) with
    | None => draise TOKEN_NOT_USABLE | Some t => resolved_token w t end) (pin_tenant db)) by done.
  rewrite Hd. clear Hd. unfold resolved_token.
  destruct (find_token _ _ _) as [t|] eqn:E; [|by exists (pin_tenant db)]. unfold token_ok.
  rewrite not_none_test. destruct (bool_decide (t_revoked_at t = None)); cbn [andb negb]; cycle 1.
  - destruct (deny_run (A := token) w (Some t) "revoked" TOKEN_NOT_USABLE (pin_tenant db)) as (d & -> & Hd). by exists d.
  - rewrite Z.ltb_antisym. destruct (t_expires_at t <=? m_now w); cbn [negb].
    + destruct (deny_run (A := token) w (Some t) "expired" TOKEN_NOT_USABLE (pin_tenant db)) as (d & -> & Hd). by exists d.
    + exists (set_tenant_guc (t_tenant_id t) (pin_tenant db)). done.
Qed.

Lemma resolve_session_run w raw db :
  exists db', remediation_tokens db' = remediation_tokens db /\
    match find_token get_remediation_token_by_session_hash raw (remediation_tokens db) with
    | Some t => if session_ok (m_now w) (m_now_again w) t
                then resolve_active_session w raw db = (db', Ok t) /\ tenant_guc db' = Some (t_tenant_id t)
                else resolve_active_session w raw db = (db', Raise SESSION_NOT_VALID)
    | None => resolve_active_session w raw db = (db', Raise SESSION_NOT_VALID)
    end.
Proof.
  assert (Hd : resolve_active_session w raw db = (match find_token get_remediation_token_by_session_hash raw (remediation_tokens db) with
    | None => draise SESSION_NOT_VALID | Some t => resolved_session w t end) (pin_tenant db)) by done.
  rewrite Hd. clear Hd. unfold resolved_session.
  destruct (find_token _ _ _) as [t|] eqn:E; [|by exists (pin_tenant db)]. unfold session_ok, token_ok.
  rewrite not_none_test. destruct (bool_decide (t_revoked_at t = None)); cbn [andb negb]; cycle 1.
  - destruct (deny_run (A := token) w (Some t) "session_revoked" SESSION_NOT_VALID (pin_tenant db)) as (d & -> & Hd). by exists d.
  - rewrite Z.ltb_antisym. destruct (t_expires_at t <=? m_now w); cbn [negb andb].
    + destruct (deny_run (A := token) w (Some t) "token_expired" SESSION_NOT_VALID (pin_tenant db)) as (d & -> & Hd). by exists d.
    + destruct (session_over _ t); cbn [negb].
      * destruct (deny_run (A := token) w (Some t) "session_expired" SESSION_NOT_VALID (pin_tenant db)) as (d & -> & Hd). by exists d.
      * exists (set_tenant_guc (t_tenant_id t) (pin_tenant db)). done.
Qed.

Lemma resolve_token_reads w raw db :
  exists db' r, resolve_active_token w raw db = (db', r) /\ remediation_tokens db' = remediation_tokens db.
Proof.
  destruct (resolve_token_run w raw db) as (d & Hd & H).
  destruct (find_token _ _ _) as [t|]; [destruct (token_ok _ t); [destruct H as [H _]|]|]; eauto.
Qed.

Lemma resolve_session_reads w raw db :
  exists db' r, resolve_active_session w raw db = (db', r) /\ remediation_tokens db' = remediation_tokens db.
Proof.
  destruct (resolve_session_run w raw db) as (d & Hd & H).
  destruct (find_token _ _ _) as [t|]; [destruct (session_ok _ _ t); [destruct H as [H _]|]|]; eauto.
Qed.

(** An exchange either spends the token or leaves the table as it was. *)
Definition session_hash_free (row : token) (h : string) (ts : list token) : Prop :=
  forall r, r ∈ ts -> exchangeable row r = false -> t_session_token_hash r <> Some h.

Lemma exchange_run w row db :
  exists db',
    (exchange_for_session w row db = (db', Ok (Session (m_raw w) (m_now w + session_ttl)))
     /\ t_exchange_count row < MAX_EXCHANGES
     /\ count_where (exchangeable row) (remediation_tokens db) = 1%nat
     /\ session_hash_free row (_hash (m_raw w)) (remediation_tokens db)
     /\ remediation_tokens db' = update_where (exchangeable row) (start_session (_hash (m_raw w)) (m_now w + session_ttl))
                                   (remediation_tokens db))
    \/ ((exists x, exchange_for_session w row db = (db', Raise x)
          /\ (x = TOKEN_NOT_USABLE \/ ~ session_hash_free row (_hash (m_raw w)) (remediation_tokens db)))
        /\ (MAX_EXCHANGES <= t_exchange_count row \/ count_where (exchangeable row) (remediation_tokens db) <> 1%nat
            \/ ~ session_hash_free row (_hash (m_raw w)) (remediation_tokens db))).
Proof.
  unfold exchange_for_session. destruct (Z.leb_spec MAX_EXCHANGES (t_exchange_count row)) as [Hc|Hc].
  - destruct (deny_run (A := session) w (Some row) "already_exchanged" TOKEN_NOT_USABLE db) as (d & -> & Hd).
    exists d. right. split; [by exists TOKEN_NOT_USABLE; auto|by auto].
  - unfold dbind, update_session, dret. cbv zeta beta.
    destruct (existsb (fun r => negb (exchangeable row r) && _) (remediation_tokens db)) eqn:Ex.
    + apply existsb_exists in Ex as (r & Hin & Hr). apply andb_true_iff in Hr as [Hr1 Hr2].
      apply negb_true_iff in Hr1. apply bool_decide_eq_true in Hr2. apply list_elem_of_In in Hin.
      assert (~ session_hash_free row (_hash (m_raw w)) (remediation_tokens db)) as Hf by (intros Hf; by apply (Hf r)).
      destruct (0 <? count_where _ _)%nat eqn:Ec; cbn [andb]; [exists db; right; split; [eexists; split; [done|by right]|by right; right]|].
      apply Nat.ltb_ge in Ec. unfold update_tokens. rewrite (update_where_none (exchangeable row)) by lia.
      assert (count_where (exchangeable row) (remediation_tokens db) = 0%nat) as -> by lia. cbn [Nat.eqb negb].
      edestruct (deny_run (A := session)) as (d & -> & Hd). exists d. right. split; [exists TOKEN_NOT_USABLE; split; [done|by left]|first [by left | by right; left | by right; right]].
    + assert (session_hash_free row (_hash (m_raw w)) (remediation_tokens db)) as Hf.
      { intros r Hr Hp He. apply not_true_iff_false in Ex. apply Ex. apply existsb_exists. exists r.
        rewrite <- list_elem_of_In, Hp, He. split; [done|]. by rewrite bool_decide_true. }
      rewrite andb_false_r. unfold update_tokens. destruct (Nat.eqb_spec (count_where (exchangeable row) (remediation_tokens db)) 1) as [E1|E1]; cbn [negb].
      * edestruct audit_event_run as (d1 & -> & H3 & H4). exists d1. left.
        do 4 (split; [done|]). by rewrite H3.
      * edestruct (deny_run (A := session)) as (d & -> & Hd). exists d. right. split; [exists TOKEN_NOT_USABLE; split; [done|by left]|first [by left | by right; left | by right; right]].
Qed.

Lemma step_tsteps o db : tsteps (remediation_tokens db) (remediation_tokens (step o db)).
Proof.
  unfold step, get_db_session. destruct o as [w t c e b h s|w t c|w raw|w row|w raw]; cbn [run_op]; unfold dbind.
  - destruct (fresh_token_dec w (remediation_tokens db)) as [Hf|Hn].
    + destruct (issue_token_fresh w t c e b h s db Hf) as (d & -> & Ht & _). cbn. rewrite Ht.
      apply tsteps_app with (remediation_tokens db ++ [new_token w t c e b h])%list.
      * apply tsteps_one. destruct Hf. by constructor.
      * unfold superseding. destruct (nonempty s); [apply tsteps_one|]; constructor.
    + destruct (issue_token_taken w t c e b h s db Hn) as (x & ->). constructor.
  - destruct (revoke_run w t c db) as (d & -> & Ht & _). cbn. rewrite Ht. apply tsteps_one. constructor.
  - destruct (resolve_token_reads w raw db) as (d & r & -> & Hd). destruct r; cbn; rewrite ?Hd; constructor.
  - destruct (exchange_run w row db) as (d & [(-> & _ & Hc & Hf & Ht)|[(x & -> & _) _]]); [|constructor].
    cbn. rewrite Ht.
    apply tsteps_one. by constructor.
  - destruct (resolve_session_reads w raw db) as (d & r & -> & Hd). destruct r; cbn; rewrite ?Hd; constructor.
Qed.

Lemma steps_tsteps os db : tsteps (remediation_tokens db) (remediation_tokens (steps os db)).
Proof.
  revert db. induction os as [|o os IH]; intros db; cbn; [constructor|].
  eapply tsteps_app; [apply step_tsteps|apply IH].
Qed.

(** ** Well-formed tables *)

Definition token_wf (t : token) : Prop :=
  (t_exchange_count t = 0 \/ t_exchange_count t = 1)
  /\ (is_Some (t_session_token_hash t) <-> is_Some (t_session_expires_at t))
  /\ (is_Some (t_revoked_at t) -> t_session_token_hash t = None)
  /\ (is_Some (t_session_token_hash t) -> t_exchange_count t = 1).

Definition session_unique (ts : list token) : Prop :=
  forall r r' h, r ∈ ts -> r' ∈ ts -> t_session_token_hash r = Some h -> t_session_token_hash r' = Some h -> r = r'.

Definition tokens_wf (ts : list token) : Prop :=
  NoDup (t_id <$> ts) /\ NoDup (t_token_hash <$> ts) /\ session_unique ts /\ Forall token_wf ts.

Lemma exchangeable_id row t :
  exchangeable row t = true -> t_id t = t_id row /\ t_revoked_at t = None /\ t_exchange_count t < 1.
Proof. unfold exchangeable. intros H. reflect_bools. apply bool_decide_eq_true in H1. repeat split; done. Qed.

Lemma session_unique_update ts p f :
  (forall t, p t = true -> t_session_token_hash (f t) = t_session_token_hash t \/ t_session_token_hash (f t) = None) ->
  session_unique ts -> session_unique (update_where p f ts).
Proof.
  intros Hf Hu r r' h (a & Ha & ->)%elem_of_update_where (b & Hb & ->)%elem_of_update_where Hr Hr'.
  assert (Hp : forall t, t_session_token_hash (if p t then f t else t) = Some h -> t_session_token_hash t = Some h).
  { intros t. destruct (p t) eqn:E; [|done]. destruct (Hf t E) as [->| ->]; [done|discriminate]. }
  apply Hp in Hr, Hr'. by rewrite (Hu a b h).
Qed.

Lemma tstep_wf ts ts' : tstep ts ts' -> tokens_wf ts -> tokens_wf ts'.
Proof.
  intros Hs (Hi & Hh & Hu & Hw). destruct Hs as [ts|ts t Hid Hth Hr Hsh Hse Hc|ts p new|ts tid cid now|ts row h e Hc Hf].
  - done.
  - unfold tokens_wf. rewrite !fmap_app. split; [by apply NoDup_snoc|]. split; [by apply NoDup_snoc|]. split.
    + intros r r' h0 [Ha| ->%list_elem_of_singleton]%elem_of_app [Hb| ->%list_elem_of_singleton]%elem_of_app E E'; [|congruence..].
      by apply (Hu r r' h0).
    + apply Forall_app. split; [done|]. apply Forall_singleton. unfold token_wf. rewrite Hr, Hsh, Hse, Hc.
      split; [by left|]. split; [done|]. split; [done|]. by intros [? ?].
  - unfold tokens_wf. rewrite !(update_where_key _ _ _ ts) by done. do 2 (split; [done|]). split.
    + apply session_unique_update; [by left|done].
    + apply Forall_update_where; [done|]. done.
  - unfold tokens_wf. rewrite !(update_where_key _ _ _ ts) by done. do 2 (split; [done|]). split.
    + apply session_unique_update; [by right|done].
    + apply Forall_update_where; [done|]. intros r _ _ (H1 & H2 & H3 & H4). unfold token_wf, revoke; cbn.
      split; [done|]. split; [done|]. split; [done|]. by intros [? ?].
  - unfold tokens_wf. rewrite !(update_where_key _ _ _ ts) by done. do 2 (split; [done|]). split.
    + intros r r' h0 (a & Ha & ->)%elem_of_update_where (b & Hb & ->)%elem_of_update_where Er Er'.
      destruct (exchangeable row a) eqn:Ea, (exchangeable row b) eqn:Eb; cbn in Er, Er'.
      * f_equal. apply (key_unique t_id ts); [done..|]. apply exchangeable_id in Ea, Eb. destruct Ea, Eb. congruence.
      * injection Er as <-. by destruct (Hf b Hb Eb).
      * injection Er' as <-. by destruct (Hf a Ha Ea).
      * by apply (Hu a b h0).
    + apply Forall_update_where; [done|]. intros r _ Hp (H1 & H2 & H3 & H4). apply exchangeable_id in Hp as (_ & Hr & Hcc).
      unfold token_wf, start_session; cbn. rewrite Hr. split; [right; lia|]. split; [split; by eauto|].
      split; [by intros [? ?]|]. intros _. lia.
Qed.

Lemma tsteps_wf ts ts' : tsteps ts ts' -> tokens_wf ts -> tokens_wf ts'.
Proof. induction 1; eauto using tstep_wf. Qed.

(** C31. Whatever operations the requests perform, in any order and with any rows read earlier, the
    table keeps its shape: ids, link hashes and session hashes identify rows, the exchange count is 0
    or 1, a session hash and its expiry come together, only after the exchange, and never on a
    revoked row. *)
Theorem tokens_table_well_formed os db :
  tokens_wf (remediation_tokens db) -> tokens_wf (remediation_tokens (steps os db)).
Proof. apply tsteps_wf, steps_tsteps. Qed.

(** ** Single use *)

(** How many exchanges of token [i] the table still allows. *)
Definition allowance (i : string) (ts : list token) : nat :=
  match List.find (fun t => String.eqb (t_id t) i) ts with
  | Some t => if t_exchange_count t <? MAX_EXCHANGES then 1%nat else 0%nat
  | None => 1%nat
  end.

Lemma allowance_le_1 i ts : (allowance i ts <= 1)%nat.
Proof. unfold allowance. repeat case_match; lia. Qed.

Lemma allowance_row i ts t :
  NoDup (t_id <$> ts) -> t ∈ ts -> t_id t = i ->
  allowance i ts = if t_exchange_count t <? MAX_EXCHANGES then 1%nat else 0%nat.
Proof.
  intros Hd Ht Hi. unfold allowance. rewrite (find_unique t_id _ ts t); [done|done|done|by apply String.eqb_eq|].
  intros r' E. apply String.eqb_eq in E. congruence.
Qed.

Lemma allowance_update i p f ts :
  (forall t, t_id (f t) = t_id t) -> (forall t, t_exchange_count t <= t_exchange_count (f t)) ->
  (allowance i (update_where p f ts) <= allowance i ts)%nat.
Proof.
  intros Hi Hc. unfold allowance. rewrite find_update_where by (intros t _; by destruct (p t); rewrite ?Hi).
  destruct (List.find _ ts) as [t|]; cbn; [|lia]. specialize (Hc t). destruct (p t); [|lia].
  unfold MAX_EXCHANGES. destruct (Z.ltb_spec (t_exchange_count (f t)) 1), (Z.ltb_spec (t_exchange_count t) 1); lia.
Qed.

Lemma tstep_allowance i ts ts' : tstep ts ts' -> (allowance i ts' <= allowance i ts)%nat.
Proof.
  destruct 1 as [ts|ts t Hid Hth Hr Hsh Hse Hc|ts p new|ts tid cid now|ts row h e Hc Hf]; [done| | | |].
  - unfold allowance. assert (Hg : forall q, List.find q (ts ++ [t])%list = match List.find q ts with Some r => Some r | None => if q t then Some t else None end).
    { intros q. clear. induction ts as [|r ts IH]; cbn; [done|]. by destruct (q r). }
    rewrite Hg. destruct (List.find _ ts); [done|]. destruct (String.eqb _ _); [|done]. by rewrite Hc.
  - by apply allowance_update.
  - by apply allowance_update.
  - apply allowance_update; [done|]. cbn. lia.
Qed.

Lemma tsteps_allowance i ts ts' : tsteps ts ts' -> (allowance i ts' <= allowance i ts)%nat.
Proof. induction 1 as [|? ? ? H _ IH]; [done|]. apply tstep_allowance with (i := i) in H. lia. Qed.

(** A successful exchange uses up the allowance. *)
Lemma exchange_spends w row db :
  tokens_wf (remediation_tokens db) -> is_ok (snd (exchange_for_session w row db)) = true ->
  allowance (t_id row) (remediation_tokens db) = 1%nat
  /\ allowance (t_id row) (remediation_tokens (step (OExchange w row) db)) = 0%nat.
Proof.
  intros (Hd & Hwf) Hok. unfold step, get_db_session. cbn [run_op]. unfold dbind.
  destruct (exchange_run w row db) as (d & [(E & _ & Hc & Hf & Ht)|[(x & E & _) _]]); rewrite E in *; [|done].
  cbn. rewrite Ht. clear E Ht Hf Hok.
  assert (0 < count_where (exchangeable row) (remediation_tokens db))%nat as (t & Hin & Hp)%count_where_pos by lia.
  destruct (exchangeable_id _ _ Hp) as (Hi & _ & Hlt). split.
  - rewrite (allowance_row _ _ t) by done. unfold MAX_EXCHANGES. by destruct (Z.ltb_spec (t_exchange_count t) 1); [|lia].
  - rewrite (allowance_row _ _ (start_session (_hash (m_raw w)) (m_now w + session_ttl) t)).
    + cbn. destruct Hwf as (_ & _ & Hw). rewrite Forall_forall in Hw. destruct (Hw t Hin) as ([H0|H1] & _); [|lia].
      by rewrite H0.
    + by rewrite update_where_key.
    + apply elem_of_update_where. exists t. by rewrite Hp.
    + done.
Qed.

(** C30. A link is exchanged at most once: in any sequence of requests at most one exchange of a given
    token succeeds, also when several requests read the row before the first of them spent it (an
    exchange carries whatever row it read). *)
Theorem exchange_single_use i os db :
  tokens_wf (remediation_tokens db) -> (exchanges i os db <= 1)%nat.
Proof.
  intros Hwf. enough (exchanges i os db <= allowance i (remediation_tokens db))%nat
    by (pose proof (allowance_le_1 i (remediation_tokens db)); lia).
  revert db Hwf. induction os as [|o os IH]; intros db Hwf; cbn [exchanges]; [lia|].
  specialize (IH (step o db) (tsteps_wf _ _ (step_tsteps o db) Hwf)).
  pose proof (tsteps_allowance i _ _ (step_tsteps o db)) as Hle.
  destruct o as [| | |w row|]; cbn [exchanges_now]; try lia.
  destruct (String.eqb_spec (t_id row) i) as [<-|]; cbn [andb]; [|lia].
  destruct (is_ok _) eqn:E; [|lia]. apply exchange_spends in E as [H1 H2]; [lia|done].
Qed.

(** ** Revocation *)

Definition revoked_ids (ts : list token) : list string := t_id <$> where_ (fun t => negb (bool_decide (t_revoked_at t = None))) ts.

Lemma elem_of_revoked i ts : i ∈ revoked_ids ts <-> exists t, t ∈ ts /\ t_id t = i /\ is_Some (t_revoked_at t).
Proof.
  unfold revoked_ids. rewrite list_elem_of_fmap. setoid_rewrite elem_of_where.
  split; intros (t & H).
  - destruct H as (-> & Ht & Hr). apply negb_true_iff, bool_decide_eq_false in Hr. exists t.
    split; [done|]. split; [done|]. destruct (t_revoked_at t); [by eauto|done].
  - destruct H as (Ht & <- & [x Hx]). exists t. split; [done|]. split; [done|]. by rewrite Hx.
Qed.

Lemma tstep_revoked i ts ts' : tstep ts ts' -> i ∈ revoked_ids ts -> i ∈ revoked_ids ts'.
Proof.
  intros Hs. rewrite !elem_of_revoked. intros (t & Ht & Hi & Hr).
  assert (Hup : forall p f, (forall x, t_id (f x) = t_id x) -> (forall x, is_Some (t_revoked_at x) -> p x = true -> is_Some (t_revoked_at (f x))) ->
    exists t', t' ∈ update_where p f ts /\ t_id t' = i /\ is_Some (t_revoked_at t')).
  { intros p f Hf1 Hf2. exists (if p t then f t else t). split; [apply elem_of_update_where; by eauto|].
    destruct (p t) eqn:E; [|done]. split; [by rewrite Hf1|by apply Hf2]. }
  destruct Hs as [ts|ts t' Hid Hth Hr' Hsh Hse Hc|ts p new|ts tid cid now|ts row h e Hc Hf]; [by eauto| |by apply Hup|..].
  - exists t. rewrite elem_of_app. eauto.
  - apply Hup; [done|]. by eauto.
  - by apply Hup.
Qed.

Lemma tsteps_revoked i ts ts' : tsteps ts ts' -> i ∈ revoked_ids ts -> i ∈ revoked_ids ts'.
Proof. induction 1; eauto using tstep_revoked. Qed.

Lemma find_token_elem fn raw ts t :
  find_token fn raw ts = Some t -> t ∈ ts /\ lookup_column fn t = Some (_hash raw).
Proof. intros H. apply find_elem in H as [H1 H2]. by apply bool_decide_eq_true in H2. Qed.

Lemma resolve_token_Ok w raw db t :
  snd (resolve_active_token w raw db) = Ok t ->
  find_token get_remediation_token_by_hash raw (remediation_tokens db) = Some t /\ token_ok (m_now w) t = true.
Proof.
  destruct (resolve_token_run w raw db) as (d & Hd & H).
  destruct (find_token _ _ _) as [t'|]; [|by rewrite H]. destruct (token_ok _ t') eqn:E; [|by rewrite H].
  destruct H as [-> _]. by intros [= ->].
Qed.

Lemma resolve_session_Ok w raw db t :
  snd (resolve_active_session w raw db) = Ok t ->
  find_token get_remediation_token_by_session_hash raw (remediation_tokens db) = Some t
  /\ session_ok (m_now w) (m_now_again w) t = true.
Proof.
  destruct (resolve_session_run w raw db) as (d & Hd & H).
  destruct (find_token _ _ _) as [t'|]; [|by rewrite H]. destruct (session_ok _ _ t') eqn:E; [|by rewrite H].
  destruct H as [-> _]. by intros [= ->].
Qed.

Lemma revoked_not_ok ts t now :
  NoDup (t_id <$> ts) -> t ∈ ts -> t_id t ∈ revoked_ids ts -> token_ok now t = false.
Proof.
  intros Hd Ht (t' & Ht' & Hi & [x Hx])%elem_of_revoked. rewrite (key_unique t_id ts t' t) in Hx by done.
  unfold token_ok. by rewrite Hx.
Qed.

(** Revocation is final.  Once the links of a case are revoked, and whatever requests follow, none
    of those tokens resolves again by its link or by a session, and none can be exchanged, also not
    by a request that had read the row before it was revoked. *)
Theorem revocation_is_final w tid cid db os i :
  let db1 := step (ORevoke w tid cid) db in
  let db2 := steps os db1 in
  tokens_wf (remediation_tokens db) -> i ∈ t_id <$> where_ (live_of_case tid cid) (remediation_tokens db) ->
  (forall w' raw t, snd (resolve_active_token w' raw db2) = Ok t -> t_id t <> i)
  /\ (forall w' raw t, snd (resolve_active_session w' raw db2) = Ok t -> t_id t <> i)
  /\ (forall w' row, t_id row = i -> is_ok (snd (exchange_for_session w' row db2)) = false).
Proof.
  intros db1 db2 Hwf Hi.
  assert (Hrev : i ∈ revoked_ids (remediation_tokens db2)).
  { apply (tsteps_revoked i (remediation_tokens db1)); [apply steps_tsteps|].
    unfold db1, step, get_db_session; cbn [run_op]; unfold dbind.
    destruct (revoke_run w tid cid db) as (d & -> & Ht & _). cbn. rewrite Ht.
    apply list_elem_of_fmap in Hi as (t & -> & Hin). apply elem_of_where in Hin as [Hin Hp].
    apply elem_of_revoked. exists (revoke (m_db_now w) t). split; [|by eauto].
    apply elem_of_update_where. exists t. by rewrite Hp. }
  assert (Hwf2 : tokens_wf (remediation_tokens db2)).
  { apply (tsteps_wf (remediation_tokens db1)); [apply steps_tsteps|]. by apply (tsteps_wf _ _ (step_tsteps _ db)). }
  destruct Hwf2 as (Hd & _ & _ & _). split; [|split].
  - intros w' raw t [Hf Hok]%resolve_token_Ok <-. apply find_token_elem in Hf as [Hin _].
    by rewrite (revoked_not_ok (remediation_tokens db2)) in Hok.
  - intros w' raw t [Hf Hok]%resolve_session_Ok <-. apply find_token_elem in Hf as [Hin _].
    unfold session_ok in Hok. by rewrite (revoked_not_ok (remediation_tokens db2)) in Hok.
  - intros w' row <-. destruct (exchange_run w' row db2) as (d & [(-> & _ & Hc & _)|[(x & -> & _) _]]); [|done].
    assert (0 < count_where (exchangeable row) (remediation_tokens db2))%nat as (t & Hin & Hp)%count_where_pos by lia.
    apply exchangeable_id in Hp as (Hti & Hr & _). rewrite <- Hti in Hrev.
    pose proof (revoked_not_ok _ t (t_expires_at t - 1) Hd Hin Hrev) as Hn. unfold token_ok in Hn.
    rewrite Hr in Hn. rewrite bool_decide_true in Hn by done. cbn in Hn. apply Z.ltb_ge in Hn. lia.
Qed.

(** ** Life of a session *)

Definition sessions_until (T : Z) (ts : list token) : Prop :=
  Forall (fun t => forall e, t_session_expires_at t = Some e -> e <= T) ts.

(** The clock reading of an exchange is at most [T]. *)
Definition exchange_before (T : Z) (o : op) : Prop :=
  match o with OExchange w _ => m_now w <= T | _ => True end.

Lemma step_sessions_until T o db :
  exchange_before T o -> sessions_until (T + session_ttl) (remediation_tokens db) ->
  sessions_until (T + session_ttl) (remediation_tokens (step o db)).
Proof.
  intros Ho Hs. unfold step, get_db_session. destruct o as [w t c e b h s|w t c|w raw|w row|w raw]; cbn [run_op]; unfold dbind.
  - destruct (fresh_token_dec w (remediation_tokens db)) as [Hf|Hn].
    + destruct (issue_token_fresh w t c e b h s db Hf) as (d & -> & Ht & _). cbn. rewrite Ht. unfold superseding.
      assert (sessions_until (T + session_ttl) (remediation_tokens db ++ [new_token w t c e b h])%list)
        by (apply Forall_app; split; [done|by apply Forall_singleton]).
      destruct (nonempty s); [|done]. by apply Forall_update_where.
    + by destruct (issue_token_taken w t c e b h s db Hn) as (x & ->).
  - destruct (revoke_run w t c db) as (d & -> & Ht & _). cbn. rewrite Ht. by apply Forall_update_where.
  - destruct (resolve_token_reads w raw db) as (d & r & -> & Hd). destruct r; cbn; by rewrite ?Hd.
  - destruct (exchange_run w row db) as (d & [(-> & _ & _ & _ & Ht)|[(x & -> & _) _]]); [|done].
    cbn. rewrite Ht. apply Forall_update_where; [done|]. intros r _ _ _ e0 [= <-]. cbn in Ho. lia.
  - destruct (resolve_session_reads w raw db) as (d & r & -> & Hd). destruct r; cbn; by rewrite ?Hd.
Qed.

(** C32. No session outlives its thirty minutes: thirty minutes after the last exchange, whatever
    requests came in between, every session token is answered with the one uniform 401. *)
Theorem session_lifetime T os w raw db :
  sessions_until (T + session_ttl) (remediation_tokens db) -> Forall (exchange_before T) os ->
  T + session_ttl <= m_now_again w ->
  snd (resolve_active_session w raw (steps os db)) = Raise SESSION_NOT_VALID.
Proof.
  intros Hs Ho Hw. assert (Hs' : sessions_until (T + session_ttl) (remediation_tokens (steps os db))).
  { clear Hw. revert db Hs. induction Ho as [|o os Ho Hos IH]; intros db Hs; [done|]. cbn. apply IH.
    by apply step_sessions_until. }
  destruct (resolve_session_run w raw (steps os db)) as (d & Hd & H).
  destruct (find_token _ _ _) as [t|] eqn:Ef; [|by rewrite H]. apply find_token_elem in Ef as [Hin _].
  unfold sessions_until in Hs'. rewrite Forall_forall in Hs'. specialize (Hs' t Hin).
  unfold session_ok, session_over in H. destruct (t_session_expires_at t) as [e|].
  - specialize (Hs' e eq_refl). destruct (Z.leb_spec e (m_now_again w)); [|lia].
    rewrite andb_false_r in H. by rewrite H.
  - rewrite andb_false_r in H. by rewrite H.
Qed.

Lemma session_resolves w raw db t e :
  session_unique (remediation_tokens db) -> t ∈ remediation_tokens db -> t_session_token_hash t = Some (_hash raw) ->
  t_revoked_at t = None -> m_now w < t_expires_at t -> t_session_expires_at t = Some e -> m_now_again w < e ->
  snd (resolve_active_session w raw db) = Ok t.
Proof.
  intros Hu Hin Hh Hr Hx He Hlt. destruct (resolve_session_run w raw db) as (d & Hd & H).
  assert (find_token get_remediation_token_by_session_hash raw (remediation_tokens db) = Some t) as Hf.
  { destruct (find_token _ _ _) as [t'|] eqn:Ef.
    - apply find_token_elem in Ef as [Hin' Hh']. by rewrite (Hu t t' (_hash raw)).
    - unfold find_token in Ef. apply List.find_none with (x := t) in Ef; [|by apply list_elem_of_In].
      cbn [lookup_column] in Ef. by rewrite Hh, bool_decide_true in Ef. }
  rewrite Hf in H. unfold session_ok, token_ok, session_over in H. rewrite Hr, He in H. rewrite bool_decide_true in H by done.
  destruct (Z.ltb_spec (m_now w) (t_expires_at t)); [|lia]. destruct (Z.leb_spec e (m_now_again w)); [lia|].
  cbn [andb negb] in H. destruct H as [-> _]. done.
Qed.

(** What a session token resolves to, exactly: the row whose session hash it has, when that row
    is not revoked, its link has not expired and the session has not; every other session token gets
    the uniform 401, and the tenant context is then that row's tenant. *)
Theorem session_resolution_exact w raw db t :
  tokens_wf (remediation_tokens db) ->
  let out := resolve_active_session w raw db in
  (snd out = Ok t <-> t ∈ remediation_tokens db /\ t_session_token_hash t = Some (_hash raw) /\ t_revoked_at t = None
                     /\ m_now w < t_expires_at t /\ exists e, t_session_expires_at t = Some e /\ m_now_again w < e)
  /\ (snd out = Ok t -> tenant_guc (fst out) = Some (t_tenant_id t))
  /\ ((exists t', snd out = Ok t') \/ snd out = Raise SESSION_NOT_VALID).
Proof.
  intros (_ & _ & Hu & _). cbv zeta. destruct (resolve_session_run w raw db) as (d & Hd & H). split; [split|split].
  - intros [Hf Hok]%resolve_session_Ok. apply find_token_elem in Hf as [Hin Hh]. unfold session_ok, token_ok, session_over in Hok.
    apply andb_true_iff in Hok as [[Hr%bool_decide_eq_true Hx%Z.ltb_lt]%andb_true_iff He].
    do 4 (split; [done|]). destruct (t_session_expires_at t) as [e|]; [|done]. exists e. split; [done|].
    destruct (Z.leb_spec e (m_now_again w)); [done|lia].
  - intros (Hin & Hh & Hr & Hx & e & He & Hlt). by apply (session_resolves w raw db t e).
  - intros [Hf Hok]%resolve_session_Ok. rewrite Hf, Hok in H. destruct H as [-> Hg]. done.
  - destruct (find_token _ _ _) as [t'|]; [|rewrite H; by right]. destruct (session_ok _ _ t'); [|rewrite H; by right].
    destruct H as [-> _]. left. by exists t'.
Qed.

(** ** A link from issue to submission *)

(** [POST /exchange]: resolve the link and mint the session, in one request. *)
Definition exchange_request (w wx : mint) (raw : string) : dbm tdb session :=
  get_db_session (t <~ resolve_active_token w raw ;; exchange_for_session wx t).

Lemma find_token_appended raw ts t :
  _hash raw ∉ t_token_hash <$> ts -> t_token_hash t = _hash raw ->
  find_token get_remediation_token_by_hash raw (ts ++ [t])%list = Some t.
Proof.
  unfold find_token. intros Hn Ht. induction ts as [|r ts IH]; cbn.
  - by rewrite Ht, bool_decide_true.
  - apply not_elem_of_cons in Hn as [Hne Hn]. rewrite bool_decide_false by congruence. by apply IH.
Qed.

Lemma exchangeable_self t : t_revoked_at t = None -> t_exchange_count t = 0 -> exchangeable t t = true.
Proof. intros Hr Hc. unfold exchangeable. by rewrite !String.eqb_refl, Hr, Hc, bool_decide_true. Qed.

Lemma exchange_request_eq w wx raw db t :
  find_token get_remediation_token_by_hash raw (remediation_tokens db) = Some t -> token_ok (m_now w) t = true ->
  exists d, remediation_tokens d = remediation_tokens db
    /\ exchange_request w wx raw db = match exchange_for_session wx t d with
         | (d', Ok a) => (d', Ok a) | (_, Raise e) => (db, Raise e) end.
Proof.
  intros Hf Hok. destruct (resolve_token_run w raw db) as (d & Hd & H). rewrite Hf, Hok in H. destruct H as [E _].
  exists d. split; [done|]. unfold exchange_request, get_db_session, dbind. by rewrite E.
Qed.

(** A second exchange of a row already spent is refused with the uniform 400. *)
Lemma exchange_request_spent w wx raw db t :
  find_token get_remediation_token_by_hash raw (remediation_tokens db) = Some t -> MAX_EXCHANGES <= t_exchange_count t ->
  exchange_request w wx raw db = (db, Raise TOKEN_NOT_USABLE).
Proof.
  intros Hf Hc. destruct (token_ok (m_now w) t) eqn:Hok.
  - destruct (exchange_request_eq w wx raw db t Hf Hok) as (d & _ & ->). unfold exchange_for_session.
    destruct (Z.leb_spec MAX_EXCHANGES (t_exchange_count t)); [|lia].
    by edestruct (deny_run (A := session)) as (d' & -> & _).
  - destruct (resolve_token_run w raw db) as (d & Hd & H). rewrite Hf, Hok in H.
    unfold exchange_request, get_db_session, dbind. by rewrite H.
Qed.

(** The row of an issued link. *)
Lemma issued_row w tid cid e b h s db :
  fresh_token w (remediation_tokens db) -> s <> Some (m_id w) ->
  let db1 := fst (issue_token w tid cid e b h s db) in
  find_token get_remediation_token_by_hash (m_raw w) (remediation_tokens db1) = Some (new_token w tid cid e b h)
  /\ tsteps (remediation_tokens db) (remediation_tokens db1).
Proof.
  intros Hf Hs db1. unfold db1. destruct (issue_token_fresh w tid cid e b h s db Hf) as (d & -> & Ht & _). cbn [fst]. rewrite Ht. split.
  - pose proof (find_token_appended (m_raw w) (remediation_tokens db) (new_token w tid cid e b h) (proj2 Hf) eq_refl) as Hfind.
    unfold superseding. destruct (nonempty s) as [old|] eqn:Es; [|done].
    unfold find_token in *. rewrite find_update_where by (intros r _; by destruct (_ && _)). rewrite Hfind. cbn [fmap option_fmap option_map].
    cbn [t_id new_token]. destruct (String.eqb_spec (m_id w) old) as [<-|]; [|done].
    destruct s as [s0|]; cbn in Es; [|done]. destruct (String.eqb s0 ""); congruence.
  - apply tsteps_app with (remediation_tokens db ++ [new_token w tid cid e b h])%list.
    + apply tsteps_one. destruct Hf. by constructor.
    + unfold superseding. destruct (nonempty s); [apply tsteps_one|]; constructor.
Qed.

(** The life of a link: issued before its expiry, its raw token exchanges for a session; the
    session token then resolves to the tenant and the case of the link until thirty minutes later or
    the link's expiry; and every further exchange of the link is refused. *)
Theorem link_lifecycle w wr wx ws tid cid e b h s db :
  tokens_wf (remediation_tokens db) -> fresh_token w (remediation_tokens db) -> s <> Some (m_id w) ->
  (forall r, r ∈ remediation_tokens db -> t_session_token_hash r <> Some (_hash (m_raw wx))) ->
  m_now wr < m_now w + timedelta_hours h -> m_now ws < m_now w + timedelta_hours h ->
  m_now_again ws < m_now wx + session_ttl ->
  let db1 := fst (issue_token w tid cid e b h s db) in
  let db2 := fst (exchange_request wr wx (m_raw w) db1) in
  snd (exchange_request wr wx (m_raw w) db1) = Ok (Session (m_raw wx) (m_now wx + session_ttl))
  /\ (exists t, snd (resolve_active_session ws (m_raw wx) db2) = Ok t /\ t_tenant_id t = tid /\ t_case_id t = cid)
  /\ (forall wr' wx', exchange_request wr' wx' (m_raw w) db2 = (db2, Raise TOKEN_NOT_USABLE)).
Proof.
  intros Hwf Hfr Hs Hfree H1 H2 H3 db1 db2.
  destruct (issued_row w tid cid e b h s db Hfr Hs) as [Hf Hts]. fold db1 in Hf, Hts.
  set (t := new_token w tid cid e b h) in *.
  pose proof (tsteps_wf _ _ Hts Hwf) as Hwf1.
  assert (Hok : token_ok (m_now wr) t = true) by (unfold token_ok; cbn; by apply Z.ltb_lt).
  destruct (exchange_request_eq wr wx (m_raw w) db1 t Hf Hok) as (d & Hd & E).
  pose proof (find_token_elem _ _ _ _ Hf) as [Hin _].
  assert (Hfree1 : session_hash_free t (_hash (m_raw wx)) (remediation_tokens db1)).
  { unfold db1. destruct (issue_token_fresh w tid cid e b h s db Hfr) as (d1 & -> & Ht1 & _). cbn [fst]. rewrite Ht1.
    intros r Hr _. assert (exists r0, (r0 ∈ remediation_tokens db \/ r0 = t) /\ t_session_token_hash r = t_session_token_hash r0) as (r0 & [Hr0| ->] & ->).
    { unfold superseding in Hr. destruct (nonempty s) as [old|].
      - apply elem_of_update_where in Hr as (r0 & Hr0 & ->). rewrite elem_of_app, list_elem_of_singleton in Hr0.
        exists r0. split; [done|]. by destruct (_ && _).
      - rewrite elem_of_app, list_elem_of_singleton in Hr. by exists r. }
    - by apply Hfree.
    - done. }
  destruct (exchange_run wx t d) as (d' & [(Ex & _ & _ & _ & Ht')|[_ [Hc|[Hc|Hc]]]]).
  - rewrite Ex in E. assert (db2 = d') as -> by (unfold db2; by rewrite E). rewrite E. cbn [snd]. split; [done|].
    rewrite Hd in Ht'. set (t2 := start_session (_hash (m_raw wx)) (m_now wx + session_ttl) t).
    assert (Hp : exchangeable t t = true) by by apply exchangeable_self.
    assert (Hin2 : t2 ∈ remediation_tokens d') by (rewrite Ht'; apply elem_of_update_where; exists t; by rewrite Hp).
    split.
    + exists t2. split; [|done]. apply (session_resolves ws (m_raw wx) d' t2 (m_now wx + session_ttl)); try done.
      assert (tokens_wf (remediation_tokens d')) as (_ & _ & Hu & _); [|done].
      rewrite Ht'. refine (tstep_wf _ _ _ Hwf1). constructor; [|done].
      destruct Hwf1 as (Hnd & _). apply (count_where_one t_id _ _ t); try done.
      intros r' Hr'. by apply exchangeable_id in Hr' as [-> _].
    + intros wr' wx'. apply (exchange_request_spent _ _ _ _ t2); [|cbn; unfold MAX_EXCHANGES; lia].
      unfold find_token in *. rewrite Ht', find_update_where by (intros r _; by destruct (exchangeable t r)).
      rewrite Hf. cbn [fmap option_fmap option_map]. by rewrite Hp.
  - cbn in Hc. unfold MAX_EXCHANGES in Hc. lia.
  - destruct Hc. rewrite Hd. destruct Hwf1 as (Hnd & _). apply (count_where_one t_id _ _ t); try done; [by apply exchangeable_self|].
    intros r' Hr'. by apply exchangeable_id in Hr' as [-> _].
  - destruct Hc. by rewrite Hd.
Qed.

(** ** What a refused request leaves behind *)

(** [_deny] records the reason in the audit log and raises; the request that it refuses is rolled
    back ([get_db_session]), and the record with it.  The comment in the code says the real reason
    lands in the audit log. *)
Theorem denial_not_recorded w raw db t :
  find_token get_remediation_token_by_hash raw (remediation_tokens db) = Some t -> is_Some (t_revoked_at t) ->
  m_audit_fails w = false ->
  let entry := AuditEntry (t_tenant_id t) "remediation.token.denied" (t_id t) "revoked" in
  audit_logs (fst (resolve_active_token w raw db)) = (audit_logs db ++ [entry])%list
  /\ get_db_session (resolve_active_token w raw) db = (db, Raise TOKEN_NOT_USABLE).
Proof.
  intros Hf [x Hx] Ha entry.
  assert (E : resolve_active_token w raw db
    = (add_audit entry (set_tenant_guc (t_tenant_id t) (pin_tenant db)), Raise TOKEN_NOT_USABLE)).
  { unfold resolve_active_token, _lookup, dbind. cbn beta iota. rewrite Hf. unfold resolved_token. rewrite Hx.
    rewrite bool_decide_true by done. unfold _deny, dbind, dmodify, audit_event, savepoint. by rewrite Ha. }
  split; [by rewrite E|]. unfold get_db_session. by rewrite E.
Qed.

(** ** Concrete runs *)

Definition minute : Z := 60000000.
Definition demo_mint (raw id : string) (now : Z) : mint := Mint raw id now now now false.
Definition empty_tokens : tdb := TDb [] [] None.
Definition demo_issue : op :=
  OIssue (demo_mint "link" "tok-1" 0) "tenant" "case" (Some "s@x.io") None (HInt 24) None.
(** The row as two requests read it before either of them spent it. *)
Definition demo_row : token := new_token (demo_mint "link" "tok-1" 0) "tenant" "case" (Some "s@x.io") None (HInt 24).
Definition demo_trace : list op :=
  [demo_issue; OPreview (demo_mint "" "" minute) "link";
   OExchange (demo_mint "session-1" "" minute) demo_row; OExchange (demo_mint "session-2" "" minute) demo_row;
   OSession (demo_mint "" "" (2 * minute)) "session-1"; ORevoke (demo_mint "" "" (3 * minute)) "tenant" "case"].

Lemma empty_tokens_wf : tokens_wf (remediation_tokens empty_tokens).
Proof.
  split; [constructor|]. split; [constructor|]. split; [|constructor]. by intros ? ? ? ?%not_elem_of_nil.
Qed.

Lemma tokens_table_well_formed_witness : tokens_wf (remediation_tokens (steps demo_trace empty_tokens)).
Proof. apply (tokens_table_well_formed demo_trace empty_tokens). exact empty_tokens_wf. Defined.

Lemma exchange_single_use_witness :
  exchanges "tok-1" demo_trace empty_tokens = 1%nat /\ (exchanges "tok-1" demo_trace empty_tokens <= 1)%nat.
Proof.
  split; [vm_compute; reflexivity|]. apply (exchange_single_use "tok-1" demo_trace empty_tokens). exact empty_tokens_wf.
Defined.

Lemma revocation_is_final_witness :
  let db := steps [demo_issue] empty_tokens in
  let db2 := steps [demo_issue] (step (ORevoke (demo_mint "" "" minute) "tenant" "case") db) in
  is_ok (snd (exchange_for_session (demo_mint "session-1" "" (2 * minute)) demo_row db2)) = false.
Proof.
  intros db db2. refine (proj2 (proj2 (revocation_is_final (demo_mint "" "" minute) "tenant" "case" db [demo_issue] "tok-1" _ _)) _ _ _).
  - apply (tsteps_wf _ _ (steps_tsteps [demo_issue] empty_tokens)). exact empty_tokens_wf.
  - vm_compute. constructor.
  - reflexivity.
Defined.

Lemma session_lifetime_witness :
  snd (resolve_active_session (demo_mint "" "" (31 * minute)) "session-1" (steps (take 5 demo_trace) empty_tokens))
    = Raise SESSION_NOT_VALID
  /\ is_ok (snd (resolve_active_session (demo_mint "" "" (30 * minute)) "session-1" (steps (take 5 demo_trace) empty_tokens))) = true.
Proof.
  split; [|vm_compute; reflexivity].
  apply (session_lifetime minute (take 5 demo_trace) (demo_mint "" "" (31 * minute)) "session-1" empty_tokens).
  - constructor.
  - repeat constructor; discriminate.
  - discriminate.
Defined.

Lemma session_resolution_exact_witness :
  let db := steps (take 4 demo_trace) empty_tokens in
  (exists t', snd (resolve_active_session (demo_mint "" "" (2 * minute)) "session-1" db) = Ok t')
  \/ snd (resolve_active_session (demo_mint "" "" (2 * minute)) "session-1" db) = Raise SESSION_NOT_VALID.
Proof.
  intros db. refine (proj2 (proj2 (session_resolution_exact (demo_mint "" "" (2 * minute)) "session-1" db demo_row _))).
  apply (tsteps_wf _ _ (steps_tsteps (take 4 demo_trace) empty_tokens)). exact empty_tokens_wf.
Defined.

Lemma link_lifecycle_witness :
  let w := demo_mint "link" "tok-1" 0 in
  let db1 := fst (issue_token w "tenant" "case" (Some "s@x.io") None (HInt 24) None empty_tokens) in
  let db2 := fst (exchange_request (demo_mint "" "" minute) (demo_mint "session-1" "" minute) "link" db1) in
  exists t, snd (resolve_active_session (demo_mint "" "" (2 * minute)) "session-1" db2) = Ok t
            /\ t_tenant_id t = "tenant" /\ t_case_id t = "case".
Proof.
  intros w db1 db2.
  refine (proj1 (proj2 (link_lifecycle w (demo_mint "" "" minute) (demo_mint "session-1" "" minute)
    (demo_mint "" "" (2 * minute)) "tenant" "case" (Some "s@x.io") None (HInt 24) None empty_tokens _ _ _ _ _ _ _))).
  - exact empty_tokens_wf.
  - split; apply not_elem_of_nil.
  - discriminate.
  - by intros r ?%not_elem_of_nil.
  - reflexivity.
  - reflexivity.
  - reflexivity.
Defined.

Lemma denial_not_recorded_witness :
  let db := steps [demo_issue; ORevoke (demo_mint "" "" minute) "tenant" "case"] empty_tokens in
  get_db_session (resolve_active_token (demo_mint "" "" minute) "link") db = (db, Raise TOKEN_NOT_USABLE).
Proof.
  intros db. refine (proj2 (denial_not_recorded (demo_mint "" "" minute) "link" db (revoke minute demo_row) _ _ _)).
  - vm_compute. reflexivity.
  - by exists minute.
  - reflexivity.
Defined.

(** [timedelta(hours=...)] of a remaining time: exact at whole hours, rounded to microseconds below. *)
Lemma timedelta_hours_examples :
  timedelta_hours (HFloat (fdiv (total_seconds (7 * usec_per_hour)) (f_of_Z 3600))) = 7 * usec_per_hour
  /\ timedelta_hours (HFloat (fdiv (total_seconds 86399123457) (f_of_Z 3600))) = 86399123457.
Proof. split; vm_compute; reflexivity. Qed.
