(* ===== verification/Delivery.v ===== *)
(** * Delivery of remediation notifications

    [services/ingestion/app/remediation/delivery.py] with the enqueue side, [remediation/outbox.py],
    and [shared/agent_org/suppression.py]; tokens are those of [Tokens].  A drain is the sequence of
    transactions the code commits; the clock readings, secrets, the provider's answer and a database
    error during the re-mint are the fields of [turn].  Every call of the provider is kept in
    [provider_calls].  Proved: a claim is exclusive while it is fresh; every entry ends after at most
    [MAX_ATTEMPTS] turns; a suppressed address is never written to; and the link that was sent is the
    only live link of its case. *)

From Stdlib Require Import ZArith Lia String Ascii.
From Corelib Require Import SpecFloat.
From stdpp Require Import base list strings.
From S2P Require Import Prelude PyStr Db PyFloat PyVal Sha256 Relational Tokens.

Local Open Scope string_scope.
Local Open Scope Z_scope.
Local Open Scope dbm_scope.

Definition MAX_ATTEMPTS : Z := 8.
Definition _BACKOFF : list Z := [30; 120; 600; 1800; 3600; 14400; 43200; 86400].
Definition STALE_CLAIM_MINUTES : Z := 15.
Definition CORRECTION_URL_BASE : string := "https://regengine.co/api/v1/remediation/supplier/form".

Definition correction_url (raw_token : string) : string := CORRECTION_URL_BASE +:+ "#" +:+ raw_token.

(** ** Rendering *)

(** [html.escape(s, quote=True)]: its five replacements in one pass, [&] being first. *)
Definition escape_char (c : ascii) : string :=
  if Ascii.eqb c "&" then "&amp;"
  else if Ascii.eqb c "<" then "&lt;"
  else if Ascii.eqb c ">" then "&gt;"
  else if Ascii.eqb c (char 34) then "&quot;"
  else if Ascii.eqb c "'" then "&#x27;"
  else String c "".
Definition html_escape (s : string) : string := str_flat_map escape_char s.

Definition _render_html (body : string) (link : option string) : string :=
  let safe_body := html_escape body in
  let parts :=
    ["<div style='font-family: Arial, sans-serif; max-width: 600px; margin: 0 auto;'>";
     "<p style='color: #374151; line-height: 1.6;'>" +:+ safe_body +:+ "</p>"] in
  let parts :=
    match nonempty link with
    | Some l =>
        let safe_link := html_escape l in
        (parts ++
        ["<p style='margin: 24px 0;'>" +:+ "<a href='" +:+ safe_link +:+ "' " +:+
         "style='background: #10b981; color: #ffffff; text-decoration: none; " +:+
         "padding: 12px 20px; border-radius: 8px; display: inline-block; font-weight: 600;'>" +:+
         "Open secure correction link" +:+ "</a>" +:+ "</p>" +:+
         "<p style='color: #6b7280; font-size: 13px;'>" +:+
         "If the button does not work, copy and paste this URL into your browser:<br/>" +:+
         safe_link +:+ "</p>"])%list
    | None => parts
    end in
  str_join "" (parts ++ ["</div>"])%list.

(** The provider is asked with recipient, subject and HTML; [None] is a send that was only logged. *)
Definition email_sender : Type := string -> string -> string -> res (option string).

(** [default_email_sender], given the key, [is_production()] and the Resend client. *)
Definition default_email_sender (resend_api_key : option string) (production : bool) (resend : email_sender)
  : email_sender := fun recipient subject html =>
  match nonempty resend_api_key with
  | None => if production then Raise (Exn "RuntimeError" "RESEND_API_KEY not configured") else Ok None
  | Some _ => resend recipient subject html
  end.

(** ** State *)

(** A row of [fsma.notification_outbox]. *)
Record outbox_row := OutboxRow {
  ob_id : string;
  ob_tenant_id : string;
  ob_case_id : option string;
  ob_recipient : option string;
  ob_subject : string;
  ob_body : string;
  ob_payload : pydict;
  ob_status : string;
  ob_attempts : Z;
  ob_next_attempt_at : Z;
  ob_claimed_at : option Z;
  ob_created_at : Z;
  ob_sent_at : option Z;
  ob_provider_message_id : option string;
  ob_last_error : option string
}.

Record provider_call := ProviderCall {
  pc_recipient : string; pc_subject : string; pc_html : string; pc_accepted : bool
}.

Record ddb := DDb {
  d_tokens : tdb;
  notification_outbox : list outbox_row;
  (** tenant and normalised address *)
  email_suppressions : list (string * string);
  provider_calls : list provider_call
}.

Definition with_tokens (t : tdb) (d : ddb) : ddb := DDb t (notification_outbox d) (email_suppressions d) (provider_calls d).
Definition with_outbox (o : list outbox_row) (d : ddb) : ddb := DDb (d_tokens d) o (email_suppressions d) (provider_calls d).
Definition add_call (c : provider_call) (d : ddb) : ddb :=
  DDb (d_tokens d) (notification_outbox d) (email_suppressions d) (provider_calls d ++ [c])%list.

Definition lift {A} (c : dbm tdb A) : dbm ddb A := fun d =>
  let '(t, r) := c (d_tokens d) in (with_tokens t d, r).

(** What one turn draws from outside. *)
Record turn := Turn {
  tn_skip_now : Z;              (* _token_skip_reason *)
  tn_remint_now : Z;            (* _remint_link *)
  tn_revoke : mint;
  tn_issue : mint;
  tn_remint_fault : option exn; (* the database refuses a statement of the re-mint *)
  tn_send : res (option string);
  tn_end_now : Z;               (* now() of the closing transaction *)
  tn_audit_fails : bool
}.

(** ** Enqueue *)

Definition enqueue_preview (id : string) (now : Z) (tenant_id : string) (case_id recipient : option string)
    (subject body : string) (payload : pydict) : dbm ddb string := fun d =>
  let row := OutboxRow id tenant_id case_id recipient subject body payload
               (match nonempty recipient with Some _ => "queued" | None => "pending" end)
               0 now None now None None None in
  if existsb (fun r => String.eqb (ob_id r) id) (notification_outbox d)
  then (d, Raise (IntegrityError "notification_outbox_pkey"))
  else (with_outbox (notification_outbox d ++ [row])%list d, Ok id).

(** ** Suppression *)

Definition _normalize_email (email_address : string) : string := lower (strip email_address).

Definition is_suppressed (d : ddb) (tenant_id email_address : string) : bool :=
  let normalized := _normalize_email email_address in
  if String.eqb normalized "" then false
  else existsb (fun s => String.eqb (fst s) tenant_id && String.eqb (snd s) normalized) (email_suppressions d).

(** ** Selecting and claiming *)

Definition stale : Z := STALE_CLAIM_MINUTES * 60000000.

Definition due (now : Z) (r : outbox_row) : bool :=
  (String.eqb (ob_status r) "queued" && (ob_next_attempt_at r <=? now))
  || (String.eqb (ob_status r) "sending"
      && match ob_claimed_at r with Some c => c <=? now - stale | None => false end).

Definition _due_rows (now : Z) (tenant_id : string) (batch_size : nat) (d : ddb) : list outbox_row :=
  take batch_size
    (order_by (fun a b => ob_created_at a <=? ob_created_at b)
      (where_ (fun r => String.eqb (ob_tenant_id r) tenant_id && due now r) (notification_outbox d))).

Definition is_row (tenant_id id : string) (r : outbox_row) : bool :=
  String.eqb (ob_id r) id && String.eqb (ob_tenant_id r) tenant_id.

Definition set_status (status : string) (claimed : option Z) (r : outbox_row) : outbox_row :=
  OutboxRow (ob_id r) (ob_tenant_id r) (ob_case_id r) (ob_recipient r) (ob_subject r) (ob_body r) (ob_payload r)
    status (ob_attempts r) (ob_next_attempt_at r) claimed (ob_created_at r) (ob_sent_at r)
    (ob_provider_message_id r) (ob_last_error r).

Definition update_outbox (p : outbox_row -> bool) (f : outbox_row -> outbox_row) : dbm ddb nat := fun d =>
  (with_outbox (update_where p f (notification_outbox d)) d, Ok (count_where p (notification_outbox d))).

Definition _claim (now : Z) (tenant_id outbox_id : string) : dbm ddb bool :=
  rowcount <~ update_outbox (fun r => is_row tenant_id outbox_id r && due now r) (set_status "sending" (Some now)) ;;
  dret (rowcount =? 1)%nat.

(** ** Tokens at send time *)

(** [(row["payload"] or {}).get("token_id")] and its truth. *)
Definition payload_token_id (r : outbox_row) : option pyval :=
  let v := dict_get (ob_payload r) "token_id" PNone in if truthy v then Some v else None.

Section Drainer.
Context `{Runtime}.

Definition _load_token (tenant_id : string) (token_id : pyval) (d : ddb) : res (option token) :=
  do s <- bind_text token_id;
  do u <- cast_uuid s;
  Ok (List.find (fun t => String.eqb (t_id t) u && String.eqb (t_tenant_id t) tenant_id)
        (remediation_tokens (d_tokens d))).

Definition _token_skip_reason (now : Z) (token_row : option token) : option string :=
  match token_row with
  | None => Some "token_missing"
  | Some t =>
      match nonempty (t_superseded_by t) with
      | Some _ => Some "token_superseded"
      | None =>
          if bool_decide (t_revoked_at t <> None) then Some "token_revoked"
          else if t_expires_at t <=? now then Some "token_expired"
          else if MAX_EXCHANGES <=? t_exchange_count t then Some "token_already_exchanged"
          else None
      end
  end.

Definition repoint (token_id : string) (r : outbox_row) : outbox_row :=
  OutboxRow (ob_id r) (ob_tenant_id r) (ob_case_id r) (ob_recipient r) (ob_subject r) (ob_body r)
    (dict_set "token_id" (PStr token_id) (ob_payload r))
    (ob_status r) (ob_attempts r) (ob_next_attempt_at r) (ob_claimed_at r) (ob_created_at r) (ob_sent_at r)
    (ob_provider_message_id r) (ob_last_error r).

Definition remaining_hours (now : Z) (t : token) : f64 := fdiv (total_seconds (t_expires_at t - now)) (f_of_Z 3600).

Definition remint_steps (w : turn) (tenant_id : string) (row : outbox_row) (token_row : token) : dbm ddb string :=
  _ <~ lift (revoke_tokens_for_case (tn_revoke w) tenant_id (t_case_id token_row)) ;;
  minted <~ lift (issue_token (tn_issue w) tenant_id (t_case_id token_row) (ob_recipient row)
                    (Some "remediation-delivery") (HFloat (remaining_hours (tn_remint_now w) token_row))
                    (Some (t_id token_row))) ;;
  _ <~ update_outbox (is_row tenant_id (ob_id row)) (repoint (is_token_id minted)) ;;
  dret (correction_url (is_token minted)).

(** [_remint_link] is one transaction: it commits whole, or is rolled back by the caller. *)
Definition _remint_link (w : turn) (tenant_id : string) (row : outbox_row) (token_row : token) : dbm ddb string :=
  get_db_session (match tn_remint_fault w with
                  | Some e => draise e
                  | None => remint_steps w tenant_id row token_row
                  end).

(** ** Outcomes *)

Definition finish (status : string) (error : option string) (r : outbox_row) : outbox_row :=
  OutboxRow (ob_id r) (ob_tenant_id r) (ob_case_id r) (ob_recipient r) (ob_subject r) (ob_body r) (ob_payload r)
    status (ob_attempts r) (ob_next_attempt_at r) (ob_claimed_at r) (ob_created_at r) (ob_sent_at r)
    (ob_provider_message_id r) error.
Definition receipt (now : Z) (provider_id : option string) (r : outbox_row) : outbox_row :=
  OutboxRow (ob_id r) (ob_tenant_id r) (ob_case_id r) (ob_recipient r) (ob_subject r) (ob_body r) (ob_payload r)
    (ob_status r) (ob_attempts r) (ob_next_attempt_at r) (ob_claimed_at r) (ob_created_at r) (Some now)
    provider_id (ob_last_error r).
Definition reschedule (attempts next : Z) (r : outbox_row) : outbox_row :=
  OutboxRow (ob_id r) (ob_tenant_id r) (ob_case_id r) (ob_recipient r) (ob_subject r) (ob_body r) (ob_payload r)
    (ob_status r) attempts next (ob_claimed_at r) (ob_created_at r) (ob_sent_at r)
    (ob_provider_message_id r) (ob_last_error r).

Definition _finish_sent (w : turn) (tenant_id : string) (row : outbox_row) (provider_id : option string) : dbm ddb string :=
  _ <~ update_outbox (is_row tenant_id (ob_id row))
         (fun r => receipt (tn_end_now w) provider_id (finish "sent" None r)) ;;
  lift (audit_event (Mint "" "" 0 0 0 (tn_audit_fails w)) tenant_id "remediation.notification.sent" (ob_id row)
          (ostr_or (ob_case_id row) "")) ;;;
  dret "sent".

Definition _finish_skipped (tenant_id : string) (row : outbox_row) (reason : string) : dbm ddb string :=
  _ <~ update_outbox (is_row tenant_id (ob_id row)) (finish "skipped" (Some reason)) ;;
  dret "skipped".

(** [_BACKOFF[min(attempts - 1, len(_BACKOFF) - 1)]] in microseconds. *)
Definition backoff (attempts : Z) : Z :=
  nth (Z.to_nat (Z.min (attempts - 1) (Z.of_nat (length _BACKOFF) - 1))) _BACKOFF 0 * 1000000.

Definition _on_send_failure (w : turn) (tenant_id : string) (row : outbox_row) (reason : string) : dbm ddb string :=
  let attempts := ob_attempts row + 1 in
  if MAX_ATTEMPTS <=? attempts then
    _ <~ update_outbox (is_row tenant_id (ob_id row))
           (fun r => reschedule attempts (ob_next_attempt_at r) (finish "failed" (Some (str_take 4000 reason)) r)) ;;
    dret "failed"
  else
    _ <~ update_outbox (is_row tenant_id (ob_id row))
           (fun r => reschedule attempts (tn_end_now w + backoff attempts)
                       (finish "queued" (Some (str_take 4000 reason)) r)) ;;
    dret "rescheduled".

(** [self._send(...)], recorded. *)
Definition provider_send (w : turn) (recipient : string) (row : outbox_row) (link : option string)
  : dbm ddb (res (option string)) := fun d =>
  (add_call (ProviderCall recipient (ob_subject row) (_render_html (ob_body row) link) (is_ok (tn_send w))) d,
   Ok (tn_send w)).

Definition send_and_finish (w : turn) (tenant_id : string) (row : outbox_row) (recipient : string) (link : option string)
  : dbm ddb string :=
  answer <~ provider_send w recipient row link ;;
  match answer with
  | Raise e => _on_send_failure w tenant_id row (exn_msg e)
  | Ok provider_id => _finish_sent w tenant_id row provider_id
  end.

(** [try: link = self._remint_link(...) except Exception]. *)
Definition try_remint (w : turn) (tenant_id : string) (row : outbox_row) (t : token) : dbm ddb (res string) := fun d =>
  let '(d', r) := _remint_link w tenant_id row t d in (d', Ok r).

Definition _drain_one (w : turn) (tenant_id : string) (row : outbox_row) : dbm ddb string :=
  match nonempty (ob_recipient row) with
  | None => _finish_skipped tenant_id row "no_recipient"
  | Some recipient =>
      suppressed <~ dget (fun d => is_suppressed d tenant_id recipient) ;;
      if (suppressed : bool) then _finish_skipped tenant_id row "recipient_suppressed"
      else
        match payload_token_id row with
        | None => send_and_finish w tenant_id row recipient None
        | Some token_id =>
            loaded <~ dget (_load_token tenant_id token_id) ;;
            match loaded with
            | Raise e => draise e
            | Ok token_row =>
                match _token_skip_reason (tn_skip_now w) token_row, token_row with
                | Some reason, _ => _finish_skipped tenant_id row reason
                | None, None => dret ""   (* not reached: a missing token is a reason *)
                | None, Some t =>
                    reminted <~ try_remint w tenant_id row t ;;
                    match reminted with
                    | Raise e => _on_send_failure w tenant_id row ("remint failed: " +:+ exn_msg e)
                    | Ok link => send_and_finish w tenant_id row recipient (Some link)
                    end
                end
            end
        end
  end.

(** ** Draining a tenant, and all tenants *)

Record summary := Summary { sm_claimed : nat; sm_sent : nat; sm_skipped : nat; sm_failed : nat; sm_rescheduled : nat }.
Definition summary0 : summary := Summary 0 0 0 0 0.

Definition bump (outcome : string) (s : summary) : summary :=
  if String.eqb outcome "sent" then Summary (sm_claimed s) (S (sm_sent s)) (sm_skipped s) (sm_failed s) (sm_rescheduled s)
  else if String.eqb outcome "skipped" then Summary (sm_claimed s) (sm_sent s) (S (sm_skipped s)) (sm_failed s) (sm_rescheduled s)
  else if String.eqb outcome "failed" then Summary (sm_claimed s) (sm_sent s) (sm_skipped s) (S (sm_failed s)) (sm_rescheduled s)
  else Summary (sm_claimed s) (sm_sent s) (sm_skipped s) (sm_failed s) (S (sm_rescheduled s)).
Definition bump_claimed (s : summary) : summary :=
  Summary (S (sm_claimed s)) (sm_sent s) (sm_skipped s) (sm_failed s) (sm_rescheduled s).

(** The loop over the rows selected before it started; the k-th row is claimed at [claim_at k] and
    drained by the turn [turns k]. *)
Fixpoint drain_rows (claim_at : nat -> Z) (turns : nat -> turn) (k : nat) (tenant_id : string)
    (rows : list outbox_row) (s : summary) : dbm ddb summary :=
  match rows with
  | [] => dret s
  | row :: rows' =>
      won <~ _claim (claim_at k) tenant_id (ob_id row) ;;
      if (won : bool) then
        outcome <~ _drain_one (turns k) tenant_id row ;;
        drain_rows claim_at turns (S k) tenant_id rows' (bump outcome (bump_claimed s))
      else drain_rows claim_at turns (S k) tenant_id rows' s
  end.

Definition drain_tenant_once (now : Z) (claim_at : nat -> Z) (turns : nat -> turn) (tenant_id : string)
    (batch_size : nat) : dbm ddb summary :=
  rows <~ dget (_due_rows now tenant_id batch_size) ;;
  drain_rows claim_at turns 0 tenant_id rows summary0.

Definition add_summary (a b : summary) : summary :=
  Summary (sm_claimed a + sm_claimed b) (sm_sent a + sm_sent b) (sm_skipped a + sm_skipped b)
    (sm_failed a + sm_failed b) (sm_rescheduled a + sm_rescheduled b).

(** [drain_all_tenants]: what a tenant committed before it raised stays, its summary is lost. *)
Fixpoint drain_all_tenants (now : string -> Z) (claim_at : string -> nat -> Z) (turns : string -> nat -> turn)
    (tenant_ids : list string) (batch_size : nat) (totals : summary) : dbm ddb summary := fun d =>
  match tenant_ids with
  | [] => (d, Ok totals)
  | tid :: tids =>
      let '(d', r) := drain_tenant_once (now tid) (claim_at tid) (turns tid) tid batch_size d in
      match r with
      | Ok s => drain_all_tenants now claim_at turns tids batch_size (add_summary totals s) d'
      | Raise _ => drain_all_tenants now claim_at turns tids batch_size totals d'
      end
  end.
End Drainer.

(** ** Interleavings *)

(** The transactions of drainers, of the buyers' requests and of the suppliers', in any order.  A drain
    carries the row as the drainer read it before it claimed it. *)
Inductive dop :=
| DClaim (now : Z) (tenant_id outbox_id : string)
| DDrain (w : turn) (tenant_id : string) (row : outbox_row)
| DEnqueue (id : string) (now : Z) (tenant_id : string) (case_id recipient : option string) (subject body : string)
    (payload : pydict)
| DToken (o : op).

Section Facts.
Context `{Runtime}.

Definition dstep (o : dop) (d : ddb) : ddb :=
  match o with
  | DClaim now t i => fst (_claim now t i d)
  | DDrain w t row => fst (_drain_one w t row d)
  | DEnqueue i now t c r s b p => fst (enqueue_preview i now t c r s b p d)
  | DToken o => with_tokens (step o (d_tokens d)) d
  end.
Fixpoint dsteps (os : list dop) (d : ddb) : ddb :=
  match os with [] => d | o :: os' => dsteps os' (dstep o d) end.

(** *** What a turn does to the outbox *)

Definition keeps_key (g : outbox_row -> outbox_row) : Prop := forall r, ob_id (g r) = ob_id r /\ ob_tenant_id (g r) = ob_tenant_id r.

(** [d'] is [d] with row [i] of tenant [t] changed by a function in [Q], and rows of other keys kept. *)
Definition touches (t i : string) (Q : (outbox_row -> outbox_row) -> Prop) (d d' : ddb) : Prop :=
  exists g, Q g /\ keeps_key g /\ notification_outbox d' = update_where (is_row t i) g (notification_outbox d).

Lemma is_row_keeps t i g r : keeps_key g -> is_row t i (g r) = is_row t i r.
Proof. intros Hg. unfold is_row. destruct (Hg r) as [-> ->]. done. Qed.

Lemma touches_comp t i (Q1 Q2 Q : (outbox_row -> outbox_row) -> Prop) d d1 d2 :
  touches t i Q1 d d1 -> touches t i Q2 d1 d2 -> (forall g h, Q1 g -> Q2 h -> Q (fun r => h (g r))) -> touches t i Q d d2.
Proof.
  intros (g & Hq & Hg & E) (h & Hq' & Hh & E') HQ. exists (fun r => h (g r)). split; [by apply HQ|]. split.
  - intros r. destruct (Hg r) as [<- <-]. apply Hh.
  - rewrite E', E. apply update_where_comp. intros r Hr. by rewrite is_row_keeps.
Qed.

Lemma touches_id t i (Q : (outbox_row -> outbox_row) -> Prop) d d' :
  notification_outbox d' = notification_outbox d -> Q (fun r => r) -> touches t i Q d d'.
Proof.
  intros E HQ. exists (fun r => r). split; [done|]. split; [done|]. rewrite E. unfold update_where.
  rewrite <- (map_id (notification_outbox d)) at 1. apply map_ext. intros r. by destruct (is_row t i r).
Qed.

(** The row a turn leaves, by its outcome; [row] is the drainer's snapshot. *)
Definition outcome_row (w : turn) (row : outbox_row) (o : string) (g : outbox_row -> outbox_row) : Prop :=
  (forall r, ob_payload (g r) = ob_payload r \/ ob_payload (g r) = dict_set "token_id" (PStr (m_id (tn_issue w))) (ob_payload r))
  /\ ((o = "sent" /\ forall r, ob_status (g r) = "sent" /\ ob_attempts (g r) = ob_attempts r)
      \/ (o = "skipped" /\ forall r, ob_status (g r) = "skipped" /\ ob_attempts (g r) = ob_attempts r)
      \/ (o = "failed" /\ MAX_ATTEMPTS <= ob_attempts row + 1
          /\ forall r, ob_status (g r) = "failed" /\ ob_attempts (g r) = ob_attempts row + 1)
      \/ (o = "rescheduled" /\ ob_attempts row + 1 < MAX_ATTEMPTS
          /\ forall r, ob_status (g r) = "queued" /\ ob_attempts (g r) = ob_attempts row + 1
                       /\ ob_next_attempt_at (g r) = tn_end_now w + backoff (ob_attempts row + 1))).

Definition same_payload (g : outbox_row -> outbox_row) : Prop := forall r, ob_payload (g r) = ob_payload r.

Lemma skipped_run t row reason w d :
  exists d', _finish_skipped t row reason d = (d', Ok "skipped")
    /\ touches t (ob_id row) (fun g => same_payload g /\ outcome_row w row "skipped" g) d d'
    /\ d_tokens d' = d_tokens d /\ provider_calls d' = provider_calls d.
Proof.
  eexists. split; [done|]. split; [|done]. exists (finish "skipped" (Some reason)).
  split; [|done]. split; [done|]. split; [by left|]. right; left. done.
Qed.

Lemma failure_run w t row reason d :
  exists d' o, _on_send_failure w t row reason d = (d', Ok o) /\ (o = "failed" \/ o = "rescheduled")
    /\ touches t (ob_id row) (fun g => same_payload g /\ outcome_row w row o g) d d'
    /\ d_tokens d' = d_tokens d /\ provider_calls d' = provider_calls d.
Proof.
  unfold _on_send_failure. cbv zeta. destruct (Z.leb_spec MAX_ATTEMPTS (ob_attempts row + 1)) as [Ha|Ha].
  - eexists _, "failed". split; [done|]. split; [by left|]. split; [|done].
    eexists. split; [|split; [|done]]; [|done]. split; [done|]. split; [by left|]. right; right; left. done.
  - eexists _, "rescheduled". split; [done|]. split; [by right|]. split; [|done].
    eexists. split; [|split; [|done]]; [|done]. split; [done|]. split; [by left|]. right; right; right. done.
Qed.

Lemma sent_run w t row pid d :
  exists d', _finish_sent w t row pid d = (d', Ok "sent")
    /\ touches t (ob_id row) (fun g => same_payload g /\ outcome_row w row "sent" g) d d'
    /\ remediation_tokens (d_tokens d') = remediation_tokens (d_tokens d) /\ provider_calls d' = provider_calls d.
Proof.
  unfold _finish_sent, dbind, update_outbox, lift, dret.
  destruct (audit_event_run (Mint "" "" 0 0 0 (tn_audit_fails w)) t "remediation.notification.sent" (ob_id row)
              (ostr_or (ob_case_id row) "") (d_tokens d)) as (a & E & Ha & _).
  cbn [d_tokens with_outbox]. rewrite E. eexists. split; [done|]. split; [|done].
  eexists. split; [|split; [|done]]; [|done]. split; [done|]. split; [by left|]. by left.
Qed.

Lemma send_run w t row rcpt link d :
  exists d' o, send_and_finish w t row rcpt link d = (d', Ok o)
    /\ o = (if is_ok (tn_send w) then "sent" else if MAX_ATTEMPTS <=? ob_attempts row + 1 then "failed" else "rescheduled")
    /\ touches t (ob_id row) (fun g => same_payload g /\ outcome_row w row o g) d d'
    /\ remediation_tokens (d_tokens d') = remediation_tokens (d_tokens d)
    /\ provider_calls d' = (provider_calls d ++
         [ProviderCall rcpt (ob_subject row) (_render_html (ob_body row) link) (is_ok (tn_send w))])%list.
Proof.
  unfold send_and_finish, dbind, provider_send. set (c := ProviderCall _ _ _ _).
  destruct (tn_send w) as [pid|e]; cbn [is_ok].
  - destruct (sent_run w t row pid (add_call c d)) as (d' & -> & Ht & Htk & Hc). exists d', "sent". by rewrite Htk, Hc.
  - destruct (failure_run w t row (exn_msg e) (add_call c d)) as (d' & o & E & _ & Ht & Htk & Hc). rewrite E.
    exists d', o. rewrite Htk, Hc. split; [done|]. split; [|done].
    unfold _on_send_failure in E. cbv zeta in E. destruct (MAX_ATTEMPTS <=? _); injection E; congruence.
Qed.

(** *** The re-mint *)

(** The tokens after a re-mint: every live token of the case revoked, the minted row appended, the
    old row marked as superseded. *)
Definition reminted_tokens (w : turn) (t : string) (row : outbox_row) (t0 : token) (ts : list token) : list token :=
  superseding (tn_issue w) t (Some (t_id t0))
    (update_where (live_of_case t (t_case_id t0)) (revoke (m_db_now (tn_revoke w))) ts ++
     [new_token (tn_issue w) t (t_case_id t0) (ob_recipient row) (Some "remediation-delivery")
        (HFloat (remaining_hours (tn_remint_now w) t0))])%list.

Lemma fresh_after_revoke w t c ts now :
  fresh_token w ts -> fresh_token w (update_where (live_of_case t c) (revoke now) ts).
Proof. unfold fresh_token. by rewrite !update_where_key. Qed.

Lemma reminted_tsteps w t row t0 ts : fresh_token (tn_issue w) ts -> tsteps ts (reminted_tokens w t row t0 ts).
Proof.
  intros Hf. apply (fresh_after_revoke _ t (t_case_id t0) _ (m_db_now (tn_revoke w))) in Hf. destruct Hf as [H1 H2].
  unfold reminted_tokens. eapply tss_step; [apply (ts_revoke ts t (t_case_id t0) (m_db_now (tn_revoke w)))|].
  eapply tss_step; [by apply (ts_issue _ (new_token (tn_issue w) t (t_case_id t0) (ob_recipient row)
    (Some "remediation-delivery") (HFloat (remaining_hours (tn_remint_now w) t0))))|].
  unfold superseding. destruct (nonempty _); [apply tsteps_one|]; constructor.
Qed.

Lemma remint_run w t row t0 d :
  (exists d', try_remint w t row t0 d = (d', Ok (Ok (correction_url (m_raw (tn_issue w)))))
     /\ tn_remint_fault w = None /\ fresh_token (tn_issue w) (remediation_tokens (d_tokens d))
     /\ remediation_tokens (d_tokens d') = reminted_tokens w t row t0 (remediation_tokens (d_tokens d))
     /\ notification_outbox d' = update_where (is_row t (ob_id row)) (repoint (m_id (tn_issue w))) (notification_outbox d)
     /\ provider_calls d' = provider_calls d /\ email_suppressions d' = email_suppressions d)
  \/ ((tn_remint_fault w <> None \/ ~ fresh_token (tn_issue w) (remediation_tokens (d_tokens d)))
      /\ exists e, try_remint w t row t0 d = (d, Ok (Raise e))).
Proof.
  unfold try_remint, _remint_link, get_db_session. destruct (tn_remint_fault w) as [e|].
  - right. split; [by left|]. by exists e.
  - unfold remint_steps, dbind, lift.
    destruct (revoke_run (tn_revoke w) t (t_case_id t0) (d_tokens d)) as (a & -> & Ha & _). cbn [d_tokens with_tokens].
    destruct (fresh_token_dec (tn_issue w) (remediation_tokens (d_tokens d))) as [Hf|Hn].
    + edestruct (issue_token_fresh (tn_issue w) t (t_case_id t0)) as (b & -> & Hb & _);
        [rewrite Ha; by apply fresh_after_revoke|].
      left. eexists. split; [done|]. split; [done|]. split; [done|]. split; [|done].
      cbn [d_tokens with_tokens with_outbox]. by rewrite Hb, Ha.
    + right. split; [by right|].
      edestruct (issue_token_taken (tn_issue w) t (t_case_id t0)) as (x & ->); [|by eexists].
      rewrite Ha. unfold fresh_token in *. by rewrite !update_where_key.
Qed.

(** *** A turn *)

(** A token id the driver binds and the server casts to a UUID; the payload has none other. *)
Definition castable (s : string) : Prop := bind_text (PStr s) = Ok s /\ exists u, cast_uuid s = Ok u.
Definition payload_ok (r : outbox_row) : Prop :=
  forall v, payload_token_id r = Some v -> exists s, v = PStr s /\ castable s.

Lemma outcome_repoint w row o g i :
  i = m_id (tn_issue w) -> same_payload g -> outcome_row w row o g -> outcome_row w row o (fun r => g (repoint i r)).
Proof.
  intros -> Hsp (Hp & Ho). split; [intros r; right; by rewrite Hsp|].
  destruct Ho as [[-> Ho]|[[-> Ho]|[(-> & Ha & Ho)|(-> & Ha & Ho)]]].
  - left. split; [done|]. intros r. apply (Ho (repoint _ r)).
  - right; left. split; [done|]. intros r. apply (Ho (repoint _ r)).
  - right; right; left. do 2 (split; [done|]). intros r. apply (Ho (repoint _ r)).
  - right; right; right. do 2 (split; [done|]). intros r. apply (Ho (repoint _ r)).
Qed.

Lemma touches_mono t i (Q Q' : (outbox_row -> outbox_row) -> Prop) d d' :
  (forall g, Q g -> Q' g) -> touches t i Q d d' -> touches t i Q' d d'.
Proof. intros HQ (g & Hq & Hg). exists g. eauto. Qed.

(** The provider is asked at most once, for the row's recipient, who is not suppressed; never when the
    row is skipped. *)
Definition asks_provider (t : string) (row : outbox_row) (d : ddb) (o : string) (d' : ddb) : Prop :=
  exists calls, provider_calls d' = (provider_calls d ++ calls)%list
    /\ (length calls <= 1)%nat /\ (o = "skipped" -> calls = [])
    /\ Forall (fun c => ob_recipient row = Some (pc_recipient c) /\ is_suppressed d t (pc_recipient c) = false) calls.

Lemma asks_nobody t row d o d' : provider_calls d' = provider_calls d -> asks_provider t row d o d'.
Proof. intros E. exists []. rewrite app_nil_r. split; [done|]. split; [cbn; lia|]. by split; [|constructor]. Qed.

(** What a turn does, whatever it meets: the outcome with the row it leaves, and the provider's call,
    which a suppressed recipient never gets. *)
Definition turn_ok (w : turn) (t : string) (row : outbox_row) (d d' : ddb) (o : string) : Prop :=
  touches t (ob_id row) (outcome_row w row o) d d'
  /\ tsteps (remediation_tokens (d_tokens d)) (remediation_tokens (d_tokens d'))
  /\ asks_provider t row d o d'.

Lemma skip_turn w t row reason d :
  exists d', _finish_skipped t row reason d = (d', Ok "skipped") /\ turn_ok w t row d d' "skipped".
Proof.
  destruct (skipped_run t row reason w d) as (d' & -> & Ht & Htk & Hc). exists d'. split; [done|].
  split; [by eapply touches_mono; [|done]; intros g [_ ?]|]. rewrite Htk. split; [constructor|by apply asks_nobody].
Qed.

Lemma failure_turn w t row reason d :
  exists d' o, _on_send_failure w t row reason d = (d', Ok o) /\ turn_ok w t row d d' o.
Proof.
  destruct (failure_run w t row reason d) as (d' & o & -> & _ & Ht & Htk & Hc). exists d', o. split; [done|].
  split; [by eapply touches_mono; [|done]; intros g [_ ?]|]. rewrite Htk. split; [constructor|by apply asks_nobody].
Qed.

Lemma send_asks w t row rcpt link d d1 :
  ob_recipient row = Some rcpt -> is_suppressed d t rcpt = false -> provider_calls d1 = provider_calls d ->
  exists d' o, send_and_finish w t row rcpt link d1 = (d', Ok o)
    /\ touches t (ob_id row) (fun g => same_payload g /\ outcome_row w row o g) d1 d'
    /\ remediation_tokens (d_tokens d') = remediation_tokens (d_tokens d1)
    /\ asks_provider t row d o d'.
Proof.
  intros Hr Hs Hc1. destruct (send_run w t row rcpt link d1) as (d' & o & E & Ho & Ht & Htk & Hc).
  exists d', o. split; [done|]. split; [done|]. split; [done|]. eexists. rewrite Hc, Hc1. split; [done|].
  split; [done|]. split; [|by apply Forall_singleton]. rewrite Ho. intros Ho'.
  destruct (is_ok (tn_send w)); [done|]. by destruct (_ <=? _).
Qed.

Lemma load_token_ok t v row d :
  payload_ok row -> payload_token_id row = Some v -> exists tk, _load_token t v d = Ok tk.
Proof.
  intros Hp Hv. destruct (Hp v Hv) as (s & -> & Hb & u & Hu). unfold _load_token. rewrite Hb. cbn [rbind].
  rewrite Hu. cbn [rbind]. eauto.
Qed.

(** The turn on a given state. *)
Lemma drain_one_eq w t row d :
  _drain_one w t row d =
    match nonempty (ob_recipient row) with
    | None => _finish_skipped t row "no_recipient" d
    | Some rcpt =>
        if is_suppressed d t rcpt then _finish_skipped t row "recipient_suppressed" d
        else match payload_token_id row with
        | None => send_and_finish w t row rcpt None d
        | Some v =>
            match _load_token t v d with
            | Raise e => (d, Raise e)
            | Ok tk =>
                match _token_skip_reason (tn_skip_now w) tk, tk with
                | Some reason, _ => _finish_skipped t row reason d
                | None, None => (d, Ok "")
                | None, Some t0 =>
                    match try_remint w t row t0 d with
                    | (d1, Ok (Ok link)) => send_and_finish w t row rcpt (Some link) d1
                    | (d1, Ok (Raise e)) => _on_send_failure w t row ("remint failed: " +:+ exn_msg e) d1
                    | (d1, Raise e) => (d1, Raise e)
                    end
                end
            end
        end
    end.
Proof.
  unfold _drain_one, dbind, dget. destruct (nonempty (ob_recipient row)) as [rcpt|]; [|done].
  destruct (is_suppressed d t rcpt); [done|]. destruct (payload_token_id row) as [v|]; [|done].
  destruct (_load_token t v d) as [tk|e]; [|done]. destruct (_token_skip_reason (tn_skip_now w) tk); [done|].
  destruct tk as [t0|]; [|done]. by destruct (try_remint w t row t0 d) as [d1 [[link|e]|e]].
Qed.

Lemma drain_run w t row d :
  (exists d' o, _drain_one w t row d = (d', Ok o) /\ turn_ok w t row d d' o)
  \/ (~ payload_ok row /\ exists e, _drain_one w t row d = (d, Raise e)).
Proof.
  rewrite drain_one_eq. destruct (nonempty (ob_recipient row)) as [rcpt|] eqn:Er.
  2:{ left. destruct (skip_turn w t row "no_recipient" d) as (d' & H1 & H2). eauto. }
  apply nonempty_Some in Er as [Er _]. destruct (is_suppressed d t rcpt) eqn:Es.
  { left. destruct (skip_turn w t row "recipient_suppressed" d) as (d' & H1 & H2). eauto. }
  destruct (payload_token_id row) as [v|] eqn:Ev.
  2:{ left. destruct (send_asks w t row rcpt None d d Er Es eq_refl) as (d' & o & E & Ht & Htk & Hcalls).
      exists d', o. split; [done|]. split; [by eapply touches_mono; [|done]; intros g [_ ?]|]. rewrite Htk. by split; [constructor|]. }
  destruct (_load_token t v d) as [tk|e] eqn:El.
  2:{ right. split; [|by exists e]. intros Hp. destruct (load_token_ok t v row d Hp Ev) as (? & E). by rewrite El in E. }
  left. destruct (_token_skip_reason (tn_skip_now w) tk) as [reason|] eqn:Esk.
  { destruct (skip_turn w t row reason d) as (d' & H1 & H2). eauto. }
  destruct tk as [t0|]; [|done].
  destruct (remint_run w t row t0 d) as [(d1 & -> & _ & Hf & Htk1 & Hob1 & Hc1 & Hs1)|[_ (e & ->)]].
  - destruct (send_asks w t row rcpt (Some (correction_url (m_raw (tn_issue w)))) d d1 Er Es Hc1)
      as (d' & o & -> & Ht & Htk & Hcalls).
    exists d', o. split; [done|]. split; [|split; [rewrite Htk, Htk1; by apply reminted_tsteps|done]].
    apply (touches_comp t (ob_id row) (fun g => g = repoint (m_id (tn_issue w)))
             (fun g => same_payload g /\ outcome_row w row o g) _ d d1 d'); [by exists (repoint (m_id (tn_issue w)))|done|].
    intros g h -> [Hsp Ho]. by apply outcome_repoint.
  - destruct (failure_turn w t row ("remint failed: " +:+ exn_msg e) d) as (d' & o & -> & Ht). eauto.
Qed.

(** ** Attempts *)

Definition row_bounded (r : outbox_row) : Prop :=
  0 <= ob_attempts r <= MAX_ATTEMPTS
  /\ (ob_status r = "queued" \/ ob_status r = "sending" -> ob_attempts r < MAX_ATTEMPTS).

(** A drainer's snapshot is a row it read while it was due. *)
Definition read_while_due (o : dop) : Prop :=
  match o with DDrain _ _ row => 0 <= ob_attempts row < MAX_ATTEMPTS | _ => True end.

Lemma dstep_bounded o d :
  read_while_due o -> Forall row_bounded (notification_outbox d) -> Forall row_bounded (notification_outbox (dstep o d)).
Proof.
  intros Ho Hd. destruct o as [now t i|w t row|i now t c r s b p|o]; cbn [dstep]; [| | |done].
  - cbn. apply Forall_update_where; [done|]. intros r _ Hp [H1 H2]. split; [done|]. cbn. intros _. apply H2.
    apply andb_true_iff in Hp as [_ Hdue]. unfold due in Hdue. apply orb_true_iff in Hdue as [Hq|Hq];
      apply andb_true_iff in Hq as [Hq _]; apply String.eqb_eq in Hq; auto.
  - destruct (drain_run w t row d) as [(d' & o & -> & (g & (_ & Hg) & Hk & E) & _)|[_ (e & ->)]]; [|done].
    cbn [fst]. rewrite E. apply Forall_update_where; [done|]. intros r _ _ [H1 H2]. cbn in Ho. unfold row_bounded.
    destruct Hg as [[-> Hg]|[[-> Hg]|[(-> & Ha & Hg)|(-> & Ha & Hg)]]].
    + destruct (Hg r) as [-> ->]. split; [done|]. by intros [?|?].
    + destruct (Hg r) as [-> ->]. split; [done|]. by intros [?|?].
    + destruct (Hg r) as [-> ->]. split; [lia|]. by intros [?|?].
    + destruct (Hg r) as (-> & -> & _). split; lia.
  - cbn. unfold enqueue_preview. cbv zeta. destruct (existsb _ _); [done|]. cbn. apply Forall_app. split; [done|].
    apply Forall_singleton. split; cbn; [unfold MAX_ATTEMPTS; lia|unfold MAX_ATTEMPTS; lia].
Qed.

(** Retries are bounded: whatever drainers, buyers and suppliers do and in whatever order, no entry
    counts more than [MAX_ATTEMPTS] attempts, and one that is still to be sent has attempts left. *)
Theorem attempts_bounded os d :
  Forall read_while_due os -> Forall row_bounded (notification_outbox d) ->
  Forall row_bounded (notification_outbox (dsteps os d)).
Proof. intros Ho. revert d. induction Ho as [|o os Ho _ IH]; intros d Hd; [done|]. cbn. apply IH. by apply dstep_bounded. Qed.

(** ** Claims *)

(** Row [i] is held by a drainer since [t1]. *)
Definition held (i : string) (t1 : Z) (d : ddb) : Prop :=
  Forall (fun r => ob_id r = i -> ob_status r = "sending" /\ ob_claimed_at r = Some t1) (notification_outbox d).

(** The operation does not end the holder's turn, and comes before [T]. *)
Definition leaves_alone (i : string) (T : Z) (o : dop) : Prop :=
  match o with
  | DClaim now _ _ => now < T
  | DDrain _ _ row => ob_id row <> i
  | DEnqueue i' _ _ _ _ _ _ _ => i' <> i
  | DToken _ => True
  end.

Lemma held_not_due i t1 now d r :
  held i t1 d -> r ∈ notification_outbox d -> ob_id r = i -> now < t1 + stale -> due now r = false.
Proof.
  intros Hh Hr Hi Hlt. unfold held in Hh. rewrite Forall_forall in Hh. destruct (Hh r Hr Hi) as [Hs Hc].
  unfold due. rewrite Hs, Hc. cbn. destruct (Z.leb_spec t1 (now - stale)); [lia|done].
Qed.

Lemma dstep_held i t1 o d : leaves_alone i (t1 + stale) o -> held i t1 d -> held i t1 (dstep o d).
Proof.
  intros Ho Hd. pose proof Hd as Hd0. unfold held in *.
  destruct o as [now t j|w t row|j now t c r s b p|o]; cbn [dstep leaves_alone] in *; [| | |done].
  - cbn. apply Forall_update_where; [done|]. intros r Hr Hp Hs Hi. cbn in Hi.
    apply andb_true_iff in Hp as [_ Hdue]. by rewrite (held_not_due i t1 now d r) in Hdue.
  - destruct (drain_run w t row d) as [(d' & o & -> & (g & _ & Hk & E) & _)|[_ (e & ->)]]; [|done].
    cbn [fst]. rewrite E. apply Forall_update_where; [done|]. intros r _ Hp _ Hi. destruct (Hk r) as [Hk1 _].
    rewrite Hk1 in Hi. unfold is_row in Hp. reflect_bools. congruence.
  - cbn. unfold enqueue_preview. cbv zeta. destruct (existsb _ _); [done|]. cbn. apply Forall_app. split; [done|].
    apply Forall_singleton. cbn. congruence.
Qed.

Lemma claim_true now t i d :
  snd (_claim now t i d) = Ok true -> count_where (fun r => is_row t i r && due now r) (notification_outbox d) = 1%nat.
Proof. cbn. intros [= E]. by apply Nat.eqb_eq in E. Qed.

(** A claim is exclusive: once a drainer has claimed an entry, no other claim of it succeeds for
    [STALE_CLAIM_MINUTES], whatever other drainers and requests do, until the holder ends its turn. *)
Theorem claim_exclusive t t' i t1 t2 os d :
  NoDup (ob_id <$> notification_outbox d) -> snd (_claim t1 t i d) = Ok true ->
  Forall (leaves_alone i (t1 + stale)) os -> t2 < t1 + stale ->
  snd (_claim t2 t' i (dsteps os (fst (_claim t1 t i d)))) = Ok false.
Proof.
  intros Hnd Hc%claim_true Ho Hlt.
  assert (Hh : held i t1 (fst (_claim t1 t i d))).
  { unfold held. cbn. rewrite Forall_forall. intros r' (r & Hr & ->)%elem_of_update_where Hi.
    assert (0 < count_where (fun r => is_row t i r && due t1 r) (notification_outbox d))%nat
      as (r0 & Hr0 & Hp0)%count_where_pos by lia.
    assert (r = r0) as ->.
    { apply (key_unique ob_id (notification_outbox d)); [done..|]. unfold is_row in Hp0. reflect_bools.
      destruct (is_row t i r && due t1 r); cbn in Hi; congruence. }
    by rewrite Hp0. }
  assert (Hh' : held i t1 (dsteps os (fst (_claim t1 t i d)))).
  { revert Hh. generalize (fst (_claim t1 t i d)) as d1. clear Hc Hnd d Hlt. induction Ho as [|o os Ho _ IH]; intros d1 Hh; [done|].
    cbn. apply IH. by apply dstep_held. }
  cbn. f_equal. apply Nat.eqb_neq. rewrite (proj2 (count_where_zero _ _)); [done|].
  intros r Hr. destruct (is_row t' i r) eqn:Er; [|done]. cbn. apply (held_not_due i t1 t2 (dsteps os (fst (_claim t1 t i d)))); [done..| |done].
  unfold is_row in Er. by reflect_bools.
Qed.

(** ** Every entry ends *)

(** One turn of a single drainer on entry [i]: read it, claim it, drain it. *)
Definition one_turn (t i : string) (now : Z) (w : turn) (d : ddb) : ddb :=
  match List.find (is_row t i) (notification_outbox d) with
  | None => d
  | Some row =>
      match _claim now t i d with
      | (d1, Ok true) => fst (_drain_one w t row d1)
      | (d1, _) => d1
      end
  end.
Fixpoint turns (t i : string) (rounds : list (Z * turn)) (d : ddb) : ddb :=
  match rounds with [] => d | (now, w) :: rs => turns t i rs (one_turn t i now w d) end.

Definition terminal (r : outbox_row) : Prop := ob_status r ∈ ["sent"; "skipped"; "failed"].

(** The longest delay of the table. *)
Definition max_backoff : Z := 86400 * 1000000.

(** Each turn comes when the entry is due, even after the longest delay. *)
Fixpoint timely (next : Z) (rounds : list (Z * turn)) : Prop :=
  match rounds with [] => True | (now, w) :: rs => next <= now /\ timely (tn_end_now w + max_backoff) rs end.

Lemma backoff_le n : 1 <= n < MAX_ATTEMPTS -> 0 < backoff n <= max_backoff.
Proof.
  unfold MAX_ATTEMPTS. intros Hn.
  assert (n = 1 \/ n = 2 \/ n = 3 \/ n = 4 \/ n = 5 \/ n = 6 \/ n = 7) as Hc by lia.
  repeat destruct Hc as [->|Hc]; [..|subst n]; vm_compute; split; congruence.
Qed.

Lemma find_row_update t i p f d :
  (forall r, p r = true -> is_row t i r = is_row t i (f r)) ->
  List.find (is_row t i) (update_where p f d) = (fun r => if p r then f r else r) <$> List.find (is_row t i) d.
Proof. intros Hf. apply find_update_where. intros r _. destruct (p r) eqn:E; [by rewrite <- Hf|done]. Qed.

Lemma NoDup_update_outbox p f (l : list outbox_row) :
  (forall r, ob_id (f r) = ob_id r) -> NoDup (ob_id <$> l) -> NoDup (ob_id <$> update_where p f l).
Proof. intros. by rewrite update_where_key. Qed.

Definition row_at (t i : string) (d : ddb) : option outbox_row := List.find (is_row t i) (notification_outbox d).

Lemma row_at_due t i now d row :
  NoDup (ob_id <$> notification_outbox d) -> row_at t i d = Some row ->
  exists d1, _claim now t i d = (d1, Ok (due now row))
    /\ d_tokens d1 = d_tokens d
    /\ NoDup (ob_id <$> notification_outbox d1)
    /\ row_at t i d1 = Some (if due now row then set_status "sending" (Some now) row else row).
Proof.
  intros Hnd Hf. pose proof (find_elem _ _ _ Hf) as [Hin Hr].
  exists (fst (_claim now t i d)). split; [|split; [done|split]].
  - unfold _claim, dbind, update_outbox, dret. cbn [fst]. do 2 f_equal. destruct (due now row) eqn:E.
    + rewrite (count_where_one ob_id _ _ row); [done|done|done|by rewrite Hr, E|].
      intros r' Hp. unfold is_row in *. reflect_bools. congruence.
    + rewrite (proj2 (count_where_zero _ _)); [done|]. intros r' Hr'. destruct (is_row t i r') eqn:Er; [|done]. cbn.
      rewrite (key_unique ob_id (notification_outbox d) r' row); [done..|]. unfold is_row in *. reflect_bools. congruence.
  - cbn. by apply NoDup_update_outbox.
  - unfold row_at in *. cbn. rewrite find_row_update by done. rewrite Hf. cbn. by rewrite Hr.
Qed.

Lemma payload_ok_repoint r i : castable i -> payload_ok (repoint i r).
Proof.
  intros Hc v. unfold payload_token_id. cbn. rewrite dict_get_set_eq. cbn.
  destruct (String.eqb i ""); [done|]. cbn. intros [= <-]. by exists i.
Qed.

(** A timely turn ends the entry, or counts one more attempt and leaves it due within the longest
    delay. *)
Lemma one_turn_progress t i now w d row :
  NoDup (ob_id <$> notification_outbox d) -> row_at t i d = Some row -> row_bounded row -> payload_ok row ->
  castable (m_id (tn_issue w)) ->
  ob_status row = "queued" -> ob_next_attempt_at row <= now ->
  NoDup (ob_id <$> notification_outbox (one_turn t i now w d))
  /\ exists r', row_at t i (one_turn t i now w d) = Some r' /\ 0 <= ob_attempts r' <= MAX_ATTEMPTS
     /\ (terminal r' \/ (ob_status r' = "queued" /\ ob_attempts r' = ob_attempts row + 1 /\ row_bounded r' /\ payload_ok r'
                         /\ ob_next_attempt_at r' <= tn_end_now w + max_backoff)).
Proof.
  intros Hnd Hf [Hb1 Hb2] Hp Hu Hs Hn. unfold one_turn. unfold row_at in Hf. rewrite Hf. fold (row_at t i d) in Hf.
  destruct (row_at_due t i now d row Hnd Hf) as (d1 & -> & _ & Hnd1 & Hf1).
  assert (due now row = true) as Hdue by (unfold due; rewrite Hs; cbn; destruct (Z.leb_spec (ob_next_attempt_at row) now); [done|lia]).
  rewrite Hdue in *. destruct (drain_run w t row d1) as [(d' & o & -> & (g & [Hpl Hg] & Hk & E) & _)|[Hbad _]]; [|done].
  cbn [fst]. apply find_elem in Hf as [_ Hrow]. assert (ob_id row = i) as Hid by (unfold is_row in Hrow; by reflect_bools).
  unfold row_at in *. rewrite E, Hid. split; [by apply NoDup_update_outbox; [intros r; by destruct (Hk r)|]|].
  rewrite find_row_update by (intros r _; by rewrite is_row_keeps). rewrite Hf1. cbn [fmap option_fmap option_map].
  change (is_row t i (set_status "sending" (Some now) row)) with (is_row t i row). rewrite Hrow.
  eexists. split; [done|]. set (c := set_status "sending" (Some now) row) in *.
  assert (Hc : ob_attempts c = ob_attempts row) by done. specialize (Hb2 (or_introl Hs)).
  destruct Hg as [[-> Hg]|[[-> Hg]|[(-> & Ha & Hg)|(-> & Ha & Hg)]]].
  - destruct (Hg c) as [H1 H2]. rewrite H2, Hc. split; [lia|]. left. unfold terminal. rewrite H1. left.
  - destruct (Hg c) as [H1 H2]. rewrite H2, Hc. split; [lia|]. left. unfold terminal. rewrite H1. right; left.
  - destruct (Hg c) as [H1 H2]. rewrite H2. split; [lia|]. left. unfold terminal. rewrite H1. do 2 right; left.
  - destruct (Hg c) as (H1 & H2 & H3). rewrite H2. split; [lia|]. right. split; [done|]. split; [done|].
    split; [by unfold row_bounded; rewrite H2; split; [lia|]|]. split.
    + destruct (Hpl c) as [Hpc|Hpc].
      * intros v. unfold payload_token_id. rewrite Hpc. apply Hp.
      * intros v. unfold payload_token_id. rewrite Hpc. apply (payload_ok_repoint c (m_id (tn_issue w)) Hu).
    + rewrite H3. pose proof (backoff_le (ob_attempts row + 1)). lia.
Qed.

Lemma terminal_stays t i now w d row :
  NoDup (ob_id <$> notification_outbox d) -> row_at t i d = Some row -> terminal row ->
  NoDup (ob_id <$> notification_outbox (one_turn t i now w d)) /\ row_at t i (one_turn t i now w d) = Some row.
Proof.
  intros Hnd Hf Ht. unfold one_turn. unfold row_at in Hf. rewrite Hf. fold (row_at t i d) in Hf.
  destruct (row_at_due t i now d row Hnd Hf) as (d1 & -> & _ & Hnd1 & Hf1).
  assert (due now row = false) as Hdue.
  { unfold terminal in Ht. unfold due. rewrite !elem_of_cons in Ht.
    destruct Ht as [->|[->|[->|Ht]]]; [done..|by apply not_elem_of_nil in Ht]. }
  rewrite Hdue in *. done.
Qed.

(** C33. Delivery terminates.  An entry that is queued, within its attempts, is sent, skipped or failed
    after as many timely turns as it has attempts left, at most [MAX_ATTEMPTS] in all: whatever the
    provider answers, whatever tokens there are, and also when the database refuses a statement of the
    re-minting of a link.  A token id that its payload names is a text that the server casts to a UUID
    ([castable]), and so are the ids drawn for fresh tokens; with another id in the payload a turn can
    raise, which leaves the entry claimed.  The other statements of a turn are not refused. *)
Theorem delivery_terminates t i rounds d row :
  NoDup (ob_id <$> notification_outbox d) -> row_at t i d = Some row -> row_bounded row -> payload_ok row ->
  Forall (fun r => castable (m_id (tn_issue (snd r)))) rounds ->
  ob_status row = "queued" -> timely (ob_next_attempt_at row) rounds ->
  MAX_ATTEMPTS - ob_attempts row <= Z.of_nat (length rounds) ->
  exists r', row_at t i (turns t i rounds d) = Some r' /\ terminal r' /\ ob_attempts r' <= MAX_ATTEMPTS.
Proof.
  intros Hnd Hf Hb Hp Hu Hs Ht Hlen.
  assert (Hend : forall rounds d row, NoDup (ob_id <$> notification_outbox d) -> row_at t i d = Some row -> terminal row ->
    row_at t i (turns t i rounds d) = Some row).
  { clear. intros rounds. induction rounds as [|[now w] rs IH]; intros d row Hnd Hf Ht; [done|]. cbn.
    destruct (terminal_stays t i now w d row Hnd Hf Ht). by apply IH. }
  assert (Hq : ob_next_attempt_at row <= ob_next_attempt_at row) by lia. revert Ht Hq. generalize (ob_next_attempt_at row) at 1 3 as next.
  revert d row Hnd Hf Hb Hp Hs Hlen. induction Hu as [|[now w] rs Hu _ IH]; intros d row Hnd Hf Hb Hp Hs Hlen next Ht Hq.
  - destruct Hb as [Hb1 Hb2]. specialize (Hb2 (or_introl Hs)). cbn in Hlen. lia.
  - destruct Ht as [Hnow Ht]. cbn [turns]. destruct (one_turn_progress t i now w d row) as (Hnd' & r' & Hf' & Ha & Hr'); try done; [lia|].
    destruct Hr' as [Hterm|(Hs' & Ha' & Hb' & Hp' & Hn')].
    + exists r'. split; [by apply Hend|]. split; [done|lia].
    + apply (IH _ r' Hnd' Hf' Hb' Hp' Hs' ltac:(cbn [length] in Hlen; lia) (tn_end_now w + max_backoff)); [done|lia].
Qed.

(** ** Suppression *)

Lemma send_suppressions w t row rcpt link d :
  email_suppressions (fst (send_and_finish w t row rcpt link d)) = email_suppressions d.
Proof.
  unfold send_and_finish, provider_send, dbind. destruct (tn_send w) as [pid|e].
  - unfold _finish_sent, dbind, update_outbox, lift, dret. by destruct (audit_event _ _ _ _ _ _) as [a [[]|x]].
  - unfold _on_send_failure. cbv zeta. by destruct (_ <=? _).
Qed.

Lemma drain_suppressions w t row d : email_suppressions (fst (_drain_one w t row d)) = email_suppressions d.
Proof.
  rewrite drain_one_eq. destruct (nonempty (ob_recipient row)) as [rcpt|]; [|done].
  destruct (is_suppressed d t rcpt); [done|]. destruct (payload_token_id row) as [v|]; [|apply send_suppressions].
  destruct (_load_token t v d) as [tk|e]; [|done]. destruct (_token_skip_reason (tn_skip_now w) tk); [done|].
  destruct tk as [t0|]; [|done].
  destruct (remint_run w t row t0 d) as [(d1 & -> & _ & _ & _ & _ & _ & <-)|[_ (e & ->)]]; [apply send_suppressions|].
  unfold _on_send_failure. cbv zeta. by destruct (_ <=? _).
Qed.

Lemma is_suppressed_ext d d' t e : email_suppressions d' = email_suppressions d -> is_suppressed d' t e = is_suppressed d t e.
Proof. unfold is_suppressed. by intros ->. Qed.

Definition new_calls_allowed (t : string) (d d' : ddb) : Prop :=
  email_suppressions d' = email_suppressions d
  /\ exists calls, provider_calls d' = (provider_calls d ++ calls)%list
       /\ Forall (fun c => is_suppressed d t (pc_recipient c) = false) calls.

Lemma new_calls_refl t d : new_calls_allowed t d d.
Proof. split; [done|]. exists []. by rewrite app_nil_r. Qed.

Lemma new_calls_trans t a b c : new_calls_allowed t a b -> new_calls_allowed t b c -> new_calls_allowed t a c.
Proof.
  intros (E1 & k1 & C1 & F1) (E2 & k2 & C2 & F2). split; [by rewrite E2|]. exists (k1 ++ k2)%list.
  rewrite C2, C1, (assoc_L app). split; [done|]. apply Forall_app. split; [done|].
  eapply Forall_impl; [exact F2|]. intros x Hx. cbv beta in *.
  by rewrite (is_suppressed_ext a b) in Hx.
Qed.

Lemma drain_rows_calls ca tu t rows : forall k s d, new_calls_allowed t d (fst (drain_rows ca tu k t rows s d)).
Proof.
  induction rows as [|row rows IH]; intros k s d; [apply new_calls_refl|]. cbn [drain_rows]. unfold dbind.
  assert (Hclaim : exists d1 b, _claim (ca k) t (ob_id row) d = (d1, Ok b) /\ new_calls_allowed t d d1).
  { eexists _, _. split; [done|]. split; [done|]. exists []. by rewrite app_nil_r. }
  destruct Hclaim as (d1 & b & -> & Hc). eapply new_calls_trans; [exact Hc|]. destruct b; [|apply IH].
  assert (Hturn : new_calls_allowed t d1 (fst (_drain_one (tu k) t row d1))).
  { split; [apply drain_suppressions|].
    destruct (drain_run (tu k) t row d1) as [(d2 & o & -> & _ & _ & calls & Hcalls & _ & _ & Hf)|[_ (e & ->)]].
    - exists calls. split; [done|]. eapply Forall_impl; [done|]. by intros x [_ ?].
    - exists []. by rewrite app_nil_r. }
  destruct (_drain_one (tu k) t row d1) as [d2 [o|e]]; cbn [fst] in *; [|done].
  eapply new_calls_trans; [done|apply IH].
Qed.

(** A suppressed address is never written to: draining a tenant asks the provider only for
    recipients whose normalised address is not on the tenant's suppression list, whatever the rows,
    the tokens and the database answer. *)
Theorem suppressed_never_mailed now ca tu t n d c :
  let d' := fst (drain_tenant_once now ca tu t n d) in
  c ∈ provider_calls d' -> c ∉ provider_calls d ->
  is_suppressed d t (pc_recipient c) = false /\ (t, _normalize_email (pc_recipient c)) ∉ email_suppressions d
  \/ _normalize_email (pc_recipient c) = "".
Proof.
  intros d' Hc Hn. unfold d', drain_tenant_once, dbind, dget in Hc.
  destruct (drain_rows_calls ca tu t (_due_rows now t n d) 0 summary0 d) as (_ & calls & E & Hf).
  rewrite E, elem_of_app in Hc. destruct Hc as [?|Hc]; [done|]. rewrite Forall_forall in Hf. specialize (Hf c Hc).
  unfold is_suppressed in Hf |- *. cbv zeta in Hf |- *. destruct (String.eqb_spec (_normalize_email (pc_recipient c)) ""); [by right|]. left.
  split; [done|]. intros Hin. apply not_true_iff_false in Hf. apply Hf. apply existsb_exists. eexists.
  split; [by apply list_elem_of_In|]. cbn. by rewrite !String.eqb_refl.
Qed.

(** ** The link that was sent *)

Lemma elem_of_reminted w t row t0 ts r :
  r ∈ reminted_tokens w t row t0 ts ->
  t_tenant_id r = t -> t_case_id r = t_case_id t0 -> t_revoked_at r = None ->
  t_id r = m_id (tn_issue w) /\ t_session_token_hash r = None.
Proof.
  unfold reminted_tokens. set (n := new_token _ _ _ _ _ _).
  intros Hr. assert (exists r0, (r0 ∈ update_where (live_of_case t (t_case_id t0)) (revoke (m_db_now (tn_revoke w))) ts \/ r0 = n)
    /\ (r = r0 \/ r = set_superseded (m_id (tn_issue w)) r0)) as (r0 & Hr0 & Hs).
  { unfold superseding in Hr. destruct (nonempty _) as [old|].
    - apply elem_of_update_where in Hr as (r0 & Hr0 & ->). rewrite elem_of_app, list_elem_of_singleton in Hr0.
      exists r0. split; [done|]. destruct (_ && _); [by right|by left].
    - rewrite elem_of_app, list_elem_of_singleton in Hr. exists r. auto. }
  intros H1 H2 H3.
  assert (t_tenant_id r0 = t /\ t_case_id r0 = t_case_id t0 /\ t_revoked_at r0 = None /\ t_id r = t_id r0
          /\ t_session_token_hash r = t_session_token_hash r0) as (E1 & E2 & E3 & -> & ->) by (destruct Hs as [->| ->]; done).
  destruct Hr0 as [Hr0| ->]; [|done]. apply elem_of_update_where in Hr0 as (q & Hq & ->).
  destruct (live_of_case t (t_case_id t0) q) eqn:El; [done|]. exfalso. unfold live_of_case in El.
  rewrite E1, E2, E3, !String.eqb_refl, bool_decide_true in El; done.
Qed.

Lemma find_reminted w t row t0 ts :
  fresh_token (tn_issue w) ts -> t_id t0 <> m_id (tn_issue w) ->
  find_token get_remediation_token_by_hash (m_raw (tn_issue w)) (reminted_tokens w t row t0 ts)
    = Some (new_token (tn_issue w) t (t_case_id t0) (ob_recipient row) (Some "remediation-delivery")
              (HFloat (remaining_hours (tn_remint_now w) t0))).
Proof.
  intros Hf Hne. apply (fresh_after_revoke _ t (t_case_id t0) _ (m_db_now (tn_revoke w))) in Hf. destruct Hf as [_ Hh].
  unfold reminted_tokens. set (ts1 := update_where _ _ _) in *. set (n := new_token _ _ _ _ _ _).
  pose proof (find_token_appended (m_raw (tn_issue w)) ts1 n Hh eq_refl) as Hfind.
  unfold superseding. destruct (nonempty _) as [old|] eqn:Eo; [|done]. apply nonempty_Some in Eo as [Eo _]. injection Eo as <-.
  unfold find_token in *. rewrite find_update_where by (intros r _; by destruct (_ && _)). rewrite Hfind.
  cbn [fmap option_fmap option_map]. cbn [t_id n new_token].
  destruct (String.eqb_spec (m_id (tn_issue w)) (t_id t0)); [by destruct Hne|done].
Qed.

(** A turn that delivers a link delivers the only live one: the provider is asked once, with the
    body and the freshly minted link; until its expiry that link resolves to the case of the entry;
    and no other link and no session of the case resolves any more. *)
Theorem delivered_link_is_live w t row d rcpt s t0 :
  tokens_wf (remediation_tokens (d_tokens d)) ->
  nonempty (ob_recipient row) = Some rcpt -> is_suppressed d t rcpt = false ->
  payload_token_id row = Some (PStr s) -> bind_text (PStr s) = Ok s -> cast_uuid s = Ok (t_id t0) ->
  t0 ∈ remediation_tokens (d_tokens d) -> t_tenant_id t0 = t -> _token_skip_reason (tn_skip_now w) (Some t0) = None ->
  tn_remint_fault w = None -> fresh_token (tn_issue w) (remediation_tokens (d_tokens d)) ->
  let d' := fst (_drain_one w t row d) in
  let raw := m_raw (tn_issue w) in
  let expires_at := m_now (tn_issue w) + timedelta_hours (HFloat (remaining_hours (tn_remint_now w) t0)) in
  provider_calls d' = (provider_calls d ++
    [ProviderCall rcpt (ob_subject row) (_render_html (ob_body row) (Some (correction_url raw))) (is_ok (tn_send w))])%list
  /\ (forall w', m_now w' < expires_at -> exists t', snd (resolve_active_token w' raw (d_tokens d')) = Ok t'
        /\ t_tenant_id t' = t /\ t_case_id t' = t_case_id t0)
  /\ (forall w' raw' t', snd (resolve_active_token w' raw' (d_tokens d')) = Ok t' -> t_tenant_id t' = t ->
        t_case_id t' = t_case_id t0 -> t_id t' = m_id (tn_issue w))
  /\ (forall w' raw' t', snd (resolve_active_session w' raw' (d_tokens d')) = Ok t' -> t_tenant_id t' = t ->
        t_case_id t' <> t_case_id t0).
Proof.
  intros (Hnd & _) Hr Hs Hv Hb Hu Hin Htn Hsk Hft Hfr d' raw expires_at.
  assert (Hload : _load_token t (PStr s) d = Ok (Some t0)).
  { unfold _load_token. rewrite Hb. cbn [rbind]. rewrite Hu. cbn [rbind]. f_equal.
    apply (find_unique t_id); [done|done|by rewrite Htn, !String.eqb_refl|]. intros r' E. by reflect_bools. }
  unfold d'. rewrite drain_one_eq, Hr, Hs, Hv, Hload, Hsk.
  destruct (remint_run w t row t0 d) as [(d1 & -> & _ & _ & Htk1 & _ & Hc1 & _)|[[?|?] _]]; [|done..].
  destruct (send_run w t row rcpt (Some (correction_url raw)) d1) as (d2 & o & E & _ & _ & Htk & Hc).
  fold raw. rewrite E. cbn [fst]. rewrite Htk1 in Htk. split; [by rewrite Hc, Hc1|].
  assert (Hne : t_id t0 <> m_id (tn_issue w)).
  { intros He. destruct Hfr as [Hn _]. apply Hn. rewrite <- He. apply list_elem_of_fmap. eauto. }
  split; [|split].
  - intros w' Hlt. pose proof (find_reminted w t row t0 _ Hfr Hne) as Hf. rewrite <- Htk in Hf.
    destruct (resolve_token_run w' raw (d_tokens d2)) as (d3 & _ & H3). fold raw in Hf. rewrite Hf in H3.
    unfold token_ok in H3. cbn [t_revoked_at t_expires_at new_token] in H3. rewrite bool_decide_true in H3 by done.
    apply Z.ltb_lt in Hlt. unfold expires_at in Hlt. rewrite Hlt in H3. destruct H3 as [-> _]. eexists. done.
  - intros w' raw' t' [Hf Hok]%resolve_token_Ok H1 H2. apply find_token_elem in Hf as [Hin' _]. rewrite Htk in Hin'.
    apply andb_true_iff in Hok as [Hrv _]. apply bool_decide_eq_true in Hrv. by destruct (elem_of_reminted w t row t0 _ t' Hin' H1 H2 Hrv).
  - intros w' raw' t' [Hf Hok]%resolve_session_Ok H1 H2. apply find_token_elem in Hf as [Hin' Hh]. rewrite Htk in Hin'.
    unfold session_ok, token_ok in Hok. apply andb_true_iff in Hok as [[Hrv _]%andb_true_iff _]. apply bool_decide_eq_true in Hrv.
    destruct (elem_of_reminted w t row t0 _ t' Hin' H1 H2 Hrv) as [_ Hno]. cbn in Hh. congruence.
Qed.
End Facts.

(** ** Concrete runs *)

#[local] Existing Instance demo_runtime.

Definition second : Z := 1000000.
Definition demo_payload (tok : string) : pydict := [("token_id", PStr tok); ("case_id", PStr "case")].

(** One live link, its queued notification, and one suppressed address. *)
Definition demo_ddb : ddb :=
  fst (enqueue_preview "n-1" 0 "tenant" (Some "case") (Some "s@x.io") "Correction needed" "Open & fix" (demo_payload "tok-1")
    (DDb (steps [demo_issue] empty_tokens) [] [("tenant", "stop@x.io")] [])).

Definition demo_turn (k : Z) (tok raw : string) (send : res (option string)) : turn :=
  Turn k k (demo_mint "" "" k) (Mint raw tok k k k false) None send k false.
Definition provider_down : res (option string) := Raise (Exn "ConnectionError" "unreachable").

Definition demo_row0 : outbox_row :=
  OutboxRow "n-1" "tenant" (Some "case") (Some "s@x.io") "Correction needed" "Open & fix" (demo_payload "tok-1")
    "queued" 0 0 None 0 None None None.

Lemma demo_row0_at : row_at "tenant" "n-1" demo_ddb = Some demo_row0.
Proof. vm_compute. reflexivity. Qed.

(** A second drainer selects the entry; a first one sends it, the provider fails, and the entry is
    rescheduled with a fresh token; thirty seconds later the second drainer's claim succeeds, but it
    still works with the payload it selected.  That token is superseded, so the entry is skipped for
    good: the supplier is never written to, although the link of the fresh token is live. *)
Lemma stale_snapshot_drops_notification :
  let snapshot := demo_row0 in
  let d1 := dsteps [DClaim 0 "tenant" "n-1"; DDrain (demo_turn 0 "tok-2" "link-2" provider_down) "tenant" snapshot] demo_ddb in
  let claim := _claim (31 * second) "tenant" "n-1" d1 in
  let out := _drain_one (demo_turn (31 * second) "tok-3" "link-3" (Ok (Some "msg"))) "tenant" snapshot (fst claim) in
  snd claim = Ok true /\ snd out = Ok "skipped"
  /\ (ob_status <$> row_at "tenant" "n-1" (fst out)) = Some "skipped"
  /\ (pc_accepted <$> provider_calls (fst out)) = [false]
  /\ is_ok (snd (resolve_active_token (demo_mint "" "" (31 * second)) "link-2" (d_tokens (fst out)))) = true.
Proof. vm_compute. repeat split. Qed.

Lemma attempts_bounded_witness :
  Forall row_bounded (notification_outbox (dsteps [DClaim 0 "tenant" "n-1";
    DDrain (demo_turn 0 "tok-2" "link-2" provider_down) "tenant" demo_row0] demo_ddb)).
Proof.
  apply (attempts_bounded [DClaim 0 "tenant" "n-1"; DDrain (demo_turn 0 "tok-2" "link-2" provider_down) "tenant" demo_row0] demo_ddb).
  - repeat constructor; cbn; unfold MAX_ATTEMPTS; lia.
  - repeat constructor; cbn; unfold MAX_ATTEMPTS; lia.
Defined.

Lemma claim_exclusive_witness :
  snd (_claim 0 "tenant" "n-1" demo_ddb) = Ok true
  /\ snd (_claim (60 * second) "tenant" "n-1" (dsteps [DClaim second "tenant" "n-1"] (fst (_claim 0 "tenant" "n-1" demo_ddb)))) = Ok false.
Proof.
  split; [reflexivity|].
  apply (claim_exclusive "tenant" "tenant" "n-1" 0 (60 * second) [DClaim second "tenant" "n-1"] demo_ddb).
  - apply NoDup_singleton.
  - reflexivity.
  - repeat constructor.
  - reflexivity.
Defined.

(** Eight turns a day apart, the provider down throughout. *)
Definition demo_rounds : list (Z * turn) :=
  (fun k => let now := Z.of_nat k * max_backoff in
     (now, demo_turn now ("tok-" +:+ str_of_Z (Z.of_nat k + 2)) ("link-" +:+ str_of_Z (Z.of_nat k + 2)) provider_down))
  <$> seq 0 8.

Lemma delivery_terminates_witness :
  exists r', row_at "tenant" "n-1" (turns "tenant" "n-1" demo_rounds demo_ddb) = Some r' /\ terminal r'
             /\ ob_attempts r' <= MAX_ATTEMPTS.
Proof.
  apply (delivery_terminates "tenant" "n-1" demo_rounds demo_ddb demo_row0).
  - apply NoDup_singleton.
  - exact demo_row0_at.
  - split; [|intros _]; cbn; unfold MAX_ATTEMPTS; lia.
  - intros v E. exists "tok-1". injection E as <-. split; [reflexivity|]. split; [reflexivity|]. by exists "tok-1".
  - repeat (constructor; [split; [reflexivity|eexists; reflexivity]|]); constructor.
  - reflexivity.
  - repeat split; discriminate.
  - discriminate.
Defined.

Lemma delivered_link_is_live_witness :
  let w := demo_turn (60 * second) "tok-2" "link-2" (Ok (Some "msg")) in
  let d' := fst (_drain_one w "tenant" demo_row0 demo_ddb) in
  provider_calls d' = [ProviderCall "s@x.io" "Correction needed" (_render_html "Open & fix" (Some (correction_url "link-2"))) true] /\
  exists t', snd (resolve_active_token (demo_mint "" "" (61 * second)) "link-2" (d_tokens d')) = Ok t' /\
    t_tenant_id t' = "tenant" /\ t_case_id t' = "case".
Proof.
  intros w d'.
  refine ((fun Hw => conj (proj1 Hw) (proj1 (proj2 Hw) (demo_mint "" "" (61 * second)) eq_refl))
    (delivered_link_is_live w "tenant" demo_row0 demo_ddb "s@x.io" "tok-1" demo_row _ _ _ _ _ _ _ _ _ _ _)).
  - apply (tsteps_wf _ _ (steps_tsteps [demo_issue] empty_tokens)). exact empty_tokens_wf.
  - reflexivity.
  - reflexivity.
  - reflexivity.
  - reflexivity.
  - reflexivity.
  - vm_compute. constructor.
  - reflexivity.
  - reflexivity.
  - reflexivity.
  - split; vm_compute; intros H; repeat (apply elem_of_cons in H as [H|H]; [discriminate|]); by apply not_elem_of_nil in H.
Defined.

Lemma suppressed_never_mailed_witness :
  let d' := fst (drain_tenant_once 0 (fun _ => 0) (fun _ => demo_turn 0 "tok-2" "link-2" (Ok (Some "msg"))) "tenant" 50 demo_ddb) in
  let c := ProviderCall "s@x.io" "Correction needed" (_render_html "Open & fix" (Some (correction_url "link-2"))) true in
  is_suppressed demo_ddb "tenant" (pc_recipient c) = false /\ ("tenant", _normalize_email (pc_recipient c)) ∉ email_suppressions demo_ddb
  \/ _normalize_email (pc_recipient c) = "".
Proof.
  intros d' c. apply (suppressed_never_mailed 0 (fun _ => 0) (fun _ => demo_turn 0 "tok-2" "link-2" (Ok (Some "msg"))) "tenant" 50 demo_ddb c).
  - vm_compute. constructor.
  - apply not_elem_of_nil.
Defined.
