(* ===== verification/TaskQueue.v ===== *)
(** * The durable task queue

    [services/shared/task_queue.py]: the table [fsma.task_queue], the enqueue and operator functions
    and the [TaskWorker].  Each worker transaction is a function of the table and of [NOW()]; a handler
    is a function from the payload to its outcome.  The claim statement is its two phases, the choice
    on a snapshot and the locked update, so that interleavings of two workers can be stated.  Proved:
    which row a claim takes, exactly; what a dispatch does on every branch; the bounds of the backoff
    and of the attempts under any interleaving; idempotent enqueue; and what a replay touches. *)

From Stdlib Require Import ZArith Lia String Ascii.
From Stdlib Require Import DecimalString.
From stdpp Require Import base list strings gmap.
From S2P Require Import Prelude PyStr Db PyFloat PyVal Json.

Local Open Scope string_scope.
Local Open Scope Z_scope.
Local Open Scope dbm_scope.

(** ** The table *)

Inductive task_status := pending | processing | completed | failed | dead.
#[export] Instance task_status_eq_dec : EqDecision task_status.
Proof. solve_decision. Defined.

Definition TASK_QUEUE_STATUSES : list task_status := [pending; processing; completed; failed; dead].
Definition status_text (s : task_status) : string :=
  match s with
  | pending => "pending" | processing => "processing" | completed => "completed" | failed => "failed" | dead => "dead"
  end.
Definition has_status (s : task_status) (s' : task_status) : bool := bool_decide (s = s').

Record task := Task {
  q_id : Z;
  q_task_type : string;
  q_payload : pydict;
  q_status : task_status;
  q_priority : Z;
  q_tenant_id : option string;
  q_created_at : Z;
  q_started_at : option Z;
  q_completed_at : option Z;
  q_attempts : Z;
  q_max_attempts : Z;
  q_last_error : option string;
  q_locked_by : option string;
  q_locked_until : option Z;
  q_idempotency_key : option string;
  q_scheduled_at : Z;
  q_visibility_timeout_seconds : option Z
}.

(** The table and the sequence of its ids. *)
Record queue := Queue { task_queue : list task; next_id : Z }.
Definition with_tasks (ts : list task) (q : queue) : queue := Queue ts (next_id q).

Definition update_tasks (p : task -> bool) (f : task -> task) : dbm queue nat := fun q =>
  (with_tasks (update_where p f (task_queue q)) q, Ok (count_where p (task_queue q))).

(** The columns that a transition sets; the others never change after the insert. *)
Definition set_state (st : task_status) (scheduled : Z) (started completed_at : option Z) (attempts : Z)
    (err locked_by : option string) (locked_until : option Z) (t : task) : task :=
  Task (q_id t) (q_task_type t) (q_payload t) st (q_priority t) (q_tenant_id t) (q_created_at t) started completed_at
    attempts (q_max_attempts t) err locked_by locked_until (q_idempotency_key t) scheduled
    (q_visibility_timeout_seconds t).

Definition seconds (n : Z) : Z := n * 1000000.

(** ** Enqueue *)

Record enqueue_args := EnqueueArgs {
  en_task_type : string;
  en_payload : pydict;
  en_tenant_id : option string;
  en_priority : Z;
  en_max_attempts : Z;
  en_idempotency_key : option string;
  en_scheduled_at : option Z;
  en_visibility_timeout_seconds : option Z
}.

Definition new_task (now id : Z) (a : enqueue_args) : task :=
  Task id (en_task_type a) (en_payload a) pending (en_priority a) (en_tenant_id a) now None None 0 (en_max_attempts a)
    None None None (en_idempotency_key a) (match en_scheduled_at a with Some s => s | None => now end)
    (en_visibility_timeout_seconds a).

Definition insert_task (now : Z) (a : enqueue_args) : dbm queue Z := fun q =>
  (Queue (task_queue q ++ [new_task now (next_id q) a])%list (next_id q + 1), Ok (next_id q)).

(** The rows of the partial unique index that conflict with a key (nulls not distinct). *)
Definition same_key (tenant : option string) (key : string) (t : task) : bool :=
  bool_decide (q_tenant_id t = tenant) && bool_decide (q_idempotency_key t = Some key).

(** [WHERE tenant_id = :tenant_id], which no row satisfies for a null. *)
Definition keyed_task (tenant key : string) : task -> bool := same_key (Some tenant) key.

Definition falsy_text (o : option string) : bool :=
  match o with Some s => String.eqb s "" | None => true end.

Section Enqueue.
Context `{PyLib}.

Definition enqueue_task (now : Z) (a : enqueue_args) : dbm queue Z :=
  match en_idempotency_key a with
  | Some key =>
      if falsy_text (en_tenant_id a)
      then draise (ValueError "tenant_id is required when idempotency_key is provided")
      else match json_dumps (JsonOpts false ", " ": " false) (PDict (en_payload a)) with
      | Raise e => draise e
      | Ok _ => fun q =>
          match List.find (same_key (en_tenant_id a) key) (task_queue q) with
          | None => insert_task now a q
          | Some _ =>
              let q' := Queue (task_queue q) (next_id q + 1) in   (* a refused insert draws an id too *)
              match List.find (keyed_task (ostr_or (en_tenant_id a) "") key) (task_queue q) with
              | Some t => (q', Ok (q_id t))
              | None => (q', Raise (Exn "RuntimeError" "idempotent enqueue conflicted but existing task was not found"))
              end
          end
      end
  | None =>
      match json_dumps (JsonOpts false ", " ": " false) (PDict (en_payload a)) with
      | Raise e => draise e
      | Ok _ => insert_task now a
      end
  end.
End Enqueue.

(** ** Operator functions *)

Record queue_summary := QueueSummary {
  counts_by_status : list (task_status * nat);
  retrying_count : nat;
  stale_processing_count : nat;
  oldest_pending_age_seconds : option f64;
  oldest_dead_age_seconds : option f64
}.

Definition lock_expired (now : Z) (t : task) : bool :=
  match q_locked_until t with Some u => u <? now | None => false end.

Fixpoint min_list (l : list Z) : option Z :=
  match l with
  | [] => None
  | x :: l' => match min_list l' with Some y => Some (Z.min x y) | None => Some x end
  end.

(** [EXTRACT(EPOCH FROM NOW() - MIN(created_at) FILTER (WHERE p))]. *)
Definition oldest_age (now : Z) (p : task -> bool) (ts : list task) : option f64 :=
  (fun c => total_seconds (now - c)) <$> min_list (q_created_at <$> where_ p ts).

Definition get_task_queue_summary (now : Z) (q : queue) : queue_summary :=
  let ts := task_queue q in
  QueueSummary
    ((fun s => (s, count_where (fun t => has_status s (q_status t)) ts)) <$> TASK_QUEUE_STATUSES)
    (count_where (fun t => has_status pending (q_status t) && (now <? q_scheduled_at t)) ts)
    (count_where (fun t => has_status processing (q_status t) && lock_expired now t) ts)
    (oldest_age now (fun t => has_status pending (q_status t) && (q_scheduled_at t <=? now)) ts)
    (oldest_age now (fun t => has_status dead (q_status t)) ts).

Record replay_result := ReplayResult { rr_id : string; rr_success : bool; rr_error : option string }.
Record replay_report := ReplayReport { replayed : nat; replay_failed : nat; replay_results : list replay_result }.

Definition id_text (t : task) : string := str_of_Z (q_id t).

(** [found = {row[0]: row[1] for row in rows}], the rows selected by id. *)
Definition found_status (task_id : string) (ts : list task) : option task_status :=
  q_status <$> List.find (fun t => String.eqb (id_text t) task_id) ts.

(** The first loop: the ids to replay, and a result for each other id. *)
Fixpoint split_ids (ts : list task) (ids : list string) : list string * list replay_result :=
  match ids with
  | [] => ([], [])
  | i :: ids' =>
      let '(targets, results) := split_ids ts ids' in
      match found_status i ts with
      | None => (targets, ReplayResult i false (Some "not_found") :: results)
      | Some st =>
          if has_status dead st then (i :: targets, results)
          else (targets, ReplayResult i false (Some ("status_is_" +:+ status_text st +:+ "_not_dead")) :: results)
      end
  end.

Definition replay_row (now : Z) (t : task) : task := set_state pending now None None 0 None None None t.
Definition dead_with_id (i : string) (t : task) : bool := String.eqb (id_text t) i && has_status dead (q_status t).

Fixpoint replay_targets (now : Z) (targets : list string) : dbm queue (list replay_result) :=
  match targets with
  | [] => dret []
  | i :: targets' =>
      rowcount <~ update_tasks (dead_with_id i) (replay_row now) ;;
      results <~ replay_targets now targets' ;;
      dret ((if (rowcount =? 1)%nat then ReplayResult i true None
             else ReplayResult i false (Some "no_rows_updated_race_condition")) :: results)
  end.

(** [ids] as their texts; [None] and the empty list select the oldest dead rows. *)
Definition replay_dead_tasks (now : Z) (ids : option (list string)) (limit : Z) : dbm queue replay_report :=
  if (limit <? 1) || (1000 <? limit) then draise (ValueError "limit must be between 1 and 1000")
  else
    plan <~ dget (fun q =>
      match ids with
      | Some (i :: l) => split_ids (task_queue q) (i :: l)
      | _ => (id_text <$> take (Z.to_nat limit)
                (order_by (fun a b => q_created_at a <=? q_created_at b)
                  (where_ (fun t => has_status dead (q_status t)) (task_queue q))), [])
      end) ;;
    updates <~ replay_targets now (fst plan) ;;
    let results := (snd plan ++ updates)%list in
    let n := length (List.filter rr_success results) in
    dret (ReplayReport n (length results - n) results).

(** ** Backoff *)

Definition compute_backoff_seconds (attempts cap_seconds : Z) : Z :=
  let attempts := if attempts <? 0 then 0 else attempts in
  Z.min (30 * 2 ^ attempts) cap_seconds.
Definition default_cap : Z := 600.

(** ** The worker *)

(** [TASK_HANDLERS]; a handler returns or raises. *)
Definition handlers : Type := gmap string (pydict -> res unit).
Definition register_task_handler (task_type : string) (h : pydict -> res unit) (hs : handlers) : handlers := <[task_type := h]> hs.
Definition clear_task_handlers : handlers := ∅.

Record worker := Worker { worker_id : string; lock_duration : Z; task_types : option (list string) }.
Definition DEFAULT_LOCK_DURATION_SECONDS : Z := 300.
Definition FOREIGN_TASK_DEFER_SECONDS : Z := 1.

Definition _release_stale_locks (now : Z) : dbm queue nat :=
  update_tasks (fun t => has_status processing (q_status t) && lock_expired now t)
    (fun t => set_state pending now None (q_completed_at t) (q_attempts t) (q_last_error t) None None t).

(** *** Claim *)

Definition type_allowed (w : worker) (t : task) : bool :=
  match task_types w with
  | Some (x :: l) => existsb (String.eqb (q_task_type t)) (x :: l)
  | _ => true
  end.

Definition eligible (now : Z) (w : worker) (t : task) : bool :=
  has_status pending (q_status t) && (q_scheduled_at t <=? now)
  && match q_locked_until t with None => true | Some u => u <=? now end
  && type_allowed w t.

(** [ORDER BY priority DESC, scheduled_at ASC, created_at ASC]. *)
Definition claim_le (a b : task) : bool :=
  if q_priority b <? q_priority a then true
  else if q_priority a <? q_priority b then false
  else if q_scheduled_at a <? q_scheduled_at b then true
  else if q_scheduled_at b <? q_scheduled_at a then false
  else q_created_at a <=? q_created_at b.

(** [SELECT DISTINCT ON (tenant_id) ... ORDER BY tenant_id, ...]: the first row of each tenant. *)
Definition per_tenant (rows : list task) : list task :=
  omap (fun tenant => head (order_by claim_le (where_ (fun t => bool_decide (q_tenant_id t = tenant)) rows)))
    (remove_dups (q_tenant_id <$> rows)).

Definition winner (now : Z) (w : worker) (q : queue) : option task :=
  head (order_by claim_le (per_tenant (where_ (eligible now w) (task_queue q)))).

Definition lock_task (now : Z) (w : worker) (t : task) : task :=
  set_state processing (q_scheduled_at t) (Some now) (q_completed_at t) (q_attempts t) (q_last_error t)
    (Some (worker_id w))
    (Some (now + seconds (match q_visibility_timeout_seconds t with Some v => v | None => lock_duration w end))) t.

(** The dictionary that a claim returns. *)
Record claimed := Claimed {
  c_id : Z; c_task_type : string; c_payload : pydict; c_attempts : Z; c_max_attempts : Z; c_tenant_id : option string
}.
Definition claimed_of (t : task) : claimed :=
  Claimed (q_id t) (q_task_type t) (q_payload t) (q_attempts t) (q_max_attempts t) (q_tenant_id t).

(** The second phase: [FOR UPDATE SKIP LOCKED] on the chosen id, then the update.  The row is read
    again under the lock; its id is the only condition. *)
Definition take_task (now : Z) (w : worker) (locked : list Z) (id : Z) : dbm queue (option claimed) := fun q =>
  if bool_decide (id ∈ locked) then (q, Ok None)
  else
    match List.find (fun t => q_id t =? id) (task_queue q) with
    | None => (q, Ok None)
    | Some t => (with_tasks (update_where (fun t => q_id t =? id) (lock_task now w) (task_queue q)) q, Ok (Some (claimed_of t)))
    end.

(** [_claim_one] with no other transaction between its phases. *)
Definition _claim_one (now : Z) (w : worker) : dbm queue (option claimed) := fun q =>
  match winner now w q with
  | None => (q, Ok None)
  | Some t => take_task now w [] (q_id t) q
  end.

(** *** Outcomes *)

Definition with_id (id : Z) (t : task) : bool := q_id t =? id.

(** [error[:4000] if error else None]. *)
Definition clamp (error : string) : option string := if String.eqb error "" then None else Some (str_take 4000 error).

Definition _mark_completed (now task_id : Z) : dbm queue nat :=
  update_tasks (with_id task_id)
    (fun t => set_state completed (q_scheduled_at t) (q_started_at t) (Some now) (q_attempts t) None None None t).

Definition _mark_dead (now task_id : Z) (error : string) (attempts : option Z) : dbm queue nat :=
  update_tasks (with_id task_id)
    (fun t => set_state dead (q_scheduled_at t) (q_started_at t) (Some now)
                (match attempts with Some a => a | None => q_attempts t end) (clamp error) None None t).

Definition _mark_failed (now : Z) (c : claimed) (error : string) : dbm queue nat :=
  let new_attempts := c_attempts c + 1 in
  if c_max_attempts c <=? new_attempts then _mark_dead now (c_id c) error (Some new_attempts)
  else
    update_tasks (with_id (c_id c))
      (fun t => set_state pending (now + seconds (compute_backoff_seconds new_attempts default_cap)) None (q_completed_at t)
                  new_attempts (clamp error) None None t).

Section Worker.
(** Rows that the row-level policy shows to a transaction that did not arm the global context;
    [_release_claim] is the one statement that does not. *)
Variable unarmed_visible : task -> bool.

Definition _release_claim (now : Z) (w : worker) (task_id defer_seconds : Z) : dbm queue bool :=
  rowcount <~ update_tasks (fun t => unarmed_visible t && with_id task_id t && has_status processing (q_status t)
                                     && bool_decide (q_locked_by t = Some (worker_id w)))
    (fun t => set_state pending (now + seconds (Z.max 0 defer_seconds)) None (q_completed_at t) (q_attempts t)
                (q_last_error t) None None t) ;;
  dret (negb (rowcount =? 0)%nat).

(** [now] is the time at which the handler has returned. *)
Definition _dispatch (now : Z) (w : worker) (hs : handlers) (c : claimed) : dbm queue bool :=
  match hs !! c_task_type c with
  | None => _ <~ _release_claim now w (c_id c) FOREIGN_TASK_DEFER_SECONDS ;; dret false
  | Some h =>
      match h (c_payload c) with
      | Raise e => _ <~ _mark_failed now c (exn_msg e) ;; dret true
      | Ok _ => _ <~ _mark_completed now (c_id c) ;; dret true
      end
  end.

(** [run_once]; [now] of the claim, [later] of the outcome. *)
Definition run_once (now later : Z) (w : worker) (hs : handlers) : dbm queue (option Z) :=
  _ <~ _release_stale_locks now ;;
  taken <~ _claim_one now w ;;
  match taken with
  | None => dret None
  | Some c => done <~ _dispatch later w hs c ;; dret (if done then Some (c_id c) else None)
  end.
End Worker.

(** ** Backoff *)

(** The delay before a retry: at least half a minute and at most the cap, doubling per attempt
    until the cap is reached, at five counted attempts for the default cap. *)
Theorem backoff_bounds n cap :
  30 <= cap ->
  30 <= compute_backoff_seconds n cap <= cap
  /\ (forall m, n <= m -> compute_backoff_seconds n cap <= compute_backoff_seconds m cap)
  /\ (0 <= n -> 30 * 2 ^ (n + 1) <= cap -> compute_backoff_seconds (n + 1) cap = 2 * compute_backoff_seconds n cap)
  /\ (compute_backoff_seconds n default_cap = default_cap <-> 5 <= n).
Proof.
  intros Hcap. unfold compute_backoff_seconds, default_cap.
  set (p := fun a => if a <? 0 then 0 else a).
  assert (Hp : forall a, 0 <= p a /\ (0 <= a -> p a = a)) by (intros a; unfold p; destruct (Z.ltb_spec a 0); lia).
  assert (Hmono : forall a b, p a <= p b -> 2 ^ p a <= 2 ^ p b) by (intros a b Hab; apply Z.pow_le_mono_r; lia).
  assert (H1 : forall a, 1 <= 2 ^ p a) by (intros a; pose proof (Z.pow_pos_nonneg 2 (p a)); destruct (Hp a); lia).
  split; [specialize (H1 n); fold (p n); lia|]. split; [|split].
  - intros m Hm. fold (p n) (p m). assert (p n <= p m) by (unfold p; destruct (Z.ltb_spec n 0), (Z.ltb_spec m 0); lia).
    specialize (Hmono n m H). lia.
  - intros Hn Hc. fold (p n) (p (n + 1)). rewrite !(proj2 (Hp _)) by lia. rewrite Z.pow_add_r in * by lia.
    change (2 ^ 1) with 2 in *. assert (0 < 2 ^ n) by (apply Z.pow_pos_nonneg; lia). lia.
  - fold (p n). split; intros H.
    + destruct (Z.le_gt_cases 5 n); [done|]. assert (p n <= 4) by (unfold p; destruct (Z.ltb_spec n 0); lia).
      assert (2 ^ p n <= 2 ^ 4) by (apply Z.pow_le_mono_r; lia). lia.
    + rewrite (proj2 (Hp n)) by lia. assert (2 ^ 5 <= 2 ^ n) by (apply Z.pow_le_mono_r; lia). lia.
Qed.

Lemma default_backoff_le n : seconds (compute_backoff_seconds n default_cap) <= seconds default_cap.
Proof. unfold seconds, compute_backoff_seconds. lia. Qed.

(** ** Which row a claim takes *)

Lemma claim_le_total a b : claim_le a b = true \/ claim_le b a = true.
Proof.
  unfold claim_le. destruct (Z.ltb_spec (q_priority b) (q_priority a)), (Z.ltb_spec (q_priority a) (q_priority b)),
    (Z.ltb_spec (q_scheduled_at a) (q_scheduled_at b)), (Z.ltb_spec (q_scheduled_at b) (q_scheduled_at a)); try lia; auto.
Qed.

(** The order as a proposition. *)
Lemma claim_le_iff a b :
  claim_le a b = true <->
  q_priority b < q_priority a
  \/ (q_priority a = q_priority b /\ (q_scheduled_at a < q_scheduled_at b
      \/ (q_scheduled_at a = q_scheduled_at b /\ q_created_at a <= q_created_at b))).
Proof.
  unfold claim_le. destruct (Z.ltb_spec (q_priority b) (q_priority a)), (Z.ltb_spec (q_priority a) (q_priority b)),
    (Z.ltb_spec (q_scheduled_at a) (q_scheduled_at b)), (Z.ltb_spec (q_scheduled_at b) (q_scheduled_at a));
    rewrite ?Z.leb_le; split; intros; try discriminate; try lia; try done.
Qed.

Lemma claim_le_trans a b c : claim_le a b = true -> claim_le b c = true -> claim_le a c = true.
Proof. rewrite !claim_le_iff. lia. Qed.

Lemma head_order_by l x :
  head (order_by claim_le l) = Some x -> x ∈ l /\ forall y, y ∈ l -> claim_le x y = true.
Proof.
  destruct (order_by claim_le l) as [|y l'] eqn:E; [done|]. intros [= ->].
  by apply (order_by_head claim_le claim_le_total claim_le_trans l x l').
Qed.

Lemma head_order_by_None l : head (order_by claim_le l) = None <-> l = [].
Proof. rewrite <- (order_by_nil claim_le l). by destruct (order_by claim_le l). Qed.

Lemma head_order_by_Some l y : y ∈ l -> exists x, head (order_by claim_le l) = Some x.
Proof.
  intros Hy. destruct (head (order_by claim_le l)) as [x|] eqn:E; [by eauto|]. apply head_order_by_None in E as ->.
  by apply not_elem_of_nil in Hy.
Qed.

Lemma per_tenant_elem rows x : x ∈ per_tenant rows -> x ∈ rows.
Proof.
  unfold per_tenant. rewrite list_elem_of_omap. intros (tn & _ & Hx). apply head_order_by in Hx as [Hx _].
  by apply elem_of_where in Hx as [? _].
Qed.

Lemma per_tenant_best rows y : y ∈ rows -> exists x, x ∈ per_tenant rows /\ claim_le x y = true.
Proof.
  intros Hy. assert (y ∈ where_ (fun t => bool_decide (q_tenant_id t = q_tenant_id y)) rows) as Hy'
    by (apply elem_of_where; by rewrite bool_decide_true).
  destruct (head_order_by_Some _ y Hy') as (x & Hx). exists x. split; [|by apply head_order_by in Hx as [_ Hx]; apply Hx].
  unfold per_tenant. apply list_elem_of_omap. exists (q_tenant_id y). split; [|done].
  apply elem_of_remove_dups, list_elem_of_fmap. by exists y.
Qed.

Lemma winner_Some now w q t :
  winner now w q = Some t ->
  t ∈ task_queue q /\ eligible now w t = true
  /\ forall y, y ∈ task_queue q -> eligible now w y = true -> claim_le t y = true.
Proof.
  unfold winner. intros [Hin Hmin]%head_order_by. apply per_tenant_elem, elem_of_where in Hin as [Hin He].
  split; [done|]. split; [done|]. intros y Hy Hey.
  destruct (per_tenant_best (where_ (eligible now w) (task_queue q)) y) as (x & Hx & Hxy); [by apply elem_of_where|].
  eapply claim_le_trans; [by apply Hmin|done].
Qed.

Lemma winner_None now w q :
  winner now w q = None <-> forall t, t ∈ task_queue q -> eligible now w t = false.
Proof.
  unfold winner. rewrite head_order_by_None. split.
  - intros E t Ht. destruct (eligible now w t) eqn:He; [|done].
    destruct (per_tenant_best (where_ (eligible now w) (task_queue q)) t) as (x & Hx & _); [by apply elem_of_where|].
    rewrite E in Hx. by apply not_elem_of_nil in Hx.
  - intros H. destruct (per_tenant _) as [|x l] eqn:E; [done|]. exfalso.
    assert (x ∈ per_tenant (where_ (eligible now w) (task_queue q))) as Hx by (rewrite E; left).
    apply per_tenant_elem, elem_of_where in Hx as [Hin He]. by rewrite H in He.
Qed.

Lemma find_id q t :
  NoDup (q_id <$> task_queue q) -> t ∈ task_queue q -> List.find (fun t' => q_id t' =? q_id t) (task_queue q) = Some t.
Proof.
  intros Hd Ht. apply (find_unique q_id); [done|done|by apply Z.eqb_refl|]. intros r' E. by apply Z.eqb_eq in E.
Qed.

Lemma claim_one_run now w q :
  NoDup (q_id <$> task_queue q) ->
  (exists t, winner now w q = Some t
     /\ _claim_one now w q = (with_tasks (update_where (with_id (q_id t)) (lock_task now w) (task_queue q)) q, Ok (Some (claimed_of t))))
  \/ (winner now w q = None /\ _claim_one now w q = (q, Ok None)).
Proof.
  intros Hd. unfold _claim_one. destruct (winner now w q) as [t|] eqn:E; [left|by right].
  exists t. split; [done|]. apply winner_Some in E as (Hin & _). unfold take_task.
  rewrite bool_decide_false by apply not_elem_of_nil. by rewrite find_id.
Qed.

(** Which row a claim takes.  With the worker's rows eligible at [now], a claim takes one that no
    other eligible row of any tenant precedes in the order priority, schedule, creation; it locks that
    row for its visibility timeout and changes no other; without eligible rows it answers [None].  (The
    choice of one candidate per tenant has no influence: there is no rotation between tenants.) *)
Theorem claim_takes_global_best now w q :
  NoDup (q_id <$> task_queue q) ->
  match _claim_one now w q with
  | (q', Ok (Some c)) =>
      exists t, t ∈ task_queue q /\ eligible now w t = true /\ c = claimed_of t
        /\ (forall y, y ∈ task_queue q -> eligible now w y = true -> claim_le t y = true)
        /\ task_queue q' = update_where (fun r => q_id r =? q_id t) (lock_task now w) (task_queue q)
  | (q', Ok None) => q' = q /\ forall t, t ∈ task_queue q -> eligible now w t = false
  | (_, Raise _) => False
  end.
Proof.
  intros Hd. destruct (claim_one_run now w q Hd) as [(t & Hw & ->)|[Hw ->]].
  - apply winner_Some in Hw as (H1 & H2 & H3). exists t. done.
  - split; [done|]. by apply winner_None.
Qed.

(** ** What a dispatch does *)

(** The row after its dispatch. *)
Definition dispatched (visible : task -> bool) (now : Z) (w : worker) (hs : handlers) (c : claimed) (t : task) : task :=
  match hs !! c_task_type c with
  | None =>
      if visible t && has_status processing (q_status t) && bool_decide (q_locked_by t = Some (worker_id w))
      then set_state pending (now + seconds FOREIGN_TASK_DEFER_SECONDS) None (q_completed_at t) (q_attempts t) (q_last_error t) None None t
      else t
  | Some h =>
      match h (c_payload c) with
      | Ok _ => set_state completed (q_scheduled_at t) (q_started_at t) (Some now) (q_attempts t) None None None t
      | Raise e =>
          if c_max_attempts c <=? c_attempts c + 1
          then set_state dead (q_scheduled_at t) (q_started_at t) (Some now) (c_attempts c + 1) (clamp (exn_msg e)) None None t
          else set_state pending (now + seconds (compute_backoff_seconds (c_attempts c + 1) default_cap)) None (q_completed_at t)
                 (c_attempts c + 1) (clamp (exn_msg e)) None None t
      end
  end.

Lemma update_where_ext {R} (p p' : R -> bool) (f f' : R -> R) (l : list R) :
  (forall r, (if p r then f r else r) = (if p' r then f' r else r)) -> update_where p f l = update_where p' f' l.
Proof. intros H. apply map_ext. exact H. Qed.

Lemma dispatch_run vis now w hs c q :
  _dispatch vis now w hs c q
  = (with_tasks (update_where (with_id (c_id c)) (dispatched vis now w hs c) (task_queue q)) q,
     Ok (bool_decide (is_Some (hs !! c_task_type c)))).
Proof.
  unfold _dispatch, dispatched, dbind, dret. destruct (hs !! c_task_type c) as [h|] eqn:Eh.
  - rewrite bool_decide_true by eauto. destruct (h (c_payload c)) as [u|e]; [done|].
    unfold _mark_failed. cbv zeta. by destruct (c_max_attempts c <=? c_attempts c + 1).
  - rewrite bool_decide_false by (by intros [? ?]). unfold _release_claim, dbind, dret, update_tasks. cbn beta iota. do 2 f_equal.
    apply update_where_ext. intros r. destruct (with_id (c_id c) r); [|by rewrite andb_false_r].
    rewrite andb_true_r. by destruct (_ && _).
Qed.

(** Every branch of a dispatch, on the claimed row: success completes it; a failure counts one
    attempt and either schedules the retry after the backoff or, at the last attempt, makes it dead; a
    task type without a handler gives the row back unattempted, deferred by a second and only when
    this worker still holds it.  No other row changes, and the answer says whether a handler ran. *)
Theorem dispatch_branches vis now w hs c q t :
  NoDup (q_id <$> task_queue q) -> t ∈ task_queue q -> q_id t = c_id c ->
  exists q' r, _dispatch vis now w hs c q = (q', Ok r)
  /\ (r = true <-> is_Some (hs !! c_task_type c))
  /\ (forall u, u ∈ task_queue q -> q_id u <> c_id c -> u ∈ task_queue q')
  /\ exists t', t' ∈ task_queue q' /\ q_id t' = q_id t /\
     match hs !! c_task_type c with
     | None =>
         q_attempts t' = q_attempts t /\
         (vis t = true -> q_status t = processing -> q_locked_by t = Some (worker_id w) ->
            q_status t' = pending /\ q_scheduled_at t' = now + seconds 1 /\ q_locked_until t' = None)
         /\ (q_locked_by t <> Some (worker_id w) -> t' = t)
     | Some h =>
         match h (c_payload c) with
         | Ok _ => q_status t' = completed /\ q_attempts t' = q_attempts t /\ q_completed_at t' = Some now
         | Raise e =>
             q_attempts t' = c_attempts c + 1
             /\ (c_attempts c + 1 < c_max_attempts c -> q_status t' = pending
                  /\ q_scheduled_at t' = now + seconds (compute_backoff_seconds (c_attempts c + 1) default_cap))
             /\ (c_max_attempts c <= c_attempts c + 1 -> q_status t' = dead)
         end
     end.
Proof.
  intros Hd Ht Hid. rewrite dispatch_run. eexists _, _. split; [done|]. split; [by rewrite bool_decide_eq_true|]. split.
  { intros u Hu Hne. cbn. apply elem_of_update_where. exists u. split; [done|]. unfold with_id.
    destruct (Z.eqb_spec (q_id u) (c_id c)); done. }
  exists (dispatched vis now w hs c t). split.
  { cbn. apply elem_of_update_where. exists t. unfold with_id. by rewrite Hid, Z.eqb_refl. }
  unfold dispatched. destruct (hs !! c_task_type c) as [h|].
  - destruct (h (c_payload c)) as [u|e]; [done|].
    destruct (Z.leb_spec (c_max_attempts c) (c_attempts c + 1)); cbn; repeat split; intros; try done; lia.
  - destruct (vis t && _ && _) eqn:E; cbn; repeat split; intros; try done.
    + apply andb_true_iff in E as [_ E]. by apply bool_decide_eq_true in E.
    + unfold has_status in E. by rewrite H, H0, H1, !bool_decide_true in E.
    + unfold has_status in E. by rewrite H, H0, H1, !bool_decide_true in E.
    + unfold has_status in E. by rewrite H, H0, H1, !bool_decide_true in E.
Qed.

(** ** Reachable queues *)

Section Steps.
Context `{PyLib}.
Variable vis : task -> bool.

(** Tasks that a worker has claimed and whose outcome it has not yet written; a worker that crashes
    never writes it. *)
Definition in_flight : Type := list (worker * claimed).

Inductive qstep : queue * in_flight -> queue * in_flight -> Prop :=
| qs_enqueue now a q q' id fl :
    enqueue_task now a q = (q', Ok id) -> 1 <= en_max_attempts a -> qstep (q, fl) (q', fl)
| qs_stale now q fl : qstep (q, fl) (fst (_release_stale_locks now q), fl)
| qs_claim now w c q q' fl :
    _claim_one now w q = (q', Ok (Some c)) -> qstep (q, fl) (q', (w, c) :: fl)
| qs_finish now w hs c q fl1 fl2 :
    qstep (q, (fl1 ++ (w, c) :: fl2)%list) (fst (_dispatch vis now w hs c q), (fl1 ++ fl2)%list)
| qs_replay now ids limit q fl :
    qstep (q, fl) (fst (replay_dead_tasks now ids limit q), fl).

Inductive reachable (s : queue * in_flight) : queue * in_flight -> Prop :=
| reach_refl : reachable s s
| reach_step s' s'' : reachable s s' -> qstep s' s'' -> reachable s s''.

(** *** Replays *)

Definition target (targets : list string) (t : task) : bool := existsb (String.eqb (id_text t)) targets && has_status dead (q_status t).

Lemma replay_targets_run now targets q :
  exists results, replay_targets now targets q
    = (with_tasks (update_where (target targets) (replay_row now) (task_queue q)) q, Ok results).
Proof.
  revert q. induction targets as [|i targets IH]; intros q; cbn [replay_targets].
  - exists []. unfold dret. do 2 f_equal. unfold update_where, with_tasks. destruct q as [ts n]. f_equal. cbn.
    symmetry. apply map_id.
  - unfold dbind, update_tasks at 1. cbn beta iota.
    destruct (IH (with_tasks (update_where (dead_with_id i) (replay_row now) (task_queue q)) q)) as (rs & ->).
    eexists. unfold dret. f_equal. unfold with_tasks. cbn [task_queue next_id]. f_equal.
    unfold update_where. rewrite map_map. apply map_ext. intros t. unfold target, dead_with_id. cbn [existsb].
    destruct (String.eqb_spec (id_text t) i) as [E|E]; cbn [andb orb].
    + destruct (has_status dead (q_status t)) eqn:Es; [|by rewrite Es, andb_false_r].
      cbn. by rewrite andb_false_r.
    + done.
Qed.

Lemma replay_run now ids limit q :
  exists p, fst (replay_dead_tasks now ids limit q) = with_tasks (update_where p (replay_row now) (task_queue q)) q
    /\ forall t, p t = true -> q_status t = dead.
Proof.
  assert (Hid : q = with_tasks (update_where (fun _ => false) (replay_row now) (task_queue q)) q).
  { destruct q as [ts n]. unfold with_tasks, update_where. cbn. by rewrite map_id. }
  unfold replay_dead_tasks. destruct ((limit <? 1) || (1000 <? limit)); [by exists (fun _ => false)|].
  unfold dbind, dget, dret. cbn beta iota. match goal with |- context [replay_targets now ?ts q] => destruct (replay_targets_run now ts q) as (rs & ->) end.
  cbn beta iota. eexists. split; [done|]. intros t Ht. unfold target in Ht. apply andb_true_iff in Ht as [_ Ht].
  by apply bool_decide_eq_true in Ht.
Qed.

(** *** The invariant *)

Definition task_bounded (t : task) : Prop :=
  1 <= q_max_attempts t /\ 0 <= q_attempts t <= q_max_attempts t
  /\ (q_status t = pending \/ q_status t = processing -> q_attempts t < q_max_attempts t)
  /\ (q_status t = dead -> q_attempts t = q_max_attempts t).

Definition claim_valid (ts : list task) (c : claimed) : Prop :=
  0 <= c_attempts c < c_max_attempts c /\ exists t, t ∈ ts /\ q_id t = c_id c /\ q_max_attempts t = c_max_attempts c.

Definition queue_wf (s : queue * in_flight) : Prop :=
  let '(q, fl) := s in
  NoDup (q_id <$> task_queue q) /\ Forall (fun t => q_id t < next_id q) (task_queue q)
  /\ Forall task_bounded (task_queue q) /\ Forall (fun wc => claim_valid (task_queue q) (snd wc)) fl.

Definition keeps_identity (f : task -> task) : Prop :=
  forall t, q_id (f t) = q_id t /\ q_max_attempts (f t) = q_max_attempts t /\ q_tenant_id (f t) = q_tenant_id t
            /\ q_idempotency_key (f t) = q_idempotency_key t.

Lemma queue_wf_update q fl p f :
  queue_wf (q, fl) -> keeps_identity f -> (forall t, t ∈ task_queue q -> p t = true -> task_bounded t -> task_bounded (f t)) ->
  queue_wf (with_tasks (update_where p f (task_queue q)) q, fl).
Proof.
  intros (Hd & Hn & Hb & Hc) Hk Hf. cbn. rewrite update_where_key by (intros t; apply Hk).
  split; [done|]. split; [|split].
  - apply Forall_update_where; [done|]. intros t _ _. destruct (Hk t) as [-> _]. done.
  - apply Forall_update_where; [done|]. done.
  - eapply Forall_impl; [exact Hc|]. intros [w c] [H1 (t & Ht & H2 & H3)]. split; [done|].
    exists (if p t then f t else t). split; [apply elem_of_update_where; by eauto|].
    destruct (p t); [|done]. destruct (Hk t) as (-> & -> & _). done.
Qed.

Lemma insert_wf now a q fl :
  queue_wf (q, fl) -> 1 <= en_max_attempts a -> queue_wf (fst (insert_task now a q), fl).
Proof.
  intros (Hd & Hn & Hb & Hc) Hm. cbn. rewrite fmap_app. split; [|split; [|split]].
  - apply NoDup_app. split; [done|]. split; [|apply NoDup_singleton]. intros i Hi ->%list_elem_of_singleton. cbn in Hi.
    apply list_elem_of_fmap in Hi as (t & E & Ht). rewrite Forall_forall in Hn. specialize (Hn t Ht). lia.
  - apply Forall_app. split; [eapply Forall_impl; [exact Hn|]; cbn; lia|]. apply Forall_singleton. cbn. lia.
  - apply Forall_app. split; [done|]. apply Forall_singleton. unfold task_bounded. cbn. repeat split; try done; lia.
  - eapply Forall_impl; [exact Hc|]. intros [w c] [H1 (t & Ht & H2)]. split; [done|]. exists t.
    split; [by apply elem_of_app; left|done].
Qed.

Lemma qstep_wf s s' : qstep s s' -> queue_wf s -> queue_wf s'.
Proof.
  destruct 1 as [now a q q' id fl He Hm|now q fl|now w c q q' fl He|now w hs c q fl1 fl2|now ids limit q fl]; intros Hwf.
  - unfold enqueue_task in He. assert (Hi : queue_wf (fst (insert_task now a q), fl)) by by apply insert_wf.
    assert (Hsame : queue_wf (Queue (task_queue q) (next_id q + 1), fl)).
    { destruct Hwf as (H1 & H2 & H3 & H4). split; [done|]. split; [|done]. eapply Forall_impl; [exact H2|]. cbn. lia. }
    destruct (en_idempotency_key a) as [key|].
    + destruct (falsy_text _); [done|]. destruct (json_dumps _ _); [|done].
      destruct (List.find (same_key _ key) _).
      * cbv zeta in He. destruct (List.find (keyed_task _ key) _); [|done]. by injection He as <- _.
      * by rewrite He in Hi.
    + destruct (json_dumps _ _); [|done]. by rewrite He in Hi.
  - apply queue_wf_update; [done|done|]. intros t _ Hp (H1 & H2 & H3 & H4). apply andb_true_iff in Hp as [Hp _].
    apply bool_decide_eq_true in Hp. split; [done|]. split; [done|]. split; [|done]. intros _. apply H3. by right.
  - pose proof Hwf as (Hd & _ & Hb & _). destruct (claim_one_run now w q Hd) as [(t & Hw & E)|[_ E]]; rewrite E in He; [|done].
    injection He as <- <-. apply winner_Some in Hw as (Hin & Hel & _).
    assert (Hp : q_status t = pending).
    { unfold eligible in Hel. do 3 (apply andb_true_iff in Hel as [Hel _]). by apply bool_decide_eq_true in Hel. }
    pose proof Hb as Hb'. rewrite Forall_forall in Hb'. specialize (Hb' t Hin). destruct Hb' as (H1 & H2 & H3 & _).
    specialize (H3 (or_introl Hp)).
    assert (Hwf' : queue_wf (with_tasks (update_where (with_id (q_id t)) (lock_task now w) (task_queue q)) q, fl)).
    { apply queue_wf_update; [done|done|]. intros t' Hin' Hid _. unfold with_id in Hid. apply Z.eqb_eq in Hid.
      rewrite (key_unique q_id (task_queue q) t' t) by done. split; [done|]. split; [done|]. split; [|done]. by intros _. }
    destruct Hwf' as (A & B & C & D). split; [done|]. split; [done|]. split; [done|]. constructor; [|done].
    split; [cbn; lia|]. exists (lock_task now w t). split; [|done]. cbn. apply elem_of_update_where. exists t.
    unfold with_id. by rewrite Z.eqb_refl.
  - rewrite dispatch_run. cbn [fst]. destruct Hwf as (Hd & Hn & Hb & Hc). apply Forall_app in Hc as [Hc1 Hc2].
    inversion Hc2 as [|? ? [Ha (t0 & Hin0 & Hid0 & Hm0)] Hc3 E1]; subst. cbn [snd] in *.
    apply queue_wf_update.
    + split; [done|]. split; [done|]. split; [done|]. by apply Forall_app.
    + intros t. unfold dispatched. repeat case_match; done.
    + intros t Hin Hid (H1 & H2 & H3 & H4). unfold with_id in Hid. apply Z.eqb_eq in Hid.
      rewrite (key_unique q_id (task_queue q) t0 t) in Hm0 by (try done; congruence).
      unfold dispatched. destruct (hs !! c_task_type c) as [h|].
      * destruct (h (c_payload c)) as [u|e]; [split; [done|]; split; [done|]; split; [by intros [?|?]|done]|]. rewrite <- Hm0 in *.
        destruct (Z.leb_spec (q_max_attempts t) (c_attempts c + 1)); (split; [done|]); cbn; (split; [lia|]); split;
          try (intros [?|?]; done); try (intros _; lia); try done.
      * destruct (_ && bool_decide _) eqn:E; [|by split]. apply andb_true_iff in E as [E _]. apply andb_true_iff in E as [_ E].
        apply bool_decide_eq_true in E. split; [done|]. split; [done|]. split; [|done]. intros _. apply H3. by right.
  - destruct (replay_run now ids limit q) as (p & -> & Hp). apply queue_wf_update; [done|done|].
    intros t _ Ht (H1 & H2 & H3 & H4). split; [done|]. cbn. split; [lia|]. split; [intros _; lia|done].
Qed.

Lemma reachable_wf s s' : queue_wf s -> reachable s s' -> queue_wf s'.
Proof. intros Hs. induction 1; eauto using qstep_wf. Qed.

(** Attempts stay within their bound.  In every queue that workers, callers and operators can
    reach, in any interleaving (workers that crash between claim and outcome, outcomes written after
    the lock expired and another worker took the row over, replays), no task counts more than its
    maximum of attempts, a task that can still run has attempts left, and a dead one has used them
    all. *)
Theorem attempts_within_maximum s q fl t :
  queue_wf s -> reachable s (q, fl) -> t ∈ task_queue q ->
  0 <= q_attempts t <= q_max_attempts t
  /\ (q_status t = pending \/ q_status t = processing -> q_attempts t < q_max_attempts t)
  /\ (q_status t = dead -> q_attempts t = q_max_attempts t).
Proof.
  intros Hs Hr Ht. destruct (reachable_wf s (q, fl) Hs Hr) as (_ & _ & Hb & _). rewrite Forall_forall in Hb.
  by destruct (Hb t Ht) as (_ & H1 & H2 & H3).
Qed.

(** *** Idempotent enqueue *)

Definition same_identity (t t' : task) : Prop :=
  q_id t' = q_id t /\ q_tenant_id t' = q_tenant_id t /\ q_idempotency_key t' = q_idempotency_key t.

(** The partial unique index. *)
Definition keys_unique (ts : list task) : Prop :=
  forall t t' k, t ∈ ts -> t' ∈ ts -> q_idempotency_key t = Some k -> q_idempotency_key t' = Some k ->
    q_tenant_id t = q_tenant_id t' -> q_id t = q_id t'.

Lemma keys_update ts p f :
  keeps_identity f -> keys_unique ts ->
  keys_unique (update_where p f ts) /\ forall t, t ∈ ts -> exists t', t' ∈ update_where p f ts /\ same_identity t t'.
Proof.
  intros Hk Hu.
  assert (Hf : forall t, same_identity t (if p t then f t else t)) by (intros t; destruct (p t); [|done]; by destruct (Hk t) as (? & _ & ? & ?)).
  split.
  - intros r r' k (t & Ht & ->)%elem_of_update_where (t' & Ht' & ->)%elem_of_update_where.
    destruct (Hf t) as (-> & -> & ->), (Hf t') as (-> & -> & ->). by apply Hu.
  - intros t Ht. exists (if p t then f t else t). split; [apply elem_of_update_where; by eauto|apply Hf].
Qed.

Lemma same_key_iff tenant k t : same_key tenant k t = true <-> q_tenant_id t = tenant /\ q_idempotency_key t = Some k.
Proof. unfold same_key. rewrite andb_true_iff, !bool_decide_eq_true. done. Qed.

Lemma insert_keys now a q :
  keys_unique (task_queue q) ->
  (forall k, en_idempotency_key a = Some k -> List.find (same_key (en_tenant_id a) k) (task_queue q) = None) ->
  keys_unique (task_queue (fst (insert_task now a q))).
Proof.
  intros Hu Hn t t' k. cbn. rewrite !elem_of_app, !list_elem_of_singleton.
  assert (Hno : forall r, r ∈ task_queue q -> q_idempotency_key r = Some k -> en_idempotency_key a = Some k -> q_tenant_id r <> en_tenant_id a).
  { intros r Hr Hk Hak E. specialize (Hn k Hak). apply List.find_none with (x := r) in Hn; [|by apply list_elem_of_In].
    apply not_true_iff_false in Hn. apply Hn. by apply same_key_iff. }
  intros [Ht| ->] [Ht'| ->] Hk Hk' Htn; cbn in *; [by apply (Hu t t' k)| | |done].
  - by destruct (Hno t Ht Hk Hk').
  - by destruct (Hno t' Ht' Hk' Hk).
Qed.

Lemma insert_keeps now a q t : t ∈ task_queue q -> exists t', t' ∈ task_queue (fst (insert_task now a q)) /\ same_identity t t'.
Proof. intros Ht. exists t. split; [|done]. cbn. apply elem_of_app. by left. Qed.

(** What an enqueue that returns did. *)
Lemma enqueue_cases now a q q' id :
  enqueue_task now a q = (q', Ok id) ->
  (id = next_id q /\ q' = fst (insert_task now a q)
     /\ forall k, en_idempotency_key a = Some k -> List.find (same_key (en_tenant_id a) k) (task_queue q) = None)
  \/ (task_queue q' = task_queue q
      /\ exists k t, en_idempotency_key a = Some k /\ List.find (same_key (en_tenant_id a) k) (task_queue q) = Some t /\ id = q_id t).
Proof.
  unfold enqueue_task. destruct (en_idempotency_key a) as [key|] eqn:Ek.
  - destruct (en_tenant_id a) as [tn|] eqn:Et; cbn [falsy_text]; [|done].
    destruct (String.eqb tn "") eqn:E0; [done|]. destruct (json_dumps _ _); [|done].
    destruct (List.find (same_key (Some tn) key) (task_queue q)) as [t|] eqn:Ef.
    + unfold ostr_or, str_or. rewrite E0. unfold keyed_task. rewrite Ef. intros [= <- <-]. right. split; [done|].
      exists key, t. done.
    + intros [= <- <-]. left. split; [done|]. split; [done|]. by intros k [= <-].
  - destruct (json_dumps _ _); [|done]. intros [= <- <-]. left. done.
Qed.

Lemma qstep_keys s s' :
  qstep s s' -> keys_unique (task_queue (fst s)) -> NoDup (q_id <$> task_queue (fst s)) ->
  keys_unique (task_queue (fst s')) /\ forall t, t ∈ task_queue (fst s) -> exists t', t' ∈ task_queue (fst s') /\ same_identity t t'.
Proof.
  destruct 1 as [now a q q' id fl He Hm|now q fl|now w c q q' fl He|now w hs c q fl1 fl2|now ids limit q fl]; cbn [fst]; intros Hu Hd.
  - apply enqueue_cases in He as [(_ & -> & Hn)|(-> & _)].
    + split; [by apply insert_keys|]. intros t. apply insert_keeps.
    + split; [done|]. intros t Ht. by exists t.
  - by apply keys_update.
  - destruct (claim_one_run now w q Hd) as [(t & _ & E)|[_ E]]; rewrite E in He; [|done]. injection He as <- _.
    by apply keys_update.
  - rewrite dispatch_run. apply keys_update; [|done]. intros t. unfold dispatched. repeat case_match; done.
  - destruct (replay_run now ids limit q) as (p & -> & _). by apply keys_update.
Qed.

Lemma reachable_keys s s' :
  reachable s s' -> queue_wf s -> keys_unique (task_queue (fst s)) ->
  keys_unique (task_queue (fst s')) /\ forall t, t ∈ task_queue (fst s) -> exists t', t' ∈ task_queue (fst s') /\ same_identity t t'.
Proof.
  intros Hr Hwf Hu. induction Hr as [|s' s'' Hr IH Hs]; [split; [done|]; intros t Ht; by exists t|].
  destruct IH as [Hu' IH]. pose proof (reachable_wf s s' Hwf Hr) as Hwf'. destruct s' as [q' fl'].
  destruct (qstep_keys _ _ Hs Hu') as [Hu'' Hk]; [by destruct Hwf'|]. split; [done|].
  intros t Ht. destruct (IH t Ht) as (t1 & Ht1 & E1 & E2 & E3). destruct (Hk t1 Ht1) as (t2 & Ht2 & E4 & E5 & E6).
  exists t2. split; [done|]. repeat split; congruence.
Qed.

(** Idempotent enqueue.  A task enqueued under a key is stored once: after whatever the workers,
    other callers and operators do, enqueueing again for the same tenant and key, with any other
    arguments, answers the same id and adds no row; and a key without a tenant is refused. *)
Theorem enqueue_idempotent now a now' a' q fl q1 q2 fl2 id key :
  queue_wf (q, fl) -> keys_unique (task_queue q) ->
  en_idempotency_key a = Some key -> en_idempotency_key a' = Some key -> en_tenant_id a' = en_tenant_id a ->
  is_ok (json_dumps (JsonOpts false ", " ": " false) (PDict (en_payload a'))) = true ->
  1 <= en_max_attempts a ->
  enqueue_task now a q = (q1, Ok id) -> reachable (q1, fl) (q2, fl2) ->
  (exists q', enqueue_task now' a' q2 = (q', Ok id) /\ task_queue q' = task_queue q2)
  /\ (forall b, en_idempotency_key b = Some key -> falsy_text (en_tenant_id b) = true ->
       enqueue_task now' b q2 = (q2, Raise (ValueError "tenant_id is required when idempotency_key is provided"))).
Proof.
  intros Hwf Hu Hk Hk' Htn Hjs Hm He Hr. split.
  2:{ intros b Hb Hf. unfold enqueue_task. by rewrite Hb, Hf. }
  assert (Hq1 : qstep (q, fl) (q1, fl)) by by eapply qs_enqueue.
  pose proof (qstep_wf _ _ Hq1 Hwf) as Hwf1. destruct (qstep_keys _ _ Hq1 Hu) as [Hu1 _]; [by destruct Hwf|]. cbn [fst] in Hu1.
  assert (Ht1 : exists t1, t1 ∈ task_queue q1 /\ q_id t1 = id /\ q_tenant_id t1 = en_tenant_id a /\ q_idempotency_key t1 = Some key).
  { apply enqueue_cases in He as [(-> & -> & _)|(E & k & t & E1 & Hf & ->)].
    - exists (new_task now (next_id q) a). split; [cbn; apply elem_of_app; right; left|done].
    - exists t. rewrite E. rewrite Hk in E1. injection E1 as <-. apply find_elem in Hf as [Hin Hs]. by apply same_key_iff in Hs as [? ?]. }
  destruct Ht1 as (t1 & Hin1 & <- & Htn1 & Hk1).
  destruct (reachable_keys _ _ Hr Hwf1 Hu1) as [Hu2 Hkeep]. cbn [fst] in *.
  destruct (Hkeep t1 Hin1) as (t2 & Hin2 & E1 & E2 & E3).
  assert (Hfind : exists t, List.find (same_key (en_tenant_id a) key) (task_queue q2) = Some t /\ q_id t = q_id t1).
  { destruct (List.find _ _) as [t|] eqn:Ef.
    - exists t. split; [done|]. apply find_elem in Ef as [Hin Hs]. apply same_key_iff in Hs as [Hs1 Hs2].
      rewrite <- E1. apply (Hu2 t t2 key); congruence.
    - apply List.find_none with (x := t2) in Ef; [|by apply list_elem_of_In]. apply not_true_iff_false in Ef. destruct Ef.
      apply same_key_iff. split; congruence. }
  destruct Hfind as (t & Hf & Hid). unfold enqueue_task in *. rewrite Hk in He. rewrite Hk', Htn.
  destruct (en_tenant_id a) as [tn|] eqn:Ea; cbn [falsy_text] in *; [|done].
  destruct (String.eqb tn "") eqn:E0; [done|]. destruct (json_dumps _ (PDict (en_payload a'))); [|done].
  rewrite Hf. unfold ostr_or, str_or. rewrite E0. unfold keyed_task. rewrite Hf, Hid. eexists. split; done.
Qed.
End Steps.

(** ** Replays, exactly *)

Lemma NoDup_id_text ts : NoDup (q_id <$> ts) -> NoDup (id_text <$> ts).
Proof.
  intros Hd. unfold id_text. replace ((fun t => str_of_Z (q_id t)) <$> ts) with (str_of_Z <$> (q_id <$> ts)) by by rewrite <- list_fmap_compose.
  apply NoDup_fmap_2; [|done]. intros a b. apply str_of_Z_inj.
Qed.

Definition names_dead (ts : list task) (i : string) : Prop := exists t, t ∈ ts /\ id_text t = i /\ q_status t = dead.

Lemma found_status_spec ts i :
  NoDup (q_id <$> ts) -> (found_status i ts = Some dead <-> names_dead ts i).
Proof.
  intros Hd%NoDup_id_text. unfold found_status, names_dead. split.
  - destruct (List.find _ ts) as [t|] eqn:Ef; [|done]. cbn. intros [= E]. apply find_elem in Ef as [Hin Hi].
    apply String.eqb_eq in Hi. by exists t.
  - intros (t & Hin & Hi & Hs). rewrite (find_unique id_text _ ts t); [cbn; by rewrite Hs|done|done|by apply String.eqb_eq|].
    intros r' E. apply String.eqb_eq in E. congruence.
Qed.

(** The ids to replay are those that name a dead row; the others are answered at once. *)
Lemma split_ids_spec ts ids :
  NoDup (q_id <$> ts) ->
  let '(targets, results) := split_ids ts ids in
  (targets ++ (rr_id <$> results))%list ≡ₚ ids
  /\ (forall i, i ∈ targets <-> i ∈ ids /\ names_dead ts i)
  /\ Forall (fun r => rr_success r = false /\ ~ names_dead ts (rr_id r)) results.
Proof.
  intros Hd. induction ids as [|i ids IH]; cbn [split_ids].
  { split; [done|]. split; [|constructor]. intros i. split; [by intros ?%not_elem_of_nil|]. by intros [?%not_elem_of_nil _]. }
  destruct (split_ids ts ids) as [targets results]. destruct IH as (Hp & Ht & Hr).
  assert (Hcase : forall r : replay_result, rr_id r = i -> rr_success r = false -> ~ names_dead ts i ->
    (targets ++ (rr_id <$> r :: results))%list ≡ₚ i :: ids
    /\ (forall j, j ∈ targets <-> j ∈ i :: ids /\ names_dead ts j)
    /\ Forall (fun r => rr_success r = false /\ ~ names_dead ts (rr_id r)) (r :: results)).
  { intros r <- Hs Hn. split; [|split; [|by constructor]].
    - rewrite fmap_cons. rewrite <- Permutation_middle. by rewrite Hp.
    - intros j. rewrite Ht, elem_of_cons. split; [intros [? ?]; auto|]. by intros [[->|?] ?]. }
  destruct (found_status i ts) as [st|] eqn:Ef.
  - destruct (has_status dead st) eqn:Es.
    + apply bool_decide_eq_true in Es as <-. apply found_status_spec in Ef; [|done]. split; [|split; [|done]].
      * change ((i :: targets) ++ (rr_id <$> results))%list with (i :: (targets ++ (rr_id <$> results)))%list. by rewrite Hp.
      * intros j. rewrite !elem_of_cons, Ht. split; [|by intros [[->|?] ?]; auto]. intros [->|[? ?]]; auto.
    + apply Hcase; [done|done|]. intros Hn%found_status_spec; [|done]. rewrite Ef in Hn. injection Hn as ->. done.
  - apply Hcase; [done|done|]. intros Hn%found_status_spec; [|done]. by rewrite Ef in Hn.
Qed.

(** Replaying distinct dead rows succeeds for each of them. *)
Lemma replay_targets_dead now targets : forall q,
  NoDup targets -> NoDup (q_id <$> task_queue q) -> (forall i, i ∈ targets -> names_dead (task_queue q) i) ->
  snd (replay_targets now targets q) = Ok ((fun i => ReplayResult i true None) <$> targets).
Proof.
  induction targets as [|i targets IH]; intros q Hnd Hd Hdead; [done|].
  apply NoDup_cons in Hnd as [Hni Hnd]. cbn [replay_targets]. unfold dbind, update_tasks at 1. cbn beta iota.
  set (q1 := with_tasks _ q). destruct (replay_targets_run now targets q1) as (rs & E).
  assert (Hrs : rs = (fun i => ReplayResult i true None) <$> targets).
  { enough (snd (replay_targets now targets q1) = Ok ((fun i => ReplayResult i true None) <$> targets)) as H by (rewrite E in H; by injection H).
    apply IH; [done|unfold q1; cbn; by rewrite update_where_key|].
    intros j Hj. destruct (Hdead j (ltac:(by right))) as (t & Hin & Hi & Hs). exists t. split; [|done].
    apply elem_of_update_where. exists t. split; [done|]. unfold dead_with_id.
    destruct (String.eqb_spec (id_text t) i) as [E1|]; [|done]. destruct Hni. by rewrite <- E1, Hi. }
  rewrite E, Hrs. unfold dret. cbn [snd]. f_equal. f_equal.
  destruct (Hdead i ltac:(left)) as (t & Hin & Hi & Hs).
  rewrite (count_where_one id_text _ _ t); [done|by apply NoDup_id_text|done| |].
  - unfold dead_with_id. rewrite Hi, String.eqb_refl. by rewrite Hs.
  - intros r' Hp. unfold dead_with_id in Hp. apply andb_true_iff in Hp as [Hp _]. apply String.eqb_eq in Hp. congruence.
Qed.

(** A replay touches exactly the named dead rows.  For distinct ids, every id gets one result,
    successful exactly when it names a dead row; those rows become pending with no attempts, no error
    and no lock; every other row is left as it was; and the two counts add up to the ids. *)
Theorem replay_exact now i ids limit q :
  NoDup (i :: ids) -> NoDup (q_id <$> task_queue q) -> 1 <= limit <= 1000 ->
  exists q' rep, replay_dead_tasks now (Some (i :: ids)) limit q = (q', Ok rep)
  /\ (rr_id <$> replay_results rep) ≡ₚ i :: ids
  /\ Forall (fun r => rr_success r = true <-> names_dead (task_queue q) (rr_id r)) (replay_results rep)
  /\ (replayed rep + replay_failed rep)%nat = length (i :: ids)
  /\ task_queue q' = (fun t => if bool_decide (q_status t = dead) && bool_decide (id_text t ∈ i :: ids)
                               then set_state pending now None None 0 None None None t else t) <$> task_queue q.
Proof.
  intros Hnd Hd Hl. unfold replay_dead_tasks. destruct (Z.ltb_spec limit 1), (Z.ltb_spec 1000 limit); try lia. cbn [orb].
  unfold dbind, dget, dret. cbn beta iota. pose proof (split_ids_spec (task_queue q) (i :: ids) Hd) as Hs.
  destruct (split_ids (task_queue q) (i :: ids)) as [targets results]. destruct Hs as (Hp & Ht & Hr). cbn [fst snd].
  destruct (replay_targets_run now targets q) as (rs & E). assert (Hndt : NoDup targets).
  { rewrite <- Hp in Hnd. by apply NoDup_app in Hnd as [? _]. }
  pose proof (replay_targets_dead now targets q Hndt Hd (fun j Hj => proj2 (proj1 (Ht j) Hj))) as Hok. rewrite E in Hok |- *.
  injection Hok as ->. eexists _, _. split; [done|]. cbn [replay_results replayed replay_failed].
  set (res := (results ++ _)%list).
  assert (Hids : (rr_id <$> res) ≡ₚ i :: ids).
  { unfold res. rewrite fmap_app, <- list_fmap_compose. rewrite <- Hp. rewrite Permutation_app_comm. f_equiv.
    rewrite list_fmap_id. done. }
  split; [done|]. split; [|split].
  - apply Forall_app. split.
    + eapply Forall_impl; [exact Hr|]. cbv beta. intros r [-> Hn]. by split.
    + apply Forall_fmap. apply Forall_forall. intros j Hj. cbn. split; [|done]. intros _. by apply Ht.
  - assert (length res = length (i :: ids)) as <- by (by rewrite <- Hids, length_fmap).
    pose proof (List.filter_length_le rr_success res). lia.
  - cbn [with_tasks task_queue]. apply list_fmap_ext. intros k t Hk. unfold target, has_status.
    assert (existsb (String.eqb (id_text t)) targets && bool_decide (dead = q_status t)
            = bool_decide (q_status t = dead) && bool_decide (id_text t ∈ i :: ids)) as ->; [|done].
    apply eq_true_iff_eq. rewrite !andb_true_iff, existsb_In_eqb, <- list_elem_of_In, !bool_decide_eq_true.
    split; [intros [H1 <-]; split; [done|]; by apply Ht|]. intros [H1 H2]. split; [|done]. apply Ht. split; [done|].
    exists t. split; [|done]. by eapply list_elem_of_lookup_2.
Qed.

(** ** The queue drains *)

Section Drain.
Variables (vis : task -> bool) (w : worker) (hs : handlers).

(** One worker, polling: each round claims at [fst] and writes the outcome at [snd]. *)
Fixpoint poll (rounds : list (Z * Z)) (q : queue) : queue :=
  match rounds with [] => q | (now, later) :: rs => poll rs (fst (run_once vis now later w hs q)) end.

(** Each round comes when everything scheduled so far is due. *)
Fixpoint timely (horizon : Z) (rounds : list (Z * Z)) : Prop :=
  match rounds with
  | [] => True
  | (now, later) :: rs => horizon <= now /\ timely (Z.max now (later + seconds default_cap)) rs
  end.

(** The failures that the unfinished tasks can still have. *)
Definition unfinished (t : task) : bool := has_status pending (q_status t) || has_status processing (q_status t).
Definition weight (t : task) : Z := if unfinished t then q_max_attempts t - q_attempts t else 0.
Fixpoint work (ts : list task) : Z := match ts with [] => 0 | t :: ts' => weight t + work ts' end.

(** By the horizon every unfinished task is due and has a handler: a pending one is scheduled and not
    locked, the lock of one in progress, whose worker is gone, has run out. *)
Definition ready (horizon : Z) (t : task) : Prop :=
  task_bounded t
  /\ (q_status t = pending -> q_locked_until t = None /\ q_scheduled_at t <= horizon /\ is_Some (hs !! q_task_type t))
  /\ (q_status t = processing -> lock_expired horizon t = true /\ is_Some (hs !! q_task_type t)).

(** After the release no task is in progress. *)
Definition released (now : Z) (t : task) : Prop := q_status t <> processing /\ ready now t.

Lemma weight_pending t : q_status t = pending -> weight t = q_max_attempts t - q_attempts t.
Proof. intros H. unfold weight, unfinished, has_status. by rewrite H, bool_decide_true. Qed.
Lemma weight_finished t : q_status t <> pending -> q_status t <> processing -> weight t = 0.
Proof. intros H1 H2. unfold weight, unfinished, has_status. by rewrite !bool_decide_false by congruence. Qed.

Lemma weight_cases t : task_bounded t -> 0 <= weight t /\ (weight t = 0 -> q_status t <> pending /\ q_status t <> processing).
Proof.
  intros (_ & Ha & Hlt & _). unfold weight, unfinished, has_status.
  destruct (bool_decide_reflect (pending = q_status t)) as [E|Hp]; cbn [orb]; [specialize (Hlt (or_introl (eq_sym E))); split; lia|].
  destruct (bool_decide_reflect (processing = q_status t)) as [E|Hq]; [specialize (Hlt (or_intror (eq_sym E))); split; lia|].
  split; [lia|]. intros _. split; congruence.
Qed.

Lemma work_nonneg h ts : Forall (ready h) ts -> 0 <= work ts.
Proof. induction 1 as [|t ts (Ht & _) _ IH]; cbn; [lia|]. apply weight_cases in Ht. lia. Qed.

Lemma work_update f t ts :
  NoDup (q_id <$> ts) -> t ∈ ts -> work (update_where (with_id (q_id t)) f ts) = work ts - weight t + weight (f t).
Proof.
  induction ts as [|x ts IH]; [by intros _ ?%not_elem_of_nil|]. rewrite fmap_cons. intros [Hn Hd]%NoDup_cons Hin.
  change (update_where (with_id (q_id t)) f (x :: ts))
    with ((if with_id (q_id t) x then f x else x) :: update_where (with_id (q_id t)) f ts). cbn [work].
  apply elem_of_cons in Hin as [<-|Hin].
  - unfold with_id at 1. rewrite Z.eqb_refl. rewrite update_where_none; [lia|]. apply count_where_zero. intros r Hr.
    unfold with_id. apply Z.eqb_neq. intros E. apply Hn, list_elem_of_fmap. eauto.
  - rewrite IH by done. unfold with_id at 1. destruct (Z.eqb_spec (q_id x) (q_id t)) as [E|_]; [|lia].
    destruct Hn. rewrite E. apply list_elem_of_fmap. eauto.
Qed.

Lemma released_eligible now t : task_types w = None -> released now t -> q_status t = pending -> eligible now w t = true.
Proof.
  intros Hw (_ & _ & Hp & _) Hs. destruct (Hp Hs) as (Hl & Hsch & _). unfold eligible, has_status, type_allowed.
  rewrite Hs, Hl, Hw, bool_decide_true by done. destruct (Z.leb_spec (q_scheduled_at t) now); [done|lia].
Qed.

(** The release of the locks that ran out makes every task in progress pending again, due at once. *)
Lemma release_ready h now q : Forall (ready h) (task_queue q) -> h <= now ->
  let q1 := fst (_release_stale_locks now q) in
  (q_id <$> task_queue q1) = (q_id <$> task_queue q) /\ Forall (released now) (task_queue q1) /\ work (task_queue q1) = work (task_queue q).
Proof.
  intros Hr Hle q1. unfold q1, _release_stale_locks, update_tasks. cbn [fst task_queue with_tasks].
  set (p := fun t => has_status processing (q_status t) && lock_expired now t). set (f := fun t => set_state pending _ _ _ _ _ _ _ t).
  split; [by rewrite update_where_key|]. clear q1. induction Hr as [|t ts (Hb & Hp & Hq) _ [IH1 IH2]]; [done|].
  change (update_where p f (t :: ts)) with ((if p t then f t else t) :: update_where p f ts). cbn [work]. rewrite IH2.
  destruct (decide (q_status t = processing)) as [E|E].
  - destruct (Hq E) as [Hex Hh]. destruct Hb as (B1 & B2 & B3 & B4). pose proof (B3 (or_intror E)) as Hlt.
    assert (Hpt : p t = true).
    { unfold p, has_status. rewrite E, bool_decide_true by done. unfold lock_expired in *. destruct (q_locked_until t); [|done].
      cbn. destruct (Z.ltb_spec z h); [|done]. destruct (Z.ltb_spec z now); [done|lia]. }
    rewrite Hpt. assert (Hw : weight (f t) = weight t).
    { rewrite weight_pending by done. unfold weight, unfinished, has_status. rewrite E. done. }
    rewrite Hw. split; [|done]. constructor; [|done]. split; [done|]. split; [|split].
    + split; [done|]. split; [cbn; lia|]. split; [intros _; cbn; lia|done].
    + intros _. cbn. split; [done|]. split; [lia|done].
    + done.
  - assert (Hpt : p t = false) by (unfold p, has_status; by rewrite bool_decide_false by congruence). rewrite Hpt.
    split; [|done]. constructor; [|done]. split; [done|]. split; [done|]. split; [|done].
    intros Hs. destruct (Hp Hs) as (H1 & H2 & H3). split; [done|]. split; [lia|done].
Qed.

Lemma released_later now h t : now <= h -> released now t -> ready h t.
Proof.
  intros Hle (Hn & Hb & Hp & _). split; [done|]. split; [|done]. intros Hs. destruct (Hp Hs) as (H1 & H2 & H3). split; [done|]. split; [lia|done].
Qed.

(** The claim and its outcome, when no task is in progress: nothing is pending, or the work shrinks. *)
Lemma claim_progress now later q :
  task_types w = None -> NoDup (q_id <$> task_queue q) -> Forall (released now) (task_queue q) ->
  let q' := fst (dbind (_claim_one now w) (fun taken => match taken with
    | None => dret None
    | Some c => dbind (_dispatch vis later w hs c) (fun done => dret (if done then Some (c_id c) else None))
    end) q) in
  NoDup (q_id <$> task_queue q') /\ Forall (ready (Z.max now (later + seconds default_cap))) (task_queue q')
  /\ (work (task_queue q') < work (task_queue q) \/ (q' = q /\ work (task_queue q) = 0)).
Proof.
  intros Hw Hd Hr q'. unfold q', dbind.
  assert (Hweak : forall x, x ∈ task_queue q -> ready (Z.max now (later + seconds default_cap)) x).
  { intros x Hx. rewrite Forall_forall in Hr. apply (released_later now); [lia|by apply Hr]. }
  destruct (claim_one_run now w q Hd) as [(t & Hwin & ->)|[Hwin ->]].
  - apply winner_Some in Hwin as (Hin & Hel & _).
    assert (Hp : q_status t = pending) by
      (unfold eligible in Hel; do 3 (apply andb_true_iff in Hel as [Hel _]); by apply bool_decide_eq_true in Hel).
    pose proof Hr as Hr'. rewrite Forall_forall in Hr'. destruct (Hr' t Hin) as (_ & (Hm & Ha & Hlt & _) & Hpp & _).
    destruct (Hpp Hp) as (_ & _ & h0 & Hh). specialize (Hlt (or_introl Hp)).
    rewrite dispatch_run. cbn [claimed_of c_task_type c_id task_queue with_tasks].
    replace (hs !! q_task_type t) with (Some h0) by done. rewrite bool_decide_true by eauto. unfold dret. cbn [fst task_queue with_tasks].
    rewrite update_where_comp by done. set (f := fun r => dispatched vis later w hs (claimed_of t) (lock_task now w r)).
    assert (Hf : keeps_identity f).
    { intros r. unfold f, dispatched. cbn. rewrite Hh. destruct (h0 _); [done|]. by destruct (_ <=? _). }
    assert (Hft : ready (Z.max now (later + seconds default_cap)) (f t) /\ weight (f t) < weight t).
    { rewrite (weight_pending t Hp).
      unfold f, dispatched. cbn [claimed_of c_task_type c_payload c_attempts c_max_attempts]. rewrite Hh.
      destruct (h0 (q_payload t)) as [u|e].
      - split; [|rewrite weight_finished by done; lia]. split; [|done]. split; [done|]. cbn. split; [lia|]. split; [by intros [?|?]|done].
      - destruct (Z.leb_spec (q_max_attempts t) (q_attempts t + 1)).
        + split; [|rewrite weight_finished by done; lia]. split; [|done]. split; [done|]. cbn. split; [lia|]. split; [by intros [?|?]|intros _; lia].
        + split; [|rewrite weight_pending by done; cbn; lia]. split; [split; [done|]; cbn; split; [lia|]; split; [intros _; lia|done]|]. split; [|done].
          intros _. cbn. split; [done|]. pose proof (default_backoff_le (q_attempts t + 1)). split; [lia|by eauto]. }
    destruct Hft as [Hft Hwt]. split; [by rewrite update_where_key by (intros r; apply Hf)|]. split.
    + apply Forall_update_where; [by apply Forall_forall|]. intros r Hin' Hid _. unfold with_id in Hid. apply Z.eqb_eq in Hid.
      by rewrite (key_unique q_id (task_queue q) r t).
    + left. rewrite work_update by done. lia.
  - cbn [fst]. split; [done|]. split; [by apply Forall_forall|]. right. split; [done|].
    assert (Hn : forall t, t ∈ task_queue q -> weight t = 0).
    { intros t Ht. rewrite Forall_forall in Hr. pose proof (Hr t Ht) as Hrt. apply weight_finished; [|by destruct Hrt]. intros Hs.
      rewrite winner_None in Hwin. specialize (Hwin t Ht). by rewrite (released_eligible now t Hw Hrt Hs) in Hwin. }
    clear - Hn. induction (task_queue q) as [|x ts IHl]; [done|]. cbn. rewrite IHl by (intros t Ht; apply Hn; by right). by rewrite Hn by left.
Qed.

Lemma round_progress h now later q :
  task_types w = None -> NoDup (q_id <$> task_queue q) -> Forall (ready h) (task_queue q) -> h <= now ->
  let q' := fst (run_once vis now later w hs q) in
  NoDup (q_id <$> task_queue q') /\ Forall (ready (Z.max now (later + seconds default_cap))) (task_queue q')
  /\ (work (task_queue q') < work (task_queue q) \/ work (task_queue q') = 0).
Proof.
  intros Hw Hd Hr Hle q'. destruct (release_ready h now q Hr Hle) as (Hid & Hrel & Hwk).
  destruct (_release_stale_locks now q) as [q1 [n|e]] eqn:E; [|by unfold _release_stale_locks, update_tasks in E].
  assert (q' = fst (dbind (_claim_one now w) _ q1)) as -> by (unfold q', run_once; by rewrite (dbind_run _ _ _ _ _ E)).
  cbn [fst] in *. rewrite <- Hid in Hd. destruct (claim_progress now later q1 Hw Hd Hrel) as (H1 & H2 & H3). rewrite <- Hwk.
  split; [exact H1|]. split; [exact H2|]. destruct H3 as [H3|[H3 H4]]; [by left|right]. rewrite H3. exact H4.
Qed.

(** C34. The queue drains.  One worker, which takes tasks of every type and has a handler for each
    unfinished one, polls when tasks are due, and no task is added meanwhile.  At the start the unfinished tasks are within their attempts; the
    pending ones are due and not locked, and those in progress were left by a worker that is gone, so that
    their locks have run out ([ready]); the first round releases them.  Then, whatever the handlers
    answer, after as many rounds as the unfinished tasks have attempts left no task is pending or in
    progress: each is completed or dead. *)
Theorem queue_drains h rounds q :
  task_types w = None -> NoDup (q_id <$> task_queue q) -> Forall (ready h) (task_queue q) ->
  timely h rounds -> work (task_queue q) <= Z.of_nat (length rounds) ->
  forall t, t ∈ task_queue (poll rounds q) -> q_status t <> pending /\ q_status t <> processing.
Proof.
  intros Hw. revert h q. induction rounds as [|[now later] rs IH]; intros h q Hd Hr Ht Hwork.
  - cbn [poll]. intros t Hin. assert (Hz : work (task_queue q) <= 0) by (cbn in Hwork; lia). clear Hwork Hd.
    revert Hin. induction Hr as [|x ts Hx Hts IHr]; [by intros ?%not_elem_of_nil|]. cbn in Hz.
    pose proof (work_nonneg h ts Hts). destruct Hx as (Hb & _). destruct (weight_cases x Hb) as [Hge Hzero].
    intros [->|Hin]%elem_of_cons; [apply Hzero; lia|apply IHr; [lia|done]].
  - destruct Ht as [Hle Ht]. cbn [poll]. destruct (round_progress h now later q Hw Hd Hr Hle) as (Hd' & Hr' & Hlt).
    apply (IH (Z.max now (later + seconds default_cap))); [done|done|done|]. cbn [length] in Hwork. destruct Hlt; lia.
Qed.
End Drain.

(** ** What the statements leave open *)

(** Two workers whose claim statements chose on the same snapshot both take the row, one after the
    other: the second phase checks only the id, and [SKIP LOCKED] skips only a row that is locked at
    that moment. *)
Lemma claim_race now a b q t :
  NoDup (q_id <$> task_queue q) -> winner now a q = Some t -> winner now b q = Some t ->
  let qa := fst (take_task now a [] (q_id t) q) in
  snd (take_task now a [] (q_id t) q) = Ok (Some (claimed_of t))
  /\ snd (take_task now b [] (q_id t) qa) = Ok (Some (claimed_of t)).
Proof.
  intros Hd Ha _ qa. apply winner_Some in Ha as (Hin & _). unfold qa, take_task.
  rewrite bool_decide_false by apply not_elem_of_nil. rewrite (find_id q t Hd Hin). split; [done|]. cbn [fst with_tasks task_queue].
  rewrite find_update_where by (intros r _; destruct (q_id r =? q_id t) eqn:E; by cbn; rewrite ?E). rewrite (find_id q t Hd Hin). cbn.
  by rewrite Z.eqb_refl.
Qed.

(** A release that the row-level policy hides from its row leaves the task claimed. *)
Lemma unarmed_release_strands now w hs c q :
  hs !! c_task_type c = None -> _dispatch (fun _ => false) now w hs c q = (q, Ok false).
Proof.
  intros Hn. rewrite dispatch_run, Hn. rewrite bool_decide_false by (by intros [? ?]). f_equal. destruct q as [ts n].
  unfold with_tasks. f_equal. unfold update_where. cbn. rewrite <- (map_id ts) at 2. apply map_ext. intros r.
  destruct (with_id _ r); [|done]. unfold dispatched. by rewrite Hn.
Qed.

(** ** Concrete runs *)

#[local] Existing Instance demo_lib.

Definition demo_args (ty : string) (tenant key : option string) (priority : Z) : enqueue_args :=
  EnqueueArgs ty [("doc", PStr "d1")] tenant priority 3 key None None.
Definition empty_queue : queue := Queue [] 1.
Definition demo_worker (id : string) : worker := Worker id DEFAULT_LOCK_DURATION_SECONDS None.
Definition failing : pydict -> res unit := fun _ => Raise (Exn "RuntimeError" "boom").
Definition demo_handlers : handlers := register_task_handler "ingest" failing clear_task_handlers.
Definition enqueued (now : Z) (a : enqueue_args) (q : queue) : queue := fst (enqueue_task now a q).

(** Tenant A has a backlog of three, tenant B one later task: B's task is claimed last. *)
Definition demo_backlog : queue :=
  enqueued 3 (demo_args "ingest" (Some "B") None 0)
    (enqueued 2 (demo_args "ingest" (Some "A") None 0) (enqueued 1 (demo_args "ingest" (Some "A") None 0)
      (enqueued 0 (demo_args "ingest" (Some "A") None 0) empty_queue))).

Lemma backlog_of_one_tenant_first :
  let c1 := _claim_one 10 (demo_worker "w") demo_backlog in
  let c2 := _claim_one 10 (demo_worker "w") (fst c1) in
  let c3 := _claim_one 10 (demo_worker "w") (fst c2) in
  let c4 := _claim_one 10 (demo_worker "w") (fst c3) in
  (fun r => match r with Ok (Some c) => c_tenant_id c | _ => None end) <$> [snd c1; snd c2; snd c3; snd c4]
  = [Some "A"; Some "A"; Some "A"; Some "B"].
Proof. vm_compute. reflexivity. Qed.

(** A handler that returns after its lock expired: the row was released and claimed by a second
    worker; the first worker's outcome, which checks neither owner nor status, takes it away. *)
Definition demo_one : queue := enqueued 0 (demo_args "ingest" (Some "A") None 0) empty_queue.
Definition demo_claim : claimed := Claimed 1 "ingest" [("doc", PStr "d1")] 0 3 (Some "A").

Lemma late_outcome_overwrites :
  let q1 := fst (_claim_one 0 (demo_worker "w1") demo_one) in
  let q2 := fst (_claim_one (seconds 301) (demo_worker "w2") (fst (_release_stale_locks (seconds 301) q1))) in
  let q3 := fst (_dispatch (fun _ => true) (seconds 302) (demo_worker "w1") demo_handlers demo_claim q2) in
  (q_locked_by <$> task_queue q2) = [Some "w2"]
  /\ (q_status <$> task_queue q3) = [pending] /\ (q_locked_by <$> task_queue q3) = [None]
  /\ snd (_claim_one (seconds 363) (demo_worker "w3") q3) = Ok (Some (Claimed 1 "ingest" [("doc", PStr "d1")] 1 3 (Some "A"))).
Proof. vm_compute. repeat split. Qed.

Lemma backoff_bounds_witness : 30 <= compute_backoff_seconds 2 default_cap <= default_cap /\ compute_backoff_seconds 2 default_cap = 120.
Proof. split; [|reflexivity]. refine (proj1 (backoff_bounds 2 default_cap _)). discriminate. Defined.

Lemma claim_takes_global_best_witness :
  match _claim_one 10 (demo_worker "w") demo_backlog with
  | (q', Ok (Some c)) =>
      exists t, t ∈ task_queue demo_backlog /\ eligible 10 (demo_worker "w") t = true /\ c = claimed_of t
        /\ (forall y, y ∈ task_queue demo_backlog -> eligible 10 (demo_worker "w") y = true -> claim_le t y = true)
        /\ task_queue q' = update_where (fun r => q_id r =? q_id t) (lock_task 10 (demo_worker "w")) (task_queue demo_backlog)
  | (q', Ok None) => q' = demo_backlog /\ forall t, t ∈ task_queue demo_backlog -> eligible 10 (demo_worker "w") t = false
  | (_, Raise _) => False
  end.
Proof.
  apply (claim_takes_global_best 10 (demo_worker "w") demo_backlog).
  apply (bool_decide_eq_true_1 (NoDup (q_id <$> task_queue demo_backlog))). vm_compute. reflexivity.
Defined.

Lemma demo_one_wf : queue_wf (demo_one, []).
Proof.
  split; [apply NoDup_singleton|]. split; [by repeat constructor|]. split; [|constructor]. constructor; [|constructor].
  split; [discriminate|]. split; [split; discriminate|]. split; [by intros _|discriminate].
Qed.

Lemma attempts_within_maximum_witness :
  let q1 := fst (_claim_one 0 (demo_worker "w1") demo_one) in
  let q2 := fst (_dispatch (fun _ => true) 5 (demo_worker "w1") demo_handlers demo_claim q1) in
  Forall (fun t => 0 <= q_attempts t <= q_max_attempts t) (task_queue q2).
Proof.
  intros q1 q2. apply Forall_forall. intros t Ht. refine (proj1 (attempts_within_maximum (fun _ => true) (demo_one, []) q2 [] t demo_one_wf _ Ht)).
  eapply reach_step; [eapply reach_step; [apply reach_refl|]|].
  - apply (qs_claim _ 0 (demo_worker "w1") demo_claim demo_one q1 []). reflexivity.
  - apply (qs_finish _ 5 (demo_worker "w1") demo_handlers demo_claim q1 [] []).
Defined.

Lemma dispatch_branches_witness :
  let q1 := fst (_claim_one 0 (demo_worker "w1") demo_one) in
  exists q' r, _dispatch (fun _ => true) 5 (demo_worker "w1") demo_handlers demo_claim q1 = (q', Ok r)
    /\ (r = true <-> is_Some (demo_handlers !! "ingest")).
Proof.
  intros q1. destruct (dispatch_branches (fun _ => true) 5 (demo_worker "w1") demo_handlers demo_claim q1
    (lock_task 0 (demo_worker "w1") (new_task 0 1 (demo_args "ingest" (Some "A") None 0)))) as (q' & r & H1 & H2 & _).
  - apply NoDup_singleton.
  - left.
  - reflexivity.
  - exists q', r. split; [exact H1|exact H2].
Defined.

Lemma replay_exact_witness :
  let dead_one := fst (_mark_dead 5 1 "boom" (Some 3) demo_one) in
  exists q' rep, replay_dead_tasks 9 (Some ["1"; "7"]) 10 dead_one = (q', Ok rep) /\ (replayed rep + replay_failed rep)%nat = 2%nat.
Proof.
  intros dead_one. destruct (replay_exact 9 "1" ["7"] 10 dead_one) as (q' & rep & H1 & _ & _ & H2 & _).
  - apply (bool_decide_eq_true_1 (NoDup ["1"; "7"])). vm_compute. reflexivity.
  - apply NoDup_singleton.
  - split; discriminate.
  - exists q', rep. split; [exact H1|exact H2].
Defined.

Lemma enqueue_idempotent_witness :
  let a := demo_args "ingest" (Some "A") (Some "k") 0 in
  let q1 := enqueued 0 a empty_queue in
  exists q', enqueue_task 9 (demo_args "other" (Some "A") (Some "k") 7) q1 = (q', Ok 1) /\ task_queue q' = task_queue q1.
Proof.
  intros a q1. refine (proj1 (enqueue_idempotent (fun _ => true) 0 a 9 (demo_args "other" (Some "A") (Some "k") 7)
    empty_queue [] q1 q1 [] 1 "k" _ _ _ _ _ _ _ _ _)).
  - split; [constructor|]. split; [constructor|]. split; constructor.
  - by intros t t' k ?%not_elem_of_nil.
  - reflexivity.
  - reflexivity.
  - reflexivity.
  - vm_compute. reflexivity.
  - discriminate.
  - vm_compute. reflexivity.
  - apply reach_refl.
Defined.

(** A task whose worker died holds a lock until five minutes have passed.  Three rounds: the release and
    two retries, then dead. *)
Definition demo_stranded : queue := fst (_claim_one 0 (demo_worker "w0") demo_one).
Lemma queue_drains_witness :
  let rounds := [(seconds 301, seconds 302); (seconds 1000, seconds 1001); (seconds 1700, seconds 1701)] in
  (q_status <$> task_queue demo_stranded) = [processing]
  /\ (forall t, t ∈ task_queue (poll (fun _ => true) (demo_worker "w1") demo_handlers rounds demo_stranded) ->
       q_status t <> pending /\ q_status t <> processing)
  /\ (q_status <$> task_queue (poll (fun _ => true) (demo_worker "w1") demo_handlers rounds demo_stranded)) = [dead].
Proof.
  intros rounds. split; [vm_compute; reflexivity|]. split; [|vm_compute; reflexivity].
  apply (queue_drains (fun _ => true) (demo_worker "w1") demo_handlers (seconds 301) rounds demo_stranded).
  - reflexivity.
  - apply NoDup_singleton.
  - constructor; [|constructor]. split; [|split].
    + split; [discriminate|]. split; [split; discriminate|]. split; [by intros _|discriminate].
    + discriminate.
    + intros _. split; [reflexivity|]. by exists failing.
  - repeat split; discriminate.
  - discriminate.
Defined.

Lemma claim_race_witness :
  snd (take_task 0 (demo_worker "w2") [] 1 (fst (take_task 0 (demo_worker "w1") [] 1 demo_one))) = Ok (Some demo_claim).
Proof.
  refine (proj2 (claim_race 0 (demo_worker "w1") (demo_worker "w2") demo_one (new_task 0 1 (demo_args "ingest" (Some "A") None 0)) _ _ _)).
  - apply NoDup_singleton.
  - vm_compute. reflexivity.
  - vm_compute. reflexivity.
Defined.
