(* ===== verification/AuditChain.v ===== *)
(** * The audit trail

    [services/shared/audit_logging/]: the records of schema.py, the HMAC chain of integrity.py, the
    storages and the rebuilding of stored records of storage.py, and [log] of writer.py.  HMAC is built
    on the executable SHA-256.  Proved: what a process signs verifies; the two verifiers agree; which
    entries a verification reports; that the last hash commits to the hashed fields of the whole
    trail; what the in-memory storage keeps; and where the code falls short of its documentation
    (fields outside the hash, records rebuilt from storage, failed writes, restarts). *)

From Stdlib Require Import ZArith Lia String Ascii.
From stdpp Require Import base list strings.
From S2P Require Import Prelude PyStr PyVal Json JsonText Sha256 Hmac.

Local Open Scope string_scope.

(** ** Records (schema.py) *)

(** The values of the three enumerations; [Enum(value)] raises on any other text. *)
Definition AuditEventCategory : list string :=
  ["authentication"; "authorization"; "data_access"; "data_modification"; "configuration"; "security"; "system";
   "admin"; "api"; "file"].
Definition AuditEventType : list string :=
  ["login_success"; "login_failure"; "logout"; "password_change"; "password_reset_request"; "password_reset_complete";
   "mfa_enabled"; "mfa_disabled"; "mfa_challenge"; "session_created"; "session_expired"; "session_revoked";
   "token_issued"; "token_revoked"; "token_refresh"; "access_granted"; "access_denied"; "permission_granted";
   "permission_revoked"; "role_assigned"; "role_removed"; "data_read"; "data_search"; "data_export";
   "sensitive_data_access"; "pii_access"; "data_create"; "data_update"; "data_delete"; "data_bulk_operation";
   "config_change"; "settings_update"; "feature_enabled"; "feature_disabled"; "security_alert"; "intrusion_attempt";
   "injection_attempt"; "xss_attempt"; "rate_limit_exceeded"; "suspicious_activity"; "ip_blocked";
   "api_key_compromised"; "system_start"; "system_shutdown"; "service_health"; "error"; "user_created"; "user_updated";
   "user_deleted"; "user_suspended"; "user_activated"; "tenant_created"; "tenant_updated"; "tenant_deleted"; "api_call";
   "api_error"; "webhook_sent"; "webhook_received"; "file_upload"; "file_download"; "file_delete"].
Definition AuditSeverity : list string := ["debug"; "info"; "warning"; "error"; "critical"].

Definition enum_value (values : list string) (name s : string) : res string :=
  if existsb (String.eqb s) values then Ok s else Raise (ValueError (repr_str s +:+ " is not a valid " +:+ name)).

Record audit_actor := AuditActor {
  ac_id : string; ac_type : string; ac_username : option string; ac_email : option string; ac_ip_address : option string;
  ac_user_agent : option string; ac_session_id : option string; ac_tenant_id : option string; ac_roles : list string
}.
Record audit_resource := AuditResource {
  re_type : string; re_id : string; re_name : option string; re_tenant_id : option string; re_attributes : pydict
}.
Record audit_context := AuditContext {
  cx_request_id : option string; cx_correlation_id : option string; cx_environment : option string;
  cx_service_name : option string; cx_service_version : option string; cx_endpoint : option string;
  cx_http_method : option string; cx_http_status : option Z; cx_duration_ms : option PyFloat.f64; cx_extra : pydict
}.
Record audit_event := AuditEvent {
  ev_id : string; ev_timestamp : datetime; ev_type : string; ev_category : string; ev_severity : string;
  ev_actor : audit_actor; ev_action : string; ev_outcome : string; ev_resource : option audit_resource;
  ev_context : option audit_context; ev_message : option string; ev_details : pydict; ev_tags : list string;
  ev_integrity_hash : option string; ev_previous_hash : option string
}.

Definition opt_str (o : option string) : pyval := match o with Some s => PStr s | None => PNone end.
Definition strs (l : list string) : pyval := PList (PStr <$> l).

(** [{k: v for k, v in asdict(self).items() if v is not None}]. *)
Definition drop_none (d : pydict) : pydict := List.filter (fun kv => negb (is_none (snd kv))) d.

Definition actor_to_dict (a : audit_actor) : pydict :=
  drop_none [("actor_id", PStr (ac_id a)); ("actor_type", PStr (ac_type a)); ("username", opt_str (ac_username a));
             ("email", opt_str (ac_email a)); ("ip_address", opt_str (ac_ip_address a));
             ("user_agent", opt_str (ac_user_agent a)); ("session_id", opt_str (ac_session_id a));
             ("tenant_id", opt_str (ac_tenant_id a)); ("roles", strs (ac_roles a))].

(** [if self.f: result[k] = self.f]. *)
Definition when_truthy (k : string) (v : pyval) : pydict := if truthy v then [(k, v)] else [].

Definition resource_to_dict (r : audit_resource) : pydict :=
  ([("resource_type", PStr (re_type r)); ("resource_id", PStr (re_id r))] ++ when_truthy "resource_name" (opt_str (re_name r))
   ++ when_truthy "tenant_id" (opt_str (re_tenant_id r)) ++ when_truthy "attributes" (PDict (re_attributes r)))%list.

Definition is_empty_dict (v : pyval) : bool := match v with PDict [] => true | _ => false end.

Definition context_to_dict (c : audit_context) : pydict :=
  List.filter (fun kv => negb (is_none (snd kv)) && negb (is_empty_dict (snd kv)))
    [("request_id", opt_str (cx_request_id c)); ("correlation_id", opt_str (cx_correlation_id c));
     ("environment", opt_str (cx_environment c)); ("service_name", opt_str (cx_service_name c));
     ("service_version", opt_str (cx_service_version c)); ("endpoint", opt_str (cx_endpoint c));
     ("http_method", opt_str (cx_http_method c));
     ("http_status", match cx_http_status c with Some z => PInt z | None => PNone end);
     ("duration_ms", match cx_duration_ms c with Some f => PFloat f | None => PNone end);
     ("extra", PDict (cx_extra c))].

Definition set_hashes (previous integrity : option string) (e : audit_event) : audit_event :=
  AuditEvent (ev_id e) (ev_timestamp e) (ev_type e) (ev_category e) (ev_severity e) (ev_actor e) (ev_action e)
    (ev_outcome e) (ev_resource e) (ev_context e) (ev_message e) (ev_details e) (ev_tags e) integrity previous.

(** ** The hash chain (integrity.py) *)

Section Integrity.
Context `{PyLib}.

Definition event_to_dict (e : audit_event) : pydict :=
  [("event_id", PStr (ev_id e)); ("timestamp", PStr (isoformat (ev_timestamp e))); ("event_type", PStr (ev_type e));
   ("category", PStr (ev_category e)); ("severity", PStr (ev_severity e)); ("actor", PDict (actor_to_dict (ev_actor e)));
   ("action", PStr (ev_action e)); ("outcome", PStr (ev_outcome e));
   ("resource", match ev_resource e with Some r => PDict (resource_to_dict r) | None => PNone end);
   ("context", match ev_context e with Some c => PDict (context_to_dict c) | None => PNone end);
   ("message", opt_str (ev_message e)); ("details", PDict (ev_details e)); ("tags", strs (ev_tags e));
   ("integrity_hash", opt_str (ev_integrity_hash e)); ("previous_hash", opt_str (ev_previous_hash e))].

(** [AuditEvent.to_json]. *)
Definition event_to_json (e : audit_event) : res string := json_dumps opts_str (PDict (event_to_dict e)).

(** The dictionary that [compute_hash] serialises. *)
Definition canonical (e : audit_event) : pydict :=
  ([("event_id", PStr (ev_id e)); ("timestamp", PStr (isoformat (ev_timestamp e))); ("event_type", PStr (ev_type e));
    ("category", PStr (ev_category e)); ("actor", PDict (actor_to_dict (ev_actor e))); ("action", PStr (ev_action e));
    ("outcome", PStr (ev_outcome e)); ("previous_hash", opt_str (ev_previous_hash e))]
   ++ (match ev_resource e with Some r => [("resource", PDict (resource_to_dict r))] | None => [] end)
   ++ when_truthy "details" (PDict (ev_details e)))%list.

(** The state of an [AuditIntegrity]: the key and the last hash. *)
Record integrity := Integrity { _secret_key : string; _last_hash : option string }.

(** The constructor, given the argument and the environment variable. *)
Definition new_integrity (secret_key env_key : option string) : res integrity :=
  let pick o := match o with Some s => if String.eqb s "" then None else Some s | None => None end in
  match pick secret_key, pick env_key with
  | Some k, _ | None, Some k => Ok (Integrity k None)
  | None, None => Raise (ValueError ("Audit integrity key is required. Set the AUDIT_INTEGRITY_KEY "
                                     +:+ "environment variable or pass secret_key explicitly."))
  end.

Definition compute_hash (i : integrity) (e : audit_event) : res string :=
  do data <- json_dumps opts_sorted_str (PDict (canonical e));
  Ok (hmac_sha256_hex (_secret_key i) data).

Definition sign_event (i : integrity) (e : audit_event) : res (audit_event * integrity) :=
  let e1 := set_hashes (_last_hash i) (ev_integrity_hash e) e in
  do h <- compute_hash i e1;
  Ok (set_hashes (_last_hash i) (Some h) e, Integrity (_secret_key i) (Some h)).

(** [if not event.integrity_hash]. *)
Definition hash_of (e : audit_event) : option string :=
  match ev_integrity_hash e with Some h => if String.eqb h "" then None else Some h | None => None end.

Definition verify_event (i : integrity) (e : audit_event) : res bool :=
  match hash_of e with
  | None => Ok false
  | Some h => do expected <- compute_hash i e; compare_digest h expected
  end.

Fixpoint verify_from (i : integrity) (previous_hash : option string) (events : list audit_event) : res bool :=
  match events with
  | [] => Ok true
  | e :: rest =>
      if negb (bool_decide (ev_previous_hash e = previous_hash)) then Ok false
      else
        do ok <- verify_event i e;
        if negb ok then Ok false else verify_from i (ev_integrity_hash e) rest
  end.

Definition verify_chain (i : integrity) (events : list audit_event) : res bool := verify_from i None events.

(** An entry of [tampered_entries]; the two hashes are recorded for a broken link. *)
Inductive issue := missing_integrity_hash | chain_link_broken (expected actual : option string) | hash_mismatch.
Record tampered_entry := Tampered { te_event_id : string; te_index : nat; te_issue : issue }.
#[export] Instance issue_eq_dec : EqDecision issue.
Proof. solve_decision. Defined.

Fixpoint audit_from (i : integrity) (k : nat) (previous_hash : option string) (events : list audit_event)
  : res (list tampered_entry) :=
  match events with
  | [] => Ok []
  | e :: rest =>
      match hash_of e with
      | None =>
          do more <- audit_from i (S k) None rest;
          Ok (Tampered (ev_id e) k missing_integrity_hash :: more)
      | Some _ =>
          let link := if bool_decide (ev_previous_hash e = previous_hash) then []
                      else [Tampered (ev_id e) k (chain_link_broken previous_hash (ev_previous_hash e))] in
          do ok <- verify_event i e;
          let mismatch := if (ok : bool) then [] else [Tampered (ev_id e) k hash_mismatch] in
          do more <- audit_from i (S k) (ev_integrity_hash e) rest;
          Ok (link ++ mismatch ++ more)%list
      end
  end.

Record audit_report := AuditReport { total_entries : nat; is_valid : bool; tampered_entries : list tampered_entry }.

Definition verify_audit_chain (i : integrity) (events : list audit_event) : res audit_report :=
  do tampered <- audit_from i 0 None events;
  Ok (AuditReport (length events) (length tampered =? 0)%nat tampered).

(** ** Storages and the logger (storage.py, writer.py) *)

(** [_event_from_dict] of what [to_dict] wrote: which fields come back. *)
Definition rehydrate_actor (a : audit_actor) : audit_actor :=
  AuditActor (ac_id a) (ac_type a) (ac_username a) None (ac_ip_address a) (ac_user_agent a) None (ac_tenant_id a) [].
Definition rehydrate_resource (r : audit_resource) : audit_resource :=
  AuditResource (re_type r) (re_id r) (nonempty (re_name r)) (nonempty (re_tenant_id r)) (re_attributes r).
Definition rehydrate_context (c : audit_context) : option audit_context :=
  match context_to_dict c with
  | [] => None
  | _ => Some (AuditContext (cx_request_id c) (cx_correlation_id c) (cx_environment c) (cx_service_name c) None
                 (cx_endpoint c) None None None [])
  end.

Definition _event_from_dict (e : audit_event) : res audit_event :=
  do timestamp <- fromisoformat (isoformat (ev_timestamp e));
  do ty <- enum_value AuditEventType "AuditEventType" (ev_type e);
  do cat <- enum_value AuditEventCategory "AuditEventCategory" (ev_category e);
  do sev <- enum_value AuditSeverity "AuditSeverity" (ev_severity e);
  Ok (AuditEvent (ev_id e) timestamp ty cat sev (rehydrate_actor (ev_actor e)) (ev_action e) (ev_outcome e)
        (rehydrate_resource <$> ev_resource e) (ev_context e ≫= rehydrate_context) (ev_message e) (ev_details e)
        (ev_tags e) (ev_integrity_hash e) (ev_previous_hash e)).

(** [_create_event]: the event built from the arguments of [log], with its fresh id and the time. *)
Definition stamp_context (service_name environment : string) (c : audit_context) : audit_context :=
  AuditContext (cx_request_id c) (cx_correlation_id c) (Some environment) (Some service_name) (cx_service_version c)
    (cx_endpoint c) (cx_http_method c) (cx_http_status c) (cx_duration_ms c) (cx_extra c).
Definition blank_context : audit_context := AuditContext None None None None None None None None None [].
Definition _create_event (service_name environment : string) (i : integrity) (e : audit_event) : res (audit_event * integrity) :=
  let context := match ev_context e with Some c => c | None => blank_context end in
  sign_event i
    (AuditEvent (ev_id e) (ev_timestamp e) (ev_type e) (ev_category e) (ev_severity e) (ev_actor e) (ev_action e)
       (ev_outcome e) (ev_resource e) (Some (stamp_context service_name environment context)) (ev_message e)
       (ev_details e) (ev_tags e) None None).

(** [log]: signs, then stores; [stored] is the storage's answer.  The trail is what the storage holds. *)
Definition log_event (service_name environment : string) (i : integrity) (stored : res bool) (trail : list audit_event)
    (e : audit_event) : res (integrity * list audit_event * res audit_event) :=
  do '(event, i') <- _create_event service_name environment i e;
  match stored with
  | Ok true => Ok (i', (trail ++ [event])%list, Ok event)
  | Ok false =>
      Ok (i', trail, Raise (Exn "AuditStorageError" ("audit event " +:+ ev_id event
                              +:+ " was not persisted (storage backend returned False)")))
  | Raise x => Ok (i', trail, Raise x)
  end.

(** [InMemoryAuditStorage]. *)
Record memory_storage := MemoryStorage {
  _events : list audit_event; _max_events : nat; _events_by_id : list (string * audit_event)
}.

Definition by_id_set (e : audit_event) (m : list (string * audit_event)) : list (string * audit_event) :=
  (List.filter (fun kv => negb (String.eqb (fst kv) (ev_id e))) m ++ [(ev_id e, e)])%list.
Definition by_id_get (id : string) (m : list (string * audit_event)) : option audit_event :=
  snd <$> List.find (fun kv => String.eqb (fst kv) id) m.
Definition by_id_del (id : string) (m : list (string * audit_event)) : list (string * audit_event) :=
  List.filter (fun kv => negb (String.eqb (fst kv) id)) m.

Definition store (s : memory_storage) (e : audit_event) : res memory_storage :=
  let events := (_events s ++ [e])%list in
  let by_id := by_id_set e (_events_by_id s) in
  if (_max_events s <? length events)%nat then
    match events with
    | [] => Ok (MemoryStorage events (_max_events s) by_id)
    | removed :: rest =>
        match by_id_get (ev_id removed) by_id with
        | None => Raise (KeyError (repr_str (ev_id removed)))
        | Some _ => Ok (MemoryStorage rest (_max_events s) (by_id_del (ev_id removed) by_id))
        end
    end
  else Ok (MemoryStorage events (_max_events s) by_id).

Definition get_by_id (s : memory_storage) (id : string) : option audit_event := by_id_get id (_events_by_id s).

Record audit_query := AuditQuery {
  qu_start : option datetime; qu_end : option datetime; qu_types : list string; qu_actor_id : option string;
  qu_resource_type : option string; qu_resource_id : option string; qu_tenant_id : option string;
  qu_severity : option string; qu_limit : nat; qu_offset : nat
}.

(** [if f and value != f: continue]. *)
Definition passes_text (f : option string) (value : option string) : bool :=
  match nonempty f with Some x => bool_decide (value = Some x) | None => true end.

Definition matches (q : audit_query) (e : audit_event) : res bool :=
  do before <- match qu_start q with Some t => dt_lt (ev_timestamp e) t | None => Ok false end;
  if (before : bool) then Ok false else
  do after <- match qu_end q with Some t => dt_lt t (ev_timestamp e) | None => Ok false end;
  if (after : bool) then Ok false else
  Ok (match qu_types q with [] => true | ts => existsb (String.eqb (ev_type e)) ts end
      && passes_text (qu_actor_id q) (Some (ac_id (ev_actor e)))
      && passes_text (qu_resource_type q) (re_type <$> ev_resource e)
      && passes_text (qu_resource_id q) (re_id <$> ev_resource e)
      && passes_text (qu_tenant_id q) (ac_tenant_id (ev_actor e))
      && passes_text (qu_severity q) (Some (ev_severity e))).

Fixpoint select_events (q : audit_query) (events : list audit_event) : res (list audit_event) :=
  match events with
  | [] => Ok []
  | e :: rest => do m <- matches q e; do more <- select_events q rest; Ok (if (m : bool) then e :: more else more)
  end.

Definition query (s : memory_storage) (q : audit_query) : res (list audit_event) :=
  do results <- select_events q (_events s);
  Ok (take (qu_limit q) (drop (qu_offset q) results)).
End Integrity.

(** ** What the process signed *)

Section Trail.
Context `{PyLib}.

(** A trail written by one process: every event signed in turn. *)
Fixpoint sign_all (i : integrity) (events : list audit_event) : res (list audit_event * integrity) :=
  match events with
  | [] => Ok ([], i)
  | e :: rest => do '(e', i1) <- sign_event i e; do '(rest', i2) <- sign_all i1 rest; Ok (e' :: rest', i2)
  end.

(** The text that is authenticated, and its code. *)
Definition audit_text (e : audit_event) : string :=
  match json_dumps opts_sorted_str (PDict (canonical e)) with Ok s => s | Raise _ => "" end.
Definition audit_mac (i : integrity) (e : audit_event) : string := hmac_sha256_hex (_secret_key i) (audit_text e).

Lemma audit_text_ok e : json_dumps opts_sorted_str (PDict (canonical e)) = Ok (audit_text e).
Proof. unfold audit_text. by destruct (dumps_str_total opts_sorted_str (PDict (canonical e)) eq_refl) as [s ->]. Qed.

Lemma compute_hash_mac i e : compute_hash i e = Ok (audit_mac i e).
Proof. unfold compute_hash. by rewrite audit_text_ok. Qed.

Lemma mac_hex64 i e : hex64 (audit_mac i e).
Proof. apply hmac_hex64. Qed.

Lemma mac_ascii i e : is_ascii (audit_mac i e) = true.
Proof. apply hex_ascii, mac_hex64. Qed.

Lemma mac_nonempty i e : String.eqb (audit_mac i e) "" = false.
Proof. apply String.eqb_neq. intros E. destruct (mac_hex64 i e) as [Hl _]. by rewrite E in Hl. Qed.

(** ** The verifiers, entry by entry *)

(** The stored hashes are ASCII texts, as every hexadecimal digest is. *)
Definition ascii_hash (e : audit_event) : Prop := forall h, hash_of e = Some h -> is_ascii h = true.

Lemma verify_event_eq i e :
  ascii_hash e -> verify_event i e = Ok (bool_decide (hash_of e = Some (audit_mac i e))).
Proof.
  intros Ha. unfold verify_event. destruct (hash_of e) as [h|] eqn:Eh; [|done].
  rewrite compute_hash_mac. cbn [rbind]. unfold compare_digest. rewrite (Ha h Eh), mac_ascii. cbn [andb]. f_equal.
  destruct (String.eqb_spec h (audit_mac i e)) as [->|Hne]; [by rewrite bool_decide_true|].
  by rewrite bool_decide_false by congruence.
Qed.

(** What a walk over the trail reports about one entry, given the hash before it. *)
Definition entry_issues (i : integrity) (previous_hash : option string) (e : audit_event) : list issue :=
  match hash_of e with
  | None => [missing_integrity_hash]
  | Some h =>
      ((if bool_decide (ev_previous_hash e = previous_hash) then [] else [chain_link_broken previous_hash (ev_previous_hash e)])
       ++ (if bool_decide (h = audit_mac i e) then [] else [hash_mismatch]))%list
  end.

(** The usable hash of the entry before position [k]. *)
Definition hash_before (events : list audit_event) (k : nat) : option string :=
  match k with O => None | S k' => events !! k' ≫= hash_of end.

Definition report_of (i : integrity) (events : list audit_event) : list tampered_entry :=
  concat (imap (fun k e => Tampered (ev_id e) k <$> entry_issues i (hash_before events k) e) events).

Lemma integrity_hash_hash_of e h : hash_of e = Some h -> ev_integrity_hash e = Some h.
Proof. unfold hash_of. destruct (ev_integrity_hash e) as [h'|]; [|done]. by destruct (String.eqb _ _). Qed.

Lemma audit_from_eq i k prev events :
  Forall ascii_hash events ->
  audit_from i k prev events
  = Ok (concat (imap (fun j e => Tampered (ev_id e) (k + j) <$>
                        entry_issues i (match j with O => prev | S j' => events !! j' ≫= hash_of end) e) events)).
Proof.
  revert k prev. induction events as [|e events IH]; intros k prev Ha; [done|].
  inversion Ha as [|? ? He Hr]; subst. cbn [audit_from].
  assert (Htail : forall p, p = hash_of e ->
    imap ((fun j e0 => Tampered (ev_id e0) (k + j) <$>
             entry_issues i match j with O => prev | S j' => (e :: events) !! j' ≫= hash_of end e0) ∘ S) events
    = imap (fun j e0 => Tampered (ev_id e0) (S k + j) <$>
             entry_issues i match j with O => p | S j' => events !! j' ≫= hash_of end e0) events).
  { intros p ->. apply imap_ext. intros j x _. cbn. rewrite Nat.add_succ_r. by destruct j. }
  cbn [imap concat]. rewrite Nat.add_0_r. unfold entry_issues at 1. destruct (hash_of e) as [h|] eqn:Eh.
  - rewrite verify_event_eq by done. cbn [rbind]. rewrite (IH _ _ Hr). cbn [rbind].
    rewrite (integrity_hash_hash_of e h Eh), <- (Htail (Some h)) by done. f_equal. rewrite fmap_app, <- app_assoc.
    f_equal; [by destruct (bool_decide _)|]. f_equal.
    rewrite Eh. destruct (decide (h = audit_mac i e)) as [->|Hne]; [by rewrite !bool_decide_true|].
    by rewrite !bool_decide_false by congruence.
  - rewrite (IH _ _ Hr). cbn [rbind]. by rewrite <- (Htail None).
Qed.

Lemma verify_from_eq i prev events :
  Forall ascii_hash events ->
  exists b, verify_from i prev events = Ok b /\
    (b = true <-> forall k e, events !! k = Some e ->
       entry_issues i (match k with O => prev | S k' => events !! k' ≫= hash_of end) e = []).
Proof.
  revert prev. induction events as [|e events IH]; intros prev Ha; [by exists true|].
  inversion Ha as [|? ? He Hr]; subst. cbn [verify_from].
  assert (Hhd : entry_issues i prev e = [] <-> ev_previous_hash e = prev /\ hash_of e = Some (audit_mac i e)).
  { unfold entry_issues. destruct (hash_of e) as [h|]; [|split; [done|by intros [_ ?]]].
    do 2 case_bool_decide; subst; cbn; (split; [intros E; try discriminate E|intros [Hp Hm]]); try done; congruence. }
  assert (Hcut : entry_issues i prev e <> [] -> false = true <->
    (forall k e0, (e :: events) !! k = Some e0 -> entry_issues i match k with O => prev | S k' => (e :: events) !! k' ≫= hash_of end e0 = [])).
  { intros Hne. split; [done|]. intros Hall. destruct (Hne (Hall 0%nat e eq_refl)). }
  case_bool_decide as Hp; cbn [negb].
  - rewrite verify_event_eq by done. cbn [rbind]. case_bool_decide as Hh; cbn [negb].
    + destruct (IH (ev_integrity_hash e) Hr) as (b & -> & Hb). exists b. split; [done|]. rewrite Hb.
      apply integrity_hash_hash_of in Hh as Hi. rewrite Hi. rewrite <- Hh. split.
      * intros Hall [|k] e0 Hk; [injection Hk as <-; by apply Hhd|]. cbn in Hk. specialize (Hall k e0 Hk). by destruct k.
      * intros Hall k e0 Hk. specialize (Hall (S k) e0 Hk). by destruct k.
    + exists false. split; [done|]. apply Hcut. rewrite Hhd. by intros [_ ?].
  - exists false. split; [done|]. apply Hcut. rewrite Hhd. by intros [? _].
Qed.

Lemma report_nil i events :
  report_of i events = [] <-> forall k e, events !! k = Some e -> entry_issues i (hash_before events k) e = [].
Proof.
  unfold report_of. set (f := fun k e => Tampered (ev_id e) k <$> entry_issues i (hash_before events k) e).
  assert (Hl : forall k, imap f events !! k = f k <$> events !! k) by (intros k; apply list_lookup_imap).
  split.
  - intros Hn k e Hk. assert (Hf : f k e = []).
    { apply concat_nil_Forall in Hn. rewrite Forall_lookup in Hn. apply (Hn k). by rewrite Hl, Hk. }
    unfold f in Hf. by apply fmap_nil_inv in Hf.
  - intros Hall. apply concat_nil_Forall, Forall_lookup. intros k x. rewrite Hl. destruct (events !! k) as [e|] eqn:Ek; [|done].
    cbn. intros [= <-]. unfold f. by rewrite (Hall k e Ek).
Qed.

Lemma verifiers_report i events :
  Forall ascii_hash events ->
  verify_audit_chain i events
  = Ok (AuditReport (length events) (bool_decide (report_of i events = [])) (report_of i events)) /\
  verify_chain i events = Ok (bool_decide (report_of i events = [])).
Proof.
  intros Ha. split.
  - unfold verify_audit_chain. rewrite (audit_from_eq i 0 None events Ha). cbn [rbind].
    change (concat _) with (report_of i events). f_equal. f_equal. destruct (report_of i events); [done|by rewrite bool_decide_false].
  - unfold verify_chain. destruct (verify_from_eq i None events Ha) as (b & -> & Hb). f_equal.
    change (b = true <-> forall k e, events !! k = Some e -> entry_issues i (hash_before events k) e = []) in Hb.
    rewrite <- report_nil in Hb. case_bool_decide as Hr; destruct b; tauto || (by destruct Hb; intuition).
Qed.

(** C37. On a trail whose stored hashes are ASCII, [verify_audit_chain] reports, entry by entry: of an
    entry without a hash only that it has none; of an entry with a hash, a previous hash other than the
    hash of the entry immediately before it ([None] for the first entry and after an entry without a
    hash), and a hash other than the HMAC recomputed from the entry; and nothing else.  [verify_chain]
    answers on the same trail, and it answers [True] exactly when that report is empty. *)
Theorem verifiers_report_exactly i events :
  Forall ascii_hash events ->
  verify_audit_chain i events
  = Ok (AuditReport (length events) (bool_decide (report_of i events = [])) (report_of i events)) /\
  verify_chain i events = Ok (bool_decide (report_of i events = [])).
Proof. apply verifiers_report. Qed.

(** ** What a process signs *)

Lemma audit_mac_last k l l' e : audit_mac (Integrity k l) e = audit_mac (Integrity k l') e.
Proof. reflexivity. Qed.

Lemma audit_mac_set i p h h' e : audit_mac i (set_hashes p h e) = audit_mac i (set_hashes p h' e).
Proof. reflexivity. Qed.

Definition signed_event (i : integrity) (e : audit_event) : audit_event :=
  set_hashes (_last_hash i) (Some (audit_mac i (set_hashes (_last_hash i) None e))) e.

Lemma sign_event_eq i e :
  sign_event i e = Ok (signed_event i e, Integrity (_secret_key i) (ev_integrity_hash (signed_event i e))).
Proof. unfold sign_event. rewrite compute_hash_mac. cbn [rbind]. by rewrite (audit_mac_set _ _ (ev_integrity_hash e) None). Qed.

Lemma signed_event_hash i e : hash_of (signed_event i e) = Some (audit_mac i (signed_event i e)).
Proof.
  unfold hash_of, signed_event at 1. cbn [set_hashes ev_integrity_hash]. rewrite mac_nonempty.
  by rewrite (audit_mac_set _ _ None (Some (audit_mac i (set_hashes (_last_hash i) None e)))).
Qed.

Lemma sign_all_spec i events :
  exists signed i', sign_all i events = Ok (signed, i') /\ _secret_key i' = _secret_key i /\
    set_hashes None None <$> signed = set_hashes None None <$> events /\
    _last_hash i' = match last signed with Some e => ev_integrity_hash e | None => _last_hash i end /\
    forall k e, signed !! k = Some e ->
      hash_of e = Some (audit_mac i e) /\
      ev_previous_hash e = match k with O => _last_hash i | S k' => signed !! k' ≫= hash_of end.
Proof.
  revert i. induction events as [|e events IH]; intros i; [by exists [], i|].
  cbn [sign_all]. rewrite sign_event_eq. cbn [rbind].
  destruct (IH (Integrity (_secret_key i) (ev_integrity_hash (signed_event i e)))) as (signed & i' & -> & Hk & Hc & Hl & Hall).
  cbn [rbind]. exists (signed_event i e :: signed), i'. split; [done|]. split; [done|].
  split; [by rewrite !fmap_cons, Hc|]. split.
  { rewrite Hl, last_cons. by destruct (last signed). }
  intros [|k] x; cbn [lookup list_lookup].
  - intros [= <-]. split; [apply signed_event_hash|done].
  - intros Hx. destruct (Hall k x Hx) as [Hh Hp]. split; [exact Hh|]. rewrite Hp. destruct k; [|done].
    change (ev_integrity_hash (signed_event i e) = hash_of (signed_event i e)).
    by rewrite signed_event_hash, (integrity_hash_hash_of _ _ (signed_event_hash i e)).
Qed.

Lemma no_issues i prev e :
  entry_issues i prev e = [] <-> hash_of e = Some (audit_mac i e) /\ ev_previous_hash e = prev.
Proof.
  unfold entry_issues. destruct (hash_of e) as [h|]; [|split; [done|by intros [? _]]].
  do 2 case_bool_decide; subst; cbn; (split; [intros E; try discriminate E|intros [Hm Hp]]); try done; congruence.
Qed.

Lemma signed_ascii i signed :
  (forall k e, signed !! k = Some e -> hash_of e = Some (audit_mac i e)) -> Forall ascii_hash signed.
Proof.
  intros Hall. apply Forall_lookup. intros k e Hk h Hh. rewrite (Hall k e Hk) in Hh. injection Hh as <-. apply mac_ascii.
Qed.

(** What one process signs verifies: signing a sequence of events never fails, leaves everything but the
    two hashes as it was, and both verifiers accept the result under the same key, whatever state
    the verifying instance is in; the last hash the process remembers is that of the last entry. *)
Theorem signed_trail_verifies key events seen :
  exists signed i',
    sign_all (Integrity key None) events = Ok (signed, i') /\
    set_hashes None None <$> signed = set_hashes None None <$> events /\
    _last_hash i' = last signed ≫= ev_integrity_hash /\
    verify_chain (Integrity key seen) signed = Ok true /\
    verify_audit_chain (Integrity key seen) signed = Ok (AuditReport (length events) true []).
Proof.
  destruct (sign_all_spec (Integrity key None) events) as (signed & i' & Hs & _ & Hc & Hl & Hall).
  exists signed, i'. split; [done|]. split; [done|]. split; [by rewrite Hl; destruct (last signed)|].
  assert (Ha : Forall ascii_hash signed) by (apply (signed_ascii (Integrity key None)); intros k e Hk; exact (proj1 (Hall k e Hk))).
  assert (Hn : report_of (Integrity key seen) signed = []).
  { apply report_nil. intros k e Hk. apply no_issues. exact (Hall k e Hk). }
  assert (Hlen : length signed = length events) by (rewrite <- (length_fmap (set_hashes None None) signed), Hc; apply length_fmap).
  destruct (verifiers_report (Integrity key seen) signed Ha) as [-> ->]. by rewrite Hn, Hlen.
Qed.

(** ** The last hash commits to the trail *)

Lemma verified_ascii i prev events : verify_from i prev events = Ok true -> Forall ascii_hash events.
Proof.
  revert prev. induction events as [|e events IH]; intros prev; [constructor|]. cbn [verify_from].
  destruct (negb (bool_decide _)); [done|]. intros (ok & Hok & Hrest)%rbind_Ok_inv.
  destruct ok; cbn [negb] in Hrest; [|done]. constructor; [|by eapply IH].
  intros h Hh. unfold verify_event in Hok. rewrite Hh, compute_hash_mac in Hok. cbn [rbind] in Hok.
  unfold compare_digest in Hok. destruct (is_ascii h); done.
Qed.

Lemma verified_entry i events k e :
  verify_chain i events = Ok true -> events !! k = Some e ->
  hash_of e = Some (audit_mac i e) /\ ev_previous_hash e = hash_before events k.
Proof.
  intros Hv Hk. destruct (verify_from_eq i None events (verified_ascii _ _ _ Hv)) as (b & Hb & Hiff).
  unfold verify_chain in Hv. rewrite Hb in Hv. injection Hv as ->. apply no_issues. by apply Hiff.
Qed.

Lemma canonical_keys e : NoDup (fst <$> canonical e).
Proof.
  unfold canonical, when_truthy. destruct (ev_resource e); destruct (truthy _); cbn;
    apply (bool_decide_unpack _); vm_compute; reflexivity.
Qed.

(** Values that JSON shows alike. *)
Definition same_json (v v' : pyval) : Prop := jtree_of opts_sorted_str v = jtree_of opts_sorted_str v'.

(** Two entries that agree on everything the code hashes. *)
Record same_entry (e e' : audit_event) : Prop := SameEntry {
  se_id : ev_id e = ev_id e';
  se_timestamp : isoformat (ev_timestamp e) = isoformat (ev_timestamp e');
  se_type : ev_type e = ev_type e';
  se_category : ev_category e = ev_category e';
  se_actor : same_json (PDict (actor_to_dict (ev_actor e))) (PDict (actor_to_dict (ev_actor e')));
  se_action : ev_action e = ev_action e';
  se_outcome : ev_outcome e = ev_outcome e';
  se_previous : ev_previous_hash e = ev_previous_hash e';
  se_resource : match ev_resource e, ev_resource e' with
                | Some r, Some r' => same_json (PDict (resource_to_dict r)) (PDict (resource_to_dict r'))
                | None, None => True
                | _, _ => False
                end;
  se_details : same_json (PDict (ev_details e)) (PDict (ev_details e'))
}.

Lemma same_str s s' : same_json (PStr s) (PStr s') -> s = s'.
Proof. by intros [= ->]. Qed.
Lemma same_opt_str s s' : same_json (opt_str s) (opt_str s') -> s = s'.
Proof. destruct s, s'; try done. by intros [= ->]. Qed.

Lemma same_text_same_entry e e' : audit_text e = audit_text e' -> same_entry e e'.
Proof.
  intros Ht. pose proof (audit_text_ok e) as He. pose proof (audit_text_ok e') as He'. rewrite <- Ht in He'.
  assert (Hf : forall k, dict_lookup k (canonical e) ≫= jtree_of opts_sorted_str = dict_lookup k (canonical e') ≫= jtree_of opts_sorted_str
                     /\ (dict_lookup k (canonical e) = None <-> dict_lookup k (canonical e') = None)).
  { intros k. exact (dumps_dict_field opts_sorted_str _ _ _ k (ex_intro _ " " eq_refl) (canonical_keys e) (canonical_keys e') He He'). }
  split; [apply same_str, (Hf "event_id")|apply same_str, (Hf "timestamp")|apply same_str, (Hf "event_type")|apply same_str, (Hf "category")
         |apply (Hf "actor")|apply same_str, (Hf "action")|apply same_str, (Hf "outcome")|apply same_opt_str, (Hf "previous_hash")| |].
  - destruct (Hf "resource") as [Hr Hn]. unfold canonical, when_truthy in Hr, Hn. cbn in Hr, Hn.
    destruct (ev_resource e), (ev_resource e'), (ev_details e), (ev_details e'); cbn in Hr, Hn; try done;
      destruct Hn as [Hn1 Hn2]; try (by discriminate (Hn1 eq_refl)); by discriminate (Hn2 eq_refl).
  - destruct (Hf "details") as [Hr Hn]. unfold canonical, when_truthy in Hr, Hn. cbn in Hr, Hn.
    destruct (ev_resource e), (ev_resource e'), (ev_details e), (ev_details e'); cbn in Hr, Hn; try done;
      destruct Hn as [Hn1 Hn2]; try (by discriminate (Hn1 eq_refl)); by discriminate (Hn2 eq_refl).
Qed.

(** No HMAC collision between the authenticated texts of two trails. *)
Definition no_mac_collision (key : string) (xs ys : list string) : Prop :=
  forall x y, x ∈ xs -> y ∈ ys -> hmac_sha256_hex key x = hmac_sha256_hex key y -> x = y.

Lemma bind_prefix i events events' k k' e e' :
  verify_chain i events = Ok true -> verify_chain i events' = Ok true ->
  no_mac_collision (_secret_key i) (audit_text <$> events) (audit_text <$> events') ->
  events !! k = Some e -> events' !! k' = Some e' -> audit_mac i e = audit_mac i e' ->
  k = k' /\ forall j x x', (j <= k)%nat -> events !! j = Some x -> events' !! j = Some x' -> same_entry x x'.
Proof.
  intros Hv Hv' Hnc. revert k' e e'. induction k as [|k IH]; intros k' e e' He He' Hm;
    pose proof (verified_entry i events _ e Hv He) as [_ Hp]; pose proof (verified_entry i events' _ e' Hv' He') as [_ Hp'];
    pose proof (Hnc _ _ (list_elem_of_fmap_2 audit_text _ _ (list_elem_of_lookup_2 _ _ _ He))
                  (list_elem_of_fmap_2 audit_text _ _ (list_elem_of_lookup_2 _ _ _ He')) Hm) as Hse;
    apply same_text_same_entry in Hse;
    pose proof (se_previous _ _ Hse) as Hpp; rewrite Hp, Hp' in Hpp.
  - destruct k' as [|k']; [|exfalso].
    + split; [done|]. intros j x x' Hj Hx Hx'. assert (j = 0)%nat as -> by lia. congruence.
    + cbn in Hpp. destruct (events' !! k') as [y'|] eqn:Ey'; [|apply lookup_lt_Some in He'; apply lookup_ge_None in Ey'; lia].
      cbn in Hpp. by rewrite (proj1 (verified_entry i events' k' y' Hv' Ey')) in Hpp.
  - destruct (events !! k) as [y|] eqn:Ey; [|apply lookup_lt_Some in He; apply lookup_ge_None in Ey; lia].
    cbn in Hpp. rewrite Ey in Hpp. cbn in Hpp. rewrite (proj1 (verified_entry i events k y Hv Ey)) in Hpp.
    destruct k' as [|k']; [done|]. cbn in Hpp. destruct (events' !! k') as [y'|] eqn:Ey'; [|done]. cbn in Hpp.
    rewrite (proj1 (verified_entry i events' k' y' Hv' Ey')) in Hpp. apply (inj Some) in Hpp.
    destruct (IH k' y y' eq_refl Ey' Hpp) as [-> Hall]. split; [done|]. intros j x x' Hj Hx Hx'.
    destruct (decide (j = S k')) as [->|Hne]; [congruence|]. apply (Hall j x x'); [lia|done|done].
Qed.

(** The last hash of a verified trail commits to the whole trail: two trails that verify under one key
    and end in the same hash have the same length and agree, entry by entry, on the event id, the time,
    the type, the category, the actor, the action, the outcome, the resource and the details as JSON
    shows them, unless two of their texts collide under HMAC-SHA256. *)
Theorem last_hash_binds_trail i events events' e e' :
  verify_chain i events = Ok true -> verify_chain i events' = Ok true ->
  last events = Some e -> last events' = Some e' -> ev_integrity_hash e = ev_integrity_hash e' ->
  no_mac_collision (_secret_key i) (audit_text <$> events) (audit_text <$> events') ->
  Forall2 same_entry events events'.
Proof.
  intros Hv Hv' He He' Hh Hnc. rewrite last_lookup in He, He'.
  pose proof (integrity_hash_hash_of _ _ (proj1 (verified_entry i events _ e Hv He))) as H1.
  pose proof (integrity_hash_hash_of _ _ (proj1 (verified_entry i events' _ e' Hv' He'))) as H2.
  rewrite Hh, H2 in H1. apply (inj Some) in H1. symmetry in H1.
  destruct (bind_prefix i events events' _ _ e e' Hv Hv' Hnc He He' H1) as [Hk Hall].
  pose proof (lookup_lt_Some _ _ _ He). pose proof (lookup_lt_Some _ _ _ He').
  apply Forall2_same_length_lookup_2; [lia|]. intros j x x' Hx Hx'. apply (Hall j); [|done|done].
  apply lookup_lt_Some in Hx. lia.
Qed.

(** ** What the trail does not protect *)

(** The severity, the context, the message and the tags are not part of the authenticated text. *)
Definition with_unhashed (severity : string) (context : option audit_context) (message : option string) (tags : list string)
    (e : audit_event) : audit_event :=
  AuditEvent (ev_id e) (ev_timestamp e) (ev_type e) (ev_category e) severity (ev_actor e) (ev_action e) (ev_outcome e)
    (ev_resource e) context message (ev_details e) tags (ev_integrity_hash e) (ev_previous_hash e).

Lemma unhashed_fields_free i e severity context message tags :
  verify_event i (with_unhashed severity context message tags e) = verify_event i e.
Proof. reflexivity. Qed.

(** An entry whose link is broken makes the whole trail fail. *)
Lemma broken_link_fails i events k e :
  Forall ascii_hash events -> events !! k = Some e -> ev_previous_hash e <> hash_before events k ->
  verify_chain i events = Ok false.
Proof.
  intros Ha Hk Hne. rewrite (proj2 (verifiers_report i events Ha)), bool_decide_false; [done|].
  intros Hn. rewrite report_nil in Hn. specialize (Hn k e Hk). apply no_issues in Hn as [_ Hp]. done.
Qed.

(** A failed write is followed by a trail that does not verify: [sign_event] has moved the remembered
    hash on, so the next entry that is stored points to one that is not. *)
Lemma failed_write_breaks_trail service environment key e1 e2 :
  exists i1 i2 x stored,
    log_event service environment (Integrity key None) (Ok false) [] e1 = Ok (i1, [], Raise x) /\
    log_event service environment i1 (Ok true) [] e2 = Ok (i2, [stored], Ok stored) /\
    verify_chain i2 [stored] = Ok false.
Proof.
  unfold log_event, _create_event. rewrite sign_event_eq. cbn [rbind]. do 4 eexists. split; [reflexivity|].
  rewrite sign_event_eq. cbn [rbind app]. split; [reflexivity|].
  eapply (broken_link_fails _ _ 0); [|reflexivity|done].
  constructor; [|constructor]. intros h Hh. rewrite signed_event_hash in Hh. apply (inj Some) in Hh as <-. apply mac_ascii.
Qed.

(** A restarted process starts from no remembered hash, so what two processes wrote one after the other
    does not verify as one trail. *)
Lemma restart_breaks_trail key seen events1 events2 signed1 signed2 i1 i2 :
  sign_all (Integrity key None) events1 = Ok (signed1, i1) -> sign_all (Integrity key None) events2 = Ok (signed2, i2) ->
  signed1 <> [] -> signed2 <> [] -> verify_chain (Integrity key seen) (signed1 ++ signed2)%list = Ok false.
Proof.
  intros H1 H2 Hn1 Hn2. destruct (sign_all_spec (Integrity key None) events1) as (s1 & j1 & E1 & _ & _ & _ & Hall1).
  destruct (sign_all_spec (Integrity key None) events2) as (s2 & j2 & E2 & _ & _ & _ & Hall2).
  rewrite E1 in H1. injection H1 as -> ->. rewrite E2 in H2. injection H2 as -> ->.
  assert (Hascii : Forall ascii_hash (signed1 ++ signed2)).
  { apply Forall_app. split; apply (signed_ascii (Integrity key None));
      intros k e Hk; [exact (proj1 (Hall1 k e Hk))|exact (proj1 (Hall2 k e Hk))]. }
  destruct signed2 as [|e signed2]; [done|].
  apply (broken_link_fails _ _ (length signed1) e); [done|by rewrite lookup_app_r, Nat.sub_diag by lia|].
  rewrite (proj2 (Hall2 0%nat e eq_refl)). destruct (length signed1) as [|n] eqn:El; [by destruct signed1|].
  cbn [hash_before _last_hash]. destruct (signed1 !! n) as [y|] eqn:Ey; [|apply lookup_ge_None in Ey; lia].
  rewrite lookup_app_l by lia. rewrite Ey. cbn. by rewrite (proj1 (Hall1 n y Ey)).
Qed.

(** ** Records rebuilt from storage *)

(** What [_event_from_dict] restores completely: no e-mail, session or role, and no empty resource text. *)
Definition restored_actor (a : audit_actor) : Prop := ac_email a = None /\ ac_session_id a = None /\ ac_roles a = [].
Definition known_enums (e : audit_event) : Prop :=
  In (ev_type e) AuditEventType /\ In (ev_category e) AuditEventCategory /\ In (ev_severity e) AuditSeverity.

Lemma enum_value_ok values name x : In x values -> enum_value values name x = Ok x.
Proof. intros Hi. unfold enum_value. by rewrite (proj2 (existsb_In_eqb x values) Hi). Qed.

Lemma resource_to_dict_rehydrate r : resource_to_dict (rehydrate_resource r) = resource_to_dict r.
Proof.
  unfold resource_to_dict, rehydrate_resource, nonempty, opt_str, when_truthy. cbn [re_type re_id re_name re_tenant_id re_attributes].
  destruct (re_name r) as [[|c s]|], (re_tenant_id r) as [[|c' s']|]; reflexivity.
Qed.

(** A record rebuilt from storage verifies exactly as the one that was stored did, when its actor has no
    e-mail address, no session and no role (which the rebuilding drops although they are hashed) and
    its timestamp survives the round trip through its text. *)
Theorem rehydrated_verifies i e :
  known_enums e -> restored_actor (ev_actor e) ->
  fromisoformat (isoformat (ev_timestamp e)) = Ok (ev_timestamp e) ->
  exists e', _event_from_dict e = Ok e' /\ audit_text e' = audit_text e /\ verify_event i e' = verify_event i e.
Proof.
  intros (Ht & Hc & Hs) (Hm & Hse & Hr) Hi. unfold _event_from_dict. rewrite Hi. cbn [rbind].
  rewrite !enum_value_ok by done. cbn [rbind].
  assert (Ha : rehydrate_actor (ev_actor e) = ev_actor e).
  { destruct (ev_actor e). cbn in *. unfold rehydrate_actor. cbn. congruence. }
  rewrite Ha. eexists. split; [reflexivity|]. match goal with |- audit_text ?x = _ /\ _ => set (e' := x) end.
  assert (Hcan : canonical e' = canonical e).
  { unfold canonical, e'. cbn [ev_id ev_timestamp ev_type ev_category ev_actor ev_action ev_outcome ev_previous_hash ev_resource ev_details].
    destruct (ev_resource e) as [r|]; [|done]. cbn [fmap option_fmap option_map]. by rewrite resource_to_dict_rehydrate. }
  assert (Hx : audit_text e' = audit_text e) by (unfold audit_text; by rewrite Hcan).
  split; [done|]. unfold verify_event, compute_hash. rewrite Hcan. done.
Qed.

(** ** The in-memory storage *)

Fixpoint store_all (s : memory_storage) (events : list audit_event) : res memory_storage :=
  match events with [] => Ok s | e :: rest => do s' <- store s e; store_all s' rest end.

Definition find_by_id (id : string) (events : list audit_event) : option audit_event :=
  List.find (fun e => String.eqb (ev_id e) id) events.

Lemma find_app_l {A} (f : A -> bool) l k :
  List.find f (l ++ k)%list = match List.find f l with Some x => Some x | None => List.find f k end.
Proof. induction l as [|x l IH]; cbn; [done|]. by destruct (f x). Qed.

Lemma by_id_get_del id id' m : by_id_get id' (by_id_del id m) = if String.eqb id id' then None else by_id_get id' m.
Proof.
  unfold by_id_get, by_id_del. induction m as [|[k x] m IH]; [by destruct (String.eqb id id')|]. cbn [List.filter List.find fst snd].
  destruct (String.eqb_spec k id) as [->|Hk]; cbn [negb].
  - rewrite IH. destruct (String.eqb_spec id id') as [->|]; done.
  - cbn [List.find fst]. destruct (String.eqb_spec k id') as [->|Hk']; [|done].
    destruct (String.eqb_spec id id') as [->|]; done.
Qed.

Lemma by_id_get_set e id' m : by_id_get id' (by_id_set e m) = if String.eqb (ev_id e) id' then Some e else by_id_get id' m.
Proof.
  pose proof (by_id_get_del (ev_id e) id' m) as Hd. unfold by_id_get, by_id_set, by_id_del in *. rewrite find_app_l.
  destruct (List.find _ (List.filter _ m)) as [kv|]; cbn in Hd |- *.
  - destruct (String.eqb (ev_id e) id'); [done|]. by rewrite <- Hd.
  - destruct (String.eqb (ev_id e) id'); [done|]. by rewrite <- Hd.
Qed.

Lemma find_none_id id events : ~ In id (ev_id <$> events) -> find_by_id id events = None.
Proof.
  induction events as [|e events IH]; [done|]. intros Hn. unfold find_by_id in *. cbn [List.find].
  rewrite fmap_cons in Hn. destruct (String.eqb_spec (ev_id e) id) as [E|].
  - destruct Hn. left. exact E.
  - apply IH. intros Hi. apply Hn. by right.
Qed.

(** The storage's two views agree. *)
Definition views_agree (s : memory_storage) : Prop := forall id, get_by_id s id = find_by_id id (_events s).

Lemma store_spec s e :
  views_agree s -> NoDup (ev_id <$> (_events s ++ [e])%list) -> (length (_events s) <= _max_events s)%nat ->
  exists s', store s e = Ok s' /\ _max_events s' = _max_events s /\
    _events s' = drop (S (length (_events s)) - _max_events s) (_events s ++ [e])%list /\ views_agree s'.
Proof.
  intros Hva Hnd Hlen. unfold store. rewrite length_app. cbn [length].
  assert (Hset : forall id, by_id_get id (by_id_set e (_events_by_id s)) = find_by_id id (_events s ++ [e])%list).
  { intros id. rewrite by_id_get_set. specialize (Hva id). unfold get_by_id in Hva. rewrite Hva. unfold find_by_id.
    rewrite find_app_l. cbn [List.find]. destruct (String.eqb_spec (ev_id e) id) as [<-|].
    - pose proof (find_none_id (ev_id e) (_events s)) as Hnone. unfold find_by_id in Hnone. rewrite Hnone; [done|]. rewrite fmap_app in Hnd. apply NoDup_app in Hnd as (_ & Hd & _).
      intros Hi. apply (Hd (ev_id e)); [by apply list_elem_of_In|]. cbn. by left.
    - by destruct (List.find _ (_events s)). }
  destruct (Nat.ltb_spec (_max_events s) (length (_events s) + 1)) as [Hfull|Hroom].
  - destruct (_events s ++ [e])%list as [|removed rest] eqn:Ev; [by destruct (_events s)|].
    assert (Hr : by_id_get (ev_id removed) (by_id_set e (_events_by_id s)) = Some removed).
    { rewrite Hset. unfold find_by_id. cbn. by rewrite String.eqb_refl. }
    rewrite Hr. eexists. split; [done|]. split; [done|]. cbn [_events]. split.
    + by replace (S (length (_events s)) - _max_events s)%nat with 1%nat by lia.
    + intros id. unfold get_by_id. cbn [_events_by_id _events]. rewrite by_id_get_del, Hset. unfold find_by_id. cbn [List.find].
      destruct (String.eqb_spec (ev_id removed) id) as [<-|]; [|done].
      symmetry. apply find_none_id. cbn in Hnd. apply NoDup_cons in Hnd as [Hn _]. by rewrite <- list_elem_of_In.
  - eexists. split; [done|]. split; [done|]. cbn [_events]. split; [|intros id; apply Hset].
    by replace (S (length (_events s)) - _max_events s)%nat with 0%nat by lia.
Qed.

(** The in-memory storage keeps exactly the latest [max_events] events in order, never more, and looking
    an event up by its id finds it while it is among them and only then, for events with distinct
    ids; storing never raises. *)
Theorem memory_keeps_latest max events :
  NoDup (ev_id <$> events) ->
  exists s, store_all (MemoryStorage [] max []) events = Ok s /\
    _events s = drop (length events - max) events /\ (length (_events s) <= max)%nat /\
    forall id, get_by_id s id = find_by_id id (_events s).
Proof.
  intros Hnd. enough (Hgen : forall past s, NoDup (ev_id <$> (past ++ events)%list) -> _max_events s = max ->
    _events s = drop (length past - max) past -> views_agree s ->
    exists s', store_all s events = Ok s' /\ _events s' = drop (length (past ++ events)%list - max) (past ++ events)%list /\ views_agree s').
  { destruct (Hgen [] (MemoryStorage [] max [])) as (s & Hs & He & Hv); [done..|]. exists s. split; [done|].
    split; [exact He|]. split; [|exact Hv]. rewrite He, length_drop. cbn. lia. }
  clear Hnd. induction events as [|e events IH]; intros past s Hnd Hmax Hev Hva.
  - exists s. by rewrite app_nil_r.
  - cbn [store_all]. assert (Hl : length (_events s) = (length past - (length past - max))%nat) by (by rewrite Hev, length_drop).
    destruct (store_spec s e) as (s1 & -> & Hm1 & He1 & Hv1); [done| |lia|].
    { replace (past ++ e :: events)%list with ((past ++ [e]) ++ events)%list in Hnd by by rewrite <- app_assoc. rewrite fmap_app in Hnd. apply NoDup_app in Hnd as (Hn & _ & _).
      rewrite Hev. rewrite <- (take_drop (length past - max) past), <- app_assoc, fmap_app in Hn. by apply NoDup_app in Hn as (_ & _ & Hn). }
    cbn [rbind]. destruct (IH (past ++ [e])%list s1) as (s2 & Hs2 & He2 & Hv2).
    + by rewrite <- app_assoc.
    + congruence.
    + rewrite He1, Hmax, Hl, Hev, length_app. cbn [length].
      destruct (decide (length past < max)%nat) as [Hlt|Hge].
      * by replace (length past - max)%nat with 0%nat by lia; rewrite drop_0; f_equal; lia.
      * rewrite <- (drop_app_le past [e] (length past - max)) by lia. rewrite drop_drop. f_equal. lia.
    + done.
    + exists s2. split; [done|]. by rewrite <- app_assoc in He2.
Qed.
End Trail.

(** ** Witnesses *)

Section Witnesses.
(** The clock of the examples always shows the epoch. *)
Definition demo_clock : PyLib := {|
  re_match := @re_match demo_lib; str_format := @str_format demo_lib;
  fromisoformat := fun s => if String.eqb s "1970-01-01T00:00:00+00:00" then Ok (Datetime 0 (Some 0%Z))
                            else Raise (ValueError ("Invalid isoformat string: " +:+ repr_str s));
  str_datetime := fun _ => "1970-01-01 00:00:00+00:00";
  repr_datetime := fun _ => "datetime.datetime(1970, 1, 1, 0, 0, tzinfo=datetime.timezone.utc)";
  isoformat := fun _ => "1970-01-01T00:00:00+00:00"
|}.
#[local] Existing Instance demo_clock.

Definition demo_actor (roles : list string) : audit_actor := AuditActor "u1" "user" (Some "ann") None None None None (Some "t1") roles.
Definition demo_event (id action : string) (roles : list string) : audit_event :=
  AuditEvent id (Datetime 0 (Some 0%Z)) "data_update" "data_modification" "info" (demo_actor roles) action "success"
    (Some (AuditResource "record" "r1" None None [])) (Some blank_context) None [("n", PInt 1)] [] None None.
Definition demo_integrity : integrity := Integrity "key" None.
Definition demo_trail : list audit_event :=
  Eval vm_compute in match sign_all demo_integrity [demo_event "a" "create" []; demo_event "b" "update" []; demo_event "c" "delete" []] with
  | Ok (signed, _) => signed
  | Raise _ => []
  end.

(** The same trail with the second action rewritten, and with unhashed fields rewritten everywhere. *)
Definition rewrite_action (action : string) (e : audit_event) : audit_event :=
  AuditEvent (ev_id e) (ev_timestamp e) (ev_type e) (ev_category e) (ev_severity e) (ev_actor e) action (ev_outcome e)
    (ev_resource e) (ev_context e) (ev_message e) (ev_details e) (ev_tags e) (ev_integrity_hash e) (ev_previous_hash e).
Definition tampered_trail : list audit_event := alter (rewrite_action "read") 1%nat demo_trail.
Definition softened_trail : list audit_event := with_unhashed "debug" None (Some "nothing to see") [] <$> demo_trail.

Lemma demo_trail_ascii : Forall ascii_hash demo_trail /\ Forall ascii_hash tampered_trail.
Proof.
  assert (Hc : forall l, forallb (fun e => match hash_of e with Some h => is_ascii h | None => true end) l = true -> Forall ascii_hash l).
  { intros l Hl. apply Forall_forall. intros e He h Hh. rewrite forallb_forall in Hl.
    specialize (Hl e (proj1 (list_elem_of_In _ _) He)). by rewrite Hh in Hl. }
  split; apply Hc; vm_compute; reflexivity.
Qed.

Lemma verifiers_report_exactly_witness :
  verify_audit_chain demo_integrity tampered_trail = Ok (AuditReport 3 false [Tampered "b" 1 hash_mismatch]) /\
  verify_chain demo_integrity tampered_trail = Ok false.
Proof.
  assert (Hr : report_of demo_integrity tampered_trail = [Tampered "b" 1 hash_mismatch]) by (vm_compute; reflexivity).
  pose proof (verifiers_report_exactly demo_integrity tampered_trail (proj2 demo_trail_ascii)) as [H1 H2].
  rewrite Hr in H1, H2. split; [exact H1|exact H2].
Defined.

(** The texts of a list have distinct HMACs. *)
Definition macs_distinct (key : string) (texts : list string) : bool :=
  let macs := (fun x => (hmac_sha256_hex key x, x)) <$> texts in
  forallb (fun p => forallb (fun q => negb (String.eqb (fst p) (fst q)) || String.eqb (snd p) (snd q)) macs) macs.

Lemma no_mac_collision_b key texts x y :
  macs_distinct key texts = true -> x ∈ texts -> y ∈ texts -> hmac_sha256_hex key x = hmac_sha256_hex key y -> x = y.
Proof.
  intros Hb Hx Hy E. unfold macs_distinct in Hb. rewrite forallb_forall in Hb.
  assert (Hin : forall z, z ∈ texts -> In (hmac_sha256_hex key z, z) ((fun x => (hmac_sha256_hex key x, x)) <$> texts)).
  { intros z Hz. apply list_elem_of_In. by apply (list_elem_of_fmap_2 (fun x => (hmac_sha256_hex key x, x))). }
  specialize (Hb _ (Hin x Hx)). rewrite forallb_forall in Hb. specialize (Hb _ (Hin y Hy)). cbn [fst snd] in Hb.
  rewrite E, String.eqb_refl in Hb. by apply String.eqb_eq in Hb.
Qed.

Lemma demo_macs_distinct : macs_distinct "key" (audit_text <$> demo_trail) = true.
Proof. vm_compute. reflexivity. Qed.

Lemma last_hash_binds_trail_witness : Forall2 same_entry demo_trail softened_trail.
Proof.
  assert (Hv : verify_chain demo_integrity demo_trail = Ok true) by (vm_compute; reflexivity).
  assert (Hv' : verify_chain demo_integrity softened_trail = Ok true) by (vm_compute; reflexivity).
  destruct (last demo_trail) as [e|] eqn:He; [|vm_compute in He; discriminate He].
  destruct (last softened_trail) as [e'|] eqn:He'; [|vm_compute in He'; discriminate He'].
  apply (last_hash_binds_trail demo_integrity demo_trail softened_trail e e'); try assumption.
  - assert (Hl : (ev_integrity_hash <$> last demo_trail) = (ev_integrity_hash <$> last softened_trail)) by (vm_compute; reflexivity).
    rewrite He, He' in Hl. cbn in Hl. congruence.
  - intros x y Hx Hy Hxy.
    assert (Ht : audit_text <$> softened_trail = audit_text <$> demo_trail) by (vm_compute; reflexivity). rewrite Ht in Hy.
    change (_secret_key demo_integrity) with "key" in Hxy. by apply (no_mac_collision_b "key" _ x y demo_macs_distinct).
Defined.

Lemma rehydrated_verifies_witness :
  exists e', _event_from_dict (demo_event "a" "create" []) = Ok e' /\
    audit_text e' = audit_text (demo_event "a" "create" []) /\
    verify_event demo_integrity e' = verify_event demo_integrity (demo_event "a" "create" []).
Proof.
  apply rehydrated_verifies.
  - split; [|split]; apply existsb_In_eqb; vm_compute; reflexivity.
  - by repeat split.
  - vm_compute; reflexivity.
Defined.

Lemma memory_keeps_latest_witness :
  exists s, store_all (MemoryStorage [] 2 []) demo_trail = Ok s /\
    _events s = drop (length demo_trail - 2) demo_trail /\ (length (_events s) <= 2)%nat /\
    forall id, get_by_id s id = find_by_id id (_events s).
Proof.
  apply memory_keeps_latest. apply (bool_decide_unpack _). vm_compute. reflexivity.
Defined.

(** A record whose actor has a role verifies when signed and not when read back. *)
Example rehydrated_role_fails :
  let r := do '(e, _) <- sign_event demo_integrity (demo_event "a" "create" ["admin"]);
           do before <- verify_event demo_integrity e;
           do e' <- _event_from_dict e;
           do after <- verify_event demo_integrity e'; Ok (before, after) in
  r = Ok (true, false).
Proof. vm_compute. reflexivity. Qed.

(** A stored hash with a non-ASCII character makes both verifiers raise instead of reporting it. *)
Example non_ascii_hash_raises :
  let forged := set_hashes None (Some (String "195"%char (String "169"%char EmptyString))) (demo_event "a" "create" []) in
  let e := TypeError "comparing strings with non-ASCII characters is not supported" in
  verify_chain demo_integrity [forged] = Raise e /\ verify_audit_chain demo_integrity [forged] = Raise e.
Proof. split; vm_compute; reflexivity. Qed.
End Witnesses.
