(* ===== verification/AdminAudit.v ===== *)
(** * The admin audit log

    [services/admin/app/audit.py] (the per-tenant hash chain and its writer) and
    [services/admin/app/audit_integrity.py] (its verifier), with the entry that
    [audit_routes.py] builds from a stored row.  The verifier works on dictionaries of unknown shape, as
    in the source.  Proved: what the writer appends, for any interleaving of tenants, verifies as a
    whole and window by window; what the verifier reports, row by row; that a removed row is
    reported; that the last hash pins the whole chain; and how many rows count as verified. *)

From Stdlib Require Import ZArith Lia String Ascii.
From stdpp Require Import base list strings gmap sorting.
From S2P Require Import Prelude PyStr PyFloat PyVal Json JsonText Sha256 Db.

Local Open Scope string_scope.

Section AdminAudit.
Context `{PyLib}.

(** ** The hash (audit.py) *)

Definition _AUDIT_HASH_VERSION_V1 : Z := 1.
Definition _AUDIT_HASH_VERSION_V2 : Z := 2.
Definition _AUDIT_HASH_VERSION_V3 : Z := 3.

Definition opt_text (o : option string) : pyval := match o with Some s => PStr s | None => PNone end.
Definition opt_int (o : option Z) : pyval := match o with Some z => PInt z | None => PNone end.
(** [str(x) if x else None] of an identifier. *)
Definition text_or_none (o : option string) : pyval :=
  match o with Some s => if String.eqb s "" then PNone else PStr s | None => PNone end.

Definition integrity_body (prev_hash : option string) (tenant_id timestamp event_type action : string)
    (resource_id : option string) (metadata : pydict) (actor_id actor_email severity endpoint : option string)
    (sequence_num : option Z) (version : Z) : pydict :=
  ([("prev_hash", PStr (ostr_or prev_hash "GENESIS")); ("tenant_id", PStr tenant_id); ("timestamp", PStr timestamp);
    ("event_type", PStr event_type); ("action", PStr action); ("resource_id", text_or_none resource_id);
    ("metadata", PDict metadata)]
   ++ (if (_AUDIT_HASH_VERSION_V2 <=? version)%Z
       then [("version", PInt version); ("actor_id", text_or_none actor_id); ("actor_email", opt_text actor_email);
             ("severity", opt_text severity); ("endpoint", opt_text endpoint)] else [])
   ++ (if (_AUDIT_HASH_VERSION_V3 <=? version)%Z then [("sequence_num", opt_int sequence_num)] else []))%list.

(** [hashlib.sha256(json.dumps(body, sort_keys=True, default=str).encode()).hexdigest()]. *)
Definition body_hash (body : pydict) : res string :=
  do payload <- json_dumps opts_sorted_str (PDict body); Ok (sha256_hex payload).

Definition compute_integrity_hash (prev_hash : option string) (tenant_id timestamp event_type action : string)
    (resource_id : option string) (metadata : pydict) (actor_id actor_email severity endpoint : option string)
    (sequence_num : option Z) (version : Z) : res string :=
  body_hash (integrity_body prev_hash tenant_id timestamp event_type action resource_id metadata actor_id actor_email
               severity endpoint sequence_num version).

(** ** The table and its writer *)

Record audit_row := AuditRow {
  au_id : Z; au_tenant_id : string; au_timestamp : datetime; au_actor_id : option string; au_actor_email : option string;
  au_actor_ip : option string; au_actor_ua : option string; au_event_type : string; au_event_category : string;
  au_action : string; au_severity : string; au_resource_type : option string; au_resource_id : option string;
  au_endpoint : option string; au_metadata : pyval; au_request_id : option string; au_prev_hash : option string;
  au_sequence_num : option Z; au_integrity_hash : string
}.
Record audit_db := AuditDb { audit_logs : list audit_row; next_audit_id : Z }.

Record log_args := LogArgs {
  la_tenant_id : string; la_event_type : string; la_action : string; la_event_category : string; la_severity : string;
  la_actor_id : option string; la_actor_email : option string; la_actor_ip : option string; la_actor_ua : option string;
  la_resource_type : option string; la_resource_id : option string; la_endpoint : option string;
  la_metadata : option pydict; la_request_id : option string
}.

Definition tenant_rows (tenant_id : string) (t : list audit_row) : list audit_row :=
  where_ (fun r => String.eqb (au_tenant_id r) tenant_id) t.

(** [SELECT integrity_hash, sequence_num ... ORDER BY id DESC LIMIT 1], and the next sequence number. *)
Definition newer (a b : audit_row) : bool := (au_id b <=? au_id a)%Z.
Definition chain_head (rows : list audit_row) : option string * Z :=
  match order_by newer rows with
  | [] => (None, 1%Z)
  | row :: _ =>
      (Some (au_integrity_hash row), match au_sequence_num row with Some head_seq => (head_seq + 1)%Z | None => 1%Z end)
  end.
Definition _get_chain_head (tenant_id : string) (s : audit_db) : option string * Z :=
  chain_head (tenant_rows tenant_id (audit_logs s)).

Definition _get_prev_hash (tenant_id : string) (s : audit_db) : option string := fst (_get_chain_head tenant_id s).

(** The exception classes that [log_event] turns into [None]. *)
Definition swallowed (e : exn) : bool :=
  existsb (String.eqb (exn_type e))
    ["ValueError"; "RuntimeError"; "OSError"; "AttributeError"; "TypeError"; "KeyError"; "SQLAlchemyError"].

(** UNIQUE (tenant_id, sequence_num). *)
Definition sequence_taken (tenant_id : string) (sequence_num : Z) (t : list audit_row) : bool :=
  existsb (fun r => String.eqb (au_tenant_id r) tenant_id && bool_decide (au_sequence_num r = Some sequence_num)) t.

(** The insert; [fault] is an error of the database itself. *)
Definition insert_audit_row (fault : option exn) (row : Z -> audit_row) : dbm audit_db Z := fun s =>
  let r := row (next_audit_id s) in
  match fault with
  | Some e => (s, Raise e)
  | None =>
      if match au_sequence_num r with Some n => sequence_taken (au_tenant_id r) n (audit_logs s) | None => false end
      then (s, Raise (Exn "SQLAlchemyError" "duplicate key value violates unique constraint"))
      else (AuditDb (audit_logs s ++ [r])%list (next_audit_id s + 1)%Z, Ok (next_audit_id s))
  end.

(** The entry that [log_event] builds on a chain head. *)
Definition entry_hash (now : datetime) (a : log_args) (head : option string * Z) : res string :=
  compute_integrity_hash (fst head) (la_tenant_id a) (isoformat now) (la_event_type a) (la_action a) (la_resource_id a)
    (default [] (la_metadata a)) (la_actor_id a) (la_actor_email a) (Some (la_severity a)) (la_endpoint a)
    (Some (snd head)) _AUDIT_HASH_VERSION_V3.
Definition new_entry (now : datetime) (a : log_args) (head : option string * Z) (integrity_hash : string) (id : Z) : audit_row :=
  AuditRow id (la_tenant_id a) now (la_actor_id a) (la_actor_email a) (la_actor_ip a) (str_take 512 <$> la_actor_ua a)
    (la_event_type a) (la_event_category a) (la_action a) (la_severity a) (la_resource_type a) (la_resource_id a)
    (la_endpoint a) (PDict (default [] (la_metadata a))) (la_request_id a) (fst head) (Some (snd head)) integrity_hash.

(** [log_event]: the id of the new row, or [None].  The advisory lock serialises the calls of one
    tenant; [chain_step] below has the interleavings. *)
Definition append_entry (fault : option exn) (now : datetime) (a : log_args) : dbm audit_db Z :=
  (head <~ dget (_get_chain_head (la_tenant_id a)) ;;
   integrity_hash <~ (fun s => (s, entry_hash now a head)) ;;
   insert_audit_row fault (new_entry now a head integrity_hash))%dbm.

Definition log_event (fault : option exn) (now : datetime) (a : log_args) : dbm audit_db (option Z) := fun s =>
  match append_entry fault now a s with
  | (s', Ok id) => (s', Ok (Some id))
  | (s', Raise e) => if swallowed e then (s', Ok None) else (s', Raise e)
  end.

(** ** The verifier (audit_integrity.py) *)

(** [chain_timestamp] of a stored timestamp. *)
Definition chain_timestamp (d : datetime) : string :=
  isoformat (match dt_offset d with None => Datetime (dt_wall d) (Some 0%Z) | Some _ => d end).

Definition _as_dict (v : pyval) : option pydict := match v with PDict d => Some d | _ => None end.

Record chain_error := ChainError { er_id : pyval; er_error : string; er_expected : pyval; er_actual : pyval }.
Record chain_state := ChainState {
  cs_errors : list chain_error; cs_broken : gset nat; cs_legacy_v1_rows : list pyval;
  cs_prev_sequence_num : pyval; cs_expected_prev_hash : pyval
}.
Record chain_result := ChainResult {
  cr_valid : bool; cr_total_entries : nat; cr_verified : Z; cr_first_break : pyval; cr_errors : list chain_error;
  cr_legacy_v1_rows : list pyval
}.

Definition entry_id (entry : pyval) : pyval := match entry with PDict d => dict_get d "id" PNone | _ => PNone end.

Definition fail (index : nat) (entry : pyval) (error : string) (expected actual : pyval) (st : chain_state) : chain_state :=
  ChainState (cs_errors st ++ [ChainError (entry_id entry) error expected actual])%list ({[index]} ∪ cs_broken st)
    (cs_legacy_v1_rows st) (cs_prev_sequence_num st) (cs_expected_prev_hash st).

(** [type(v).__name__]. *)
Definition class_name (v : pyval) : string := match v with PDatetime _ => "datetime" | _ => type_name v end.

(** [v + 1]. *)
Definition plus_one (v : pyval) : res pyval :=
  match v with
  | PInt z => Ok (PInt (z + 1))
  | PBool b => Ok (PInt ((if b then 1 else 0) + 1))
  | PFloat f => Ok (PFloat (fadd f (f_of_Z 1)))
  | PStr _ | PList _ =>
      Raise (TypeError ("can only concatenate " +:+ type_name v +:+ " (not " +:+ String dquote "int" +:+ String dquote ") to "
                        +:+ type_name v))
  | _ => Raise (TypeError ("unsupported operand type(s) for +: '" +:+ type_name v +:+ "' and 'int'"))
  end.

Definition is_missing (o : option pydict) : bool := match o with None => true | Some _ => false end.
Definition or_empty (o : option pydict) : pydict := match o with Some d => d | None => [] end.
Definition py_or (v d : pyval) : pyval := if truthy v then v else d.

(** The three bodies that are tried. *)
Definition base_body (e integrity event resource metadata : pydict) : pydict :=
  [("prev_hash", py_or (dict_get integrity "prev_hash" PNone) (PStr "GENESIS")); ("tenant_id", dict_get e "tenant_id" PNone);
   ("timestamp", dict_get e "timestamp" PNone); ("event_type", dict_get event "type" PNone);
   ("action", dict_get event "action" PNone); ("resource_id", dict_get resource "id" PNone); ("metadata", PDict metadata)].
Definition actor_fields (e : pydict) : pydict :=
  let actor := or_empty (_as_dict (dict_get e "actor" (PDict []))) in
  let event_block := or_empty (_as_dict (dict_get e "event" (PDict []))) in
  [("actor_id", dict_get actor "id" PNone); ("actor_email", dict_get actor "email" PNone);
   ("severity", dict_get e "severity" (dict_get event_block "severity" PNone)); ("endpoint", dict_get e "endpoint" PNone)].

Definition check_link (anchored : bool) (i : nat) (entry actual_prev : pyval) (st : chain_state) : chain_state :=
  if (i =? 0)%nat && negb anchored
  then ChainState (cs_errors st) (cs_broken st) (cs_legacy_v1_rows st) (cs_prev_sequence_num st) actual_prev
  else if py_eq actual_prev (cs_expected_prev_hash st) then st
  else fail i entry "prev_hash_mismatch" (cs_expected_prev_hash st) actual_prev st.

Definition check_sequence (i : nat) (entry sequence_num : pyval) (st : chain_state) : res chain_state :=
  do st <- (if negb (is_none sequence_num) && negb (is_none (cs_prev_sequence_num st)) then
              do next <- plus_one (cs_prev_sequence_num st);
              Ok (if py_eq sequence_num next then st else fail i entry "sequence_gap" next sequence_num st)
            else Ok st);
  Ok (if is_none sequence_num then st
      else ChainState (cs_errors st) (cs_broken st) (cs_legacy_v1_rows st) sequence_num (cs_expected_prev_hash st)).

Definition check_hash (i : nat) (entry : pyval) (v1 v2 v3 : string) (actual_hash : pyval) (st : chain_state) : chain_state :=
  if py_eq actual_hash (PStr v3) then st
  else if py_eq actual_hash (PStr v2) then st
  else if py_eq actual_hash (PStr v1)
  then ChainState (cs_errors st) (cs_broken st) (cs_legacy_v1_rows st ++ [entry_id entry])%list (cs_prev_sequence_num st)
         (cs_expected_prev_hash st)
  else fail i entry "integrity_hash_mismatch" (PStr v3) actual_hash st.

(** One turn of the loop. *)
Definition verify_entry (anchored : bool) (i : nat) (entry : pyval) (st : chain_state) : res chain_state :=
  match entry with
  | PDict e =>
      let block k := _as_dict (dict_get e k (PDict [])) in
      let st := if is_missing (block "integrity") || is_missing (block "event") || is_missing (block "resource")
                   || is_missing (block "metadata")
                then fail i entry "malformed_entry" (PStr "object") (PStr "invalid block") st else st in
      let integrity := or_empty (block "integrity") in
      let event := or_empty (block "event") in
      let resource := or_empty (block "resource") in
      let metadata := or_empty (block "metadata") in
      let actual_hash := dict_get integrity "hash" PNone in
      let sequence_num := dict_get integrity "sequence_num" PNone in
      do st <- check_sequence i entry sequence_num (check_link anchored i entry (dict_get integrity "prev_hash" PNone) st);
      let base := base_body e integrity event resource metadata in
      do v3 <- body_hash (base ++ [("version", PInt 3)] ++ actor_fields e ++ [("sequence_num", sequence_num)])%list;
      do v2 <- body_hash (base ++ [("version", PInt 2)] ++ actor_fields e)%list;
      do v1 <- body_hash base;
      let st := check_hash i entry v1 v2 v3 actual_hash st in
      Ok (ChainState (cs_errors st) (cs_broken st) (cs_legacy_v1_rows st) (cs_prev_sequence_num st) actual_hash)
  | _ => Ok (fail i entry "malformed_entry" (PStr "object") (PStr (class_name entry)) st)
  end.

Fixpoint verify_entries (anchored : bool) (i : nat) (entries : list pyval) (st : chain_state) : res chain_state :=
  match entries with
  | [] => Ok st
  | entry :: rest => do st' <- verify_entry anchored i entry st; verify_entries anchored (S i) rest st'
  end.

Definition verify_chain (entries : list pyval) (predecessor : option pyval) (missing_anchor : bool) : res chain_result :=
  match entries with
  | [] => Ok (ChainResult true 0 0 PNone [] [])
  | first :: _ =>
      let pred := predecessor ≫= _as_dict in
      let integrity := match pred with Some p => or_empty (_as_dict (dict_get p "integrity" PNone)) | None => [] end in
      let st0 := ChainState [] ∅ [] (dict_get integrity "sequence_num" PNone) (dict_get integrity "hash" PNone) in
      let st1 := if missing_anchor then fail 0 first "chain_anchor_missing" (PStr "predecessor row") PNone st0 else st0 in
      do st <- verify_entries (match pred with Some _ => true | None => false end) 0 entries st1;
      Ok (ChainResult (length (cs_errors st) =? 0)%nat (length entries)
            (Z.of_nat (length entries) - Z.of_nat (size (cs_broken st)))%Z
            (match cs_errors st with er :: _ => er_id er | [] => PNone end) (cs_errors st) (cs_legacy_v1_rows st))
  end.

(** ** The entry of a stored row (audit_routes.py) *)

Definition _canonical_verification_entry (row : audit_row) : pyval :=
  PDict [("id", PInt (au_id row)); ("tenant_id", PStr (au_tenant_id row)); ("timestamp", PStr (chain_timestamp (au_timestamp row)));
         ("event", PDict [("type", PStr (au_event_type row)); ("action", PStr (au_action row))]);
         ("resource", PDict [("id", text_or_none (au_resource_id row))]);
         ("metadata", match au_metadata row with PDict d => PDict d | _ => PDict [] end);
         ("actor", PDict [("id", text_or_none (au_actor_id row)); ("email", opt_text (au_actor_email row))]);
         ("severity", PStr (au_severity row)); ("endpoint", opt_text (au_endpoint row));
         ("integrity", PDict [("prev_hash", opt_text (au_prev_hash row)); ("hash", PStr (au_integrity_hash row));
                              ("sequence_num", opt_int (au_sequence_num row))])].

(** [_predecessor_row]: the last row before [sequence_num]. *)
Definition _predecessor_row (tenant_id : string) (sequence_num : Z) (s : audit_db) : option audit_row :=
  let seq r := match au_sequence_num r with Some n => n | None => 0%Z end in
  head (order_by (fun a b => (seq b <=? seq a)%Z)
          (where_ (fun r => match au_sequence_num r with Some n => (n <? sequence_num)%Z | None => false end)
             (tenant_rows tenant_id (audit_logs s)))).

(** ** One row under the verifier *)

Definition body_text (body : pydict) : string :=
  match json_dumps opts_sorted_str (PDict body) with Ok s => s | Raise _ => "" end.

Lemma body_text_ok body : json_dumps opts_sorted_str (PDict body) = Ok (body_text body).
Proof. unfold body_text. by destruct (dumps_str_total opts_sorted_str (PDict body) eq_refl) as [s ->]. Qed.

Lemma body_hash_eq body : body_hash body = Ok (sha256_hex (body_text body)).
Proof. unfold body_hash. by rewrite body_text_ok. Qed.

Definition row_metadata (r : audit_row) : pydict := match au_metadata r with PDict d => d | _ => [] end.
Definition row_body (version : Z) (r : audit_row) : pydict :=
  integrity_body (au_prev_hash r) (au_tenant_id r) (chain_timestamp (au_timestamp r)) (au_event_type r) (au_action r)
    (au_resource_id r) (row_metadata r) (au_actor_id r) (au_actor_email r) (Some (au_severity r)) (au_endpoint r)
    (au_sequence_num r) version.
Definition row_text (version : Z) (r : audit_row) : string := body_text (row_body version r).
Definition row_hash (version : Z) (r : audit_row) : string := sha256_hex (row_text version r).

(** What the verifier says about a row, given the hash and the sequence number before it. *)
Definition row_error (r : audit_row) (error : string) (expected actual : pyval) : chain_error :=
  ChainError (PInt (au_id r)) error expected actual.
Definition link_errors (previous : option pyval) (r : audit_row) : list chain_error :=
  match previous with
  | None => []
  | Some p => if py_eq (opt_text (au_prev_hash r)) p then [] else [row_error r "prev_hash_mismatch" p (opt_text (au_prev_hash r))]
  end.
Definition sequence_errors (previous : option Z) (r : audit_row) : list chain_error :=
  match previous, au_sequence_num r with
  | Some p, Some n => if (n =? p + 1)%Z then [] else [row_error r "sequence_gap" (PInt (p + 1)) (PInt n)]
  | _, _ => []
  end.
Definition hash_errors (r : audit_row) : list chain_error :=
  if String.eqb (au_integrity_hash r) (row_hash 3 r) then []
  else if String.eqb (au_integrity_hash r) (row_hash 2 r) then []
  else if String.eqb (au_integrity_hash r) (row_hash 1 r) then []
  else [row_error r "integrity_hash_mismatch" (PStr (row_hash 3 r)) (PStr (au_integrity_hash r))].
Definition row_legacy (r : audit_row) : list pyval :=
  if String.eqb (au_integrity_hash r) (row_hash 3 r) then []
  else if String.eqb (au_integrity_hash r) (row_hash 2 r) then []
  else if String.eqb (au_integrity_hash r) (row_hash 1 r) then [PInt (au_id r)] else [].
Definition row_errors (prev_hash : option pyval) (prev_seq : option Z) (r : audit_row) : list chain_error :=
  (link_errors prev_hash r ++ sequence_errors prev_seq r ++ hash_errors r)%list.
Definition seq_after (prev_seq : option Z) (r : audit_row) : option Z :=
  match au_sequence_num r with Some n => Some n | None => prev_seq end.

(** The rows that a state counts as broken. *)
Definition broken_if (errors : list chain_error) (i : nat) (b : gset nat) : gset nat :=
  match errors with [] => b | _ => {[i]} ∪ b end.

Lemma py_or_genesis o : py_or (opt_text o) (PStr "GENESIS") = PStr (ostr_or o "GENESIS").
Proof. destruct o as [s|]; [|done]. cbn. unfold py_or, str_or. cbn. by destruct (String.eqb s ""). Qed.

Lemma is_none_opt_int o : is_none (opt_int o) = match o with Some _ => false | None => true end.
Proof. by destruct o. Qed.

Lemma canonical_bodies r e integrity event resource metadata :
  _canonical_verification_entry r = PDict e ->
  integrity = or_empty (_as_dict (dict_get e "integrity" (PDict []))) -> event = or_empty (_as_dict (dict_get e "event" (PDict []))) ->
  resource = or_empty (_as_dict (dict_get e "resource" (PDict []))) -> metadata = or_empty (_as_dict (dict_get e "metadata" (PDict []))) ->
  let base := base_body e integrity event resource metadata in
  (base ++ [("version", PInt 3)] ++ actor_fields e ++ [("sequence_num", dict_get integrity "sequence_num" PNone)])%list = row_body 3 r /\
  (base ++ [("version", PInt 2)] ++ actor_fields e)%list = row_body 2 r /\ base = row_body 1 r.
Proof.
  intros He -> -> -> ->. injection He as <-. unfold base_body, row_body, integrity_body, actor_fields, row_metadata. cbn.
  rewrite py_or_genesis. by destruct (au_metadata r).
Qed.

(** Errors added to a state. *)
Definition add_errors (errors : list chain_error) (i : nat) (st : chain_state) : chain_state :=
  ChainState (cs_errors st ++ errors)%list (broken_if errors i (cs_broken st)) (cs_legacy_v1_rows st)
    (cs_prev_sequence_num st) (cs_expected_prev_hash st).

Lemma add_errors_nil i st : add_errors [] i st = st.
Proof. destruct st. unfold add_errors. cbn. by rewrite app_nil_r. Qed.

Lemma broken_if_app a b i s : broken_if (a ++ b)%list i s = broken_if b i (broken_if a i s).
Proof. destruct a, b; cbn; try done. by rewrite (assoc_L (∪)), (idemp_L (∪)). Qed.

Lemma add_errors_app a b i st : add_errors b i (add_errors a i st) = add_errors (a ++ b)%list i st.
Proof. unfold add_errors. cbn. by rewrite broken_if_app, <- app_assoc. Qed.

Lemma fail_add i r error expected actual st :
  fail i (_canonical_verification_entry r) error expected actual st = add_errors [row_error r error expected actual] i st.
Proof. reflexivity. Qed.

Lemma check_link_row anchored i r st :
  let prev := if (i =? 0)%nat && negb anchored then None else Some (cs_expected_prev_hash st) in
  exists expected, check_link anchored i (_canonical_verification_entry r) (opt_text (au_prev_hash r)) st
    = let st' := add_errors (link_errors prev r) i st in
      ChainState (cs_errors st') (cs_broken st') (cs_legacy_v1_rows st') (cs_prev_sequence_num st') expected.
Proof.
  unfold check_link. destruct ((i =? 0)%nat && negb anchored); cbv zeta.
  - exists (opt_text (au_prev_hash r)). cbn [link_errors]. by rewrite add_errors_nil.
  - exists (cs_expected_prev_hash st). unfold link_errors. rewrite fail_add.
    destruct (py_eq _ _); [rewrite add_errors_nil|]; by destruct st.
Qed.

Lemma check_sequence_row i r st q :
  cs_prev_sequence_num st = opt_int q ->
  check_sequence i (_canonical_verification_entry r) (opt_int (au_sequence_num r)) st
  = Ok (let st' := add_errors (sequence_errors q r) i st in
        ChainState (cs_errors st') (cs_broken st') (cs_legacy_v1_rows st') (opt_int (seq_after q r)) (cs_expected_prev_hash st')).
Proof.
  intros Hq. unfold check_sequence, sequence_errors, seq_after. rewrite Hq, !is_none_opt_int.
  destruct (au_sequence_num r) as [n|], q as [p|]; cbn [negb andb rbind opt_int plus_one py_eq as_int].
  - rewrite fail_add. destruct (n =? p + 1)%Z; rewrite ?add_errors_nil; by destruct st.
  - rewrite add_errors_nil. by destruct st.
  - rewrite add_errors_nil. destruct st. cbn in *. by subst.
  - rewrite add_errors_nil. destruct st. cbn in *. by subst.
Qed.

Lemma check_hash_row i r st :
  check_hash i (_canonical_verification_entry r) (row_hash 1 r) (row_hash 2 r) (row_hash 3 r) (PStr (au_integrity_hash r)) st
  = let st' := add_errors (hash_errors r) i st in
    ChainState (cs_errors st') (cs_broken st') (cs_legacy_v1_rows st' ++ row_legacy r)%list (cs_prev_sequence_num st')
      (cs_expected_prev_hash st').
Proof.
  unfold check_hash, hash_errors, row_legacy. cbn [py_eq].
  destruct (String.eqb _ (row_hash 3 r)); [|destruct (String.eqb _ (row_hash 2 r)); [|destruct (String.eqb _ (row_hash 1 r))]];
    rewrite ?add_errors_nil, ?fail_add; destruct st; cbn; by rewrite ?app_nil_r.
Qed.

Lemma verify_entry_row anchored i r st q :
  cs_prev_sequence_num st = opt_int q ->
  let prev := if (i =? 0)%nat && negb anchored then None else Some (cs_expected_prev_hash st) in
  verify_entry anchored i (_canonical_verification_entry r) st
  = Ok (ChainState (cs_errors st ++ row_errors prev q r)%list (broken_if (row_errors prev q r) i (cs_broken st))
          (cs_legacy_v1_rows st ++ row_legacy r)%list (opt_int (seq_after q r)) (PStr (au_integrity_hash r))).
Proof.
  intros Hq prev. destruct (check_link_row anchored i r st) as (expected & Hl). fold prev in Hl.
  unfold verify_entry. destruct (_canonical_verification_entry r) as [| | | | | | |e] eqn:He; try discriminate He.
  pose proof (canonical_bodies r e _ _ _ _ He eq_refl eq_refl eq_refl eq_refl) as (B3 & B2 & B1).
  cbv zeta in *. rewrite B3, B2, B1. clear B1 B2 B3. rewrite !body_hash_eq. cbn [rbind].
  assert (Hm : is_missing (_as_dict (dict_get e "integrity" (PDict []))) || is_missing (_as_dict (dict_get e "event" (PDict [])))
    || is_missing (_as_dict (dict_get e "resource" (PDict []))) || is_missing (_as_dict (dict_get e "metadata" (PDict []))) = false).
  { injection He as <-. cbn. by destruct (au_metadata r). }
  rewrite Hm. clear Hm.
  assert (Hint : or_empty (_as_dict (dict_get e "integrity" (PDict []))) =
    [("prev_hash", opt_text (au_prev_hash r)); ("hash", PStr (au_integrity_hash r)); ("sequence_num", opt_int (au_sequence_num r))])
    by (by injection He as <-).
  rewrite Hint. cbn [dict_get dict_lookup String.eqb Ascii.eqb Bool.eqb]. clear Hint.
  rewrite Hl, <- He. rewrite (check_sequence_row i r _ q) by done. cbn [rbind].
  change (sha256_hex (body_text (row_body 3 r))) with (row_hash 3 r).
  change (sha256_hex (body_text (row_body 2 r))) with (row_hash 2 r).
  change (sha256_hex (body_text (row_body 1 r))) with (row_hash 1 r).
  rewrite check_hash_row. cbn [cs_errors cs_broken cs_legacy_v1_rows cs_prev_sequence_num cs_expected_prev_hash add_errors].
  unfold row_errors. by rewrite !broken_if_app, <- !app_assoc.
Qed.

(** ** Runs over rows *)

(** The errors of each row of a run. *)
Fixpoint run_errors (prev_hash : option pyval) (prev_seq : option Z) (rows : list audit_row) : list (list chain_error) :=
  match rows with
  | [] => []
  | r :: rest => row_errors prev_hash prev_seq r :: run_errors (Some (PStr (au_integrity_hash r))) (seq_after prev_seq r) rest
  end.

Fixpoint broken_from (i : nat) (errors : list (list chain_error)) (b : gset nat) : gset nat :=
  match errors with [] => b | e :: rest => broken_from (S i) rest (broken_if e i b) end.

Lemma verify_entries_rows anchored i rows st q :
  cs_prev_sequence_num st = opt_int q ->
  let errors := run_errors (if (i =? 0)%nat && negb anchored then None else Some (cs_expected_prev_hash st)) q rows in
  exists st', verify_entries anchored i (_canonical_verification_entry <$> rows) st = Ok st' /\
    cs_errors st' = (cs_errors st ++ concat errors)%list /\ cs_broken st' = broken_from i errors (cs_broken st) /\
    cs_legacy_v1_rows st' = (cs_legacy_v1_rows st ++ flat_map row_legacy rows)%list.
Proof.
  revert i st q. induction rows as [|r rows IH]; intros i st q Hq; cbn [fmap list_fmap verify_entries run_errors].
  - exists st. cbn. by rewrite !app_nil_r.
  - rewrite (verify_entry_row anchored i r st q Hq). cbn [rbind].
    destruct (IH (S i) (ChainState (cs_errors st ++ row_errors (if (i =? 0)%nat && negb anchored then None else Some (cs_expected_prev_hash st)) q r)%list
      (broken_if (row_errors (if (i =? 0)%nat && negb anchored then None else Some (cs_expected_prev_hash st)) q r) i (cs_broken st))
      (cs_legacy_v1_rows st ++ row_legacy r)%list (opt_int (seq_after q r)) (PStr (au_integrity_hash r))) (seq_after q r) eq_refl)
      as (st' & -> & He & Hb & Hl).
    exists st'. cbn in He, Hb, Hl |- *. rewrite He, Hb, Hl, <- !app_assoc. done.
Qed.

(** What precedes a run: the stored row before it, or nothing. *)
Definition hash_of_previous (previous : option audit_row) : option pyval := (fun r => PStr (au_integrity_hash r)) <$> previous.
Definition seq_of_previous (previous : option audit_row) : option Z := previous ≫= au_sequence_num.

Definition anchor_errors (missing_anchor : bool) (rows : list audit_row) : list chain_error :=
  match rows with
  | r :: _ => if missing_anchor then [row_error r "chain_anchor_missing" (PStr "predecessor row") PNone] else []
  | [] => []
  end.

(** The result of the verifier on stored rows. *)
Lemma verify_chain_rows previous missing_anchor rows :
  let errors := run_errors (hash_of_previous previous) (seq_of_previous previous) rows in
  let all := (anchor_errors missing_anchor rows ++ concat errors)%list in
  verify_chain (_canonical_verification_entry <$> rows) (_canonical_verification_entry <$> previous) missing_anchor
  = Ok (ChainResult (length all =? 0)%nat (length rows)
          (Z.of_nat (length rows) - Z.of_nat (size (broken_from 0 errors (broken_if (anchor_errors missing_anchor rows) 0 ∅))))%Z
          (match all with er :: _ => er_id er | [] => PNone end) all (flat_map row_legacy rows)).
Proof.
  destruct rows as [|r rows]; [done|]. cbv zeta. unfold verify_chain. rewrite fmap_cons, <- fmap_cons.
  match goal with |- context [verify_entries ?a 0 _ (if missing_anchor then _ else ?st)] => set (anchored := a); set (st0 := st) end.
  set (st1 := if missing_anchor then _ else st0).
  assert (H1 : st1 = add_errors (anchor_errors missing_anchor (r :: rows)) 0 st0).
  { unfold st1, anchor_errors. destruct missing_anchor; [apply fail_add|by rewrite add_errors_nil]. }
  destruct (verify_entries_rows anchored 0 (r :: rows) st1 (seq_of_previous previous)) as (st & Hst & He & Hb & Hl).
  { rewrite H1. unfold st0. destruct previous as [p|]; [|done]. cbn. by destruct (au_sequence_num p). }
  rewrite Hst. cbn [rbind].
  replace (if (0 =? 0)%nat && negb anchored then None else Some (cs_expected_prev_hash st1)) with (hash_of_previous previous) in He, Hb
    by (rewrite H1; unfold anchored, st0; by destruct previous).
  rewrite He, Hb, Hl, H1, length_fmap. done.
Qed.

(** ** Counting rows *)

(** A turn of the loop marks no row but its own, and marks it exactly when it adds an error. *)
Definition marks (i : nat) (st st' : chain_state) : Prop :=
  cs_broken st' ⊆ {[i]} ∪ cs_broken st /\ cs_broken st ⊆ cs_broken st' /\
  ((cs_errors st = [] <-> cs_broken st = ∅) -> (cs_errors st' = [] <-> cs_broken st' = ∅)).

Lemma marks_refl i st : marks i st st.
Proof. split; [set_solver|]. split; [done|done]. Qed.

Lemma marks_trans i a b c : marks i a b -> marks i b c -> marks i a c.
Proof. intros (H1 & H2 & H3) (K1 & K2 & K3). split; [set_solver|]. split; [set_solver|auto]. Qed.

Lemma marks_fail i entry error expected actual st : marks i st (fail i entry error expected actual st).
Proof.
  split; [set_solver|]. split; [set_solver|]. intros _. cbn. split; [intros E; by destruct (cs_errors st)|].
  intros E. assert (i ∈ ({[i]} ∪ cs_broken st : gset nat)) by set_solver. rewrite E in *. set_solver.
Qed.

Lemma marks_same i st st' : cs_errors st' = cs_errors st -> cs_broken st' = cs_broken st -> marks i st st'.
Proof. intros E1 E2. split; [rewrite E2; set_solver|]. split; [by rewrite E2|]. by rewrite E1, E2. Qed.

Lemma verify_entry_marks anchored i entry st st' : verify_entry anchored i entry st = Ok st' -> marks i st st'.
Proof.
  unfold verify_entry. destruct entry; try (intros [= <-]; apply marks_fail). cbv zeta.
  match goal with |- context [if ?b then fail _ _ _ _ _ _ else _] => set (bad := b) end.
  set (st1 := if bad then _ else st). assert (H1 : marks i st st1) by (unfold st1; destruct bad; [apply marks_fail|apply marks_refl]).
  clearbody st1. intros (st3 & Hs & E)%rbind_Ok_inv. apply rbind_Ok_inv in E as (v3 & _ & E).
  apply rbind_Ok_inv in E as (v2 & _ & E). apply rbind_Ok_inv in E as (v1 & _ & E). apply Ok_inv in E as <-.
  eapply marks_trans; [exact H1|]. clear H1 bad. unfold check_sequence in Hs. apply rbind_Ok_inv in Hs as (st2 & Hs & E).
  apply Ok_inv in E. set (stl := check_link _ _ _ _ _) in Hs.
  assert (Hl : marks i st1 stl).
  { unfold stl, check_link. destruct ((i =? 0)%nat && negb anchored); [by apply marks_same|]. destruct (py_eq _ _); [apply marks_refl|apply marks_fail]. }
  eapply marks_trans; [exact Hl|]. clearbody stl. clear Hl.
  assert (H2 : marks i stl st2).
  { match type of Hs with context [if ?b then _ else _] => destruct b end; [|apply Ok_inv in Hs as <-; apply marks_refl]. apply rbind_Ok_inv in Hs as (next & _ & Hs).
    apply Ok_inv in Hs as <-. destruct (py_eq _ _); [apply marks_refl|apply marks_fail]. }
  eapply marks_trans; [exact H2|]. clear H2 Hs.
  assert (H3 : marks i st2 st3) by (rewrite <- E; destruct (is_none _); [apply marks_refl|by apply marks_same]).
  eapply marks_trans; [exact H3|]. clear H3 E.
  match goal with |- marks _ _ (ChainState (cs_errors ?m) _ _ _ _) => apply (marks_trans _ _ m); [|by apply marks_same] end. unfold check_hash.
  destruct (py_eq _ _); [apply marks_refl|]. destruct (py_eq _ _); [apply marks_refl|].
  destruct (py_eq _ _); [by apply marks_same|apply marks_fail].
Qed.

Lemma verify_entries_marks anchored i entries st st' n :
  verify_entries anchored i entries st = Ok st' -> (i + length entries <= n)%nat -> cs_broken st ⊆ set_seq 0 n ->
  (cs_errors st = [] <-> cs_broken st = ∅) ->
  cs_broken st' ⊆ set_seq 0 n /\ (cs_errors st' = [] <-> cs_broken st' = ∅).
Proof.
  revert i st. induction entries as [|e entries IH]; intros i st; [by intros [= <-]|].
  cbn [verify_entries length]. intros (st1 & H1 & E)%rbind_Ok_inv Hn Hs Hiff.
  apply verify_entry_marks in H1 as (Hb & _ & Hi). apply (IH (S i) st1); [done|lia| |by apply Hi].
  intros x Hx%Hb. apply elem_of_union in Hx as [->%elem_of_singleton|Hx]; [apply elem_of_set_seq; lia|by apply Hs].
Qed.

(** Whatever the entries are, a verification that returns counts rows and not errors: the number of
    verified rows lies between 0 and the number of entries, and the chain is reported valid exactly
    when every row is verified. *)
Theorem verified_counts_rows entries predecessor missing_anchor result :
  verify_chain entries predecessor missing_anchor = Ok result ->
  cr_total_entries result = length entries /\ (0 <= cr_verified result <= Z.of_nat (length entries))%Z /\
  (cr_valid result = true <-> cr_verified result = Z.of_nat (length entries)) /\
  (cr_valid result = true <-> cr_errors result = []).
Proof.
  destruct entries as [|first rest]; [by intros [= <-]|]. unfold verify_chain.
  match goal with |- context [verify_entries _ 0 _ (if missing_anchor then fail 0 first ?e ?x ?a ?st else _)] => set (st0 := st) end.
  set (st1 := if missing_anchor then _ else _). intros (st & Hst & E)%rbind_Ok_inv. apply Ok_inv in E as <-.
  cbn [cr_total_entries cr_verified cr_valid cr_errors].
  assert (H0 : marks 0 st0 st1) by (unfold st1; destruct missing_anchor; [apply marks_fail|apply marks_refl]).
  destruct H0 as (Hb0 & _ & Hi0).
  destruct (verify_entries_marks _ _ _ _ _ (length (first :: rest)) Hst) as [Hb Hi]; [done| |by apply Hi0|].
  { intros x [->%elem_of_singleton|Hx]%Hb0%elem_of_union; [apply elem_of_set_seq; cbn; lia|by apply elem_of_empty in Hx]. }
  apply subseteq_size in Hb. rewrite size_set_seq in Hb. split; [done|]. split; [lia|].
  assert (Hsz : size (cs_broken st) = 0%nat <-> cs_broken st = ∅) by (split; [intros ?%size_empty_inv; by apply leibniz_equiv|by intros ->]).
  split.
  - rewrite Nat.eqb_eq, length_zero_iff_nil, Hi, <- Hsz. lia.
  - by rewrite Nat.eqb_eq, length_zero_iff_nil.
Qed.
(** ** What the writer maintains *)

Definition older (a b : audit_row) : Prop := (au_id a < au_id b)%Z.

(** The rows of a tenant in table order: ids ascend, sequence numbers are 1, 2, 3, ..., every row names the
    hash of the row before it and carries its own version-3 hash. *)
Definition chained (rows : list audit_row) : Prop :=
  StronglySorted older rows /\
  forall k r, rows !! k = Some r ->
    au_sequence_num r = Some (Z.of_nat k + 1)%Z /\
    au_prev_hash r = match k with O => None | S j => au_integrity_hash <$> rows !! j end /\
    au_integrity_hash r = row_hash 3 r.

Lemma chained_nil : chained [].
Proof. split; [constructor|done]. Qed.

(** The head read by the writer is the last row. *)
Lemma chained_head rows :
  chained rows -> chain_head rows = (au_integrity_hash <$> last rows, Z.of_nat (length rows) + 1)%Z.
Proof.
  intros [Hs Hc]. unfold chain_head. destruct (order_by newer rows) as [|row rest] eqn:Ho.
  { apply order_by_nil in Ho. by subst. }
  destruct rows as [|r0 rows0] using rev_ind; [done|]. clear IHrows0. apply order_by_head in Ho as [Hin Hmax]; cycle 1.
  { intros x y. unfold newer. rewrite !Z.leb_le. lia. }
  { intros x y z. unfold newer. rewrite !Z.leb_le. lia. }
  assert (row = r0) as ->.
  { apply elem_of_app in Hin as [Hin|Hin%list_elem_of_singleton]; [exfalso|done].
    assert (Hr0 : r0 ∈ (rows0 ++ [r0])%list) by (apply elem_of_app; right; by apply list_elem_of_singleton).
    pose proof (StronglySorted_app_1_elem_of _ _ _ _ _ Hs Hin (proj2 (list_elem_of_singleton r0 r0) eq_refl)) as Hlt.
    specialize (Hmax r0 Hr0). unfold newer in Hmax. apply Z.leb_le in Hmax. unfold older in Hlt. lia. }
  rewrite last_snoc. destruct (Hc (length rows0) r0) as (-> & _ & _).
  { by rewrite lookup_app_r, Nat.sub_diag by lia. }
  rewrite length_app. cbn. f_equal. lia.
Qed.

(** The clock is aware, as [datetime.now(timezone.utc)] is. *)
Definition aware (d : datetime) : Prop := dt_offset d <> None.

Lemma chain_timestamp_aware d : aware d -> chain_timestamp d = isoformat d.
Proof. unfold chain_timestamp, aware. by destruct (dt_offset d). Qed.

Lemma entry_hash_eq now a head id h0 :
  aware now -> entry_hash now a head = Ok (row_hash 3 (new_entry now a head h0 id)).
Proof.
  intros Hn. unfold entry_hash, compute_integrity_hash. rewrite body_hash_eq. unfold row_hash, row_text, row_body.
  cbn [au_timestamp new_entry]. by rewrite chain_timestamp_aware.
Qed.

Lemma row_hash_own v now a head h h' id : row_hash v (new_entry now a head h id) = row_hash v (new_entry now a head h' id).
Proof. reflexivity. Qed.

(** The writer extends a chain. *)
Lemma chained_extend rows now a h id :
  chained rows -> aware now -> Forall (fun r => (au_id r < id)%Z) rows -> entry_hash now a (chain_head rows) = Ok h ->
  chained (rows ++ [new_entry now a (chain_head rows) h id])%list.
Proof.
  intros Hch Hn Hid Hh. rewrite (entry_hash_eq now a _ id "" Hn) in Hh. apply Ok_inv in Hh.
  pose proof (chained_head rows Hch) as Hhead. destruct Hch as [Hs Hc]. set (r := new_entry _ _ _ _ _). split.
  - apply StronglySorted_app. split; [|split; [done|repeat constructor]].
    intros x y Hx ->%list_elem_of_singleton. rewrite Forall_forall in Hid. by apply Hid.
  - intros k x Hk. destruct (decide (k < length rows)%nat) as [Hlt|Hge].
    + rewrite lookup_app_l in Hk by done. destruct (Hc k x Hk) as (H1 & H2 & H3). split; [done|]. split; [|done].
      rewrite H2. destruct k as [|j]; [done|]. by rewrite lookup_app_l by lia.
    + rewrite lookup_app_r in Hk by lia. destruct (k - length rows)%nat as [|n] eqn:Ek; [|destruct n; discriminate Hk].
      assert (k = length rows) as -> by lia. injection Hk as <-. unfold r. cbn [au_sequence_num au_prev_hash au_integrity_hash new_entry].
      rewrite Hhead. cbn [fst snd]. split; [done|]. split.
      * rewrite last_lookup. destruct rows as [|r0 rows0]; [done|]. cbn [length Nat.pred].
        rewrite lookup_app_l by (cbn; lia). done.
      * by rewrite (row_hash_own 3 _ _ _ _ ""), <- Hhead.
Qed.

(** The whole table. *)
Definition audit_ok (s : audit_db) : Prop :=
  StronglySorted older (audit_logs s) /\ Forall (fun r => (au_id r < next_audit_id s)%Z) (audit_logs s) /\
  forall tenant_id, chained (tenant_rows tenant_id (audit_logs s)).

Lemma Forall_where {R} (P : R -> Prop) p (t : list R) : Forall P t -> Forall P (where_ p t).
Proof. rewrite !Forall_forall. intros Hf x [Hx _]%elem_of_where. by apply Hf. Qed.

Lemma tenant_rows_snoc t rows r :
  tenant_rows t (rows ++ [r])%list = (tenant_rows t rows ++ if String.eqb (au_tenant_id r) t then [r] else [])%list.
Proof. unfold tenant_rows, where_. rewrite List.filter_app. cbn. by destruct (String.eqb _ t). Qed.

Lemma chained_sequence_free rows n :
  chained rows -> (Z.of_nat (length rows) < n)%Z -> Forall (fun r => au_sequence_num r <> Some n) rows.
Proof.
  intros [_ Hc] Hn. apply Forall_lookup. intros k r Hk. destruct (Hc k r Hk) as (-> & _ & _).
  apply lookup_lt_Some in Hk. intros [= E]. lia.
Qed.

Lemma sequence_not_taken t n s : audit_ok s -> (Z.of_nat (length (tenant_rows t (audit_logs s))) < n)%Z -> sequence_taken t n (audit_logs s) = false.
Proof.
  intros (_ & _ & Hc) Hn. destruct (sequence_taken t n (audit_logs s)) eqn:E; [|done]. unfold sequence_taken in E.
  apply existsb_exists in E as (r & Hr & [Ht Hq]%andb_true_iff). apply bool_decide_eq_true in Hq.
  pose proof (chained_sequence_free _ n (Hc t) Hn) as Hf. rewrite Forall_forall in Hf. destruct (Hf r); [|done].
  apply elem_of_where. by rewrite list_elem_of_In.
Qed.

(** One call of [log_event] on a good table. *)
Lemma log_event_spec fault now a s :
  audit_ok s -> aware now ->
  match fault with
  | None =>
      exists row, log_event None now a s = (AuditDb (audit_logs s ++ [row])%list (next_audit_id s + 1)%Z, Ok (Some (next_audit_id s))) /\
        au_tenant_id row = la_tenant_id a /\ au_id row = next_audit_id s /\
        audit_ok (AuditDb (audit_logs s ++ [row])%list (next_audit_id s + 1)%Z)
  | Some e => log_event fault now a s = (s, if swallowed e then Ok None else Raise e)
  end.
Proof.
  intros Hok Hn. assert (Hh : exists h, entry_hash now a (_get_chain_head (la_tenant_id a) s) = Ok h)
    by (eexists; by apply (entry_hash_eq now a _ 0 "")).
  destruct Hh as [h Hh]. unfold log_event, append_entry, dbind, dget. rewrite Hh. unfold insert_audit_row.
  destruct fault as [e|]; [by destruct (swallowed e)|].
  set (row := new_entry now a (_get_chain_head (la_tenant_id a) s) h (next_audit_id s)).
  pose proof Hok as (Hs & Hid & Hc). pose proof (chained_head _ (Hc (la_tenant_id a))) as Hhead.
  assert (Hseq : au_sequence_num row = Some (Z.of_nat (length (tenant_rows (la_tenant_id a) (audit_logs s))) + 1)%Z)
    by (unfold row, _get_chain_head; cbn [au_sequence_num new_entry]; by rewrite Hhead).
  rewrite Hseq, sequence_not_taken by (done || (cbn; lia)). exists row.
  split; [done|]. split; [done|]. split; [done|]. split; [|split]; cbn [audit_logs next_audit_id].
  - apply StronglySorted_app. split; [|split; [done|repeat constructor]].
    intros x y Hx ->%list_elem_of_singleton. rewrite Forall_forall in Hid. by apply Hid.
  - apply Forall_app. split; [eapply Forall_impl; [exact Hid|]; intros x Hx; cbv beta in *; lia|]. constructor; [cbn; lia|constructor].
  - intros t. rewrite tenant_rows_snoc. cbn [au_tenant_id new_entry row].
    destruct (String.eqb_spec (la_tenant_id a) t) as [<-|_]; [|rewrite app_nil_r; apply Hc].
    apply chained_extend; [apply Hc|done|by apply Forall_where|exact Hh].
Qed.
(** ** Runs of calls and the verification of an export *)

(** A sequence of calls, each with the fault of the database, the clock and the arguments. *)
Fixpoint log_all (calls : list (option exn * datetime * log_args)) (s : audit_db) : audit_db :=
  match calls with
  | [] => s
  | (fault, now, a) :: rest => log_all rest (fst (log_event fault now a s))
  end.
Definition empty_log : audit_db := AuditDb [] 1.
Definition aware_calls (calls : list (option exn * datetime * log_args)) : Prop := Forall (fun c => aware (snd (fst c))) calls.

Lemma empty_log_ok : audit_ok empty_log.
Proof. split; [constructor|]. split; [constructor|]. intros t. apply chained_nil. Qed.

Lemma log_all_ok calls s : audit_ok s -> aware_calls calls -> audit_ok (log_all calls s).
Proof.
  revert s. induction calls as [|[[fault now] a] calls IH]; [done|]. intros s Hs Hc. inversion Hc as [|? ? Ha Hr]; subst.
  cbn [log_all]. apply IH; [|done]. pose proof (log_event_spec fault now a s Hs Ha) as Hl.
  destruct fault as [e|]; [by rewrite Hl|]. by destruct Hl as (row & -> & _ & _ & Hok).
Qed.

(** After any calls of [log_event], of any tenants and with any database faults in between, a call that
    meets no fault returns the id of one new row, appended for the tenant it names, and a call whose
    fault is swallowed returns [None] and leaves the table as it was: the chain itself never makes an
    entry fail. *)
Theorem log_event_appends calls fault now a :
  aware_calls calls -> aware now ->
  let s := log_all calls empty_log in
  match fault with
  | None => exists row, log_event None now a s = (AuditDb (audit_logs s ++ [row])%list (next_audit_id s + 1)%Z, Ok (Some (next_audit_id s))) /\
              au_tenant_id row = la_tenant_id a /\ au_id row = next_audit_id s
  | Some e => log_event fault now a s = (s, if swallowed e then Ok None else Raise e)
  end.
Proof.
  intros Hc Hn s. pose proof (log_event_spec fault now a s (log_all_ok calls _ empty_log_ok Hc) Hn) as Hl.
  destruct fault as [e|]; [done|]. destruct Hl as (row & H1 & H2 & H3 & _). by exists row.
Qed.

(** The verification of the exported [rows]: a window that does not start at 1 is anchored in the stored
    row before it. *)
Definition chain_verification (tenant_id : string) (rows : list audit_row) (s : audit_db) : res chain_result :=
  let '(predecessor, missing_anchor) :=
    match head rows ≫= au_sequence_num with
    | None => (None, false)
    | Some first_sequence =>
        if (first_sequence =? 1)%Z then (None, false)
        else match _predecessor_row tenant_id first_sequence s with None => (None, true) | Some p => (Some p, false) end
    end in
  verify_chain (_canonical_verification_entry <$> rows) (_canonical_verification_entry <$> predecessor) missing_anchor.

Definition row_before (rows : list audit_row) (k : nat) : option audit_row := match k with O => None | S j => rows !! j end.

Lemma chained_row_clean rows k r :
  chained rows -> rows !! k = Some r ->
  row_errors (hash_of_previous (row_before rows k)) (seq_of_previous (row_before rows k)) r = [] /\ row_legacy r = [].
Proof.
  intros [_ Hc] Hk. destruct (Hc k r Hk) as (Hs & Hp & Hh).
  assert (H3 : String.eqb (au_integrity_hash r) (row_hash 3 r) = true) by (by apply String.eqb_eq).
  split; [|by unfold row_legacy; rewrite H3]. unfold row_errors. 
  assert (Hl : link_errors (hash_of_previous (row_before rows k)) r = []).
  { destruct k as [|j]; [done|]. cbn [row_before]. destruct (rows !! j) as [p|] eqn:Ep; [|done].
    cbn [hash_of_previous fmap option_fmap option_map link_errors]. rewrite Hp. cbn. by rewrite String.eqb_refl. }
  assert (Hq : sequence_errors (seq_of_previous (row_before rows k)) r = []).
  { destruct k as [|j]; [done|]. cbn [row_before]. destruct (rows !! j) as [p|] eqn:Ep; [|done].
    destruct (Hc j p Ep) as (Hsp & _ & _). unfold seq_of_previous. cbn. rewrite Hsp. unfold sequence_errors. rewrite Hs.
    destruct (Z.eqb_spec (Z.of_nat (S j) + 1) (Z.of_nat j + 1 + 1)); [done|lia]. }
  rewrite Hl, Hq. cbn. unfold hash_errors. by rewrite H3.
Qed.

Lemma window_clean rows m n :
  chained rows ->
  Forall (fun e => e = []) (run_errors (hash_of_previous (row_before rows m)) (seq_of_previous (row_before rows m)) (take n (drop m rows))) /\
  flat_map row_legacy (take n (drop m rows)) = [].
Proof.
  intros Hch. revert m. induction n as [|n IH]; intros m; [split; [constructor|done]|].
  destruct (drop m rows) as [|r rest] eqn:Ed; [split; [constructor|done]|].
  assert (Hm : rows !! m = Some r).
  { rewrite <- (Nat.add_0_r m), <- lookup_drop, Ed. done. }
  destruct (chained_row_clean rows m r Hch Hm) as [He Hl]. specialize (IH (S m)).
  rewrite (drop_S rows r m Hm) in Ed. injection Ed as <-. cbn [row_before] in IH. rewrite Hm in IH.
  cbn [take run_errors flat_map]. rewrite He, Hl. destruct IH as [IH1 IH2]. split; [|done]. constructor; [done|].
  assert (Hsq : seq_after (seq_of_previous (row_before rows m)) r = seq_of_previous (Some r)).
  { unfold seq_after, seq_of_previous. cbn. by rewrite (proj1 (proj2 Hch m r Hm)). }
  by rewrite Hsq.
Qed.

Lemma broken_from_clean i errors b : Forall (fun e => e = []) errors -> broken_from i errors b = b.
Proof. revert i b. induction errors as [|e errors IH]; [done|]. intros i b Hf. inversion Hf; subst. cbn. by apply IH. Qed.

Lemma predecessor_chained t s m :
  chained (tenant_rows t (audit_logs s)) -> (m < length (tenant_rows t (audit_logs s)))%nat ->
  _predecessor_row t (Z.of_nat m + 1) s = row_before (tenant_rows t (audit_logs s)) m.
Proof.
  intros [Hs Hc] Hm. unfold _predecessor_row. set (rows := tenant_rows t (audit_logs s)) in *.
  set (seq := fun r => match au_sequence_num r with Some n => n | None => 0%Z end).
  set (below := fun r => match au_sequence_num r with Some n => (n <? Z.of_nat m + 1)%Z | None => false end).
  assert (Hseq : forall k r, rows !! k = Some r -> seq r = (Z.of_nat k + 1)%Z) by (intros k r Hk; unfold seq; by rewrite (proj1 (Hc k r Hk))).
  assert (Hbel : forall k r, rows !! k = Some r -> below r = (Z.of_nat k + 1 <? Z.of_nat m + 1)%Z)
    by (intros k r Hk; unfold below; by rewrite (proj1 (Hc k r Hk))).
  assert (Hex : forall r, r ∈ where_ below rows <-> exists k, rows !! k = Some r /\ (k < m)%nat).
  { intros r. rewrite elem_of_where, list_elem_of_lookup. split.
    - intros [[k Hk] Hb]. rewrite (Hbel k r Hk) in Hb. apply Z.ltb_lt in Hb. exists k. split; [done|lia].
    - intros (k & Hk & Hlt). split; [by exists k|]. rewrite (Hbel k r Hk). apply Z.ltb_lt. lia. }
  change (head (order_by (fun a b => (seq b <=? seq a)%Z) (where_ below rows)) = row_before rows m).
  destruct (order_by (fun a b => (seq b <=? seq a)%Z) (where_ below rows)) as [|x l] eqn:Ho; cbn [head].
  - apply order_by_nil in Ho. destruct m as [|j]; [done|]. cbn [row_before].
    destruct (rows !! j) as [p|] eqn:Ep; [|done]. exfalso.
    assert (Hp : p ∈ where_ below rows) by (apply Hex; exists j; split; [done|lia]). rewrite Ho in Hp. by apply not_elem_of_nil in Hp.
  - apply order_by_head in Ho as [Hx Hmax]; cycle 1.
    { intros a b. rewrite !Z.leb_le. lia. }
    { intros a b c. rewrite !Z.leb_le. lia. }
    apply Hex in Hx as (k & Hk & Hlt). destruct m as [|j]; [lia|]. cbn [row_before].
    destruct (rows !! j) as [p|] eqn:Ep; [|apply lookup_ge_None in Ep; lia].
    assert (Hp : p ∈ where_ below rows) by (apply Hex; exists j; split; [done|lia]).
    specialize (Hmax p Hp). apply Z.leb_le in Hmax. rewrite (Hseq k x Hk), (Hseq j p Ep) in Hmax.
    assert (k = j) as -> by lia. congruence.
Qed.

(** What the writer appended verifies: after any calls of [log_event] by any tenants, the verification
    of an export of any contiguous window of a tenant's rows, anchored in the stored row before the
    window, reports every row verified, no error and no legacy row. *)
Theorem written_window_verifies calls t m n :
  aware_calls calls ->
  let s := log_all calls empty_log in
  let window := take n (drop m (tenant_rows t (audit_logs s))) in
  chain_verification t window s = Ok (ChainResult true (length window) (Z.of_nat (length window)) PNone [] []).
Proof.
  intros Hc s window. destruct (log_all_ok calls empty_log empty_log_ok Hc) as (_ & _ & Hch). fold s in Hch. specialize (Hch t).
  set (rows := tenant_rows t (audit_logs s)) in *.
  destruct (decide (window = [])) as [E|Hne]; [rewrite E; reflexivity|].
  assert (Hm : (m < length rows)%nat).
  { destruct (decide (m < length rows)%nat) as [|Hge]; [done|]. destruct Hne. unfold window. by rewrite drop_ge, take_nil by lia. }
  assert (Hhead : head window ≫= au_sequence_num = Some (Z.of_nat m + 1)%Z).
  { destruct (rows !! m) as [r|] eqn:Er; [|apply lookup_ge_None in Er; lia]. unfold window in *. rewrite (drop_S rows r m Er) in *.
    destruct n as [|n]; [done|]. cbn. apply (proj2 Hch m r Er). }
  unfold chain_verification. rewrite Hhead.
  assert (Hpm : (if (Z.of_nat m + 1 =? 1)%Z then (None, false)
      else match _predecessor_row t (Z.of_nat m + 1) s with None => (None, true) | Some p => (Some p, false) end) = (row_before rows m, false)).
  { rewrite predecessor_chained by done. fold rows. destruct m as [|j]; [done|].
    destruct (Z.eqb_spec (Z.of_nat (S j) + 1) 1); [lia|]. cbn [row_before].
    destruct (rows !! j) as [p|] eqn:Ep; [done|apply lookup_ge_None in Ep; lia]. }
  rewrite Hpm. destruct (window_clean rows m n Hch) as [Hcl Hlg]. rewrite verify_chain_rows.
  fold window in Hcl, Hlg. assert (Han : anchor_errors false window = []) by (by destruct window).
  rewrite Han, Hlg, (broken_from_clean 0 _ _ Hcl). apply concat_nil_Forall in Hcl. rewrite Hcl. cbn [app length broken_if Nat.eqb].
  f_equal. f_equal. rewrite size_empty. lia.
Qed.

(** ** What the verifier catches *)

Lemma run_errors_snoc p q rows x rest n :
  au_sequence_num x = Some n ->
  run_errors p q ((rows ++ [x]) ++ rest)%list
  = (run_errors p q (rows ++ [x]) ++ run_errors (Some (PStr (au_integrity_hash x))) (Some n) rest)%list.
Proof.
  intros Hx. revert p q. induction rows as [|r rows IH]; intros p q; cbn [app run_errors].
  - unfold seq_after. by rewrite Hx.
  - by rewrite IH.
Qed.

(** A row that is missing between two rows of an export is always reported: when [keep] selects two of a
    tenant's written rows and not a row between them, because that row was deleted or because a filter
    of the export dropped it, the verification of the selected rows is not valid and names a sequence
    gap, whatever else is stored. *)
Theorem missing_row_reported calls t keep j k l rj rk rl stored :
  aware_calls calls ->
  let rows := tenant_rows t (audit_logs (log_all calls empty_log)) in
  (j < k < l)%nat -> rows !! j = Some rj -> rows !! k = Some rk -> rows !! l = Some rl ->
  keep rj = true -> keep rk = false -> keep rl = true ->
  exists result er, chain_verification t (where_ keep rows) stored = Ok result /\ cr_valid result = false /\
    er ∈ cr_errors result /\ er_error er = "sequence_gap".
Proof.
  intros Hc rows Hjkl Hj Hk Hl Kj Kk Kl. destruct (log_all_ok calls empty_log empty_log_ok Hc) as (_ & _ & Hch). specialize (Hch t).
  fold rows in Hch. destruct Hch as [_ Hch].
  assert (Hsplit : where_ keep rows = (where_ keep (take k rows) ++ where_ keep (drop (S k) rows))%list).
  { unfold where_. rewrite <- (take_drop_middle rows k rk Hk) at 1. rewrite List.filter_app. cbn. by rewrite Kk. }
  assert (Hx : rj ∈ where_ keep (take k rows)).
  { apply elem_of_where. split; [|done]. apply list_elem_of_lookup. exists j. rewrite lookup_take_lt by lia. done. }
  assert (Hy : rl ∈ where_ keep (drop (S k) rows)).
  { apply elem_of_where. split; [|done]. apply list_elem_of_lookup. exists (l - S k)%nat. rewrite lookup_drop.
    by replace (S k + (l - S k))%nat with l by lia. }
  destruct (where_ keep (take k rows)) as [|x before _] eqn:Eb using rev_ind; [by apply not_elem_of_nil in Hx|].
  destruct (where_ keep (drop (S k) rows)) as [|y after] eqn:Ea; [by apply not_elem_of_nil in Hy|].
  assert (Hsx : exists n, au_sequence_num x = Some n /\ (n <= Z.of_nat k)%Z).
  { assert (Hin : x ∈ where_ keep (take k rows)) by (rewrite Eb; apply elem_of_app; right; by apply list_elem_of_singleton).
    apply elem_of_where in Hin as [[i Hi]%list_elem_of_lookup _]. apply lookup_take_Some in Hi as [Hi Hlt].
    destruct (Hch i x Hi) as (Hs & _ & _). exists (Z.of_nat i + 1)%Z. split; [done|lia]. }
  assert (Hsy : exists n, au_sequence_num y = Some n /\ (Z.of_nat k + 2 <= n)%Z).
  { assert (Hin : y ∈ where_ keep (drop (S k) rows)) by (rewrite Ea; by left).
    apply elem_of_where in Hin as [[i Hi]%list_elem_of_lookup _]. rewrite lookup_drop in Hi.
    destruct (Hch _ y Hi) as (Hs & _ & _). exists (Z.of_nat (S k + i) + 1)%Z. split; [done|lia]. }
  destruct Hsx as (nx & Hnx & Hlx), Hsy as (ny & Hny & Hly). rewrite Hsplit. unfold chain_verification.
  match goal with |- context [let '(_, _) := ?c in _] => destruct c as [previous missing] end.
  rewrite verify_chain_rows. set (errors := run_errors _ _ _).
  assert (Hin : row_error y "sequence_gap" (PInt (nx + 1)) (PInt ny) ∈ concat errors).
  { apply list_elem_of_In, in_concat. exists (row_errors (Some (PStr (au_integrity_hash x))) (Some nx) y). split.
    - unfold errors. rewrite (run_errors_snoc _ _ _ _ _ nx Hnx). apply in_or_app. right. by left.
    - unfold row_errors. apply in_or_app. right. apply in_or_app. left. unfold sequence_errors. rewrite Hny.
      destruct (Z.eqb_spec ny (nx + 1)); [lia|by left]. }
  eexists _, _. split; [reflexivity|]. cbn [cr_valid cr_errors].
  assert (Hall : row_error y "sequence_gap" (PInt (nx + 1)) (PInt ny) ∈ (anchor_errors missing ((before ++ [x]) ++ y :: after) ++ concat errors)%list)
    by (apply elem_of_app; by right).
  split; [|by split]. apply Nat.eqb_neq. intros E%length_zero_iff_nil. rewrite E in Hall. by apply not_elem_of_nil in Hall.
Qed.
(** ** The last hash pins the chain *)

(** Two rows that agree on everything that version 3 hashes. *)
Record same_row (r r' : audit_row) : Prop := SameRow {
  sr_prev : ostr_or (au_prev_hash r) "GENESIS" = ostr_or (au_prev_hash r') "GENESIS";
  sr_tenant : au_tenant_id r = au_tenant_id r';
  sr_timestamp : chain_timestamp (au_timestamp r) = chain_timestamp (au_timestamp r');
  sr_type : au_event_type r = au_event_type r';
  sr_action : au_action r = au_action r';
  sr_resource : text_or_none (au_resource_id r) = text_or_none (au_resource_id r');
  sr_metadata : jtree_of opts_sorted_str (PDict (row_metadata r)) = jtree_of opts_sorted_str (PDict (row_metadata r'));
  sr_actor : text_or_none (au_actor_id r) = text_or_none (au_actor_id r');
  sr_email : au_actor_email r = au_actor_email r';
  sr_severity : au_severity r = au_severity r';
  sr_endpoint : au_endpoint r = au_endpoint r';
  sr_sequence : au_sequence_num r = au_sequence_num r'
}.

Lemma row_body_keys v r : v = 1%Z \/ v = 2%Z \/ v = 3%Z -> NoDup (fst <$> row_body v r).
Proof. intros [->|[->| ->]]; apply (bool_decide_unpack _); vm_compute; reflexivity. Qed.

Lemma tree_opt_text a b : jtree_of opts_sorted_str (opt_text a) = jtree_of opts_sorted_str (opt_text b) -> a = b.
Proof. destruct a, b; try done. by intros [= ->]. Qed.
Lemma tree_text_or_none a b :
  jtree_of opts_sorted_str (text_or_none a) = jtree_of opts_sorted_str (text_or_none b) -> text_or_none a = text_or_none b.
Proof. destruct a as [a|], b as [b|]; cbn; try done; repeat destruct (String.eqb _ _); try done; by intros [= ->]. Qed.
Lemma tree_opt_int a b : jtree_of opts_sorted_str (opt_int a) = jtree_of opts_sorted_str (opt_int b) -> a = b.
Proof.
  destruct a as [a|], b as [b|]; cbn; try done.
  - intros [= E]. by apply str_of_Z_inj in E as ->.
  - intros [= E]. by apply str_of_Z_not_null in E.
  - intros [= E]. symmetry in E. by apply str_of_Z_not_null in E.
Qed.

(** Equal texts: the versions agree, and the rows. *)
Lemma same_text_same_row v r r' :
  v = 1%Z \/ v = 2%Z \/ v = 3%Z -> row_text 3 r = row_text v r' -> same_row r r'.
Proof.
  intros Hv Ht. pose proof (body_text_ok (row_body 3 r)) as He. pose proof (body_text_ok (row_body v r')) as He'.
  unfold row_text in Ht. rewrite <- Ht in He'.
  assert (Hf : forall k, dict_lookup k (row_body 3 r) ≫= jtree_of opts_sorted_str = dict_lookup k (row_body v r') ≫= jtree_of opts_sorted_str
                     /\ (dict_lookup k (row_body 3 r) = None <-> dict_lookup k (row_body v r') = None)).
  { intros k. exact (dumps_dict_field opts_sorted_str _ _ _ k (ex_intro _ " " eq_refl) (row_body_keys 3 r ltac:(by right; right))
                       (row_body_keys v r' Hv) He He'). }
  destruct Hv as [->|[->| ->]].
  1,2: by pose proof (proj2 (proj2 (Hf "sequence_num")) eq_refl).
  split; try (by destruct (Hf "prev_hash") as [[= E] _]); try (by destruct (Hf "tenant_id") as [[= E] _]);
    try (by destruct (Hf "timestamp") as [[= E] _]); try (by destruct (Hf "event_type") as [[= E] _]);
    try (by destruct (Hf "action") as [[= E] _]); try (by destruct (Hf "severity") as [[= E] _]).
  - apply tree_text_or_none, (Hf "resource_id").
  - apply (Hf "metadata").
  - apply tree_text_or_none, (Hf "actor_id").
  - apply tree_opt_text, (Hf "actor_email").
  - apply tree_opt_text, (Hf "endpoint").
  - apply tree_opt_int, (Hf "sequence_num").
Qed.

(** Rows that a verification accepts: an admissible hash, and the hash of the row before. *)
Definition accepted (rows : list audit_row) : Prop :=
  forall k r, rows !! k = Some r ->
    (exists v, (v = 1 \/ v = 2 \/ v = 3)%Z /\ au_integrity_hash r = row_hash v r) /\
    forall j, k = S j -> au_prev_hash r = au_integrity_hash <$> rows !! j.

Lemma row_hash_accepted r : hash_errors r = [] -> exists v, (v = 1 \/ v = 2 \/ v = 3)%Z /\ au_integrity_hash r = row_hash v r.
Proof.
  unfold hash_errors. destruct (String.eqb_spec (au_integrity_hash r) (row_hash 3 r)); [intros _; exists 3%Z; split; [by right; right|done]|].
  destruct (String.eqb_spec (au_integrity_hash r) (row_hash 2 r)); [intros _; exists 2%Z; split; [by right; left|done]|].
  destruct (String.eqb_spec (au_integrity_hash r) (row_hash 1 r)); [intros _; exists 1%Z; split; [by left|done]|done].
Qed.

Lemma run_accepted p q rows :
  concat (run_errors p q rows) = [] -> accepted rows /\ forall h r, p = Some (PStr h) -> head rows = Some r -> au_prev_hash r = Some h.
Proof.
  revert p q. induction rows as [|r rows IH]; intros p q; [split; [by intros [|k]|done]|].
  cbn [run_errors concat]. intros [He Hrest]%app_eq_nil. destruct (IH _ _ Hrest) as [Hacc Hhd].
  unfold row_errors in He. apply app_eq_nil in He as [Hl He]. apply app_eq_nil in He as [_ Hh]. split.
  - intros [|k] x Hx; cbn in Hx.
    + injection Hx as <-. split; [by apply row_hash_accepted|done].
    + destruct (Hacc k x Hx) as [H1 H2]. split; [done|]. intros j [= <-]. destruct k as [|k]; [|exact (H2 k eq_refl)].
      cbn. apply (Hhd _ x eq_refl). by destruct rows.
  - intros h x -> [= <-]. unfold link_errors in Hl. destruct (py_eq _ _) eqn:E; [|done].
    destruct (au_prev_hash r) as [h'|]; [|done]. cbn in E. apply String.eqb_eq in E. by subst.
Qed.

Lemma accepted_prefix rows r : accepted (rows ++ [r])%list -> accepted rows.
Proof.
  intros Ha k x Hk. pose proof (lookup_lt_Some _ _ _ Hk) as Hlt. destruct (Ha k x) as [H1 H2]; [by rewrite lookup_app_l|].
  split; [done|]. intros j ->. rewrite (H2 j eq_refl). by rewrite lookup_app_l by lia.
Qed.

Lemma chained_prefix rows r : chained (rows ++ [r])%list -> chained rows.
Proof.
  intros [Hs Hc]. split; [by apply StronglySorted_app_1_l in Hs|]. intros k x Hk. pose proof (lookup_lt_Some _ _ _ Hk) as Hlt.
  destruct (Hc k x) as (H1 & H2 & H3); [by rewrite lookup_app_l|]. split; [done|]. split; [|done].
  rewrite H2. destruct k as [|j]; [done|]. by rewrite lookup_app_l by lia.
Qed.

Lemma row_hash_genesis v r : row_hash v r <> "GENESIS".
Proof. intros E. destruct (sha256_hex64 (row_text v r)) as [Hl _]. unfold row_hash in E. by rewrite E in Hl. Qed.
Lemma row_hash_nonempty v r : row_hash v r <> "".
Proof. intros E. destruct (sha256_hex64 (row_text v r)) as [Hl _]. unfold row_hash in E. by rewrite E in Hl. Qed.

(** The texts that a verification may hash. *)
Definition all_texts (rows : list audit_row) : list string := flat_map (fun r => [row_text 3 r; row_text 2 r; row_text 1 r]) rows.

Lemma row_text_in v r rows : v = 1%Z \/ v = 2%Z \/ v = 3%Z -> r ∈ rows -> row_text v r ∈ all_texts rows.
Proof.
  intros Hv Hr. apply list_elem_of_In, in_flat_map. exists r. split; [by apply list_elem_of_In|].
  destruct Hv as [->|[->| ->]]; [right; right; by left|right; by left|by left].
Qed.

Lemma pinned rows rows' :
  chained rows -> accepted rows' -> no_collision (row_text 3 <$> rows) (all_texts rows') ->
  forall r r', last rows = Some r -> last rows' = Some r' -> au_integrity_hash r = au_integrity_hash r' ->
  (length rows' <= length rows)%nat /\ Forall2 same_row (drop (length rows - length rows') rows) rows'.
Proof.
  revert rows. induction rows' as [|x' rows' IH] using rev_ind; intros rows Hch Hac Hnc r r' Hr Hr' Hh; [done|].
  rewrite last_snoc in Hr'. injection Hr' as ->. destruct rows as [|x rows _] using rev_ind; [done|].
  rewrite last_snoc in Hr. injection Hr as ->. rewrite !length_app. cbn [length].
  replace (length rows + 1 - (length rows' + 1))%nat with (length rows - length rows')%nat by lia.
  destruct (proj2 Hch (length rows) r) as (_ & Hp & Hhr); [by rewrite lookup_app_r, Nat.sub_diag by lia|].
  destruct (Hac (length rows') r') as [(v & Hv & Hhr') Hp']; [by rewrite lookup_app_r, Nat.sub_diag by lia|].
  assert (Hsame : same_row r r').
  { apply (same_text_same_row v); [done|]. apply Hnc.
    - apply list_elem_of_fmap_2, elem_of_app. right. by apply list_elem_of_singleton.
    - apply row_text_in; [done|]. apply elem_of_app. right. by apply list_elem_of_singleton.
    - change (row_hash 3 r = row_hash v r'). congruence. }
  destruct rows' as [|y' rest' _] using rev_ind.
  - split; [cbn; lia|]. cbn [length app]. rewrite Nat.sub_0_r, drop_app_length. by constructor.
  - assert (Hprev' : au_prev_hash r' = Some (au_integrity_hash y')).
    { rewrite (Hp' (length rest')) by (rewrite length_app; cbn; lia).
      by rewrite lookup_app_l, lookup_app_r, Nat.sub_diag by (rewrite ?length_app; cbn; lia). }
    destruct (Hac (length rest') y') as [(v' & _ & Hy') _].
    { by rewrite lookup_app_l, lookup_app_r, Nat.sub_diag by (rewrite ?length_app; cbn; lia). }
    pose proof (sr_prev _ _ Hsame) as Hsp. rewrite Hprev', Hy', (ostr_or_ne _ _ (row_hash_nonempty v' y')) in Hsp.
    destruct rows as [|y rest _] using rev_ind.
    { exfalso. cbn in Hp. rewrite Hp in Hsp. cbn in Hsp. symmetry in Hsp. by apply row_hash_genesis in Hsp. }
    destruct (proj2 Hch (length rest) y) as (_ & _ & Hy).
    { by rewrite lookup_app_l, lookup_app_r, Nat.sub_diag by (rewrite ?length_app; cbn; lia). }
    rewrite length_app in Hp. cbn [length] in Hp. rewrite Nat.add_1_r in Hp.
    rewrite lookup_app_l, lookup_app_r, Nat.sub_diag in Hp by (rewrite ?length_app; cbn; lia). cbn in Hp.
    rewrite Hp, Hy, (ostr_or_ne _ _ (row_hash_nonempty 3 y)) in Hsp.
    destruct (IH (rest ++ [y])%list (chained_prefix _ _ Hch) (accepted_prefix _ _ Hac)) with (r := y) (r' := y') as [Hlen Hall].
    + eapply no_collision_sub; [exact Hnc|..].
      * intros z. rewrite !list_elem_of_fmap. intros (w & -> & Hw). exists w. split; [done|]. apply elem_of_app. by left.
      * intros z. unfold all_texts. rewrite !list_elem_of_In, !in_flat_map. intros (w & Hw & Hz). exists w. split; [|done].
        apply in_or_app. by left.
    + by rewrite last_snoc.
    + by rewrite last_snoc.
    + congruence.
    + split; [lia|]. rewrite drop_app_le by lia. apply Forall2_app; [done|by constructor].
Qed.

(** C29. The last hash pins the log: if a table, however it came about, passes verification and its last row
    carries the hash of the last row that the writer wrote, then it is the end of the written log, row
    by row, in the tenant, the time, the type, the action, the resource, the metadata, the actor, the
    e-mail address, the severity, the endpoint and the sequence number, unless two of the texts collide
    under SHA-256; a row cannot be passed off under an older hash version either. *)
Theorem last_hash_pins_log calls t rows' result r r' :
  aware_calls calls ->
  let rows := tenant_rows t (audit_logs (log_all calls empty_log)) in
  verify_chain (_canonical_verification_entry <$> rows') None false = Ok result -> cr_valid result = true ->
  last rows = Some r -> last rows' = Some r' -> au_integrity_hash r = au_integrity_hash r' ->
  no_collision (row_text 3 <$> rows) (all_texts rows') ->
  (length rows' <= length rows)%nat /\ Forall2 same_row (drop (length rows - length rows') rows) rows'.
Proof.
  intros Hc rows Hv Hval Hr Hr' Hh Hnc. destruct (log_all_ok calls empty_log empty_log_ok Hc) as (_ & _ & Hch).
  apply (pinned rows rows' (Hch t)) with (r := r) (r' := r'); try done.
  pose proof (verify_chain_rows None false rows') as Hvr. cbv zeta in Hvr.
  change (_canonical_verification_entry <$> None) with (@None pyval) in Hvr. rewrite Hvr in Hv. apply Ok_inv in Hv as <-.
  cbn [cr_valid] in Hval. apply Nat.eqb_eq, length_zero_iff_nil, app_eq_nil in Hval as [_ Hval].
  by apply run_accepted in Hval as [Hacc _].
Qed.
(** ** Interleaved writers *)

(** A transaction that holds the chain lock of its tenant: its uncommitted rows, and the head it has read
    and not used yet. *)
Record chain_conn := ChainConn { cn_tenant : string; cn_pending : list audit_row; cn_head : option (option string * Z) }.
Record chain_world := ChainWorld {
  cw_rows : list audit_row; cw_next_id : Z; cw_locks : gmap string nat; cw_conns : gmap nat chain_conn
}.

(** The statements of concurrent transactions.  [pg_advisory_xact_lock] waits until the lock is free and
    releases it when the transaction ends; a transaction reads the committed rows and its own; ids
    come from a sequence that a rollback does not turn back. *)
Inductive chain_step : chain_world -> chain_world -> Prop :=
| step_lock rows n locks conns w t :
    locks !! t = None -> conns !! w = None ->
    chain_step (ChainWorld rows n locks conns) (ChainWorld rows n (<[t := w]> locks) (<[w := ChainConn t [] None]> conns))
| step_read rows n locks conns w c :
    conns !! w = Some c ->
    chain_step (ChainWorld rows n locks conns)
      (ChainWorld rows n locks
         (<[w := ChainConn (cn_tenant c) (cn_pending c)
                   (Some (chain_head (tenant_rows (cn_tenant c) rows ++ cn_pending c)%list))]> conns))
| step_insert rows n locks conns w c head now a h :
    conns !! w = Some c -> cn_head c = Some head -> la_tenant_id a = cn_tenant c -> aware now -> entry_hash now a head = Ok h ->
    chain_step (ChainWorld rows n locks conns)
      (ChainWorld rows (n + 1) locks
         (<[w := ChainConn (cn_tenant c) (cn_pending c ++ [new_entry now a head h n])%list None]> conns))
| step_commit rows n locks conns w c :
    conns !! w = Some c ->
    chain_step (ChainWorld rows n locks conns)
      (ChainWorld (rows ++ cn_pending c)%list n (delete (cn_tenant c) locks) (delete w conns))
| step_rollback rows n locks conns w c :
    conns !! w = Some c ->
    chain_step (ChainWorld rows n locks conns) (ChainWorld rows n (delete (cn_tenant c) locks) (delete w conns)).

Inductive reachable : chain_world -> Prop :=
| reach_empty : reachable (ChainWorld [] 1 ∅ ∅)
| reach_step a b : reachable a -> chain_step a b -> reachable b.

Definition conn_ok (rows : list audit_row) (n : Z) (locks : gmap string nat) (w : nat) (c : chain_conn) : Prop :=
  locks !! cn_tenant c = Some w /\
  chained (tenant_rows (cn_tenant c) rows ++ cn_pending c)%list /\
  Forall (fun r => au_tenant_id r = cn_tenant c /\ (au_id r < n)%Z) (cn_pending c) /\
  (forall head, cn_head c = Some head -> head = chain_head (tenant_rows (cn_tenant c) rows ++ cn_pending c)%list).

Definition world_ok (x : chain_world) : Prop :=
  (forall t, chained (tenant_rows t (cw_rows x))) /\
  Forall (fun r => (au_id r < cw_next_id x)%Z) (cw_rows x) /\
  map_Forall (conn_ok (cw_rows x) (cw_next_id x) (cw_locks x)) (cw_conns x).

Lemma tenant_rows_app t a b : tenant_rows t (a ++ b)%list = (tenant_rows t a ++ tenant_rows t b)%list.
Proof. unfold tenant_rows, where_. apply List.filter_app. Qed.

Lemma tenant_rows_all t rows : Forall (fun r => au_tenant_id r = t) rows -> forall t', tenant_rows t' rows = if String.eqb t t' then rows else [].
Proof.
  intros Hf t'. induction rows as [|r rows IH]; [by destruct (String.eqb t t')|]. inversion Hf; subst.
  unfold tenant_rows, where_ in *. cbn [List.filter]. rewrite IH by done. by destruct (String.eqb (au_tenant_id r) t').
Qed.

Lemma conn_ok_weaken rows n n' locks w c : conn_ok rows n locks w c -> (n <= n')%Z -> conn_ok rows n' locks w c.
Proof.
  intros (H1 & H2 & H3 & H4) Hn. split; [done|]. split; [done|]. split; [|done].
  eapply Forall_impl; [exact H3|]. intros x [? ?]. cbv beta. split; [done|lia].
Qed.

(** The locks of the other transactions survive the end of one. *)
Lemma conns_after_end rows rows' n locks (conns : gmap nat chain_conn) w c :
  map_Forall (conn_ok rows n locks) conns -> conns !! w = Some c ->
  (forall t, t <> cn_tenant c -> tenant_rows t rows' = tenant_rows t rows) ->
  map_Forall (conn_ok rows' n (delete (cn_tenant c) locks)) (delete w conns).
Proof.
  intros Hall Hw Ht w' c' [Hne Hw']%lookup_delete_Some. destruct (Hall w c Hw) as (Hl & _).
  destruct (Hall w' c' Hw') as (H1 & H2 & H3 & H4).
  assert (Hd : cn_tenant c' <> cn_tenant c) by congruence.
  unfold conn_ok. rewrite (Ht _ Hd). split; [by rewrite lookup_delete_ne by congruence|]. done.
Qed.

Lemma step_ok x y : world_ok x -> chain_step x y -> world_ok y.
Proof.
  intros (Hch & Hid & Hcn) Hstep. destruct Hstep as [rows n locks conns w t Hl Hw|rows n locks conns w c Hw
    |rows n locks conns w c head now a h Hw Hhd Ht Hn Hh|rows n locks conns w c Hw|rows n locks conns w c Hw]; unfold world_ok; cbn [cw_rows cw_next_id cw_locks cw_conns] in *.
  - split; [done|]. split; [done|]. apply map_Forall_insert_2.
    + split; [by rewrite lookup_insert_eq|]. cbn. rewrite app_nil_r. split; [apply Hch|]. by split; [constructor|].
    + eapply map_Forall_impl; [exact Hcn|]. intros w' c' (H1 & H2). split; [|done].
      by rewrite lookup_insert_ne by (intros ->; by rewrite Hl in H1).
  - split; [done|]. split; [done|]. apply map_Forall_insert_2; [|done].
    destruct (Hcn w c Hw) as (H1 & H2 & H3 & H4). split; [done|]. split; [done|]. split; [done|]. cbn. by intros ? [= <-].
  - destruct (Hcn w c Hw) as (H1 & H2 & H3 & H4). specialize (H4 _ Hhd). subst head.
    split; [done|]. split; [eapply Forall_impl; [exact Hid|]; intros r Hr; cbv beta in *; lia|]. apply map_Forall_insert_2.
    + split; [done|]. cbn [cn_tenant cn_pending cn_head]. rewrite app_assoc. split; [|split; [|done]].
      * apply chained_extend; [done|done| |done]. apply Forall_app. split; [by apply Forall_where|].
        eapply Forall_impl; [exact H3|]. by intros r [_ ?].
      * apply Forall_app. split; [|constructor; [cbn; split; [done|lia]|constructor]].
        eapply Forall_impl; [exact H3|]. intros r [? ?]. cbv beta. split; [done|lia].
    + eapply map_Forall_impl; [exact Hcn|]. intros w' c' Hc'. eapply conn_ok_weaken; [exact Hc'|lia].
  - destruct (Hcn w c Hw) as (H1 & H2 & H3 & H4).
    assert (Hall : forall t, tenant_rows t (cn_pending c) = if String.eqb (cn_tenant c) t then cn_pending c else []).
    { apply tenant_rows_all. eapply Forall_impl; [exact H3|]. by intros r [? _]. }
    split; [|split].
    + intros t. rewrite tenant_rows_app, Hall. destruct (String.eqb_spec (cn_tenant c) t) as [<-|_]; [done|]. by rewrite app_nil_r.
    + apply Forall_app. split; [done|]. eapply Forall_impl; [exact H3|]. by intros r [_ ?].
    + apply (conns_after_end rows _ n locks conns w c Hcn Hw). intros t Hne. rewrite tenant_rows_app, Hall.
      destruct (String.eqb_spec (cn_tenant c) t); [by subst|]. by rewrite app_nil_r.
  - split; [done|]. split; [done|]. by apply (conns_after_end rows _ n locks conns w c Hcn Hw).
Qed.

Lemma chained_verifies rows :
  chained rows ->
  verify_chain (_canonical_verification_entry <$> rows) None false
  = Ok (ChainResult true (length rows) (Z.of_nat (length rows)) PNone [] []).
Proof.
  intros Hch. destruct (window_clean rows 0 (length rows) Hch) as [Hcl Hlg]. rewrite drop_0, firstn_all in Hcl, Hlg.
  pose proof (verify_chain_rows None false rows) as Hv. cbv zeta in Hv.
  change (_canonical_verification_entry <$> None) with (@None pyval) in Hv. rewrite Hv.
  assert (Han : anchor_errors false rows = []) by (by destruct rows). cbn [row_before] in Hcl.
  rewrite Han, Hlg, (broken_from_clean 0 _ _ Hcl). apply concat_nil_Forall in Hcl. rewrite Hcl. cbn [app length broken_if Nat.eqb].
  f_equal. f_equal. rewrite size_empty. lia.
Qed.

(** C28. However the statements of concurrent transactions interleave, with commits and rollbacks, the lock
    keeps every tenant's committed log one chain: its verification reports every row verified and no
    error, and no two rows of a tenant share a sequence number. *)
Theorem locked_log_never_forks x t :
  reachable x ->
  let rows := tenant_rows t (cw_rows x) in
  verify_chain (_canonical_verification_entry <$> rows) None false
  = Ok (ChainResult true (length rows) (Z.of_nat (length rows)) PNone [] []) /\
  forall j k r r', rows !! j = Some r -> rows !! k = Some r' ->
    au_sequence_num r = au_sequence_num r' -> r = r'.
Proof.
  intros Hr rows. assert (Hok : world_ok x).
  { induction Hr as [|a b _ IH Hs]; [|by apply (step_ok a)].
    split; [intros t'; apply chained_nil|]. split; [constructor|]. apply map_Forall_empty. }
  destruct Hok as (Hch & _ & _). specialize (Hch t). split; [by apply chained_verifies|].
  intros j k r r' Hj Hk Hs. destruct (proj2 Hch j r Hj) as (H1 & _ & _), (proj2 Hch k r' Hk) as (H2 & _ & _).
  rewrite H1, H2 in Hs. injection Hs as Hs. assert (j = k) as -> by lia. fold rows in Hj. congruence.
Qed.
End AdminAudit.

(** ** Witnesses *)

Section Witnesses.
#[local] Existing Instance demo_lib.

Definition demo_now : datetime := Datetime 7 (Some 0%Z).
Definition demo_args (tenant_id action severity : string) : log_args :=
  LogArgs tenant_id "data.update" action "data" severity (Some "u1") (Some "ann@example.com") (Some "10.0.0.1") None
    (Some "record") (Some "r1") (Some "/records") (Some [("n", PInt 1)]) None.
Definition demo_calls : list (option exn * datetime * log_args) :=
  [(None, demo_now, demo_args "t1" "create" "info"); (None, demo_now, demo_args "t2" "create" "info");
   (Some (Exn "SQLAlchemyError" "connection lost"), demo_now, demo_args "t1" "lost" "info");
   (None, demo_now, demo_args "t1" "update" "error"); (None, demo_now, demo_args "t1" "delete" "info")].
Definition demo_log : audit_db := log_all demo_calls empty_log.
Definition demo_rows : list audit_row := tenant_rows "t1" (audit_logs demo_log).

Lemma demo_aware : aware_calls demo_calls.
Proof. by repeat constructor. Qed.

(** Two entries, three errors, no verified row and not minus one. *)
Lemma verified_counts_rows_witness :
  exists result, verify_chain [PNone; PDict []] None true = Ok result /\ length (cr_errors result) = 3%nat /\
    cr_verified result = 0%Z /\ (0 <= cr_verified result <= 2)%Z.
Proof.
  assert (Hc : exists result, verify_chain [PNone; PDict []] None true = Ok result /\ length (cr_errors result) = 3%nat /\
    cr_verified result = 0%Z) by (vm_compute; eexists; split; [reflexivity|split; reflexivity]).
  destruct Hc as (result & E & Hl & Hv). exists result. split; [exact E|]. split; [exact Hl|]. split; [exact Hv|].
  exact (proj1 (proj2 (verified_counts_rows _ _ _ _ E))).
Defined.

Lemma log_event_appends_witness :
  exists row, log_event None demo_now (demo_args "t1" "archive" "info") demo_log
      = (AuditDb (audit_logs demo_log ++ [row])%list (next_audit_id demo_log + 1)%Z, Ok (Some (next_audit_id demo_log))) /\
    au_tenant_id row = "t1" /\ au_id row = next_audit_id demo_log.
Proof.
  pose proof (log_event_appends demo_calls None demo_now (demo_args "t1" "archive" "info") demo_aware ltac:(done)) as Hw.
  cbv zeta in Hw. fold demo_log in Hw. exact Hw.
Defined.

Lemma written_window_verifies_witness :
  chain_verification "t1" (take 2 (drop 1 demo_rows)) demo_log = Ok (ChainResult true 2 2 PNone [] []).
Proof.
  pose proof (written_window_verifies demo_calls "t1" 1 2 demo_aware) as Hw. cbv zeta in Hw.
  fold demo_log in Hw. fold demo_rows in Hw.
  assert (Hl : length (take 2 (drop 1 demo_rows)) = 2%nat) by (vm_compute; reflexivity). rewrite Hl in Hw. exact Hw.
Defined.

(** An export filtered by severity of an intact log. *)
Lemma missing_row_reported_witness :
  exists result er, chain_verification "t1" (where_ (fun r => String.eqb (au_severity r) "info") demo_rows) demo_log = Ok result /\
    cr_valid result = false /\ er ∈ cr_errors result /\ er_error er = "sequence_gap".
Proof.
  destruct (demo_rows !! 0%nat) as [r0|] eqn:E0; [|vm_compute in E0; discriminate E0].
  destruct (demo_rows !! 1%nat) as [r1|] eqn:E1; [|vm_compute in E1; discriminate E1].
  destruct (demo_rows !! 2%nat) as [r2|] eqn:E2; [|vm_compute in E2; discriminate E2].
  assert (Hs : au_severity <$> demo_rows = ["info"; "error"; "info"]) by (vm_compute; reflexivity).
  assert (Hk : forall k r x, demo_rows !! k = Some r -> (au_severity <$> demo_rows) !! k = Some x -> au_severity r = x)
    by (intros k r x Hr Hx; rewrite list_lookup_fmap, Hr in Hx; by injection Hx).
  rewrite Hs in Hk.
  pose proof (missing_row_reported demo_calls "t1" (fun r => String.eqb (au_severity r) "info") 0 1 2 r0 r1 r2 demo_log demo_aware) as Hw.
  cbv zeta in Hw. fold demo_log in Hw. fold demo_rows in Hw. apply Hw; [lia|exact E0|exact E1|exact E2|..].
  - by rewrite (Hk 0%nat r0 _ E0 eq_refl).
  - by rewrite (Hk 1%nat r1 _ E1 eq_refl).
  - by rewrite (Hk 2%nat r2 _ E2 eq_refl).
Defined.

(** The last two rows, with the address that is not hashed rewritten. *)
Definition demo_tail : list audit_row :=
  (fun r => AuditRow (au_id r) (au_tenant_id r) (au_timestamp r) (au_actor_id r) (au_actor_email r) (Some "6.6.6.6") (au_actor_ua r)
    (au_event_type r) (au_event_category r) (au_action r) (au_severity r) (au_resource_type r) (au_resource_id r)
    (au_endpoint r) (au_metadata r) (au_request_id r) (au_prev_hash r) (au_sequence_num r) (au_integrity_hash r)) <$> drop 1 demo_rows.

Lemma last_hash_pins_log_witness :
  (length demo_tail <= length demo_rows)%nat /\ Forall2 same_row (drop (length demo_rows - length demo_tail) demo_rows) demo_tail.
Proof.
  assert (Hv : exists result, verify_chain (_canonical_verification_entry <$> demo_tail) None false = Ok result /\ cr_valid result = true)
    by (vm_compute; eexists; split; reflexivity).
  destruct Hv as (result & Hv & Hval).
  destruct (last demo_rows) as [r|] eqn:Er; [|vm_compute in Er; discriminate Er].
  destruct (last demo_tail) as [r'|] eqn:Er'; [|vm_compute in Er'; discriminate Er'].
  apply (last_hash_pins_log demo_calls "t1" demo_tail result r r' demo_aware Hv Hval Er Er').
  - assert (Hl : au_integrity_hash <$> last demo_rows = au_integrity_hash <$> last demo_tail) by (vm_compute; reflexivity).
    rewrite Er, Er' in Hl. by injection Hl.
  - apply no_collision_b_ok. vm_compute. reflexivity.
Defined.

(** One writer locks, reads, inserts and commits. *)
Lemma locked_log_never_forks_witness :
  exists x, reachable x /\ length (tenant_rows "t1" (cw_rows x)) = 1%nat /\
    verify_chain (_canonical_verification_entry <$> tenant_rows "t1" (cw_rows x)) None false = Ok (ChainResult true 1 1 PNone [] []).
Proof.
  set (a := demo_args "t1" "create" "info"). set (h := row_hash 3 (new_entry demo_now a (None, 1%Z) "" 1)).
  set (x := ChainWorld [new_entry demo_now a (None, 1%Z) h 1] 2 (delete "t1" {["t1" := 0%nat]}) (delete 0%nat {[0%nat := ChainConn "t1" [new_entry demo_now a (None, 1%Z) h 1] None]})).
  assert (Hr : reachable x).
  { eapply reach_step; [eapply reach_step; [eapply reach_step; [eapply reach_step; [apply reach_empty|]|]|]|].
    - apply (step_lock [] 1 ∅ ∅ 0 "t1"); done.
    - apply (step_read [] 1 _ _ 0 (ChainConn "t1" [] None)). by rewrite lookup_insert_eq.
    - apply (step_insert [] 1 _ _ 0 (ChainConn "t1" [] (Some (None, 1%Z))) (None, 1%Z) demo_now a h);
        [by rewrite lookup_insert_eq|done|done|done|by apply (entry_hash_eq demo_now a (None, 1%Z) 1 "")].
    - rewrite !insert_insert_eq. apply (step_commit [] 2 _ _ 0 (ChainConn "t1" [new_entry demo_now a (None, 1%Z) h 1] None)).
      by rewrite lookup_insert_eq. }
  assert (Hl : length (tenant_rows "t1" (cw_rows x)) = 1%nat) by reflexivity.
  exists x. split; [exact Hr|]. split; [exact Hl|].
  pose proof (proj1 (locked_log_never_forks x "t1" Hr)) as Hv. rewrite Hl in Hv. exact Hv.
Defined.
End Witnesses.
