(* ===== verification/AuditExport.v ===== *)
(** * The audit export

    [services/admin/app/audit_routes.py]: the gates of the export, the masking and redaction of personal
    data, the neutralisation of spreadsheet formulas, the record that the export leaves of itself, and
    the verification it attaches.  Regular expressions are parameters that cut a text into matches and the
    rest.  Proved: no exported text can start a formula; raw contact data needs the request, the permission and
    an actor who has not been erased; no export succeeds without its record in the chain; and an
    unfiltered export of what the writer wrote verifies. *)

From Stdlib Require Import ZArith Lia String Ascii.
From stdpp Require Import base list strings gmap sorting.
From S2P Require Import Prelude PyStr PyFloat PyVal Json JsonText Sha256 Db AdminAudit.

Local Open Scope string_scope.

Definition http_error (status detail : string) : exn := Exn "HTTPException" (status +:+ ": " +:+ detail).

(** What the module takes from the process and from libraries. *)
Class ExportEnv := {
  (** [os.getenv(name)]. *)
  getenv : string -> option string;
  (** The salt drawn when the module is imported. *)
  _FALLBACK_PII_SALT : string;
  (** [pattern.finditer(s)]: the text cut into pieces, [true] for a match; the pieces make up the text. *)
  email_pieces : string -> list (bool * string);
  phone_pieces : string -> list (bool * string);
  (** [json.loads(s)]; raises [JSONDecodeError]. *)
  json_loads : string -> res pyval;
  (** The categories of a Python set joined in its own order. *)
  category_text : string
}.

Definition _ALLOWED_EXPORT_PURPOSES : list string := ["compliance_investigation"; "security_incident"; "user_request"].
Definition _ANONYMIZATION_MARKER_ACTION : string := "gdpr_anonymize_user".
Definition _ANONYMIZATION_MARKER_KIND : string := "per_user_anonymization_order".
Definition _PII_REDACTION : string := "[REDACTED_PII]".
Definition _PII_KEY_SUBSTRINGS : list string :=
  ["address"; "actor_ip"; "actor_ua"; "contact"; "contact_name"; "email"; "first_name"; "full_name"; "ip_address";
   "last_name"; "password"; "person_name"; "phone"; "redacted_user_id"; "secret"; "ssn"; "token"; "user_agent"; "user_id"].
Definition _SECRET_KEY_SUBSTRINGS : list string := ["password"; "secret"; "token"].
Definition _MIN_PRODUCTION_PII_SALT_LENGTH : nat := 16.
Definition _PRODUCTION_ENV_VARS : list string :=
  ["REGENGINE_ENV"; "ENV"; "ENVIRONMENT"; "RAILWAY_ENVIRONMENT"; "RAILWAY_ENVIRONMENT_NAME"; "VERCEL_ENV"].
Definition _FORMULA_PREFIXES : list ascii := ["="; "+"; "-"; "@"; "009"; "013"]%char.

Section Exporting.
Context `{PyLib} `{ExportEnv}.

(** ** Masking *)

Definition _runtime_is_production : bool :=
  existsb (fun name => String.eqb (lower (strip (default "" (getenv name)))) "production") _PRODUCTION_ENV_VARS.

Definition _pii_hash_salt : res string :=
  let salt := strip (default "" (getenv "AUDIT_PII_HASH_SALT")) in
  if _runtime_is_production && (slen salt <? _MIN_PRODUCTION_PII_SALT_LENGTH)%nat
  then Raise (Exn "RuntimeError" ("AUDIT_PII_HASH_SALT is not configured. Set it to a long random "
                                  +:+ "value before running audit exports in production."))
  else Ok (if String.eqb salt "" then _FALLBACK_PII_SALT else salt).

Definition _mask_identifier (value : pyval) : res pyval :=
  match value with
  | PNone => Ok PNone
  | _ =>
      let text := py_str value in
      if String.eqb text "" then Ok (PStr text)
      else do salt <- _pii_hash_salt; Ok (PStr ("masked:" +:+ str_take 24 (sha256_hex (salt +:+ ":" +:+ text))))
  end.
Definition _mask_email (email : pyval) : res pyval := _mask_identifier email.

(** ** Formulas *)

Definition starts_formula (s : string) : bool :=
  match s with String c _ => existsb (Ascii.eqb c) _FORMULA_PREFIXES | EmptyString => false end.
Definition _neutralize_formula (value : string) : string := if starts_formula value then "'" +:+ value else value.

Fixpoint _neutralize_export_value (value : pyval) : pyval :=
  match value with
  | PStr s => PStr (_neutralize_formula s)
  | PDict d =>
      PDict ((fix go (acc d : pydict) : pydict :=
                match d with
                | [] => acc
                | (key, nested) :: d' => go (dict_set (_neutralize_formula key) (_neutralize_export_value nested) acc) d'
                end) [] d)
  | PList l => PList (map _neutralize_export_value l)
  | _ => value
  end.

Definition _neutralize_export_entry (entry : pydict) : pydict :=
  match _neutralize_export_value (PDict (List.filter (fun kv => negb (String.eqb (fst kv) "integrity")) entry)) with
  | PDict d => dict_set "integrity" (dict_get entry "integrity" PNone) d
  | _ => []
  end.

(** ** Metadata *)

Definition _metadata_as_dict (metadata : pyval) : res pydict :=
  if negb (truthy metadata) then Ok []
  else
    match metadata with
    | PDict d => Ok d
    | PStr s =>
        match json_loads s with
        | Raise e => if String.eqb (exn_type e) "JSONDecodeError" then Ok [("value", metadata)] else Raise e
        | Ok (PDict d) => Ok d
        | Ok parsed => Ok [("value", parsed)]
        end
    | _ => Ok [("value", metadata)]
    end.

Definition _metadata_key_is_pii (key : string) : bool := existsb (fun marker => contains marker (lower key)) _PII_KEY_SUBSTRINGS.
Definition _metadata_key_is_secret (key : string) : bool :=
  existsb (fun marker => contains marker (lower key)) _SECRET_KEY_SUBSTRINGS.

(** [pattern.sub(f, value)]. *)
Definition sub_pieces (f : string -> res string) (pieces : list (bool * string)) : res string :=
  do parts <- rmapM (fun p : bool * string => if fst p then f (snd p) else Ok (snd p)) pieces; Ok (str_join "" parts).

Fixpoint _redact_metadata_value (force : bool) (value : pyval) : res pyval :=
  match value with
  | PDict d =>
      do items <- (fix go (d : pydict) : res pydict :=
        match d with
        | [] => Ok []
        | (key, nested) :: d' =>
            let key_is_pii := _metadata_key_is_pii key in
            do v <- (if key_is_pii && _metadata_key_is_secret key then Ok (PStr _PII_REDACTION)
                     else _redact_metadata_value (force || key_is_pii) nested);
            do rest <- go d'; Ok ((key, v) :: rest)
        end) d;
      Ok (PDict items)
  | PList l =>
      do items <- (fix go (l : list pyval) : res (list pyval) :=
        match l with [] => Ok [] | x :: l' => do v <- _redact_metadata_value force x; do rest <- go l'; Ok (v :: rest) end) l;
      Ok (PList items)
  | PStr s =>
      if force then (if String.eqb s "" then Ok (PStr _PII_REDACTION) else _mask_identifier value)
      else
        do redacted <- sub_pieces (fun m => do v <- _mask_email (PStr m); match v with PStr t => Ok t | _ => Ok "" end) (email_pieces s);
        do phones <- sub_pieces (fun _ => Ok _PII_REDACTION) (phone_pieces redacted);
        Ok (PStr phones)
  | _ => Ok (if force then PStr _PII_REDACTION else value)
  end.

Definition _redact_metadata_pii (metadata : pyval) (force : bool) : res pydict :=
  do d <- _metadata_as_dict metadata;
  do redacted <- _redact_metadata_value force (PDict d);
  Ok (match redacted with PDict r => r | v => [("value", v)] end).

(** ** Erased actors *)

(** [next((p.get(k) for p in payloads if p.get(k)), None)]. *)
Definition first_truthy (k : string) (payloads : list pydict) : pyval :=
  match List.find (fun p => truthy (dict_get p k PNone)) payloads with Some p => dict_get p k PNone | None => PNone end.

Definition erased_by (tenant_text : string) (row : audit_row) : res (list string) :=
  do metadata <- _metadata_as_dict (au_metadata row);
  let details := match dict_get metadata "details" PNone with PDict d => d | _ => [] end in
  let marker_payloads := [metadata; details] in
  let is_marker := String.eqb (au_action row) _ANONYMIZATION_MARKER_ACTION
                   || existsb (fun p => py_eq (dict_get p "marker_kind" PNone) (PStr _ANONYMIZATION_MARKER_KIND)) marker_payloads in
  if negb is_marker then Ok []
  else
    let redacted_tenant_id := first_truthy "redacted_tenant_id" marker_payloads in
    if truthy redacted_tenant_id && negb (String.eqb (py_str redacted_tenant_id) tenant_text) then Ok []
    else
      let redacted_user_id := py_or (first_truthy "redacted_user_id" marker_payloads) (opt_text (au_resource_id row)) in
      Ok (if truthy redacted_user_id then [py_str redacted_user_id] else []).

Definition _collect_anonymized_actor_ids (rows : list audit_row) (tenant_id : string) : res (list string) :=
  do ids <- rmapM (erased_by tenant_id) rows; Ok (concat ids).

Definition _load_anonymized_actor_ids (s : audit_db) (tenant_id : string) (export_rows : list audit_row) : res (list string) :=
  let marker_rows := where_ (fun r => String.eqb (au_action r) _ANONYMIZATION_MARKER_ACTION) (tenant_rows tenant_id (audit_logs s)) in
  _collect_anonymized_actor_ids (export_rows ++ marker_rows)%list tenant_id.

(** The table has no [anonymized_at] column, so only the markers count. *)
Definition _row_is_anonymized (row : audit_row) (anonymized_actor_ids : list string) : bool :=
  match au_actor_id row with Some a => existsb (String.eqb a) anonymized_actor_ids | None => false end.

Definition _export_actor_id (row : audit_row) (row_anonymized : bool) : res pyval :=
  match text_or_none (au_actor_id row) with
  | PNone => Ok PNone
  | a => if row_anonymized then _mask_identifier a else Ok a
  end.

Definition _export_resource_id (row : audit_row) (anonymized_actor_ids : list string) : res pyval :=
  match au_resource_id row with
  | Some x => if existsb (String.eqb x) anonymized_actor_ids then _mask_identifier (PStr x) else Ok (PStr x)
  | None => Ok PNone
  end.

(** ** The permission *)

Record user := User { us_id : string; us_email : string; us_is_sysadmin : bool }.
Record membership := Membership { me_user_id : string; me_tenant_id : string; me_role_id : string; me_is_active : bool }.
Record directory := Directory { memberships : list membership; roles : list (string * pyval) }.

Definition _caller_has_pii_export_permission (u : user) (dir : directory) (tenant_id : string) : res bool :=
  if us_is_sysadmin u then Ok true
  else
    match where_ (fun m => String.eqb (me_user_id m) (us_id u) && String.eqb (me_tenant_id m) tenant_id && me_is_active m) (memberships dir) with
    | [] => Ok false
    | [m] =>
        match dict_lookup (me_role_id m) (roles dir) with
        | Some (PList perms) => Ok (existsb (py_eq (PStr "audit.export.pii")) perms)
        | _ => Ok false
        end
    | _ => Raise (Exn "MultipleResultsFound" "Multiple rows were found when one or none was required")
    end.

(** ** The export *)

Record export_args := ExportArgs {
  xa_purpose : string; xa_start : option string; xa_end : option string; xa_event_category : option string;
  xa_severity : option string; xa_limit : nat; xa_include_verification : bool; xa_include_pii : bool
}.
Record export_response := ExportResponse {
  xr_record_count : nat; xr_start : string; xr_end : string; xr_bundle_hash : string; xr_entries : list pydict;
  xr_chain_start : pyval; xr_chain_end : pyval; xr_chain_verification : option chain_result
}.

(** [datetime.fromisoformat(end) if end else now], and [start] with its default of 30 days before. *)
Definition time_range (a : export_args) (now : datetime) : res (datetime * datetime) :=
  match (do e <- match nonempty (xa_end a) with Some t => fromisoformat t | None => Ok now end;
         do b <- match nonempty (xa_start a) with
                 | Some t => fromisoformat t
                 | None => Ok (Datetime (dt_wall e - 30 * 86400 * 1000000) (dt_offset e))
                 end; Ok (b, e)) with
  | Ok r => Ok r
  | Raise x =>
      if String.eqb (exn_type x) "ValueError"
      then Raise (http_error "400" "Invalid date format. Use ISO 8601 (e.g., 2026-01-01T00:00:00Z)") else Raise x
  end.

(** A timestamptz column against a parameter; the session is in UTC. *)
Definition sql_instant (d : datetime) : Z := (dt_wall d - default 0 (dt_offset d))%Z.

Definition severity_levels : list (string * nat) := [("critical", 0); ("error", 1); ("warning", 2); ("info", 3)]%nat.
Definition valid_categories : list string := ["auth"; "data"; "admin"; "system"; "api"].

(** The conditions on category and severity. *)
Definition category_condition (a : export_args) : res (audit_row -> bool) :=
  match nonempty (xa_event_category a) with
  | None => Ok (fun _ => true)
  | Some c =>
      if existsb (String.eqb c) valid_categories then Ok (fun r => String.eqb (au_event_category r) c)
      else Raise (http_error "400" ("Invalid event_category. Must be one of: " +:+ category_text))
  end.
Definition severity_condition (a : export_args) : res (audit_row -> bool) :=
  match nonempty (xa_severity a) with
  | None => Ok (fun _ => true)
  | Some x =>
      match List.find (fun kv => String.eqb (fst kv) x) severity_levels with
      | None => Raise (http_error "400" ("Invalid severity. Must be one of: " +:+ str_join ", " (fst <$> severity_levels)))
      | Some (_, min_level) =>
          Ok (fun r => existsb (fun kv => String.eqb (fst kv) (au_severity r) && (snd kv <=? min_level)%nat) severity_levels)
      end
  end.

(** ORDER BY sequence_num ASC, id ASC; a missing sequence number sorts last. *)
Definition sequence_le (a b : audit_row) : bool :=
  match au_sequence_num a, au_sequence_num b with
  | Some x, Some y => (x <? y)%Z || ((x =? y)%Z && (au_id a <=? au_id b)%Z)
  | Some _, None => true
  | None, Some _ => false
  | None, None => (au_id a <=? au_id b)%Z
  end.

Definition select_rows (s : audit_db) (tenant_id : string) (range : datetime * datetime) (conds : list (audit_row -> bool)) (limit : nat)
  : list audit_row :=
  take limit (order_by sequence_le
    (where_ (fun r => (sql_instant (fst range) <=? sql_instant (au_timestamp r))%Z
                      && (sql_instant (au_timestamp r) <=? sql_instant (snd range))%Z && forallb (fun c => c r) conds)
       (tenant_rows tenant_id (audit_logs s)))).

Definition public_entry (raw_pii_allowed : bool) (anonymized_actor_ids : list string) (row : audit_row) : res pydict :=
  let row_anonymized := _row_is_anonymized row anonymized_actor_ids in
  let show_raw_pii := raw_pii_allowed && negb row_anonymized in
  do actor_email <- (if show_raw_pii then Ok (opt_text (au_actor_email row)) else _mask_email (opt_text (au_actor_email row)));
  do actor_id <- _export_actor_id row row_anonymized;
  do resource_id <- _export_resource_id row anonymized_actor_ids;
  do metadata <- _redact_metadata_pii (au_metadata row) row_anonymized;
  Ok [("id", PInt (au_id row)); ("tenant_id", PStr (au_tenant_id row)); ("timestamp", PStr (isoformat (au_timestamp row)));
      ("actor", PDict [("id", actor_id); ("email", actor_email);
                       ("ip", if show_raw_pii then opt_text (au_actor_ip row) else PNone);
                       ("user_agent", if show_raw_pii then opt_text (au_actor_ua row) else PNone);
                       ("pii_masked", PBool (negb show_raw_pii)); ("anonymized_at", PNone)]);
      ("event", PDict [("type", PStr (au_event_type row)); ("category", PStr (au_event_category row));
                       ("action", PStr (au_action row)); ("severity", PStr (au_severity row))]);
      ("resource", PDict [("type", opt_text (au_resource_type row)); ("id", resource_id)]);
      ("endpoint", opt_text (au_endpoint row)); ("metadata", PDict metadata); ("request_id", text_or_none (au_request_id row));
      ("integrity", PDict [("prev_hash", opt_text (au_prev_hash row)); ("hash", PStr (au_integrity_hash row));
                           ("sequence_num", opt_int (au_sequence_num row))])].

(** What the export records about itself. *)
Definition self_log (u : user) (tenant_id : string) (a : export_args) (range : datetime * datetime) (count : nat) (bundle_hash : string)
    (raw_pii_allowed : bool) : log_args :=
  LogArgs tenant_id "data.bulk.export" "export" "data" "info" (Some (us_id u)) (Some (us_email u)) None None (Some "audit_logs") None None
    (Some [("record_count", PInt (Z.of_nat count));
           ("time_range", PDict [("start", PStr (isoformat (fst range))); ("end", PStr (isoformat (snd range)))]);
           ("bundle_hash", PStr bundle_hash); ("purpose", PStr (xa_purpose a));
           ("include_pii_requested", PBool (xa_include_pii a)); ("raw_pii_released", PBool raw_pii_allowed)]) None.

Definition sort_purposes : string := str_join ", " _ALLOWED_EXPORT_PURPOSES.

(** What the handler computes before it writes. *)
Definition prepare_export (s : audit_db) (tenant : option string) (u : user) (dir : directory) (now : datetime) (a : export_args)
  : res (string * (datetime * datetime) * bool * list audit_row * list pydict * string) :=
  if negb (existsb (String.eqb (xa_purpose a)) _ALLOWED_EXPORT_PURPOSES)
  then Raise (http_error "400" ("Invalid purpose. Must be one of: " +:+ sort_purposes))
  else
    match nonempty tenant with
    | None => Raise (http_error "403" "No tenant context active")
    | Some tenant_id =>
        do _ <- match _pii_hash_salt with
                | Ok salt => Ok salt
                | Raise x => if String.eqb (exn_type x) "RuntimeError" then Raise (http_error "503" (exn_msg x)) else Raise x
                end;
        do permitted <- _caller_has_pii_export_permission u dir tenant_id;
        let raw_pii_allowed := xa_include_pii a && permitted in
        do range <- time_range a now;
        do c1 <- category_condition a;
        do c2 <- severity_condition a;
        let rows := select_rows s tenant_id range [c1; c2] (xa_limit a) in
        do erased <- _load_anonymized_actor_ids s tenant_id rows;
        do public <- rmapM (public_entry raw_pii_allowed erased) rows;
        let entries := _neutralize_export_entry <$> public in
        do bundle_content <- json_dumps opts_sorted_str (PList (PDict <$> entries));
        Ok (tenant_id, range, raw_pii_allowed, rows, entries, sha256_hex bundle_content)
    end.

(** [entries[i]["integrity"]["hash"]]. *)
Definition integrity_hash_of (entry : option pydict) : pyval :=
  match entry with
  | Some e => match dict_get e "integrity" PNone with PDict i => dict_get i "hash" PNone | _ => PNone end
  | None => PNone
  end.

(** [export_audit_logs]: [now] is read for the range, [fault] and [log_now] belong to the self-log.  The
    request commits after the self-log and rolls back when it is missing. *)
Definition export_audit_logs (tenant : option string) (u : user) (dir : directory) (now : datetime) (fault : option exn)
    (log_now : datetime) (a : export_args) : dbm audit_db export_response := fun s =>
  match prepare_export s tenant u dir now a with
  | Raise e => (s, Raise e)
  | Ok (tenant_id, range, raw_pii_allowed, rows, entries, bundle_hash) =>
      match log_event fault log_now (self_log u tenant_id a range (length entries) bundle_hash raw_pii_allowed) s with
      | (_, Raise e) => (s, Raise e)
      | (_, Ok None) =>
          (s, Raise (http_error "500" "audit-export self-log failed; export aborted to preserve tamper-evidence"))
      | (s', Ok (Some _)) =>
          let verification :=
            if xa_include_verification a && negb (length rows =? 0)%nat
            then rmap Some (chain_verification tenant_id rows s') else Ok None in
          (s', do v <- verification;
               Ok (ExportResponse (length entries) (isoformat (fst range)) (isoformat (snd range)) bundle_hash entries
                     (integrity_hash_of (head entries)) (integrity_hash_of (last entries)) v))
      end
  end.

(** ** Formulas are inert *)

(** No text of the value, key or leaf, starts a formula. *)
Fixpoint inert (v : pyval) : bool :=
  match v with
  | PStr s => negb (starts_formula s)
  | PList l => forallb inert l
  | PDict d => forallb (fun kv => negb (starts_formula (fst kv)) && inert (snd kv)) d
  | _ => true
  end.

Lemma neutral_formula s : starts_formula (_neutralize_formula s) = false.
Proof. unfold _neutralize_formula. by destruct (starts_formula s) eqn:E. Qed.

Definition inert_items (d : pydict) : bool := forallb (fun kv => negb (starts_formula (fst kv)) && inert (snd kv)) d.

Lemma inert_set k v d : starts_formula k = false -> inert v = true -> inert_items d = true -> inert_items (dict_set k v d) = true.
Proof.
  intros Hk Hv. unfold inert_items. induction d as [|[k' v'] d IH]; cbn; [by rewrite Hk, Hv|].
  intros [[H1 H2]%andb_true_iff Hd]%andb_true_iff. destruct (String.eqb k k'); cbn; [by rewrite Hk, Hv, Hd|].
  by rewrite H1, H2, IH.
Qed.

Lemma neutralize_inert v : inert (_neutralize_export_value v) = true.
Proof.
  revert v. fix IH 1. intros [|b|z|f|s|d|l|d]; cbn [_neutralize_export_value inert]; try done.
  - by rewrite neutral_formula.
  - induction l as [|x l IHl]; cbn; [done|]. by rewrite (IH x), IHl.
  - assert (Hgo : forall d acc, inert_items acc = true -> inert_items ((fix go (acc d : pydict) : pydict :=
        match d with
        | [] => acc
        | (key, nested) :: d' => go (dict_set (_neutralize_formula key) (_neutralize_export_value nested) acc) d'
        end) acc d) = true).
    { clear d. induction d as [|[k x] d IHd]; intros acc Ha; [done|]. apply IHd. apply inert_set; [apply neutral_formula|apply IH|done]. }
    by apply Hgo.
Qed.

Lemma inert_lookup k v d : inert_items d = true -> dict_lookup k d = Some v -> starts_formula k = false /\ inert v = true.
Proof.
  unfold inert_items. induction d as [|[k' v'] d IH]; [done|]. cbn. intros [[H1 H2]%andb_true_iff Hd]%andb_true_iff.
  destruct (String.eqb_spec k k') as [->|]; [|by apply IH]. intros [= <-]. split; [by apply negb_true_iff|done].
Qed.

Lemma neutral_entry_inert entry k v :
  dict_lookup k (_neutralize_export_entry entry) = Some v -> k <> "integrity" -> starts_formula k = false /\ inert v = true.
Proof.
  unfold _neutralize_export_entry.
  pose proof (neutralize_inert (PDict (List.filter (fun kv => negb (String.eqb (fst kv) "integrity")) entry))) as Hi.
  destruct (_neutralize_export_value _) as [| | | | | | |d]; try done. intros Hk Hne.
  rewrite dict_lookup_set_ne in Hk by done. exact (inert_lookup k v d Hi Hk).
Qed.

(** The rows, entries and record of an export that succeeds. *)
Lemma export_ok_inv tenant u dir now fault log_now a s s' resp :
  export_audit_logs tenant u dir now fault log_now a s = (s', Ok resp) ->
  exists tenant_id range raw rows entries bundle_hash id,
    prepare_export s tenant u dir now a = Ok (tenant_id, range, raw, rows, entries, bundle_hash) /\
    log_event fault log_now (self_log u tenant_id a range (length entries) bundle_hash raw) s = (s', Ok (Some id)) /\
    xr_entries resp = entries /\
    (if xa_include_verification a && negb (length rows =? 0)%nat then rmap Some (chain_verification tenant_id rows s') else Ok None)
      = Ok (xr_chain_verification resp).
Proof.
  unfold export_audit_logs. destruct (prepare_export _ _ _ _ _ _) as [[[[[[tenant_id range] raw] rows] entries] bundle]|e]; [|done].
  destruct (log_event _ _ _ _) as [s1 [[id|]|e]] eqn:El; [|done|done].
  intros E. assert (s1 = s') as -> by congruence. apply (f_equal snd) in E. cbn [snd] in E.
  apply rbind_Ok_inv in E as (v & Hv & E). apply Ok_inv in E as <-.
  exists tenant_id, range, raw, rows, entries, bundle, id. repeat split; done.
Qed.

(** The steps of a preparation that succeeds. *)
Lemma prepare_ok_inv s tenant u dir now a tenant_id range raw rows entries bundle_hash :
  prepare_export s tenant u dir now a = Ok (tenant_id, range, raw, rows, entries, bundle_hash) ->
  exists permitted c1 c2 erased public,
    _caller_has_pii_export_permission u dir tenant_id = Ok permitted /\ raw = xa_include_pii a && permitted /\
    category_condition a = Ok c1 /\ severity_condition a = Ok c2 /\
    rows = select_rows s tenant_id range [c1; c2] (xa_limit a) /\
    _load_anonymized_actor_ids s tenant_id rows = Ok erased /\
    rmapM (public_entry raw erased) rows = Ok public /\ entries = _neutralize_export_entry <$> public /\
    existsb (String.eqb (xa_purpose a)) _ALLOWED_EXPORT_PURPOSES = true.
Proof.
  unfold prepare_export. destruct (existsb _ _) eqn:Hp; cbn [negb]; [|done]. destruct (nonempty tenant) as [t|]; [|done].
  intros E. apply rbind_Ok_inv in E as (salt & _ & E). apply rbind_Ok_inv in E as (permitted & H1 & E).
  apply rbind_Ok_inv in E as (rg & H2 & E). apply rbind_Ok_inv in E as (c1 & H3 & E). apply rbind_Ok_inv in E as (c2 & H4 & E).
  apply rbind_Ok_inv in E as (erased & H5 & E). apply rbind_Ok_inv in E as (public & H6 & E).
  apply rbind_Ok_inv in E as (content & _ & E). apply Ok_inv in E. injection E as -> -> <- <- <- _.
  exists permitted, c1, c2, erased, public. repeat split; done.
Qed.

(** No text that an export returns can start a spreadsheet formula: outside the integrity block, every
    key and every string of every entry, however deep, starts with none of the characters that do. *)
Theorem exported_text_is_inert tenant u dir now fault log_now a s s' resp k v :
  export_audit_logs tenant u dir now fault log_now a s = (s', Ok resp) ->
  forall entry, entry ∈ xr_entries resp -> dict_lookup k entry = Some v -> k <> "integrity" ->
    starts_formula k = false /\ inert v = true.
Proof.
  intros He entry Hin Hk Hne. apply export_ok_inv in He as (t & rg & raw & rows & entries & bh & id & Hp & _ & Hx & _).
  apply prepare_ok_inv in Hp as (pm & c1 & c2 & er & public & _ & _ & _ & _ & _ & _ & _ & -> & _).
  rewrite Hx in Hin. apply list_elem_of_fmap in Hin as (e & -> & _). by apply (neutral_entry_inert e).
Qed.

(** ** Contact data *)

(** An absent or empty value, or a salted digest. *)
Definition masked_text (v : pyval) : Prop := v = PNone \/ v = PStr "" \/ exists h, v = PStr ("masked:" +:+ h).

(** What an exported entry shows of its actor's contact data. *)
Definition contact_hidden (entry : pydict) : Prop :=
  exists actor, dict_get entry "actor" PNone = PDict actor /\ masked_text (dict_get actor "email" PNone) /\
    dict_get actor "ip" PNone = PNone /\ dict_get actor "user_agent" PNone = PNone /\ dict_get actor "pii_masked" PNone = PBool true.

Lemma mask_masked o v : _mask_email (opt_text o) = Ok v -> masked_text v.
Proof.
  unfold _mask_email, _mask_identifier. destruct o as [x|]; cbn [opt_text].
  - destruct (String.eqb_spec (py_str (PStr x)) "") as [E|_].
    + intros Ev. apply Ok_inv in Ev as <-. right. left. f_equal. exact E.
    + intros (salt & _ & [= <-])%rbind_Ok_inv. right. right. by eexists.
  - intros [= <-]. by left.
Qed.

Lemma masked_neutral v : masked_text v -> masked_text (_neutralize_export_value v).
Proof. intros [->|[->|(h & ->)]]; [by left|right; by left|right; right; by exists h]. Qed.

Lemma public_entry_hidden raw erased r e :
  public_entry raw erased r = Ok e -> raw && negb (_row_is_anonymized r erased) = false -> contact_hidden (_neutralize_export_entry e).
Proof.
  unfold public_entry. intros E Hr. rewrite Hr in E. apply rbind_Ok_inv in E as (email & Hm & E).
  apply rbind_Ok_inv in E as (aid & _ & E). apply rbind_Ok_inv in E as (rid & _ & E). apply rbind_Ok_inv in E as (md & _ & E).
  apply Ok_inv in E as <-. eexists. split; [reflexivity|]. cbn. split; [|done]. by eapply masked_neutral, mask_masked.
Qed.

(** Contact data leaves the system only on request, with the permission, and never for an erased actor:
    the entries of a successful export are those of stored rows of the tenant, and an entry shows a
    digest (or nothing) for the e-mail address and nothing for the network address and the user agent,
    unless raw data was requested, the caller holds the permission and the row's actor is not among
    those that the erasure markers name. *)
Theorem raw_contact_needs_permission tenant u dir now fault log_now a s s' resp :
  export_audit_logs tenant u dir now fault log_now a s = (s', Ok resp) ->
  exists tenant_id rows erased,
    Forall (fun r => r ∈ tenant_rows tenant_id (audit_logs s)) rows /\
    _load_anonymized_actor_ids s tenant_id rows = Ok erased /\
    Forall2 (fun r entry => contact_hidden entry \/
               (xa_include_pii a = true /\ _caller_has_pii_export_permission u dir tenant_id = Ok true /\
                _row_is_anonymized r erased = false)) rows (xr_entries resp).
Proof.
  intros He. apply export_ok_inv in He as (t & rg & raw & rows & entries & bh & id & Hp & _ & Hx & _).
  apply prepare_ok_inv in Hp as (pm & c1 & c2 & er & public & Hpm & -> & _ & _ & Hrows & Her & Hpub & -> & _).
  exists t, rows, er. split; [|split; [done|]].
  - apply Forall_forall. intros r Hr. rewrite Hrows in Hr. unfold select_rows in Hr.
    apply list_elem_of_lookup in Hr as [k Hk]. apply lookup_take_Some in Hk as [Hk _]. apply list_elem_of_lookup_2 in Hk.
    apply elem_of_order_by in Hk. by apply elem_of_where in Hk as [Hk _].
  - rewrite Hx. apply rmapM_Forall2 in Hpub. apply Forall2_fmap_r. eapply Forall2_impl; [exact Hpub|].
    intros r e Hre. cbv beta. destruct (xa_include_pii a && pm && negb (_row_is_anonymized r er)) eqn:Eb.
    + right. apply andb_true_iff in Eb as [[Ei ->]%andb_true_iff Ea]. split; [done|]. split; [done|]. by apply negb_true_iff.
    + left. by apply (public_entry_hidden (xa_include_pii a && pm) er r).
Qed.

(** ** The record of the export *)

Lemma log_event_row now a s s' id :
  log_event None now a s = (s', Ok (Some id)) ->
  exists h, s' = AuditDb (audit_logs s ++ [new_entry now a (_get_chain_head (la_tenant_id a) s) h id])%list (next_audit_id s + 1)%Z.
Proof.
  unfold log_event, append_entry, dbind, dget, insert_audit_row.
  destruct (entry_hash now a _) as [h|e]; [|by destruct (swallowed e)]. destruct (match au_sequence_num _ with Some _ => _ | None => _ end).
  - cbn. done.
  - intros [= <- <-]. by exists h.
Qed.

Lemma verification_total t rows s : exists r, chain_verification t rows s = Ok r.
Proof.
  unfold chain_verification. destruct (match _ with None => _ | Some _ => _ end) as [p m]. rewrite verify_chain_rows. by eexists.
Qed.

(** No export without its record: an export that answers has appended to the tenant's chain, and
    committed, one row that names the caller, the purpose, the digest of the entries, whether raw data
    was requested and whether it was released, after which the chain is still good; an export that does
    not answer, whatever fails, leaves the log as it was. *)
Theorem export_leaves_record tenant u dir now fault log_now a s s' out :
  audit_ok s -> aware log_now ->
  export_audit_logs tenant u dir now fault log_now a s = (s', out) ->
  match out with
  | Raise _ => s' = s
  | Ok resp =>
      existsb (String.eqb (xa_purpose a)) _ALLOWED_EXPORT_PURPOSES = true /\ audit_ok s' /\
      exists row metadata released, audit_logs s' = (audit_logs s ++ [row])%list /\
        au_action row = "export" /\ au_actor_id row = Some (us_id u) /\ au_metadata row = PDict metadata /\
        dict_lookup "purpose" metadata = Some (PStr (xa_purpose a)) /\
        dict_lookup "bundle_hash" metadata = Some (PStr (xr_bundle_hash resp)) /\
        dict_lookup "include_pii_requested" metadata = Some (PBool (xa_include_pii a)) /\
        dict_lookup "raw_pii_released" metadata = Some (PBool released) /\
        (released = true -> xa_include_pii a = true /\ _caller_has_pii_export_permission u dir (au_tenant_id row) = Ok true)
  end.
Proof.
  intros Hok Hn. unfold export_audit_logs.
  destruct (prepare_export s tenant u dir now a) as [[[[[[t rg] raw] rows] entries] bundle]|e] eqn:Hp; [|by intros [= <- <-]].
  set (args := self_log _ _ _ _ _ _ _). pose proof (log_event_spec fault log_now args s Hok Hn) as Hl.
  destruct fault as [e|].
  { rewrite Hl. destruct (swallowed e); by intros [= <- <-]. }
  destruct Hl as (row & Hl & _ & _ & Hok'). pose proof (log_event_row _ _ _ _ _ Hl) as (h & Hrow). rewrite Hl.
  assert (Hv : exists v, (if xa_include_verification a && negb (length rows =? 0)%nat
      then rmap Some (chain_verification t rows (AuditDb (audit_logs s ++ [row])%list (next_audit_id s + 1)%Z)) else Ok None) = Ok v).
  { destruct (_ && _); [|by eexists]. destruct (verification_total t rows (AuditDb (audit_logs s ++ [row])%list (next_audit_id s + 1)%Z)) as [r ->]. by eexists. }
  destruct Hv as [v Hv]. cbv zeta. rewrite Hv. cbn [rbind]. intros [= <- <-].
  apply prepare_ok_inv in Hp as (pm & c1 & c2 & er & public & Hpm & -> & _ & _ & _ & _ & _ & _ & Hpur).
  split; [done|]. split; [done|]. injection Hrow as Hrow. apply app_inj_tail in Hrow as [_ ->].
  eexists _, _, _. split; [reflexivity|]. split; [done|]. split; [done|]. split; [reflexivity|].
  split; [reflexivity|]. split; [reflexivity|]. split; [reflexivity|]. split; [reflexivity|].
  intros [Hi ->]%andb_true_iff. by split.
Qed.

(** ** The verification of a full export *)

Lemma chained_take rows n : chained rows -> chained (take n rows).
Proof.
  intros [Hs Hc]. split.
  - rewrite <- (take_drop n rows) in Hs. by apply StronglySorted_app_1_l in Hs.
  - intros k r [Hk Hlt]%lookup_take_Some. destruct (Hc k r Hk) as (H1 & H2 & H3). split; [done|]. split; [|done].
    rewrite H2. destruct k as [|j]; [done|]. by rewrite lookup_take_lt by lia.
Qed.

Lemma chained_rows_sorted rows : chained rows -> order_by sequence_le rows = rows.
Proof.
  intros [Hs Hc]. apply order_by_sorted. assert (Hle : forall j k r r', (j < k)%nat -> rows !! j = Some r -> rows !! k = Some r' -> sequence_le r r' = true).
  { intros j k r r' Hjk Hj Hk. unfold sequence_le. rewrite (proj1 (Hc j r Hj)), (proj1 (Hc k r' Hk)). apply orb_true_iff. left. apply Z.ltb_lt. lia. }
  clear Hs Hc. induction rows as [|r rows IH]; [constructor|]. constructor.
  - apply IH. intros j k x y Hjk Hj Hk. by apply (Hle (S j) (S k)); [lia|..].
  - apply Forall_lookup. intros k y Hk. by apply (Hle 0%nat (S k)); [lia|..].
Qed.

(** An export without category and severity whose range covers the tenant's rows, taken from a log that
    [log_event] wrote, answers when its self-log does and carries a verification that reports every
    exported row verified, for any limit. *)
Theorem full_export_verifies calls tenant u dir now log_now a p :
  aware_calls calls -> aware log_now ->
  let s := log_all calls empty_log in
  prepare_export s tenant u dir now a = Ok p ->
  let '(tenant_id, range, _, rows, entries, _) := p in
  nonempty (xa_event_category a) = None -> nonempty (xa_severity a) = None -> xa_include_verification a = true ->
  Forall (fun r => (sql_instant (fst range) <= sql_instant (au_timestamp r) <= sql_instant (snd range))%Z) (tenant_rows tenant_id (audit_logs s)) ->
  rows <> [] ->
  rows = take (xa_limit a) (tenant_rows tenant_id (audit_logs s)) /\
  exists s' resp, export_audit_logs tenant u dir now None log_now a s = (s', Ok resp) /\ xr_entries resp = entries /\
    xr_chain_verification resp = Some (ChainResult true (length rows) (Z.of_nat (length rows)) PNone [] []).
Proof.
  intros Hc Hn s Hp. destruct p as [[[[[t rg] raw] rows] entries] bundle]. intros Hcat Hsev Hinc Hrange Hne.
  pose proof (log_all_ok calls empty_log empty_log_ok Hc) as Hok. fold s in Hok. pose proof (proj2 (proj2 Hok) t) as Hch.
  assert (Hrows : rows = take (xa_limit a) (tenant_rows t (audit_logs s))).
  { apply prepare_ok_inv in Hp as (pm & c1 & c2 & er & public & _ & _ & H1 & H2 & -> & _).
    unfold category_condition in H1. rewrite Hcat in H1. apply Ok_inv in H1 as <-. unfold severity_condition in H2. rewrite Hsev in H2.
    apply Ok_inv in H2 as <-. unfold select_rows. f_equal. etransitivity; [|exact (chained_rows_sorted _ Hch)]. f_equal.
    apply where_all. eapply Forall_impl; [exact Hrange|]. intros r [Hr1 Hr2]. cbv beta. cbn [forallb].
    apply Z.leb_le in Hr1, Hr2. by rewrite Hr1, Hr2. }
  split; [done|]. unfold export_audit_logs. rewrite Hp.
  set (args := self_log _ _ _ _ _ _ _). destruct (log_event_spec None log_now args s Hok Hn) as (row & Hl & _). rewrite Hl. cbv zeta.
  rewrite Hinc. assert (Hlen : negb (length rows =? 0)%nat = true) by (apply negb_true_iff, Nat.eqb_neq; by destruct rows).
  rewrite Hlen. cbn [andb]. pose proof (chained_take _ (xa_limit a) Hch) as Hct. rewrite <- Hrows in Hct.
  assert (Hv : forall s', chain_verification t rows s' = Ok (ChainResult true (length rows) (Z.of_nat (length rows)) PNone [] [])).
  { intros s'. unfold chain_verification. destruct rows as [|r0 rest] eqn:Er; [done|].
    cbn [head mbind option_bind]. rewrite (proj1 (proj2 Hct 0%nat r0 eq_refl)). cbn [Z.of_nat Z.add Z.eqb Pos.eqb].
    apply (chained_verifies _ Hct). }
  rewrite Hv. cbn [rmap rbind]. eexists _, _. split; [reflexivity|]. done.
Qed.
End Exporting.

(** ** Witnesses *)

Section Witnesses.
#[local] Existing Instance demo_lib.

Definition demo_export_env : ExportEnv := {|
  getenv := fun name => if String.eqb name "AUDIT_PII_HASH_SALT" then Some "a-long-random-salt" else None;
  _FALLBACK_PII_SALT := "fallback";
  email_pieces := fun s => if contains "@" s then [(true, s)] else [(false, s)];
  phone_pieces := fun s => [(false, s)];
  json_loads := fun s => Raise (Exn "JSONDecodeError" s);
  category_text := "auth, data, admin, system, api"
|}.
#[local] Existing Instance demo_export_env.

Definition demo_user : user := User "u9" "auditor@example.com" false.
Definition demo_directory : directory :=
  Directory [Membership "u9" "t1" "auditor" true] [("auditor", PList [PStr "audit.export.pii"])].
Definition demo_export : export_args := ExportArgs "security_incident" None None None None 10 true true.
Definition demo_export_now : datetime := Datetime 1000 (Some 0%Z).

(** A log in which a marker erased the actor [u1]. *)
Definition erasure_args : log_args :=
  LogArgs "t1" "privacy" _ANONYMIZATION_MARKER_ACTION "admin" "info" (Some "u9") (Some "=cmd@example.com") None None (Some "user")
    (Some "u1") None (Some [("redacted_user_id", PStr "u1"); ("=note", PStr "+1")]) None.
Definition erased_log : audit_db := log_all [(None, demo_now, erasure_args)] demo_log.

Definition demo_run : audit_db * res export_response :=
  export_audit_logs (Some "t1") demo_user demo_directory demo_export_now None demo_now demo_export erased_log.
Definition answer (r : res export_response) : export_response :=
  match r with Ok x => x | Raise _ => ExportResponse 0 "" "" "" [] PNone PNone None end.
Definition demo_response : export_response := answer (snd demo_run).

Lemma answer_ok (p : audit_db * res export_response) : is_ok (snd p) = true -> p = (fst p, Ok (answer (snd p))).
Proof. by destruct p as [s [x|e]]. Qed.
Lemma demo_run_ok :
  export_audit_logs (Some "t1") demo_user demo_directory demo_export_now None demo_now demo_export erased_log
  = (fst demo_run, Ok demo_response).
Proof.
  unfold demo_response, demo_run. apply answer_ok. vm_compute. reflexivity.
Qed.
Lemma demo_response_size : length (xr_entries demo_response) = 4%nat.
Proof. vm_compute. reflexivity. Qed.
Lemma erased_log_ok : audit_ok erased_log.
Proof. apply log_all_ok; [apply log_all_ok; [apply empty_log_ok|exact demo_aware]|by repeat constructor]. Qed.

Lemma exported_text_is_inert_witness :
  length (xr_entries demo_response) = 4%nat /\
  forall entry v, entry ∈ xr_entries demo_response -> dict_lookup "metadata" entry = Some v -> inert v = true.
Proof.
  split; [exact demo_response_size|]. intros entry v Hin Hv.
  exact (proj2 (exported_text_is_inert _ _ _ _ _ _ _ _ _ _ "metadata" v demo_run_ok entry Hin Hv ltac:(discriminate))).
Defined.

(** The erased actor's rows are masked although the caller may see raw data. *)
Lemma raw_contact_needs_permission_witness :
  exists tenant_id rows erased,
    Forall (fun r => r ∈ tenant_rows tenant_id (audit_logs erased_log)) rows /\
    _load_anonymized_actor_ids erased_log tenant_id rows = Ok erased /\
    Forall2 (fun r entry => contact_hidden entry \/
               (xa_include_pii demo_export = true /\ _caller_has_pii_export_permission demo_user demo_directory tenant_id = Ok true /\
                _row_is_anonymized r erased = false)) rows (xr_entries demo_response).
Proof. exact (raw_contact_needs_permission _ _ _ _ _ _ _ _ _ _ demo_run_ok). Defined.

Lemma export_leaves_record_witness :
  exists row metadata, audit_logs (fst demo_run) = (audit_logs erased_log ++ [row])%list /\ au_action row = "export" /\
    au_metadata row = PDict metadata /\ dict_lookup "purpose" metadata = Some (PStr "security_incident").
Proof.
  pose proof (export_leaves_record _ _ _ _ _ _ _ _ _ _ erased_log_ok (ltac:(done) : aware demo_now) demo_run_ok) as Hr.
  cbv beta iota in Hr. destruct Hr as (_ & _ & row & metadata & released & H1 & H2 & _ & H3 & H4 & _).
  exists row, metadata. split; [exact H1|]. split; [exact H2|]. split; [exact H3|exact H4].
Defined.

Definition demo_prepared : string * (datetime * datetime) * bool * list audit_row * list pydict * string :=
  match prepare_export demo_log (Some "t1") demo_user demo_directory demo_export_now demo_export with
  | Ok p => p
  | Raise _ => ("", (demo_now, demo_now), false, [], [], "")
  end.
Lemma demo_prepared_ok : prepare_export demo_log (Some "t1") demo_user demo_directory demo_export_now demo_export = Ok demo_prepared.
Proof.
  unfold demo_prepared.
  assert (H : is_ok (prepare_export demo_log (Some "t1") demo_user demo_directory demo_export_now demo_export) = true)
    by (vm_compute; reflexivity).
  destruct (prepare_export _ _ _ _ _ _) as [x|e]; [done|discriminate H].
Qed.
Lemma demo_prepared_parts :
  exists range raw rows entries bundle, demo_prepared = ("t1", range, raw, rows, entries, bundle) /\ length rows = 3%nat /\
    forallb (fun r => (sql_instant (fst range) <=? sql_instant (au_timestamp r))%Z && (sql_instant (au_timestamp r) <=? sql_instant (snd range))%Z)
      (tenant_rows "t1" (audit_logs demo_log)) = true.
Proof.
  destruct demo_prepared as [[[[[t rg] raw] rows] entries] bundle] eqn:E.
  assert (Hx : let '(t, rg, _, rows, _, _) := demo_prepared in t = "t1" /\ length rows = 3%nat /\
    forallb (fun r => (sql_instant (fst rg) <=? sql_instant (au_timestamp r))%Z && (sql_instant (au_timestamp r) <=? sql_instant (snd rg))%Z)
      (tenant_rows "t1" (audit_logs demo_log)) = true) by (vm_compute; split; [|split]; reflexivity).
  rewrite E in Hx. destruct Hx as (-> & Hl & Hf). exists rg, raw, rows, entries, bundle.
  split; [reflexivity|]. split; [exact Hl|exact Hf].
Qed.

Lemma full_export_verifies_witness :
  exists s' resp, export_audit_logs (Some "t1") demo_user demo_directory demo_export_now None demo_now demo_export demo_log = (s', Ok resp) /\
    xr_chain_verification resp = Some (ChainResult true 3 3 PNone [] []).
Proof.
  destruct demo_prepared_parts as (range & raw & rows & entries & bundle & Hp & Hl & Hf).
  pose proof (full_export_verifies demo_calls (Some "t1") demo_user demo_directory demo_export_now demo_now demo_export demo_prepared
                demo_aware (ltac:(done) : aware demo_now)) as Hw.
  cbv zeta in Hw. fold demo_log in Hw. specialize (Hw demo_prepared_ok). rewrite Hp in Hw.
  destruct Hw as (_ & s' & resp & H1 & _ & H2); [reflexivity|reflexivity|reflexivity| | |].
  - apply Forall_forall. intros r Hr. rewrite forallb_forall in Hf. specialize (Hf r (proj1 (list_elem_of_In _ _) Hr)).
    apply andb_true_iff in Hf as [H1 H2]. split; apply Z.leb_le; assumption.
  - intros ->. discriminate Hl.
  - exists s', resp. split; [exact H1|]. rewrite Hl in H2. exact H2.
Defined.
End Witnesses.
