(* ===== verification/Idempotency.v ===== *)
(** * Idempotent POST requests

    [services/shared/idempotency.py] with the parts of internal_caller.py and api_key_store.py that it
    calls.  The middleware reserves a key in Redis before it lets a request through, and replays the
    stored answer to a retry.  A request is handled by a program that waits for Redis and for the
    route between its steps: [prog] is the tree of what it asks and what it does with each answer, so
    that requests can be interleaved at these points.  Proved: one key executes once within its
    lifetime unless the route refused; a replay is the original answer; a fingerprint determines the
    request; no client-chosen tenant opens a cache. *)

From Stdlib Require Import ZArith Lia String Ascii.
From stdpp Require Import base list strings gmap.
From S2P Require Import Prelude PyStr PyVal Json JsonText JsonRead Sha256 Hmac Db Rules Relational.

Local Open Scope string_scope.

(** ** Requests *)

(** A tenant identifier found on the request state. *)
Inductive tenant_value := TenantUUID (s : string) | TenantText (s : string) | TenantOther.

(** Header names are in lower case, as the server delivers them.  [rq_stream_error] is what ends the
    body early: a timeout ([TimeoutError]) or a lost connection. *)
Record http_request := HttpRequest {
  rq_method : string;
  rq_url : string;
  rq_path : string;
  rq_headers : list (string * string);
  rq_chunks : list string;
  rq_stream_error : option exn;
  rq_principal_tenant : option tenant_value;
  rq_state_tenant : option tenant_value
}.

(** [request.headers.get(name)]. *)
Definition header (rq : http_request) (name : string) : option string :=
  snd <$> List.find (fun kv => String.eqb (fst kv) (lower name)) (rq_headers rq).
Definition header_or (rq : http_request) (name dflt : string) : string := default dflt (header rq name).
Definition has_header (rq : http_request) (name : string) : bool :=
  match header rq name with Some _ => true | None => false end.

(** What the route answers; reading the body can fail. *)
Record route_response := RouteResponse {
  rr_status : Z;
  rr_headers : list (string * string);
  rr_body : res string
}.

(** What the middleware answers: the route's response as it is, or one that it builds from a content,
    a status and headers. *)
Inductive content := CBytes (s : string) | CValue (v : pyval).
Inductive answer :=
| Routed (r : route_response)
| Built (c : content) (status : pyval) (headers : pyval) (media_type : option string).

(** The environment, and which arguments the constructor of [Response] refuses. *)
Class HttpEnv := {
  environ : string -> option string;
  response_error : content -> pyval -> pyval -> option exn
}.

(** ** API keys (api_key_store.py) *)

Record api_key_row := ApiKeyRow {
  ak_key_id : string;
  ak_key_hash : string;
  ak_tenant_id : option string;
  ak_enabled : bool;
  ak_expires_at : option datetime;
  ak_scopes : option (list string);
  ak_allowed_jurisdictions : option (list string);
  ak_revoked_at : option datetime
}.

(** The two tables, and the exceptions of the database: of any statement of the key lookup, and of the
    status lookup.  [kd_now] is the clock. *)
Record key_db := KeyDb {
  kd_keys : list api_key_row;
  kd_tenants : list (string * string);
  kd_fault : option exn;
  kd_status_fault : option exn;
  kd_now : datetime
}.

Definition IDEMPOTENCY_KEY_PREFIX : string := "idempotency:".
Definition IDEMPOTENCY_TTL_SECONDS : Z := 86400.
Definition _ANONYMOUS_TENANT : string := "_anonymous_".

Section Lookup.
Context `{PyLib} `{Runtime} `{HttpEnv}.

Definition _api_key_hash_pepper : option string :=
  match nonempty (environ "REGENGINE_API_KEY_HASH_PEPPER") with
  | Some v => Some v
  | None => nonempty (environ "API_KEY_HASH_PEPPER")
  end.
Definition legacy_hash_api_key (raw_key : string) : string := sha256_hex raw_key.
Definition hash_api_key (raw_key : string) : string :=
  match _api_key_hash_pepper with
  | None => legacy_hash_api_key raw_key
  | Some pepper => hmac_sha256_hex pepper raw_key
  end.
Definition api_key_hash_candidates (raw_key : string) : list string :=
  let current := hash_api_key raw_key in
  let legacy := legacy_hash_api_key raw_key in
  if String.eqb current legacy then [current] else [current; legacy].

(** [s.split(sep, 1)], when the separator occurs. *)
Fixpoint split_once (sep : ascii) (s : string) : option (string * string) :=
  match s with
  | "" => None
  | String c s' =>
      if Ascii.eqb c sep then Some ("", s')
      else match split_once sep s' with Some (a, b) => Some (String c a, b) | None => None end
  end.

Definition set_api_key_lookup_context (raw_key : string) : option (string * list string) :=
  if negb (startswith raw_key "rge_") then None
  else match split_once "." raw_key with
       | None => None
       | Some (key_id, secret) =>
           if String.eqb key_id "" || String.eqb secret "" then None
           else Some (key_id, api_key_hash_candidates raw_key)
       end.

(** [sorted(texts or [])]. *)
Definition sorted_texts (l : option (list string)) : pyval :=
  PList ((fun kv => PStr (fst kv)) <$> key_sort ((fun s => (s, tt)) <$> default [] l)).

Definition expired (expires_at : option datetime) (now : datetime) : res bool :=
  match expires_at with
  | None => Ok false
  | Some e =>
      let e := match dt_offset e with None => Datetime (dt_wall e) (Some 0%Z) | Some _ => e end in
      dt_lt e now
  end.

(** The row-level policy shows the row of the armed key id only. *)
Definition key_row (db : key_db) (key_id : string) (key_hashes : list string) : option api_key_row :=
  head (where_ (fun r => String.eqb (ak_key_id r) key_id && existsb (String.eqb (ak_key_hash r)) key_hashes) (kd_keys db)).

Definition tenant_status (db : key_db) (tenant_id : string) : res (option string) :=
  match kd_status_fault db with
  | Some e => Raise e
  | None => do tid <- cast_uuid tenant_id;
            Ok (snd <$> List.find (fun row => String.eqb (fst row) tid) (kd_tenants db))
  end.

(** The [try] block. *)
Definition api_key_context (db : key_db) (raw_api_key : string) : res (option (string * string)) :=
  match kd_fault db with
  | Some e => Raise e
  | None =>
      match set_api_key_lookup_context raw_api_key with
      | None => Ok None
      | Some (key_id, key_hashes) =>
          match key_row db key_id key_hashes with
          | None => Ok None
          | Some row =>
              if negb (ak_enabled row) then Ok None
              else match ak_revoked_at row with
                   | Some _ => Ok None
                   | None =>
                       do late <- expired (ak_expires_at row) (kd_now db);
                       if late then Ok None
                       else match nonempty (ak_tenant_id row) with
                            | None => Ok None
                            | Some tenant_id =>
                                match tenant_status db tenant_id with
                                | Raise _ => Ok None
                                | Ok status =>
                                    if negb (match status with Some s => String.eqb s "active" || String.eqb s "trial" | None => false end)
                                    then Ok None
                                    else
                                      do snapshot <- json_dumps opts_default
                                        (PList [PStr tenant_id; PStr (ak_key_id row); sorted_texts (ak_scopes row);
                                                sorted_texts (ak_allowed_jurisdictions row)]);
                                      Ok (Some (tenant_id, sha256_hex snapshot))
                                end
                            end
                   end
          end
      end
  end.

Definition _lookup_api_key_context (db : key_db) (raw_api_key : string) : option (string * string) :=
  match api_key_context db raw_api_key with Ok c => c | Raise _ => None end.

(** ** Internal callers (internal_caller.py) *)

Definition is_internal_caller (rq : http_request) : res bool :=
  match nonempty (environ "REGENGINE_INTERNAL_SECRET") with
  | None => Ok false
  | Some configured =>
      match nonempty (header rq "X-RegEngine-Internal-Secret") with
      | None => Ok false
      | Some presented => compare_digest presented configured
      end
  end.

Definition internal_tenant_id (rq : http_request) : res (option string) :=
  match nonempty (header rq "X-RegEngine-Tenant-ID") with
  | None => Ok None
  | Some tenant => do internal <- is_internal_caller rq; Ok (if internal then nonempty (Some (strip tenant)) else None)
  end.

(** ** The middleware *)

Definition _tenant_value_to_str (value : option tenant_value) : option string :=
  match value with
  | Some (TenantUUID s) => Some s
  | Some (TenantText s) => nonempty (Some (strip s))
  | _ => None
  end.

Definition _should_cache (method : string) : bool := String.eqb (upper method) "POST".

Definition _get_cache_key (idempotency_key : string) (tenant_id : option string) : string :=
  IDEMPOTENCY_KEY_PREFIX +:+ ostr_or tenant_id _ANONYMOUS_TENANT +:+ ":" +:+ idempotency_key.

(** The tenant, and the fingerprint of the key's authorization that is left on the request state. *)
Definition _resolve_tenant_id (db : key_db) (rq : http_request) : res (option string * string) :=
  match nonempty (header rq "X-RegEngine-API-Key") with
  | Some raw_api_key =>
      Ok (match _lookup_api_key_context db raw_api_key with
          | None => (None, "")
          | Some (tenant, authorization_fingerprint) => (Some tenant, authorization_fingerprint)
          end)
  | None =>
      match nonempty (_tenant_value_to_str (rq_principal_tenant rq)) with
      | Some tenant => Ok (Some tenant, "")
      | None =>
          match nonempty (_tenant_value_to_str (rq_state_tenant rq)) with
          | Some tenant => Ok (Some tenant, "")
          | None => do tenant <- internal_tenant_id rq; Ok (nonempty tenant, "")
          end
      end
  end.

(** The body, chunk by chunk; [got] is what has been read. *)
Fixpoint read_body (got : string) (chunks : list string) (stream_error : option exn) : res string :=
  match chunks with
  | [] => match stream_error with Some e => Raise e | None => Ok got end
  | chunk :: chunks' =>
      if (Z.of_nat (slen got) + Z.of_nat (slen chunk) >? 10 * 1024 * 1024)%Z
      then Raise (ValueError "idempotency request body exceeds 10 MB")
      else read_body (got +:+ chunk) chunks' stream_error
  end.

(** The texts of the request that the fingerprint binds, besides its body. *)
Definition fingerprint_parts (rq : http_request) (authorization_fingerprint : string) : list string :=
  ([upper (rq_method rq); rq_url rq; header_or rq "content-type" ""; header_or rq "authorization" "";
    header_or rq "x-regengine-api-key" ""; header_or rq "x-regengine-internal-secret" ""; header_or rq "cookie" "";
    authorization_fingerprint]
   ++ (if String.eqb (rstrip (Ascii.eqb "/") (rq_path rq)) "/api/v1/webhooks/ingest"
       then [header_or rq "x-webhook-signature" ""; sha256_hex (strip (default "" (environ "WEBHOOK_HMAC_SECRET")))]
       else []))%list.

Definition parts_text (parts : list string) : res string := json_dumps opts_default (PList (PStr <$> parts)).
Definition body_bytes (body : string) : list Z := (fun c => Z.of_nat (code c)) <$> list_ascii_of_string body.
Definition fingerprint_of (text body : string) : string := hex_words (sha256 (utf8 text ++ body_bytes body)%list).

Definition _request_fingerprint (rq : http_request) (authorization_fingerprint : string) : res string :=
  do text <- parts_text (fingerprint_parts rq authorization_fingerprint);
  do body <- read_body "" (rq_chunks rq) (rq_stream_error rq);
  Ok (fingerprint_of text body).

(** *** The program of a request *)

(** What a request waits for: Redis commands, each answered or failing, and the route.  A command that
    fails may have taken effect. *)
Inductive prog :=
| Ret (a : answer)
| Throw (e : exn)
| Get (key : string) (k : res (option string) -> prog)
| SetNx (key value : string) (ex : Z) (k : res bool -> prog)
| DelIfEq (key expected : string) (k : res unit -> prog)
| SetexIfEq (key expected : string) (ttl : Z) (value : string) (k : res unit -> prog)
| CallNext (k : res route_response -> prog).

(** [except ValueError] and the like. *)
Definition raised (name : string) (e : exn) : bool := String.eqb (exn_type e) name.

Definition ret_or_throw (r : res answer) : prog := match r with Ok a => Ret a | Raise e => Throw e end.

Definition _error (status : Z) (code : string) : prog :=
  ret_or_throw
    (do body <- json_dumps opts_default (PDict [("error", PStr code)]);
     Ok (Built (CValue (PStr body)) (PInt status) (PDict (if (status =? 503)%Z then [("Retry-After", PStr "30")] else []))
           (Some "application/json"))).

(** [return await call_next(request)]. *)
Definition pass_through : prog := CallNext (fun r => match r with Ok resp => Ret (Routed resp) | Raise e => Throw e end).

(** The bytes of a Redis value as text; only the characters of this library's strings are decoded. *)
Fixpoint utf8_decode (s : string) : res string :=
  match s with
  | "" => Ok ""
  | String c s' =>
      if (code c <? 128)%nat then do t <- utf8_decode s'; Ok (String c t)
      else match s' with
           | String d s'' =>
               if ((code c =? 194) || (code c =? 195))%nat && in_range 128 191 d
               then do t <- utf8_decode s''; Ok (String (char (64 * (code c - 194) + code d)) t)
               else Raise (Exn "UnicodeDecodeError" "invalid byte")
           | "" => Raise (Exn "UnicodeDecodeError" "unexpected end of data")
           end
  end.

Definition is_latin1 (v : pyval) : bool := py_eq v (PStr "latin1").

(** [cached["body"].encode("latin1")] or [cached["body"]]. *)
Definition cached_content (cached : pydict) : res content :=
  match dict_lookup "body" cached with
  | None => Raise (KeyError "'body'")
  | Some body =>
      if is_latin1 (dict_get cached "body_encoding" PNone)
      then do s <- as_str "encode" body; Ok (CBytes s)
      else Ok (CValue body)
  end.

(** [Response(content, status_code, headers)]. *)
Definition new_response (c : content) (status headers : pyval) : res answer :=
  match response_error c status headers with Some e => Raise e | None => Ok (Built c status headers None) end.

(** An entry under the key: a conflict, a request in progress, or a replay. *)
Definition from_cache (fingerprint cached_data : string) : res prog :=
  do text <- utf8_decode cached_data;
  do cached <- json_loads text;
  do bound <- py_get cached "fingerprint" PNone;
  if negb (py_eq bound (PStr fingerprint)) then Ok (_error 409 "idempotency_key_conflict")
  else match cached with
       | PDict d =>
           match dict_lookup "status" d with
           | None => Ok (_error 409 "idempotency_request_in_progress")
           | Some status =>
               do c <- cached_content d;
               do a <- new_response c status (dict_get d "headers" (PDict []));
               Ok (Ret a)
           end
       | _ => Raise (TypeError "argument is not iterable")
       end.

Definition closed : bool := String.eqb (lower (strip (default "degrade" (environ "IDEMPOTENCY_FAIL_MODE")))) "closed".

(** [except Exception] around the lookup. *)
Definition lookup_failed : prog := if closed then _error 503 "idempotency_backend_unavailable" else pass_through.
Definition or_failed (r : res prog) : prog := match r with Ok p => p | Raise _ => lookup_failed end.

(** [dict(response.headers)]: a repeated header keeps its first value. *)
Definition headers_dict (h : list (string * string)) : pydict :=
  fold_left (fun d kv => match dict_lookup (fst kv) d with Some _ => d | None => (d ++ [(fst kv, PStr (snd kv))])%list end) h [].

Definition reservation_value (fingerprint owner : string) : pyval :=
  PDict [("fingerprint", PStr fingerprint); ("owner", PStr owner)].
Definition payload_value (fingerprint : string) (status : Z) (body : string) (headers : pydict) : pyval :=
  PDict [("fingerprint", PStr fingerprint); ("status", PInt status); ("body", PStr body);
         ("body_encoding", PStr "latin1"); ("headers", PDict headers)].

Definition success (r : route_response) : bool := ((200 <=? rr_status r) && (rr_status r <? 300))%Z.

(** After the route has answered. *)
Definition release (cache_key reservation : string) (response : route_response) : prog :=
  DelIfEq cache_key reservation (fun _ => Ret (Routed response)).
Definition publish (cache_key reservation fingerprint : string) (response : route_response) : prog :=
  match rr_body response with
  | Raise e => Throw e
  | Ok body =>
      match json_dumps opts_default (payload_value fingerprint (rr_status response) body (headers_dict (rr_headers response))) with
      | Raise e => Throw e
      | Ok payload =>
          SetexIfEq cache_key reservation IDEMPOTENCY_TTL_SECONDS payload (fun _ =>
            ret_or_throw (new_response (CBytes body) (PInt (rr_status response)) (PDict (headers_dict (rr_headers response)))))
      end
  end.
Definition own (cache_key reservation fingerprint : string) : prog :=
  CallNext (fun r => match r with
                     | Raise e => Throw e
                     | Ok response => if success response then publish cache_key reservation fingerprint response
                                      else release cache_key reservation response
                     end).

(** The lookup and the reservation. *)
Definition second_look (cache_key fingerprint : string) : prog :=
  Get cache_key (fun r => match r with
    | Raise _ => lookup_failed
    | Ok None => _error 503 "idempotency_backend_unavailable"
    | Ok (Some cached_data) => or_failed (from_cache fingerprint cached_data)
    end).
Definition reserve (cache_key reservation fingerprint : string) : prog :=
  SetNx cache_key reservation IDEMPOTENCY_TTL_SECONDS (fun r => match r with
    | Raise _ => lookup_failed
    | Ok false => second_look cache_key fingerprint
    | Ok true => own cache_key reservation fingerprint
    end).
Definition look (cache_key reservation fingerprint : string) : prog :=
  Get cache_key (fun r => match r with
    | Raise _ => lookup_failed
    | Ok None => reserve cache_key reservation fingerprint
    | Ok (Some cached_data) => or_failed (from_cache fingerprint cached_data)
    end).

Definition auth_path (path : string) : bool :=
  String.eqb path "/auth" || startswith path "/auth/" || String.eqb path "/v1/auth" || startswith path "/v1/auth/".

(** The idempotency key of a request that may use the cache. *)
Definition cacheable (rq : http_request) : option string :=
  if negb (_should_cache (rq_method rq)) then None
  else if has_header rq "cookie" || has_header rq "authorization" || auth_path (rq_path rq) then None
  else match nonempty (header rq "Idempotency-Key") with
       | Some k => if (255 <? slen k)%nat then None else Some k
       | None => None
       end.

(** [client]: whether [_get_client] returned one; [owner]: [uuid4().hex]. *)
Definition dispatch (db : key_db) (client : bool) (owner : string) (rq : http_request) : prog :=
  match cacheable rq with
  | None => pass_through
  | Some idempotency_key =>
      match _resolve_tenant_id db rq with
      | Raise e => Throw e
      | Ok (None, _) => pass_through
      | Ok (Some tenant_id, authorization_fingerprint) =>
          if negb client then lookup_failed
          else match _request_fingerprint rq authorization_fingerprint with
               | Raise e => if raised "ValueError" e then _error 413 "payload_too_large"
                            else if raised "TimeoutError" e then _error 504 "request_timeout"
                            else Throw e
               | Ok fingerprint =>
                   let cache_key := _get_cache_key idempotency_key (Some tenant_id) in
                   match json_dumps opts_default (reservation_value fingerprint owner) with
                   | Raise e => Throw e
                   | Ok reservation => look cache_key reservation fingerprint
                   end
               end
      end
  end.

(** The client of a process: [_redis_available], and whether it holds one. *)
Record middleware := Middleware { _redis_available : option bool; _client : bool }.
Definition new_middleware : middleware := Middleware None false.

Definition _get_client (ping : res unit) (m : middleware) : middleware * bool :=
  match _redis_available m with
  | Some false => (m, false)
  | _ => if _client m then (m, true)
         else match ping with
              | Ok _ => (Middleware (Some true) true, true)
              | Raise _ => (Middleware (Some false) false, false)
              end
  end.

(** [IdempotencyDependency.__call__]. *)
Definition idempotency_dependency (strict : bool) (rq : http_request) : res (option string) :=
  if negb (String.eqb (upper (rq_method rq)) "POST") then Ok None
  else match nonempty (header rq "Idempotency-Key") with
       | None => if strict then Raise (Exn "HTTPException" "400: Idempotency-Key header is required for POST requests") else Ok None
       | Some k => if (255 <? slen k)%nat then Raise (Exn "HTTPException" "400: Idempotency-Key must be 255 characters or less")
                   else Ok (Some k)
       end.
End Lookup.

(** ** Redis, one request at a time *)

(** A key holds a text until a time. *)
Notation redis := (gmap string (string * Z)).

Definition live (now : Z) (m : redis) (key : string) : option string :=
  match m !! key with Some (v, until) => if (now <? until)%Z then Some v else None | None => None end.

(** [SET key value NX EX ttl], and the two scripts. *)
Definition redis_setnx (now : Z) (m : redis) (key value : string) (ttl : Z) : redis * bool :=
  match live now m key with Some _ => (m, false) | None => (<[key := (value, (now + ttl)%Z)]> m, true) end.
Definition holds (now : Z) (m : redis) (key expected : string) : bool :=
  match live now m key with Some v => String.eqb v expected | None => false end.
Definition redis_del_if (now : Z) (m : redis) (key expected : string) : redis :=
  if holds now m key expected then delete key m else m.
Definition redis_setex_if (now : Z) (m : redis) (key expected : string) (ttl : Z) (value : string) : redis :=
  if holds now m key expected then <[key := (value, (now + ttl)%Z)]> m else m.

(** A request that nothing disturbs: its answer, the store, and how often the route ran. *)
Fixpoint run (now : Z) (route : res route_response) (p : prog) (m : redis) : res answer * redis * nat :=
  match p with
  | Ret a => (Ok a, m, 0%nat)
  | Throw e => (Raise e, m, 0%nat)
  | Get key k => run now route (k (Ok (live now m key))) m
  | SetNx key value ttl k => let '(m', set) := redis_setnx now m key value ttl in run now route (k (Ok set)) m'
  | DelIfEq key expected k => run now route (k (Ok tt)) (redis_del_if now m key expected)
  | SetexIfEq key expected ttl value k => run now route (k (Ok tt)) (redis_setex_if now m key expected ttl value)
  | CallNext k => let '(a, m', n) := run now route (k route) m in (a, m', S n)
  end.

(** ** What is stored *)

Section Stored.
Context `{PyLib} `{Runtime} `{HttpEnv}.

Lemma dumps_total v : json_plain v -> exists s, json_dumps opts_default v = Ok s.
Proof.
  induction v as [|b|z|f|x|d|l IH|d IH] using pyval_nested_ind; intros Hp; first [by destruct Hp|by eexists|idtac].
  - rewrite dumps_list_eq. apply plain_list in Hp.
    enough (exists xs, rmapM (json_dumps opts_default) l = Ok xs) as [xs ->] by by eexists.
    induction IH as [|x l Hx _ IHl]; [by eexists|]. apply Forall_cons in Hp as [Hpx Hp].
    destruct (Hx Hpx) as [s Hs], (IHl Hp) as [xs Hxs]. cbn [rmapM]. rewrite Hs, Hxs. by eexists.
  - rewrite (dumps_dict_eq opts_default eq_refl). apply plain_dict in Hp as [_ Hp].
    enough (exists xs, rmapM (dump_item opts_default) d = Ok xs) as [xs ->] by by eexists.
    induction IH as [|[k x] d Hx _ IHd]; [by eexists|]. apply Forall_cons in Hp as [Hpx Hp].
    destruct (Hx Hpx) as [s Hs], (IHd Hp) as [xs Hxs]. cbn [rmapM]. unfold dump_item at 1. cbn [fst snd] in *.
    rewrite Hs, Hxs. by eexists.
Qed.

Lemma dumps_plain_inj v v' s : json_plain v -> json_plain v' ->
  json_dumps opts_default v = Ok s -> json_dumps opts_default v' = Ok s -> v = v'.
Proof.
  intros Hv Hv' E E'. pose proof (json_loads_default v s Hv E) as L. rewrite (json_loads_default v' s Hv' E') in L.
  by injection L.
Qed.

Lemma utf8_decode_ascii s : is_ascii s = true -> utf8_decode s = Ok s.
Proof.
  unfold is_ascii. induction s as [|c s IH]; [done|]. cbn [str_forallb utf8_decode]. intros [-> Hs]%andb_true_iff.
  by rewrite IH.
Qed.

Lemma plain_texts (d : pydict) : NoDup (fst <$> d) -> Forall (fun kv => json_plain (snd kv)) d -> json_plain (PDict d).
Proof.
  intros Hn Hd. cbn [json_plain]. split; [exact Hn|]. clear Hn. induction Hd as [|kv d Hkv _ IH]; [done|]. by split.
Qed.

Lemma dict_lookup_none_iff k (d : pydict) : dict_lookup k d = None <-> k ∉ fst <$> d.
Proof.
  induction d as [|[k' v] d IH]; cbn [dict_lookup]; [split; [intros _; apply not_elem_of_nil|done]|].
  rewrite fmap_cons, not_elem_of_cons. cbn [fst]. destruct (String.eqb_spec k k') as [->|Hne]; [split; [done|by intros [? _]]|].
  rewrite IH. naive_solver.
Qed.

Lemma headers_dict_plain h : json_plain (PDict (headers_dict h)).
Proof.
  unfold headers_dict. enough (Hd : forall d : pydict, NoDup (fst <$> d) -> Forall (fun kv => json_plain (snd kv)) d ->
    json_plain (PDict (fold_left (fun d kv => match dict_lookup (fst kv) d with Some _ => d | None => (d ++ [(fst kv, PStr (snd kv))])%list end) h d)))
    by (apply Hd; constructor).
  induction h as [|[k v] h IH]; intros d Hn Hf; [by apply plain_texts|]. cbn [fold_left fst snd].
  destruct (dict_lookup k d) eqn:E; [by apply IH|]. apply dict_lookup_none_iff in E. apply IH.
  - rewrite fmap_app. apply NoDup_app. split; [done|]. split; [|by apply NoDup_singleton].
    intros x Hx. cbn. rewrite list_elem_of_singleton. by intros ->.
  - apply Forall_app. split; [done|]. by repeat constructor.
Qed.

Lemma reservation_plain fp owner : json_plain (reservation_value fp owner).
Proof. unfold reservation_value. apply plain_texts; [by apply (bool_decide_unpack _)|by repeat constructor]. Qed.

Lemma payload_plain fp status body h : json_plain (payload_value fp status body (headers_dict h)).
Proof.
  unfold payload_value. apply plain_texts; [by apply (bool_decide_unpack _)|].
  repeat (apply Forall_cons; split; [cbn [snd]; first [apply headers_dict_plain|done]|]). constructor.
Qed.

Definition is_reservation (v : string) : Prop := exists fp owner, json_dumps opts_default (reservation_value fp owner) = Ok v.
Definition is_payload (v : string) : Prop :=
  exists fp status body h, json_dumps opts_default (payload_value fp status body (headers_dict h)) = Ok v.

Lemma payload_not_reservation v : is_payload v -> is_reservation v -> False.
Proof.
  intros (fp & st & b & h & E) (fp' & o & E').
  pose proof (dumps_plain_inj _ _ _ (payload_plain fp st b h) (reservation_plain fp' o) E E') as D. discriminate D.
Qed.

Lemma reservation_owner fp owner fp' owner' v :
  json_dumps opts_default (reservation_value fp owner) = Ok v -> json_dumps opts_default (reservation_value fp' owner') = Ok v ->
  fp = fp' /\ owner = owner'.
Proof. intros E E'. pose proof (dumps_plain_inj _ _ _ (reservation_plain _ _) (reservation_plain _ _) E E') as D. by injection D. Qed.

(** ** The cache of one key *)

(** The cache key and the fingerprint of a request that reaches the cache. *)
Definition binding (db : key_db) (rq : http_request) : option (string * string) :=
  match cacheable rq with
  | None => None
  | Some idempotency_key =>
      match _resolve_tenant_id db rq with
      | Ok (Some tenant_id, authorization_fingerprint) =>
          match _request_fingerprint rq authorization_fingerprint with
          | Ok fingerprint => Some (_get_cache_key idempotency_key (Some tenant_id), fingerprint)
          | Raise _ => None
          end
      | _ => None
      end
  end.

Lemma dispatch_binding db owner rq key fp : binding db rq = Some (key, fp) ->
  exists reservation, json_dumps opts_default (reservation_value fp owner) = Ok reservation /\
    dispatch db true owner rq = look key reservation fp.
Proof.
  unfold binding, dispatch. destruct (cacheable rq) as [k|]; [|done].
  destruct (_resolve_tenant_id db rq) as [[[t|] a]|]; [|done|done]. cbn [negb].
  destruct (_request_fingerprint rq a) as [fp'|e]; [|done]. intros [= <- <-].
  destruct (dumps_total (reservation_value fp' owner) (reservation_plain _ _)) as [r E]. exists r. by rewrite E.
Qed.

Lemma from_cache_dumps v s fp : json_plain v -> json_dumps opts_default v = Ok s ->
  from_cache fp s = do bound <- py_get v "fingerprint" PNone;
    if negb (py_eq bound (PStr fp)) then Ok (_error 409 "idempotency_key_conflict")
    else match v with
         | PDict d =>
             match dict_lookup "status" d with
             | None => Ok (_error 409 "idempotency_request_in_progress")
             | Some status => do c <- cached_content d; do a <- new_response c status (dict_get d "headers" (PDict [])); Ok (Ret a)
             end
         | _ => Raise (TypeError "argument is not iterable")
         end.
Proof.
  intros Hp E. unfold from_cache. rewrite utf8_decode_ascii by by eapply json_dumps_ascii. cbn [rbind].
  by rewrite (json_loads_default v s Hp E).
Qed.

Lemma from_cache_payload fp fp' status body h s :
  json_dumps opts_default (payload_value fp' status body (headers_dict h)) = Ok s ->
  from_cache fp s = if String.eqb fp' fp
    then do a <- new_response (CBytes body) (PInt status) (PDict (headers_dict h)); Ok (Ret a)
    else Ok (_error 409 "idempotency_key_conflict").
Proof.
  intros E. rewrite (from_cache_dumps _ _ _ (payload_plain _ _ _ _) E). unfold payload_value.
  change (py_get _ _ _) with (Ok (PStr fp')). cbn [rbind]. change (py_eq _ _) with (String.eqb fp' fp).
  by destruct (String.eqb fp' fp).
Qed.

Lemma from_cache_reservation fp fp' owner s :
  json_dumps opts_default (reservation_value fp' owner) = Ok s ->
  from_cache fp s = Ok (if String.eqb fp' fp then _error 409 "idempotency_request_in_progress" else _error 409 "idempotency_key_conflict").
Proof.
  intros E. rewrite (from_cache_dumps _ _ _ (reservation_plain _ _) E). unfold reservation_value.
  change (py_get _ _ _) with (Ok (PStr fp')). cbn [rbind]. change (py_eq _ _) with (String.eqb fp' fp).
  by destruct (String.eqb fp' fp).
Qed.

Lemma error_run now route status code m : exists a, run now route (_error status code) m = (Ok a, m, 0%nat).
Proof. unfold _error. destruct (dumps_total (PDict [("error", PStr code)])) as [s ->]; [|by eexists]. cbn. split; [apply NoDup_singleton|done]. Qed.

(** The answer with an error of the middleware. *)
Definition error_answer (status : Z) (code : string) : answer :=
  match _error status code with Ret a => a | _ => Built (CValue PNone) PNone PNone None end.

Lemma error_ret status code : _error status code = Ret (error_answer status code).
Proof.
  unfold error_answer, _error. destruct (dumps_total (PDict [("error", PStr code)])) as [s ->]; [|done].
  cbn. split; [apply NoDup_singleton|done].
Qed.

Lemma run_owned now now_end key res fp resp body m :
  json_dumps opts_default (reservation_value fp now_end) = Ok res -> live now m key = None ->
  success resp = true -> rr_body resp = Ok body ->
  exists payload, json_dumps opts_default (payload_value fp (rr_status resp) body (headers_dict (rr_headers resp))) = Ok payload /\
    run now (Ok resp) (look key res fp) m
    = (new_response (CBytes body) (PInt (rr_status resp)) (PDict (headers_dict (rr_headers resp))),
       <[key := (payload, (now + IDEMPOTENCY_TTL_SECONDS)%Z)]> m, 1%nat).
Proof.
  intros _ Hl Hs Hb. destruct (dumps_total _ (payload_plain fp (rr_status resp) body (rr_headers resp))) as [payload E].
  exists payload. split; [exact E|]. unfold look, reserve, own, publish. cbn [run]. rewrite Hl. cbn [run]. unfold redis_setnx. rewrite Hl.
  cbn [run]. rewrite Hs. unfold publish. rewrite Hb, E. cbn [run]. unfold redis_setex_if, holds, live. rewrite lookup_insert_eq.
  rewrite (proj2 (Z.ltb_lt _ _)) by (unfold IDEMPOTENCY_TTL_SECONDS; lia). rewrite String.eqb_refl, insert_insert_eq.
  unfold new_response. by destruct (response_error _ _ _).
Qed.

(** C36. The first request under a free key runs the route; when that answers with a success, a status
    in the 200s, whose body can be read and whose response can be built, the answer is stored.  As long
    as that entry is kept, within its lifetime and overwritten or deleted by nobody, every later request
    of the cache key is answered without running the route: with the same answer, byte for byte, when it
    is the same operation, and with a conflict otherwise.  (Another answer of the route is not stored
    but releases the key: nothing is claimed of it here.) *)
Theorem replay_is_original db rq owner now m key fp resp body :
  binding db rq = Some (key, fp) -> live now m key = None ->
  success resp = true -> rr_body resp = Ok body ->
  response_error (CBytes body) (PInt (rr_status resp)) (PDict (headers_dict (rr_headers resp))) = None ->
  let original := Built (CBytes body) (PInt (rr_status resp)) (PDict (headers_dict (rr_headers resp))) None in
  exists stored, run now (Ok resp) (dispatch db true owner rq) m = (Ok original, <[key := stored]> m, 1%nat) /\
    forall db' rq' owner' fp' now' m' route, binding db' rq' = Some (key, fp') -> (now' < now + IDEMPOTENCY_TTL_SECONDS)%Z ->
      m' !! key = Some stored ->
      run now' route (dispatch db' true owner' rq') m'
      = (Ok (if String.eqb fp fp' then original else error_answer 409 "idempotency_key_conflict"), m', 0%nat).
Proof.
  intros Hb Hl Hs Hbody Herr original. destruct (dispatch_binding db owner rq key fp Hb) as (res & Eres & ->).
  destruct (run_owned now owner key res fp resp body m Eres Hl Hs Hbody) as (payload & Ep & ->).
  unfold new_response. rewrite Herr. eexists. split; [done|].
  intros db' rq' owner' fp' now' m' route Hb' Hnow Hm. destruct (dispatch_binding db' owner' rq' key fp' Hb') as (res' & Eres' & ->).
  unfold look. cbn [run]. unfold live. rewrite Hm, (proj2 (Z.ltb_lt _ _)) by done.
  rewrite (from_cache_payload _ _ _ _ _ _ Ep). unfold new_response. rewrite Herr.
  destruct (String.eqb fp fp'); cbn [rbind or_failed]; [done|]. by rewrite error_ret.
Qed.

(** *** The fingerprint *)

Lemma utf8_ascii s : is_ascii s = true -> utf8 s = body_bytes s.
Proof.
  unfold is_ascii, body_bytes. induction s as [|c s IH]; [done|]. cbn [str_forallb utf8 list_ascii_of_string].
  intros [Hc Hs]%andb_true_iff. rewrite IH by done. apply Nat.ltb_lt in Hc. by rewrite (proj2 (Z.ltb_lt _ _)) by lia.
Qed.

Lemma body_bytes_app a b : body_bytes (a +:+ b) = (body_bytes a ++ body_bytes b)%list.
Proof. unfold body_bytes. induction a as [|c a IH]; [done|]. cbn. by rewrite IH. Qed.

Lemma body_bytes_inj a b : body_bytes a = body_bytes b -> a = b.
Proof.
  unfold body_bytes, code. revert b. induction a as [|c a IH]; intros [|d b]; cbn; try done. intros [= Ec E].
  rewrite (IH b E). f_equal. rewrite <- (ascii_nat_embedding c), <- (ascii_nat_embedding d). f_equal. lia.
Qed.

Lemma parts_text_items parts text body : parts_text parts = Ok text ->
  text +:+ body = String "[" (items opts_default "]" (json_string <$> parts) body).
Proof.
  unfold parts_text. rewrite dumps_list_eq. intros (xs & Hxs & E)%rbind_Ok_inv. apply Ok_inv in E as <-.
  assert (Hx : xs = json_string <$> parts).
  { apply rmapM_Forall2 in Hxs. clear -Hxs. revert xs Hxs. induction parts as [|p parts IH]; intros xs Hxs.
    - by apply Forall2_nil_inv_l in Hxs.
    - apply Forall2_cons_inv_l in Hxs as (y & ys & Hy & Hys & ->). apply Ok_inv in Hy as <-. cbn. by rewrite (IH ys). }
  rewrite <- join_items, Hx, !str_append_assoc. reflexivity.
Qed.

(** The text of the parts ends where it closes. *)
Lemma parts_text_inj p1 p2 t1 t2 b1 b2 :
  parts_text p1 = Ok t1 -> parts_text p2 = Ok t2 -> t1 +:+ b1 = t2 +:+ b2 -> p1 = p2 /\ b1 = b2.
Proof.
  intros E1 E2 F. rewrite (parts_text_items _ _ b1 E1), (parts_text_items _ _ b2 E2) in F. injection F as F.
  rewrite !fmap_map in F. eapply (items_inj opts_default (ltac:(by eexists)) json_string (fun _ => True)); [..|exact F].
  - by left.
  - by intros x _ x' r r' _ _ _ ?%json_string_inj.
  - intros x r _ [?|[?|?]]; done.
  - by apply Forall_true.
  - by apply Forall_true.
Qed.

Lemma parts_text_total parts : exists text, parts_text parts = Ok text /\ is_ascii text = true.
Proof.
  destruct (dumps_total (PList (PStr <$> parts))) as [text E].
  - induction parts; [done|]. by split.
  - exists text. split; [exact E|]. by eapply json_dumps_ascii.
Qed.

(** What the fingerprint is the digest of. *)
Definition signed_bytes (rq : http_request) (authorization_fingerprint : string) : res (list Z) :=
  do text <- parts_text (fingerprint_parts rq authorization_fingerprint);
  do body <- read_body "" (rq_chunks rq) (rq_stream_error rq);
  Ok (utf8 text ++ body_bytes body)%list.

Lemma read_body_ok got chunks e body : read_body got chunks e = Ok body -> e = None /\ body = got +:+ str_join "" chunks.
Proof.
  revert got. induction chunks as [|c chunks IH]; intros got; cbn [read_body].
  - destruct e; [done|]. intros E. apply Ok_inv in E as <-. cbn [str_join]. by rewrite str_append_nil_r.
  - destruct (_ >? _)%Z; [done|]. intros [-> ->]%IH. split; [done|]. rewrite str_append_assoc. f_equal.
    destruct chunks; [|done]. cbn. by rewrite str_append_nil_r.
Qed.

(** The fingerprint binds the request: if two requests have one fingerprint and SHA-256 does not
    collide on what they sign, they have the same method, URL, content type, credentials,
    authorization snapshot and body. *)
Theorem fingerprint_binds_request rq1 rq2 auth1 auth2 fp b1 b2 :
  _request_fingerprint rq1 auth1 = Ok fp -> _request_fingerprint rq2 auth2 = Ok fp ->
  signed_bytes rq1 auth1 = Ok b1 -> signed_bytes rq2 auth2 = Ok b2 ->
  (hex_words (sha256 b1) = hex_words (sha256 b2) -> b1 = b2) ->
  upper (rq_method rq1) = upper (rq_method rq2) /\ rq_url rq1 = rq_url rq2 /\
  (forall name, name ∈ ["content-type"; "authorization"; "x-regengine-api-key"; "x-regengine-internal-secret"; "cookie"] ->
     header_or rq1 name "" = header_or rq2 name "") /\
  auth1 = auth2 /\ str_join "" (rq_chunks rq1) = str_join "" (rq_chunks rq2).
Proof.
  unfold _request_fingerprint, signed_bytes.
  destruct (parts_text_total (fingerprint_parts rq1 auth1)) as (t1 & E1 & A1).
  destruct (parts_text_total (fingerprint_parts rq2 auth2)) as (t2 & E2 & A2). rewrite E1, E2. cbn [rbind].
  destruct (read_body "" (rq_chunks rq1) _) as [body1|e] eqn:R1; [|done].
  destruct (read_body "" (rq_chunks rq2) _) as [body2|e] eqn:R2; [|done]. cbn [rbind].
  intros F1 F2 B1 B2 Hinj. apply Ok_inv in F1, F2, B1, B2. subst b1 b2. unfold fingerprint_of in F1, F2. rewrite <- F2 in F1. apply Hinj in F1.
  rewrite !utf8_ascii, <- !body_bytes_app in F1 by done. apply body_bytes_inj in F1.
  destruct (parts_text_inj _ _ _ _ _ _ E1 E2 F1) as [Hparts Hbody].
  apply read_body_ok in R1 as [_ ->]. apply read_body_ok in R2 as [_ ->]. unfold fingerprint_parts in Hparts. cbn [app] in Hparts.
  injection Hparts as Hm Hu Hc Ha Hk Hi Hck Hau _.
  split; [exact Hm|]. split; [exact Hu|]. split; [|by split].
  intros name Hn. repeat (apply elem_of_cons in Hn as [->|Hn]; [done|]). by apply not_elem_of_nil in Hn.
Qed.

(** *** Whose cache a request opens *)

(** A row of the table is a live key for the credential, owned by an active tenant. *)
Definition live_key (db : key_db) (raw_api_key tenant : string) (row : api_key_row) : Prop :=
  row ∈ kd_keys db /\ ak_key_hash row ∈ api_key_hash_candidates raw_api_key /\ ak_enabled row = true /\
  ak_revoked_at row = None /\ expired (ak_expires_at row) (kd_now db) = Ok false /\ ak_tenant_id row = Some tenant /\
  exists status, tenant_status db tenant = Ok (Some status) /\ status ∈ ["active"; "trial"].

(** What entitles a request to the cache of a tenant. *)
Inductive authority (db : key_db) (rq : http_request) (tenant : string) : Prop :=
| by_api_key raw row : header rq "X-RegEngine-API-Key" = Some raw -> live_key db raw tenant row -> authority db rq tenant
| by_principal : _tenant_value_to_str (rq_principal_tenant rq) = Some tenant -> authority db rq tenant
| by_state : _tenant_value_to_str (rq_state_tenant rq) = Some tenant -> authority db rq tenant
| by_secret secret : secret <> "" -> environ "REGENGINE_INTERNAL_SECRET" = Some secret ->
    header rq "X-RegEngine-Internal-Secret" = Some secret -> authority db rq tenant.

Lemma lookup_live db raw tenant a : _lookup_api_key_context db raw = Some (tenant, a) -> exists row, live_key db raw tenant row.
Proof.
  unfold _lookup_api_key_context, api_key_context. destruct (kd_fault db); [done|].
  unfold set_api_key_lookup_context. destruct (negb (startswith raw "rge_")); [done|].
  destruct (split_once "." raw) as [[kid secret]|]; [|done]. destruct (_ || _); [done|].
  destruct (key_row db kid _) as [row|] eqn:Er; [|done].
  destruct (ak_enabled row) eqn:En; [|done]. destruct (ak_revoked_at row) eqn:Ev; [done|].
  destruct (expired _ _) as [[]|] eqn:Ex; [done| |done]. cbn [rbind negb].
  destruct (nonempty (ak_tenant_id row)) as [t|] eqn:Et; [|done]. apply nonempty_Some in Et as [Et _].
  destruct (tenant_status db t) as [status|] eqn:Es; [|done].
  destruct status as [status|]; cbn [negb]; [|done]. destruct (String.eqb status "active" || String.eqb status "trial") eqn:Ha; [|done].
  cbn [negb]. destruct (json_dumps _ _); [|done]. intros [= <- _]. exists row.
  unfold key_row in Er. apply head_Some_elem_of, elem_of_where in Er as [Hin Hr].
  apply andb_true_iff in Hr as [_ Hh]. apply existsb_In_eqb, list_elem_of_In in Hh.
  split; [exact Hin|]. split; [exact Hh|]. split; [exact En|]. split; [exact Ev|]. split; [exact Ex|]. split; [exact Et|].
  exists status. split; [exact Es|]. apply orb_true_iff in Ha as [->%String.eqb_eq| ->%String.eqb_eq]; [left|right; left].
Qed.

(** A request reaches the cache of a tenant only on the strength of a live API key of an active
    tenant, of the authenticated principal or request state, or of the internal secret; a presented
    API key that is not live is never replaced by another source, and no header that a client may set
    names the tenant. *)
Theorem cache_needs_authority db rq key fp :
  binding db rq = Some (key, fp) ->
  exists k tenant, cacheable rq = Some k /\ key = _get_cache_key k (Some tenant) /\ authority db rq tenant /\
    (forall raw, header rq "X-RegEngine-API-Key" = Some raw -> raw <> "" -> exists row, live_key db raw tenant row).
Proof.
  unfold binding. destruct (cacheable rq) as [k|]; [|done].
  destruct (_resolve_tenant_id db rq) as [[[tenant|] a]|] eqn:Er; [|done|done].
  destruct (_request_fingerprint rq a); [|done]. intros [= <- <-]. exists k, tenant. split; [done|]. split; [done|].
  unfold _resolve_tenant_id in Er. destruct (nonempty (header rq "X-RegEngine-API-Key")) as [raw|] eqn:Ek.
  - apply nonempty_Some in Ek as [Ek _]. destruct (_lookup_api_key_context db raw) as [[t a']|] eqn:El; [|done].
    injection Er as <- <-. destruct (lookup_live _ _ _ _ El) as [row Hrow]. split; [by eapply by_api_key|].
    intros raw' E _. rewrite Ek in E. injection E as <-. by exists row.
  - split; [|intros raw E Hne; rewrite E in Ek; cbn in Ek; by rewrite (proj2 (String.eqb_neq raw "")) in Ek by done].
    destruct (nonempty (_tenant_value_to_str (rq_principal_tenant rq))) as [t|] eqn:Ep.
    { apply nonempty_Some in Ep as [Ep _]. injection Er as <- _. by apply by_principal. }
    destruct (nonempty (_tenant_value_to_str (rq_state_tenant rq))) as [t|] eqn:Es.
    { apply nonempty_Some in Es as [Es _]. injection Er as <- _. by apply by_state. }
    apply rbind_Ok_inv in Er as (o & Ei & Er). injection Er as Er _. unfold internal_tenant_id in Ei.
    destruct (nonempty (header rq "X-RegEngine-Tenant-ID")) as [th|]; [|injection Ei as <-; discriminate Er].
    apply rbind_Ok_inv in Ei as (int & Hint & Ei). apply Ok_inv in Ei. subst o. destruct int; [|discriminate Er].
    unfold is_internal_caller in Hint. destruct (nonempty (environ _)) as [conf|] eqn:Ec; [|discriminate Hint].
    destruct (nonempty (header rq "X-RegEngine-Internal-Secret")) as [pres|] eqn:Epr; [|discriminate Hint].
    apply nonempty_Some in Ec as [Ec Hne]. apply nonempty_Some in Epr as [Epr _]. unfold compare_digest in Hint.
    destruct (_ && _); [|discriminate Hint]. apply Ok_inv, String.eqb_eq in Hint. subst pres. by eapply by_secret.
Qed.
End Stored.

(** ** Requests that interleave

    A pool of requests against one Redis.  A step is one command, the start or the end of a route, the
    loss of a request (a crash or a cancelled connection), a new request, or the passing of time.  A
    command that fails may have taken effect or not.  Next to the state the world keeps the history
    that the property is about: the reservations that took effect, the routes that were started, and
    the reservations whose route answered outside 2xx. *)

(** A request that reached the cache: its key, its reservation and its fingerprint. *)
Record ticket := Ticket { tk_key : string; tk_token : string; tk_fingerprint : string }.
Record thread := Thread { th_ticket : option ticket; th_prog : prog; th_called : bool }.
Record reservation := Reservation { rv_ticket : ticket; rv_at : Z }.

Record world := World {
  w_redis : redis;
  w_now : Z;
  w_pool : gmap nat thread;
  w_owners : list string;
  w_reserved : list reservation;
  w_started : list ticket;
  w_refused : list string
}.

Section Pool.
Context {PL : PyLib} {RT : Runtime} {HE : HttpEnv}.

(** The ticket that [dispatch] takes. *)
Definition ticket_of (db : key_db) (client : bool) (owner : string) (rq : http_request) : option ticket :=
  if client then
    match binding db rq with
    | None => None
    | Some (key, fp) =>
        match json_dumps opts_default (reservation_value fp owner) with
        | Ok token => Some (Ticket key token fp)
        | Raise _ => None
        end
    end
  else None.

Definition set_thread (w : world) (i : nat) (t : thread) : world :=
  World (w_redis w) (w_now w) (<[i := t]> (w_pool w)) (w_owners w) (w_reserved w) (w_started w) (w_refused w).
Definition goto (w : world) (i : nat) (t : thread) (p : prog) : world := set_thread w i (Thread (th_ticket t) p (th_called t)).
Definition set_redis (w : world) (m : redis) : world :=
  World m (w_now w) (w_pool w) (w_owners w) (w_reserved w) (w_started w) (w_refused w).

(** The effect of a reservation, with its record. *)
Definition reserve_effect (w : world) (t : thread) (key value : string) (ttl : Z) : world :=
  let '(m, set) := redis_setnx (w_now w) (w_redis w) key value ttl in
  World m (w_now w) (w_pool w) (w_owners w)
    (match th_ticket t with
     | Some tk => if set then (w_reserved w ++ [Reservation tk (w_now w)])%list else w_reserved w
     | None => w_reserved w
     end) (w_started w) (w_refused w).

Definition refusal (t : thread) (r : res route_response) : list string :=
  match th_ticket t, r with
  | Some tk, Ok response => if success response then [] else [tk_token tk]
  | _, _ => []
  end.

(** [w.call i t started]: the route of request [i] begins. *)
Definition start_call (w : world) (i : nat) (t : thread) (k : res route_response -> prog) : world :=
  World (w_redis w) (w_now w) (<[i := Thread (th_ticket t) (CallNext k) true]> (w_pool w)) (w_owners w) (w_reserved w)
    (match th_ticket t with Some tk => (w_started w ++ [tk])%list | None => w_started w end) (w_refused w).
Definition end_call (w : world) (i : nat) (t : thread) (p : prog) (r : res route_response) : world :=
  World (w_redis w) (w_now w) (<[i := Thread (th_ticket t) p (th_called t)]> (w_pool w)) (w_owners w) (w_reserved w)
    (w_started w) (refusal t r ++ w_refused w)%list.

Inductive wstep (w : world) : world -> Prop :=
| ws_new i db client owner rq : w_pool w !! i = None -> owner ∉ w_owners w ->
    wstep w (World (w_redis w) (w_now w) (<[i := Thread (ticket_of db client owner rq) (dispatch db client owner rq) false]> (w_pool w))
               (owner :: w_owners w) (w_reserved w) (w_started w) (w_refused w))
| ws_get i t key k : w_pool w !! i = Some t -> th_prog t = Get key k ->
    wstep w (goto w i t (k (Ok (live (w_now w) (w_redis w) key))))
| ws_get_fails i t key k e : w_pool w !! i = Some t -> th_prog t = Get key k -> wstep w (goto w i t (k (Raise e)))
| ws_set i t key value ttl k : w_pool w !! i = Some t -> th_prog t = SetNx key value ttl k ->
    wstep w (goto (reserve_effect w t key value ttl) i t (k (Ok (snd (redis_setnx (w_now w) (w_redis w) key value ttl)))))
| ws_set_lost i t key value ttl k e : w_pool w !! i = Some t -> th_prog t = SetNx key value ttl k ->
    wstep w (goto (reserve_effect w t key value ttl) i t (k (Raise e)))
| ws_set_fails i t key value ttl k e : w_pool w !! i = Some t -> th_prog t = SetNx key value ttl k ->
    wstep w (goto w i t (k (Raise e)))
| ws_del i t key expected k r : w_pool w !! i = Some t -> th_prog t = DelIfEq key expected k ->
    wstep w (goto (set_redis w (redis_del_if (w_now w) (w_redis w) key expected)) i t (k r))
| ws_del_fails i t key expected k e : w_pool w !! i = Some t -> th_prog t = DelIfEq key expected k -> wstep w (goto w i t (k (Raise e)))
| ws_setex i t key expected ttl value k r : w_pool w !! i = Some t -> th_prog t = SetexIfEq key expected ttl value k ->
    wstep w (goto (set_redis w (redis_setex_if (w_now w) (w_redis w) key expected ttl value)) i t (k r))
| ws_setex_fails i t key expected ttl value k e : w_pool w !! i = Some t -> th_prog t = SetexIfEq key expected ttl value k ->
    wstep w (goto w i t (k (Raise e)))
| ws_call i t k : w_pool w !! i = Some t -> th_prog t = CallNext k -> th_called t = false -> wstep w (start_call w i t k)
| ws_return i t k r : w_pool w !! i = Some t -> th_prog t = CallNext k -> th_called t = true -> wstep w (end_call w i t (k r) r)
| ws_crash i : wstep w (World (w_redis w) (w_now w) (delete i (w_pool w)) (w_owners w) (w_reserved w) (w_started w) (w_refused w))
| ws_tick now : (w_now w <= now)%Z ->
    wstep w (World (w_redis w) now (w_pool w) (w_owners w) (w_reserved w) (w_started w) (w_refused w)).

Definition empty_world (now : Z) : world := World ∅ now ∅ [] [] [] [].
Inductive wreachable : world -> Prop :=
| wr_empty now : wreachable (empty_world now)
| wr_step w w' : wreachable w -> wstep w w' -> wreachable w'.

(** *** The stages of a request *)

(** A barred request will not run the route any more. *)
Inductive stage := Before | Owning | Releasing | Publishing | Barred.

(** The program of a request with a ticket, by stage. *)
Inductive at_stage (tk : ticket) : stage -> prog -> Prop :=
| at_look : at_stage tk Before (look (tk_key tk) (tk_token tk) (tk_fingerprint tk))
| at_reserve : at_stage tk Before (reserve (tk_key tk) (tk_token tk) (tk_fingerprint tk))
| at_second : at_stage tk Barred (second_look (tk_key tk) (tk_fingerprint tk))
| at_own : at_stage tk Owning (own (tk_key tk) (tk_token tk) (tk_fingerprint tk))
| at_release response : at_stage tk Releasing (release (tk_key tk) (tk_token tk) response)
| at_publish payload k : is_payload payload -> (forall r, (exists a, k r = Ret a) \/ exists e, k r = Throw e) ->
    at_stage tk Publishing (SetexIfEq (tk_key tk) (tk_token tk) IDEMPOTENCY_TTL_SECONDS payload k)
| at_ret a : at_stage tk Barred (Ret a)
| at_throw e : at_stage tk Barred (Throw e).

(** A request without a ticket never talks to Redis. *)
Inductive off_cache : prog -> Prop :=
| off_ret a : off_cache (Ret a)
| off_throw e : off_cache (Throw e)
| off_pass : off_cache pass_through.

Hypothesis fail_closed : closed = true.

Lemma lookup_failed_closed : lookup_failed = Ret (error_answer 503 "idempotency_backend_unavailable").
Proof. unfold lookup_failed. by rewrite fail_closed, error_ret. Qed.

Lemma from_cache_finishes fp s : exists a, or_failed (from_cache fp s) = Ret a.
Proof.
  enough (Hp : forall p, from_cache fp s = Ok p -> exists a, p = Ret a).
  { destruct (from_cache fp s) as [p|e]; cbn [or_failed]; [by apply Hp|]. rewrite lookup_failed_closed. by eexists. }
  unfold from_cache. intros p E. apply rbind_Ok_inv in E as (text & _ & E). apply rbind_Ok_inv in E as (c & _ & E).
  apply rbind_Ok_inv in E as (b & _ & E). destruct (negb _); [apply Ok_inv in E; subst p; rewrite error_ret; by eexists|].
  destruct c as [| | | | | | |d]; try discriminate E. destruct (dict_lookup "status" d); [|apply Ok_inv in E; subst p; rewrite error_ret; by eexists].
  apply rbind_Ok_inv in E as (c & _ & E). apply rbind_Ok_inv in E as (a & _ & E). apply Ok_inv in E. subst p. by eexists.
Qed.

Lemma dispatch_stage db client owner rq :
  match ticket_of db client owner rq with
  | Some tk => at_stage tk Before (dispatch db client owner rq)
  | None => off_cache (dispatch db client owner rq)
  end.
Proof.
  unfold ticket_of. destruct client.
  - destruct (binding db rq) as [[key fp]|] eqn:Eb.
    + destruct (dispatch_binding db owner rq key fp Eb) as (token & -> & ->). apply (at_look (Ticket key token fp)).
    + unfold binding in Eb. unfold dispatch. destruct (cacheable rq); [|constructor].
      destruct (_resolve_tenant_id db rq) as [[[t|] a]|]; [|constructor|constructor]. cbn [negb].
      destruct (_request_fingerprint rq a) as [fp|e]; [discriminate Eb|]. rewrite !error_ret. repeat destruct (raised _ _); constructor.
  - unfold dispatch. destruct (cacheable rq); [|constructor].
    destruct (_resolve_tenant_id db rq) as [[[t|] a]|]; [|constructor|constructor]. cbn [negb]. rewrite lookup_failed_closed. constructor.
Qed.

(** *** The invariant *)

Definition tokens (l : list reservation) : list string := (fun r => tk_token (rv_ticket r)) <$> l.

Definition stage_ok (w : world) (tk : ticket) (called : bool) (s : stage) : Prop :=
  match s with
  | Before => tk_token tk ∉ tokens (w_reserved w)
  | Owning => (exists t, Reservation tk t ∈ w_reserved w) /\ (called = false -> tk_token tk ∉ tk_token <$> w_started w)
  | Releasing => tk_token tk ∈ w_refused w
  | Publishing | Barred => True
  end.

Definition thread_ok (w : world) (t : thread) : Prop :=
  match th_ticket t with
  | None => off_cache (th_prog t)
  | Some tk => exists s, at_stage tk s (th_prog t) /\ stage_ok w tk (th_called t) s
  end.

Definition issued (w : world) (token : string) : Prop :=
  exists fp owner, owner ∈ w_owners w /\ json_dumps opts_default (reservation_value fp owner) = Ok token.

Record world_ok (w : world) : Prop := {
  wo_threads : forall i t, w_pool w !! i = Some t -> thread_ok w t;
  wo_issued : forall i t tk, w_pool w !! i = Some t -> th_ticket t = Some tk -> issued w (tk_token tk);
  wo_distinct : forall i j t u tk uk, w_pool w !! i = Some t -> w_pool w !! j = Some u -> i <> j ->
    th_ticket t = Some tk -> th_ticket u = Some uk -> tk_token tk <> tk_token uk;
  wo_reserved : forall r, r ∈ w_reserved w -> issued w (tk_token (rv_ticket r)) /\ (rv_at r <= w_now w)%Z;
  wo_held : forall r, r ∈ w_reserved w -> tk_token (rv_ticket r) ∉ w_refused w -> (w_now w < rv_at r + IDEMPOTENCY_TTL_SECONDS)%Z ->
    exists v until, w_redis w !! tk_key (rv_ticket r) = Some (v, until) /\ (rv_at r + IDEMPOTENCY_TTL_SECONDS <= until)%Z /\
      (v = tk_token (rv_ticket r) \/ is_payload v);
  wo_order : forall i j r r', w_reserved w !! i = Some r -> w_reserved w !! j = Some r' -> (i < j)%nat ->
    tk_key (rv_ticket r) = tk_key (rv_ticket r') ->
    (rv_at r + IDEMPOTENCY_TTL_SECONDS <= rv_at r')%Z \/ tk_token (rv_ticket r) ∈ w_refused w;
  wo_started : NoDup (tk_token <$> w_started w) /\ forall tk, tk ∈ w_started w -> exists t, Reservation tk t ∈ w_reserved w
}.

Lemma empty_world_ok now : world_ok (empty_world now).
Proof.
  split; cbn; try done.
  - by intros r ?%not_elem_of_nil.
  - by intros r ?%not_elem_of_nil.
  - split; [constructor|]. by intros tk ?%not_elem_of_nil.
Qed.

(** Replacing one thread. *)
Lemma set_thread_ok w i t t' :
  world_ok w -> w_pool w !! i = Some t -> th_ticket t' = th_ticket t -> thread_ok w t' -> world_ok (set_thread w i t').
Proof.
  intros Hw Hi Ht Hok. destruct Hw as [H1 H2 H3 H4 H5 H6 H7]. split; cbn; try done.
  - intros j u Hj. destruct (decide (i = j)) as [<-|Hne]; [|rewrite lookup_insert_ne in Hj by done; by apply (H1 j)].
    rewrite lookup_insert_eq in Hj. by injection Hj as <-.
  - intros j u uk Hj. destruct (decide (i = j)) as [<-|Hne]; [|rewrite lookup_insert_ne in Hj by done; by apply (H2 j)].
    rewrite lookup_insert_eq in Hj. injection Hj as <-. rewrite Ht. by apply (H2 i).
  - intros j k u v uk vk Hj Hk Hjk Eu Ev.
    assert (Hold : forall j u, <[i := t']> (w_pool w) !! j = Some u -> exists u0, w_pool w !! j = Some u0 /\ th_ticket u0 = th_ticket u).
    { intros j' u' Hj'. destruct (decide (i = j')) as [<-|Hne]; [|rewrite lookup_insert_ne in Hj' by done; by exists u'].
      rewrite lookup_insert_eq in Hj'. injection Hj' as <-. by exists t. }
    destruct (Hold j u Hj) as (u0 & Hu0 & E1), (Hold k v Hk) as (v0 & Hv0 & E2). apply (H3 j k u0 v0); congruence.
Qed.

(** Changing the store and the history around the threads. *)
Lemma goto_ok w i t p :
  world_ok w -> w_pool w !! i = Some t -> thread_ok w (Thread (th_ticket t) p (th_called t)) -> world_ok (goto w i t p).
Proof. intros Hw Hi Hok. by apply (set_thread_ok w i t). Qed.

(** The keys that are held may change as long as they stay held. *)
Lemma set_redis_ok w m : world_ok w ->
  (forall r v until, r ∈ w_reserved w -> tk_token (rv_ticket r) ∉ w_refused w -> (w_now w < rv_at r + IDEMPOTENCY_TTL_SECONDS)%Z ->
     w_redis w !! tk_key (rv_ticket r) = Some (v, until) -> (rv_at r + IDEMPOTENCY_TTL_SECONDS <= until)%Z ->
     v = tk_token (rv_ticket r) \/ is_payload v ->
     exists v' until', m !! tk_key (rv_ticket r) = Some (v', until') /\ (rv_at r + IDEMPOTENCY_TTL_SECONDS <= until')%Z /\
       (v' = tk_token (rv_ticket r) \/ is_payload v')) ->
  world_ok (set_redis w m).
Proof.
  intros [H1 H2 H3 H4 H5 H6 H7] Hm. split; try done. cbn. intros r Hr Hf Ht.
  destruct (H5 r Hr Hf Ht) as (v & u & Hv & Hu & Ho). by apply (Hm r v u).
Qed.

Lemma del_ok w tk : world_ok w -> tk_token tk ∈ w_refused w -> issued w (tk_token tk) ->
  world_ok (set_redis w (redis_del_if (w_now w) (w_redis w) (tk_key tk) (tk_token tk))).
Proof.
  intros Hw Href (fp & owner & _ & Hiss). apply set_redis_ok; [done|]. intros r v u Hr Hf Ht Hv Hu Ho. exists v, u. split; [|done].
  unfold redis_del_if. destruct (holds _ _ _ _) eqn:Eh; [|done]. destruct (decide (tk_key tk = tk_key (rv_ticket r))) as [Ek|Hne];
    [|by rewrite lookup_delete_ne]. exfalso. unfold holds, live in Eh. rewrite Ek, Hv, (proj2 (Z.ltb_lt _ _)) in Eh by lia.
  apply String.eqb_eq in Eh. destruct Ho as [Ho|Ho]; [congruence|].
  apply (payload_not_reservation v Ho). rewrite Eh. by exists fp, owner.
Qed.

Lemma setex_ok w tk payload : world_ok w -> is_payload payload ->
  world_ok (set_redis w (redis_setex_if (w_now w) (w_redis w) (tk_key tk) (tk_token tk) IDEMPOTENCY_TTL_SECONDS payload)).
Proof.
  intros Hw Hp. apply set_redis_ok; [done|]. intros r v u Hr Hf Ht Hv Hu Ho. unfold redis_setex_if.
  destruct (holds _ _ _ _); [|by exists v, u]. destruct (decide (tk_key tk = tk_key (rv_ticket r))) as [Ek|Hne];
    [|rewrite lookup_insert_ne by done; by exists v, u].
  rewrite Ek, lookup_insert_eq. eexists _, _. split; [done|]. split; [|by right].
  destruct (wo_reserved w Hw r Hr). lia.
Qed.

Lemma started_reserved w tk : world_ok w -> tk_token tk ∈ tk_token <$> w_started w -> tk_token tk ∈ tokens (w_reserved w).
Proof.
  intros Hw (tk' & E & Hin)%list_elem_of_fmap_1. destruct (proj2 (wo_started w Hw) tk' Hin) as [t Ht].
  rewrite E. by apply (list_elem_of_fmap_2 (fun r => tk_token (rv_ticket r)) _ _ Ht).
Qed.

(** Threads of other requests keep their stage when the history grows by this one's. *)
Lemma thread_ok_grows w w' i j t u tk :
  world_ok w -> w_pool w !! i = Some t -> w_pool w !! j = Some u -> i <> j -> th_ticket t = Some tk ->
  (forall r, r ∈ w_reserved w' -> r ∈ w_reserved w \/ rv_ticket r = tk) -> (forall r, r ∈ w_reserved w -> r ∈ w_reserved w') ->
  (forall x, x ∈ w_started w' -> x ∈ w_started w \/ x = tk) -> (forall x, x ∈ w_refused w -> x ∈ w_refused w') ->
  thread_ok w' u.
Proof.
  intros Hw Hi Hj Hne Et Hr Hr' Hs Hf. pose proof (wo_threads w Hw j u Hj) as Hu. unfold thread_ok in *.
  destruct (th_ticket u) as [uk|] eqn:Eu; [|done]. destruct Hu as (s & Hst & Hok). exists s. split; [done|].
  assert (Hd : tk_token uk <> tk_token tk) by (intros E; by apply (wo_distinct w Hw i j t u tk uk)).
  destruct s; cbn in *; try done.
  - intros (r & E & Hin)%list_elem_of_fmap_1. destruct (Hr r Hin) as [Hold|Hnew]; [|congruence].
    apply Hok. rewrite E. by apply (list_elem_of_fmap_2 (fun r => tk_token (rv_ticket r)) _ _ Hold).
  - destruct Hok as [[x Hx] Hns]. split; [exists x; by apply Hr'|]. intros Hc (k & E & Hin)%list_elem_of_fmap_1.
    destruct (Hs k Hin) as [Hold| ->]; [|done]. apply (Hns Hc). rewrite E. by apply list_elem_of_fmap_2.
  - by apply Hf.
Qed.

Lemma reserve_ok w i t tk p :
  world_ok w -> w_pool w !! i = Some t -> th_ticket t = Some tk -> tk_token tk ∉ tokens (w_reserved w) ->
  live (w_now w) (w_redis w) (tk_key tk) = None ->
  (p = own (tk_key tk) (tk_token tk) (tk_fingerprint tk) \/ exists a, p = Ret a) ->
  world_ok (goto (reserve_effect w t (tk_key tk) (tk_token tk) IDEMPOTENCY_TTL_SECONDS) i t p).
Proof.
  intros Hw Hi Et Hfresh Hl Hp. unfold reserve_effect, redis_setnx. rewrite Hl, Et.
  set (r0 := Reservation tk (w_now w)).
  set (w' := World (<[tk_key tk := (tk_token tk, (w_now w + IDEMPOTENCY_TTL_SECONDS)%Z)]> (w_redis w)) (w_now w) (w_pool w) (w_owners w)
               (w_reserved w ++ [r0]) (w_started w) (w_refused w)).
  assert (Hfree : forall r, r ∈ w_reserved w -> tk_key (rv_ticket r) = tk_key tk -> tk_token (rv_ticket r) ∉ w_refused w ->
                  (rv_at r + IDEMPOTENCY_TTL_SECONDS <= w_now w)%Z).
  { intros r Hr Ek Hf. destruct (Z.le_gt_cases (rv_at r + IDEMPOTENCY_TTL_SECONDS) (w_now w)) as [|Hlt]; [done|].
    destruct (wo_held w Hw r Hr Hf Hlt) as (v & u & Hv & Hu & _). unfold live in Hl. rewrite <- Ek, Hv, (proj2 (Z.ltb_lt _ _)) in Hl by lia. done. }
  assert (Hin : forall r, r ∈ w_reserved w' <-> r ∈ w_reserved w \/ r = r0) by (intros r; cbn; rewrite elem_of_app, list_elem_of_singleton; done).
  unfold goto, set_thread. cbn [w_redis w_now w_pool w_owners w_reserved w_started w_refused w']. split; cbn.
  - intros j u Hj. destruct (decide (i = j)) as [<-|Hne].
    + rewrite lookup_insert_eq in Hj. injection Hj as <-. unfold thread_ok. cbn. rewrite Et.
      destruct Hp as [->|[a ->]]; [exists Owning|exists Barred]; (split; [constructor|]); [|done]. cbn. split.
      * exists (w_now w). apply elem_of_app. right. by apply list_elem_of_singleton.
      * intros _ Hs. by apply Hfresh, (started_reserved w).
    + rewrite lookup_insert_ne in Hj by done. apply (thread_ok_grows w _ i j t u tk); try done; cbn.
      * intros r Hr. apply elem_of_app in Hr as [Hr| ->%list_elem_of_singleton]; [by left|by right].
      * intros r Hr. apply elem_of_app. by left.
      * intros x Hx. by left.
  - intros j u uk Hj Eu. destruct (decide (i = j)) as [<-|Hne]; [|rewrite lookup_insert_ne in Hj by done; by apply (wo_issued w Hw j u)].
    rewrite lookup_insert_eq in Hj. injection Hj as <-. by apply (wo_issued w Hw i t).
  - intros j k u v uk vk Hj Hk Hjk Eu Ev.
    assert (Hold : forall j u uk, <[i := Thread (Some tk) p (th_called t)]> (w_pool w) !! j = Some u -> th_ticket u = Some uk ->
              exists u0, w_pool w !! j = Some u0 /\ th_ticket u0 = Some uk).
    { intros j' u' uk' Hj' Eu'. destruct (decide (i = j')) as [<-|Hne]; [|rewrite lookup_insert_ne in Hj' by done; by exists u'].
      rewrite lookup_insert_eq in Hj'. injection Hj' as <-. exists t. split; [done|]. by rewrite Et. }
    rewrite Et in Hj, Hk.
    destruct (Hold j u uk Hj Eu) as (u0 & Hu0 & E1), (Hold k v vk Hk Ev) as (v0 & Hv0 & E2). by apply (wo_distinct w Hw j k u0 v0).
  - intros r [Hr| ->]%Hin; [by apply (wo_reserved w Hw)|]. cbn. split; [by apply (wo_issued w Hw i t)|lia].
  - intros r [Hr| ->]%Hin Hf Ht.
    + destruct (wo_held w Hw r Hr Hf Ht) as (v & u & Hv & Hu & Ho).
      destruct (decide (tk_key tk = tk_key (rv_ticket r))) as [Ek|Hne]; [|exists v, u; by rewrite lookup_insert_ne].
      pose proof (Hfree r Hr (eq_sym Ek) Hf). lia.
    + exists (tk_token tk), (w_now w + IDEMPOTENCY_TTL_SECONDS)%Z. cbn. rewrite lookup_insert_eq. split; [done|]. split; [lia|by left].
  - intros a b r r' Ha Hb Hab Ek. apply lookup_app_Some in Ha as [Ha|[Hla Ha]].
    + apply lookup_app_Some in Hb as [Hb|[Hlb Hb]]; [by apply (wo_order w Hw a b)|].
      apply list_lookup_singleton_Some in Hb as [_ <-]. cbn in Ek |- *.
      destruct (decide (tk_token (rv_ticket r) ∈ w_refused w)) as [|Hf]; [by right|left].
      apply Hfree; [by eapply list_elem_of_lookup_2|done|done].
    + apply list_lookup_singleton_Some in Ha as [Ha _]. apply lookup_lt_Some in Hb. rewrite length_app in Hb. cbn in Hb. lia.
  - split; [by apply (wo_started w Hw)|]. intros x Hx. destruct (proj2 (wo_started w Hw) x Hx) as [tt0 Ht]. exists tt0. apply elem_of_app. by left.
Qed.

Lemma reserve_effect_taken w t key value ttl v : live (w_now w) (w_redis w) key = Some v -> reserve_effect w t key value ttl = w.
Proof. intros Hl. unfold reserve_effect, redis_setnx. rewrite Hl. destruct w; cbn. by destruct (th_ticket t). Qed.

Ltac stage_case H := let p := fresh "p" in let E := fresh "E" in
  match type of H with at_stage _ _ ?q => remember q as p eqn:E; destruct H; try discriminate E end.

Lemma stage_call tk s k : at_stage tk s (CallNext k) -> s = Owning /\ CallNext k = own (tk_key tk) (tk_token tk) (tk_fingerprint tk).
Proof. intros Hs. by stage_case Hs. Qed.

Lemma stage_get tk s key k : at_stage tk s (Get key k) ->
  (s = Before /\ Get key k = look (tk_key tk) (tk_token tk) (tk_fingerprint tk)) \/
  (s = Barred /\ Get key k = second_look (tk_key tk) (tk_fingerprint tk)).
Proof. intros Hs. stage_case Hs; auto. Qed.

Lemma stage_set tk s key value ttl k : at_stage tk s (SetNx key value ttl k) ->
  s = Before /\ SetNx key value ttl k = reserve (tk_key tk) (tk_token tk) (tk_fingerprint tk).
Proof. intros Hs. by stage_case Hs. Qed.

Lemma stage_del tk s key expected k : at_stage tk s (DelIfEq key expected k) ->
  s = Releasing /\ exists response, DelIfEq key expected k = release (tk_key tk) (tk_token tk) response.
Proof. intros Hs. stage_case Hs. eauto. Qed.

Lemma stage_setex tk s key expected ttl value k : at_stage tk s (SetexIfEq key expected ttl value k) ->
  s = Publishing /\ key = tk_key tk /\ expected = tk_token tk /\ ttl = IDEMPOTENCY_TTL_SECONDS /\ is_payload value /\
  forall r, (exists a, k r = Ret a) \/ exists e, k r = Throw e.
Proof. intros Hs. stage_case Hs. injection E as -> -> -> -> ->. done. Qed.

(** A thread that stops. *)
Lemma barred_ok w tk t p : th_ticket t = Some tk -> (exists a, p = Ret a) \/ (exists e, p = Throw e) ->
  thread_ok w (Thread (th_ticket t) p (th_called t)).
Proof. intros Et Hp. unfold thread_ok. cbn. rewrite Et. exists Barred. destruct Hp as [[a ->]|[e ->]]; (split; [constructor|done]). Qed.

Lemma return_stage tk r :
  let p := match r with
           | Raise e => Throw e
           | Ok response => if success response then publish (tk_key tk) (tk_token tk) (tk_fingerprint tk) response
                            else release (tk_key tk) (tk_token tk) response
           end in
  match r with
  | Ok response => if success response then at_stage tk Publishing p \/ at_stage tk Barred p else at_stage tk Releasing p
  | Raise _ => at_stage tk Barred p
  end.
Proof.
  destruct r as [response|e]; [|constructor]. cbv zeta. destruct (success response); [|constructor].
  unfold publish. destruct (rr_body response) as [body|e]; [|right; constructor].
  destruct (dumps_total _ (payload_plain (tk_fingerprint tk) (rr_status response) body (rr_headers response))) as [payload E].
  rewrite E. left. constructor; [by exists (tk_fingerprint tk), (rr_status response), body, (rr_headers response)|].
  intros _. unfold ret_or_throw. destruct (new_response _ _ _); [left|right]; by eexists.
Qed.

Lemma call_ok w i t k : world_ok w -> w_pool w !! i = Some t -> th_prog t = CallNext k -> th_called t = false -> world_ok (start_call w i t k).
Proof.
  intros Hw Hi Ep Ec. unfold start_call. pose proof (wo_threads w Hw i t Hi) as Ht. unfold thread_ok in Ht. rewrite Ep in Ht.
  destruct (th_ticket t) as [tk|] eqn:Et.
  - destruct Ht as (s & Hst & Hok). destruct (stage_call tk s k Hst) as [-> _]. destruct Hok as [Hres Hns]. specialize (Hns Ec).
    pose (w' := World (w_redis w) (w_now w) (w_pool w) (w_owners w) (w_reserved w) (w_started w ++ [tk])%list (w_refused w)).
    assert (Hokw : world_ok (set_thread w i (Thread (Some tk) (CallNext k) true))).
    { apply (set_thread_ok w i t); [done|done|by rewrite Et|]. exists Owning. split; [done|]. by split. }
    destruct Hokw as [I1 I2 I3 I4 I5 I6 I7]. split; try done; cbn in *.
    + intros j u Hj. destruct (decide (i = j)) as [<-|Hne].
      * rewrite lookup_insert_eq in Hj. injection Hj as <-. exists Owning. split; [done|]. by split.
      * rewrite lookup_insert_ne in Hj by done. apply (thread_ok_grows w _ i j t u tk); try done; cbn.
        -- intros r Hr. by left.
        -- intros x Hx. apply elem_of_app in Hx as [Hx| ->%list_elem_of_singleton]; [by left|by right].
    + destruct I7 as [I7 I8]. split.
      * rewrite fmap_app. apply NoDup_app. split; [done|]. split; [|apply NoDup_singleton].
        intros x Hx ->%list_elem_of_singleton. done.
      * intros x Hx. apply elem_of_app in Hx as [Hx| ->%list_elem_of_singleton]; [by apply I8|done].
  - apply (set_thread_ok w i t); [done|done|by rewrite Et|]. unfold thread_ok. cbn. done.
Qed.

Lemma refuse_ok w l : world_ok w -> world_ok (World (w_redis w) (w_now w) (w_pool w) (w_owners w) (w_reserved w) (w_started w) (l ++ w_refused w)).
Proof.
  intros [I1 I2 I3 I4 I5 I6 I7]. split; try done; cbn.
  - intros i t Hi. specialize (I1 i t Hi). unfold thread_ok in *. destruct (th_ticket t) as [tk|]; [|done].
    destruct I1 as (s & Hs & Hok). exists s. split; [done|]. destruct s; cbn in *; try done. apply elem_of_app. by right.
  - intros r Hr Hf. apply I5; [done|]. intros Hx. apply Hf. apply elem_of_app. by right.
  - intros i j r r' Hi Hj Hij Hk. destruct (I6 i j r r' Hi Hj Hij Hk) as [|Hx]; [by left|right]. apply elem_of_app. by right.
Qed.

Lemma return_ok w i t k r : world_ok w -> w_pool w !! i = Some t -> th_prog t = CallNext k -> world_ok (end_call w i t (k r) r).
Proof.
  intros Hw Hi Ep. unfold end_call. pose proof (wo_threads w Hw i t Hi) as Ht. unfold thread_ok in Ht. rewrite Ep in Ht.
  pose proof (refuse_ok w (refusal t r) Hw) as Hr.
  apply (set_thread_ok (World (w_redis w) (w_now w) (w_pool w) (w_owners w) (w_reserved w) (w_started w) (refusal t r ++ w_refused w)) i t); [done|done|done|].
  unfold thread_ok, refusal. cbn. destruct (th_ticket t) as [tk|] eqn:Et.
  - destruct Ht as (s & Hst & Hok). destruct (stage_call tk s k Hst) as [-> E]. unfold own in E. injection E as ->.
    pose proof (return_stage tk r) as Hret. cbv zeta in Hret. destruct r as [response|e].
    + destruct (success response).
      * destruct Hret as [Hret|Hret]; [by exists Publishing|by exists Barred].
      * exists Releasing. split; [done|]. cbn. left.
    + by exists Barred.
  - inversion Ht as [| |Hk]. destruct r; constructor.
Qed.

(** What Redis commands make of a thread with a ticket. *)
Lemma get_ok w i t key k reply : world_ok w -> w_pool w !! i = Some t -> th_prog t = Get key k -> world_ok (goto w i t (k reply)).
Proof.
  intros Hw Hi Ep. apply goto_ok; [done|done|]. pose proof (wo_threads w Hw i t Hi) as Ht. unfold thread_ok in Ht. rewrite Ep in Ht.
  destruct (th_ticket t) as [tk|] eqn:Et; [|by inversion Ht]. destruct Ht as (s & Hst & Hok).
  destruct (stage_get tk s key k Hst) as [[-> E]|[-> E]].
  - unfold look in E. injection E as -> ->. destruct reply as [[d|]|e].
    + destruct (from_cache_finishes (tk_fingerprint tk) d) as [a ->]. rewrite <- Et. apply (barred_ok w tk); [done|]. left. by eexists.
    + unfold thread_ok. cbn. exists Before. split; [constructor|done].
    + rewrite lookup_failed_closed, <- Et. apply (barred_ok w tk); [done|]. left. by eexists.
  - unfold second_look in E. injection E as -> ->. rewrite <- Et. apply (barred_ok w tk); [done|]. left. destruct reply as [[d|]|e].
    + apply from_cache_finishes.
    + rewrite error_ret. by eexists.
    + rewrite lookup_failed_closed. by eexists.
Qed.

Lemma set_thread_at w i t key value ttl k : world_ok w -> w_pool w !! i = Some t -> th_prog t = SetNx key value ttl k ->
  exists tk, th_ticket t = Some tk /\ key = tk_key tk /\ value = tk_token tk /\ ttl = IDEMPOTENCY_TTL_SECONDS /\
    tk_token tk ∉ tokens (w_reserved w) /\
    (forall e, exists a, k (Raise e) = Ret a) /\ k (Ok true) = own (tk_key tk) (tk_token tk) (tk_fingerprint tk) /\
    k (Ok false) = second_look (tk_key tk) (tk_fingerprint tk).
Proof.
  intros Hw Hi Ep. pose proof (wo_threads w Hw i t Hi) as Ht. unfold thread_ok in Ht. rewrite Ep in Ht.
  destruct (th_ticket t) as [tk|] eqn:Et; [|by inversion Ht]. destruct Ht as (s & Hst & Hok).
  destruct (stage_set tk s key value ttl k Hst) as [-> E]. unfold reserve in E. injection E as -> -> -> ->.
  exists tk. repeat (split; [done|]). split; [|done]. intros e. rewrite lookup_failed_closed. by eexists.
Qed.

Lemma set_ok w i t key value ttl k : world_ok w -> w_pool w !! i = Some t -> th_prog t = SetNx key value ttl k ->
  world_ok (goto (reserve_effect w t key value ttl) i t (k (Ok (snd (redis_setnx (w_now w) (w_redis w) key value ttl))))).
Proof.
  intros Hw Hi Ep. destruct (set_thread_at w i t key value ttl k Hw Hi Ep) as (tk & Et & -> & -> & -> & Hf & _ & Kt & Kf).
  destruct (live (w_now w) (w_redis w) (tk_key tk)) as [v|] eqn:El.
  - rewrite (reserve_effect_taken _ _ _ _ _ v El). unfold redis_setnx. rewrite El. cbn [snd]. rewrite Kf.
    apply goto_ok; [done|done|]. unfold thread_ok. cbn. rewrite Et. exists Barred. split; [constructor|done].
  - unfold redis_setnx at 1. rewrite El. cbn [snd]. rewrite Kt. apply reserve_ok; try done. by left.
Qed.

Lemma set_lost_ok w i t key value ttl k e : world_ok w -> w_pool w !! i = Some t -> th_prog t = SetNx key value ttl k ->
  world_ok (goto (reserve_effect w t key value ttl) i t (k (Raise e))) /\ world_ok (goto w i t (k (Raise e))).
Proof.
  intros Hw Hi Ep. destruct (set_thread_at w i t key value ttl k Hw Hi Ep) as (tk & Et & -> & -> & -> & Hf & Kr & _ & _).
  destruct (Kr e) as [a ->]. assert (Hg : world_ok (goto w i t (Ret a))).
  { apply goto_ok; [done|done|]. apply (barred_ok w tk); [done|]. left. by eexists. }
  split; [|done]. destruct (live (w_now w) (w_redis w) (tk_key tk)) as [v|] eqn:El.
  - by rewrite (reserve_effect_taken _ _ _ _ _ v El).
  - apply reserve_ok; try done. right. by eexists.
Qed.

Lemma del_step_ok w i t key expected k r : world_ok w -> w_pool w !! i = Some t -> th_prog t = DelIfEq key expected k ->
  world_ok (goto (set_redis w (redis_del_if (w_now w) (w_redis w) key expected)) i t (k r)) /\ world_ok (goto w i t (k r)).
Proof.
  intros Hw Hi Ep. pose proof (wo_threads w Hw i t Hi) as Ht. unfold thread_ok in Ht. rewrite Ep in Ht.
  destruct (th_ticket t) as [tk|] eqn:Et; [|by inversion Ht]. destruct Ht as (s & Hst & Hok).
  destruct (stage_del tk s key expected k Hst) as (-> & response & E). unfold release in E. injection E as -> -> ->.
  split; (apply goto_ok; [|done|apply (barred_ok _ tk); [done|]; left; by eexists]); [|done].
  apply del_ok; [done|done|]. by apply (wo_issued w Hw i t).
Qed.

Lemma setex_step_ok w i t key expected ttl value k r : world_ok w -> w_pool w !! i = Some t -> th_prog t = SetexIfEq key expected ttl value k ->
  world_ok (goto (set_redis w (redis_setex_if (w_now w) (w_redis w) key expected ttl value)) i t (k r)) /\ world_ok (goto w i t (k r)).
Proof.
  intros Hw Hi Ep. pose proof (wo_threads w Hw i t Hi) as Ht. unfold thread_ok in Ht. rewrite Ep in Ht.
  destruct (th_ticket t) as [tk|] eqn:Et; [|by inversion Ht]. destruct Ht as (s & Hst & Hok).
  destruct (stage_setex tk s key expected ttl value k Hst) as (-> & -> & -> & -> & Hpay & Hk).
  split; (apply goto_ok; [|done|by apply (barred_ok _ tk)]); [|done]. by apply setex_ok.
Qed.

Lemma new_ok w i db client owner rq : world_ok w -> w_pool w !! i = None -> owner ∉ w_owners w ->
  world_ok (World (w_redis w) (w_now w) (<[i := Thread (ticket_of db client owner rq) (dispatch db client owner rq) false]> (w_pool w))
               (owner :: w_owners w) (w_reserved w) (w_started w) (w_refused w)).
Proof.
  intros [I1 I2 I3 I4 I5 I6 I7] Hi Ho.
  assert (Hmono : forall token, issued w token -> forall m p r s f, issued (World m (w_now w) p (owner :: w_owners w) r s f) token).
  { intros token (fp & o & Hin & E) m p r s f. exists fp, o. split; [by right|done]. }
  assert (Hnew : forall tk token, ticket_of db client owner rq = Some tk -> issued w token -> tk_token tk <> token).
  { intros tk token Etk (fp & o & Hin & E) <-. unfold ticket_of in Etk. destruct client; [|done].
    destruct (binding db rq) as [[key fp']|]; [|done]. destruct (json_dumps _ _) as [tok|] eqn:Ed; [|done]. injection Etk as <-.
    destruct (reservation_owner _ _ _ _ _ E Ed) as [_ ->]. done. }
  split; cbn; try done.
  - intros j u Hj. destruct (decide (i = j)) as [<-|Hne]; [|rewrite lookup_insert_ne in Hj by done; by apply (I1 j)].
    rewrite lookup_insert_eq in Hj. injection Hj as <-. unfold thread_ok. cbn.
    pose proof (dispatch_stage db client owner rq) as Hd. destruct (ticket_of db client owner rq) as [tk|] eqn:Etk; [|done].
    exists Before. split; [done|]. cbn. intros (r & E & Hin)%list_elem_of_fmap_1. by apply (Hnew tk _ eq_refl (proj1 (I4 r Hin))).
  - intros j u uk Hj Eu. destruct (decide (i = j)) as [<-|Hne]; [|rewrite lookup_insert_ne in Hj by done; by eapply Hmono, I2].
    rewrite lookup_insert_eq in Hj. injection Hj as <-. cbn in Eu. unfold ticket_of in Eu. destruct client; [|done].
    destruct (binding db rq) as [[key fp']|]; [|done]. destruct (json_dumps _ _) as [tok|] eqn:Ed; [|done]. injection Eu as <-.
    exists fp', owner. split; [by left|done].
  - intros j k u v uk vk Hj Hk Hjk Eu Ev. destruct (decide (i = j)) as [<-|Hnj], (decide (i = k)) as [<-|Hnk]; [done| | |].
    + rewrite lookup_insert_eq in Hj. injection Hj as <-. rewrite lookup_insert_ne in Hk by done. eapply Hnew; [exact Eu|by eapply I2].
    + rewrite lookup_insert_eq in Hk. injection Hk as <-. rewrite lookup_insert_ne in Hj by done. apply not_eq_sym.
      eapply Hnew; [exact Ev|by eapply I2].
    + rewrite lookup_insert_ne in Hj by done. rewrite lookup_insert_ne in Hk by done. by apply (I3 j k u v).
  - intros r Hr. destruct (I4 r Hr) as [Hiss Hat]. split; [by apply Hmono|done].
Qed.

Lemma wstep_ok w w' : world_ok w -> wstep w w' -> world_ok w'.
Proof.
  intros Hw Hs. destruct Hs.
  - by apply new_ok.
  - by apply (get_ok w i t key k).
  - by apply (get_ok w i t key k).
  - by apply set_ok.
  - by apply (set_lost_ok w i t key value ttl k e).
  - by apply (set_lost_ok w i t key value ttl k e).
  - by apply (del_step_ok w i t key expected k r).
  - by apply (del_step_ok w i t key expected k (Raise e)).
  - by apply (setex_step_ok w i t key expected ttl value k r).
  - by apply (setex_step_ok w i t key expected ttl value k (Raise e)).
  - by apply call_ok.
  - by apply return_ok.
  - destruct Hw as [I1 I2 I3 I4 I5 I6 I7]. split; cbn; try done.
    + intros j t' [_ Hj]%lookup_delete_Some. by apply (I1 j).
    + intros j t' tk [_ Hj]%lookup_delete_Some. by apply (I2 j).
    + intros j l t' u tk uk [_ Hj]%lookup_delete_Some [_ Hl]%lookup_delete_Some. by apply (I3 j l).
  - destruct Hw as [I1 I2 I3 I4 I5 I6 I7]. split; cbn; try done.
    + intros r Hr. destruct (I4 r Hr). split; [done|lia].
    + intros r Hr Hf Ht. apply I5; [done|done|lia].
Qed.

Lemma wreachable_ok w : wreachable w -> world_ok w.
Proof. induction 1 as [now|w w' _ IH Hs]; [apply empty_world_ok|by eapply wstep_ok]. Qed.

(** C35. With the fail mode closed, whatever requests, workers, crashes, lost replies and delays
    interleave: every route that is started for a key holds a reservation of that key, no reservation
    starts a route twice, and two starts under one key whose routes did not answer outside 2xx were
    reserved at least the lifetime of a key apart. *)
Theorem key_executes_once w a b tk tk' :
  wreachable w -> w_started w !! a = Some tk -> w_started w !! b = Some tk' -> a <> b -> tk_key tk = tk_key tk' ->
  tk_token tk <> tk_token tk' /\
  exists t t', Reservation tk t ∈ w_reserved w /\ Reservation tk' t' ∈ w_reserved w /\
    (tk_token tk ∈ w_refused w \/ tk_token tk' ∈ w_refused w \/ (IDEMPOTENCY_TTL_SECONDS <= Z.abs (t - t'))%Z).
Proof.
  intros Hr Ha Hb Hab Hk. pose proof (wreachable_ok w Hr) as Hw. destruct (wo_started w Hw) as [Hnd Hres].
  assert (Hne : tk_token tk <> tk_token tk').
  { intros E. apply Hab. apply (NoDup_lookup _ a b (tk_token tk) Hnd); rewrite list_lookup_fmap; [by rewrite Ha|by rewrite Hb, E]. }
  split; [done|]. destruct (Hres tk) as [t Ht]; [by eapply list_elem_of_lookup_2|]. destruct (Hres tk') as [t' Ht']; [by eapply list_elem_of_lookup_2|].
  exists t, t'. split; [done|]. split; [done|].
  apply list_elem_of_lookup_1 in Ht as [i Hi]. apply list_elem_of_lookup_1 in Ht' as [j Hj].
  destruct (Nat.lt_trichotomy i j) as [Hlt|[->|Hlt]].
  - destruct (wo_order w Hw i j _ _ Hi Hj Hlt Hk) as [Hd|]; [cbn in Hd|by left]. right. right. lia.
  - rewrite Hi in Hj. injection Hj as -> _. done.
  - destruct (wo_order w Hw j i _ _ Hj Hi Hlt (eq_sym Hk)) as [Hd|]; [cbn in Hd|by right; left]. right. right. lia.
Qed.
End Pool.

(** ** Witnesses *)

Section Witnesses.
#[local] Existing Instance demo_lib.
#[local] Existing Instance demo_runtime.

Definition demo_http_env : HttpEnv := {|
  environ := fun name => if String.eqb name "IDEMPOTENCY_FAIL_MODE" then Some " Closed" else None;
  response_error := fun _ _ _ => None
|}.
#[local] Existing Instance demo_http_env.

Definition demo_key_db : key_db :=
  KeyDb [ApiKeyRow "rge_k1" (sha256_hex "rge_k1.secret") (Some "t1") true None (Some ["ingest"]) None None] [("t1", "active")]
    None None (Datetime 0 (Some 0%Z)).
Definition demo_request (accept : string) : http_request :=
  HttpRequest "POST" "https://api.example/v1/events" "/v1/events"
    [("x-regengine-api-key", "rge_k1.secret"); ("idempotency-key", "batch-1"); ("accept", accept)] ["{}"; "[1]"] None None None.
Definition demo_route : route_response := RouteResponse 201 [("content-type", "application/json"); ("vary", "a"); ("vary", "b")] (Ok "{'id': 1}").
Definition demo_failure : route_response := RouteResponse 500 [] (Ok "").

Definition demo_cache_key : string := "idempotency:t1:batch-1".
Definition demo_fingerprint : string := Eval vm_compute in match binding demo_key_db (demo_request "a") with Some (_, fp) => fp | None => "" end.

Lemma demo_closed : closed = true.
Proof. vm_compute. reflexivity. Qed.
Lemma demo_binding : binding demo_key_db (demo_request "a") = Some (demo_cache_key, demo_fingerprint).
Proof. vm_compute. reflexivity. Qed.
Lemma demo_binding_b : binding demo_key_db (demo_request "b") = Some (demo_cache_key, demo_fingerprint).
Proof. vm_compute. reflexivity. Qed.

Lemma live_empty now key : live now ∅ key = None.
Proof. unfold live. by rewrite lookup_empty. Qed.

(** The retry asks for another representation; it is the same operation, and the route is not run. *)
Lemma replay_is_original_witness :
  let original := Built (CBytes "{'id': 1}") (PInt 201) (PDict [("content-type", PStr "application/json"); ("vary", PStr "a")]) None in
  exists stored, run 0 (Ok demo_route) (dispatch demo_key_db true "o1" (demo_request "a")) ∅ = (Ok original, {[demo_cache_key := stored]}, 1%nat) /\
    run 86399 (Ok demo_failure) (dispatch demo_key_db true "o2" (demo_request "b")) {[demo_cache_key := stored]}
    = (Ok original, {[demo_cache_key := stored]}, 0%nat).
Proof.
  destruct (replay_is_original demo_key_db (demo_request "a") "o1" 0 ∅ demo_cache_key demo_fingerprint demo_route "{'id': 1}"
              demo_binding (live_empty _ _) eq_refl eq_refl eq_refl) as (stored & H1 & H2). rewrite insert_empty in H1.
  exists stored. split; [exact H1|].
  specialize (H2 demo_key_db (demo_request "b") "o2" demo_fingerprint 86399%Z {[demo_cache_key := stored]} (Ok demo_failure)
                demo_binding_b eq_refl (lookup_singleton_eq _ _)).
  rewrite String.eqb_refl in H2. exact H2.
Defined.

Lemma demo_signed auth : exists fp b,
  _request_fingerprint (demo_request "a") auth = Ok fp /\ signed_bytes (demo_request "a") auth = Ok b /\
  _request_fingerprint (demo_request "b") auth = Ok fp /\ signed_bytes (demo_request "b") auth = Ok b.
Proof.
  destruct (parts_text_total (fingerprint_parts (demo_request "a") auth)) as (text & E & _).
  assert (Ep : fingerprint_parts (demo_request "b") auth = fingerprint_parts (demo_request "a") auth) by reflexivity.
  unfold _request_fingerprint, signed_bytes. rewrite Ep, E. cbn [rbind].
  assert (Er : forall accept, read_body "" (rq_chunks (demo_request accept)) (rq_stream_error (demo_request accept)) = Ok "{}[1]") by (intros; reflexivity).
  rewrite !Er. cbn [rbind]. eexists _, _. repeat split.
Qed.

Lemma fingerprint_binds_request_witness :
  rq_url (demo_request "a") = rq_url (demo_request "b") /\
  str_join "" (rq_chunks (demo_request "a")) = str_join "" (rq_chunks (demo_request "b")).
Proof.
  destruct (demo_signed "snapshot") as (fp & b & F & B & F' & B').
  destruct (fingerprint_binds_request (demo_request "a") (demo_request "b") "snapshot" "snapshot" fp b b F F' B B' (fun _ => eq_refl))
    as (_ & H1 & _ & _ & H2).
  split; [exact H1|exact H2].
Defined.

Lemma cache_needs_authority_witness :
  exists k tenant, cacheable (demo_request "a") = Some k /\ demo_cache_key = _get_cache_key k (Some tenant) /\
    authority demo_key_db (demo_request "a") tenant /\ exists row, live_key demo_key_db "rge_k1.secret" tenant row.
Proof.
  destruct (cache_needs_authority demo_key_db (demo_request "a") demo_cache_key demo_fingerprint demo_binding) as (k & tenant & H1 & H2 & H3 & H4).
  exists k, tenant. split; [exact H1|]. split; [exact H2|]. split; [exact H3|]. by apply (H4 "rge_k1.secret").
Defined.

(** One more step of a history, with the new state simplified. *)
Ltac advance R tac := let R' := fresh "R" in
  eassert (R' : wreachable _) by (eapply wr_step; [exact R|tac]); clear R; rename R' into R;
  unfold goto, start_call, end_call, set_thread, set_redis, reserve_effect, redis_setnx, redis_del_if, holds in R;
  cbn [w_redis w_now w_pool w_owners w_reserved w_started w_refused th_ticket th_prog th_called empty_world tk_key tk_token app
       refusal success rr_status snd demo_failure Z.leb Z.ltb Z.compare Pos.compare Pos.compare_cont andb] in R;
  rewrite ?insert_insert_eq, ?live_empty in R;
  cbn [w_redis w_now w_pool w_owners w_reserved w_started w_refused th_ticket th_prog th_called snd app] in R.
Ltac command i c := eapply (c _ i); [apply lookup_insert_eq|reflexivity].

Lemma live_insert now m key v until : (now <? until)%Z = true -> live now (<[key := (v, until)]> m) key = Some v.
Proof. intros H. unfold live. by rewrite lookup_insert_eq, H. Qed.

(** A first request is refused by the route and releases its reservation; the retry runs the route. *)
Lemma demo_history : exists w tk tk', wreachable w /\ w_started w = [tk; tk'] /\ tk_key tk = demo_cache_key /\ tk_key tk' = demo_cache_key.
Proof.
  destruct (dispatch_binding demo_key_db "o1" (demo_request "a") _ _ demo_binding) as (tok1 & E1 & D1).
  destruct (dispatch_binding demo_key_db "o2" (demo_request "a") _ _ demo_binding) as (tok2 & E2 & D2).
  assert (T1 : ticket_of demo_key_db true "o1" (demo_request "a") = Some (Ticket demo_cache_key tok1 demo_fingerprint))
    by (unfold ticket_of; by rewrite demo_binding, E1).
  assert (T2 : ticket_of demo_key_db true "o2" (demo_request "a") = Some (Ticket demo_cache_key tok2 demo_fingerprint))
    by (unfold ticket_of; by rewrite demo_binding, E2).
  clear E1 E2. generalize dependent demo_fingerprint. intros fp D1 D2 T1 T2.
  pose proof (wr_empty 0) as R.
  advance R ltac:(apply (ws_new _ 0%nat demo_key_db true "o1" (demo_request "a")); [apply lookup_empty|apply not_elem_of_nil]).
  rewrite D1, T1 in R. clear D1 T1.
  advance R ltac:(command 0%nat ws_get).
  advance R ltac:(command 0%nat ws_set).
  advance R ltac:(eapply (ws_call _ 0%nat); [apply lookup_insert_eq|reflexivity|reflexivity]).
  advance R ltac:(eapply (ws_return _ 0%nat _ _ (Ok demo_failure)); [apply lookup_insert_eq|reflexivity|reflexivity]).
  advance R ltac:(eapply (ws_del _ 0%nat _ _ _ _ (Ok tt)); [apply lookup_insert_eq|reflexivity]).
  rewrite live_insert, String.eqb_refl, delete_insert_eq, delete_empty in R by done.
  advance R ltac:(apply (ws_new _ 1%nat demo_key_db true "o2" (demo_request "a"));
    [cbn [w_pool]; rewrite lookup_insert_ne by done; apply lookup_empty
    |cbn [w_owners]; intros [Hx|Hx]%elem_of_cons; [discriminate Hx|by apply not_elem_of_nil in Hx]]).
  rewrite D2, T2 in R. clear D2 T2.
  advance R ltac:(command 1%nat ws_get).
  advance R ltac:(command 1%nat ws_set).
  advance R ltac:(eapply (ws_call _ 1%nat); [apply lookup_insert_eq|reflexivity|reflexivity]).
  eexists _, _, _. split; [exact R|]. cbn [w_started]. split; [reflexivity|]. split; reflexivity.
Qed.

Lemma key_executes_once_witness : exists w tk tk', wreachable w /\ w_started w = [tk; tk'] /\
  tk_key tk = demo_cache_key /\ tk_key tk' = demo_cache_key /\ tk_token tk <> tk_token tk' /\
  exists t t', Reservation tk t ∈ w_reserved w /\ Reservation tk' t' ∈ w_reserved w /\
    (tk_token tk ∈ w_refused w \/ tk_token tk' ∈ w_refused w \/ (IDEMPOTENCY_TTL_SECONDS <= Z.abs (t - t'))%Z).
Proof.
  destruct demo_history as (w & tk & tk' & R & S & K & K'). exists w, tk, tk'. do 4 (split; [assumption|]).
  apply (key_executes_once demo_closed w 0 1 tk tk' R); [by rewrite S|by rewrite S|discriminate|congruence].
Defined.
End Witnesses.
