(* ===== verification/TraceWalk.v ===== *)
(** * Trace walks over transformation links

    The trace queries of [services/shared/canonical_persistence/writer.py]: the breadth-first walk over
    [fsma.transformation_links] with its two limits.  Proved: the walk ends; without the result limit
    it returns every link whose source lot is nearer than the depth limit, once, by increasing
    distance; with the limit it returns a prefix of that; and the two flags say which limit was met. *)

From Stdlib Require Import ZArith Lia String Ascii Sorting.Sorted.
From stdpp Require Import base list strings gmap.
From S2P Require Import Prelude PyStr PyFloat PyVal Db.

Local Open Scope string_scope.

(** ** Rows and results *)

(** A row of [fsma.transformation_links].  A NUMERIC cell holds what [float()] makes of it. *)
Record link_row := LinkRow {
  tl_tenant_id : string;
  tl_transformation_event_id : string;
  tl_input_tlc : string;
  tl_input_event_id : option string;
  tl_output_tlc : string;
  tl_output_event_id : option string;
  tl_input_quantity : option f64;
  tl_input_unit : option string;
  tl_output_quantity : option f64;
  tl_output_unit : option string;
  tl_process_type : option string;
  tl_confidence_score : option f64;
  tl_link_source : option string
}.

Record TraceWalk := MkTraceWalk {
  links : list pydict;
  truncated : bool;
  depth_exhausted : bool;
  tw_direction : string;
  tw_max_depth : Z;
  tw_max_results : Z
}.

Definition _TRACE_DEFAULT_MAX_RESULTS : Z := 10000.

(** [_TRACE_FORWARD_SQL] and [_TRACE_BACKWARD_SQL]: a link leads from its source to its neighbour. *)
Definition forward (direction : string) : bool := String.eqb direction "forward".
Definition link_source (direction : string) (r : link_row) : string :=
  if forward direction then tl_input_tlc r else tl_output_tlc r.
Definition neighbour (direction : string) (r : link_row) : string :=
  if forward direction then tl_output_tlc r else tl_input_tlc r.
Definition stmt (direction : string) (table : list link_row) (tid tlc : string) : list link_row :=
  where_ (fun r => String.eqb (tl_tenant_id r) tid && String.eqb (link_source direction r) tlc) table.

Definition ostr (o : option string) : pyval := match o with Some s => PStr s | None => PNone end.
Definition onum (o : option f64) : pyval := match o with Some f => PFloat f | None => PNone end.

(** [float(v) if v else dflt]. *)
Definition float_or (o : option f64) (dflt : pyval) : pyval := if truthy (onum o) then onum o else dflt.

(** The [link] dictionary of a row that is reached from a lot at [depth]. *)
Definition link_dict (direction : string) (row : link_row) (depth : nat) : pydict :=
  ([("transformation_event_id", PStr (tl_transformation_event_id row));
    ("process_type", ostr (tl_process_type row));
    ("confidence_score", float_or (tl_confidence_score row) (PFloat (f_of_Z 1)));
    ("depth", PInt (Z.of_nat depth + 1))]
   ++ (if forward direction
       then [("input_tlc", PStr (tl_input_tlc row)); ("output_tlc", PStr (tl_output_tlc row));
             ("output_quantity", float_or (tl_output_quantity row) PNone); ("output_unit", ostr (tl_output_unit row))]
       else [("input_tlc", PStr (tl_input_tlc row)); ("output_tlc", PStr (tl_output_tlc row));
             ("input_quantity", float_or (tl_input_quantity row) PNone); ("input_unit", ostr (tl_input_unit row))]))%list.

(** ** The walk *)

Section Walk.
Context (table : list link_row) (tid direction : string).

(** The loop over the rows of a lot at [depth]: the results, what is queued, and whether the limit
    was met. *)
Fixpoint collect_rows (max_results : Z) (visited : gset string) (depth : nat) (rows : list link_row)
    (results : list pydict) : list pydict * list (string * nat) * bool :=
  match rows with
  | [] => (results, [], false)
  | row :: rows' =>
      if (Z.of_nat (length results) >=? max_results)%Z then (results, [], true)
      else
        let '(results', queued, cut) :=
          collect_rows max_results visited depth rows' (results ++ [link_dict direction row depth])%list in
        (results', if bool_decide (neighbour direction row ∈ visited) then queued
                   else (neighbour direction row, S depth) :: queued, cut)
  end.

(** The [while] loop; [None] when the fuel ends first. *)
Fixpoint walk (fuel : nat) (max_depth max_results : Z) (queue : list (string * nat)) (visited : gset string)
    (exhausted : bool) (results : list pydict) : option (list pydict * bool * bool) :=
  match queue with
  | [] => Some (results, false, exhausted)
  | (current_tlc, depth) :: queue' =>
      match fuel with
      | O => None
      | S fuel' =>
          if bool_decide (current_tlc ∈ visited) then walk fuel' max_depth max_results queue' visited exhausted results
          else if (Z.of_nat depth >=? max_depth)%Z then walk fuel' max_depth max_results queue' visited true results
          else
            let visited' := {[current_tlc]} ∪ visited in
            let '(results', queued, cut) :=
              collect_rows max_results visited' depth (stmt direction table tid current_tlc) results in
            if cut then Some (results', true, exhausted)
            else walk fuel' max_depth max_results (queue' ++ queued)%list visited' exhausted results'
      end
  end.
End Walk.

(** The walk takes a lot from the queue once for the start and at most once per link. *)
Definition walk_fuel (table : list link_row) : nat := S (length table).

Definition out_of_fuel : exn := Exn "Fuel" "".

Definition trace_walk (table : list link_row) (tenant_id tlc direction : string) (max_depth max_results : Z) : res TraceWalk :=
  if negb (String.eqb direction "forward" || String.eqb direction "backward")
  then Raise (ValueError ("direction must be 'forward' or 'backward', got " +:+ repr_str direction))
  else if (max_depth <? 1)%Z then Raise (ValueError ("max_depth must be >= 1, got " +:+ str_of_Z max_depth))
  else match walk table tenant_id direction (walk_fuel table) max_depth max_results [(tlc, 0%nat)] ∅ false [] with
       | None => Raise out_of_fuel
       | Some (results, cut, exhausted) => Ok (MkTraceWalk results cut exhausted direction max_depth max_results)
       end.

Definition trace_forward (table : list link_row) (tenant_id tlc : string) (max_depth max_results : Z) : res (list pydict * bool) :=
  do w <- trace_walk table tenant_id tlc "forward" max_depth max_results; Ok (links w, truncated w).
Definition trace_backward (table : list link_row) (tenant_id tlc : string) (max_depth max_results : Z) : res (list pydict * bool) :=
  do w <- trace_walk table tenant_id tlc "backward" max_depth max_results; Ok (links w, truncated w).

(** ** The walk without the result limit *)

Section Explore.
Context (table : list link_row) (tid direction : string) (max_depth : nat).

Abbreviation rows_of := (stmt direction table tid).
Abbreviation src := (link_source direction).
Abbreviation dst := (neighbour direction).

(** What a lot at [depth] adds to the queue. *)
Definition queued (visited : gset string) (depth : nat) (rows : list link_row) : list (string * nat) :=
  (fun r => (dst r, S depth)) <$> filter (fun r => dst r ∉ visited) rows.

Definition found_at (depth : nat) (rows : list link_row) : list (link_row * nat) := (fun r => (r, depth)) <$> rows.

Fixpoint explore (fuel : nat) (queue : list (string * nat)) (visited : gset string) (exhausted : bool)
    (found : list (link_row * nat)) : option (list (link_row * nat) * gset string * bool) :=
  match queue with
  | [] => Some (found, visited, exhausted)
  | (x, d) :: queue' =>
      match fuel with
      | O => None
      | S fuel' =>
          if bool_decide (x ∈ visited) then explore fuel' queue' visited exhausted found
          else if (max_depth <=? d)%nat then explore fuel' queue' visited true found
          else explore fuel' (queue' ++ queued ({[x]} ∪ visited) d (rows_of x)) ({[x]} ∪ visited) exhausted
                 (found ++ found_at d (rows_of x))
      end
  end.

Definition dict_of (p : link_row * nat) : pydict := link_dict direction (fst p) (snd p).

Lemma queued_cons visited depth r rows :
  queued visited depth (r :: rows)
  = if bool_decide (dst r ∈ visited) then queued visited depth rows else (dst r, S depth) :: queued visited depth rows.
Proof. unfold queued. rewrite filter_cons. case_bool_decide; case_decide; naive_solver. Qed.

Definition cap (max_results : Z) : nat := Z.to_nat max_results.

Lemma at_cap max_results n : (Z.of_nat n >=? max_results)%Z = (cap max_results <=? n)%nat.
Proof. unfold cap. rewrite Z.geb_leb. destruct (Z.leb_spec max_results (Z.of_nat n)), (Nat.leb_spec (Z.to_nat max_results) n); lia || done. Qed.

Lemma collect_all max_results visited depth rows found :
  (length found + length rows <= cap max_results)%nat ->
  collect_rows direction max_results visited depth rows (dict_of <$> found)
  = (dict_of <$> (found ++ found_at depth rows)%list, queued visited depth rows, false).
Proof.
  revert found. induction rows as [|r rows IH]; intros found Hc; cbn [collect_rows]; cbn [length] in Hc.
  - by rewrite app_nil_r.
  - rewrite at_cap, length_fmap. destruct (Nat.leb_spec (cap max_results) (length found)); [lia|].
    change [link_dict direction r depth] with (dict_of <$> [(r, depth)]). rewrite <- fmap_app, IH by (rewrite length_app; cbn; lia).
    by rewrite <- app_assoc, queued_cons.
Qed.

Lemma collect_cut max_results visited depth rows found :
  (length found <= cap max_results < length found + length rows)%nat ->
  exists q, collect_rows direction max_results visited depth rows (dict_of <$> found)
            = (take (cap max_results) (dict_of <$> (found ++ found_at depth rows)%list), q, true).
Proof.
  revert found. induction rows as [|r rows IH]; intros found Hc; cbn [collect_rows]; cbn [length] in Hc; [lia|].
  rewrite at_cap, length_fmap. destruct (Nat.leb_spec (cap max_results) (length found)).
  - exists []. rewrite fmap_app, take_app_length'; [done|]. rewrite length_fmap. lia.
  - change [link_dict direction r depth] with (dict_of <$> [(r, depth)]). rewrite <- fmap_app.
    destruct (IH (found ++ [(r, depth)])%list) as [q ->]; [rewrite length_app; cbn; lia|].
    rewrite <- app_assoc. by eexists.
Qed.

(** The walk finds more and more. *)
Lemma explore_grows fuel queue visited ex found full v e :
  explore fuel queue visited ex found = Some (full, v, e) ->
  (exists more, full = (found ++ more)%list) /\ (ex = true -> e = true).
Proof.
  revert queue visited ex found. induction fuel as [|fuel IH]; intros [|[x d] queue] visited ex found; cbn [explore];
    try done; try (intros [= <- _ <-]; split; [exists []; by rewrite app_nil_r|done]).
  case_bool_decide; [apply IH|]. destruct (max_depth <=? d)%nat; [intros [? He]%IH; split; [done|by intros _; apply He]|].
  intros [[more ->] ?]%IH. split; [eexists; by rewrite <- app_assoc|done].
Qed.

(** The walk with the result limit, in terms of the one without. *)
Lemma walk_explore fuel max_results queue visited ex found full v e :
  (length found <= cap max_results)%nat ->
  explore fuel queue visited ex found = Some (full, v, e) ->
  exists e', walk table tid direction fuel (Z.of_nat max_depth) max_results queue visited ex (dict_of <$> found)
             = Some (take (cap max_results) (dict_of <$> full), (cap max_results <? length full)%nat, e')
             /\ (e' = true -> e = true) /\ ((length full <= cap max_results)%nat -> e' = e).
Proof.
  revert queue visited ex found. induction fuel as [|fuel IH]; intros [|[x d] queue] visited ex found Hl; cbn [explore walk];
    try done; try (intros [= <- <- <-]; exists ex; rewrite take_ge by (rewrite length_fmap; lia);
      destruct (Nat.ltb_spec (cap max_results) (length found)); [lia|done]).
  case_bool_decide; [by apply IH|]. rewrite Z.geb_leb.
  replace (Z.of_nat max_depth <=? Z.of_nat d)%Z with (max_depth <=? d)%nat
    by (destruct (Nat.leb_spec max_depth d), (Z.leb_spec (Z.of_nat max_depth) (Z.of_nat d)); lia || done).
  destruct (max_depth <=? d)%nat; [by apply IH|]. intros E.
  destruct (decide (length found + length (rows_of x) <= cap max_results)%nat) as [Hle|Hgt].
  - rewrite collect_all by done. apply IH; [|done]. unfold found_at. rewrite length_app, length_fmap. done.
  - destruct (collect_cut max_results ({[x]} ∪ visited) d (rows_of x) found) as [q ->]; [lia|].
    pose proof (explore_grows _ _ _ _ _ _ _ _ E) as [[more ->] Hex]. exists ex.
    assert (Hlen : (cap max_results < length (found ++ found_at d (rows_of x)))%nat)
      by (unfold found_at; rewrite length_app, length_fmap; lia).
    rewrite (fmap_app dict_of _ more), take_app_le by (rewrite length_fmap; lia).
    rewrite (length_app (found ++ _)).
    destruct (Nat.ltb_spec (cap max_results) (length (found ++ found_at d (rows_of x)) + length more)); [|lia].
    split; [done|]. split; [exact Hex|lia].
Qed.
(** *** Distances *)

Inductive path (x : string) : nat -> string -> Prop :=
| path_here : path x 0 x
| path_link n y r : path x n y -> r ∈ rows_of y -> path x (S n) (dst r).

Definition distance (x : string) (n : nat) (y : string) : Prop := path x n y /\ forall m, path x m y -> (n <= m)%nat.

Lemma distance_unique x n m y : distance x n y -> distance x m y -> n = m.
Proof. intros [Hn Ln] [Hm Lm]. specialize (Ln m Hm). specialize (Lm n Hn). lia. Qed.

Lemma elem_of_stmt y r : r ∈ rows_of y <-> r ∈ table /\ tl_tenant_id r = tid /\ src r = y.
Proof. unfold stmt. rewrite elem_of_where, andb_true_iff, !String.eqb_eq. naive_solver. Qed.

(** The rows of the tenant whose source is in a set of lots. *)
Definition from_lots (lots : gset string) (r : link_row) : bool :=
  String.eqb (tl_tenant_id r) tid && bool_decide (src r ∈ lots).

Lemma from_lots_add x (lots : gset string) : x ∉ lots ->
  where_ (from_lots ({[x]} ∪ lots)) table ≡ₚ (where_ (from_lots lots) table ++ rows_of x)%list.
Proof.
  intros Hx. unfold stmt, where_, from_lots. induction table as [|r t IH]; [done|]. cbn [List.filter].
  destruct (String.eqb (tl_tenant_id r) tid); cbn [andb]; [|exact IH].
  destruct (String.eqb_spec (src r) x) as [->|Hne].
  - rewrite bool_decide_true by set_solver. rewrite (bool_decide_false (x ∈ lots)) by done. by rewrite IH, Permutation_middle.
  - destruct (decide (src r ∈ lots)).
    + rewrite !bool_decide_true by set_solver. cbn. by rewrite IH.
    + rewrite !bool_decide_false by set_solver. exact IH.
Qed.

Lemma found_rows depth rows : fst <$> found_at depth rows = rows.
Proof. induction rows as [|r rows IH]; cbn; [done|]. by f_equal. Qed.

(** *** The invariant *)

Record bfs (start : string) (k : nat) (queue : list (string * nat)) (visited : gset string) (ex : bool)
    (found : list (link_row * nat)) : Prop := {
  b_queue : forall x d, (x, d) ∈ queue -> path start d x /\ (k <= d <= S k)%nat /\ (d <= max_depth)%nat;
  b_sorted : StronglySorted le (snd <$> queue);
  b_visited : forall x, x ∈ visited -> exists n, distance start n x /\ (n < max_depth)%nat /\ (n <= k)%nat;
  b_closed : forall x n r, x ∈ visited -> distance start n x -> r ∈ rows_of x ->
    dst r ∈ visited \/ (exists e, (e <= S n)%nat /\ (dst r, e) ∈ queue) \/ ((max_depth <= S n)%nat /\ ex = true);
  b_start : start ∈ visited \/ (start, 0%nat) ∈ queue;
  b_exhausted : ex = true -> exists x, distance start max_depth x;
  b_found : fst <$> found ≡ₚ where_ (from_lots visited) table;
  b_depths : Forall (fun p => distance start (snd p) (src (fst p))) found;
  b_order : StronglySorted le (snd <$> found);
  b_bound : Forall (fun p => (snd p <= k)%nat) found
}.

(** A lot that is not yet visited is no nearer than what is queued. *)
Lemma bfs_frontier start k queue visited ex found b m y :
  bfs start k queue visited ex found -> (forall x d, (x, d) ∈ queue -> (b <= d)%nat) -> (b <= max_depth)%nat ->
  path start m y -> y ∈ visited \/ (b <= m)%nat.
Proof.
  intros I Hq Hb. induction 1 as [|n y r Hp IH Hr].
  - destruct (b_start _ _ _ _ _ _ I) as [|Hs]; [by left|]. right. by apply (Hq start).
  - destruct IH as [Hy|]; [|right; lia]. destruct (b_visited _ _ _ _ _ _ I y Hy) as (d & Hd & _).
    pose proof (proj2 Hd n Hp). destruct (b_closed _ _ _ _ _ _ I y d r Hy Hd Hr) as [|[(e & He & Hin)|[Hm _]]].
    + by left.
    + apply Hq in Hin. right. lia.
    + right. lia.
Qed.

Lemma bfs_head start k x d queue visited ex found :
  bfs start k ((x, d) :: queue) visited ex found -> x ∉ visited ->
  distance start d x /\ (d <= max_depth)%nat /\ (forall y e, (y, e) ∈ queue -> (d <= e <= S d)%nat) /\ (k <= d)%nat.
Proof.
  intros I Hx. destruct (b_queue _ _ _ _ _ _ I x d) as (Hp & Hk & Hm); [by left|].
  pose proof (b_sorted _ _ _ _ _ _ I) as Hs. cbn in Hs. apply StronglySorted_inv in Hs as [_ Hs].
  assert (Hq : forall y e, (y, e) ∈ queue -> (d <= e <= S d)%nat).
  { intros y e Hin. rewrite Forall_fmap, Forall_forall in Hs. specialize (Hs (y, e) Hin). cbn in Hs.
    destruct (b_queue _ _ _ _ _ _ I y e) as (_ & ? & _); [by right|]. lia. }
  split; [|split; [done|split; [done|lia]]]. split; [done|]. intros m Hpm.
  destruct (bfs_frontier _ _ _ _ _ _ d m x I) as [|]; [|done|done|done|done].
  intros y e [[= -> ->]|Hin]%elem_of_cons; [done|]. apply Hq in Hin. lia.
Qed.
Lemma sorted_app (l k : list nat) b :
  StronglySorted le l -> Forall (fun x => (x <= b)%nat) l -> Forall (fun x => x = b) k -> StronglySorted le (l ++ k).
Proof.
  intros Hl Hb Hk. rewrite Forall_forall in Hb, Hk. induction Hl as [|x l Hl IH Hx]; cbn.
  - clear Hb. induction k as [|y k IH]; [constructor|]. constructor; [apply IH; intros z Hz; apply Hk; by right|].
    apply Forall_forall. intros z Hz. rewrite (Hk y), (Hk z); [lia|by right|by left].
  - constructor; [apply IH; intros z Hz; apply Hb; by right|]. apply Forall_app. split; [done|].
    apply Forall_forall. intros z Hz. rewrite (Hk z Hz). apply Hb. by left.
Qed.

Lemma bfs_skip start k x d queue visited ex found :
  bfs start k ((x, d) :: queue) visited ex found -> x ∈ visited -> bfs start k queue visited ex found.
Proof.
  intros I Hx. destruct I as [I1 I2 I3 I4 I5 I6 I7 I8 I9 I10]. split; try done.
  - intros y e Hin. apply I1. by right.
  - by apply StronglySorted_inv in I2 as [? _].
  - intros y n r Hy Hn Hr. destruct (I4 y n r Hy Hn Hr) as [|[(e & He & [[= <- <-]|Hin]%elem_of_cons)|]]; eauto.
  - destruct I5 as [|[[= -> ->]|]%elem_of_cons]; auto.
Qed.

Lemma bfs_drop start k x d queue visited ex found :
  bfs start k ((x, d) :: queue) visited ex found -> x ∉ visited -> (max_depth <= d)%nat -> (1 <= max_depth)%nat ->
  bfs start k queue visited true found.
Proof.
  intros I Hx Hd H1. destruct (bfs_head _ _ _ _ _ _ _ _ I Hx) as (Hdist & Hle & _).
  assert (d = max_depth) as -> by lia. destruct I as [I1 I2 I3 I4 I5 I6 I7 I8 I9 I10]. split; try done.
  - intros y e Hin. apply I1. by right.
  - by apply StronglySorted_inv in I2 as [? _].
  - intros y n r Hy Hn Hr. destruct (I4 y n r Hy Hn Hr) as [|[(e & He & [[= <- <-]|Hin]%elem_of_cons)|[? _]]]; eauto 6.
  - destruct I5 as [|[[= -> <-]|]%elem_of_cons]; auto. lia.
  - intros _. by exists x.
Qed.

Lemma bfs_expand start k x d queue visited ex found :
  bfs start k ((x, d) :: queue) visited ex found -> x ∉ visited -> (d < max_depth)%nat ->
  bfs start d (queue ++ queued ({[x]} ∪ visited) d (rows_of x)) ({[x]} ∪ visited) ex (found ++ found_at d (rows_of x)).
Proof.
  intros I Hx Hd. destruct (bfs_head _ _ _ _ _ _ _ _ I Hx) as (Hdist & _ & Hq & Hkd).
  destruct I as [I1 I2 I3 I4 I5 I6 I7 I8 I9 I10].
  assert (Hnew : forall y e, (y, e) ∈ queued ({[x]} ∪ visited) d (rows_of x) <->
                 e = S d /\ exists r, r ∈ rows_of x /\ y = dst r /\ dst r ∉ {[x]} ∪ visited).
  { intros y e. unfold queued. rewrite list_elem_of_fmap. setoid_rewrite list_elem_of_filter. naive_solver. }
  split.
  - intros y e [Hin|Hin]%elem_of_app.
    + destruct (I1 y e) as (? & _ & ?); [by right|]. by specialize (Hq y e Hin).
    + apply Hnew in Hin as (-> & r & Hr & -> & _). split; [|lia]. apply path_link with (y := x); [apply Hdist|done].
  - rewrite fmap_app. apply StronglySorted_inv in I2 as [I2 _]. apply (sorted_app _ _ (S d)); [done|..].
    + rewrite Forall_fmap, Forall_forall. intros [y e] Hin. apply (Hq y e Hin).
    + rewrite Forall_fmap, Forall_forall. intros [y e] Hin. by apply Hnew in Hin as [-> _].
  - intros y [->%elem_of_singleton|Hy]%elem_of_union; [by exists d|]. destruct (I3 y Hy) as (n & ? & ? & ?). exists n. split; [done|lia].
  - intros y n r Hy Hn Hr. destruct (decide (dst r ∈ {[x]} ∪ visited)) as [|Hout]; [by left|].
    apply elem_of_union in Hy as [->%elem_of_singleton|Hy].
    + right. left. exists (S d). rewrite (distance_unique _ _ _ _ Hn Hdist). split; [done|].
      apply elem_of_app. right. apply Hnew. eauto.
    + destruct (I4 y n r Hy Hn Hr) as [Hv|[(e & He & [[= Hd' Hd'']|Hin]%elem_of_cons)|]]; [..|auto].
      * destruct Hout. by apply elem_of_union_r.
      * destruct Hout. apply elem_of_union_l. by apply elem_of_singleton.
      * right. left. exists e. split; [done|]. apply elem_of_app. by left.
  - destruct I5 as [Hv|[[= Hs Hs']|Hin]%elem_of_cons].
    + left. by apply elem_of_union_r.
    + left. apply elem_of_union_l. by apply elem_of_singleton.
    + right. apply elem_of_app. by left.
  - done.
  - by rewrite fmap_app, from_lots_add, I7, found_rows by done.
  - apply Forall_app. split; [done|]. unfold found_at. rewrite Forall_fmap, Forall_forall. intros r Hr. cbn.
    by apply elem_of_stmt in Hr as (_ & _ & ->).
  - rewrite fmap_app. apply (sorted_app _ _ d); [done|..].
    + rewrite Forall_fmap. eapply Forall_impl; [exact I10|]. cbn. lia.
    + unfold found_at. rewrite !Forall_fmap. by apply Forall_true.
  - apply Forall_app. split; [eapply Forall_impl; [exact I10|]; cbn; lia|]. unfold found_at. rewrite Forall_fmap. apply Forall_true. intros; cbn; lia.
Qed.

Lemma bfs_start start : bfs start 0 [(start, 0%nat)] ∅ false [].
Proof.
  split.
  - intros x d [= -> ->]%list_elem_of_singleton. split; [constructor|lia].
  - repeat constructor.
  - by intros x Hx%elem_of_empty.
  - by intros x n r Hx%elem_of_empty.
  - right. by left.
  - done.
  - cbn. unfold where_. replace (List.filter _ table) with (@nil link_row); [done|]. symmetry.
    induction table as [|r t IH]; [done|]. cbn. unfold from_lots. by rewrite bool_decide_false, andb_false_r by set_solver.
  - constructor.
  - constructor.
  - constructor.
Qed.

(** What is still to be done: the queue and the rows of lots that are not visited. *)
Definition remaining (queue : list (string * nat)) (visited : gset string) : nat :=
  (length queue + (length table - length (where_ (from_lots visited) table)))%nat.

Lemma explore_finds fuel start k queue visited ex found :
  (1 <= max_depth)%nat -> bfs start k queue visited ex found -> (remaining queue visited <= fuel)%nat ->
  exists full v e k', explore fuel queue visited ex found = Some (full, v, e) /\ bfs start k' [] v e full.
Proof.
  intros H1. revert k queue visited ex found. induction fuel as [|fuel IH]; intros k [|[x d] queue] visited ex found I Hf;
    cbn [explore]; try (unfold remaining in Hf; cbn in Hf; lia); try by eexists _, _, _, _.
  case_bool_decide as Hx; [|destruct (Nat.leb_spec max_depth d)].
  - apply (IH k); [by eapply bfs_skip|]. unfold remaining in *. cbn in Hf. lia.
  - apply (IH k); [by eapply bfs_drop|]. unfold remaining in *. cbn in Hf. lia.
  - apply (IH d); [by eapply bfs_expand|]. unfold remaining in *. rewrite length_app. cbn in Hf.
    pose proof (filter_length_le (from_lots ({[x]} ∪ visited)) table) as Hl. fold (where_ (from_lots ({[x]} ∪ visited)) table) in Hl.
    rewrite from_lots_add, length_app in * by done.
    assert (length (queued ({[x]} ∪ visited) d (rows_of x)) <= length (rows_of x))%nat
      by (unfold queued; rewrite length_fmap; apply length_filter).
    lia.
Qed.
Lemma bfs_done start k v e full :
  (1 <= max_depth)%nat -> bfs start k [] v e full ->
  (forall y, y ∈ v <-> exists n, distance start n y /\ (n < max_depth)%nat) /\ (e = true <-> exists y, distance start max_depth y).
Proof.
  intros H1 I.
  assert (Hall : forall m y, path start m y -> y ∈ v \/ (max_depth <= m)%nat)
    by (intros m y; apply (bfs_frontier _ _ _ _ _ _ _ _ _ I); [intros ? ? []%not_elem_of_nil|done]).
  split.
  - intros y. split.
    + intros Hy. destruct (b_visited _ _ _ _ _ _ I y Hy) as (n & ? & ? & _). by exists n.
    + intros (n & [Hp _] & Hlt). destruct (Hall n y Hp); [done|lia].
  - split; [apply (b_exhausted _ _ _ _ _ _ I)|]. intros (y & Hp & Hmin). destruct max_depth as [|m] eqn:Em; [lia|].
    inversion Hp as [|n u r Hu Hr]; subst. destruct (Hall m u Hu) as [Hv|]; [|lia].
    destruct (b_visited _ _ _ _ _ _ I u Hv) as (n & Hn & _ & _).
    destruct (b_closed _ _ _ _ _ _ I u n r Hv Hn Hr) as [Hd|[(x & _ & []%not_elem_of_nil)|[_ He]]]; [|done].
    destruct (b_visited _ _ _ _ _ _ I _ Hd) as (k' & [Hk' _] & Hlt & _). apply Hmin in Hk'. lia.
Qed.
End Explore.

(** ** Properties *)

Section Properties.
Context (table : list link_row) (tenant_id direction : string).
Hypothesis Hdir : direction = "forward" \/ direction = "backward".

Lemma direction_ok : String.eqb direction "forward" || String.eqb direction "backward" = true.
Proof. destruct Hdir as [-> | ->]; reflexivity. Qed.

Lemma trace_walk_spec tlc max_depth max_results : (1 <= max_depth)%Z ->
  exists full v e w k,
    trace_walk table tenant_id tlc direction max_depth max_results = Ok w
    /\ bfs table tenant_id direction (Z.to_nat max_depth) tlc k [] v e full
    /\ links w = take (Z.to_nat max_results) (dict_of direction <$> full)
    /\ truncated w = (Z.to_nat max_results <? length full)%nat
    /\ (depth_exhausted w = true -> e = true) /\ (truncated w = false -> depth_exhausted w = e).
Proof.
  intros Hd. assert (H1 : (1 <= Z.to_nat max_depth)%nat) by lia.
  destruct (explore_finds table tenant_id direction (Z.to_nat max_depth) (walk_fuel table) tlc 0 [(tlc, 0%nat)] ∅ false [] H1)
    as (full & v & e & k & E & I); [apply bfs_start|unfold remaining, walk_fuel; cbn; lia|].
  destruct (walk_explore table tenant_id direction (Z.to_nat max_depth) (walk_fuel table) max_results _ _ _ [] _ _ _
              (Nat.le_0_l _) E) as (e' & W & He & Hf). rewrite Z2Nat.id in W by lia. cbn [fmap list_fmap] in W.
  exists full, v, e. eexists (MkTraceWalk _ _ e' direction max_depth max_results), k.
  unfold trace_walk. rewrite direction_ok, W. destruct (Z.ltb_spec max_depth 1); [lia|]. cbn [negb].
  split; [done|]. split; [done|]. cbn. split; [done|]. split; [done|]. split; [done|].
  intros Ht%Nat.ltb_ge. by apply Hf.
Qed.
End Properties.

(** C26. The walk always ends.  It lists the links of the tenant whose source lot is nearer to the
    start than [max_depth], each once and by increasing distance, with the distance as its depth;
    [max_results] cuts this list and nothing else, and [truncated] says whether it did.
    [depth_exhausted] means that some lot is at distance [max_depth]; unless the list was cut, it says
    so whenever there is one. *)
Theorem trace_walk_exact table tenant_id tlc direction max_depth max_results :
  direction = "forward" \/ direction = "backward" -> (1 <= max_depth)%Z ->
  let dist := distance table tenant_id direction tlc in
  exists w full near,
    trace_walk table tenant_id tlc direction max_depth max_results = Ok w
    /\ (forall r, near r = true <->
          tl_tenant_id r = tenant_id /\ exists n, dist n (link_source direction r) /\ (Z.of_nat n < max_depth)%Z)
    /\ fst <$> full ≡ₚ where_ near table
    /\ Forall (fun p => dist (snd p) (link_source direction (fst p))) full
    /\ StronglySorted le (snd <$> full)
    /\ links w = take (Z.to_nat max_results) (dict_of direction <$> full)
    /\ truncated w = (Z.to_nat max_results <? length full)%nat
    /\ (depth_exhausted w = true -> exists lot, dist (Z.to_nat max_depth) lot)
    /\ (truncated w = false -> (exists lot, dist (Z.to_nat max_depth) lot) -> depth_exhausted w = true).
Proof.
  intros Hdir Hd dist. destruct (trace_walk_spec table tenant_id direction Hdir tlc max_depth max_results Hd)
    as (full & v & e & w & k & W & I & Hl & Ht & He & Hf).
  destruct (bfs_done table tenant_id direction (Z.to_nat max_depth) tlc k v e full) as [Hv Hex]; [lia|done|].
  exists w, full, (from_lots tenant_id direction v). split; [done|]. split; [|split; [apply I|split; [apply I|split; [apply I|]]]].
  - intros r. unfold from_lots. rewrite andb_true_iff, String.eqb_eq, bool_decide_eq_true, Hv.
    split; intros [? (n & ? & ?)]; (split; [done|exists n; split; [done|lia]]).
  - split; [done|]. split; [done|]. split; [by intros ?%He%Hex|]. intros Hc ?%Hex. by rewrite (Hf Hc).
Qed.

(** A trace that sets neither flag is complete: every link of the tenant whose source lot can be
    reached from the start, over any number of links, is listed. *)
Theorem unflagged_trace_complete table tenant_id tlc direction max_depth max_results w :
  trace_walk table tenant_id tlc direction max_depth max_results = Ok w ->
  truncated w = false -> depth_exhausted w = false ->
  forall n r, path table tenant_id direction tlc n (link_source direction r) -> r ∈ table -> tl_tenant_id r = tenant_id ->
  exists d, link_dict direction r d ∈ links w /\ distance table tenant_id direction tlc d (link_source direction r).
Proof.
  intros W Ht He n r Hp Hr Htid.
  assert (Hdir : direction = "forward" \/ direction = "backward").
  { unfold trace_walk in W. destruct (String.eqb_spec direction "forward") as [->|]; [by left|].
    destruct (String.eqb_spec direction "backward") as [->|]; [by right|done]. }
  assert (Hd : (1 <= max_depth)%Z).
  { unfold trace_walk in W. rewrite (direction_ok _ Hdir) in W. cbn in W. by destruct (Z.ltb_spec max_depth 1). }
  destruct (trace_walk_spec table tenant_id direction Hdir tlc max_depth max_results Hd)
    as (full & v & e & w' & k & W' & I & Hl & Hc & _ & Hf). rewrite W in W'. apply Ok_inv in W' as <-.
  rewrite Ht in Hc. symmetry in Hc. apply Nat.ltb_ge in Hc. specialize (Hf Ht). rewrite He in Hf. subst e.
  assert (Hv : forall m y, path table tenant_id direction tlc m y -> y ∈ v).
  { induction 1 as [|m y q Hq IH Hin].
    - by destruct (b_start _ _ _ _ _ _ _ _ _ _ I) as [|[]%not_elem_of_nil].
    - destruct (b_visited _ _ _ _ _ _ _ _ _ _ I y IH) as (d & Hdist & _).
      by destruct (b_closed _ _ _ _ _ _ _ _ _ _ I y d q IH Hdist Hin) as [|[(x & _ & []%not_elem_of_nil)|[_ [=]]]]. }
  assert (Hfull : r ∈ fst <$> full).
  { rewrite (b_found _ _ _ _ _ _ _ _ _ _ I). apply elem_of_where. split; [done|]. unfold from_lots.
    rewrite Htid, String.eqb_refl. apply bool_decide_eq_true. by apply (Hv n). }
  apply list_elem_of_fmap in Hfull as ([r' d] & -> & Hin). exists d. split.
  - rewrite Hl, take_ge by (by rewrite length_fmap). apply list_elem_of_fmap. by exists (r', d).
  - pose proof (b_depths _ _ _ _ _ _ _ _ _ _ I) as Hds. rewrite Forall_forall in Hds. apply (Hds (r', d) Hin).
Qed.

(** ** Witnesses *)

Definition demo_link (event input output : string) : link_row :=
  LinkRow "t1" event input None output (Some event) None None (Some (f_of_Z 5)) (Some "lb") None (Some f0) (Some "explicit").

(** Two lots are mixed, repacked and mixed again with the first. *)
Definition demo_links : list link_row :=
  [demo_link "e1" "A" "C"; demo_link "e1" "B" "C"; demo_link "e2" "C" "D"; demo_link "e3" "D" "E"; demo_link "e3" "A" "E"].

Lemma trace_walk_exact_witness : exists w (full : list (link_row * nat)) near,
  trace_walk demo_links "t1" "E" "backward" 2 10 = Ok w
  /\ fst <$> full ≡ₚ where_ near demo_links /\ truncated w = false /\ depth_exhausted w = true /\ length (links w) = 3%nat.
Proof.
  destruct (trace_walk_exact demo_links "t1" "E" "backward" 2 10 (or_intror eq_refl) (Z.lt_le_incl 1 2 eq_refl))
    as (w & full & near & W & _ & Hp & _). exists w, full, near. split; [exact W|]. split; [exact Hp|].
  vm_compute in W. apply Ok_inv in W as <-. repeat split.
Defined.

Lemma unflagged_trace_complete_witness : exists w d,
  trace_walk demo_links "t1" "E" "backward" 5 10 = Ok w /\ link_dict "backward" (demo_link "e1" "B" "C") d ∈ links w.
Proof.
  destruct (trace_walk demo_links "t1" "E" "backward" 5 10) as [w|x] eqn:W; [|exfalso; vm_compute in W; discriminate W].
  assert (Hf : truncated w = false /\ depth_exhausted w = false) by (vm_compute in W; apply Ok_inv in W as <-; split; reflexivity).
  destruct (unflagged_trace_complete demo_links "t1" "E" "backward" 5 10 w W (proj1 Hf) (proj2 Hf) 2 (demo_link "e1" "B" "C"))
    as (d & Hd & _).
  - apply (path_link demo_links "t1" "backward" "E" 1 "D" (demo_link "e2" "C" "D")); [|by vm_compute; left].
    apply (path_link demo_links "t1" "backward" "E" 0 "E" (demo_link "e3" "D" "E")); [apply path_here|by vm_compute; left].
  - right. left.
  - reflexivity.
  - exists w, d. split; [reflexivity|exact Hd].
Defined.

(** A link whose recorded confidence is zero is returned with confidence one. *)
Lemma zero_confidence_reads_as_one :
  dict_get (link_dict "forward" (demo_link "e1" "A" "C") 0) "confidence_score" PNone = PFloat (f_of_Z 1).
Proof. reflexivity. Qed.
