(* ===== verification/Billing.v ===== *)
(** * Metered usage

    [services/ingestion/app/stripe_billing/usage.py]: the calendar month an accepted event is billed in,
    the ledger that makes counting idempotent and the counters.  Wall-clock times count from the
    midnight before 0000-03-01 of the proleptic Gregorian calendar.  Proved: dates and day numbers
    correspond; the counters are the sizes of the ledger's months, and an event is counted once. *)

From Stdlib Require Import ZArith Lia String.
From stdpp Require Import base list strings.
From S2P Require Import Prelude PyStr PyVal Db.

Local Open Scope Z_scope.

(** ** Dates *)

(** A [date] is year, month and day. *)
Definition date : Type := (Z * Z * Z)%type.
Definition microseconds_per_day : Z := 86400000000.

(** Years run from March in eras of 400. *)
Definition year_of_era (doe : Z) : Z := (doe - doe / 1460 + doe / 36524 - doe / 146096) / 365.
Definition day_of_year (doe : Z) : Z := doe - (365 * year_of_era doe + year_of_era doe / 4 - year_of_era doe / 100).
Definition month_of_year (doy : Z) : Z := (5 * doy + 2) / 153.

(** The date of a day number; [days_of] is the inverse. *)
Definition civil (n : Z) : date :=
  let era := (n - 1) / 146097 in
  let doe := (n - 1) mod 146097 in
  let mp := month_of_year (day_of_year doe) in
  let m := if mp <? 10 then mp + 3 else mp - 9 in
  (year_of_era doe + era * 400 + (if m <=? 2 then 1 else 0), m, day_of_year doe - (153 * mp + 2) / 5 + 1).

(** [as_of] of an event: the UTC day of an aware timestamp, the day of a naive one. *)
Definition as_of (ts : datetime) : date :=
  civil ((dt_wall ts - match dt_offset ts with Some o => o | None => 0 end) / microseconds_per_day).

(** Python has no date after the year 9999: for December of that year [period_end] raises ValueError
    there, which is left out. *)
Definition _current_billing_period (d : date) : date * date :=
  let '(y, m, _) := d in
  ((y, m, 1), if m =? 12 then (y + 1, 1, 1) else (y, m + 1, 1)).

(** ** The tables *)

Record ledger_row := LedgerRow { ul_tenant_id : string; ul_event_id : string; ul_billing_period_start : date }.
Record counter_row := CounterRow {
  uc_tenant_id : string; uc_billing_period_start : date; uc_billing_period_end : date; uc_unit_count : Z
}.
Record usage := Usage { usage_ledger : list ledger_row; usage_counters : list counter_row }.
Definition no_usage : usage := Usage [] [].

Definition date_eqb (a b : date) : bool := bool_decide (a = b).

Definition counter_key (t : string) (p : date) (c : counter_row) : bool :=
  String.eqb (uc_tenant_id c) t && date_eqb (uc_billing_period_start c) p.

(** The upsert of [billing.tenant_usage_counters]. *)
Definition bump_counter (t : string) (start finish : date) (counters : list counter_row) : list counter_row :=
  if existsb (counter_key t start) counters
  then update_where (counter_key t start)
         (fun c => CounterRow (uc_tenant_id c) (uc_billing_period_start c) (uc_billing_period_end c) (uc_unit_count c + 1)) counters
  else (counters ++ [CounterRow t start finish 1])%list.

(** Whether the event is in the ledger. *)
Definition counted (t id : string) (u : usage) : bool :=
  existsb (fun r => String.eqb (ul_tenant_id r) t && String.eqb (ul_event_id r) id) (usage_ledger u).

Definition increment_usage_for_event (u : usage) (tenant_id event_id : string) (event_timestamp : datetime) : usage * bool :=
  let '(period_start, period_end) := _current_billing_period (as_of event_timestamp) in
  if counted tenant_id event_id u then (u, false)
  else (Usage (usage_ledger u ++ [LedgerRow tenant_id event_id period_start])
              (bump_counter tenant_id period_start period_end (usage_counters u)), true).

(** ** The calendar *)

Lemma era_bounds doe : 0 <= doe < 146097 -> 0 <= year_of_era doe < 400 /\ 0 <= day_of_year doe < 366.
Proof. intros H. unfold day_of_year, year_of_era. Z.to_euclidean_division_equations. lia. Qed.

Lemma month_bounds doy : 0 <= doy < 366 ->
  0 <= month_of_year doy < 12 /\ 1 <= doy - (153 * month_of_year doy + 2) / 5 + 1 <= 31.
Proof. intros H. unfold month_of_year. Z.to_euclidean_division_equations. lia. Qed.

Lemma civil_spec n : let '(y, m, d) := civil n in days_of y m d = n /\ 1 <= m <= 12 /\ 1 <= d <= 31.
Proof.
  unfold civil. set (doe := (n - 1) mod 146097). set (era := (n - 1) / 146097).
  assert (Hn : n - 1 = 146097 * era + doe) by (apply Z.div_mod; lia).
  destruct (era_bounds doe) as [Hy Hdoy]; [apply Z.mod_pos_bound; lia|].
  destruct (month_bounds (day_of_year doe) Hdoy) as [Hm Hday].
  assert (Hdoe : 365 * year_of_era doe + year_of_era doe / 4 - year_of_era doe / 100 + day_of_year doe = doe) by (unfold day_of_year; lia).
  generalize dependent (day_of_year doe). intros doy Hdoy Hm Hday Hdoe. generalize dependent (year_of_era doe). intros yoe Hy Hdoe.
  generalize dependent (month_of_year doy). intros mp Hm Hday. clearbody doe era.
  unfold days_of. destruct (Z.ltb_spec mp 10).
  - replace (mp + 3 <=? 2) with false by (symmetry; apply Z.leb_gt; lia). split; [|lia].
    replace (mp + 3 - 3) with mp by lia. Z.to_euclidean_division_equations. lia.
  - replace (mp - 9 <=? 2) with true by (symmetry; apply Z.leb_le; lia). split; [|lia].
    replace (mp - 9 + 9) with mp by lia. Z.to_euclidean_division_equations. lia.
Qed.

(** The events of a month lie in its period. *)
Definition date_le (a b : date) : Prop :=
  let '(y, m, d) := a in let '(y', m', d') := b in y < y' \/ (y = y' /\ (m < m' \/ (m = m' /\ d <= d'))).

Lemma period_contains ts :
  let '(start, finish) := _current_billing_period (as_of ts) in
  date_le start (as_of ts) /\ date_le (as_of ts) finish /\ as_of ts <> finish.
Proof.
  unfold as_of. set (n := (_ / _)). pose proof (civil_spec n) as Hc. destruct (civil n) as [[y m] d]. destruct Hc as (_ & Hm & Hd).
  cbn. destruct (Z.eqb_spec m 12) as [->|]; cbn; (split; [lia|split; [lia|intros [=]; lia]]).
Qed.

(** ** Counting *)

(** What the counter of a month says, and how many of a tenant's events the ledger has in it. *)
Definition counter_value (t : string) (p : date) (counters : list counter_row) : Z :=
  match List.find (counter_key t p) counters with Some c => uc_unit_count c | None => 0 end.
Definition unit_count (u : usage) (t : string) (p : date) : Z := counter_value t p (usage_counters u).
Definition billed (u : usage) (t : string) (p : date) : Z :=
  Z.of_nat (count_where (fun r => String.eqb (ul_tenant_id r) t && date_eqb (ul_billing_period_start r) p) (usage_ledger u)).

Record usage_ok (u : usage) : Prop := {
  uo_ledger : NoDup ((fun r => (ul_tenant_id r, ul_event_id r)) <$> usage_ledger u);
  uo_counts : forall t p, unit_count u t p = billed u t p
}.

Lemma no_usage_ok : usage_ok no_usage.
Proof. split; [constructor|done]. Qed.

Lemma counted_iff t id u : counted t id u = true <-> exists r, r ∈ usage_ledger u /\ ul_tenant_id r = t /\ ul_event_id r = id.
Proof.
  unfold counted. rewrite existsb_exists. setoid_rewrite andb_true_iff. setoid_rewrite String.eqb_eq. setoid_rewrite <- list_elem_of_In.
  naive_solver.
Qed.

Lemma bump_counter_value t p t' start finish cs :
  counter_value t p (bump_counter t' start finish cs) = counter_value t p cs + (if String.eqb t' t && date_eqb start p then 1 else 0).
Proof.
  unfold counter_value, bump_counter.
  assert (Hkey : forall c, counter_key t' start c = true -> counter_key t p c = String.eqb t' t && date_eqb start p)
    by (intros c [E1%String.eqb_eq E2%bool_decide_eq_true]%andb_true_iff; unfold counter_key; by rewrite E1, E2).
  assert (Hkey' : forall c, String.eqb t' t && date_eqb start p = true -> counter_key t' start c = counter_key t p c)
    by (intros c [<-%String.eqb_eq <-%bool_decide_eq_true]%andb_true_iff; done).
  set (b := String.eqb t' t && date_eqb start p) in *.
  assert (Hnew : counter_key t p (CounterRow t' start finish 1) = b) by done. clearbody b.
  destruct (existsb (counter_key t' start) cs) eqn:Ex; cbn.
  - clear Hnew. induction cs as [|c cs IH]; [done|]. cbn in *. destruct (counter_key t' start c) eqn:Ec.
    + change (counter_key t p (CounterRow _ _ _ _)) with (counter_key t p c). rewrite (Hkey c Ec).
      destruct b; [done|]. clear IH Ex. induction cs as [|d cs IH]; cbn; [done|].
      destruct (counter_key t' start d) eqn:Ed; [|destruct (counter_key t p d); [lia|exact IH]].
      change (counter_key t p (CounterRow _ _ _ _)) with (counter_key t p d). rewrite (Hkey d Ed). exact IH.
    + destruct (counter_key t p c) eqn:Ek; [|by apply IH].
      destruct b; [|lia]. by rewrite (Hkey' c eq_refl), Ek in Ec.
  - rewrite <- not_true_iff_false, existsb_exists in Ex. clear Hkey.
    induction cs as [|c cs IH]; cbn; [rewrite Hnew; by destruct b|].
    destruct (counter_key t p c) eqn:Ek; [|apply IH; intros (d & ? & ?); apply Ex; exists d; split; [by right|done]].
    destruct b; [|lia]. destruct Ex. exists c. split; [by left|]. by rewrite (Hkey' c eq_refl).
Qed.

Lemma count_where_snoc {R} (p : R -> bool) l x : count_where p (l ++ [x]) = (count_where p l + if p x then 1 else 0)%nat.
Proof. unfold count_where, where_. rewrite List.filter_app, length_app. cbn. by destruct (p x). Qed.

Lemma increment_ok u t id ts : usage_ok u -> usage_ok (increment_usage_for_event u t id ts).1.
Proof.
  intros [I1 I2]. unfold increment_usage_for_event. destruct (_current_billing_period _) as [start finish].
  destruct (counted t id u) eqn:Ec; [by split|]. split; cbn.
  - rewrite fmap_app. apply NoDup_app. split; [done|]. split; [|apply NoDup_singleton].
    intros x (r & -> & Hr)%list_elem_of_fmap_1 [= <- <-]%list_elem_of_singleton.
    apply not_true_iff_false in Ec. apply Ec, counted_iff. by exists r.
  - intros t' p. unfold unit_count, billed. cbn [fst usage_ledger usage_counters].
    rewrite bump_counter_value, count_where_snoc. cbn [ul_tenant_id ul_billing_period_start].
    specialize (I2 t' p). unfold unit_count, billed in I2. rewrite I2. destruct (_ && _); lia.
Qed.

Lemma increment_counted u t id ts : counted t id (increment_usage_for_event u t id ts).1 = true.
Proof.
  unfold increment_usage_for_event. destruct (_current_billing_period _). destruct (counted t id u) eqn:Ec; [done|].
  apply counted_iff. eexists. split; [cbn; apply elem_of_app; right; apply list_elem_of_here|done].
Qed.

Lemma increment_keeps u t id t' id' ts : counted t id u = true -> counted t id (increment_usage_for_event u t' id' ts).1 = true.
Proof.
  intros Hc. unfold increment_usage_for_event. destruct (_current_billing_period _). destruct (counted t' id' u); [done|].
  apply counted_iff in Hc as (r & Hr & E). apply counted_iff. exists r. split; [apply elem_of_app; by left|done].
Qed.

(** C27. Whatever calls are made, repeated ones included: an event is in the ledger at most once, the
    counter of a tenant's month is the number of the tenant's events that the ledger has in it, and
    every event is in the ledger. *)
Theorem usage_counts_once (calls : list (string * string * datetime)) t p :
  let u := fold_left (fun u '(t, id, ts) => (increment_usage_for_event u t id ts).1) calls no_usage in
  NoDup ((fun r => (ul_tenant_id r, ul_event_id r)) <$> usage_ledger u) /\ unit_count u t p = billed u t p
  /\ Forall (fun '(t', id, ts) => exists r, r ∈ usage_ledger u /\ ul_tenant_id r = t' /\ ul_event_id r = id) calls.
Proof.
  cbn zeta. set (f := fun u (c : string * string * datetime) => _).
  assert (Hok : forall u, usage_ok u -> usage_ok (fold_left f calls u)).
  { induction calls as [|[[t' id] ts] calls IH]; intros u Hu; cbn; [done|]. by apply IH, increment_ok. }
  destruct (Hok no_usage no_usage_ok) as [H1 H2]. split; [done|]. split; [done|]. clear Hok H1 H2.
  assert (Hkeep : forall l u t' id, counted t' id u = true -> counted t' id (fold_left f l u) = true).
  { induction l as [|[[t1 id1] ts1] l IH]; intros u t' id Hc; cbn; [done|]. by apply IH, increment_keeps. }
  generalize no_usage. induction calls as [|[[t' id] ts] calls IH]; intros u; constructor; [|apply IH].
  apply counted_iff. cbn. apply Hkeep, increment_counted.
Qed.
