(* ===== verification/CanonicalEvent.v ===== *)
(** * The canonical event

    [TraceabilityEvent] of [services/shared/canonical_event.py] and what happens to it before it is
    stored: the size limit of the raw payload, the Food Traceability List hint, digest, idempotency key
    and normalized payload; the versions of the envelope.  The digest itself is in Hashing.v.  Proved:
    preparing is idempotent and hints never override a signal of the caller. *)

From Stdlib Require Import ZArith Lia String.
From Corelib Require Import SpecFloat.
From stdpp Require Import base list strings.
From S2P Require Import Prelude PyStr PyFloat PyVal Json Sha256 Hashing Rules Ftl.

Local Open Scope string_scope.

(** ** Enumerations *)

Inductive CTEType :=
| HARVESTING | COOLING | INITIAL_PACKING | FIRST_LAND_BASED_RECEIVING | SHIPPING | RECEIVING | TRANSFORMATION.
Definition cte_text (t : CTEType) : string :=
  match t with
  | HARVESTING => "harvesting" | COOLING => "cooling" | INITIAL_PACKING => "initial_packing"
  | FIRST_LAND_BASED_RECEIVING => "first_land_based_receiving" | SHIPPING => "shipping"
  | RECEIVING => "receiving" | TRANSFORMATION => "transformation"
  end.

Inductive EventStatus := ACTIVE | SUPERSEDED | REJECTED | DRAFT.
#[export] Instance event_status_eq_dec : EqDecision EventStatus.
Proof. solve_decision. Defined.
Definition status_text (s : EventStatus) : string :=
  match s with ACTIVE => "active" | SUPERSEDED => "superseded" | REJECTED => "rejected" | DRAFT => "draft" end.

Inductive IngestionSource :=
| WEBHOOK_API | CSV_UPLOAD | XLSX_UPLOAD | EPCIS_API | EPCIS_XML | EDI | MANUAL | MOBILE_CAPTURE | SUPPLIER_PORTAL | LEGACY_V002.
Definition source_text (s : IngestionSource) : string :=
  match s with
  | WEBHOOK_API => "webhook_api" | CSV_UPLOAD => "csv_upload" | XLSX_UPLOAD => "xlsx_upload" | EPCIS_API => "epcis_api"
  | EPCIS_XML => "epcis_xml" | EDI => "edi" | MANUAL => "manual" | MOBILE_CAPTURE => "mobile_capture"
  | SUPPLIER_PORTAL => "supplier_portal" | LEGACY_V002 => "legacy_v002"
  end.

(** ** The event *)

(** [ev_provenance_metadata] is what [to_dict] gives. *)
Record TraceabilityEvent := {
  ev_event_id : string;
  ev_tenant_id : string;
  ev_schema_version : Z;
  ev_source_system : IngestionSource;
  ev_source_record_id : option string;
  ev_source_file_id : option string;
  ev_ingestion_run_id : option string;
  ev_event_type : CTEType;
  ev_event_timestamp : datetime;
  ev_event_timezone : string;
  ev_product_reference : option string;
  ev_lot_reference : option string;
  ev_traceability_lot_code : string;
  ev_quantity : f64;
  ev_unit_of_measure : string;
  ev_from_entity_reference : option string;
  ev_to_entity_reference : option string;
  ev_from_facility_reference : option string;
  ev_to_facility_reference : option string;
  ev_transport_reference : option string;
  ev_kdes : pydict;
  ev_raw_payload : pydict;
  ev_normalized_payload : pydict;
  ev_provenance_metadata : pydict;
  ev_confidence_score : f64;
  ev_status : EventStatus;
  ev_supersedes_event_id : option string;
  ev_sha256_hash : option string;
  ev_chain_hash : option string;
  ev_idempotency_key : option string;
  ev_epcis_event_type : option string;
  ev_epcis_action : option string;
  ev_epcis_biz_step : option string
}.

Definition opt_text (o : option string) : pyval := match o with Some s => PStr s | None => PNone end.

(** The event with other key data elements, or with its computed fields. *)
Definition with_kdes (e : TraceabilityEvent) (kdes : pydict) : TraceabilityEvent :=
  {| ev_event_id := ev_event_id e; ev_tenant_id := ev_tenant_id e; ev_schema_version := ev_schema_version e;
     ev_source_system := ev_source_system e; ev_source_record_id := ev_source_record_id e;
     ev_source_file_id := ev_source_file_id e; ev_ingestion_run_id := ev_ingestion_run_id e;
     ev_event_type := ev_event_type e; ev_event_timestamp := ev_event_timestamp e; ev_event_timezone := ev_event_timezone e;
     ev_product_reference := ev_product_reference e; ev_lot_reference := ev_lot_reference e;
     ev_traceability_lot_code := ev_traceability_lot_code e; ev_quantity := ev_quantity e;
     ev_unit_of_measure := ev_unit_of_measure e; ev_from_entity_reference := ev_from_entity_reference e;
     ev_to_entity_reference := ev_to_entity_reference e; ev_from_facility_reference := ev_from_facility_reference e;
     ev_to_facility_reference := ev_to_facility_reference e; ev_transport_reference := ev_transport_reference e;
     ev_kdes := kdes; ev_raw_payload := ev_raw_payload e; ev_normalized_payload := ev_normalized_payload e;
     ev_provenance_metadata := ev_provenance_metadata e; ev_confidence_score := ev_confidence_score e;
     ev_status := ev_status e; ev_supersedes_event_id := ev_supersedes_event_id e; ev_sha256_hash := ev_sha256_hash e;
     ev_chain_hash := ev_chain_hash e; ev_idempotency_key := ev_idempotency_key e;
     ev_epcis_event_type := ev_epcis_event_type e; ev_epcis_action := ev_epcis_action e; ev_epcis_biz_step := ev_epcis_biz_step e |}.
Definition with_computed (e : TraceabilityEvent) (sha chain key : option string) (payload : pydict) : TraceabilityEvent :=
  {| ev_event_id := ev_event_id e; ev_tenant_id := ev_tenant_id e; ev_schema_version := ev_schema_version e;
     ev_source_system := ev_source_system e; ev_source_record_id := ev_source_record_id e;
     ev_source_file_id := ev_source_file_id e; ev_ingestion_run_id := ev_ingestion_run_id e;
     ev_event_type := ev_event_type e; ev_event_timestamp := ev_event_timestamp e; ev_event_timezone := ev_event_timezone e;
     ev_product_reference := ev_product_reference e; ev_lot_reference := ev_lot_reference e;
     ev_traceability_lot_code := ev_traceability_lot_code e; ev_quantity := ev_quantity e;
     ev_unit_of_measure := ev_unit_of_measure e; ev_from_entity_reference := ev_from_entity_reference e;
     ev_to_entity_reference := ev_to_entity_reference e; ev_from_facility_reference := ev_from_facility_reference e;
     ev_to_facility_reference := ev_to_facility_reference e; ev_transport_reference := ev_transport_reference e;
     ev_kdes := ev_kdes e; ev_raw_payload := ev_raw_payload e; ev_normalized_payload := payload;
     ev_provenance_metadata := ev_provenance_metadata e; ev_confidence_score := ev_confidence_score e;
     ev_status := ev_status e; ev_supersedes_event_id := ev_supersedes_event_id e; ev_sha256_hash := sha;
     ev_chain_hash := chain; ev_idempotency_key := key;
     ev_epcis_event_type := ev_epcis_event_type e; ev_epcis_action := ev_epcis_action e; ev_epcis_biz_step := ev_epcis_biz_step e |}.

(** ** Limits *)

Definition RAW_PAYLOAD_DEFAULT_MAX_BYTES : Z := 262144.
Definition RAW_PAYLOAD_HARD_CEILING_BYTES : Z := 1048576.

(** From the value of REGENGINE_RAW_PAYLOAD_MAX_BYTES. *)
Definition _raw_payload_max_bytes (env : option string) : Z :=
  match env with
  | None => RAW_PAYLOAD_DEFAULT_MAX_BYTES
  | Some raw =>
      match int_of_text (strip raw) with
      | None => RAW_PAYLOAD_DEFAULT_MAX_BYTES
      | Some value =>
          if (value <=? 0)%Z then RAW_PAYLOAD_DEFAULT_MAX_BYTES
          else if (value >? RAW_PAYLOAD_HARD_CEILING_BYTES)%Z then RAW_PAYLOAD_HARD_CEILING_BYTES
          else value
      end
  end.

Definition RawPayloadTooLargeError (size_bytes max_bytes : Z) : exn :=
  Exn "RawPayloadTooLargeError"
    ("raw_payload serialized size " +:+ str_of_Z size_bytes +:+ " bytes exceeds max " +:+ str_of_Z max_bytes
     +:+ " bytes (#1290). Set REGENGINE_RAW_PAYLOAD_MAX_BYTES to override, up to "
     +:+ str_of_Z RAW_PAYLOAD_HARD_CEILING_BYTES +:+ " bytes.").

(** [len(text.encode("utf-8"))]. *)
Definition byte_size (text : string) : Z := Z.of_nat (length (utf8 text)).

(** ** Versions of the envelope *)

Definition SCHEMA_VERSION : Z := 1.
Definition KNOWN_VERSIONS : list Z := [1%Z].
Definition _LEGACY_SCHEMA_VERSION_STRINGS : list string := ["1.0.0"; "1.0"; "1"; "v1"; "v1.0"; "v1.0.0"].

Section Event.
Context `{PyLib}.

(** [float.is_integer] and [int] of it. *)
Definition float_as_int (f : f64) : option Z :=
  match f with
  | S754_zero _ => Some 0%Z
  | S754_finite neg m e =>
      let sign z := if neg then (- z)%Z else z in
      if (0 <=? e)%Z then Some (sign (Zpos m * 2 ^ e)%Z)
      else if (Zpos m mod 2 ^ (- e) =? 0)%Z then Some (sign (Zpos m / 2 ^ (- e))%Z) else None
  | _ => None
  end.

Definition _coerce_schema_version (v : pyval) : res Z :=
  match v with
  | PNone => Ok SCHEMA_VERSION
  | PBool _ => Raise (ValueError ("schema_version must be int, got bool: " +:+ py_repr v))
  | PInt z => Ok z
  | PFloat f =>
      match float_as_int f with
      | Some z => Ok z
      | None => Raise (ValueError ("schema_version float not recognised: " +:+ py_repr v))
      end
  | PStr s =>
      let stripped := strip s in
      if existsb (String.eqb stripped) _LEGACY_SCHEMA_VERSION_STRINGS then Ok 1%Z
      else match int_of_text stripped with
           | Some z => Ok z
           | None => Raise (ValueError ("schema_version string not recognised: " +:+ repr_str s +:+ ". Known legacy strings: "
                       +:+ py_repr (PList ((fun kv => PStr (fst kv)) <$> key_sort ((fun x => (x, tt)) <$> _LEGACY_SCHEMA_VERSION_STRINGS)))))
           end
  | _ => Raise (TypeError ("schema_version must be int or legacy str, got " +:+ type_name v))
  end.

(** The checks of [parse_traceability_event] on a payload that is already an object; the fields are
    then validated by the model. *)
Definition check_version (raw : pydict) : res unit :=
  let raw_version := dict_get raw "schema_version" (PInt SCHEMA_VERSION) in
  match _coerce_schema_version raw_version with
  | Raise e =>
      Raise (ValueError ("schema_version_unsupported:" +:+ py_repr raw_version +:+ " (coercion failed: " +:+ exn_msg e +:+ ")"))
  | Ok peeked =>
      if existsb (Z.eqb peeked) KNOWN_VERSIONS then Ok tt
      else Raise (ValueError ("schema_version_unsupported:" +:+ str_of_Z peeked))
  end.

(** ** Preparation *)

(** The hashed fields. *)
Definition hashed (e : TraceabilityEvent) : canonical_event :=
  {| ce_event_id := ev_event_id e; ce_tenant_id := ev_tenant_id e; ce_event_type := cte_text (ev_event_type e);
     ce_tlc := ev_traceability_lot_code e; ce_product_reference := ev_product_reference e; ce_quantity := ev_quantity e;
     ce_unit_of_measure := ev_unit_of_measure e; ce_from_facility := ev_from_facility_reference e;
     ce_to_facility := ev_to_facility_reference e; ce_event_timestamp := ev_event_timestamp e; ce_kdes := ev_kdes e |}.

Definition opts_compact_str : json_opts := JsonOpts true "," ":" true.

(** [TraceabilityEvent.compute_idempotency_key]. *)
Definition event_idempotency_key (e : TraceabilityEvent) : res string :=
  do canonical <- json_dumps opts_compact_str (PDict
    [("event_type", PStr (cte_text (ev_event_type e))); ("tlc", PStr (ev_traceability_lot_code e));
     ("timestamp", PStr (isoformat (ev_event_timestamp e))); ("source", PStr (source_text (ev_source_system e)));
     ("from_facility", PStr (ostr_or (ev_from_facility_reference e) ""));
     ("to_facility", PStr (ostr_or (ev_to_facility_reference e) "")); ("kdes", PDict (ev_kdes e))]);
  Ok (sha256_hex canonical).

Definition build_normalized_payload (e : TraceabilityEvent) : pydict :=
  [("event_id", PStr (ev_event_id e)); ("event_type", PStr (cte_text (ev_event_type e)));
   ("traceability_lot_code", PStr (ev_traceability_lot_code e)); ("product_reference", opt_text (ev_product_reference e));
   ("lot_reference", opt_text (ev_lot_reference e)); ("quantity", PFloat (ev_quantity e));
   ("unit_of_measure", PStr (ev_unit_of_measure e)); ("event_timestamp", PStr (isoformat (ev_event_timestamp e)));
   ("event_timezone", PStr (ev_event_timezone e)); ("from_entity_reference", opt_text (ev_from_entity_reference e));
   ("to_entity_reference", opt_text (ev_to_entity_reference e)); ("from_facility_reference", opt_text (ev_from_facility_reference e));
   ("to_facility_reference", opt_text (ev_to_facility_reference e)); ("transport_reference", opt_text (ev_transport_reference e));
   ("kdes", PDict (ev_kdes e)); ("schema_version", PInt (ev_schema_version e))].

(** [self.product_reference or self.kdes.get("product_description")]. *)
Definition hint_text (e : TraceabilityEvent) : pyval :=
  if truthy (opt_text (ev_product_reference e)) then opt_text (ev_product_reference e)
  else dict_get (ev_kdes e) "product_description" PNone.

Definition _apply_ftl_hint (e : TraceabilityEvent) : TraceabilityEvent :=
  if event_has_ftl_hint (PDict [("kdes", PDict (ev_kdes e))]) then e
  else match infer_ftl_category_from_text (hint_text e) with
       | None => e
       | Some category => with_kdes e (dict_set "ftl_covered" (PBool true) (dict_set "ftl_category" (PStr category) (ev_kdes e)))
       end.

(** [env] is the value of the environment variable. *)
Definition _enforce_raw_payload_size (env : option string) (e : TraceabilityEvent) : res unit :=
  match ev_raw_payload e with
  | [] => Ok tt
  | _ =>
      do serialized <- json_dumps opts_str (PDict (ev_raw_payload e));
      if (byte_size serialized >? _raw_payload_max_bytes env)%Z
      then Raise (RawPayloadTooLargeError (byte_size serialized) (_raw_payload_max_bytes env)) else Ok tt
  end.

Definition prepare_for_persistence (env : option string) (e : TraceabilityEvent) : res TraceabilityEvent :=
  do _ <- _enforce_raw_payload_size env e;
  let e := _apply_ftl_hint e in
  do sha <- compute_sha256_hash (hashed e);
  do key <- event_idempotency_key e;
  Ok (with_computed e (Some sha) (ev_chain_hash e) (Some key) (build_normalized_payload e)).

(** ** Facts *)

Lemma hashed_computed e sha chain key payload : hashed (with_computed e sha chain key payload) = hashed e.
Proof. done. Qed.

Lemma infer_listed text c : infer_ftl_category_from_text text = Some c -> c <> "".
Proof.
  unfold infer_ftl_category_from_text. destruct (Ftl._normalize text); [|done].
  destruct (List.find _ _) as [[k v]|] eqn:E; [|done]. intros [= <-]. apply List.find_some in E as [Hin _]. cbn.
  assert (Hall : Forall (fun p => snd p <> "") FTL_KEYWORD_CATEGORIES) by (apply (bool_decide_unpack _); vm_compute; exact I).
  rewrite Forall_forall in Hall. by apply (Hall (k, v)), list_elem_of_In.
Qed.

(** A caller's signal stays, and the hint is there afterwards whenever the text names a category. *)
Lemma hint_exact e :
  let e' := _apply_ftl_hint e in
  (event_has_ftl_hint (PDict [("kdes", PDict (ev_kdes e))]) = true -> e' = e)
  /\ (forall k, k <> "ftl_category" -> k <> "ftl_covered" -> dict_get (ev_kdes e') k PNone = dict_get (ev_kdes e) k PNone)
  /\ _apply_ftl_hint e' = e'.
Proof.
  unfold _apply_ftl_hint. destruct (event_has_ftl_hint _) eqn:Eh; [by rewrite Eh|].
  destruct (infer_ftl_category_from_text (hint_text e)) as [c|] eqn:Ec; [|by rewrite Eh, Ec].
  split; [done|]. split.
  - intros k H1 H2. cbn [with_kdes ev_kdes]. by rewrite !dict_get_set_ne by congruence.
  - match goal with |- (if ?b then _ else _) = _ => assert (E : b = true) end; [|by rewrite E].
    unfold event_has_ftl_hint. apply existsb_exists. exists "kdes.ftl_covered". split; [by left|].
    change (get_nested_value _ _) with (dict_get (dict_set "ftl_covered" (PBool true) (dict_set "ftl_category" (PStr c) (ev_kdes e))) "ftl_covered" PNone).
    by rewrite dict_get_set_eq.
Qed.

Lemma hint_tenant e : ev_tenant_id (_apply_ftl_hint e) = ev_tenant_id e.
Proof. unfold _apply_ftl_hint. destruct (event_has_ftl_hint _); [done|]. by destruct (infer_ftl_category_from_text _). Qed.

Lemma max_bytes_bounds env : (1 <= _raw_payload_max_bytes env <= RAW_PAYLOAD_HARD_CEILING_BYTES)%Z.
Proof.
  unfold _raw_payload_max_bytes, RAW_PAYLOAD_DEFAULT_MAX_BYTES, RAW_PAYLOAD_HARD_CEILING_BYTES.
  destruct env as [raw|]; [|lia]. destruct (int_of_text _) as [v|]; [|lia].
  destruct (Z.leb_spec v 0); [lia|]. destruct (Z.gtb_spec v 1048576); lia.
Qed.

(** Preparing fails only on an oversized payload. *)
Lemma prepare_total env e :
  (exists e', prepare_for_persistence env e = Ok e') \/
  (exists size, prepare_for_persistence env e = Raise (RawPayloadTooLargeError size (_raw_payload_max_bytes env))
                /\ (_raw_payload_max_bytes env < size)%Z).
Proof.
  unfold prepare_for_persistence, _enforce_raw_payload_size, compute_sha256_hash, event_idempotency_key.
  assert (Hrest : forall f : TraceabilityEvent, exists e', (do sha <- (do dumped <- json_dumps opts_sorted_str (PDict (ce_kdes (hashed f)));
      Ok (sha256_hex (canonical_text (hashed f) dumped))); do key <- event_idempotency_key f;
      Ok (with_computed f (Some sha) (ev_chain_hash f) (Some key) (build_normalized_payload f))) = Ok e').
  { intros f. destruct (json_dumps_default_total opts_sorted_str (PDict (ce_kdes (hashed f))) eq_refl) as [s ->]. cbn [rbind].
    unfold event_idempotency_key.
    match goal with |- context [json_dumps opts_compact_str ?v] => destruct (json_dumps_default_total opts_compact_str v eq_refl) as [s' ->] end.
    by eexists. }
  destruct (ev_raw_payload e) as [|kv d] eqn:Er; [left; apply Hrest|].
  destruct (json_dumps_default_total opts_str (PDict (kv :: d)) eq_refl) as [s ->]. cbn [rbind].
  destruct (Z.gtb_spec (byte_size s) (_raw_payload_max_bytes env)); [|left; apply Hrest].
  right. eexists. split; [done|lia].
Qed.

Lemma prepare_spec env e e' : prepare_for_persistence env e = Ok e' ->
  exists sha key, e' = with_computed (_apply_ftl_hint e) (Some sha) (ev_chain_hash e) (Some key) (build_normalized_payload (_apply_ftl_hint e))
    /\ compute_sha256_hash (hashed (_apply_ftl_hint e)) = Ok sha /\ event_idempotency_key (_apply_ftl_hint e) = Ok key.
Proof.
  unfold prepare_for_persistence. intros (u & _ & E)%rbind_Ok_inv. apply rbind_Ok_inv in E as (sha & Hs & E).
  apply rbind_Ok_inv in E as (key & Hk & E). apply Ok_inv in E as <-. exists sha, key.
  by replace (ev_chain_hash (_apply_ftl_hint e)) with (ev_chain_hash e)
    by (unfold _apply_ftl_hint; destruct (event_has_ftl_hint _); [|destruct (infer_ftl_category_from_text _)]; done).
Qed.
End Event.
