(* ===== verification/CanonicalNormalize.v ===== *)
(** * Normalisation into the canonical event

    The normalisers of [services/shared/canonical_event.py]: a webhook event, an EPCIS event and a row
    of a table become the arguments of [TraceabilityEvent], whose fields pydantic checks, and the event
    is prepared for the store.  The constructor is a parameter with the laws that pydantic documents;
    the validator of the timestamp is the program's own. *)

From Stdlib Require Import ZArith Lia String Ascii.
From Corelib Require Import SpecFloat.
From stdpp Require Import base list strings.
From S2P Require Import Prelude PyStr PyFloat PyVal Json Sha256 Hashing LotIdentity EpcisExtraction Uom EpcisNormalization CanonicalEvent.

Local Open Scope string_scope.

(** ** The constructor *)

(** The keyword arguments that the normalisers pass.  [pyval] members are checked by the model. *)
Record event_args := EventArgs {
  ea_tenant_id : string;
  ea_source_system : IngestionSource;
  ea_source_record_id : pyval;
  ea_ingestion_run_id : option string;
  ea_event_type : CTEType;
  ea_event_timestamp : pyval;
  ea_event_timezone : pyval;
  ea_product_reference : pyval;
  ea_lot_reference : pyval;
  ea_traceability_lot_code : string;
  ea_quantity : f64;
  ea_unit_of_measure : string;
  ea_from_facility : pyval;
  ea_to_facility : pyval;
  ea_from_entity : pyval;
  ea_to_entity : pyval;
  ea_transport : pyval;
  ea_kdes : pydict;
  ea_raw_payload : pydict;
  ea_provenance : pydict;
  ea_epcis_event_type : pyval;
  ea_epcis_action : pyval;
  ea_epcis_biz_step : pyval
}.

(** A new UUID and the reading of the clock in [ProvenanceMetadata]. *)
Record fresh := Fresh { fr_event_id : string; fr_ingestion_timestamp : string }.

(** What the model does with the members: texts stay, the timestamp is [at]. *)
Definition fields_kept (f : fresh) (a : event_args) (at_ : datetime) (e : TraceabilityEvent) : Prop :=
  ev_event_id e = fr_event_id f /\ ev_tenant_id e = ea_tenant_id a /\ ev_source_system e = ea_source_system a
  /\ opt_text (ev_source_record_id e) = ea_source_record_id a /\ ev_ingestion_run_id e = ea_ingestion_run_id a
  /\ ev_event_type e = ea_event_type a /\ ev_event_timestamp e = at_ /\ PStr (ev_event_timezone e) = ea_event_timezone a
  /\ opt_text (ev_product_reference e) = ea_product_reference a /\ opt_text (ev_lot_reference e) = ea_lot_reference a
  /\ ev_traceability_lot_code e = ea_traceability_lot_code a /\ ev_quantity e = ea_quantity a
  /\ ev_unit_of_measure e = ea_unit_of_measure a
  /\ opt_text (ev_from_facility_reference e) = ea_from_facility a /\ opt_text (ev_to_facility_reference e) = ea_to_facility a
  /\ opt_text (ev_from_entity_reference e) = ea_from_entity a /\ opt_text (ev_to_entity_reference e) = ea_to_entity a
  /\ opt_text (ev_transport_reference e) = ea_transport a
  /\ ev_kdes e = ea_kdes a /\ ev_raw_payload e = ea_raw_payload a /\ ev_provenance_metadata e = ea_provenance a
  /\ opt_text (ev_epcis_event_type e) = ea_epcis_event_type a /\ opt_text (ev_epcis_action e) = ea_epcis_action a
  /\ opt_text (ev_epcis_biz_step e) = ea_epcis_biz_step a /\ ev_chain_hash e = None /\ ev_status e = ACTIVE.

Definition text_or_none (v : pyval) : bool := match v with PNone | PStr _ => true | _ => false end.

(** The optional members of type text. *)
Definition optional_members (a : event_args) : list pyval :=
  [ea_source_record_id a; ea_product_reference a; ea_lot_reference a; ea_from_facility a; ea_to_facility a;
   ea_from_entity a; ea_to_entity a; ea_transport a; ea_epcis_event_type a; ea_epcis_action a; ea_epcis_biz_step a].

Definition is_text (v : pyval) : bool := match v with PStr _ => true | _ => false end.

Section Timestamp.
Context `{PL : PyLib}.

Definition or_utc (d : datetime) : datetime :=
  match dt_offset d with None => Datetime (dt_wall d) (Some 0%Z) | Some _ => d end.

(** The validator [parse_timestamp]; [dateutil] is the parser of that library. *)
Definition parse_timestamp (dateutil : string -> res datetime) (v : pyval) : res datetime :=
  match v with
  | PDatetime d => Ok (or_utc d)
  | PStr s =>
      let s := replace_char "Z" "+00:00" s in
      match fromisoformat s with
      | Ok d => Ok (or_utc d)
      | Raise x => if String.eqb (exn_type x) "ValueError" then do d <- dateutil s; Ok (or_utc d) else Raise x
      end
  | _ => Raise (ValueError ("Cannot parse timestamp: " +:+ py_str v))
  end.
End Timestamp.

(** [TraceabilityEvent( ** args)], [UUID(text)] and [dateutil.parser.parse]: an event has the given
    members, a timestamp that the validator accepts, a lot code of three characters and a quantity
    that is not negative; arguments of the declared types within these bounds are accepted. *)
Class EventModel `{PL : PyLib} := {
  dateutil_parse : string -> res datetime;
  py_uuid : string -> res string;
  new_event : fresh -> event_args -> res TraceabilityEvent;
  new_event_fields : forall f a e, new_event f a = Ok e ->
    (exists at_, parse_timestamp dateutil_parse (ea_event_timestamp a) = Ok at_ /\ fields_kept f a at_ e)
    /\ (3 <= slen (ea_traceability_lot_code a))%nat /\ fltb (ea_quantity a) f0 = false;
  new_event_accepts : forall f a at_, parse_timestamp dateutil_parse (ea_event_timestamp a) = Ok at_ ->
    (3 <= slen (ea_traceability_lot_code a))%nat -> fleb f0 (ea_quantity a) = true ->
    forallb text_or_none (optional_members a) = true -> is_text (ea_event_timezone a) = true ->
    exists e, new_event f a = Ok e
}.

(** [CTEType(text)]. *)
Definition all_cte_types : list CTEType :=
  [HARVESTING; COOLING; INITIAL_PACKING; FIRST_LAND_BASED_RECEIVING; SHIPPING; RECEIVING; TRANSFORMATION].
Definition cte_of_text (s : string) : option CTEType := List.find (fun t => String.eqb (cte_text t) s) all_cte_types.
Definition cte_type (s : string) : res CTEType :=
  match cte_of_text s with Some t => Ok t | None => Raise (ValueError (repr_str s +:+ " is not a valid CTEType")) end.

(** [a or b]. *)
Definition por (a b : pyval) : pyval := if truthy a then a else b.

(** [d.setdefault(k, v)]. *)
Definition setdefault (k : string) (v : pyval) (d : pydict) : pydict :=
  match dict_lookup k d with Some _ => d | None => dict_set k v d end.

Definition provenance (f : fresh) (mapper version format : string) (rules : list string) (file : option string) : pydict :=
  (match file with Some n => [("source_file_name", PStr n)] | None => [] end
   ++ [("ingestion_timestamp", PStr (fr_ingestion_timestamp f)); ("mapper_name", PStr mapper); ("mapper_version", PStr version);
       ("normalization_rules_applied", text_list rules); ("original_format", PStr format);
       ("extraction_confidence", PFloat (f_of_Z 1))])%list.

(** [BIZSTEP_TO_CTE_TYPE]; [None] is a recognised step without a canonical type. *)
Definition BIZSTEP_TO_CTE_TYPE : list (string * option CTEType) :=
  [("urn:epcglobal:cbv:bizstep:receiving", Some RECEIVING); ("urn:epcglobal:cbv:bizstep:shipping", Some SHIPPING);
   ("urn:epcglobal:cbv:bizstep:transforming", Some TRANSFORMATION); ("urn:epcglobal:cbv:bizstep:commissioning", Some INITIAL_PACKING);
   ("urn:epcglobal:cbv:bizstep:packing", Some INITIAL_PACKING); ("urn:epcglobal:cbv:bizstep:harvesting", Some HARVESTING);
   ("urn:epcglobal:cbv:bizstep:planting", None); ("urn:epcglobal:cbv:bizstep:storing", Some COOLING);
   ("urn:epcglobal:cbv:bizstep:landing", Some FIRST_LAND_BASED_RECEIVING);
   ("urn:fsma:traceability:growing", None); ("urn:fsma:traceability:harvesting", Some HARVESTING);
   ("urn:fsma:traceability:cooling", Some COOLING); ("urn:fsma:traceability:initial_packing", Some INITIAL_PACKING);
   ("urn:fsma:traceability:first_land_based_receiving", Some FIRST_LAND_BASED_RECEIVING);
   ("urn:fsma:traceability:shipping", Some SHIPPING); ("urn:fsma:traceability:receiving", Some RECEIVING);
   ("urn:fsma:traceability:transformation", Some TRANSFORMATION)].

Definition UnmappedBizStepError (m : string) : exn := Exn "UnmappedBizStepError" m.

(** Catch what [except (TypeError, ValueError)] catches around [float]. *)
Definition float_or_none (v : pyval) : res (option f64) :=
  match py_float v with
  | Ok f => Ok (Some f)
  | Raise x => if String.eqb (exn_type x) "TypeError" || String.eqb (exn_type x) "ValueError" then Ok None else Raise x
  end.

Section Normalizers.
Context `{PL : PyLib} `{UL : UrlLib} `{EM : !EventModel}.

(** ** Webhook events *)

(** An [IngestEvent] of services/ingestion/app/webhook_models.py, already validated. *)
Record ingest_event := IngestEvent {
  ie_cte_type : string;
  ie_traceability_lot_code : string;
  ie_product_description : string;
  ie_quantity : f64;
  ie_unit_of_measure : string;
  ie_location_gln : option string;
  ie_location_name : option string;
  ie_timestamp : string;
  ie_kdes : pydict;
  ie_input_traceability_lot_codes : option (list string)
}.

(** The input lots, when there are any. *)
Definition input_codes (event : ingest_event) : option pyval :=
  match ie_input_traceability_lot_codes event with Some (c :: l) => Some (text_list (c :: l)) | _ => None end.

Definition webhook_raw (event : ingest_event) (source : string) : pydict :=
  ([("cte_type", PStr (ie_cte_type event)); ("source", PStr source);
    ("traceability_lot_code", PStr (ie_traceability_lot_code event)); ("product_description", PStr (ie_product_description event));
    ("quantity", PFloat (ie_quantity event)); ("unit_of_measure", PStr (ie_unit_of_measure event));
    ("location_gln", opt_text (ie_location_gln event)); ("location_name", opt_text (ie_location_name event));
    ("timestamp", PStr (ie_timestamp event)); ("kdes", PDict (ie_kdes event))]
   ++ match input_codes event with Some v => [("input_traceability_lot_codes", v)] | None => [] end)%list.

Definition webhook_kdes (event : ingest_event) (source : string) : pydict :=
  let kdes := setdefault "ingest_source" (PStr source) (ie_kdes event) in
  match input_codes event with Some v => setdefault "input_lot_codes" v kdes | None => kdes end.

Definition webhook_from (event : ingest_event) (kdes : pydict) : pyval :=
  let from := por (opt_text (ie_location_gln event)) (por (dict_get kdes "ship_from_gln" PNone)
                (por (dict_get kdes "ship_from_location" PNone) (opt_text (ie_location_name event)))) in
  if String.eqb (ie_cte_type event) "shipping" then por from (opt_text (ie_location_name event)) else from.
Definition webhook_to (event : ingest_event) (kdes : pydict) : pyval :=
  let to_ := por (dict_get kdes "ship_to_gln" PNone) (por (dict_get kdes "ship_to_location" PNone) (dict_get kdes "receiving_location" PNone)) in
  if String.eqb (ie_cte_type event) "shipping" then to_
  else if String.eqb (ie_cte_type event) "receiving"
  then por to_ (por (opt_text (ie_location_name event)) (opt_text (ie_location_gln event))) else to_.

(** [UUID(run) if run else None]. *)
Definition run_uuid (run : option string) : res (option string) :=
  match nonempty run with None => Ok None | Some r => do u <- py_uuid r; Ok (Some u) end.

(** [env] is the value of REGENGINE_RAW_PAYLOAD_MAX_BYTES. *)
Definition normalize_webhook_event (env : option string) (f : fresh) (event : ingest_event) (tenant_id source : string)
    (raw_payload : option pydict) (ingestion_run_id : option string) : res TraceabilityEvent :=
  let raw := match raw_payload with Some r => r | None => webhook_raw event source end in
  let kdes := webhook_kdes event source in
  let kde k := dict_get kdes k PNone in
  do tenant <- py_uuid tenant_id;
  do run <- run_uuid ingestion_run_id;
  do type <- cte_type (ie_cte_type event);
  do canonical <- new_event f (EventArgs tenant WEBHOOK_API PNone run type (PStr (ie_timestamp event)) (PStr "UTC")
    (PStr (ie_product_description event)) (PStr (ie_traceability_lot_code event)) (ie_traceability_lot_code event)
    (ie_quantity event) (ie_unit_of_measure event) (webhook_from event kdes) (webhook_to event kdes)
    (por (kde "ship_from_entity") (kde "harvester_business_name")) (por (kde "ship_to_entity") (kde "immediate_previous_source"))
    (por (kde "carrier") (kde "transport_reference")) kdes raw
    (provenance f "webhook_v2_normalizer" "1.0.0" "json" ["webhook_kde_extraction"; "facility_reference_mapping"] None)
    PNone PNone PNone);
  prepare_for_persistence env canonical.

(** ** The quantity of an EPCIS event *)

Definition _epcis_quantity_element (data : pydict) : res (option pydict) :=
  do inner <- py_get (dict_get data "extension" (PDict [])) "quantityList" PNone;
  let quantity_list :=
    por inner (por (member data "quantityList") (por (member data "outputQuantityList") (member data "inputQuantityList"))) in
  Ok (match quantity_list with PList (PDict d :: _) => Some d | _ => None end).

Definition no_unit : exn :=
  ValueError "EPCIS event carries a quantity but no unit of measure (quantity.uom); refusing to assume one".

Definition _epcis_unit_of_measure (data : pydict) : res string :=
  do element <- _epcis_quantity_element data;
  let flat :=
    match member data "quantity" with
    | PDict d => if truthy (dict_get d "uom" PNone) then Ok (py_str (dict_get d "uom" PNone)) else Raise no_unit
    | _ => Raise no_unit
    end in
  match element with
  | Some d => if is_none (dict_get d "quantity" PNone) then flat else Ok (py_str (por (dict_get d "uom" PNone) (PStr "each")))
  | None => flat
  end.

(** The pair; a quantity that is no number reads as none. *)
Definition _extract_epcis_quantity (data : pydict) : res (option f64 * pyval) :=
  do element <- _epcis_quantity_element data;
  let flat :=
    match member data "quantity" with
    | PDict d =>
        if is_none (dict_get d "value" PNone) then Ok (None, PNone)
        else do q <- float_or_none (dict_get d "value" PNone); Ok (q, dict_get d "uom" PNone)
    | _ => Ok (None, PNone)
    end in
  match element with
  | Some d =>
      if is_none (dict_get d "quantity" PNone) then flat
      else do q <- float_or_none (dict_get d "quantity" PNone); Ok (q, dict_get d "uom" PNone)
  | None => flat
  end.

Definition _require_epcis_quantity (data : pydict) : res f64 :=
  do '(value, _) <- _extract_epcis_quantity data;
  match value with
  | Some q => Ok q
  | None => Raise (ValueError ("EPCIS event has no numeric quantity — cannot emit canonical "
      +:+ "TraceabilityEvent. Supply quantity via extension.quantityList or reject the event before normalization (#1249)."))
  end.

(** ** The type of an EPCIS event *)

Definition _resolve_bizstep_to_cte_type (biz_step : pyval) : res CTEType :=
  let raw := if is_none biz_step then "" else strip (py_str biz_step) in
  let lowered := lower raw in
  if String.eqb raw "" then
    Raise (UnmappedBizStepError ("EPCIS event has no bizStep — cannot derive an FSMA 204 CTE type. "
      +:+ "Supply a CBV or FSMA bizStep URI. (#2815)"))
  else match assoc lowered BIZSTEP_TO_CTE_TYPE with
       | Some (Some t) => Ok t
       | Some None =>
           Raise (UnmappedBizStepError ("bizStep " +:+ repr_str raw +:+ " maps to the non-CTE activity 'growing', which is "
             +:+ "not one of the 7 FSMA 204 §1.1310 Critical Tracking Events and is "
             +:+ "rejected by the canonical traceability_events event_type "
             +:+ "constraint. Reject or reclassify the event upstream rather than "
             +:+ "persisting it as a neighbouring CTE. (#2815)"))
       | None =>
           match cte_of_text lowered with
           | Some t => Ok t
           | None =>
               Raise (UnmappedBizStepError ("bizStep " +:+ repr_str raw +:+ " has no FSMA 204 CTE mapping — refusing to default to "
                 +:+ "'receiving'. Supply one of the mapped bizStep URIs ("
                 +:+ str_join ", " (sorted_names BIZSTEP_TO_CTE_TYPE) +:+ ") or a bare canonical CTE type ("
                 +:+ str_join ", " (sorted_names ((fun t => (cte_text t, tt)) <$> all_cte_types)) +:+ "). (#2815)"))
           end
       end.

(** ** The lot of an EPCIS event *)

Definition _epc_last_segment (epc : pyval) : option string :=
  let text := strip (py_str (por epc (PStr ""))) in
  if negb (names_epc (lower text)) then None
  else match rsplit_once "." text with
       | Some (_, last) => if String.eqb last "" then None else Some last
       | None => None
       end.

(** [text.rsplit(".", 1)[0]] and [prefix.rsplit(":", 1)[-1]]. *)
Definition _epc_gtin (epc : pyval) : option string :=
  let text := strip (py_str (por epc (PStr ""))) in
  match _epc_last_segment (PStr text) with
  | None => None
  | Some _ =>
      let prefix := match rsplit_once "." text with Some (p, _) => p | None => text end in
      nonempty (Some (match rsplit_once ":" prefix with Some (_, g) => g | None => prefix end))
  end.

Definition _epcis_list (data : pydict) (key : string) : list pyval := match member data key with PList l => l | _ => [] end.

Definition event_epcs (data : pydict) : list pyval := (_epcis_list data "epcList" ++ _epcis_list data "outputEPCList")%list.
Definition event_classes (data : pydict) : list pyval :=
  List.filter truthy (map (fun q => nested q "epcClass")
    (_epcis_list data "outputQuantityList" ++ _epcis_list data "quantityList"
     ++ match nested (member data "extension") "quantityList" with PList l => l | _ => [] end)%list).

Definition ilmd_of (data : pydict) : pydict := match member data "ilmd" with PDict d => d | _ => [] end.

(** The first key of the list with a value that is not blank. *)
Fixpoint first_text (d : pydict) (keys : list string) : option (pyval * string) :=
  match keys with
  | [] => None
  | k :: rest =>
      let v := dict_get d k PNone in
      if is_none v || String.eqb (strip (py_str v)) "" then first_text d rest else Some (v, strip (py_str v))
  end.

Definition ilmd_keys : list string := ["fsma:traceabilityLotCode"; "traceabilityLotCode"; "cbvmda:lotNumber"; "lotNumber"].
Definition flat_keys : list string := ["traceability_lot_code"; "lotNumber"].

(** The first identifier of the scheme with a last segment. *)
Fixpoint first_segment (scheme : string) (epcs : list pyval) : option string :=
  match epcs with
  | [] => None
  | e :: rest =>
      if contains scheme (lower (py_str e))
      then match _epc_last_segment e with Some s => Some s | None => first_segment scheme rest end
      else first_segment scheme rest
  end.

Fixpoint first_some {A B} (f : A -> option B) (l : list A) : option B :=
  match l with [] => None | x :: r => match f x with Some y => Some y | None => first_some f r end end.

Definition _legacy_epcis_traceability_lot_code (data : pydict) : res (string * option string) :=
  let epcs := event_epcs data in
  let classes := event_classes data in
  let gtin := first_some _epc_gtin (epcs ++ classes)%list in
  match first_text (ilmd_of data) ilmd_keys with
  | Some (_, t) => Ok (t, gtin)
  | None =>
      match first_segment "lgtin" (epcs ++ classes)%list with
      | Some s => Ok (s, gtin)
      | None =>
          match first_segment "sgtin" epcs with
          | Some s => Ok (s, gtin)
          | None => match first_text data flat_keys with Some (_, t) => Ok (t, gtin) | None => Raise no_lot_identifier end
          end
      end
  end.

(** [entry.get("uom") or "each"], for a quantity that was read. *)
Definition input_unit (q : option f64) (element : pydict) : pyval :=
  match q with Some _ => por (dict_get element "uom" PNone) (PStr "each") | None => PNone end.
Definition opt_float (q : option f64) : pyval := match q with Some f => PFloat f | None => PNone end.
Definition input_quantity (element : pydict) : res (option f64) :=
  let raw := dict_get element "quantity" PNone in if is_none raw then Ok None else float_or_none raw.

(** The first loop of the transformation inputs: entries in order and the lots seen. *)
Fixpoint legacy_class_inputs (seen : list string) (elements : list pyval) : res (list pydict * list string) :=
  match elements with
  | [] => Ok ([], seen)
  | PDict element :: rest =>
      match _epc_last_segment (dict_get element "epcClass" PNone) with
      | Some lot =>
          if existsb (String.eqb lot) seen then legacy_class_inputs seen rest
          else
            do q <- input_quantity element;
            do '(entries, seen') <- legacy_class_inputs (lot :: seen) rest;
            Ok ([("traceability_lot_code", PStr lot); ("quantity", opt_float q); ("unit_of_measure", input_unit q element);
                 ("epc_class", dict_get element "epcClass" PNone)] :: entries, seen')
      | None => legacy_class_inputs seen rest
      end
  | _ :: rest => legacy_class_inputs seen rest
  end.

Fixpoint legacy_instance_inputs (seen : list string) (epcs : list pyval) : list pydict :=
  match epcs with
  | [] => []
  | epc :: rest =>
      match _epc_last_segment epc with
      | Some segment =>
          if existsb (String.eqb segment) seen then legacy_instance_inputs seen rest
          else [("traceability_lot_code", PStr segment); ("quantity", PFloat (f_of_Z 1)); ("unit_of_measure", PStr "each");
                ("epc", PStr (py_str epc))] :: legacy_instance_inputs (segment :: seen) rest
      | None => legacy_instance_inputs seen rest
      end
  end.

Definition _legacy_epcis_transformation_inputs (data : pydict) : res (list pydict) :=
  do '(entries, seen) <- legacy_class_inputs [] (_epcis_list data "inputQuantityList");
  Ok (entries ++ legacy_instance_inputs seen (_epcis_list data "inputEPCList"))%list.

(** With LOT_IDENTITY_LOSSLESS on: the GTIN of the first class URI or identity that has one. *)
Fixpoint lossless_gtin (epcs : list pyval) : res (option string) :=
  match epcs with
  | [] => Ok None
  | e :: rest =>
      do parsed <- parse_class_uri e;
      match match parsed with Some p => nonempty (gtin p) | None => None end with
      | Some g => Ok (Some g)
      | None =>
          do identity <- normalize_epcis_lot true e None (Some false);
          match match identity with Some i => nonempty (gtin i) | None => None end with
          | Some g => Ok (Some g)
          | None => lossless_gtin rest
          end
      end
  end.

(** [(identity.canonical_id, identity.gtin or gtin)], or the text without an identity. *)
Definition identity_or_text (v : pyval) (text : string) (g : option string) : res (string * option string) :=
  do identity <- normalize_epcis_lot true v None None;
  Ok (match identity with
      | Some i => (canonical_id i, match nonempty (gtin i) with Some x => Some x | None => g end)
      | None => (text, g)
      end).

(** The loop over the SGTINs. *)
Fixpoint sgtin_identity (g : option string) (epcs : list pyval) : res (option (string * option string)) :=
  match epcs with
  | [] => Ok None
  | e :: rest =>
      if contains "sgtin" (lower (py_str e)) then
        do identity <- normalize_epcis_lot true e None None;
        match identity, _epc_last_segment e with
        | Some i, _ => Ok (Some (canonical_id i, match nonempty (gtin i) with Some x => Some x | None => g end))
        | None, Some s => Ok (Some (s, g))
        | None, None => sgtin_identity g rest
        end
      else sgtin_identity g rest
  end.

Definition lossless_lot_code (data : pydict) : res (string * option string) :=
  let epcs := event_epcs data in
  let classes := event_classes data in
  do g <- lossless_gtin (classes ++ epcs)%list;
  do parsed <- first_class_uri (classes ++ epcs)%list;
  match parsed with
  | Some p => Ok (canonical_id p, match nonempty (gtin p) with Some x => Some x | None => g end)
  | None =>
      match first_text (ilmd_of data) ilmd_keys with
      | Some (v, t) => identity_or_text v t g
      | None =>
          do found <- sgtin_identity g epcs;
          match found with
          | Some r => Ok r
          | None =>
              match first_text data flat_keys with
              | Some (v, t) => identity_or_text v t g
              | None => Raise no_lot_identifier
              end
          end
      end
  end.

(** [lossless] is [lossless_enabled()]. *)
Definition _epcis_traceability_lot_code (lossless : bool) (data : pydict) : res (string * option string) :=
  if lossless then lossless_lot_code data else _legacy_epcis_traceability_lot_code data.

Fixpoint lossless_class_inputs (seen : list (option string)) (elements : list pyval) : res (list pydict) :=
  match elements with
  | [] => Ok []
  | PDict element :: rest =>
      let epc_class := dict_get element "epcClass" PNone in
      do identity <- normalize_epcis_lot true epc_class None None;
      let lot_key := match identity with Some i => Some (canonical_id i) | None => _epc_last_segment epc_class end in
      let token := match identity with Some i => Some (lot_token i) | None => _epc_last_segment epc_class end in
      match nonempty token with
      | None => lossless_class_inputs seen rest
      | Some token =>
          if bool_decide (lot_key ∈ seen) then lossless_class_inputs seen rest
          else
            do q <- input_quantity element;
            do entries <- lossless_class_inputs (lot_key :: seen) rest;
            Ok ([("traceability_lot_code", opt_text lot_key); ("lot_token", PStr token); ("quantity", opt_float q);
                 ("unit_of_measure", input_unit q element); ("epc_class", epc_class)] :: entries)
      end
  | _ :: rest => lossless_class_inputs seen rest
  end.

Fixpoint lossless_instance_inputs (seen : list string) (epcs : list pyval) : res (list pydict) :=
  match epcs with
  | [] => Ok []
  | epc :: rest =>
      do identity <- normalize_epcis_lot true epc None None;
      let segment := match identity with Some i => Some (lot_token i) | None => _epc_last_segment epc end in
      let epc_id := strip (py_str epc) in
      match nonempty segment with
      | None => lossless_instance_inputs seen rest
      | Some segment =>
          if existsb (String.eqb epc_id) seen then lossless_instance_inputs seen rest
          else
            do entries <- lossless_instance_inputs (epc_id :: seen) rest;
            Ok ([("traceability_lot_code", PStr epc_id); ("lot_token", PStr segment); ("quantity", PFloat (f_of_Z 1));
                 ("unit_of_measure", PStr "each"); ("epc", PStr (py_str epc))] :: entries)
      end
  end.

Definition _epcis_transformation_inputs (lossless : bool) (data : pydict) : res (list pydict) :=
  if lossless then
    do classes <- lossless_class_inputs [] (_epcis_list data "inputQuantityList");
    do instances <- lossless_instance_inputs [] (_epcis_list data "inputEPCList");
    Ok (classes ++ instances)%list
  else _legacy_epcis_transformation_inputs data.

(** ** EPCIS events *)

(** [d.update(v)] for the pairs of a list; a key that is not text is outside the model. *)
Fixpoint update_pairs (d : pydict) (items : list pyval) : res pydict :=
  match items with
  | [] => Ok d
  | item :: rest =>
      do parts <- py_iter item;
      match parts with
      | [PStr k; v] => update_pairs (dict_set k v d) rest
      | [k; _] => Raise (TypeError ("unhashable type: '" +:+ type_name k +:+ "'"))
      | _ => Raise (ValueError ("dictionary update sequence element has length " +:+ str_of_Z (Z.of_nat (length parts)) +:+ "; 2 is required"))
      end
  end.
Definition py_update (d : pydict) (v : pyval) : res pydict :=
  match v with
  | PDict e => Ok (foldl (fun acc kv => dict_set (fst kv) (snd kv) acc) d e)
  | _ => do items <- py_iter v; update_pairs d items
  end.

(** The key data elements from the master data and the extension. *)
Definition epcis_kdes (data : pydict) (g : option string) : res pydict :=
  do ilmd <- py_update [] (por (member data "ilmd") (PDict []));
  do extensions <- py_update ilmd (por (member data "extension") (PDict []));
  py_update (match nonempty g with Some x => [("gtin", PStr x)] | None => [] end) (PDict extensions).

Definition with_inputs (inputs : list pydict) (kdes : pydict) : pydict :=
  match inputs with
  | [] => kdes
  | _ => setdefault "input_lot_codes" (PList ((fun i => dict_get i "traceability_lot_code" PNone) <$> inputs))
           (dict_set "inputs" (PList (PDict <$> inputs)) kdes)
  end.

(** [v.get("id") if isinstance(v, dict) else v]. *)
Definition point (v : pyval) : pyval := match v with PDict d => dict_get d "id" PNone | _ => v end.

Definition short_lot (tlc : string) : exn :=
  ValueError ("EPCIS lot identifier " +:+ repr_str tlc +:+ " is shorter than 3 characters; refusing to rewrite it").
Definition no_event_time : exn :=
  ValueError "EPCIS event has no eventTime; refusing to stamp the current time as the event time".

(** The arguments of the constructor. *)
Definition epcis_args (lossless : bool) (f : fresh) (data : pydict) (tenant_id : string) (ingestion_run_id : option string)
    : res event_args :=
  let biz_step := dict_get data "bizStep" (PStr "") in
  do type <- _resolve_bizstep_to_cte_type biz_step;
  do '(tlc, g) <- _epcis_traceability_lot_code lossless data;
  if (slen tlc <? 3)%nat then Raise (short_lot tlc)
  else if negb (truthy (member data "eventTime")) then Raise no_event_time
  else
    do kdes <- epcis_kdes data g;
    do inputs <- (match type with TRANSFORMATION => _epcis_transformation_inputs lossless data | _ => Ok [] end);
    let kdes := with_inputs inputs kdes in
    do tenant <- py_uuid tenant_id;
    do run <- run_uuid ingestion_run_id;
    do quantity <- _require_epcis_quantity data;
    do unit <- _epcis_unit_of_measure data;
    Ok (EventArgs tenant EPCIS_API (member data "eventID") run type (member data "eventTime")
          (dict_get data "eventTimeZoneOffset" (PStr "UTC")) (dict_get data "productDescription" (dict_get kdes "gtin" (PStr "")))
          (PStr tlc) tlc quantity unit (point (member data "readPoint")) (point (member data "bizLocation"))
          PNone PNone PNone kdes data
          (provenance f "epcis_normalizer" "1.0.0" (if truthy (member data "_xml_source") then "epcis_xml" else "epcis_json")
             ["epcis_bizstep_mapping"; "epc_uri_parsing"] None)
          (dict_get data "type" (member data "eventType")) (member data "action") biz_step).

Definition normalize_epcis_event (env : option string) (lossless : bool) (f : fresh) (data : pydict) (tenant_id : string)
    (ingestion_run_id : option string) : res TraceabilityEvent :=
  do args <- epcis_args lossless f data tenant_id ingestion_run_id;
  do canonical <- new_event f args;
  prepare_for_persistence env canonical.

(** ** Rows of a table *)

Definition _CSV_CTE_TYPE_MAP : list (string * string) :=
  [("harvest", "harvesting"); ("harvesting", "harvesting"); ("cool", "cooling"); ("cooling", "cooling");
   ("pack", "initial_packing"); ("initial_packing", "initial_packing"); ("initial packing", "initial_packing");
   ("first_land_based_receiving", "first_land_based_receiving"); ("ship", "shipping"); ("shipping", "shipping");
   ("receive", "receiving"); ("receiving", "receiving"); ("transform", "transformation"); ("transformation", "transformation")].

Definition blank (v : pyval) : bool := is_none v || String.eqb (strip (py_str v)) "".

(** The mapped columns and the key data elements, in the order of the row. *)
Fixpoint map_columns (column_mapping : list (string * string)) (row mapped kdes : pydict) : pydict * pydict :=
  match row with
  | [] => (mapped, kdes)
  | (src_col, value) :: rest =>
      match assoc src_col column_mapping with
      | Some name => map_columns column_mapping rest (dict_set name value mapped) kdes
      | None => map_columns column_mapping rest mapped (if blank value then kdes else dict_set src_col value kdes)
      end
  end.

(** [_first(...)]. *)
Fixpoint _first (mapped : pydict) (names : list string) : option pyval :=
  match names with
  | [] => None
  | n :: rest => let v := dict_get mapped n PNone in if blank v then _first mapped rest else Some v
  end.

(** The five required fields: the name that is reported and the columns that may hold it. *)
Definition required_fields : list (string * list string) :=
  [("event_type", ["event_type"]); ("event_timestamp", ["event_timestamp"; "timestamp"]);
   ("traceability_lot_code", ["traceability_lot_code"; "tlc"]); ("quantity", ["quantity"]); ("unit_of_measure", ["unit_of_measure"])].

Definition absent (mapped : pydict) (field : string * list string) : bool :=
  match _first mapped (snd field) with None => true | Some _ => false end.
Definition missing_fields (mapped : pydict) : list string := fst <$> List.filter (absent mapped) required_fields.

Definition csv_type (mapped : pydict) : option string :=
  match _first mapped ["event_type"] with Some v => assoc (strip (lower (py_str v))) _CSV_CTE_TYPE_MAP | None => None end.
Definition csv_quantity (mapped : pydict) : option f64 :=
  match _first mapped ["quantity"] with Some v => parse_float (strip (py_str v)) | None => None end.

(** [sorted(set(_CSV_CTE_TYPE_MAP.values()))]. *)
Definition accepted_types : list string := sorted_names ((fun t => (cte_text t, tt)) <$> all_cte_types).

Definition invalid_fields (mapped : pydict) : list string :=
  (match _first mapped ["event_type"], csv_type mapped with
   | Some v, None => ["event_type=" +:+ repr_str (strip (py_str v)) +:+ " (accepted: " +:+ str_join ", " accepted_types +:+ ")"]
   | _, _ => []
   end
   ++ match _first mapped ["quantity"], csv_quantity mapped with
      | Some v, None => ["quantity=" +:+ repr_str (strip (py_str v)) +:+ " (not a number)"]
      | _, _ => []
      end)%list.

(** The message of [CSVRowNormalizationError]; the lists are its attributes. *)
Definition csv_problem (row_number : option Z) (missing invalid : list string) : exn :=
  Exn "CSVRowNormalizationError"
    ("CSV " +:+ match row_number with Some n => "row " +:+ str_of_Z n | None => "row" end +:+ " cannot be normalized: "
     +:+ str_join " | " ((match missing with [] => [] | _ => ["missing " +:+ str_join ", " missing] end)
                         ++ (match invalid with [] => [] | _ => ["invalid " +:+ str_join "; " invalid] end))%list).

(** [mapped.get(name, other)]. *)
Definition column (mapped : pydict) (name : string) (other : pyval) : pyval := dict_get mapped name other.

Definition csv_args (f : fresh) (row : pydict) (tenant : string) (run source_file_name : option string) (row_number : option Z)
    (mapped kdes : pydict) (type : CTEType) (timestamp_raw tlc_raw uom_raw : pyval) (quantity : f64) : event_args :=
  let tlc := strip (py_str tlc_raw) in
  EventArgs tenant CSV_UPLOAD (match row_number with Some n => PStr (str_of_Z n) | None => PNone end) run type timestamp_raw (PStr "UTC")
    (column mapped "product_description" (column mapped "product_reference" (PStr "")))
    (match _first mapped ["lot_reference"] with Some v => por v (PStr tlc) | None => PStr tlc end) tlc quantity
    (lower (strip (py_str uom_raw)))
    (column mapped "from_facility_reference" (column mapped "ship_from_location" (column mapped "location_gln" PNone)))
    (column mapped "to_facility_reference" (column mapped "ship_to_location" PNone))
    (column mapped "from_entity_reference" PNone) (column mapped "to_entity_reference" PNone)
    (column mapped "transport_reference" (column mapped "carrier" PNone)) kdes row
    (provenance f "csv_normalizer" "1.1.0" "csv" ["csv_column_mapping"] source_file_name) PNone PNone PNone.

Definition normalize_csv_row (env : option string) (f : fresh) (row : pydict) (tenant_id : string) (column_mapping : list (string * string))
    (ingestion_run_id source_file_name : option string) (row_number : option Z) : res TraceabilityEvent :=
  let '(mapped, kdes) := map_columns column_mapping row [] [] in
  match missing_fields mapped, invalid_fields mapped, csv_type mapped, csv_quantity mapped,
        _first mapped ["event_timestamp"; "timestamp"], _first mapped ["traceability_lot_code"; "tlc"], _first mapped ["unit_of_measure"] with
  | [], [], Some type, Some quantity, Some timestamp_raw, Some tlc_raw, Some uom_raw =>
      do tenant <- py_uuid tenant_id;
      do run <- run_uuid ingestion_run_id;
      do type <- cte_type type;
      do canonical <- new_event f (csv_args f row tenant run source_file_name row_number mapped kdes type timestamp_raw tlc_raw uom_raw quantity);
      prepare_for_persistence env canonical
  | missing, invalid, _, _, _, _, _ => Raise (csv_problem row_number missing invalid)
  end.
End Normalizers.

(** ** A concrete constructor *)

Definition as_text (v : pyval) : option string := match v with PStr s => Some s | _ => None end.

Definition build_event (f : fresh) (a : event_args) (at_ : datetime) (zone : string) : TraceabilityEvent := {|
  ev_event_id := fr_event_id f; ev_tenant_id := ea_tenant_id a; ev_schema_version := SCHEMA_VERSION;
  ev_source_system := ea_source_system a; ev_source_record_id := as_text (ea_source_record_id a); ev_source_file_id := None;
  ev_ingestion_run_id := ea_ingestion_run_id a; ev_event_type := ea_event_type a; ev_event_timestamp := at_;
  ev_event_timezone := zone; ev_product_reference := as_text (ea_product_reference a);
  ev_lot_reference := as_text (ea_lot_reference a); ev_traceability_lot_code := ea_traceability_lot_code a;
  ev_quantity := ea_quantity a; ev_unit_of_measure := ea_unit_of_measure a;
  ev_from_entity_reference := as_text (ea_from_entity a); ev_to_entity_reference := as_text (ea_to_entity a);
  ev_from_facility_reference := as_text (ea_from_facility a); ev_to_facility_reference := as_text (ea_to_facility a);
  ev_transport_reference := as_text (ea_transport a); ev_kdes := ea_kdes a; ev_raw_payload := ea_raw_payload a;
  ev_normalized_payload := []; ev_provenance_metadata := ea_provenance a; ev_confidence_score := f_of_Z 1; ev_status := ACTIVE;
  ev_supersedes_event_id := None; ev_sha256_hash := None; ev_chain_hash := None; ev_idempotency_key := None;
  ev_epcis_event_type := as_text (ea_epcis_event_type a); ev_epcis_action := as_text (ea_epcis_action a);
  ev_epcis_biz_step := as_text (ea_epcis_biz_step a) |}.

Section Concrete.
Context `{PL : PyLib}.

Definition demo_dateutil (s : string) : res datetime := Raise (Exn "ParserError" ("Unknown string format: " +:+ s)).

Definition demo_new_event (f : fresh) (a : event_args) : res TraceabilityEvent :=
  match parse_timestamp demo_dateutil (ea_event_timestamp a), ea_event_timezone a with
  | Ok at_, PStr zone =>
      if (3 <=? slen (ea_traceability_lot_code a))%nat && negb (fltb (ea_quantity a) f0) && forallb text_or_none (optional_members a)
      then Ok (build_event f a at_ zone) else Raise (Exn "ValidationError" "TraceabilityEvent")
  | Raise x, _ => Raise (Exn "ValidationError" (exn_msg x))
  | _, _ => Raise (Exn "ValidationError" "event_timezone")
  end.

Lemma as_text_kept v : text_or_none v = true -> opt_text (as_text v) = v.
Proof. by destruct v. Qed.

Lemma not_negative q : fleb f0 q = true -> fltb q f0 = false.
Proof. by destruct q as [[]|[]| |[] m e]. Qed.

Lemma demo_new_fields f a e : demo_new_event f a = Ok e ->
  (exists at_, parse_timestamp demo_dateutil (ea_event_timestamp a) = Ok at_ /\ fields_kept f a at_ e)
  /\ (3 <= slen (ea_traceability_lot_code a))%nat /\ fltb (ea_quantity a) f0 = false.
Proof.
  unfold demo_new_event. destruct (parse_timestamp _ _) as [at_|]; [|done]. destruct (ea_event_timezone a) as [| | | |zone| | |] eqn:Ez; try done.
  destruct (_ && _) eqn:E; [|done]. intros [= <-]. reflect_bools. split; [|done]. exists at_. split; [done|].
  cbn in H0. reflect_bools. unfold fields_kept. cbn. split_and!; try done; by apply as_text_kept.
Qed.

Lemma demo_new_accepts f a at_ : parse_timestamp demo_dateutil (ea_event_timestamp a) = Ok at_ ->
  (3 <= slen (ea_traceability_lot_code a))%nat -> fleb f0 (ea_quantity a) = true ->
  forallb text_or_none (optional_members a) = true -> is_text (ea_event_timezone a) = true ->
  exists e, demo_new_event f a = Ok e.
Proof.
  intros Ht Hl%Nat.leb_le Hq%not_negative Ho Hz. unfold demo_new_event. rewrite Ht, Hl, Hq, Ho.
  destruct (ea_event_timezone a); try done. by eexists.
Qed.

Definition demo_model : EventModel := {|
  dateutil_parse := demo_dateutil; py_uuid := fun s => Ok s; new_event := demo_new_event;
  new_event_fields := demo_new_fields; new_event_accepts := demo_new_accepts |}.
End Concrete.

(** ** Facts *)

Section Facts.
Context `{PL : PyLib} `{UL : UrlLib} `{EM : !EventModel}.

Lemma cte_of_text_spec s t : cte_of_text s = Some t <-> cte_text t = s.
Proof.
  split.
  - unfold cte_of_text. intros [_ E]%List.find_some. by apply String.eqb_eq in E.
  - intros <-. by destruct t.
Qed.

Lemma cte_type_spec s t : cte_type s = Ok t <-> cte_text t = s.
Proof.
  rewrite <- cte_of_text_spec. unfold cte_type. destruct (cte_of_text s); [|by split].
  split; [by intros [= ->] | by intros [= ->]].
Qed.

(** Preparing adds the computed fields and, at most, the two hints. *)
Lemma prepare_keeps env e e' : prepare_for_persistence env e = Ok e' ->
  ev_event_id e' = ev_event_id e /\ ev_tenant_id e' = ev_tenant_id e /\ ev_event_type e' = ev_event_type e
  /\ ev_event_timestamp e' = ev_event_timestamp e /\ ev_traceability_lot_code e' = ev_traceability_lot_code e
  /\ ev_quantity e' = ev_quantity e /\ ev_unit_of_measure e' = ev_unit_of_measure e /\ ev_raw_payload e' = ev_raw_payload e
  /\ ev_product_reference e' = ev_product_reference e /\ ev_source_record_id e' = ev_source_record_id e
  /\ ev_from_facility_reference e' = ev_from_facility_reference e /\ ev_to_facility_reference e' = ev_to_facility_reference e
  /\ forall k, k <> "ftl_category" -> k <> "ftl_covered" -> dict_get (ev_kdes e') k PNone = dict_get (ev_kdes e) k PNone.
Proof.
  intros (sha & key & -> & _)%prepare_spec. cbn [with_computed ev_event_id ev_tenant_id ev_event_type ev_event_timestamp
    ev_traceability_lot_code ev_quantity ev_unit_of_measure ev_raw_payload ev_product_reference ev_source_record_id
    ev_from_facility_reference ev_to_facility_reference ev_kdes].
  pose proof (hint_exact e) as (_ & Hk & _). unfold _apply_ftl_hint in *.
  destruct (Ftl.event_has_ftl_hint _); [done|]. destruct (Ftl.infer_ftl_category_from_text _); done.
Qed.

(** What an event that the model accepted and that was prepared holds. *)
Lemma normalized_fields env f a canonical e :
  new_event f a = Ok canonical -> prepare_for_persistence env canonical = Ok e ->
  ev_event_type e = ea_event_type a /\ parse_timestamp dateutil_parse (ea_event_timestamp a) = Ok (ev_event_timestamp e)
  /\ ev_traceability_lot_code e = ea_traceability_lot_code a /\ (3 <= slen (ev_traceability_lot_code e))%nat
  /\ ev_quantity e = ea_quantity a /\ fltb (ev_quantity e) f0 = false /\ ev_unit_of_measure e = ea_unit_of_measure a
  /\ ev_raw_payload e = ea_raw_payload a /\ ev_tenant_id e = ea_tenant_id a
  /\ forall k, k <> "ftl_category" -> k <> "ftl_covered" -> dict_get (ev_kdes e) k PNone = dict_get (ea_kdes a) k PNone.
Proof.
  intros Hn Hp. destruct (new_event_fields _ _ _ Hn) as ((at_ & Hat & Hk) & Hl & Hq).
  destruct (prepare_keeps _ _ _ Hp) as (_ & -> & -> & -> & -> & -> & -> & -> & _ & _ & _ & _ & Hkd).
  destruct Hk as (_ & -> & _ & _ & _ & -> & -> & _ & _ & _ & -> & -> & -> & _ & _ & _ & _ & _ & Ekd & -> & _).
  rewrite Ekd in Hkd. split_and!; done.
Qed.
End Facts.
