(* ===== verification/NormalizeSpec.v ===== *)
(** * What normalisation promises

    The comments of [canonical_event.py] say that a normaliser never invents a value: a record that
    lacks a required member is refused, and what is stored was sent.  This file states it for rows of
    a table, for EPCIS events and for webhook events. *)

From Stdlib Require Import ZArith Lia String Ascii.
From Corelib Require Import SpecFloat.
From stdpp Require Import base list strings sets.
From S2P Require Import Prelude PyStr PyFloat PyVal Json Sha256 Hashing LotIdentity EpcisExtraction Uom EpcisNormalization CanonicalEvent CanonicalNormalize.

Local Open Scope string_scope.

Section Spec.
Context `{PL : PyLib} `{UL : UrlLib} `{EM : !EventModel}.

(** ** Rows *)

Definition csv_mapped (column_mapping : list (string * string)) (row : pydict) : pydict := fst (map_columns column_mapping row [] []).

(** Every required field has a column that is not blank, the type is known, the quantity a number. *)
Definition complete (mapped : pydict) : Prop :=
  (forall field names, (field, names) ∈ required_fields -> exists n, n ∈ names /\ blank (dict_get mapped n PNone) = false)
  /\ csv_type mapped <> None /\ csv_quantity mapped <> None.

(** The value of a required field: that of the first of its columns that is not blank. *)
Definition field_value (mapped : pydict) (names : list string) (v : pyval) : Prop :=
  exists before n after, names = (before ++ n :: after)%list /\ Forall (fun m => blank (dict_get mapped m PNone) = true) before
    /\ v = dict_get mapped n PNone /\ blank v = false.

(** The event says what the row says. *)
Definition says_row (mapped row : pydict) (e : TraceabilityEvent) : Prop :=
  ev_raw_payload e = row
  /\ (exists v, field_value mapped ["event_type"] v /\ assoc (strip (lower (py_str v))) _CSV_CTE_TYPE_MAP = Some (cte_text (ev_event_type e)))
  /\ (exists v, field_value mapped ["event_timestamp"; "timestamp"] v /\ parse_timestamp dateutil_parse v = Ok (ev_event_timestamp e))
  /\ (exists v, field_value mapped ["traceability_lot_code"; "tlc"] v /\ ev_traceability_lot_code e = strip (py_str v))
  /\ (exists v, field_value mapped ["quantity"] v /\ parse_float (strip (py_str v)) = Some (ev_quantity e))
  /\ (exists v, field_value mapped ["unit_of_measure"] v /\ ev_unit_of_measure e = lower (strip (py_str v))).

Lemma first_some_value mapped names v : _first mapped names = Some v -> field_value mapped names v.
Proof.
  induction names as [|n names IH]; cbn [_first]; [done|]. destruct (blank (dict_get mapped n PNone)) eqn:E.
  - intros (b & m & a & -> & Hb & H)%IH. exists (n :: b), m, a. split_and!; [done | by constructor | apply H..].
  - intros [= <-]. by exists [], n, names.
Qed.

Lemma first_none mapped names : _first mapped names = None <-> Forall (fun n => blank (dict_get mapped n PNone) = true) names.
Proof.
  induction names as [|n names IH]; cbn [_first]; [by split; constructor|]. destruct (blank (dict_get mapped n PNone)) eqn:E.
  - rewrite IH. split; [by constructor | by intros [_ H]%Forall_cons].
  - split; [done | intros [H _]%Forall_cons; congruence].
Qed.

Lemma missing_iff mapped field :
  field ∈ missing_fields mapped
  <-> exists names, (field, names) ∈ required_fields /\ Forall (fun n => blank (dict_get mapped n PNone) = true) names.
Proof.
  unfold missing_fields. rewrite list_elem_of_fmap. split.
  - intros ([f names] & -> & H). apply list_elem_of_In, List.filter_In in H as [Hin Ha]. exists names.
    split; [by apply list_elem_of_In|]. apply first_none. unfold absent in Ha. cbn [snd] in Ha. by destruct (_first mapped names).
  - intros (names & Hin & Hb%first_none). exists (field, names). split; [done|]. apply list_elem_of_In, List.filter_In.
    split; [by apply list_elem_of_In|]. unfold absent. cbn [snd]. by rewrite Hb.
Qed.

Lemma no_missing_field mapped :
  missing_fields mapped = [] <->
  forall field names, (field, names) ∈ required_fields -> exists n, n ∈ names /\ blank (dict_get mapped n PNone) = false.
Proof.
  split.
  - intros Hm field names Hin. destruct (_first mapped names) as [v|] eqn:E.
    + apply first_some_value in E as (b & n & a & -> & _ & -> & Hb). exists n. split; [apply elem_of_app; right; by left | done].
    + exfalso. apply first_none in E. assert (Hx : field ∈ missing_fields mapped) by (apply missing_iff; by exists names).
      rewrite Hm in Hx. by apply not_elem_of_nil in Hx.
  - intros H. destruct (missing_fields mapped) as [|x l] eqn:E; [done|]. exfalso.
    assert (Hx : x ∈ missing_fields mapped) by (rewrite E; by left). apply missing_iff in Hx as (names & Hin & Hb).
    destruct (H x names Hin) as (n & Hn & Hf). rewrite Forall_forall in Hb. by rewrite (Hb n Hn) in Hf.
Qed.

Lemma invalid_nil mapped : csv_type mapped <> None -> csv_quantity mapped <> None -> invalid_fields mapped = [].
Proof.
  unfold invalid_fields. destruct (csv_type mapped), (csv_quantity mapped); try done.
  by destruct (_first mapped ["event_type"]), (_first mapped ["quantity"]).
Qed.

(** The branches of the normaliser. *)
Lemma csv_branches env f row tenant mapping run file number :
  let mapped := csv_mapped mapping row in
  (complete mapped ->
     exists type q ts tlc uom, csv_type mapped = Some type /\ csv_quantity mapped = Some q
       /\ _first mapped ["event_timestamp"; "timestamp"] = Some ts /\ _first mapped ["traceability_lot_code"; "tlc"] = Some tlc
       /\ _first mapped ["unit_of_measure"] = Some uom
       /\ normalize_csv_row env f row tenant mapping run file number =
            (do tenant <- py_uuid tenant; do run <- run_uuid run; do type <- cte_type type;
             do canonical <- new_event f (csv_args f row tenant run file number mapped (snd (map_columns mapping row [] [])) type ts tlc uom q);
             prepare_for_persistence env canonical))
  /\ (~ complete mapped -> normalize_csv_row env f row tenant mapping run file number
        = Raise (csv_problem number (missing_fields mapped) (invalid_fields mapped))).
Proof.
  unfold normalize_csv_row, csv_mapped. destruct (map_columns mapping row [] []) as [mapped kdes]. cbn [fst snd]. split.
  - intros (Hr & Ht & Hq). apply no_missing_field in Hr as Hm. rewrite Hm, (invalid_nil _ Ht Hq).
    assert (Hf : forall field names, (field, names) ∈ required_fields -> exists v, _first mapped names = Some v).
    { intros field names Hin. destruct (_first mapped names) as [v|] eqn:E; [by exists v|]. apply first_none in E.
      destruct (Hr field names Hin) as (n & Hn & Hb). rewrite Forall_forall in E. by rewrite (E n Hn) in Hb. }
    destruct (Hf "event_timestamp" ["event_timestamp"; "timestamp"]) as [ts Ets]; [unfold required_fields; set_solver|].
    destruct (Hf "traceability_lot_code" ["traceability_lot_code"; "tlc"]) as [tlc Etlc]; [unfold required_fields; set_solver|].
    destruct (Hf "unit_of_measure" ["unit_of_measure"]) as [uom Euom]; [unfold required_fields; set_solver|].
    destruct (csv_type mapped) as [ty|]; [|done]. destruct (csv_quantity mapped) as [q|]; [|done].
    exists ty, q, ts, tlc, uom. by rewrite Ets, Etlc, Euom.
  - intros Hc. destruct (missing_fields mapped) as [|x l] eqn:Em; [|done].
    destruct (invalid_fields mapped) as [|x l] eqn:Ei; [|done]. exfalso. apply Hc. pose proof (proj1 (no_missing_field mapped) Em) as Hr.
    assert (Hev : forall n, (n, [n]) ∈ required_fields -> exists v, _first mapped [n] = Some v).
    { intros n Hin. destruct (_first mapped [n]) eqn:E; [by eexists|]. apply first_none in E. destruct (Hr n [n] Hin) as (m & Hm & Hb).
      rewrite Forall_forall in E. by rewrite (E m Hm) in Hb. }
    destruct (Hev "event_type") as [v1 E1]; [unfold required_fields; set_solver|].
    destruct (Hev "quantity") as [v2 E2]; [unfold required_fields; set_solver|].
    split; [done|]. unfold invalid_fields in Ei. rewrite E1, E2 in Ei. by destruct (csv_type mapped), (csv_quantity mapped).
Qed.

(** Every value of the map is the text of a type. *)
Lemma csv_type_known mapped type : csv_type mapped = Some type -> exists t, cte_type type = Ok t /\ cte_text t = type.
Proof.
  unfold csv_type. destruct (_first mapped _) as [v|]; [|done]. generalize (strip (lower (py_str v))). intros k E.
  assert (Hall : Forall (fun kv => exists t, cte_type (snd kv) = Ok t /\ cte_text t = snd kv) _CSV_CTE_TYPE_MAP).
  { repeat constructor; cbn [snd]; eexists; (split; [reflexivity|done]). }
  unfold assoc in E. revert Hall E. generalize _CSV_CTE_TYPE_MAP. induction l as [|[k' v'] l IH]; [done|].
  intros [H Hl]%Forall_cons. destruct (String.eqb k k'); [by intros [= <-] | by apply IH].
Qed.
(** The optional columns. *)
Definition optional_columns : list string :=
  ["product_description"; "product_reference"; "lot_reference"; "from_facility_reference"; "ship_from_location"; "location_gln";
   "to_facility_reference"; "ship_to_location"; "from_entity_reference"; "to_entity_reference"; "transport_reference"; "carrier"].

(** What the model asks of a complete row: texts, a readable moment, three characters, no negative quantity. *)
Definition acceptable (mapped : pydict) : Prop :=
  (forall n, n ∈ optional_columns -> text_or_none (dict_get mapped n PNone) = true)
  /\ (exists v at_, field_value mapped ["event_timestamp"; "timestamp"] v /\ parse_timestamp dateutil_parse v = Ok at_)
  /\ (exists v, field_value mapped ["traceability_lot_code"; "tlc"] v /\ (3 <= slen (strip (py_str v)))%nat)
  /\ (exists q, csv_quantity mapped = Some q /\ fleb f0 q = true).

Lemma field_value_first mapped names v : field_value mapped names v -> _first mapped names = Some v.
Proof.
  intros (b & n & a & -> & Hb & -> & Hf). induction Hb as [|m b Hm _ IH]; cbn [app _first]; [by rewrite Hf | by rewrite Hm].
Qed.

Lemma column_text mapped n d :
  text_or_none (dict_get mapped n PNone) = true -> text_or_none d = true -> text_or_none (column mapped n d) = true.
Proof. unfold column, dict_get. by destruct (dict_lookup n mapped). Qed.

Lemma csv_optional f row tenant run file number mapped kdes type ts tlc uom q :
  (forall n, n ∈ optional_columns -> text_or_none (dict_get mapped n PNone) = true) ->
  forallb text_or_none (optional_members (csv_args f row tenant run file number mapped kdes type ts tlc uom q)) = true.
Proof.
  intros H. assert (Hc : forall n d, n ∈ optional_columns -> text_or_none d = true -> text_or_none (column mapped n d) = true)
    by (intros n d Hn; by apply column_text, H).
  assert (Hl : text_or_none (match _first mapped ["lot_reference"] with Some v => por v (PStr (strip (py_str tlc))) | None => PStr (strip (py_str tlc)) end) = true).
  { destruct (_first mapped ["lot_reference"]) as [v|] eqn:E; [|done]. unfold por. destruct (truthy v); [|done].
    apply first_some_value in E as (b & n & a & E & _ & -> & _).
    destruct b as [|x [|? ?]]; [injection E as <- _; apply H; unfold optional_columns; set_solver | done | done]. }
  apply forallb_forall. intros v Hin. cbn [optional_members csv_args ea_source_record_id ea_product_reference ea_lot_reference
    ea_from_facility ea_to_facility ea_from_entity ea_to_entity ea_transport ea_epcis_event_type ea_epcis_action ea_epcis_biz_step] in Hin.
  repeat destruct Hin as [<-|Hin]; try done; try exact Hl.
  1: by destruct number.
  all: repeat (apply Hc; [by apply (bool_decide_unpack _); vm_compute|]); try done.
Qed.

(** A row of a table is normalised exactly when it is complete.  An event says what its row says:
    type, moment, lot code, quantity and unit are those of the mapped columns, and the row is kept as
    it was.  An incomplete row is refused with the list of precisely the required fields that are blank
    in all of their columns, and of those that cannot be read.  A complete row whose columns the model
    accepts becomes an event, unless the row is larger than the limit of the payload. *)
Theorem csv_row_exact env f row tenant mapping run file number :
  let mapped := csv_mapped mapping row in
  let outcome := normalize_csv_row env f row tenant mapping run file number in
  (forall e, outcome = Ok e -> complete mapped /\ says_row mapped row e)
  /\ (~ complete mapped -> outcome = Raise (csv_problem number (missing_fields mapped) (invalid_fields mapped)))
  /\ (forall field, field ∈ missing_fields mapped <->
        exists names, (field, names) ∈ required_fields /\ Forall (fun n => blank (dict_get mapped n PNone) = true) names)
  /\ (complete mapped -> acceptable mapped -> forall u r, py_uuid tenant = Ok u -> run_uuid run = Ok r ->
        (exists e, outcome = Ok e) \/ exists size, outcome = Raise (RawPayloadTooLargeError size (_raw_payload_max_bytes env))).
Proof.
  intros mapped outcome. destruct (csv_branches env f row tenant mapping run file number) as [Hyes Hno]. fold mapped outcome in Hyes, Hno.
  split_and!; [|exact Hno|apply missing_iff|].
  - intros e He. assert (Hc : complete mapped).
    { split_and!.
      - apply no_missing_field. destruct (missing_fields mapped) eqn:Em; [done|]. exfalso.
        assert (~ complete mapped) as Hn by (intros [Hr%no_missing_field _]; congruence). rewrite (Hno Hn) in He. done.
      - intros E. rewrite Hno in He; [done|]. by intros (_ & H & _).
      - intros E. rewrite Hno in He; [done|]. by intros (_ & _ & H). }
    split; [exact Hc|]. destruct (Hyes Hc) as (ty & q & ts & tlc & uom & Ety & Eq & Ets & Etlc & Euom & E). rewrite E in He.
    apply rbind_Ok_inv in He as (u & _ & He). apply rbind_Ok_inv in He as (r & _ & He). apply rbind_Ok_inv in He as (t & Ht & He).
    apply rbind_Ok_inv in He as (canonical & Hnew & Hprep). apply cte_type_spec in Ht.
    destruct (normalized_fields _ _ _ _ _ Hnew Hprep) as (H1 & H2 & H3 & _ & H4 & _ & H5 & H6 & _).
    cbn [csv_args ea_event_type ea_event_timestamp ea_traceability_lot_code ea_quantity ea_unit_of_measure ea_raw_payload] in *.
    split_and!; [done|..].
    + unfold csv_type in Ety. destruct (_first mapped ["event_type"]) as [v|] eqn:Ev; [|done]. exists v.
      split; [by apply first_some_value|]. by rewrite H1, Ht.
    + exists ts. split; [by apply first_some_value | done].
    + exists tlc. split; [by apply first_some_value | done].
    + unfold csv_quantity in Eq. destruct (_first mapped ["quantity"]) as [v|] eqn:Ev; [|done]. exists v.
      split; [by apply first_some_value|]. by rewrite H4.
    + exists uom. split; [by apply first_some_value | done].
  - intros Hc (Hopt & (v & at_ & Hv & Hat) & (l & Hl & Hlen) & (q' & Hq' & Hpos)) u r Hu Hr.
    destruct (Hyes Hc) as (ty & q & ts & tlc & uom & Ety & Eq & Ets & Etlc & Euom & E). rewrite E, Hu, Hr. cbn [rbind].
    destruct (csv_type_known _ _ Ety) as (t & -> & _). cbn [rbind].
    apply field_value_first in Hv. rewrite Ets in Hv. injection Hv as <-.
    apply field_value_first in Hl. rewrite Etlc in Hl. injection Hl as <-. rewrite Eq in Hq'. injection Hq' as <-.
    destruct (new_event_accepts f (csv_args f row u r file number mapped (snd (map_columns mapping row [] [])) t ts tlc uom q) at_) as [e He];
      [done..|by apply csv_optional|done|]. rewrite He. cbn [rbind].
    destruct (prepare_total env e) as [H|(size & H & _)]; [by left | right; by exists size].
Qed.

(** ** EPCIS events *)

(** The values that may name the lot: master data, identifiers of the event, flattened members. *)
Definition lot_places (data : pydict) : list pyval :=
  (((fun k => dict_get (ilmd_of data) k PNone) <$> ilmd_keys) ++ event_epcs data ++ event_classes data
   ++ ((fun k => dict_get data k PNone) <$> flat_keys))%list.

(** How a value names a lot: its text, the last segment of an EPC, or its full identity. *)
Inductive lot_name (lossless : bool) (v : pyval) : string -> Prop :=
| ByText : blank v = false -> lot_name lossless v (strip (py_str v))
| BySegment t : _epc_last_segment v = Some t -> lot_name lossless v t
| ByIdentity i : lossless = true -> normalize_epcis_lot true v None None = Ok (Some i) -> lot_name lossless v (canonical_id i).

(** Where the quantity and its unit stand: in the first quantity element, whose unit is a count when it
    has none, or in the flattened member. *)
Inductive quantity_at (data : pydict) : pyval -> string -> Prop :=
| InElement d : _epcis_quantity_element data = Ok (Some d) -> is_none (dict_get d "quantity" PNone) = false ->
    quantity_at data (dict_get d "quantity" PNone) (py_str (por (dict_get d "uom" PNone) (PStr "each")))
| Flattened d : dict_lookup "quantity" data = Some (PDict d) -> is_none (dict_get d "value" PNone) = false ->
    truthy (dict_get d "uom" PNone) = true -> quantity_at data (dict_get d "value" PNone) (py_str (dict_get d "uom" PNone)).

(** The type that a business step names. *)
Definition step_names (biz_step : pyval) (t : CTEType) : Prop :=
  biz_step <> PNone /\
  (assoc (lower (strip (py_str biz_step))) BIZSTEP_TO_CTE_TYPE = Some (Some t) \/ lower (strip (py_str biz_step)) = cte_text t).

Lemma resolve_names b t : _resolve_bizstep_to_cte_type b = Ok t -> step_names b t.
Proof.
  unfold _resolve_bizstep_to_cte_type. destruct (is_none b) eqn:En; [done|].
  destruct (String.eqb _ ""); [done|]. intros E. split; [by intros ->|].
  destruct (assoc _ BIZSTEP_TO_CTE_TYPE) as [[t'|]|]; [by injection E as <-; left | done|].
  destruct (cte_of_text _) as [t'|] eqn:Et; [|done]. injection E as <-. right. symmetry. by apply cte_of_text_spec.
Qed.

Lemma first_text_spec d keys v t : first_text d keys = Some (v, t) -> (exists k, k ∈ keys /\ v = dict_get d k PNone) /\ blank v = false /\ t = strip (py_str v).
Proof.
  induction keys as [|k keys IH]; cbn [first_text]; [done|]. fold (blank (dict_get d k PNone)). destruct (blank (dict_get d k PNone)) eqn:E.
  - intros ((k' & Hin & ->) & H)%IH. split; [exists k'; split; [by right|done]|done].
  - intros [= <- <-]. split; [exists k; split; [by left|done]|done].
Qed.

Lemma first_segment_spec scheme l t : first_segment scheme l = Some t -> exists e, e ∈ l /\ _epc_last_segment e = Some t.
Proof.
  induction l as [|e l IH]; cbn [first_segment]; [done|]. assert (Hr : first_segment scheme l = Some t -> exists e', e' ∈ e :: l /\ _epc_last_segment e' = Some t)
    by (intros (e' & Hin & H)%IH; exists e'; split; [by right|done]).
  destruct (contains _ _); [|done]. destruct (_epc_last_segment e) as [s|] eqn:E; [|done]. intros [= <-]. exists e. split; [by left|done].
Qed.

Lemma first_class_uri_spec l p : first_class_uri l = Ok (Some p) -> exists e, e ∈ l /\ parse_class_uri e = Ok (Some p).
Proof.
  induction l as [|e l IH]; cbn [first_class_uri]; [done|]. intros ([q|] & Eq & E)%rbind_Ok_inv.
  - injection E as <-. exists e. split; [by left|done].
  - destruct (IH E) as (e' & Hin & H). exists e'. split; [by right|done].
Qed.

Lemma sgtin_identity_spec g l t g' : sgtin_identity g l = Ok (Some (t, g')) -> exists e, e ∈ l /\ lot_name true e t.
Proof.
  induction l as [|e l IH]; cbn [sgtin_identity]; [done|].
  assert (Hr : sgtin_identity g l = Ok (Some (t, g')) -> exists e', e' ∈ e :: l /\ lot_name true e' t)
    by (intros (e' & Hin & H)%IH; exists e'; split; [by right|done]).
  destruct (contains _ _); [|done]. intros ([i|] & Ei & E)%rbind_Ok_inv.
  - injection E as <- _. exists e. split; [by left|by apply ByIdentity].
  - destruct (_epc_last_segment e) as [s|] eqn:Es; [|by apply Hr]. injection E as <- _. exists e. split; [by left|by apply BySegment].
Qed.

Lemma identity_or_text_name v t g t' g' : blank v = false -> t = strip (py_str v) -> identity_or_text v t g = Ok (t', g') -> lot_name true v t'.
Proof.
  intros Hb -> ([i|] & Ei & E)%rbind_Ok_inv; injection E as <- _; by constructor.
Qed.

(** The lot code that is stored is named by a value of the event. *)
Lemma lot_code_named lossless data t g : _epcis_traceability_lot_code lossless data = Ok (t, g) ->
  exists v, v ∈ lot_places data /\ lot_name lossless v t.
Proof.
  assert (Hilmd : forall v, (exists k, k ∈ ilmd_keys /\ v = dict_get (ilmd_of data) k PNone) -> v ∈ lot_places data).
  { intros v (k & Hk & ->). apply elem_of_app. left. apply list_elem_of_fmap. by exists k. }
  assert (Hflat : forall v, (exists k, k ∈ flat_keys /\ v = dict_get data k PNone) -> v ∈ lot_places data).
  { intros v (k & Hk & ->). unfold lot_places. rewrite !elem_of_app. do 3 right. apply list_elem_of_fmap. by exists k. }
  assert (Hids : forall v, v ∈ event_epcs data \/ v ∈ event_classes data -> v ∈ lot_places data).
  { intros v Hv. unfold lot_places. rewrite !elem_of_app. tauto. }
  unfold _epcis_traceability_lot_code. destruct lossless.
  - unfold lossless_lot_code. intros (g0 & _ & E)%rbind_Ok_inv. apply rbind_Ok_inv in E as ([p|] & Ep & E).
    + injection E as <- _. apply first_class_uri_spec in Ep as (e & Hin & Hp). exists e. split; [apply Hids; apply elem_of_app in Hin; tauto|].
      apply ByIdentity; [done|]. unfold normalize_epcis_lot. by rewrite Hp.
    + destruct (first_text (ilmd_of data) ilmd_keys) as [[v t0]|] eqn:Ef.
      * apply first_text_spec in Ef as (Hk & Hb & Ht). exists v. split; [by apply Hilmd|]. by eapply identity_or_text_name.
      * apply rbind_Ok_inv in E as ([[t1 g1]|] & Es & E).
        -- injection E as <- _. apply sgtin_identity_spec in Es as (e & Hin & H). exists e. split; [by apply Hids; left|done].
        -- destruct (first_text data flat_keys) as [[v t0]|] eqn:Ef2; [|done]. apply first_text_spec in Ef2 as (Hk & Hb & Ht).
           exists v. split; [by apply Hflat|]. by eapply identity_or_text_name.
  - unfold _legacy_epcis_traceability_lot_code. destruct (first_text (ilmd_of data) ilmd_keys) as [[v t0]|] eqn:Ef.
    + intros [= <- _]. apply first_text_spec in Ef as (Hk & Hb & ->). exists v. split; [by apply Hilmd|by apply ByText].
    + destruct (first_segment "lgtin" _) as [s|] eqn:Es.
      * intros [= <- _]. apply first_segment_spec in Es as (e & Hin & H). exists e. split; [apply Hids; apply elem_of_app in Hin; tauto|by apply BySegment].
      * destruct (first_segment "sgtin" _) as [s|] eqn:Es2.
        -- intros [= <- _]. apply first_segment_spec in Es2 as (e & Hin & H). exists e. split; [by apply Hids; left|by apply BySegment].
        -- destruct (first_text data flat_keys) as [[v t0]|] eqn:Ef2; [|done]. intros [= <- _]. apply first_text_spec in Ef2 as (Hk & Hb & ->).
           exists v. split; [by apply Hflat|by apply ByText].
Qed.

Lemma float_or_none_Some v q : float_or_none v = Ok (Some q) -> py_float v = Ok q.
Proof. unfold float_or_none. destruct (py_float v) as [f|x]; [by intros [= ->]|]. by destruct (_ || _). Qed.

(** The two readers of the quantity read one place. *)
Lemma quantity_found data q u : _require_epcis_quantity data = Ok q -> _epcis_unit_of_measure data = Ok u ->
  exists v, quantity_at data v u /\ py_float v = Ok q.
Proof.
  unfold _require_epcis_quantity, _extract_epcis_quantity, _epcis_unit_of_measure.
  destruct (_epcis_quantity_element data) as [element|] eqn:Ee; cbn [rbind]; [|done].
  assert (Hflat : forall d, member data "quantity" = PDict d -> dict_lookup "quantity" data = Some (PDict d)).
  { intros d. unfold member, dict_get. by destruct (dict_lookup "quantity" data) as [v|]; [intros ->|]. }
  set (flat_q := match member data "quantity" with PDict d => _ | _ => Ok (None, PNone) end).
  set (flat_u := match member data "quantity" with PDict d => _ | _ => Raise no_unit end).
  assert (Hf : (do '(value, _) <- flat_q; match value with Some q => Ok q | None => Raise (ValueError ("EPCIS event has no numeric quantity — cannot emit canonical "
      +:+ "TraceabilityEvent. Supply quantity via extension.quantityList or reject the event before normalization (#1249).")) end) = Ok q -> flat_u = Ok u ->
      exists v, quantity_at data v u /\ py_float v = Ok q).
  { subst flat_q flat_u. destruct (member data "quantity") as [| | | | | | |d] eqn:Em; try done.
    destruct (truthy (dict_get d "uom" PNone)) eqn:Et; [|done]. destruct (is_none (dict_get d "value" PNone)) eqn:En; [done|].
    destruct (float_or_none (dict_get d "value" PNone)) as [[f|]|] eqn:Ef; cbn [rbind]; try done. intros [= <-] [= <-].
    exists (dict_get d "value" PNone). split; [by eapply Flattened; auto | by apply float_or_none_Some]. }
  destruct element as [d|]; [|exact Hf]. destruct (is_none (dict_get d "quantity" PNone)) eqn:En; [exact Hf|].
  destruct (float_or_none (dict_get d "quantity" PNone)) as [[f|]|] eqn:Ef; cbn [rbind]; try done. intros [= <-] [= <-].
  exists (dict_get d "quantity" PNone). split; [by eapply InElement | by apply float_or_none_Some].
Qed.

(** C15. Nothing of an EPCIS event is invented.  Whatever is stored was sent: the payload unchanged, the
    type that the business step names, a lot code that a value of the event names, the quantity and the
    unit of one quantity element (a count when the element has no unit), the moment of eventTime; and
    the lot has three characters and the quantity is not negative. *)
Theorem epcis_nothing_fabricated env lossless f data tenant run e :
  normalize_epcis_event env lossless f data tenant run = Ok e ->
  ev_raw_payload e = data
  /\ step_names (dict_get data "bizStep" (PStr "")) (ev_event_type e)
  /\ (exists v, v ∈ lot_places data /\ lot_name lossless v (ev_traceability_lot_code e)) /\ (3 <= slen (ev_traceability_lot_code e))%nat
  /\ (exists v, quantity_at data v (ev_unit_of_measure e) /\ py_float v = Ok (ev_quantity e)) /\ fltb (ev_quantity e) f0 = false
  /\ truthy (member data "eventTime") = true /\ parse_timestamp dateutil_parse (member data "eventTime") = Ok (ev_event_timestamp e).
Proof.
  unfold normalize_epcis_event. intros (a & Ha & E)%rbind_Ok_inv. apply rbind_Ok_inv in E as (canonical & Hnew & Hprep).
  destruct (normalized_fields _ _ _ _ _ Hnew Hprep) as (-> & Hts & -> & Hlen & -> & Hneg & -> & -> & _).
  unfold epcis_args in Ha. apply rbind_Ok_inv in Ha as (t & Ht & Ha). apply rbind_Ok_inv in Ha as ([tlc g] & Hl & Ha).
  destruct (slen tlc <? 3)%nat; [done|]. destruct (negb (truthy (member data "eventTime"))) eqn:Etime; [done|]. apply negb_false_iff in Etime.
  apply rbind_Ok_inv in Ha as (kdes & _ & Ha). apply rbind_Ok_inv in Ha as (inputs & _ & Ha). apply rbind_Ok_inv in Ha as (u & _ & Ha).
  apply rbind_Ok_inv in Ha as (r & _ & Ha). apply rbind_Ok_inv in Ha as (q & Hq & Ha). apply rbind_Ok_inv in Ha as (unit & Hu & Ha).
  apply Ok_inv in Ha as <-. cbn [ea_event_type ea_event_timestamp ea_traceability_lot_code ea_quantity ea_unit_of_measure ea_raw_payload] in *.
  split_and!; try done; [by apply resolve_names | by eapply lot_code_named | by apply quantity_found].
Qed.

End Spec.
