(* ===== verification/CanonicalStore.v ===== *)
(** * The canonical event store

    [CanonicalEventStore] of [services/shared/canonical_persistence/writer.py] with
    legacy_dual_write.py: storing one event or a batch in one transaction, on
    [fsma.traceability_events], the hash chain it shares with the legacy store, the legacy tables, the
    transformation links and the usage counters; ingestion runs; the graph messages that leave when
    the session commits.

    Identifiers and tenants are UUIDs in the data model, so setting the tenant's context cannot fail
    for an event; the advisory lock of a tenant is the order of the calls, what it does not exclude is
    [we_race].  Error texts stop before their first character outside Latin-1.  Proofs are in
    CanonicalProofs.v, CanonicalBatch.v, CanonicalSpec.v, CanonicalEquiv.v and CanonicalLineage.v. *)

From Stdlib Require Import ZArith Lia String Ascii.
From Corelib Require Import SpecFloat.
From stdpp Require Import base list strings sets.
From S2P Require Import Prelude PyStr PyFloat PyVal Json Sha256 Hashing Merkle Db Rules Relational CteStore.
From S2P Require Import TraceWalk Billing CanonicalEvent.

Local Open Scope string_scope.

(** ** Tables *)

(** A row of [fsma.traceability_events].  TIMESTAMPTZ holds a moment, JSONB what the driver returns. *)
Record tr_row := TrRow {
  tr_event_id : string;
  tr_tenant_id : string;
  tr_source_system : string;
  tr_source_record_id : option string;
  tr_source_file_id : option string;
  tr_ingestion_run_id : option string;
  tr_event_type : string;
  tr_event_timestamp : Z;
  tr_event_timezone : string;
  tr_product_reference : option string;
  tr_lot_reference : option string;
  tr_traceability_lot_code : string;
  tr_quantity : f64;
  tr_unit_of_measure : string;
  tr_from_entity_reference : option string;
  tr_to_entity_reference : option string;
  tr_from_facility_reference : option string;
  tr_to_facility_reference : option string;
  tr_transport_reference : option string;
  tr_kdes : pyval;
  tr_raw_payload : pyval;
  tr_normalized_payload : pyval;
  tr_provenance_metadata : pyval;
  tr_confidence_score : f64;
  tr_status : string;
  tr_supersedes_event_id : option string;
  tr_schema_version : string;
  tr_sha256_hash : option string;
  tr_chain_hash : option string;
  tr_idempotency_key : option string;
  tr_epcis : option string * option string * option string;
  tr_amended_at : option Z
}.

(** A row of [fsma.ingestion_runs]; [ir_errors] is JSON text. *)
Record run_row := RunRow {
  ir_id : string; ir_tenant_id : string; ir_source_system : string; ir_source_file_name : option string;
  ir_source_file_hash : option string; ir_source_file_size : option Z; ir_record_count : Z; ir_accepted_count : Z;
  ir_rejected_count : Z; ir_mapper_version : string; ir_schema_version : string; ir_status : string;
  ir_initiated_by : option string; ir_completed_at : option Z; ir_errors : string
}.

(** The legacy tables with the hash chain, and the canonical ones. *)
Record cdb := Cdb {
  c_legacy : store;
  c_events : list tr_row;
  c_links : list link_row;
  c_usage : usage;
  c_runs : list run_row
}.
Definition empty_cdb : cdb := Cdb empty_store [] [] no_usage [].

Definition set_legacy (db : cdb) (s : store) : cdb := Cdb s (c_events db) (c_links db) (c_usage db) (c_runs db).
Definition set_events (db : cdb) (l : list tr_row) : cdb := Cdb (c_legacy db) l (c_links db) (c_usage db) (c_runs db).
Definition set_links (db : cdb) (l : list link_row) : cdb := Cdb (c_legacy db) (c_events db) l (c_usage db) (c_runs db).
Definition set_usage (db : cdb) (u : usage) : cdb := Cdb (c_legacy db) (c_events db) (c_links db) u (c_runs db).
Definition set_runs (db : cdb) (l : list run_row) : cdb := Cdb (c_legacy db) (c_events db) (c_links db) (c_usage db) l.

(** The session: its transaction's tables and the staged graph messages. *)
Record session := Session { s_db : cdb; s_pending : list TraceabilityEvent }.

Record CanonicalStoreResult := CanonicalResult {
  success : bool;
  event_id : string;
  sha256_hash : option string;
  chain_hash : option string;
  idempotent : bool;
  errors : list string;
  legacy_event_id : option string
}.

(** [CanonicalStoreResult.to_legacy_result]; the digests of a stored event are texts. *)
Definition to_legacy_result (r : CanonicalStoreResult) : store_result :=
  StoreResult (success r) (event_id r) (default "" (sha256_hash r)) (default "" (chain_hash r)) (idempotent r)
    (PStr <$> errors r) (f_of_Z 1) [].

(** The constructor's options. *)
Record writer := Writer { dual_write : bool; skip_chain_write : bool; meter_usage : bool }.

(** What a call takes from outside: the size limit's variable, the clock, whether the graph queue is
    enabled, and what other sessions commit between the lookup of the key and the insert. *)
Record wenv := Wenv { we_limit : option string; we_now : Z; we_neo4j : bool; we_race : cdb -> cdb }.

Section Writer.
Context `{PL : PyLib} `{RT : Runtime} `{PG : Postgres}.

(** ** The event row *)

(** [_event_to_params], the JSON columns as they will be read. *)
Definition _event_to_params (env : wenv) (e : TraceabilityEvent) : res tr_row :=
  do raw <- json_dumps opts_str (PDict (ev_raw_payload e));
  let max_bytes := _raw_payload_max_bytes (we_limit env) in
  if (byte_size raw >? max_bytes)%Z then Raise (RawPayloadTooLargeError (byte_size raw) max_bytes)
  else
    do kdes <- json_dumps opts_str (PDict (ev_kdes e));
    do normalized <- json_dumps opts_str (PDict (ev_normalized_payload e));
    do provenance <- json_dumps opts_str (PDict (ev_provenance_metadata e));
    do kdes_column <- jsonb kdes;
    do raw_column <- jsonb raw;
    do normalized_column <- jsonb normalized;
    do provenance_column <- jsonb provenance;
    Ok (TrRow (ev_event_id e) (ev_tenant_id e) (source_text (ev_source_system e)) (ev_source_record_id e)
          (ev_source_file_id e) (ev_ingestion_run_id e) (cte_text (ev_event_type e)) (instant (ev_event_timestamp e))
          (ev_event_timezone e) (ev_product_reference e) (ev_lot_reference e) (ev_traceability_lot_code e) (ev_quantity e)
          (ev_unit_of_measure e) (ev_from_entity_reference e) (ev_to_entity_reference e) (ev_from_facility_reference e)
          (ev_to_facility_reference e) (ev_transport_reference e) kdes_column raw_column normalized_column provenance_column
          (ev_confidence_score e) (status_text (ev_status e)) (ev_supersedes_event_id e) (str_of_Z (ev_schema_version e))
          (ev_sha256_hash e) (ev_chain_hash e) (ev_idempotency_key e)
          (ev_epcis_event_type e, ev_epcis_action e, ev_epcis_biz_step e) None).

(** The CHECK constraints. *)
Definition row_checked (r : tr_row) : bool :=
  fltb f0 (tr_quantity r) && fleb f0 (tr_confidence_score r) && fleb (tr_confidence_score r) (f_of_Z 1).

Definition same_key (t : string) (key : option string) (r : tr_row) : bool :=
  match key, tr_idempotency_key r with
  | Some k, Some k' => String.eqb k' k && String.eqb (tr_tenant_id r) t
  | _, _ => false
  end.

(** A row of an insert statement: the checks, [ON CONFLICT (tenant_id, idempotency_key) DO NOTHING] and
    the primary key; the flag says whether the row was inserted. *)
Definition place_row (db : cdb) (r : tr_row) : res (cdb * bool) :=
  if negb (row_checked r) then Raise (integrity_error "violates check constraint")
  else if existsb (same_key (tr_tenant_id r) (tr_idempotency_key r)) (c_events db) then Ok (db, false)
  else if existsb (fun r' => String.eqb (tr_event_id r') (tr_event_id r)) (c_events db)
  then Raise (integrity_error "duplicate key value violates unique constraint traceability_events_pkey")
  else Ok (set_events db (c_events db ++ [r]), true).

(** The references to the superseded event and to the ingestion run, checked at the end of the statement. *)
Definition references_ok (db : cdb) (r : tr_row) : bool :=
  match tr_supersedes_event_id r with
  | Some id => existsb (fun r' => String.eqb (tr_event_id r') id) (c_events db)
  | None => true
  end &&
  match tr_ingestion_run_id r with
  | Some id => existsb (fun run => String.eqb (ir_id run) id) (c_runs db)
  | None => true
  end.

(** The rows of one statement; also those that were inserted. *)
Fixpoint place_rows (db : cdb) (rows : list tr_row) : res (cdb * list tr_row) :=
  match rows with
  | [] => Ok (db, [])
  | r :: rest =>
      do '(db1, inserted) <- place_row db r;
      do '(db2, placed) <- place_rows db1 rest;
      Ok (db2, if inserted then r :: placed else placed)
  end.
Definition insert_rows (db : cdb) (rows : list tr_row) : res (cdb * list tr_row) :=
  do '(db', placed) <- place_rows db rows;
  if forallb (references_ok db') placed then Ok (db', placed) else Raise (integrity_error "violates foreign key constraint").

Definition _insert_canonical_event (env : wenv) (db : cdb) (e : TraceabilityEvent) : res (cdb * bool) :=
  do r <- _event_to_params env e;
  do '(db', placed) <- insert_rows db [r];
  Ok (db', match placed with [] => false | _ => true end).

(** The lookup by idempotency key. *)
Definition existing (db : cdb) (t : string) (key : option string) : option tr_row := List.find (same_key t key) (c_events db).

(** [if key:]. *)
Definition truthy_key (key : option string) : bool := match nonempty key with Some _ => true | None => false end.

Definition existing_result (r : tr_row) : CanonicalStoreResult :=
  CanonicalResult true (tr_event_id r) (tr_sha256_hash r) (tr_chain_hash r) true [] None.

(** ** The chain *)

Definition unique_sequence (s : store) (r : chain_row) : bool :=
  negb (existsb (fun c => String.eqb (hc_tenant_id c) (hc_tenant_id r) && (hc_sequence_num c =? hc_sequence_num r)%Z) (hash_chain s)).
Definition append_chain (db : cdb) (r : chain_row) : res cdb :=
  let s := c_legacy db in
  if unique_sequence s r
  then Ok (set_legacy db (Store (cte_events s) (cte_kdes s) (hash_chain s ++ [r]) (compliance_alerts s)))
  else Raise (integrity_error "duplicate key value violates unique constraint hash_chain_tenant_id_sequence_num_key").

(** [WHERE EXISTS] against the canonical row. *)
Definition _insert_chain_entry (db : cdb) (r : chain_row) : res cdb :=
  if existsb (fun e => String.eqb (tr_event_id e) (hc_cte_event_id r) && String.eqb (tr_tenant_id e) (hc_tenant_id r)) (c_events db)
  then append_chain db r else Ok db.

Fixpoint _batch_insert_chain_entries (db : cdb) (entries : list chain_row) : res cdb :=
  match entries with
  | [] => Ok db
  | r :: rest => do db' <- append_chain db r; _batch_insert_chain_entries db' rest
  end.

(** The next link after the head of the tenant's chain: previous digest and sequence number. *)
Definition next_of_head (head : option chain_row) : option string * Z :=
  (hc_chain_hash <$> head, match head with Some h => (hc_sequence_num h + 1)%Z | None => 1%Z end).

(** With [skip_chain_write] the link of the event, if it has one, is reused. *)
Definition reuse_link (w : writer) (db : cdb) (t id sha computed : string) : res string :=
  if skip_chain_write w then
    match List.find (fun c => String.eqb (hc_cte_event_id c) id) (chain_of t (c_legacy db)) with
    | None => Ok computed
    | Some linked =>
        if String.eqb (hc_event_hash linked) sha then Ok (hc_chain_hash linked)
        else Raise (ValueError "Canonical content does not match the existing ledger event hash")
    end
  else Ok computed.

(** ** Amendments, links, usage, legacy tables *)

(** [UPDATE ... SET status = 'superseded' ... WHERE ... status = 'active']. *)
Definition supersede (now : Z) (t id : string) (db : cdb) : cdb :=
  set_events db (update_where
    (fun r => String.eqb (tr_event_id r) id && String.eqb (tr_tenant_id r) t && String.eqb (tr_status r) "active")
    (fun r => TrRow (tr_event_id r) (tr_tenant_id r) (tr_source_system r) (tr_source_record_id r) (tr_source_file_id r)
       (tr_ingestion_run_id r) (tr_event_type r) (tr_event_timestamp r) (tr_event_timezone r) (tr_product_reference r)
       (tr_lot_reference r) (tr_traceability_lot_code r) (tr_quantity r) (tr_unit_of_measure r) (tr_from_entity_reference r)
       (tr_to_entity_reference r) (tr_from_facility_reference r) (tr_to_facility_reference r) (tr_transport_reference r)
       (tr_kdes r) (tr_raw_payload r) (tr_normalized_payload r) (tr_provenance_metadata r) (tr_confidence_score r) "superseded"
       (tr_supersedes_event_id r) (tr_schema_version r) (tr_sha256_hash r) (tr_chain_hash r) (tr_idempotency_key r) (tr_epcis r)
       (Some now)) (c_events db)).

Definition mark_superseded (now : Z) (e : TraceabilityEvent) (db : cdb) : res cdb :=
  match ev_supersedes_event_id e with
  | None => Ok db
  | Some id => if String.eqb id (ev_event_id e) then Raise (ValueError "Event cannot supersede itself")
               else Ok (supersede now (ev_tenant_id e) id db)
  end.

(** [inputs_by_tlc]: a later entry for a lot replaces an earlier one. *)
Definition inputs_by_tlc (entries : list pyval) : list (string * pydict) :=
  fold_left (fun m entry => match entry with
    | PDict d => match dict_get d "traceability_lot_code" PNone with PStr s => (strip s, d) :: m | _ => m end
    | _ => m
    end) entries [].
Definition input_detail (m : list (string * pydict)) (tlc : string) : pydict :=
  match List.find (fun p => String.eqb (fst p) tlc) m with Some (_, d) => d | None => [] end.

(** [ORDER BY event_timestamp DESC LIMIT 1] over the events of the input lot. *)
Definition input_event (db : cdb) (t tlc : string) : option tr_row :=
  head (order_by (fun a b => (tr_event_timestamp b <=? tr_event_timestamp a)%Z)
    (where_ (fun r => String.eqb (tr_tenant_id r) t && String.eqb (tr_traceability_lot_code r) tlc) (c_events db))).

(** A value bound to a nullable text column, and to a nullable number column through [float()]. *)
Definition text_cell (v : pyval) : res (option string) :=
  match v with PNone => Ok None | _ => do s <- bind_text v; Ok (Some s) end.
Definition number_cell (v : pyval) : res (option f64) :=
  match v with PNone => Ok None | _ => do f <- py_float v; Ok (Some f) end.

Definition same_link (a b : link_row) : bool :=
  String.eqb (tl_tenant_id a) (tl_tenant_id b) && String.eqb (tl_transformation_event_id a) (tl_transformation_event_id b)
  && String.eqb (tl_input_tlc a) (tl_input_tlc b) && String.eqb (tl_output_tlc a) (tl_output_tlc b).
Definition insert_link (table : list link_row) (r : link_row) : list link_row :=
  if existsb (same_link r) table then table else (table ++ [r])%list.

(** The [try] block for one input lot; a failure is logged only. *)
Definition link_of (db : cdb) (e : TraceabilityEvent) (process_type : pyval) (details : list (string * pydict)) (input_tlc : string)
    : res link_row :=
  let t := ev_tenant_id e in
  let lot := strip input_tlc in
  let detail := input_detail details lot in
  do quantity <- number_cell (dict_get detail "quantity" PNone);
  do unit <- text_cell (dict_get detail "unit_of_measure" PNone);
  do process <- text_cell process_type;
  Ok (LinkRow t (ev_event_id e) lot (tr_event_id <$> input_event db t lot) (ev_traceability_lot_code e) (Some (ev_event_id e))
        quantity unit (Some (ev_quantity e)) (Some (ev_unit_of_measure e)) process (Some (f_of_Z 1)) (Some "explicit")).

Definition add_link (db : cdb) (e : TraceabilityEvent) (process_type : pyval) (details : list (string * pydict)) (table : list link_row)
    (input_tlc : pyval) : list link_row :=
  match input_tlc with
  | PStr s => if String.eqb s "" then table
              else match link_of db e process_type details s with Ok r => insert_link table r | Raise _ => table end
  | _ => table
  end.

Definition links_event (t : CTEType) : bool := match t with TRANSFORMATION | INITIAL_PACKING => true | _ => false end.

(** [process_type], falling back for initial packing. *)
Definition process_type_of (e : TraceabilityEvent) : pyval :=
  let p := dict_get (ev_kdes e) "process_type" PNone in
  match ev_event_type e with INITIAL_PACKING => if truthy p then p else PStr "initial_packing" | _ => p end.

(** [event.kdes.get("inputs") or []]. *)
Definition input_entries (e : TraceabilityEvent) : res (list pyval) :=
  let v := dict_get (ev_kdes e) "inputs" PNone in if truthy v then py_iter v else Ok [].

Definition _create_transformation_links (db : cdb) (e : TraceabilityEvent) : res cdb :=
  if negb (links_event (ev_event_type e)) then Ok db
  else match dict_get (ev_kdes e) "input_lot_codes" (PList []) with
       | PList (c :: codes) =>
           do entries <- input_entries e;
           Ok (set_links db (fold_left (add_link db e (process_type_of e) (inputs_by_tlc entries)) (c :: codes) (c_links db)))
       | _ => Ok db
       end.

Definition meter (w : writer) (e : TraceabilityEvent) (db : cdb) : cdb :=
  if meter_usage w
  then set_usage db (increment_usage_for_event (c_usage db) (ev_tenant_id e) (ev_event_id e) (ev_event_timestamp e)).1
  else db.

(** [_map_validation_status]. *)
Definition _map_validation_status (s : EventStatus) : string :=
  match s with ACTIVE => "valid" | SUPERSEDED => "valid" | REJECTED => "rejected" | DRAFT => "valid" end.

(** The legacy row; the entry time column stays NULL, written as the empty text. *)
Definition legacy_row (e : TraceabilityEvent) : cte_row :=
  let location := match nonempty (ev_from_facility_reference e) with Some l => Some l | None => ev_to_facility_reference e end in
  CteRow (ev_event_id e) (ev_tenant_id e) (cte_text (ev_event_type e)) (ev_traceability_lot_code e)
    (ostr_or (ev_product_reference e) "") (PFloat (ev_quantity e)) (ev_unit_of_measure e) location location
    (isoformat (ev_event_timestamp e)) "" (source_text (ev_source_system e)) (ev_source_record_id e)
    (ev_idempotency_key e) (default "" (ev_sha256_hash e)) (default "" (ev_chain_hash e))
    (ev_epcis_event_type e, ev_epcis_action e, ev_epcis_biz_step e) (_map_validation_status (ev_status e)).

Definition dual_write_legacy (s : store) (e : TraceabilityEvent) : res store :=
  do s1 <- insert_event s (legacy_row e);
  insert_kdes s1 (ev_tenant_id e) (ev_event_id e) (ev_kdes e).

Definition write_legacy (w : writer) (e : TraceabilityEvent) (db : cdb) : res cdb :=
  if dual_write w then do s <- dual_write_legacy (c_legacy db) e; Ok (set_legacy db s) else Ok db.

(** [stage_graph_sync]. *)
Definition stage_graph_sync (env : wenv) (e : TraceabilityEvent) (s : session) : session :=
  if we_neo4j env then Session (s_db s) (s_pending s ++ [e]) else s.

(** ** One event *)

Definition prepared (env : wenv) (e : TraceabilityEvent) : res TraceabilityEvent :=
  match nonempty (ev_sha256_hash e) with Some _ => Ok e | None => prepare_for_persistence (we_limit env) e end.

Definition with_chain_hash (e : TraceabilityEvent) (h : string) : TraceabilityEvent :=
  with_computed e (ev_sha256_hash e) (Some h) (ev_idempotency_key e) (ev_normalized_payload e).

(** What follows the insert of the row. *)
Definition after_insert (w : writer) (env : wenv) (e : TraceabilityEvent) (entry : chain_row) (db : cdb) : res cdb :=
  do db1 <- mark_superseded (we_now env) e (meter w e db);
  do db2 <- (if skip_chain_write w then Ok db1 else _insert_chain_entry db1 entry);
  do db3 <- write_legacy w e db2;
  _create_transformation_links db3 e.

Definition persist_event (w : writer) (env : wenv) (s : session) (e0 : TraceabilityEvent) : res (session * CanonicalStoreResult) :=
  do e <- prepared env e0;
  let t := ev_tenant_id e in
  let sha := default "" (ev_sha256_hash e) in
  match (if truthy_key (ev_idempotency_key e) then existing (s_db s) t (ev_idempotency_key e) else None) with
  | Some row => Ok (s, existing_result row)
  | None =>
      let '(prev, next) := next_of_head (chain_head (c_legacy (s_db s)) t) in
      do h <- reuse_link w (s_db s) t (ev_event_id e) sha (compute_chain_hash sha prev);
      let e := with_chain_hash e h in
      do '(db, inserted) <- _insert_canonical_event env (we_race env (s_db s)) e;
      match (if negb inserted && truthy_key (ev_idempotency_key e) then existing db t (ev_idempotency_key e) else None) with
      | Some row => Ok (Session db (s_pending s), existing_result row)
      | None =>
          do db' <- after_insert w env e (ChainRow t (ev_event_id e) next sha prev h) db;
          Ok (stage_graph_sync env e (Session db' (s_pending s)),
              CanonicalResult true (ev_event_id e) (ev_sha256_hash e) (Some h) false []
                (if dual_write w then Some (ev_event_id e) else None))
      end
  end.

(** ** A batch *)

(** One pass of the loop that plans the batch: results, new events and chain entries, in order. *)
Record plan := Plan {
  pl_existing : list (string * (string * option string * option string));
  pl_prev : option string;
  pl_next : Z;
  pl_results : list CanonicalStoreResult;
  pl_new : list TraceabilityEvent;
  pl_entries : list chain_row
}.

Definition plan_event (t : string) (p : plan) (e : TraceabilityEvent) : plan :=
  match (match nonempty (ev_idempotency_key e) with
         | Some k => snd <$> List.find (fun x => String.eqb (fst x) k) (pl_existing p)
         | None => None
         end) with
  | Some (eid, sha, ch) =>
      Plan (pl_existing p) (pl_prev p) (pl_next p) (pl_results p ++ [CanonicalResult true eid sha ch true [] None])
        (pl_new p) (pl_entries p)
  | None =>
      let sha := default "" (ev_sha256_hash e) in
      let h := compute_chain_hash sha (pl_prev p) in
      Plan (match nonempty (ev_idempotency_key e) with
            | Some k => (k, (ev_event_id e, ev_sha256_hash e, Some h)) :: pl_existing p
            | None => pl_existing p
            end)
        (Some h) (pl_next p + 1)
        (pl_results p ++ [CanonicalResult true (ev_event_id e) (ev_sha256_hash e) (Some h) false [] None])
        (pl_new p ++ [with_chain_hash e h]) (pl_entries p ++ [ChainRow t (ev_event_id e) (pl_next p) sha (pl_prev p) h])
  end.

(** [existing_map]: the stored events under one of the keys. *)
Definition preflight (db : cdb) (t : string) (events : list TraceabilityEvent) : list (string * (string * option string * option string)) :=
  omap (fun k => (fun r => (k, (tr_event_id r, tr_sha256_hash r, tr_chain_hash r))) <$> existing db t (Some k))
    (omap (fun e => nonempty (ev_idempotency_key e)) events).

(** One statement for a chunk of events; the identifiers that landed. *)
Definition _batch_insert_canonical_events (env : wenv) (db : cdb) (events : list TraceabilityEvent) : res (cdb * list string) :=
  do rows <- rmapM (_event_to_params env) events;
  do '(db', placed) <- insert_rows db rows;
  Ok (db', tr_event_id <$> placed).

(** [range(0, len(l), size)]; the list is as long as the fuel at most. *)
Fixpoint chunks_from {A} (fuel size : nat) (l : list A) : list (list A) :=
  match fuel, l with
  | S n, _ :: _ => take size l :: chunks_from n size (drop size l)
  | _, _ => []
  end.
Definition chunks {A} (size : nat) (l : list A) : list (list A) := chunks_from (length l) size l.

Fixpoint insert_chunks (env : wenv) (db : cdb) (l : list (list TraceabilityEvent)) : res (cdb * list string) :=
  match l with
  | [] => Ok (db, [])
  | chunk :: rest =>
      do '(db1, ids) <- _batch_insert_canonical_events env db chunk;
      do '(db2, ids') <- insert_chunks env db1 rest;
      Ok (db2, (ids ++ ids')%list)
  end.

(** The results of lost events: the winner replaces the result of the last event with its key. *)
Fixpoint last_index (key : string) (i : nat) (events : list TraceabilityEvent) : option nat :=
  match events with
  | [] => None
  | e :: rest =>
      match last_index key (S i) rest with
      | Some j => Some j
      | None => if bool_decide (nonempty (ev_idempotency_key e) = Some key) then Some i else None
      end
  end.
Definition reconcile (db : cdb) (t : string) (events lost : list TraceabilityEvent) (results : list CanonicalStoreResult) : list CanonicalStoreResult :=
  fold_left (fun rs e =>
    match nonempty (ev_idempotency_key e) with
    | None => rs
    | Some k => match existing db t (Some k), last_index k 0 events with
                | Some row, Some i => <[i := existing_result row]> rs
                | _, _ => rs
                end
    end) lost results.

Fixpoint each_event (f : TraceabilityEvent -> cdb -> res cdb) (events : list TraceabilityEvent) (db : cdb) : res cdb :=
  match events with [] => Ok db | e :: rest => do db' <- f e db; each_event f rest db' end.

(** [persist_events_batch]. *)
Definition persist_events_batch (w : writer) (env : wenv) (s : session) (events0 : list TraceabilityEvent)
    : res (session * list CanonicalStoreResult) :=
  match events0 with
  | [] => Ok (s, [])
  | first :: others =>
      let t := ev_tenant_id first in
      match List.find (fun e => negb (String.eqb (ev_tenant_id e) t)) others with
      | Some e => Raise (ValueError ("persist_events_batch requires a single-tenant batch; got tenant_id=" +:+ repr_str t
                    +:+ " and UUID(" +:+ repr_str (ev_tenant_id e) +:+ ")"))
      | None =>
        do events <- rmapM (prepared env) events0;
        let '(prev, next) := next_of_head (chain_head (c_legacy (s_db s)) t) in
        let p := fold_left (plan_event t) events (Plan (preflight (s_db s) t events) prev next [] [] []) in
        do '(db1, ids) <- insert_chunks env (we_race env (s_db s)) (chunks 50 (pl_new p));
        let landed id := existsb (String.eqb id) ids in
        let lost := List.filter (fun e => negb (landed (ev_event_id e))) (pl_new p) in
        let inserted := List.filter (fun e => landed (ev_event_id e)) (pl_new p) in
        do db2 <- _batch_insert_chain_entries db1 (List.filter (fun c => landed (hc_cte_event_id c)) (pl_entries p));
        do db3 <- each_event (fun e db => _create_transformation_links db e) inserted db2;
        let db4 := fold_left (fun db e => meter w e db) inserted db3 in
        do db5 <- each_event (write_legacy w) inserted db4;
        Ok (Session db5 (s_pending s), reconcile db1 t events lost (pl_results p))
      end
  end.

(** ** Ingestion runs *)

Definition set_tenant_context (tenant_id : string) : res unit :=
  if uuid_text tenant_id then Ok tt else Raise (ValueError ("tenant_id is not a valid UUID: " +:+ repr_str tenant_id)).

Definition create_ingestion_run (run : run_row) (db : cdb) : res (cdb * string) :=
  do _ <- set_tenant_context (ir_tenant_id run);
  if existsb (fun r => String.eqb (ir_id r) (ir_id run)) (c_runs db)
  then Raise (integrity_error "duplicate key value violates unique constraint ingestion_runs_pkey")
  else Ok (set_runs db (c_runs db ++ [RunRow (ir_id run) (ir_tenant_id run) (ir_source_system run) (ir_source_file_name run)
         (ir_source_file_hash run) (ir_source_file_size run) (ir_record_count run) 0 0 (ir_mapper_version run) (ir_schema_version run)
         (ir_status run) (ir_initiated_by run) None "[]"]), ir_id run).

Definition complete_ingestion_run (now : Z) (run_id tenant_id : string) (accepted rejected : Z) (run_errors : list pydict) (db : cdb) : res cdb :=
  do _ <- set_tenant_context tenant_id;
  do errors_text <- json_dumps opts_default (PList (PDict <$> run_errors));
  do id <- cast_uuid run_id;
  let p r := String.eqb (ir_id r) id && String.eqb (ir_tenant_id r) tenant_id in
  if (count_where p (c_runs db) =? 0)%nat
  then Raise (ValueError ("complete_ingestion_run: no run matched id=" +:+ repr_str run_id +:+ " for tenant=" +:+ repr_str tenant_id
              +:+ ". Either the run does not exist or belongs to a different tenant"))
  else Ok (set_runs db (update_where p (fun r =>
         RunRow (ir_id r) (ir_tenant_id r) (ir_source_system r) (ir_source_file_name r) (ir_source_file_hash r) (ir_source_file_size r)
           (ir_record_count r) accepted rejected (ir_mapper_version r) (ir_schema_version r)
           (if (rejected =? 0)%Z then "completed" else "partial") (ir_initiated_by r) (Some now) errors_text) (c_runs db))).

(** ** Commit and rollback *)

(** The Redis list, oldest message first. *)
Record world := World { w_db : cdb; w_queue : list pyval }.

(** How the graph queue is configured and what fails: [ENABLE_NEO4J_SYNC], [REDIS_URL], the bound of
    the queue, and the exceptions of [rpush] and [ltrim]. *)
Record graph_env := GraphEnv { ge_enabled : bool; ge_redis_url : bool; ge_max_queue : Z; ge_push_fails : bool; ge_trim_fails : bool }.

(** [_neo4j_sync_enabled] and [_neo4j_sync_max_queue], from their variables. *)
Definition _neo4j_sync_enabled (env : option string) : bool :=
  existsb (String.eqb (lower (strip (default "false" env)))) ["1"; "true"; "yes"; "on"].
Definition _neo4j_sync_max_queue (env : option string) : Z :=
  match int_of_text (strip (default "100000" env)) with Some n => Z.max 1 n | None => 100000 end.

Definition graph_message (e : TraceabilityEvent) : pyval :=
  PDict [("event", PStr "canonical.created"); ("data", PDict [("canonical_event", PDict
    [("event_id", PStr (ev_event_id e)); ("tenant_id", PStr (ev_tenant_id e)); ("event_type", PStr (cte_text (ev_event_type e)));
     ("traceability_lot_code", PStr (ev_traceability_lot_code e)); ("product_reference", opt_text (ev_product_reference e));
     ("quantity", PFloat (ev_quantity e)); ("unit_of_measure", PStr (ev_unit_of_measure e));
     ("event_timestamp", PStr (isoformat (ev_event_timestamp e)));
     ("from_facility_reference", opt_text (ev_from_facility_reference e)); ("to_facility_reference", opt_text (ev_to_facility_reference e));
     ("from_entity_reference", opt_text (ev_from_entity_reference e)); ("to_entity_reference", opt_text (ev_to_entity_reference e));
     ("source_system", PStr (source_text (ev_source_system e))); ("confidence_score", PFloat (ev_confidence_score e));
     ("schema_version", PInt (ev_schema_version e)); ("sha256_hash", opt_text (ev_sha256_hash e))])])].

(** [LTRIM key -n -1]. *)
Definition ltrim_last (n : Z) (q : list pyval) : list pyval := drop (length q - Z.to_nat n) q.

Definition publish_graph_sync (g : graph_env) (q : list pyval) (e : TraceabilityEvent) : list pyval :=
  if negb (ge_enabled g) then q
  else if negb (ge_redis_url g) then q
  else if ge_push_fails g then q
  else
    let q' := (q ++ [graph_message e])%list in
    if ge_trim_fails g then q' else ltrim_last (ge_max_queue g) q'.

(** A session of [get_db_session]: the transaction commits when the handler returns, and its staged
    events are published; they are dropped when it raises. *)
Definition run_session {A} (g : graph_env) (h : session -> res (session * A)) (w : world) : world * res A :=
  match h (Session (w_db w) []) with
  | Ok (s, a) => (World (s_db s) (fold_left (publish_graph_sync g) (s_pending s) (w_queue w)), Ok a)
  | Raise e => (w, Raise e)
  end.
End Writer.
