(* ===== verification/EpcisIngest.v ===== *)
(** * Checking EPCIS events

    [services/ingestion/app/epcis/persistence.py] before the database: the settings,
    [_prepare_event_for_persistence] with every check that can refuse an event, and what an event that
    passes them is.  EpcisPersist.v writes it. *)

From Stdlib Require Import ZArith Lia String Ascii.
From Corelib Require Import SpecFloat.
From stdpp Require Import base list strings.
From S2P Require Import Prelude PyStr PyFloat PyVal Json Sha256 Hashing CteStore Rules Enforcement Relational Engine.
From S2P Require Import LotIdentity EpcisExtraction Uom EpcisNormalization CanonicalEvent CanonicalNormalize CanonicalStore.

Local Open Scope string_scope.
Local Open Scope http_scope.

(** ** The checks before the database *)

Record prepared_event := PreparedEvent {
  pe_event : pydict;
  pe_idempotency_key : string;
  pe_normalized : normalized_cte;
  pe_kdes : list kde;
  pe_alerts : list pyval;
  pe_kde_map : pydict;
  pe_quantity_value : f64;
  pe_event_time : pyval
}.

Definition _PERSISTABLE_CTE_TYPES : list string :=
  ["harvesting"; "cooling"; "initial_packing"; "first_land_based_receiving"; "shipping"; "receiving"; "transformation"].

Definition error_detail (code message : string) (more : pydict) : pyval :=
  PDict ([("error", PStr code)] ++ more ++ [("message", PStr message)])%list.

Definition _unsupported_cte_type_error (event_type : string) : option pyval :=
  if existsb (String.eqb event_type) _PERSISTABLE_CTE_TYPES then None
  else Some (PDict [("error", PStr "unsupported_cte_type");
    ("message", PStr ("event_type " +:+ repr_str event_type +:+ " is not one of the 7 FSMA 204 "
       +:+ "Critical Tracking Events and cannot be persisted. Recognized bizSteps that map to it (e.g. FSMA 'growing', CBV 'planting') "
       +:+ "must be rejected or reclassified upstream. (#2815)"));
    ("allowed", text_list (sorted_names ((fun t => (t, tt)) <$> _PERSISTABLE_CTE_TYPES)))]).

(** From the values of STRICT_FSMA_VALIDATION and FSMA_STRICT_MODE. *)
Definition _fsma_strict_mode (preferred legacy : option string) : bool :=
  match (match preferred with Some v => Some v | None => legacy end) with
  | None => true
  | Some v => existsb (String.eqb (lower (strip v))) ["1"; "true"; "yes"; "on"; "strict"]
  end.

Definition set_if (c : bool) (k : string) (v : pyval) (d : pydict) : pydict := if c then dict_set k v d else d.

(** From ALLOW_EPCIS_IN_MEMORY_FALLBACK, and whether this is production. *)
Definition _allow_in_memory_fallback (explicit : option string) (production : bool) : bool :=
  match explicit with
  | Some v => existsb (String.eqb (lower v)) ["1"; "true"; "yes"]
  | None => negb production
  end.

Section Prepare.
Context `{PL : PyLib} `{UL : UrlLib} `{FG : FsmaGate}.

Definition _build_kde_map (event : pydict) (kdes : list kde) (n : normalized_cte) (idempotency_key : string) : res pydict :=
  do document <- json_dumps opts_compact (PDict event);
  let base := foldl (fun m k => dict_set (kde_type k) (PStr (kde_value k)) m) [] kdes in
  let base := dict_set "epcis_idempotency_key" (PStr idempotency_key) (dict_set "epcis_document_json" (PStr document) base) in
  Ok (set_if (negb (String.eqb (n_dest_location_id n) "")) "ship_to_gln" (PStr (n_dest_location_id n))
       (set_if (negb (String.eqb (n_source_location_id n) "")) "ship_from_gln" (PStr (n_source_location_id n))
          (set_if (truthy (n_product_id n)) "product_id" (n_product_id n) base))).

Definition fsma_alert : pyval :=
  alert "error" "fsma_validation" "Event did not pass FSMAEvent schema validation. Excluded from FSMA compliance exports by default.".
Definition fsma_failed : pyval :=
  error_detail "fsma_validation_failed" ("Event failed FSMAEvent schema validation and was "
    +:+ "not persisted. Set FSMA_STRICT_MODE=false only for temporary migration windows.") [].

(** The quantity as a number; [OverflowError] is not caught. *)
Definition numeric_quantity (quantity : pyval) : http f64 :=
  if is_none quantity then
    HTTPException 422 (error_detail "missing_quantity" ("FSMA 204 requires a numeric quantity KDE. Silent "
      +:+ "synthesis to 1.0 was removed per #1249 — events must supply quantity via EPCIS quantityList.") [])
  else
    get value <- of_res (float_or_none quantity);
    match value with
    | Some q => Answer q
    | None =>
        HTTPException 422 (error_detail "non_numeric_quantity" ("EPCIS quantity must be numeric. Non-numeric values "
          +:+ "are rejected per #1249 rather than coerced to 1.0.") [("quantity", PStr (py_str quantity))])
    end.

Definition missing_event_time : pyval :=
  error_detail "missing_event_time" "EPCIS eventTime is required; the ingestion time is not substituted for it." [].

(** [strict] is [_fsma_strict_mode()]. *)
Definition _prepare_event_for_persistence (strict : bool) (tenant_id : string) (event : pydict) : http prepared_event :=
  match _validate_epcis event with
  | (_ :: _) as errors => HTTPException 400 (PDict [("errors", text_list errors)])
  | [] =>
      get idempotency_key <- of_res (_event_idempotency_key event);
      get n <- _normalize_epcis_to_cte event;
      match _unsupported_cte_type_error (n_event_type n) with
      | Some detail => HTTPException 422 detail
      | None =>
          get kdes <- of_res (_extract_kdes event);
          let alerts := _compliance_alerts n kdes in
          get _ <- _enforce_mandatory_gln_check_digits n;
          get warnings <- of_res (_validate_epcis_glns n);
          let alerts := (alerts ++ (PStr <$> warnings))%list in
          get kde_map <- of_res (_build_kde_map event kdes n idempotency_key);
          let passed := _validate_as_fsma_event n (Some tenant_id) in
          if negb passed && strict then HTTPException 422 fsma_failed
          else
            let kde_map := dict_set "fsma_validation_status" (PStr (if passed then "passed" else "failed")) kde_map in
            let alerts := (alerts ++ if passed then [] else [fsma_alert])%list in
            get quantity <- numeric_quantity (n_quantity n);
            if negb (truthy (n_event_time n)) then HTTPException 422 missing_event_time
            else Answer (PreparedEvent event idempotency_key n kdes alerts kde_map quantity (n_event_time n))
      end
  end.
(** ** Facts *)

(** A value that looks like a GLN has the right check digit. *)
Definition gln_checked (value : string) : Prop :=
  looks_like_gln value = true -> Gs1.verify_gs1_check_digit (PStr (Gs1.digits_only value)) = Ok true.

Lemma gln_format_total value : exists b, _validate_gln_format value = Ok b
  /\ (b = true -> Gs1.verify_gs1_check_digit (PStr (Gs1.digits_only value)) = Ok true).
Proof.
  unfold _validate_gln_format. destruct (String.eqb value ""); [by exists false|]. rewrite Gs1.validate_gln_shape.
  match goal with |- context [Gs1.validator ?t ?f ?m ?wl ?lens ?norm ?warn _] =>
    destruct (Gs1.validator_accepts t f m wl lens norm warn (PStr value)) as (r & -> & _ & _ & [Hv _] & _); [by repeat constructor|] end.
  cbn [rbind]. exists (Gs1.is_valid r). split; [done|]. by intros [_ H]%Hv.
Qed.

Lemma bad_glns_total fields : exists bad, bad_glns fields = Ok bad
  /\ (bad = [] -> Forall (fun f => gln_checked (snd f)) fields).
Proof.
  induction fields as [|[field value] fields (bad & Hbad & Hall)]; cbn [bad_glns]; [by exists []|].
  destruct (looks_like_gln value) eqn:El; cbn [negb].
  - destruct (gln_format_total value) as (b & -> & Hb). cbn [rbind]. rewrite Hbad. cbn [rbind]. eexists. split; [reflexivity|].
    destruct b; cbn; [|done]. intros ->. constructor; [by intros _; apply Hb | by apply Hall].
  - cbn [rbind]. rewrite Hbad. cbn [rbind]. exists bad. split; [done|]. intros ->. constructor; [|by apply Hall]. intros H; cbn [snd] in H; congruence.
Qed.

Lemma hbind_Answer {A B} (c : http A) (k : A -> http B) b : hbind c k = Answer b -> exists a, c = Answer a /\ k a = Answer b.
Proof. destruct c; [by exists a | done..]. Qed.
Lemma of_res_Answer {A} (c : res A) a : of_res c = Answer a -> c = Ok a.
Proof. destruct c; [by intros [= ->] | done]. Qed.
Lemma hbind_Crash {A B} (c : http A) (k : A -> http B) e : hbind c k = Crash e -> c = Crash e \/ exists a, c = Answer a /\ k a = Crash e.
Proof. destruct c; [right; by eexists | done | cbn; intros [= ->]; by left]. Qed.
Lemma of_res_Crash {A} (c : res A) e : of_res c = Crash e -> c = Raise e.
Proof. destruct c; [done | by intros [= ->]]. Qed.

Lemma enforce_checked n u : _enforce_mandatory_gln_check_digits n = Answer u ->
  Forall (fun f => gln_checked (snd f)) (_MANDATORY_GLN_FIELDS n) /\ _validate_epcis_glns n = Ok [].
Proof.
  unfold _enforce_mandatory_gln_check_digits, _validate_epcis_glns. destruct (bad_glns_total (_MANDATORY_GLN_FIELDS n)) as (bad & -> & H).
  cbn [of_res hbind rbind]. destruct bad; [|done]. intros _. split; [by apply H | done].
Qed.

Lemma normalized_inv event n : _normalize_epcis_to_cte event = Answer n ->
  assoc (_canonical_bizstep (member event "bizStep")) _EVENT_TYPE_MAP = Some (n_event_type n)
  /\ _extract_event_lot event = (n_lot_code n, n_tlc n) /\ n_event_time n = member event "eventTime"
  /\ n_quantity n = match _quantity_element event with Some d => dict_get d "quantity" PNone | None => PNone end
  /\ n_unit_of_measure n = match _quantity_element event with Some d => dict_get d "uom" PNone | None => PNone end
  /\ n_epcis_biz_step n = member event "bizStep" /\ n_epcis_action n = member event "action" /\ n_epcis_event_type n = member event "type".
Proof.
  unfold _normalize_epcis_to_cte. destruct (_extract_event_lot event) as [l t].
  destruct (assoc _ _EVENT_TYPE_MAP) as [ty|]; [|done]. by intros [= <-].
Qed.

(** No complaint: the members are there and the lot code is long enough. *)
Lemma validated event : _validate_epcis event = [] ->
  truthy (member event "type") = true /\ truthy (member event "eventTime") = true /\ truthy (member event "bizStep") = true
  /\ exists lot tlc, _extract_event_lot event = (lot, tlc) /\ (tlc = "" -> lot <> "") /\ (tlc <> "" -> (3 <= slen (strip tlc))%nat).
Proof.
  unfold _validate_epcis. destruct (_extract_event_lot event) as [lot tlc]. intros H.
  apply app_eq_nil in H as [Hm H]. apply app_eq_nil in H as [_ H]. apply app_eq_nil in H as [_ Hlot].
  assert (Hreq : forall f, f ∈ (if is_type event "TransformationEvent" then ["type"; "eventTime"; "bizStep"] else ["type"; "eventTime"; "action"; "bizStep"]) ->
    truthy (member event f) = true).
  { intros f Hf. apply fmap_nil_inv in Hm. destruct (truthy (member event f)) eqn:E; [done|]. exfalso.
    assert (Hin : In f (List.filter (fun f => negb (truthy (member event f))) (if is_type event "TransformationEvent" then ["type"; "eventTime"; "bizStep"] else ["type"; "eventTime"; "action"; "bizStep"]))).
    { apply List.filter_In. split; [by apply list_elem_of_In | by rewrite E]. }
    by rewrite Hm in Hin. }
  split_and!; [apply Hreq; destruct (is_type _ _); cbn; rewrite !elem_of_cons; tauto..|]. exists lot, tlc. split; [done|].
  destruct (String.eqb_spec tlc "") as [->|Ht]; destruct (String.eqb_spec lot "") as [->|Hl]; cbn in Hlot; try done.
  all: split; [done|]; intros _; unfold _validate_tlc_format in Hlot;
    destruct (String.eqb_spec tlc ""); [done|]; cbn [negb andb] in Hlot; by destruct (Nat.leb_spec 3 (slen (strip tlc))).
Qed.

Lemma lot_implies_tlc event lot tlc : _extract_event_lot event = (lot, tlc) -> lot <> "" -> tlc <> "".
Proof.
  unfold _extract_event_lot. destruct (_extract_lot_data (_ilmd_dict event)) as [l t] eqn:E.
  assert (Hdata : l <> "" -> t <> "").
  { unfold _extract_lot_data in E. destruct (_ilmd_dict event) as [[|kv d]|]; [by injection E as <- <- | | by injection E as <- <-].
    injection E as <- <-. intros Hl. unfold str_or. destruct (String.eqb_spec (_lookup_ilmd (kv :: d) tlc_keys "traceabilityLotCode") ""); done. }
  destruct (_ || _); [intros [= <- <-]; done|]. destruct (first_lot _) as [p|] eqn:Ef; [|by intros [= <- <-]].
  intros ->. apply first_lot_spec in Ef as (i & _ & (s & _ & _ & Hne & _)%lot_from_identifier_text). done.
Qed.

Lemma unsupported_none t : _unsupported_cte_type_error t = None -> t ∈ _PERSISTABLE_CTE_TYPES.
Proof. unfold _unsupported_cte_type_error. destruct (existsb _ _) eqn:E; [|done]. intros _. by apply list_elem_of_In, existsb_In_eqb. Qed.

Lemma numeric_quantity_inv v q : numeric_quantity v = Answer q -> is_none v = false /\ py_float v = Ok q.
Proof.
  unfold numeric_quantity. destruct (is_none v); [done|]. unfold float_or_none. destruct (py_float v) as [f|x]; [by intros [= ->]|].
  by destruct (_ || _).
Qed.

(** Everything that held on the way to a prepared event. *)
Record prepare_facts (strict : bool) (tenant_id : string) (event : pydict) (p : prepared_event) : Prop := {
  pf_event : pe_event p = event;
  pf_valid : _validate_epcis event = [];
  pf_normalized : _normalize_epcis_to_cte event = Answer (pe_normalized p);
  pf_type : n_event_type (pe_normalized p) ∈ _PERSISTABLE_CTE_TYPES;
  pf_glns : Forall (fun f => gln_checked (snd f)) (_MANDATORY_GLN_FIELDS (pe_normalized p));
  pf_key : _event_idempotency_key event = Ok (pe_idempotency_key p);
  pf_kdes : _extract_kdes event = Ok (pe_kdes p);
  pf_quantity : is_none (n_quantity (pe_normalized p)) = false /\ py_float (n_quantity (pe_normalized p)) = Ok (pe_quantity_value p);
  pf_time : pe_event_time p = member event "eventTime" /\ truthy (pe_event_time p) = true;
  pf_status : exists m, pe_kde_map p = dict_set "fsma_validation_status" (PStr (if _validate_as_fsma_event (pe_normalized p) (Some tenant_id) then "passed" else "failed")) m;
  pf_gate : strict = true -> _validate_as_fsma_event (pe_normalized p) (Some tenant_id) = true;
  pf_alerts : pe_alerts p = (_compliance_alerts (pe_normalized p) (pe_kdes p)
                ++ if _validate_as_fsma_event (pe_normalized p) (Some tenant_id) then [] else [fsma_alert])%list
}.

Lemma prepare_inv strict tenant_id event p :
  _prepare_event_for_persistence strict tenant_id event = Answer p -> prepare_facts strict tenant_id event p.
Proof.
  unfold _prepare_event_for_persistence. destruct (_validate_epcis event) eqn:Ev; [|done].
  intros (key & Hkey%of_res_Answer & E)%hbind_Answer. apply hbind_Answer in E as (n & Hn & E).
  destruct (_unsupported_cte_type_error _) eqn:Eu; [done|]. apply unsupported_none in Eu.
  apply hbind_Answer in E as (kdes & Hk%of_res_Answer & E). apply hbind_Answer in E as (u & Hg & E).
  apply enforce_checked in Hg as [Hg Hw]. rewrite Hw in E. cbn [of_res hbind] in E.
  apply hbind_Answer in E as (m & Hm%of_res_Answer & E).
  destruct (negb _ && strict) eqn:Es; [done|]. apply hbind_Answer in E as (q & Hq & E). apply numeric_quantity_inv in Hq.
  destruct (truthy (n_event_time n)) eqn:Et; [|done]. injection E as <-.
  pose proof (normalized_inv _ _ Hn) as (_ & _ & Htime & _).
  split; cbn; try done.
  - by exists m.
  - intros ->. by destruct (_validate_as_fsma_event n _).
  - by rewrite app_nil_r.
Qed.

(** C14. An EPCIS event that passes the checks is one that the partner sent, and nothing was filled in:
    the type is that of its business step and one of the seven tracking events; the lot code comes from
    its master data or from a lot-level identifier and has three characters; the quantity is that of an
    element of its quantity list; the moment is its eventTime; every location that looks like a GLN has
    a correct check digit; under the strict gate the event passed the schema. *)
Theorem epcis_checks_invent_nothing strict tenant_id event p :
  _prepare_event_for_persistence strict tenant_id event = Answer p ->
  pe_event p = event
  /\ assoc (_canonical_bizstep (member event "bizStep")) _EVENT_TYPE_MAP = Some (n_event_type (pe_normalized p))
  /\ n_event_type (pe_normalized p) ∈ _PERSISTABLE_CTE_TYPES
  /\ tlc_source event (n_tlc (pe_normalized p)) /\ (3 <= slen (strip (n_tlc (pe_normalized p))))%nat
  /\ (exists d, PDict d ∈ _quantity_list event /\ py_float (dict_get d "quantity" PNone) = Ok (pe_quantity_value p))
  /\ pe_event_time p = member event "eventTime" /\ truthy (member event "eventTime") = true
  /\ (forall field value, (field, value) ∈ _MANDATORY_GLN_FIELDS (pe_normalized p) -> gln_checked value)
  /\ (strict = true -> _validate_as_fsma_event (pe_normalized p) (Some tenant_id) = true
       /\ dict_get (pe_kde_map p) "fsma_validation_status" PNone = PStr "passed").
Proof.
  intros [H1 H2 H3 H4 H5 _ _ [H6 H6'] [H7 H7'] (m & H8) H9 _]%prepare_inv.
  destruct (normalized_inv _ _ H3) as (Hty & Hlot & _ & Hq & _).
  destruct (validated _ H2) as (_ & _ & _ & lot & tlc & Hlot' & Hl & Hlen). rewrite Hlot in Hlot'. injection Hlot' as <- <-.
  assert (Hne : n_tlc (pe_normalized p) <> "").
  { intros E. apply (lot_implies_tlc _ _ _ Hlot); [|done]. by apply Hl. }
  split_and!; try done.
  - by eapply extract_event_lot_source.
  - by apply Hlen.
  - rewrite Hq in H6, H6'. unfold _quantity_element in *.
    destruct (_quantity_list event) as [|[| | | | | | |first] rest] eqn:El; try done.
    destruct (List.find names_lot (PDict first :: rest)) as [element|] eqn:Ef.
    + apply List.find_some in Ef as [Hin Hnames]. destruct element as [| | | | | | |d]; try done. cbn [as_dict] in *.
      exists d. split; [by apply list_elem_of_In | done].
    + exists first. split; [by left | done].
  - by rewrite <- H7.
  - intros field value Hin. rewrite Forall_forall in H5. by apply (H5 (field, value)).
  - intros Hs. specialize (H9 Hs). split; [done|]. rewrite H8, H9. apply dict_get_set_eq.
Qed.

(** The checks refuse, they do not crash: an event that is a JSON object whose [extension] is absent
    or an object and whose master data is an object or empty is answered or refused with status 400 or
    422, unless its quantity is an integer beyond the range of floats. *)
Theorem epcis_checks_total strict tenant_id event x :
  _prepare_event_for_persistence strict tenant_id event = Crash x ->
  (exists s, json_dumps opts_compact (PDict event) = Ok s) ->
  (exists d, dict_get event "extension" (PDict []) = PDict d) ->
  ((exists d, member event "ilmd" = PDict d) \/ truthy (member event "ilmd") = false) ->
  ((exists d, nested (member event "extension") "ilmd" = PDict d) \/ truthy (nested (member event "extension") "ilmd") = false) ->
  exn_type x = "OverflowError".
Proof.
  intros E (s & Hs) (d & Hext) Hilmd Hin. unfold _prepare_event_for_persistence in E.
  destruct (_validate_epcis event); [|done].
  apply hbind_Crash in E as [E%of_res_Crash|(key & _ & E)].
  { unfold _event_idempotency_key in E. destruct (truthy _); [done|]. by rewrite Hs in E. }
  apply hbind_Crash in E as [E|(n & _ & E)].
  { unfold _normalize_epcis_to_cte in E. destruct (_extract_event_lot event). by destruct (assoc _ _). }
  destruct (_unsupported_cte_type_error _); [done|].
  apply hbind_Crash in E as [E%of_res_Crash|(kdes & _ & E)].
  { exfalso. unfold _extract_kdes in E. destruct (truthy (member event "ilmd")) eqn:Et.
    - cbn [rbind] in E. destruct Hilmd as [[i Hi]|?]; [|done]. by rewrite Hi in E.
    - rewrite Hext in E. cbn [py_get rbind] in E.
      assert (Hn : nested (member event "extension") "ilmd" = dict_get d "ilmd" PNone).
      { unfold member, dict_get in *. destruct (dict_lookup "extension" event); [by rewrite Hext | by injection Hext as <-]. }
      rewrite Hn in Hin. destruct (truthy (dict_get d "ilmd" PNone)) eqn:Ei; [|done]. destruct Hin as [[i Hi]|?]; [|done]. by rewrite Hi in E. }
  apply hbind_Crash in E as [E|(u & _ & E)].
  { unfold _enforce_mandatory_gln_check_digits in E. destruct (bad_glns_total (_MANDATORY_GLN_FIELDS n)) as (bad & Hb & _).
    rewrite Hb in E. cbn [of_res hbind] in E. by destruct bad. }
  apply hbind_Crash in E as [E%of_res_Crash|(w & _ & E)].
  { unfold _validate_epcis_glns in E. destruct (bad_glns_total (_MANDATORY_GLN_FIELDS n)) as (bad & Hb & _). by rewrite Hb in E. }
  apply hbind_Crash in E as [E%of_res_Crash|(m & _ & E)].
  { unfold _build_kde_map in E. by rewrite Hs in E. }
  destruct (_ && strict); [done|]. apply hbind_Crash in E as [E|(q & _ & E)]; [|by destruct (truthy _)].
  unfold numeric_quantity in E. destruct (is_none _); [done|]. apply hbind_Crash in E as [E%of_res_Crash|([|] & _ & E)]; [|done|done].
  unfold float_or_none in E. destruct (py_float (n_quantity n)) as [|y] eqn:Ef; [done|]. destruct (_ || _) eqn:Ex; [done|]. injection E as <-.
  destruct (n_quantity n); cbn in Ef; try done; try (by injection Ef as <-).
  - unfold float_of_int in Ef. destruct (is_inf _); [by injection Ef as <- | done].
  - destruct (parse_float s0); [done|]. by injection Ef as <-.
Qed.

End Prepare.
