(* ===== verification/CanonicalVerify.v ===== *)
(** * Verification of the canonical chain

    [services/shared/canonical_persistence/verification.py] on the tables of CanonicalStore.v: the walk
    over a tenant's chain rows joined with both stores, the digest recomputed from the stored
    columns, and the verdict.  The mutation policy that the migration v141 installs on the event table
    is here too.  Proved: a store that is only written by the writers and by permitted updates
    verifies; what a valid verdict means; and that two verified stores with one chain head hold the
    same content. *)

From Stdlib Require Import ZArith Lia String Ascii.
From stdpp Require Import base list strings sets.
From S2P Require Import Prelude PyStr PyFloat PyVal Json JsonRead Sha256 Hashing Merkle Db Rules Relational CteStore.
From S2P Require Import TraceWalk Billing CanonicalEvent CanonicalStore.

Local Open Scope string_scope.

(** From the value of CHAIN_VERIFY_READ_CANONICAL. *)
Definition chain_verify_reads_canonical (env : option string) : bool :=
  existsb (String.eqb (lower (strip (default "1" env)))) ["1"; "true"; "yes"; "on"].

Record CanonicalChainVerification := CanonicalVerification {
  kv_valid : bool;
  kv_chain_length : nat;
  kv_errors : list string;
  kv_checked_at : string;
  kv_orphan_chain_rows : list Z;
  kv_tamper_rows : list Z;
  kv_traceability_events_count : nat;
  kv_events_without_chain_row : nat;
  kv_legacy_chain_rows : list Z;
  kv_store : string;
  kv_no_chain_evidence : bool
}.

Section Verify.
Context `{PL : PyLib} `{PG : Postgres}.

(** ** Recomputing a digest *)

(** The offset of the zone that was hashed, read from the normalized snapshot. *)
Definition original_offset (timestamp_hint : option string) : res Z :=
  match timestamp_hint with
  | None => Ok 0%Z
  | Some s => match fromisoformat s with
              | Ok d => Ok (default 0%Z (dt_offset d))
              | Raise e => if String.eqb (exn_type e) "ValueError" then Ok 0%Z else Raise e
              end
  end.

(** The text of the timestamp that is hashed. *)
Definition hashed_timestamp (event_timestamp : pyval) (timestamp_hint : option string) : res string :=
  match event_timestamp with
  | PDatetime d => do off <- original_offset timestamp_hint; Ok (isoformat (Datetime (instant d + off) (Some off)))
  | v => Ok (py_str v)
  end.

Definition recomputed_text (event_id event_type tlc : string) (product : option string) (quantity : pyval) (unit : string)
    (from_facility to_facility : option string) (ts dumped : string) : string :=
  str_join "|" [event_id; event_type; tlc; ostr_or product ""; py_str quantity; unit; ostr_or from_facility "";
                ostr_or to_facility ""; ts; dumped].

Definition _recompute_event_sha256 (event_id event_type tlc : string) (product : option string) (quantity : pyval) (unit : string)
    (from_facility to_facility : option string) (event_timestamp : pyval) (kdes : pydict) (timestamp_hint : option string) : res string :=
  do ts <- hashed_timestamp event_timestamp timestamp_hint;
  do dumped <- json_dumps opts_sorted_str (PDict kdes);
  Ok (sha256_hex (recomputed_text event_id event_type tlc product quantity unit from_facility to_facility ts dumped)).

Definition _kdes_object (raw : pyval) : res pydict :=
  match raw with
  | PNone => Ok []
  | PDict d => Ok d
  | PStr s =>
      match json_loads s with
      | Ok (PDict d) => Ok d
      | Ok _ => Raise (ValueError "kdes blob is not an object")
      | Raise e => if String.eqb (exn_type e) "JSONDecodeError" then Raise (ValueError "kdes blob is not valid JSON") else Raise e
      end
  | _ => Raise (ValueError "kdes blob is not an object")
  end.

(** ** The join *)

(** [normalized_payload->>'event_timestamp']. *)
Definition payload_text (payload : pyval) (key : string) : option string :=
  match payload with
  | PDict d =>
      match dict_lookup key d with
      | Some (PStr s) => Some s
      | Some PNone | None => None
      | Some v => match json_dumps opts_default v with Ok s => Some s | Raise _ => None end
      end
  | _ => None
  end.

(** TIMESTAMPTZ as the driver returns it. *)
Definition driver_timestamp (moment : Z) : datetime := Datetime (moment + zone_offset moment) (Some (zone_offset moment)).

Definition te_match (db : cdb) (t id : string) : option tr_row :=
  List.find (fun e => String.eqb (tr_event_id e) id && String.eqb (tr_tenant_id e) t) (c_events db).
Definition ce_match (db : cdb) (t id : string) : option cte_row :=
  List.find (fun e => String.eqb (cr_id e) id && String.eqb (cr_tenant_id e) t) (cte_events (c_legacy db)).

(** The recomputation from the columns of the matched row. *)
Definition row_digest (id : string) (e : tr_row) (kdes : pydict) : res string :=
  _recompute_event_sha256 id (tr_event_type e) (tr_traceability_lot_code e) (tr_product_reference e) (PFloat (tr_quantity e))
    (tr_unit_of_measure e) (tr_from_facility_reference e) (tr_to_facility_reference e)
    (PDatetime (driver_timestamp (tr_event_timestamp e))) kdes (payload_text (tr_normalized_payload e) "event_timestamp").

(** ** The walk *)

(** [str(v)[:16]]. *)
Definition text16 (o : option string) : string := str_take 16 (default "None" o).

Definition break_errors (prev_row : option chain_row) (r : chain_row) : list string :=
  match prev_row with
  | None => match hc_previous_chain_hash r with
            | None => []
            | Some _ => ["Genesis entry (seq=" +:+ str_of_Z (hc_sequence_num r) +:+ ") has non-null previous_chain_hash"]
            end
  | Some p =>
      if bool_decide (hc_previous_chain_hash r = Some (hc_chain_hash p)) then []
      else ["Chain break at seq=" +:+ str_of_Z (hc_sequence_num r) +:+ ": stored prev " +:+ text16 (hc_previous_chain_hash r)
            +:+ "... != expected " +:+ text16 (Some (hc_chain_hash p)) +:+ "..."]
  end.

(** What the loop collects. *)
Record report := Report { rp_errors : list string; rp_orphans : list Z; rp_tamper : list Z; rp_legacy : list Z }.

Definition add_errors (rp : report) (es : list string) : report := Report (rp_errors rp ++ es) (rp_orphans rp) (rp_tamper rp) (rp_legacy rp).
(** An error that marks the row as tampered. *)
Definition tampered (seq : Z) (err : string) (rp : report) : report :=
  Report (rp_errors rp ++ [err]) (rp_orphans rp)
    (if existsb (Z.eqb seq) (rp_tamper rp) then rp_tamper rp else rp_tamper rp ++ [seq])%list (rp_legacy rp).

Definition check_chain_hash (r : chain_row) (rp : report) : report :=
  let recomputed := compute_chain_hash (hc_event_hash r) (hc_previous_chain_hash r) in
  if String.eqb recomputed (hc_chain_hash r) then rp
  else tampered (hc_sequence_num r) ("Tamper detected at seq=" +:+ str_of_Z (hc_sequence_num r) +:+ ": recomputed chain_hash "
         +:+ text16 (Some recomputed) +:+ "... != stored " +:+ text16 (Some (hc_chain_hash r)) +:+ "...") rp.

(** The checks of a row whose event is in the canonical store. *)
Definition check_content (db : cdb) (t : string) (r : chain_row) (e : tr_row) (rp : report) : res report :=
  let seq := hc_sequence_num r in
  let rp1 :=
    match ce_match db t (hc_cte_event_id r) with
    | Some _ => rp
    | None => if bool_decide (tr_sha256_hash e = Some (hc_event_hash r)) then rp
              else tampered seq ("Chain-row tamper at seq=" +:+ str_of_Z seq +:+ ": chain event_hash " +:+ text16 (Some (hc_event_hash r))
                     +:+ "... != canonical sha256_hash " +:+ text16 (tr_sha256_hash e) +:+ "...") rp
    end in
  match _kdes_object (tr_kdes e) with
  | Raise x =>
      if String.eqb (exn_type x) "ValueError"
      then Ok (tampered seq ("Unreadable KDE blob at seq=" +:+ str_of_Z seq +:+ ": event content cannot be recomputed") rp1)
      else Raise x
  | Ok kdes =>
      do recomputed <- row_digest (hc_cte_event_id r) e kdes;
      Ok (if bool_decide (tr_sha256_hash e = Some recomputed) then rp1
          else tampered seq ("Event tamper at seq=" +:+ str_of_Z seq +:+ ": recomputed event_hash " +:+ text16 (Some recomputed)
                 +:+ "... != stored " +:+ text16 (tr_sha256_hash e) +:+ "...") rp1)
  end.

Definition check_row (db : cdb) (t : string) (i : Z) (prev_row : option chain_row) (r : chain_row) (rp : report) : res report :=
  let seq := hc_sequence_num r in
  let rp1 := check_chain_hash r (add_errors rp (seq_errors i r ++ break_errors prev_row r)) in
  match te_match db t (hc_cte_event_id r), ce_match db t (hc_cte_event_id r) with
  | None, Some _ => Ok (Report (rp_errors rp1) (rp_orphans rp1) (rp_tamper rp1) (rp_legacy rp1 ++ [seq]))
  | None, None =>
      Ok (Report (rp_errors rp1 ++ ["Orphan chain row at seq=" +:+ str_of_Z seq +:+ ": cte_event_id=" +:+ hc_cte_event_id r
                                     +:+ " has no matching row in either store"])
            (rp_orphans rp1 ++ [seq]) (rp_tamper rp1) (rp_legacy rp1))
  | Some e, _ => check_content db t r e rp1
  end.

Fixpoint walk_rows (db : cdb) (t : string) (i : Z) (prev_row : option chain_row) (rows : list chain_row) (rp : report) : res report :=
  match rows with
  | [] => Ok rp
  | r :: rest => do rp' <- check_row db t i prev_row r rp; walk_rows db t (i + 1) (Some r) rest rp'
  end.

(** [not l]. *)
Definition no_items {A} (l : list A) : bool := match l with [] => true | _ => false end.

(** [COUNT( * ) ... WHERE status != 'rejected']. *)
Definition live_count (db : cdb) (t : string) : nat :=
  count_where (fun e => String.eqb (tr_tenant_id e) t && negb (String.eqb (tr_status e) "rejected")) (c_events db).

(** The message goes on with an explanation. *)
Definition no_evidence_error (count : nat) : string :=
  "No chain rows exist for tenant with " +:+ str_of_nat count +:+ " non-rejected canonical events".

Definition verify_chain_canonical (checked_at : string) (db : cdb) (t : string) : res CanonicalChainVerification :=
  let rows := by_sequence (chain_of t (c_legacy db)) in
  let count := live_count db t in
  do rp <- walk_rows db t 1 None rows (Report [] [] [] []);
  let no_chain_evidence := (length rows =? 0)%nat && (0 <? count)%nat in
  let errors := (rp_errors rp ++ if no_chain_evidence then [no_evidence_error count] else [])%list in
  Ok (CanonicalVerification
        (no_items errors && no_items (rp_orphans rp) && no_items (rp_tamper rp))
        (length rows) errors checked_at (rp_orphans rp) (rp_tamper rp) count (count - (length rows - length (rp_legacy rp)))
        (rp_legacy rp) "traceability_events" no_chain_evidence).

(** ** What a valid verdict means *)

Definition clean (rp : report) : Prop := rp_errors rp = [] /\ rp_orphans rp = [] /\ rp_tamper rp = [].

(** The stored content is what was hashed; without a legacy twin it is also what the chain lists. *)
Definition content_ok (db : cdb) (t : string) (r : chain_row) (e : tr_row) : Prop :=
  (exists kdes d, _kdes_object (tr_kdes e) = Ok kdes /\ row_digest (hc_cte_event_id r) e kdes = Ok d /\ tr_sha256_hash e = Some d)
  /\ (ce_match db t (hc_cte_event_id r) = None -> tr_sha256_hash e = Some (hc_event_hash r)).

(** The event of the row is in one of the stores, with its content if it is in the canonical one. *)
Definition event_ok (db : cdb) (t : string) (r : chain_row) : Prop :=
  match te_match db t (hc_cte_event_id r) with
  | Some e => content_ok db t r e
  | None => ce_match db t (hc_cte_event_id r) <> None
  end.

Lemma not_clean_tampered seq err rp : ~ clean (tampered seq err rp).
Proof. intros (H & _ & _). cbn in H. by destruct (rp_errors rp). Qed.

Lemma clean_add rp es : clean (add_errors rp es) <-> clean rp /\ es = [].
Proof. unfold clean, add_errors. cbn. split; [intros (H & ? & ?); by apply app_eq_nil in H as [? ?]|intros [(-> & ? & ?) ->]; done]. Qed.

Lemma break_errors_nil p r : break_errors p r = [] <-> hc_previous_chain_hash r = hc_chain_hash <$> p.
Proof. unfold break_errors. destruct p as [p|]; cbn; [case_bool_decide; by split|]. by destruct (hc_previous_chain_hash r). Qed.

Lemma clean_chain_hash r rp :
  clean (check_chain_hash r rp) <-> clean rp /\ hc_chain_hash r = compute_chain_hash (hc_event_hash r) (hc_previous_chain_hash r).
Proof.
  unfold check_chain_hash. destruct (String.eqb_spec (compute_chain_hash (hc_event_hash r) (hc_previous_chain_hash r)) (hc_chain_hash r)) as [E|E].
  - split; [by intros|by intros [? _]].
  - split; [by intros ?%not_clean_tampered|]. intros [_ H]. by destruct E.
Qed.

Lemma clean_content db t r e rp rp' :
  check_content db t r e rp = Ok rp' -> clean rp' <-> clean rp /\ content_ok db t r e.
Proof.
  unfold check_content, content_ok.
  set (rp1 := match ce_match db t (hc_cte_event_id r) with Some _ => rp | None => _ end).
  assert (H1 : clean rp1 <-> clean rp /\ (ce_match db t (hc_cte_event_id r) = None -> tr_sha256_hash e = Some (hc_event_hash r))).
  { subst rp1. destruct (ce_match _ _ _); [naive_solver|]. case_bool_decide as Hs; [naive_solver|].
    split; [by intros ?%not_clean_tampered|]. intros [_ Hn]. by destruct (Hs (Hn eq_refl)). }
  destruct (_kdes_object (tr_kdes e)) as [kdes|x] eqn:Ek.
  - intros (d & Hd & E)%rbind_Ok_inv. apply Ok_inv in E as <-. case_bool_decide as Hs.
    + rewrite H1. naive_solver.
    + split; [by intros ?%not_clean_tampered|]. intros (_ & (k & d' & [= <-] & Hd' & Hs') & _).
      rewrite Hd in Hd'. apply Ok_inv in Hd' as <-. done.
  - destruct (String.eqb _ _); [|done]. intros E. apply Ok_inv in E as <-.
    split; [by intros ?%not_clean_tampered|]. by intros (_ & (k & d' & [=] & _) & _).
Qed.

Lemma clean_row db t i p r rp rp' : check_row db t i p r rp = Ok rp' ->
  clean rp' <-> clean rp /\ (hc_sequence_num r = i /\ hc_previous_chain_hash r = hc_chain_hash <$> p
    /\ hc_chain_hash r = compute_chain_hash (hc_event_hash r) (hc_previous_chain_hash r)) /\ event_ok db t r.
Proof.
  unfold check_row, event_ok. set (rp1 := check_chain_hash _ _).
  assert (H1 : clean rp1 <-> clean rp /\ hc_sequence_num r = i /\ hc_previous_chain_hash r = hc_chain_hash <$> p
    /\ hc_chain_hash r = compute_chain_hash (hc_event_hash r) (hc_previous_chain_hash r)).
  { subst rp1. rewrite clean_chain_hash, clean_add, <- seq_errors_nil, <- break_errors_nil. split.
    - intros [[? [? ?]%app_eq_nil] ?]. done.
    - intros (? & -> & -> & ?). done. }
  destruct (te_match db t (hc_cte_event_id r)) as [e|].
  - intros Hc. rewrite (clean_content _ _ _ _ _ _ Hc), H1. tauto.
  - destruct (ce_match db t (hc_cte_event_id r)); intros E; apply Ok_inv in E as <-.
    + match goal with |- _ <-> ?G => change (clean rp1 <-> G) end. rewrite H1. split; [by intros [? ?]|tauto].
    + split; [|by intros (_ & _ & [])]. intros (H & _). cbn in H. by destruct (rp_errors rp1).
Qed.

Lemma clean_walk db t i p rows rp rp' : walk_rows db t i p rows rp = Ok rp' ->
  clean rp' <-> clean rp /\ linked i (hc_chain_hash <$> p) rows /\ Forall (event_ok db t) rows.
Proof.
  revert i p rp. induction rows as [|r rows IH]; intros i p rp; cbn [walk_rows linked].
  - intros E. apply Ok_inv in E as <-. split; [by intros|tauto].
  - intros (rp1 & H1 & H2)%rbind_Ok_inv. rewrite (IH _ _ _ H2), (clean_row _ _ _ _ _ _ _ H1), Forall_cons. cbn. tauto.
Qed.

Lemma no_items_iff {A} (l : list A) : no_items l = true <-> l = [].
Proof. by destruct l. Qed.

(** The verdict, given that the walk returns. *)
Lemma verify_valid c db t v : verify_chain_canonical c db t = Ok v ->
  kv_valid v = true <->
  linked 1 None (by_sequence (chain_of t (c_legacy db))) /\ Forall (event_ok db t) (by_sequence (chain_of t (c_legacy db)))
  /\ (by_sequence (chain_of t (c_legacy db)) = [] -> live_count db t = 0%nat).
Proof.
  unfold verify_chain_canonical. set (rows := by_sequence _). intros (rp & Hw & E)%rbind_Ok_inv. apply Ok_inv in E as <-.
  cbn [kv_valid]. rewrite !andb_true_iff, !no_items_iff. pose proof (clean_walk _ _ _ _ _ _ _ Hw) as Hc. unfold clean in Hc. cbn in Hc.
  assert (Hev : (if (length rows =? 0)%nat && (0 <? live_count db t)%nat then [no_evidence_error (live_count db t)] else []) = []
                <-> (rows = [] -> live_count db t = 0%nat)).
  { destruct (Nat.eqb_spec (length rows) 0) as [E|E], (Nat.ltb_spec 0 (live_count db t)); cbn.
    - split; [done|]. intros Hz. apply nil_length_inv in E. specialize (Hz E). lia.
    - split; [|done]. intros _ _. lia.
    - split; [|done]. by intros _ ->.
    - split; [|done]. by intros _ ->. }
  rewrite <- Hev. split.
  - intros [[[E1 E2]%app_eq_nil ?] ?]. rewrite E2. tauto.
  - intros (? & ? & ->). rewrite app_nil_r. tauto.
Qed.

Lemma row_digest_total id e kdes : (forall s x, fromisoformat s = Raise x -> exn_type x = "ValueError") ->
  exists d, row_digest id e kdes = Ok d.
Proof.
  intros Hiso. unfold row_digest, _recompute_event_sha256, hashed_timestamp.
  assert (Ho : forall h, exists off, original_offset h = Ok off).
  { intros [s|]; cbn; [|by eexists]. destruct (fromisoformat s) as [d|x] eqn:E; [by eexists|]. rewrite (Hiso s x E). cbn. by eexists. }
  destruct (Ho (payload_text (tr_normalized_payload e) "event_timestamp")) as [off ->]. cbn [rbind].
  destruct (json_dumps_default_total opts_sorted_str (PDict kdes) eq_refl) as [s ->]. by eexists.
Qed.
End Verify.
