(* ===== verification/CanonicalProofs.v ===== *)
(** * What the canonical store promises

    The invariant of the canonical tables and that every writer keeps it: [persist_event] and
    [persist_events_batch], the legacy [store_event] on the chain they share, ingestion runs, and the
    updates that the mutation policy of the migration v141 lets through. *)

From Stdlib Require Import ZArith Lia String Ascii.
From stdpp Require Import base list strings sets.
From S2P Require Import Prelude PyStr PyFloat PyVal Json JsonRead Sha256 Hashing Merkle Db Rules Relational CteStore.
From S2P Require Import TraceWalk Billing CanonicalEvent CanonicalStore CanonicalVerify.

Local Open Scope string_scope.

(** ** The mutation policy

    [prevent_traceability_event_mutation]: an update may change the allowlisted columns, the status
    only from active to superseded.  The columns of the rules engine's verdict are not part of a row
    here. *)
Definition with_status (r : tr_row) (status : string) (amended_at : option Z) : tr_row :=
  TrRow (tr_event_id r) (tr_tenant_id r) (tr_source_system r) (tr_source_record_id r) (tr_source_file_id r)
    (tr_ingestion_run_id r) (tr_event_type r) (tr_event_timestamp r) (tr_event_timezone r) (tr_product_reference r)
    (tr_lot_reference r) (tr_traceability_lot_code r) (tr_quantity r) (tr_unit_of_measure r) (tr_from_entity_reference r)
    (tr_to_entity_reference r) (tr_from_facility_reference r) (tr_to_facility_reference r) (tr_transport_reference r)
    (tr_kdes r) (tr_raw_payload r) (tr_normalized_payload r) (tr_provenance_metadata r) (tr_confidence_score r) status
    (tr_supersedes_event_id r) (tr_schema_version r) (tr_sha256_hash r) (tr_chain_hash r) (tr_idempotency_key r) (tr_epcis r)
    amended_at.

(** The comparison of the trigger: outside the allowlist nothing differs. *)
Definition update_permitted (old new : tr_row) : Prop :=
  new = with_status old (tr_status new) (tr_amended_at new)
  /\ (tr_status new = tr_status old \/ (tr_status old = "active" /\ tr_status new = "superseded")).

Section Invariant.
Context `{PL : PyLib} `{RT : Runtime} `{PG : Postgres}.

(** The text of an aware datetime reads back. *)
Class IsoReads := iso_reads : forall d, aware d -> fromisoformat (isoformat d) = Ok d.
Context `{ISO : !IsoReads}.

(** ** Events whose columns keep what is hashed *)

Record storable (e : TraceabilityEvent) : Prop := {
  st_aware : aware (ev_event_timestamp e);
  st_key : truthy_key (ev_idempotency_key e) = true;
  st_sha : exists sha, compute_sha256_hash (hashed e) = Ok sha /\ ev_sha256_hash e = Some sha;
  st_kdes : exists text kdes, json_dumps opts_str (PDict (ev_kdes e)) = Ok text /\ jsonb text = Ok (PDict kdes)
    /\ json_dumps opts_sorted_str (PDict kdes) = json_dumps opts_sorted_str (PDict (ev_kdes e));
  st_payload : exists text payload, json_dumps opts_str (PDict (ev_normalized_payload e)) = Ok text
    /\ jsonb text = Ok (PDict payload) /\ dict_lookup "event_timestamp" payload = Some (PStr (isoformat (ev_event_timestamp e)))
}.

Lemma storable_chain e h : storable e -> storable (with_chain_hash e h).
Proof. intros [S1 S2 S3 S4 S5]. by split. Qed.

(** The stored columns give the stored digest. *)
Definition row_ok (r : tr_row) : Prop :=
  exists kdes d, _kdes_object (tr_kdes r) = Ok kdes /\ row_digest (tr_event_id r) r kdes = Ok d /\ tr_sha256_hash r = Some d.

Lemma aware_shift d : aware d -> Datetime (instant d + default 0%Z (dt_offset d)) (Some (default 0%Z (dt_offset d))) = d.
Proof. destruct d as [w [o|]]; [|done]. unfold instant. cbn. intros _. f_equal. lia. Qed.

Lemma params_fields env e r : _event_to_params env e = Ok r ->
  tr_event_id r = ev_event_id e /\ tr_tenant_id r = ev_tenant_id e /\ tr_sha256_hash r = ev_sha256_hash e
  /\ tr_chain_hash r = ev_chain_hash e /\ tr_idempotency_key r = ev_idempotency_key e /\ tr_status r = status_text (ev_status e)
  /\ tr_traceability_lot_code r = ev_traceability_lot_code e /\ tr_event_timestamp r = instant (ev_event_timestamp e).
Proof.
  unfold _event_to_params. intros (raw & _ & E)%rbind_Ok_inv. destruct (_ >? _)%Z; [done|].
  repeat (let x := fresh "x" in apply rbind_Ok_inv in E as (x & _ & E)). apply Ok_inv in E as <-. done.
Qed.

Lemma params_supersedes env e r : _event_to_params env e = Ok r -> tr_supersedes_event_id r = ev_supersedes_event_id e.
Proof.
  unfold _event_to_params. intros (raw & _ & E)%rbind_Ok_inv. destruct (_ >? _)%Z; [done|].
  repeat (let x := fresh "x" in apply rbind_Ok_inv in E as (x & _ & E)). by apply Ok_inv in E as <-.
Qed.

Lemma params_row_ok env e r : storable e -> _event_to_params env e = Ok r -> row_ok r.
Proof.
  intros [S1 S2 (sha & Hs & Es) (tk & kdes & Ek & Jk & Dk) (tp & payload & Ep & Jp & Hp)].
  unfold _event_to_params. intros (raw & _ & E)%rbind_Ok_inv. destruct (_ >? _)%Z; [done|].
  rewrite Ek, Ep in E. cbn [rbind] in E. apply rbind_Ok_inv in E as (prov & _ & E). rewrite Jk in E. cbn [rbind] in E.
  apply rbind_Ok_inv in E as (rawc & _ & E). rewrite Jp in E. cbn [rbind] in E. apply rbind_Ok_inv in E as (provc & _ & E).
  apply Ok_inv in E as <-. exists kdes, sha. split; [done|]. split; [|done].
  unfold row_digest, _recompute_event_sha256, hashed_timestamp, payload_text. cbn [tr_normalized_payload tr_event_timestamp].
  rewrite Hp. cbn [original_offset]. rewrite iso_reads by done. cbn [rbind].
  unfold compute_sha256_hash in Hs. rewrite Dk. cbn [hashed ce_kdes] in Hs.
  destruct (json_dumps opts_sorted_str (PDict (ev_kdes e))) as [dumped|]; [|done]. cbn [rbind] in *. apply Ok_inv in Hs as <-. do 2 f_equal.
  unfold driver_timestamp. set (m := instant (ev_event_timestamp e)).
  replace (instant (Datetime (m + zone_offset m) (Some (zone_offset m)))) with m by (unfold instant; cbn; lia).
  subst m. rewrite aware_shift by done. done.
Qed.

(** ** The invariant *)

Definition in_canonical (db : cdb) (c : chain_row) : Prop :=
  exists e, e ∈ c_events db /\ tr_event_id e = hc_cte_event_id c /\ tr_tenant_id e = hc_tenant_id c
    /\ tr_sha256_hash e = Some (hc_event_hash c).
Definition in_legacy (db : cdb) (c : chain_row) : Prop :=
  exists e, e ∈ cte_events (c_legacy db) /\ cr_id e = hc_cte_event_id c /\ cr_tenant_id e = hc_tenant_id c.

(** The event has its link of the chain. *)
Definition chained (db : cdb) (e : tr_row) : Prop :=
  exists c, c ∈ hash_chain (c_legacy db) /\ hc_cte_event_id c = tr_event_id e /\ hc_tenant_id c = tr_tenant_id e
    /\ tr_sha256_hash e = Some (hc_event_hash c).

(** [skips] says whether writers with [skip_chain_write] were used. *)
Record cdb_ok (skips : bool) (db : cdb) : Prop := {
  ok_ids : NoDup (tr_event_id <$> c_events db);
  ok_rows : Forall row_ok (c_events db);
  ok_linked : forall t, linked 1 None (chain_of t (c_legacy db));
  ok_entries : forall c, c ∈ hash_chain (c_legacy db) -> in_canonical db c \/ in_legacy db c;
  ok_chained : skips = false -> forall e, e ∈ c_events db -> chained db e
}.

Lemma empty_ok skips : cdb_ok skips empty_cdb.
Proof.
  split; cbn; [constructor|constructor|done|by intros c []%not_elem_of_nil|by intros _ e []%not_elem_of_nil].
Qed.

Lemma te_match_elem db t id e : te_match db t id = Some e -> e ∈ c_events db /\ tr_event_id e = id /\ tr_tenant_id e = t.
Proof. intros [Hin E]%find_elem. apply andb_true_iff in E as [E1%String.eqb_eq E2%String.eqb_eq]. done. Qed.

Lemma ce_match_some db t id : ce_match db t id <> None <-> exists e, e ∈ cte_events (c_legacy db) /\ cr_id e = id /\ cr_tenant_id e = t.
Proof.
  unfold ce_match. destruct (List.find _ _) as [e|] eqn:E.
  - apply find_elem in E as [Hin E]. apply andb_true_iff in E as [E1%String.eqb_eq E2%String.eqb_eq]. split; [eauto|done].
  - split; [done|]. intros (e & Hin & <- & <-). pose proof (List.find_none _ _ E e) as Hn. cbn in Hn.
    rewrite !String.eqb_refl in Hn. discriminate Hn. by apply list_elem_of_In.
Qed.

Lemma te_match_found db e : NoDup (tr_event_id <$> c_events db) -> e ∈ c_events db -> te_match db (tr_tenant_id e) (tr_event_id e) = Some e.
Proof.
  intros Hd Hin. unfold te_match. destruct (List.find _ _) as [e'|] eqn:E.
  - apply find_elem in E as [Hin' E']. apply andb_true_iff in E' as [E1%String.eqb_eq _]. f_equal. by apply (key_unique tr_event_id (c_events db)).
  - pose proof (List.find_none _ _ E e) as Hn. cbn in Hn. rewrite !String.eqb_refl in Hn. discriminate Hn. by apply list_elem_of_In.
Qed.

(** In a store that satisfies the invariant every chain row passes. *)
Lemma ok_event skips db t r : cdb_ok skips db -> r ∈ chain_of t (c_legacy db) -> event_ok db t r.
Proof.
  intros [K1 K2 K3 K4 _] Hr. unfold chain_of in Hr. apply list_elem_of_In, filter_In in Hr as [Hr <-%String.eqb_eq].
  apply list_elem_of_In in Hr. unfold event_ok. destruct (te_match db (hc_tenant_id r) (hc_cte_event_id r)) as [e|] eqn:Ee.
  - pose proof (te_match_elem _ _ _ _ Ee) as (Hin & Hid & Ht). rewrite Forall_forall in K2. split.
    + rewrite <- Hid. by apply K2.
    + intros Hn. destruct (K4 r Hr) as [(e' & Hin' & Hid' & Ht' & Hs)|Hl].
      * rewrite <- Hid', <- Ht', te_match_found in Ee by done. by injection Ee as ->.
      * by apply ce_match_some in Hl.
  - destruct (K4 r Hr) as [(e' & Hin' & Hid' & Ht' & Hs)|Hl].
    + by rewrite <- Hid', <- Ht', te_match_found in Ee.
    + by apply ce_match_some.
Qed.

(** *** What keeps it *)

Lemma row_ok_status r status amended_at : row_ok r -> row_ok (with_status r status amended_at).
Proof. done. Qed.

Lemma permitted_keys r r' : update_permitted r r' ->
  tr_event_id r' = tr_event_id r /\ tr_tenant_id r' = tr_tenant_id r /\ tr_sha256_hash r' = tr_sha256_hash r
  /\ tr_idempotency_key r' = tr_idempotency_key r /\ tr_traceability_lot_code r' = tr_traceability_lot_code r
  /\ (row_ok r -> row_ok r').
Proof. intros [-> _]. done. Qed.

Lemma linked_app i p l k : linked i p (l ++ k) <-> linked i p l /\ linked (i + Z.of_nat (length l)) (end_link p l) k.
Proof.
  revert i p. induction l as [|r l IH]; intros i p; cbn [app linked length].
  - unfold end_link. cbn. rewrite Z.add_0_r. tauto.
  - rewrite IH. unfold end_link. rewrite last_cons.
    replace (i + Z.of_nat (S (length l)))%Z with (i + 1 + Z.of_nat (length l))%Z by lia. destruct (last l); tauto.
Qed.

(** New rows and their links are appended, stored rows are updated as the policy permits. *)
Record extends (skips : bool) (db db' : cdb) (f : tr_row -> tr_row) (rows : list tr_row) (t : string) (entries : list chain_row) : Prop := {
  ex_events : c_events db' = f <$> (c_events db ++ rows)%list;
  ex_permitted : forall r, r ∈ (c_events db ++ rows)%list -> update_permitted r (f r);
  ex_ids : NoDup (tr_event_id <$> (c_events db ++ rows)%list);
  ex_rows : Forall row_ok rows;
  ex_chain : hash_chain (c_legacy db') = (hash_chain (c_legacy db) ++ entries)%list;
  ex_tenant : Forall (fun c => hc_tenant_id c = t) entries;
  ex_linked : let '(prev, next) := next_of_head (chain_head (c_legacy db) t) in linked next prev entries;
  ex_entries : Forall (fun c => exists r, r ∈ rows /\ tr_event_id r = hc_cte_event_id c /\ tr_tenant_id r = hc_tenant_id c
                 /\ tr_sha256_hash r = Some (hc_event_hash c)) entries \/ Forall (in_legacy db') entries;
  ex_chained : skips = false -> Forall (fun r => exists c, c ∈ entries /\ tr_event_id r = hc_cte_event_id c
                 /\ tr_tenant_id r = hc_tenant_id c /\ tr_sha256_hash r = Some (hc_event_hash c)) rows;
  ex_legacy : forall e, e ∈ cte_events (c_legacy db) -> e ∈ cte_events (c_legacy db')
}.

Lemma chain_extended s s' entries t t' : hash_chain s' = (hash_chain s ++ entries)%list -> Forall (fun c => hc_tenant_id c = t) entries ->
  chain_of t' s' = (chain_of t' s ++ if String.eqb t t' then entries else [])%list.
Proof.
  intros E Ht. unfold chain_of. rewrite E, List.filter_app. f_equal. clear E. rewrite Forall_forall in Ht.
  induction entries as [|c entries IH]; [by destruct (String.eqb t t')|]. cbn. rewrite (Ht c) by by left.
  destruct (String.eqb t t'); [f_equal|]; apply IH; intros x Hx; apply Ht; by right.
Qed.

Lemma extended_ids db f rows : (forall r, r ∈ (c_events db ++ rows)%list -> update_permitted r (f r)) ->
  tr_event_id <$> (f <$> (c_events db ++ rows)%list) = tr_event_id <$> (c_events db ++ rows)%list.
Proof.
  generalize (c_events db ++ rows)%list as l. induction l as [|r l IH]; intros H; [done|]. cbn. f_equal.
  - apply permitted_keys, H. by left.
  - apply IH. intros r' Hr'. apply H. by right.
Qed.

Lemma ok_extends skips db db' f rows t entries : cdb_ok skips db -> extends skips db db' f rows t entries -> cdb_ok skips db'.
Proof.
  intros [K1 K2 K3 K4 K5] [E1 E2 E3 E4 E5 E6 E7 E8 E9 E10].
  assert (Hold : forall r, r ∈ (c_events db ++ rows)%list -> exists r', r' ∈ c_events db' /\ update_permitted r r').
  { intros r Hr. exists (f r). split; [|by apply E2]. rewrite E1. by apply list_elem_of_fmap_2. }
  split.
  - rewrite E1, extended_ids by done. done.
  - rewrite E1, Forall_forall. intros r' (r & -> & Hr)%list_elem_of_fmap_1. apply (permitted_keys r); [by apply E2|].
    rewrite Forall_forall in K2, E4. apply elem_of_app in Hr as [Hr|Hr]; auto.
  - intros t'. rewrite (chain_extended _ _ _ _ _ E5 E6). destruct (String.eqb_spec t t') as [<-|]; [|rewrite app_nil_r; apply K3].
    apply linked_app. split; [apply K3|]. destruct (next_link (c_legacy db) t (K3 t)) as [Hp Hs].
    unfold next_of_head in E7. by rewrite Hp, Hs in E7.
  - intros c. rewrite E5, elem_of_app. intros [Hc|Hc].
    + destruct (K4 c Hc) as [(e & Hin & Hid & Ht & Hs)|(e & ? & ?)]; [left|right; exists e; auto].
      destruct (Hold e) as (e' & Hin' & Hp); [apply elem_of_app; by left|].
      apply permitted_keys in Hp as (P1 & P2 & P3 & _). exists e'. by rewrite P1, P2, P3.
    + destruct E8 as [E8|E8]; rewrite Forall_forall in E8; [left|right; by apply E8].
      destruct (E8 c Hc) as (e & Hin & Hid & Ht & Hs). destruct (Hold e) as (e' & Hin' & Hp); [apply elem_of_app; by right|].
      apply permitted_keys in Hp as (P1 & P2 & P3 & _). exists e'. by rewrite P1, P2, P3.
  - intros Hn e'. rewrite E1. intros (e & -> & He)%list_elem_of_fmap_1. pose proof (permitted_keys _ _ (E2 e He)) as (P1 & P2 & P3 & _).
    unfold chained. rewrite P1, P2, P3, E5. apply elem_of_app in He as [He|He].
    + destruct (K5 Hn e He) as (c & Hc & ?). exists c. split; [apply elem_of_app; by left|done].
    + specialize (E9 Hn). rewrite Forall_forall in E9. destruct (E9 e He) as (c & Hc & ? & ? & ?).
      exists c. split; [apply elem_of_app; by right|done].
Qed.

(** Updates of rows that the mutation policy permits. *)
Lemma ok_update skips db (f : tr_row -> tr_row) :
  cdb_ok skips db -> (forall r, r ∈ c_events db -> update_permitted r (f r)) -> cdb_ok skips (set_events db (f <$> c_events db)).
Proof.
  intros K Hf. apply (ok_extends skips db _ f [] "" []); [done|]. destruct K as [K1 _ _ _ _].
  split; rewrite ?app_nil_r; cbn; try done. by left.
Qed.

Lemma supersede_permitted now t id db : exists f, supersede now t id db = set_events db (f <$> c_events db) /\ forall r, update_permitted r (f r).
Proof.
  eexists. split; [reflexivity|]. intros r. cbn beta.
  destruct (String.eqb (tr_event_id r) id && String.eqb (tr_tenant_id r) t && String.eqb (tr_status r) "active") eqn:E.
  - apply andb_true_iff in E as [_ E%String.eqb_eq]. split; [done|]. by right.
  - split; [by destruct r|by left].
Qed.

(** The other steps leave events and chain alone. *)
Lemma meter_frame w e db : c_events (meter w e db) = c_events db /\ c_legacy (meter w e db) = c_legacy db.
Proof. unfold meter. by destruct (meter_usage w). Qed.

Lemma links_frame db e db' : _create_transformation_links db e = Ok db' -> c_events db' = c_events db /\ c_legacy db' = c_legacy db /\ c_usage db' = c_usage db.
Proof.
  unfold _create_transformation_links. destruct (negb _); [by intros E; apply Ok_inv in E as <-|].
  destruct (dict_get _ _ _) as [| | | | | |[|c codes]|]; try (by intros E; apply Ok_inv in E as <-).
  intros (es & _ & E)%rbind_Ok_inv. by apply Ok_inv in E as <-.
Qed.

Lemma insert_event_keeps s r s' : insert_event s r = Ok s' ->
  hash_chain s' = hash_chain s /\ forall e, e ∈ cte_events s -> e ∈ cte_events s'.
Proof.
  unfold insert_event. destruct (negb _); [done|]. destruct (conflicting s r); [by intros E; apply Ok_inv in E as <-|].
  destruct (existsb (fun r' => String.eqb (cr_id r') (cr_id r)) (cte_events s)); [done|].
  intros E. apply Ok_inv in E as <-. split; [done|]. intros e He. cbn. apply elem_of_app. by left.
Qed.

Lemma write_legacy_frame w e db db' : write_legacy w e db = Ok db' ->
  c_events db' = c_events db /\ c_usage db' = c_usage db /\ hash_chain (c_legacy db') = hash_chain (c_legacy db)
  /\ forall r, r ∈ cte_events (c_legacy db) -> r ∈ cte_events (c_legacy db').
Proof.
  unfold write_legacy, dual_write_legacy. destruct (dual_write w); [|by intros E; apply Ok_inv in E as <-].
  intros (s & Hs & E)%rbind_Ok_inv. apply Ok_inv in E as <-. apply rbind_Ok_inv in Hs as (s1 & H1 & H2).
  apply insert_event_keeps in H1 as [H1 H1']. apply insert_kdes_frame in H2 as [H2 H2']. cbn.
  rewrite H2', H1, H2. done.
Qed.

(** *** One event *)

Lemma same_event_key_iff t key r : same_key t key r = true <-> exists k, key = Some k /\ tr_idempotency_key r = Some k /\ tr_tenant_id r = t.
Proof.
  unfold same_key. destruct key as [k|], (tr_idempotency_key r) as [k'|]; try naive_solver.
  rewrite andb_true_iff, !String.eqb_eq. naive_solver.
Qed.

Lemma existing_none db t key : existing db t key = None <-> existsb (same_key t key) (c_events db) = false.
Proof. unfold existing. induction (c_events db) as [|r l IH]; [done|]. cbn. by destruct (same_key t key r). Qed.

Lemma place_row_spec db r db' inserted : place_row db r = Ok (db', inserted) ->
  row_checked r = true /\
  if inserted
  then db' = set_events db (c_events db ++ [r]) /\ tr_event_id r ∉ (tr_event_id <$> c_events db)
       /\ existing db (tr_tenant_id r) (tr_idempotency_key r) = None
  else db' = db /\ existing db (tr_tenant_id r) (tr_idempotency_key r) <> None.
Proof.
  unfold place_row. destruct (row_checked r); [|done]. cbn [negb].
  destruct (existsb (same_key _ _) _) eqn:Ek.
  - intros E. apply Ok_inv in E as [= <- <-]. split; [done|]. split; [done|]. by rewrite existing_none, Ek.
  - match goal with |- (if ?b then _ else _) = _ -> _ => destruct b eqn:Ei end; [done|]. intros E. apply Ok_inv in E as [= <- <-]. split; [done|]. split; [done|].
    split; [|by apply existing_none]. intros (r' & Hid & Hin)%list_elem_of_fmap_1. apply not_true_iff_false in Ei.
    apply Ei, existsb_exists. exists r'. rewrite <- list_elem_of_In, Hid, String.eqb_refl. done.
Qed.

(** The outcome of the insert of one event. *)
Lemma insert_spec env db e db' inserted : _insert_canonical_event env db e = Ok (db', inserted) ->
  exists r, _event_to_params env e = Ok r /\
    if inserted
    then db' = set_events db (c_events db ++ [r]) /\ tr_event_id r ∉ (tr_event_id <$> c_events db)
         /\ existing db (ev_tenant_id e) (ev_idempotency_key e) = None /\ row_checked r = true /\ references_ok db' r = true
    else db' = db /\ existing db (ev_tenant_id e) (ev_idempotency_key e) <> None.
Proof.
  unfold _insert_canonical_event, insert_rows. intros (r & Hr & E)%rbind_Ok_inv. exists r. split; [done|].
  apply rbind_Ok_inv in E as ([db1 placed] & E & E'). apply Ok_inv in E' as [= <- <-].
  apply rbind_Ok_inv in E as ([db2 placed2] & E & E'). cbn [place_rows] in E.
  apply rbind_Ok_inv in E as ([db3 b] & E & E2). cbn in E2. apply Ok_inv in E2 as [= <- <-].
  apply place_row_spec in E as [Hc E]. destruct (params_fields _ _ _ Hr) as (_ & <- & _ & _ & <- & _).
  destruct (forallb _ _) eqn:Ef; [|done]. apply Ok_inv in E' as [= <- <-]. destruct b; [|done].
  destruct E as (-> & ? & ?). cbn in Ef. rewrite andb_true_r in Ef. done.
Qed.

Lemma mark_superseded_spec now e db db' : mark_superseded now e db = Ok db' ->
  exists f, db' = set_events db (f <$> c_events db) /\ (forall r, update_permitted r (f r))
    /\ (ev_supersedes_event_id e = None -> db' = db).
Proof.
  unfold mark_superseded. destruct (ev_supersedes_event_id e) as [id|].
  - destruct (String.eqb _ _); [done|]. intros E. apply Ok_inv in E as <-.
    destruct (supersede_permitted now (ev_tenant_id e) id db) as (f & -> & Hf). by exists f.
  - intros E. apply Ok_inv in E as <-. exists (fun r => r). rewrite list_fmap_id. split; [by destruct db|].
    split; [|done]. intros r. split; [by destruct r|by left].
Qed.

(** What follows the insert of a row that is there. *)
Lemma after_insert_spec w env e entry db db' r :
  r ∈ c_events db -> (tr_event_id r, tr_tenant_id r) = (hc_cte_event_id entry, hc_tenant_id entry) ->
  after_insert w env e entry db = Ok db' ->
  (exists f, c_events db' = f <$> c_events db /\ (forall r, update_permitted r (f r)))
  /\ (ev_supersedes_event_id e = None -> c_events db' = c_events db)
  /\ hash_chain (c_legacy db') = (hash_chain (c_legacy db) ++ if skip_chain_write w then [] else [entry])%list
  /\ (forall e, e ∈ cte_events (c_legacy db) -> e ∈ cte_events (c_legacy db'))
  /\ c_usage db' = c_usage (meter w e db).
Proof.
  intros Hr Hk. unfold after_insert. intros (db1 & H1 & E)%rbind_Ok_inv.
  apply rbind_Ok_inv in E as (db2 & H2 & E). apply rbind_Ok_inv in E as (db3 & H3 & H4).
  destruct (meter_frame w e db) as [Me Ml]. apply mark_superseded_spec in H1 as (f & -> & Hf & Hn). rewrite Me in *.
  assert (Hex : existsb (fun e => String.eqb (tr_event_id e) (hc_cte_event_id entry) && String.eqb (tr_tenant_id e) (hc_tenant_id entry))
                 (f <$> c_events db) = true).
  { apply existsb_exists. exists (f r). split; [apply list_elem_of_In; by apply list_elem_of_fmap_2|].
    destruct (permitted_keys _ _ (Hf r)) as (-> & -> & _). injection Hk as -> ->. by rewrite !String.eqb_refl. }
  assert (E2 : c_events db2 = f <$> c_events db /\ c_usage db2 = c_usage (meter w e db)
    /\ hash_chain (c_legacy db2) = (hash_chain (c_legacy db) ++ if skip_chain_write w then [] else [entry])%list
    /\ cte_events (c_legacy db2) = cte_events (c_legacy db)).
  { destruct (skip_chain_write w); [apply Ok_inv in H2 as <-; cbn; by rewrite Ml, app_nil_r|]. unfold _insert_chain_entry in H2.
    cbn [set_events c_events] in H2. rewrite Hex in H2. unfold append_chain in H2. destruct (unique_sequence _ _); [|done].
    apply Ok_inv in H2 as <-. cbn. by rewrite Ml. }
  destruct E2 as (E2 & U2 & C2 & L2). apply write_legacy_frame in H3 as (E3 & U3 & C3 & L3). apply links_frame in H4 as (E4 & L4 & U4).
  split; [exists f; by rewrite E4, E3, E2|]. split; [|rewrite L4, C3, C2, U4, U3, U2; split; [done|]; split; [|done]].
  - intros Hs. rewrite E4, E3, E2. apply Hn in Hs. apply (f_equal c_events) in Hs. cbn in Hs. by rewrite Me in Hs.
  - intros r' Hr'. apply L3. by rewrite L2.
Qed.

(** The event is new, or its key is stored. *)
Lemma persist_event_outcome w env s e0 s' res :
  NoDup (tr_event_id <$> c_events (s_db s)) -> we_race env = (fun db => db) -> (forall e, prepared env e0 = Ok e -> storable e) ->
  persist_event w env s e0 = Ok (s', res) ->
  exists e, prepared env e0 = Ok e /\
  match existing (s_db s) (ev_tenant_id e) (ev_idempotency_key e) with
  | Some row => s' = s /\ res = existing_result row
  | None => exists r h f, let t := ev_tenant_id e in let '(prev, next) := next_of_head (chain_head (c_legacy (s_db s)) t) in
      let entry := ChainRow t (ev_event_id e) next (default "" (ev_sha256_hash e)) prev h in
      _event_to_params env (with_chain_hash e h) = Ok r /\ row_ok r
      /\ (skip_chain_write w = false -> h = compute_chain_hash (default "" (ev_sha256_hash e)) prev)
      /\ extends (skip_chain_write w) (s_db s) (s_db s') f [r] t (if skip_chain_write w then [] else [entry])
      /\ (ev_supersedes_event_id e = None -> c_events (s_db s') = (c_events (s_db s) ++ [r])%list)
      /\ c_usage (s_db s') = c_usage (meter w e (s_db s))
      /\ s_pending s' = (s_pending s ++ if we_neo4j env then [with_chain_hash e h] else [])%list
      /\ res = CanonicalResult true (ev_event_id e) (ev_sha256_hash e) (Some h) false [] (if dual_write w then Some (ev_event_id e) else None)
  end.
Proof.
  intros Hd Hrace Hst. unfold persist_event. intros (e & He & E)%rbind_Ok_inv. specialize (Hst e He). exists e. split; [done|].
  rewrite Hrace, (st_key e Hst) in E. destruct (existing (s_db s) _ _) as [row|] eqn:Ex; [by apply Ok_inv in E as [= <- <-]|].
  destruct (next_of_head _) as [prev next] eqn:En. apply rbind_Ok_inv in E as (h & Hh & E).
  apply rbind_Ok_inv in E as ([db inserted] & Hi & E). pose proof (storable_chain e h Hst) as Hst'.
  apply insert_spec in Hi as (r & Hr & Hi). destruct inserted; [|destruct Hi as (_ & Hne); cbn in Hne; by rewrite Ex in Hne].
  destruct Hi as (-> & Hfresh & _). cbn [negb andb] in E. apply rbind_Ok_inv in E as (db' & Ha & E). apply Ok_inv in E as [= <- <-].
  destruct (params_fields _ _ _ Hr) as (F1 & F2 & F3 & _). destruct (st_sha e Hst) as (sha & _ & Es). cbn in F1, F2, F3.
  assert (Hc : skip_chain_write w = false -> h = compute_chain_hash (default "" (ev_sha256_hash e)) prev).
  { intros Hs. unfold reuse_link in Hh. rewrite Hs in Hh. by apply Ok_inv in Hh as <-. }
  apply (after_insert_spec _ _ _ _ _ _ r) in Ha as ((f & A1 & A2) & A3 & A4 & A5 & A6);
    [|cbn; apply elem_of_app; right; apply list_elem_of_here|by rewrite F1, F2].
  assert (Hmeter : c_usage (meter w (with_chain_hash e h) (set_events (s_db s) (c_events (s_db s) ++ [r]))) = c_usage (meter w e (s_db s))).
  { unfold meter. by destruct (meter_usage w). }
  assert (Hsync : forall s1, s_db (stage_graph_sync env (with_chain_hash e h) s1) = s_db s1
    /\ s_pending (stage_graph_sync env (with_chain_hash e h) s1) = (s_pending s1 ++ if we_neo4j env then [with_chain_hash e h] else [])%list).
  { intros s1. unfold stage_graph_sync. destruct (we_neo4j env); [done|]. by rewrite app_nil_r. }
  assert (Hrow : row_ok r) by by eapply params_row_ok.
  exists r, h, f. destruct (Hsync (Session db' (s_pending s))) as [-> ->]. cbn [s_db s_pending].
  do 3 (split; [done|]). split; [|split; [|split; [by rewrite <- Hmeter|done]]].
  - split; try done.
    + rewrite fmap_app. apply NoDup_app. split; [done|]. split; [|apply NoDup_singleton]. by intros x Hx ->%list_elem_of_singleton.
    + by constructor.
    + destruct (skip_chain_write w); by repeat constructor.
    + rewrite En. destruct (skip_chain_write w); [done|]. cbn. by rewrite <- Hc.
    + left. destruct (skip_chain_write w); [by constructor|]. constructor; [|constructor]. exists r. split; [apply list_elem_of_here|].
      cbn. by rewrite F1, F2, F3, Es.
    + intros ->. constructor; [|constructor]. eexists. split; [apply list_elem_of_here|]. cbn. by rewrite F1, F2, F3, Es.
  - by intros Hs%A3.
Qed.
End Invariant.
