(* ===== verification/CanonicalBatch.v ===== *)
(** * What a batch does

    The exact outcome of [persist_events_batch] while no other session commits in between: every event
    whose idempotency key is new lands with its link of the chain, in order, and every other event
    answers with the stored identifiers; links and usage counters follow.  The invariant of
    CanonicalProofs.v is kept. *)

From Stdlib Require Import ZArith Lia String Ascii.
From stdpp Require Import base list strings sets.
From S2P Require Import Prelude PyStr PyFloat PyVal Json JsonRead Sha256 Hashing Merkle Db Rules Relational CteStore.
From S2P Require Import TraceWalk Billing CanonicalEvent CanonicalStore CanonicalVerify CanonicalProofs.

Local Open Scope string_scope.

Lemma chunks_concat {A} n size (l : list A) : (0 < size)%nat -> (length l <= n)%nat -> mjoin (chunks_from n size l) = l.
Proof.
  intros Hs. revert l. induction n as [|n IH]; intros [|x l] Hl; cbn in *; try done; [lia|].
  fold (@chunks_from A). destruct size as [|size]; [lia|]. cbn [take drop app]. f_equal. rewrite IH by (rewrite length_drop; lia). apply take_drop.
Qed.

Lemma filter_all_true {A} (p : A -> bool) l : (forall x, x ∈ l -> p x = true) -> List.filter p l = l.
Proof.
  induction l as [|x l IH]; intros H; [done|]. cbn. rewrite H by by left. f_equal. apply IH. intros y Hy. apply H. by right.
Qed.
Lemma filter_all_false {A} (p : A -> bool) l : (forall x, x ∈ l -> p x = false) -> List.filter p l = [].
Proof. induction l as [|x l IH]; intros H; [done|]. cbn. rewrite H by by left. apply IH. intros y Hy. apply H. by right. Qed.

Section Batch.
Context `{PL : PyLib} `{RT : Runtime} `{PG : Postgres}.

(** ** Rows with new keys *)

Definition fresh_rows (db : cdb) (t : string) (rows : list tr_row) : Prop :=
  NoDup (tr_idempotency_key <$> rows)
  /\ Forall (fun r => tr_tenant_id r = t /\ existing db t (tr_idempotency_key r) = None) rows.

Lemma existing_app db rows t key :
  existing (set_events db (c_events db ++ rows)) t key = match existing db t key with Some r => Some r | None => List.find (same_key t key) rows end.
Proof. unfold existing. cbn. induction (c_events db) as [|r l IH]; [done|]. cbn. by destruct (same_key t key r). Qed.

Lemma fresh_rows_app db t rows more : fresh_rows db t (rows ++ more) ->
  fresh_rows db t rows /\ fresh_rows (set_events db (c_events db ++ rows)) t more.
Proof.
  intros [Hd Hf]. rewrite fmap_app in Hd. apply NoDup_app in Hd as (Hd1 & Hx & Hd2). apply Forall_app in Hf as [Hf1 Hf2].
  split; [by split|]. split; [done|]. rewrite Forall_forall in *. intros r Hr. destruct (Hf2 r Hr) as [Ht He]. split; [done|].
  rewrite existing_app, He. destruct (List.find _ rows) as [r'|] eqn:E; [|done].
  apply find_elem in E as [Hr' (k & Ek & Ek' & _)%same_event_key_iff]. destruct (Hx (Some k)).
  - rewrite <- Ek'. by apply list_elem_of_fmap_2.
  - rewrite <- Ek. by apply list_elem_of_fmap_2.
Qed.

Lemma place_rows_fresh db t rows db' placed : fresh_rows db t rows -> NoDup (tr_event_id <$> c_events db) -> place_rows db rows = Ok (db', placed) ->
  placed = rows /\ db' = set_events db (c_events db ++ rows) /\ NoDup (tr_event_id <$> c_events db').
Proof.
  revert db db' placed. induction rows as [|r rows IH]; intros db db' placed Hf Hd; cbn [place_rows].
  - intros E. apply Ok_inv in E as [= <- <-]. rewrite app_nil_r. by destruct db.
  - intros ([db1 b] & H1 & E)%rbind_Ok_inv. apply rbind_Ok_inv in E as ([db2 placed2] & H2 & E). apply Ok_inv in E as [= <- <-].
    destruct (fresh_rows_app db t [r] rows Hf) as [[_ H0] Hf']. apply Forall_singleton in H0 as [Ht He].
    apply place_row_spec in H1 as [_ H1]. destruct b; [|by rewrite Ht in H1; destruct H1].
    destruct H1 as (-> & Hn & _). destruct (fun Hn => IH _ _ _ Hf' Hn H2) as (-> & -> & Hd').
    + cbn. rewrite fmap_app. apply NoDup_app. split; [done|]. split; [|apply NoDup_singleton]. by intros x Hx ->%list_elem_of_singleton.
    + cbn in *. by rewrite <- app_assoc in *.
Qed.

(** Events with new keys: every chunk lands whole. *)
Definition fresh_events (db : cdb) (t : string) (events : list TraceabilityEvent) : Prop :=
  NoDup (ev_idempotency_key <$> events)
  /\ Forall (fun e => ev_tenant_id e = t /\ existing db t (ev_idempotency_key e) = None) events.

Lemma params_fresh env db t events rows : rmapM (_event_to_params env) events = Ok rows ->
  (fresh_events db t events -> fresh_rows db t rows) /\ tr_event_id <$> rows = ev_event_id <$> events.
Proof.
  intros Hr%rmapM_Forall2.
  assert (E : tr_idempotency_key <$> rows = ev_idempotency_key <$> events /\ tr_event_id <$> rows = ev_event_id <$> events
              /\ tr_tenant_id <$> rows = ev_tenant_id <$> events).
  { induction Hr as [|e r events rows Hp _ (E1 & E2 & E3)]; [done|]. destruct (params_fields _ _ _ Hp) as (F1 & F2 & _ & _ & F5 & _).
    cbn. by rewrite F1, F2, F5, E1, E2, E3. }
  destruct E as (E1 & E2 & E3). split; [|done]. intros [Hd Hf]. split; [by rewrite E1|]. clear Hd E1 E2 E3.
  induction Hr as [|e r events rows Hp _ IH]; [constructor|]. apply Forall_cons in Hf as [[Ht He] Hf].
  destruct (params_fields _ _ _ Hp) as (_ & F2 & _ & _ & F5 & _). constructor; [by rewrite F2, F5|by apply IH].
Qed.

Lemma rmapM_join {A B} (f : A -> res B) l k zs : rmapM f (l ++ k) = Ok zs <->
  exists xs ys, rmapM f l = Ok xs /\ rmapM f k = Ok ys /\ zs = (xs ++ ys)%list.
Proof.
  revert zs. induction l as [|x l IH]; intros zs; cbn [rmapM app].
  - split; [intros E; by exists [], zs|]. by intros (xs & ys & E%Ok_inv & ? & ->); subst xs.
  - destruct (f x) as [y|]; cbn [rbind]; [|split; [done|by intros (? & ? & ? & _)]]. split.
    + intros (zs' & (xs & ys & Hx & Hy & ->)%IH & E)%rbind_Ok_inv. apply Ok_inv in E as <-. exists (y :: xs), ys. by rewrite Hx.
    + intros (xs & ys & (xs' & Hx & E)%rbind_Ok_inv & Hy & ->). apply Ok_inv in E as <-.
      assert (Hz : rmapM f (l ++ k) = Ok (xs' ++ ys)%list) by (apply IH; eauto). by rewrite Hz.
Qed.

Lemma insert_chunks_rows env ls db out : insert_chunks env db ls = Ok out -> exists rows, rmapM (_event_to_params env) (mjoin ls) = Ok rows.
Proof.
  revert db out. induction ls as [|l ls IH]; intros db out; cbn [insert_chunks]; [by exists []|].
  intros ([db1 ids1] & H1 & E)%rbind_Ok_inv. apply rbind_Ok_inv in E as (out2 & H2 & _). apply IH in H2 as (rows2 & H2).
  apply rbind_Ok_inv in H1 as (rows & Hr & _). exists (rows ++ rows2)%list. apply rmapM_join. eauto.
Qed.

Lemma insert_chunks_fresh env t ls rows db db' ids :
  rmapM (_event_to_params env) (mjoin ls) = Ok rows -> fresh_rows db t rows -> NoDup (tr_event_id <$> c_events db) ->
  insert_chunks env db ls = Ok (db', ids) ->
  db' = set_events db (c_events db ++ rows) /\ ids = ev_event_id <$> mjoin ls /\ NoDup (tr_event_id <$> c_events db').
Proof.
  revert rows db db' ids. induction ls as [|l ls IH]; intros rows db db' ids Hr Hf Hd; cbn [insert_chunks].
  - intros E. apply Ok_inv in E as [= <- <-]. apply Ok_inv in Hr as <-. rewrite app_nil_r. by destruct db.
  - apply rmapM_join in Hr as (rows1 & rows2 & Hr1 & Hr2 & ->).
    intros ([db1 ids1] & H1 & E)%rbind_Ok_inv. apply rbind_Ok_inv in E as ([db2 ids2] & H2 & E). apply Ok_inv in E as [= <- <-].
    unfold _batch_insert_canonical_events, insert_rows in H1. rewrite Hr1 in H1. cbn [rbind] in H1.
    apply rbind_Ok_inv in H1 as ([db3 placed] & H1 & E). apply Ok_inv in E as [= <- <-].
    apply rbind_Ok_inv in H1 as ([db4 placed'] & H1 & E). destruct (forallb _ _); [|done]. apply Ok_inv in E as [= <- <-].
    apply fresh_rows_app in Hf as [Hf1 Hf2]. destruct (place_rows_fresh _ _ _ _ _ Hf1 Hd H1) as (-> & -> & Hd').
    destruct (IH _ _ _ _ Hr2 Hf2 Hd' H2) as (-> & -> & Hd2). cbn in *. rewrite <- app_assoc in *. split; [done|]. split; [|done].
    destruct (params_fresh env db t l rows1 Hr1) as [_ ->]. by rewrite fmap_app.
Qed.

(** ** The plan *)

(** An entry of the chain for an event. *)
Definition entry_of (t : string) (e : TraceabilityEvent) (c : chain_row) : Prop :=
  hc_tenant_id c = t /\ hc_cte_event_id c = ev_event_id e /\ ev_sha256_hash e = Some (hc_event_hash c)
  /\ ev_chain_hash e = Some (hc_chain_hash c).

(** The loop of the plan, started at the head of the chain. *)
Record planned (db : cdb) (t : string) (prev : option string) (next : Z) (p : plan) : Prop := {
  pn_linked : linked next prev (pl_entries p);
  pn_prev : pl_prev p = end_link prev (pl_entries p);
  pn_next : pl_next p = (next + Z.of_nat (length (pl_entries p)))%Z;
  pn_entries : Forall2 (entry_of t) (pl_new p) (pl_entries p);
  pn_keys : NoDup (ev_idempotency_key <$> pl_new p);
  pn_new : Forall (fun e => ev_tenant_id e = t /\ storable e /\ existing db t (ev_idempotency_key e) = None
             /\ exists k, ev_idempotency_key e = Some k /\ k ∈ (fst <$> pl_existing p)) (pl_new p)
}.

Lemma truthy_nonempty key : truthy_key key = true -> exists k, key = Some k /\ nonempty key = Some k.
Proof. unfold truthy_key. destruct (nonempty key) as [k|] eqn:E; [|done]. intros _. exists k. by apply nonempty_Some in E as [-> _]. Qed.

Lemma plan_event_planned db t prev next p e :
  planned db t prev next p -> storable e -> ev_tenant_id e = t ->
  (forall k, ev_idempotency_key e = Some k -> existing db t (Some k) <> None -> k ∈ (fst <$> pl_existing p)) ->
  planned db t prev next (plan_event t p e).
Proof.
  intros [P1 P2 P3 P4 P5 P6] Hst Ht Hpre. destruct (truthy_nonempty _ (st_key e Hst)) as (k & Ek & Ek').
  destruct (st_sha e Hst) as (sha & _ & Es). unfold plan_event. rewrite Ek'.
  destruct (List.find _ (pl_existing p)) as [[k' [[eid s] c]]|] eqn:Ef; cbn; [by split|].
  assert (Hn : k ∉ (fst <$> pl_existing p)).
  { intros (x & Ex & Hx)%list_elem_of_fmap_1. pose proof (List.find_none _ _ Ef x) as Hn. cbn in Hn.
    rewrite <- Ex, String.eqb_refl in Hn. discriminate Hn. by apply list_elem_of_In. }
  rewrite Es. cbn. split; cbn.
  - apply linked_snoc. cbn. rewrite <- P2. done.
  - unfold end_link. by rewrite last_snoc.
  - rewrite length_app, P3. cbn. lia.
  - apply Forall2_app; [done|]. by repeat constructor.
  - rewrite fmap_app. apply NoDup_app. split; [done|]. split; [|apply NoDup_singleton].
    intros x (e' & -> & He')%list_elem_of_fmap_1 E%list_elem_of_singleton. cbn in E. rewrite Forall_forall in P6.
    destruct (P6 e' He') as (_ & _ & _ & k' & Ek1 & Hk). rewrite Ek1, Ek in E. by injection E as ->.
  - apply Forall_app. split.
    + eapply Forall_impl; [exact P6|]. intros e' (H1 & H2 & H3 & k' & H4 & H5). do 3 (split; [done|]). exists k'. split; [done|]. by right.
    + constructor; [|constructor]. split; [done|]. split; [by apply storable_chain|]. cbn. rewrite Ek. split.
      * destruct (existing db t (Some k)) eqn:Ex; [|done]. destruct Hn. apply Hpre; [done|]. by rewrite Ex.
      * exists k. split; [done|by left].
Qed.

Lemma plan_existing_grows t p e k : k ∈ (fst <$> pl_existing p) -> k ∈ (fst <$> pl_existing (plan_event t p e)).
Proof.
  intros Hk. unfold plan_event. destruct (nonempty (ev_idempotency_key e)) as [k'|]; [|done].
  destruct (snd <$> _) as [[[eid sha] c]|]; [done|]. by right.
Qed.

Lemma fold_planned db t prev next events p :
  planned db t prev next p -> Forall (fun e => storable e /\ ev_tenant_id e = t) events ->
  (forall e k, e ∈ events -> ev_idempotency_key e = Some k -> existing db t (Some k) <> None -> k ∈ (fst <$> pl_existing p)) ->
  planned db t prev next (fold_left (plan_event t) events p).
Proof.
  revert p. induction events as [|e events IH]; intros p Hp Hf Hpre; [done|]. apply Forall_cons in Hf as [[Hst Ht] Hf]. cbn.
  apply IH; [|done|].
  - apply plan_event_planned; [done|done|done|]. intros k Hk. apply (Hpre e k); [by left|done].
  - intros e' k He' Hk Hx. by apply plan_existing_grows, (Hpre e' k); [right|..].
Qed.

Lemma preflight_has db t events e k : e ∈ events -> nonempty (ev_idempotency_key e) = Some k -> existing db t (Some k) <> None ->
  k ∈ (fst <$> preflight db t events).
Proof.
  intros He Hk Hx. destruct (existing db t (Some k)) as [r|] eqn:Er; [|done]. apply list_elem_of_fmap.
  exists (k, (tr_event_id r, tr_sha256_hash r, tr_chain_hash r)). split; [done|]. unfold preflight. apply list_elem_of_omap. exists k.
  split; [|by rewrite Er]. apply list_elem_of_omap. by exists e.
Qed.

(** ** The chain entries and what follows *)

Lemma batch_chain_spec db entries db' : _batch_insert_chain_entries db entries = Ok db' ->
  db' = set_legacy db (Store (cte_events (c_legacy db)) (cte_kdes (c_legacy db)) (hash_chain (c_legacy db) ++ entries) (compliance_alerts (c_legacy db))).
Proof.
  revert db. induction entries as [|c entries IH]; intros db; cbn [_batch_insert_chain_entries].
  - intros E. apply Ok_inv in E as <-. rewrite app_nil_r. destruct db as [[]]. done.
  - intros (db1 & H1 & H2)%rbind_Ok_inv. apply IH in H2 as ->. unfold append_chain in H1.
    destruct (unique_sequence _ _); [|done]. apply Ok_inv in H1 as <-. cbn. by rewrite <- app_assoc.
Qed.

Lemma each_links_frame events db db' : each_event (fun e db => _create_transformation_links db e) events db = Ok db' ->
  c_events db' = c_events db /\ c_legacy db' = c_legacy db /\ c_usage db' = c_usage db.
Proof.
  revert db. induction events as [|e events IH]; intros db; cbn [each_event]; [by intros E; apply Ok_inv in E as <-|].
  intros (db1 & (H1 & H2 & H3)%links_frame & (H4 & H5 & H6)%IH)%rbind_Ok_inv. by rewrite H4, H5, H6.
Qed.

Lemma each_meter_frame w events db : let db' := fold_left (fun db e => meter w e db) events db in
  c_events db' = c_events db /\ c_legacy db' = c_legacy db.
Proof.
  cbn zeta. revert db. induction events as [|e events IH]; intros db; [done|]. cbn [fold_left]. destruct (IH (meter w e db)) as [-> ->]. apply meter_frame.
Qed.

Lemma each_legacy_frame w events db db' : each_event (write_legacy w) events db = Ok db' ->
  c_events db' = c_events db /\ c_usage db' = c_usage db /\ hash_chain (c_legacy db') = hash_chain (c_legacy db)
  /\ forall r, r ∈ cte_events (c_legacy db) -> r ∈ cte_events (c_legacy db').
Proof.
  revert db. induction events as [|e events IH]; intros db; cbn [each_event]; [by intros E; apply Ok_inv in E as <-|].
  intros (db1 & (H1 & H2 & H3 & H4)%write_legacy_frame & (H5 & H6 & H7 & H8)%IH)%rbind_Ok_inv. rewrite H5, H6, H7. do 3 (split; [done|]). auto.
Qed.

(** ** The outcome *)

Record landed (w : writer) (env : wenv) (s s' : session) (t : string) (p : plan) (rows : list tr_row) : Prop := {
  ld_rows : rmapM (_event_to_params env) (pl_new p) = Ok rows;
  ld_events : c_events (s_db s') = (c_events (s_db s) ++ rows)%list;
  ld_ids : NoDup (tr_event_id <$> c_events (s_db s'));
  ld_chain : hash_chain (c_legacy (s_db s')) = (hash_chain (c_legacy (s_db s)) ++ pl_entries p)%list;
  ld_legacy : forall r, r ∈ cte_events (c_legacy (s_db s)) -> r ∈ cte_events (c_legacy (s_db s'));
  ld_usage : c_usage (s_db s') = c_usage (fold_left (fun db e => meter w e db) (pl_new p) (s_db s));
  ld_pending : s_pending s' = s_pending s
}.

(** The plan of a batch. *)
Definition batch_plan (s : session) (t : string) (events : list TraceabilityEvent) : plan :=
  let '(prev, next) := next_of_head (chain_head (c_legacy (s_db s)) t) in
  fold_left (plan_event t) events (Plan (preflight (s_db s) t events) prev next [] [] []).

Lemma batch_plan_planned s t events : Forall (fun e => storable e /\ ev_tenant_id e = t) events ->
  planned (s_db s) t (fst (next_of_head (chain_head (c_legacy (s_db s)) t))) (snd (next_of_head (chain_head (c_legacy (s_db s)) t)))
    (batch_plan s t events).
Proof.
  intros Hf. unfold batch_plan. destruct (next_of_head _) as [prev next]. cbn. apply fold_planned; [|done|].
  - split; cbn; try done; first [lia|apply NoDup_nil_2|constructor].
  - intros e k He Hk Hx. rewrite Forall_forall in Hf. destruct (truthy_nonempty _ (st_key e (proj1 (Hf e He)))) as (k' & Hk1 & Hk2).
    rewrite Hk in Hk1. injection Hk1 as <-. by apply (preflight_has _ _ _ e).
Qed.

Lemma usage_fold w events db db' : c_usage db = c_usage db' ->
  c_usage (fold_left (fun db e => meter w e db) events db) = c_usage (fold_left (fun db e => meter w e db) events db').
Proof.
  revert db db'. induction events as [|e events IH]; intros db db' E; [done|]. cbn. apply IH. unfold meter. destruct (meter_usage w); [|done]. cbn. by rewrite E.
Qed.

(** Once every new event has landed nothing is lost. *)
Lemma planned_filters db t prev next p : planned db t prev next p ->
  let landed id := existsb (String.eqb id) (ev_event_id <$> pl_new p) in
  List.filter (fun e => negb (landed (ev_event_id e))) (pl_new p) = []
  /\ List.filter (fun e => landed (ev_event_id e)) (pl_new p) = pl_new p
  /\ List.filter (fun c => landed (hc_cte_event_id c)) (pl_entries p) = pl_entries p.
Proof.
  intros [_ _ _ P4 _ _]. cbn zeta.
  assert (Hin : forall e, e ∈ pl_new p -> existsb (String.eqb (ev_event_id e)) (ev_event_id <$> pl_new p) = true).
  { intros e Hin. apply existsb_In_eqb, list_elem_of_In, list_elem_of_fmap_2, Hin. }
  split; [|split].
  - apply filter_all_false. intros e Hie. by rewrite (Hin e Hie).
  - by apply filter_all_true.
  - apply filter_all_true. intros c Hic. apply list_elem_of_lookup in Hic as [i Hi].
    destruct (Forall2_lookup_r _ _ _ _ _ P4 Hi) as (e & Hei & _ & -> & _). apply Hin, list_elem_of_lookup. by exists i.
Qed.

Lemma batch_lands w env s first others events s' rs :
  let t := ev_tenant_id first in
  NoDup (tr_event_id <$> c_events (s_db s)) -> we_race env = (fun db => db) ->
  rmapM (prepared env) (first :: others) = Ok events -> Forall (fun e => storable e /\ ev_tenant_id e = t) events ->
  persist_events_batch w env s (first :: others) = Ok (s', rs) ->
  rs = pl_results (batch_plan s t events) /\ exists rows, landed w env s s' t (batch_plan s t events) rows.
Proof.
  cbn zeta. intros Hd Hrace He Hst. cbn [persist_events_batch]. destruct (List.find _ others); [done|]. rewrite He, Hrace. cbn [rbind].
  set (t := ev_tenant_id first) in *. pose proof (batch_plan_planned s t events Hst) as HP. pose proof (pn_new _ _ _ _ _ HP) as P6.
  revert HP P6. unfold batch_plan. destruct (next_of_head _) as [prev next]. cbn [fst snd]. intros HP P6. set (p := fold_left _ _ _) in *.
  intros ([db1 ids] & H1 & E)%rbind_Ok_inv.
  destruct (insert_chunks_rows _ _ _ _ H1) as (rows & Hr).
  assert (Hc : mjoin (chunks 50 (pl_new p)) = pl_new p) by (apply chunks_concat; lia). rewrite Hc in Hr.
  assert (Hf : fresh_rows (s_db s) t rows).
  { apply (params_fresh env _ t (pl_new p)); [done|]. split; [apply (pn_keys _ _ _ _ _ HP)|]. eapply Forall_impl; [exact P6|]. by intros e (? & ? & ? & _). }
  destruct (insert_chunks_fresh env t _ rows _ _ _ ltac:(by rewrite Hc) Hf Hd H1) as (-> & -> & Hd'). rewrite Hc in *.
  destruct (planned_filters (s_db s) t prev next p HP) as (F1 & F2 & F3). rewrite F1, F2, F3 in E.
  apply rbind_Ok_inv in E as (db2 & H2%batch_chain_spec & E). apply rbind_Ok_inv in E as (db3 & (L1 & L2 & L3)%each_links_frame & E).
  apply rbind_Ok_inv in E as (db5 & (W1 & W2 & W3 & W4)%each_legacy_frame & E). apply Ok_inv in E as [= <- <-]. split; [done|].
  destruct (each_meter_frame w (pl_new p) db3) as [M1 M2]. subst db2. cbn in L1, L2, L3.
  exists rows. split; cbn [s_db s_pending]; try done.
  - by rewrite W1, M1, L1.
  - by rewrite W1, M1, L1.
  - by rewrite W3, M2, L2.
  - intros r Hin'. apply W4. rewrite M2, L2. done.
  - rewrite W2. apply usage_fold. done.
Qed.

(** So a batch extends the store as the single writers do. *)
Lemma landed_extends `{ISO : !IsoReads} w env s s' t events rows :
  Forall (fun e => storable e /\ ev_tenant_id e = t) events -> landed w env s s' t (batch_plan s t events) rows ->
  extends false (s_db s) (s_db s') (fun r => r) rows t (pl_entries (batch_plan s t events)).
Proof.
  intros Hst [L1 L2 L3 L4 L5 _ _]. pose proof (batch_plan_planned s t events Hst) as [P1 P2 P3 P4 P5 P6].
  apply rmapM_Forall2 in L1. set (p := batch_plan s t events) in *.
  assert (Hrow : forall i e r, pl_new p !! i = Some e -> rows !! i = Some r ->
    row_ok r /\ tr_event_id r = ev_event_id e /\ tr_tenant_id r = t /\ tr_sha256_hash r = ev_sha256_hash e).
  { intros i e r He Hr. pose proof (Forall2_lookup_lr _ _ _ _ _ _ L1 He Hr) as Hp. destruct (params_fields _ _ _ Hp) as (-> & F2 & -> & _).
    destruct (Forall_lookup_1 _ _ _ _ P6 He) as (Ht & Hs & _).
    split; [exact (params_row_ok env e r Hs Hp)|]. by rewrite F2, Ht. }
  split; rewrite ?list_fmap_id; try done.
  - intros r _. split; [by destruct r|by left].
  - by rewrite <- L2.
  - apply Forall_lookup. intros i r Hr. destruct (Forall2_lookup_r _ _ _ _ _ L1 Hr) as (e & He & _). by apply (Hrow i e r).
  - apply Forall_lookup. intros i c Hc. destruct (Forall2_lookup_r _ _ _ _ _ P4 Hc) as (e & _ & Ht & _). done.
  - left. apply Forall_lookup. intros i c Hc. destruct (Forall2_lookup_r _ _ _ _ _ P4 Hc) as (e & He & E1 & E2 & E3 & _).
    destruct (Forall2_lookup_l _ _ _ _ _ L1 He) as (r & Hr & _). destruct (Hrow i e r He Hr) as (_ & F1 & F2 & F3).
    exists r. split; [by eapply list_elem_of_lookup_2|]. by rewrite F1, F2, F3, E1, E2.
  - intros _. apply Forall_lookup. intros i r Hr. destruct (Forall2_lookup_r _ _ _ _ _ L1 Hr) as (e & He & _).
    destruct (Forall2_lookup_l _ _ _ _ _ P4 He) as (c & Hc & E1 & E2 & E3 & _). destruct (Hrow i e r He Hr) as (_ & -> & -> & ->).
    exists c. split; [by eapply list_elem_of_lookup_2|]. rewrite E1, E2. done.
Qed.
End Batch.
