(* ===== verification/CanonicalSpec.v ===== *)
(** * The canonical store over its life

    Everything that writes the canonical tables as steps from the empty store: single events, batches,
    the legacy [store_event] on the chain they share, ingestion runs and the updates that the mutation
    policy lets through.  Proved over every sequence of them: verification raises no false alarm;
    a sent event stays stored once under its key; a batch is its events one by one; what two verified
    stores with one head have in common; the graph queue holds committed events only. *)

From Stdlib Require Import ZArith Lia String Ascii.
From stdpp Require Import base list strings sets relations.
From S2P Require Import Prelude PyStr PyFloat PyVal Json JsonRead Sha256 Hashing Merkle Db Rules Relational CteStore.
From S2P Require Import Ftl TraceWalk Billing CanonicalEvent CanonicalStore CanonicalVerify CanonicalProofs CanonicalBatch.

Local Open Scope string_scope.

Section Life.
Context `{PL : PyLib} `{RT : Runtime} `{PG : Postgres} `{ISO : !IsoReads}.

(** ** Steps *)

(** The advisory lock of the tenant is held from the lookup to the commit: nothing comes between. *)
Definition alone (env : wenv) : Prop := we_race env = (fun db => db).

Inductive write_step (skips : bool) : cdb -> cdb -> Prop :=
| step_event w env s e s' res :
    (skip_chain_write w = true -> skips = true) -> alone env -> (forall e', prepared env e = Ok e' -> storable e') ->
    persist_event w env s e = Ok (s', res) -> write_step skips (s_db s) (s_db s')
| step_batch w env s first others events s' rs :
    alone env -> rmapM (prepared env) (first :: others) = Ok events ->
    Forall (fun e => storable e /\ ev_tenant_id e = ev_tenant_id first) events ->
    persist_events_batch w env s (first :: others) = Ok (s', rs) -> write_step skips (s_db s) (s_db s')
| step_legacy e db i s' r :
    store_event e (c_legacy db) i = Ok (s', r) -> write_step skips db (set_legacy db s')
| step_update db f :
    (forall r, r ∈ c_events db -> update_permitted r (f r)) -> write_step skips db (set_events db (f <$> c_events db))
| step_create_run run db db' id : create_ingestion_run run db = Ok (db', id) -> write_step skips db db'
| step_complete_run now id t a r es db db' : complete_ingestion_run now id t a r es db = Ok db' -> write_step skips db db'.

Definition written (skips : bool) : cdb -> Prop := rtc (write_step skips) empty_cdb.

Lemma extends_weaken b skips db db' f rows t entries :
  (b = true -> skips = true) -> extends b db db' f rows t entries -> extends skips db db' f rows t entries.
Proof. intros Hb [E1 E2 E3 E4 E5 E6 E7 E8 E9 E10]. split; try done. intros ->. apply E9. by destruct b; [specialize (Hb eq_refl)|]. Qed.

(** Without new canonical rows. *)
Lemma extends_rowless db db' t entries :
  NoDup (tr_event_id <$> c_events db) -> c_events db' = c_events db ->
  hash_chain (c_legacy db') = (hash_chain (c_legacy db) ++ entries)%list ->
  (forall e, e ∈ cte_events (c_legacy db) -> e ∈ cte_events (c_legacy db')) ->
  Forall (fun c => hc_tenant_id c = t) entries -> Forall (in_legacy db') entries ->
  (let '(prev, next) := next_of_head (chain_head (c_legacy db) t) in linked next prev entries) ->
  extends false db db' (fun r => r) [] t entries.
Proof.
  intros Hd He Hc Hl Ht Hin Hlk. split; rewrite ?app_nil_r, ?list_fmap_id; try done.
  - intros r _. split; [by destruct r|by left].
  - by right.
Qed.

Lemma unchanged_extends db db' : NoDup (tr_event_id <$> c_events db) -> c_events db' = c_events db -> c_legacy db' = c_legacy db ->
  extends false db db' (fun r => r) [] "" [].
Proof.
  intros Hd He Hl. apply extends_rowless; rewrite ?Hl, ?app_nil_r; try done.
Qed.

(** [store_event] adds at most one link, of a row it inserts. *)
Lemma legacy_extends e db i s' r : NoDup (tr_event_id <$> c_events db) -> store_event e (c_legacy db) i = Ok (s', r) ->
  exists entries, extends false db (set_legacy db s') (fun r => r) [] (ei_tenant_id i) entries.
Proof.
  intros Hd Hs. unfold store_event in Hs.
  apply rbind_Ok_inv in Hs as ([[event_type ts] entry] & _ & Hs). apply rbind_Ok_inv in Hs as (key & _ & Hs).
  destruct (find_by_key _ _ _) as [r0|] eqn:Hfind.
  { apply Ok_inv in Hs as [= <- _]. exists []. apply extends_rowless; rewrite ?app_nil_r; try done. }
  apply rbind_Ok_inv in Hs as (sha & _ & Hs). apply rbind_Ok_inv in Hs as (u & _ & Hs).
  apply rbind_Ok_inv in Hs as (u1 & _ & Hs). apply rbind_Ok_inv in Hs as (s1 & Hins & Hs).
  apply insert_event_new in Hins as [-> _]; [|done].
  destruct (String.eqb _ VALIDATION_STATUS_REJECTED).
  - apply Ok_inv in Hs as [= <- _]. exists []. apply extends_rowless; rewrite ?app_nil_r; try done.
    intros x Hx. cbn. apply elem_of_app. by left.
  - apply rbind_Ok_inv in Hs as (s2 & Hk & Hs). apply rbind_Ok_inv in Hs as (s3 & Hc & Hs). apply Ok_inv in Hs as [= <- _].
    apply insert_kdes_frame in Hk as [Hke Hkc].
    destruct (insert_alerts_frame (env_rejects_alert e) s3 (ei_tenant_id i) (env_uuid e) (ei_alerts i)) as [Hae Hac].
    revert Hae Hac. generalize (insert_alerts (env_rejects_alert e) s3 (ei_tenant_id i) (env_uuid e) (ei_alerts i)) as s4. intros s4 Hae Hac.
    unfold insert_chain in Hc. rewrite Hke, Hkc in Hc. cbn [CteStore.set_events cte_events hash_chain] in Hc.
    destruct (existsb (fun e => _) _); [|].
    + destruct (existsb _ (hash_chain _)); [done|]. apply Ok_inv in Hc as <-.
      set (crow := ChainRow _ _ _ _ _ _) in *. exists [crow]. cbn [hash_chain cte_events] in Hac, Hae. apply extends_rowless; try done.
      * cbn [set_legacy c_legacy]. intros x Hx. rewrite Hae. apply elem_of_app. by left.
      * by constructor.
      * constructor; [|constructor]. eexists. cbn [set_legacy c_legacy]. rewrite Hae. split; [apply elem_of_app; right; apply list_elem_of_here|done].
    + apply Ok_inv in Hc as <-. exists []. apply extends_rowless; rewrite ?app_nil_r; try done; cbn [set_legacy c_legacy].
      * by rewrite Hac, Hkc.
      * intros x Hx. rewrite Hae, Hke. apply elem_of_app. by left.
Qed.

Lemma runs_kept db db' : (exists l, db' = set_runs db l) -> c_events db' = c_events db /\ c_legacy db' = c_legacy db.
Proof. by intros [l ->]. Qed.

(** Every step extends the store. *)
Lemma step_extends skips db db' : NoDup (tr_event_id <$> c_events db) -> write_step skips db db' ->
  exists f rows t entries, extends skips db db' f rows t entries.
Proof.
  assert (Hw : forall f rows t entries, extends false db db' f rows t entries -> exists f rows t entries, extends skips db db' f rows t entries).
  { intros f rows t entries E. exists f, rows, t, entries. by apply (extends_weaken false). }
  intros Hd Hs. destruct Hs as [w env s e s' res Hk Ha Hst Hp|w env s first others events s' rs Ha He Hst Hp|e db i s' r Hp|db f Hf|run db db' id Hp|now id t a r es db db' Hp].
  - destruct (persist_event_outcome w env s e s' res Hd Ha Hst Hp) as (e' & _ & H). destruct (existing _ _ _).
    + destruct H as [-> _]. exact (Hw _ _ _ _ (unchanged_extends _ _ Hd eq_refl eq_refl)).
    + destruct H as (r & h & f & H). cbn zeta in H.
      destruct (next_of_head (chain_head (c_legacy (s_db s)) (ev_tenant_id e'))) as [prev next]. destruct H as (_ & _ & _ & H & _).
      do 4 eexists. eapply extends_weaken; [exact Hk|exact H].
  - destruct (batch_lands w env s first others events s' rs Hd Ha He Hst Hp) as [_ [rows Hl]].
    eapply Hw, landed_extends; [|exact Hl]. done.
  - destruct (legacy_extends _ _ _ _ _ Hd Hp) as [entries H]. by eapply Hw.
  - apply (Hw f [] "" []). split; rewrite ?app_nil_r; cbn; try done. by left.
  - unfold create_ingestion_run in Hp. apply rbind_Ok_inv in Hp as (u & _ & Hp). destruct (existsb _ _); [done|].
    apply Ok_inv in Hp as [= <- _]. by eapply Hw, unchanged_extends.
  - unfold complete_ingestion_run in Hp. apply rbind_Ok_inv in Hp as (u & _ & Hp). apply rbind_Ok_inv in Hp as (x & _ & Hp).
    apply rbind_Ok_inv in Hp as (y & _ & Hp). destruct (Nat.eqb _ _); [done|]. apply Ok_inv in Hp as <-. by eapply Hw, unchanged_extends.
Qed.

Lemma write_step_ok skips db db' : cdb_ok skips db -> write_step skips db db' -> cdb_ok skips db'.
Proof.
  intros K Hs. destruct (step_extends skips db db' (ok_ids _ _ K) Hs) as (f & rows & t & entries & H). by eapply ok_extends.
Qed.

Lemma steps_ok skips db db' : rtc (write_step skips) db db' -> cdb_ok skips db -> cdb_ok skips db'.
Proof. induction 1; eauto using write_step_ok. Qed.

Lemma written_ok skips db : written skips db -> cdb_ok skips db.
Proof. intros H. by apply (steps_ok _ _ _ H), empty_ok. Qed.

(** ** No false alarm *)

Lemma ok_row_passes skips db t i p r rp : cdb_ok skips db -> r ∈ chain_of t (c_legacy db) ->
  hc_sequence_num r = i -> hc_previous_chain_hash r = hc_chain_hash <$> p ->
  hc_chain_hash r = compute_chain_hash (hc_event_hash r) (hc_previous_chain_hash r) -> clean rp ->
  exists rp', check_row db t i p r rp = Ok rp' /\ clean rp' .
Proof.
  intros K Hr H1 H2 H3 Hc. pose proof (ok_event _ _ _ _ K Hr) as He.
  assert (Hok : exists rp', check_row db t i p r rp = Ok rp').
  { unfold event_ok in He. unfold check_row, check_content. destruct (te_match db t (hc_cte_event_id r)) as [e|].
    - destruct He as [(kdes & d & -> & -> & _) _]. by eexists.
    - destruct (ce_match db t (hc_cte_event_id r)); by eexists. }
  destruct Hok as [rp' Hok]. exists rp'. split; [done|]. by apply (clean_row _ _ _ _ _ _ _ Hok).
Qed.

Lemma ok_walk_passes skips db t rows i p rp : cdb_ok skips db -> Forall (fun r => r ∈ chain_of t (c_legacy db)) rows ->
  linked i (hc_chain_hash <$> p) rows -> clean rp -> exists rp', walk_rows db t i p rows rp = Ok rp' /\ clean rp'.
Proof.
  intros K. revert i p rp. induction rows as [|r rows IH]; intros i p rp Hf Hl Hc; cbn [walk_rows]; [by eexists|].
  apply Forall_cons in Hf as [Hr Hf]. destruct Hl as (H1 & H2 & H3 & Hl).
  destruct (ok_row_passes _ _ _ _ _ _ rp K Hr H1 H2 H3 Hc) as (rp1 & -> & Hc1). by apply IH.
Qed.

Lemma written_verifies skips db t checked_at : cdb_ok skips db ->
  exists v, verify_chain_canonical checked_at db t = Ok v
    /\ kv_orphan_chain_rows v = [] /\ kv_tamper_rows v = [] /\ kv_chain_length v = length (chain_of t (c_legacy db))
    /\ kv_valid v = negb (kv_no_chain_evidence v)
    /\ (skips = false -> kv_valid v = true /\ kv_errors v = []).
Proof.
  intros K. pose proof (linked_sorted _ _ _ (ok_linked _ _ K t)) as Hs.
  destruct (ok_walk_passes skips db t (chain_of t (c_legacy db)) 1 None (Report [] [] [] []) K) as (rp & Hw & C1 & C2 & C3);
    [by apply Forall_forall|apply (ok_linked _ _ K)|done|].
  unfold verify_chain_canonical. rewrite Hs, Hw. cbn [rbind]. rewrite C1, C2, C3.
  destruct (Nat.eqb (length (chain_of t (c_legacy db))) 0 && Nat.ltb 0 (live_count db t)) eqn:E;
    eexists; (split; [done|]); cbn [kv_orphan_chain_rows kv_tamper_rows kv_chain_length kv_valid kv_no_chain_evidence kv_errors app no_items andb negb];
    do 4 (split; [done|]); [|done]. intros ->. exfalso.
  apply andb_true_iff in E as [E1%Nat.eqb_eq E2%Nat.ltb_lt]. apply count_where_pos in E2 as (e & He & Hp).
  apply andb_true_iff in Hp as [Ht%String.eqb_eq _]. destruct (ok_chained _ _ K eq_refl e He) as (c & Hc & _ & Htc & _).
  assert (Hin : c ∈ chain_of t (c_legacy db)).
  { unfold chain_of. apply list_elem_of_In, filter_In. rewrite <- list_elem_of_In, Htc, Ht, String.eqb_refl. done. }
  apply nil_length_inv in E1. rewrite E1 in Hin. by apply not_elem_of_nil in Hin.
Qed.

(** *** Events as they are sent *)

(** JSON without fractional numbers, whose whole numbers have 64 bits and whose texts have no NUL. *)
Definition plain_text (s : string) : bool := str_forallb (fun c => negb (Ascii.eqb c Ascii.zero)) s.
Fixpoint jsonb_exact (v : pyval) : bool :=
  match v with
  | PNone | PBool _ => true
  | PInt z => (- 2 ^ 63 <=? z)%Z && (z <? 2 ^ 63)%Z
  | PStr s => plain_text s
  | PList l => forallb jsonb_exact l
  | PDict d => forallb (fun kv => plain_text (fst kv) && jsonb_exact (snd kv)) d
  | PFloat _ | PDatetime _ => false
  end.

(** What PostgreSQL documents of JSONB: such an object is accepted and comes back with the same members,
    in whatever order. *)
Class ExactJsonb := exact_jsonb : forall d text, json_plain (PDict d) -> jsonb_exact (PDict d) = true ->
  json_dumps opts_str (PDict d) = Ok text ->
  exists d', jsonb text = Ok (PDict d') /\ json_dumps opts_sorted_str (PDict d') = json_dumps opts_sorted_str (PDict d).
Context `{EJ : !ExactJsonb}.

(** The KDEs are of that kind, or their text survives the column for another reason (most fractional
    numbers do, 1e16 and -0.0 do not). *)
Definition kdes_return (e : TraceabilityEvent) : Prop :=
  (json_plain (PDict (ev_kdes e)) /\ jsonb_exact (PDict (ev_kdes e)) = true)
  \/ exists text kdes, json_dumps opts_str (PDict (ev_kdes e)) = Ok text /\ jsonb text = Ok (PDict kdes)
       /\ json_dumps opts_sorted_str (PDict kdes) = json_dumps opts_sorted_str (PDict (ev_kdes e)).

(** The snapshot comes back with the text of the timestamp. *)
Definition snapshot_returns (e : TraceabilityEvent) : Prop :=
  exists text payload, json_dumps opts_str (PDict (ev_normalized_payload e)) = Ok text /\ jsonb text = Ok (PDict payload)
    /\ dict_lookup "event_timestamp" payload = Some (PStr (isoformat (ev_event_timestamp e))).

(** An event as the handlers hand it over: with an aware timestamp, and either without a digest, which
    the store then computes, or as [prepare_for_persistence] left it. *)
Definition sent (env : wenv) (e0 : TraceabilityEvent) : Prop :=
  (nonempty (ev_sha256_hash e0) = None \/ exists limit e1, prepare_for_persistence limit e1 = Ok e0) /\ aware (ev_event_timestamp e0)
  /\ forall e, prepared env e0 = Ok e -> kdes_return e /\ snapshot_returns e.

Lemma hex_truthy s : truthy_key (Some (sha256_hex s)) = true.
Proof.
  unfold truthy_key, nonempty. destruct (String.eqb_spec (sha256_hex s) "") as [E|]; [|done].
  apply hex64_ne in E; [done|apply sha256_hex64].
Qed.

(** Preparing an event a second time changes nothing. *)
Lemma prepared_again env limit e1 e : prepare_for_persistence limit e1 = Ok e -> prepared env e = Ok e.
Proof.
  intros (sha & key & -> & Hs & _)%prepare_spec. unfold prepared. cbn [with_computed ev_sha256_hash].
  unfold compute_sha256_hash in Hs. apply rbind_Ok_inv in Hs as (text & _ & Hs). apply Ok_inv in Hs as <-.
  unfold nonempty. destruct (String.eqb_spec (sha256_hex (canonical_text (hashed (_apply_ftl_hint e1)) text)) "") as [E|]; [|done].
  apply hex64_ne in E; [done|apply sha256_hex64].
Qed.

Lemma hint_timestamp e : ev_event_timestamp (_apply_ftl_hint e) = ev_event_timestamp e.
Proof. unfold _apply_ftl_hint. destruct (event_has_ftl_hint _); [done|]. by destruct (infer_ftl_category_from_text _). Qed.

Lemma sent_storable env e0 e : sent env e0 -> prepared env e0 = Ok e -> storable e.
Proof.
  intros (Hn & Ha & Hr) He. destruct (Hr e He) as [Hk Hp].
  assert (Hfrom : exists limit e1, prepare_for_persistence limit e1 = Ok e /\ aware (ev_event_timestamp e1)).
  { destruct Hn as [Hn|(limit & e1 & H1)].
    - unfold prepared in He. rewrite Hn in He. eauto.
    - rewrite (prepared_again _ _ _ _ H1) in He. apply Ok_inv in He as <-. exists limit, e1. split; [done|].
      apply prepare_spec in H1 as (sha & key & -> & _). cbn in Ha. by rewrite hint_timestamp in Ha. }
  clear He Hn Hr Ha. destruct Hfrom as (limit & e1 & (sha & key & -> & Hs & Hkey)%prepare_spec & Ha).
  split.
  - cbn. by rewrite hint_timestamp.
  - unfold event_idempotency_key in Hkey. apply rbind_Ok_inv in Hkey as (text & _ & Hkey). apply Ok_inv in Hkey as <-. apply hex_truthy.
  - exists sha. by rewrite hashed_computed.
  - destruct Hk as [[H1 H2]|Hk]; [|exact Hk]. destruct (json_dumps_default_total opts_str (PDict (ev_kdes (_apply_ftl_hint e1))) eq_refl) as [text Ht].
    destruct (exact_jsonb _ _ H1 H2 Ht) as (d & Hd & E). by exists text, d.
  - exact Hp.
Qed.

(** What a deployment does to the store: events are sent one by one or in batches of one tenant, the
    legacy store writes on the same chain, runs begin and end, stored rows are updated as the mutation
    policy permits. *)
Inductive deployed_step (skips : bool) : cdb -> cdb -> Prop :=
| deployed_event w env s e s' res :
    (skip_chain_write w = true -> skips = true) -> alone env -> sent env e ->
    persist_event w env s e = Ok (s', res) -> deployed_step skips (s_db s) (s_db s')
| deployed_batch w env s events s' rs :
    alone env -> Forall (sent env) events -> persist_events_batch w env s events = Ok (s', rs) -> deployed_step skips (s_db s) (s_db s')
| deployed_legacy e db i s' r :
    store_event e (c_legacy db) i = Ok (s', r) -> deployed_step skips db (set_legacy db s')
| deployed_update db f :
    (forall r, r ∈ c_events db -> update_permitted r (f r)) -> deployed_step skips db (set_events db (f <$> c_events db))
| deployed_create_run run db db' id : create_ingestion_run run db = Ok (db', id) -> deployed_step skips db db'
| deployed_complete_run now id t a r es db db' : complete_ingestion_run now id t a r es db = Ok db' -> deployed_step skips db db'.

Lemma prepared_tenant env e0 e : prepared env e0 = Ok e -> ev_tenant_id e = ev_tenant_id e0.
Proof.
  unfold prepared. destruct (nonempty _); [intros E; by apply Ok_inv in E as <-|]. intros (sha & key & -> & _)%prepare_spec. apply hint_tenant.
Qed.

(** The batch that goes through is of one tenant. *)
Lemma batch_sent w env s first others s' rs : Forall (sent env) (first :: others) ->
  persist_events_batch w env s (first :: others) = Ok (s', rs) ->
  exists events, rmapM (prepared env) (first :: others) = Ok events
    /\ Forall (fun e => storable e /\ ev_tenant_id e = ev_tenant_id first) events.
Proof.
  intros Hs. cbn [persist_events_batch]. destruct (List.find _ others) as [e|] eqn:Hf; [done|].
  intros (events & He & _)%rbind_Ok_inv. exists events. split; [done|].
  assert (Ht : Forall (fun e => ev_tenant_id e = ev_tenant_id first) (first :: others)).
  { constructor; [done|]. apply Forall_forall. intros e Hin. apply list_elem_of_In in Hin. pose proof (List.find_none _ _ Hf e Hin) as Hn.
    cbn in Hn. apply negb_false_iff, String.eqb_eq in Hn. done. }
  apply Forall_forall. intros e Hin. apply rmapM_Forall2 in He. apply list_elem_of_lookup in Hin as [i Hi].
  destruct (Forall2_lookup_r _ _ _ _ _ He Hi) as (e0 & H0 & Hp). split.
  - apply (sent_storable env e0 e); [|done]. by apply (Forall_lookup_1 _ _ _ _ Hs H0).
  - rewrite (prepared_tenant _ _ _ Hp). by apply (Forall_lookup_1 _ _ _ _ Ht H0).
Qed.

Lemma deployed_write skips db db' : deployed_step skips db db' -> db' = db \/ write_step skips db db'.
Proof.
  intros H. destruct H as [w env s e s' res Hk Ha Hs Hp|w env s [|first others] s' rs Ha Hs Hp|e db i s' r Hp|db f Hf|run db db' id Hp|now id t a r es db db' Hp].
  - right. apply (step_event skips w env s e s' res); try done. intros e' He. by apply (sent_storable env e).
  - left. cbn in Hp. by apply Ok_inv in Hp as [= <- _].
  - right. destruct (batch_sent _ _ _ _ _ _ _ Hs Hp) as (events & He & Hf). by apply (step_batch skips w env s first others events s' rs).
  - right. by eapply step_legacy.
  - right. by apply step_update.
  - right. by eapply step_create_run.
  - right. by eapply step_complete_run.
Qed.

Lemma deployed_ok skips db : rtc (deployed_step skips) empty_cdb db -> cdb_ok skips db.
Proof.
  intros H. assert (K := empty_ok skips). revert K. induction H as [db|db db1 db2 [->|Hw]%deployed_write _ IH]; intros K; [done|by apply IH|].
  apply IH. by eapply write_step_ok.
Qed.

(** C5. No false alarm.  Assumed of PostgreSQL is what it documents of JSONB ([ExactJsonb]: objects
    without fractional numbers come back with the same members) and of the tenant's lock that nobody
    writes between a call's lookup and its commit ([alone]).  Then, whatever sequence of single events,
    batches, legacy events, ingestion runs and permitted updates wrote the store, for any tenants, the
    verifier answers, finds no orphan and no tampered row and counts the tenant's chain.  It rejects
    only for missing chain evidence, which cannot happen when no writer skipped the chain; then it
    reports no error at all.  The events are those sent with an aware timestamp, without a digest or as
    [prepare_for_persistence] left them, whose KDEs have no fractional numbers, 64-bit whole numbers and texts without NUL (or
    come back from the column with the same text for another reason) and whose snapshot comes back
    with the timestamp's text.  The condition on the KDEs is needed: one of 1e16 raises a false
    alarm. *)
Theorem canonical_no_false_alarm skips db t checked_at : rtc (deployed_step skips) empty_cdb db ->
  exists v, verify_chain_canonical checked_at db t = Ok v
    /\ kv_orphan_chain_rows v = [] /\ kv_tamper_rows v = [] /\ kv_chain_length v = length (chain_of t (c_legacy db))
    /\ kv_valid v = negb (kv_no_chain_evidence v)
    /\ (skips = false -> kv_valid v = true /\ kv_errors v = []).
Proof. intros K%deployed_ok. by apply written_verifies. Qed.

(** ** A sent event stays *)

(** What an answer says of a stored row. *)
Definition answer_of (r : tr_row) : string * option string * option string := (tr_event_id r, tr_sha256_hash r, tr_chain_hash r).

Lemma find_fmap {A} (p : A -> bool) (f : A -> A) l x : (forall y, y ∈ l -> p (f y) = p y) -> List.find p l = Some x ->
  List.find p (f <$> l) = Some (f x).
Proof.
  induction l as [|y l IH]; intros Hp; [done|]. cbn. rewrite (Hp y) by by left. destruct (p y); [by intros [= ->]|].
  apply IH. intros z Hz. apply Hp. by right.
Qed.

Lemma extends_existing skips db db' f rows t entries t0 k r : extends skips db db' f rows t entries ->
  existing db t0 k = Some r -> existing db' t0 k = Some (f r) /\ answer_of (f r) = answer_of r.
Proof.
  intros [E1 E2 _ _ _ _ _ _ _ _] Hx. assert (Hr : r ∈ (c_events db ++ rows)%list).
  { apply elem_of_app. left. by apply find_elem in Hx as [? _]. }
  split; [|by destruct (E2 r Hr) as [-> _]]. unfold existing. rewrite E1. apply find_fmap.
  - intros y Hy. destruct (E2 y Hy) as [-> _]. done.
  - pose proof (existing_app db rows t0 k) as Ha. rewrite Hx in Ha. exact Ha.
Qed.

Lemma steps_existing skips db db' t k r : rtc (write_step skips) db db' -> cdb_ok skips db -> existing db t k = Some r ->
  exists r', existing db' t k = Some r' /\ answer_of r' = answer_of r.
Proof.
  intros Hs. revert r. induction Hs as [db|db db1 db' H1 _ IH]; intros r K Hx; [by exists r|].
  destruct (step_extends _ _ _ (ok_ids _ _ K) H1) as (f & rows & t' & entries & He).
  destruct (extends_existing _ _ _ _ _ _ _ _ _ _ He Hx) as [Hx1 Ha]. destruct (IH (f r)) as (r' & Hr' & Ha'); [by eapply write_step_ok|done|].
  exists r'. by rewrite Ha', Ha.
Qed.

(** After the call the key is stored, with the identifiers of the answer. *)
Lemma persisted_existing skips w env s e0 e s' res : cdb_ok skips (s_db s) -> alone env -> prepared env e0 = Ok e -> storable e ->
  persist_event w env s e0 = Ok (s', res) -> exists r, existing (s_db s') (ev_tenant_id e) (ev_idempotency_key e) = Some r
    /\ success res = true /\ answer_of r = (event_id res, sha256_hash res, chain_hash res).
Proof.
  intros K Ha He Hst Hp.
  destruct (persist_event_outcome w env s e0 s' res (ok_ids _ _ K) Ha) as (e' & He' & H); [by intros e' He'; rewrite He in He'; apply Ok_inv in He' as <-|done|].
  rewrite He in He'. apply Ok_inv in He' as <-. destruct (existing (s_db s) _ _) as [row|] eqn:Ex.
  - destruct H as [-> ->]. by exists row.
  - destruct H as (r & h & f & H). cbn zeta in H. destruct (next_of_head (chain_head (c_legacy (s_db s)) (ev_tenant_id e))) as [prev next].
    destruct H as (Hr & _ & _ & [E1 E2 _ _ _ _ _ _ _ _] & _ & _ & _ & ->).
    destruct (params_fields _ _ _ Hr) as (F1 & F2 & F3 & F4 & F5 & _). cbn in F1, F2, F3, F4, F5.
    assert (Hin : r ∈ (c_events (s_db s) ++ [r])%list) by (apply elem_of_app; right; apply list_elem_of_here).
    exists (f r). split.
    + unfold existing. rewrite E1. apply find_fmap; [intros y Hy; by destruct (E2 y Hy) as [-> _]|].
      pose proof (existing_app (s_db s) [r] (ev_tenant_id e) (ev_idempotency_key e)) as Hx. rewrite Ex in Hx.
      unfold existing in Hx. cbn in Hx. rewrite Hx. destruct (truthy_nonempty _ (st_key e Hst)) as (k & Ek & _).
      unfold same_key. by rewrite F5, F2, Ek, !String.eqb_refl.
    + destruct (E2 r Hin) as [-> _]. split; [done|]. unfold answer_of. cbn. by rewrite F1, F3, F4.
Qed.

(** C7. An event that was sent stays: sent again after any further writes, through any writer, it
    changes nothing (session, tables and staged messages) and is answered, as already stored, with the
    identifier and the digests of the first answer. *)
Theorem resend_answers_stored skips w w2 env env2 s s1 s2 e0 e res :
  written skips (s_db s) -> (skip_chain_write w = true -> skips = true) -> alone env -> prepared env e0 = Ok e -> storable e ->
  persist_event w env s e0 = Ok (s1, res) -> rtc (write_step skips) (s_db s1) (s_db s2) -> we_limit env2 = we_limit env ->
  persist_event w2 env2 s2 e0 = Ok (s2, CanonicalResult true (event_id res) (sha256_hash res) (chain_hash res) true [] None).
Proof.
  intros K%written_ok Hk Ha He Hst Hp Hs Hl.
  destruct (persisted_existing _ _ _ _ _ _ _ _ K Ha He Hst Hp) as (r & Hr & _ & Hres).
  assert (K1 : cdb_ok skips (s_db s1)).
  { eapply write_step_ok; [exact K|]. eapply step_event; try done. intros e' He'. rewrite He in He'. by apply Ok_inv in He' as <-. }
  destruct (steps_existing _ _ _ _ _ _ Hs K1 Hr) as (r' & Hr' & Ha').
  unfold persist_event. assert (He2 : prepared env2 e0 = Ok e) by (unfold prepared in *; by rewrite Hl). rewrite He2. cbn [rbind].
  rewrite (st_key e Hst), Hr'. unfold existing_result. rewrite Hres in Ha'. unfold answer_of in Ha'. injection Ha' as -> -> ->. done.
Qed.

(** ** What the head of a chain commits to *)

(** The text whose digest the verifier compares with the stored one. *)
Definition row_text (id : string) (e : tr_row) : res string :=
  do kdes <- _kdes_object (tr_kdes e);
  do ts <- hashed_timestamp (PDatetime (driver_timestamp (tr_event_timestamp e))) (payload_text (tr_normalized_payload e) "event_timestamp");
  do dumped <- json_dumps opts_sorted_str (PDict kdes);
  Ok (recomputed_text id (tr_event_type e) (tr_traceability_lot_code e) (tr_product_reference e) (PFloat (tr_quantity e))
        (tr_unit_of_measure e) (tr_from_facility_reference e) (tr_to_facility_reference e) ts dumped).

Lemma row_digest_text id e kdes d : _kdes_object (tr_kdes e) = Ok kdes -> row_digest id e kdes = Ok d ->
  exists x, row_text id e = Ok x /\ d = sha256_hex x.
Proof.
  intros Hk. unfold row_digest, _recompute_event_sha256, row_text. rewrite Hk. cbn [rbind].
  destruct (hashed_timestamp _ _) as [ts|]; [|done]. cbn [rbind]. destruct (json_dumps _ _) as [dumped|]; [|done]. cbn [rbind].
  intros E. apply Ok_inv in E as <-. by eexists.
Qed.

(** The i-th row of the chain, of an event of the canonical store, with the digest of that event's row.
    Where only the canonical store holds the event the verifier compares the two digests; where the
    legacy store holds it too it does not, since the chain may then carry the legacy digest. *)
Definition listed (db : cdb) (t : string) (i : nat) (r : chain_row) (e : tr_row) : Prop :=
  by_sequence (chain_of t (c_legacy db)) !! i = Some r /\ te_match db t (hc_cte_event_id r) = Some e
  /\ (ce_match db t (hc_cte_event_id r) = None \/ tr_sha256_hash e = Some (hc_event_hash r)).

Lemma listed_text db t checked_at v i r e : verify_chain_canonical checked_at db t = Ok v -> kv_valid v = true -> listed db t i r e ->
  exists x, row_text (hc_cte_event_id r) e = Ok x /\ hc_event_hash r = sha256_hex x.
Proof.
  intros Hv Hok (Hi & Ht & Hc). apply (verify_valid _ _ _ _ Hv) in Hok as (_ & Hev & _).
  pose proof (Forall_lookup_1 _ _ _ _ Hev Hi) as He. unfold event_ok in He. rewrite Ht in He.
  destruct He as [(kdes & d & Hk & Hd & Hs) Hn]. destruct (row_digest_text _ _ _ _ Hk Hd) as (x & Hx & ->).
  exists x. split; [done|]. destruct Hc as [Hc|Hc]; [rewrite (Hn Hc) in Hs|rewrite Hc in Hs]; by injection Hs.
Qed.

(** In a store written by this code the rows written with the chain carry their digest. *)
Lemma deployed_listed db e : cdb_ok false db -> e ∈ c_events db ->
  exists i r, listed db (tr_tenant_id e) i r e.
Proof.
  intros K He. destruct (ok_chained _ _ K eq_refl e He) as (c & Hc & Hid & Ht & Hs).
  assert (Hin : c ∈ chain_of (tr_tenant_id e) (c_legacy db)).
  { unfold chain_of. apply list_elem_of_In, filter_In. rewrite <- list_elem_of_In, Ht, String.eqb_refl. done. }
  rewrite <- (linked_sorted _ _ _ (ok_linked _ _ K (tr_tenant_id e))) in Hin. apply list_elem_of_lookup in Hin as [i Hi].
  exists i, c. split; [done|]. rewrite Hid. split; [by apply te_match_found, He; apply (ok_ids _ _ K)|by right].
Qed.

(** C8. Two verified stores whose chains end in one digest, whose hashed chain texts do not collide under
    SHA-256: the chains list the same event digests in order, and where the i-th rows of both belong to
    events of the canonical store and carry the digests of these events' rows ([listed]), what the
    verifier recomputes from the columns of the two rows is one text, unless SHA-256 collides on the two
    texts.  That the digests agree is checked by the verifier for events that only the canonical store
    holds; for events that the legacy store holds too the verifier does not check it, and it is a
    condition here.  In a store that this code's writers made without skipping the chain it holds of
    every event, those of the dual write included. *)
Theorem canonical_head_binding c1 c2 db1 db2 t1 t2 v1 v2 h1 h2 :
  verify_chain_canonical c1 db1 t1 = Ok v1 -> kv_valid v1 = true -> verify_chain_canonical c2 db2 t2 = Ok v2 -> kv_valid v2 = true ->
  chain_head (c_legacy db1) t1 = Some h1 -> chain_head (c_legacy db2) t2 = Some h2 -> hc_chain_hash h1 = hc_chain_hash h2 ->
  no_collision (chain_inputs (by_sequence (chain_of t1 (c_legacy db1)))) (chain_inputs (by_sequence (chain_of t2 (c_legacy db2)))) ->
  (hc_event_hash <$> by_sequence (chain_of t1 (c_legacy db1))) = (hc_event_hash <$> by_sequence (chain_of t2 (c_legacy db2)))
  /\ (forall i r1 e1 r2 e2, listed db1 t1 i r1 e1 -> listed db2 t2 i r2 e2 ->
     exists x1 x2, row_text (hc_cte_event_id r1) e1 = Ok x1 /\ row_text (hc_cte_event_id r2) e2 = Ok x2
       /\ (x1 = x2 \/ (x1 <> x2 /\ sha256_hex x1 = sha256_hex x2)))
  /\ (rtc (deployed_step false) empty_cdb db1 -> forall e, e ∈ c_events db1 -> exists i r, listed db1 (tr_tenant_id e) i r e).
Proof.
  intros Hv1 Hok1 Hv2 Hok2 Hh1 Hh2 Heq Hnc.
  destruct (proj1 (verify_valid _ _ _ _ Hv1) Hok1) as (Hl1 & _), (proj1 (verify_valid _ _ _ _ Hv2) Hok2) as (Hl2 & _).
  assert (E : (hc_event_hash <$> by_sequence (chain_of t1 (c_legacy db1))) = (hc_event_hash <$> by_sequence (chain_of t2 (c_legacy db2)))).
  { unfold chain_head in Hh1, Hh2. apply linked_binding; [done..|]. unfold end_link. by rewrite Hh1, Hh2, Heq. }
  split; [exact E|]. split; [|intros K%deployed_ok e He; by apply deployed_listed]. intros i r1 e1 r2 e2 L1 L2.
  destruct (listed_text _ _ _ _ _ _ _ Hv1 Hok1 L1) as (x1 & Hx1 & D1), (listed_text _ _ _ _ _ _ _ Hv2 Hok2 L2) as (x2 & Hx2 & D2).
  exists x1, x2. split; [done|]. split; [done|]. destruct (String.eqb_spec x1 x2) as [|Hne]; [by left|right]. split; [done|].
  rewrite <- D1, <- D2. destruct L1 as [Hi1 _], L2 as [Hi2 _]. apply (f_equal (fun l => l !! i)) in E.
  rewrite !list_lookup_fmap, Hi1, Hi2 in E. by injection E.
Qed.

(** ** Messages of committed events only *)

(** A step inside a session. *)
Inductive session_step (skips : bool) : session -> session -> Prop :=
| session_event w env s e s' res :
    (skip_chain_write w = true -> skips = true) -> alone env -> (forall e', prepared env e = Ok e' -> storable e') ->
    persist_event w env s e = Ok (s', res) -> session_step skips s s'
| session_write s db' : write_step skips (s_db s) db' -> session_step skips s (Session db' (s_pending s)).

(** A request that only writes through these steps. *)
Definition handles {A} (skips : bool) (h : session -> res (session * A)) : Prop :=
  forall s s' a, h s = Ok (s', a) -> rtc (session_step skips) s s'.

(** The database and the queue after any sequence of requests, failed ones included. *)
Inductive live (g : graph_env) (skips : bool) : world -> Prop :=
| live_start : live g skips (World empty_cdb [])
| live_request {A} (h : session -> res (session * A)) w w' r :
    live g skips w -> handles skips h -> run_session g h w = (w', r) -> live g skips w'.

Definition recorded (db : cdb) (e : TraceabilityEvent) : Prop :=
  exists r, r ∈ c_events db /\ tr_event_id r = ev_event_id e /\ tr_tenant_id r = ev_tenant_id e /\ tr_sha256_hash r = ev_sha256_hash e.

Lemma extends_recorded skips db db' f rows t entries e : extends skips db db' f rows t entries -> recorded db e -> recorded db' e.
Proof.
  intros [E1 E2 _ _ _ _ _ _ _ _] (r & Hr & Hid & Ht & Hs). assert (Hr' : r ∈ (c_events db ++ rows)%list) by (apply elem_of_app; by left).
  exists (f r). split; [rewrite E1; by apply list_elem_of_fmap_2|]. destruct (E2 r Hr') as [-> _]. done.
Qed.

Lemma session_step_ok skips s s' : session_step skips s s' -> cdb_ok skips (s_db s) -> Forall (recorded (s_db s)) (s_pending s) ->
  cdb_ok skips (s_db s') /\ Forall (recorded (s_db s')) (s_pending s').
Proof.
  intros Hs K Hf. destruct Hs as [w env s e0 s' res Hk Ha Hst Hp|s db' Hw].
  - split; [by eapply write_step_ok; [|eapply step_event]|].
    destruct (persist_event_outcome w env s e0 s' res (ok_ids _ _ K) Ha Hst Hp) as (e & _ & H). destruct (existing _ _ _); [by destruct H as [-> _]|].
    destruct H as (r & h & f & H). cbn zeta in H. destruct (next_of_head (chain_head (c_legacy (s_db s)) (ev_tenant_id e))) as [prev next].
    destruct H as (Hr & _ & _ & He & _ & _ & -> & _). apply Forall_app. split.
    + eapply Forall_impl; [exact Hf|]. intros e'. apply (extends_recorded _ _ _ _ _ _ _ _ He).
    + destruct (we_neo4j env); [|constructor]. constructor; [|constructor]. destruct He as [E1 E2 _ _ _ _ _ _ _ _].
      assert (Hin : r ∈ (c_events (s_db s) ++ [r])%list) by (apply elem_of_app; right; apply list_elem_of_here).
      exists (f r). split; [rewrite E1; by apply list_elem_of_fmap_2|]. destruct (E2 r Hin) as [-> _].
      by destruct (params_fields _ _ _ Hr) as (F1 & F2 & F3 & _).
  - split; [by eapply write_step_ok|]. destruct (step_extends _ _ _ (ok_ids _ _ K) Hw) as (f & rows & t & entries & He).
    eapply Forall_impl; [exact Hf|]. intros e'. apply (extends_recorded _ _ _ _ _ _ _ _ He).
Qed.

Lemma session_steps_ok skips s s' : rtc (session_step skips) s s' -> cdb_ok skips (s_db s) -> Forall (recorded (s_db s)) (s_pending s) ->
  cdb_ok skips (s_db s') /\ Forall (recorded (s_db s')) (s_pending s') /\ forall e, recorded (s_db s) e -> recorded (s_db s') e.
Proof.
  induction 1 as [s|s s1 s' H1 _ IH]; intros K Hf; [done|]. destruct (session_step_ok _ _ _ H1 K Hf) as [K1 Hf1].
  destruct (IH K1 Hf1) as (K2 & Hf2 & Hr). split; [done|]. split; [done|]. intros e He. apply Hr.
  assert (Hw : write_step skips (s_db s) (s_db s1)) by (destruct H1; [by eapply step_event|done]).
  destruct (step_extends _ _ _ (ok_ids _ _ K) Hw) as (f & rows & t & entries & Hx). by eapply extends_recorded.
Qed.

Lemma publish_elem g q e m : m ∈ publish_graph_sync g q e -> m ∈ q \/ m = graph_message e.
Proof.
  unfold publish_graph_sync, ltrim_last. intros Hm. assert (Hq : m ∈ (q ++ [graph_message e])%list -> m ∈ q \/ m = graph_message e).
  { intros [?|?%list_elem_of_singleton]%elem_of_app; auto. }
  repeat match type of Hm with context [if ?b then _ else _] => destruct b end; auto.
  apply Hq. rewrite <- (take_drop (length (q ++ [graph_message e]) - Z.to_nat (ge_max_queue g)) (q ++ [graph_message e])). apply elem_of_app. by right.
Qed.

Lemma publish_all_elem g events q m : m ∈ fold_left (publish_graph_sync g) events q -> m ∈ q \/ exists e, e ∈ events /\ m = graph_message e.
Proof.
  revert q. induction events as [|e events IH]; intros q; cbn; [by left|]. intros [[?|?]%publish_elem|(e' & ? & ?)]%IH; [by left|right..].
  - exists e. split; [by left|done].
  - exists e'. split; [by right|done].
Qed.

(** C9. Whatever requests ran, also failed ones, every message in the graph queue is about an event
    that the database holds, with its tenant and digest: a rolled-back session publishes nothing. *)
Theorem graph_only_committed g skips w : live g skips w ->
  forall m, m ∈ w_queue w -> exists e r, m = graph_message e /\ r ∈ c_events (w_db w) /\ tr_event_id r = ev_event_id e
    /\ tr_tenant_id r = ev_tenant_id e /\ tr_sha256_hash r = ev_sha256_hash e.
Proof.
  intros Hl. cut (cdb_ok skips (w_db w) /\ forall m, m ∈ w_queue w -> exists e, m = graph_message e /\ recorded (w_db w) e).
  { intros [_ H] m Hm. destruct (H m Hm) as (e & -> & r & ?). by exists e, r. }
  induction Hl as [|A h w w' r Hl [K IH] Hh E]; [split; [apply empty_ok|by intros m []%not_elem_of_nil]|].
  unfold run_session in E. destruct (h _) as [[s a]|x] eqn:Eh; injection E as <- _; [|done].
  destruct (session_steps_ok skips _ _ (Hh _ _ _ Eh) K) as (K' & Hf & Hr); [by constructor|]. cbn in *. split; [done|].
  intros m [Hm|(e & He & ->)]%publish_all_elem.
  - destruct (IH m Hm) as (e & -> & He). exists e. auto.
  - exists e. rewrite Forall_forall in Hf. auto.
Qed.
End Life.
