(* ===== verification/EpcisWriters.v ===== *)
(** * The two readers of an EPCIS event

    One transaction writes the legacy row from [_normalize_epcis_to_cte] and the canonical row from
    [normalize_epcis_event].  Where the two readers say the same of an event, as the comments of both
    modules intend, and the conditions under which they do. *)

From Stdlib Require Import ZArith Lia String Ascii.
From Corelib Require Import SpecFloat.
From stdpp Require Import base list strings.
From S2P Require Import Prelude PyStr PyFloat PyVal Json LotIdentity EpcisExtraction Uom EpcisNormalization CanonicalEvent CanonicalNormalize NormalizeSpec EpcisIngest.

Local Open Scope string_scope.

Section Writers.
Context `{PL : PyLib} `{UL : UrlLib} `{FG : FsmaGate} `{EM : !EventModel}.

(** ** The type *)

Lemma assoc_all {A} (P : string * A -> bool) k (l : list (string * A)) v : forallb P l = true -> assoc k l = Some v -> P (k, v) = true.
Proof.
  induction l as [|[k' v'] l IH]; cbn; [done|]. intros [Hp Hl]%andb_true_iff. destruct (String.eqb_spec k k') as [<-|]; [by intros [= <-]|by apply IH].
Qed.

(** What the canonical reader makes of a name in lower case, against a type of the legacy reader. *)
Definition agrees (low ty : string) : bool :=
  match assoc low BIZSTEP_TO_CTE_TYPE with
  | Some (Some t) => String.eqb (cte_text t) ty
  | Some None => true
  | None => match cte_of_text low with Some t => String.eqb (cte_text t) ty | None => true end
  end.
Definition map_agrees (entry : string * string) : bool := agrees (lower (fst entry)) (snd entry).

(** A step of the canonical map is a CBV name that the legacy map has with the same type, or another URN. *)
Definition step_agrees (entry : string * option CTEType) : bool :=
  if startswith (fst entry) _CBV_BIZSTEP_PREFIX
  then match assoc (_CBV_BIZSTEP_PREFIX +:+ str_drop (slen _CBV_BIZSTEP_PREFIX) (fst entry)) _EVENT_TYPE_MAP with
       | Some ty => agrees (fst entry) ty | None => true end
  else startswith (fst entry) "urn:".

(** The two maps of business steps agree: what both accept has one type. *)
Lemma readers_type v ty t : assoc (_canonical_bizstep v) _EVENT_TYPE_MAP = Some ty -> _resolve_bizstep_to_cte_type v = Ok t -> cte_text t = ty.
Proof.
  unfold _canonical_bizstep, _resolve_bizstep_to_cte_type. destruct (is_none v); [done|]. generalize (strip (py_str v)) as raw. intros raw.
  destruct (String.eqb raw ""); [done|]. intros Hl Hr.
  assert (Hraw : assoc raw _EVENT_TYPE_MAP = Some ty -> cte_text t = ty).
  { intros Hm. assert (Ha := assoc_all map_agrees raw _EVENT_TYPE_MAP ty ltac:(by vm_compute) Hm). unfold map_agrees in Ha. cbn [fst snd] in Ha.
    revert Hr. unfold agrees in Ha. destruct (assoc (lower raw) _) as [[t'|]|]; [|done|destruct (cte_of_text _); [|done]];
      intros [= <-]; by apply String.eqb_eq. }
  revert Hl Hr. revert Hraw. generalize (lower raw) as low. intros low Hraw Hl Hr.
  destruct (assoc low BIZSTEP_TO_CTE_TYPE) as [[t'|]|] eqn:Ea; [|done|].
  - injection Hr as ->. assert (Hs := assoc_all step_agrees low BIZSTEP_TO_CTE_TYPE _ ltac:(by vm_compute) Ea). unfold step_agrees in Hs. cbn [fst] in Hs.
    destruct (startswith low _CBV_BIZSTEP_PREFIX).
    + rewrite Hl in Hs. unfold agrees in Hs. rewrite Ea in Hs. by apply String.eqb_eq.
    + rewrite Hs in Hl. by apply Hraw.
  - destruct (cte_of_text low) as [t'|] eqn:Ec; [|done]. injection Hr as ->. apply cte_of_text_spec in Ec as <-.
    destruct t; cbn in Hl; destruct (_BARE_BIZSTEP_RE raw); cbn in Hl; try (by apply Hraw); try done; by injection Hl as <-.
Qed.

(** ** The lot *)

Lemma preferred_text d keys t : lookup_preferred d keys = Some t -> strip t <> "" -> forall more, exists v, first_text d (keys ++ more) = Some (v, strip t).
Proof.
  intros Hl Hne more. induction keys as [|k keys IH]; cbn [lookup_preferred first_text app] in *; [done|]. unfold dict_get.
  destruct (dict_lookup k d) as [v|]; [|by apply IH]. destruct (_present_ilmd_text v) as [t'|] eqn:Ep.
  - injection Hl as ->. assert (Hv : is_none v = false /\ py_str v = t).
    { unfold _present_ilmd_text in Ep. destruct v as [| | | |s| | |]; try done; try (by injection Ep as <-). destruct (String.eqb s ""); [done|]. by injection Ep as <-. }
    destruct Hv as [-> ->]. exists v. by rewrite (proj2 (String.eqb_neq _ _) Hne).
  - assert (Hb : is_none v || String.eqb (strip (py_str v)) "" = true).
    { unfold _present_ilmd_text in Ep. destruct v as [| | | |s| | |]; try done. destruct (String.eqb_spec s "") as [E|]; [by rewrite E|done]. }
    rewrite Hb. by apply IH.
Qed.

(** The master data at the top of the event names the lot under one of the keys for it. *)
Definition names_tlc (event : pydict) : Prop := exists t, t <> "" /\ lookup_preferred (ilmd_of event) tlc_keys = Some t.

Lemma readers_lot event lot tlc t g : names_tlc event -> _extract_event_lot event = (lot, tlc) -> strip tlc <> "" ->
  _legacy_epcis_traceability_lot_code event = Ok (t, g) -> t = strip tlc.
Proof.
  intros (text & Hx & Ht) Hl Hne Hc. apply String.eqb_neq in Hx. assert (Hd : exists kv d, member event "ilmd" = PDict (kv :: d)).
  { unfold ilmd_of in Ht. destruct (member event "ilmd") as [| | | | | | |[|kv d]]; try done. by eauto. }
  destruct Hd as (kv & d & Hd). unfold _extract_event_lot, _ilmd_dict in Hl. unfold ilmd_of in Ht. rewrite Hd in Hl, Ht. cbn [filled _extract_lot_data] in Hl.
  assert (Htlc : str_or (_lookup_ilmd (kv :: d) tlc_keys "traceabilityLotCode") (_lookup_ilmd (kv :: d) lot_keys "lotNumber") = tlc).
  { destruct (_ || _) eqn:E; [by injection Hl as _ <-|]. apply orb_false_iff in E as [E1 E2]. apply negb_false_iff, String.eqb_eq in E1.
    exfalso. unfold _lookup_ilmd at 1 in E1. rewrite Ht in E1. unfold str_or in E1. rewrite Hx in E1. by apply String.eqb_neq in Hx. }
  unfold _lookup_ilmd at 1 in Htlc. rewrite Ht in Htlc. unfold str_or in Htlc. rewrite Hx in Htlc. subst text. destruct (preferred_text _ _ _ Ht Hne lot_keys) as [v Hv].
  unfold _legacy_epcis_traceability_lot_code in Hc. unfold ilmd_of in Hc. rewrite Hd in Hc. change ilmd_keys with (tlc_keys ++ lot_keys)%list in Hc.
  rewrite Hv in Hc. by apply Ok_inv in Hc as [= <- _].
Qed.

(** ** The quantity and its unit *)

(** The elements of the children are not the canonical reader's, and the element of the lot is the
    first, or no element names a lot. *)
Definition first_is_lot (event : pydict) : Prop :=
  truthy (member event "childQuantityList") = false
  /\ forall element, List.find names_lot (_quantity_list event) = Some element -> head (_quantity_list event) = Some element.

Lemma readers_element event d : first_is_lot event -> _quantity_element event = Some d ->
  _epcis_quantity_element event = Ok (Some d) \/ exists x, _epcis_quantity_element event = Raise x.
Proof.
  intros [Hchild Hfirst] He. assert (Hhead : exists rest, _quantity_list event = PDict d :: rest).
  { unfold _quantity_element in He. destruct (_quantity_list event) as [|[| | | | | | |first] rest] eqn:El; try done. exists rest.
    destruct (List.find names_lot _) as [element|] eqn:Ef; [|by injection He as ->]. specialize (Hfirst _ eq_refl). cbn in Hfirst.
    injection Hfirst as <-. by injection He as ->. }
  destruct Hhead as [rest Hlist]. unfold _epcis_quantity_element.
  assert (Hext : (exists x, py_get (dict_get event "extension" (PDict [])) "quantityList" PNone = Raise x)
    \/ py_get (dict_get event "extension" (PDict [])) "quantityList" PNone = Ok (nested (member event "extension") "quantityList")).
  { unfold member, dict_get. destruct (dict_lookup "extension" event) as [v|]; [|by right]. destruct v; try (left; by eexists). by right. }
  destruct Hext as [[x ->] | ->]; [right; by exists x|]. cbn [rbind]. left. f_equal.
  unfold _quantity_list in Hlist. cbn [first_list] in Hlist. unfold por. rewrite Hchild in Hlist.
  assert (Hv : forall v, match v with PList l => l | _ => [] end = PDict d :: rest -> match v with PList (PDict d :: _) => Some d | _ => None end = Some d).
  { intros [| | | | | |l|]; try done. by intros ->. }
  revert Hlist. destruct (truthy (nested _ _)); [apply Hv|]. destruct (truthy (member event "quantityList")); [apply Hv|].
  destruct (truthy (member event "outputQuantityList")); [apply Hv|]. destruct (truthy (member event "inputQuantityList")); [apply Hv|done].
Qed.

Lemma readers_quantity event d q q' u : first_is_lot event -> _quantity_element event = Some d ->
  is_none (dict_get d "quantity" PNone) = false -> py_float (dict_get d "quantity" PNone) = Ok q ->
  _require_epcis_quantity event = Ok q' -> _epcis_unit_of_measure event = Ok u ->
  q' = q /\ u = py_str (por (dict_get d "uom" PNone) (PStr "each")).
Proof.
  intros Hf He Hn Hq Hreq Hu. unfold _require_epcis_quantity, _extract_epcis_quantity, _epcis_unit_of_measure in *.
  destruct (readers_element _ _ Hf He) as [E|[x E]]; [|by rewrite E in Hreq]. rewrite E in Hreq, Hu. cbn [rbind] in Hreq, Hu.
  rewrite Hn in Hreq, Hu. unfold float_or_none in Hreq. rewrite Hq in Hreq. cbn in Hreq. apply Ok_inv in Hreq as <-. apply Ok_inv in Hu as <-. done.
Qed.

(** C16. The legacy and the canonical row of one event agree, with [LOT_IDENTITY_LOSSLESS] off.  An event
    that both readers accept has one type in both.  When the master data at the top of the event ([ilmd];
    the canonical reader does not look into [extension.ilmd], which the legacy one falls back to) names
    the lot under a key for it, both rows have that lot code (the canonical one without the white space
    at its ends); when the first quantity element is that of
    the lot, or no element names a lot, and the quantities of children are not used, both have one
    quantity and one unit. *)
Theorem two_readers_agree strict tenant event p env f run e :
  _prepare_event_for_persistence strict tenant event = Answer p -> normalize_epcis_event env false f event tenant run = Ok e ->
  cte_text (ev_event_type e) = n_event_type (pe_normalized p)
  /\ (names_tlc event -> ev_traceability_lot_code e = strip (n_tlc (pe_normalized p)))
  /\ (first_is_lot event -> ev_quantity e = pe_quantity_value p
       /\ ev_unit_of_measure e = py_str (por (n_unit_of_measure (pe_normalized p)) (PStr "each"))).
Proof.
  intros [_ Hv Hn _ _ _ _ [Hq Hq'] _ _ _ _]%prepare_inv E. destruct (normalized_inv _ _ Hn) as (Hty & Hlot & _ & Eq & Eu & _).
  destruct (validated _ Hv) as (_ & _ & Hstep & lot & tlc & Hlot' & Hl & Hlen). rewrite Hlot in Hlot'. injection Hlot' as <- <-.
  unfold normalize_epcis_event in E. apply rbind_Ok_inv in E as (a & Ha & E). apply rbind_Ok_inv in E as (c & Hnew & Hprep).
  destruct (normalized_fields _ _ _ _ _ Hnew Hprep) as (-> & _ & -> & _ & -> & _ & -> & _).
  unfold epcis_args in Ha. apply rbind_Ok_inv in Ha as (t & Ht & Ha). apply rbind_Ok_inv in Ha as ([tl g] & Htl & Ha).
  destruct (slen tl <? 3)%nat; [done|]. destruct (negb _); [done|].
  do 4 (apply rbind_Ok_inv in Ha as (? & _ & Ha)). apply rbind_Ok_inv in Ha as (q & Hreq & Ha). apply rbind_Ok_inv in Ha as (u & Hu & Ha).
  apply Ok_inv in Ha as <-. cbn [ea_event_type ea_traceability_lot_code ea_quantity ea_unit_of_measure]. split_and!.
  - apply (readers_type (member event "bizStep")); [done|]. unfold member, dict_get in *. by destruct (dict_lookup "bizStep" event).
  - intros Hnames. eapply readers_lot; try done. intros Hblank. assert (Hne : n_tlc (pe_normalized p) <> "").
    { intros Et. apply (lot_implies_tlc _ _ _ Hlot); [|done]. by apply Hl. }
    specialize (Hlen Hne). by rewrite Hblank in Hlen; cbn in Hlen; lia.
  - intros Hfirst. destruct (_quantity_element event) as [d|] eqn:Ee; [|by rewrite Eq in Hq]. rewrite Eq in Hq, Hq'. rewrite Eu.
    by eapply readers_quantity.
Qed.
End Writers.
