(* ===== verification/EpcisPersist.v ===== *)
(** * Writing EPCIS events

    [services/ingestion/app/epcis/persistence.py] from a prepared event on, with
    [services/shared/rules/rejection_audit.py]: the enforcement gate, the legacy and the canonical row
    and the rule results in one transaction, single events, atomic batches, and the in-memory store that
    stands in when there is no database.  The tables of the two stores are those of CanonicalStore.v,
    those of the rules engine those of Engine.v. *)

From Stdlib Require Import ZArith Lia String Ascii.
From Corelib Require Import SpecFloat.
From stdpp Require Import base list strings.
From S2P Require Import Prelude PyStr PyFloat PyVal Json Sha256 Hashing CteStore Rules Enforcement Relational Engine.
From S2P Require Import LotIdentity EpcisExtraction Uom EpcisNormalization CanonicalEvent CanonicalNormalize CanonicalStore EpcisIngest.
From S2P Require Import CanonicalVerify.

Local Open Scope string_scope.

(** ** State *)

(** A row of [fsma.rule_rejections]; [rj_reasons] is JSON text. *)
Record rejection_row := RejectionRow {
  rj_tenant_id : string; rj_event_id : string; rj_rule_id : option string; rj_rule_version : option Z;
  rj_reasons : string; rj_source : string; rj_enforcement_mode : string
}.

(** A transaction at work: the two stores with the staged graph messages, and the tables of the rules
    engine.  The last two are outside the transaction: the memory of the enforcement module, and the
    rejections, which are committed by a session of their own. *)
Record work := Work {
  w_tx : CanonicalStore.session;
  w_rules : edb;
  w_gate : enforcement_state;
  w_rejections : list rejection_row
}.

Definition set_gate (w : work) (g : enforcement_state) : work := Work (w_tx w) (w_rules w) g (w_rejections w).
Definition set_tables (w : work) (tx : CanonicalStore.session) (rules : edb) : work := Work tx rules (w_gate w) (w_rejections w).

(** What one event takes from outside: the process and request of the gate; whether the audit of
    rejections can be stored; the fresh identifiers of its two canonical events; the flag of lossless
    lots; the exception of every statement when the database is down; and the environments of the
    stores and of the engine. *)
Record event_env := EventEnv {
  ee_context : Enforcement.context;
  ee_audit_down : bool;
  ee_pre : fresh;
  ee_new : fresh;
  ee_lossless : bool;
  ee_outage : option exn;
  ee_store : CteStore.env;
  ee_writer : wenv;
  ee_pre_call : call_env;
  ee_call : call_env;
  ee_oracle : oracle
}.

(** ** Operations in a transaction *)

Definition ing (A : Type) : Type := work -> work * http A.
Definition ibind {A B} (c : ing A) (k : A -> ing B) : ing B :=
  fun w => match c w with
           | (w', Answer a) => k a w'
           | (w', HTTPException s d) => (w', HTTPException s d)
           | (w', Crash e) => (w', Crash e)
           end.
Definition ireturn {A} (a : A) : ing A := fun w => (w, Answer a).

Declare Scope ing_scope.
Delimit Scope ing_scope with ing.
Notation "x <~ c ;; k" := (ibind c (fun x => k))
  (at level 100, c at next level, k at level 200, right associativity) : ing_scope.
Local Open Scope ing_scope.
Local Open Scope http_scope.

(** [isinstance(e, ValueError)], and the classes that the gate catches. *)
Definition is_value_error (e : exn) : bool :=
  existsb (String.eqb (exn_type e)) ["ValueError"; "UnmappedBizStepError"; "RawPayloadTooLargeError"; "ValidationError";
    "JSONDecodeError"; "ParserError"; "UnicodeError"; "UnicodeDecodeError"].
Definition preeval_catches (e : exn) : bool :=
  is_value_error e || existsb (String.eqb (exn_type e)) ["ImportError"; "TypeError"; "RuntimeError"; "AttributeError"; "KeyError"].
Definition is_unmapped (e : exn) : bool := String.eqb (exn_type e) "UnmappedBizStepError".

(** [reasons_from_summary]. *)
Definition reasons_from_summary (s : EvaluationSummary) : list pyval :=
  let rs := match critical_failures s with [] => results s | l => l end in
  match List.filter (fun r => String.eqb (result r) "fail" || String.eqb (result r) "error") rs with
  | [] => [PDict [("reason", PStr "rule_violation")]]
  | failing => (fun r => PDict [("rule_id", PStr (re_rule_id r)); ("rule_version", PInt (re_rule_version r)); ("severity", PStr (re_severity r));
                                ("result", PStr (result r)); ("why_failed", opt_text (why_failed r))]) <$> failing
  end.

(** The facts of a canonical event that the rules see. *)
Definition rule_facts (e : TraceabilityEvent) : pydict :=
  [("event_id", PStr (ev_event_id e)); ("event_type", PStr (cte_text (ev_event_type e)));
   ("traceability_lot_code", PStr (ev_traceability_lot_code e)); ("product_reference", opt_text (ev_product_reference e));
   ("quantity", PFloat (ev_quantity e)); ("unit_of_measure", PStr (ev_unit_of_measure e));
   ("from_facility_reference", opt_text (ev_from_facility_reference e)); ("to_facility_reference", opt_text (ev_to_facility_reference e));
   ("from_entity_reference", opt_text (ev_from_entity_reference e)); ("to_entity_reference", opt_text (ev_to_entity_reference e));
   ("kdes", PDict (ev_kdes e))].

Definition eval_failed : pyval :=
  PDict [("error", PStr "RULES_ENGINE_EVAL_FAILED");
         ("message", PStr "Rules engine pre-evaluation failed under enforcement mode. Refusing to silently accept the event.");
         ("where", PStr "epcis_persistence")].

Section Persist.
Context `{PL : PyLib} `{RT : Runtime} `{JL : Engine.JsonLib} `{PG : Postgres} `{UL : UrlLib} `{FG : FsmaGate} `{EM : !EventModel}.

(** [record_rejection]; [down] when its session fails, which raises [RejectionAuditUnavailable]. *)
Definition record_rejection (down : bool) (tenant_id : string) (rule_id : option string) (rule_version : option Z) (reasons : list pyval)
    (event_id source mode : string) (table : list rejection_row) : res (list rejection_row) :=
  do text <- json_dumps opts_str (PList reasons);
  if down then Raise (Exn "RejectionAuditUnavailable" "Rejection audit storage is unavailable")
  else Ok (table ++ [RejectionRow tenant_id event_id rule_id rule_version text source mode])%list.

(** The engine's statements read the rows that the transaction has written so far. *)
Definition engine_row (r : tr_row) : traceability_row :=
  TraceRow (tr_event_id r) (tr_tenant_id r) (tr_traceability_lot_code r) (tr_status r) (tr_event_type r)
    (Some (driver_timestamp (tr_event_timestamp r))) (tr_product_reference r) (Some (tr_quantity r)) (Some (tr_unit_of_measure r)).

(** The evaluation columns of a new row are null. *)
Definition marks_of (marks : list event_mark) (rows : list tr_row) : list event_mark :=
  (marks ++ ((fun r => Mark (tr_tenant_id r) (tr_event_id r) None None None)
    <$> List.filter (fun r => negb (existsb (fun m => String.eqb (em_event_id m) (tr_event_id r)) marks)) rows))%list.

Definition engine_db (w : work) : edb :=
  EDb (rule_definitions (w_rules w)) (engine_row <$> c_events (s_db (w_tx w)))
    (marks_of (event_marks (w_rules w)) (c_events (s_db (w_tx w)))) (rule_evaluations (w_rules w)) (rule_evaluation_deadletter (w_rules w)).

(** A statement of the transaction. *)
Definition statement {A} (env : event_env) (c : res A) : res A := match ee_outage env with Some e => Raise e | None => c end.

(** The gate before the write: the verdict of the rules on the event, or none. *)
Definition preeval (env : event_env) (tenant_id : string) (event : pydict) : ing (option (string * EvaluationSummary)) := fun w =>
  let '(gate, mode) := current_mode (ee_context env) (w_gate w) in
  let w := set_gate w gate in
  if String.eqb mode OFF then (w, Answer None)
  else
    match (do e <- normalize_epcis_event (we_limit (ee_writer env)) (ee_lossless env) (ee_pre env) event tenant_id None;
           do '(_, _, s) <- statement env (evaluate_event (ee_pre_call env) (ee_oracle env) (engine_db w) (new_engine None)
                                             (rule_facts e) false (Some tenant_id));
           Ok (ev_event_id e, s)) with
    | Ok verdict => (w, Answer (Some verdict))
    | Raise x =>
        if negb (preeval_catches x) then (w, Crash x)
        else if is_unmapped x then (w, HTTPException 422 (PDict [("errors", text_list [exn_msg x])]))
        else match handle_preeval_exception (ee_context env) (w_gate w) x "epcis_persistence" with
             | (gate, Ok _) => (set_gate w gate, Answer None)
             | (gate, Raise _) => (set_gate w gate, HTTPException 500 eval_failed)
             end
    end.

Definition rule_violation (reason : option string) (tenant_id : string) : pyval :=
  PDict [("error", PStr "rule_violation"); ("reason", opt_text reason); ("tenant_id", PStr tenant_id)].

(** A rejection is recorded before it is answered. *)
Definition enforce (env : event_env) (tenant_id : string) (verdict : option (string * EvaluationSummary)) : ing unit := fun w =>
  match verdict with
  | None => (w, Answer tt)
  | Some (id, s) =>
      let '(gate, (reject, reason)) := should_reject (ee_context env) (w_gate w) s in
      let w := set_gate w gate in
      if negb reject then (w, Answer tt)
      else
        let first := head (critical_failures s) in
        let '(gate, mode) := current_mode (ee_context env) (w_gate w) in
        match record_rejection (ee_audit_down env) tenant_id (re_rule_id <$> first) (re_rule_version <$> first) (reasons_from_summary s)
                id "epcis_preeval" mode (w_rejections w) with
        | Ok rows => (Work (w_tx w) (w_rules w) gate rows, HTTPException 422 (rule_violation reason tenant_id))
        | Raise _ => (set_gate w gate, HTTPException 503 (PStr "Rejection audit storage is unavailable"))
        end
  end.

(** A member that is bound to a text column: the driver sees what is not a text. *)
Definition text_arg (v : pyval) : res string := match v with PStr s => Ok s | _ => bind_text v end.
Definition opt_text_arg (v : pyval) : res (option string) := match v with PNone => Ok None | _ => do s <- text_arg v; Ok (Some s) end.
(** The items of the alert list; [item.get] needs an object. *)
Definition alert_items (alerts : list pyval) : res (list pydict) :=
  rmapM (fun a => match a with PDict d => Ok d | _ => no_attribute a "get" end) alerts.

(** The arguments of [CTEPersistence.store_event]. *)
Definition legacy_input (tenant_id : string) (p : prepared_event) : res event_input :=
  let n := pe_normalized p in
  do unit_of_measure <- text_arg (por (n_unit_of_measure n) (PStr "each"));
  do epcis_type <- opt_text_arg (n_epcis_event_type n);
  do epcis_action <- opt_text_arg (n_epcis_action n);
  do epcis_step <- opt_text_arg (n_epcis_biz_step n);
  do alerts <- alert_items (pe_alerts p);
  Ok (EventInput tenant_id (PStr (n_event_type n)) (n_tlc n) (_epcis_product_description (pe_event p) (pe_kde_map p))
        (PFloat (pe_quantity_value p)) unit_of_measure (pe_event_time p) "epcis" (Some (n_location_id n)) None (pe_kde_map p) alerts
        (epcis_type, epcis_action, epcis_step)
        (Some (py_str (por (member (pe_event p) "eventID") (PStr (pe_idempotency_key p))))) PNone [] None).

(** [CTEPersistence(db_session).store_event(...)]: the checks come before the first statement. *)
Definition store_legacy (env : event_env) (tenant_id : string) (p : prepared_event) : ing store_result := fun w =>
  match (do i <- legacy_input tenant_id p;
         do _ <- checked_inputs (ee_store env) i;
         statement env (store_event (ee_store env) (c_legacy (s_db (w_tx w))) i)) with
  | Ok (legacy, r) => (set_tables w (Session (set_legacy (s_db (w_tx w)) legacy) (s_pending (w_tx w))) (w_rules w), Answer r)
  | Raise x => (w, Crash x)
  end.

(** The legacy row owns the link of the hash chain. *)
Definition epcis_writer : writer := Writer false true true.

(** The canonical row and the results of the rules: those of the gate, under the identifier of the
    stored event, when it reached any. *)
Definition store_canonical (env : event_env) (tenant_id : string) (p : prepared_event) (verdict : option (string * EvaluationSummary))
    : ing unit := fun w =>
  match (do e <- normalize_epcis_event (we_limit (ee_writer env)) (ee_lossless env) (ee_new env) (pe_event p) tenant_id None;
         do _ <- set_tenant_context tenant_id;
         do '(tx, _) <- statement env (persist_event epcis_writer (ee_writer env) (w_tx w) e);
         let w1 := set_tables w tx (w_rules w) in
         do rules <- match verdict with
                     | Some (_, Summary _ _ _ _ _ _ _ _ _ (_ :: _) _ as s) =>
                         persist_summary (ee_oracle env) (engine_db w1) s tenant_id (Some (ev_event_id e))
                     | _ => do '(_, db, _) <- evaluate_event (ee_call env) (ee_oracle env) (engine_db w1) (new_engine None)
                                                (rule_facts e) true (Some tenant_id);
                            Ok db
                     end;
         Ok (tx, rules)) with
  | Ok (tx, rules) => (set_tables w tx rules, Answer tt)
  | Raise x => (w, Crash x)
  end.

Definition stored_answer (p : prepared_event) (r : store_result) : pydict * Z :=
  let status := if sr_idempotent r then 200%Z else 201%Z in
  ([("status", PInt status); ("cte_id", PStr (sr_event_id r));
    ("validation_status", PStr (match pe_alerts p with [] => "valid" | _ => "warning" end));
    ("kde_completeness", PFloat (_kde_completeness (pe_kdes p))); ("alerts", PList (pe_alerts p));
    ("idempotent", PBool (sr_idempotent r))], status).

(** What a failure leaves in the transaction is rolled back by both callers. *)
Definition _persist_prepared_event_in_session (env : event_env) (tenant_id : string) (p : prepared_event) : ing (pydict * Z) :=
  verdict <~ preeval env tenant_id (pe_event p) ;;
  _ <~ enforce env tenant_id verdict ;;
  r <~ store_legacy env tenant_id p ;;
  _ <~ (if sr_idempotent r then ireturn tt else store_canonical env tenant_id p verdict) ;;
  ireturn (stored_answer p r).

(** ** The in-memory store *)

Record stored := Stored {
  st_id : string; st_tenant_id : string; st_ingested_at : string; st_idempotency_key : string; st_document : pydict;
  st_normalized : normalized_cte; st_fsma_status : string; st_kdes : list kde; st_alerts : list pyval; st_completeness : f64
}.

(** One ordered dictionary per tenant, oldest entry first. *)
Record fallback := Fallback {
  _epcis_store : list (string * list (string * stored));
  _epcis_idempotency_index : list (string * list (string * string))
}.

(** [d[k] = v]: a known key keeps its place. *)
Fixpoint od_set {A} (k : string) (v : A) (d : list (string * A)) : list (string * A) :=
  match d with
  | [] => [(k, v)]
  | (k', v') :: rest => if String.eqb k k' then (k, v) :: rest else (k', v') :: od_set k v rest
  end.
(** [d.pop(k, None)]. *)
Definition od_pop {A} (k : string) (d : list (string * A)) : list (string * A) := List.filter (fun e => negb (String.eqb k (fst e))) d.

Definition partition {A} (tenant_id : string) (d : list (string * list (string * A))) : list (string * A) := default [] (assoc tenant_id d).

(** [while len(d) > cap: d.popitem(last=False)]. *)
Definition evict {A} (cap : Z) (d : list (string * A)) : res (list (string * A)) :=
  if (cap <? 0)%Z then Raise (Exn "KeyError" "dictionary is empty") else Ok (drop (length d - Z.to_nat cap) d).

(** [_fallback_store_put] and [_fallback_idempotency_put], on the dictionaries of all tenants. *)
Definition fallback_put {A} (cap : Z) (tenant_id k : string) (v : A) (d : list (string * list (string * A))) : res (list (string * list (string * A))) :=
  do part <- evict cap (od_set k v (partition tenant_id d)); Ok (od_set tenant_id part d).

(** What a call of the fallback takes from outside: the bound, the new UUID and the clock. *)
Record fallback_env := FallbackEnv { fe_cap : Z; fe_uuid : string; fe_now : string }.

Definition known_answer (id : string) (r : stored) : pydict * Z :=
  ([("status", PInt 200); ("cte_id", PStr id); ("validation_status", PStr "valid"); ("kde_completeness", PFloat (st_completeness r));
    ("alerts", PList (st_alerts r)); ("idempotent", PBool true)], 200%Z).

Definition fresh_answer (r : stored) : pydict * Z :=
  ([("status", PInt 201); ("cte_id", PStr (st_id r)); ("validation_status", PStr (match st_alerts r with [] => "valid" | _ => "warning" end));
    ("kde_completeness", PFloat (st_completeness r)); ("alerts", PList (st_alerts r)); ("idempotent", PBool false)], 201%Z).

(** The record of an event that passes the checks of this path. *)
Definition fallback_record (env : fallback_env) (strict : bool) (tenant_id : string) (event : pydict) (idempotency_key : string) : http stored :=
  get n <- _normalize_epcis_to_cte event;
   get kdes <- of_res (_extract_kdes event);
   let alerts := _compliance_alerts n kdes in
   get _ <- _enforce_mandatory_gln_check_digits n;
   get warnings <- of_res (_validate_epcis_glns n);
   let alerts := (alerts ++ (PStr <$> warnings))%list in
   let passed := _validate_as_fsma_event n (Some tenant_id) in
   if negb passed && strict then HTTPException 422 fsma_failed
   else Answer (Stored (fe_uuid env) tenant_id (fe_now env) idempotency_key event n (if passed then "passed" else "failed") kdes
                  (alerts ++ if passed then [] else [fsma_alert]) (_kde_completeness kdes)).

Definition _ingest_single_event_fallback (env : fallback_env) (strict : bool) (tenant_id : string) (event : pydict) (fb : fallback)
    : fallback * http (pydict * Z) :=
  match _validate_epcis event with
  | (_ :: _) as errors => (fb, HTTPException 400 (PDict [("errors", text_list errors)]))
  | [] =>
      match _event_idempotency_key event with
      | Raise x => (fb, Crash x)
      | Ok idempotency_key =>
          let idx := partition tenant_id (_epcis_idempotency_index fb) in
          let store := partition tenant_id (_epcis_store fb) in
          let fb := Fallback (od_set tenant_id store (_epcis_store fb)) (od_set tenant_id idx (_epcis_idempotency_index fb)) in
          let found := match assoc idempotency_key idx with
                       | Some id => if String.eqb id "" then None else (fun r => (id, r)) <$> assoc id store
                       | None => None
                       end in
          match found with
          | Some (id, r) => (fb, Answer (known_answer id r))
          | None =>
              let evicted := match assoc idempotency_key idx with Some id => negb (String.eqb id "") | None => false end in
              let fb := if evicted then Fallback (_epcis_store fb) (od_set tenant_id (od_pop idempotency_key idx) (_epcis_idempotency_index fb)) else fb in
              match fallback_record env strict tenant_id event idempotency_key with
              | HTTPException s d => (fb, HTTPException s d)
              | Crash x => (fb, Crash x)
              | Answer r =>
                  match fallback_put (fe_cap env) tenant_id (fe_uuid env) r (_epcis_store fb) with
                  | Raise x => (Fallback (od_set tenant_id [] (_epcis_store fb)) (_epcis_idempotency_index fb), Crash x)
                  | Ok records =>
                      match fallback_put (fe_cap env) tenant_id idempotency_key (fe_uuid env) (_epcis_idempotency_index fb) with
                      | Raise x => (Fallback records (od_set tenant_id [] (_epcis_idempotency_index fb)), Crash x)
                      | Ok index => (Fallback records index, Answer (fresh_answer r))
                      end
                  end
              end
          end
      end
  end.

(** ** The service *)

(** What outlives a request: the committed tables, the graph queue, the memory of the enforcement
    module, the committed rejections and the in-memory store. *)
Record service := Service {
  sv_db : cdb;
  sv_rules : edb;
  sv_queue : list pyval;
  sv_gate : enforcement_state;
  sv_rejections : list rejection_row;
  sv_fallback : fallback
}.

Definition begin (sv : service) : work := Work (Session (sv_db sv) []) (sv_rules sv) (sv_gate sv) (sv_rejections sv).
Definition commit (g : graph_env) (sv : service) (w : work) : service :=
  Service (s_db (w_tx w)) (w_rules w) (fold_left (publish_graph_sync g) (s_pending (w_tx w)) (sv_queue sv)) (w_gate w) (w_rejections w) (sv_fallback sv).
Definition rollback (sv : service) (w : work) : service :=
  Service (sv_db sv) (sv_rules sv) (sv_queue sv) (w_gate w) (w_rejections w) (sv_fallback sv).
Definition set_fallback (sv : service) (fb : fallback) : service :=
  Service (sv_db sv) (sv_rules sv) (sv_queue sv) (sv_gate sv) (sv_rejections sv) fb.

(** What a request takes from outside: the strict flag, whether [get_db_safe] gives a session, what the
    commit raises, the graph queue, and whether the in-memory store may stand in. *)
Record request_env := RequestEnv {
  re_strict : bool;
  re_session : bool;
  re_commit : option exn;
  re_graph : graph_env;
  re_allow_fallback : bool;
  re_fallback : fallback_env
}.

Definition E_EPCIS_UNVALIDATED : exn := ValueError "E_EPCIS_UNVALIDATED".

(** Without a session every statement, the rollback and the close raise; the gate has read its mode. *)
Definition without_session (c : Enforcement.context) (sv : service) : service :=
  rollback sv (set_gate (begin sv) (fst (current_mode c (sv_gate sv)))).
Definition no_session : exn := AttributeError "'NoneType' object has no attribute 'close'".

(** The [try] around the transaction. *)
Definition transaction {A} (env : request_env) (h : ing A) (sv : service) : service * http A :=
  match h (begin sv) with
  | (w, Answer a) => match re_commit env with None => (commit (re_graph env) sv w, Answer a) | Some x => (rollback sv w, Crash x) end
  | (w, HTTPException s d) => (rollback sv w, HTTPException s d)
  | (w, Crash x) => (rollback sv w, Crash x)
  end.

(** [detail.get("error")] of a detail that is an object. *)
Definition error_of (detail : pyval) : pyval := match detail with PDict d => dict_get d "error" PNone | _ => PNone end.

Definition _ingest_single_event_db (env : request_env) (ev : event_env) (tenant_id : string) (event : pydict) (sv : service)
    : service * http (pydict * Z) :=
  match _prepare_event_for_persistence (re_strict env) tenant_id event with
  | Crash x => (sv, Crash x)
  | HTTPException s d =>
      if (s =? 422)%Z && py_eq (error_of d) (PStr "fsma_validation_failed") && re_strict env
      then (sv, Crash E_EPCIS_UNVALIDATED) else (sv, HTTPException s d)
  | Answer p =>
      if negb (py_eq (dict_get (pe_kde_map p) "fsma_validation_status" PNone) (PStr "passed")) && re_strict env
      then (sv, Crash E_EPCIS_UNVALIDATED)
      else if negb (re_session env) then (without_session (ee_context ev) sv, Crash no_session)
      else transaction env (_persist_prepared_event_in_session ev tenant_id p) sv
  end.

Definition unvalidated : pyval :=
  error_detail "fsma_validation_failed" ("Event failed FSMAEvent schema validation and was "
    +:+ "not persisted. Set STRICT_FSMA_VALIDATION=false only for temporary migration windows.") [].
Definition contains (needle s : string) : bool := match String.index 0 needle s with Some _ => true | None => false end.

Definition _ingest_single_event (env : request_env) (ev : event_env) (tenant_id : string) (event : pydict) (sv : service)
    : service * http (pydict * Z) :=
  match _ingest_single_event_db env ev tenant_id event sv with
  | (sv, Crash x) =>
      if is_value_error x then
        if String.eqb (exn_msg x) "E_EPCIS_UNVALIDATED" then (sv, HTTPException 422 unvalidated)
        else if is_unmapped x || contains "is not a recognized FSMA 204 CTE type" (exn_msg x)
        then (sv, HTTPException 422 (PDict [("error", PStr "unsupported_cte_type"); ("message", PStr (exn_msg x))]))
        else (sv, Crash x)
      else if negb (re_allow_fallback env) then (sv, HTTPException 503 (PStr "Database unavailable — EPCIS ingest cannot proceed."))
      else
        let '(fb, r) := _ingest_single_event_fallback (re_fallback env) (re_strict env) tenant_id event (sv_fallback sv) in
        (set_fallback sv fb, r)
  | r => r
  end.

(** ** Batches *)

(** Phase 1: every event is checked; what is not an [HTTPException] ends the request. *)
Fixpoint prepare_all (strict : bool) (tenant_id : string) (idx : Z) (events : list pydict) : http (list prepared_event * list pyval) :=
  match events with
  | [] => Answer ([], [])
  | event :: rest =>
      match _prepare_event_for_persistence strict tenant_id event with
      | Crash x => Crash x
      | HTTPException s d =>
          get r <- prepare_all strict tenant_id (idx + 1) rest;
          Answer (fst r, PDict [("index", PInt idx); ("status_code", PInt s); ("detail", d)] :: snd r)
      | Answer p =>
          get r <- prepare_all strict tenant_id (idx + 1) rest;
          Answer (p :: fst r, snd r)
      end
  end.

(** Phase 2, one transaction; a failure carries the index of its event. *)
Fixpoint persist_all (envs : nat -> event_env) (tenant_id : string) (idx : nat) (ps : list prepared_event) (w : work)
    : work * (list (pydict * Z) + nat * http unit) :=
  match ps with
  | [] => (w, inl [])
  | p :: rest =>
      match _persist_prepared_event_in_session (envs idx) tenant_id p w with
      | (w, Answer a) =>
          match persist_all envs tenant_id (S idx) rest w with
          | (w, inl l) => (w, inl (a :: l))
          | (w, inr f) => (w, inr f)
          end
      | (w, HTTPException s d) => (w, inr (idx, HTTPException s d))
      | (w, Crash x) => (w, inr (idx, Crash x))
      end
  end.

(** [str(exc)]. *)
Definition cause {A} (c : http A) : string :=
  match c with Answer _ => "" | HTTPException s d => str_of_Z s +:+ ": " +:+ py_str d | Crash x => exn_msg x end.

Definition batch_validation_failed (errors : list pyval) : pyval :=
  PDict [("error", PStr "batch_validation_failed"); ("mode", PStr "atomic");
         ("message", PStr ("One or more events failed pre-DB validation. No events were persisted. Use ?mode=partial to opt in to "
            +:+ "per-event processing with HTTP 207 semantics."));
         ("errors", PList errors)].
Definition batch_persistence_failed (index : pyval) (why : string) : pyval :=
  PDict [("error", PStr "batch_persistence_failed"); ("mode", PStr "atomic"); ("failed_index", index);
         ("message", PStr ("Persistence failed mid-batch. All events in this batch were rolled back. Use ?mode=partial for best-effort "
            +:+ "per-event ingest."));
         ("cause", PStr why)].

Definition _ingest_batch_events_db_atomic (env : request_env) (envs : nat -> event_env) (tenant_id : string) (events : list pydict) (sv : service)
    : service * http (list (pydict * Z)) :=
  match prepare_all (re_strict env) tenant_id 0 events with
  | Crash x => (sv, Crash x)
  | HTTPException s d => (sv, HTTPException s d)
  | Answer (_, (_ :: _) as errors) => (sv, HTTPException 400 (batch_validation_failed errors))
  | Answer (ps, []) =>
      if negb (re_session env)
      then (match ps with [] => sv | _ => without_session (ee_context (envs 0%nat)) sv end, Crash no_session)
      else
        match persist_all envs tenant_id 0 ps (begin sv) with
        | (w, inr (idx, failure)) =>
            (rollback sv w, HTTPException 400 (batch_persistence_failed (PInt (Z.of_nat idx)) (cause failure)))
        | (w, inl answers) =>
            match re_commit env with
            | None => (commit (re_graph env) sv w, Answer answers)
            | Some x => (rollback sv w, HTTPException 400 (batch_persistence_failed PNone (exn_msg x)))
            end
        end
  end.

(** [_batch_transactional], from its variable. *)
Definition _batch_transactional (explicit : option string) : bool :=
  match explicit with
  | None => true
  | Some v => existsb (String.eqb (lower (strip v))) ["1"; "true"; "yes"; "on"; "atomic"]
  end.

(** The per-event loop of the partial mode: only an [HTTPException] is collected. *)
Fixpoint ingest_each (env : nat -> request_env) (envs : nat -> event_env) (tenant_id : string) (idx : nat) (events : list pydict) (sv : service)
    : service * http (list (nat * pydict * Z) * list pyval) :=
  match events with
  | [] => (sv, Answer ([], []))
  | event :: rest =>
      match _ingest_single_event (env idx) (envs idx) tenant_id event sv with
      | (sv, Crash x) => (sv, Crash x)
      | (sv, Answer (payload, status)) =>
          let '(sv, r) := ingest_each env envs tenant_id (S idx) rest sv in
          (sv, get l <- r; Answer ((idx, payload, status) :: fst l, snd l))
      | (sv, HTTPException s d) =>
          let '(sv, r) := ingest_each env envs tenant_id (S idx) rest sv in
          (sv, get l <- r; Answer (fst l, PDict [("index", PInt (Z.of_nat idx)); ("detail", d)] :: snd l))
      end
  end.

(** A JSON response: its content and status. *)
Definition batch_response (total : nat) (processed : list (nat * pydict * Z)) (failed : list pyval) (mode : string) : pydict :=
  [("total", PInt (Z.of_nat total));
   ("created", PInt (Z.of_nat (length (List.filter (fun r => (snd r =? 201)%Z) processed))));
   ("failed", PInt (Z.of_nat (length failed)));
   ("results", PList ((fun r => PDict (foldl (fun d kv => dict_set (fst kv) (snd kv) d)
      [("index", PInt (Z.of_nat (fst (fst r)))); ("status_code", PInt (snd r))] (snd (fst r)))) <$> processed));
   ("errors", PList failed); ("mode", PStr mode)].

(** [_ingest_batch_document], once the tenant is known. *)
Definition _ingest_batch_document (env : nat -> request_env) (envs : nat -> event_env) (transactional : bool) (mode : option string)
    (tenant_id : string) (events : list pydict) (sv : service) : service * http (pydict * Z) :=
  match events with
  | [] => (sv, HTTPException 400 (PStr "Batch ingest requires at least one event"))
  | _ =>
      let mode := default (if transactional then "atomic" else "partial") mode in
      if negb (existsb (String.eqb mode) ["atomic"; "partial"])
      then (sv, HTTPException 400 (PStr ("Invalid mode '" +:+ mode +:+ "'. Expected 'atomic' or 'partial'.")))
      else if String.eqb mode "atomic" then
        let '(sv, r) := _ingest_batch_events_db_atomic (env 0%nat) envs tenant_id events sv in
        (sv, get results <- r;
             Answer (batch_response (length events) (imap (fun k a => (k, fst a, snd a)) results) [] "atomic", 201%Z))
      else
        let '(sv, r) := ingest_each env envs tenant_id 0 events sv in
        (sv, get l <- r;
             Answer (batch_response (length events) (fst l) (snd l) "partial",
                     match snd l, fst l with _ :: _, _ :: _ => 207%Z | _ :: _, [] => 400%Z | [], _ => 201%Z end))
  end.
End Persist.
