(* ===== verification/EpcisSpec.v ===== *)
(** * What the ingestion of EPCIS events promises

    An accepted event has its row in both stores, a refused one leaves no trace but the record of its
    rejection, a batch lands whole or not at all, the gate is not passed over, and the in-memory store
    is bounded and answers a resend with the first answer. *)

From Stdlib Require Import ZArith Lia String Ascii.
From Corelib Require Import SpecFloat.
From stdpp Require Import base list strings relations.
From S2P Require Import Prelude PyStr PyFloat PyVal Json Sha256 Hashing CteStore Rules Enforcement Relational Engine.
From S2P Require Import LotIdentity EpcisExtraction Uom EpcisNormalization CanonicalEvent CanonicalNormalize CanonicalStore EpcisIngest.
From S2P Require Import CanonicalVerify CanonicalProofs CanonicalSpec EpcisPersist.

Local Open Scope string_scope.

Section Spec.
Context `{PL : PyLib} `{RT : Runtime} `{JL : Engine.JsonLib} `{PG : Postgres} `{UL : UrlLib} `{FG : FsmaGate} `{EM : !EventModel}.
Context `{ISO : !IsoReads} `{EJ : !ExactJsonb}.

(** ** The legacy store *)

(** A call finds the event under its key and changes nothing, or adds its row. *)
Lemma store_event_cases e s i s' r : store_event e s i = Ok (s', r) ->
  if sr_idempotent r then s' = s /\ exists row, row ∈ cte_events s /\ cr_id row = sr_event_id r /\ cr_tenant_id row = ei_tenant_id i
  else sr_event_id r = env_uuid e
    /\ exists row, row ∈ cte_events s' /\ cr_id row = env_uuid e /\ cr_tenant_id row = ei_tenant_id i
       /\ cr_tlc row = ei_tlc i /\ PStr (cr_event_type row) = ei_event_type i /\ cr_quantity row = ei_quantity i
       /\ cr_validation_status row = _derive_validation_status (ei_alerts i) (ei_validator_results i).
Proof.
  intros H. unfold store_event in H. apply rbind_Ok_inv in H as ([[ty ts] en] & Hc & H). apply rbind_Ok_inv in H as (key & _ & H).
  destruct (find_by_key _ _ _) as [r0|] eqn:Ef.
  { apply Ok_inv in H as [= <- <-]. cbn. split; [done|]. exists r0. apply List.find_some in Ef as [Hin Hk].
    apply andb_true_iff in Hk as [_ Ht]. by rewrite list_elem_of_In; split_and!; [..|by apply String.eqb_eq]. }
  apply rbind_Ok_inv in H as (sha & _ & H). apply rbind_Ok_inv in H as (u & _ & H).
  apply rbind_Ok_inv in H as (u1 & _ & H). apply rbind_Ok_inv in H as (s1 & Hins & H).
  apply insert_event_new in Hins as [-> _]; [|done].
  assert (Hty : PStr ty = ei_event_type i).
  { unfold checked_inputs in Hc. apply rbind_Ok_inv in Hc as (t & Ht & Hc). apply rbind_Ok_inv in Hc as (d & _ & Hc).
    apply rbind_Ok_inv in Hc as (en' & _ & Hc). apply Ok_inv in Hc as [= <- _ _]. unfold _validate_event_type in Ht.
    destruct (ei_event_type i); try done. by repeat (case_match; try done); apply Ok_inv in Ht as <-. }
  set (row := CteRow _ _ _ _ _ _ _ _ _ _ _ _ _ _ _ _ _ _) in *.
  assert (Hrow : forall s'', cte_events s'' = (cte_events s ++ [row])%list -> exists row, row ∈ cte_events s'' /\ cr_id row = env_uuid e
    /\ cr_tenant_id row = ei_tenant_id i /\ cr_tlc row = ei_tlc i /\ PStr (cr_event_type row) = ei_event_type i
    /\ cr_quantity row = ei_quantity i /\ cr_validation_status row = _derive_validation_status (ei_alerts i) (ei_validator_results i)).
  { intros s'' ->. exists row. split; [apply elem_of_app; right; by left|done]. }
  destruct (String.eqb _ VALIDATION_STATUS_REJECTED).
  - apply Ok_inv in H as [= <- <-]. split; [done|]. by apply Hrow.
  - apply rbind_Ok_inv in H as (s2 & Hk & H). apply rbind_Ok_inv in H as (s3 & Hl & H). apply Ok_inv in H as [= <- <-].
    split; [done|]. apply Hrow. apply insert_kdes_frame in Hk as [Hke _].
    destruct (insert_alerts_frame (env_rejects_alert e) s3 (ei_tenant_id i) (env_uuid e) (ei_alerts i)) as [-> _].
    unfold insert_chain in Hl. rewrite Hke in Hl. by repeat (destruct (existsb _ _) in Hl; try done); apply Ok_inv in Hl as <-.
Qed.

(** A new event was not under its key. *)
Lemma store_event_new_key e s i s' r : store_event e s i = Ok (s', r) -> sr_idempotent r = false ->
  exists ty ts en key, checked_inputs e i = Ok (ty, ts, en)
    /\ compute_idempotency_key ty (ei_tlc i) ts (ei_source i) (ei_kdes i) (ei_location_gln i) (ei_location_name i) = Ok key
    /\ find_by_key s (ei_tenant_id i) key = None.
Proof.
  intros H Hn. unfold store_event in H. apply rbind_Ok_inv in H as ([[ty ts] en] & Hc & H). apply rbind_Ok_inv in H as (key & Hk & H).
  exists ty, ts, en, key. split; [done|]. split; [done|]. destruct (find_by_key _ _ _); [|done].
  apply Ok_inv in H as [= _ <-]. discriminate Hn.
Qed.

Lemma normalized_prepared env env' lossless f data tenant run e :
  normalize_epcis_event env lossless f data tenant run = Ok e -> prepared env' e = Ok e.
Proof.
  unfold normalize_epcis_event. intros (a & _ & E)%rbind_Ok_inv. apply rbind_Ok_inv in E as (c & _ & (sha & key & -> & Hs & _)%prepare_spec).
  unfold prepared. cbn [with_computed ev_sha256_hash]. unfold compute_sha256_hash in Hs. apply rbind_Ok_inv in Hs as (text & _ & Hs). apply Ok_inv in Hs as <-.
  unfold nonempty. by destruct (String.eqb_spec (sha256_hex text) "") as [E|]; [apply hex64_ne in E; [|apply sha256_hex64]|].
Qed.

(** ** The steps of the transaction *)

Lemma mode_same c st st' : mode_of c st = mode_of c st'.
Proof. unfold mode_of, current_mode. by repeat case_match. Qed.

Lemma rejects_same c st st' s : rejects c st s = rejects c st' s.
Proof.
  apply Bool.eq_iff_eq_true. rewrite !rejects_spec. by rewrite (mode_same c st st').
Qed.

(** The verdict that the gate reached. *)
Definition judged (env : event_env) (tenant_id : string) (event : pydict) (w : work) (id : string) (s : EvaluationSummary) : Prop :=
  exists e eng db, normalize_epcis_event (we_limit (ee_writer env)) (ee_lossless env) (ee_pre env) event tenant_id None = Ok e
  /\ id = ev_event_id e
  /\ evaluate_event (ee_pre_call env) (ee_oracle env) (engine_db w) (new_engine None) (rule_facts e) false (Some tenant_id) = Ok (eng, db, s).

Lemma preeval_spec env tenant event w w' r : preeval env tenant event w = (w', r) ->
  (exists g, w' = set_gate w g) /\
  match r with
  | Answer None => mode_of (ee_context env) (w_gate w) = OFF
  | Answer (Some (id, s)) => judged env tenant event w id s
  | _ => True
  end.
Proof.
  unfold preeval. destruct (current_mode (ee_context env) (w_gate w)) as [g mode] eqn:Em.
  assert (Hm : mode_of (ee_context env) (w_gate w) = mode) by (unfold mode_of; by rewrite Em).
  destruct (String.eqb_spec mode OFF) as [->|Hne]; [intros [= <- <-]; eauto|].
  destruct (rbind _ _) as [[id s]|x] eqn:Ev.
  - intros [= <- <-]. split; [eauto|]. apply rbind_Ok_inv in Ev as (e & He & Ev). apply rbind_Ok_inv in Ev as ([[eng db] s'] & Hs & Ev).
    apply Ok_inv in Ev as [= <- <-]. unfold statement in Hs. destruct (ee_outage env); [done|]. by exists e, eng, db.
  - destruct (negb _); [intros [= <- <-]; eauto|]. destruct (is_unmapped x); [intros [= <- <-]; eauto|].
    destruct (handle_preeval_exception _ _ x _) as [g' [u|y]] eqn:Eh; intros [= <- <-]; [|split; [by exists g'|done]].
    exfalso. destruct (preeval_fails_loud (ee_context env) (w_gate (set_gate w g)) x "epcis_persistence") as [Hp _].
    rewrite Eh in Hp. destruct u. apply Hne. rewrite <- Hm, (mode_same _ _ (w_gate (set_gate w g))). by apply Hp.
Qed.

(** The recorded rejection of an event. *)
Definition rejection_of (env : event_env) (tenant_id id : string) (s : EvaluationSummary) (row : rejection_row) : Prop :=
  rj_tenant_id row = tenant_id /\ rj_event_id row = id /\ json_dumps opts_str (PList (reasons_from_summary s)) = Ok (rj_reasons row)
  /\ rj_rule_id row = re_rule_id <$> head (critical_failures s).

Lemma enforce_spec env tenant v w w' r : enforce env tenant v w = (w', r) ->
  w_tx w' = w_tx w /\ w_rules w' = w_rules w /\
  match r with
  | Answer _ => w_rejections w' = w_rejections w
      /\ forall id s, v = Some (id, s) -> rejects (ee_context env) (w_gate w) s = false
  | HTTPException status d => exists id s, v = Some (id, s) /\ rejects (ee_context env) (w_gate w) s = true
      /\ ((status = 422%Z /\ exists row, w_rejections w' = (w_rejections w ++ [row])%list /\ rejection_of env tenant id s row)
          \/ (status = 503%Z /\ w_rejections w' = w_rejections w))
  | Crash _ => False
  end.
Proof.
  unfold enforce. destruct v as [[id s]|]; [|intros [= <- <-]; done].
  pose proof (eq_refl (rejects (ee_context env) (w_gate w) s)) as Hr. unfold rejects in Hr at 2.
  destruct (should_reject (ee_context env) (w_gate w) s) as [g [reject reason]]. cbn [fst snd] in Hr.
  destruct reject; cbn [negb]; [|intros [= <- <-]; split_and!; try done; by intros id' s' [= <- <-]].
  destruct (current_mode _ _) as [g' mode]. destruct (record_rejection _ _ _ _ _ _ _ _ _) as [rows|x] eqn:Erec; intros [= <- <-]; cbn.
  - split_and!; try done. exists id, s. split_and!; try done. left. split; [done|].
    unfold record_rejection in Erec. apply rbind_Ok_inv in Erec as (text & Ht & Erec). destruct (ee_audit_down env); [done|].
    apply Ok_inv in Erec as <-. eexists. split; [reflexivity|]. by split_and!.
  - split_and!; try done. exists id, s. split_and!; try done. by right.
Qed.

Lemma store_legacy_spec env tenant p w w' r : store_legacy env tenant p w = (w', r) ->
  match r with
  | Answer a => exists i legacy, legacy_input tenant p = Ok i /\ store_event (ee_store env) (c_legacy (s_db (w_tx w))) i = Ok (legacy, a)
      /\ w' = set_tables w (Session (set_legacy (s_db (w_tx w)) legacy) (s_pending (w_tx w))) (w_rules w)
  | HTTPException _ _ => False
  | Crash _ => w' = w
  end.
Proof.
  unfold store_legacy. destruct (rbind _ _) as [[legacy a]|x] eqn:E; intros [= <- <-]; [|done].
  apply rbind_Ok_inv in E as (i & Hi & E). apply rbind_Ok_inv in E as (u & _ & E). unfold statement in E. destruct (ee_outage env); [done|].
  by exists i, legacy.
Qed.

(** What follows the canonical row: the rule results under its identifier. *)
Definition rules_of (env : event_env) (tenant_id : string) (verdict : option (string * EvaluationSummary)) (e : TraceabilityEvent) (w : work) : res edb :=
  match verdict with
  | Some (_, Summary _ _ _ _ _ _ _ _ _ (_ :: _) _ as s) => persist_summary (ee_oracle env) (engine_db w) s tenant_id (Some (ev_event_id e))
  | _ => do '(_, db, _) <- evaluate_event (ee_call env) (ee_oracle env) (engine_db w) (new_engine None) (rule_facts e) true (Some tenant_id); Ok db
  end.

Lemma store_canonical_spec env tenant p verdict w w' r : store_canonical env tenant p verdict w = (w', r) ->
  match r with
  | Answer _ => exists e tx res rules, normalize_epcis_event (we_limit (ee_writer env)) (ee_lossless env) (ee_new env) (pe_event p) tenant None = Ok e
      /\ persist_event epcis_writer (ee_writer env) (w_tx w) e = Ok (tx, res)
      /\ rules_of env tenant verdict e (set_tables w tx (w_rules w)) = Ok rules /\ w' = set_tables w tx rules
  | HTTPException _ _ => False
  | Crash _ => w' = w
  end.
Proof.
  unfold store_canonical. destruct (rbind _ _) as [[tx rules]|x] eqn:E; intros [= <- <-]; [|done].
  apply rbind_Ok_inv in E as (e & He & E). apply rbind_Ok_inv in E as (u & _ & E). apply rbind_Ok_inv in E as ([tx' res] & Hp & E).
  apply rbind_Ok_inv in E as (rules' & Hr & E). apply Ok_inv in E as [= <- <-]. unfold statement in Hp. destruct (ee_outage env); [done|].
  by exists e, tx', res, rules'.
Qed.

(** An event that was accepted, and what its transaction holds. *)
Record accepted (env : event_env) (tenant_id : string) (p : prepared_event) (w w' : work) (a : pydict * Z) : Prop := {
  ac_gate : mode_of (ee_context env) (w_gate w) <> OFF ->
    exists id s, judged env tenant_id (pe_event p) w id s /\ rejects (ee_context env) (w_gate w) s = false;
  ac_rejections : w_rejections w' = w_rejections w;
  ac_rows : exists i legacy r, legacy_input tenant_id p = Ok i /\ store_event (ee_store env) (c_legacy (s_db (w_tx w))) i = Ok (legacy, r)
    /\ a = stored_answer p r
    /\ if sr_idempotent r then w_tx w' = w_tx w /\ w_rules w' = w_rules w
       else exists e res, normalize_epcis_event (we_limit (ee_writer env)) (ee_lossless env) (ee_new env) (pe_event p) tenant_id None = Ok e
         /\ persist_event epcis_writer (ee_writer env) (Session (set_legacy (s_db (w_tx w)) legacy) (s_pending (w_tx w))) e = Ok (w_tx w', res)
}.

Lemma set_legacy_same db : set_legacy db (c_legacy db) = db.
Proof. by destruct db. Qed.

(** The outcomes of the write of one event. *)
Lemma persist_outcome env tenant p w w' r : _persist_prepared_event_in_session env tenant p w = (w', r) ->
  match r with
  | Answer a => accepted env tenant p w w' a
  | HTTPException status d => w_rejections w' = w_rejections w
      \/ (status = 422%Z /\ exists id s row, judged env tenant (pe_event p) w id s /\ rejects (ee_context env) (w_gate w) s = true
           /\ w_rejections w' = (w_rejections w ++ [row])%list /\ rejection_of env tenant id s row)
  | Crash _ => w_rejections w' = w_rejections w
  end.
Proof.
  unfold _persist_prepared_event_in_session, ibind.
  destruct (preeval env tenant (pe_event p) w) as [w1 r1] eqn:E1. apply preeval_spec in E1 as [[g ->] Hv].
  destruct r1 as [v|st d|x]; [|intros [= <- <-]; by left|by intros [= <- <-]].
  destruct (enforce env tenant v (set_gate w g)) as [w2 r2] eqn:E2. apply enforce_spec in E2 as (Ht & Hru & H2).
  cbn [set_gate w_gate w_rejections w_tx w_rules] in *.
  destruct r2 as [u|st d|x]; [|intros [= <- <-]|done].
  2: { destruct H2 as (id & s & -> & Hrej & [[-> (row & Hrow & Hof)]|[-> Hrow]]); [|by left]. right. split; [done|]. exists id, s, row.
       split_and!; try done. by rewrite (rejects_same _ _ g). }
  destruct H2 as [Hrows Hpass]. destruct (store_legacy env tenant p w2) as [w3 r3] eqn:E3. apply store_legacy_spec in E3.
  destruct r3 as [sr|st d|x]; [|done|intros [= <- <-]; by subst w3].
  destruct E3 as (i & legacy & Hi & Hs & ->). rewrite Ht in Hs.
  assert (Hgate : mode_of (ee_context env) (w_gate w) <> OFF ->
    exists id s, judged env tenant (pe_event p) w id s /\ rejects (ee_context env) (w_gate w) s = false).
  { intros Hne. destruct v as [[id s]|]; [|done]. exists id, s. split; [done|]. rewrite (rejects_same _ _ g). by eapply Hpass. }
  pose proof (store_event_cases _ _ _ _ _ Hs) as Hc. destruct (sr_idempotent sr) eqn:Eid; cbn [ireturn].
  - intros [= <- <-]. destruct Hc as [-> _]. split; [done|done|]. exists i, (c_legacy (s_db (w_tx w))), sr.
    split_and!; try done. rewrite Eid, Ht, set_legacy_same. cbn. split; [|done]. by destruct (w_tx w).
  - destruct (store_canonical _ _ _ _ _) as [w4 r4] eqn:E4. apply store_canonical_spec in E4.
    destruct r4 as [u'|st d|x]; [|done|intros [= <- <-]; by subst w4].
    destruct E4 as (e & tx & res & rules & He & Hp & _ & ->). intros [= <- <-]. split; [done|done|]. exists i, legacy, sr. split_and!; try done.
    rewrite Eid. exists e, res. split; [done|]. cbn in *. by rewrite Ht in Hp.
Qed.

(** ** The two stores *)

Lemma normalized_tenant env lossless f data tenant run e : normalize_epcis_event env lossless f data tenant run = Ok e -> py_uuid tenant = Ok (ev_tenant_id e).
Proof.
  unfold normalize_epcis_event. intros (a & Ha & E)%rbind_Ok_inv. apply rbind_Ok_inv in E as (c & Hnew & Hprep).
  destruct (normalized_fields _ _ _ _ _ Hnew Hprep) as (_ & _ & _ & _ & _ & _ & _ & _ & -> & _).
  unfold epcis_args in Ha. apply rbind_Ok_inv in Ha as (t & _ & Ha). apply rbind_Ok_inv in Ha as ([tlc g] & _ & Ha).
  destruct (slen tlc <? 3)%nat; [done|]. destruct (negb _); [done|].
  do 2 (apply rbind_Ok_inv in Ha as (? & _ & Ha)). apply rbind_Ok_inv in Ha as (u & Hu & Ha).
  do 3 (apply rbind_Ok_inv in Ha as (? & _ & Ha)). by apply Ok_inv in Ha as <-.
Qed.

(** The event that the transaction normalizes from the document has an aware timestamp, and its KDEs and
    its snapshot come back from the JSONB columns with the texts that are hashed. *)
Definition keeps_hashed (env : event_env) (tenant_id : string) (event : pydict) : Prop :=
  forall e, normalize_epcis_event (we_limit (ee_writer env)) (ee_lossless env) (ee_new env) event tenant_id None = Ok e ->
    aware (ev_event_timestamp e) /\ kdes_return e /\ snapshot_returns e.

Lemma keeps_storable env tenant event e : keeps_hashed env tenant event ->
  normalize_epcis_event (we_limit (ee_writer env)) (ee_lossless env) (ee_new env) event tenant None = Ok e -> storable e.
Proof.
  intros Hk He. destruct (Hk e He) as (Ha & Hkd & Hs). apply (sent_storable (ee_writer env) e); [|by eapply normalized_prepared].
  split; [|split; [done|]].
  - right. unfold normalize_epcis_event in He. apply rbind_Ok_inv in He as (a & _ & He). apply rbind_Ok_inv in He as (c & _ & He). by do 2 eexists.
  - intros e' He'. rewrite (normalized_prepared _ _ _ _ _ _ _ _ He) in He'. by apply Ok_inv in He' as <-.
Qed.

Definition in_legacy_store (tenant_id : string) (payload : pydict) (db : cdb) : Prop :=
  exists row, row ∈ cte_events (c_legacy db) /\ cr_tenant_id row = tenant_id /\ dict_get payload "cte_id" PNone = PStr (cr_id row).

(** The legacy row that the answer names says what was prepared, and the canonical row with the
    identifier and the digest of the normalized event is there under the event's key. *)
Definition in_both_stores (env : event_env) (tenant_id : string) (p : prepared_event) (payload : pydict) (db : cdb) : Prop :=
  (exists row, row ∈ cte_events (c_legacy db) /\ cr_tenant_id row = tenant_id /\ dict_get payload "cte_id" PNone = PStr (cr_id row)
     /\ cr_event_type row = n_event_type (pe_normalized p) /\ cr_tlc row = n_tlc (pe_normalized p) /\ cr_quantity row = PFloat (pe_quantity_value p))
  /\ exists e row, normalize_epcis_event (we_limit (ee_writer env)) (ee_lossless env) (ee_new env) (pe_event p) tenant_id None = Ok e
     /\ py_uuid tenant_id = Ok (ev_tenant_id e) /\ existing db (ev_tenant_id e) (ev_idempotency_key e) = Some row
     /\ tr_event_id row = ev_event_id e /\ tr_sha256_hash row = ev_sha256_hash e.

(** The legacy store has the event under its key. *)
Definition legacy_knows (env : event_env) (tenant_id : string) (p : prepared_event) (db : cdb) : Prop :=
  forall i ty ts en key, legacy_input tenant_id p = Ok i -> checked_inputs (ee_store env) i = Ok (ty, ts, en) ->
    compute_idempotency_key ty (ei_tlc i) ts (ei_source i) (ei_kdes i) (ei_location_gln i) (ei_location_name i) = Ok key ->
    find_by_key (c_legacy db) tenant_id key <> None.

(** What the canonical store has under the event's key the legacy store has under its own.  The two keys
    differ: an event that was sent before under another eventID is excluded. *)
Definition known_alike (env : event_env) (tenant_id : string) (p : prepared_event) (db : cdb) : Prop :=
  forall e, normalize_epcis_event (we_limit (ee_writer env)) (ee_lossless env) (ee_new env) (pe_event p) tenant_id None = Ok e ->
    existing db (ev_tenant_id e) (ev_idempotency_key e) <> None -> legacy_knows env tenant_id p db.

Lemma legacy_input_spec tenant p i : legacy_input tenant p = Ok i ->
  ei_tenant_id i = tenant /\ ei_event_type i = PStr (n_event_type (pe_normalized p)) /\ ei_tlc i = n_tlc (pe_normalized p)
  /\ ei_quantity i = PFloat (pe_quantity_value p).
Proof. unfold legacy_input. intros E. do 5 (apply rbind_Ok_inv in E as (? & _ & E)). by apply Ok_inv in E as <-. Qed.

Lemma steps_legacy skips db db' e : rtc (write_step skips) db db' -> cdb_ok skips db -> e ∈ cte_events (c_legacy db) -> e ∈ cte_events (c_legacy db').
Proof.
  induction 1 as [|db db1 db' H1 _ IH]; intros K He; [done|]. destruct (step_extends _ _ _ (ok_ids _ _ K) H1) as (f & rows & t & entries & Hx).
  apply IH; [by eapply write_step_ok|]. by apply (ex_legacy _ _ _ _ _ _ _ Hx).
Qed.

Lemma both_stores_kept env tenant p payload db db' : rtc (write_step true) db db' -> cdb_ok true db ->
  in_both_stores env tenant p payload db -> in_both_stores env tenant p payload db'.
Proof.
  intros Hs K [(row & Hr & H) (e & c & He & Hu & Hc & Hid & Hsha)]. split; [exists row; split; [by eapply steps_legacy|done]|].
  destruct (steps_existing _ _ _ _ _ _ Hs K Hc) as (c' & Hc' & Ha). injection Ha as Ha1 Ha2 _. exists e, c'. by rewrite Ha1, Ha2.
Qed.
Lemma legacy_kept tenant payload db db' : rtc (write_step true) db db' -> cdb_ok true db ->
  in_legacy_store tenant payload db -> in_legacy_store tenant payload db'.
Proof. intros Hs K (row & Hr & H). exists row. split; [by eapply steps_legacy|done]. Qed.

Lemma legacy_knows_later env tenant p db db' : rtc (write_step true) db db' -> cdb_ok true db ->
  legacy_knows env tenant p db -> legacy_knows env tenant p db'.
Proof.
  intros Hs K Hk i ty ts en key Hi Hc Hkey Hn. pose proof (Hk i ty ts en key Hi Hc Hkey) as Hf. apply Hf.
  destruct (find_by_key (c_legacy db) tenant key) as [row|] eqn:E; [|done]. exfalso.
  unfold find_by_key in E, Hn. apply List.find_some in E as [Hin Hb]. apply list_elem_of_In in Hin.
  apply (steps_legacy _ _ _ _ Hs K) in Hin. apply list_elem_of_In in Hin. pose proof (List.find_none _ _ Hn row Hin) as Hf'. cbn in Hf'. congruence.
Qed.

(** A key that is stored after a canonical write was stored before, or is the event's. *)
Lemma extended_existing skips db db' f r t entries t0 k : extends skips db db' f [r] t entries ->
  existing db' t0 k <> None -> existing db t0 k <> None \/ k = tr_idempotency_key r.
Proof.
  intros [E1 E2 _ _ _ _ _ _ _ _] Hx. destruct (existing db' t0 k) as [x|] eqn:Ex; [|done]. clear Hx.
  unfold existing in Ex. apply List.find_some in Ex as [Hin Hk]. apply list_elem_of_In in Hin. rewrite E1 in Hin. apply list_elem_of_fmap_1 in Hin as (y & -> & Hy).
  apply same_event_key_iff in Hk as (k' & -> & Hk' & Ht). destruct (permitted_keys _ _ (E2 y Hy)) as (_ & P2 & _ & P4 & _). rewrite P4 in Hk'. rewrite P2 in Ht.
  apply elem_of_app in Hy as [Hy|Hy%list_elem_of_singleton]; [left|subst y; by right].
  unfold existing. intros Hn. apply list_elem_of_In in Hy. pose proof (List.find_none _ _ Hn y Hy) as Hf.
  cbn beta in Hf. assert (Hs : same_key t0 (Some k') y = true) by (apply same_event_key_iff; by exists k'). congruence.
Qed.

(** The canonical store has only the key of this event in addition. *)
Definition adds_key (env : event_env) (tenant_id : string) (p : prepared_event) (db db' : cdb) : Prop :=
  forall t key, existing db' t key <> None -> existing db t key <> None
    \/ exists e, normalize_epcis_event (we_limit (ee_writer env)) (ee_lossless env) (ee_new env) (pe_event p) tenant_id None = Ok e
         /\ key = ev_idempotency_key e.

(** An accepted event goes through the writers of the stores. *)
Lemma accepted_stored env tenant p w w' payload status : accepted env tenant p w w' (payload, status) ->
  alone (ee_writer env) -> keeps_hashed env tenant (pe_event p) -> known_alike env tenant p (s_db (w_tx w)) -> cdb_ok true (s_db (w_tx w)) ->
  rtc (write_step true) (s_db (w_tx w)) (s_db (w_tx w')) /\ adds_key env tenant p (s_db (w_tx w)) (s_db (w_tx w'))
  /\ ((status = 201%Z /\ in_both_stores env tenant p payload (s_db (w_tx w')))
      \/ (status = 200%Z /\ w_tx w' = w_tx w /\ w_rules w' = w_rules w /\ in_legacy_store tenant payload (s_db (w_tx w)))).
Proof.
  intros [_ _ (i & legacy & r & Hi0 & Hs & Ha & Hrest)] Halone Hk Hknown K. pose proof (legacy_input_spec _ _ _ Hi0) as (Ht & Hty & Htlc & Hq).
  pose proof (store_event_cases _ _ _ _ _ Hs) as Hc. unfold stored_answer in Ha.
  destruct (sr_idempotent r) eqn:Eid; injection Ha as -> ->.
  - destruct Hrest as [-> ->]. destruct Hc as [_ (row & Hrow & Hid & Htr)]. split; [done|]. split; [by intros t key ?; left|]. right. split_and!; try done.
    exists row. by rewrite Htr, Hid.
  - destruct Hrest as (e & res & He & Hp).
    assert (Hnew : existing (s_db (w_tx w)) (ev_tenant_id e) (ev_idempotency_key e) = None).
    { destruct (existing (s_db (w_tx w)) (ev_tenant_id e) (ev_idempotency_key e)) eqn:Ex; [|done]. exfalso.
      destruct (store_event_new_key _ _ _ _ _ Hs Eid) as (ty & ts & en & key & H1 & H2 & H3). rewrite Ht in H3.
      by apply (Hknown e He ltac:(by rewrite Ex) i ty ts en key Hi0 H1 H2). }
    pose proof (keeps_storable _ _ _ _ Hk He) as Hst.
    assert (Hst1 : write_step true (s_db (w_tx w)) (set_legacy (s_db (w_tx w)) legacy)) by by eapply step_legacy.
    assert (K1 : cdb_ok true (set_legacy (s_db (w_tx w)) legacy)) by by eapply write_step_ok.
    assert (Hprep : prepared (ee_writer env) e = Ok e) by by eapply normalized_prepared.
    assert (Hst' : forall e', prepared (ee_writer env) e = Ok e' -> storable e').
    { intros e' He'. rewrite Hprep in He'. by apply Ok_inv in He' as <-. }
    assert (Hst2 : write_step true (set_legacy (s_db (w_tx w)) legacy) (s_db (w_tx w'))).
    { by eapply (step_event true epcis_writer (ee_writer env) (Session (set_legacy (s_db (w_tx w)) legacy) (s_pending (w_tx w)))). }
    destruct (persisted_existing true epcis_writer (ee_writer env) (Session (set_legacy (s_db (w_tx w)) legacy) (s_pending (w_tx w))) e e _ res K1 Halone Hprep Hst Hp)
      as (c & Hcx & _ & Hans).
    destruct (persist_event_outcome epcis_writer (ee_writer env) (Session (set_legacy (s_db (w_tx w)) legacy) (s_pending (w_tx w))) e _ res
      (ok_ids _ _ K1) Halone Hst' Hp) as (e' & He' & Hout). rewrite Hprep in He'. apply Ok_inv in He' as <-.
    cbn [s_db] in Hout. change (existing (set_legacy (s_db (w_tx w)) legacy)) with (existing (s_db (w_tx w))) in Hout. rewrite Hnew in Hout.
    destruct Hout as (r' & h & f & Hout). cbn zeta in Hout. destruct (next_of_head _) as [prev next].
    destruct Hout as (Hr' & _ & _ & Hext & _ & _ & _ & Hres). destruct (params_fields _ _ _ Hr') as (_ & _ & _ & _ & F5 & _).
    split; [by eapply rtc_l; [exact Hst1|apply rtc_once, Hst2]|]. split.
    { intros t key Hx. apply (extended_existing _ _ _ _ _ _ _ _ _ Hext) in Hx as [Hx| ->]; [by left|right]. exists e. by rewrite F5. }
    left. split; [done|]. destruct Hc as (Hid & row & Hrow & Hrid & Htr & Htlc' & Hty' & Hq' & _). split.
    + exists row. split; [|rewrite Htr, Htlc', Hq', Hrid, <- Hid; split_and!; try done; rewrite Hty in Hty'; by injection Hty' as ->].
      apply (steps_legacy true (set_legacy (s_db (w_tx w)) legacy)); [by apply rtc_once|done|done].
    + exists e, c. rewrite Hres in Hans. injection Hans as Ha1 Ha2 _. split_and!; [done|by eapply normalized_tenant|done..].
Qed.

(** ** Requests *)

Definition tables_unchanged (sv sv' : service) : Prop :=
  sv_db sv' = sv_db sv /\ sv_rules sv' = sv_rules sv /\ sv_queue sv' = sv_queue sv.

Lemma rollback_unchanged sv w : tables_unchanged sv (rollback sv w).
Proof. done. Qed.

(** The transaction of a request commits an accepted event or changes no table. *)
Lemma transaction_outcome {A} env (h : ing A) sv sv' r : transaction env h sv = (sv', r) ->
  match r with
  | Answer a => exists w, h (begin sv) = (w, Answer a) /\ sv' = commit (re_graph env) sv w
  | _ => tables_unchanged sv sv' /\ sv_fallback sv' = sv_fallback sv
  end.
Proof.
  unfold transaction. destruct (h (begin sv)) as [w [a|s d|x]] eqn:E; [destruct (re_commit env)|..]; intros [= <- <-]; [done|by exists w|done..].
Qed.

Lemma single_db_outcome env ev tenant event sv sv' r : _ingest_single_event_db env ev tenant event sv = (sv', r) ->
  match r with
  | Answer a => exists p w, _prepare_event_for_persistence (re_strict env) tenant event = Answer p
      /\ accepted ev tenant p (begin sv) w a /\ sv' = commit (re_graph env) sv w
  | _ => tables_unchanged sv sv' /\ sv_fallback sv' = sv_fallback sv
  end.
Proof.
  unfold _ingest_single_event_db. destruct (_prepare_event_for_persistence _ _ _) as [p|s d|x].
  - destruct (negb _ && _); [by intros [= <- <-]|]. destruct (negb (re_session env)); [by intros [= <- <-]|].
    intros E. pose proof (transaction_outcome _ _ _ _ _ E) as H. destruct r as [a|s d|x]; [|done..].
    destruct H as (w & Hw & ->). exists p, w. split; [done|]. split; [|done]. by apply persist_outcome in Hw.
  - destruct (_ && re_strict env); by intros [= <- <-].
  - by intros [= <- <-].
Qed.

(** C11. Both stores or neither.  The store was written by the code's writers, nobody else commits in
    between ([alone]), the normalized event comes back from its JSONB columns as it was hashed
    ([keeps_hashed]), and the event was not stored before under another eventID: if the canonical store
    has its key, so has the legacy store ([known_alike]).  Then an EPCIS event that is answered as created
    has, after the commit, its legacy row (under the identifier of the answer, with the prepared type,
    lot and quantity) and its canonical row (with the identifier and the digest of the event normalized
    from the document); one that is answered as known has its legacy row and nothing was written;
    whatever else happens (a refusal, a crash at any statement, a failing commit, the in-memory store
    standing in), no table and no message of the graph queue changes.  And the tables stay among those
    that the writers of the stores can produce, so what is proved of these (the chain verifies) keeps
    holding.  An event sent again under another eventID gets a second legacy row only; it is excluded. *)
Theorem epcis_both_stores_or_neither env ev tenant event sv sv' r :
  written true (sv_db sv) -> alone (ee_writer ev) -> keeps_hashed ev tenant event ->
  (forall p, _prepare_event_for_persistence (re_strict env) tenant event = Answer p -> known_alike ev tenant p (sv_db sv)) ->
  _ingest_single_event env ev tenant event sv = (sv', r) ->
  written true (sv_db sv') /\
  match r with
  | Answer (payload, status) =>
      (status = 201%Z /\ sv_fallback sv' = sv_fallback sv
       /\ exists p, _prepare_event_for_persistence (re_strict env) tenant event = Answer p /\ in_both_stores ev tenant p payload (sv_db sv'))
      \/ (status = 200%Z /\ sv_fallback sv' = sv_fallback sv /\ tables_unchanged sv sv' /\ in_legacy_store tenant payload (sv_db sv))
      \/ (re_allow_fallback env = true /\ tables_unchanged sv sv')
  | _ => tables_unchanged sv sv'
  end.
Proof.
  intros Hw Halone Hst Hknown. unfold _ingest_single_event. destruct (_ingest_single_event_db env ev tenant event sv) as [sv1 r1] eqn:E.
  apply single_db_outcome in E. destruct r1 as [[payload status]|s d|x].
  - intros [= <- <-]. destruct E as (p & w & Hp & Hacc & ->). pose proof (prepare_inv _ _ _ _ Hp) as Hf.
    assert (Hev : pe_event p = event) by apply Hf.
    destruct (accepted_stored _ _ _ _ _ _ _ Hacc Halone) as (Hsteps & _ & Hrows); [by rewrite Hev|by apply Hknown|by apply written_ok|].
    split; [unfold written in *; by etrans|]. destruct Hrows as [[-> Hboth]|(-> & Htx & Hru & Hleg)].
    + left. split_and!; try done. by exists p.
    + right. left. split_and!; try done. unfold commit, tables_unchanged. cbn. by rewrite Htx, Hru.
  - intros [= <- <-]. destruct E as [(E1 & E2 & E3) E4]. split; [by rewrite E1|done].
  - destruct E as [(E1 & E2 & E3) E4]. destruct (is_value_error x).
    + destruct (String.eqb _ _); [intros [= <- <-]; by rewrite E1|]. destruct (_ || _); intros [= <- <-]; by rewrite E1.
    + destruct (re_allow_fallback env); cbn [negb]; [|intros [= <- <-]; by rewrite E1].
      destruct (_ingest_single_event_fallback _ _ _ _ _) as [fb r2]. intros [= <- <-]. cbn. rewrite E1. split; [done|].
      destruct r2 as [[payload status]|s d|y]; [right; right|..]; by unfold tables_unchanged; cbn.
Qed.

(** ** The gate *)

(** The verdict that the gate reaches is a function of the state. *)
Lemma judged_fun env tenant event w id s id' s' : judged env tenant event w id s -> judged env tenant event w id' s' -> s = s'.
Proof.
  intros (e & eng & db & He & _ & Hs) (e' & eng' & db' & He' & _ & Hs'). rewrite He in He'. apply Ok_inv in He' as <-.
  rewrite Hs in Hs'. by apply Ok_inv in Hs' as [= _ _ <-].
Qed.

(** One rejection was recorded, of the verdict that was reached. *)
Definition rejection_recorded (env : event_env) (tenant_id : string) (event : pydict) (sv sv' : service) : Prop :=
  exists id s row, judged env tenant_id event (begin sv) id s /\ rejects (ee_context env) (sv_gate sv) s = true
  /\ sv_rejections sv' = (sv_rejections sv ++ [row])%list /\ rejection_of env tenant_id id s row.

Lemma single_db_rejections env ev tenant event sv sv' r : _ingest_single_event_db env ev tenant event sv = (sv', r) ->
  sv_rejections sv' = sv_rejections sv \/ ((exists d, r = HTTPException 422 d) /\ rejection_recorded ev tenant event sv sv').
Proof.
  unfold _ingest_single_event_db. destruct (_prepare_event_for_persistence _ _ _) as [p|s d|x] eqn:Ep.
  - assert (Hev : pe_event p = event) by (apply prepare_inv in Ep; by destruct Ep).
    destruct (negb _ && _); [intros [= <- <-]; by left|]. destruct (negb (re_session env)); [intros [= <- <-]; by left|].
    unfold transaction. destruct (_persist_prepared_event_in_session ev tenant p (begin sv)) as [w o] eqn:E. apply persist_outcome in E.
    destruct o as [a|s d|x].
    + destruct E as [_ Hr _]. destruct (re_commit env); intros [= <- <-]; by left.
    + intros [= <- <-]. destruct E as [E|(-> & id & s' & row & Hj & Hx & Hr & Hof)]; [by left|]. right. split; [by exists d|].
      exists id, s', row. by rewrite <- Hev.
    + intros [= <- <-]. by left.
  - destruct (_ && re_strict env); intros [= <- <-]; by left.
  - intros [= <- <-]. by left.
Qed.

(** C13. The rules are not passed over, on the database path [_ingest_single_event_db] (the in-memory
    store, which a development mode lets stand in for a missing database, consults no rules).  An event
    is written only when the gate is off, or when the gate was consulted and the verdict permits it:
    under [cte_only] no critical rule failed, under [all] the event is not non-compliant (no verdict is
    no rejection).  An event that the verdict rejects changes no table and is not answered as stored.
    Rejections are recorded exactly with a 422 answer, one row with the tenant, the event and the failed
    rules, which outlives the rollback.  The public [_ingest_single_event] adds only the mapping of
    crashes: without the fallback it answers as stored only what this path answers so, and leaves the
    same tables and rejections. *)
Theorem epcis_gate_enforced env ev tenant event sv sv' r :
  _ingest_single_event_db env ev tenant event sv = (sv', r) ->
  (forall a, r = Answer a -> sv_rejections sv' = sv_rejections sv /\
     (mode_of (ee_context ev) (sv_gate sv) = OFF \/
      exists id s, judged ev tenant event (begin sv) id s
        /\ (mode_of (ee_context ev) (sv_gate sv) = CTE_ONLY -> compliant s = None \/ critical_failures s = [])
        /\ (mode_of (ee_context ev) (sv_gate sv) = ALL -> compliant s <> Some false)))
  /\ (forall id s, judged ev tenant event (begin sv) id s -> rejects (ee_context ev) (sv_gate sv) s = true ->
        tables_unchanged sv sv' /\ forall a, r <> Answer a)
  /\ (sv_rejections sv' = sv_rejections sv \/ ((exists d, r = HTTPException 422 d) /\ rejection_recorded ev tenant event sv sv'))
  /\ (re_allow_fallback env = false -> exists r', _ingest_single_event env ev tenant event sv = (sv', r')
        /\ forall a, r' = Answer a -> r = Answer a).
Proof.
  intros E. assert (Hpublic : re_allow_fallback env = false -> exists r', _ingest_single_event env ev tenant event sv = (sv', r')
    /\ forall a, r' = Answer a -> r = Answer a).
  { intros Hoff. unfold _ingest_single_event. rewrite E, Hoff. destruct r as [a|s d|x]; [by eexists..|]. cbn [negb].
    repeat case_match; by eexists. }
  pose proof (single_db_rejections _ _ _ _ _ _ _ E) as Hrej. apply single_db_outcome in E.
  assert (Hgate : forall a, r = Answer a -> mode_of (ee_context ev) (sv_gate sv) <> OFF ->
    exists id s, judged ev tenant event (begin sv) id s /\ rejects (ee_context ev) (sv_gate sv) s = false).
  { intros a -> Hne. destruct E as (p & w & Hp & [Hg _ _] & _). apply prepare_inv in Hp. destruct (Hg Hne) as (id & s & Hj & Hx).
    exists id, s. by rewrite <- (pf_event _ _ _ _ Hp). }
  split_and!; [| |done|done].
  - intros a Ha. split.
    + destruct Hrej as [|[[d Hd] _]]; [done|]. by rewrite Ha in Hd.
    + destruct (String.eqb_spec (mode_of (ee_context ev) (sv_gate sv)) OFF) as [|Hne]; [by left|]. right.
      destruct (Hgate a Ha Hne) as (id & s & Hj & Hx). exists id, s. split; [done|].
      assert (Hno : ~ rejects (ee_context ev) (sv_gate sv) s = true) by by rewrite Hx. rewrite rejects_spec in Hno.
      split; intros Hm; destruct (compliant s) as [[]|]; try done; destruct (critical_failures s); auto; try (exfalso; apply Hno; auto; fail).
      all: left + right; intros ?; apply Hno; auto.
  - intros id s Hj Hx. assert (Hno : forall a, r <> Answer a).
    { intros a Ha. assert (Hne : mode_of (ee_context ev) (sv_gate sv) <> OFF).
      { apply rejects_spec in Hx as [(-> & _)|(-> & _)]; done. }
      destruct (Hgate a Ha Hne) as (id' & s' & Hj' & Hx'). rewrite (judged_fun _ _ _ _ _ _ _ _ Hj' Hj), Hx in Hx'. done. }
    split; [|done]. destruct r as [a|status d|x]; [by destruct (Hno a)|apply E|apply E].
Qed.

(** ** Batches *)

(** The events that are refused before the database, as the answer lists them. *)
Definition refusal (strict : bool) (tenant_id : string) (idx : Z) (event : pydict) : list pyval :=
  match _prepare_event_for_persistence strict tenant_id event with
  | HTTPException s d => [PDict [("index", PInt idx); ("status_code", PInt s); ("detail", d)]]
  | _ => []
  end.
Fixpoint refusals (strict : bool) (tenant_id : string) (idx : Z) (events : list pydict) : list pyval :=
  match events with [] => [] | event :: rest => (refusal strict tenant_id idx event ++ refusals strict tenant_id (idx + 1) rest)%list end.

Definition crashes (strict : bool) (tenant_id : string) (event : pydict) : Prop := exists x, _prepare_event_for_persistence strict tenant_id event = Crash x.

Lemma prepare_all_spec strict tenant idx events :
  match prepare_all strict tenant idx events with
  | Answer (ps, errors) => errors = refusals strict tenant idx events
      /\ (errors = [] -> Forall2 (fun event p => _prepare_event_for_persistence strict tenant event = Answer p) events ps)
  | HTTPException _ _ => False
  | Crash _ => Exists (crashes strict tenant) events
  end.
Proof.
  revert idx. induction events as [|event rest IH]; intros idx; cbn [prepare_all refusals]; [by split|]. specialize (IH (idx + 1)%Z).
  unfold refusal. destruct (_prepare_event_for_persistence strict tenant event) as [p|s d|x] eqn:Ep.
  - destruct (prepare_all strict tenant (idx + 1) rest) as [[ps errors]|s d|x]; cbn; [|done|by apply Exists_cons_tl].
    destruct IH as [-> IH]. split; [done|]. intros He. constructor; auto.
  - destruct (prepare_all strict tenant (idx + 1) rest) as [[ps errors]|s' d'|x]; cbn; [|done|by apply Exists_cons_tl].
    destruct IH as [-> IH]. by split.
  - apply Exists_cons_hd. by exists x.
Qed.

(** The canonical keys of the events, each normalized under its own environment, differ from another. *)
Definition distinct_keys (envs : nat -> event_env) (tenant_id : string) (idx : nat) (events : list pydict) : Prop :=
  forall j k event event' e e', j <> k -> events !! j = Some event -> events !! k = Some event' ->
    normalize_epcis_event (we_limit (ee_writer (envs (idx + j)%nat))) (ee_lossless (envs (idx + j)%nat)) (ee_new (envs (idx + j)%nat)) event tenant_id None = Ok e ->
    normalize_epcis_event (we_limit (ee_writer (envs (idx + k)%nat))) (ee_lossless (envs (idx + k)%nat)) (ee_new (envs (idx + k)%nat)) event' tenant_id None = Ok e' ->
    ev_idempotency_key e <> ev_idempotency_key e'.

Lemma distinct_later (envs : nat -> event_env) tenant idx event events : distinct_keys envs tenant idx (event :: events) -> distinct_keys envs tenant (S idx) events.
Proof.
  intros H j k x x' e e' Hne Hj Hk He He'. apply (H (S j) (S k) x x' e e'); [congruence|done|done|..]; by rewrite Nat.add_succ_r.
Qed.

(** What the canonical store then has of a later event was there before. *)
Lemma known_alike_later (envs : nat -> event_env) tenant idx k p q db db' : rtc (write_step true) db db' -> cdb_ok true db ->
  adds_key (envs idx) tenant p db db' -> (forall e e',
    normalize_epcis_event (we_limit (ee_writer (envs idx))) (ee_lossless (envs idx)) (ee_new (envs idx)) (pe_event p) tenant None = Ok e ->
    normalize_epcis_event (we_limit (ee_writer (envs k))) (ee_lossless (envs k)) (ee_new (envs k)) (pe_event q) tenant None = Ok e' ->
    ev_idempotency_key e <> ev_idempotency_key e') ->
  known_alike (envs k) tenant q db -> known_alike (envs k) tenant q db'.
Proof.
  intros Hs K Ha Hne Hk e' He' Hx. apply (legacy_knows_later _ _ _ _ _ Hs K). destruct (Ha _ _ Hx) as [Hx'|(e & He & Heq)]; [by apply (Hk e')|].
  by destruct (Hne e e' He He').
Qed.

(** One transaction, event by event. *)
Lemma persist_all_outcome envs tenant idx ps w w' answers :
  persist_all envs tenant idx ps w = (w', inl answers) ->
  (forall k, alone (ee_writer (envs k))) -> (forall k p, p ∈ ps -> keeps_hashed (envs k) tenant (pe_event p)) ->
  distinct_keys envs tenant idx (pe_event <$> ps) ->
  (forall k p, ps !! k = Some p -> known_alike (envs (idx + k)%nat) tenant p (s_db (w_tx w))) -> cdb_ok true (s_db (w_tx w)) ->
  rtc (write_step true) (s_db (w_tx w)) (s_db (w_tx w')) /\ length answers = length ps
  /\ forall k p payload status, ps !! k = Some p -> answers !! k = Some (payload, status) ->
       (status = 201%Z /\ in_both_stores (envs (idx + k)%nat) tenant p payload (s_db (w_tx w')))
       \/ (status = 200%Z /\ in_legacy_store tenant payload (s_db (w_tx w'))).
Proof.
  revert idx w answers. induction ps as [|p rest IH]; intros idx w answers; cbn [persist_all].
  { intros [= <- <-] _ _ _ _ _. split_and!; try done. }
  destruct (_persist_prepared_event_in_session (envs idx) tenant p w) as [w1 [[payload status]|s d|x]] eqn:E1; [|done..].
  destruct (persist_all envs tenant (S idx) rest w1) as [w2 [l|f]] eqn:E2; [|done]. intros [= <- <-] Ha Hk Hd Hal K.
  apply persist_outcome in E1. destruct (accepted_stored _ _ _ _ _ _ _ E1 (Ha idx)) as (Hsteps & Hadd & Hrow);
    [by apply Hk; left|by rewrite <- (Nat.add_0_r idx); apply Hal|done|].
  assert (K1 : cdb_ok true (s_db (w_tx w1))) by by eapply steps_ok.
  destruct (IH (S idx) w1 l E2 Ha) as (Hsteps2 & Hlen & Hrows); [by intros k q Hq; apply Hk; right|by eapply distinct_later| |done|].
  { intros k q Hq. rewrite Nat.add_succ_l, <- Nat.add_succ_r.
    apply (known_alike_later envs tenant idx (idx + S k)%nat p q _ _ Hsteps K Hadd); [|by apply (Hal (S k))].
    intros e e' He He'. apply (Hd 0%nat (S k) (pe_event p) (pe_event q) e e'); rewrite ?Nat.add_0_r; try done.
    rewrite list_lookup_fmap. change ((p :: rest) !! S k) with (rest !! k). by rewrite Hq. }
  split; [by etrans|]. split; [by cbn; rewrite Hlen|]. intros [|k] q pl st; cbn.
  - intros [= <-] [= <- <-]. rewrite Nat.add_0_r. destruct Hrow as [[-> Hb]|(-> & Htx & _ & Hl)]; [left|right]; split; try done.
    + by eapply both_stores_kept.
    + rewrite <- Htx in Hl. by eapply legacy_kept.
  - intros Hq Hl. rewrite Nat.add_succ_r. by apply Hrows.
Qed.

(** C12. A batch lands whole or not at all.  The premises are those of a single event, for each of the
    batch: nobody else commits in between, the normalized events come back from their columns as they
    were hashed ([keeps_hashed]), no two events of the batch have one canonical key, and what the
    canonical store knows of them the legacy store knows too ([known_alike]).  When the batch is
    answered, each of its events passed the checks and has, after the one commit, its rows in both
    stores, or was known and has its legacy row; otherwise no table changes.  When some event is refused
    by the checks and none makes them crash (a null extension does, which is not answered with a list),
    the answer is a 400 that lists exactly the refused events, each with its index, status and detail,
    in order, and nothing was written. *)
Theorem epcis_batch_all_or_nothing env envs tenant events sv sv' r :
  written true (sv_db sv) -> (forall k, alone (ee_writer (envs k))) -> (forall k event, event ∈ events -> keeps_hashed (envs k) tenant event) ->
  distinct_keys envs tenant 0 events ->
  (forall k event p, events !! k = Some event -> _prepare_event_for_persistence (re_strict env) tenant event = Answer p ->
     known_alike (envs k) tenant p (sv_db sv)) ->
  _ingest_batch_events_db_atomic env envs tenant events sv = (sv', r) ->
  written true (sv_db sv')
  /\ match r with
     | Answer answers => length answers = length events /\ forall k event payload status,
         events !! k = Some event -> answers !! k = Some (payload, status) ->
         exists p, _prepare_event_for_persistence (re_strict env) tenant event = Answer p
           /\ ((status = 201%Z /\ in_both_stores (envs k) tenant p payload (sv_db sv'))
               \/ (status = 200%Z /\ in_legacy_store tenant payload (sv_db sv')))
     | _ => tables_unchanged sv sv'
     end
  /\ (refusals (re_strict env) tenant 0 events <> [] -> ~ Exists (crashes (re_strict env) tenant) events ->
       sv' = sv /\ r = HTTPException 400 (batch_validation_failed (refusals (re_strict env) tenant 0 events))).
Proof.
  intros Hw Ha Hk Hd Hal. unfold _ingest_batch_events_db_atomic. pose proof (prepare_all_spec (re_strict env) tenant 0 events) as Hp.
  destruct (prepare_all _ _ _ _) as [[ps [|e0 errors]]|s d|x]; [..|done|].
  - destruct Hp as [<- Hp]. specialize (Hp eq_refl).
    destruct (re_session env); cbn [negb].
    2: { intros [= <- <-]. destruct ps; by split_and!. }
    destruct (persist_all envs tenant 0 ps (begin sv)) as [w [answers|[idx f]]] eqn:E; [|by intros [= <- <-]].
    assert (Hout := persist_all_outcome _ _ _ _ _ _ _ E Ha). destruct Hout as (Hsteps & Hlen & Hrows).
    { intros k p (j & Hj)%list_elem_of_lookup. destruct (Forall2_lookup_r _ _ _ _ _ Hp Hj) as (event & He & Hpr).
      apply prepare_inv in Hpr. rewrite (pf_event _ _ _ _ Hpr). apply Hk. by eapply list_elem_of_lookup_2. }
    { replace (pe_event <$> ps) with events; [done|]. clear -Hp. induction Hp as [|event p events ps H _ IH]; [done|].
      cbn. apply prepare_inv in H. by rewrite (pf_event _ _ _ _ H), IH. }
    { intros k p Hp'. destruct (Forall2_lookup_r _ _ _ _ _ Hp Hp') as (event & He & Hpr). by apply (Hal k event). }
    { by apply written_ok. }
    destruct (re_commit env); intros [= <- <-]; [by split_and!|].
    split; [unfold written in *; by etrans|]. split; [|done]. split; [by rewrite Hlen, (Forall2_length _ _ _ Hp)|].
    intros k event payload status He Hans. destruct (Forall2_lookup_l _ _ _ _ _ Hp He) as (p & Hpk & Hpr). exists p. split; [done|]. by apply (Hrows k).
  - destruct Hp as [<- _]. intros [= <- <-]. by split_and!.
  - intros [= <- <-]. by split_and!.
Qed.
End Spec.
