(* ===== verification/EpcisMemory.v ===== *)
(** * The in-memory store of EPCIS events

    What [_ingest_single_event_fallback] of EpcisPersist.v promises over every sequence of calls: each
    tenant has a bounded partition of its own, and a resend is answered with the held record. *)

From Stdlib Require Import ZArith Lia String Ascii.
From stdpp Require Import base list strings sets.
From S2P Require Import Prelude PyStr PyFloat PyVal Json Hashing Uom EpcisExtraction LotIdentity EpcisNormalization EpcisIngest EpcisPersist.

Local Open Scope string_scope.

(** ** Ordered dictionaries *)

Section Dict.
Context {A : Type}.
Implicit Types (d : list (string * A)) (k : string) (v : A).

Lemma od_get_eq k v d : assoc k (od_set k v d) = Some v.
Proof. induction d as [|[k' v'] d IH]; cbn; [by rewrite String.eqb_refl|]. destruct (String.eqb k k') eqn:E; cbn; [by rewrite String.eqb_refl|by rewrite E]. Qed.
Lemma od_get_ne k k' v d : k' <> k -> assoc k' (od_set k v d) = assoc k' d.
Proof.
  intros Hne%String.eqb_neq. induction d as [|[k1 v1] d IH]; cbn; [by rewrite Hne|]. destruct (String.eqb_spec k k1) as [<-|]; cbn; [by rewrite Hne|].
  by destruct (String.eqb k' k1).
Qed.
Lemma od_set_same k v d : assoc k d = Some v -> od_set k v d = d.
Proof. induction d as [|[k' v'] d IH]; cbn; [done|]. destruct (String.eqb_spec k k') as [<-|]; [by intros [= ->]|]. intros H. by rewrite IH. Qed.
Lemma od_set_twice k v v' d : od_set k v (od_set k v' d) = od_set k v d.
Proof.
  induction d as [|[k1 v1] d IH]; cbn; [by rewrite String.eqb_refl|]. destruct (String.eqb_spec k k1); cbn; [by rewrite String.eqb_refl|].
  rewrite (proj2 (String.eqb_neq k k1)) by done. by rewrite IH.
Qed.
Lemma od_get_None k d : assoc k d = None <-> k ∉ fst <$> d.
Proof.
  induction d as [|[k' v'] d IH]; cbn; [split; [intros _; apply not_elem_of_nil|done]|]. rewrite not_elem_of_cons.
  destruct (String.eqb_spec k k') as [<-|]; [split; [done|by intros [[] _]]|]. rewrite IH. tauto.
Qed.
Lemma od_set_new k v d : assoc k d = None -> od_set k v d = (d ++ [(k, v)])%list.
Proof. induction d as [|[k' v'] d IH]; cbn; [done|]. destruct (String.eqb k k'); [done|]. intros H. by rewrite IH. Qed.
Lemma od_pop_None k d : assoc k (od_pop k d) = None.
Proof. unfold od_pop. induction d as [|[k' v'] d IH]; cbn; [done|]. destruct (String.eqb k k') eqn:E; cbn; [done|by rewrite E]. Qed.
Lemma od_pop_sub k d e : e ∈ od_pop k d -> e ∈ d.
Proof. unfold od_pop. rewrite !list_elem_of_In. intros [? _]%List.filter_In. done. Qed.
Lemma od_pop_length k d : (length (od_pop k d) <= length d)%nat.
Proof. apply List.filter_length_le. Qed.
Lemma od_get_elem k v d : assoc k d = Some v -> (k, v) ∈ d.
Proof. induction d as [|[k' v'] d IH]; cbn; [done|]. destruct (String.eqb_spec k k') as [<-|]; [intros [= ->]; by left|]. intros H. right. by apply IH. Qed.

(** What is put last is kept. *)
Lemma evict_new cap k v d d' : (1 <= cap)%Z -> assoc k d = None -> evict cap (od_set k v d) = Ok d' ->
  assoc k d' = Some v /\ (length d' <= Z.to_nat cap)%nat /\ forall e, e ∈ d' -> e ∈ d \/ e = (k, v).
Proof.
  intros Hc Hk. rewrite (od_set_new _ _ _ Hk). unfold evict. destruct (Z.ltb_spec cap 0); [lia|]. intros [= <-]%Ok_inv.
  rewrite length_app. cbn [length]. set (n := (length d + 1 - Z.to_nat cap)%nat). assert (Hn : (n <= length d)%nat) by lia.
  rewrite drop_app_le by done. split; [|split].
  - apply od_get_None in Hk. clear -Hk. assert (Hd : k ∉ fst <$> drop n d).
    { intros (e & -> & He)%list_elem_of_fmap. apply Hk. apply list_elem_of_fmap_2. rewrite <- (take_drop n d). apply elem_of_app. by right. }
    apply od_get_None in Hd. revert Hd. generalize (drop n d) as l. induction l as [|[k' v'] l IH]; cbn; [by rewrite String.eqb_refl|].
    destruct (String.eqb k k'); [done|]. done.
  - rewrite length_app, length_drop. cbn. lia.
  - intros e [He|He%list_elem_of_singleton]%elem_of_app; [left|by right].
    rewrite <- (take_drop n d). apply elem_of_app. by right.
Qed.
End Dict.

Lemma partition_eq {A} t (p : list (string * A)) d : partition t (od_set t p d) = p.
Proof. unfold partition. by rewrite od_get_eq. Qed.
Lemma partition_ne {A} t t' (p : list (string * A)) d : t' <> t -> partition t' (od_set t p d) = partition t' d.
Proof. intros H. unfold partition. by rewrite od_get_ne. Qed.

Section Memory.
Context `{PL : PyLib} `{UL : UrlLib} `{FG : FsmaGate}.

(** A partition is bounded, its records are the tenant's own under their identifiers, and no
    identifier is empty. *)
Definition partition_ok (cap : Z) (fb : fallback) (t : string) : Prop :=
  (length (partition t (_epcis_store fb)) <= Z.to_nat cap)%nat /\ (length (partition t (_epcis_idempotency_index fb)) <= Z.to_nat cap)%nat
  /\ (forall id r, (id, r) ∈ partition t (_epcis_store fb) -> st_id r = id /\ st_tenant_id r = t)
  /\ (forall k id, (k, id) ∈ partition t (_epcis_idempotency_index fb) -> id <> "").

(** The states that calls of the service with fresh identifiers lead to. *)
Inductive serving (cap : Z) : fallback -> Prop :=
| serve_start : serving cap (Fallback [] [])
| serve_call env strict t event fb fb' r :
    serving cap fb -> fe_cap env = cap -> fe_uuid env <> "" -> assoc (fe_uuid env) (partition t (_epcis_store fb)) = None ->
    _ingest_single_event_fallback env strict t event fb = (fb', r) -> serving cap fb'.

Lemma record_fields env strict t event key r : fallback_record env strict t event key = Answer r ->
  st_id r = fe_uuid env /\ st_tenant_id r = t /\ st_idempotency_key r = key /\ st_document r = event
  /\ (strict = true -> st_fsma_status r = "passed").
Proof.
  unfold fallback_record. intros (n & _ & E)%hbind_Answer. apply hbind_Answer in E as (kdes & _ & E). apply hbind_Answer in E as (u & _ & E).
  apply hbind_Answer in E as (w & _ & E). destruct (_validate_as_fsma_event n (Some t)); destruct strict; cbn in E; try done; by injection E as <-.
Qed.

(** The other tenants' partitions. *)
Definition others_same (t : string) (fb fb' : fallback) : Prop :=
  forall t', t' <> t -> partition t' (_epcis_store fb') = partition t' (_epcis_store fb)
    /\ partition t' (_epcis_idempotency_index fb') = partition t' (_epcis_idempotency_index fb).

(** The record is held under the key of the event, with both dictionaries of the tenant in place. *)
Definition held (t : string) (event : pydict) (id : string) (r : stored) (fb : fallback) : Prop :=
  _validate_epcis event = [] /\ exists key store idx, _event_idempotency_key event = Ok key
  /\ assoc t (_epcis_store fb) = Some store /\ assoc t (_epcis_idempotency_index fb) = Some idx
  /\ assoc key idx = Some id /\ id <> "" /\ assoc id store = Some r.

Lemma held_answer env strict t event i r fb : held t event i r fb ->
  _ingest_single_event_fallback env strict t event fb = (fb, Answer (known_answer i r)).
Proof.
  intros (Hv & key & store & idx & Hk & Hs & Hi & Hid & Hne & Hr). unfold _ingest_single_event_fallback. rewrite Hv, Hk.
  unfold partition. rewrite Hs, Hi. cbn [default from_option id]. rewrite Hid. apply String.eqb_neq in Hne. rewrite Hne, Hr. cbn.
  rewrite (od_set_same _ _ _ Hs), (od_set_same _ _ _ Hi). by destruct fb.
Qed.

(** One call. *)
Lemma fallback_call cap env strict t event fb fb' r :
  (1 <= cap)%Z -> (forall t', partition_ok cap fb t') -> fe_cap env = cap -> fe_uuid env <> "" ->
  assoc (fe_uuid env) (partition t (_epcis_store fb)) = None ->
  _ingest_single_event_fallback env strict t event fb = (fb', r) ->
  (forall t', partition_ok cap fb' t') /\ others_same t fb fb'
  /\ forall payload status, r = Answer (payload, status) -> exists id rec, held t event id rec fb' /\ dict_get payload "cte_id" PNone = PStr id.
Proof.
  intros Hcap Hok Hec Hne Hfresh E. unfold _ingest_single_event_fallback in E.
  destruct (_validate_epcis event) eqn:Ev; [|injection E as <- <-; by split_and!].
  destruct (_event_idempotency_key event) as [key|x] eqn:Ek; [|injection E as <- <-; by split_and!].
  destruct (Hok t) as (Hls & Hli & Hrec & Hids).
  set (store := partition t (_epcis_store fb)) in *. set (idx := partition t (_epcis_idempotency_index fb)) in *.
  assert (Hoth : forall p q, others_same t fb (Fallback (od_set t p (_epcis_store fb)) (od_set t q (_epcis_idempotency_index fb)))).
  { intros p q t' Ht'. by split; apply partition_ne. }
  assert (Hnew : forall p q, (length p <= Z.to_nat cap)%nat -> (length q <= Z.to_nat cap)%nat ->
    (forall id r, (id, r) ∈ p -> st_id r = id /\ st_tenant_id r = t) -> (forall k id, (k, id) ∈ q -> id <> "") ->
    forall t', partition_ok cap (Fallback (od_set t p (_epcis_store fb)) (od_set t q (_epcis_idempotency_index fb))) t').
  { intros p q Hp Hq Hr Hi t'. unfold partition_ok. cbn [_epcis_store _epcis_idempotency_index]. destruct (String.eqb_spec t' t) as [->|Ht']; [by rewrite !partition_eq|].
    rewrite !partition_ne by done. apply Hok. }
  set (found := match assoc key idx with Some id => _ | None => None end) in E.
  destruct found as [[id rec]|] eqn:Ef.
  - injection E as <- <-. split; [by apply Hnew|]. split; [by apply Hoth|]. intros payload status [= <- <-]. exists id, rec. split; [|done].
    split; [done|]. exists key, store, idx. cbn. rewrite !od_get_eq. subst found. destruct (assoc key idx) as [id'|]; [|done].
    destruct (String.eqb_spec id' ""); [done|]. destruct (assoc id' store) as [r'|] eqn:Er; [|done]. by injection Ef as -> ->.
  - set (stale := match assoc key idx with Some id => negb (String.eqb id "") | None => false end) in *.
    set (idx1 := if stale then od_pop key idx else idx).
    assert (Hidx1 : assoc key idx1 = None).
    { subst idx1 stale. destruct (assoc key idx) as [id|] eqn:Ea; [|done]. pose proof (Hids _ _ (od_get_elem _ _ _ Ea)) as Hn%String.eqb_neq.
      rewrite Hn. apply od_pop_None. }
    assert (Hl1 : (length idx1 <= Z.to_nat cap)%nat).
    { subst idx1. destruct stale; [|done]. etrans; [apply od_pop_length|done]. }
    assert (Hi1 : forall k id, (k, id) ∈ idx1 -> id <> "").
    { subst idx1. intros k id. destruct stale; [intros ?%od_pop_sub|intros ?]; by eapply Hids. }
    match type of E with context [if stale then ?a else ?b] => set (fb1 := if stale then a else b) in E end.
    assert (Hfb1 : fb1 = Fallback (od_set t store (_epcis_store fb)) (od_set t idx1 (_epcis_idempotency_index fb))).
    { subst fb1 idx1. destruct stale; [|done]. cbn. f_equal. apply od_set_twice. }
    rewrite Hfb1 in E. clear fb1 Hfb1 Ef found.
    destruct (fallback_record env strict t event key) as [rec|s d|x] eqn:Er;
      [|injection E as <- <-; split; [by apply Hnew|]; split; [by apply Hoth|done]..].
    apply record_fields in Er as (R1 & R2 & _). unfold fallback_put in E. cbn [_epcis_store _epcis_idempotency_index] in E. rewrite !partition_eq, Hec in E.
    destruct (evict cap (od_set (fe_uuid env) rec store)) as [store2|x] eqn:E1; [|exfalso; unfold evict in E1; destruct (Z.ltb_spec cap 0); [lia|done]].
    destruct (evict cap (od_set key (fe_uuid env) idx1)) as [idx2|x] eqn:E2; [|exfalso; unfold evict in E2; destruct (Z.ltb_spec cap 0); [lia|done]].
    cbn [rbind] in E. injection E as <- <-.
    apply evict_new in E1 as (G1 & G2 & G3); [|done..]. apply evict_new in E2 as (K1 & K2 & K3); [|done..].
    rewrite !od_set_twice. split; [apply Hnew; try done|split; [by apply Hoth|]].
    + intros id r [Hin|[= -> ->]]%G3; [by apply Hrec|done].
    + intros k id [Hin|[= -> ->]]%K3; [by eapply Hi1|done].
    + intros payload status [= <- <-]. exists (fe_uuid env), rec. split; [|cbn; by rewrite R1]. split; [done|]. exists key, store2, idx2. cbn.
      rewrite !od_get_eq. by split_and!.
Qed.

Lemma serving_ok cap fb : (1 <= cap)%Z -> serving cap fb -> forall t, partition_ok cap fb t.
Proof.
  intros Hc. induction 1 as [|env strict t event fb fb' r _ IH He Hne Hf E].
  - intros t. unfold partition_ok, partition. cbn. split; [lia|]. split; [lia|]. split; intros ? ? H; by apply not_elem_of_nil in H.
  - by eapply fallback_call.
Qed.

(** C18. The in-memory store, whatever was sent to it so far: each tenant's two dictionaries hold at most
    the bound, and only the tenant's own records; a call does not touch the other tenants' ones; and an
    event that was answered is held: sent again it is answered at once with the same identifier and the
    held record, and nothing changes. *)
Theorem fallback_store_promises cap fb env strict t event fb' payload status :
  (1 <= cap)%Z -> serving cap fb -> fe_cap env = cap -> fe_uuid env <> "" -> assoc (fe_uuid env) (partition t (_epcis_store fb)) = None ->
  _ingest_single_event_fallback env strict t event fb = (fb', Answer (payload, status)) ->
  (forall t', partition_ok cap fb' t') /\ others_same t fb fb'
  /\ exists i rec, dict_get payload "cte_id" PNone = PStr i /\ assoc i (partition t (_epcis_store fb')) = Some rec
     /\ forall env2 strict2, _ingest_single_event_fallback env2 strict2 t event fb' = (fb', Answer (known_answer i rec)).
Proof.
  intros Hc Hs He Hne Hf E. destruct (fallback_call cap env strict t event fb fb' _ Hc (serving_ok _ _ Hc Hs) He Hne Hf E) as (H1 & H2 & H3).
  split; [done|]. split; [done|]. destruct (H3 _ _ eq_refl) as (i & rec & Hh & Hid). exists i, rec. split; [done|]. split.
  - destruct Hh as (_ & key & store & idx & _ & Hst & _ & _ & _ & Hr). unfold partition. by rewrite Hst.
  - intros env2 strict2. by apply held_answer.
Qed.
End Memory.

(** ** Witness *)

#[local] Existing Instance demo_lib.
#[local] Instance demo_gate : FsmaGate := {| fsma_event_valid := fun _ _ _ => true |}.

Definition demo_shipping : pydict :=
  [("type", PStr "ObjectEvent"); ("eventTime", PStr "2026-05-01T10:00:00+00:00"); ("action", PStr "ADD");
   ("bizStep", PStr "urn:epcglobal:cbv:bizstep:shipping"); ("ilmd", PDict [("fsma:traceabilityLotCode", PStr "LOT-1")]);
   ("quantityList", PList [PDict [("quantity", PInt 5); ("uom", PStr "CS")]])].
Definition demo_memory : fallback_env := FallbackEnv 1 "u1" "2026-05-01T10:00:01+00:00".

Lemma fallback_store_promises_witness : exists fb' payload i rec,
  _ingest_single_event_fallback demo_memory true "t1" demo_shipping (Fallback [] []) = (fb', Answer (payload, 201%Z))
  /\ dict_get payload "cte_id" PNone = PStr i
  /\ _ingest_single_event_fallback demo_memory true "t1" demo_shipping fb' = (fb', Answer (known_answer i rec)).
Proof.
  destruct (_ingest_single_event_fallback demo_memory true "t1" demo_shipping (Fallback [] [])) as [fb' r] eqn:E.
  pose proof E as E'. vm_compute in E'. injection E' as _ Hr. destruct r as [[payload status]|s d|x]; [|discriminate Hr..].
  destruct (fallback_store_promises 1 (Fallback [] []) demo_memory true "t1" demo_shipping fb' payload status) as (_ & _ & i & rec & Hi & _ & H).
  - lia.
  - apply serve_start.
  - reflexivity.
  - discriminate.
  - reflexivity.
  - exact E.
  - exists fb', payload, i, rec. injection Hr as _ Hstatus. subst status. split; [exact eq_refl|]. split; [exact Hi|apply H].
Defined.
