(* ===== verification/CanonicalEquiv.v ===== *)
(** * A batch is its events one by one

    [persist_events_batch] against the reference: [persist_event] for each event in turn.  Whenever
    the single calls succeed, so does the batch, with the same answers and the same events, chain,
    legacy tables, usage counters and runs.  Links of transformations may differ in the input event they
    name, since the batch writes them when all its events are stored, and messages for the graph are
    staged by the single calls only. *)

From Stdlib Require Import ZArith Lia String Ascii.
From stdpp Require Import base list strings sets relations.
From S2P Require Import Prelude PyStr PyFloat PyVal Json JsonRead Sha256 Hashing Merkle Db Rules Relational CteStore.
From S2P Require Import TraceWalk Billing CanonicalEvent CanonicalStore CanonicalVerify CanonicalProofs CanonicalBatch CanonicalSpec.

Local Open Scope string_scope.

Section Equiv.
Context `{PL : PyLib} `{RT : Runtime} `{PG : Postgres} `{ISO : !IsoReads}.

(** The reference. *)
Fixpoint persist_each (w : writer) (env : wenv) (s : session) (events : list TraceabilityEvent) : res (session * list CanonicalStoreResult) :=
  match events with
  | [] => Ok (s, [])
  | e :: rest =>
      do '(s1, r) <- persist_event w env s e;
      do '(s2, rs) <- persist_each w env s1 rest;
      Ok (s2, r :: rs)
  end.

(** The batch leaves the legacy identifier of its answers open. *)
Definition without_legacy_id (r : CanonicalStoreResult) : CanonicalStoreResult :=
  CanonicalResult (success r) (event_id r) (sha256_hash r) (chain_hash r) (idempotent r) (errors r) None.

(** ** Steps that look at a part of the tables *)

Definition same_legacy (db db2 : cdb) : Prop :=
  cte_events (c_legacy db2) = cte_events (c_legacy db) /\ cte_kdes (c_legacy db2) = cte_kdes (c_legacy db).

Lemma insert_event_local s s2 r s' : cte_events s2 = cte_events s -> cte_kdes s2 = cte_kdes s -> insert_event s r = Ok s' ->
  exists s2', insert_event s2 r = Ok s2' /\ cte_events s2' = cte_events s' /\ cte_kdes s2' = cte_kdes s'
    /\ hash_chain s2' = hash_chain s2 /\ compliance_alerts s2' = compliance_alerts s2.
Proof.
  intros He Hk. unfold insert_event, conflicting, find_by_key. rewrite He. destruct (negb _); [done|].
  destruct (match cr_idempotency_key r with Some _ => _ | None => _ end); [intros E; apply Ok_inv in E as <-; by exists s2|].
  destruct (existsb (fun r' => String.eqb (cr_id r') (cr_id r)) (cte_events s)); [done|]. intros E. apply Ok_inv in E as <-. eexists. split; [done|]. done.
Qed.

Lemma insert_kdes_local s s2 t id kdes s' : cte_events s2 = cte_events s -> cte_kdes s2 = cte_kdes s -> insert_kdes s t id kdes = Ok s' ->
  exists s2', insert_kdes s2 t id kdes = Ok s2' /\ cte_events s2' = cte_events s' /\ cte_kdes s2' = cte_kdes s'
    /\ hash_chain s2' = hash_chain s2 /\ compliance_alerts s2' = compliance_alerts s2.
Proof.
  revert s s2. induction kdes as [|[k v] kdes IH]; intros s s2 He Hk; cbn [insert_kdes].
  - intros E. apply Ok_inv in E as <-. by exists s2.
  - destruct (is_none v); [by apply IH|]. destruct (_jsonify_kde v) as [j|]; [|done]. cbn [rbind].
    destruct (jsonb j) as [column|]; [|done]. cbn [rbind]. intros E. set (r := KdeRow t id k column false) in *.
    assert (Hl : cte_events (insert_kde s2 r) = cte_events (insert_kde s r) /\ cte_kdes (insert_kde s2 r) = cte_kdes (insert_kde s r)
              /\ hash_chain (insert_kde s2 r) = hash_chain s2 /\ compliance_alerts (insert_kde s2 r) = compliance_alerts s2).
    { unfold insert_kde. rewrite Hk. destruct (existsb _ _); cbn; by rewrite ?He, ?Hk. }
    destruct Hl as (L1 & L2 & L3 & L4). destruct (IH _ _ L1 L2 E) as (s2' & H1 & H2 & H3 & H4 & H5). exists s2'. by rewrite H4, H5.
Qed.

Lemma write_legacy_local w e db db2 db' : same_legacy db db2 -> write_legacy w e db = Ok db' ->
  exists db2', write_legacy w e db2 = Ok db2' /\ same_legacy db' db2' /\ compliance_alerts (c_legacy db2') = compliance_alerts (c_legacy db2)
    /\ c_links db2' = c_links db2 /\ c_runs db2' = c_runs db2.
Proof.
  intros [He Hk]. unfold write_legacy, dual_write_legacy. destruct (dual_write w); [|intros E; apply Ok_inv in E as <-; by exists db2].
  intros (s & (s1 & H1 & H2)%rbind_Ok_inv & E)%rbind_Ok_inv. apply Ok_inv in E as <-.
  destruct (insert_event_local _ _ _ _ He Hk H1) as (s1' & -> & E1 & K1 & C1 & A1). cbn [rbind].
  destruct (insert_kdes_local _ _ _ _ _ _ E1 K1 H2) as (s2' & -> & E2 & K2 & C2 & A2). cbn [rbind].
  eexists. split; [done|]. split; [done|]. cbn. by rewrite A2, A1.
Qed.

Lemma append_chain_local db db2 c db' : hash_chain (c_legacy db2) = hash_chain (c_legacy db) -> append_chain db c = Ok db' ->
  exists db2', append_chain db2 c = Ok db2' /\ hash_chain (c_legacy db2') = hash_chain (c_legacy db').
Proof.
  intros Hc. unfold append_chain, unique_sequence. rewrite Hc. destruct (negb _); [|done]. intros E. apply Ok_inv in E as <-.
  eexists. split; [done|]. done.
Qed.

(** Whether the links can be written does not depend on the tables. *)
Definition links_pass (e : TraceabilityEvent) : Prop := forall db, exists db', _create_transformation_links db e = Ok db'.
Lemma links_local db e db' : _create_transformation_links db e = Ok db' -> links_pass e.
Proof.
  unfold links_pass. intros H db2. revert H. unfold _create_transformation_links. destruct (negb _); [by eexists|].
  destruct (dict_get _ _ _) as [| | | | | |[|c codes]|]; try by eexists.
  destruct (input_entries e); [by eexists|done].
Qed.

Lemma links_runs db e db' : _create_transformation_links db e = Ok db' -> c_runs db' = c_runs db.
Proof.
  unfold _create_transformation_links. destruct (negb _); [by intros E; apply Ok_inv in E as <-|].
  destruct (dict_get _ _ _) as [| | | | | |[|c codes]|]; try (by intros E; apply Ok_inv in E as <-).
  intros (es & _ & E)%rbind_Ok_inv. by apply Ok_inv in E as <-.
Qed.

(** ** One new event, in full *)

(** The row can be inserted whatever else is stored. *)
Definition insertable (db : cdb) (r : tr_row) : Prop :=
  row_checked r = true /\ tr_supersedes_event_id r = None
  /\ match tr_ingestion_run_id r with Some id => existsb (fun run => String.eqb (ir_id run) id) (c_runs db) = true | None => True end.

Lemma insertable_references db r : insertable db r -> references_ok db r = true.
Proof. intros (_ & E & H). unfold references_ok. rewrite E. by destruct (tr_ingestion_run_id r). Qed.

Lemma persist_new w env s e0 e s' res : skip_chain_write w = false -> alone env -> prepared env e0 = Ok e -> storable e ->
  ev_supersedes_event_id e = None -> existing (s_db s) (ev_tenant_id e) (ev_idempotency_key e) = None ->
  persist_event w env s e0 = Ok (s', res) ->
  let t := ev_tenant_id e in let '(prev, next) := next_of_head (chain_head (c_legacy (s_db s)) t) in
  let sha := default "" (ev_sha256_hash e) in let h := compute_chain_hash sha prev in let e' := with_chain_hash e h in
  let entry := ChainRow t (ev_event_id e) next sha prev h in
  exists r lg db1, _event_to_params env e' = Ok r /\ insertable (s_db s) r /\ tr_event_id r ∉ (tr_event_id <$> c_events (s_db s))
    /\ write_legacy w e' (s_db s) = Ok lg /\ append_chain (s_db s) entry = Ok db1 /\ links_pass e'
    /\ c_events (s_db s') = (c_events (s_db s) ++ [r])%list
    /\ hash_chain (c_legacy (s_db s')) = (hash_chain (c_legacy (s_db s)) ++ [entry])%list
    /\ same_legacy lg (s_db s') /\ compliance_alerts (c_legacy (s_db s')) = compliance_alerts (c_legacy (s_db s))
    /\ c_usage (s_db s') = c_usage (meter w e' (s_db s)) /\ c_runs (s_db s') = c_runs (s_db s)
    /\ without_legacy_id res = CanonicalResult true (ev_event_id e) (ev_sha256_hash e) (Some h) false [] None.
Proof.
  intros Hskip Hrace He Hst Hsup Hx. unfold persist_event. rewrite He. cbn [rbind]. rewrite Hrace, (st_key e Hst), Hx.
  destruct (next_of_head _) as [prev next]. cbn zeta. unfold reuse_link. rewrite Hskip. cbn [rbind].
  set (h := compute_chain_hash _ prev). set (e' := with_chain_hash e h). set (entry := ChainRow _ _ _ _ _ _).
  intros ([db inserted] & Hi & E)%rbind_Ok_inv. apply insert_spec in Hi as (r & Hr & Hi).
  destruct inserted; [|destruct Hi as (_ & Hne); cbn in Hne; by rewrite Hx in Hne].
  destruct Hi as (-> & Hfresh & _ & Hc & Href). cbn [negb andb] in E. apply rbind_Ok_inv in E as (db' & Ha & E). apply Ok_inv in E as [= <- <-].
  destruct (params_fields _ _ _ Hr) as (F1 & F2 & F3 & _).
  assert (Hsr : tr_supersedes_event_id r = None) by by rewrite (params_supersedes _ _ _ Hr).
  unfold after_insert in Ha. apply rbind_Ok_inv in Ha as (db1 & H1 & Ha). apply rbind_Ok_inv in Ha as (db2 & H2 & Ha).
  apply rbind_Ok_inv in Ha as (db3 & H3 & H4). unfold mark_superseded in H1. cbn [e' with_chain_hash with_computed ev_supersedes_event_id] in H1.
  rewrite Hsup in H1. apply Ok_inv in H1 as <-. rewrite Hskip in H2.
  assert (Hm : c_events (meter w e' (set_events (s_db s) (c_events (s_db s) ++ [r]))) = (c_events (s_db s) ++ [r])%list
    /\ c_legacy (meter w e' (set_events (s_db s) (c_events (s_db s) ++ [r]))) = c_legacy (s_db s)
    /\ c_runs (meter w e' (set_events (s_db s) (c_events (s_db s) ++ [r]))) = c_runs (s_db s)
    /\ c_usage (meter w e' (set_events (s_db s) (c_events (s_db s) ++ [r]))) = c_usage (meter w e' (s_db s))).
  { unfold meter. by destruct (meter_usage w). }
  revert H2 Hm. generalize (meter w e' (set_events (s_db s) (c_events (s_db s) ++ [r]))) as dm. intros dm H2 (M1 & M2 & M3 & M4).
  unfold _insert_chain_entry in H2. rewrite M1, existsb_app in H2. cbn [existsb] in H2.
  rewrite F1, F2 in H2. cbn [hc_cte_event_id hc_tenant_id entry] in H2. change (ev_tenant_id e') with (ev_tenant_id e) in H2.
  rewrite !String.eqb_refl in H2. cbn [andb orb] in H2. rewrite orb_true_r in H2.
  destruct (append_chain_local dm (s_db s) entry db2 ltac:(by rewrite M2) H2) as (dc & Hdc & _).
  assert (E2 : c_events db2 = c_events dm /\ c_usage db2 = c_usage dm /\ c_runs db2 = c_runs dm
    /\ hash_chain (c_legacy db2) = (hash_chain (c_legacy (s_db s)) ++ [entry])%list
    /\ same_legacy (s_db s) db2 /\ compliance_alerts (c_legacy db2) = compliance_alerts (c_legacy (s_db s))).
  { unfold append_chain in H2. destruct (unique_sequence _ _); [|done]. apply Ok_inv in H2 as <-. unfold same_legacy. cbn. by rewrite M2. }
  destruct E2 as (E2 & U2 & R2 & C2 & [L2 K2] & A2).
  destruct (write_legacy_local w e' db2 (s_db s) db3 (conj (eq_sym L2) (eq_sym K2)) H3) as (lg & Hlg & [L3 K3] & _ & _ & _).
  destruct (write_legacy_local w e' db2 db2 db3 (conj eq_refl eq_refl) H3) as (db3' & Hlg' & _ & A3 & _ & R3).
  rewrite H3 in Hlg'. apply Ok_inv in Hlg' as <-.
  apply write_legacy_frame in H3 as (E3 & U3 & C3 & _). pose proof (links_runs _ _ _ H4) as R4. pose proof (links_local _ _ _ H4) as Hpass.
  apply links_frame in H4 as (E4 & Lg4 & U4).
  assert (Hsync : forall s1, s_db (stage_graph_sync env e' s1) = s_db s1) by (intros s1; unfold stage_graph_sync; by destruct (we_neo4j env)).
  rewrite Hsync. cbn [s_db]. exists r, lg, dc. split; [done|]. split.
  { split; [done|]. split; [done|]. unfold references_ok in Href. rewrite Hsr in Href. by destruct (tr_ingestion_run_id r). }
  do 4 (split; [done|]). unfold same_legacy. rewrite Lg4, E4, U4, R4. split; [by rewrite E3, E2, M1|].
  split; [by rewrite C3, C2|]. split; [by rewrite L3, K3|]. split; [by rewrite A3|]. split; [by rewrite U3, U2|]. by rewrite R3, R2, M3.
Qed.

(** ** The plan follows the single calls *)

Lemma each_event_snoc f l e db : each_event f (l ++ [e]) db = do db' <- each_event f l db; f e db'.
Proof.
  revert db. induction l as [|x l IH]; intros db; cbn [each_event app]; [cbn [rbind]; by destruct (f e db)|].
  destruct (f x db) as [db1|]; [|done]. cbn [rbind]. apply IH.
Qed.

Lemma batch_chain_snoc l c db : _batch_insert_chain_entries db (l ++ [c]) = do db' <- _batch_insert_chain_entries db l; append_chain db' c.
Proof.
  revert db. induction l as [|x l IH]; intros db; cbn [_batch_insert_chain_entries app]; [cbn [rbind]; by destruct (append_chain db c)|].
  destruct (append_chain db x) as [db1|]; [|done]. cbn [rbind]. apply IH.
Qed.

(** The lookup in the map of stored keys. *)
Definition planned_answer (p : plan) (k : string) : option (string * option string * option string) :=
  snd <$> List.find (fun x => String.eqb (fst x) k) (pl_existing p).

Lemma preflight_answer db t events e k : e ∈ events -> nonempty (ev_idempotency_key e) = Some k ->
  snd <$> List.find (fun x => String.eqb (fst x) k) (preflight db t events) = answer_of <$> existing db t (Some k).
Proof.
  intros He Hk. unfold preflight. assert (Hin : k ∈ omap (fun e => nonempty (ev_idempotency_key e)) events) by (apply list_elem_of_omap; by exists e).
  revert Hin. generalize (omap (fun e => nonempty (ev_idempotency_key e)) events) as ks. clear e events He Hk.
  intros ks Hin. assert (H : existing db t (Some k) = None \/ k ∈ ks) by by right. clear Hin.
  induction ks as [|k0 ks IH]; cbn.
  - destruct H as [->|[]%not_elem_of_nil]. done.
  - assert (IH' : k <> k0 -> snd <$> List.find (fun x => String.eqb (fst x) k) (omap (fun k => (fun r => (k, (tr_event_id r, tr_sha256_hash r, tr_chain_hash r)))
        <$> existing db t (Some k)) ks) = answer_of <$> existing db t (Some k)).
    { intros Hne. apply IH. destruct H as [?|[?|?]%elem_of_cons]; auto; done. }
    destruct (String.eqb_spec k0 k) as [->|Hne].
    + destruct (existing db t (Some k)) as [r|] eqn:Ex; cbn; [by rewrite String.eqb_refl|]. apply IH. by left.
    + destruct (existing db t (Some k0)) as [r|]; cbn; [rewrite (proj2 (String.eqb_neq k0 k) Hne)|]; apply IH'; congruence.
Qed.

Record simulated (w : writer) (env : wenv) (t : string) (events : list TraceabilityEvent) (s sk : session) (p : plan)
    (rs : list CanonicalStoreResult) : Prop := {
  sm_rows : exists rows, rmapM (_event_to_params env) (pl_new p) = Ok rows /\ c_events (s_db sk) = (c_events (s_db s) ++ rows)%list
              /\ Forall (insertable (s_db s)) rows;
  sm_chain : hash_chain (c_legacy (s_db sk)) = (hash_chain (c_legacy (s_db s)) ++ pl_entries p)%list;
  sm_append : forall db, hash_chain (c_legacy db) = hash_chain (c_legacy (s_db s)) ->
                exists db', _batch_insert_chain_entries db (pl_entries p) = Ok db';
  sm_legacy : forall db, same_legacy (s_db s) db -> exists db', each_event (write_legacy w) (pl_new p) db = Ok db' /\ same_legacy (s_db sk) db'
                /\ compliance_alerts (c_legacy db') = compliance_alerts (c_legacy db) /\ c_runs db' = c_runs db;
  sm_alerts : compliance_alerts (c_legacy (s_db sk)) = compliance_alerts (c_legacy (s_db s));
  sm_links : Forall links_pass (pl_new p);
  sm_usage : c_usage (s_db sk) = c_usage (fold_left (fun db e => meter w e db) (pl_new p) (s_db s));
  sm_runs : c_runs (s_db sk) = c_runs (s_db s);
  sm_head : (pl_prev p, pl_next p) = next_of_head (chain_head (c_legacy (s_db sk)) t);
  sm_keys : forall e k, e ∈ events -> ev_idempotency_key e = Some k -> planned_answer p k = answer_of <$> existing (s_db sk) t (Some k);
  sm_results : pl_results p = without_legacy_id <$> rs
}.

Lemma simulated_start w env s t events : Forall storable events ->
  simulated w env t events s s (Plan (preflight (s_db s) t events) (fst (next_of_head (chain_head (c_legacy (s_db s)) t)))
    (snd (next_of_head (chain_head (c_legacy (s_db s)) t))) [] [] []) [].
Proof.
  intros Hst. split; cbn [pl_new pl_entries pl_results pl_existing pl_prev pl_next fold_left]; try done.
  - exists []. rewrite app_nil_r. done.
  - by rewrite app_nil_r.
  - intros db _. by exists db.
  - intros db Hdb. by exists db.
  - intros e k He Hk. apply preflight_answer with e; [done|]. rewrite Forall_forall in Hst.
    destruct (truthy_nonempty _ (st_key e (Hst e He))) as (k' & Hk1 & Hk2). rewrite Hk in Hk1. by injection Hk1 as <-.
Qed.

(** The head after a link was appended. *)
Lemma next_after s s' t c : linked 1 None (chain_of t s') -> hash_chain s' = (hash_chain s ++ [c])%list -> hc_tenant_id c = t ->
  next_of_head (chain_head s' t) = (Some (hc_chain_hash c), (hc_sequence_num c + 1)%Z).
Proof.
  intros Hl Hc Ht. rewrite chain_head_linked by done. rewrite (chain_extended s s' [c] t t Hc) by by constructor.
  by rewrite String.eqb_refl, last_snoc.
Qed.

(** The two branches of the plan. *)
Lemma plan_event_known t p e k a : ev_idempotency_key e = Some k -> storable e -> planned_answer p k = Some a ->
  plan_event t p e = Plan (pl_existing p) (pl_prev p) (pl_next p)
    (pl_results p ++ [CanonicalResult true a.1.1 a.1.2 a.2 true [] None]) (pl_new p) (pl_entries p).
Proof.
  intros Hk Hst Ha. destruct (truthy_nonempty _ (st_key e Hst)) as (k' & Hk' & Hn). rewrite Hk in Hk'. injection Hk' as <-.
  unfold plan_event. unfold planned_answer in Ha. rewrite Hn, Ha. by destruct a as [[? ?] ?].
Qed.

Lemma plan_event_new t p e k : ev_idempotency_key e = Some k -> storable e -> planned_answer p k = None ->
  let sha := default "" (ev_sha256_hash e) in let h := compute_chain_hash sha (pl_prev p) in
  plan_event t p e = Plan ((k, (ev_event_id e, ev_sha256_hash e, Some h)) :: pl_existing p) (Some h) (pl_next p + 1)
    (pl_results p ++ [CanonicalResult true (ev_event_id e) (ev_sha256_hash e) (Some h) false [] None])
    (pl_new p ++ [with_chain_hash e h]) (pl_entries p ++ [ChainRow t (ev_event_id e) (pl_next p) sha (pl_prev p) h]).
Proof.
  intros Hk Hst Ha. destruct (truthy_nonempty _ (st_key e Hst)) as (k' & Hk' & Hn). rewrite Hk in Hk'. injection Hk' as <-.
  unfold plan_event. unfold planned_answer in Ha. by rewrite Hn, Ha.
Qed.

Lemma simulated_step w env t events s sk p rs e0 e sk' res :
  simulated w env t events s sk p rs -> skip_chain_write w = false -> alone env -> prepared env e0 = Ok e -> storable e ->
  ev_tenant_id e = t -> ev_supersedes_event_id e = None -> e ∈ events -> linked 1 None (chain_of t (c_legacy (s_db sk'))) ->
  persist_event w env sk e0 = Ok (sk', res) -> simulated w env t events s sk' (plan_event t p e) (rs ++ [res]).
Proof.
  intros S Hskip Ha He Hst Ht Hsup Hin Hl Hp. destruct (truthy_nonempty _ (st_key e Hst)) as (k & Hk & _).
  pose proof (sm_keys _ _ _ _ _ _ _ _ S e k Hin Hk) as Hans. destruct (existing (s_db sk) t (Some k)) as [row|] eqn:Ex; cbn in Hans.
  - rewrite (plan_event_known _ _ _ _ _ Hk Hst Hans). unfold persist_event in Hp. rewrite He in Hp. cbn [rbind] in Hp.
    rewrite (st_key e Hst), Hk, Ht, Ex in Hp. apply Ok_inv in Hp as [= <- <-]. destruct S. split; try done.
    cbn. rewrite fmap_app. by f_equal.
  - rewrite (plan_event_new _ _ _ _ Hk Hst Hans). rewrite <- Hk, <- Ht in Ex. pose proof (persist_new _ _ _ _ _ _ _ Hskip Ha He Hst Hsup Ex Hp) as H.
    cbn zeta in H. rewrite Ht, <- (sm_head _ _ _ _ _ _ _ _ S) in H.
    destruct H as (r & lg & db1 & Hr & Hi & Hfresh & Hlg & Happ & Hpass & N1 & N2 & [N3 N4] & N5 & N6 & N7 & N8).
    set (h := compute_chain_hash (default "" (ev_sha256_hash e)) (pl_prev p)) in *. set (e' := with_chain_hash e h) in *.
    set (entry := ChainRow _ _ _ _ _ _) in *. destruct S as [(rows & S1 & S2 & S3) S4 S5 S6 S7 S8 S9 S10 S11 S12 S13].
    destruct (params_fields _ _ _ Hr) as (F1 & F2 & F3 & F4 & F5 & _).
    split; cbn [pl_new pl_entries pl_results pl_existing pl_prev pl_next].
    + exists (rows ++ [r])%list. split; [apply rmapM_join; exists rows, [r]; split; [done|]; split; [cbn [rmapM]; by rewrite Hr|done]|].
      split; [by rewrite N1, S2, app_assoc|]. apply Forall_app. split; [done|]. constructor; [|constructor].
      unfold insertable in *. by rewrite S10 in Hi.
    + by rewrite N2, S4, app_assoc.
    + intros db Hdb. rewrite batch_chain_snoc. destruct (S5 db Hdb) as (db' & Hdb'). rewrite Hdb'. cbn [rbind].
      apply batch_chain_spec in Hdb'. destruct (append_chain_local (s_db sk) db' entry db1) as (d & Hd & _); [|done|by exists d].
      rewrite Hdb'. cbn. by rewrite Hdb, S4.
    + intros db Hdb. rewrite each_event_snoc. destruct (S6 db Hdb) as (db' & -> & Hsame & A' & R'). cbn [rbind].
      destruct (write_legacy_local _ _ _ _ _ Hsame Hlg) as (d & -> & [D1 D2] & D3 & _ & D4). exists d. split; [done|].
      split; [unfold same_legacy; by rewrite D1, D2, N3, N4|]. by rewrite D3, D4.
    + by rewrite N5.
    + apply Forall_app. split; [done|]. by repeat constructor.
    + rewrite N6, fold_left_app. cbn [fold_left]. by apply (usage_fold w [e']).
    + by rewrite N7.
    + by rewrite (next_after _ _ _ entry Hl N2).
    + intros e1 k1 He1 Hk1. specialize (S12 e1 k1 He1 Hk1). unfold planned_answer in *. cbn [pl_existing List.find fst].
      assert (Hx : existing (s_db sk') t (Some k1)
                   = match existing (s_db sk) t (Some k1) with Some x => Some x | None => List.find (same_key t (Some k1)) [r] end).
      { rewrite <- existing_app. unfold existing. by rewrite N1. }
      rewrite Hx. cbn [List.find]. unfold same_key. rewrite F5, F2. cbn [e' with_chain_hash with_computed ev_idempotency_key ev_tenant_id].
      rewrite Hk, Ht, String.eqb_refl. destruct (String.eqb_spec k k1) as [<-|Hne]; cbn [andb].
      * rewrite <- Hk, <- Ht, Ex. cbn. unfold answer_of. by rewrite F1, F3, F4.
      * rewrite S12. by destruct (existing (s_db sk) t (Some k1)).
    + rewrite S13, fmap_app. cbn [fmap list_fmap]. by rewrite N8.
Qed.

(** The whole sequence. *)
Lemma simulated_each w env t all events0 events s sk p rs s2 rs2 :
  skip_chain_write w = false -> alone env -> rmapM (prepared env) events0 = Ok events ->
  Forall (fun e => storable e /\ ev_tenant_id e = t /\ ev_supersedes_event_id e = None /\ e ∈ all) events ->
  simulated w env t all s sk p rs -> cdb_ok true (s_db sk) ->
  persist_each w env sk events0 = Ok (s2, rs2) ->
  simulated w env t all s s2 (fold_left (plan_event t) events p) (rs ++ rs2) /\ cdb_ok true (s_db s2).
Proof.
  intros Hskip Ha. revert events sk p rs s2 rs2. induction events0 as [|e0 events0 IH]; intros events sk p rs s2 rs2; cbn [rmapM persist_each].
  - intros E _ S K E2. apply Ok_inv in E as <-. apply Ok_inv in E2 as [= <- <-]. by rewrite app_nil_r.
  - intros (e & He & E)%rbind_Ok_inv Hf S K ([sk1 res] & Hp & E2)%rbind_Ok_inv. apply rbind_Ok_inv in E as (events1 & Hev & E).
    apply Ok_inv in E as <-. apply rbind_Ok_inv in E2 as ([s3 rs3] & Hrest & E2). apply Ok_inv in E2 as [= <- <-].
    apply Forall_cons in Hf as [(Hst & Ht & Hsup & Hin) Hf].
    assert (K1 : cdb_ok true (s_db sk1)).
    { eapply write_step_ok; [exact K|]. eapply (step_event true w env sk e0); [done|done| |exact Hp].
      intros e1 He1. rewrite He in He1. by apply Ok_inv in He1 as <-. }
    pose proof (simulated_step _ _ _ _ _ _ _ _ _ _ _ _ S Hskip Ha He Hst Ht Hsup Hin (ok_linked _ _ K1 t) Hp) as S1.
    destruct (IH _ _ _ _ _ _ Hev Hf S1 K1 Hrest) as [S2 K2]. split; [|done]. cbn [fold_left]. by rewrite <- app_assoc in S2.
Qed.

(** ** The batch goes through *)

Lemma place_rows_total db t rows : fresh_rows db t rows -> NoDup (tr_event_id <$> (c_events db ++ rows)%list) ->
  Forall (fun r => row_checked r = true) rows -> place_rows db rows = Ok (set_events db (c_events db ++ rows), rows).
Proof.
  revert db. induction rows as [|r rows IH]; intros db Hf Hd Hc; cbn [place_rows]; [rewrite app_nil_r; by destruct db|].
  destruct (fresh_rows_app db t [r] rows Hf) as [[_ H0] Hf']. apply Forall_singleton in H0 as [Ht He]. apply Forall_cons in Hc as [Hc Hcs].
  assert (Hp : place_row db r = Ok (set_events db (c_events db ++ [r]), true)).
  { unfold place_row. rewrite Hc. cbn [negb]. rewrite <- Ht in He. rewrite (proj1 (existing_none _ _ _) He).
    match goal with |- (if ?b then _ else _) = _ => destruct b eqn:Ei end; [|done]. exfalso.
    apply existsb_exists in Ei as (r' & Hr' & Hid%String.eqb_eq). rewrite fmap_app in Hd. apply NoDup_app in Hd as (_ & Hx & _).
    apply (Hx (tr_event_id r)); [|by left]. rewrite <- Hid. apply list_elem_of_fmap_2. by apply list_elem_of_In. }
  rewrite Hp. cbn [rbind]. rewrite IH; [|done| |done]; cbn [rbind set_events c_events]; by rewrite <- app_assoc.
Qed.

Lemma insert_chunks_total env t ls rows db : rmapM (_event_to_params env) (mjoin ls) = Ok rows -> fresh_rows db t rows ->
  NoDup (tr_event_id <$> (c_events db ++ rows)%list) -> Forall (insertable db) rows ->
  insert_chunks env db ls = Ok (set_events db (c_events db ++ rows), ev_event_id <$> mjoin ls).
Proof.
  revert rows db. induction ls as [|l ls IH]; intros rows db Hr Hf Hd Hi; cbn [insert_chunks].
  - apply Ok_inv in Hr as <-. rewrite app_nil_r. by destruct db.
  - apply rmapM_join in Hr as (rows1 & rows2 & Hr1 & Hr2 & ->). apply fresh_rows_app in Hf as [Hf1 Hf2]. rewrite app_assoc in Hd.
    apply Forall_app in Hi as [Hi1 Hi2]. unfold _batch_insert_canonical_events, insert_rows. rewrite Hr1. cbn [rbind].
    rewrite (place_rows_total db t rows1); [|done| |]; cbn [rbind].
    + assert (Href : forallb (references_ok (set_events db (c_events db ++ rows1))) rows1 = true).
      { apply forallb_forall. intros r Hin%list_elem_of_In. rewrite Forall_forall in Hi1. apply insertable_references. by apply Hi1. }
      rewrite Href. cbn [rbind]. rewrite (IH rows2 _ Hr2 Hf2); cbn [rbind set_events c_events]; [|done|done].
      rewrite <- app_assoc. destruct (params_fresh env db t l rows1 Hr1) as [_ ->]. do 2 f_equal. cbn. by rewrite fmap_app.
    + rewrite fmap_app in Hd. by apply NoDup_app in Hd as (? & _).
    + eapply Forall_impl; [exact Hi1|]. by intros r (? & _).
Qed.

Lemma each_links_total events db : Forall links_pass events -> exists db', each_event (fun e db => _create_transformation_links db e) events db = Ok db'
  /\ c_runs db' = c_runs db.
Proof.
  revert db. induction events as [|e events IH]; intros db; cbn [each_event]; [by exists db|]. intros [He Hf]%Forall_cons.
  destruct (He db) as (db1 & Hdb1). rewrite Hdb1. cbn [rbind]. destruct (IH db1 Hf) as (db2 & -> & R). exists db2.
  by rewrite R, (links_runs _ _ _ Hdb1).
Qed.

Lemma each_meter_runs w events db : c_runs (fold_left (fun db e => meter w e db) events db) = c_runs db.
Proof. revert db. induction events as [|e events IH]; intros db; [done|]. cbn. rewrite IH. unfold meter. by destruct (meter_usage w). Qed.

(** What the single calls leave determines a successful batch. *)
Lemma batch_follows w env s t first others events s2 rs :
  NoDup (tr_event_id <$> c_events (s_db s)) -> NoDup (tr_event_id <$> c_events (s_db s2)) -> alone env ->
  t = ev_tenant_id first -> rmapM (prepared env) (first :: others) = Ok events -> Forall (fun e => storable e /\ ev_tenant_id e = t) events ->
  simulated w env t events s s2 (batch_plan s t events) rs ->
  exists s1, persist_events_batch w env s (first :: others) = Ok (s1, pl_results (batch_plan s t events))
    /\ same_legacy (s_db s2) (s_db s1) /\ compliance_alerts (c_legacy (s_db s1)) = compliance_alerts (c_legacy (s_db s2))
    /\ c_runs (s_db s1) = c_runs (s_db s2).
Proof.
  intros Hd Hd2 Ha -> He Hst S. pose proof (batch_plan_planned s (ev_tenant_id first) events Hst) as HP. set (t := ev_tenant_id first) in *.
  destruct S as [(rows & S1 & S2 & S3) S4 S5 S6 S7 S8 S9 S10 _ _ _].
  assert (Hfr : fresh_rows (s_db s) t rows).
  { apply (params_fresh env _ t _ rows S1). split; [apply (pn_keys _ _ _ _ _ HP)|]. eapply Forall_impl; [apply (pn_new _ _ _ _ _ HP)|].
    by intros e (? & ? & ? & _). }
  assert (Hte : List.find (fun e => negb (String.eqb (ev_tenant_id e) t)) others = None).
  { destruct (List.find _ others) as [e|] eqn:Ef; [|done]. apply find_elem in Ef as [Hin Hne].
    apply list_elem_of_lookup in Hin as [i Hi]. apply rmapM_Forall2 in He. destruct (Forall2_lookup_l _ _ _ (S i) e He Hi) as (e' & He' & Hpe).
    destruct (Forall_lookup_1 _ _ _ _ Hst He') as [_ Ht']. rewrite (prepared_tenant _ _ _ Hpe) in Ht'. by rewrite Ht', String.eqb_refl in Hne. }
  destruct (planned_filters _ _ _ _ _ HP) as (F1 & F2 & F3).
  cbn [persist_events_batch]. fold t. rewrite Hte, He. cbn [rbind]. rewrite Ha.
  revert S1 S4 S5 S6 S8 F1 F2 F3. unfold batch_plan. destruct (next_of_head _) as [prev next].
  set (p := fold_left _ _ _). intros S1 S4 S5 S6 S8 F1 F2 F3.
  assert (Hc : mjoin (chunks 50 (pl_new p)) = pl_new p) by (apply chunks_concat; lia).
  rewrite (insert_chunks_total env t _ rows); [|by rewrite Hc|done|by rewrite <- S2|done]. cbn [rbind]. rewrite Hc, F1, F2, F3.
  destruct (S5 (set_events (s_db s) (c_events (s_db s) ++ rows)) eq_refl) as (db2 & Hdb2). rewrite Hdb2. cbn [rbind].
  apply batch_chain_spec in Hdb2. destruct (each_links_total (pl_new p) db2 S8) as (db3 & Hdb3 & R3). rewrite Hdb3. cbn [rbind].
  apply each_links_frame in Hdb3 as (_ & L3 & _). set (db4 := fold_left _ _ db3).
  destruct (each_meter_frame w (pl_new p) db3) as [_ L4]. pose proof (each_meter_runs w (pl_new p) db3) as R4. fold db4 in L4, R4.
  destruct (S6 db4) as (db5 & -> & Hsame & A5 & R5).
  { unfold same_legacy. rewrite L4, L3, Hdb2. done. }
  cbn [rbind]. eexists. split; [done|]. cbn [s_db]. split; [done|]. rewrite A5, R5, R4, R3, L4, L3, Hdb2. cbn. by rewrite S7, S10.
Qed.

(** C6. A batch is its events one by one.  The batch is of one tenant, its events are [storable] (an aware
    timestamp, a key and the event's own digest, KDEs and snapshot that come back from JSONB, as every
    event that was [sent] has them) and supersede nothing, which the batch does not handle; the writer
    writes the chain ([skip_chain_write] is off, since the batch ignores it), nobody else commits in
    between ([alone]), and the store satisfies the invariant that every writer keeps ([cdb_ok]).  Then,
    whenever storing the events one by one succeeds, so does the batch: with the same answers (but for
    the legacy identifier), events, chain, legacy tables, counters and runs.  Repeated and already stored
    keys, and batches of any length (cut into statements of fifty), are included. *)
Theorem batch_is_one_by_one w env s first others events s2 rs2 :
  cdb_ok true (s_db s) -> skip_chain_write w = false -> alone env -> rmapM (prepared env) (first :: others) = Ok events ->
  Forall (fun e => storable e /\ ev_tenant_id e = ev_tenant_id first /\ ev_supersedes_event_id e = None) events ->
  persist_each w env s (first :: others) = Ok (s2, rs2) ->
  exists s1, persist_events_batch w env s (first :: others) = Ok (s1, without_legacy_id <$> rs2)
    /\ c_events (s_db s1) = c_events (s_db s2) /\ c_legacy (s_db s1) = c_legacy (s_db s2)
    /\ c_usage (s_db s1) = c_usage (s_db s2) /\ c_runs (s_db s1) = c_runs (s_db s2).
Proof.
  intros K Hskip Ha He Hf Hp. set (t := ev_tenant_id first) in *.
  assert (Hst : Forall (fun e => storable e /\ ev_tenant_id e = t) events) by (eapply Forall_impl; [exact Hf|]; by intros e (? & ? & _)).
  assert (S0 := simulated_start w env s t events (Forall_impl _ _ _ Hst (fun e H => proj1 H))).
  assert (Hall : Forall (fun e => storable e /\ ev_tenant_id e = t /\ ev_supersedes_event_id e = None /\ e ∈ events) events).
  { apply Forall_forall. intros e Hin. rewrite Forall_forall in Hf. destruct (Hf e Hin) as (? & ? & ?). done. }
  destruct (simulated_each _ _ _ _ _ _ _ _ _ _ _ _ Hskip Ha He Hall S0 K Hp) as [S K2].
  assert (Ep : batch_plan s t events = fold_left (plan_event t) events (Plan (preflight (s_db s) t events)
    (fst (next_of_head (chain_head (c_legacy (s_db s)) t))) (snd (next_of_head (chain_head (c_legacy (s_db s)) t))) [] [] [])).
  { unfold batch_plan. by destruct (next_of_head _). }
  rewrite <- Ep in S. destruct (batch_follows w env s t first others events s2 ([] ++ rs2) (ok_ids _ _ K) (ok_ids _ _ K2) Ha eq_refl He Hst S)
    as (s1 & Hb & [L1 L2] & L3 & R). destruct (batch_lands w env s first others events s1 _ (ok_ids _ _ K) Ha He Hst Hb) as (_ & rows & [B1 B2 _ B4 _ B6 _]).
  destruct S as [(rows' & S1 & S2 & _) S4 _ _ _ _ S9 _ _ _ S11]. fold t in B1, B2, B4, B6. rewrite S1 in B1. apply Ok_inv in B1 as <-.
  exists s1. rewrite S11 in Hb. split; [exact Hb|]. split; [by rewrite B2, S2|]. split; [|split; [by rewrite B6, S9|done]].
  rewrite <- B4 in S4. destruct (c_legacy (s_db s1)), (c_legacy (s_db s2)). cbn in *. by subst.
Qed.
End Equiv.
