(* ===== verification/CanonicalLineage.v ===== *)
(** * From a stored transformation to its trace

    The links that the canonical store writes for the input lots of a transformation, and the walk of
    TraceWalk.v over them: every lot that the event declares is found one step back from the lot it
    produced. *)

From Stdlib Require Import ZArith Lia String Ascii.
From stdpp Require Import base list strings sets.
From S2P Require Import Prelude PyStr PyFloat PyVal Json JsonRead Sha256 Hashing Merkle Db Rules Relational CteStore.
From S2P Require Import TraceWalk Billing CanonicalEvent CanonicalStore CanonicalVerify CanonicalProofs CanonicalBatch CanonicalSpec.

Local Open Scope string_scope.

Section Lineage.
Context `{PL : PyLib} `{RT : Runtime} `{PG : Postgres} `{ISO : !IsoReads}.

(** The detail of an input lot can be bound: its quantity, its unit and the process. *)
Definition readable_input (e : TraceabilityEvent) (code : string) : Prop :=
  exists entries quantity unit process, input_entries e = Ok entries
    /\ number_cell (dict_get (input_detail (inputs_by_tlc entries) (strip code)) "quantity" PNone) = Ok quantity
    /\ text_cell (dict_get (input_detail (inputs_by_tlc entries) (strip code)) "unit_of_measure" PNone) = Ok unit
    /\ text_cell (process_type_of e) = Ok process.

Definition leads_from (e : TraceabilityEvent) (code : string) (r : link_row) : Prop :=
  tl_tenant_id r = ev_tenant_id e /\ tl_transformation_event_id r = ev_event_id e /\ tl_input_tlc r = strip code
  /\ tl_output_tlc r = ev_traceability_lot_code e.

Lemma insert_link_keeps table r r' : r' ∈ table -> r' ∈ insert_link table r.
Proof. unfold insert_link. intros H. destruct (existsb _ _); [done|]. apply elem_of_app. by left. Qed.

Lemma insert_link_has table r : exists r', r' ∈ insert_link table r /\ same_link r r' = true.
Proof.
  unfold insert_link. destruct (existsb _ _) eqn:E.
  - apply existsb_exists in E as (r' & H & ?). exists r'. split; [by apply list_elem_of_In|done].
  - exists r. split; [apply elem_of_app; right; apply list_elem_of_here|]. unfold same_link. by rewrite !String.eqb_refl.
Qed.

Lemma add_link_keeps db e p m table v r : r ∈ table -> r ∈ add_link db e p m table v.
Proof.
  intros H. unfold add_link. destruct v; try done. destruct (String.eqb _ _); [done|]. destruct (link_of _ _ _ _ _); [|done]. by apply insert_link_keeps.
Qed.

Lemma fold_links_keeps db e p m codes table r : r ∈ table -> r ∈ fold_left (add_link db e p m) codes table.
Proof. revert table. induction codes as [|c codes IH]; intros table H; [done|]. apply IH. by apply add_link_keeps. Qed.

Lemma add_link_has db e entries table code : input_entries e = Ok entries -> readable_input e code -> code <> "" ->
  exists r, r ∈ add_link db e (process_type_of e) (inputs_by_tlc entries) table (PStr code) /\ leads_from e code r.
Proof.
  intros He (entries' & q & u & p & He' & Hq & Hu & Hp) Hne. rewrite He in He'. apply Ok_inv in He' as <-.
  unfold add_link. rewrite (proj2 (String.eqb_neq code "") Hne). unfold link_of. rewrite Hq, Hu, Hp. cbn [rbind].
  match goal with |- context [insert_link table ?r] => destruct (insert_link_has table r) as (r' & Hin & Hs) end.
  exists r'. split; [done|]. unfold same_link in Hs. cbn in Hs. rewrite !andb_true_iff, !String.eqb_eq in Hs.
  destruct Hs as [[[H1 H2] H3] H4]. by unfold leads_from.
Qed.

(** Every declared lot gets its link. *)
Lemma links_written db e db' codes code : _create_transformation_links db e = Ok db' -> links_event (ev_event_type e) = true ->
  dict_get (ev_kdes e) "input_lot_codes" (PList []) = PList codes -> PStr code ∈ codes -> code <> "" -> readable_input e code ->
  exists r, r ∈ c_links db' /\ leads_from e code r.
Proof.
  unfold _create_transformation_links. intros H Ht Hc Hin Hne Hr. rewrite Ht, Hc in H. cbn [negb] in H.
  destruct codes as [|c codes]; [by apply not_elem_of_nil in Hin|]. apply rbind_Ok_inv in H as (entries & He & H). apply Ok_inv in H as <-.
  cbn [set_links c_links]. revert Hin. generalize (c :: codes) as l, (c_links db) as table. clear Hc c codes.
  induction l as [|v l IH]; intros table; [by intros []%not_elem_of_nil|]. intros [<-|Hin]%elem_of_cons; cbn [fold_left]; [|by apply IH].
  destruct (add_link_has db e entries table code He Hr Hne) as (r & Hin & Hl). exists r. split; [by apply fold_links_keeps|done].
Qed.

(** The links are the last thing a new event writes. *)
Lemma persisted_links w env s e0 e s' res : alone env -> prepared env e0 = Ok e -> storable e ->
  existing (s_db s) (ev_tenant_id e) (ev_idempotency_key e) = None -> persist_event w env s e0 = Ok (s', res) ->
  exists db h, _create_transformation_links db (with_chain_hash e h) = Ok (s_db s').
Proof.
  intros Ha He Hst Hx. unfold persist_event. rewrite He. cbn [rbind]. rewrite Ha, (st_key e Hst), Hx.
  destruct (next_of_head _) as [prev next]. intros (h & _ & E)%rbind_Ok_inv. apply rbind_Ok_inv in E as ([db inserted] & Hi & E).
  apply insert_spec in Hi as (r & _ & Hi). destruct inserted; [|destruct Hi as (_ & Hne); cbn in Hne; by rewrite Hx in Hne].
  cbn [negb andb] in E. apply rbind_Ok_inv in E as (db' & Hafter & E). apply Ok_inv in E as [= <- _].
  unfold after_insert in Hafter. apply rbind_Ok_inv in Hafter as (db1 & _ & Hafter). apply rbind_Ok_inv in Hafter as (db2 & _ & Hafter).
  apply rbind_Ok_inv in Hafter as (db3 & _ & Hafter). exists db3, h.
  rewrite Hafter. unfold stage_graph_sync. by destruct (we_neo4j env).
Qed.

(** C10. When a new transformation (or initial packing) is stored, each input lot it declares and whose
    detail can be read is listed one step back in the trace of the lot it produced, unless the trace
    says that it was cut. *)
Theorem declared_inputs_traced w env s e0 e s' res codes code max_depth max_results tw :
  alone env -> prepared env e0 = Ok e -> storable e -> existing (s_db s) (ev_tenant_id e) (ev_idempotency_key e) = None ->
  persist_event w env s e0 = Ok (s', res) -> links_event (ev_event_type e) = true ->
  dict_get (ev_kdes e) "input_lot_codes" (PList []) = PList codes -> PStr code ∈ codes -> code <> "" -> readable_input e code ->
  trace_walk (c_links (s_db s')) (ev_tenant_id e) (ev_traceability_lot_code e) "backward" max_depth max_results = Ok tw -> truncated tw = false ->
  exists r, link_dict "backward" r 0 ∈ links tw /\ leads_from e code r.
Proof.
  intros Ha He Hst Hx Hp Ht Hc Hin Hne Hr W Hcut.
  destruct (persisted_links _ _ _ _ _ _ _ Ha He Hst Hx Hp) as (db & h & Hl).
  destruct (links_written _ _ _ codes code Hl Ht Hc Hin Hne Hr) as (r & Hrow & Hlead). exists r. split; [|done].
  assert (Hd : (1 <= max_depth)%Z) by (unfold trace_walk in W; cbn in W; by destruct (Z.ltb_spec max_depth 1)).
  destruct (trace_walk_spec (c_links (s_db s')) (ev_tenant_id e) "backward" (or_intror eq_refl) (ev_traceability_lot_code e) max_depth max_results Hd)
    as (full & v & x & w' & k & W' & I & Hlinks & Hcut' & _). rewrite W in W'. apply Ok_inv in W' as <-.
  rewrite Hcut in Hcut'. symmetry in Hcut'. apply Nat.ltb_ge in Hcut'.
  destruct Hlead as (Htid & _ & _ & Hsrc).
  assert (Hin' : r ∈ fst <$> full).
  { rewrite (b_found _ _ _ _ _ _ _ _ _ _ I). apply elem_of_where. split; [done|]. unfold from_lots. rewrite Htid, String.eqb_refl.
    apply bool_decide_eq_true. change (link_source "backward" r) with (tl_output_tlc r). rewrite Hsrc.
    by destruct (b_start _ _ _ _ _ _ _ _ _ _ I) as [|[]%not_elem_of_nil]. }
  apply list_elem_of_fmap in Hin' as ([r' d] & -> & Hfull). pose proof (b_depths _ _ _ _ _ _ _ _ _ _ I) as Hds.
  rewrite Forall_forall in Hds. specialize (Hds _ Hfull). cbn [fst snd] in *.
  change (link_source "backward" r') with (tl_output_tlc r') in Hds. rewrite Hsrc in Hds.
  assert (d = 0%nat) as -> by (eapply distance_unique; [exact Hds|split; [apply path_here|lia]]).
  rewrite Hlinks, take_ge by (by rewrite length_fmap). apply list_elem_of_fmap. by exists (r', 0%nat).
Qed.
End Lineage.
