(* ===== verification/CanonicalDemo.v ===== *)
(** * The canonical store on an example

    A concrete library and server, events that are stored, and the instances that show that the
    hypotheses of the theorems about the canonical store can hold. *)

From Stdlib Require Import ZArith Lia String Ascii.
From stdpp Require Import base list strings sets relations.
From S2P Require Import Prelude PyStr PyFloat PyVal Json JsonRead Sha256 Hashing Merkle Db Rules Relational CteStore.
From S2P Require Import TraceWalk Billing CanonicalEvent CanonicalStore CanonicalVerify CanonicalProofs CanonicalBatch CanonicalSpec.
From S2P Require Import CanonicalEquiv CanonicalLineage.

Local Open Scope string_scope.

(** A library whose texts of aware datetimes read back: the wall clock and the offset in numbers. *)
Definition stamp (d : datetime) : string :=
  match dt_offset d with
  | Some o => str_of_Z (dt_wall d) +:+ "@" +:+ str_of_Z o
  | None => str_of_Z (dt_wall d)
  end.
Definition read_stamp (s : string) : res datetime :=
  match scan_number s with
  | Ok (PInt w, String "@" rest) =>
      match scan_number rest with
      | Ok (PInt o, EmptyString) => Ok (Datetime w (Some o))
      | _ => Raise (ValueError ("Invalid isoformat string: " +:+ repr_str s))
      end
  | _ => Raise (ValueError ("Invalid isoformat string: " +:+ repr_str s))
  end.
#[local] Instance demo_canonical_lib : PyLib := {|
  re_match := @re_match demo_lib; str_format := @str_format demo_lib;
  fromisoformat := read_stamp; str_datetime := stamp; repr_datetime := stamp; isoformat := stamp
|}.

Lemma scan_number_end z : scan_number (str_of_Z z) = Ok (PInt z, EmptyString).
Proof. rewrite <- (str_append_nil_r (str_of_Z z)) at 1. by apply scan_number_int. Qed.

#[local] Instance demo_reads : IsoReads.
Proof.
  intros [w [o|]]; [|done]. intros _. unfold isoformat, fromisoformat, demo_canonical_lib, read_stamp, stamp. cbn [dt_offset dt_wall].
  rewrite scan_number_int by done. cbn [String.append]. by rewrite scan_number_end.
Qed.

#[local] Instance demo_server : Runtime :=
  {| bind_text := fun v => match v with PStr s => Ok s | _ => Raise (Exn "ProgrammingError" "") end;
     cast_uuid := fun s => Ok s; set_order := fun l => l |}.
#[local] Instance demo_postgres : Postgres := {| jsonb := json_loads; uuid_text := fun s => negb (String.eqb s ""); zone_offset := fun _ => 0%Z |}.

Definition demo_event (id tlc : string) (ty : CTEType) (kdes : pydict) : TraceabilityEvent :=
  {| ev_event_id := id; ev_tenant_id := "t1"; ev_schema_version := 1; ev_source_system := WEBHOOK_API; ev_source_record_id := None;
     ev_source_file_id := None; ev_ingestion_run_id := None; ev_event_type := ty;
     ev_event_timestamp := Datetime 3600000000 (Some 7200000000%Z); ev_event_timezone := "UTC"; ev_product_reference := Some "Sauce";
     ev_lot_reference := None; ev_traceability_lot_code := tlc; ev_quantity := f_of_Z 12; ev_unit_of_measure := "cases";
     ev_from_entity_reference := None; ev_to_entity_reference := None; ev_from_facility_reference := Some "F1";
     ev_to_facility_reference := None; ev_transport_reference := None; ev_kdes := kdes; ev_raw_payload := [];
     ev_normalized_payload := []; ev_provenance_metadata := []; ev_confidence_score := f_of_Z 1; ev_status := ACTIVE;
     ev_supersedes_event_id := None; ev_sha256_hash := None; ev_chain_hash := None; ev_idempotency_key := None;
     ev_epcis_event_type := None; ev_epcis_action := None; ev_epcis_biz_step := None |}.

Definition demo_received : TraceabilityEvent := demo_event "e1" "A" RECEIVING [("reference", PStr "BOL-1")].
Definition demo_mixed : TraceabilityEvent :=
  demo_event "e2" "M" TRANSFORMATION [("input_lot_codes", PList [PStr "A"; PStr " B "]);
    ("inputs", PList [PDict [("traceability_lot_code", PStr "B"); ("quantity", PInt 3)]])].

Definition demo_writer : writer := Writer true false true.
Definition demo_wenv : wenv := Wenv None 0 true (fun db => db).
Definition demo_start : session := Session empty_cdb [].

Definition out {A B} (r : res (A * B)) (a : A) : A := match r with Ok (x, _) => x | Raise _ => a end.
Definition demo_s1 : session := Eval vm_compute in out (persist_event demo_writer demo_wenv demo_start demo_received) demo_start.
Definition demo_s2 : session := Eval vm_compute in out (persist_event demo_writer demo_wenv demo_s1 demo_mixed) demo_start.
Definition demo_blank : CanonicalStoreResult := CanonicalResult false "" None None false [] None.
Definition demo_r1 : CanonicalStoreResult :=
  Eval vm_compute in match persist_event demo_writer demo_wenv demo_start demo_received with Ok (_, r) => r | Raise _ => demo_blank end.
Definition demo_r2 : CanonicalStoreResult :=
  Eval vm_compute in match persist_event demo_writer demo_wenv demo_s1 demo_mixed with Ok (_, r) => r | Raise _ => demo_blank end.

Lemma demo_call_received : persist_event demo_writer demo_wenv demo_start demo_received = Ok (demo_s1, demo_r1).
Proof. vm_compute. reflexivity. Qed.
Lemma demo_call_mixed : persist_event demo_writer demo_wenv demo_s1 demo_mixed = Ok (demo_s2, demo_r2).
Proof. vm_compute. reflexivity. Qed.

(** The events as they are stored. *)
Definition ready (e : TraceabilityEvent) : TraceabilityEvent := match prepared demo_wenv e with Ok e' => e' | Raise _ => e end.
Definition demo_received' : TraceabilityEvent := Eval vm_compute in ready demo_received.
Definition demo_mixed' : TraceabilityEvent := Eval vm_compute in ready demo_mixed.
Lemma demo_received_ready : prepared demo_wenv demo_received = Ok demo_received'.
Proof. vm_compute. reflexivity. Qed.
Lemma demo_mixed_ready : prepared demo_wenv demo_mixed = Ok demo_mixed'.
Proof. vm_compute. reflexivity. Qed.

(** What the JSON columns hold. *)
Definition column_text (d : pydict) : string := match json_dumps opts_str (PDict d) with Ok s => s | Raise _ => "" end.
Definition column (d : pydict) : pydict := match jsonb (column_text d) with Ok (PDict k) => k | _ => [] end.

Ltac show_storable e :=
  split; [done|vm_compute; reflexivity
         |exists (default "" (ev_sha256_hash e)); split; vm_compute; reflexivity
         |exists (column_text (ev_kdes e)), (column (ev_kdes e)); split; [|split]; vm_compute; reflexivity
         |exists (column_text (ev_normalized_payload e)), (column (ev_normalized_payload e)); split; [|split]; vm_compute; reflexivity].
Lemma demo_received_storable : storable demo_received'.
Proof. show_storable demo_received'. Qed.
Lemma demo_mixed_storable : storable demo_mixed'.
Proof. show_storable demo_mixed'. Qed.

Lemma ready_storable e0 e : prepared demo_wenv e0 = Ok e -> storable e -> forall e', prepared demo_wenv e0 = Ok e' -> storable e'.
Proof. intros He Hs e' He'. rewrite He in He'. by apply Ok_inv in He' as <-. Qed.

Lemma demo_step_received : write_step false empty_cdb (s_db demo_s1).
Proof.
  apply (step_event false demo_writer demo_wenv demo_start demo_received demo_s1 demo_r1);
    [discriminate|reflexivity|exact (ready_storable _ _ demo_received_ready demo_received_storable)|exact demo_call_received].
Qed.
Lemma demo_step_mixed : write_step false (s_db demo_s1) (s_db demo_s2).
Proof.
  apply (step_event false demo_writer demo_wenv demo_s1 demo_mixed demo_s2 demo_r2);
    [discriminate|reflexivity|exact (ready_storable _ _ demo_mixed_ready demo_mixed_storable)|exact demo_call_mixed].
Qed.
#[local] Instance demo_exact : ExactJsonb.
Proof.
  intros d text Hp _ E. exists d. split; [|done].
  apply (json_loads_dumps opts_str " " " " eq_refl eq_refl eq_refl eq_refl eq_refl (PDict d) text Hp E).
Qed.

Ltac show_sent ready e :=
  split; [by left|split; [done|]]; intros e' He; rewrite ready in He; apply Ok_inv in He as <-;
  split; [left; split; [|vm_compute; reflexivity]
         |exists (column_text (ev_normalized_payload e)), (column (ev_normalized_payload e)); split; [|split]; vm_compute; reflexivity].
Lemma demo_received_sent : sent demo_wenv demo_received.
Proof. show_sent demo_received_ready demo_received'. repeat constructor; set_solver. Qed.
Lemma demo_mixed_sent : sent demo_wenv demo_mixed.
Proof. show_sent demo_mixed_ready demo_mixed'. repeat constructor; set_solver. Qed.
Lemma demo_deployed : rtc (deployed_step false) empty_cdb (s_db demo_s2).
Proof.
  eapply rtc_l; [|eapply rtc_l; [|apply rtc_refl]].
  - apply (deployed_event false demo_writer demo_wenv demo_start demo_received demo_s1 demo_r1);
      [discriminate|reflexivity|exact demo_received_sent|exact demo_call_received].
  - apply (deployed_event false demo_writer demo_wenv demo_s1 demo_mixed demo_s2 demo_r2);
      [discriminate|reflexivity|exact demo_mixed_sent|exact demo_call_mixed].
Qed.
Lemma demo_written : written false (s_db demo_s2).
Proof. eapply rtc_l; [exact demo_step_received|]. eapply rtc_l; [exact demo_step_mixed|]. apply rtc_refl. Qed.

(** ** Instances *)

Lemma canonical_no_false_alarm_witness : exists v, verify_chain_canonical "" (s_db demo_s2) "t1" = Ok v /\ kv_valid v = true /\ kv_chain_length v = 2%nat.
Proof.
  destruct (canonical_no_false_alarm false (s_db demo_s2) "t1" "" demo_deployed) as (v & Hv & _ & _ & Hn & _ & Hok).
  exists v. split; [exact Hv|]. split; [exact (proj1 (Hok eq_refl))|]. rewrite Hn. vm_compute. reflexivity.
Defined.

Lemma resend_answers_stored_witness :
  persist_event demo_writer demo_wenv demo_s2 demo_received
  = Ok (demo_s2, CanonicalResult true "e1" (sha256_hash demo_r1) (chain_hash demo_r1) true [] None).
Proof.
  apply (resend_answers_stored false demo_writer demo_writer demo_wenv demo_wenv demo_start demo_s1 demo_s2 demo_received demo_received' demo_r1).
  - apply rtc_refl.
  - discriminate.
  - reflexivity.
  - exact demo_received_ready.
  - exact demo_received_storable.
  - exact demo_call_received.
  - eapply rtc_l; [exact demo_step_mixed|apply rtc_refl].
  - reflexivity.
Defined.

(** A copy of the store in which the first event was withdrawn. *)
Definition demo_copy : cdb := Eval vm_compute in supersede 5 "t1" "e1" (s_db demo_s2).

(** The first event is stored in both tables; its row is listed, and its text is that of the copy. *)
Lemma canonical_head_binding_witness : exists r e1 e2 x,
  te_match (s_db demo_s2) "t1" "e1" = Some e1 /\ te_match demo_copy "t1" "e1" = Some e2 /\ e1 <> e2
  /\ ce_match (s_db demo_s2) "t1" "e1" <> None
  /\ listed (s_db demo_s2) "t1" 0 r e1 /\ row_text "e1" e1 = Ok x /\ row_text "e1" e2 = Ok x.
Proof.
  destruct (verify_chain_canonical "" (s_db demo_s2) "t1") as [v1|] eqn:V1; [|exfalso; vm_compute in V1; discriminate V1].
  destruct (verify_chain_canonical "" demo_copy "t1") as [v2|] eqn:V2; [|exfalso; vm_compute in V2; discriminate V2].
  destruct (chain_head (c_legacy (s_db demo_s2)) "t1") as [h|] eqn:Hh; [|exfalso; vm_compute in Hh; discriminate Hh].
  destruct (by_sequence (chain_of "t1" (c_legacy (s_db demo_s2))) !! 0%nat) as [r|] eqn:Er; [|exfalso; vm_compute in Er; discriminate Er].
  destruct (te_match (s_db demo_s2) "t1" "e1") as [e1|] eqn:E1; [|exfalso; vm_compute in E1; discriminate E1].
  destruct (te_match demo_copy "t1" "e1") as [e2|] eqn:E2; [|exfalso; vm_compute in E2; discriminate E2].
  assert (Hid : hc_cte_event_id r = "e1") by (vm_compute in Er; injection Er as <-; reflexivity).
  assert (L1 : listed (s_db demo_s2) "t1" 0 r e1).
  { split; [exact Er|]. rewrite Hid. split; [exact E1|]. right. vm_compute in Er, E1. injection Er as <-. injection E1 as <-. reflexivity. }
  assert (L2 : listed demo_copy "t1" 0 r e2).
  { split; [exact Er|]. rewrite Hid. split; [exact E2|]. right. vm_compute in Er, E2. injection Er as <-. injection E2 as <-. reflexivity. }
  destruct (canonical_head_binding "" "" (s_db demo_s2) demo_copy "t1" "t1" v1 v2 h h V1) as (_ & Hb & _).
  - vm_compute in V1. apply Ok_inv in V1 as <-. reflexivity.
  - exact V2.
  - vm_compute in V2. apply Ok_inv in V2 as <-. reflexivity.
  - exact Hh.
  - rewrite <- Hh. vm_compute. reflexivity.
  - reflexivity.
  - apply no_collision_b_ok. vm_compute. reflexivity.
  - destruct (Hb 0%nat r e1 r e2 L1 L2) as (x1 & x2 & H1 & H2 & Hx). rewrite Hid in H1, H2. exists r, e1, e2, x1.
    split; [reflexivity|]. split; [reflexivity|]. split; [|split; [|split; [exact L1|split; [exact H1|]]]].
    + intros E. rewrite E in E1. vm_compute in E1, E2. rewrite <- E2 in E1. discriminate E1.
    + vm_compute. discriminate.
    + destruct Hx as [<-|[Hne _]]; [exact H2|]. exfalso. apply Hne.
      vm_compute in E1, E2. injection E1 as <-. injection E2 as <-. vm_compute in H1, H2. rewrite H1 in H2. by injection H2.
Defined.

(** The rows of events that both stores hold are not compared with the chain: a copy in which the first
    event's unit was changed, and the digest in its own row computed anew, is reported valid under the
    same chain. *)
Definition rewrite_unit (r : tr_row) : tr_row :=
  let with_digest sha :=
    TrRow (tr_event_id r) (tr_tenant_id r) (tr_source_system r) (tr_source_record_id r) (tr_source_file_id r)
      (tr_ingestion_run_id r) (tr_event_type r) (tr_event_timestamp r) (tr_event_timezone r) (tr_product_reference r)
      (tr_lot_reference r) (tr_traceability_lot_code r) (tr_quantity r) "pallets" (tr_from_entity_reference r)
      (tr_to_entity_reference r) (tr_from_facility_reference r) (tr_to_facility_reference r) (tr_transport_reference r)
      (tr_kdes r) (tr_raw_payload r) (tr_normalized_payload r) (tr_provenance_metadata r) (tr_confidence_score r) (tr_status r)
      (tr_supersedes_event_id r) (tr_schema_version r) sha (tr_chain_hash r) (tr_idempotency_key r) (tr_epcis r) (tr_amended_at r) in
  match row_text (tr_event_id r) (with_digest None) with Ok x => with_digest (Some (sha256_hex x)) | Raise _ => r end.
Definition demo_rewritten : cdb := Eval vm_compute in
  set_events (s_db demo_s2) ((fun r => if String.eqb (tr_event_id r) "e1" then rewrite_unit r else r) <$> c_events (s_db demo_s2)).
Lemma twin_rewritten_unnoticed :
  (forall v, verify_chain_canonical "" demo_rewritten "t1" = Ok v -> kv_valid v = true)
  /\ is_ok (verify_chain_canonical "" demo_rewritten "t1") = true
  /\ c_legacy demo_rewritten = c_legacy (s_db demo_s2)
  /\ (tr_unit_of_measure <$> c_events demo_rewritten) <> (tr_unit_of_measure <$> c_events (s_db demo_s2)).
Proof.
  split; [|split; [|split]]; [|vm_compute; reflexivity|vm_compute; reflexivity|vm_compute; discriminate].
  intros v Hv. vm_compute in Hv. apply Ok_inv in Hv as <-. reflexivity.
Qed.

(** PostgreSQL keeps the numbers of a JSONB value as NUMERIC, which prints 1e16 in full, and the minus
    sign of a zero is lost. *)
Fixpoint numeric (v : pyval) : pyval :=
  match v with
  | PFloat f =>
      match float_as_int f with
      | Some z => if (z =? 0)%Z then PFloat f0 else if (10 ^ 16 <=? Z.abs z)%Z then PInt z else v
      | None => v
      end
  | PList l => PList (map numeric l)
  | PDict d => PDict (map (fun kv => (fst kv, numeric (snd kv))) d)
  | _ => v
  end.
Definition numeric_postgres : Postgres :=
  {| jsonb := fun text => do v <- json_loads text; Ok (numeric v); uuid_text := fun s => negb (String.eqb s ""); zone_offset := fun _ => 0%Z |}.

(** An event with a KDE of 1e16, stored as the code stores it, is reported as tampered. *)
Definition demo_large : TraceabilityEvent := demo_event "e7" "A" RECEIVING [("count", PFloat (f_of_Z (10 ^ 16)))].
Definition demo_large_stored : cdb := Eval vm_compute in
  s_db (out (@persist_event _ _ numeric_postgres demo_writer demo_wenv demo_start demo_large) demo_start).
Lemma large_number_false_alarm :
  is_ok (@persist_event _ _ numeric_postgres demo_writer demo_wenv demo_start demo_large) = true
  /\ length (c_events demo_large_stored) = 1%nat
  /\ exists v, @verify_chain_canonical _ numeric_postgres "" demo_large_stored "t1" = Ok v /\ kv_valid v = false /\ kv_tamper_rows v = [1%Z].
Proof.
  split; [vm_compute; reflexivity|]. split; [vm_compute; reflexivity|].
  destruct (@verify_chain_canonical _ numeric_postgres "" demo_large_stored "t1") as [v|] eqn:V; [|exfalso; vm_compute in V; discriminate V].
  exists v. split; [reflexivity|]. vm_compute in V. apply Ok_inv in V as <-. split; reflexivity.
Qed.

(** A request that stores the first event. *)
Definition demo_request (s : session) : res (session * CanonicalStoreResult) := persist_event demo_writer demo_wenv s demo_received.
Definition demo_graph : graph_env := GraphEnv true true 100 false false.

Definition demo_world : world := Eval vm_compute in fst (run_session demo_graph demo_request (World empty_cdb [])).

Lemma demo_handles : handles false demo_request.
Proof.
  intros s s' r Hp. apply rtc_once. apply (session_event false demo_writer demo_wenv s demo_received s' r);
    [discriminate|reflexivity|exact (ready_storable _ _ demo_received_ready demo_received_storable)|exact Hp].
Qed.

Lemma demo_live : live demo_graph false demo_world.
Proof.
  eapply (live_request demo_graph false demo_request (World empty_cdb [])); [apply live_start|exact demo_handles|].
  instantiate (1 := snd (run_session demo_graph demo_request (World empty_cdb []))). vm_compute. reflexivity.
Qed.

Lemma graph_only_committed_witness : exists m e r, w_queue demo_world = [m] /\ m = graph_message e /\ r ∈ c_events (w_db demo_world)
  /\ tr_event_id r = ev_event_id e.
Proof.
  destruct (w_queue demo_world) as [|m [|]] eqn:Eq; [exfalso; discriminate Eq| |exfalso; discriminate Eq].
  destruct (graph_only_committed demo_graph false demo_world demo_live m) as (e & r & Hm & Hr & Hid & _).
  - rewrite Eq. left.
  - exists m, e, r. done.
Defined.

(** The two events as a batch and one by one. *)
Definition demo_each : session * list CanonicalStoreResult := Eval vm_compute in
  match persist_each demo_writer demo_wenv demo_start [demo_received; demo_mixed; demo_received] with Ok x => x | Raise _ => (demo_start, []) end.

Lemma batch_is_one_by_one_witness : exists s1,
  persist_events_batch demo_writer demo_wenv demo_start [demo_received; demo_mixed; demo_received] = Ok (s1, without_legacy_id <$> snd demo_each)
  /\ c_events (s_db s1) = c_events (s_db (fst demo_each)) /\ length (c_events (s_db s1)) = 2%nat.
Proof.
  destruct (batch_is_one_by_one demo_writer demo_wenv demo_start demo_received [demo_mixed; demo_received]
    [demo_received'; demo_mixed'; demo_received'] (fst demo_each) (snd demo_each)) as (s1 & H1 & H2 & _).
  - apply empty_ok.
  - reflexivity.
  - reflexivity.
  - vm_compute. reflexivity.
  - apply Forall_cons. split; [split; [exact demo_received_storable|done]|]. apply Forall_cons. split; [split; [exact demo_mixed_storable|done]|].
    apply Forall_singleton. split; [exact demo_received_storable|done].
  - vm_compute. reflexivity.
  - exists s1. split; [exact H1|]. split; [exact H2|]. rewrite H2. reflexivity.
Defined.

Lemma declared_inputs_traced_witness : exists tw r,
  trace_walk (c_links (s_db demo_s2)) "t1" "M" "backward" 3 100 = Ok tw /\ link_dict "backward" r 0 ∈ links tw /\ tl_input_tlc r = "B".
Proof.
  destruct (trace_walk (c_links (s_db demo_s2)) "t1" "M" "backward" 3 100) as [tw|] eqn:W; [|exfalso; vm_compute in W; discriminate W].
  destruct (declared_inputs_traced demo_writer demo_wenv demo_s1 demo_mixed demo_mixed' demo_s2 demo_r2 [PStr "A"; PStr " B "] " B " 3 100 tw)
    as (r & Hr & Hl).
  - reflexivity.
  - exact demo_mixed_ready.
  - exact demo_mixed_storable.
  - vm_compute. reflexivity.
  - exact demo_call_mixed.
  - reflexivity.
  - reflexivity.
  - right. left.
  - discriminate.
  - do 4 eexists. split; [reflexivity|]. split; [vm_compute; reflexivity|]. split; vm_compute; reflexivity.
  - exact W.
  - vm_compute in W. apply Ok_inv in W as <-. reflexivity.
  - exists tw, r. split; [reflexivity|]. split; [exact Hr|]. destruct Hl as (_ & _ & Hi & _). rewrite Hi. reflexivity.
Defined.
