(* ===== verification/EpcisDemo.v ===== *)
(** * EPCIS ingestion on an example

    Concrete libraries, events and environments: the instances that show that the hypotheses of the
    theorems about EPCIS events can hold, and the runs behind the remarks on the two readers. *)

From Stdlib Require Import ZArith Lia String Ascii.
From stdpp Require Import base list strings sets relations.
From S2P Require Import Prelude PyStr PyFloat PyVal Json JsonRead Sha256 Hashing CteStore Rules Enforcement Relational Engine.
From S2P Require Import TraceWalk Billing LotIdentity EpcisExtraction Uom EpcisNormalization CanonicalEvent CanonicalNormalize NormalizeSpec.
From S2P Require Import CanonicalStore EpcisIngest CanonicalVerify CanonicalProofs CanonicalSpec EpcisWriters EpcisPersist EpcisSpec CanonicalDemo.

Local Open Scope string_scope.

#[local] Existing Instance demo_canonical_lib.
#[local] Existing Instance demo_reads.
#[local] Existing Instance demo_server.
#[local] Existing Instance demo_postgres.
#[local] Existing Instance demo_exact.
#[local] Existing Instance demo_json.
#[local] Existing Instance demo_model.
#[local] Instance demo_gate : FsmaGate := {| fsma_event_valid := fun _ n _ => negb (is_none (n_unit_of_measure n)) |}.

(** The text of a moment in this library: microseconds and offset. *)
Definition demo_receipt : pydict :=
  [("type", PStr "ObjectEvent"); ("eventTime", PStr "3600000000@0"); ("action", PStr "OBSERVE");
   ("bizStep", PStr "urn:epcglobal:cbv:bizstep:receiving"); ("ilmd", PDict [("fsma:traceabilityLotCode", PStr "LOT-1")]);
   ("quantityList", PList [PDict [("quantity", PInt 5); ("uom", PStr "CS")]])].
(** A lot code that is too short. *)
Definition demo_short : pydict :=
  [("type", PStr "ObjectEvent"); ("eventTime", PStr "3600000000@0"); ("action", PStr "OBSERVE");
   ("bizStep", PStr "urn:epcglobal:cbv:bizstep:receiving"); ("ilmd", PDict [("fsma:traceabilityLotCode", PStr "L")]);
   ("quantityList", PList [PDict [("quantity", PInt 5); ("uom", PStr "CS")]])].

Definition demo_request : request_env :=
  RequestEnv true true None (GraphEnv true true 10 false false) false (FallbackEnv 10 "m1" "").
Definition demo_ingest (mode : string) (id : string) : event_env :=
  EventEnv (Enforcement.Context (Some mode) (Ok (Some "t1"))) false (Fresh ("pre-" +:+ id) "") (Fresh ("can-" +:+ id) "") false None
    (CteStore.Env ("leg-" +:+ id) 3700000000 (fun _ => false) (fun _ => None)) demo_wenv demo_call demo_call no_refusal.
(** The same receipt of a food on the list, without the note that the rules ask for, and with it. *)
Definition demo_herbs (note : pyval) : pydict :=
  dict_set "ilmd" (PDict [("fsma:traceabilityLotCode", PStr "LOT-2"); ("ftl_category", PStr "Herbs"); ("note", note)]) demo_receipt.

Definition demo_service (rules : list rule_row) : service :=
  Service empty_cdb (demo_db rules) [] (EState [] [] []) [] (Fallback [] []).


(** ** The stored events *)

Definition canonical_of (id : string) (event : pydict) : TraceabilityEvent :=
  match normalize_epcis_event None false (Fresh id "") event "t1" None with Ok e => e | Raise _ => demo_received end.
Ltac show_keeps id event :=
  let e := eval vm_compute in (canonical_of id event) in
  intros e' He'; assert (He : normalize_epcis_event None false (Fresh id "") event "t1" None = Ok e) by (vm_compute; reflexivity);
  change (normalize_epcis_event None false (Fresh id "") event "t1" None = Ok e') in He'; rewrite He in He'; apply Ok_inv in He' as <-;
  split; [done|split; [left; split; [|vm_compute; reflexivity]
    |exists (column_text (ev_normalized_payload e)), (column (ev_normalized_payload e)); split; [|split]; vm_compute; reflexivity]];
  cbn [json_plain ev_kdes snd fst]; repeat match goal with |- _ /\ _ => split | |- True => exact I | |- NoDup _ => apply (bool_decide_unpack _); vm_compute; exact I end.

Lemma demo_keeps_receipt mode : keeps_hashed (demo_ingest mode "1") "t1" demo_receipt.
Proof. show_keeps "can-1" demo_receipt. Qed.
Lemma demo_keeps_herbs mode : keeps_hashed (demo_ingest mode "1") "t1" (demo_herbs PNone).
Proof. show_keeps "can-1" (demo_herbs PNone). Qed.
Lemma demo_keeps_receipt2 mode : keeps_hashed (demo_ingest mode "2") "t1" demo_receipt.
Proof. show_keeps "can-2" demo_receipt. Qed.
Lemma demo_keeps_herbs2 mode : keeps_hashed (demo_ingest mode "2") "t1" (demo_herbs PNone).
Proof. show_keeps "can-2" (demo_herbs PNone). Qed.

Definition demo_strict_rows : list rule_row := [demo_rule_row "r1" "critical" "field_presence" ["ALL"] []].

(** ** Instances *)

Lemma epcis_both_stores_or_neither_witness : exists sv' payload p,
  _ingest_single_event demo_request (demo_ingest "all" "1") "t1" demo_receipt (demo_service []) = (sv', Answer (payload, 201%Z))
  /\ dict_get payload "cte_id" PNone = PStr "leg-1"
  /\ written true (sv_db sv') /\ in_both_stores (demo_ingest "all" "1") "t1" p payload (sv_db sv').
Proof.
  destruct (_ingest_single_event demo_request (demo_ingest "all" "1") "t1" demo_receipt (demo_service [])) as [sv' r] eqn:E.
  destruct (epcis_both_stores_or_neither demo_request (demo_ingest "all" "1") "t1" demo_receipt (demo_service []) sv' r) as [Hw H].
  - apply rtc_refl.
  - reflexivity.
  - exact (demo_keeps_receipt "all").
  - intros p _ e _ Hx. by destruct Hx.
  - exact E.
  - pose proof (f_equal (fun x => match snd x with Answer (payload, status) => Some (dict_get payload "cte_id" PNone, status) | _ => None end) E) as Hr.
    vm_compute in Hr. destruct r as [[payload status]|s d|x]; [|discriminate Hr..]. injection Hr as Hid Hs. subst status.
    destruct H as [(_ & _ & p & _ & Hb)|[(Hs & _)|(Hf & _)]]; [|discriminate Hs|discriminate Hf].
    exists sv', payload, p. split; [reflexivity|]. split; [symmetry; exact Hid|]. split; [exact Hw|exact Hb].
Defined.

Lemma epcis_gate_enforced_witness : exists sv' d,
  _ingest_single_event_db demo_request (demo_ingest "all" "1") "t1" (demo_herbs PNone) (demo_service demo_strict_rows) = (sv', HTTPException 422 d)
  /\ rejection_recorded (demo_ingest "all" "1") "t1" (demo_herbs PNone) (demo_service demo_strict_rows) sv'.
Proof.
  destruct (_ingest_single_event_db demo_request (demo_ingest "all" "1") "t1" (demo_herbs PNone) (demo_service demo_strict_rows)) as [sv' r] eqn:E.
  destruct (epcis_gate_enforced _ _ _ _ _ _ _ E) as (_ & _ & [H|[[d Hd] H]] & _).
  - assert (Hl : length (sv_rejections (fst (_ingest_single_event_db demo_request (demo_ingest "all" "1") "t1" (demo_herbs PNone)
      (demo_service demo_strict_rows)))) = 1%nat) by (vm_compute; reflexivity).
    rewrite E in Hl. cbn [fst] in Hl. rewrite H in Hl. discriminate Hl.
  - exists sv', d. split; [f_equal; exact Hd|exact H].
Defined.

Definition demo_envs (k : nat) : event_env := match k with O => demo_ingest "off" "1" | _ => demo_ingest "off" "2" end.

(** The two events have different lots. *)
Lemma demo_keys : exists e e', normalize_epcis_event None false (Fresh "can-1" "") demo_receipt "t1" None = Ok e
  /\ normalize_epcis_event None false (Fresh "can-2" "") (demo_herbs PNone) "t1" None = Ok e' /\ ev_idempotency_key e <> ev_idempotency_key e'.
Proof.
  let e := eval vm_compute in (canonical_of "can-1" demo_receipt) in exists e.
  let e := eval vm_compute in (canonical_of "can-2" (demo_herbs PNone)) in exists e.
  split; [vm_compute; reflexivity|]. split; [vm_compute; reflexivity|]. cbn [ev_idempotency_key]. congruence.
Qed.
Lemma demo_distinct : distinct_keys demo_envs "t1" 0 [demo_receipt; demo_herbs PNone].
Proof.
  destruct demo_keys as (a & b & Ha & Hb & Hab).
  intros [|[|j]] [|[|k]] x x' e e' Hne Hj Hk He He'; try done; injection Hj as <-; injection Hk as <-.
  - change (normalize_epcis_event None false (Fresh "can-1" "") demo_receipt "t1" None = Ok e) in He.
    change (normalize_epcis_event None false (Fresh "can-2" "") (demo_herbs PNone) "t1" None = Ok e') in He'.
    rewrite He in Ha. rewrite He' in Hb. apply Ok_inv in Ha as <-. by apply Ok_inv in Hb as <-.
  - change (normalize_epcis_event None false (Fresh "can-1" "") demo_receipt "t1" None = Ok e') in He'.
    change (normalize_epcis_event None false (Fresh "can-2" "") (demo_herbs PNone) "t1" None = Ok e) in He.
    rewrite He' in Ha. rewrite He in Hb. apply Ok_inv in Ha as <-. apply Ok_inv in Hb as <-. congruence.
Qed.

Lemma epcis_batch_all_or_nothing_witness : exists sv' answers p payload,
  _ingest_batch_events_db_atomic demo_request demo_envs "t1" [demo_receipt; demo_herbs PNone] (demo_service demo_strict_rows) = (sv', Answer answers)
  /\ length answers = 2%nat /\ in_both_stores (demo_ingest "off" "2") "t1" p payload (sv_db sv').
Proof.
  destruct (_ingest_batch_events_db_atomic demo_request demo_envs "t1" [demo_receipt; demo_herbs PNone] (demo_service demo_strict_rows)) as [sv' r] eqn:E.
  destruct (epcis_batch_all_or_nothing demo_request demo_envs "t1" [demo_receipt; demo_herbs PNone] (demo_service demo_strict_rows) sv' r) as (_ & H & _).
  - apply rtc_refl.
  - intros [|k]; reflexivity.
  - intros [|k] event [->|[->|[]%elem_of_nil]%elem_of_cons]%elem_of_cons;
      [exact (demo_keeps_receipt "off")|exact (demo_keeps_herbs "off")|exact (demo_keeps_receipt2 "off")|exact (demo_keeps_herbs2 "off")].
  - exact demo_distinct.
  - intros k event p _ _ e _ Hx. by destruct Hx.
  - exact E.
  - pose proof (f_equal (fun x => match snd x with Answer l => snd <$> l | _ => [] end) E) as Hr. vm_compute in Hr.
    destruct r as [answers|s d|x]; [|discriminate Hr..]. destruct H as [Hl H]. exists sv', answers.
    destruct answers as [|[p0 s0] [|[p1 s1] rest]]; try discriminate Hl. injection Hr as _ Hs _. subst s1.
    destruct (H 1%nat (demo_herbs PNone) p1 201%Z eq_refl eq_refl) as (p & _ & [[_ Hb]|[Hs _]]); [|discriminate Hs].
    exists p, p1. split; [reflexivity|]. split; [exact Hl|exact Hb].
Defined.

Lemma epcis_checks_invent_nothing_witness : exists p,
  _prepare_event_for_persistence true "t1" demo_receipt = Answer p /\ tlc_source demo_receipt (n_tlc (pe_normalized p))
  /\ pe_event_time p = PStr "3600000000@0".
Proof.
  destruct (_prepare_event_for_persistence true "t1" demo_receipt) as [p|s d|x] eqn:E; [|vm_compute in E; discriminate E..].
  destruct (epcis_checks_invent_nothing true "t1" demo_receipt p E) as (_ & _ & _ & Ht & _ & _ & Hm & _).
  exists p. split; [reflexivity|]. split; [exact Ht|exact Hm].
Defined.

(** A quantity beyond the range of floats. *)
Definition demo_huge : pydict := dict_set "quantityList" (PList [PDict [("quantity", PInt (2 ^ 1100))]]) demo_receipt.
Definition demo_crash : exn := Exn "OverflowError" "int too large to convert to float".
Lemma epcis_checks_total_witness :
  _prepare_event_for_persistence false "t1" demo_huge = Crash demo_crash /\ exn_type demo_crash = "OverflowError".
Proof.
  assert (E : _prepare_event_for_persistence false "t1" demo_huge = Crash demo_crash) by (vm_compute; reflexivity).
  split; [exact E|]. apply (epcis_checks_total false "t1" demo_huge demo_crash E).
  - eexists. vm_compute. reflexivity.
  - eexists. reflexivity.
  - left. eexists. reflexivity.
  - right. reflexivity.
Defined.

Lemma epcis_nothing_fabricated_witness : exists e,
  normalize_epcis_event None false (Fresh "can-1" "") demo_receipt "t1" None = Ok e
  /\ ev_raw_payload e = demo_receipt /\ exists v, v ∈ lot_places demo_receipt /\ lot_name false v (ev_traceability_lot_code e).
Proof.
  destruct (normalize_epcis_event None false (Fresh "can-1" "") demo_receipt "t1" None) as [e|x] eqn:E; [|vm_compute in E; discriminate E].
  destruct (epcis_nothing_fabricated None false (Fresh "can-1" "") demo_receipt "t1" None e E) as (Hp & _ & Hl & _).
  exists e. split; [reflexivity|]. split; [exact Hp|exact Hl].
Defined.

Lemma two_readers_agree_witness : exists p e,
  _prepare_event_for_persistence true "t1" demo_receipt = Answer p
  /\ normalize_epcis_event None false (Fresh "can-1" "") demo_receipt "t1" None = Ok e
  /\ ev_traceability_lot_code e = strip (n_tlc (pe_normalized p)) /\ ev_quantity e = pe_quantity_value p.
Proof.
  destruct (_prepare_event_for_persistence true "t1" demo_receipt) as [p|s d|x] eqn:Ep; [|vm_compute in Ep; discriminate Ep..].
  destruct (normalize_epcis_event None false (Fresh "can-1" "") demo_receipt "t1" None) as [e|x] eqn:Ee; [|vm_compute in Ee; discriminate Ee].
  destruct (two_readers_agree true "t1" demo_receipt p None (Fresh "can-1" "") None e Ep Ee) as (_ & Hl & Hq).
  exists p, e. split; [reflexivity|]. split; [reflexivity|]. split.
  - apply Hl. exists "LOT-1". split; [discriminate|reflexivity].
  - apply Hq. split; [reflexivity|]. intros element H. vm_compute in H. discriminate H.
Defined.

Definition demo_row : pydict :=
  [("What", PStr "Ship"); ("When", PStr "3600000000@0"); ("Lot", PStr " LOT-1 "); ("Amount", PStr "5"); ("Unit", PStr "Cases"); ("Note", PStr "n")].
Definition demo_columns : list (string * string) :=
  [("What", "event_type"); ("When", "event_timestamp"); ("Lot", "tlc"); ("Amount", "quantity"); ("Unit", "unit_of_measure")].
Lemma csv_row_exact_witness : exists e,
  normalize_csv_row None (Fresh "can-1" "") demo_row "t1" demo_columns None None (Some 2%Z) = Ok e
  /\ says_row (csv_mapped demo_columns demo_row) demo_row e.
Proof.
  destruct (normalize_csv_row None (Fresh "can-1" "") demo_row "t1" demo_columns None None (Some 2%Z)) as [e|x] eqn:E; [|vm_compute in E; discriminate E].
  exists e. split; [reflexivity|]. apply (csv_row_exact None (Fresh "can-1" "") demo_row "t1" demo_columns None None (Some 2%Z)). exact E.
Defined.

(** ** Where the two readers differ *)

Definition demo_step (step : string) : pydict := dict_set "bizStep" (PStr step) demo_receipt.
Definition demo_elements (l : list pydict) : pydict := dict_set "quantityList" (PList (PDict <$> l)) demo_receipt.
Definition demo_lot_element : pydict :=
  [("epcClass", PStr "urn:epc:class:lgtin:0614141.012345.LOT-1"); ("quantity", PInt 7); ("uom", PStr "KGM")].
Definition demo_ingested (event : pydict) : service * http (pydict * Z) :=
  _ingest_single_event demo_request (demo_ingest "off" "1") "t1" event (demo_service []).
Definition legacy_rows (sv : service) : list (string * pyval * string) :=
  (fun r => (cr_tlc r, cr_quantity r, cr_unit_of_measure r)) <$> cte_events (c_legacy (sv_db sv)).
Definition canonical_rows (sv : service) : list (string * f64 * string) :=
  (fun r => (tr_traceability_lot_code r, tr_quantity r, tr_unit_of_measure r)) <$> c_events (sv_db sv).

(** A bare CBV name, or one of the GS1 web vocabulary, that the first reader maps and the second does
    not know: the event passes the checks and is refused by the write. *)
Lemma step_names_differ :
  Forall (fun step => (exists p, _prepare_event_for_persistence true "t1" (demo_step step) = Answer p)
      /\ exists x, _resolve_bizstep_to_cte_type (PStr step) = Raise x)
    ["packing"; "storing"; "transforming"; "commissioning"; "landing"; "https://ref.gs1.org/cbv/BizStep-receiving"].
Proof. repeat constructor; eexists; vm_compute; reflexivity. Qed.

(** Two elements, the second of the lot: the rows have different quantities and units. *)
Lemma lot_elements_differ :
  let sv := fst (demo_ingested (demo_elements [[("quantity", PInt 5); ("uom", PStr "CS")]; demo_lot_element])) in
  legacy_rows sv = [("LOT-1", PFloat (f_of_Z 7), "KGM")] /\ canonical_rows sv = [("LOT-1", f_of_Z 5, "CS")].
Proof. vm_compute. by split. Qed.

(** A lot that only a class URI names: the rows have different lot codes. *)
Lemma class_lots_differ :
  let sv := fst (demo_ingested (dict_set "ilmd" (PDict []) (demo_elements [demo_lot_element]))) in
  (fst ∘ fst <$> legacy_rows sv) = ["urn:epc:class:lgtin:0614141.012345.LOT-1"] /\ (fst ∘ fst <$> canonical_rows sv) = ["LOT-1"].
Proof. vm_compute. by split. Qed.

(** The canonical key of an event does not cover its identifier, the legacy key covers its whole text:
    a second sending under another eventID adds a legacy row and a link, but no canonical row, and the
    results of its rules are those of an event that has no row. *)
Lemma second_legacy_row :
  let sv1 := fst (demo_ingested demo_receipt) in
  let '(sv2, r) := _ingest_single_event demo_request (demo_ingest "off" "2") "t1" (dict_set "eventID" (PStr "x") demo_receipt) sv1 in
  (cr_id <$> cte_events (c_legacy (sv_db sv2))) = ["leg-1"; "leg-2"] /\ length (hash_chain (c_legacy (sv_db sv2))) = 2%nat
  /\ (tr_event_id <$> c_events (sv_db sv2)) = ["can-1"] /\ exists payload, r = Answer (payload, 201%Z).
Proof. vm_compute. repeat split. by eexists. Qed.

(** ** Answers *)

(** An [extension] that is null crashes the checks, which reads as a missing database. *)
Lemma null_extension_unavailable :
  snd (demo_ingested (dict_set "extension" PNone (dict_set "ilmd" (PDict []) (demo_elements [demo_lot_element]))))
  = HTTPException 503 (PStr "Database unavailable — EPCIS ingest cannot proceed.").
Proof. vm_compute. reflexivity. Qed.

(** The checks do not read the eventTime: a text that is no moment, or one in the future, is an error of
    the server, and in the partial mode ends the request after earlier events were committed. *)
Definition demo_future : pydict := dict_set "eventTime" (PStr "9000000000@0") demo_receipt.
Lemma unread_time_crashes :
  (exists p, _prepare_event_for_persistence true "t1" demo_future = Answer p)
  /\ (exists m, snd (demo_ingested demo_future) = Crash (ValueError m))
  /\ let '(sv, r) := ingest_each (fun _ => demo_request) demo_envs "t1" 0 [demo_receipt; demo_future; demo_herbs PNone] (demo_service []) in
     length (c_events (sv_db sv)) = 1%nat /\ exists x, r = Crash x.
Proof. vm_compute. repeat split; by eexists. Qed.

(** The advisory mode: the legacy row is rejected and has no link, the canonical row is active, nothing
    in it tells of the failure, and the answer is that the event was created. *)
Definition demo_advisory : request_env :=
  RequestEnv false true None (GraphEnv true true 10 false false) false (FallbackEnv 10 "m1" "").
Lemma advisory_rows_differ :
  let '(sv, r) := _ingest_single_event demo_advisory (demo_ingest "off" "1") "t1" (demo_elements [[("quantity", PInt 5)]]) (demo_service []) in
  (cr_validation_status <$> cte_events (c_legacy (sv_db sv))) = ["rejected"] /\ hash_chain (c_legacy (sv_db sv)) = []
  /\ (tr_status <$> c_events (sv_db sv)) = ["active"] /\ (tr_kdes <$> c_events (sv_db sv)) = [PDict [("fsma:traceabilityLotCode", PStr "LOT-1")]]
  /\ exists payload, r = Answer (payload, 201%Z).
Proof. vm_compute. repeat split. by eexists. Qed.

(** What the write refuses the in-memory store takes: a step that is no tracking event, no quantity.  And
    a resend forgets the warning of the first answer. *)
Definition demo_stand_in : fallback_env := FallbackEnv 10 "m1" "".
Definition demo_growing : pydict := dict_set "quantityList" (PList []) (demo_step "urn:fsma:traceability:growing").
Definition status_of (r : http (pydict * Z)) : option (Z * pyval) :=
  match r with Answer (payload, status) => Some (status, dict_get payload "validation_status" PNone) | _ => None end.
Lemma stand_in_is_lax :
  (exists d, _prepare_event_for_persistence false "t1" demo_growing = HTTPException 422 d)
  /\ let '(fb, r) := _ingest_single_event_fallback demo_stand_in false "t1" demo_growing (Fallback [] []) in
     status_of r = Some (201%Z, PStr "warning")
     /\ status_of (snd (_ingest_single_event_fallback demo_stand_in false "t1" demo_growing fb)) = Some (200%Z, PStr "valid").
Proof. vm_compute. repeat split. by eexists. Qed.

(** The webhook model documents growing as accepted; neither store takes it. *)
Lemma growing_refused : (exists x, cte_type "growing" = Raise x) /\ exists x, _validate_event_type (PStr "growing") = Raise x.
Proof. split; eexists; vm_compute; reflexivity. Qed.
