(* ===== verification/ExceptionQueue.v ===== *)
(** * Exception cases

    [services/shared/exception_queue.py]: the queue of remediation work that failed rules open, with its
    comments and signoffs.  The three tables are the record [queue]; a method is a handler of Db.v, so
    its caller's transaction drops what a raising method wrote. *)

From Stdlib Require Import ZArith Lia String Ascii.
From stdpp Require Import base list strings relations.
From S2P Require Import Prelude PyStr Db PyFloat PyVal Rules Uom Relational Remediation CanonicalEvent CanonicalStore.

Local Open Scope string_scope.
Local Open Scope dbm_scope.

(** ** State *)

(** A row of [fsma.exception_cases]; times are microseconds. *)
Record exception_case := XCase {
  x_case_id : string; x_tenant_id : string; x_severity : string; x_status : string;
  x_linked_event_ids : list string; x_linked_rule_evaluation_ids : list string;
  x_owner_user_id : option string; x_due_date : option Z; x_source_supplier : option string;
  x_source_facility_reference : option string; x_rule_category : option string;
  x_recommended_remediation : option string; x_resolution_summary : option string;
  x_waiver_reason : option string; x_waiver_approved_by : option string; x_waiver_approved_at : option Z;
  x_request_case_id : option string; x_created_at : Z; x_updated_at : Z; x_resolved_at : option Z
}.

Record exception_comment := XComment {
  xm_id : string; xm_tenant_id : string; xm_case_id : string; xm_author_user_id : string;
  xm_comment_text : string; xm_comment_type : string; xm_created_at : Z
}.

Record exception_signoff := XSignoff {
  xs_id : string; xs_tenant_id : string; xs_case_id : string; xs_signoff_type : string;
  xs_signed_by : string; xs_signed_at : Z; xs_reason : option string
}.

Record queue := Queue {
  q_cases : list exception_case; q_comments : list exception_comment; q_signoffs : list exception_signoff
}.
Definition empty_queue : queue := Queue [] [] [].

(** The clock readings and the fresh identifiers of one call. *)
Record call := Call { cl_now : nat -> Z; cl_uuid : nat -> string }.

Definition SEVERITIES : list string := ["critical"; "warning"; "info"].
Definition STATUSES : list string := ["open"; "in_review"; "awaiting_supplier"; "resolved"; "waived"].
Definition COMMENT_TYPES : list string := ["note"; "status_change"; "assignment"; "supplier_response"; "system"].

(** Days, in microseconds. *)
Definition day : Z := 86400000000.
Definition SEVERITY_DUE_DAYS : list (string * Z) := [("critical", 3%Z); ("warning", 14%Z); ("info", 30%Z)].

(** [status IN ('resolved', 'waived')]. *)
Definition closed (c : exception_case) : bool := String.eqb (x_status c) "resolved" || String.eqb (x_status c) "waived".

(** The columns that the updates set. *)
Definition assigned (owner : string) (now : Z) (c : exception_case) : exception_case :=
  XCase (x_case_id c) (x_tenant_id c) (x_severity c) (if String.eqb (x_status c) "open" then "in_review" else x_status c)
    (x_linked_event_ids c) (x_linked_rule_evaluation_ids c) (Some owner) (x_due_date c) (x_source_supplier c)
    (x_source_facility_reference c) (x_rule_category c) (x_recommended_remediation c) (x_resolution_summary c) (x_waiver_reason c)
    (x_waiver_approved_by c) (x_waiver_approved_at c) (x_request_case_id c) (x_created_at c) now (x_resolved_at c).
Definition resolved (summary : string) (now : Z) (c : exception_case) : exception_case :=
  XCase (x_case_id c) (x_tenant_id c) (x_severity c) "resolved"
    (x_linked_event_ids c) (x_linked_rule_evaluation_ids c) (x_owner_user_id c) (x_due_date c) (x_source_supplier c)
    (x_source_facility_reference c) (x_rule_category c) (x_recommended_remediation c) (Some summary) (x_waiver_reason c)
    (x_waiver_approved_by c) (x_waiver_approved_at c) (x_request_case_id c) (x_created_at c) now (Some now).
Definition waived (reason approver : string) (now : Z) (c : exception_case) : exception_case :=
  XCase (x_case_id c) (x_tenant_id c) (x_severity c) "waived"
    (x_linked_event_ids c) (x_linked_rule_evaluation_ids c) (x_owner_user_id c) (x_due_date c) (x_source_supplier c)
    (x_source_facility_reference c) (x_rule_category c) (x_recommended_remediation c) (x_resolution_summary c) (Some reason)
    (Some approver) (Some now) (x_request_case_id c) (x_created_at c) now (Some now).
(** The mirror of a remediation case sets a status ([remediation/state.py]). *)
Definition mirrored (status : string) (now : Z) (c : exception_case) : exception_case :=
  XCase (x_case_id c) (x_tenant_id c) (x_severity c) status
    (x_linked_event_ids c) (x_linked_rule_evaluation_ids c) (x_owner_user_id c) (x_due_date c) (x_source_supplier c)
    (x_source_facility_reference c) (x_rule_category c) (x_recommended_remediation c) (x_resolution_summary c) (x_waiver_reason c)
    (x_waiver_approved_by c) (x_waiver_approved_at c) (x_request_case_id c) (x_created_at c) now (x_resolved_at c).

Definition set_cases (q : queue) (l : list exception_case) : queue := Queue l (q_comments q) (q_signoffs q).

(** [INSERT]: the primary key and the checks of the columns. *)
Definition insert {R} (key : R -> string) (checks : bool) (r : R) (t : list R) : res (list R) :=
  if negb checks then Raise (integrity_error "check constraint")
  else if existsb (fun x => String.eqb (key x) (key r)) t then Raise (integrity_error "duplicate key value violates unique constraint")
  else Ok (t ++ [r])%list.

(** [LIKE]: a percent sign stands for any text, an underscore for any character, a backslash quotes. *)
Fixpoint like (fuel : nat) (p s : string) : bool :=
  match fuel with
  | O => false
  | S fuel =>
      match p with
      | "" => String.eqb s ""
      | String c p' =>
          if Ascii.eqb c "%" then like fuel p' s || match s with String _ s' => like fuel p s' | "" => false end
          else if Ascii.eqb c "_" then match s with String _ s' => like fuel p' s' | "" => false end
          else
            let '(c, p') := match (if Ascii.eqb c "\" then p' else "") with String d p'' => (d, p'') | "" => (c, p') end in
            match s with String d s' => Ascii.eqb c d && like fuel p' s' | "" => false end
      end
  end.
Definition ilike (s : option string) (pattern : string) : bool :=
  match s with Some s => like (S (slen s + slen pattern)) (lower pattern) (lower s) | None => false end.

(** The order of the list: severity, due date with the undated last, newest first. *)
Definition severity_rank (s : string) : Z :=
  if String.eqb s "critical" then 1 else if String.eqb s "warning" then 2 else if String.eqb s "info" then 3 else 4.
Definition list_le (a b : exception_case) : bool :=
  if (severity_rank (x_severity a) <? severity_rank (x_severity b))%Z then true
  else if (severity_rank (x_severity b) <? severity_rank (x_severity a))%Z then false
  else match x_due_date a, x_due_date b with
       | Some x, Some y => if (x <? y)%Z then true else if (y <? x)%Z then false else (x_created_at b <=? x_created_at a)%Z
       | Some _, None => true
       | None, Some _ => false
       | None, None => (x_created_at b <=? x_created_at a)%Z
       end.

(** The filters of [list_exceptions]. *)
Record filters := Filters {
  fl_severity : option string; fl_status : option string; fl_source_supplier : option string; fl_due_before : option Z;
  fl_source_facility_reference : option string; fl_rule_category : option string
}.
Definition wanted {A} (f : option A) (p : A -> bool) : bool := match f with Some a => p a | None => true end.
Definition selected (f : filters) (c : exception_case) : bool :=
  wanted (fl_severity f) (String.eqb (x_severity c)) && wanted (fl_status f) (String.eqb (x_status c))
  && wanted (fl_source_supplier f) (fun s => ilike (x_source_supplier c) ("%" +:+ s +:+ "%"))
  && wanted (fl_due_before f) (fun d => match x_due_date c with Some x => (x <=? d)%Z | None => false end)
  && wanted (fl_source_facility_reference f) (fun s => ilike (x_source_facility_reference c) ("%" +:+ s +:+ "%"))
  && wanted (fl_rule_category f) (fun s => bool_decide (x_rule_category c = Some s)).

(** [_highest_severity]: the first of the severities with the least rank. *)
Definition highest_rank (s : string) : Z :=
  if String.eqb s "critical" then 0 else if String.eqb s "warning" then 1 else if String.eqb s "info" then 2 else 99.
Fixpoint _highest_severity (first : string) (rest : list string) : string :=
  match rest with
  | [] => first
  | s :: rest => _highest_severity (if (highest_rank s <? highest_rank first)%Z then s else first) rest
  end.

(** [by_category]: the failures of each category, categories in the order of their first failure. *)
Fixpoint group (r : RuleEvaluationResult) (by_category : list (string * list RuleEvaluationResult)) : list (string * list RuleEvaluationResult) :=
  match by_category with
  | [] => [(re_category r, [r])]
  | (c, l) :: rest => if String.eqb c (re_category r) then (c, l ++ [r])%list :: rest else (c, l) :: group r rest
  end.
Definition by_category (failures : list RuleEvaluationResult) : list (string * list RuleEvaluationResult) :=
  fold_left (fun m r => group r m) failures [].

Definition newline : string := String (char 10) "".
Definition remediation_part (f : RuleEvaluationResult) : list string :=
  if ostr_true (re_remediation_suggestion f) then ["[" +:+ re_rule_title f +:+ "] " +:+ default "" (re_remediation_suggestion f)]
  else if ostr_true (why_failed f) then ["[" +:+ re_rule_title f +:+ "] " +:+ default "" (why_failed f)] else [].
Definition recommended (failures : list RuleEvaluationResult) : option string :=
  match failures ≫= remediation_part with [] => None | parts => Some (str_join newline parts) end.

Section Queue.
Context `{RT : Runtime} `{PG : Postgres}.

(** A statement whose parameters the server casts. *)
Definition cast {A} (c : res A) : dbm queue A := fun q => (q, c).

(** [set_tenant_context], then the tenant of the statements. *)
Definition tenant_of (tenant_id : string) : dbm queue string :=
  cast (do _ <- set_tenant_context tenant_id; cast_uuid tenant_id).

Definition key_is (tid cid : string) (c : exception_case) : bool := String.eqb (x_case_id c) cid && String.eqb (x_tenant_id c) tid.

Definition get_exception (tenant_id case_id : string) : dbm queue (option exception_case) :=
  tid <~ tenant_of tenant_id ;;
  cid <~ cast (cast_uuid case_id) ;;
  dget (fun q => List.find (key_is tid cid) (q_cases q)).

(** The case must exist: the column references it. *)
Definition _add_comment (id : string) (now : Z) (tid cid author text type : string) : dbm queue exception_comment :=
  let m := XComment id tid cid author text type now in
  fun q => match insert xm_id (existsb (String.eqb type) COMMENT_TYPES && existsb (fun c => String.eqb (x_case_id c) cid) (q_cases q)) m (q_comments q) with
           | Ok l => (Queue (q_cases q) l (q_signoffs q), Ok m)
           | Raise e => (q, Raise e)
           end.
Definition _add_signoff (id : string) (now : Z) (tid cid type signed_by : string) (reason : option string) : dbm queue exception_signoff :=
  let s := XSignoff id tid cid type signed_by now reason in
  fun q => match insert xs_id (existsb (String.eqb type) ["review"; "approve"; "waive"; "reject"]
                               && existsb (fun c => String.eqb (x_case_id c) cid) (q_cases q)) s (q_signoffs q) with
           | Ok l => (Queue (q_cases q) (q_comments q) l, Ok s)
           | Raise e => (q, Raise e)
           end.

Definition due_after (severity : string) (now : Z) : Z := (now + default 14 (assoc severity SEVERITY_DUE_DAYS) * day)%Z.

Definition create_exception (cl : call) (tenant_id severity rule_category : string) (recommended_remediation : option string)
    (linked_event_ids linked_rule_evaluation_ids : list string) (source_supplier source_facility_reference : option string)
    (due_date : option Z) (request_case_id : option string) : dbm queue (option exception_case) :=
  tid <~ tenant_of tenant_id ;;
  let now := cl_now cl 0 in
  let due := match due_date with Some d => d | None => due_after severity now end in
  events <~ cast (rmapM cast_uuid linked_event_ids) ;;
  evaluations <~ cast (rmapM cast_uuid linked_rule_evaluation_ids) ;;
  request <~ cast (match request_case_id with Some r => do u <- cast_uuid r; Ok (Some u) | None => Ok None end) ;;
  let c := XCase (cl_uuid cl 0) tid severity "open" events evaluations None (Some due) source_supplier source_facility_reference
             (Some rule_category) recommended_remediation None None None None request now now None in
  (fun q => match insert x_case_id (existsb (String.eqb severity) SEVERITIES) c (q_cases q) with
            | Ok l => (set_cases q l, Ok tt)
            | Raise e => (q, Raise e)
            end) ;;;
  _add_comment (cl_uuid cl 1) (cl_now cl 1) tid (cl_uuid cl 0) "system"
    ("Exception case created. Severity: " +:+ severity +:+ ", Category: " +:+ rule_category +:+ ".") "system" ;;;
  dget (fun q => List.find (key_is tid (cl_uuid cl 0)) (q_cases q)).

Definition list_exceptions (tenant_id : string) (f : filters) (limit offset : nat) : dbm queue (list exception_case) :=
  tid <~ tenant_of tenant_id ;;
  dget (fun q => take limit (drop offset (order_by list_le (where_ (fun c => String.eqb (x_tenant_id c) tid && selected f c) (q_cases q))))).

Definition blocking (tid : string) (c : exception_case) : bool :=
  String.eqb (x_tenant_id c) tid && String.eqb (x_severity c) "critical" && negb (closed c).
Definition get_unresolved_blocking_count (tenant_id : string) : dbm queue nat :=
  tid <~ tenant_of tenant_id ;; dget (fun q => count_where (blocking tid) (q_cases q)).

Definition assign_owner (cl : call) (tenant_id case_id owner_user_id assigned_by : string) : dbm queue (option exception_case) :=
  tid <~ tenant_of tenant_id ;;
  cid <~ cast (cast_uuid case_id) ;;
  hits <~ dget (fun q => count_where (key_is tid cid) (q_cases q)) ;;
  if (hits =? 0)%nat then dret None
  else
    dmodify (fun q => set_cases q (update_where (key_is tid cid) (assigned owner_user_id (cl_now cl 0)) (q_cases q))) ;;;
    _add_comment (cl_uuid cl 0) (cl_now cl 1) tid cid assigned_by ("Case assigned to " +:+ owner_user_id +:+ ".") "assignment" ;;;
    get_exception tenant_id case_id.

(** The two ways to close a case: the guarded update, the signoff and the comment. *)
Definition close (cl : call) (tenant_id case_id : string) (f : Z -> exception_case -> exception_case)
    (signoff_type who reason comment : string) : dbm queue (option exception_case) :=
  tid <~ tenant_of tenant_id ;;
  cid <~ cast (cast_uuid case_id) ;;
  let hit := fun c => key_is tid cid c && negb (closed c) in
  hits <~ dget (fun q => count_where hit (q_cases q)) ;;
  if (hits =? 0)%nat then dret None
  else
    dmodify (fun q => set_cases q (update_where hit (f (cl_now cl 0)) (q_cases q))) ;;;
    _add_signoff (cl_uuid cl 0) (cl_now cl 1) tid cid signoff_type who (Some reason) ;;;
    _add_comment (cl_uuid cl 1) (cl_now cl 2) tid cid who (comment +:+ reason) "status_change" ;;;
    get_exception tenant_id case_id.

Definition resolve_exception (cl : call) (tenant_id case_id resolution_summary resolved_by : string) : dbm queue (option exception_case) :=
  close cl tenant_id case_id (resolved resolution_summary) "approve" resolved_by resolution_summary "Case resolved: ".
Definition waive_exception (cl : call) (tenant_id case_id waiver_reason waiver_approved_by : string) : dbm queue (option exception_case) :=
  close cl tenant_id case_id (waived waiver_reason waiver_approved_by) "waive" waiver_approved_by waiver_reason "Case waived: ".

Definition add_comment (cl : call) (tenant_id case_id author_user_id comment_text comment_type : string) : dbm queue exception_comment :=
  case <~ get_exception tenant_id case_id ;;
  match case with
  | None => draise (ValueError ("Exception case " +:+ case_id +:+ " not found for tenant " +:+ tenant_id))
  | Some c => _add_comment (cl_uuid cl 0) (cl_now cl 0) (x_tenant_id c) (x_case_id c) author_user_id comment_text comment_type
  end.

Definition list_comments (tenant_id case_id : string) : dbm queue (list exception_comment) :=
  tid <~ tenant_of tenant_id ;;
  cid <~ cast (cast_uuid case_id) ;;
  dget (fun q => order_by (fun a b => (xm_created_at a <=? xm_created_at b)%Z)
                   (where_ (fun m => String.eqb (xm_case_id m) cid && String.eqb (xm_tenant_id m) tid) (q_comments q))).

(** One case per category. *)
Definition failures_of (s : EvaluationSummary) : list RuleEvaluationResult := List.filter (fun r => String.eqb (result r) "fail") (results s).
Definition event_ids_of (s : EvaluationSummary) : res (list string) :=
  if truthy (Rules.event_id s) then do id <- match Rules.event_id s with PStr id => Ok id | v => bind_text v end; Ok [id] else Ok [].

Fixpoint create_cases (cl : nat -> call) (tenant_id : string) (event_ids : list string) (supplier facility : option string) (k : nat)
    (groups : list (string * list RuleEvaluationResult)) : dbm queue (list (option exception_case)) :=
  match groups with
  | [] => dret []
  | (category, failures) :: rest =>
      c <~ create_exception (cl k) tenant_id
             (match re_severity <$> failures with s :: l => _highest_severity s l | [] => "" end) category (recommended failures)
             event_ids (evaluation_id <$> failures) supplier facility None None ;;
      l <~ create_cases cl tenant_id event_ids supplier facility (S k) rest ;;
      dret (c :: l)
  end.
Definition create_exceptions_from_evaluation (cl : nat -> call) (tenant_id : string) (s : EvaluationSummary)
    (source_supplier source_facility_reference : option string) : dbm queue (list (option exception_case)) :=
  match failures_of s with
  | [] => dret []
  | failures =>
      event_ids <~ cast (event_ids_of s) ;;
      create_cases cl tenant_id event_ids source_supplier source_facility_reference 0 (by_category failures)
  end.

(** [_mirror_update] on this table, for the case that a remediation case names. *)
Definition mirror (tid cid status : string) (now : Z) : dbm queue unit :=
  dmodify (fun q => set_cases q (update_where (fun c => key_is tid cid c && negb (closed c)) (mirrored status now) (q_cases q))).
End Queue.

(** ** Facts *)

Lemma cast_ok {A} (c : res A) q q' a : cast c q = (q', Ok a) -> q' = q /\ c = Ok a.
Proof. by intros [= <- ->]. Qed.
Lemma dget_ok {A} (f : queue -> A) q q' a : dget f q = (q', Ok a) -> q' = q /\ a = f q.
Proof. by intros [= <- <-]. Qed.

(** Peel the first handler off a run that returned. *)
Ltac run H :=
  let q := fresh "q" in let a := fresh "a" in let H1 := fresh "H" in
  apply dbind_ok in H as (q & a & H1 & H);
  first [apply dget_ok in H1 as [-> ->] | apply cast_ok in H1 as [-> H1] | idtac].

Lemma insert_ok {R} key checks (r : R) t t' : insert key checks r t = Ok t' -> checks = true /\ key r ∉ (key <$> t) /\ t' = (t ++ [r])%list.
Proof.
  unfold insert. destruct checks; [|done]. cbn [negb]. destruct (existsb _ _) eqn:E; [done|]. intros [= <-]. split_and!; try done.
  intros (x & Hk & Hx)%list_elem_of_fmap. apply not_true_iff_false in E. apply E, existsb_exists. exists x.
  split; [by apply list_elem_of_In|]. by apply String.eqb_eq.
Qed.

Lemma find_app_fresh {R} (p : R -> bool) (t : list R) r : (forall x, x ∈ t -> p x = false) -> p r = true -> List.find p (t ++ [r])%list = Some r.
Proof.
  intros Ht Hr. induction t as [|x t IH]; cbn; [by rewrite Hr|]. rewrite Ht by left. apply IH. intros y Hy. apply Ht. by right.
Qed.
Lemma key_fresh tid cid q c : cid ∉ (x_case_id <$> q_cases q) -> c ∈ q_cases q -> key_is tid cid c = false.
Proof.
  intros Hn Hc. unfold key_is. destruct (String.eqb_spec (x_case_id c) cid) as [<-|]; [|done]. destruct Hn. by apply list_elem_of_fmap_2.
Qed.

Section Facts.
Context `{RT : Runtime} `{PG : Postgres}.

(** What the methods do to the tables. *)
Inductive change : queue -> queue -> Prop :=
| ch_open q c : x_status c = "open" -> x_severity c ∈ SEVERITIES -> x_case_id c ∉ (x_case_id <$> q_cases q) -> x_resolved_at c = None ->
    change q (set_cases q (q_cases q ++ [c])%list)
| ch_comment q m : change q (Queue (q_cases q) (q_comments q ++ [m])%list (q_signoffs q))
| ch_assign q tid cid owner now : change q (set_cases q (update_where (key_is tid cid) (assigned owner now) (q_cases q)))
| ch_mirror q tid cid status now : status ∈ ["awaiting_supplier"; "in_review"] ->
    change q (set_cases q (update_where (fun c => key_is tid cid c && negb (closed c)) (mirrored status now) (q_cases q)))
| ch_close q tid cid f s c : c ∈ q_cases q -> key_is tid cid c = true -> closed c = false ->
    xs_case_id s = cid -> xs_tenant_id s = tid ->
    ((exists now, f = resolved (default "" (xs_reason s)) now /\ xs_signoff_type s = "approve")
     \/ exists now, f = waived (default "" (xs_reason s)) (xs_signed_by s) now /\ xs_signoff_type s = "waive") ->
    is_Some (xs_reason s) ->
    change q (Queue (update_where (fun c => key_is tid cid c && negb (closed c)) f (q_cases q)) (q_comments q) (q_signoffs q ++ [s])%list).

Lemma add_comment_change id now tid cid author text type q q' m :
  _add_comment id now tid cid author text type q = (q', Ok m) -> q' = Queue (q_cases q) (q_comments q ++ [m])%list (q_signoffs q).
Proof. unfold _add_comment. destruct (insert _ _ _ _) as [l|e] eqn:E; [|done]. intros [= <- <-]. by apply insert_ok in E as (_ & _ & ->). Qed.

Lemma get_exception_same t c q q' r : get_exception t c q = (q', Ok r) -> q' = q.
Proof. unfold get_exception, tenant_of. intros H. run H. run H. by apply dget_ok in H as [-> _]. Qed.

Lemma create_change cl t sev cat rem evs evals sup fac due req q q' r : create_exception cl t sev cat rem evs evals sup fac due req q = (q', Ok r) ->
  exists tid events evaluations request c m,
    cast_uuid t = Ok tid /\ rmapM cast_uuid evs = Ok events /\ rmapM cast_uuid evals = Ok evaluations
    /\ c = XCase (cl_uuid cl 0) tid sev "open" events evaluations None (Some (match due with Some d => d | None => due_after sev (cl_now cl 0) end))
             sup fac (Some cat) rem None None None None request (cl_now cl 0) (cl_now cl 0) None
    /\ sev ∈ SEVERITIES /\ x_case_id c ∉ (x_case_id <$> q_cases q)
    /\ q' = Queue (q_cases q ++ [c])%list (q_comments q ++ [m])%list (q_signoffs q) /\ r = Some c.
Proof.
  unfold create_exception, tenant_of. intros H. run H. apply rbind_Ok_inv in H0 as (_ & _ & Ht). run H. run H. run H.
  apply dbind_ok in H as (q1 & [] & Hins & H). destruct (insert x_case_id _ _ _) as [l|e] eqn:Ei; [|done]. injection Hins as <-.
  apply insert_ok in Ei as (Hs & Hn & ->). apply existsb_In_eqb, list_elem_of_In in Hs.
  apply dbind_ok in H as (q2 & m & Hm%add_comment_change & H). apply dget_ok in H as [-> ->]. subst q2. cbn [q_cases set_cases q_comments q_signoffs] in *.
  do 6 eexists. split_and!; try done. cbn. apply find_app_fresh.
  - intros x Hx. by eapply key_fresh.
  - unfold key_is. cbn. by rewrite !String.eqb_refl.
Qed.
Lemma assign_change cl t c owner by_ q q' r : assign_owner cl t c owner by_ q = (q', Ok r) -> rtc change q q'.
Proof.
  unfold assign_owner, tenant_of. intros H. run H. run H. run H. destruct (_ =? 0)%nat; [by injection H as <- _|].
  apply dbind_ok in H as (q1 & [] & [= <-] & H). apply dbind_ok in H as (q2 & m & ->%add_comment_change & H).
  apply get_exception_same in H as ->. eapply rtc_l; [apply ch_assign|]. eapply rtc_l; [apply ch_comment|]. apply rtc_refl.
Qed.

Lemma count_some {R} (p : R -> bool) (t : list R) : (count_where p t =? 0)%nat = false -> exists r, r ∈ t /\ p r = true.
Proof. intros H%Nat.eqb_neq. apply count_where_pos. lia. Qed.

Lemma close_change cl t c f type who reason comment q q' r : close cl t c f type who reason comment q = (q', Ok r) ->
  (forall now, f now = resolved reason now) /\ type = "approve" \/ (forall now, f now = waived reason who now) /\ type = "waive" ->
  rtc change q q'.
Proof.
  unfold close, tenant_of. intros H Hf. run H. run H. run H. destruct (_ =? 0)%nat eqn:Eh; [by injection H as <- _|].
  apply count_some in Eh as (x & Hx & [Hk Ho%negb_true_iff]%andb_true_iff).
  apply dbind_ok in H as (q1 & [] & [= <-] & H). apply dbind_ok in H as (q2 & s & Hs & H).
  apply dbind_ok in H as (q3 & m & ->%add_comment_change & H). apply get_exception_same in H as ->.
  unfold _add_signoff in Hs. destruct (insert xs_id _ _ _) as [l|e] eqn:E; [|done]. injection Hs as <- <-. apply insert_ok in E as (_ & _ & ->).
  eapply rtc_l; [|eapply rtc_l; [apply ch_comment|apply rtc_refl]]. eapply (ch_close q a a0 (f (cl_now cl 0))); try done.
  destruct Hf as [[-> ->]|[-> ->]]; [left|right]; by eexists.
Qed.

Lemma add_comment_changes cl t c who text type q q' r : add_comment cl t c who text type q = (q', Ok r) -> rtc change q q'.
Proof.
  unfold add_comment. intros H. apply dbind_ok in H as (q1 & x & ->%get_exception_same & H). destruct x as [x|]; [|done].
  apply add_comment_change in H as ->. apply rtc_once, ch_comment.
Qed.

Lemma create_changes cl t sev cat rem evs evals sup fac due req q q' r :
  create_exception cl t sev cat rem evs evals sup fac due req q = (q', Ok r) -> rtc change q q'.
Proof.
  intros (tid & ? & ? & ? & c & m & _ & _ & _ & Hc & Hs & Hn & -> & _)%create_change.
  eapply rtc_l; [by apply (ch_open q c); subst c|]. eapply rtc_l; [apply ch_comment|]. apply rtc_refl.
Qed.

Lemma create_cases_changes cl t ids sup fac groups k q q' r : create_cases cl t ids sup fac k groups q = (q', Ok r) -> rtc change q q'.
Proof.
  revert k q q' r. induction groups as [|[cat fs] groups IH]; intros k q q' r; cbn [create_cases]; [by intros [= <- _]|].
  intros (q1 & c & Hc%create_changes & H)%dbind_ok. apply dbind_ok in H as (q2 & l & Hl%IH & H). injection H as <- _. by etrans.
Qed.

(** A method that returned. *)
Inductive queue_step : queue -> queue -> Prop :=
| qs_create cl t sev cat rem evs evals sup fac due req q q' r :
    create_exception cl t sev cat rem evs evals sup fac due req q = (q', Ok r) -> queue_step q q'
| qs_evaluation cl t s sup fac q q' r : create_exceptions_from_evaluation cl t s sup fac q = (q', Ok r) -> queue_step q q'
| qs_assign cl t c owner by_ q q' r : assign_owner cl t c owner by_ q = (q', Ok r) -> queue_step q q'
| qs_resolve cl t c summary by_ q q' r : resolve_exception cl t c summary by_ q = (q', Ok r) -> queue_step q q'
| qs_waive cl t c reason by_ q q' r : waive_exception cl t c reason by_ q = (q', Ok r) -> queue_step q q'
| qs_comment cl t c who text type q q' r : add_comment cl t c who text type q = (q', Ok r) -> queue_step q q'
| qs_mirror tid cid status now q q' r : status ∈ snd <$> _EXCEPTION_MIRROR -> mirror tid cid status now q = (q', Ok r) -> queue_step q q'.

Lemma step_changes q q' : queue_step q q' -> rtc change q q'.
Proof.
  intros [cl t sev cat rem evs evals sup fac due req q1 q2 r H | cl t s sup fac q1 q2 r H | cl t c owner by_ q1 q2 r H
    | cl t c summary by_ q1 q2 r H | cl t c reason by_ q1 q2 r H | cl t c who text type q1 q2 r H | tid cid status now q1 q2 r Hs H].
  - by eapply create_changes.
  - unfold create_exceptions_from_evaluation in H. destruct (failures_of s); [by injection H as <- _|]. run H. by eapply create_cases_changes.
  - by eapply assign_change.
  - eapply close_change; [exact H|]. by left.
  - eapply close_change; [exact H|]. by right.
  - by eapply add_comment_changes.
  - injection H as <- _. apply rtc_once, ch_mirror. cbn in Hs. set_solver.
Qed.

(** ** Invariants *)

(** The decision that closed a case, and the signoff that says so. *)
Definition evidence (c : exception_case) (s : exception_signoff) : Prop :=
  xs_tenant_id s = x_tenant_id c /\ x_resolved_at c <> None
  /\ ((xs_signoff_type s = "approve" /\ x_status c = "resolved" /\ x_resolution_summary c = xs_reason s)
      \/ (xs_signoff_type s = "waive" /\ x_status c = "waived" /\ x_waiver_reason c = xs_reason s
          /\ x_waiver_approved_by c = Some (xs_signed_by s))).
Definition signoffs_of (q : queue) (id : string) : list exception_signoff := where_ (fun s => String.eqb (xs_case_id s) id) (q_signoffs q).
Definition case_ok (q : queue) (c : exception_case) : Prop :=
  x_severity c ∈ SEVERITIES /\ x_status c ∈ STATUSES
  /\ if closed c then exists s, signoffs_of q (x_case_id c) = [s] /\ evidence c s
     else signoffs_of q (x_case_id c) = [] /\ x_resolved_at c = None.
Record queue_ok (q : queue) : Prop := {
  qo_ids : NoDup (x_case_id <$> q_cases q);
  qo_cases : Forall (case_ok q) (q_cases q);
  qo_signoffs : Forall (fun s => xs_case_id s ∈ (x_case_id <$> q_cases q)) (q_signoffs q)
}.

(** What a decision fixes. *)
Definition same_decision (c c' : exception_case) : Prop :=
  x_case_id c' = x_case_id c /\ x_tenant_id c' = x_tenant_id c /\ x_severity c' = x_severity c /\ x_status c' = x_status c
  /\ x_linked_event_ids c' = x_linked_event_ids c /\ x_resolution_summary c' = x_resolution_summary c /\ x_waiver_reason c' = x_waiver_reason c
  /\ x_waiver_approved_by c' = x_waiver_approved_by c /\ x_resolved_at c' = x_resolved_at c.
Definition decisions_kept (q q' : queue) : Prop :=
  forall c, c ∈ q_cases q -> closed c = true -> exists c', c' ∈ q_cases q' /\ same_decision c c'.

Lemma same_decision_closed c c' : same_decision c c' -> closed c' = closed c.
Proof. intros (_ & _ & _ & H & _). unfold closed. by rewrite H. Qed.

Lemma decisions_trans q1 q2 q3 : decisions_kept q1 q2 -> decisions_kept q2 q3 -> decisions_kept q1 q3.
Proof.
  intros H1 H2 c Hc Ho. destruct (H1 c Hc Ho) as (c2 & Hc2 & E2). destruct (H2 c2 Hc2) as (c3 & Hc3 & E3); [by rewrite (same_decision_closed _ _ E2)|].
  exists c3. split; [done|]. unfold same_decision in *. intuition congruence.
Qed.

Lemma assigned_ok owner now c : closed (assigned owner now c) = closed c /\ (closed c = true -> same_decision c (assigned owner now c))
  /\ (x_status c ∈ STATUSES -> x_status (assigned owner now c) ∈ STATUSES).
Proof.
  unfold assigned, closed, same_decision. cbn. destruct (String.eqb_spec (x_status c) "open") as [->|]; cbn; [|done].
  split_and!; [done|done|]. intros _. unfold STATUSES. set_solver.
Qed.

Lemma update_key_same tid cid (f : exception_case -> exception_case) t : (forall c, x_case_id (f c) = x_case_id c) ->
  x_case_id <$> update_where (key_is tid cid) f t = x_case_id <$> t.
Proof. apply update_where_key. Qed.

(** An update that keeps identifiers, signoffs and decisions. *)
Lemma update_ok q p f : queue_ok q -> (forall c, x_case_id (f c) = x_case_id c) ->
  (forall c, c ∈ q_cases q -> p c = true -> case_ok q c -> case_ok q (f c) /\ (closed c = true -> same_decision c (f c))) ->
  queue_ok (set_cases q (update_where p f (q_cases q))) /\ decisions_kept q (set_cases q (update_where p f (q_cases q))).
Proof.
  intros [K1 K2 K3] Hid Hf. split.
  - split; cbn; rewrite ?(update_where_key x_case_id) by done; try done.
    apply Forall_update_where; [by eapply Forall_impl; [exact K2|]|]. intros c Hc Hp Hk. by apply (Hf c Hc Hp).
  - intros c Hc Ho. rewrite Forall_forall in K2. exists (if p c then f c else c). split.
    + apply elem_of_update_where. by exists c.
    + destruct (p c) eqn:Ep; [|unfold same_decision; tauto]. apply (Hf c Hc Ep); [by apply K2|done].
Qed.

Lemma where_snoc {R} (p : R -> bool) t r : where_ p (t ++ [r])%list = (where_ p t ++ if p r then [r] else [])%list.
Proof. unfold where_. rewrite List.filter_app. cbn. by destruct (p r). Qed.

Lemma close_ok q tid cid f s c : queue_ok q -> c ∈ q_cases q -> key_is tid cid c = true -> closed c = false -> xs_case_id s = cid ->
  (forall c, x_case_id (f c) = x_case_id c /\ x_severity (f c) = x_severity c) ->
  x_status (f c) ∈ STATUSES -> closed (f c) = true -> evidence (f c) s ->
  let q' := Queue (update_where (fun c => key_is tid cid c && negb (closed c)) f (q_cases q)) (q_comments q) (q_signoffs q ++ [s])%list in
  queue_ok q' /\ decisions_kept q q'.
Proof.
  intros [K1 K2 K3] Hc Hk Ho Hs Hf Hst Hcl Hev q'. assert (Hid : x_case_id c = cid) by (unfold key_is in Hk; by reflect_bools).
  assert (Honly : forall x, x ∈ q_cases q -> x_case_id x = cid -> x = c) by (intros x Hx Ex; apply (key_unique x_case_id (q_cases q)); congruence).
  assert (Hoff : signoffs_of q cid = []).
  { rewrite Forall_forall in K2. destruct (K2 c Hc) as (_ & _ & H). rewrite Ho, Hid in H. by destruct H. }
  split; [split|].
  - cbn. by rewrite (update_where_key x_case_id) by apply Hf.
  - cbn. apply Forall_forall. intros x' (x & Hx & ->)%elem_of_update_where. rewrite Forall_forall in K2. specialize (K2 x Hx).
    destruct (key_is tid cid x && negb (closed x)) eqn:E.
    + apply andb_true_iff in E as [E _]. assert (Ex : x_case_id x = cid) by (unfold key_is in E; by reflect_bools).
      rewrite (Honly x Hx Ex) in *. split_and!; [by rewrite (proj2 (Hf c)); apply K2|done|]. rewrite Hcl, (proj1 (Hf c)), Hid.
      exists s. split; [|done]. unfold signoffs_of in *. cbn. by rewrite where_snoc, Hoff, Hs, String.eqb_refl.
    + destruct (decide (x_case_id x = cid)) as [Ex|Ex].
      { rewrite (Honly x Hx Ex) in E. by rewrite Hk, Ho in E. }
      unfold case_ok, signoffs_of in *. cbn. rewrite where_snoc. rewrite Hs. destruct (String.eqb_spec cid (x_case_id x)); [congruence|]. by rewrite app_nil_r.
  - cbn. apply Forall_app. rewrite (update_where_key x_case_id) by apply Hf. split; [done|]. constructor; [|done]. rewrite Hs, <- Hid. by apply list_elem_of_fmap_2.
  - intros x Hx Hox. exists x. split; [|unfold same_decision; tauto]. cbn. apply elem_of_update_where. exists x. split; [done|]. by rewrite Hox, andb_false_r.
Qed.

Lemma change_ok q q' : change q q' -> queue_ok q -> queue_ok q' /\ decisions_kept q q'.
Proof.
  intros [q1 c Hst Hsev Hn Hr | q1 m | q1 tid cid owner now | q1 tid cid status now Hs | q1 tid cid f s c Hc Hk Ho Hs Ht Hf Hre] K.
  - destruct K as [K1 K2 K3]. split; [split|]; cbn.
    + rewrite fmap_app. apply NoDup_app. split_and!; [done| |apply NoDup_singleton]. intros x Hx ->%list_elem_of_singleton. done.
    + apply Forall_app. split; [done|]. constructor; [|done]. split_and!; [done|rewrite Hst; unfold STATUSES; set_solver|].
      unfold closed. rewrite Hst. cbn. split; [|done]. unfold signoffs_of, where_. cbn.
      rewrite Forall_forall in K3. destruct (List.filter _ (q_signoffs q1)) as [|s l] eqn:E; [done|]. exfalso.
      assert (Hin : In s (List.filter (fun s => String.eqb (xs_case_id s) (x_case_id c)) (q_signoffs q1))) by (rewrite E; by left).
      apply filter_In in Hin as [Hin He%String.eqb_eq]. apply Hn. rewrite <- He. apply K3. by apply list_elem_of_In.
    + eapply Forall_impl; [exact K3|]. intros s Hs. cbn. rewrite fmap_app. apply elem_of_app. by left.
    + intros x Hx _. exists x. cbn. split; [apply elem_of_app; by left|]. unfold same_decision. tauto.
  - destruct K as [K1 K2 K3]. split; [by split|]. intros x Hx _. exists x. split; [done|]. unfold same_decision. tauto.
  - apply update_ok; [done|done|]. intros c Hc _ (Hsev & Hst & Hd). destruct (assigned_ok owner now c) as (Hcl & Hsame & Hstat).
    split; [|done]. split_and!; [done|by apply Hstat|]. rewrite Hcl. destruct (closed c) eqn:Eo; [|done].
    destruct Hd as (s & Hs & He1 & He2 & He3). exists s. split; [done|]. destruct (Hsame eq_refl) as (_ & _ & _ & Es & _).
    unfold evidence. rewrite Es. cbn. done.
  - apply update_ok; [done|done|]. intros c Hc [_ Ho%negb_true_iff]%andb_true_iff (Hsev & Hst & Hd). rewrite Ho in Hd. split; [|by rewrite Ho].
    assert (Hnc : closed (mirrored status now c) = false) by (unfold closed; cbn; apply elem_of_cons in Hs as [->|[->|[]%elem_of_nil]%elem_of_cons]; done).
    split_and!; [done|cbn; unfold STATUSES; set_solver|]. by rewrite Hnc.
  - destruct Hre as [reason Hre]. assert (Htid : x_tenant_id c = tid) by (unfold key_is in Hk; by reflect_bools).
    destruct Hf as [(now & -> & Hty)|(now & -> & Hty)]; rewrite Hre; (apply (close_ok q1 tid cid _ s c); try done;
      [cbn; unfold STATUSES; set_solver | unfold evidence; cbn; rewrite Hre; split; [by rewrite Ht|split; [done|]]]).
    + by left.
    + by right.
Qed.

Lemma changes_ok q q' : rtc change q q' -> queue_ok q -> queue_ok q' /\ decisions_kept q q'.
Proof.
  induction 1 as [q|q1 q2 q3 H _ IH]; intros K.
  - split; [done|]. intros c Hc _. exists c. split; [done|]. unfold same_decision. tauto.
  - destruct (change_ok _ _ H K) as [K2 D2]. destruct (IH K2) as [K3 D3]. split; [done|]. by eapply decisions_trans.
Qed.

(** What no call changes of a case. *)
Definition same_links (c c' : exception_case) : Prop :=
  x_case_id c' = x_case_id c /\ x_tenant_id c' = x_tenant_id c /\ x_severity c' = x_severity c /\ x_linked_event_ids c' = x_linked_event_ids c
  /\ x_request_case_id c' = x_request_case_id c /\ x_rule_category c' = x_rule_category c
  /\ x_linked_rule_evaluation_ids c' = x_linked_rule_evaluation_ids c.
Definition links_kept (q q' : queue) : Prop := forall c, c ∈ q_cases q -> exists c', c' ∈ q_cases q' /\ same_links c c'.

Lemma update_links q p f : (forall c, same_links c (f c)) -> forall c, c ∈ q_cases q -> exists c', c' ∈ update_where p f (q_cases q) /\ same_links c c'.
Proof.
  intros Hf c Hc. exists (if p c then f c else c). split; [apply elem_of_update_where; by exists c|]. destruct (p c); [by apply Hf|]. unfold same_links. tauto.
Qed.

Lemma change_links q q' : change q q' -> links_kept q q'.
Proof.
  intros [q1 c Hst Hsev Hn Hr | q1 m | q1 tid cid owner now | q1 tid cid status now Hs | q1 tid cid f s c Hc Hk Ho Hs Ht Hf Hre]; unfold links_kept; cbn.
  - intros x Hx. exists x. split; [apply elem_of_app; by left|]. unfold same_links. tauto.
  - intros x Hx. exists x. split; [done|]. unfold same_links. tauto.
  - by apply update_links.
  - by apply update_links.
  - apply update_links. intros x. by destruct Hf as [(now & -> & _)|(now & -> & _)].
Qed.

Lemma changes_links q q' : rtc change q q' -> links_kept q q'.
Proof.
  induction 1 as [q|q1 q2 q3 H _ IH]; intros c Hc.
  - exists c. split; [done|]. unfold same_links. tauto.
  - destruct (change_links _ _ H c Hc) as (c2 & Hc2 & E2). destruct (IH c2 Hc2) as (c3 & Hc3 & E3). exists c3. split; [done|].
    unfold same_links in *. intuition congruence.
Qed.
Lemma steps_links q q' : rtc queue_step q q' -> links_kept q q'.
Proof.
  intros H. apply changes_links. induction H as [|q1 q2 q3 H _ IH]; [apply rtc_refl|]. etrans; [by apply step_changes|done].
Qed.

Lemma empty_queue_ok : queue_ok empty_queue.
Proof. split; constructor. Qed.

Lemma served_ok q : rtc queue_step empty_queue q -> queue_ok q.
Proof.
  intros H. cut (forall q0, rtc queue_step q0 q -> queue_ok q0 -> queue_ok q); [intros Hc; by apply (Hc empty_queue), empty_queue_ok|].
  clear H. induction 1 as [|q1 q2 q3 H _ IH]; [done|]. intros K. apply IH. by apply (changes_ok _ _ (step_changes _ _ H)).
Qed.
End Facts.

(** ** Groups of failures *)

Definition of_category (category : string) (r : RuleEvaluationResult) : bool := String.eqb category (re_category r).
Record grouped (m : list (string * list RuleEvaluationResult)) (fs : list RuleEvaluationResult) : Prop := {
  gr_keys : NoDup (fst <$> m);
  gr_lists : Forall (fun e => snd e = where_ (of_category (fst e)) fs /\ snd e <> []) m;
  gr_all : Forall (fun r => re_category r ∈ (fst <$> m)) fs
}.

Lemma group_keys r m : fst <$> group r m = if existsb (fun e => String.eqb (fst e) (re_category r)) m then fst <$> m else ((fst <$> m) ++ [re_category r])%list.
Proof.
  induction m as [|[c l] m IH]; cbn; [done|]. destruct (String.eqb c (re_category r)); cbn; [done|]. rewrite IH. by destruct (existsb _ m).
Qed.

Lemma group_elem r m c l : NoDup (fst <$> m) -> (c, l) ∈ group r m ->
  (c <> re_category r /\ (c, l) ∈ m) \/ (c = re_category r /\ exists l0, l = (l0 ++ [r])%list /\ ((c, l0) ∈ m \/ l0 = [] /\ re_category r ∉ (fst <$> m))).
Proof.
  induction m as [|[c0 l0] m IH]; cbn; intros Hd.
  - intros [= -> ->]%list_elem_of_singleton. right. split; [done|]. exists []. split; [done|]. right. split; [done|]. apply not_elem_of_nil.
  - apply NoDup_cons in Hd as [Hn Hd]. destruct (String.eqb_spec c0 (re_category r)) as [->|Hne]; intros [[= -> ->]|Hin]%elem_of_cons.
    + right. split; [done|]. exists l0. split; [done|]. left. by left.
    + left. split; [|by right]. intros ->. by apply Hn, (list_elem_of_fmap_2 fst _ (re_category r, l)).
    + left. split; [done|]. by left.
    + destruct (IH Hd Hin) as [[H1 H2]|(-> & l1 & -> & H)]; [left; split; [done|by right]|]. right. split; [done|]. exists l1. split; [done|].
      destruct H as [H|[-> H]]; [left; by right|right]. split; [done|]. by apply not_elem_of_cons.
Qed.

Lemma group_grouped r m fs : grouped m fs -> grouped (group r m) (fs ++ [r])%list.
Proof.
  intros [K1 K2 K3]. rewrite Forall_forall in K2. split.
  - rewrite group_keys. destruct (existsb _ m) eqn:E; [done|]. apply NoDup_app. split_and!; [done| |apply NoDup_singleton].
    intros c Hc ->%list_elem_of_singleton. apply not_true_iff_false in E. apply E, existsb_exists.
    apply list_elem_of_fmap in Hc as (e & He & Hin). exists e. split; [by apply list_elem_of_In|]. by apply String.eqb_eq.
  - apply Forall_forall. intros [c l] Hin. cbn [fst snd]. rewrite where_snoc. unfold of_category at 2.
    destruct (group_elem _ _ _ _ K1 Hin) as [[Hne H]|(-> & l0 & -> & H)].
    + destruct (String.eqb_spec c (re_category r)); [done|]. rewrite app_nil_r. by apply (K2 (c, l)).
    + rewrite String.eqb_refl. split; [|by destruct l0]. f_equal. destruct H as [H|[-> H]]; [by apply (K2 (re_category r, l0))|].
      rewrite Forall_forall in K3. unfold where_. destruct (List.filter _ fs) as [|x l] eqn:E; [done|]. exfalso.
      assert (Hx : In x (List.filter (of_category (re_category r)) fs)) by (rewrite E; by left). apply filter_In in Hx as [Hx Hc%String.eqb_eq].
      apply H. rewrite Hc. apply K3. by apply list_elem_of_In.
  - rewrite group_keys. apply Forall_app. split.
    + eapply Forall_impl; [exact K3|]. intros x Hx. cbn in Hx |- *. destruct (existsb _ m); [done|]. apply elem_of_app. by left.
    + constructor; [|done]. destruct (existsb _ m) eqn:E; [|apply elem_of_app; right; by left].
      apply existsb_exists in E as (e & He & <-%String.eqb_eq). apply list_elem_of_fmap_2. by apply list_elem_of_In.
Qed.

Lemma by_category_grouped fs : grouped (by_category fs) fs.
Proof.
  induction fs as [|r fs IH] using rev_ind; [split; constructor|]. unfold by_category. rewrite fold_left_app. cbn. by apply group_grouped.
Qed.

Lemma highest_spec first rest : _highest_severity first rest ∈ (first :: rest)
  /\ Forall (fun s => (highest_rank (_highest_severity first rest) <= highest_rank s)%Z) (first :: rest).
Proof.
  revert first. induction rest as [|s rest IH]; intros first; cbn [_highest_severity].
  - split; [by left|]. constructor; [lia|done].
  - destruct (Z.ltb_spec (highest_rank s) (highest_rank first)) as [Hlt|Hge].
    + destruct (IH s) as [H1 H2]. split; [by right|]. apply Forall_cons in H2 as [H2 H3]. do 2 (constructor; [lia|]). done.
    + destruct (IH first) as [H1 H2]. apply Forall_cons in H2 as [H2 H3]. split.
      * apply elem_of_cons in H1 as [->|H1]; [by left|]. by do 2 right.
      * do 2 (constructor; [lia|]). done.
Qed.

Section Evaluation.
Context `{RT : Runtime} `{PG : Postgres}.

(** The case that a group of failures opens. *)
Definition opened_by (t : string) (ids : list string) (category : string) (fs : list RuleEvaluationResult) (c : exception_case) : Prop :=
  cast_uuid t = Ok (x_tenant_id c) /\ x_rule_category c = Some category /\ x_status c = "open"
  /\ rmapM cast_uuid ids = Ok (x_linked_event_ids c) /\ rmapM cast_uuid (evaluation_id <$> fs) = Ok (x_linked_rule_evaluation_ids c)
  /\ (fs <> [] -> x_severity c ∈ (re_severity <$> fs) /\ Forall (fun f => (highest_rank (x_severity c) <= highest_rank (re_severity f))%Z) fs)
  /\ x_recommended_remediation c = recommended fs.

Lemma create_cases_new cl t ids sup fac groups k q q' r : create_cases cl t ids sup fac k groups q = (q', Ok r) ->
  exists new ms, q' = Queue (q_cases q ++ new)%list (q_comments q ++ ms)%list (q_signoffs q) /\ r = Some <$> new
    /\ Forall2 (fun g c => opened_by t ids (fst g) (snd g) c) groups new.
Proof.
  revert k q q' r. induction groups as [|[cat fs] groups IH]; intros k q q' r; cbn [create_cases].
  - intros [= <- <-]. exists [], []. rewrite !app_nil_r. by destruct q.
  - intros (q1 & c & Hc & H)%dbind_ok. apply dbind_ok in H as (q2 & l & Hl & H). injection H as <- <-.
    apply create_change in Hc as (tid & ev & el & req & x & m & Ht & He & Hl' & Hx & _ & _ & -> & ->).
    destruct (IH _ _ _ _ Hl) as (new & ms & -> & -> & Hall). exists (x :: new), (m :: ms). cbn. rewrite <- !app_assoc.
    split; [done|]. split; [done|]. constructor; [|done]. subst x. unfold opened_by. cbn. split_and!; try done.
    intros Hne. destruct fs as [|f fs]; [done|]. cbn. pose proof (highest_spec (re_severity f) (re_severity <$> fs)) as [H1 H2].
    split; [done|]. change (re_severity f :: (re_severity <$> fs)) with (re_severity <$> (f :: fs)) in H2. by rewrite Forall_fmap in H2.
Qed.

Lemma evaluation_new cl t s sup fac q q' r : create_exceptions_from_evaluation cl t s sup fac q = (q', Ok r) ->
  exists ids new ms, (failures_of s <> [] -> event_ids_of s = Ok ids) /\ r = Some <$> new
    /\ q' = Queue (q_cases q ++ new)%list (q_comments q ++ ms)%list (q_signoffs q)
    /\ Forall2 (fun g c => opened_by t ids (fst g) (snd g) c) (by_category (failures_of s)) new.
Proof.
  unfold create_exceptions_from_evaluation. destruct (failures_of s) as [|f0 fs0].
  { intros [= <- <-]. exists [], [], []. rewrite !app_nil_r. by destruct q. }
  intros H. run H. destruct (create_cases_new _ _ _ _ _ _ _ _ _ _ H) as (new & ms & -> & -> & Hall). by exists a, new, ms.
Qed.

(** The case of a failure. *)
Lemma failure_case t ids fs new f : Forall2 (fun g c => opened_by t ids (fst g) (snd g) c) (by_category fs) new -> f ∈ fs ->
  exists c, c ∈ new /\ f ∈ where_ (of_category (re_category f)) fs /\ opened_by t ids (re_category f) (where_ (of_category (re_category f)) fs) c.
Proof.
  intros Hall Hf. destruct (by_category_grouped fs) as [K1 K2 K3]. rewrite Forall_forall in K2. rewrite Forall_forall in K3.
  specialize (K3 f Hf). apply list_elem_of_fmap in K3 as ([cat l] & Hc & Hin). cbn in Hc. subst cat. destruct (K2 _ Hin) as [Hl _]. cbn in Hl.
  apply list_elem_of_lookup in Hin as [i Hi]. destruct (Forall2_lookup_l _ _ _ _ _ Hall Hi) as (c & Hc & Ho). cbn in Ho. rewrite Hl in Ho.
  exists c. split; [by eapply list_elem_of_lookup_2|]. split; [|done]. apply elem_of_where. split; [done|]. apply String.eqb_refl.
Qed.

(** C25. Failed rules become cases.  An evaluation that returned has appended one open case per category
    of its failures and nothing else; each failed result is linked in the case of its category, whose
    severity is that of one of its failures and at least as high as every one; the case links the event
    and recommends what its failures suggest.  Passes, warnings and errors open none.  (The date it is
    due is not part of the claim: the comment on the days of a severity says business days, the code adds
    calendar days.) *)
Theorem failures_become_cases cl t s sup fac q q' r :
  create_exceptions_from_evaluation cl t s sup fac q = (q', Ok r) ->
  exists new, q_cases q' = (q_cases q ++ new)%list /\ r = Some <$> new /\ q_signoffs q' = q_signoffs q
    /\ NoDup (x_rule_category <$> new)
    /\ (forall f, f ∈ failures_of s -> exists c u, c ∈ new /\ x_rule_category c = Some (re_category f)
          /\ cast_uuid (evaluation_id f) = Ok u /\ u ∈ x_linked_rule_evaluation_ids c
          /\ (highest_rank (x_severity c) <= highest_rank (re_severity f))%Z)
    /\ (forall c, c ∈ new -> exists category ids, event_ids_of s = Ok ids
          /\ where_ (of_category category) (failures_of s) <> []
          /\ opened_by t ids category (where_ (of_category category) (failures_of s)) c).
Proof.
  intros (ids & new & ms & Hids & -> & -> & Hall)%evaluation_new. destruct (by_category_grouped (failures_of s)) as [K1 K2 K3].
  rewrite Forall_forall in K2. exists new. split_and!; try done.
  - assert (Hk : x_rule_category <$> new = Some <$> (fst <$> by_category (failures_of s))).
    { clear -Hall. induction Hall as [|g c gs cs (_ & Hc & _) _ IH]; [done|]. cbn. by rewrite Hc, IH. }
    rewrite Hk. by apply NoDup_fmap_2; [intros ? ? [= ->]|].
  - intros f Hf. destruct (failure_case _ _ _ _ _ Hall Hf) as (c & Hc & Hfl & (_ & H1 & _ & _ & H2 & H3 & _)).
    destruct H3 as [_ H4]; [intros E; rewrite E in Hfl; by apply not_elem_of_nil in Hfl|]. rewrite Forall_forall in H4.
    apply rmapM_Forall2 in H2. pose proof Hfl as [j Hj]%list_elem_of_lookup.
    destruct (Forall2_lookup_l _ _ _ j (evaluation_id f) H2) as (u & Hu & Hcast); [by rewrite list_lookup_fmap, Hj|].
    exists c, u. split_and!; try done; [by eapply list_elem_of_lookup_2|by apply H4].
  - intros c [i Hi]%list_elem_of_lookup. destruct (Forall2_lookup_r _ _ _ _ _ Hall Hi) as ([cat l] & Hg & Ho).
    destruct (K2 (cat, l)) as [Hl Hne]; [by eapply list_elem_of_lookup_2|]. cbn in *. subst l. exists cat, ids. split_and!; try done.
    apply Hids. intros E. by rewrite E in Hne.
Qed.

(** C24. A case is closed once, and says by whom.  After any calls, identifiers are unique, every closed
    case has exactly one signoff, which names the decision and its reason, an open case has none; the
    unresolved critical cases are counted as none exactly when each critical case of the tenant has its
    signoff; and no call changes the decision of a closed case. *)
Theorem exceptions_close_once q q' : rtc queue_step empty_queue q -> queue_step q q' ->
  queue_ok q' /\ decisions_kept q q'
  /\ forall t tid n, cast_uuid t = Ok tid -> get_unresolved_blocking_count t q' = (q', Ok n) ->
       (n = 0%nat <-> forall c, c ∈ q_cases q' -> x_tenant_id c = tid -> x_severity c = "critical" ->
                       exists s, signoffs_of q' (x_case_id c) = [s] /\ evidence c s).
Proof.
  intros Hr Hs. apply served_ok in Hr. destruct (changes_ok _ _ (step_changes _ _ Hs) Hr) as [K D]. split_and!; [done|done|].
  intros t tid n Ht H. unfold get_unresolved_blocking_count, tenant_of in H. run H.
  apply rbind_Ok_inv in H0 as (_ & _ & Ha). rewrite Ht in Ha. injection Ha as <-. apply dget_ok in H as [_ ->].
  rewrite count_where_zero. destruct K as [_ K _]. rewrite Forall_forall in K. unfold blocking. split.
  - intros Hz c Hc Htc Hsev. specialize (Hz c Hc). rewrite Htc, Hsev, !String.eqb_refl in Hz. cbn in Hz. apply negb_false_iff in Hz.
    destruct (K c Hc) as (_ & _ & Hx). by rewrite Hz in Hx.
  - intros Hall c Hc. destruct (String.eqb_spec (x_tenant_id c) tid) as [Et|]; [|done]. destruct (String.eqb_spec (x_severity c) "critical") as [Es|]; [|done].
    cbn. apply negb_false_iff. destruct (Hall c Hc Et Es) as (s & Hsg & _). destruct (K c Hc) as (_ & _ & Hx).
    destruct (closed c); [done|]. destruct Hx as [Hx _]. by rewrite Hsg in Hx.
Qed.
End Evaluation.

(** ** Instances *)

#[local] Existing Instance demo_runtime.
#[local] Instance queue_postgres : Postgres := {| jsonb := fun _ => Ok PNone; uuid_text := fun s => negb (String.eqb s ""); zone_offset := fun _ => 0%Z |}.

Definition demo_result (id category severity verdict : string) : RuleEvaluationResult :=
  Result id ("r-" +:+ id) 1 ("Rule " +:+ id) severity verdict (Some "missing") [] (f_of_Z 1) None None category.
Definition demo_failures : EvaluationSummary :=
  Summary (PStr "ev-1") 4 1 3 0 0 0 0 None
    [demo_result "e1" "kde_presence" "warning" "fail"; demo_result "e2" "lot_linkage" "info" "fail";
     demo_result "e3" "kde_presence" "critical" "fail"; demo_result "e4" "kde_presence" "critical" "pass"]
    [demo_result "e3" "kde_presence" "critical" "fail"].
Definition demo_call_at (n : nat) : call :=
  Call (fun k => Z.of_nat (100 * n + k)) (fun k => str_of_Z (Z.of_nat n) +:+ "-" +:+ str_of_Z (Z.of_nat k)).
Definition demo_opened : queue := fst (create_exceptions_from_evaluation demo_call_at "t1" demo_failures None None empty_queue).

Lemma failures_become_cases_witness : exists q' r c u,
  create_exceptions_from_evaluation demo_call_at "t1" demo_failures None None empty_queue = (q', Ok r) /\ length r = 2%nat
  /\ x_rule_category c = Some "kde_presence" /\ u ∈ x_linked_rule_evaluation_ids c.
Proof.
  destruct (create_exceptions_from_evaluation demo_call_at "t1" demo_failures None None empty_queue) as [q' [r|e]] eqn:E; [|vm_compute in E; discriminate E].
  pose proof (f_equal (fun x => match snd x with Ok l => length l | _ => 0%nat end) E) as Hl. vm_compute in Hl.
  destruct (failures_become_cases demo_call_at "t1" demo_failures None None empty_queue q' r E) as (new & _ & _ & _ & _ & H & _).
  destruct (H (demo_result "e1" "kde_presence" "warning" "fail")) as (c & u & _ & Hc & _ & Hu & _); [left|].
  exists q', r, c, u. split; [reflexivity|]. split; [symmetry; exact Hl|]. split; [exact Hc|exact Hu].
Defined.

Lemma exceptions_close_once_witness : exists q', resolve_exception (demo_call_at 7) "t1" "0-0" "fixed" "qa" demo_opened = (q', Ok (List.find (key_is "t1" "0-0") (q_cases q')))
  /\ length (q_signoffs q') = 1%nat /\ queue_ok q'.
Proof.
  destruct (resolve_exception (demo_call_at 7) "t1" "0-0" "fixed" "qa" demo_opened) as [q' [r|e]] eqn:E; [|vm_compute in E; discriminate E].
  destruct (exceptions_close_once demo_opened q') as (K & _).
  - apply rtc_once. apply (qs_evaluation demo_call_at "t1" demo_failures None None _ _
      (match snd (create_exceptions_from_evaluation demo_call_at "t1" demo_failures None None empty_queue) with Ok l => l | _ => [] end)).
    vm_compute. reflexivity.
  - apply (qs_resolve (demo_call_at 7) "t1" "0-0" "fixed" "qa" _ _ r E).
  - exists q'. vm_compute in E. injection E as Eq Er. subst q' r. split; [reflexivity|]. split; [reflexivity|exact K].
Defined.
