(* ===== verification/RequestWorkflow.v ===== *)
(** * The request-response workflow

    [services/shared/request_workflow/]: the stages of a regulator's request, from intake to the
    submission of a sealed package and its amendments.  What the workflow writes is the record [desk]
    (cases, packages, submissions, signoffs); what it reads is the record [sources]: the active events
    of the canonical store, the rows that the rules engine wrote, the exception cases and the tables of
    identity resolution.  Every method ends in [_safe_commit], so a method is a function on the
    committed desk, with the exception of the commit as an argument. *)

From Stdlib Require Import ZArith Lia String Ascii.
From Corelib Require Import SpecFloat.
From stdpp Require Import base list strings relations.
From S2P Require Import Prelude PyStr Db PyFloat PyVal Json Sha256 Uom Rules Relational Engine CanonicalEvent CanonicalStore CanonicalVerify.
From S2P Require Import ExceptionQueue.

Local Open Scope string_scope.

(** ** Tables *)

(** A row of [fsma.request_cases]. *)
Record request_case := RCase {
  r_id : string; r_tenant_id : string; r_received_at : Z; r_due_at : Z; r_requesting_party : option string; r_channel : string;
  r_scope_type : string; r_scope_description : option string;
  r_products : list string; r_lots : list string; r_facilities : list string;
  r_status : string; r_reviewer : option string; r_final_approver : option string;
  r_submission_timestamp : option Z; r_submission_notes : option string;
  r_exception_count : Z; r_total_records : Z; r_gap_count : Z; r_created_at : Z; r_updated_at : Z
}.

(** A row of [fsma.response_packages]; JSON columns as they read. *)
Record package := Package {
  k_id : string; k_tenant_id : string; k_case_id : string; k_version : Z; k_contents : pyval; k_hash : string;
  k_gap_analysis : pyval; k_diff : option pyval; k_generated_at : Z; k_generated_by : option string
}.

(** A row of [fsma.submission_log]. *)
Record submission := Submission {
  u_id : string; u_tenant_id : string; u_case_id : string; u_package_id : string; u_type : string; u_to : string; u_by : string;
  u_method : string; u_notes : option string; u_hash : string; u_record_count : pyval; u_at : Z
}.

(** A row of [fsma.request_signoffs]. *)
Record signoff := Signoff {
  g_id : string; g_tenant_id : string; g_case_id : string; g_type : string; g_by : string; g_at : Z; g_notes : option string
}.

Record desk := Desk {
  d_cases : list request_case; d_packages : list package; d_submissions : list submission; d_signoffs : list signoff
}.
Definition empty_desk : desk := Desk [] [] [] [].

(** An event row with [COALESCE(amended_at, created_at)], an evaluation with [evaluated_at]. *)
Record identity_review := Review { iv_id : string; iv_tenant_id : string; iv_a : string; iv_b : string; iv_status : string; iv_confidence : f64 }.
Record entity := Entity { en_id : string; en_tenant_id : string; en_name : string; en_type : string; en_confidence : option f64 }.
Record alias := Alias { al_entity_id : string; al_tenant_id : string; al_value : string; al_type : string }.
Record sources := Sources {
  s_events : list (tr_row * Z);
  s_evaluations : list (eval_row * Z);
  s_rules : list rule_row;
  s_queue : queue;
  s_entities : list entity;
  s_aliases : list alias;
  s_reviews : list identity_review;
  s_identity_fault : bool
}.

Definition WORKFLOW_STAGES : list string :=
  ["intake"; "scoping"; "collecting"; "gap_analysis"; "exception_triage"; "assembling"; "internal_review"; "ready"; "submitted"; "amended"].
Definition VALID_SIGNOFF_TYPES : list string := ["scope_approval"; "package_review"; "final_approval"; "submission_authorization"].
Definition VALID_SCOPE_TYPES : list string := ["tlc_trace"; "product_recall"; "facility_audit"; "date_range"; "custom"].
Definition REQUIRED_SIGNOFF_TYPES : list string := ["final_approval"; "scope_approval"].
Definition VALID_SUBMISSION_TYPES : list string := ["initial"; "amendment"; "supplement"; "correction"].
Definition VALID_SUBMISSION_METHODS : list string := ["export"; "email"; "portal"; "mail"; "other"].
Definition VALID_REQUEST_CHANNELS : list string := ["email"; "phone"; "portal"; "letter"; "drill"; "other"].
Definition DEFAULT_RESPONSE_HOURS : Z := 24.
Definition hour : Z := 3600000000.

Definition one_of (s : string) (l : list string) : bool := existsb (String.eqb s) l.

(** ** Updates *)

Definition with_status (status : string) (now : Z) (c : request_case) : request_case :=
  RCase (r_id c) (r_tenant_id c) (r_received_at c) (r_due_at c) (r_requesting_party c) (r_channel c) (r_scope_type c) (r_scope_description c)
    (r_products c) (r_lots c) (r_facilities c) status (r_reviewer c) (r_final_approver c) (r_submission_timestamp c) (r_submission_notes c)
    (r_exception_count c) (r_total_records c) (r_gap_count c) (r_created_at c) now.
Definition with_scope (products lots facilities : option (list string)) (scope_type scope_description : option string) (now : Z)
    (c : request_case) : request_case :=
  RCase (r_id c) (r_tenant_id c) (r_received_at c) (r_due_at c) (r_requesting_party c) (r_channel c)
    (default (r_scope_type c) scope_type) (match scope_description with Some d => Some d | None => r_scope_description c end)
    (default (r_products c) products) (default (r_lots c) lots) (default (r_facilities c) facilities) "scoping"
    (r_reviewer c) (r_final_approver c) (r_submission_timestamp c) (r_submission_notes c)
    (r_exception_count c) (r_total_records c) (r_gap_count c) (r_created_at c) now.
Definition with_total (status : string) (total : nat) (now : Z) (c : request_case) : request_case :=
  RCase (r_id c) (r_tenant_id c) (r_received_at c) (r_due_at c) (r_requesting_party c) (r_channel c) (r_scope_type c) (r_scope_description c)
    (r_products c) (r_lots c) (r_facilities c) status (r_reviewer c) (r_final_approver c) (r_submission_timestamp c) (r_submission_notes c)
    (r_exception_count c) (Z.of_nat total) (r_gap_count c) (r_created_at c) now.
Definition with_gaps (gaps exceptions : nat) (now : Z) (c : request_case) : request_case :=
  RCase (r_id c) (r_tenant_id c) (r_received_at c) (r_due_at c) (r_requesting_party c) (r_channel c) (r_scope_type c) (r_scope_description c)
    (r_products c) (r_lots c) (r_facilities c) "gap_analysis" (r_reviewer c) (r_final_approver c) (r_submission_timestamp c)
    (r_submission_notes c) (Z.of_nat exceptions) (r_total_records c) (Z.of_nat gaps) (r_created_at c) now.
Definition with_signature (type who : string) (status : string) (now : Z) (c : request_case) : request_case :=
  RCase (r_id c) (r_tenant_id c) (r_received_at c) (r_due_at c) (r_requesting_party c) (r_channel c) (r_scope_type c) (r_scope_description c)
    (r_products c) (r_lots c) (r_facilities c) status
    (if String.eqb type "package_review" then Some who else r_reviewer c) (if String.eqb type "final_approval" then Some who else r_final_approver c)
    (r_submission_timestamp c) (r_submission_notes c) (r_exception_count c) (r_total_records c) (r_gap_count c) (r_created_at c) now.
Definition with_submission (notes : option string) (now : Z) (c : request_case) : request_case :=
  RCase (r_id c) (r_tenant_id c) (r_received_at c) (r_due_at c) (r_requesting_party c) (r_channel c) (r_scope_type c) (r_scope_description c)
    (r_products c) (r_lots c) (r_facilities c) "submitted" (r_reviewer c) (r_final_approver c) (Some now) notes
    (r_exception_count c) (r_total_records c) (r_gap_count c) (r_created_at c) now.

Definition the_case (tid cid : string) (c : request_case) : bool := String.eqb (r_id c) cid && String.eqb (r_tenant_id c) tid.
Definition update_case (tid cid : string) (f : request_case -> request_case) (d : desk) : desk :=
  Desk (update_where (the_case tid cid) f (d_cases d)) (d_packages d) (d_submissions d) (d_signoffs d).

(** [_safe_commit]: a commit that raises is rolled back. *)
Definition _safe_commit {A} (fault : option exn) (old new : desk) (a : A) : desk * res A :=
  match fault with None => (new, Ok a) | Some e => (old, Raise e) end.
(** A method that raises before its commit leaves the desk. *)
Definition attempt {A} (d : desk) (c : res (desk * A)) (fault : option exn) : desk * res A :=
  match c with Ok (d', a) => _safe_commit fault d d' a | Raise e => (d, Raise e) end.

(** ** Rows as JSON *)

(** [row_to_serializable]. *)
Definition row_to_serializable `{PyLib} (row : pydict) : pydict :=
  (fun kv => (fst kv, match snd kv with PDatetime t => PStr (isoformat t) | v => v end)) <$> row.

Section Workflow.
Context `{PL : PyLib} `{RT : Runtime} `{PG : Postgres}.

Definition moment (at_ : Z) : pyval := PDatetime (driver_timestamp at_).
Definition opt_moment (at_ : option Z) : pyval := match at_ with Some t => moment t | None => PNone end.

Definition event_columns (e : tr_row) : pydict :=
  [("event_id", PStr (tr_event_id e)); ("event_type", PStr (tr_event_type e)); ("event_timestamp", moment (tr_event_timestamp e));
   ("product_reference", opt_text (tr_product_reference e)); ("lot_reference", opt_text (tr_lot_reference e));
   ("traceability_lot_code", PStr (tr_traceability_lot_code e)); ("quantity", PFloat (tr_quantity e));
   ("unit_of_measure", PStr (tr_unit_of_measure e)); ("from_entity_reference", opt_text (tr_from_entity_reference e));
   ("to_entity_reference", opt_text (tr_to_entity_reference e)); ("from_facility_reference", opt_text (tr_from_facility_reference e));
   ("to_facility_reference", opt_text (tr_to_facility_reference e)); ("transport_reference", opt_text (tr_transport_reference e));
   ("kdes", tr_kdes e); ("confidence_score", PFloat (tr_confidence_score e))].

Definition event_of (e : eval_row) : string := match er_event_id e with PStr id => id | _ => "" end.

(** The evidence column is JSON. *)
Definition evaluation_columns (stamped : bool) (j : eval_row * Z * rule_row) : res pydict :=
  let '(e, at_, r) := j in
  do evidence <- jsonb (er_evidence e);
  Ok ([("evaluation_id", PStr (er_eval_id e)); ("event_id", PStr (event_of e)); ("rule_id", PStr (er_rule_id e));
      ("rule_version", PInt (er_rule_version e)); ("result", PStr (er_result e)); ("why_failed", opt_text (er_why_failed e));
      ("evidence_fields_inspected", evidence); ("confidence", PFloat (er_confidence e))]
      ++ (if stamped then [("evaluated_at", moment at_)] else [])
      ++ [("rule_title", PStr (rr_title r)); ("severity", PStr (rr_severity r)); ("category", PStr (rr_category r));
          ("citation_reference", opt_text (rr_citation r))])%list.
Definition finding_columns (j : eval_row * Z * rule_row) : pydict :=
  let '(e, _, r) := j in
  [("evaluation_id", PStr (er_eval_id e)); ("event_id", PStr (event_of e)); ("rule_id", PStr (er_rule_id e));
   ("result", PStr (er_result e)); ("why_failed", opt_text (er_why_failed e)); ("rule_title", PStr (rr_title r)); ("severity", PStr (rr_severity r))].

Definition exception_columns (x : exception_case) : pydict :=
  [("case_id", PStr (x_case_id x)); ("severity", PStr (x_severity x)); ("status", PStr (x_status x));
   ("source_supplier", opt_text (x_source_supplier x)); ("source_facility_reference", opt_text (x_source_facility_reference x));
   ("rule_category", opt_text (x_rule_category x)); ("recommended_remediation", opt_text (x_recommended_remediation x));
   ("resolution_summary", opt_text (x_resolution_summary x)); ("waiver_reason", opt_text (x_waiver_reason x));
   ("waiver_approved_by", opt_text (x_waiver_approved_by x)); ("waiver_approved_at", opt_moment (x_waiver_approved_at x));
   ("owner_user_id", opt_text (x_owner_user_id x)); ("due_date", opt_moment (x_due_date x)); ("created_at", moment (x_created_at x));
   ("updated_at", moment (x_updated_at x)); ("resolved_at", opt_moment (x_resolved_at x))].

Definition open_columns (x : exception_case) : pydict :=
  [("case_id", PStr (x_case_id x)); ("severity", PStr (x_severity x)); ("status", PStr (x_status x));
   ("source_supplier", opt_text (x_source_supplier x)); ("source_facility_reference", opt_text (x_source_facility_reference x));
   ("rule_category", opt_text (x_rule_category x)); ("recommended_remediation", opt_text (x_recommended_remediation x));
   ("owner_user_id", opt_text (x_owner_user_id x)); ("due_date", opt_moment (x_due_date x)); ("created_at", moment (x_created_at x))].

(** ** What is in scope *)

Definition refers (o : option string) (l : list string) : bool := match o with Some s => one_of s l | None => false end.
Definition unless_empty (l : list string) (b : bool) : bool := match l with [] => true | _ => b end.
Definition in_scope (tid : string) (c : request_case) (e : tr_row) : bool :=
  String.eqb (tr_tenant_id e) tid && String.eqb (tr_status e) "active"
  && unless_empty (r_products c) (refers (tr_product_reference e) (r_products c))
  && unless_empty (r_lots c) (refers (tr_lot_reference e) (r_lots c) || one_of (tr_traceability_lot_code e) (r_lots c))
  && unless_empty (r_facilities c) (refers (tr_from_facility_reference e) (r_facilities c) || refers (tr_to_facility_reference e) (r_facilities c)).
Definition scope_rows (src : sources) (tid : string) (c : request_case) : list (tr_row * Z) := where_ (fun e => in_scope tid c (fst e)) (s_events src).
Definition _get_scope_event_ids (src : sources) (tid : string) (c : request_case) : list string := tr_event_id ∘ fst <$> scope_rows src tid c.

(** [rule_evaluations re JOIN rule_definitions rd] on rule and version, for the events. *)
Definition evaluations_of (src : sources) (tid : string) (ids : list string) : list (eval_row * Z) :=
  where_ (fun e => String.eqb (er_tenant_id (fst e)) tid && one_of (event_of (fst e)) ids) (s_evaluations src).
Definition judged_by (e : eval_row) (r : rule_row) : bool := String.eqb (rr_rule_id r) (er_rule_id e) && (rr_rule_version r =? er_rule_version e)%Z.
Definition joined (src : sources) (tid : string) (ids : list string) : list (eval_row * Z * rule_row) :=
  evaluations_of src tid ids ≫= (fun e => (fun r => (e, r)) <$> where_ (judged_by (fst e)) (s_rules src)).
Definition has_result (l : list string) (j : eval_row * Z * rule_row) : bool := one_of (er_result (fst (fst j))) l.

Definition touches (tid cid : string) (ids : list string) (x : exception_case) : bool :=
  String.eqb (x_tenant_id x) tid && (bool_decide (x_request_case_id x = Some cid) || existsb (fun id => one_of id ids) (x_linked_event_ids x)).
Definition unresolved (src : sources) (tid cid : string) (ids : list string) : list exception_case :=
  where_ (fun x => touches tid cid ids x && negb (closed x)) (q_cases (s_queue src)).

Definition evaluated (src : sources) (tid id : string) : bool :=
  existsb (fun e => String.eqb (er_tenant_id (fst e)) tid && String.eqb (event_of (fst e)) id) (s_evaluations src).

(** [_get_case]. *)
Definition _get_case (d : desk) (tenant_id request_case_id : string) : res (string * string * request_case) :=
  do cid <- cast_uuid request_case_id;
  do tid <- cast_uuid tenant_id;
  match List.find (the_case tid cid) (d_cases d) with
  | Some c => Ok (tid, cid, c)
  | None => Raise (ValueError ("Request case " +:+ request_case_id +:+ " not found for tenant " +:+ tenant_id +:+ "."))
  end.

(** ** Intake, scope and collection *)

Definition scope_check (scope_type : string) : res unit :=
  if one_of scope_type VALID_SCOPE_TYPES then Ok tt else Raise (ValueError ("Invalid scope_type: " +:+ scope_type)).

Definition create_request_case (fault : option exn) (now : Z) (id tenant_id : string) (requesting_party request_channel scope_type : string)
    (scope_description : option string) (response_hours : Z) (response_due_at : option Z) (products lots facilities : list string)
    (reviewer final_approver : option string) (d : desk) : desk * res request_case :=
  attempt d
    (if negb (one_of request_channel VALID_REQUEST_CHANNELS) then Raise (ValueError ("Invalid request_channel: " +:+ request_channel))
     else
       do _ <- scope_check scope_type;
       do tid <- cast_uuid tenant_id;
       let due := match response_due_at with Some t => t | None => (now + response_hours * hour)%Z end in
       let c := RCase id tid now due (Some requesting_party) request_channel scope_type scope_description products lots facilities
                  "intake" reviewer final_approver None None 0 0 0 now now in
       do cases <- insert r_id true c (d_cases d);
       Ok (Desk cases (d_packages d) (d_submissions d) (d_signoffs d), c)) fault.

(** [Cannot ... in status]: the stages that a method accepts. *)
Definition require_status (c : request_case) (allowed : list string) (what must : string) : res unit :=
  if one_of (r_status c) allowed then Ok tt
  else Raise (ValueError ("Cannot " +:+ what +:+ " in status '" +:+ r_status c +:+ "'. Case must be in " +:+ must +:+ ".")).

(** [RETURNING *]. *)
Definition returned (tid cid : string) (d : desk) : res request_case :=
  match List.find (the_case tid cid) (d_cases d) with Some c => Ok c | None => Raise (TypeError "'NoneType' object is not iterable") end.

Definition update_scope (fault : option exn) (now : Z) (tenant_id request_case_id : string) (products lots facilities : option (list string))
    (scope_type scope_description : option string) (d : desk) : desk * res request_case :=
  attempt d
    (do _ <- (match scope_type with Some "" | None => Ok tt | Some t => scope_check t end);
     do '(tid, cid, c) <- _get_case d tenant_id request_case_id;
     do _ <- require_status c ["intake"; "scoping"] "update scope" "'intake' or 'scoping'";
     if match scope_type with Some t => one_of t VALID_SCOPE_TYPES | None => true end then
       let d' := update_case tid cid (with_scope products lots facilities scope_type scope_description now) d in
       do c' <- returned tid cid d';
       Ok (d', c')
     else Raise (integrity_error "check constraint")) fault.

(** Events in the order of their time. *)
Definition by_time (l : list (tr_row * Z)) : list (tr_row * Z) :=
  order_by (fun a b => (tr_event_timestamp (fst a) <=? tr_event_timestamp (fst b))%Z) l.

Definition collect_records (fault : option exn) (now : Z) (src : sources) (tenant_id request_case_id : string) (d : desk)
    : desk * res (list pydict * nat) :=
  attempt d
    (do '(tid, cid, c) <- _get_case d tenant_id request_case_id;
     do _ <- require_status c ["scoping"; "collecting"] "collect" "'scoping' or 'collecting'";
     let events := event_columns ∘ fst <$> by_time (scope_rows src tid c) in
     Ok (update_case tid cid (with_total "collecting" (length events) now) d, (events, length events))) fault.

(** Cases by the one they wait for; the first that the names give. *)
Fixpoint gap_add (owner case_id : string) (m : list (string * list string)) : list (string * list string) :=
  match m with
  | [] => [(owner, [case_id])]
  | (o, l) :: rest => if String.eqb o owner then (o, l ++ [case_id])%list :: rest else (o, l) :: gap_add owner case_id rest
  end.
Definition or_else (o : option string) (other : string) : string := if ostr_true o then default "" o else other.
Definition gap_owners (owner : exception_case -> string) (l : list exception_case) : pyval :=
  PDict ((fun kv => (fst kv, PList (PStr <$> snd kv))) <$> fold_left (fun m x => gap_add (owner x) (x_case_id x) m) l []).

Definition missing_evaluations (src : sources) (tid : string) (ids : list string) : list string :=
  List.filter (fun id => negb (evaluated src tid id)) ids.

Definition text_le (a b : string) : bool := match String.compare a b with Gt => false | _ => true end.

Definition run_gap_analysis (fault : option exn) (now : Z) (src : sources) (tenant_id request_case_id : string) (d : desk)
    : desk * res pydict :=
  attempt d
    (do '(tid, cid, c) <- _get_case d tenant_id request_case_id;
     do _ <- require_status c ["collecting"; "gap_analysis"] "run gap analysis" "'collecting' or 'gap_analysis'";
     let ids := _get_scope_event_ids src tid c in
     let failed := order_by (fun a b => let '(_, x, r) := a in let '(_, y, q) := b in
                               if String.eqb (rr_severity r) (rr_severity q) then (x <=? y)%Z else text_le (rr_severity r) (rr_severity q))
                     (where_ (has_result ["fail"; "warn"]) (joined src tid ids)) in
     do failed_rules <- rmapM (evaluation_columns false) failed;
     let open := order_by (fun a b => if String.eqb (x_severity a) (x_severity b) then (x_created_at a <=? x_created_at b)%Z
                                      else text_le (x_severity a) (x_severity b)) (unresolved src tid cid ids) in
     let missing := missing_evaluations src tid ids in
     Ok (update_case tid cid (with_gaps (length missing + length failed + length open) (length open) now) d,
         [("missing_events", PList (PStr <$> missing)); ("failed_rules", PList (PDict <$> failed_rules));
          ("unresolved_exceptions", PList (PDict ∘ open_columns <$> open));
          ("gap_owners", gap_owners (fun x => or_else (x_source_supplier x) (or_else (x_source_facility_reference x) "unknown")) open)])) fault.

(** ** Packages *)

(** [compute_manifest_hash]. *)
Definition compute_manifest_hash (package_contents : pydict) : res string :=
  do manifest_json <- json_dumps opts_sorted_str (PDict (List.filter (fun kv => negb (String.eqb (fst kv) "package_hash")) package_contents));
  Ok (sha256_hex manifest_json).

Definition _compute_gap_snapshot (src : sources) (tid cid : string) (ids : list string) : pydict :=
  let open := unresolved src tid cid ids in
  [("missing_events", PList (PStr <$> missing_evaluations src tid ids));
   ("failed_rules", PList (PDict ∘ row_to_serializable ∘ finding_columns <$> where_ (has_result ["fail"; "warn"]) (joined src tid ids)));
   ("unresolved_exceptions", PList ((fun x => PDict [("case_id", PStr (x_case_id x)); ("severity", PStr (x_severity x));
      ("status", PStr (x_status x)); ("source_supplier", opt_text (x_source_supplier x))]) <$> open));
   ("gap_owners", gap_owners (fun x => or_else (x_source_supplier x) "unknown") open)].

(** A set of texts that a package lists. *)
Definition texts (v : pyval) : res (list string) :=
  match v with PList l => rmapM (fun x => match x with PStr s => Ok s | _ => Raise (TypeError "not a text") end) l | _ => no_attribute v "texts" end.
Definition case_ids (v : pyval) : res (list string) :=
  match v with PList l => rmapM (fun x => do id <- py_get x "case_id" (PStr ""); Ok (py_str id)) l | _ => no_attribute v "case_ids" end.
Definition sort_texts (l : list string) : list string := fst <$> key_sort ((fun s => (s, tt)) <$> remove_dups l).
Definition minus (a b : list string) : pyval := PList (PStr <$> sort_texts (List.filter (fun s => negb (one_of s b)) a)).

Definition _compute_diff (d : desk) (tid cid : string) (prior_version : Z) (new_contents : pydict) : res pydict :=
  match List.find (fun k => String.eqb (k_case_id k) cid && String.eqb (k_tenant_id k) tid && (k_version k =? prior_version)%Z) (d_packages d) with
  | None => Ok [("error", PStr ("Prior version " +:+ str_of_Z prior_version +:+ " not found"))]
  | Some prior =>
      do old <- py_get (k_contents prior) "event_ids" (PList []); do old_ids <- texts old;
      do new_ids <- texts (dict_get new_contents "event_ids" (PList []));
      do old <- py_get (k_contents prior) "exception_cases" (PList []); do old_cases <- case_ids old;
      do new_cases <- case_ids (dict_get new_contents "exception_cases" (PList []));
      do old <- py_get (k_contents prior) "summary" (PDict []);
      let new := dict_get new_contents "summary" (PDict []) in
      do changes <- (match old, new with
                     | PDict o, PDict n =>
                         Ok ((fun k => (k, PDict [("prior", dict_get o k PNone); ("new", dict_get n k PNone)]))
                               <$> List.filter (fun k => negb (py_eq (dict_get o k PNone) (dict_get n k PNone)))
                                     (set_order (remove_dups (fst <$> o ++ n)%list)))
                     | _, _ => no_attribute old "keys"
                     end);
      Ok [("prior_version", PInt prior_version); ("prior_hash", PStr (k_hash prior)); ("events_added", minus new_ids old_ids);
          ("events_removed", minus old_ids new_ids); ("exceptions_added", minus new_cases old_cases);
          ("exceptions_resolved", minus old_cases new_cases); ("summary_changes", PDict changes)]
  end.

(** The entities of the tenant with their aliases. *)
Definition identity_state (src : sources) (tid : string) : pyval :=
  PDict ((fun e => (en_id e, PDict [("name", PStr (en_name e)); ("type", PStr (en_type e));
            ("confidence", match en_confidence e with Some f => if truthy (PFloat f) then PFloat f else PNone | None => PNone end);
            ("aliases", PList ((fun a => PDict [("value", PStr (al_value a)); ("type", PStr (al_type a))])
               <$> where_ (fun a => String.eqb (al_entity_id a) (en_id e) && String.eqb (al_tenant_id a) tid && negb (String.eqb (al_value a) "")) (s_aliases src)))]))
         <$> where_ (fun e => String.eqb (en_tenant_id e) tid) (s_entities src)).
Definition catalog (src : sources) : pyval :=
  PDict ((fun r => (rr_rule_id r, PDict [("version", PInt (rr_rule_version r)); ("title", PStr (rr_title r)); ("severity", PStr (rr_severity r));
                                         ("category", PStr (rr_category r))])) <$> s_rules src).
(** The signoffs of the case, of any tenant. *)
Definition signoff_state (d : desk) (cid : string) : pyval :=
  PList ((fun s => PDict (row_to_serializable [("signoff_type", PStr (g_type s)); ("signed_by", PStr (g_by s)); ("signed_at", moment (g_at s));
                                               ("notes", opt_text (g_notes s))]))
         <$> order_by (fun a b => (g_at a <=? g_at b)%Z) (where_ (fun s => String.eqb (g_case_id s) cid) (d_signoffs d))).

Definition count (p : pydict -> bool) (l : list pydict) : pyval := PInt (Z.of_nat (count_where p l)).
Definition member_is (k v : string) (row : pydict) : bool := py_eq (dict_get row k PNone) (PStr v).

(** The snapshot, before its hash; [exception_id] is no column of the rows. *)
Definition package_contents (src : sources) (d : desk) (tenant_id request_case_id tid cid : string) (c : request_case) (version : Z) (now : Z)
    (generated_by : option string) : res pydict :=
  let ids := _get_scope_event_ids src tid c in
  let events := row_to_serializable ∘ (fun e => event_columns (fst e) ++ [("normalized_payload", tr_normalized_payload (fst e))])%list
                <$> by_time (scope_rows src tid c) in
  do rows <- rmapM (evaluation_columns true) (order_by (fun a b => (snd (fst a) <=? snd (fst b))%Z) (joined src tid ids));
  let evaluations := row_to_serializable <$> rows in
  let exceptions := row_to_serializable ∘ exception_columns
                    <$> order_by (fun a b => (x_created_at a <=? x_created_at b)%Z) (where_ (touches tid cid ids) (q_cases (s_queue src))) in
  let event_ids := PList (PStr <$> (fst <$> key_sort ((fun s => (s, tt)) <$> ids))) in
  let named := List.filter (fun x => truthy (dict_get x "exception_id" PNone)) exceptions in
  Ok [("manifest_version", PStr "1.0"); ("request_case_id", PStr request_case_id); ("tenant_id", PStr tenant_id); ("version_number", PInt version);
      ("assembled_at", PStr (isoformat (Datetime now (Some 0%Z)))); ("generated_by", opt_text generated_by); ("scoped_event_ids", event_ids);
      ("rule_evaluation_ids", PList (PStr <$> (fst <$> key_sort ((fun r => (py_str (dict_get r "evaluation_id" (PStr "")), tt))
         <$> List.filter (fun r => truthy (dict_get r "evaluation_id" PNone)) evaluations))));
      ("rule_versions", catalog src); ("identity_state", identity_state src tid);
      ("exception_state", PDict (foldl (fun m x => dict_set (py_str (dict_get x "exception_id" (PStr "")))
         (PDict [("status", dict_get x "status" PNone); ("resolution", dict_get x "resolution_summary" PNone)]) m) [] named));
      ("signoff_state", signoff_state d cid);
      ("waiver_state", PList ((fun x => PStr (py_str (dict_get x "exception_id" PNone))) <$> List.filter (member_is "status" "waived") exceptions));
      ("scope", PDict [("scope_type", PStr (r_scope_type c)); ("scope_description", opt_text (r_scope_description c));
         ("affected_products", PList (PStr <$> r_products c)); ("affected_lots", PList (PStr <$> r_lots c));
         ("affected_facilities", PList (PStr <$> r_facilities c))]);
      ("event_ids", event_ids); ("trace_data", PList (PDict <$> events)); ("rule_evaluations", PList (PDict <$> evaluations));
      ("exception_cases", PList (PDict <$> exceptions)); ("gap_analysis", PDict (_compute_gap_snapshot src tid cid ids));
      ("summary", PDict [("total_events", PInt (Z.of_nat (length events))); ("total_rule_evaluations", PInt (Z.of_nat (length evaluations)));
         ("failed_evaluations", count (member_is "result" "fail") evaluations); ("warned_evaluations", count (member_is "result" "warn") evaluations);
         ("total_exceptions", PInt (Z.of_nat (length exceptions)));
         ("open_exceptions", count (fun x => negb (member_is "status" "resolved" x || member_is "status" "waived" x)) exceptions)])].

(** A failed statement aborts the transaction: the ones after it are refused. *)
Definition aborts (e : exn) : bool := one_of (exn_type e) ["IntegrityError"; "DataError"; "InternalError"; "ProgrammingError"; "OperationalError"].
Definition InFailedSqlTransaction : exn :=
  Exn "InternalError" "current transaction is aborted, commands ignored until end of transaction block".

Definition next_version (d : desk) (tid cid : string) : Z :=
  (foldl Z.max 0 (k_version <$> where_ (fun k => String.eqb (k_case_id k) cid && String.eqb (k_tenant_id k) tid) (d_packages d)) + 1)%Z.

(** What a method takes from outside: clock readings and fresh identifiers. *)
Definition assembled (cl : call) (src : sources) (tenant_id request_case_id : string) (generated_by : option string) (d : desk)
    : res (desk * package) :=
  do '(tid, cid, c) <- _get_case d tenant_id request_case_id;
  do _ <- (if one_of (r_status c) ["gap_analysis"; "exception_triage"; "assembling"; "internal_review"] then Ok tt
           else Raise (ValueError ("Cannot assemble in status '" +:+ r_status c +:+ "'. Case must be in one of "
                  +:+ "('gap_analysis', 'exception_triage', 'assembling', 'internal_review').")));
  let version := next_version d tid cid in
  if s_identity_fault src then Raise InFailedSqlTransaction
  else
    do contents <- package_contents src d tenant_id request_case_id tid cid c version (cl_now cl 0) generated_by;
    do package_hash <- compute_manifest_hash contents;
    let contents := dict_set "package_hash" (PStr package_hash) contents in
    do contents_json <- json_dumps opts_sorted_str (PDict contents);
    do diff <- (if (1 <? version)%Z then do x <- _compute_diff d tid cid (version - 1) contents; Ok (Some x) else Ok None);
    do contents_column <- jsonb contents_json;
    do gap_json <- json_dumps opts_str (PDict (_compute_gap_snapshot src tid cid (_get_scope_event_ids src tid c)));
    do gap_column <- jsonb gap_json;
    do diff_column <- (match diff with
                       | Some x => do t <- json_dumps opts_str (PDict x); do v <- jsonb t; Ok (Some v)
                       | None => Ok None
                       end);
    let k := Package (cl_uuid cl 0) tid cid version contents_column package_hash gap_column diff_column (cl_now cl 1) generated_by in
    do packages <- insert k_id true k (d_packages d);
    let d' := Desk (d_cases d) packages (d_submissions d) (d_signoffs d) in
    Ok (update_case tid cid (with_total "assembling" (length (scope_rows src tid c)) (cl_now cl 1)) d', k).

Definition assemble_response_package (fault : option exn) (cl : call) (src : sources) (tenant_id request_case_id : string)
    (generated_by : option string) (d : desk) : desk * res package :=
  attempt d (assembled cl src tenant_id request_case_id generated_by d) fault.

(** ** Signoffs *)

Definition status_transitions : list (string * string) :=
  [("scope_approval", "exception_triage"); ("package_review", "internal_review"); ("final_approval", "ready"); ("submission_authorization", "ready")].

(** [ON CONFLICT DO NOTHING] on tenant, case and type. *)
Definition same_signoff (a b : signoff) : bool :=
  String.eqb (g_tenant_id a) (g_tenant_id b) && String.eqb (g_case_id a) (g_case_id b) && String.eqb (g_type a) (g_type b).

Definition add_signoff (fault : option exn) (cl : call) (tenant_id request_case_id signoff_type signed_by : string) (notes : option string)
    (d : desk) : desk * res (string * string) :=
  attempt d
    (if negb (one_of signoff_type VALID_SIGNOFF_TYPES)
     then Raise (ValueError ("Invalid signoff_type: " +:+ signoff_type +:+ ". Must be one of "
            +:+ py_repr (PList (PStr <$> VALID_SIGNOFF_TYPES)) +:+ "."))
     else
       do '(tid, cid, c) <- _get_case d tenant_id request_case_id;
       let now := cl_now cl 0 in
       let s := Signoff (cl_uuid cl 0) tid cid signoff_type signed_by now notes in
       do signoffs <- (if existsb (same_signoff s) (d_signoffs d) then Ok (d_signoffs d) else insert g_id true s (d_signoffs d));
       let status := default (r_status c) (assoc signoff_type status_transitions) in
       Ok (update_case tid cid (with_signature signoff_type signed_by status now) (Desk (d_cases d) (d_packages d) (d_submissions d) signoffs),
           (cl_uuid cl 0, status))) fault.

(** ** Blocking defects *)

(** A critical failure is covered by any closed exception case that links its event. *)
Definition covered (src : sources) (tid id : string) : bool :=
  existsb (fun x => String.eqb (x_tenant_id x) tid && one_of id (x_linked_event_ids x) && closed x) (q_cases (s_queue src)).
Definition critical_failure (src : sources) (tid : string) (j : eval_row * Z * rule_row) : bool :=
  has_result ["fail"] j && String.eqb (rr_severity (snd j)) "critical" && negb (covered src tid (event_of (fst (fst j)))).

Definition short (id : string) : string := str_take 8 id.
Definition failure_blocker (j : eval_row * Z * rule_row) : pydict :=
  let '(e, _, r) := j in
  [("type", PStr "critical_rule_failure"); ("event_id", PStr (event_of e)); ("rule_id", PStr (er_rule_id e)); ("rule_title", PStr (rr_title r));
   ("citation", opt_text (rr_citation r)); ("why_failed", opt_text (er_why_failed e));
   ("message", PStr ("Critical rule '" +:+ rr_title r +:+ "' failed on event " +:+ short (event_of e) +:+ "... with no waiver or resolution."))].
Definition exception_blocker (x : exception_case) : pydict :=
  [("type", PStr "unresolved_critical_exception"); ("exception_id", PStr (x_case_id x)); ("supplier", opt_text (x_source_supplier x));
   ("rule_category", opt_text (x_rule_category x));
   ("message", PStr ("Critical exception from " +:+ or_else (x_source_supplier x) "unknown" +:+ " in '"
      +:+ or_else (x_rule_category x) "unknown" +:+ "' is unresolved."))].
Definition unevaluated_blocker (e : tr_row) : pydict :=
  [("type", PStr "unevaluated_event"); ("event_id", PStr (tr_event_id e)); ("event_type", PStr (tr_event_type e));
   ("tlc", PStr (tr_traceability_lot_code e));
   ("message", PStr ("Event " +:+ short (tr_event_id e) +:+ "... (" +:+ tr_event_type e +:+ ") "
      +:+ "has no rule evaluations — cannot verify compliance."))].
Definition signoff_blocker (t : string) : pydict :=
  [("type", PStr "missing_signoff"); ("signoff_type", PStr t); ("message", PStr ("Required signoff '" +:+ t +:+ "' has not been provided."))].

(** [int(x)] of a float between zero and a hundred. *)
Definition int_of (f : f64) : Z :=
  match f with
  | S754_finite neg m e => let n := Z.shiftl (Zpos m) e in if neg then (- n)%Z else n
  | _ => 0%Z
  end.
Definition identity_blocker (r : identity_review) (a b : entity) : pydict :=
  [("type", PStr "identity_ambiguity"); ("review_id", PStr (iv_id r)); ("entity_a", PStr (en_name a)); ("entity_b", PStr (en_name b));
   ("similarity", PFloat (iv_confidence r));
   ("message", PStr ("Identity ambiguity: '" +:+ en_name a +:+ "' and '" +:+ en_name b +:+ "' are "
      +:+ str_of_Z (int_of (fmul (iv_confidence r) (f_of_Z 100))) +:+ "% similar but unresolved. This may split traceability chains."))].
Definition identity_blockers (src : sources) (tid : string) : list pydict :=
  take 20 (where_ (fun r => String.eqb (iv_tenant_id r) tid && String.eqb (iv_status r) "pending" && fleb (flit "0.85") (iv_confidence r)) (s_reviews src)
    ≫= (fun r => where_ (fun a => String.eqb (en_id a) (iv_a r) && String.eqb (en_tenant_id a) tid) (s_entities src)
    ≫= (fun a => (fun b => identity_blocker r a b)
                 <$> where_ (fun b => String.eqb (en_id b) (iv_b r) && String.eqb (en_tenant_id b) tid) (s_entities src)))).

(** Evaluations older than their event, or of another version than the rule has now. *)
Definition stale (tid : string) (ids : list string) (e : eval_row * Z) (ev : tr_row * Z) (r : rule_row) : bool :=
  String.eqb (er_tenant_id (fst e)) tid && one_of (event_of (fst e)) ids && String.eqb (tr_event_id (fst ev)) (event_of (fst e))
  && String.eqb (tr_tenant_id (fst ev)) tid && String.eqb (rr_rule_id r) (er_rule_id (fst e))
  && ((snd e <? snd ev)%Z || negb (rr_rule_version r =? er_rule_version (fst e))%Z).
Definition stale_details (src : sources) (tid : string) (ids : list string) : list pydict :=
  s_evaluations src ≫= (fun e => s_events src ≫= (fun ev =>
    (fun _ => [("event_id", PStr (event_of (fst e))); ("rule_id", PStr (er_rule_id (fst e)));
               ("reason", PStr (if (snd e <? snd ev)%Z then "event_modified" else "rule_version_changed"))])
    <$> where_ (stale tid ids e ev) (s_rules src))).
Definition stale_blockers (src : sources) (tid : string) (ids : list string) : list pydict :=
  match stale_details src tid ids with
  | [] => []
  | l => [[("type", PStr "stale_evaluations"); ("count", PInt (Z.of_nat (length l))); ("details", PList (PDict <$> l));
           ("message", PStr (str_of_Z (Z.of_nat (length l)) +:+ " evaluation(s) are stale — re-evaluate before submission."))]]
  end.

Definition missing_signoffs (d : desk) (tid cid : string) : list string :=
  List.filter (fun t => negb (existsb (fun s => String.eqb (g_case_id s) cid && String.eqb (g_tenant_id s) tid && String.eqb (g_type s) t) (d_signoffs d)))
    REQUIRED_SIGNOFF_TYPES.

(** The answer; [df_aborted] when the identity query has failed and nothing after it has raised. *)
Record defects := Defects { df_blockers : list pydict; df_warnings : list pydict; df_aborted : bool }.
Definition can_submit (r : defects) : bool := match df_blockers r with [] => true | _ => false end.

Definition check_blocking_defects (src : sources) (tenant_id request_case_id : string) (d : desk) : res defects :=
  do '(tid, cid, c) <- _get_case d tenant_id request_case_id;
  let ids := _get_scope_event_ids src tid c in
  let blockers := ((failure_blocker <$> where_ (critical_failure src tid) (joined src tid ids))
      ++ (exception_blocker <$> where_ (fun x => String.eqb (x_severity x) "critical") (unresolved src tid cid ids))
      ++ (unevaluated_blocker <$> where_ (fun e => negb (evaluated src tid (tr_event_id e))) (fst <$> scope_rows src tid c))
      ++ (signoff_blocker <$> missing_signoffs d tid cid))%list in
  if s_identity_fault src then
    match ids with [] => Ok (Defects blockers [] true) | _ => Raise InFailedSqlTransaction end
  else
    let warned := count_where (fun j => has_result ["fail"] j && String.eqb (rr_severity (snd j)) "warning") (joined src tid ids) in
    Ok (Defects (blockers ++ identity_blockers src tid ++ stale_blockers src tid ids)%list
          (if (warned =? 0)%nat then []
           else [[("type", PStr "non_critical_failures"); ("count", PInt (Z.of_nat warned));
                  ("message", PStr (str_of_Z (Z.of_nat warned) +:+ " non-critical rule warning(s) present."))]])
          false).

(** ** Submission *)

Definition cannot_submit (r : defects) : exn :=
  ValueError ("Cannot submit: " +:+ str_of_Z (Z.of_nat (length (df_blockers r))) +:+ " blocking defect(s). "
    +:+ str_join "; " ((fun b => py_str (dict_get b "message" PNone)) <$> take 5 (df_blockers r))).

(** [contents.get("summary", {}).get("total_events", 0)] of an object; a JSON object column never reads as a text. *)
Definition record_count (contents : pyval) : res pyval :=
  match contents with
  | PDict k => py_get (dict_get k "summary" (PDict [])) "total_events" (PInt 0)
  | _ => Ok (PInt 0)
  end.

Definition submit_package (fault : option exn) (cl : call) (src : sources) (tenant_id request_case_id package_id submitted_by : string)
    (submitted_to : option string) (submission_method : string) (submission_notes : option string) (submission_type : string) (force : bool)
    (d : desk) : desk * res submission :=
  attempt d
    (if negb (one_of submission_type VALID_SUBMISSION_TYPES) then Raise (ValueError ("Invalid submission_type: " +:+ submission_type))
     else if negb (one_of submission_method VALID_SUBMISSION_METHODS) then Raise (ValueError ("Invalid submission_method: " +:+ submission_method))
     else
       do '(tid, cid, c) <- _get_case d tenant_id request_case_id;
       do _ <- (if one_of (r_status c) ["ready"; "submitted"; "amended"] then Ok tt
                else Raise (ValueError ("Cannot submit in status '" +:+ r_status c +:+ "'. Case must be in 'ready', 'submitted', or 'amended'.")));
       do checked <- check_blocking_defects src tenant_id request_case_id d;
       if negb (can_submit checked) && negb force then Raise (cannot_submit checked)
       else if df_aborted checked then Raise InFailedSqlTransaction
       else
         do pid <- cast_uuid package_id;
         match List.find (fun k => String.eqb (k_id k) pid && String.eqb (k_tenant_id k) tid && String.eqb (k_case_id k) cid) (d_packages d) with
         | None => Raise (ValueError ("Package " +:+ package_id +:+ " not found for case " +:+ request_case_id +:+ "."))
         | Some k =>
             do records <- record_count (k_contents k);
             let now := cl_now cl 0 in
             let s := Submission (cl_uuid cl 0) tid cid pid submission_type (or_else submitted_to (or_else (r_requesting_party c) "FDA")) submitted_by
                        submission_method submission_notes (k_hash k) records now in
             do submissions <- insert u_id true s (d_submissions d);
             Ok (update_case tid cid (with_submission submission_notes now) (Desk (d_cases d) (d_packages d) submissions (d_signoffs d)), s)
         end) fault.

(** [create_amendment] commits the case as assembling, assembles, and commits the outcome; the faults
    are those of the three commits and of the one that reverts.  After a statement that the database
    refused, the update that reverts is refused too. *)
Definition create_amendment (first second last revert : option exn) (cl : call) (src : sources) (tenant_id request_case_id : string)
    (generated_by : option string) (d : desk) : desk * res package :=
  match _get_case d tenant_id request_case_id with
  | Raise e => (d, Raise e)
  | Ok (tid, cid, c) =>
      match require_status c ["submitted"; "amended"; "assembling"] "amend" "'submitted', 'amended', or 'assembling'" with
      | Raise e => (d, Raise e)
      | Ok _ =>
          match _safe_commit first d (update_case tid cid (with_status "assembling" (cl_now cl 2)) d) tt with
          | (d, Raise e) => (d, Raise e)
          | (d1, Ok _) =>
              match assemble_response_package second cl src tenant_id request_case_id generated_by d1 with
              | (d1, Raise e) =>
                  let prior := if String.eqb (r_status c) "assembling" then "amended" else r_status c in
                  let aborted := match assembled cl src tenant_id request_case_id generated_by d1 with Raise x => aborts x | Ok _ => false end in
                  if aborted then (d1, Raise InFailedSqlTransaction)
                  else match _safe_commit revert d1 (update_case tid cid (with_status prior (cl_now cl 3)) d1) tt with
                       | (d2, Ok _) => (d2, Raise e)
                       | (d2, Raise e') => (d2, Raise e')
                       end
              | (d2, Ok k) => _safe_commit last d2 (update_case tid cid (with_status "amended" (cl_now cl 3)) d2) k
              end
          end
      end
  end.
End Workflow.
