(* ===== verification/RequestSpec.v ===== *)
(** * The request-response workflow over its life

    What submission demands, what every history of calls keeps, what the hash of a package binds, and
    the way from a failed rule to a request that cannot be submitted; then runs on which the workflow
    does what its documentation does not say. *)

From Stdlib Require Import ZArith Lia String Ascii.
From Corelib Require Import SpecFloat.
From stdpp Require Import base list list_numbers strings relations.
From S2P Require Import Prelude PyStr Db PyFloat PyVal Json JsonText Sha256 Uom Rules Relational Engine CanonicalEvent CanonicalStore CanonicalVerify.
From S2P Require Import ExceptionQueue RequestWorkflow.

Local Open Scope string_scope.

Lemma attempt_ok {A} d c fault d' (a : A) : attempt d c fault = (d', Ok a) -> c = Ok (d', a) /\ fault = None.
Proof. unfold attempt, _safe_commit. destruct c as [[d1 a1]|e]; [|done]. destruct fault; [done|]. by intros [= -> ->]. Qed.
Lemma attempt_raise {A} d (c : res (desk * A)) fault d' e : attempt d c fault = (d', Raise e) -> d' = d.
Proof. unfold attempt, _safe_commit. destruct c as [[d1 a1]|e1]; [destruct fault|]; by intros [= <- _]. Qed.

Lemma one_of_elem s l : one_of s l = true <-> s ∈ l.
Proof. unfold one_of. by rewrite existsb_In_eqb, list_elem_of_In. Qed.

Section Spec.
Context `{PL : PyLib} `{RT : Runtime} `{PG : Postgres}.

Lemma get_case_inv d t r tid cid c : _get_case d t r = Ok (tid, cid, c) ->
  cast_uuid r = Ok cid /\ cast_uuid t = Ok tid /\ c ∈ d_cases d /\ r_id c = cid /\ r_tenant_id c = tid.
Proof.
  unfold _get_case. intros (cid' & Hc & H)%rbind_Ok_inv. apply rbind_Ok_inv in H as (tid' & Ht & H).
  destruct (List.find _ _) as [x|] eqn:E; [|done]. injection H as -> -> ->. apply find_elem in E as [Hin Hk].
  unfold the_case in Hk. by reflect_bools.
Qed.

(** ** What submission demands *)

Lemma joined_elem src tid ids e at_ r : (e, at_, r) ∈ joined src tid ids <->
  (e, at_) ∈ s_evaluations src /\ er_tenant_id e = tid /\ event_of e ∈ ids /\ r ∈ s_rules src /\ judged_by e r = true.
Proof.
  unfold joined, evaluations_of. rewrite list_elem_of_bind. split.
  - intros ([e' at'] & ([= -> -> ->] & Hr)%list_elem_of_fmap_1 & He) || intros ([e' at'] & Hr & He).
    apply list_elem_of_fmap in Hr as (r' & [= -> -> ->] & [Hr Hj]%elem_of_where). apply elem_of_where in He as [He Hp].
    cbn in *. reflect_bools. by apply one_of_elem in H0.
  - intros (He & Ht & Hi & Hr & Hj). exists (e, at_). split.
    + apply list_elem_of_fmap. exists r. split; [done|]. by apply elem_of_where.
    + apply elem_of_where. split; [done|]. cbn. rewrite Ht, String.eqb_refl. by apply one_of_elem.
Qed.

(** No defect blocks the case: what the gate has looked at. *)
Record clean (src : sources) (d : desk) (tid cid : string) (c : request_case) : Prop := {
  cl_evaluated : forall e at_, (e, at_) ∈ s_events src -> in_scope tid c e = true ->
    exists v at_v, (v, at_v) ∈ s_evaluations src /\ er_tenant_id v = tid /\ event_of v = tr_event_id e;
  cl_failures : forall v at_ r, (v, at_) ∈ s_evaluations src -> er_tenant_id v = tid -> event_of v ∈ _get_scope_event_ids src tid c ->
    r ∈ s_rules src -> judged_by v r = true -> rr_severity r = "critical" -> er_result v = "fail" ->
    exists x, x ∈ q_cases (s_queue src) /\ x_tenant_id x = tid /\ event_of v ∈ x_linked_event_ids x /\ closed x = true;
  cl_exceptions : forall x, x ∈ q_cases (s_queue src) -> touches tid cid (_get_scope_event_ids src tid c) x = true ->
    x_severity x = "critical" -> closed x = true;
  cl_signoffs : forall t, t ∈ REQUIRED_SIGNOFF_TYPES -> exists s, s ∈ d_signoffs d /\ g_case_id s = cid /\ g_tenant_id s = tid /\ g_type s = t;
  cl_fresh : forall v at_ e at_e r, (v, at_) ∈ s_evaluations src -> (e, at_e) ∈ s_events src -> r ∈ s_rules src ->
    event_of v ∈ _get_scope_event_ids src tid c -> er_tenant_id v = tid -> tr_event_id e = event_of v -> tr_tenant_id e = tid ->
    rr_rule_id r = er_rule_id v -> rr_rule_version r = er_rule_version v /\ (at_e <= at_)%Z;
  cl_identity : forall iv a b, iv ∈ s_reviews src -> a ∈ s_entities src -> b ∈ s_entities src -> iv_tenant_id iv = tid ->
    en_id a = iv_a iv -> en_id b = iv_b iv -> en_tenant_id a = tid -> en_tenant_id b = tid ->
    iv_status iv = "pending" -> fleb (flit "0.85") (iv_confidence iv) = false
}.

Lemma evaluated_elem src tid id : evaluated src tid id = true <-> exists v at_, (v, at_) ∈ s_evaluations src /\ er_tenant_id v = tid /\ event_of v = id.
Proof.
  unfold evaluated. rewrite existsb_exists. split.
  - intros ([v at_] & Hin & H). cbn in H. reflect_bools. exists v, at_. by rewrite list_elem_of_In.
  - intros (v & at_ & Hin & <- & <-). exists (v, at_). rewrite <- list_elem_of_In. cbn. by rewrite !String.eqb_refl.
Qed.

Lemma covered_elem src tid id : covered src tid id = true <->
  exists x, x ∈ q_cases (s_queue src) /\ x_tenant_id x = tid /\ id ∈ x_linked_event_ids x /\ closed x = true.
Proof.
  unfold covered. rewrite existsb_exists. split.
  - intros (x & Hin & H). reflect_bools. exists x. rewrite list_elem_of_In. by apply one_of_elem in H1.
  - intros (x & Hin & <- & Hid & Hc). exists x. rewrite <- list_elem_of_In. split; [done|]. rewrite String.eqb_refl, Hc, andb_true_r. by apply one_of_elem.
Qed.

(** Empty reports. *)
Lemma map_nil {A B} (f : A -> B) (l : list A) : f <$> l = [] <-> forall x, x ∉ l.
Proof. split; [intros H x Hx; destruct l; [by apply not_elem_of_nil in Hx|done]|]. intros H. destruct l as [|x l]; [done|]. destruct (H x). by left. Qed.
Lemma where_nil {R} p (l : list R) : (forall x, x ∉ where_ p l) <-> forall x, x ∈ l -> p x = false.
Proof.
  split; intros H x Hx.
  - destruct (p x) eqn:E; [|done]. destruct (H x). by apply elem_of_where.
  - apply elem_of_where in Hx as [Hx Hp]. by rewrite H in Hp.
Qed.

Lemma failures_nil src tid c : failure_blocker <$> where_ (critical_failure src tid) (joined src tid (_get_scope_event_ids src tid c)) = [] <->
  forall v at_ r, (v, at_) ∈ s_evaluations src -> er_tenant_id v = tid -> event_of v ∈ _get_scope_event_ids src tid c ->
    r ∈ s_rules src -> judged_by v r = true -> rr_severity r = "critical" -> er_result v = "fail" -> covered src tid (event_of v) = true.
Proof.
  rewrite map_nil, where_nil. unfold critical_failure, has_result. split; intros H.
  - intros v at_ r Hv Ht Hid Hr Hj Hsev Hres. specialize (H (v, at_, r) (proj2 (joined_elem _ _ _ _ _ _) (conj Hv (conj Ht (conj Hid (conj Hr Hj)))))).
    cbn in H. rewrite Hres, Hsev in H. by apply negb_false_iff in H.
  - intros [[v at_] r] (Hv & Ht & Hid & Hr & Hj)%joined_elem. cbn. rewrite orb_false_r. destruct (String.eqb_spec (er_result v) "fail"); [|done].
    destruct (String.eqb_spec (rr_severity r) "critical"); [|done]. cbn. by erewrite H.
Qed.

Lemma exceptions_nil src tid cid ids : exception_blocker <$> where_ (fun x => String.eqb (x_severity x) "critical") (unresolved src tid cid ids) = [] <->
  forall x, x ∈ q_cases (s_queue src) -> touches tid cid ids x = true -> x_severity x = "critical" -> closed x = true.
Proof.
  rewrite map_nil, where_nil. unfold unresolved. split; intros H x Hx.
  - intros Ht Hs. destruct (closed x) eqn:E; [done|]. specialize (H x). rewrite elem_of_where, Ht, E, Hs in H. by specialize (H (conj Hx eq_refl)).
  - apply elem_of_where in Hx as [Hx [Ht Ho%negb_true_iff]%andb_true_iff]. destruct (String.eqb_spec (x_severity x) "critical"); [|done]. by rewrite H in Ho.
Qed.

Lemma unevaluated_nil src tid c :
  unevaluated_blocker <$> where_ (fun e => negb (evaluated src tid (tr_event_id e))) (fst <$> scope_rows src tid c) = [] <->
  forall e at_, (e, at_) ∈ s_events src -> in_scope tid c e = true -> evaluated src tid (tr_event_id e) = true.
Proof.
  rewrite map_nil, where_nil. unfold scope_rows. split; intros H.
  - intros e at_ He Hs. apply negb_false_iff, H. apply list_elem_of_fmap. exists (e, at_). split; [done|]. by apply elem_of_where.
  - intros e ([e' at_] & -> & [He Hs]%elem_of_where)%list_elem_of_fmap. apply negb_false_iff. by eapply H.
Qed.

Lemma signoffs_nil d tid cid : signoff_blocker <$> missing_signoffs d tid cid = [] <->
  forall t, t ∈ REQUIRED_SIGNOFF_TYPES -> exists s, s ∈ d_signoffs d /\ g_case_id s = cid /\ g_tenant_id s = tid /\ g_type s = t.
Proof.
  rewrite map_nil. unfold missing_signoffs. change (List.filter ?p ?l) with (where_ p l). rewrite where_nil.
  apply forall_proper. intros t. apply forall_proper. intros _. rewrite negb_false_iff, existsb_exists.
  apply exist_proper. intros s. rewrite <- list_elem_of_In, !andb_true_iff, !String.eqb_eq. tauto.
Qed.

Lemma identity_nil src tid : identity_blockers src tid = [] <->
  forall iv a b, iv ∈ s_reviews src -> a ∈ s_entities src -> b ∈ s_entities src -> iv_tenant_id iv = tid ->
    en_id a = iv_a iv -> en_id b = iv_b iv -> en_tenant_id a = tid -> en_tenant_id b = tid ->
    iv_status iv = "pending" -> fleb (flit "0.85") (iv_confidence iv) = false.
Proof.
  assert (Htake : forall (l : list pydict), take 20 l = [] <-> l = []) by (intros [|x l]; done). unfold identity_blockers. rewrite Htake. split.
  - intros H iv a b Hiv Ha Hb Ht Ea Eb Eat Ebt Hp. destruct (fleb _ _) eqn:E; [|done]. exfalso. eapply not_elem_of_nil. rewrite <- H.
    apply list_elem_of_bind. exists iv. split; [|apply elem_of_where; by rewrite Ht, Hp, E, !String.eqb_refl].
    apply list_elem_of_bind. exists a. split; [|apply elem_of_where; by rewrite Ea, Eat, !String.eqb_refl].
    apply list_elem_of_fmap. exists b. split; [done|]. apply elem_of_where. by rewrite Eb, Ebt, !String.eqb_refl.
  - intros H. destruct (_ ≫= _) as [|x l] eqn:E; [done|]. exfalso. assert (Hx : x ∈ (x :: l)) by by left. rewrite <- E in Hx. clear E.
    apply list_elem_of_bind in Hx as (iv & Hx & [Hiv Hp]%elem_of_where). apply list_elem_of_bind in Hx as (a & Hx & [Ha Hpa]%elem_of_where).
    apply list_elem_of_fmap in Hx as (b & _ & [Hb Hpb]%elem_of_where). reflect_bools. by rewrite (H iv a b) in *.
Qed.

Lemma stale_nil src tid ids : stale_blockers src tid ids = [] <->
  forall v at_ e at_e r, (v, at_) ∈ s_evaluations src -> (e, at_e) ∈ s_events src -> r ∈ s_rules src -> stale tid ids (v, at_) (e, at_e) r = false.
Proof.
  assert (Hd : stale_blockers src tid ids = [] <-> stale_details src tid ids = []).
  { unfold stale_blockers. by destruct (stale_details src tid ids). }
  rewrite Hd. unfold stale_details. split.
  - intros H v at_ e at_e r Hv He Hr. destruct (stale _ _ _ _ _) eqn:E; [|done]. exfalso. eapply not_elem_of_nil. rewrite <- H.
    apply list_elem_of_bind. exists (v, at_). split; [|done]. apply list_elem_of_bind. exists (e, at_e). split; [|done].
    apply list_elem_of_fmap. exists r. split; [done|]. by apply elem_of_where.
  - intros H. destruct (_ ≫= _) as [|x l] eqn:E; [done|]. exfalso. assert (Hx : x ∈ (x :: l)) by by left. rewrite <- E in Hx. clear E.
    apply list_elem_of_bind in Hx as ([v at_] & Hx & Hv). apply list_elem_of_bind in Hx as ([e at_e] & Hx & He).
    apply list_elem_of_fmap in Hx as (r & _ & [Hr Hs]%elem_of_where). by rewrite H in Hs.
Qed.
Lemma fresh_iff src tid c v at_ e at_e r : stale tid (_get_scope_event_ids src tid c) (v, at_) (e, at_e) r = false <->
  (event_of v ∈ _get_scope_event_ids src tid c -> er_tenant_id v = tid -> tr_event_id e = event_of v -> tr_tenant_id e = tid ->
   rr_rule_id r = er_rule_id v -> rr_rule_version r = er_rule_version v /\ (at_e <= at_)%Z).
Proof.
  unfold stale. cbn [fst snd]. rewrite <- one_of_elem, <- !String.eqb_eq. destruct (String.eqb (er_tenant_id v) tid); [|naive_solver].
  destruct (one_of _ _); [|naive_solver]. destruct (String.eqb (tr_event_id e) _); [|naive_solver]. destruct (String.eqb (tr_tenant_id e) tid); [|naive_solver].
  destruct (String.eqb (rr_rule_id r) _); [|naive_solver]. cbn. rewrite orb_false_iff, negb_false_iff, Z.eqb_eq, Z.ltb_ge. tauto.
Qed.

(** The gate is exact: the answer has no blocker if and only if the case is clean. *)
Lemma no_blockers src d t r tid cid c checked : check_blocking_defects src t r d = Ok checked -> _get_case d t r = Ok (tid, cid, c) ->
  s_identity_fault src = false -> can_submit checked = true <-> clean src d tid cid c.
Proof.
  unfold check_blocking_defects. intros H Hc Hf. rewrite Hc, Hf in H. cbn [rbind] in H. injection H as <-. unfold can_submit. cbn [df_blockers].
  match goal with |- match ?l with _ => _ end = true <-> _ => transitivity (l = []) end; [by destruct (_ ++ _)%list|].
  rewrite <- !app_assoc, !app_nil, failures_nil, exceptions_nil, unevaluated_nil, signoffs_nil, identity_nil, stale_nil. split.
  - intros (H1 & H2 & H3 & H4 & H5 & H6). split; [|by intros; eapply covered_elem, H1|done|done| |done].
    + intros e at_ He Hs. eapply evaluated_elem, H3; done.
    + intros v at_ e at_e rule Hv He Hr. by apply fresh_iff, H6.
  - intros [H3 H1 H2 H4 H6 H5]. split_and!; try done.
    + intros. by eapply covered_elem, H1.
    + intros. by eapply evaluated_elem, H3.
    + intros. apply fresh_iff. by eapply H6.
Qed.

Lemma no_defect src t r d checked tid cid c : check_blocking_defects src t r d = Ok checked -> can_submit checked = true ->
  _get_case d t r = Ok (tid, cid, c) -> df_aborted checked = false -> clean src d tid cid c.
Proof.
  intros H Hok Hc Hab. destruct (s_identity_fault src) eqn:Ef; [|by eapply no_blockers]. unfold check_blocking_defects in H. rewrite Hc, Ef in H.
  cbn [rbind] in H. destruct (_get_scope_event_ids src tid c); by try injection H as <-.
Qed.

(** Nothing is open: what the documentation asks of a case before it is submitted. *)
Record settled (src : sources) (d : desk) (tid cid : string) (c : request_case) : Prop := {
  sd_evaluated : forall e at_, (e, at_) ∈ s_events src -> in_scope tid c e = true ->
    exists v at_v, (v, at_v) ∈ s_evaluations src /\ er_tenant_id v = tid /\ event_of v = tr_event_id e;
  sd_fresh : forall v at_ e at_e r, (v, at_) ∈ s_evaluations src -> (e, at_e) ∈ s_events src -> r ∈ s_rules src ->
    event_of v ∈ _get_scope_event_ids src tid c -> er_tenant_id v = tid -> tr_event_id e = event_of v -> tr_tenant_id e = tid ->
    rr_rule_id r = er_rule_id v -> rr_rule_version r = er_rule_version v /\ (at_e <= at_)%Z;
  sd_failures : forall v at_ r, (v, at_) ∈ s_evaluations src -> er_tenant_id v = tid -> event_of v ∈ _get_scope_event_ids src tid c ->
    r ∈ s_rules src -> judged_by v r = true -> rr_severity r = "critical" -> er_result v = "fail" ->
    exists x, x ∈ q_cases (s_queue src) /\ x_tenant_id x = tid /\ closed x = true
      /\ event_of v ∈ x_linked_event_ids x /\ er_eval_id v ∈ x_linked_rule_evaluation_ids x;
  sd_exceptions : forall x, x ∈ q_cases (s_queue src) -> touches tid cid (_get_scope_event_ids src tid c) x = true ->
    x_severity x = "critical" -> closed x = true;
  sd_signoffs : forall t, t ∈ REQUIRED_SIGNOFF_TYPES -> exists s, s ∈ d_signoffs d /\ g_case_id s = cid /\ g_tenant_id s = tid /\ g_type s = t;
  sd_identity : forall iv a b, iv ∈ s_reviews src -> a ∈ s_entities src -> b ∈ s_entities src -> iv_tenant_id iv = tid ->
    en_id a = iv_a iv -> en_id b = iv_b iv -> en_tenant_id a = tid -> en_tenant_id b = tid ->
    iv_status iv = "pending" -> fleb (flit "0.85") (iv_confidence iv) = false
}.

(** An evaluation of the event by the rule, and whether it is older than the event or of another version. *)
Definition evaluates (tid : string) (e : tr_row) (r : rule_row) (v : eval_row) : Prop :=
  er_tenant_id v = tid /\ event_of v = tr_event_id e /\ er_rule_id v = rr_rule_id r.
Definition outdated (at_e : Z) (r : rule_row) (v : eval_row) (at_v : Z) : Prop :=
  (at_v < at_e)%Z \/ rr_rule_version r <> er_rule_version v.

(** The defects, one by one. *)
Inductive defect (src : sources) (d : desk) (tid cid : string) (c : request_case) : Prop :=
| unevaluated_event e at_ : (e, at_) ∈ s_events src -> in_scope tid c e = true ->
    (forall v at_v, (v, at_v) ∈ s_evaluations src -> er_tenant_id v = tid -> event_of v <> tr_event_id e) -> defect src d tid cid c
| outdated_event e at_e r v at_v : (e, at_e) ∈ s_events src -> in_scope tid c e = true -> r ∈ s_rules src ->
    (v, at_v) ∈ s_evaluations src -> evaluates tid e r v ->
    (forall v at_v, (v, at_v) ∈ s_evaluations src -> evaluates tid e r v -> outdated at_e r v at_v) -> defect src d tid cid c
| uncovered_failure v at_ r : (v, at_) ∈ s_evaluations src -> er_tenant_id v = tid -> event_of v ∈ _get_scope_event_ids src tid c ->
    r ∈ s_rules src -> judged_by v r = true -> rr_severity r = "critical" -> er_result v = "fail" ->
    (forall x, x ∈ q_cases (s_queue src) -> x_tenant_id x = tid -> event_of v ∈ x_linked_event_ids x -> closed x = false) -> defect src d tid cid c
| open_exception x : x ∈ q_cases (s_queue src) -> touches tid cid (_get_scope_event_ids src tid c) x = true ->
    x_severity x = "critical" -> closed x = false -> defect src d tid cid c
| unsigned t : t ∈ REQUIRED_SIGNOFF_TYPES ->
    (forall s, s ∈ d_signoffs d -> g_case_id s = cid -> g_tenant_id s = tid -> g_type s <> t) -> defect src d tid cid c
| likely_duplicate iv a b : iv ∈ s_reviews src -> a ∈ s_entities src -> b ∈ s_entities src -> iv_tenant_id iv = tid ->
    en_id a = iv_a iv -> en_id b = iv_b iv -> en_tenant_id a = tid -> en_tenant_id b = tid ->
    iv_status iv = "pending" -> fleb (flit "0.85") (iv_confidence iv) = true -> defect src d tid cid c.

Lemma settled_clean src d tid cid c : settled src d tid cid c -> clean src d tid cid c.
Proof.
  intros [S1 S2 S3 S4 S5 S6]. split; try done. intros v at_ r Hv Ht Hid Hr Hj Hs Hf.
  destruct (S3 v at_ r Hv Ht Hid Hr Hj Hs Hf) as (x & Hx & Hxt & Hc & Hl & _). by exists x.
Qed.

Lemma defect_unclean src d tid cid c : defect src d tid cid c -> ~ clean src d tid cid c.
Proof.
  intros H [C1 C2 C3 C4 C5 C6]. destruct H as [e at_ He Hs Hno|e at_e r v at_v He Hs Hr Hv Hev Hall|v at_ r Hv Ht Hid Hr Hj Hs Hf Hno
    |x Hx Ht Hs Ho|t Ht Hno|iv a b Hiv Ha Hb Ht Ea Eb Eat Ebt Hp Hc].
  - destruct (C1 e at_ He Hs) as (v & at_v & Hv & Ht & Hid). by apply (Hno v at_v).
  - pose proof (Hall v at_v Hv Hev) as Hout. destruct Hev as (Ht & Hid & Hrule).
    assert (Hsc : event_of v ∈ _get_scope_event_ids src tid c).
    { rewrite Hid. unfold _get_scope_event_ids, scope_rows. apply list_elem_of_fmap. exists (e, at_e). split; [done|]. by apply elem_of_where. }
    assert (Het : tr_tenant_id e = tid) by (unfold in_scope in Hs; by reflect_bools).
    destruct (C5 v at_v e at_e r Hv He Hr Hsc Ht) as [H1 H2]; try done. destruct Hout; [lia|done].
  - destruct (C2 v at_ r Hv Ht Hid Hr Hj Hs Hf) as (x & Hx & Hxt & Hl & Hcl). by rewrite (Hno x Hx Hxt Hl) in Hcl.
  - by rewrite (C3 x Hx Ht Hs) in Ho.
  - destruct (C4 t Ht) as (s & Hs & H1 & H2 & H3). by apply (Hno s).
  - by rewrite (C6 iv a b) in Hc.
Qed.

(** C20. What the gate lets through and what it blocks.  For a case of the tenant, when the identity query
    is served, the check always answers.  It lets the case pass when nothing is open ([settled]): every
    active event in scope is evaluated, no evaluation in scope is older than its event or of another
    version than its rule, each critical failure in scope has a closed exception case that links this
    evaluation and its event, each critical exception case that touches the request is closed, both
    required signoffs are there, and no likely duplicate of two of the tenant's entities is pending;
    warnings never block.  It blocks the case for each single defect: an active event in scope without
    an evaluation, or whose evaluations by a rule are all outdated; a critical failure in scope without
    any closed case on its event; an open critical exception case that touches the request; a required
    signoff that is missing; a likely duplicate pending.  Between the two the statement is silent: a
    closed case that links the event but not the failure, a fresh evaluation beside an outdated one. *)
Theorem gate_decides src d t r tid cid c : _get_case d t r = Ok (tid, cid, c) -> s_identity_fault src = false ->
  exists checked, check_blocking_defects src t r d = Ok checked /\ df_aborted checked = false
    /\ (settled src d tid cid c -> can_submit checked = true)
    /\ (defect src d tid cid c -> can_submit checked = false).
Proof.
  intros Hc Hf. destruct (check_blocking_defects src t r d) as [checked|e] eqn:E.
  - pose proof (no_blockers _ _ _ _ _ _ _ _ E Hc Hf) as Hb. exists checked. split_and!; [done| | |].
    + unfold check_blocking_defects in E. rewrite Hc, Hf in E. cbn [rbind] in E. by injection E as <-.
    + intros Hs. by apply Hb, settled_clean.
    + intros Hd%defect_unclean. destruct (can_submit checked); [|done]. by destruct Hd; apply Hb.
  - unfold check_blocking_defects in E. by rewrite Hc, Hf in E.
Qed.

(** The record of a submission that was answered. *)
Record answered (src : sources) (t r : string) (notes : option string) (force : bool) (now : Z) (d d' : desk) (s : submission)
    (tid cid : string) (c : request_case) (k : package) : Prop := {
  an_case : _get_case d t r = Ok (tid, cid, c);
  an_status : r_status c ∈ ["ready"; "submitted"; "amended"];
  an_gate : force = false -> clean src d tid cid c;
  an_package : k ∈ d_packages d /\ k_tenant_id k = tid /\ k_case_id k = cid /\ u_package_id s = k_id k /\ u_hash s = k_hash k;
  an_keys : u_case_id s = cid /\ u_tenant_id s = tid /\ u_id s ∉ (u_id <$> d_submissions d);
  an_desk : d' = update_case tid cid (with_submission notes now) (Desk (d_cases d) (d_packages d) (d_submissions d ++ [s])%list (d_signoffs d))
}.

Lemma submit_answered fault cl src t r pid by_ to method notes type force d d' s :
  submit_package fault cl src t r pid by_ to method notes type force d = (d', Ok s) ->
  exists tid cid c k, answered src t r notes force (cl_now cl 0) d d' s tid cid c k.
Proof.
  unfold submit_package. intros [H _]%attempt_ok.
  destruct (negb (one_of type _)); [done|]. destruct (negb (one_of method _)); [done|].
  apply rbind_Ok_inv in H as ([[tid cid] c] & Hc & H). apply rbind_Ok_inv in H as ([] & Hst & H).
  destruct (one_of (r_status c) _) eqn:Es; [|done]. apply one_of_elem in Es. apply rbind_Ok_inv in H as (checked & Hk & H).
  destruct (negb (can_submit checked) && negb force) eqn:Eg; [done|]. destruct (df_aborted checked) eqn:Ea; [done|].
  apply rbind_Ok_inv in H as (p & Hp & H). destruct (List.find _ (d_packages d)) as [k|] eqn:Ek; [|done].
  apply rbind_Ok_inv in H as (n & Hn & H). apply rbind_Ok_inv in H as (l & Hl & H). apply Ok_inv in H. injection H as <- <-.
  apply insert_ok in Hl as (_ & Hfresh & ->). apply find_elem in Ek as [Hin Hm]. reflect_bools.
  exists tid, cid, c, k. split; try done.
  intros ->. rewrite andb_true_r in Eg. apply negb_false_iff in Eg. by eapply no_defect.
Qed.

(** C19. Nothing is submitted past a defect.  A submission that is not forced and that was answered was of
    a case in a stage for it, and no defect blocked the case: every active event in scope has an
    evaluation, none older than its event or of another version than its rule; every critical failure
    in scope has a closed exception case on its event; every critical exception case that touches the
    request is closed; both required signoffs are there.  The log gains one row with the stored hash of
    the named package of that case, the case is marked submitted, and nothing else changes; a
    submission that raises, whatever the reason, leaves the desk as it was. *)
Theorem submission_gated fault cl src t r pid by_ to method notes type force d d' a :
  submit_package fault cl src t r pid by_ to method notes type force d = (d', a) ->
  match a with
  | Raise _ => d' = d
  | Ok s => exists tid cid c k, answered src t r notes force (cl_now cl 0) d d' s tid cid c k
  end.
Proof. intros H. destruct a as [s|e]; [by eapply submit_answered|]. by apply attempt_raise in H. Qed.

(** ** What every history of calls keeps *)

(** A call of a method, whether it returned or raised. *)
Inductive desk_step : desk -> desk -> Prop :=
| ds_create fault now id t party channel type descr hours due products lots facilities reviewer approver d :
    desk_step d (fst (create_request_case fault now id t party channel type descr hours due products lots facilities reviewer approver d))
| ds_scope fault now t r products lots facilities type descr d : desk_step d (fst (update_scope fault now t r products lots facilities type descr d))
| ds_collect fault now src t r d : desk_step d (fst (collect_records fault now src t r d))
| ds_gap fault now src t r d : desk_step d (fst (run_gap_analysis fault now src t r d))
| ds_assemble fault cl src t r by_ d : desk_step d (fst (assemble_response_package fault cl src t r by_ d))
| ds_sign fault cl t r type by_ notes d : desk_step d (fst (add_signoff fault cl t r type by_ notes d))
| ds_submit fault cl src t r pid by_ to method notes type force d :
    desk_step d (fst (submit_package fault cl src t r pid by_ to method notes type force d))
| ds_amend first second last revert cl src t r by_ d : desk_step d (fst (create_amendment first second last revert cl src t r by_ d)).

Definition of_case (tid cid : string) (k : package) : bool := String.eqb (k_case_id k) cid && String.eqb (k_tenant_id k) tid.
Definition versions (d : desk) (tid cid : string) : list Z := k_version <$> where_ (of_case tid cid) (d_packages d).

(** The hash of a package is that of the contents it stores: what a verifier gets when it strips the
    hash from the snapshot and recomputes. *)
Definition sealed (k : package) : Prop :=
  exists contents text, dict_get contents "package_hash" PNone = PStr (k_hash k) /\ compute_manifest_hash contents = Ok (k_hash k)
    /\ dict_get contents "version_number" PNone = PInt (k_version k)
    /\ json_dumps opts_sorted_str (PDict contents) = Ok text /\ jsonb text = Ok (k_contents k).

Definition has_package (d : desk) (tid cid : string) : Prop := exists k, k ∈ d_packages d /\ k_case_id k = cid /\ k_tenant_id k = tid.
Definition has_submission (d : desk) (tid cid : string) : Prop := exists u, u ∈ d_submissions d /\ u_case_id u = cid /\ u_tenant_id u = tid.
Definition stage_at (d : desk) (tid cid stage : string) : Prop :=
  stage ∈ WORKFLOW_STAGES /\ (stage = "submitted" -> has_submission d tid cid)
  /\ (stage ∈ ["assembling"; "submitted"; "amended"] -> has_package d tid cid).
Definition stage_ok (d : desk) (c : request_case) : Prop := stage_at d (r_tenant_id c) (r_id c) (r_status c).
Definition names_package (d : desk) (u : submission) : Prop :=
  exists k, k ∈ d_packages d /\ k_id k = u_package_id u /\ k_case_id k = u_case_id u /\ k_tenant_id k = u_tenant_id u /\ k_hash k = u_hash u.

Record desk_ok (d : desk) : Prop := {
  do_ids : NoDup (r_id <$> d_cases d);
  do_stages : Forall (stage_ok d) (d_cases d);
  do_package_ids : NoDup (k_id <$> d_packages d);
  do_sealed : Forall sealed (d_packages d);
  do_versions : forall tid cid, versions d tid cid = seqZ 1 (Z.of_nat (length (versions d tid cid)));
  do_submission_ids : NoDup (u_id <$> d_submissions d);
  do_submissions : Forall (names_package d) (d_submissions d);
  do_signoffs : NoDup ((fun s => (g_tenant_id s, g_case_id s, g_type s)) <$> d_signoffs d)
}.

(** What the methods do to the tables. *)
Inductive edit : desk -> desk -> Prop :=
| ed_open d c : r_status c = "intake" -> r_id c ∉ (r_id <$> d_cases d) ->
    edit d (Desk (d_cases d ++ [c])%list (d_packages d) (d_submissions d) (d_signoffs d))
| ed_update d tid cid f : (forall c, r_id (f c) = r_id c /\ r_tenant_id (f c) = r_tenant_id c) ->
    (forall c, the_case tid cid c = true -> stage_at d tid cid (r_status (f c))) -> edit d (update_case tid cid f d)
| ed_package d k : sealed k -> k_id k ∉ (k_id <$> d_packages d) -> k_version k = next_version d (k_tenant_id k) (k_case_id k) ->
    edit d (Desk (d_cases d) (d_packages d ++ [k])%list (d_submissions d) (d_signoffs d))
| ed_submit d u : names_package d u -> u_id u ∉ (u_id <$> d_submissions d) ->
    edit d (Desk (d_cases d) (d_packages d) (d_submissions d ++ [u])%list (d_signoffs d))
| ed_sign d s : existsb (same_signoff s) (d_signoffs d) = false ->
    edit d (Desk (d_cases d) (d_packages d) (d_submissions d) (d_signoffs d ++ [s])%list).

(** The tables of evidence only grow. *)
Record grown (d d' : desk) : Prop := {
  gw_packages : d_packages d `prefix_of` d_packages d';
  gw_submissions : d_submissions d `prefix_of` d_submissions d';
  gw_signoffs : d_signoffs d `prefix_of` d_signoffs d'
}.

Lemma grown_refl d : grown d d.
Proof. by split. Qed.
Lemma grown_trans d1 d2 d3 : grown d1 d2 -> grown d2 d3 -> grown d1 d3.
Proof. intros [] []. split; by etrans. Qed.

Lemma edit_grown d d' : edit d d' -> grown d d'.
Proof. intros []; split; cbn; by try apply prefix_app_r. Qed.

Lemma stage_grown d d' tid cid stage : grown d d' -> stage_at d tid cid stage -> stage_at d' tid cid stage.
Proof.
  intros [H1 H2 _] (Hs & Hsub & Hpkg). split; [done|]. split.
  - intros H. destruct (Hsub H) as (u & Hu & E). exists u. split; [|done]. by apply (elem_of_prefix _ _ _ Hu).
  - intros H. destruct (Hpkg H) as (k & Hk & E). exists k. split; [|done]. by apply (elem_of_prefix _ _ _ Hk).
Qed.
Lemma names_grown d d' u : grown d d' -> names_package d u -> names_package d' u.
Proof. intros [H1 _ _] (k & Hk & E). exists k. split; [|done]. by apply (elem_of_prefix _ _ _ Hk). Qed.

(** The versions of a case are the first numbers, so the next is one more than how many there are. *)
Lemma max_seqZ n : foldl Z.max 0%Z (seqZ 1 (Z.of_nat n)) = Z.of_nat n.
Proof.
  induction n as [|n IH]; [done|]. rewrite seqZ_S, foldl_app, IH. cbn. lia.
Qed.
Lemma versions_snoc d k d' : d_packages d' = (d_packages d ++ [k])%list -> k_version k = next_version d (k_tenant_id k) (k_case_id k) ->
  (forall tid cid, versions d tid cid = seqZ 1 (Z.of_nat (length (versions d tid cid)))) ->
  forall tid cid, versions d' tid cid = seqZ 1 (Z.of_nat (length (versions d' tid cid))).
Proof.
  intros Hd Hk H tid cid. unfold versions at 1 2. rewrite Hd, where_snoc, fmap_app, length_app.
  fold (versions d tid cid). destruct (of_case tid cid k) eqn:E; cbn; [|by rewrite app_nil_r, Nat.add_0_r].
  unfold of_case in E. reflect_bools. subst. rewrite Nat.add_1_r, seqZ_S, <- H. do 2 f_equal.
  rewrite Hk. change (next_version d ?t ?c) with (foldl Z.max 0%Z (versions d t c) + 1)%Z. rewrite H, max_seqZ, <- H. lia.
Qed.

Lemma edit_ok d d' : edit d d' -> desk_ok d -> desk_ok d'.
Proof.
  intros He. pose proof (edit_grown _ _ He) as Hg. intros [K1 K2 K3 K4 K5 K6 K7 K8].
  assert (Hst : Forall (stage_ok d') (d_cases d)) by (eapply Forall_impl; [exact K2|]; intros c; by apply stage_grown).
  assert (Hsub : Forall (names_package d') (d_submissions d)) by (eapply Forall_impl; [exact K7|]; intros u; by apply names_grown).
  destruct He as [d c Hs Hn | d tid cid f Hf Hok | d k Hse Hn Hv | d u Hu Hn | d s Hs]; split; try done; cbn [d_cases d_packages d_submissions d_signoffs update_case].
  - rewrite fmap_app. by apply NoDup_snoc.
  - apply Forall_app. split; [done|]. constructor; [|done]. unfold stage_ok, stage_at. rewrite Hs.
    split_and!; [unfold WORKFLOW_STAGES; set_solver|done|]. intros H. exfalso. set_solver.
  - rewrite (update_where_key r_id) by apply Hf. done.
  - apply Forall_update_where; [done|]. intros c Hc Hp _. unfold stage_ok. destruct (Hf c) as [-> ->].
    specialize (Hok c Hp). unfold the_case in Hp. reflect_bools. subst. by apply (stage_grown d).
  - rewrite fmap_app. by apply NoDup_snoc.
  - apply Forall_app. by split; [|constructor].
  - by eapply versions_snoc.
  - rewrite fmap_app. by apply NoDup_snoc.
  - apply Forall_app. split; [done|]. constructor; [|done]. by apply (names_grown d).
  - rewrite fmap_app. apply NoDup_snoc; [done|]. intros (x & Hx & Hin)%list_elem_of_fmap. apply not_true_iff_false in Hs. apply Hs.
    apply existsb_exists. exists x. split; [by apply list_elem_of_In|]. unfold same_signoff. injection Hx as -> -> ->. by rewrite !String.eqb_refl.
Qed.

Lemma edits_ok d d' : rtc edit d d' -> desk_ok d -> desk_ok d' /\ grown d d'.
Proof.
  induction 1 as [d|d1 d2 d3 H _ IH]; intros K; [split; [done|apply grown_refl]|].
  destruct (IH (edit_ok _ _ H K)) as [K3 G]. split; [done|]. by eapply grown_trans; [apply edit_grown|].
Qed.

(** *** The methods *)

Lemma attempt_edits {A} d (c : res (desk * A)) fault : (forall d' a, c = Ok (d', a) -> rtc edit d d') -> rtc edit d (fst (attempt d c fault)).
Proof. intros H. unfold attempt, _safe_commit. destruct c as [[d1 a]|e]; [|apply rtc_refl]. destruct fault; [apply rtc_refl|]. by eapply H. Qed.

Lemma early_stage d tid cid s : one_of s ["intake"; "scoping"; "collecting"; "gap_analysis"; "exception_triage"; "internal_review"; "ready"] = true ->
  stage_at d tid cid s.
Proof.
  intros H%one_of_elem. unfold stage_at. split_and!.
  - unfold WORKFLOW_STAGES. set_solver.
  - intros ->. exfalso. set_solver.
  - intros H'. exfalso. set_solver.
Qed.

Lemma update_edit d tid cid f : (forall c, r_id (f c) = r_id c /\ r_tenant_id (f c) = r_tenant_id c) ->
  (forall c, stage_at d tid cid (r_status (f c))) -> rtc edit d (update_case tid cid f d).
Proof. intros Hf Hs. by apply rtc_once, ed_update. Qed.

Lemma create_edits fault now id t party channel type descr hours due products lots facilities reviewer approver d :
  rtc edit d (fst (create_request_case fault now id t party channel type descr hours due products lots facilities reviewer approver d)).
Proof.
  apply attempt_edits. intros d' c H. destruct (negb _); [done|]. apply rbind_Ok_inv in H as (_ & _ & H). apply rbind_Ok_inv in H as (tid & _ & H).
  apply rbind_Ok_inv in H as (l & Hl & H). apply insert_ok in Hl as (_ & Hn & ->). injection H as <- _. by apply rtc_once, ed_open.
Qed.
Lemma scope_edits fault now t r products lots facilities type descr d : rtc edit d (fst (update_scope fault now t r products lots facilities type descr d)).
Proof.
  apply attempt_edits. intros d' c H. apply rbind_Ok_inv in H as (_ & _ & H). apply rbind_Ok_inv in H as ([[tid cid] x] & _ & H).
  apply rbind_Ok_inv in H as (_ & _ & H). destruct (match type with Some _ => _ | None => _ end); [|done]. apply rbind_Ok_inv in H as (c' & _ & H).
  injection H as <- _. apply update_edit; [done|]. intros x'. by apply early_stage.
Qed.
Lemma collect_edits fault now src t r d : rtc edit d (fst (collect_records fault now src t r d)).
Proof.
  apply attempt_edits. intros d' c H. apply rbind_Ok_inv in H as ([[tid cid] x] & _ & H). apply rbind_Ok_inv in H as (_ & _ & H).
  injection H as <- _. apply update_edit; [done|]. intros x'. by apply early_stage.
Qed.
Lemma gap_edits fault now src t r d : rtc edit d (fst (run_gap_analysis fault now src t r d)).
Proof.
  apply attempt_edits. intros d' c H. apply rbind_Ok_inv in H as ([[tid cid] x] & _ & H). apply rbind_Ok_inv in H as (_ & _ & H).
  apply rbind_Ok_inv in H as (rows & _ & H). injection H as <- _. apply update_edit; [done|]. intros x'. by apply early_stage.
Qed.

Lemma sign_edits fault cl t r type by_ notes d : rtc edit d (fst (add_signoff fault cl t r type by_ notes d)).
Proof.
  apply attempt_edits. intros d' c H. destruct (one_of type VALID_SIGNOFF_TYPES) eqn:Et; [|done]. cbn [negb] in H.
  apply rbind_Ok_inv in H as ([[tid cid] x] & _ & H). apply rbind_Ok_inv in H as (l & Hl & H). injection H as <- _.
  assert (Hs : forall d, stage_at d tid cid (default (r_status x) (assoc type status_transitions))).
  { intros d0. apply early_stage. apply one_of_elem in Et. unfold VALID_SIGNOFF_TYPES in Et.
    repeat (apply elem_of_cons in Et as [->|Et]; [reflexivity|]). by apply elem_of_nil in Et. }
  destruct (existsb _ (d_signoffs d)) eqn:Ex; [injection Hl as <-|apply insert_ok in Hl as (_ & _ & ->)].
  - replace (Desk _ _ _ _) with d by (by destruct d). by apply update_edit.
  - eapply rtc_l; [by apply ed_sign|]. by apply update_edit.
Qed.

Lemma submit_edits fault cl src t r pid by_ to method notes type force d : desk_ok d ->
  rtc edit d (fst (submit_package fault cl src t r pid by_ to method notes type force d)).
Proof.
  intros K. destruct (submit_package _ _ _ _ _ _ _ _ _ _ _ _ _) as [d' [s|e]] eqn:E; cbn [fst].
  - apply submit_answered in E as (tid & cid & c & k & [_ _ _ (Hk & Ht & Hc & Hp & Hh) (Hu1 & Hu2 & Hu3) ->]).
    eapply rtc_l; [apply ed_submit; [|done]; exists k; by rewrite Hc, Ht|].
    apply update_edit; [done|]. intros x. split_and!; cbn.
    + by apply one_of_elem.
    + intros _. exists s. split; [apply elem_of_app; right; by left|done].
    + intros _. by exists k.
  - by apply attempt_raise in E as ->.
Qed.

Lemma strip_set h contents : List.filter (fun kv => negb (String.eqb (fst kv) "package_hash")) (dict_set "package_hash" h contents)
  = List.filter (fun kv => negb (String.eqb (fst kv) "package_hash")) contents.
Proof.
  induction contents as [|[k v] l IH]; [done|]. cbn [dict_set]. destruct (String.eqb_spec "package_hash" k) as [<-|Hne]; [done|].
  cbn. destruct (String.eqb_spec k "package_hash"); [congruence|]. cbn. by rewrite IH.
Qed.
Lemma hash_set h contents : compute_manifest_hash (dict_set "package_hash" h contents) = compute_manifest_hash contents.
Proof. unfold compute_manifest_hash. by rewrite strip_set. Qed.

Lemma contents_version src d t r tid cid c version now by_ contents :
  package_contents src d t r tid cid c version now by_ = Ok contents -> dict_get contents "version_number" PNone = PInt version.
Proof. unfold package_contents. intros (rows & _ & H)%rbind_Ok_inv. by injection H as <-. Qed.

(** What an assembly that returned has stored. *)
Lemma assembled_inv cl src t r by_ d d' k : assembled cl src t r by_ d = Ok (d', k) ->
  exists tid cid c, _get_case d t r = Ok (tid, cid, c) /\ sealed k /\ k_tenant_id k = tid /\ k_case_id k = cid
    /\ k_id k ∉ (k_id <$> d_packages d) /\ k_version k = next_version d tid cid
    /\ d' = update_case tid cid (with_total "assembling" (length (scope_rows src tid c)) (cl_now cl 1))
              (Desk (d_cases d) (d_packages d ++ [k])%list (d_submissions d) (d_signoffs d)).
Proof.
  unfold assembled. intros H. apply rbind_Ok_inv in H as ([[tid cid] c] & Hc & H). apply rbind_Ok_inv in H as ([] & _ & H).
  destruct (s_identity_fault src); [done|]. apply rbind_Ok_inv in H as (contents & Hcon & H). apply rbind_Ok_inv in H as (h & Hh & H).
  apply rbind_Ok_inv in H as (text & Htext & H). apply rbind_Ok_inv in H as (diff & _ & H). apply rbind_Ok_inv in H as (col & Hcol & H).
  do 2 apply rbind_Ok_inv in H as (? & _ & H). apply rbind_Ok_inv in H as (dcol & _ & H). apply rbind_Ok_inv in H as (l & Hl & H).
  injection H as <- <-. apply insert_ok in Hl as (_ & Hn & ->). exists tid, cid, c. split_and!; try done.
  exists (dict_set "package_hash" (PStr h) contents), text. rewrite dict_get_set_eq, dict_get_set_ne, hash_set by done.
  split_and!; try done. by eapply contents_version.
Qed.

Lemma assembled_edits cl src t r by_ d d' k : assembled cl src t r by_ d = Ok (d', k) -> rtc edit d d' /\ k ∈ d_packages d'.
Proof.
  intros (tid & cid & c & _ & Hs & Ht & Hc & Hn & Hv & ->)%assembled_inv. split; [|cbn; apply elem_of_app; right; by left].
  eapply rtc_l; [apply (ed_package d k); [done|done|by rewrite Ht, Hc]|]. apply update_edit; [done|]. intros x. split_and!; cbn.
  - by apply one_of_elem.
  - done.
  - intros _. exists k. split; [apply elem_of_app; right; by left|done].
Qed.
Lemma assemble_edits fault cl src t r by_ d : rtc edit d (fst (assemble_response_package fault cl src t r by_ d)).
Proof. apply attempt_edits. by intros d' k [H _]%assembled_edits. Qed.

Lemma status_edit d tid cid stage now : stage_at d tid cid stage -> rtc edit d (update_case tid cid (with_status stage now) d).
Proof. intros H. by apply update_edit. Qed.

Lemma amend_edits first second last revert cl src t r by_ d : desk_ok d ->
  rtc edit d (fst (create_amendment first second last revert cl src t r by_ d)).
Proof.
  intros K. unfold create_amendment. destruct (_get_case d t r) as [[[tid cid] c]|e] eqn:Hc; [|apply rtc_refl].
  unfold require_status. destruct (one_of (r_status c) _) eqn:Es; [|apply rtc_refl]. apply one_of_elem in Es.
  apply get_case_inv in Hc as (_ & _ & Hin & <- & <-). pose proof (do_stages _ K) as Hst. rewrite Forall_forall in Hst.
  destruct (Hst c Hin) as (Hs & Hsub & Hpkg). specialize (Hpkg ltac:(set_solver)).
  unfold _safe_commit at 1. destruct first; [apply rtc_refl|]. set (d1 := update_case _ _ _ d).
  assert (H1 : rtc edit d d1). { apply status_edit. split_and!; [by apply one_of_elem|done|done]. }
  destruct (edits_ok _ _ H1 K) as [K1 G1]. pose proof (assemble_edits second cl src t r by_ d1) as H2.
  destruct (edits_ok _ _ H2 K1) as [K2 G2]. assert (Hat : forall stage, stage = "amended" \/ stage = r_status c ->
    stage_at (fst (assemble_response_package second cl src t r by_ d1)) (r_tenant_id c) (r_id c) stage).
  { intros stage Hstage. apply (stage_grown d); [by eapply grown_trans|]. destruct Hstage as [->| ->]; [|done].
    split_and!; [by apply one_of_elem|done|done]. }
  destruct (assemble_response_package second cl src t r by_ d1) as [d2 [k|e]] eqn:Ea; cbn [fst] in *.
  - etrans; [exact H1|]. etrans; [exact H2|]. unfold _safe_commit. destruct last; [apply rtc_refl|]. apply status_edit, Hat. by left.
  - apply attempt_raise in Ea as ->. destruct (match assembled _ _ _ _ _ d1 with Ok _ => _ | Raise _ => _ end); [done|].
    etrans; [exact H1|]. unfold _safe_commit. destruct revert; [apply rtc_refl|]. apply status_edit, Hat.
    destruct (String.eqb (r_status c) "assembling"); [by left|by right].
Qed.

Lemma step_edits d d' : desk_step d d' -> desk_ok d -> rtc edit d d'.
Proof.
  intros [] K; eauto using create_edits, scope_edits, collect_edits, gap_edits, assemble_edits, sign_edits, submit_edits, amend_edits.
Qed.

Lemma empty_desk_ok : desk_ok empty_desk.
Proof. split; by try constructor. Qed.

Lemma reached_ok d : rtc desk_step empty_desk d -> desk_ok d.
Proof.
  intros H. cut (forall d0, rtc desk_step d0 d -> desk_ok d0 -> desk_ok d); [intros Hc; by apply (Hc empty_desk), empty_desk_ok|].
  clear H. induction 1 as [|d1 d2 d3 H _ IH]; [done|]. intros K. apply IH. by eapply edits_ok; [apply step_edits|].
Qed.

(** C22. Packages stay sealed.  After any calls of the workflow, returned or raised, every stored package is
    the JSON of contents whose recomputed hash is the stored one; the versions of a case count up from
    one without a gap; every row of the submission log names a stored package of its case and carries
    its hash; a case marked submitted has such a row, and one marked assembling or amended has a package; a case has at most
    one signoff of a type; and a call only appends packages, submissions and signoffs. *)
Theorem packages_sealed d d' : rtc desk_step empty_desk d -> desk_step d d' -> desk_ok d' /\ grown d d'.
Proof. intros Hr Hs. apply reached_ok in Hr. by apply edits_ok; [apply step_edits|]. Qed.

(** ** What a package hash binds *)

Definition stripped (contents : pydict) : pydict := List.filter (fun kv => negb (String.eqb (fst kv) "package_hash")) contents.
Definition manifest_text (contents : pydict) : string :=
  match json_dumps opts_sorted_str (PDict (stripped contents)) with Ok s => s | Raise _ => "" end.
Definition same_field (contents contents' : pydict) (k : string) : Prop :=
  dict_lookup k contents ≫= jtree_of opts_sorted_str = dict_lookup k contents' ≫= jtree_of opts_sorted_str.

Lemma hash_text contents h : compute_manifest_hash contents = Ok h ->
  h = sha256_hex (manifest_text contents) /\ json_dumps opts_sorted_str (PDict (stripped contents)) = Ok (manifest_text contents).
Proof. unfold compute_manifest_hash, manifest_text. intros (s & Hs & H)%rbind_Ok_inv. unfold stripped. rewrite Hs. by injection H as <-. Qed.

Lemma contents_keys src d t r tid cid c version now by_ contents :
  package_contents src d t r tid cid c version now by_ = Ok contents -> NoDup (fst <$> contents) /\ stripped contents = contents.
Proof.
  unfold package_contents. intros (rows & _ & H)%rbind_Ok_inv. injection H as <-. split; [|done].
  apply (bool_decide_unpack _). vm_compute. reflexivity.
Qed.

Lemma tree_texts l l' : jtree_of opts_sorted_str (PList (PStr <$> l)) = jtree_of opts_sorted_str (PList (PStr <$> l')) -> l = l'.
Proof.
  assert (H : forall l, tree_list opts_sorted_str (PStr <$> l) = Some (JStr <$> l)).
  { intros k. induction k as [|x k IH]; [done|]. change (tree_list ?o (PStr <$> x :: k)) with (ys ← tree_list o (PStr <$> k); Some (JStr x :: ys)).
    by rewrite IH. }
  change (JList <$> tree_list opts_sorted_str (PStr <$> l) = JList <$> tree_list opts_sorted_str (PStr <$> l') -> l = l').
  rewrite !H. intros [= E]. revert l' E. induction l as [|x l IH]; intros [|y l'] E; try done. injection E as -> E. f_equal. by apply IH.
Qed.

Lemma key_sort_texts l : fst <$> key_sort ((fun s => (s, tt)) <$> l) ≡ₚ l.
Proof. rewrite key_sort_perm, <- list_fmap_compose. cbn. by rewrite list_fmap_id. Qed.

(** C23. The hash pins the package down.  If two snapshots have the same manifest hash and SHA-256 does not
    collide on their two texts, then every field of the one is, as JSON, that of the other: they are of
    the same request and version, cover the same events, and list the same evaluations, exception cases,
    signoffs and rule versions. *)
Theorem package_hash_binds src d t r tid cid c version now by_ contents src' d' t' r' tid' cid' c' version' now' by_' contents' h :
  package_contents src d t r tid cid c version now by_ = Ok contents ->
  package_contents src' d' t' r' tid' cid' c' version' now' by_' = Ok contents' ->
  compute_manifest_hash contents = Ok h -> compute_manifest_hash contents' = Ok h ->
  no_collision [manifest_text contents] [manifest_text contents'] ->
  (forall k, same_field contents contents' k)
  /\ t = t' /\ r = r' /\ version = version' /\ _get_scope_event_ids src tid c ≡ₚ _get_scope_event_ids src' tid' c'.
Proof.
  intros H H' Hh Hh' Hnc. apply hash_text in Hh as [-> Ht], Hh' as [Hh' Ht'].
  destruct (contents_keys _ _ _ _ _ _ _ _ _ _ _ H) as [Hk E], (contents_keys _ _ _ _ _ _ _ _ _ _ _ H') as [Hk' E']. rewrite E in Ht. rewrite E' in Ht'.
  rewrite <- (Hnc (manifest_text contents) (manifest_text contents')) in Ht' by (by left || done).
  assert (Hf : forall k, same_field contents contents' k).
  { intros k. exact (proj1 (dumps_dict_field opts_sorted_str _ _ _ k (ex_intro _ " " eq_refl) Hk Hk' Ht Ht')). }
  split; [done|]. clear Ht Ht' Hnc E E' Hk Hk'. unfold package_contents in H, H'.
  apply rbind_Ok_inv in H as (rows & _ & H), H' as (rows' & _ & H'). injection H as <-. injection H' as <-.
  pose proof (Hf "tenant_id") as [= ->]. pose proof (Hf "request_case_id") as [= ->]. pose proof (Hf "version_number") as [= Ev].
  pose proof (Hf "event_ids") as Ei. apply tree_texts in Ei. apply str_of_Z_inj in Ev as ->. split_and!; [done..|].
  rewrite <- (key_sort_texts (_get_scope_event_ids src tid c)), Ei. apply key_sort_texts.
Qed.

(** ** From a failed rule to the gate *)

Lemma highest_critical s : (highest_rank s <= highest_rank "critical")%Z -> s = "critical".
Proof.
  unfold highest_rank. destruct (String.eqb_spec s "critical"); [done|]. destruct (String.eqb s "warning"); [cbn; lia|].
  destruct (String.eqb s "info"); cbn; lia.
Qed.

Lemma queue_steps_ok q q' : queue_ok q -> rtc queue_step q q' -> queue_ok q'.
Proof. intros K H. revert K. induction H as [|q1 q2 q3 H _ IH]; [done|]. intros K. apply IH. by apply (changes_ok _ _ (step_changes _ _ H)). Qed.

(** C21. A critical failure blocks the submission until somebody signs for it.  When an evaluation with a
    critical failure has opened its cases, then after any further calls of the queue, for every request
    that has the event in scope: either the case that this failure opened (a new one, of the category of
    the failed rule, critical, that links the failed evaluation and its event) is closed and the one
    signoff on it names the decision, or every submission that is not forced raises and leaves the desk. *)
Theorem critical_failure_blocks cl t s sup fac q0 q1 q2 res f ev id src r tid cid c d :
  rtc queue_step empty_queue q0 -> create_exceptions_from_evaluation cl t s sup fac q0 = (q1, Ok res) -> rtc queue_step q1 q2 ->
  f ∈ failures_of s -> re_severity f = "critical" -> event_ids_of s = Ok [ev] -> cast_uuid ev = Ok id ->
  s_queue src = q2 -> _get_case d t r = Ok (tid, cid, c) -> id ∈ _get_scope_event_ids src tid c ->
  (exists x u sg, x ∈ q_cases q2 /\ x_case_id x ∉ (x_case_id <$> q_cases q0) /\ x_rule_category x = Some (re_category f)
     /\ cast_uuid (evaluation_id f) = Ok u /\ u ∈ x_linked_rule_evaluation_ids x /\ id ∈ x_linked_event_ids x /\ x_severity x = "critical"
     /\ closed x = true /\ signoffs_of q2 (x_case_id x) = [sg] /\ evidence x sg)
  \/ forall fault cl' pid by_ to method notes type, exists e, submit_package fault cl' src t r pid by_ to method notes type false d = (d, Raise e).
Proof.
  intros Hr He Hq Hf Hsev Hev Hid Hsrc Hc Hscope. apply served_ok in Hr.
  assert (K1 : queue_ok q1) by (eapply queue_steps_ok; [exact Hr|]; by eapply rtc_once, qs_evaluation).
  destruct (evaluation_new _ _ _ _ _ _ _ _ He) as (ids & new & ms & Hids & _ & -> & Hall).
  destruct (failure_case _ _ _ _ _ Hall Hf) as (x & Hx & Hfl & (Ht & Hcat & _ & Hl & Hev' & Hs & _)).
  assert (Hu : exists u, cast_uuid (evaluation_id f) = Ok u /\ u ∈ x_linked_rule_evaluation_ids x).
  { apply rmapM_Forall2 in Hev'. pose proof Hfl as [j Hj]%list_elem_of_lookup.
    destruct (Forall2_lookup_l _ _ _ j (evaluation_id f) Hev') as (u & Hu & Hcast); [by rewrite list_lookup_fmap, Hj|].
    exists u. split; [done|]. by eapply list_elem_of_lookup_2. }
  destruct Hu as (fid & Hu & Hul). destruct Hs as [_ Hs]; [intros E; rewrite E in Hfl; by apply not_elem_of_nil in Hfl|]. rewrite Forall_forall in Hs. specialize (Hs f Hfl).
  rewrite Hsev in Hs. apply highest_critical in Hs.
  rewrite Hids in Hev by (intros E; rewrite E in Hf; by apply not_elem_of_nil in Hf). injection Hev as ->. cbn in Hl. rewrite Hid in Hl. injection Hl as Hl.
  pose proof (get_case_inv _ _ _ _ _ _ Hc) as (_ & Ht' & _). rewrite Ht in Ht'. injection Ht' as Htid.
  assert (Hnew : x_case_id x ∉ (x_case_id <$> q_cases q0)).
  { pose proof (qo_ids _ K1) as Hnd. cbn in Hnd. rewrite fmap_app in Hnd. apply NoDup_app in Hnd as (_ & Hd & _). intros Hin. apply (Hd _ Hin).
    by apply list_elem_of_fmap_2. }
  destruct (steps_links _ _ Hq x) as (y & Hy & (Hyi & Hyt & Hys & Hyl & _ & Hyc & Hye)); [cbn; apply elem_of_app; by right|].
  destruct (closed y) eqn:Ey.
  - left. pose proof (qo_cases _ (queue_steps_ok _ _ K1 Hq)) as Hok. rewrite Forall_forall in Hok. destruct (Hok y Hy) as (_ & _ & Hsg). rewrite Ey in Hsg.
    destruct Hsg as (sg & Hsg & Hevi). exists y, fid, sg. rewrite Hyi in Hsg |- *.
    split_and!; try done; [by rewrite Hyc|by rewrite Hye|rewrite Hyl, <- Hl; by left|congruence].
  - right. intros fault cl' pid by_ to method notes type. destruct (submit_package _ _ _ _ _ _ _ _ _ _ _ _ _) as [d' [u|e]] eqn:E.
    + apply submit_answered in E as (tid' & cid' & c' & k & [Hc' _ Hg _ _ _]). rewrite Hc in Hc'. injection Hc' as <- <- <-.
      destruct (Hg eq_refl) as [_ _ Hex _ _]. exfalso. rewrite Hsrc in Hex. assert (closed y = true); [|congruence]. apply Hex; [done| |congruence].
      unfold touches. rewrite Hyt, Htid, String.eqb_refl. cbn. apply orb_true_iff. right. apply existsb_exists. exists id.
      split; [apply list_elem_of_In; rewrite Hyl, <- Hl; by left|]. by apply one_of_elem.
    + exists e. by apply attempt_raise in E as ->.
Qed.
End Spec.
