(* ===== verification/RequestDemo.v ===== *)
(** * The request workflow on an example

    One tenant, one event and its evaluations, taken through the stages of a request: the instances that
    show that the hypotheses of the theorems about the workflow can hold, and the runs on which it does
    what its documentation does not say. *)

From Stdlib Require Import ZArith Lia String Ascii.
From stdpp Require Import base list list_numbers strings relations.
From S2P Require Import Prelude PyStr Db PyFloat PyVal Json JsonText Sha256 Uom Rules Relational Engine CanonicalEvent CanonicalStore CanonicalVerify.
From S2P Require Import CanonicalDemo ExceptionQueue RequestWorkflow RequestSpec.

Local Open Scope string_scope.

#[local] Existing Instance demo_canonical_lib.
#[local] Existing Instance demo_server.
#[local] Existing Instance demo_postgres.

(** ** The tables that the workflow reads *)

Definition demo_lettuce : tr_row :=
  TrRow "ev-1" "t1" "webhook_api" None None None "receiving" 1000 "UTC" (Some "lettuce") (Some "LOT-1") "LOT-1" (f_of_Z 5) "cases" None None
    (Some "farm") (Some "store") None (PDict []) (PDict []) (PDict []) (PDict []) (f_of_Z 1) "active" None "1.0" None None None (None, None, None) None.
Definition demo_rule (id severity : string) (version : Z) : rule_row :=
  RuleRow id version ("Rule " +:+ id) None severity "kde_presence" (JObject []) (Some "21 CFR 1.1345") "2026-01-01" None (JObject []) "" None.
Definition demo_verdict (id rule : string) (version : Z) (verdict : string) : eval_row :=
  EvalRow id "t1" (PStr "ev-1") rule version verdict None "[]" (f_of_Z 1).
Definition demo_case (id severity status : string) : exception_case :=
  XCase id "t1" severity status ["ev-1"] [] None None None None (Some "kde_presence") None None None None None None 10 10 None.
Definition demo_sources (evaluations : list (eval_row * Z)) (rules : list rule_row) (cases : list exception_case) : sources :=
  Sources [(demo_lettuce, 2000%Z)] evaluations rules (Queue cases [] []) [] [] [] false.
Definition demo_passed : sources := demo_sources [(demo_verdict "v-1" "r-1" 1 "pass", 3000%Z)] [demo_rule "r-1" "critical" 1] [].

(** ** The stages of a request *)

Definition demo_calls (n : nat) : call := Call (fun k => 4000 + 100 * Z.of_nat n + Z.of_nat k)%Z (fun k => str_of_Z (Z.of_nat n) +:+ "-" +:+ str_of_Z (Z.of_nat k)).
#[local] Notation demo_opened_case :=
  (fst (create_request_case None 4000 "case-1" "t1" "FDA" "portal" "product_recall" None 24 None ["lettuce"] [] [] None None empty_desk)).
#[local] Notation demo_scoped := (fst (update_scope None 4010 "t1" "case-1" None None None (Some "tlc_trace") None demo_opened_case)).
#[local] Notation demo_collected src := (fst (collect_records None 4020 src "t1" "case-1" demo_scoped)).
#[local] Notation demo_analysed src := (fst (run_gap_analysis None 4030 src "t1" "case-1" (demo_collected src))).
#[local] Notation demo_assembled src := (fst (assemble_response_package None (demo_calls 1) src "t1" "case-1" None (demo_analysed src))).
#[local] Notation demo_approved src := (fst (add_signoff None (demo_calls 2) "t1" "case-1" "scope_approval" "ann" None (demo_assembled src))).
#[local] Notation demo_ready src := (fst (add_signoff None (demo_calls 3) "t1" "case-1" "final_approval" "bob" None (demo_approved src))).
(** The desk at that stage, computed once. *)
Definition demo_desk : desk := Eval vm_compute in demo_ready demo_passed.
Lemma demo_desk_eq : demo_ready demo_passed = demo_desk.
Proof. vm_cast_no_check (eq_refl demo_desk). Qed.
#[local] Notation demo_submit src force d :=
  (submit_package None (demo_calls 4) src "t1" "case-1" "1-0" "ann" None "portal" None "initial" force d).
Definition demo_submitted : desk := fst (demo_submit demo_passed false demo_desk).

Lemma demo_ready_reached src : rtc desk_step empty_desk (demo_ready src).
Proof.
  eapply rtc_l; [apply ds_create|]. eapply rtc_l; [apply ds_scope|]. eapply rtc_l; [apply ds_collect|]. eapply rtc_l; [apply ds_gap|].
  eapply rtc_l; [apply ds_assemble|]. eapply rtc_l; [apply ds_sign|]. apply rtc_once, ds_sign.
Qed.

Definition stage_of (d : desk) : option string := r_status <$> head (d_cases d).

(** ** Instances *)

(** The call returned; a run is computed once. *)
Definition returns {S A} (x : S * res A) : bool := is_ok (snd x).
Lemma succeeds_ok {A} (r : res A) : is_ok r = true -> exists a, r = Ok a.
Proof. destruct r as [a|e]; [by exists a|done]. Qed.
Lemma returns_ok {S A} (x : S * res A) : returns x = true -> exists s a, x = (s, Ok a).
Proof. destruct x as [s [a|e]]; [by exists s, a|done]. Qed.

Lemma demo_submits : returns (demo_submit demo_passed false demo_desk) = true.
Proof. vm_compute. reflexivity. Qed.
Definition demo_row : request_case :=
  default (RCase "" "" 0 0 None "" "" None [] [] [] "" None None None None 0 0 0 0 0) (head (d_cases demo_desk)).
Lemma demo_found : _get_case demo_desk "t1" "case-1" = Ok ("t1", "case-1", demo_row).
Proof. vm_compute. reflexivity. Qed.

Lemma submission_gated_witness : exists d' s tid cid c k, demo_submit demo_passed false demo_desk = (d', Ok s)
  /\ answered demo_passed "t1" "case-1" None false (cl_now (demo_calls 4) 0) demo_desk d' s tid cid c k.
Proof.
  destruct (returns_ok _ demo_submits) as (d' & s & E). exists d', s.
  destruct (submission_gated None (demo_calls 4) demo_passed "t1" "case-1" "1-0" "ann" None "portal" None "initial" false demo_desk d' (Ok s) E)
    as (tid & cid & c & k & H). exists tid, cid, c, k. split; [exact E|exact H].
Defined.

Lemma demo_settled : settled demo_passed demo_desk "t1" "case-1" demo_row.
Proof.
  split; cbn [demo_passed demo_sources s_evaluations s_events s_rules s_queue q_cases s_reviews s_entities].
  - intros e at_ [= -> ->]%list_elem_of_singleton _. exists (demo_verdict "v-1" "r-1" 1 "pass"), 3000%Z. split; [left|done].
  - intros v at_ e at_e r [= -> ->]%list_elem_of_singleton [= -> ->]%list_elem_of_singleton ->%list_elem_of_singleton _ _ _ _ _. done.
  - intros v at_ r [= -> ->]%list_elem_of_singleton _ _ _ _ _ H. discriminate H.
  - intros x []%not_elem_of_nil.
  - intros t Ht. assert (Hs : Forall (fun t => exists s, s ∈ d_signoffs demo_desk /\ g_case_id s = "case-1" /\ g_tenant_id s = "t1" /\ g_type s = t) REQUIRED_SIGNOFF_TYPES).
    { repeat constructor; eexists; (split; [left|done]) || (split; [right; left|done]). }
    rewrite Forall_forall in Hs. by apply Hs.
  - intros iv a b []%not_elem_of_nil.
Qed.

(** The settled case passes; with a critical exception case open on its event it does not. *)
Definition demo_held : sources := demo_sources [(demo_verdict "v-1" "r-1" 1 "pass", 3000%Z)] [demo_rule "r-1" "critical" 1] [demo_case "x-1" "critical" "open"].
Lemma gate_decides_witness :
  (exists checked, check_blocking_defects demo_passed "t1" "case-1" demo_desk = Ok checked /\ can_submit checked = true)
  /\ exists checked, check_blocking_defects demo_held "t1" "case-1" demo_desk = Ok checked /\ can_submit checked = false.
Proof.
  split.
  - destruct (gate_decides demo_passed demo_desk "t1" "case-1" "t1" "case-1" demo_row demo_found eq_refl) as (checked & H1 & _ & H3 & _).
    exists checked. split; [exact H1|]. apply H3. exact demo_settled.
  - destruct (gate_decides demo_held demo_desk "t1" "case-1" "t1" "case-1" demo_row demo_found eq_refl) as (checked & H1 & _ & _ & H4).
    exists checked. split; [exact H1|]. apply H4. apply (open_exception _ _ _ _ _ (demo_case "x-1" "critical" "open")).
    + left.
    + vm_compute. reflexivity.
    + reflexivity.
    + reflexivity.
Defined.

Lemma packages_sealed_witness : desk_ok demo_submitted.
Proof. apply (packages_sealed demo_desk demo_submitted); [rewrite <- demo_desk_eq; apply demo_ready_reached|apply ds_submit]. Defined.

(** The stage of the case is no part of the snapshot. *)
Lemma contents_any_stage src d t r tid cid stage at_ c version now by_ :
  package_contents src d t r tid cid (with_status stage at_ c) version now by_ = package_contents src d t r tid cid c version now by_.
Proof. reflexivity. Qed.
#[local] Notation demo_snapshot c := (package_contents demo_passed demo_desk "t1" "case-1" "t1" "case-1" c 1 5000 None).
Lemma demo_snapshot_hashed : is_ok (do contents <- demo_snapshot demo_row; compute_manifest_hash contents) = true.
Proof. vm_compute. reflexivity. Qed.

Lemma package_hash_binds_witness : exists contents, demo_snapshot demo_row = Ok contents
  /\ _get_scope_event_ids demo_passed "t1" demo_row ≡ₚ _get_scope_event_ids demo_passed "t1" (with_status "assembling" 9 demo_row).
Proof.
  destruct (succeeds_ok _ demo_snapshot_hashed) as (h & Hh). apply rbind_Ok_inv in Hh as (contents & E & Hh). exists contents. split; [exact E|].
  pose proof (contents_any_stage demo_passed demo_desk "t1" "case-1" "t1" "case-1" "assembling" 9 demo_row 1 5000 None) as E'. rewrite E in E'.
  apply (package_hash_binds demo_passed demo_desk "t1" "case-1" "t1" "case-1" demo_row 1 5000 None contents
           demo_passed demo_desk "t1" "case-1" "t1" "case-1" (with_status "assembling" 9 demo_row) 1 5000 None contents h E E' Hh Hh).
  intros x y Hx%list_elem_of_singleton Hy%list_elem_of_singleton _. by subst.
Defined.

(** A critical failure whose case is open. *)
#[local] Notation demo_evaluated := (create_exceptions_from_evaluation demo_call_at "t1" demo_failures None None empty_queue).
Definition demo_queue : queue := Eval vm_compute in fst demo_evaluated.
Definition demo_cases : list (option exception_case) := Eval vm_compute in match snd demo_evaluated with Ok l => l | Raise _ => [] end.
Lemma demo_evaluates : demo_evaluated = (demo_queue, Ok demo_cases).
Proof. vm_compute. reflexivity. Qed.
Definition demo_failed : sources :=
  Sources [(demo_lettuce, 2000%Z)] [(demo_verdict "e3" "r-e3" 1 "fail", 3000%Z)] [demo_rule "r-e3" "critical" 1] demo_queue [] [] [] false.
Lemma demo_open : Forall (fun x => closed x = false) (q_cases demo_queue).
Proof. repeat constructor. Qed.

Lemma critical_failure_blocks_witness : exists e, demo_submit demo_failed false demo_desk = (demo_desk, Raise e).
Proof.
  destruct (critical_failure_blocks demo_call_at "t1" demo_failures None None empty_queue demo_queue demo_queue demo_cases
    (demo_result "e3" "kde_presence" "critical" "fail") "ev-1" "ev-1" demo_failed "case-1" "t1" "case-1" demo_row demo_desk) as [(x & u & sg & Hx & _ & _ & _ & _ & _ & _ & Hc & _)|H].
  - apply rtc_refl.
  - exact demo_evaluates.
  - apply rtc_refl.
  - right. right. left.
  - reflexivity.
  - reflexivity.
  - reflexivity.
  - reflexivity.
  - exact demo_found.
  - left.
  - exfalso. pose proof demo_open as Ho. rewrite Forall_forall in Ho. rewrite (Ho x Hx) in Hc. discriminate Hc.
  - apply H.
Defined.

(** ** Where the workflow departs from its documentation *)

(** [create_amendment] is documented for submitted cases; an assembled case that was never submitted is
    amended all the same, and then counts as answered for the deadline sweep. *)
Lemma unsubmitted_case_amended : exists d k,
  create_amendment None None None None (demo_calls 5) demo_passed "t1" "case-1" None (demo_assembled demo_passed) = (d, Ok k)
  /\ stage_of d = Some "amended" /\ k_version k = 2%Z /\ d_submissions d = [].
Proof.
  assert (H : (fun r => (stage_of (fst r), d_submissions (fst r), match snd r with Ok k => Some (k_version k) | Raise _ => None end))
    (create_amendment None None None None (demo_calls 5) demo_passed "t1" "case-1" None (demo_assembled demo_passed)) = (Some "amended", [], Some 2%Z))
    by (vm_compute; reflexivity).
  destruct (create_amendment _ _ _ _ _ _ _ _ _ _) as [d [k|e]]; [|discriminate H]. injection H as H1 H2 H3. exists d, k. by split_and!.
Qed.

(** A signoff moves a case whatever its stage: a submitted one goes back before its approval. *)
Lemma signoff_reopens_submitted : exists d r,
  add_signoff None (demo_calls 6) "t1" "case-1" "package_review" "eve" None demo_submitted = (d, Ok r)
  /\ stage_of demo_submitted = Some "submitted" /\ stage_of d = Some "internal_review" /\ length (d_submissions d) = 1%nat.
Proof. eexists _, _. split; [vm_compute; reflexivity|]. by vm_compute. Qed.

(** A second signoff of a type is not stored, and its identifier is answered. *)
Lemma resignoff_not_stored : exists d id,
  add_signoff None (demo_calls 6) "t1" "case-1" "scope_approval" "eve" None demo_desk = (d, Ok (id, "exception_triage"))
  /\ id ∉ (g_id <$> d_signoffs d).
Proof. exists (fst (add_signoff None (demo_calls 6) "t1" "case-1" "scope_approval" "eve" None demo_desk)), "6-0".
  split; [vm_compute; reflexivity|]. apply (bool_decide_unpack _). vm_compute. reflexivity.
Qed.

(** A critical rule that crashed does not block; neither does one whose event has some closed case. *)
Lemma errored_rule_not_blocking :
  returns (demo_submit (demo_sources [(demo_verdict "v-1" "r-1" 1 "error", 3000%Z)] [demo_rule "r-1" "critical" 1] []) false demo_desk) = true.
Proof. vm_compute. reflexivity. Qed.
Lemma other_case_excuses_failure :
  returns (demo_submit (demo_sources [(demo_verdict "v-1" "r-1" 1 "fail", 3000%Z)] [demo_rule "r-1" "critical" 1] [demo_case "x-1" "info" "waived"]) false demo_desk) = true
  /\ returns (demo_submit (demo_sources [(demo_verdict "v-1" "r-1" 1 "fail", 3000%Z)] [demo_rule "r-1" "critical" 1] []) false demo_desk) = false.
Proof. split; vm_compute; reflexivity. Qed.

(** The rows of old evaluations stay, so evaluating anew does not lift the block of a rule that changed. *)
Lemma stale_after_evaluating_anew :
  returns (demo_submit (demo_sources [(demo_verdict "v-1" "r-1" 1 "pass", 3000%Z); (demo_verdict "v-2" "r-1" 2 "pass", 9000%Z)]
    [demo_rule "r-1" "critical" 2] []) false demo_desk) = false.
Proof. vm_compute. reflexivity. Qed.

(** The identity query is caught when it fails, but the statement after it is refused. *)
Lemma identity_fault_not_survived : check_blocking_defects
  (Sources [(demo_lettuce, 2000%Z)] [(demo_verdict "v-1" "r-1" 1 "pass", 3000%Z)] [demo_rule "r-1" "critical" 1] empty_queue [] [] [] true)
  "t1" "case-1" demo_desk = Raise InFailedSqlTransaction.
Proof. vm_compute. reflexivity. Qed.

Lemma no_exception_id x : dict_get (row_to_serializable (exception_columns x)) "exception_id" PNone = PNone.
Proof. reflexivity. Qed.

(** No row has a column [exception_id]: the exception state of every package is empty, and its waiver
    state says [None] for each waived case. *)
Lemma exception_state_blank src d t r tid cid c version now by_ contents :
  package_contents src d t r tid cid c version now by_ = Ok contents ->
  dict_get contents "exception_state" PNone = PDict []
  /\ exists l, dict_get contents "waiver_state" PNone = PList l /\ Forall (fun v => v = PStr "None") l.
Proof.
  unfold package_contents. intros (rows & _ & H)%rbind_Ok_inv. injection H as <-. cbn [dict_get dict_lookup String.eqb Ascii.eqb Bool.eqb].
  split.
  - cbv [dict_get dict_lookup String.eqb Ascii.eqb Bool.eqb default from_option id]. f_equal.
    induction (order_by _ _) as [|x l IH]; [reflexivity|]. cbn [fmap list_fmap List.filter]. exact IH.
  - eexists. split; [reflexivity|]. apply Forall_forall. intros v (x & -> & Hx)%list_elem_of_fmap.
    apply list_elem_of_In, filter_In in Hx as [Hx _]. apply list_elem_of_In, list_elem_of_fmap in Hx as (y & -> & _).
    cbn [compose]. by rewrite no_exception_id.
Qed.
